(* ===== verification/_CoqProject ===== *)
-Q . S2P
Prelude.v
Framing.v
Fifo.v
TxQueue.v
Link.v
Boards.v
Rom.v
Float.v
FloatBounds.v
Kiss.v
Md5.v
Eeprom.v
Settings.v
Modem.v
Calendar.v
EspNow.v
Airtime.v
Csma.v
Serial.v
Transport.v
Pin.v
Identity.v
Vault.v
Startup.v
Gnss.v
Controls.v
HidKeyboard.v
HidTyping.v
KeyboardLink.v
KeyboardReconnect.v
Keyboard.v
Battery.v
Driver.v
Sx126x.v
Sx126xChip.v
Sx126xLink.v
Sx126xTime.v
Sx126xSense.v
Sx127x.v
Sx127xChip.v
Sx127xConfig.v
Sx127xLink.v
Sx128x.v
Sx128xLink.v
Contacts.v
ContactsBook.v
ContactsLists.v
AppData.v
MsngrConf.v
Send.v
SendScreen.v
Ota.v
OtaUpdates.v
OtaOutcome.v
Chat.v
ChatBrowse.v
ChatLine.v
