(* ===== verification/Prelude.v ===== *)
(** * RNode firmware: a verification development

    The repository holds the firmware of the RNode family of LoRa modems
    ([src/RNode_Firmware/]), with bundled libraries ([src/lib/]), a vendored Bluetooth
    stack ([src/components/bt/]) and tools.  This library models the firmware's own
    logic: how a host's bytes become LoRa frames and back, how the medium is shared,
    what is kept in EEPROM, how the three radio chips are driven, how the clock is set, how
    the firmware is replaced, the Bluetooth keyboard, and the messenger of the on-board node.
    Everything the firmware only calls - the SPI bus and the pins, the storage chip, the
    network and Bluetooth stacks, the displays, ciphers - is a parameter or an interface.

    ** The program and the files

    A host talks to the device in KISS frames.  [serial_callback] (RNode_Firmware.ino)
    takes each byte, changes parameters, stores settings, or collects a payload into the
    packet ring.  [loop()] runs [tx_queue_handler], which waits for a free medium and
    drains the ring into [transmit]; the radio's interrupt runs [receive_callback],
    which reassembles packets that [loop()] writes back to the host.

    - Prelude: machine integers ([u8], [u16], [u32], [i8], [i16], [i32] on [Z] with the
      wrap-around written out), C array access ([zget], [zset]: an array that is written
      outside of its bounds is lost, so whoever keeps its size writes inside), length lemmas with the
      rewrite database [zlen], the case-analysis tactic [bdestr].
    - Framing: KISS constants, escaping and the unescaping automaton of
      [serial_callback] (Framing.h, Utilities.h); a reference reader [kiss_read].
    - Fifo: the ring buffers of Utilities.h, their refinement to a bounded queue.
    - TxQueue: the packet ring with its two offset rings, enqueueing by the host and
      by the on-board node, [flush_queue] and [pop_queue]; [txq_rep] relates it to a list
      of payloads.
    - Link: [transmit] over the driver interface [LoraTx] with laws [LoraTxLaws] (a frame
      opened, filled and ended is on the air, or [endPacket] says it is not) and
      [LoraTxPrompt] (a modem that never times out), and
      [receive_callback], [getPacketData], the delivery and the dequeue of [loop()].
    - Boards: product, board and model codes (Boards.h); the class [Board] of build
      switches.  Every definition that the code compiles conditionally takes a [Board].
    - Rom: the EEPROM layout (ROM.h) and the address functions.
    - Float: [float] and [double] arithmetic as [SpecFloat] of the Standard Library;
      FloatBounds: what is lost when a whole number of milliseconds passes through it.
    - Kiss: the [kiss_indicate_*] reports (Utilities.h) and the host's view of them.
    - Md5: MD5.cpp, against a reference written from RFC 1321.
    - Eeprom: the store behind the interface [Eeprom] with laws [EepromLaws];
      provisioning, the lock, the validity checks (Utilities.h).
    - Settings: every [*_conf_save] and the loading at start-up (Utilities.h,
      Bluetooth.h, Display.h, Device.h); radio auto-start is loaded only where a radio
      configuration is stored, as [validate_status] does it.
    - Modem: bit rate arithmetic, amplifier maps, parameter setters, [startRadio] and
      [stopRadio] over the driver interface [LoRaModem].
    - Calendar: civil dates, the DS3231 registers, NTP and GNSS clock setting, time
      zones (RTC.h, GNSS.h, Messenger.h, Utilities.h).
    - EspNow: the second interface, chunking over ESP-NOW frames (ESPNOW.h).
    - Airtime: [add_airtime], [update_airtime], the statistics and the lock.
    - Csma: [update_modem_status], the noise floor, [medium_free],
      [update_csma_parameters], [tx_queue_handler].
    - Serial: [serial_callback] with every command branch, over the state of the other
      components; the path from host to host.
    - Transport: the routing of the host's bytes by [serial_write], the BLE notification
      buffer, the receive rings of BLE and of the WebSocket (Utilities.h, BLESerial.h,
      WebSocketRemote.h).
    - Pin: PIN entry and its throttling (VaultUnlock.h); Identity: the identity key as
      base32 text (IdentityTransfer.h).
    - Vault: the key vault's containers, turning the protection on and off, message
      fields, export and import (Vault.h, IdentityTransfer.h), and what the node comes up
      with (URNS.h), over the interface [Platform] of ciphers, random numbers and flash
      with laws [PlatformLaws].  A rename may fail ([rename_done]), and then changes
      nothing; removing a file does not.  Every write records the flash it leaves, so a power cut
      is a choice among the recorded states.
    - Startup: [validate_status] and [device_init] (RNode_Firmware.ino, Device.h), which
      compose Eeprom, Settings and Modem.
    - Gnss: power cycling and detection of the receiver, the satellites in view (GNSS.h).
    - Controls: debouncing, the quadrature decoder, what a hold of the main button does
      and what the screen announces, taps (Input.h, Encoder.h, RNode_Firmware.ino, Menu.h).
    - Keyboard: the on-screen keyboard with its grids, gestures, code page and purposes
      (Menu.h, Messenger.h).
    - HidKeyboard: the reports of a Bluetooth keyboard, its layouts and the queue to the main
      loop; HidTyping: what the main loop gets, repetitions and the switching of
      the language included, against what is done with the keys (BLEKeyboardHost.h, Menu.h).
    - KeyboardLink: scanning, pairing and the stored keyboard, a step per callback, call from
      the menu and turn of the loop; KeyboardReconnect: when a keyboard is connected to again.
    - Ota: firmware updates (OTA.h) as actions on two partitions, with restarts and power
      cuts, over the interface [OtaPlatform]; OtaUpdates: what every sequence of actions keeps;
      OtaOutcome: what an update leads to.
    - Battery: the gauge of the boards with a resistor divider (Power.h).
    - Driver: what the three drivers share: the class [World] of SPI, pins and clock, the
      state monad [prog] of a driver's methods over its object, the file's globals and the
      world, and the program logic [wp_at] with its rules.
    - Sx126x: every method of the SX1262 driver (sx126x.cpp), prefixed [sx_], over the
      object [sx126x]; [RadioBuild] holds the radio's build switches.
    - Sx126xChip: the chip as a state machine of the transactions it is sent
      ([chip_step], [responds]), the class [Sx1262] of worlds with such a chip in them, the
      rules of its transactions, and a simulated world that satisfies it.
    - Sx126xLink: the driver as an instance of the interfaces of Link and Modem; what the
      chip holds after any sequence of calls.
    - Sx126xTime: the driver's waits over a clock ([Sx1262Clock], [TxCompletes]).
    - Sx126xSense: bandwidth codes, low data rate, sync words, signal strength, reading a
      packet back, carrier detection.
    - Sx127x: every method of the SX1276 driver (sx127x.cpp), prefixed [sx7_];
      Sx127xChip: that chip as a file of registers, [Sx1276], [Sx1276Sends] and a
      simulated chip; Sx127xConfig: the abstract configuration its setters share
      registers for; Sx127xLink: the driver as an instance of the interfaces of Link and
      Modem.
    - Sx128x: every method of the SX1280 driver (sx128x.cpp), prefixed [sx8_]; Sx128xLink:
      the chip [Sx1280] and its frames, the driver as an instance of the interface of
      Link, the search for a preamble length, the power table.

    The messenger (Messenger.h, Menu.h; bundled MessageStore.cpp where it keeps names and
    the order of messages):
    - Contacts: the tables of bookmarks, presets and heard peers with their files;
      ContactsBook: the bookmarks against an abstract book, with the file between two
      starts; ContactsLists: presets against a list of at most so many texts, what a heard
      announcement changes.  The JSON library is the interface [Json] with laws [JsonLaws].
    - AppData: the reader of the name in an announcement, and what a peer is called.
    - MsngrConf: the messenger's settings, their cells and the router's parameters.
    - Send: sending a message, from [messenger_send_lxmf] over polls and callbacks to the
      outcome, as a step function and a relation [move] that bounds what a step may change;
      the router is the interface [Lxmf].
    - SendScreen: the result screen, the chat's watcher, the ping, the synchronisation.
    - Chat: the conversation the store keeps, the window of it on the screen, the keys;
      ChatBrowse: the browsing keys against positions in the whole conversation;
      ChatLine: the editing keys against a text with a cursor.

    State is explicit: each component has a Record with the source's variables, and each
    function is a Definition that takes and returns it, in the order of the source's
    assignments.  Calls into parts that are not modelled are recorded in a log of
    [event]s (Eeprom.v) or are functions the definitions take.

    ** What the theorems show

    - The data path: [kiss_roundtrip], [fifo_refines_queue], [txq_refines_packet_queue],
      [transmit_fragments], [link_roundtrip] for the layers, and
      [host_payloads_arrive] for their composition: up to eight payloads of 1 to 507
      bytes sent by one host arrive, in order and unaltered, at the host of the receiver.
    - No write outside the buffers of the host interface: [serial_buffers_bounded], for
      every byte sequence (for the arrays it names).
    - Medium access: [csma_safe] (nothing is sent unless the medium has been free since a
      look at least the DIFS time ago, except where the 32-bit clock wraps in that time),
      [csma_sends] (a free medium gets the queue sent, or its oldest payload on a limited
      link; before 2^31 ms of uptime), [airtime_window] (each bin holds what was charged in
      its period, up to the rounding of the charges; until the clock first wraps),
      [csma_window_typed].
    - Termination: [flush_terminates].
    - Start-up: [startup_gate] (the hardware is released exactly when every check
      passes), [tnc_restart] (a configured device restarts its radio by itself).
    - Settings: [locked_block_is_immutable], [provisioned_block_validates],
      [reboot_restores_settings] (radio auto-start only with a stored radio
      configuration), [conf_roundtrip], [savers_write_their_cells].
    - The key vault: [enable_keeps_identity] (where renames do not fail) and
      [import_atomic] at every power cut,
      [vault_on_off], [identity_moves] from one device to another, [message_field_roundtrip],
      [entered_pin_valid], [guessing_throttled], [identity_key_roundtrip].
    - The radio: [radio_starts_configured], [rates_sound] over the 448 settings of bandwidth,
      spreading factor and coding rate, [txpower_exact], [txpower_reaches_driver].
    - The SX1262: [sx_transmits] (over any chip, what [transmit] puts on the air is the
      fragments of the payload, or those up to a time-out that is reported),
      [sx_mirrors_chip] (the object never disagrees with the chip), [sx_radio_comes_up]
      ([startRadio] leaves the chip as it was configured), [packet_read_back],
      [endPacket_completes], [bandwidth_rounds_up], [sync_word_encoding],
      [carrier_detected_exactly].
    - The SX1276: [sx7_configures] (setters that share registers implement a configuration
      in which they do not disturb each other), [sx7_radio_comes_up], [sx7_transmits]
      (without an error branch: [endPacket7_returns] over a chip that completes what it
      sends), [begin7_outcome], [frequency_rounds7], [freq_error_signed].
    - The SX1280: [sx8_transmits], [endPacket8_returns], [preamble_shortest],
      [power_without_variant].
    - Reports, hash, clock: [reports_readable], [md5_streaming], [calendar_gregorian],
      [rtc_keeps_time]; ESP-NOW: [espnow_reassembles], [espnow_host_receives]; other
      transports: [ble_notifications_are_frames], [receive_rings_keep].
    - The device in the hand: [receiver_power_follows_state] with [search_and_sleep_bounded]
      and [round_is_committed]; [debounce_exact], [encoder_counts], [hold_box_is_release],
      [vault_owns_controls], [taps_conserved]; [keyboard_bounded], [codepage_roundtrip],
      [grid_sound], [failed_send_keeps_text]; [gauge_in_bounds], [steady_settles],
      [full_is_not_falling].
    - Updates: [updates_keep_firmware] (whatever happens, power cuts included, the device
      boots an image that verifies), [upload_outcome], [install_outcome] (what runs after a whole
      update, and when it does not), [held_switches_once].
    - The Bluetooth keyboard: [keys_act_once] (the reports, in whatever slots the keys are,
      give each press its character in order, and the last key that stays down its
      repetitions, in the layout the language shortcut leaves), [text_typed], [seen_keyboard_connects].
    - The messenger: [contacts_refine_map] (the bookmarks are a map from addresses, which
      survives a restart), [presets_refine_list], [heard_peers_kept] (of the heard peers the
      one heard longest ago gives way), [app_data_is_messagepack] (the reader takes exactly
      the announcements MessagePack allows and reads nothing behind their end),
      [peer_name_stable], [messenger_settings_survive], [send_outcome_true] (the outcome
      shown is that of the message being sent, and the history grows by confirmed messages
      alone), [send_concludes], [ping_concludes],
      [chat_browses_conversation], [compose_line_edits], [new_message_shown].
    - Behaviour at the edges, each with a theorem that states what the code does there:
      [empty_frame_wedges_pop], [mtu_payload_desynchronises],
      [failed_malloc_joins_packets], [dequeue_clobbers_reassembly],
      [stale_escape_corrupts], [contention_skipped], [enable_cut_swaps_identity],
      [disable_cut_locks_out], [identity_key_not_strict], [battery_service_disables_bluetooth],
      [gnss_clock_jumps_back], [txpower_ratchets], [espnow_lost_tail_joins],
      [syncword_report], [airtime_limit_echo], [airtime_skipped_bin], [phy_report_lags],
      [rak3401_product_rejected], [esp32_map_separate], [stale_fix_ends_search],
      [batched_round_loses_sentences], [fast_turn_loses_steps], [overdue_tap_is_lost],
      [unlock_swallows_next_click], [last_letter_lost], [resaved_name_changes],
      [chord_passes_the_cap], [long_chord_switches_back], [gauge_starts_empty],
      [endPacket_fails_at_wrap], [stale_preamble_stamp], [packet_rssi_overloads], [ldro_exact],
      [endPacket7_hangs], [interrupt_is_packet8], [t3s3_table_unshifted],
      [contact_takes_slot_mode], [nameless_peer_inherits], [long_name_loses_letter],
      [nul_name_wears_flash], [resolving_cuts_message], [stamp_cost_throws],
      [watcher_steals_outcome], [empty_home_opens_stale], [recovery_loses_hash], [cut_then_stuck],
      [aborted_upload_blocks], [lost_after_close], [rollover_types_again],
      [layout_out_of_step], [paired_keyboard_stays_away], [refused_once_gives_up],
      [airtime_wrap], [difs_skipped_at_wrap], [auto_start_forgotten], [enable_ignores_rename].

    ** Fuel

    Loops that are not structural take fuel: [flush_loop] (the ring's capacity;
    [flush_terminates]), [espnow_send_loop] (the payload's length plus one; the sending
    lemmas of EspNow prove the result for it), [body] of Md5 (the number of blocks),
    [decode_fuel] of Keyboard (the length of the text; [codepage_roundtrip]).  In Sx126x,
    [tx_poll] turns 20001 times, and each turn takes a millisecond of a deadline 20000 ms
    away ([endPacket_verdict]); the busy wait ends after 100 ms or [busy_reads] readings of
    the pin, a field of [World] with no bound on it, since a reading takes no fixed time.
    The theorems over [Sx1262] hold for every such number; [preInit] makes the source's 21
    turns.  In Sx127x and Sx128x, [preInit]'s turns last 100 ms of a half second, so six are
    enough; the wait for the end of a transmission has turns of no fixed length, and its
    fuel is the number of readings the chip needs ([polls], [polls8]): more changes nothing
    ([endPacket7_returns], [endPacket8_returns]).  [find_m] and [find_e] take the 16 steps a
    nibble allows ([find_m_spec], [find_e_spec]).  [setup] of Ota restarts at most once more
    ([setup_started]); [drain_keys] has the queue's 16 places.  [perform_loop] follows the list
    of what its calls give, and a list that ends in no result is a download that stalls.

    ** Not modelled

    The console dump of the radio's registers; the frequency of the SPI bus and the granularity of its transfers; displays and
    menus apart from the keyboard and the chat (image data, drawing calls, lists and the
    staging of radio settings), the Bluetooth, WiFi and Ethernet glue (connection callbacks,
    the web pages, the search for a newer firmware, the parsing of an advertisement), the on-board
    Reticulum node apart from its identity and its messenger (calls into the bundled
    libraries); of the messenger, voice messages, the cache of the peer list, the router's
    own work on a message, the files of the messages and their limit over all conversations;
    the re-encryption of stored messages when the vault is switched, audio,
    power management chips and sensors, LEDs and melodies, the pin and peripheral set-up of
    [setup()].  The ciphers of the vault are an interface; that a wrong PIN is refused is
    a property of theirs and is not claimed.  A power cut falls between two writes to the
    flash, not inside one.  Interrupts are taken at the granularity of whole callbacks:
    the hand-over through the FreeRTOS queue is a list, and a callback does not interleave
    with another function's body.  Bundled and vendored code is outside the library. *)
From stdpp Require Export base list list_numbers numbers tactics.
From Stdlib Require Export ZArith Lia.
From coqutil Require Export Datatypes.RecordSetters.
Export TriangleBracketNotations.
#[global] Open Scope Z_scope.
#[global] Open Scope record_set.
#[global] Arguments constant {E} newValue _ /.
#[global] Arguments apply_update {R E} u _ /.

(** ** Machine integers *)

Declare Scope c_scope.
Delimit Scope c_scope with C.

(** Truncation to an unsigned [w]-bit integer, as a C conversion does it. *)
Definition wrap (w : Z) (x : Z) : Z := x mod 2 ^ w.
Abbreviation u8 := (wrap 8).
Abbreviation u16 := (wrap 16).
Abbreviation u32 := (wrap 32).

(** Two's-complement reading of the low [w] bits. *)
Definition swrap (w : Z) (x : Z) : Z := (x + 2 ^ (w - 1)) mod 2 ^ w - 2 ^ (w - 1).
Abbreviation i8 := (swrap 8).
Abbreviation i16 := (swrap 16).
Abbreviation i32 := (swrap 32).

(** A value that fits an unsigned 8-bit cell. *)
Definition is_u8 (x : Z) : Prop := 0 <= x < 256.
Definition is_u8b (x : Z) : bool := (0 <=? x) && (x <? 256).
Abbreviation bytes := (Forall is_u8).

#[export] Instance is_u8_dec x : Decision (is_u8 x).
Proof. unfold is_u8. apply _. Defined.

Lemma wrap_range w x : 0 <= w -> 0 <= wrap w x < 2 ^ w.
Proof. intros. apply Z.mod_pos_bound. lia. Qed.

Lemma wrap_small w x : 0 <= x < 2 ^ w -> wrap w x = x.
Proof. apply Z.mod_small. Qed.

Lemma u8_range x : 0 <= u8 x < 256.
Proof. apply (wrap_range 8); lia. Qed.
Lemma u16_range x : 0 <= u16 x < 65536.
Proof. apply (wrap_range 16); lia. Qed.
Lemma u32_range x : 0 <= u32 x < 4294967296.
Proof. apply (wrap_range 32); lia. Qed.

Lemma u8_is_u8 x : is_u8 (u8 x).
Proof. apply u8_range. Qed.
Lemma u8_id x : is_u8 x -> u8 x = x.
Proof. intros; apply wrap_small; unfold is_u8 in *; lia. Qed.
Lemma u16_id x : 0 <= x < 65536 -> u16 x = x.
Proof. intros; apply wrap_small; lia. Qed.
Lemma u32_id x : 0 <= x < 4294967296 -> u32 x = x.
Proof. intros; apply wrap_small; lia. Qed.

Lemma swrap_id w x : 0 < w -> - 2 ^ (w - 1) <= x < 2 ^ (w - 1) -> swrap w x = x.
Proof.
  intros Hw Hx. unfold swrap. replace w with (Z.succ (w - 1)) at 2 by lia. rewrite Z.pow_succ_r by lia.
  rewrite Z.mod_small; lia.
Qed.
Lemma i8_id x : -128 <= x < 128 -> i8 x = x.
Proof. intros. apply swrap_id; lia. Qed.

Lemma wrap_wrap w x : 0 <= w -> wrap w (wrap w x) = wrap w x.
Proof. intros; apply wrap_small, wrap_range; lia. Qed.

(** ** Big-endian fields, as the firmware serialises them *)

(** [x>>24, x>>16, x>>8, x], each truncated to a byte. *)
Definition be32 (x : Z) : list Z :=
  [u8 (Z.shiftr x 24); u8 (Z.shiftr x 16); u8 (Z.shiftr x 8); u8 x].
Definition be16 (x : Z) : list Z := [u8 (Z.shiftr x 8); u8 x].

(** [b0 << 24 | b1 << 16 | b2 << 8 | b3]. *)
Definition of_be32 (b0 b1 b2 b3 : Z) : Z :=
  Z.lor (Z.lor (Z.lor (Z.shiftl b0 24) (Z.shiftl b1 16)) (Z.shiftl b2 8)) b3.
Definition of_be16 (b0 b1 : Z) : Z := Z.lor (Z.shiftl b0 8) b1.

Lemma be32_bytes x : bytes (be32 x).
Proof. unfold be32. repeat constructor; apply u8_range. Qed.
Lemma be16_bytes x : bytes (be16 x).
Proof. unfold be16. repeat constructor; apply u8_range. Qed.

(** [a << n | b] is a sum when [b] fits in [n] bits. *)
Lemma shiftl_lor_add a b n : 0 <= n -> 0 <= b < 2 ^ n -> Z.lor (Z.shiftl a n) b = a * 2 ^ n + b.
Proof.
  intros Hn Hb. rewrite Z.shiftl_mul_pow2 by lia.
  rewrite <- (Z.mod_small b (2 ^ n)) at 1 by lia.
  rewrite <- Z.land_ones by lia.
  rewrite <- Z.lxor_lor; [rewrite <- Z.add_nocarry_lxor|].
  - rewrite Z.land_ones, Z.mod_small by lia. reflexivity.
  - apply Z.bits_inj'. intros k Hk. rewrite Z.bits_0, !Z.land_spec.
    destruct (Z.ltb_spec k n).
    + rewrite Z.mul_pow2_bits_low by lia. reflexivity.
    + rewrite Z.ones_spec_high by lia. rewrite !andb_false_r. reflexivity.
  - apply Z.bits_inj'. intros k Hk. rewrite Z.bits_0, !Z.land_spec.
    destruct (Z.ltb_spec k n).
    + rewrite Z.mul_pow2_bits_low by lia. reflexivity.
    + rewrite Z.ones_spec_high by lia. rewrite !andb_false_r. reflexivity.
Qed.

Lemma of_be16_val b0 b1 : is_u8 b1 -> of_be16 b0 b1 = b0 * 256 + b1.
Proof. intros H. unfold of_be16. rewrite shiftl_lor_add; [reflexivity|lia|exact H]. Qed.

Lemma of_be32_val b0 b1 b2 b3 :
  is_u8 b1 -> is_u8 b2 -> is_u8 b3 ->
  of_be32 b0 b1 b2 b3 = b0 * 16777216 + b1 * 65536 + b2 * 256 + b3.
Proof.
  unfold is_u8, of_be32. intros H1 H2 H3.
  assert (E1 : Z.lor (Z.shiftl b0 24) (Z.shiftl b1 16) = Z.shiftl (b0 * 256 + b1) 16).
  { change 256 with (2 ^ 8). rewrite <- (shiftl_lor_add b0 b1 8) by lia.
    rewrite Z.shiftl_lor, Z.shiftl_shiftl by lia. reflexivity. }
  assert (E2 : Z.lor (Z.shiftl (b0 * 256 + b1) 16) (Z.shiftl b2 8)
               = Z.shiftl ((b0 * 256 + b1) * 256 + b2) 8).
  { pose proof (shiftl_lor_add (b0 * 256 + b1) b2 8 ltac:(lia) ltac:(lia)) as E.
    change (2 ^ 8) with 256 in E. rewrite <- E.
    rewrite Z.shiftl_lor, Z.shiftl_shiftl by lia. reflexivity. }
  rewrite E1, E2, shiftl_lor_add by lia. lia.
Qed.

Lemma u8_shiftr x n : 0 <= n -> u8 (Z.shiftr x n) = x / 2 ^ n mod 256.
Proof. intros. unfold wrap. now rewrite Z.shiftr_div_pow2 by lia. Qed.

(** Reading back a big-endian field gives the value modulo its width. *)
Lemma of_be32_be32 x :
  of_be32 (u8 (Z.shiftr x 24)) (u8 (Z.shiftr x 16)) (u8 (Z.shiftr x 8)) (u8 x) = u32 x.
Proof.
  rewrite of_be32_val by apply u8_is_u8.
  rewrite !u8_shiftr by lia. unfold wrap.
  change (2 ^ 24) with 16777216. change (2 ^ 16) with 65536. change (2 ^ 8) with 256.
  change (2 ^ 32) with 4294967296.
  Z.div_mod_to_equations. lia.
Qed.

Lemma of_be16_be16 x : of_be16 (u8 (Z.shiftr x 8)) (u8 x) = u16 x.
Proof.
  rewrite of_be16_val by apply u8_is_u8. rewrite u8_shiftr by lia. unfold wrap.
  change (2 ^ 8) with 256. change (2 ^ 16) with 65536.
  Z.div_mod_to_equations. lia.
Qed.

(** ** Lists indexed by [Z], as C arrays are *)

(** Array read; the default is only reached outside the array. *)
Definition zget {A} (d : A) (l : list A) (i : Z) : A := default d (l !! Z.to_nat i).
Definition zlen {A} (l : list A) : Z := Z.of_nat (length l).
(** Array write.  There is no memory behind an array here: a write outside it loses the
    array, so that a theorem on what an array holds, or on its length, shows that the code
    stays inside. *)
Definition zset {A} (l : list A) (i : Z) (x : A) : list A :=
  if (0 <=? i) && (i <? zlen l) then <[Z.to_nat i := x]> l else [].

Lemma zset_in {A} (l : list A) i x : 0 <= i < zlen l -> zset l i x = <[Z.to_nat i := x]> l.
Proof. intros Hi. unfold zset. now rewrite (proj2 (Z.leb_le 0 i)), (proj2 (Z.ltb_lt i (zlen l))) by lia. Qed.
Lemma zset_out {A} (l : list A) i x : ~ 0 <= i < zlen l -> zset l i x = [].
Proof. intros Hi. unfold zset. destruct (Z.leb_spec 0 i), (Z.ltb_spec i (zlen l)); try reflexivity. lia. Qed.
Lemma zlen_zset {A} (l : list A) i x : 0 <= i < zlen l -> zlen (zset l i x) = zlen l.
Proof. intros Hi. rewrite zset_in by exact Hi. unfold zlen. now rewrite length_insert. Qed.
Lemma length_zset {A} (l : list A) i x : 0 <= i < zlen l -> length (zset l i x) = length l.
Proof. intros Hi. rewrite zset_in by exact Hi. apply length_insert. Qed.
Lemma zget_zset_eq {A} (d : A) l i x : 0 <= i < zlen l -> zget d (zset l i x) i = x.
Proof. intros Hi. rewrite zset_in by exact Hi. unfold zlen, zget in *. rewrite list_lookup_insert_eq by lia. reflexivity. Qed.
Lemma zget_zset_ne {A} (d : A) l i j x :
  0 <= i < zlen l -> 0 <= j -> i <> j -> zget d (zset l i x) j = zget d l j.
Proof. intros Hi Hj Hn. rewrite zset_in by exact Hi. unfold zget. rewrite list_lookup_insert_ne by lia. reflexivity. Qed.
Lemma zlen_app {A} (l k : list A) : zlen (l ++ k) = zlen l + zlen k.
Proof. unfold zlen. rewrite length_app. lia. Qed.
Lemma zlen_nonneg {A} (l : list A) : 0 <= zlen l.
Proof. unfold zlen. lia. Qed.
Lemma zlen_cons {A} (x : A) l : zlen (x :: l) = 1 + zlen l.
Proof. unfold zlen. cbn [length]. lia. Qed.
Lemma zlen_nil {A} : zlen (@nil A) = 0.
Proof. reflexivity. Qed.

Lemma map_seq_shift {A} (f : nat -> A) a n :
  map f (seq a n) = map (fun i => f (a + i)%nat) (seq 0 n).
Proof.
  revert a. induction n as [|n IH]; intros a; [reflexivity|].
  cbn [seq map]. rewrite Nat.add_0_r. f_equal. rewrite (IH (S a)), <- seq_shift, map_map.
  apply map_ext. intros. f_equal. lia.
Qed.

(** A decidable property of bytes holds if it holds on each of the 256. *)
Definition all_u8 : list Z := map Z.of_nat (seq 0 256).
Lemma u8_forallb (P : Z -> bool) : forallb P all_u8 = true -> forall x, is_u8 x -> P x = true.
Proof.
  intros H x Hx. rewrite forallb_forall in H. apply H.
  unfold all_u8. apply in_map_iff. exists (Z.to_nat x). unfold is_u8 in Hx.
  split; [lia|]. apply in_seq. lia.
Qed.

Create HintDb rnode.
#[export] Hint Resolve u8_is_u8 u8_range be32_bytes be16_bytes zlen_nonneg : rnode.
Create Rewrite HintDb zlen.
#[export] Hint Rewrite @zlen_app @zlen_cons @zlen_nil : zlen.
#[export] Hint Rewrite @zlen_zset using lia : zlen.

(** Case analysis on the boolean comparison tests of the translated code. *)
Ltac bdestruct_one :=
  match goal with
  | |- context [?a =? ?b] => destruct (Z.eqb_spec a b)
  | |- context [?a <? ?b] => destruct (Z.ltb_spec a b)
  | |- context [?a <=? ?b] => destruct (Z.leb_spec a b)
  | H : context [?a =? ?b] |- _ => destruct (Z.eqb_spec a b)
  | H : context [?a <? ?b] |- _ => destruct (Z.ltb_spec a b)
  | H : context [?a <=? ?b] |- _ => destruct (Z.leb_spec a b)
  end.
Ltac bdestr := repeat (bdestruct_one; cbn [andb orb negb] in *); try lia.
