(* ===== verification/Framing.v ===== *)
(** * KISS framing (Framing.h, the escape code of Utilities.h and of
    RNode_Firmware.ino)

    The frame delimiters and command bytes of Framing.h under their own names;
    the byte escaping the firmware applies to outgoing fields
    ([escaped_serial_write]); the unescaping automaton that [serial_callback]
    repeats in every multi-byte command; and, as the contract both sides rely
    on, a reference KISS reader [kiss_read] against which the frames are
    proved. *)
From S2P Require Import Prelude.

(** ** Constants *)
(* @src Framing.h:19-19 FEND *)
Definition FEND : Z := 0xC0.
(* @src Framing.h:20-20 FESC *)
Definition FESC : Z := 0xDB.
(* @src Framing.h:21-21 TFEND *)
Definition TFEND : Z := 0xDC.
(* @src Framing.h:22-22 TFESC *)
Definition TFESC : Z := 0xDD.
(* @src Framing.h:24-24 CMD_UNKNOWN *)
Definition CMD_UNKNOWN : Z := 0xFE.
(* @src Framing.h:25-25 CMD_DATA *)
Definition CMD_DATA : Z := 0x00.
(* @src Framing.h:26-26 CMD_FREQUENCY *)
Definition CMD_FREQUENCY : Z := 0x01.
(* @src Framing.h:27-27 CMD_BANDWIDTH *)
Definition CMD_BANDWIDTH : Z := 0x02.
(* @src Framing.h:28-28 CMD_TXPOWER *)
Definition CMD_TXPOWER : Z := 0x03.
(* @src Framing.h:29-29 CMD_SF *)
Definition CMD_SF : Z := 0x04.
(* @src Framing.h:30-30 CMD_CR *)
Definition CMD_CR : Z := 0x05.
(* @src Framing.h:31-31 CMD_RADIO_STATE *)
Definition CMD_RADIO_STATE : Z := 0x06.
(* @src Framing.h:32-32 CMD_RADIO_LOCK *)
Definition CMD_RADIO_LOCK : Z := 0x07.
(* @src Framing.h:33-33 CMD_DETECT *)
Definition CMD_DETECT : Z := 0x08.
(* @src Framing.h:34-34 CMD_IMPLICIT *)
Definition CMD_IMPLICIT : Z := 0x09.
(* @src Framing.h:35-35 CMD_LEAVE *)
Definition CMD_LEAVE : Z := 0x0A.
(* @src Framing.h:36-36 CMD_ST_ALOCK *)
Definition CMD_ST_ALOCK : Z := 0x0B.
(* @src Framing.h:37-37 CMD_LT_ALOCK *)
Definition CMD_LT_ALOCK : Z := 0x0C.
(* @src Framing.h:38-38 CMD_SYNC_WORD *)
Definition CMD_SYNC_WORD : Z := 0x0D.
(* @src Framing.h:39-39 CMD_PROMISC *)
Definition CMD_PROMISC : Z := 0x0E.
(* @src Framing.h:40-40 CMD_READY *)
Definition CMD_READY : Z := 0x0F.
(* @src Framing.h:42-42 CMD_SEL_INT *)
Definition CMD_SEL_INT : Z := 0x1F.
(* @src Framing.h:44-44 CMD_STAT_RX *)
Definition CMD_STAT_RX : Z := 0x21.
(* @src Framing.h:45-45 CMD_STAT_TX *)
Definition CMD_STAT_TX : Z := 0x22.
(* @src Framing.h:46-46 CMD_STAT_RSSI *)
Definition CMD_STAT_RSSI : Z := 0x23.
(* @src Framing.h:47-47 CMD_STAT_SNR *)
Definition CMD_STAT_SNR : Z := 0x24.
(* @src Framing.h:48-48 CMD_STAT_CHTM *)
Definition CMD_STAT_CHTM : Z := 0x25.
(* @src Framing.h:49-49 CMD_STAT_PHYPRM *)
Definition CMD_STAT_PHYPRM : Z := 0x26.
(* @src Framing.h:50-50 CMD_STAT_BAT *)
Definition CMD_STAT_BAT : Z := 0x27.
(* @src Framing.h:51-51 CMD_STAT_CSMA *)
Definition CMD_STAT_CSMA : Z := 0x28.
(* @src Framing.h:52-52 CMD_STAT_TEMP *)
Definition CMD_STAT_TEMP : Z := 0x29.
(* @src Framing.h:53-53 CMD_BLINK *)
Definition CMD_BLINK : Z := 0x30.
(* @src Framing.h:54-54 CMD_RANDOM *)
Definition CMD_RANDOM : Z := 0x40.
(* @src Framing.h:56-56 CMD_FB_EXT *)
Definition CMD_FB_EXT : Z := 0x41.
(* @src Framing.h:57-57 CMD_FB_READ *)
Definition CMD_FB_READ : Z := 0x42.
(* @src Framing.h:58-58 CMD_FB_WRITE *)
Definition CMD_FB_WRITE : Z := 0x43.
(* @src Framing.h:59-59 CMD_FB_READL *)
Definition CMD_FB_READL : Z := 0x44.
(* @src Framing.h:60-60 CMD_DISP_READ *)
Definition CMD_DISP_READ : Z := 0x66.
(* @src Framing.h:61-61 CMD_DISP_INT *)
Definition CMD_DISP_INT : Z := 0x45.
(* @src Framing.h:62-62 CMD_DISP_ADDR *)
Definition CMD_DISP_ADDR : Z := 0x63.
(* @src Framing.h:63-63 CMD_DISP_BLNK *)
Definition CMD_DISP_BLNK : Z := 0x64.
(* @src Framing.h:64-64 CMD_DISP_ROT *)
Definition CMD_DISP_ROT : Z := 0x67.
(* @src Framing.h:65-65 CMD_DISP_RCND *)
Definition CMD_DISP_RCND : Z := 0x68.
(* @src Framing.h:66-66 CMD_NP_INT *)
Definition CMD_NP_INT : Z := 0x65.
(* @src Framing.h:67-67 CMD_BT_CTRL *)
Definition CMD_BT_CTRL : Z := 0x46.
(* @src Framing.h:68-68 CMD_BT_UNPAIR *)
Definition CMD_BT_UNPAIR : Z := 0x70.
(* @src Framing.h:69-69 CMD_INTERFACES *)
Definition CMD_INTERFACES : Z := 0x71.
(* @src Framing.h:70-70 CMD_BT_PIN *)
Definition CMD_BT_PIN : Z := 0x62.
(* @src Framing.h:71-71 CMD_DIS_IA *)
Definition CMD_DIS_IA : Z := 0x69.
(* @src Framing.h:72-72 CMD_WIFI_MODE *)
Definition CMD_WIFI_MODE : Z := 0x6A.
(* @src Framing.h:73-73 CMD_WIFI_SSID *)
Definition CMD_WIFI_SSID : Z := 0x6B.
(* @src Framing.h:74-74 CMD_WIFI_PSK *)
Definition CMD_WIFI_PSK : Z := 0x6C.
(* @src Framing.h:75-75 CMD_WIFI_CHN *)
Definition CMD_WIFI_CHN : Z := 0x6E.
(* @src Framing.h:81-81 CMD_ESPNOW_ENABLE *)
Definition CMD_ESPNOW_ENABLE : Z := 0x74.
(* @src Framing.h:85-85 CMD_WS_ENABLE *)
Definition CMD_WS_ENABLE : Z := 0x75.
(* @src Framing.h:91-91 CMD_SENSOR *)
Definition CMD_SENSOR : Z := 0x76.
(* @src Framing.h:92-92 CMD_WIFI_IP *)
Definition CMD_WIFI_IP : Z := 0x84.
(* @src Framing.h:93-93 CMD_WIFI_NM *)
Definition CMD_WIFI_NM : Z := 0x85.
(* @src Framing.h:102-102 CMD_SND *)
Definition CMD_SND : Z := 0x91.
(* @src Framing.h:103-103 CMD_VSENSE_DIV *)
Definition CMD_VSENSE_DIV : Z := 0x92.
(* @src Framing.h:117-117 CMD_IDENTITY_EXPORT *)
Definition CMD_IDENTITY_EXPORT : Z := 0x93.
(* @src Framing.h:118-118 CMD_IDENTITY_IMPORT *)
Definition CMD_IDENTITY_IMPORT : Z := 0x94.
(* @src Framing.h:123-123 CMD_ETH_IP *)
Definition CMD_ETH_IP : Z := 0x88.
(* @src Framing.h:124-124 CMD_ETH_NM *)
Definition CMD_ETH_NM : Z := 0x89.
(* @src Framing.h:130-130 CMD_ETH_SPEED *)
Definition CMD_ETH_SPEED : Z := 0x8A.
(* @src Framing.h:131-131 CMD_NTP_SYNC *)
Definition CMD_NTP_SYNC : Z := 0x8B.
(* @src Framing.h:132-132 CMD_WIFI_GW *)
Definition CMD_WIFI_GW : Z := 0x8C.
(* @src Framing.h:133-133 CMD_WIFI_DNS *)
Definition CMD_WIFI_DNS : Z := 0x8D.
(* @src Framing.h:134-134 CMD_ETH_GW *)
Definition CMD_ETH_GW : Z := 0x8E.
(* @src Framing.h:135-135 CMD_ETH_DNS *)
Definition CMD_ETH_DNS : Z := 0x8F.
(* @src Framing.h:137-137 CMD_BOARD *)
Definition CMD_BOARD : Z := 0x47.
(* @src Framing.h:138-138 CMD_PLATFORM *)
Definition CMD_PLATFORM : Z := 0x48.
(* @src Framing.h:139-139 CMD_MCU *)
Definition CMD_MCU : Z := 0x49.
(* @src Framing.h:140-140 CMD_FW_VERSION *)
Definition CMD_FW_VERSION : Z := 0x50.
(* @src Framing.h:141-141 CMD_CFG_READ *)
Definition CMD_CFG_READ : Z := 0x6D.
(* @src Framing.h:142-142 CMD_ROM_READ *)
Definition CMD_ROM_READ : Z := 0x51.
(* @src Framing.h:143-143 CMD_ROM_WRITE *)
Definition CMD_ROM_WRITE : Z := 0x52.
(* @src Framing.h:144-144 CMD_CONF_SAVE *)
Definition CMD_CONF_SAVE : Z := 0x53.
(* @src Framing.h:145-145 CMD_CONF_DELETE *)
Definition CMD_CONF_DELETE : Z := 0x54.
(* @src Framing.h:146-146 CMD_DEV_HASH *)
Definition CMD_DEV_HASH : Z := 0x56.
(* @src Framing.h:147-147 CMD_DEV_SIG *)
Definition CMD_DEV_SIG : Z := 0x57.
(* @src Framing.h:148-148 CMD_FW_HASH *)
Definition CMD_FW_HASH : Z := 0x58.
(* @src Framing.h:149-149 CMD_HASHES *)
Definition CMD_HASHES : Z := 0x60.
(* @src Framing.h:150-150 CMD_FW_UPD *)
Definition CMD_FW_UPD : Z := 0x61.
(* @src Framing.h:151-151 CMD_UNLOCK_ROM *)
Definition CMD_UNLOCK_ROM : Z := 0x59.
(* @src Framing.h:152-152 ROM_UNLOCK_BYTE *)
Definition ROM_UNLOCK_BYTE : Z := 0xF8.
(* @src Framing.h:153-153 CMD_RESET *)
Definition CMD_RESET : Z := 0x55.
(* @src Framing.h:154-154 CMD_RESET_BYTE *)
Definition CMD_RESET_BYTE : Z := 0xF8.
(* @src Framing.h:156-156 CMD_LOG *)
Definition CMD_LOG : Z := 0x80.
(* @src Framing.h:157-157 CMD_TIME *)
Definition CMD_TIME : Z := 0x81.
(* @src Framing.h:158-158 CMD_MUX_CHAIN *)
Definition CMD_MUX_CHAIN : Z := 0x82.
(* @src Framing.h:159-159 CMD_MUX_DSCVR *)
Definition CMD_MUX_DSCVR : Z := 0x83.
(* @src Framing.h:161-161 DETECT_REQ *)
Definition DETECT_REQ : Z := 0x73.
(* @src Framing.h:162-162 DETECT_RESP *)
Definition DETECT_RESP : Z := 0x46.
(* @src Framing.h:168-168 KISS_SX127X *)
Definition KISS_SX127X : Z := 0x00.
(* @src Framing.h:169-169 KISS_SX1276 *)
Definition KISS_SX1276 : Z := 0x01.
(* @src Framing.h:170-170 KISS_SX1278 *)
Definition KISS_SX1278 : Z := 0x02.
(* @src Framing.h:171-171 KISS_SX126X *)
Definition KISS_SX126X : Z := 0x10.
(* @src Framing.h:172-172 KISS_SX1262 *)
Definition KISS_SX1262 : Z := 0x11.
(* @src Framing.h:173-173 KISS_SX128X *)
Definition KISS_SX128X : Z := 0x20.
(* @src Framing.h:174-174 KISS_SX1280 *)
Definition KISS_SX1280 : Z := 0x21.
(* @src Framing.h:176-176 RADIO_STATE_OFF *)
Definition RADIO_STATE_OFF : Z := 0x00.
(* @src Framing.h:177-177 RADIO_STATE_ON *)
Definition RADIO_STATE_ON : Z := 0x01.
(* @src Framing.h:179-179 NIBBLE_SEQ *)
Definition NIBBLE_SEQ : Z := 0xF0.
(* @src Framing.h:180-180 NIBBLE_FLAGS *)
Definition NIBBLE_FLAGS : Z := 0x0F.
(* @src Framing.h:181-181 FLAG_SPLIT *)
Definition FLAG_SPLIT : Z := 0x01.
(* @src Framing.h:182-182 SEQ_UNSET *)
Definition SEQ_UNSET : Z := 0xFF.
(* @src Framing.h:184-184 CMD_ERROR *)
Definition CMD_ERROR : Z := 0x90.
(* @src Framing.h:193-193 CMD_PROVISION_REQ *)
Definition CMD_PROVISION_REQ : Z := 0x86.
(* @src Framing.h:194-194 CMD_PROVISION_RSP *)
Definition CMD_PROVISION_RSP : Z := 0x87.
(* @src Framing.h:195-195 ERROR_INITRADIO *)
Definition ERROR_INITRADIO : Z := 0x01.
(* @src Framing.h:196-196 ERROR_TXFAILED *)
Definition ERROR_TXFAILED : Z := 0x02.
(* @src Framing.h:197-197 ERROR_EEPROM_LOCKED *)
Definition ERROR_EEPROM_LOCKED : Z := 0x03.
(* @src Framing.h:198-198 ERROR_QUEUE_FULL *)
Definition ERROR_QUEUE_FULL : Z := 0x04.
(* @src Framing.h:199-199 ERROR_MEMORY_LOW *)
Definition ERROR_MEMORY_LOW : Z := 0x05.
(* @src Framing.h:200-200 ERROR_MODEM_TIMEOUT *)
Definition ERROR_MODEM_TIMEOUT : Z := 0x06.
(** ** Escaping *)

(** The bytes [escaped_serial_write(byte)] hands to [serial_write]: the two
    tests run one after the other on the same variable. *)
(* @src Utilities.h:1833-1837 escaped_serial_write *)
Definition escaped_serial_write (byte : Z) : list Z :=
  let '(o1, byte) := if byte =? FEND then ([FESC], TFEND) else ([], byte) in
  let '(o2, byte) := if byte =? FESC then ([FESC], TFESC) else ([], byte) in
  o1 ++ o2 ++ [byte].

(** A run of [escaped_serial_write] calls. *)
Definition escaped (bs : list Z) : list Z := concat (map escaped_serial_write bs).

(** The receiving automaton of [serial_callback], the same eight lines in
    every branch that buffers a payload: [FESC] arms [ESCAPE]; any other byte
    is translated when [ESCAPE] is armed and then consumed. [None]: the byte
    is swallowed. *)
(* @src RNode_Firmware.ino:1987-1994 serial_callback *)
Definition unescape_step (ESCAPE : bool) (sbyte : Z) : bool * option Z :=
  if sbyte =? FESC then (true, None)
  else if ESCAPE then
    let sbyte := if sbyte =? TFEND then FEND else sbyte in
    let sbyte := if sbyte =? TFESC then FESC else sbyte in
    (false, Some sbyte)
  else (ESCAPE, Some sbyte).

Fixpoint unescape (ESCAPE : bool) (bs : list Z) : bool * list Z :=
  match bs with
  | [] => (ESCAPE, [])
  | b :: bs =>
      let '(e, o) := unescape_step ESCAPE b in
      let '(e', r) := unescape e bs in
      (e', match o with Some x => x :: r | None => r end)
  end.

(** ** The reference reader

    A KISS reader as the host runs it: FEND closes the open frame, if it has a
    command byte, and opens the next one. *)
Record reader := mk_reader { rd_cmd : Z; rd_esc : bool; rd_data : list Z }.
Definition reader0 : reader := mk_reader CMD_UNKNOWN false [].

Definition read_step (r : reader) (b : Z) : reader * list (Z * list Z) :=
  if b =? FEND then
    (reader0, if rd_cmd r =? CMD_UNKNOWN then [] else [(rd_cmd r, rd_data r)])
  else if rd_cmd r =? CMD_UNKNOWN then (mk_reader b false [], [])
  else
    let '(e, o) := unescape_step (rd_esc r) b in
    (mk_reader (rd_cmd r) e (rd_data r ++ option_list o), []).

Fixpoint kiss_read (r : reader) (bs : list Z) : reader * list (Z * list Z) :=
  match bs with
  | [] => (r, [])
  | b :: bs =>
      let '(r, f) := read_step r b in
      let '(r, fs) := kiss_read r bs in (r, f ++ fs)
  end.

(** A frame whose payload is escaped, and one whose payload is written raw. *)
Definition frame (cmd : Z) (payload : list Z) : list Z :=
  [FEND; cmd] ++ escaped payload ++ [FEND].
Definition raw_frame (cmd : Z) (payload : list Z) : list Z :=
  [FEND; cmd] ++ payload ++ [FEND].

(** A command byte a frame can carry, and a payload that needs no escaping. *)
Definition cmd_ok (c : Z) : Prop := c <> FEND /\ c <> CMD_UNKNOWN.
Definition plain (b : Z) : Prop := b <> FEND /\ b <> FESC.
#[export] Instance cmd_ok_dec c : Decision (cmd_ok c).
Proof. unfold cmd_ok. apply _. Defined.
#[export] Instance plain_dec c : Decision (plain c).
Proof. unfold plain. apply _. Defined.

(** ** Lemmas *)

Lemma escaped_nil : escaped [] = [].
Proof. reflexivity. Qed.
Lemma escaped_cons b bs : escaped (b :: bs) = escaped_serial_write b ++ escaped bs.
Proof. reflexivity. Qed.
Lemma escaped_app a b : escaped (a ++ b) = escaped a ++ escaped b.
Proof. unfold escaped. now rewrite map_app, concat_app. Qed.

Lemma escaped_serial_write_spec b :
  escaped_serial_write b =
    if b =? FEND then [FESC; TFEND] else if b =? FESC then [FESC; TFESC] else [b].
Proof.
  unfold escaped_serial_write.
  destruct (Z.eqb_spec b FEND); [reflexivity|].
  destruct (Z.eqb_spec b FESC); reflexivity.
Qed.

Lemma escaped_plain bs : Forall plain bs -> escaped bs = bs.
Proof.
  induction 1 as [|b bs [H1 H2] _ IH]; [reflexivity|].
  rewrite escaped_cons, IH, escaped_serial_write_spec.
  apply Z.eqb_neq in H1, H2. now rewrite H1, H2.
Qed.

(** No escaped output contains the frame delimiter. *)
Lemma escaped_no_fend bs : Forall (fun b => b <> FEND) (escaped bs).
Proof.
  induction bs as [|b bs IH]; [constructor|].
  rewrite escaped_cons. apply Forall_app. split; [|exact IH].
  rewrite escaped_serial_write_spec.
  destruct (Z.eqb_spec b FEND); [repeat constructor; discriminate|].
  destruct (Z.eqb_spec b FESC); repeat constructor; try discriminate. assumption.
Qed.

Lemma unescape_app e a b :
  unescape e (a ++ b) =
    let '(e1, r1) := unescape e a in
    let '(e2, r2) := unescape e1 b in (e2, r1 ++ r2).
Proof.
  revert e. induction a as [|x a IH]; intros e; cbn [app unescape].
  - now destruct (unescape e b).
  - destruct (unescape_step e x) as [e0 o]. rewrite IH.
    destruct (unescape e0 a) as [e1 r1]. destruct (unescape e1 b) as [e2 r2].
    now destruct o.
Qed.

Lemma unescape_escaped_write b : unescape false (escaped_serial_write b) = (false, [b]).
Proof.
  rewrite escaped_serial_write_spec.
  destruct (Z.eqb_spec b FEND); [subst; reflexivity|].
  destruct (Z.eqb_spec b FESC) as [|Hn]; [subst; reflexivity|].
  cbn [unescape unescape_step]. apply Z.eqb_neq in Hn.
  unfold unescape_step. now rewrite Hn.
Qed.

Lemma unescape_escaped bs : unescape false (escaped bs) = (false, bs).
Proof.
  induction bs as [|b bs IH]; [reflexivity|].
  now rewrite escaped_cons, unescape_app, unescape_escaped_write, IH.
Qed.

Lemma kiss_read_app r a b :
  kiss_read r (a ++ b) =
    let '(r1, f1) := kiss_read r a in
    let '(r2, f2) := kiss_read r1 b in (r2, f1 ++ f2).
Proof.
  revert r. induction a as [|x a IH]; intros r; cbn [app kiss_read].
  - now destruct (kiss_read r b).
  - destruct (read_step r x) as [r0 f0]. rewrite IH.
    destruct (kiss_read r0 a) as [r1 f1]. destruct (kiss_read r1 b) as [r2 f2].
    now rewrite app_assoc.
Qed.

(** Inside a frame, the reader accumulates the unescaped payload. *)
Lemma kiss_read_payload c e d bs :
  c <> CMD_UNKNOWN -> Forall (fun b => b <> FEND) bs ->
  kiss_read (mk_reader c e d) bs =
    (let '(e', r) := unescape e bs in mk_reader c e' (d ++ r), []).
Proof.
  intros Hc Hbs. revert e d.
  induction Hbs as [|b bs Hb _ IH]; intros e d; cbn [kiss_read unescape].
  - now rewrite app_nil_r.
  - unfold read_step; cbn [rd_cmd rd_esc rd_data].
    apply Z.eqb_neq in Hb, Hc. rewrite Hb, Hc.
    destruct (unescape_step e b) as [e1 o]. rewrite IH.
    destruct (unescape e1 bs) as [e2 r]. rewrite <- app_assoc. now destruct o.
Qed.

Lemma kiss_read_open r c :
  cmd_ok c -> rd_cmd r = CMD_UNKNOWN ->
  kiss_read r [FEND; c] = (mk_reader c false [], []).
Proof.
  intros [H1 H2] Hr. cbn [kiss_read]. unfold read_step at 1.
  rewrite Hr. rewrite !Z.eqb_refl. unfold read_step.
  apply Z.eqb_neq in H1. rewrite H1. reflexivity.
Qed.

(** Any framed byte sequence without an inner delimiter comes out as one frame. *)
Lemma kiss_read_raw r c bs :
  cmd_ok c -> rd_cmd r = CMD_UNKNOWN -> Forall (fun b => b <> FEND) bs ->
  kiss_read r (raw_frame c bs) = (reader0, [(c, snd (unescape false bs))]).
Proof.
  intros Hc Hr Hbs. unfold raw_frame.
  rewrite kiss_read_app, kiss_read_open by assumption.
  rewrite kiss_read_app, kiss_read_payload by (try apply Hc; assumption).
  destruct (unescape false bs) as [e' d]. cbn [app].
  cbn [kiss_read]. unfold read_step; cbn [rd_cmd rd_data].
  destruct Hc as [_ Hc]. apply Z.eqb_neq in Hc. now rewrite Z.eqb_refl, Hc.
Qed.

Lemma kiss_read_frame r c bs :
  cmd_ok c -> rd_cmd r = CMD_UNKNOWN ->
  kiss_read r (frame c bs) = (reader0, [(c, bs)]).
Proof.
  intros Hc Hr. change (frame c bs) with (raw_frame c (escaped bs)).
  rewrite kiss_read_raw, unescape_escaped by (auto using escaped_no_fend).
  reflexivity.
Qed.

Lemma raw_frame_plain c bs : Forall plain bs -> raw_frame c bs = frame c bs.
Proof. intros. unfold frame. now rewrite escaped_plain. Qed.

(** A well-formed transmission: a concatenation of frames. *)
Definition frames (fs : list (Z * list Z)) : list Z :=
  concat (map (fun f => frame (fst f) (snd f)) fs).

Lemma kiss_roundtrip_gen fs r :
  rd_cmd r = CMD_UNKNOWN -> Forall (fun f => cmd_ok (fst f)) fs ->
  kiss_read r (frames fs) = (if fs is [] then r else reader0, fs).
Proof.
  intros Hr Hfs. revert r Hr. induction Hfs as [|[c bs] fs Hc Hfs IH]; intros r Hr; [reflexivity|].
  unfold frames. cbn [map concat fst snd].
  rewrite kiss_read_app, kiss_read_frame by assumption.
  change (concat _) with (frames fs). rewrite IH by reflexivity. now destruct fs.
Qed.

(** C2. KISS round trip: a reader that starts between frames and receives any
    sequence of frames, each written with a legal command byte and its payload
    passed through [escaped_serial_write], recovers exactly those commands and
    payloads, in order, whatever bytes the payloads hold, and is between frames
    again at the end. *)
(* @prop roundtrip W=kiss_roundtrip_witness D=escaped_serial_write,unescape_step,FEND,FESC,TFEND,TFESC *)
Theorem kiss_roundtrip (fs : list (Z * list Z)) (r : reader) :
  rd_cmd r = CMD_UNKNOWN -> Forall (fun f => cmd_ok (fst f)) fs ->
  kiss_read r (frames fs) = (if fs is [] then r else reader0, fs).
Proof. apply kiss_roundtrip_gen. Qed.

Lemma kiss_roundtrip_witness :
  kiss_read reader0 (frames [(CMD_DATA, [1; FEND; FESC; TFEND]); (CMD_SF, [7])])
  = (reader0, [(CMD_DATA, [1; FEND; FESC; TFEND]); (CMD_SF, [7])]).
Proof.
  apply (kiss_roundtrip [(CMD_DATA, [1; FEND; FESC; TFEND]); (CMD_SF, [7])] reader0);
    [reflexivity | repeat constructor; discriminate].
Defined.
