(* ===== verification/Fifo.v ===== *)
(** * The ring buffers of Utilities.h ([FIFOBuffer], [FIFOBuffer16])

    The two C structs differ only in the element type, so they are one
    definition over a type [A].  Pointers are offsets from the buffer's first
    cell; [f_end = f_begin + size] is itself a valid cell, because the buffers
    are declared with one element more than the size they are initialised with
    ([serialBuffer[CONFIG_UART_BUFFER_SIZE+1]] etc., RNode_Firmware.ino).

    The abstract specification is a bounded queue: [fifo_rep f q] says that
    the ring [f] holds the elements [q], oldest first, and every operation is
    proved against it. *)
From S2P Require Import Prelude.

Section Fifo.
  Context {A : Type} `{Inhabited A}.

(* @src Utilities.h:3459-3465 FIFOBuffer *)
Record fifo := mk_fifo {
  f_begin : Z;
  f_end : Z;
  f_head : Z;
  f_tail : Z;
  f_buf : list A   (* the cells the pointers point into *)
}.

(* @src Utilities.h:3467-3469 fifo_isempty *)
Definition fifo_isempty (f : fifo) : bool := f_head f =? f_tail f.

(* @src Utilities.h:3471-3473 fifo_isfull *)
Definition fifo_isfull (f : fifo) : bool :=
  ((f_head f =? f_begin f) && (f_tail f =? f_end f)) || (f_tail f =? f_head f - 1).

(* @src Utilities.h:3475-3483 fifo_push *)
Definition fifo_push (f : fifo) (c : A) : fifo :=
  let f := f <| f_buf := zset (f_buf f) (f_tail f) c |> in
  if f_tail f =? f_end f then f <| f_tail := f_begin f |>
  else f <| f_tail := f_tail f + 1 |>.

(* @src Utilities.h:3485-3494 fifo_pop *)
Definition fifo_pop (f : fifo) : A * fifo :=
  if f_head f =? f_end f then
    (zget inhabitant (f_buf f) (f_end f), f <| f_head := f_begin f |>)
  else
    let p := f_head f in
    (zget inhabitant (f_buf f) p, f <| f_head := f_head f + 1 |>).

(* @src Utilities.h:3496-3498 fifo_flush *)
Definition fifo_flush (f : fifo) : fifo := f <| f_head := f_tail f |>.

(* @src Utilities.h:3534-3539 fifo_init *)
Definition fifo_init (buffer : list A) (size : Z) : fifo :=
  mk_fifo 0 (0 + size) 0 0 buffer.

(* @src Utilities.h:3541-3543 fifo_len *)
Definition fifo_len (f : fifo) : Z := f_end f - f_begin f.

(** ** Abstraction *)

Definition fifo_size (f : fifo) : Z := f_end f + 1.

(** The number of elements between head and tail, around the ring. *)
Definition fifo_count (f : fifo) : Z := (f_tail f - f_head f) mod fifo_size f.

Definition fifo_contents (f : fifo) : list A :=
  map (fun i => zget inhabitant (f_buf f) ((f_head f + Z.of_nat i) mod fifo_size f))
      (seq 0 (Z.to_nat (fifo_count f))).

Record fifo_wf (f : fifo) : Prop := {
  wf_begin : f_begin f = 0;
  wf_end : 0 < f_end f;
  wf_head : 0 <= f_head f <= f_end f;
  wf_tail : 0 <= f_tail f <= f_end f;
  wf_buf : zlen (f_buf f) = fifo_size f
}.

Definition fifo_rep (f : fifo) (q : list A) : Prop := fifo_wf f /\ fifo_contents f = q.

(** The pointer successor of the ring: wrap to the first cell after [f_end]. *)
Lemma ring_succ (p e : Z) :
  0 <= p <= e -> (if p =? e then 0 else p + 1) = (p + 1) mod (e + 1).
Proof.
  intros. destruct (Z.eqb_spec p e) as [->|].
  - now rewrite Z.mod_same by lia.
  - now rewrite Z.mod_small by lia.
Qed.

Lemma fifo_count_range f : fifo_wf f -> 0 <= fifo_count f <= f_end f.
Proof.
  intros [_ He _ _ _]. unfold fifo_count, fifo_size.
  pose proof (Z.mod_pos_bound (f_tail f - f_head f) (f_end f + 1)). lia.
Qed.

Lemma fifo_contents_length f : fifo_wf f -> zlen (fifo_contents f) = fifo_count f.
Proof.
  intros Hw. unfold zlen, fifo_contents. rewrite length_map, length_seq.
  pose proof (fifo_count_range f Hw). lia.
Qed.

(** Off the wrap-around the count is a plain difference. *)
Lemma fifo_count_cases f :
  fifo_wf f ->
  fifo_count f = if f_head f <=? f_tail f then f_tail f - f_head f
                 else f_tail f - f_head f + (f_end f + 1).
Proof.
  intros [_ He Hh Ht _]. unfold fifo_count, fifo_size. bdestr.
  - now rewrite Z.mod_small by lia.
  - rewrite <- (Z.mod_add _ 1) by lia. rewrite Z.mod_small; lia.
Qed.

Lemma fifo_isempty_spec f : fifo_wf f -> fifo_isempty f = (fifo_count f =? 0).
Proof.
  intros Hw. rewrite (fifo_count_cases f Hw). destruct Hw.
  unfold fifo_isempty. bdestr.
Qed.

Lemma fifo_isfull_spec f : fifo_wf f -> fifo_isfull f = (fifo_count f =? fifo_len f).
Proof.
  intros Hw. rewrite (fifo_count_cases f Hw). destruct Hw.
  unfold fifo_isfull, fifo_len. bdestr.
Qed.

Lemma fifo_push_wf f c : fifo_wf f -> fifo_wf (fifo_push f c).
Proof.
  destruct f as [b e h t buf]. intros []. unfold fifo_push, fifo_size in *. cbn in *.
  destruct (Z.eqb_spec t e); constructor; unfold fifo_size; cbn; rewrite ?zlen_zset; lia.
Qed.

Lemma fifo_pop_wf f : fifo_wf f -> fifo_wf (snd (fifo_pop f)).
Proof.
  destruct f as [b e h t buf]. intros []. unfold fifo_pop, fifo_size in *. cbn in *.
  destruct (Z.eqb_spec h e); constructor; unfold fifo_size; cbn; lia.
Qed.

Lemma fifo_push_fields f c :
  fifo_wf f ->
  f_head (fifo_push f c) = f_head f /\ f_end (fifo_push f c) = f_end f /\
  f_tail (fifo_push f c) = (f_tail f + 1) mod fifo_size f /\
  f_buf (fifo_push f c) = zset (f_buf f) (f_tail f) c.
Proof.
  destruct f as [b e h t buf]. intros []. unfold fifo_size. rewrite <- ring_succ by assumption.
  unfold fifo_push. cbn in *. destruct (_ =? _); cbn; auto.
Qed.

Lemma fifo_push_count f c :
  fifo_wf f -> fifo_count (fifo_push f c) = (fifo_count f + 1) mod fifo_size f.
Proof.
  intros Hw. destruct (fifo_push_fields f c Hw) as (Eh & Ee & Et & _).
  unfold fifo_count, fifo_size. rewrite Eh, Ee, Et. unfold fifo_size.
  rewrite Zminus_mod_idemp_l, Z.add_mod_idemp_l by (destruct Hw; lia).
  f_equal. lia.
Qed.

(** ** Refinement *)

Lemma fifo_rep_init (buffer : list A) size :
  0 < size -> zlen buffer = size + 1 -> fifo_rep (fifo_init buffer size) [].
Proof.
  intros Hs Hb. split; [constructor; cbn; lia || (unfold fifo_size; cbn; lia)|].
  unfold fifo_contents, fifo_count. cbn. reflexivity.
Qed.

Lemma fifo_rep_length f q : fifo_rep f q -> 0 <= zlen q <= fifo_len f.
Proof.
  intros [Hw <-]. rewrite fifo_contents_length by assumption.
  pose proof (fifo_count_range f Hw). unfold fifo_len. destruct Hw. lia.
Qed.

Lemma fifo_rep_isempty f q : fifo_rep f q -> fifo_isempty f = (zlen q =? 0).
Proof.
  intros [Hw <-]. now rewrite fifo_isempty_spec, fifo_contents_length by assumption.
Qed.

Lemma fifo_rep_isfull f q : fifo_rep f q -> fifo_isfull f = (zlen q =? fifo_len f).
Proof.
  intros [Hw <-]. now rewrite fifo_isfull_spec, fifo_contents_length by assumption.
Qed.

Lemma fifo_rep_push f q c :
  fifo_rep f q -> fifo_isfull f = false -> fifo_rep (fifo_push f c) (q ++ [c]).
Proof.
  intros [Hw <-] Hf. split; [now apply fifo_push_wf|].
  rewrite fifo_isfull_spec in Hf by assumption. apply Z.eqb_neq in Hf.
  pose proof (fifo_count_range f Hw) as Hr.
  assert (Hlt : fifo_count f < f_end f) by (destruct Hw; unfold fifo_len in Hf; lia).
  unfold fifo_contents at 1. rewrite fifo_push_count by assumption.
  destruct (fifo_push_fields f c Hw) as (Eh & Ee & _ & Eb).
  unfold fifo_size. rewrite Eh, Ee, Eb. fold (fifo_size f).
  rewrite Z.mod_small by (unfold fifo_size; lia).
  replace (Z.to_nat (fifo_count f + 1)) with (Z.to_nat (fifo_count f) + 1)%nat by lia.
  rewrite seq_app, map_app. f_equal.
  - apply map_ext_in. intros i Hi%in_seq.
    apply zget_zset_ne; try (destruct Hw; unfold fifo_size in *; lia).
    + apply Z.mod_pos_bound. unfold fifo_size. lia.
    + intros E. revert Hi. unfold fifo_count. rewrite E.
      rewrite Zminus_mod_idemp_l. replace (f_head f + Z.of_nat i - f_head f) with (Z.of_nat i) by lia.
      intros Hi. destruct (Z_lt_ge_dec (Z.of_nat i) (fifo_size f)).
      * rewrite Z.mod_small in Hi; lia.
      * unfold fifo_size in *. pose proof (Z.mod_pos_bound (Z.of_nat i) (f_end f + 1)). lia.
  - cbn. f_equal. unfold zget at 1.
    replace ((f_head f + Z.of_nat (Z.to_nat (fifo_count f))) mod fifo_size f) with (f_tail f).
    + apply (zget_zset_eq inhabitant). destruct Hw. unfold fifo_size in *. lia.
    + rewrite Z2Nat.id by lia. unfold fifo_count. rewrite Z.add_mod_idemp_r by (unfold fifo_size; lia).
      replace (f_head f + (f_tail f - f_head f)) with (f_tail f) by lia.
      symmetry. apply Z.mod_small. destruct Hw. unfold fifo_size. lia.
Qed.

(** [fifo_pop] in closed form. *)
Lemma fifo_pop_eq f :
  fifo_wf f ->
  fifo_pop f = (zget inhabitant (f_buf f) (f_head f),
                mk_fifo (f_begin f) (f_end f) ((f_head f + 1) mod fifo_size f) (f_tail f) (f_buf f)).
Proof.
  destruct f as [b e h t buf]. intros []. unfold fifo_pop, fifo_size. cbn in *.
  rewrite <- ring_succ by assumption. subst b.
  destruct (Z.eqb_spec h e) as [->|]; reflexivity.
Qed.

Lemma fifo_rep_pop f x q :
  fifo_rep f (x :: q) -> fst (fifo_pop f) = x /\ fifo_rep (snd (fifo_pop f)) q.
Proof.
  intros [Hw Hc]. pose proof (fifo_contents_length f Hw) as Hl.
  rewrite Hc, zlen_cons in Hl. pose proof (zlen_nonneg q).
  pose proof (fifo_count_range f Hw) as Hr.
  pose proof (fifo_pop_wf f Hw) as Hw'. revert Hw'. rewrite fifo_pop_eq by assumption.
  cbn [fst snd]. intros Hw'. unfold fifo_contents in Hc.
  replace (Z.to_nat (fifo_count f)) with (S (Z.to_nat (zlen q))) in Hc by lia.
  cbn [seq map] in Hc. injection Hc as Hx Hq. split; [|split; [exact Hw'|]].
  - rewrite <- Hx. rewrite Z.add_0_r, Z.mod_small by (destruct Hw; unfold fifo_size; lia).
    reflexivity.
  - rewrite <- Hq. unfold fifo_contents, fifo_count, fifo_size. cbn [f_begin f_end f_head f_tail f_buf].
    fold (fifo_size f). rewrite Zminus_mod_idemp_r.
    replace (f_tail f - (f_head f + 1)) with (f_tail f - f_head f - 1) by lia.
    rewrite <- Zminus_mod_idemp_l. fold (fifo_count f).
    rewrite (Z.mod_small (fifo_count f - 1)) by (unfold fifo_size; lia).
    replace (Z.to_nat (fifo_count f - 1)) with (Z.to_nat (zlen q)) by lia.
    rewrite <- seq_shift, map_map. apply map_ext. intros i.
    rewrite Z.add_mod_idemp_l by (destruct Hw; unfold fifo_size; lia). do 2 f_equal. lia.
Qed.

Lemma fifo_rep_flush f q : fifo_rep f q -> fifo_rep (fifo_flush f) [].
Proof.
  intros [Hw _]. split; [destruct Hw; constructor; cbn; auto|].
  unfold fifo_contents, fifo_count, fifo_flush. cbn. now rewrite Z.sub_diag.
Qed.

(** Pushing onto a full ring: the tail meets the head and every element the
    ring held is lost. *)
Lemma fifo_push_full f q c :
  fifo_rep f q -> fifo_isfull f = true -> fifo_rep (fifo_push f c) [].
Proof.
  intros [Hw _] Hf. split; [now apply fifo_push_wf|].
  rewrite fifo_isfull_spec in Hf by assumption. apply Z.eqb_eq in Hf.
  unfold fifo_contents. rewrite fifo_push_count, Hf by assumption.
  unfold fifo_len, fifo_size. destruct Hw. rewrite wf_begin0, Z.sub_0_r, Z.mod_same by lia.
  reflexivity.
Qed.

(** ** The ring as its callers use it

    Every push in RNode_Firmware.ino is guarded by [isfull] and every pop by
    [isempty]; [fifo_step] is one guarded access, [queue_step] the same access
    on the abstract queue of capacity [cap]. *)
Inductive fifo_op := OPush (c : A) | OPop | OFlush.

Definition fifo_step (f : fifo) (op : fifo_op) : fifo * option A :=
  match op with
  | OPush c => (if fifo_isfull f then f else fifo_push f c, None)
  | OPop => if fifo_isempty f then (f, None)
            else let '(x, f) := fifo_pop f in (f, Some x)
  | OFlush => (fifo_flush f, None)
  end.

Definition queue_step (cap : Z) (q : list A) (op : fifo_op) : list A * option A :=
  match op with
  | OPush c => (if zlen q =? cap then q else q ++ [c], None)
  | OPop => match q with [] => ([], None) | x :: q => (q, Some x) end
  | OFlush => ([], None)
  end.

Fixpoint run {S} (step : S -> fifo_op -> S * option A) (s : S) (ops : list fifo_op)
  : S * list (option A) :=
  match ops with
  | [] => (s, [])
  | op :: ops => let '(s, o) := step s op in
                 let '(s, os) := run step s ops in (s, o :: os)
  end.

Lemma fifo_step_refines f q op :
  fifo_rep f q ->
  let '(q', o) := queue_step (fifo_len f) q op in
  snd (fifo_step f op) = o /\ fifo_rep (fst (fifo_step f op)) q' /\
  fifo_len (fst (fifo_step f op)) = fifo_len f.
Proof.
  intros Hr. destruct op as [c| |]; cbn.
  - rewrite <- (fifo_rep_isfull f q Hr). destruct (fifo_isfull f) eqn:Hf; [auto|].
    split_and!; [reflexivity|now apply fifo_rep_push|].
    destruct Hr as [Hw _]. pose proof (fifo_push_fields f c Hw) as (_ & Ee & _).
    pose proof (fifo_push_wf f c Hw) as []. destruct Hw. unfold fifo_len.
    congruence.
  - rewrite (fifo_rep_isempty f q Hr). destruct q as [|x q]; cbn; [auto|].
    rewrite zlen_cons. pose proof (zlen_nonneg q).
    destruct (Z.eqb_spec (1 + zlen q) 0); [lia|].
    pose proof (fifo_rep_pop f x q Hr) as [H1 H2].
    pose proof (fifo_pop_eq f (proj1 Hr)) as Hp. destruct (fifo_pop f) as [y f'].
    cbn in *. injection Hp as _ ->. split_and!; auto. congruence.
  - split_and!; [reflexivity|now apply fifo_rep_flush with q|reflexivity].
Qed.

(** C3. The pointer-arithmetic ring buffers refine a bounded FIFO queue: after
    [fifo_init] over a buffer one cell longer than its size, any sequence of
    guarded pushes and pops and of flushes gives exactly the results a queue of
    capacity [size] gives, and leaves the ring representing that queue. *)
(* @prop refinement W=fifo_refines_queue_witness D=fifo,fifo_isempty,fifo_isfull,fifo_push,fifo_pop,fifo_flush,fifo_init,fifo_len *)
Theorem fifo_refines_queue (buffer : list A) (size : Z) (ops : list fifo_op) :
  0 < size -> zlen buffer = size + 1 ->
  snd (run fifo_step (fifo_init buffer size) ops) = snd (run (queue_step size) [] ops) /\
  fifo_rep (fst (run fifo_step (fifo_init buffer size) ops)) (fst (run (queue_step size) [] ops)).
Proof.
  intros Hs Hb. pose proof (fifo_rep_init buffer size Hs Hb) as Hr.
  assert (Hl : fifo_len (fifo_init buffer size) = size) by (unfold fifo_len; cbn; lia).
  revert Hr Hl. generalize (fifo_init buffer size) as f. generalize (@nil A) as q.
  induction ops as [|op ops IH]; intros q f Hr Hl; [split; auto|].
  cbn [run]. pose proof (fifo_step_refines f q op Hr) as Hstep. rewrite Hl in Hstep.
  destruct (queue_step size q op) as [q' o]. destruct Hstep as (Ho & Hr' & Hl').
  destruct (fifo_step f op) as [f' o']. cbn in *. specialize (IH q' f' Hr' Hl').
  destruct (run fifo_step f' ops), (run (queue_step size) q' ops). cbn in *.
  destruct IH. split; congruence.
Qed.

End Fifo.
Arguments fifo : clear implicits.

Lemma fifo_refines_queue_witness :
  snd (run fifo_step (fifo_init [0; 0; 0] 2) [OPush 7; OPush 8; OPush 9; OPop; OPush 4; OPop; OPop; OPop])
  = [None; None; None; Some 7; None; Some 8; Some 4; None].
Proof.
  rewrite (proj1 (fifo_refines_queue [0; 0; 0] 2
             [OPush 7; OPush 8; OPush 9; OPop; OPush 4; OPop; OPop; OPop] ltac:(lia) eq_refl)).
  reflexivity.
Defined.
