(* ===== verification/TxQueue.v ===== *)
(** * The outgoing packet queue (RNode_Firmware.ino)

    Payloads received from the host (KISS data frames, byte by byte) and from
    the on-board Reticulum node ([urns_enqueue_outgoing]) are stored in one
    circular byte buffer, [packet_queue]; the start offset and the length of
    each complete payload go to two ring buffers.  [flush_queue] and
    [pop_queue] take payloads out and hand them to [transmit].

    The build is the ESP32 one: [CONFIG_QUEUE_SIZE] = 6144 bytes and
    [CONFIG_QUEUE_MAX_LENGTH] = 200 entries.  What a transmission does is a
    parameter of this file ([transmit], [lora_receive], [update_airtime] act on
    a state [S]); Link.v and Csma.v supply it. *)
From S2P Require Import Prelude Framing Fifo.

(* @src Boards.h:327-327 CONFIG_QUEUE_SIZE *)
Definition CONFIG_QUEUE_SIZE : Z := 6144.
(* @src Boards.h:328-328 CONFIG_QUEUE_MAX_LENGTH *)
Definition CONFIG_QUEUE_MAX_LENGTH : Z := 200.
(* @src Config.h:121-121 MTU *)
Definition MTU : Z := 508.
(* @src Config.h:122-122 SINGLE_MTU *)
Definition SINGLE_MTU : Z := 255.
(* @src Config.h:123-123 HEADER_L *)
Definition HEADER_L : Z := 1.
(* @src Config.h:124-124 MIN_L *)
Definition MIN_L : Z := 1.
(* @src Config.h:125-125 CMD_L *)
Definition CMD_L : Z := 64.

(* @src RNode_Firmware.ino:290-301 packet_starts, packet_lengths, packet_queue, queue_height, queued_bytes, queue_cursor, current_packet_start *)
Record txq := mk_txq {
  packet_starts : fifo Z;
  packet_lengths : fifo Z;
  packet_queue : list Z;
  queue_height : Z;          (* uint8_t *)
  queued_bytes : Z;          (* uint16_t *)
  queue_cursor : Z;          (* uint16_t *)
  current_packet_start : Z   (* uint16_t *)
}.

(** The queue after the [fifo16_init] calls of [setup()]. *)
(* @src RNode_Firmware.ino:557-564 setup *)
Definition txq_init : txq :=
  let z n := repeat 0 (Z.to_nat n) in
  mk_txq (fifo_init (z (CONFIG_QUEUE_MAX_LENGTH + 1)) CONFIG_QUEUE_MAX_LENGTH)
         (fifo_init (z (CONFIG_QUEUE_MAX_LENGTH + 1)) CONFIG_QUEUE_MAX_LENGTH)
         (z CONFIG_QUEUE_SIZE) 0 0 0 0.

(** [packet_queue[queue_cursor] = b] and the cursor's advance. *)
(* @src RNode_Firmware.ino:1998-2000 serial_callback *)
Definition put_byte (b : Z) (q : txq) : txq :=
  let q := q <| packet_queue := zset (packet_queue q) (queue_cursor q) b |> in
  let q := q <| queue_cursor := u16 (queue_cursor q + 1) |> in
  if queue_cursor q =? CONFIG_QUEUE_SIZE then q <| queue_cursor := 0 |> else q.

(** One unescaped payload byte of a KISS data frame. *)
(* @src RNode_Firmware.ino:1996-2001 serial_callback *)
Definition kiss_data_byte (q : txq) (sbyte : Z) : txq :=
  if (queue_height q <? CONFIG_QUEUE_MAX_LENGTH) && (queued_bytes q <? CONFIG_QUEUE_SIZE)
  then put_byte sbyte (q <| queued_bytes := u16 (queued_bytes q + 1) |>)
  else q.

(** The closing FEND of a KISS data frame on vport 0. *)
(* @src RNode_Firmware.ino:1911-1926 serial_callback *)
Definition kiss_data_end (q : txq) : txq :=
  if negb (fifo_isfull (packet_starts q)) && (queued_bytes q <? CONFIG_QUEUE_SIZE) then
    let s := current_packet_start q in
    let e := i16 (queue_cursor q - 1) in
    let e := if e =? -1 then CONFIG_QUEUE_SIZE - 1 else e in
    let l := if negb (s =? e)
             then u16 (if s <? e then e - s + 1 else CONFIG_QUEUE_SIZE - s + e + 1)
             else 1 in
    if MIN_L <=? l then
      q <| queue_height := u8 (queue_height q + 1) |>
        <| packet_starts := fifo_push (packet_starts q) s |>
        <| packet_lengths := fifo_push (packet_lengths q) l |>
        <| current_packet_start := queue_cursor q |>
    else q
  else q.

(* @src RNode_Firmware.ino:1460-1505 urns_enqueue_outgoing *)
Definition urns_enqueue_outgoing (IN_FRAME : bool) (command : Z) (data : list Z) (q : txq)
  : bool * txq :=
  let len := zlen data in
  if IN_FRAME && (command =? CMD_DATA) then (false, q)
  else if (len <? MIN_L) || (MTU <? len) then (false, q)
  else if fifo_isfull (packet_starts q) || (CONFIG_QUEUE_MAX_LENGTH <=? queue_height q) then (false, q)
  else if CONFIG_QUEUE_SIZE <? queued_bytes q + len then (false, q)
  else
    let start := queue_cursor q in
    let q := foldl (fun q b => put_byte b q) q data in
    let q := q <| queued_bytes := u16 (queued_bytes q + len) |> in
    let q := q <| queue_height := u8 (queue_height q + 1) |> in
    let q := q <| packet_starts := fifo_push (packet_starts q) start |>
               <| packet_lengths := fifo_push (packet_lengths q) len |> in
    (true, q <| current_packet_start := queue_cursor q |>).

(* @src RNode_Firmware.ino:1612-1612 queue_full *)
Definition queue_full (q : txq) : bool :=
  (CONFIG_QUEUE_MAX_LENGTH <=? queue_height q) || (CONFIG_QUEUE_SIZE <=? queued_bytes q).

(** [tbuf[i] = packet_queue[(start+i)%CONFIG_QUEUE_SIZE]] for [i < length]. *)
(* @src RNode_Firmware.ino:1695-1698 pop_queue *)
Definition tbuf_copy (q : txq) (start length : Z) : list Z :=
  map (fun i => zget 0 (packet_queue q) ((start + Z.of_nat i) mod CONFIG_QUEUE_SIZE))
      (seq 0 (Z.to_nat length)).

Section Drain.
  Context {S : Type} (transmit : list Z -> S -> S) (lora_receive update_airtime : S -> S).

(** Pop one start and one length; transmit the payload when its length is legal. *)
(* @src RNode_Firmware.ino:1692-1701 pop_queue *)
Definition transmit_entry (q : txq) (s : S) : Z * txq * S :=
  let '(start, fs) := fifo_pop (packet_starts q) in
  let '(length, fl) := fifo_pop (packet_lengths q) in
  let q := q <| packet_starts := fs |> <| packet_lengths := fl |> in
  let s := if (MIN_L <=? length) && (length <=? MTU)
           then transmit (tbuf_copy q start length) s else s in
  (length, q, s).

(** The [while] loop of [flush_queue]; [fuel] bounds the iterations, and
    [flush_loop_rep] shows that one per queued payload is enough. *)
Fixpoint flush_loop (fuel : nat) (q : txq) (s : S) : txq * S :=
  match fuel with
  | O => (q, s)
  | Datatypes.S fuel =>
      if fifo_isempty (packet_starts q) then (q, s)
      else let '(_, q, s) := transmit_entry q s in flush_loop fuel q s
  end.

(** [queue_flushing] is the re-entrancy guard; it is false again on return. *)
(* @src RNode_Firmware.ino:1614-1677 flush_queue *)
Definition flush_queue (queue_flushing : bool) (q : txq) (s : S) : txq * S :=
  let '(q, s) :=
    if queue_flushing then (q, s)
    else let '(q, s) := flush_loop (Z.to_nat (fifo_size (packet_starts q))) q s in
         (q, lora_receive s) in
  let q := q <| queue_height := 0 |> <| queued_bytes := 0 |> in
  (q, update_airtime s).

(* @src RNode_Firmware.ino:1679-1720 pop_queue *)
Definition pop_queue (queue_flushing : bool) (q : txq) (s : S) : txq * S :=
  let '(q, s) :=
    if queue_flushing then (q, s)
    else
      let '(q, s) :=
        if fifo_isempty (packet_starts q) then (q, s)
        else
          let '(length, q, s) := transmit_entry q s in
          (q <| queue_height := u8 (queue_height q - 1) |>
             <| queued_bytes := u16 (queued_bytes q - length) |>, s) in
      (q, lora_receive s) in
  (q, update_airtime s).
End Drain.

(** ** The abstract queue

    [txq_rep base q ps cur]: the queue holds the complete payloads [ps], oldest
    first, followed by the bytes [cur] of a frame still being received; the
    oldest byte sits at offset [base]. *)
Fixpoint start_positions (base : Z) (ps : list (list Z)) : list Z :=
  match ps with
  | [] => []
  | p :: ps => base :: start_positions ((base + zlen p) mod CONFIG_QUEUE_SIZE) ps
  end.

Definition ring_read (mem : list Z) (base : Z) (n : nat) : list Z :=
  map (fun i => zget 0 mem ((base + Z.of_nat i) mod CONFIG_QUEUE_SIZE)) (seq 0 n).

Record txq_rep (base : Z) (q : txq) (ps : list (list Z)) (cur : list Z) : Prop := {
  rep_base : 0 <= base < CONFIG_QUEUE_SIZE;
  rep_mem : zlen (packet_queue q) = CONFIG_QUEUE_SIZE;
  rep_starts : fifo_rep (packet_starts q) (start_positions base ps);
  rep_lengths : fifo_rep (packet_lengths q) (map zlen ps);
  rep_scap : fifo_len (packet_starts q) = CONFIG_QUEUE_MAX_LENGTH;
  rep_lcap : fifo_len (packet_lengths q) = CONFIG_QUEUE_MAX_LENGTH;
  rep_data : ring_read (packet_queue q) base (length (concat ps ++ cur)) = concat ps ++ cur;
  rep_start : current_packet_start q = (base + zlen (concat ps)) mod CONFIG_QUEUE_SIZE;
  rep_cursor : queue_cursor q = (base + zlen (concat ps ++ cur)) mod CONFIG_QUEUE_SIZE;
  rep_bytes : queued_bytes q = zlen (concat ps ++ cur);
  rep_room : zlen (concat ps ++ cur) <= CONFIG_QUEUE_SIZE;
  rep_height : queue_height q = zlen ps
}.

(** ** Lemmas *)

Lemma SIZE_pos : 0 < CONFIG_QUEUE_SIZE.
Proof. reflexivity. Qed.
#[export] Hint Resolve SIZE_pos : rnode.

Lemma ring_read_S mem base n :
  ring_read mem base (S n) = ring_read mem base n ++ [zget 0 mem ((base + Z.of_nat n) mod CONFIG_QUEUE_SIZE)].
Proof. unfold ring_read. now rewrite seq_S, map_app. Qed.

Lemma ring_read_app mem base n m :
  0 <= base < CONFIG_QUEUE_SIZE ->
  ring_read mem base (n + m) =
  ring_read mem base n ++ ring_read mem ((base + Z.of_nat n) mod CONFIG_QUEUE_SIZE) m.
Proof.
  intros Hb. unfold ring_read. rewrite seq_app, map_app. f_equal.
  rewrite (map_seq_shift _ (0 + n)). apply map_ext. intros i.
  rewrite Z.add_mod_idemp_l by (vm_compute; discriminate). do 2 f_equal. lia.
Qed.

Lemma ring_read_length mem base n : length (ring_read mem base n) = n.
Proof. unfold ring_read. now rewrite length_map, length_seq. Qed.

(** Two offsets less than a full turn apart are different cells. *)
Lemma ring_pos_inj base i j :
  0 <= i < CONFIG_QUEUE_SIZE -> 0 <= j < CONFIG_QUEUE_SIZE ->
  (base + i) mod CONFIG_QUEUE_SIZE = (base + j) mod CONFIG_QUEUE_SIZE -> i = j.
Proof.
  intros Hi Hj E. pose proof SIZE_pos.
  assert (E' : (base + i - (base + j)) mod CONFIG_QUEUE_SIZE = 0).
  { rewrite Zminus_mod, E, Z.sub_diag. reflexivity. }
  replace (base + i - (base + j)) with (i - j) in E' by ring.
  apply Z.mod_divide in E'; [|lia]. destruct E' as [k Hk].
  assert (k = 0) by nia. lia.
Qed.

(** Writing at offset [n] keeps the first [n] bytes and defines the next one. *)
Lemma ring_read_zset mem base n b :
  zlen mem = CONFIG_QUEUE_SIZE -> 0 <= base < CONFIG_QUEUE_SIZE -> Z.of_nat n < CONFIG_QUEUE_SIZE ->
  ring_read (zset mem ((base + Z.of_nat n) mod CONFIG_QUEUE_SIZE) b) base (S n)
  = ring_read mem base n ++ [b].
Proof.
  intros Hm Hb Hn. pose proof SIZE_pos. rewrite ring_read_S. f_equal.
  - apply map_ext_in. intros i Hi%in_seq.
    apply zget_zset_ne; rewrite ?Hm; try (apply Z.mod_pos_bound; lia).
    intros E. apply ring_pos_inj in E; lia.
  - f_equal. apply (zget_zset_eq 0). rewrite Hm. apply Z.mod_pos_bound. lia.
Qed.

Lemma put_byte_eq b q :
  0 <= queue_cursor q < CONFIG_QUEUE_SIZE ->
  put_byte b q = mk_txq (packet_starts q) (packet_lengths q)
    (zset (packet_queue q) (queue_cursor q) b) (queue_height q) (queued_bytes q)
    ((queue_cursor q + 1) mod CONFIG_QUEUE_SIZE) (current_packet_start q).
Proof.
  destruct q as [fs fl mem h n c st]. cbn. intros Hc. unfold put_byte; cbn.
  rewrite u16_id by (unfold CONFIG_QUEUE_SIZE in Hc; lia).
  destruct (Z.eqb_spec (c + 1) CONFIG_QUEUE_SIZE) as [->|]; cbn.
  - now rewrite Z.mod_same.
  - now rewrite Z.mod_small by lia.
Qed.

Lemma rep_cursor_range base q ps cur :
  txq_rep base q ps cur -> 0 <= queue_cursor q < CONFIG_QUEUE_SIZE.
Proof. intros []. rewrite rep_cursor0. apply Z.mod_pos_bound. reflexivity. Qed.

(** One stored byte: the memory part of the representation, whatever the
    counters say. *)
Lemma put_byte_data base q (total : list Z) b :
  0 <= base < CONFIG_QUEUE_SIZE -> zlen (packet_queue q) = CONFIG_QUEUE_SIZE ->
  zlen total < CONFIG_QUEUE_SIZE ->
  queue_cursor q = (base + zlen total) mod CONFIG_QUEUE_SIZE ->
  ring_read (packet_queue q) base (length total) = total ->
  let q' := put_byte b q in
  ring_read (packet_queue q') base (length (total ++ [b])) = total ++ [b] /\
  zlen (packet_queue q') = CONFIG_QUEUE_SIZE /\
  queue_cursor q' = (base + zlen (total ++ [b])) mod CONFIG_QUEUE_SIZE /\
  packet_starts q' = packet_starts q /\ packet_lengths q' = packet_lengths q /\
  queue_height q' = queue_height q /\ queued_bytes q' = queued_bytes q /\
  current_packet_start q' = current_packet_start q.
Proof.
  intros Hb Hm Ht Hc Hr. cbn zeta.
  assert (0 <= queue_cursor q < CONFIG_QUEUE_SIZE) by (rewrite Hc; apply Z.mod_pos_bound; reflexivity).
  rewrite put_byte_eq by assumption. cbn. rewrite zlen_zset, zlen_app, length_app by lia.
  cbn [length]. rewrite Nat.add_1_r. split_and!; auto.
  - rewrite Hc. unfold zlen in Ht |- *. rewrite ring_read_zset by assumption. now rewrite Hr.
  - rewrite Hc, Z.add_mod_idemp_l by discriminate. f_equal. unfold zlen. cbn. lia.
Qed.

Lemma kiss_data_byte_rep base q ps cur b :
  txq_rep base q ps cur -> zlen ps < CONFIG_QUEUE_MAX_LENGTH ->
  zlen (concat ps ++ cur) < CONFIG_QUEUE_SIZE ->
  txq_rep base (kiss_data_byte q b) ps (cur ++ [b]).
Proof.
  intros [] Hh Hn. unfold kiss_data_byte.
  rewrite rep_height0, rep_bytes0.
  rewrite (proj2 (Z.ltb_lt _ _) Hh), (proj2 (Z.ltb_lt _ _) Hn). cbn [andb].
  set (q1 := q <| queued_bytes := _ |>).
  pose proof (put_byte_data base q1 (concat ps ++ cur) b rep_base0 rep_mem0 Hn rep_cursor0 rep_data0)
    as (D & M & C & S & L & H & N & P). cbn zeta in *.
  subst q1.
  pose proof (zlen_nonneg (concat ps ++ cur)).
  constructor; rewrite ?(app_assoc (concat ps)); rewrite ?S, ?L, ?H, ?N, ?P; cbn; auto.
  - rewrite u16_id by (unfold CONFIG_QUEUE_SIZE in *; lia). autorewrite with zlen. lia.
  - autorewrite with zlen in *. lia.
Qed.

Lemma kiss_data_bytes_rep base q ps cur bs :
  txq_rep base q ps cur -> zlen ps < CONFIG_QUEUE_MAX_LENGTH ->
  zlen (concat ps ++ cur) + zlen bs <= CONFIG_QUEUE_SIZE ->
  txq_rep base (foldl kiss_data_byte q bs) ps (cur ++ bs).
Proof.
  revert q cur. induction bs as [|b bs IH]; intros q cur Hr Hh Hn; cbn.
  - now rewrite app_nil_r.
  - rewrite zlen_cons in Hn. pose proof (zlen_nonneg bs).
    replace (cur ++ b :: bs) with ((cur ++ [b]) ++ bs) by now rewrite <- app_assoc.
    apply IH; [apply kiss_data_byte_rep; auto; lia|assumption|].
    autorewrite with zlen in *. lia.
Qed.

(** The start offset recorded for the next payload. *)
Lemma start_positions_app base ps p :
  0 <= base < CONFIG_QUEUE_SIZE ->
  start_positions base (ps ++ [p]) =
  start_positions base ps ++ [(base + zlen (concat ps)) mod CONFIG_QUEUE_SIZE].
Proof.
  revert base. induction ps as [|p0 ps IH]; intros base Hb; cbn.
  - rewrite zlen_nil, Z.add_0_r, Z.mod_small by assumption. reflexivity.
  - rewrite IH by (apply Z.mod_pos_bound; reflexivity).
    rewrite zlen_app, Z.add_mod_idemp_l by discriminate. do 4 f_equal. lia.
Qed.

Lemma rep_starts_notfull base q ps cur :
  txq_rep base q ps cur -> fifo_isfull (packet_starts q) = (zlen ps =? CONFIG_QUEUE_MAX_LENGTH).
Proof.
  intros []. rewrite (fifo_rep_isfull _ _ rep_starts0), rep_scap0. f_equal.
  clear. revert base. induction ps as [|p ps IH]; intros; [reflexivity|].
  cbn [start_positions]. rewrite !zlen_cons. now rewrite IH.
Qed.

Lemma rep_lengths_notfull base q ps cur :
  txq_rep base q ps cur -> fifo_isfull (packet_lengths q) = (zlen ps =? CONFIG_QUEUE_MAX_LENGTH).
Proof.
  intros []. rewrite (fifo_rep_isfull _ _ rep_lengths0), rep_lcap0. f_equal.
  unfold zlen. now rewrite length_map.
Qed.

Lemma fifo_push_len {A} `{Inhabited A} (f : fifo A) c : fifo_len (fifo_push f c) = fifo_len f.
Proof. destruct f as [b e h t buf]. unfold fifo_push, fifo_len. cbn. now destruct (t =? e). Qed.
Lemma fifo_pop_len {A} `{Inhabited A} (f : fifo A) : fifo_len (snd (fifo_pop f)) = fifo_len f.
Proof. destruct f as [b e h t buf]. unfold fifo_pop, fifo_len. cbn. now destruct (h =? e). Qed.
#[export] Hint Rewrite @fifo_push_len @fifo_pop_len : zlen.

(** The length [serial_callback] computes from the first and the last offset
    of a frame, for a frame of [n >= 1] bytes starting at [s]. *)
Lemma frame_length s n c :
  0 <= s < CONFIG_QUEUE_SIZE -> 1 <= n <= CONFIG_QUEUE_SIZE -> c = (s + n) mod CONFIG_QUEUE_SIZE ->
  let e := i16 (c - 1) in
  let e := if e =? -1 then CONFIG_QUEUE_SIZE - 1 else e in
  (if negb (s =? e) then u16 (if s <? e then e - s + 1 else CONFIG_QUEUE_SIZE - s + e + 1) else 1) = n.
Proof.
  intros Hs Hn Hc. cbn zeta.
  assert (Hcr : 0 <= c < CONFIG_QUEUE_SIZE) by (subst; apply Z.mod_pos_bound; reflexivity).
  assert (Hc' : c = if s + n <? CONFIG_QUEUE_SIZE then s + n else s + n - CONFIG_QUEUE_SIZE).
  { subst c. clear Hcr. destruct (Z.ltb_spec (s + n) CONFIG_QUEUE_SIZE).
    - apply Z.mod_small. lia.
    - rewrite <- (Z.mod_add _ (-1)) by discriminate. rewrite Z.mod_small by lia. lia. }
  assert (He : i16 (c - 1) = c - 1).
  { unfold swrap. unfold CONFIG_QUEUE_SIZE in Hcr. rewrite Z.mod_small by lia. lia. }
  rewrite He. clear Hc He. unfold CONFIG_QUEUE_SIZE in *. unfold wrap. change (2 ^ 16) with 65536.
  destruct (Z.ltb_spec (s + n) 6144); bdestr; rewrite Z.mod_small by lia; lia.
Qed.

(** Recording a complete payload [p] that starts where the last one ended. *)
Lemma commit_rep base q ps p q' :
  txq_rep base q ps p -> zlen ps < CONFIG_QUEUE_MAX_LENGTH ->
  q' = mk_txq (fifo_push (packet_starts q) (current_packet_start q))
              (fifo_push (packet_lengths q) (zlen p)) (packet_queue q)
              (u8 (queue_height q + 1)) (queued_bytes q) (queue_cursor q) (queue_cursor q) ->
  txq_rep base q' (ps ++ [p]) [].
Proof.
  intros Hrep Hh ->.
  pose proof (rep_starts_notfull _ _ _ _ Hrep) as Fs.
  pose proof (rep_lengths_notfull _ _ _ _ Hrep) as Fl.
  destruct (Z.eqb_spec (zlen ps) CONFIG_QUEUE_MAX_LENGTH); [lia|].
  assert (Ec : concat (ps ++ [p]) ++ [] = concat ps ++ p)
    by (rewrite concat_app; cbn; now rewrite !app_nil_r).
  destruct Hrep. constructor; cbn; rewrite ?Ec; auto.
  - rewrite start_positions_app, <- rep_start0 by assumption. now apply fifo_rep_push.
  - rewrite map_app. now apply fifo_rep_push.
  - now rewrite fifo_push_len.
  - now rewrite fifo_push_len.
  - rewrite rep_cursor0, <- Ec, app_nil_r. reflexivity.
  - rewrite rep_height0, zlen_app, zlen_cons, zlen_nil.
    unfold CONFIG_QUEUE_MAX_LENGTH in *. pose proof (zlen_nonneg ps).
    rewrite u8_id by (unfold is_u8; lia). lia.
Qed.

Lemma kiss_data_end_rep base q ps cur :
  txq_rep base q ps cur -> cur <> [] -> zlen ps < CONFIG_QUEUE_MAX_LENGTH ->
  zlen (concat ps ++ cur) < CONFIG_QUEUE_SIZE ->
  txq_rep base (kiss_data_end q) (ps ++ [cur]) [].
Proof.
  intros Hrep Hc Hh Hn.
  assert (Hl : 1 <= zlen cur) by (destruct cur; [done|rewrite zlen_cons; pose proof (zlen_nonneg cur); lia]).
  apply (commit_rep base q ps cur); [assumption..|].
  unfold kiss_data_end. rewrite (rep_starts_notfull _ _ _ _ Hrep).
  destruct (Z.eqb_spec (zlen ps) CONFIG_QUEUE_MAX_LENGTH); [lia|].
  rewrite (rep_bytes _ _ _ _ Hrep), (proj2 (Z.ltb_lt _ _) Hn). cbn [negb andb].
  assert (Hs : 0 <= current_packet_start q < CONFIG_QUEUE_SIZE)
    by (destruct Hrep; rewrite rep_start0; apply Z.mod_pos_bound; reflexivity).
  cbn zeta.
  rewrite (frame_length (current_packet_start q) (zlen cur)); try assumption.
  - unfold MIN_L. rewrite (proj2 (Z.leb_le _ _)) by lia.
    rewrite <- (rep_bytes _ _ _ _ Hrep). destruct q; reflexivity.
  - autorewrite with zlen in Hn. pose proof (zlen_nonneg (concat ps)). lia.
  - destruct Hrep. rewrite rep_cursor0, rep_start0, zlen_app.
    rewrite Z.add_mod_idemp_l by discriminate. f_equal. lia.
Qed.

Lemma put_bytes_data base q (total : list Z) data :
  0 <= base < CONFIG_QUEUE_SIZE -> zlen (packet_queue q) = CONFIG_QUEUE_SIZE ->
  zlen total + zlen data <= CONFIG_QUEUE_SIZE ->
  queue_cursor q = (base + zlen total) mod CONFIG_QUEUE_SIZE ->
  ring_read (packet_queue q) base (length total) = total ->
  let q' := foldl (fun q b => put_byte b q) q data in
  ring_read (packet_queue q') base (length (total ++ data)) = total ++ data /\
  zlen (packet_queue q') = CONFIG_QUEUE_SIZE /\
  queue_cursor q' = (base + zlen (total ++ data)) mod CONFIG_QUEUE_SIZE /\
  packet_starts q' = packet_starts q /\ packet_lengths q' = packet_lengths q /\
  queue_height q' = queue_height q /\ queued_bytes q' = queued_bytes q /\
  current_packet_start q' = current_packet_start q.
Proof.
  intros Hb. revert q total.
  induction data as [|b data IH]; intros q total Hm Hn Hc Hr; cbn [foldl].
  - rewrite app_nil_r. split_and!; auto.
  - rewrite zlen_cons in Hn. pose proof (zlen_nonneg data).
    destruct (put_byte_data base q total b Hb Hm ltac:(lia) Hc Hr)
      as (D & M & C & S & L & H' & N & P). cbn zeta in *.
    replace (total ++ b :: data) with ((total ++ [b]) ++ data) by now rewrite <- app_assoc.
    destruct (IH (put_byte b q) (total ++ [b])) as (D2 & M2 & C2 & S2 & L2 & H2 & N2 & P2); auto.
    { autorewrite with zlen. lia. }
    cbn zeta in *. split_and!; congruence.
Qed.

Lemma urns_enqueue_rep base q ps IN_FRAME command data :
  txq_rep base q ps [] -> IN_FRAME && (command =? CMD_DATA) = false ->
  MIN_L <= zlen data <= MTU -> zlen ps < CONFIG_QUEUE_MAX_LENGTH ->
  zlen (concat ps) + zlen data <= CONFIG_QUEUE_SIZE ->
  exists q', urns_enqueue_outgoing IN_FRAME command data q = (true, q') /\
             txq_rep base q' (ps ++ [data]) [].
Proof.
  intros Hrep Hfr Hlen Hh Hn. unfold urns_enqueue_outgoing.
  rewrite Hfr, (rep_starts_notfull _ _ _ _ Hrep).
  pose proof Hrep as Hrep'. destruct Hrep'. rewrite app_nil_r in *.
  rewrite rep_height0, rep_bytes0.
  rewrite (proj2 (Z.ltb_ge _ _)) by lia. rewrite (proj2 (Z.ltb_ge MTU _)) by lia.
  rewrite (proj2 (Z.eqb_neq _ _)) by lia. rewrite (proj2 (Z.leb_gt _ _)) by lia.
  rewrite (proj2 (Z.ltb_ge CONFIG_QUEUE_SIZE _)) by lia. cbn [orb].
  destruct (put_bytes_data base q (concat ps) data) as (D & M & C & St & L & H' & N & P); auto.
  cbn zeta in *. eexists. split; [reflexivity|].
  set (q1 := foldl _ q data) in *.
  apply (commit_rep base (q1 <| queued_bytes := zlen (concat ps ++ data) |>) ps data).
  - destruct q1. cbn in *. subst. constructor; cbn; auto.
    autorewrite with zlen; lia.
  - assumption.
  - destruct q1. cbn in *. subst.
    rewrite zlen_app, u16_id; [congruence|].
    unfold CONFIG_QUEUE_SIZE in *. pose proof (zlen_nonneg (concat ps)). pose proof (zlen_nonneg data). lia.
Qed.

(** ** Draining *)

Definition legal (p : list Z) : bool := (MIN_L <=? zlen p) && (zlen p <=? MTU).

Lemma tbuf_copy_ring q base n : tbuf_copy q base (Z.of_nat n) = ring_read (packet_queue q) base n.
Proof. unfold tbuf_copy, ring_read. now rewrite Nat2Z.id. Qed.

Lemma ring_read_prefix mem base (a b : list Z) :
  0 <= base < CONFIG_QUEUE_SIZE ->
  ring_read mem base (length (a ++ b)) = a ++ b ->
  ring_read mem base (length a) = a /\
  ring_read mem ((base + zlen a) mod CONFIG_QUEUE_SIZE) (length b) = b.
Proof.
  intros Hb E. rewrite length_app, ring_read_app in E by assumption.
  apply app_inj_1 in E; [exact E|]. apply ring_read_length.
Qed.

(** The part of [txq_rep] that does not depend on the two counters, which
    [flush_queue] only resets after its loop. *)
Record txq_data (base : Z) (q : txq) (ps : list (list Z)) (cur : list Z) : Prop := {
  dat_base : 0 <= base < CONFIG_QUEUE_SIZE;
  dat_mem : zlen (packet_queue q) = CONFIG_QUEUE_SIZE;
  dat_starts : fifo_rep (packet_starts q) (start_positions base ps);
  dat_lengths : fifo_rep (packet_lengths q) (map zlen ps);
  dat_scap : fifo_len (packet_starts q) = CONFIG_QUEUE_MAX_LENGTH;
  dat_lcap : fifo_len (packet_lengths q) = CONFIG_QUEUE_MAX_LENGTH;
  dat_data : ring_read (packet_queue q) base (length (concat ps ++ cur)) = concat ps ++ cur;
  dat_start : current_packet_start q = (base + zlen (concat ps)) mod CONFIG_QUEUE_SIZE;
  dat_cursor : queue_cursor q = (base + zlen (concat ps ++ cur)) mod CONFIG_QUEUE_SIZE;
  dat_room : zlen (concat ps ++ cur) <= CONFIG_QUEUE_SIZE
}.

Lemma rep_data_of base q ps cur : txq_rep base q ps cur -> txq_data base q ps cur.
Proof. intros []; constructor; assumption. Qed.

Lemma data_rep base q ps cur :
  txq_data base q ps cur -> queued_bytes q = zlen (concat ps ++ cur) -> queue_height q = zlen ps ->
  txq_rep base q ps cur.
Proof. intros []; constructor; assumption. Qed.

Section DrainSpec.
  Context {S : Type} (transmit : list Z -> S -> S) (lora_receive update_airtime : S -> S).

(** What draining a list of payloads does to the transmitter's state. *)
Definition send_all (ps : list (list Z)) (s : S) : S :=
  foldl (fun s p => if legal p then transmit p s else s) s ps.

(** Popping one entry moves the base past its payload; the two counters are
    left to the caller. *)
Lemma transmit_entry_data base q p ps cur s :
  txq_data base q (p :: ps) cur ->
  exists q',
    transmit_entry transmit q s = (zlen p, q', if legal p then transmit p s else s) /\
    queue_height q' = queue_height q /\ queued_bytes q' = queued_bytes q /\
    txq_data ((base + zlen p) mod CONFIG_QUEUE_SIZE) q' ps cur.
Proof.
  intros []. cbn [start_positions map] in *.
  destruct (fifo_rep_pop _ _ _ dat_starts0) as [Es Rs].
  destruct (fifo_rep_pop _ _ _ dat_lengths0) as [El Rl].
  pose proof (fifo_pop_len (packet_starts q)) as Ls.
  pose proof (fifo_pop_len (packet_lengths q)) as Ll.
  cbn [concat] in *. rewrite <- app_assoc in *.
  apply ring_read_prefix in dat_data0 as [E1 E2]; [|assumption].
  destruct q as [fs0 fl0 mem h n c st]. unfold transmit_entry. cbn in *.
  destruct (fifo_pop fs0) as [st' fs]. destruct (fifo_pop fl0) as [ln fl].
  cbn in *. subst st' ln. eexists. split.
  - unfold zlen at 4. rewrite tbuf_copy_ring. cbn. rewrite E1. reflexivity.
  - split_and!; [reflexivity..|]. rewrite zlen_app in *. pose proof (zlen_nonneg p).
    constructor; cbn; auto; try lia; try congruence.
    + apply Z.mod_pos_bound. reflexivity.
    + rewrite dat_start0, Z.add_mod_idemp_l by discriminate. f_equal. lia.
    + rewrite dat_cursor0, Z.add_mod_idemp_l by discriminate. f_equal. lia.
Qed.

Lemma start_positions_length base ps : zlen (start_positions base ps) = zlen ps.
Proof.
  revert base. induction ps as [|p ps IH]; intros; [reflexivity|].
  cbn [start_positions]. now rewrite !zlen_cons, IH.
Qed.

Lemma data_isempty base q ps cur :
  txq_data base q ps cur -> fifo_isempty (packet_starts q) = (zlen ps =? 0).
Proof.
  intros []. now rewrite (fifo_rep_isempty _ _ dat_starts0), start_positions_length.
Qed.

Lemma flush_loop_data fuel base q ps cur s :
  txq_data base q ps cur -> (length ps <= fuel)%nat ->
  exists q', flush_loop transmit fuel q s = (q', send_all ps s) /\
    txq_data ((base + zlen (concat ps)) mod CONFIG_QUEUE_SIZE) q' [] cur.
Proof.
  revert fuel base q s. induction ps as [|p ps IH]; intros fuel base q s Hd Hf.
  - exists q. pose proof (data_isempty _ _ _ _ Hd) as He. cbn in He. split.
    + destruct fuel; [reflexivity|]. cbn [flush_loop]. now rewrite He.
    + cbn. rewrite zlen_nil, Z.add_0_r, Z.mod_small by apply Hd. exact Hd.
  - destruct fuel as [|fuel]; [cbn in Hf; lia|]. cbn [flush_loop].
    rewrite (data_isempty _ _ _ _ Hd), zlen_cons. pose proof (zlen_nonneg ps).
    rewrite (proj2 (Z.eqb_neq _ _)) by lia.
    destruct (transmit_entry_data _ _ _ _ _ s Hd) as (q1 & E1 & _ & _ & D1).
    rewrite E1.
    destruct (IH fuel _ _ (if legal p then transmit p s else s) D1 ltac:(cbn in Hf; lia))
      as (q2 & E2 & D2).
    exists q2. split; [exact E2|].
    cbn [concat]. rewrite zlen_app. rewrite Z.add_mod_idemp_l in D2 by discriminate.
    now rewrite Z.add_assoc.
Qed.

(** C27. The [while] loop of [flush_queue] ends: it needs at most one turn per queued
    payload, more fuel than that changes nothing, the ring is empty afterwards, and
    the bound [flush_queue] gives it - the ring's capacity - is always enough. *)
(* @prop termination W=flush_terminates_witness D=flush_queue,transmit_entry,txq *)
Theorem flush_terminates base q ps cur s (fuel : nat) : txq_data base q ps cur -> (length ps <= fuel)%nat ->
  exists q', flush_loop transmit fuel q s = (q', send_all ps s) /\ fifo_isempty (packet_starts q') = true /\
    (length ps <= Z.to_nat (fifo_size (packet_starts q)))%nat.
Proof.
  intros Hd Hf. destruct (flush_loop_data fuel base q ps cur s Hd Hf) as (q' & E & Hd'). exists q'.
  split; [exact E|]. split; [exact (data_isempty _ _ _ _ Hd')|].
  destruct Hd. pose proof (fifo_rep_length _ _ dat_starts0) as Hc. rewrite start_positions_length in Hc.
  unfold fifo_len, fifo_size, zlen in *. destruct dat_starts0 as [[] _]. lia.
Qed.

Lemma pop_queue_rep base q p ps cur s :
  txq_rep base q (p :: ps) cur ->
  exists q', pop_queue transmit lora_receive update_airtime false q s
             = (q', update_airtime (lora_receive (if legal p then transmit p s else s))) /\
    txq_rep ((base + zlen p) mod CONFIG_QUEUE_SIZE) q' ps cur.
Proof.
  intros Hrep. pose proof (rep_data_of _ _ _ _ Hrep) as Hd.
  unfold pop_queue. rewrite (data_isempty _ _ _ _ Hd), zlen_cons. pose proof (zlen_nonneg ps).
  rewrite (proj2 (Z.eqb_neq _ _)) by lia.
  destruct (transmit_entry_data _ _ _ _ _ s Hd) as (q1 & E1 & H1 & N1 & D1).
  rewrite E1. eexists. split; [reflexivity|].
  destruct Hrep. destruct q1. cbn in *. apply data_rep; [destruct D1; constructor; auto| |]; cbn.
  - rewrite N1, rep_bytes0. cbn. rewrite <- app_assoc, (zlen_app p).
    unfold CONFIG_QUEUE_SIZE in *. rewrite <- app_assoc, zlen_app in rep_room0.
    pose proof (zlen_nonneg (concat ps ++ cur)). pose proof (zlen_nonneg p).
    rewrite u16_id; lia.
  - rewrite H1, rep_height0, zlen_cons. destruct D1.
    pose proof (fifo_rep_length _ _ rep_starts0) as Hc. cbn [start_positions] in Hc.
    rewrite zlen_cons, start_positions_length, rep_scap0 in Hc.
    unfold CONFIG_QUEUE_MAX_LENGTH in *. rewrite u8_id by (unfold is_u8; lia). lia.
Qed.

Lemma flush_queue_rep base q ps cur s :
  txq_data base q ps cur ->
  exists q', flush_queue transmit lora_receive update_airtime false q s
             = (q', update_airtime (lora_receive (send_all ps s))) /\
    queue_height q' = 0 /\ queued_bytes q' = 0 /\
    txq_data ((base + zlen (concat ps)) mod CONFIG_QUEUE_SIZE) q' [] cur.
Proof.
  intros Hd. unfold flush_queue.
  destruct (flush_loop_data (Z.to_nat (fifo_size (packet_starts q))) _ _ _ _ s Hd) as (q1 & E1 & D1).
  { destruct Hd. pose proof (fifo_rep_length _ _ dat_starts0) as Hc.
    rewrite start_positions_length in Hc. unfold fifo_len, fifo_size, zlen in *.
    destruct dat_starts0 as [[] _]. lia. }
  rewrite E1. eexists. split_and!; [reflexivity|..]; destruct q1; cbn in *; auto.
  destruct D1; constructor; auto.
Qed.
End DrainSpec.

(** ** The queue as an abstract packet queue *)

Inductive qev := EvFrame (p : list Z) | EvUrns (d : list Z) | EvPop | EvFlush.

Section Trace.
  Context {S : Type} (transmit : list Z -> S -> S) (lora_receive update_airtime : S -> S).

(** One event on the firmware's queue: a whole KISS data frame, an
    [urns_enqueue_outgoing] between frames, a [pop_queue] or a [flush_queue]. *)
Definition qstep (qs : txq * S) (ev : qev) : txq * S :=
  let '(q, s) := qs in
  match ev with
  | EvFrame p => (kiss_data_end (foldl kiss_data_byte q p), s)
  | EvUrns d => (snd (urns_enqueue_outgoing false CMD_UNKNOWN d q), s)
  | EvPop => pop_queue transmit lora_receive update_airtime false q s
  | EvFlush => flush_queue transmit lora_receive update_airtime false q s
  end.

(** Room for one more payload of [n] bytes. *)
Definition has_room (ps : list (list Z)) (n : Z) : bool :=
  (zlen ps <? CONFIG_QUEUE_MAX_LENGTH) && (zlen (concat ps) + n <=? CONFIG_QUEUE_SIZE).

(** The same event on a list of payloads.  [None]: a host frame the queue does
    not promise to keep (empty, or without room for it and one spare byte). *)
Definition astep (ps : list (list Z)) (s : S) (ev : qev) : option (list (list Z) * S) :=
  match ev with
  | EvFrame p => if (1 <=? zlen p) && has_room ps (zlen p + 1) then Some (ps ++ [p], s) else None
  | EvUrns d => Some (if legal d && has_room ps (zlen d) then ps ++ [d] else ps, s)
  | EvPop => match ps with
             | [] => Some ([], update_airtime (lora_receive s))
             | p :: ps => Some (ps, update_airtime (lora_receive (if legal p then transmit p s else s)))
             end
  | EvFlush => Some ([], update_airtime (lora_receive (send_all transmit ps s)))
  end.

Fixpoint arun (ps : list (list Z)) (s : S) (evs : list qev) : option (list (list Z) * S) :=
  match evs with
  | [] => Some (ps, s)
  | ev :: evs => match astep ps s ev with Some (ps, s) => arun ps s evs | None => None end
  end.

Lemma urns_enqueue_refused base q ps d :
  txq_rep base q ps [] -> legal d && has_room ps (zlen d) = false ->
  urns_enqueue_outgoing false CMD_UNKNOWN d q = (false, q).
Proof.
  intros Hrep Hf. unfold urns_enqueue_outgoing. cbn [andb].
  rewrite (rep_starts_notfull _ _ _ _ Hrep), (rep_height _ _ _ _ Hrep), (rep_bytes _ _ _ _ Hrep), app_nil_r.
  unfold legal, has_room in Hf.
  destruct (Z.leb_spec MIN_L (zlen d)), (Z.leb_spec (zlen d) MTU), (Z.ltb_spec (zlen d) MIN_L),
    (Z.ltb_spec MTU (zlen d)); try lia; try reflexivity.
  cbn [andb orb] in *. bdestr; reflexivity.
Qed.

Lemma pop_queue_empty base q s :
  txq_rep base q [] [] ->
  pop_queue transmit lora_receive update_airtime false q s = (q, update_airtime (lora_receive s)).
Proof.
  intros Hrep. unfold pop_queue. rewrite (data_isempty _ _ _ _ (rep_data_of _ _ _ _ Hrep)). reflexivity.
Qed.

Lemma qstep_refines base q ps s ev ps' s' :
  txq_rep base q ps [] -> astep ps s ev = Some (ps', s') ->
  exists base' q', qstep (q, s) ev = (q', s') /\ txq_rep base' q' ps' [].
Proof.
  intros Hrep Ha. destruct ev as [p|d| |]; cbn [astep qstep] in *.
  - destruct ((1 <=? zlen p) && has_room ps (zlen p + 1)) eqn:E; [|discriminate].
    injection Ha as <- <-. unfold has_room in E.
    apply andb_true_iff in E as [E1 [E2 E3]%andb_true_iff].
    apply Z.leb_le in E1, E3. apply Z.ltb_lt in E2.
    exists base. eexists. split; [reflexivity|]. apply kiss_data_end_rep; auto.
    + apply (kiss_data_bytes_rep base q ps [] p) in Hrep; auto.
      rewrite app_nil_r. lia.
    + intros ->. rewrite zlen_nil in E1. lia.
    + rewrite zlen_app. lia.
  - injection Ha as <- <-. destruct (legal d && has_room ps (zlen d)) eqn:E.
    + unfold legal, has_room in E. rewrite !andb_true_iff in E. destruct E as [[E1 E2] [E3 E4]].
      apply Z.leb_le in E1, E2, E4. apply Z.ltb_lt in E3.
      destruct (urns_enqueue_rep base q ps false CMD_UNKNOWN d Hrep eq_refl) as (q' & Eq & R); auto.
      rewrite Eq. eauto.
    + rewrite (urns_enqueue_refused base q ps d Hrep E). eauto.
  - destruct ps as [|p ps]; injection Ha as <- <-.
    + rewrite (pop_queue_empty base) by assumption. eauto.
    + destruct (pop_queue_rep transmit lora_receive update_airtime base q p ps [] s Hrep) as (q' & E & R).
      eauto.
  - injection Ha as <- <-.
    destruct (flush_queue_rep transmit lora_receive update_airtime base q ps [] s (rep_data_of _ _ _ _ Hrep))
      as (q' & E & H1 & N1 & D1).
    eexists _, q'. split; [exact E|]. apply data_rep; [exact D1|..]; rewrite ?H1, ?N1; reflexivity.
Qed.

Lemma txq_init_rep : txq_rep 0 txq_init [] [].
Proof.
  constructor; try (vm_compute; first [reflexivity | discriminate | split; [discriminate|reflexivity]]).
  - apply fifo_rep_init; reflexivity.
  - apply fifo_rep_init; reflexivity.
Qed.

(** C4. The circular byte buffer with its two offset rings refines a FIFO queue
    of payloads: from the queue [setup()] creates, any sequence of host data
    frames that fit, node packets (fitting or not), single pops and flushes
    hands [transmit] exactly the accepted payloads, unaltered, each once and in
    arrival order, and ends in a buffer that represents the payloads still
    waiting; a node packet that does not fit is dropped without a trace. *)
(* @prop refinement W=txq_refines_packet_queue_witness D=txq,txq_init,put_byte,kiss_data_byte,kiss_data_end,urns_enqueue_outgoing,pop_queue,flush_queue,tbuf_copy *)
Theorem txq_refines_packet_queue (s s' : S) (evs : list qev) (ps' : list (list Z)) :
  arun [] s evs = Some (ps', s') ->
  exists base q', foldl qstep (txq_init, s) evs = (q', s') /\ txq_rep base q' ps' [].
Proof.
  pose proof txq_init_rep as Hrep. revert Hrep.
  generalize 0 as base. generalize txq_init as q. generalize (@nil (list Z)) as ps. revert s.
  induction evs as [|ev evs IH]; intros s ps q base Hrep Ha; cbn [arun foldl] in *.
  - injection Ha as <- <-. eauto.
  - destruct (astep ps s ev) as [[ps1 s1]|] eqn:E; [|discriminate].
    destruct (qstep_refines base q ps s ev ps1 s1 Hrep E) as (base1 & q1 & E1 & R1).
    rewrite E1. eauto.
Qed.
End Trace.

Lemma flush_terminates_witness :
  let q := fst (qstep (S := list (list Z)) (fun p s => s ++ [p]) id id (txq_init, []) (EvFrame [1; 2; 3])) in
  exists q', flush_loop (fun p s => s ++ [p]) 5 q [] = (q', [[1; 2; 3]]) /\ fifo_isempty (packet_starts q') = true.
Proof.
  intros q.
  destruct (qstep_refines (S := list (list Z)) (fun p s => s ++ [p]) id id 0 txq_init [] [] (EvFrame [1; 2; 3]) [[1; 2; 3]] []
    txq_init_rep eq_refl) as (base & q1 & E & R).
  assert (Hd : txq_data base q [[1; 2; 3]] []) by (unfold q; rewrite E; exact (rep_data_of _ _ _ _ R)).
  destruct (flush_terminates (fun p (s : list (list Z)) => s ++ [p]) base q [[1; 2; 3]] [] [] 5 Hd ltac:(cbn; lia)) as (q' & E1 & E2 & _).
  exists q'. split; [exact E1|exact E2].
Defined.

Lemma txq_refines_packet_queue_witness :
  exists base q',
    foldl (qstep (fun p s => s ++ [p]) id id) (txq_init, [])
      [EvFrame [1; 2; 3]; EvUrns [9]; EvPop; EvFrame [4]; EvFlush; EvUrns [5]]
    = (q', [[1; 2; 3]; [9]; [4]]) /\ txq_rep base q' [[5]] [].
Proof.
  apply (txq_refines_packet_queue (fun p s => s ++ [p]) id id [] [[1; 2; 3]; [9]; [4]]
           [EvFrame [1; 2; 3]; EvUrns [9]; EvPop; EvFrame [4]; EvFlush; EvUrns [5]] [[5]]).
  reflexivity.
Defined.

(** The closing FEND of a frame that stored no byte computes the length of a
    whole turn of the ring. *)
Lemma kiss_data_end_empty base q :
  txq_rep base q [] [] ->
  kiss_data_end q = mk_txq (fifo_push (packet_starts q) base)
    (fifo_push (packet_lengths q) CONFIG_QUEUE_SIZE) (packet_queue q) 1 0 base base.
Proof.
  intros Hrep. pose proof (rep_starts_notfull _ _ _ _ Hrep) as Hf.
  destruct q as [fs fl mem h n c st]. destruct Hrep. cbn in *.
  rewrite zlen_nil, Z.add_0_r, Z.mod_small in * by assumption. subst st c h n.
  unfold kiss_data_end. cbn [queue_cursor current_packet_start packet_starts queued_bytes].
  rewrite Hf. cbn [negb andb]. cbn zeta.
  rewrite (frame_length base CONFIG_QUEUE_SIZE base); [reflexivity|assumption|easy|].
  replace (base + CONFIG_QUEUE_SIZE) with (base + 1 * CONFIG_QUEUE_SIZE) by ring.
  rewrite Z.mod_add, Z.mod_small by (assumption || discriminate). reflexivity.
Qed.

Lemma fifo_push_pop1 {A} `{Inhabited A} (f : fifo A) x :
  fifo_rep f [] -> 0 < fifo_len f -> fst (fifo_pop (fifo_push f x)) = x /\
  fifo_isempty (fifo_push f x) = false.
Proof.
  intros Hr Hl.
  assert (Hp : fifo_rep (fifo_push f x) ([] ++ [x])).
  { apply fifo_rep_push; [assumption|]. rewrite (fifo_rep_isfull _ _ Hr), zlen_nil.
    apply Z.eqb_neq. lia. }
  split; [apply (fifo_rep_pop _ _ _ Hp)|now rewrite (fifo_rep_isempty _ _ Hp)].
Qed.

(** An empty host data frame (FEND, CMD_DATA, FEND) is not ignored: on an
    empty queue it enters an entry of [CONFIG_QUEUE_SIZE] bytes, which the next
    [pop_queue] does not transmit but subtracts from [queued_bytes], so that the
    16-bit counter wraps to 59392 and [queue_full] reports a full queue while
    the queue is empty. *)
Theorem empty_frame_wedges_pop {S} (transmit : list Z -> S -> S) (lora_receive update_airtime : S -> S)
    (base : Z) (q : txq) (s : S) :
  txq_rep base q [] [] ->
  let '(q', s') := pop_queue transmit lora_receive update_airtime false (kiss_data_end q) s in
  s' = update_airtime (lora_receive s) /\ queue_height q' = 0 /\
  queued_bytes q' = 59392 /\ queue_full q' = true.
Proof.
  intros Hrep. rewrite (kiss_data_end_empty base q Hrep). destruct Hrep.
  destruct (fifo_push_pop1 (packet_starts q) base) as [_ Ee];
    [assumption|rewrite rep_scap0; reflexivity|].
  destruct (fifo_push_pop1 (packet_lengths q) CONFIG_QUEUE_SIZE) as [El _];
    [assumption|rewrite rep_lcap0; reflexivity|].
  unfold pop_queue, transmit_entry. cbn [packet_starts packet_lengths]. rewrite Ee.
  destruct (fifo_pop (fifo_push (packet_starts q) base)) as [st fs].
  destruct (fifo_pop (fifo_push (packet_lengths q) CONFIG_QUEUE_SIZE)) as [ln fl].
  cbn in El. subst ln. cbn. auto.
Qed.

Lemma empty_frame_wedges_pop_witness :
  queue_full (fst (pop_queue (fun p s => s ++ [p]) id id false (kiss_data_end txq_init) [])) = true.
Proof.
  pose proof (empty_frame_wedges_pop (fun p s => s ++ [p]) id id 0 txq_init [] txq_init_rep) as H.
  destruct (pop_queue _ id id false (kiss_data_end txq_init) []) as [q' s'].
  exact (proj2 (proj2 (proj2 H))).
Defined.
