(* ===== verification/Link.v ===== *)
(** * The radio link layer (RNode_Firmware.ino)

    [transmit] puts a queued payload on the air as one LoRa frame, or as
    several when it does not fit one ([FLAG_SPLIT] in the one-byte header);
    [receive_callback] reassembles what the radio hands up.  The radio driver
    is seen through the interface [LoraTx]; its laws [LoraTxLaws] say what the
    link layer relies on.  The build is ESP32 with the SX1262 driver, where
    [receive_callback] runs in task context. *)
From S2P Require Import Prelude Framing Fifo TxQueue.

(** ** Header *)

(* @src Utilities.h:2418-2420 isSplitPacket *)
Definition isSplitPacket (header : Z) : bool := negb (Z.land header FLAG_SPLIT =? 0).
(* @src Utilities.h:2422-2424 packetSequence *)
Definition packetSequence (header : Z) : Z := Z.shiftr header 4.

(** ** The driver interface *)

Class LoraTx (D : Type) := {
  beginPacket : option Z -> D -> D;  (** [Some n]: implicit header, [n] bytes *)
  lora_write : Z -> D -> D;
  endPacket : D -> bool * D          (** [false]: no TX-done within the bound *)
}.

(** What the link layer relies on.  [pending] is the frame under construction
    ([None] when none is open), [on_air] the frames sent so far, oldest first, and
    [sane] what every call of a driver in order preserves.  An [endPacket] may
    fail; one that succeeds has sent the frame. *)
Class LoraTxLaws (D : Type) `{LoraTx D} := {
  pending : D -> option (list Z);
  on_air : D -> list (list Z);
  sane : D -> Prop;
  begin_spec o d : sane d ->
                   pending (beginPacket o d) = Some [] /\ on_air (beginPacket o d) = on_air d /\
                   sane (beginPacket o d);
  write_spec b d l : sane d -> pending d = Some l -> zlen l < 255 ->
                     pending (lora_write b d) = Some (l ++ [b]) /\
                     on_air (lora_write b d) = on_air d /\ sane (lora_write b d);
  end_spec d l : sane d -> pending d = Some l -> fst (endPacket d) = true ->
                 on_air (snd (endPacket d)) = on_air d ++ [l] /\ sane (snd (endPacket d))
}.

(** A set of driver states no call leaves, as long as [endPacket] succeeds. *)
Record stable {D} `{LoraTx D} (P : D -> Prop) : Prop := {
  stable_begin o d : P d -> P (beginPacket o d);
  stable_write b d : P d -> P (lora_write b d);
  stable_end d : P d -> fst (endPacket d) = true -> P (snd (endPacket d))
}.

Lemma stable_any {D} `{LoraTx D} : stable (fun _ : D => True).
Proof. now constructor. Qed.

(** A modem that completes every transmission while it is [healthy]. *)
Class LoraTxPrompt (D : Type) `{LoraTxLaws D} := {
  healthy : D -> Prop;
  healthy_sane d : healthy d -> sane d;
  healthy_stable : stable healthy;
  healthy_end d : healthy d -> fst (endPacket d) = true
}.

(** ** Transmission *)

Section Transmit.
  Context {D : Type} `{LoraTx D}.
  (** [add_airtime] (Airtime.v) and what it updates. *)
  Context {A : Type} (add_airtime : Z -> A -> A).

Record txst := mk_txst {
  drv : D;
  air : A;
  tx_out : list Z;         (** bytes written to the host *)
  packet_tx_count : Z;     (** uint32_t *)
  tx_reset : bool          (** [hard_reset()] was called; nothing runs after it *)
}.

Definition kiss_error (e : Z) : list Z := raw_frame CMD_ERROR [e].

(** [endPacket] failed: report and reset. *)
Definition tx_fail (s : txst) : txst :=
  s <| tx_out ::= fun o => o ++ kiss_error ERROR_MODEM_TIMEOUT ++ kiss_error ERROR_TXFAILED |>
    <| tx_reset := true |>.

(** The write loop of [transmit]: [written] counts the bytes of the frame
    under construction.  [None] in the first component: the modem was reset. *)
Fixpoint tx_loop (header : Z) (bs : list Z) (written : Z) (s : txst) : option Z * txst :=
  match bs with
  | [] => (Some written, s)
  | b :: bs =>
      let s := s <| drv ::= lora_write b |> in
      let written := u16 (written + 1) in
      if (written =? 255) && isSplitPacket header then
        let '(ok, d) := endPacket (drv s) in
        let s := s <| drv := d |> in
        if negb ok then (None, tx_fail s)
        else
          let s := s <| air ::= add_airtime written |> in
          let s := s <| drv ::= fun d => lora_write header (beginPacket None d) |> in
          tx_loop header bs 1 s
      else tx_loop header bs written s
  end.

(** [random256] is the value of [random(256)] for this call, and
    [tbuf] the [size] first bytes of the transmit buffer. *)
(* @src RNode_Firmware.ino:1809-1899 transmit *)
Definition transmit (radio_online promisc implicit : bool) (random256 : Z)
    (tbuf : list Z) (s : txst) : txst :=
  let size := zlen tbuf in
  if radio_online then
    let s := s <| packet_tx_count ::= fun c => u32 (c + 1) |> in
    if negb promisc then
      let header := Z.land random256 0xF0 in
      let header := if SINGLE_MTU - HEADER_L <? size then Z.lor header FLAG_SPLIT else header in
      let s := s <| drv ::= fun d => lora_write header (beginPacket None d) |> in
      match tx_loop header tbuf 1 s with
      | (None, s) => s
      | (Some written, s) =>
          let '(ok, d) := endPacket (drv s) in
          let s := s <| drv := d |> in
          if negb ok then tx_fail s
          else s <| air ::= add_airtime written |>
      end
    else
      let size := if SINGLE_MTU <? size then SINGLE_MTU else size in
      let s := s <| drv ::= beginPacket (if implicit then Some size else None) |> in
      let bs := take (Z.to_nat size) tbuf in
      let s := s <| drv ::= fun d => foldl (fun d b => lora_write b d) d bs |> in
      let s := s <| drv ::= fun d => snd (endPacket d) |> in
      s <| air ::= add_airtime size |>
  else s <| tx_out ::= fun o => o ++ kiss_error ERROR_TXFAILED |>.

End Transmit.
Arguments txst : clear implicits.

(** ** Reception *)

(* @src RNode_Firmware.ino:312-312 MODEM_QUEUE_SIZE *)
Definition MODEM_QUEUE_SIZE : Z := 8.

(* @src RNode_Firmware.ino:313-318 modem_packet_t *)
Record modem_packet := mk_modem_packet {
  mp_len : Z;
  mp_rssi : Z;
  mp_snr_raw : Z;
  mp_data : list Z
}.

(* @src Config.h:312-328 seq, read_len, pbuf *)
Record rxst := mk_rxst {
  seq : Z;                       (* uint8_t *)
  read_len : Z;                  (* uint16_t *)
  pbuf : list Z;                 (* uint8_t[MTU] *)
  memory_low : bool;
  modem_packet_queue : list modem_packet
}.

Definition rx_init : rxst := mk_rxst SEQ_UNSET 0 (repeat 0 (Z.to_nat MTU)) false [].

(** [LoRa->read()] over the bytes of the received frame; the [-1] of an
    exhausted frame becomes 255 in the [uint8_t] it is stored to. *)
Definition lora_read (packet : list Z) : Z * list Z :=
  match packet with [] => (u8 (-1), []) | b :: rest => (b, rest) end.

(** [while (len-- && read_len < MTU) pbuf[read_len++] = LoRa->read()]. *)
Fixpoint get_packet_data (len : nat) (rest : list Z) (s : rxst) : rxst :=
  match len with
  | O => s
  | S len =>
      if read_len s <? MTU then
        let '(b, rest) := lora_read rest in
        get_packet_data len rest
          (s <| pbuf := zset (pbuf s) (read_len s) b |> <| read_len := u16 (read_len s + 1) |>)
      else s
  end.
(* @src RNode_Firmware.ino:1144-1161 getPacketData *)
Definition getPacketData (len : Z) (rest : list Z) (s : rxst) : rxst :=
  get_packet_data (Z.to_nat (u16 len)) rest s.

(** A complete packet is copied to a fresh [modem_packet_t] and queued for
    [loop()]; [malloc_ok]: the heap had room for it. *)
(* @src RNode_Firmware.ino:1311-1356 receive_callback *)
Definition deliver (malloc_ok : bool) (rssi snr_raw : Z) (s : rxst) : rxst :=
  if negb malloc_ok then s <| memory_low := true |>
  else
    let mp := mk_modem_packet (read_len s) rssi snr_raw (take (Z.to_nat (read_len s)) (pbuf s)) in
    let s := s <| read_len := 0 |> in
    if zlen (modem_packet_queue s) <? MODEM_QUEUE_SIZE
    then s <| modem_packet_queue ::= fun q => q ++ [mp] |> else s.

(** [rssi], [snr_raw]: what the driver reports for the packet. *)
(* @src RNode_Firmware.ino:1174-1323 receive_callback *)
Definition receive_callback (promisc malloc_ok : bool) (rssi snr_raw : Z) (packet : list Z)
    (s : rxst) : rxst :=
  let packet_size := zlen packet in
  let '(s, ready) :=
    if negb promisc then
      let '(header, rest) := lora_read packet in
      let packet_size := packet_size - 1 in
      let sequence := packetSequence header in
      if isSplitPacket header && (seq s =? SEQ_UNSET) then
        (getPacketData packet_size rest (s <| read_len := 0 |> <| seq := sequence |>), false)
      else if isSplitPacket header && (seq s =? sequence) then
        ((getPacketData packet_size rest s) <| seq := SEQ_UNSET |>, true)
      else if isSplitPacket header && negb (seq s =? sequence) then
        (getPacketData packet_size rest (s <| read_len := 0 |> <| seq := sequence |>), false)
      else if negb (isSplitPacket header) then
        let s := if negb (seq s =? SEQ_UNSET)
                 then s <| read_len := 0 |> <| seq := SEQ_UNSET |> else s in
        (getPacketData packet_size rest s, true)
      else (s, false)
    else (getPacketData packet_size packet (s <| read_len := 0 |>), true) in
  if ready then deliver malloc_ok rssi snr_raw s else s.

(** The dequeue of [loop()]: the oldest packet becomes the host write buffer. *)
(* @src RNode_Firmware.ino:3317-3324 loop *)
Definition modem_dequeue (s : rxst) : option modem_packet * rxst :=
  match modem_packet_queue s with
  | [] => (None, s)
  | mp :: q => (Some mp, s <| modem_packet_queue := q |>
                           <| pbuf := mp_data mp ++ drop (length (mp_data mp)) (pbuf s) |>)
  end.

(** The host frame [kiss_write_packet] writes for [host_write_len] bytes of
    [pbuf]; the per-byte code is that of [escaped_serial_write]. *)
(* @src RNode_Firmware.ino:1113-1128 kiss_write_packet *)
Definition kiss_write_packet (host_write_len : Z) (pbuf : list Z) : list Z :=
  [FEND; CMD_DATA] ++ escaped (take (Z.to_nat host_write_len) pbuf) ++ [FEND].

(** ** What goes on the air *)

(** The payload bytes of the frames the write loop completes, and those left
    for the final [endPacket]; [pre] is already in the open frame. *)
Fixpoint chunks (pre bs : list Z) : list (list Z) * list Z :=
  match bs with
  | [] => ([], pre)
  | b :: bs =>
      let pre := pre ++ [b] in
      if zlen pre =? 254 then let '(c, r) := chunks [] bs in (pre :: c, r)
      else chunks pre bs
  end.

(** The LoRa frames of a payload. *)
Definition fragments (random256 : Z) (p : list Z) : list (list Z) :=
  let header := Z.land random256 0xF0 in
  if zlen p <=? 254 then [header :: p]
  else let header := Z.lor header FLAG_SPLIT in
       let '(c, r) := chunks [] p in map (cons header) c ++ [header :: r].

(** The receive state between packets. *)
Definition rx_idle (s : rxst) : Prop :=
  seq s = SEQ_UNSET /\ read_len s = 0 /\ zlen (pbuf s) = MTU.

(** Reception of a sequence of frames when memory and queue have room. *)
Definition receive_all (rssi snr_raw : Z) (fs : list (list Z)) (s : rxst) : rxst :=
  foldl (fun s f => receive_callback false true rssi snr_raw f s) s fs.

(** ** Lemmas: headers *)

(** The header of a whole packet, and of a fragment. *)
Definition header_of (random256 : Z) : Z := Z.land random256 0xF0.
Definition split_header (random256 : Z) : Z := Z.lor (header_of random256) FLAG_SPLIT.

Lemma header_props r :
  is_u8 r ->
  isSplitPacket (header_of r) = false /\ isSplitPacket (split_header r) = true /\
  (packetSequence (split_header r) =? SEQ_UNSET) = false.
Proof.
  intros Hr.
  pose proof (u8_forallb (fun r => negb (isSplitPacket (header_of r)) && isSplitPacket (split_header r)
    && negb (packetSequence (split_header r) =? SEQ_UNSET)) ltac:(vm_compute; reflexivity) r Hr) as E.
  cbv beta in E. rewrite !andb_true_iff, !negb_true_iff in E. tauto.
Qed.

(** ** Lemmas: transmission *)

Lemma chunks_split pre a b :
  zlen pre + zlen a = 254 -> a <> [] ->
  chunks pre (a ++ b) = ((pre ++ a) :: fst (chunks [] b), snd (chunks [] b)).
Proof.
  revert pre. induction a as [|x a IH]; intros pre Hl Hn; [done|]. cbn [app chunks].
  rewrite zlen_cons in Hl. pose proof (zlen_nonneg a).
  rewrite zlen_app, zlen_cons, zlen_nil.
  destruct a as [|y a].
  - rewrite zlen_nil in Hl. rewrite (proj2 (Z.eqb_eq _ _)) by lia. cbn [app].
    now destruct (chunks [] b).
  - rewrite zlen_cons in *. pose proof (zlen_nonneg a).
    rewrite (proj2 (Z.eqb_neq _ _)) by lia.
    rewrite IH by (rewrite ?zlen_app, ?zlen_cons, ?zlen_nil; (lia || discriminate)).
    now rewrite <- app_assoc.
Qed.

Lemma chunks_short pre bs : zlen pre + zlen bs < 254 -> chunks pre bs = ([], pre ++ bs).
Proof.
  revert pre. induction bs as [|x bs IH]; intros pre Hl; cbn [chunks].
  - now rewrite app_nil_r.
  - rewrite zlen_cons in Hl. pose proof (zlen_nonneg bs).
    rewrite zlen_app, zlen_cons, zlen_nil. rewrite (proj2 (Z.eqb_neq _ _)) by lia.
    rewrite IH by (rewrite zlen_app, zlen_cons, zlen_nil; lia). now rewrite <- app_assoc.
Qed.

Section TransmitSpec.
  Context {D : Type} `{LoraTxLaws D} {A : Type} (add_airtime : Z -> A -> A).
  Context (P : D -> Prop) (HP : stable P).
  Abbreviation txst := (txst D A).
  Implicit Types (s : txst).

(** [s'] is [s] after [fs] went on the air, each accounted for. *)
Record sent_frames (fs : list (list Z)) (s s' : txst) : Prop := {
  sent_air : on_air (drv s') = on_air (drv s) ++ fs;
  sent_sane : sane (drv s');
  sent_keeps : P (drv s');
  sent_account : air s' = foldl (fun a f => add_airtime (zlen f) a) (air s) fs;
  sent_out : tx_out s' = tx_out s;
  sent_count : packet_tx_count s' = packet_tx_count s;
  sent_reset : tx_reset s' = tx_reset s
}.

(** [s'] is [s] after [fs] went on the air and the frame [l] failed: the host is
    told and the device resets. *)
Record failed_after (fs : list (list Z)) (l : list Z) (s s' : txst) : Prop := {
  failed_end : exists d, P d /\ sane d /\ pending d = Some l /\ on_air d = on_air (drv s) ++ fs /\
                         fst (endPacket d) = false /\ drv s' = snd (endPacket d);
  failed_account : air s' = foldl (fun a f => add_airtime (zlen f) a) (air s) fs;
  failed_out : tx_out s' = tx_out s ++ kiss_error ERROR_MODEM_TIMEOUT ++ kiss_error ERROR_TXFAILED;
  failed_count : packet_tx_count s' = packet_tx_count s;
  failed_reset : tx_reset s' = true
}.

Lemma sent_refl s : sane (drv s) -> P (drv s) -> sent_frames [] s s.
Proof. constructor; auto. now rewrite app_nil_r. Qed.

Lemma sent_trans f1 f2 s1 s2 s3 :
  sent_frames f1 s1 s2 -> sent_frames f2 s2 s3 -> sent_frames (f1 ++ f2) s1 s3.
Proof.
  intros [] []. constructor; try congruence.
  - rewrite sent_air1, sent_air0. now rewrite app_assoc.
  - rewrite sent_account1, sent_account0. now rewrite foldl_app.
Qed.

Lemma failed_trans f1 f2 l s1 s2 s3 :
  sent_frames f1 s1 s2 -> failed_after f2 l s2 s3 -> failed_after (f1 ++ f2) l s1 s3.
Proof.
  intros [] []. constructor; try congruence.
  - destruct failed_end0 as (d & ? & ? & ? & E & ?). exists d. rewrite E, sent_air0, app_assoc. tauto.
  - rewrite failed_account0, sent_account0. now rewrite foldl_app.
Qed.

(** The lemmas of the write loop share what holds of an open frame. *)
Record open_frame (l : list Z) (s : txst) : Prop := {
  open_sane : sane (drv s); open_keeps : P (drv s); open_pending : pending (drv s) = Some l
}.

Lemma write_sent s b l :
  open_frame l s -> zlen l < 255 ->
  let s' := s <| drv ::= lora_write b |> in
  sent_frames [] s s' /\ open_frame (l ++ [b]) s'.
Proof.
  intros [Hs Hk Hp] Hl. destruct s as [d a o c r]. cbn in *.
  destruct (write_spec b d l Hs Hp Hl) as (E1 & E2 & E3). pose proof (stable_write _ HP b d Hk).
  split; constructor; cbn; auto. now rewrite app_nil_r.
Qed.

Lemma open_frame_sent s header :
  sane (drv s) -> P (drv s) ->
  let s1 := s <| drv ::= fun d => lora_write header (beginPacket None d) |> in
  sent_frames [] s s1 /\ open_frame [header] s1.
Proof.
  intros Hs Hk. destruct s as [d a o c r]. cbn in *.
  destruct (begin_spec None d Hs) as (B1 & B2 & B3). pose proof (stable_begin _ HP None d Hk) as Hb.
  destruct (write_spec header (beginPacket None d) [] B3 B1 ltac:(reflexivity)) as (W1 & W2 & W3).
  pose proof (stable_write _ HP header _ Hb).
  split; constructor; cbn; auto. now rewrite app_nil_r, W2, B2.
Qed.

(** Closing the open frame: it goes on the air, or the modem is reset. *)
Lemma close_frame s l :
  open_frame l s ->
  let '(ok, d) := endPacket (drv s) in
  if ok then sent_frames [l] s ((s <| drv := d |>) <| air ::= add_airtime (zlen l) |>)
  else failed_after [] l s (tx_fail (s <| drv := d |>)).
Proof.
  intros [Hs Hk Hp]. destruct s as [d a o c r]. cbn in *.
  pose proof (end_spec d l Hs Hp) as Ee. pose proof (stable_end _ HP d Hk) as Hke.
  destruct (endPacket d) as [[] d'] eqn:Ed; cbn in *.
  - destruct (Ee eq_refl) as [E1 E2]. constructor; cbn; auto.
  - constructor; cbn; auto. exists d. rewrite app_nil_r, Ed. split_and!; auto.
Qed.

Lemma tx_loop_whole header bs written s l :
  isSplitPacket header = false -> open_frame l s -> written = zlen l -> zlen l + zlen bs <= 255 ->
  exists s', tx_loop add_airtime header bs written s = (Some (zlen l + zlen bs), s') /\
             sent_frames [] s s' /\ open_frame (l ++ bs) s'.
Proof.
  intros Hs. revert written s l. induction bs as [|b bs IH]; intros written s l Ho -> Hl; cbn [tx_loop].
  - exists s. rewrite zlen_nil, Z.add_0_r, app_nil_r. destruct Ho. auto using sent_refl, Build_open_frame.
  - rewrite zlen_cons in *. pose proof (zlen_nonneg bs). pose proof (zlen_nonneg l).
    rewrite Hs, andb_false_r.
    destruct (write_sent s b l Ho ltac:(lia)) as [S1 O1]. cbn zeta in *.
    destruct (IH (u16 (zlen l + 1)) (s <| drv ::= lora_write b |>) (l ++ [b]) O1) as (s' & E & S2 & P2).
    + rewrite zlen_app, zlen_cons, zlen_nil, u16_id; lia.
    + rewrite zlen_app, zlen_cons, zlen_nil. lia.
    + exists s'. rewrite E, zlen_app, zlen_cons, zlen_nil. rewrite <- app_assoc in P2.
      split_and!; [do 2 f_equal; lia|exact (sent_trans [] [] _ _ _ S1 S2)|exact P2].
Qed.

(** The loop over a split payload: all its full frames are sent and the last one
    is open, or one of them failed. *)
Definition loop_sent (header : Z) (pre bs : list Z) (s : txst) (r : option Z * txst) : Prop :=
  fst r = Some (1 + zlen (snd (chunks pre bs))) /\
  sent_frames (map (cons header) (fst (chunks pre bs))) s (snd r) /\
  open_frame (header :: snd (chunks pre bs)) (snd r).
Definition loop_failed (fs : list (list Z)) (s : txst) (r : option Z * txst) : Prop :=
  fst r = None /\ exists before l after, fs = before ++ l :: after /\ failed_after before l s (snd r).

Lemma tx_loop_split header bs pre written s :
  isSplitPacket header = true -> open_frame (header :: pre) s -> zlen pre < 254 -> written = 1 + zlen pre ->
  let r := tx_loop add_airtime header bs written s in
  loop_sent header pre bs s r \/ loop_failed (map (cons header) (fst (chunks pre bs))) s r.
Proof.
  intros Hs. unfold loop_sent, loop_failed. revert pre written s.
  induction bs as [|b bs IH]; intros pre written s Ho Hl ->; cbn zeta; cbn [tx_loop chunks].
  - left. destruct Ho. split_and!; auto using sent_refl, Build_open_frame.
  - pose proof (zlen_nonneg pre).
    destruct (write_sent s b (header :: pre) Ho ltac:(rewrite zlen_cons; lia)) as [S1 O1].
    set (s1 := s <| drv ::= lora_write b |>) in *. cbn zeta in *. cbn [app] in O1.
    rewrite Hs, andb_true_r, u16_id by lia.
    assert (Hlen : zlen (pre ++ [b]) = zlen pre + 1) by (rewrite zlen_app, zlen_cons, zlen_nil; lia).
    rewrite Hlen. replace (1 + zlen pre + 1 =? 255) with (zlen pre + 1 =? 254) by bdestr.
    destruct (Z.eqb_spec (zlen pre + 1) 254) as [E254|N254].
    + pose proof (close_frame s1 _ O1) as Hc. rewrite zlen_cons, Hlen in Hc.
      destruct (endPacket (drv s1)) as [[] d]; cbn [negb].
      * replace (1 + zlen pre + 1) with (1 + (zlen pre + 1)) by lia.
        destruct (open_frame_sent _ header (sent_sane _ _ _ Hc) (sent_keeps _ _ _ Hc)) as [S3 O3].
        pose proof (sent_trans [] _ _ _ _ S1 (sent_trans [_] [] _ _ _ Hc S3)) as S13.
        destruct (IH [] 1 _ O3 ltac:(rewrite zlen_nil; lia) ltac:(rewrite zlen_nil; lia)) as [HL|HL];
          destruct (chunks [] bs) as [c r]; cbn [fst snd map] in *; [left|right].
        -- destruct HL as (E & S4 & P4). split_and!; [exact E| |exact P4]. exact (sent_trans _ _ _ _ _ S13 S4).
        -- destruct HL as (E & before & l & after & -> & F). split; [exact E|].
           exists ((header :: pre ++ [b]) :: before), l, after. split; [reflexivity|].
           exact (failed_trans _ _ _ _ _ _ S13 F).
      * right. split; [reflexivity|]. destruct (chunks [] bs) as [c r].
        exists [], (header :: pre ++ [b]), (map (cons header) c). split; [reflexivity|].
        exact (failed_trans [] _ _ _ _ _ S1 Hc).
    + destruct (IH (pre ++ [b]) (1 + zlen pre + 1) s1 O1 ltac:(lia) ltac:(lia)) as [HL|HL]; [left|right].
      * destruct HL as (E & S4 & P4). split_and!; [exact E| |exact P4]. exact (sent_trans [] _ _ _ _ S1 S4).
      * destruct HL as (E & before & l & after & Ef & F). split; [exact E|]. exists before, l, after.
        split; [exact Ef|]. exact (failed_trans [] _ _ _ _ _ S1 F).
Qed.

(** [transmit], once the modem is open for frames: all the fragments go out, or
    one fails and the device resets. *)
Lemma transmit_outcome_gen (random256 : Z) (implicit : bool) (tbuf : list Z) s :
  is_u8 random256 -> sane (drv s) -> P (drv s) -> zlen tbuf <= MTU ->
  let s0 := s <| packet_tx_count := u32 (packet_tx_count s + 1) |> in
  let s' := transmit add_airtime true false implicit random256 tbuf s in
  sent_frames (fragments random256 tbuf) s0 s' \/
  exists before l after, fragments random256 tbuf = before ++ l :: after /\ failed_after before l s0 s'.
Proof.
  intros Hr Hs Hk Hl. destruct (header_props random256 Hr) as (H1 & H2 & _). cbn zeta.
  set (s0 := s <| packet_tx_count := u32 (packet_tx_count s + 1) |>).
  assert (Hs0 : sane (drv s0)) by (destruct s; exact Hs). assert (Hk0 : P (drv s0)) by (destruct s; exact Hk).
  unfold transmit. cbn [negb].
  change (s <| packet_tx_count ::= fun c => u32 (c + 1) |>) with s0.
  unfold SINGLE_MTU, HEADER_L, fragments. fold (header_of random256).
  fold (split_header random256). change (255 - 1) with 254.
  destruct (Z.leb_spec (zlen tbuf) 254) as [Hle|Hle].
  - rewrite (proj2 (Z.ltb_ge _ _)) by lia. cbn zeta.
    destruct (open_frame_sent s0 (header_of random256) Hs0 Hk0) as [S1 O1]. cbn zeta in *.
    destruct (tx_loop_whole (header_of random256) tbuf 1 _ _ H1 O1 eq_refl)
      as (s' & E & S2 & O2); [rewrite zlen_cons, zlen_nil; lia|].
    rewrite E. pose proof (close_frame s' _ O2) as Hc.
    rewrite zlen_app in Hc. destruct (endPacket (drv s')) as [[] d]; cbn [negb app] in *.
    + left. exact (sent_trans [] _ _ _ _ S1 (sent_trans [] _ _ _ _ S2 Hc)).
    + right. exists [], (header_of random256 :: tbuf), []. split; [reflexivity|].
      exact (failed_trans [] _ _ _ _ _ S1 (failed_trans [] _ _ _ _ _ S2 Hc)).
  - rewrite (proj2 (Z.ltb_lt _ _)) by lia. cbn zeta.
    destruct (open_frame_sent s0 (split_header random256) Hs0 Hk0) as [S1 O1]. cbn zeta in *.
    destruct (tx_loop_split (split_header random256) tbuf [] 1 _ H2 O1 ltac:(reflexivity) eq_refl) as [HL|HL];
      unfold loop_sent, loop_failed in HL; set (r := tx_loop _ _ _ _ _) in *; destruct r as [o s']; destruct (chunks [] tbuf) as [c r]; cbn [fst snd] in HL.
    + destruct HL as (E & S2 & O2). cbn [fst snd] in *. subst o.
      pose proof (close_frame s' _ O2) as Hc. rewrite zlen_cons in Hc.
      destruct (endPacket (drv s')) as [[] d]; cbn [negb].
      * left. exact (sent_trans [] _ _ _ _ S1 (sent_trans _ _ _ _ _ S2 Hc)).
      * right. exists (map (cons (split_header random256)) c), (split_header random256 :: r), [].
        split; [reflexivity|]. rewrite <- (app_nil_r (map _ c)).
        exact (failed_trans [] _ _ _ _ _ S1 (failed_trans _ _ _ _ _ _ S2 Hc)).
    + destruct HL as (E & before & l & after & Ef & F). cbn [fst snd] in *. subst o. right.
      exists before, l, (after ++ [split_header random256 :: r]). rewrite Ef, <- app_assoc. split; [reflexivity|].
      exact (failed_trans [] _ _ _ _ _ S1 F).
Qed.
End TransmitSpec.
Arguments sent_air {D _ _ A} _ _ {_ _ _} _.
Arguments sent_keeps {D _ _ A} _ _ {_ _ _} _.

Section TransmitTheorems.
  Context {D : Type} `{LoraTxLaws D} {A : Type} (add_airtime : Z -> A -> A).
  Abbreviation txst := (txst D A).

Lemma transmit_fragments_gen `{!LoraTxPrompt D} (random256 : Z) (implicit : bool) (tbuf : list Z) (s : txst) :
  is_u8 random256 -> healthy (drv s) -> zlen tbuf <= MTU ->
  sent_frames add_airtime healthy (fragments random256 tbuf) (s <| packet_tx_count := u32 (packet_tx_count s + 1) |>)
    (transmit add_airtime true false implicit random256 tbuf s).
Proof.
  intros Hr Hh Hl.
  destruct (transmit_outcome_gen add_airtime healthy healthy_stable random256 implicit tbuf s Hr (healthy_sane _ Hh) Hh Hl)
    as [Hs|(before & l & after & _ & F)]; [exact Hs|].
  destruct (failed_end _ _ _ _ _ _ F) as (d & Hd & _ & _ & _ & E & _).
  rewrite (healthy_end d Hd) in E. discriminate.
Qed.

(** C5. With a healthy modem [transmit] puts a payload of at most [MTU] bytes on
    the air as exactly its fragments - one frame of header and payload up to 254
    bytes, otherwise frames of 255 bytes with the split flag and the same header
    byte, the last one shorter - accounts the air time of each frame, counts one
    packet, writes nothing to the host and does not reset. *)
(* @prop functional W=transmit_fragments_witness D=transmit,isSplitPacket,MTU,SINGLE_MTU,HEADER_L *)
Theorem transmit_fragments `{!LoraTxPrompt D} (random256 : Z) (implicit : bool) (tbuf : list Z) (s : txst) :
  is_u8 random256 -> healthy (drv s) -> zlen tbuf <= MTU ->
  sent_frames add_airtime healthy (fragments random256 tbuf) (s <| packet_tx_count := u32 (packet_tx_count s + 1) |>)
    (transmit add_airtime true false implicit random256 tbuf s).
Proof. apply transmit_fragments_gen. Qed.

(** Whatever the modem does, [transmit] puts the fragments on the air in order and
    either all of them, with nothing written to the host and no reset, or those
    before one whose [endPacket] failed: then exactly the time-out and the
    failed-transmission errors are written to the host and the device resets. *)
Theorem transmit_outcome (random256 : Z) (implicit : bool) (tbuf : list Z) (s : txst) :
  is_u8 random256 -> sane (drv s) -> zlen tbuf <= MTU ->
  let s0 := s <| packet_tx_count := u32 (packet_tx_count s + 1) |> in
  let s' := transmit add_airtime true false implicit random256 tbuf s in
  sent_frames add_airtime (fun _ => True) (fragments random256 tbuf) s0 s' \/
  exists before l after, fragments random256 tbuf = before ++ l :: after /\
                         failed_after add_airtime (fun _ => True) before l s0 s'.
Proof. intros. apply transmit_outcome_gen; auto using stable_any. Qed.
End TransmitTheorems.

(** A driver that satisfies the laws: the frame being built and the frames sent. *)
Record frame_log := mk_frame_log { fl_pending : list Z; fl_air : list (list Z) }.

#[export] Instance frame_log_tx : LoraTx frame_log := {
  beginPacket _ d := mk_frame_log [] (fl_air d);
  lora_write b d := mk_frame_log (if zlen (fl_pending d) <? 255 then fl_pending d ++ [b] else fl_pending d) (fl_air d);
  endPacket d := (true, mk_frame_log (fl_pending d) (fl_air d ++ [fl_pending d]))
}.

#[export, refine] Instance frame_log_laws : LoraTxLaws frame_log := {
  pending d := Some (fl_pending d); on_air := fl_air; sane _ := True
}.
Proof.
  - done.
  - intros b d l _ [= <-] H. cbn. rewrite (proj2 (Z.ltb_lt _ _) H). done.
  - intros d l _ [= <-]. done.
Defined.

#[export, refine] Instance frame_log_prompt : LoraTxPrompt frame_log := { healthy _ := True }.
Proof. all: done. Defined.

Lemma transmit_fragments_witness :
  let s := mk_txst (mk_frame_log [] []) [] [] 0 false in
  on_air (drv (transmit cons true false false 0xA7 (repeat 1 255) s))
  = [0xA1 :: repeat 1 254; [0xA1; 1]].
Proof.
  pose proof (transmit_fragments cons 0xA7 false (repeat 1 255) (mk_txst (mk_frame_log [] []) [] [] 0 false)
    ltac:(unfold is_u8; lia) I ltac:(vm_compute; discriminate)) as [E _ _ _ _ _ _].
  cbn zeta. rewrite E. reflexivity.
Defined.

(** ** Lemmas: reception *)

(** What one [getPacketData] call adds to the received bytes. *)
Record got (rest : list Z) (s s' : rxst) : Prop := {
  got_buf : zlen (pbuf s') = MTU;
  got_len : read_len s' = read_len s + zlen rest;
  got_data : take (Z.to_nat (read_len s')) (pbuf s') = take (Z.to_nat (read_len s)) (pbuf s) ++ rest;
  got_seq : seq s' = seq s;
  got_mem : memory_low s' = memory_low s;
  got_queue : modem_packet_queue s' = modem_packet_queue s
}.

Lemma get_packet_data_got rest s :
  0 <= read_len s -> read_len s + zlen rest <= MTU -> zlen (pbuf s) = MTU ->
  got rest s (get_packet_data (length rest) rest s).
Proof.
  revert s. induction rest as [|b rest IH]; intros [sq rl pb ml q] H0 Hl Hp; cbn [length get_packet_data] in *.
  - constructor; cbn; rewrite ?zlen_nil, ?app_nil_r; auto; lia.
  - rewrite zlen_cons in *. pose proof (zlen_nonneg rest). cbn in H0, Hl, Hp. cbn [read_len].
    rewrite (proj2 (Z.ltb_lt _ _)) by lia. cbn [lora_read].
    destruct (IH (mk_rxst sq (u16 (rl + 1)) (zset pb rl b) ml q)) as [];
      cbn in *; rewrite ?zlen_zset, ?u16_id in * by (unfold MTU in *; lia); try lia.
    constructor; cbn in *; rewrite ?u16_id by (unfold MTU in *; lia); auto; [rewrite got_len0, zlen_cons; lia|].
    rewrite got_data0, zset_in by (unfold MTU in *; lia). unfold zlen, MTU in *.
    replace (Z.to_nat (rl + 1)) with (S (Z.to_nat rl)) by lia.
    rewrite (take_S_r _ _ b) by (apply list_lookup_insert_eq; lia).
    rewrite take_insert_ge, <- app_assoc by lia. reflexivity.
Qed.

Lemma getPacketData_got rest s :
  0 <= read_len s -> read_len s + zlen rest <= MTU -> zlen (pbuf s) = MTU ->
  got rest s (getPacketData (zlen rest) rest s).
Proof.
  intros H0 Hl Hp. pose proof (zlen_nonneg rest). unfold getPacketData.
  rewrite u16_id by (unfold MTU in Hl; lia). unfold zlen at 1. rewrite Nat2Z.id.
  now apply get_packet_data_got.
Qed.

(** A first fragment: the buffer restarts with its bytes. *)
Lemma receive_first rssi snr h rest s :
  isSplitPacket h = true -> seq s <> packetSequence h -> zlen rest <= MTU -> zlen (pbuf s) = MTU ->
  let s' := receive_callback false true rssi snr (h :: rest) s in
  seq s' = packetSequence h /\ zlen (pbuf s') = MTU /\ read_len s' = zlen rest /\
  take (Z.to_nat (read_len s')) (pbuf s') = rest /\ memory_low s' = memory_low s /\
  modem_packet_queue s' = modem_packet_queue s.
Proof.
  intros Hh Hs Hl Hp. cbn zeta. unfold receive_callback. cbn [negb lora_read].
  replace (zlen (h :: rest) - 1) with (zlen rest) by (rewrite zlen_cons; lia).
  rewrite Hh. rewrite (proj2 (Z.eqb_neq (seq s) (packetSequence h)) Hs). cbn [andb negb].
  set (s0 := s <| read_len := 0 |> <| seq := packetSequence h |>).
  assert (G : got rest s0 (getPacketData (zlen rest) rest s0)).
  { destruct s. apply getPacketData_got; cbn in *; lia. }
  destruct G. subst s0. destruct s as [sq rl pb ml q]. cbn in *.
  destruct (Z.eqb_spec sq SEQ_UNSET); cbn; rewrite ?got_data0, ?got_len0; auto 10.
Qed.

(** The queue after one more packet, and the receive state between packets. *)
Definition queued (rssi snr : Z) (p : list Z) (s s' : rxst) : Prop :=
  rx_idle s' /\ memory_low s' = memory_low s /\
  modem_packet_queue s' = modem_packet_queue s ++ [mk_modem_packet (zlen p) rssi snr p].

Lemma deliver_queued rssi snr p s0 s :
  zlen (pbuf s) = MTU -> seq s = SEQ_UNSET -> read_len s = zlen p ->
  take (Z.to_nat (read_len s)) (pbuf s) = p ->
  memory_low s = memory_low s0 -> modem_packet_queue s = modem_packet_queue s0 ->
  zlen (modem_packet_queue s0) < MODEM_QUEUE_SIZE ->
  queued rssi snr p s0 (deliver true rssi snr s).
Proof.
  intros Hp Hs Hl Hd Hm Hq Hn. unfold deliver. cbn [negb].
  destruct s as [sq rl pb ml q]. cbn in Hp, Hs, Hl, Hd, Hm, Hq. subst. cbn.
  rewrite (proj2 (Z.ltb_lt _ _) Hn). cbn.
  repeat split; cbn; auto. now rewrite Hd.
Qed.

(** A second fragment completes the packet. *)
Lemma receive_second rssi snr h rest s :
  isSplitPacket h = true -> packetSequence h <> SEQ_UNSET -> seq s = packetSequence h ->
  0 <= read_len s -> read_len s + zlen rest <= MTU -> zlen (pbuf s) = MTU ->
  zlen (modem_packet_queue s) < MODEM_QUEUE_SIZE ->
  queued rssi snr (take (Z.to_nat (read_len s)) (pbuf s) ++ rest) s
    (receive_callback false true rssi snr (h :: rest) s).
Proof.
  intros Hh Hu Hs H0 Hl Hp Hq. unfold receive_callback. cbn [negb lora_read].
  replace (zlen (h :: rest) - 1) with (zlen rest) by (rewrite zlen_cons; lia).
  assert (Hz : zlen (take (Z.to_nat (read_len s)) (pbuf s)) = read_len s).
  { unfold zlen in *. rewrite length_take. pose proof (zlen_nonneg rest). unfold zlen in *. lia. }
  assert (Hn : zlen (take (Z.to_nat (read_len s)) (pbuf s) ++ rest) = read_len s + zlen rest)
    by (rewrite zlen_app; lia).
  pose proof (getPacketData_got rest s H0 Hl Hp) as [].
  rewrite Hs, Hh, Z.eqb_refl. rewrite (proj2 (Z.eqb_neq (packetSequence h) SEQ_UNSET) Hu). cbn [andb negb].
  remember (getPacketData (zlen rest) rest s) as s1 eqn:E. clear E.
  apply deliver_queued; destruct s1; cbn in *; auto; congruence.
Qed.

(** A whole packet. *)
Lemma receive_single rssi snr h rest s :
  isSplitPacket h = false -> rx_idle s -> zlen rest <= MTU ->
  zlen (modem_packet_queue s) < MODEM_QUEUE_SIZE ->
  queued rssi snr rest s (receive_callback false true rssi snr (h :: rest) s).
Proof.
  intros Hh (Hs & H0 & Hp) Hl Hq. unfold receive_callback. cbn [negb lora_read].
  replace (zlen (h :: rest) - 1) with (zlen rest) by (rewrite zlen_cons; lia).
  pose proof (getPacketData_got rest s ltac:(lia) ltac:(lia) Hp) as [].
  rewrite Hs, Hh, Z.eqb_refl. cbn [andb negb]. rewrite H0 in got_data0, got_len0.
  apply deliver_queued; auto; congruence.
Qed.

Lemma packetSequence_split r : is_u8 r -> packetSequence (split_header r) <> SEQ_UNSET.
Proof. intros Hr. apply header_props in Hr as (_ & _ & H). now apply Z.eqb_neq. Qed.

(** The two frames of a payload that needs two. *)
Lemma fragments_two r p :
  254 < zlen p <= 507 ->
  exists a b, p = a ++ b /\ zlen a = 254 /\ zlen b <= 253 /\
  fragments r p = [split_header r :: a; split_header r :: b].
Proof.
  intros Hp. exists (take 254 p), (drop 254 p). unfold zlen in *.
  rewrite length_take, length_drop. split_and!; [now rewrite take_drop|lia|lia|].
  unfold fragments, zlen. rewrite (proj2 (Z.leb_gt _ _)) by lia. cbn zeta.
  fold (header_of r). fold (split_header r).
  rewrite <- (take_drop 254 p) at 1.
  rewrite (chunks_split []); unfold zlen; [|rewrite length_take; cbn [length]; lia|].
  - rewrite chunks_short by (unfold zlen; rewrite length_drop; cbn [length]; lia). reflexivity.
  - intros E. apply (f_equal length) in E. rewrite length_take in E. cbn [length] in E. lia.
Qed.

Lemma link_roundtrip_gen (rssi snr r : Z) (p : list Z) (s : rxst) :
  is_u8 r -> zlen p <= MTU - 1 -> rx_idle s -> zlen (modem_packet_queue s) < MODEM_QUEUE_SIZE ->
  queued rssi snr p s (receive_all rssi snr (fragments r p) s).
Proof.
  intros Hr Hl Hi Hq. destruct (header_props r Hr) as (H1 & H2 & _).
  destruct (Z.leb_spec (zlen p) 254) as [Hs|Hs].
  - unfold fragments. rewrite (proj2 (Z.leb_le _ _) Hs). fold (header_of r).
    cbn [receive_all foldl]. apply receive_single; auto. unfold MTU. lia.
  - destruct (fragments_two r p) as (a & b & -> & Ha & Hb & ->); [unfold MTU in Hl; lia|].
    destruct Hi as (Es & E0 & Ep). cbn [receive_all foldl].
    pose proof (packetSequence_split r Hr) as Hu.
    destruct (receive_first rssi snr (split_header r) a s H2) as (F1 & F2 & F3 & F4 & F5 & F6);
      [congruence|unfold MTU; lia|assumption|].
    set (s1 := receive_callback false true rssi snr (split_header r :: a) s) in *.
    destruct (receive_second rssi snr (split_header r) b s1) as (G1 & G2 & G3);
      auto; rewrite ?F3, ?F6; try assumption; rewrite ?Ha; unfold MTU; try lia.
    rewrite F4 in *. split_and!; congruence || assumption.
Qed.

(** C6. Fragmentation and reassembly are inverse: a receiver between packets that
    gets the frames [transmit] sends for a payload of 1 to 507 bytes queues exactly
    that payload, once, and is between packets again, whatever random header byte
    the sender drew. *)
(* @prop roundtrip W=link_roundtrip_witness D=receive_callback,getPacketData,deliver,isSplitPacket,packetSequence *)
Theorem link_roundtrip (rssi snr r : Z) (p : list Z) (s : rxst) :
  is_u8 r -> zlen p <= MTU - 1 -> rx_idle s -> zlen (modem_packet_queue s) < MODEM_QUEUE_SIZE ->
  queued rssi snr p s (receive_all rssi snr (fragments r p) s).
Proof. apply link_roundtrip_gen. Qed.

Lemma link_roundtrip_witness :
  let p := map Z.of_nat (List.seq 0 300) in
  queued (-60) 8 (map u8 p) rx_init (receive_all (-60) 8 (fragments 0xA7 (map u8 p)) rx_init).
Proof.
  apply (link_roundtrip (-60) 8 0xA7 (map u8 (map Z.of_nat (List.seq 0 300))) rx_init);
    [unfold is_u8; lia|vm_compute; discriminate|repeat split|reflexivity].
Defined.

(** A payload of exactly [MTU] bytes leaves the receiver in the wrong state:
    its two full frames deliver it, but the sender closes with a third frame that
    holds only a header, which the receiver takes for the first part of a new
    packet.  The next split payload whose header draws the same sequence number is
    then cut: only its first 254 bytes are delivered as a packet. *)
Theorem mtu_payload_desynchronises (rssi snr r : Z) (p q : list Z) (s : rxst) :
  is_u8 r -> zlen p = MTU -> 254 < zlen q <= 507 -> rx_idle s -> zlen (modem_packet_queue s) < MODEM_QUEUE_SIZE - 1 ->
  let s1 := receive_all rssi snr (fragments r p) s in
  let s2 := receive_all rssi snr (take 1 (fragments r q)) s1 in
  seq s1 = packetSequence (split_header r) /\
  modem_packet_queue s1 = modem_packet_queue s ++ [mk_modem_packet MTU rssi snr p] /\
  modem_packet_queue s2 = modem_packet_queue s1 ++ [mk_modem_packet 254 rssi snr (take 254 q)].
Proof.
  intros Hr Hp Hq Hi Hn. destruct (header_props r Hr) as (_ & H2 & _).
  pose proof (packetSequence_split r Hr) as Hu. set (h := split_header r) in *.
  unfold MTU, MODEM_QUEUE_SIZE in *.
  assert (La : zlen (take 254 p) = 254) by (unfold zlen in *; rewrite length_take; lia).
  assert (Lb : zlen (drop 254 p) = 254) by (unfold zlen in *; rewrite length_drop; lia).
  assert (E3 : fragments r p = [h :: take 254 p; h :: drop 254 p; [h]]).
  { unfold fragments. rewrite Hp. cbn [Z.leb Z.compare Pos.compare Pos.compare_cont].
    fold (header_of r). fold (split_header r). fold h.
    assert (N : forall l : list Z, zlen l = 254 -> l <> []) by (now intros [|]).
    assert (Ec : chunks [] (take 254 p ++ drop 254 p ++ []) = ([take 254 p; drop 254 p], []))
      by (rewrite !(chunks_split []) by (rewrite ?zlen_nil; auto; lia); reflexivity).
    rewrite app_nil_r, take_drop in Ec. now rewrite Ec. }
  destruct (fragments_two r q) as (a & b & -> & Ha & Hb & Eq); [lia|].
  cbn zeta. rewrite E3, Eq. fold h. cbn [receive_all foldl take].
  rewrite take_app_length' by (unfold zlen in Ha; lia).
  destruct Hi as (Es & E0 & Ep).
  destruct (receive_first rssi snr h (take 254 p) s H2) as (F1 & F2 & F3 & F4 & F5 & F6);
    [congruence|unfold MTU; lia|assumption|].
  set (s1 := receive_callback false true rssi snr (h :: take 254 p) s) in *.
  destruct (receive_second rssi snr h (drop 254 p) s1) as ((G0 & G1 & G1') & G2 & G3);
    auto; rewrite ?F3, ?F6; try assumption; unfold MTU, MODEM_QUEUE_SIZE; try lia.
  set (s2 := receive_callback false true rssi snr (h :: drop 254 p) s1) in *.
  rewrite F4, take_drop, Hp, F6 in G3.
  destruct (receive_first rssi snr h [] s2 H2) as (K1 & K2 & K3 & K4 & K5 & K6);
    [congruence|rewrite zlen_nil; unfold MTU; lia|assumption|].
  set (s3 := receive_callback false true rssi snr [h] s2) in *. rewrite zlen_nil in K3.
  destruct (receive_second rssi snr h a s3) as (_ & _ & L3);
    auto; rewrite ?K3, ?K6, ?G3, ?zlen_app, ?zlen_cons, ?zlen_nil; unfold MTU, MODEM_QUEUE_SIZE; try lia.
  split_and!; [exact K1|reflexivity|].
  rewrite L3, K4, K6, G3, app_nil_l, Ha. reflexivity.
Qed.

Lemma mtu_payload_desynchronises_witness :
  modem_packet_queue (receive_all 0 0 (take 1 (fragments 0x35 (repeat 9 300)))
     (receive_all 0 0 (fragments 0x35 (repeat 7 508)) rx_init))
  = modem_packet_queue (receive_all 0 0 (fragments 0x35 (repeat 7 508)) rx_init)
    ++ [mk_modem_packet 254 0 0 (repeat 9 254)].
Proof.
  apply (mtu_payload_desynchronises 0 0 0x35 (repeat 7 508) (repeat 9 300) rx_init);
    [unfold is_u8; lia|reflexivity|vm_compute; split; congruence|repeat split|reflexivity].
Defined.

(** When [malloc] fails for a whole packet, its bytes stay in the receive
    buffer with their length, and the next packet is delivered with them in front. *)
Theorem failed_malloc_joins_packets (rssi snr r : Z) (p q : list Z) (s : rxst) :
  is_u8 r -> rx_idle s -> zlen p + zlen q <= MTU -> zlen (modem_packet_queue s) < MODEM_QUEUE_SIZE ->
  let s1 := receive_callback false false rssi snr (header_of r :: p) s in
  memory_low s1 = true /\ modem_packet_queue s1 = modem_packet_queue s /\
  modem_packet_queue (receive_callback false true rssi snr (header_of r :: q) s1)
  = modem_packet_queue s ++ [mk_modem_packet (zlen (p ++ q)) rssi snr (p ++ q)].
Proof.
  intros Hr (Es & E0 & Ep) Hl Hq. destruct (header_props r Hr) as (H1 & _ & _).
  pose proof (zlen_nonneg p). pose proof (zlen_nonneg q).
  pose proof (getPacketData_got p s ltac:(lia) ltac:(lia) Ep) as [].
  cbn zeta. unfold receive_callback at 1 2 4. cbn [negb lora_read].
  replace (zlen (header_of r :: p) - 1) with (zlen p) by (rewrite zlen_cons; lia).
  rewrite H1, Es, Z.eqb_refl. cbn [andb negb deliver].
  remember (getPacketData (zlen p) p s) as s1 eqn:E. clear E.
  rewrite E0 in got_len0, got_data0. cbn [Z.to_nat take app] in got_data0.
  set (s2 := s1 <| memory_low := true |>).
  assert (R : seq s2 = SEQ_UNSET /\ read_len s2 = zlen p /\ zlen (pbuf s2) = MTU /\
              take (Z.to_nat (read_len s2)) (pbuf s2) = p /\ memory_low s2 = true /\
              modem_packet_queue s2 = modem_packet_queue s).
  { subst s2. destruct s1. cbn in *. split_and!; auto; congruence. }
  clearbody s2. destruct R as (R1 & R2 & R3 & R4 & R5 & R6). split_and!; auto.
  pose proof (getPacketData_got q s2 ltac:(lia) ltac:(lia) R3) as [].
  unfold receive_callback. cbn [negb lora_read].
  replace (zlen (header_of r :: q) - 1) with (zlen q) by (rewrite zlen_cons; lia).
  rewrite H1, R1, Z.eqb_refl. cbn [andb negb].
  destruct (deliver_queued rssi snr (p ++ q) s2 (getPacketData (zlen q) q s2)) as (_ & _ & G);
    try (rewrite ?zlen_app, ?R6; congruence || assumption). rewrite R6 in G. exact G.
Qed.

Lemma failed_malloc_joins_packets_witness :
  modem_packet_queue (receive_callback false true 0 0 [0x20; 4; 5]
    (receive_callback false false 0 0 [0x20; 1; 2; 3] rx_init))
  = [mk_modem_packet 5 0 0 [1; 2; 3; 4; 5]].
Proof.
  apply (failed_malloc_joins_packets 0 0 0x25 [1; 2; 3] [4; 5] rx_init);
    [unfold is_u8; lia|repeat split|vm_compute; discriminate|reflexivity].
Defined.

(** [loop()] copies the packet it dequeues into [pbuf], the buffer reassembly
    uses.  If that happens between the two fragments of a split packet - a driver
    that calls [receive_callback] from its interrupt can do so - the packet that
    completes starts with the bytes of the dequeued one. *)
Theorem dequeue_clobbers_reassembly (rssi snr h : Z) (mp : modem_packet) (a b : list Z) (s : rxst) :
  isSplitPacket h = true -> packetSequence h <> SEQ_UNSET -> rx_idle s ->
  modem_packet_queue s = [mp] -> zlen (mp_data mp) <= zlen a -> zlen a + zlen b <= MTU ->
  let s1 := snd (modem_dequeue (receive_callback false true rssi snr (h :: a) s)) in
  modem_packet_queue (receive_callback false true rssi snr (h :: b) s1)
  = [mk_modem_packet (zlen (a ++ b)) rssi snr (mp_data mp ++ drop (length (mp_data mp)) a ++ b)].
Proof.
  intros Hh Hu (Es & E0 & Ep) Hm Hd Hl. pose proof (zlen_nonneg b). pose proof (zlen_nonneg (mp_data mp)).
  destruct (receive_first rssi snr h a s Hh) as (F1 & F2 & F3 & F4 & F5 & F6); [congruence|lia|assumption|].
  remember (receive_callback false true rssi snr (h :: a) s) as s0 eqn:E. clear E. cbn zeta.
  unfold modem_dequeue. rewrite F6, Hm. cbn [snd].
  set (s1 := _ <| pbuf := _ |>).
  assert (Et : take (Z.to_nat (zlen a)) (pbuf s1) = mp_data mp ++ drop (length (mp_data mp)) a).
  { subst s1. destruct s0 as [sq rl pb ml qq]. cbn in *. subst rl. unfold zlen in *.
    rewrite Nat2Z.id in *. rewrite take_app_ge, take_drop_commute by lia.
    now replace (length (mp_data mp) + (length a - length (mp_data mp)))%nat with (length a) by lia; rewrite F4. }
  assert (R : seq s1 = packetSequence h /\ read_len s1 = zlen a /\ zlen (pbuf s1) = MTU /\
              modem_packet_queue s1 = []).
  { subst s1. destruct s0 as [sq rl pb ml qq]. cbn in *. split_and!; auto.
    unfold zlen, MTU in *. rewrite length_app, length_drop. lia. }
  clearbody s1. destruct R as (R1 & R2 & R3 & R4).
  destruct (receive_second rssi snr h b s1) as (_ & _ & G); auto; rewrite ?R2, ?R4; try lia; try reflexivity.
  rewrite G, R4, R2, Et, <- app_assoc. cbn [app]. do 2 f_equal.
  unfold zlen in *. rewrite !length_app, length_drop. lia.
Qed.

Lemma dequeue_clobbers_reassembly_witness :
  let s := mk_rxst SEQ_UNSET 0 (repeat 0 508) false [mk_modem_packet 2 0 0 [7; 7]] in
  modem_packet_queue (receive_callback false true 0 0 [0x21; 4]
    (snd (modem_dequeue (receive_callback false true 0 0 [0x21; 1; 2; 3] s))))
  = [mk_modem_packet 4 0 0 [7; 7; 3; 4]].
Proof.
  apply (dequeue_clobbers_reassembly 0 0 0x21 (mk_modem_packet 2 0 0 [7; 7]) [1; 2; 3] [4]);
    [reflexivity|vm_compute; discriminate|repeat split|reflexivity|vm_compute; discriminate|vm_compute; discriminate].
Defined.
