(* ===== verification/Boards.v ===== *)
(** * Boards and build configuration (Boards.h, Modem.h)

    The platform, product, board, model and modem codes, and the class [Board]
    of the build-time switches the modelled code tests with [#if].  The other
    files are parametrised by it, so their theorems hold for every board; the
    instances at the end are the configurations the witnesses use. *)
From S2P Require Import Prelude.

(* @src Boards.h:21-21 PLATFORM_AVR *)
Definition PLATFORM_AVR : Z := 0x90.
(* @src Boards.h:22-22 PLATFORM_ESP32 *)
Definition PLATFORM_ESP32 : Z := 0x80.
(* @src Boards.h:23-23 PLATFORM_NRF52 *)
Definition PLATFORM_NRF52 : Z := 0x70.
(* @src Boards.h:25-25 MCU_1284P *)
Definition MCU_1284P : Z := 0x91.
(* @src Boards.h:26-26 MCU_2560 *)
Definition MCU_2560 : Z := 0x92.
(* @src Boards.h:27-27 MCU_ESP32 *)
Definition MCU_ESP32 : Z := 0x81.
(* @src Boards.h:28-28 MCU_NRF52 *)
Definition MCU_NRF52 : Z := 0x71.
(* @src Boards.h:31-31 PRODUCT_RNODE *)
Definition PRODUCT_RNODE : Z := 0x03.
(* @src Boards.h:32-32 BOARD_RNODE *)
Definition BOARD_RNODE : Z := 0x31.
(* @src Boards.h:33-33 MODEL_A4 *)
Definition MODEL_A4 : Z := 0xA4.
(* @src Boards.h:34-34 MODEL_A9 *)
Definition MODEL_A9 : Z := 0xA9.
(* @src Boards.h:36-36 BOARD_RNODE_NG_20 *)
Definition BOARD_RNODE_NG_20 : Z := 0x40.
(* @src Boards.h:37-37 MODEL_A3 *)
Definition MODEL_A3 : Z := 0xA3.
(* @src Boards.h:38-38 MODEL_A8 *)
Definition MODEL_A8 : Z := 0xA8.
(* @src Boards.h:40-40 BOARD_RNODE_NG_21 *)
Definition BOARD_RNODE_NG_21 : Z := 0x41.
(* @src Boards.h:41-41 MODEL_A2 *)
Definition MODEL_A2 : Z := 0xA2.
(* @src Boards.h:42-42 MODEL_A7 *)
Definition MODEL_A7 : Z := 0xA7.
(* @src Boards.h:44-44 BOARD_T3S3 *)
Definition BOARD_T3S3 : Z := 0x42.
(* @src Boards.h:45-45 MODEL_A1 *)
Definition MODEL_A1 : Z := 0xA1.
(* @src Boards.h:46-46 MODEL_A5 *)
Definition MODEL_A5 : Z := 0xA5.
(* @src Boards.h:47-47 MODEL_A6 *)
Definition MODEL_A6 : Z := 0xA6.
(* @src Boards.h:48-48 MODEL_AA *)
Definition MODEL_AA : Z := 0xAA.
(* @src Boards.h:49-49 MODEL_AC *)
Definition MODEL_AC : Z := 0xAC.
(* @src Boards.h:51-51 PRODUCT_TBEAM *)
Definition PRODUCT_TBEAM : Z := 0xE0.
(* @src Boards.h:52-52 BOARD_TBEAM *)
Definition BOARD_TBEAM : Z := 0x33.
(* @src Boards.h:53-53 MODEL_E4 *)
Definition MODEL_E4 : Z := 0xE4.
(* @src Boards.h:54-54 MODEL_E9 *)
Definition MODEL_E9 : Z := 0xE9.
(* @src Boards.h:55-55 MODEL_E3 *)
Definition MODEL_E3 : Z := 0xE3.
(* @src Boards.h:56-56 MODEL_E8 *)
Definition MODEL_E8 : Z := 0xE8.
(* @src Boards.h:58-58 PRODUCT_TDECK_V1 *)
Definition PRODUCT_TDECK_V1 : Z := 0xD0.
(* @src Boards.h:59-59 BOARD_TDECK *)
Definition BOARD_TDECK : Z := 0x3B.
(* @src Boards.h:60-60 MODEL_D4 *)
Definition MODEL_D4 : Z := 0xD4.
(* @src Boards.h:61-61 MODEL_D9 *)
Definition MODEL_D9 : Z := 0xD9.
(* @src Boards.h:63-63 PRODUCT_TBEAM_S_V1 *)
Definition PRODUCT_TBEAM_S_V1 : Z := 0xEA.
(* @src Boards.h:64-64 PRODUCT_TBEAM_S_V3 *)
Definition PRODUCT_TBEAM_S_V3 : Z := 0xEC.
(* @src Boards.h:65-65 BOARD_TBEAM_S_V1 *)
Definition BOARD_TBEAM_S_V1 : Z := 0x3D.
(* @src Boards.h:66-66 BOARD_TBEAM_S_V3 *)
Definition BOARD_TBEAM_S_V3 : Z := 0x43.
(* @src Boards.h:67-67 MODEL_DB *)
Definition MODEL_DB : Z := 0xDB.
(* @src Boards.h:68-68 MODEL_DC *)
Definition MODEL_DC : Z := 0xDC.
(* @src Boards.h:70-70 PRODUCT_TBEAM_1W *)
Definition PRODUCT_TBEAM_1W : Z := 0xE1.
(* @src Boards.h:71-71 BOARD_TBEAM_1W *)
Definition BOARD_TBEAM_1W : Z := 0x45.
(* @src Boards.h:72-72 MODEL_E5 *)
Definition MODEL_E5 : Z := 0xE5.
(* @src Boards.h:73-73 MODEL_E6 *)
Definition MODEL_E6 : Z := 0xE6.
(* @src Boards.h:75-75 PRODUCT_XIAO_S3 *)
Definition PRODUCT_XIAO_S3 : Z := 0xEB.
(* @src Boards.h:76-76 BOARD_XIAO_S3 *)
Definition BOARD_XIAO_S3 : Z := 0x3E.
(* @src Boards.h:77-77 MODEL_DE *)
Definition MODEL_DE : Z := 0xDE.
(* @src Boards.h:78-78 MODEL_DD *)
Definition MODEL_DD : Z := 0xDD.
(* @src Boards.h:80-80 PRODUCT_T32_10 *)
Definition PRODUCT_T32_10 : Z := 0xB2.
(* @src Boards.h:81-81 BOARD_LORA32_V1_0 *)
Definition BOARD_LORA32_V1_0 : Z := 0x39.
(* @src Boards.h:82-82 MODEL_BA *)
Definition MODEL_BA : Z := 0xBA.
(* @src Boards.h:83-83 MODEL_BB *)
Definition MODEL_BB : Z := 0xBB.
(* @src Boards.h:85-85 PRODUCT_T32_20 *)
Definition PRODUCT_T32_20 : Z := 0xB0.
(* @src Boards.h:86-86 BOARD_LORA32_V2_0 *)
Definition BOARD_LORA32_V2_0 : Z := 0x36.
(* @src Boards.h:87-87 MODEL_B3 *)
Definition MODEL_B3 : Z := 0xB3.
(* @src Boards.h:88-88 MODEL_B8 *)
Definition MODEL_B8 : Z := 0xB8.
(* @src Boards.h:90-90 PRODUCT_T32_21 *)
Definition PRODUCT_T32_21 : Z := 0xB1.
(* @src Boards.h:91-91 BOARD_LORA32_V2_1 *)
Definition BOARD_LORA32_V2_1 : Z := 0x37.
(* @src Boards.h:92-92 MODEL_B4 *)
Definition MODEL_B4 : Z := 0xB4.
(* @src Boards.h:93-93 MODEL_B9 *)
Definition MODEL_B9 : Z := 0xB9.
(* @src Boards.h:95-95 PRODUCT_H32_V2 *)
Definition PRODUCT_H32_V2 : Z := 0xC0.
(* @src Boards.h:96-96 BOARD_HELTEC32_V2 *)
Definition BOARD_HELTEC32_V2 : Z := 0x38.
(* @src Boards.h:97-97 MODEL_C4 *)
Definition MODEL_C4 : Z := 0xC4.
(* @src Boards.h:98-98 MODEL_C9 *)
Definition MODEL_C9 : Z := 0xC9.
(* @src Boards.h:100-100 PRODUCT_H32_V3 *)
Definition PRODUCT_H32_V3 : Z := 0xC1.
(* @src Boards.h:101-101 BOARD_HELTEC32_V3 *)
Definition BOARD_HELTEC32_V3 : Z := 0x3A.
(* @src Boards.h:102-102 MODEL_C5 *)
Definition MODEL_C5 : Z := 0xC5.
(* @src Boards.h:103-103 MODEL_CA *)
Definition MODEL_CA : Z := 0xCA.
(* @src Boards.h:105-105 PRODUCT_H32_V4 *)
Definition PRODUCT_H32_V4 : Z := 0xC3.
(* @src Boards.h:106-106 BOARD_HELTEC32_V4 *)
Definition BOARD_HELTEC32_V4 : Z := 0x3F.
(* @src Boards.h:107-107 MODEL_C8 *)
Definition MODEL_C8 : Z := 0xC8.
(* @src Boards.h:116-116 PRODUCT_H32_V4_R8 *)
Definition PRODUCT_H32_V4_R8 : Z := 0xCB.
(* @src Boards.h:118-118 PRODUCT_HELTEC_T114 *)
Definition PRODUCT_HELTEC_T114 : Z := 0xC2.
(* @src Boards.h:119-119 BOARD_HELTEC_T114 *)
Definition BOARD_HELTEC_T114 : Z := 0x3C.
(* @src Boards.h:120-120 MODEL_C6 *)
Definition MODEL_C6 : Z := 0xC6.
(* @src Boards.h:121-121 MODEL_C7 *)
Definition MODEL_C7 : Z := 0xC7.
(* @src Boards.h:123-123 PRODUCT_HELTEC_T096 *)
Definition PRODUCT_HELTEC_T096 : Z := 0xD1.
(* @src Boards.h:124-124 BOARD_HELTEC_T096 *)
Definition BOARD_HELTEC_T096 : Z := 0xD2.
(* @src Boards.h:125-125 MODEL_D3 *)
Definition MODEL_D3 : Z := 0xD3.
(* @src Boards.h:126-126 MODEL_D5 *)
Definition MODEL_D5 : Z := 0xD5.
(* @src Boards.h:128-128 PRODUCT_TECHO *)
Definition PRODUCT_TECHO : Z := 0x15.
(* @src Boards.h:129-129 BOARD_TECHO *)
Definition BOARD_TECHO : Z := 0x44.
(* @src Boards.h:130-130 MODEL_16 *)
Definition MODEL_16 : Z := 0x16.
(* @src Boards.h:131-131 MODEL_17 *)
Definition MODEL_17 : Z := 0x17.
(* @src Boards.h:133-133 PRODUCT_RAK4631 *)
Definition PRODUCT_RAK4631 : Z := 0x10.
(* @src Boards.h:134-134 BOARD_RAK4631 *)
Definition BOARD_RAK4631 : Z := 0x51.
(* @src Boards.h:135-135 MODEL_11 *)
Definition MODEL_11 : Z := 0x11.
(* @src Boards.h:136-136 MODEL_12 *)
Definition MODEL_12 : Z := 0x12.
(* @src Boards.h:147-147 PRODUCT_RAK3401 *)
Definition PRODUCT_RAK3401 : Z := 0x18.
(* @src Boards.h:148-148 BOARD_RAK3401 *)
Definition BOARD_RAK3401 : Z := 0x48.
(* @src Boards.h:149-149 MODEL_13 *)
Definition MODEL_13 : Z := 0x13.
(* @src Boards.h:151-151 PRODUCT_HMBRW *)
Definition PRODUCT_HMBRW : Z := 0xF0.
(* @src Boards.h:152-152 BOARD_HMBRW *)
Definition BOARD_HMBRW : Z := 0x32.
(* @src Boards.h:153-153 BOARD_HUZZAH32 *)
Definition BOARD_HUZZAH32 : Z := 0x34.
(* @src Boards.h:154-154 BOARD_GENERIC_ESP32 *)
Definition BOARD_GENERIC_ESP32 : Z := 0x35.
(* @src Boards.h:155-155 BOARD_GENERIC_NRF52 *)
Definition BOARD_GENERIC_NRF52 : Z := 0x50.
(* @src Boards.h:156-156 MODEL_FD *)
Definition MODEL_FD : Z := 0xFD.
(* @src Boards.h:157-157 MODEL_FE *)
Definition MODEL_FE : Z := 0xFE.
(* @src Boards.h:158-158 MODEL_FF *)
Definition MODEL_FF : Z := 0xFF.
(* @src Boards.h:160-160 BOARD_MESHPOE_S3 *)
Definition BOARD_MESHPOE_S3 : Z := 0xF1.
(* @src Boards.h:161-161 BOARD_MESHADVENTURER_S3 *)
Definition BOARD_MESHADVENTURER_S3 : Z := 0xF2.
(* @src Boards.h:162-162 BOARD_AETHERNODE *)
Definition BOARD_AETHERNODE : Z := 0xF3.
(* @src Boards.h:163-163 BOARD_MESHADVENTURER *)
Definition BOARD_MESHADVENTURER : Z := 0xF4.
(* @src Boards.h:164-164 BOARD_PROMICRO *)
Definition BOARD_PROMICRO : Z := 0xF5.
(* @src Boards.h:165-165 BOARD_DIY_V1 *)
Definition BOARD_DIY_V1 : Z := 0xF6.
(* @src Boards.h:166-166 BOARD_AETHERNODE_S3 *)
Definition BOARD_AETHERNODE_S3 : Z := 0xF7.
(* @src Boards.h:178-178 BOARD_HELTEC32_V4_R8 *)
Definition BOARD_HELTEC32_V4_R8 : Z := 0xF8.
(* @src Boards.h:188-188 PRODUCT_HELTEC_WTRACKER_V2 *)
Definition PRODUCT_HELTEC_WTRACKER_V2 : Z := 0xD8.
(* @src Boards.h:189-189 BOARD_HELTEC_WTRACKER_V2 *)
Definition BOARD_HELTEC_WTRACKER_V2 : Z := 0x46.
(* @src Boards.h:190-190 MODEL_D6 *)
Definition MODEL_D6 : Z := 0xD6.
(* @src Boards.h:191-191 MODEL_D7 *)
Definition MODEL_D7 : Z := 0xD7.
(* @src Boards.h:205-205 PRODUCT_HELTEC_T1 *)
Definition PRODUCT_HELTEC_T1 : Z := 0xDA.
(* @src Boards.h:206-206 BOARD_HELTEC_T1 *)
Definition BOARD_HELTEC_T1 : Z := 0x47.
(* @src Boards.h:207-207 MODEL_DF *)
Definition MODEL_DF : Z := 0xDF.
(* @src Boards.h:208-208 MODEL_E2 *)
Definition MODEL_E2 : Z := 0xE2.
(* @src Modem.h:1-1 SX1276 *)
Definition SX1276 : Z := 1.
(* @src Modem.h:2-2 SX1278 *)
Definition SX1278 : Z := 2.
(* @src Modem.h:3-3 SX1262 *)
Definition SX1262 : Z := 3.
(* @src Modem.h:4-4 SX1280 *)
Definition SX1280 : Z := 4.
(* @src Boards.h:237-237 LORA_PA_UNKNOWN *)
Definition LORA_PA_UNKNOWN : Z := 0x00.
(* @src Boards.h:238-238 LORA_PA_GC1109 *)
Definition LORA_PA_GC1109 : Z := 0x01.
(* @src Boards.h:239-239 LORA_PA_KCT8103L *)
Definition LORA_PA_KCT8103L : Z := 0x02.

(** ** The build configuration *)

(** One field per preprocessor symbol tested by the modelled code. *)
Class Board := {
  MCU_VARIANT : Z;
  BOARD_MODEL : Z;
  MODEM : Z;
  HAS_EEPROM : bool;
  HAS_DISPLAY : bool;
  HAS_BLUETOOTH : bool;
  HAS_BLE : bool;
  HAS_WIFI : bool;
  HAS_ETHERNET : bool;
  HAS_ESPNOW : bool;
  HAS_BUZZER : bool;
  HAS_VSENSE : bool;
  HAS_NP : bool;
  HAS_PMU : bool;
  HAS_LORA_PA : bool;
  HAS_PA : bool;
  PA_MAX_OUTPUT : Z;
  BUILD_NUMBER : Z;
  (** The flash size constants of Boards.h: [EEPROM_SIZE] is 1024 on ESP32 and
      296 on nRF52. *)
  EEPROM_SIZE : Z
}.

(** [PLATFORM] and [MCU_VARIANT] are selected together. *)
(* @src Boards.h:208-220 PLATFORM *)
Definition PLATFORM `{Board} : Z :=
  if (MCU_VARIANT =? MCU_1284P) || (MCU_VARIANT =? MCU_2560) then PLATFORM_AVR
  else if MCU_VARIANT =? MCU_ESP32 then PLATFORM_ESP32 else PLATFORM_NRF52.

(** ** Two boards *)

(* @src Boards.h:1097-1144 BOARD_HELTEC32_V3 *)
Definition heltec32_v3 : Board := {|
  MCU_VARIANT := MCU_ESP32; BOARD_MODEL := BOARD_HELTEC32_V3; MODEM := SX1262;
  HAS_EEPROM := true; HAS_DISPLAY := true; HAS_BLUETOOTH := false; HAS_BLE := true;
  HAS_WIFI := true; HAS_ETHERNET := false; HAS_ESPNOW := false; HAS_BUZZER := false;
  HAS_VSENSE := false; HAS_NP := false; HAS_PMU := true; HAS_LORA_PA := false;
  HAS_PA := false; PA_MAX_OUTPUT := 0; BUILD_NUMBER := 0; EEPROM_SIZE := 1024 |}.

(* @src Boards.h:1777-1796 BOARD_RAK4631 *)
Definition rak4631 : Board := {|
  MCU_VARIANT := MCU_NRF52; BOARD_MODEL := BOARD_RAK4631; MODEM := SX1262;
  HAS_EEPROM := false; HAS_DISPLAY := true; HAS_BLUETOOTH := false; HAS_BLE := true;
  HAS_WIFI := false; HAS_ETHERNET := false; HAS_ESPNOW := false; HAS_BUZZER := false;
  HAS_VSENSE := false; HAS_NP := false; HAS_PMU := false; HAS_LORA_PA := false;
  HAS_PA := false; PA_MAX_OUTPUT := 0; BUILD_NUMBER := 0; EEPROM_SIZE := 296 |}.
