(* ===== verification/Rom.v ===== *)
(** * The EEPROM address map (ROM.h, Boards.h, Device.h)

    Every address and stored byte of ROM.h under its own name, the address
    macros, and the map of the cells in use as physical byte ranges.  Three
    address spaces share one store: the device information and settings block
    ([eeprom_addr], the last [EEPROM_RESERVED] bytes), the network configuration
    block of ESP32 boards ([config_addr]) and raw physical bytes. *)
From S2P Require Import Prelude Boards.

(* @src ROM.h:18-18 CHECKSUMMED_SIZE *)
Definition CHECKSUMMED_SIZE : Z := 0x0B.
(* @src ROM.h:21-21 ADDR_PRODUCT *)
Definition ADDR_PRODUCT : Z := 0x00.
(* @src ROM.h:22-22 ADDR_MODEL *)
Definition ADDR_MODEL : Z := 0x01.
(* @src ROM.h:23-23 ADDR_HW_REV *)
Definition ADDR_HW_REV : Z := 0x02.
(* @src ROM.h:24-24 ADDR_SERIAL *)
Definition ADDR_SERIAL : Z := 0x03.
(* @src ROM.h:25-25 ADDR_MADE *)
Definition ADDR_MADE : Z := 0x07.
(* @src ROM.h:26-26 ADDR_CHKSUM *)
Definition ADDR_CHKSUM : Z := 0x0B.
(* @src ROM.h:27-27 ADDR_SIGNATURE *)
Definition ADDR_SIGNATURE : Z := 0x1B.
(* @src ROM.h:28-28 ADDR_INFO_LOCK *)
Definition ADDR_INFO_LOCK : Z := 0x9B.
(* @src ROM.h:30-30 ADDR_CONF_SF *)
Definition ADDR_CONF_SF : Z := 0x9C.
(* @src ROM.h:31-31 ADDR_CONF_CR *)
Definition ADDR_CONF_CR : Z := 0x9D.
(* @src ROM.h:32-32 ADDR_CONF_TXP *)
Definition ADDR_CONF_TXP : Z := 0x9E.
(* @src ROM.h:33-33 ADDR_CONF_BW *)
Definition ADDR_CONF_BW : Z := 0x9F.
(* @src ROM.h:34-34 ADDR_CONF_FREQ *)
Definition ADDR_CONF_FREQ : Z := 0xA3.
(* @src ROM.h:35-35 ADDR_CONF_OK *)
Definition ADDR_CONF_OK : Z := 0xA7.
(* @src ROM.h:37-37 ADDR_CONF_BT *)
Definition ADDR_CONF_BT : Z := 0xB0.
(* @src ROM.h:38-38 ADDR_CONF_DSET *)
Definition ADDR_CONF_DSET : Z := 0xB1.
(* @src ROM.h:39-39 ADDR_CONF_DINT *)
Definition ADDR_CONF_DINT : Z := 0xB2.
(* @src ROM.h:40-40 ADDR_CONF_DADR *)
Definition ADDR_CONF_DADR : Z := 0xB3.
(* @src ROM.h:41-41 ADDR_CONF_DBLK *)
Definition ADDR_CONF_DBLK : Z := 0xB4.
(* @src ROM.h:42-42 ADDR_CONF_DROT *)
Definition ADDR_CONF_DROT : Z := 0xB8.
(* @src ROM.h:43-43 ADDR_CONF_PSET *)
Definition ADDR_CONF_PSET : Z := 0xB5.
(* @src ROM.h:44-44 ADDR_CONF_PINT *)
Definition ADDR_CONF_PINT : Z := 0xB6.
(* @src ROM.h:45-45 ADDR_CONF_BSET *)
Definition ADDR_CONF_BSET : Z := 0xB7.
(* @src ROM.h:46-46 ADDR_CONF_DIA *)
Definition ADDR_CONF_DIA : Z := 0xB9.
(* @src ROM.h:47-47 ADDR_CONF_WIFI *)
Definition ADDR_CONF_WIFI : Z := 0xBA.
(* @src ROM.h:48-48 ADDR_CONF_WCHN *)
Definition ADDR_CONF_WCHN : Z := 0xBB.
(* @src ROM.h:49-49 ADDR_CONF_SND *)
Definition ADDR_CONF_SND : Z := 0xBC.
(* @src ROM.h:50-50 ADDR_CONF_VSR *)
Definition ADDR_CONF_VSR : Z := 0xBD.
(* @src ROM.h:51-51 ADDR_CONF_BVS *)
Definition ADDR_CONF_BVS : Z := 0xBE.
(* @src ROM.h:52-52 ADDR_CONF_BUZ *)
Definition ADDR_CONF_BUZ : Z := 0xBF.
(* @src ROM.h:53-53 ADDR_CONF_EUP *)
Definition ADDR_CONF_EUP : Z := 0xC0.
(* @src ROM.h:54-54 ADDR_CONF_EDN *)
Definition ADDR_CONF_EDN : Z := 0xC1.
(* @src ROM.h:55-55 ADDR_CONF_EPR *)
Definition ADDR_CONF_EPR : Z := 0xC2.
(* @src ROM.h:56-56 ADDR_CONF_ENA *)
Definition ADDR_CONF_ENA : Z := 0xC3.
(* @src ROM.h:57-57 ADDR_CONF_ETHSPD *)
Definition ADDR_CONF_ETHSPD : Z := 0xC4.
(* @src ROM.h:62-62 ADDR_CONF_TZ *)
Definition ADDR_CONF_TZ : Z := 0xC5.
(* @src ROM.h:66-66 ADDR_CONF_ESPNOW *)
Definition ADDR_CONF_ESPNOW : Z := 0xC6.
(* @src ROM.h:71-71 ADDR_CONF_WS *)
Definition ADDR_CONF_WS : Z := 0xC7.
(* @src ROM.h:73-73 INFO_LOCK_BYTE *)
Definition INFO_LOCK_BYTE : Z := 0x73.
(* @src ROM.h:74-74 CONF_OK_BYTE *)
Definition CONF_OK_BYTE : Z := 0x73.
(* @src ROM.h:75-75 BT_ENABLE_BYTE *)
Definition BT_ENABLE_BYTE : Z := 0x73.
(* @src ROM.h:76-76 SND_ENABLE_BYTE *)
Definition SND_ENABLE_BYTE : Z := 0x01.
(* @src ROM.h:77-77 SND_DISABLE_BYTE *)
Definition SND_DISABLE_BYTE : Z := 0x00.
(* @src ROM.h:78-78 ENC_ENABLE_BYTE *)
Definition ENC_ENABLE_BYTE : Z := 0x01.
(* @src ROM.h:79-79 ENC_DISABLE_BYTE *)
Definition ENC_DISABLE_BYTE : Z := 0x00.
(* @src ROM.h:80-80 ESPNOW_ENABLE_BYTE *)
Definition ESPNOW_ENABLE_BYTE : Z := 0x01.
(* @src ROM.h:81-81 ESPNOW_DISABLE_BYTE *)
Definition ESPNOW_DISABLE_BYTE : Z := 0x00.
(* @src ROM.h:82-82 WS_ENABLE_BYTE *)
Definition WS_ENABLE_BYTE : Z := 0x01.
(* @src ROM.h:83-83 WS_DISABLE_BYTE *)
Definition WS_DISABLE_BYTE : Z := 0x00.
(* @src ROM.h:84-84 GNSS_ENABLE_BYTE *)
Definition GNSS_ENABLE_BYTE : Z := 0x01.
(* @src ROM.h:85-85 GNSS_DISABLE_BYTE *)
Definition GNSS_DISABLE_BYTE : Z := 0x00.
(* @src ROM.h:87-87 EEPROM_RESERVED *)
Definition EEPROM_RESERVED : Z := 200.
(* @src ROM.h:123-123 ADDR_CONF_GNSS *)
Definition ADDR_CONF_GNSS : Z := 0xA8.
(* @src ROM.h:124-124 ADDR_CONF_GNSS_INTERVAL *)
Definition ADDR_CONF_GNSS_INTERVAL : Z := 0xA9.
(* @src ROM.h:139-139 ADDR_CONF_ESPNOW_MODE *)
Definition ADDR_CONF_ESPNOW_MODE : Z := 257.
(* @src ROM.h:140-140 ESPNOW_MODE_V1 *)
Definition ESPNOW_MODE_V1 : Z := 0x00.
(* @src ROM.h:141-141 ESPNOW_MODE_V2 *)
Definition ESPNOW_MODE_V2 : Z := 0x01.
(* @src ROM.h:150-150 ADDR_CONF_ESPNOW_LR *)
Definition ADDR_CONF_ESPNOW_LR : Z := 258.
(* @src ROM.h:151-151 ESPNOW_LR_ENABLE_BYTE *)
Definition ESPNOW_LR_ENABLE_BYTE : Z := 0x01.
(* @src ROM.h:152-152 ESPNOW_LR_DISABLE_BYTE *)
Definition ESPNOW_LR_DISABLE_BYTE : Z := 0x00.
(* @src ROM.h:159-159 ADDR_CONF_URNS *)
Definition ADDR_CONF_URNS : Z := 259.
(* @src ROM.h:160-160 URNS_ENABLE_BYTE *)
Definition URNS_ENABLE_BYTE : Z := 0x01.
(* @src ROM.h:161-161 URNS_DISABLE_BYTE *)
Definition URNS_DISABLE_BYTE : Z := 0x00.
(* @src ROM.h:172-172 ADDR_CONF_URNS_TRANSPORT *)
Definition ADDR_CONF_URNS_TRANSPORT : Z := 260.
(* @src ROM.h:173-173 URNS_TRANSPORT_ENABLE_BYTE *)
Definition URNS_TRANSPORT_ENABLE_BYTE : Z := 0x01.
(* @src ROM.h:174-174 URNS_TRANSPORT_DISABLE_BYTE *)
Definition URNS_TRANSPORT_DISABLE_BYTE : Z := 0x00.
(* @src ROM.h:181-181 ADDR_CONF_URNS_LINK_MTU_DISCOVERY *)
Definition ADDR_CONF_URNS_LINK_MTU_DISCOVERY : Z := 261.
(* @src ROM.h:182-182 URNS_LINK_MTU_DISCOVERY_ENABLE_BYTE *)
Definition URNS_LINK_MTU_DISCOVERY_ENABLE_BYTE : Z := 0x01.
(* @src ROM.h:183-183 URNS_LINK_MTU_DISCOVERY_DISABLE_BYTE *)
Definition URNS_LINK_MTU_DISCOVERY_DISABLE_BYTE : Z := 0x00.
(* @src ROM.h:185-185 ADDR_CONF_URNS_REMOTE_MGMT *)
Definition ADDR_CONF_URNS_REMOTE_MGMT : Z := 262.
(* @src ROM.h:186-186 URNS_REMOTE_MGMT_ENABLE_BYTE *)
Definition URNS_REMOTE_MGMT_ENABLE_BYTE : Z := 0x01.
(* @src ROM.h:187-187 URNS_REMOTE_MGMT_DISABLE_BYTE *)
Definition URNS_REMOTE_MGMT_DISABLE_BYTE : Z := 0x00.
(* @src ROM.h:189-189 ADDR_CONF_URNS_PROBE_DEST *)
Definition ADDR_CONF_URNS_PROBE_DEST : Z := 263.
(* @src ROM.h:190-190 URNS_PROBE_DEST_ENABLE_BYTE *)
Definition URNS_PROBE_DEST_ENABLE_BYTE : Z := 0x01.
(* @src ROM.h:191-191 URNS_PROBE_DEST_DISABLE_BYTE *)
Definition URNS_PROBE_DEST_DISABLE_BYTE : Z := 0x00.
(* @src ROM.h:201-201 ADDR_CONF_BT_LEGACY_PAIRING *)
Definition ADDR_CONF_BT_LEGACY_PAIRING : Z := 264.
(* @src ROM.h:202-202 BT_LEGACY_PAIRING_ENABLE_BYTE *)
Definition BT_LEGACY_PAIRING_ENABLE_BYTE : Z := 0x01.
(* @src ROM.h:203-203 BT_LEGACY_PAIRING_DISABLE_BYTE *)
Definition BT_LEGACY_PAIRING_DISABLE_BYTE : Z := 0x00.
(* @src ROM.h:224-224 ADDR_CONF_BT_JUST_WORKS *)
Definition ADDR_CONF_BT_JUST_WORKS : Z := 265.
(* @src ROM.h:225-225 BT_JUST_WORKS_ENABLE_BYTE *)
Definition BT_JUST_WORKS_ENABLE_BYTE : Z := 0x01.
(* @src ROM.h:226-226 BT_JUST_WORKS_DISABLE_BYTE *)
Definition BT_JUST_WORKS_DISABLE_BYTE : Z := 0x00.
(* @src ROM.h:238-238 ADDR_CONF_MSNGR_RETRIES *)
Definition ADDR_CONF_MSNGR_RETRIES : Z := 266.
(* @src ROM.h:253-253 ADDR_CONF_MSNGR_ANNOUNCE_AT_START *)
Definition ADDR_CONF_MSNGR_ANNOUNCE_AT_START : Z := 267.
(* @src ROM.h:254-254 MSNGR_ANNOUNCE_AT_START_ENABLE_BYTE *)
Definition MSNGR_ANNOUNCE_AT_START_ENABLE_BYTE : Z := 0x01.
(* @src ROM.h:255-255 MSNGR_ANNOUNCE_AT_START_DISABLE_BYTE *)
Definition MSNGR_ANNOUNCE_AT_START_DISABLE_BYTE : Z := 0x00.
(* @src ROM.h:264-264 ADDR_CONF_MSNGR_ANNOUNCE_INTERVAL *)
Definition ADDR_CONF_MSNGR_ANNOUNCE_INTERVAL : Z := 268.
(* @src ROM.h:273-273 ADDR_CONF_MSNGR_RETRY_DELAY *)
Definition ADDR_CONF_MSNGR_RETRY_DELAY : Z := 269.
(* @src ROM.h:286-286 ADDR_CONF_BT_AUTO_START *)
Definition ADDR_CONF_BT_AUTO_START : Z := 270.
(* @src ROM.h:287-287 BT_AUTO_START_ENABLE_BYTE *)
Definition BT_AUTO_START_ENABLE_BYTE : Z := 0x01.
(* @src ROM.h:288-288 BT_AUTO_START_DISABLE_BYTE *)
Definition BT_AUTO_START_DISABLE_BYTE : Z := 0x00.
(* @src ROM.h:300-300 ADDR_CONF_RADIO_AUTO_START *)
Definition ADDR_CONF_RADIO_AUTO_START : Z := 271.
(* @src ROM.h:301-301 RADIO_AUTO_START_ENABLE_BYTE *)
Definition RADIO_AUTO_START_ENABLE_BYTE : Z := 0x01.
(* @src ROM.h:302-302 RADIO_AUTO_START_DISABLE_BYTE *)
Definition RADIO_AUTO_START_DISABLE_BYTE : Z := 0x00.
(* @src ROM.h:312-312 ADDR_CONF_BT_BATTERY_SERVICE *)
Definition ADDR_CONF_BT_BATTERY_SERVICE : Z := 272.
(* @src ROM.h:313-313 BT_BATTERY_SERVICE_ENABLE_BYTE *)
Definition BT_BATTERY_SERVICE_ENABLE_BYTE : Z := 0x01.
(* @src ROM.h:314-314 BT_BATTERY_SERVICE_DISABLE_BYTE *)
Definition BT_BATTERY_SERVICE_DISABLE_BYTE : Z := 0x00.
(* @src ROM.h:323-323 ADDR_CONF_URNS_INTERFACE *)
Definition ADDR_CONF_URNS_INTERFACE : Z := 273.
(* @src ROM.h:324-324 URNS_INTERFACE_LORA_ONLY *)
Definition URNS_INTERFACE_LORA_ONLY : Z := 0x00.
(* @src ROM.h:325-325 URNS_INTERFACE_ESPNOW_ONLY *)
Definition URNS_INTERFACE_ESPNOW_ONLY : Z := 0x01.
(* @src ROM.h:326-326 URNS_INTERFACE_BOTH *)
Definition URNS_INTERFACE_BOTH : Z := 0x02.
(* @src ROM.h:338-338 ADDR_CONF_MSNGR_PROP_ON_FAIL *)
Definition ADDR_CONF_MSNGR_PROP_ON_FAIL : Z := 274.
(* @src ROM.h:339-339 MSNGR_PROP_ON_FAIL_ENABLE_BYTE *)
Definition MSNGR_PROP_ON_FAIL_ENABLE_BYTE : Z := 0x01.
(* @src ROM.h:340-340 MSNGR_PROP_ON_FAIL_DISABLE_BYTE *)
Definition MSNGR_PROP_ON_FAIL_DISABLE_BYTE : Z := 0x00.
(* @src ROM.h:350-350 ADDR_CONF_MSNGR_SYNC_INTERVAL *)
Definition ADDR_CONF_MSNGR_SYNC_INTERVAL : Z := 275.
(* @src ROM.h:363-363 ADDR_CONF_MSNGR_SYNC_LIMIT *)
Definition ADDR_CONF_MSNGR_SYNC_LIMIT : Z := 276.
(* @src ROM.h:374-374 ADDR_CONF_MSNGR_STAMP_COST *)
Definition ADDR_CONF_MSNGR_STAMP_COST : Z := 277.
(* @src ROM.h:388-388 ADDR_CONF_VAULT_ENABLED *)
Definition ADDR_CONF_VAULT_ENABLED : Z := 278.
(* @src ROM.h:389-389 VAULT_ENABLE_BYTE *)
Definition VAULT_ENABLE_BYTE : Z := 0x01.
(* @src ROM.h:390-390 VAULT_DISABLE_BYTE *)
Definition VAULT_DISABLE_BYTE : Z := 0x00.
(* @src ROM.h:400-400 ADDR_CONF_BLEKBD_ENABLED *)
Definition ADDR_CONF_BLEKBD_ENABLED : Z := 279.
(* @src ROM.h:401-401 BLEKBD_ENABLE_BYTE *)
Definition BLEKBD_ENABLE_BYTE : Z := 0x01.
(* @src ROM.h:402-402 BLEKBD_DISABLE_BYTE *)
Definition BLEKBD_DISABLE_BYTE : Z := 0x00.
(* @src ROM.h:423-423 ADDR_CONF_BLEKBD_PEER_ADDR_TYPE *)
Definition ADDR_CONF_BLEKBD_PEER_ADDR_TYPE : Z := 280.
(* @src ROM.h:424-424 ADDR_CONF_BLEKBD_PEER_ADDR *)
Definition ADDR_CONF_BLEKBD_PEER_ADDR : Z := 281.
(* @src ROM.h:433-433 ADDR_CONF_MSNGR_PLAYBACK_VOLUME *)
Definition ADDR_CONF_MSNGR_PLAYBACK_VOLUME : Z := 287.
(* @src ROM.h:435-435 CONFIG_SIZE *)
Definition CONFIG_SIZE : Z := 256.
(* @src ROM.h:436-436 ADDR_CONF_SSID *)
Definition ADDR_CONF_SSID : Z := 0x00.
(* @src ROM.h:437-437 ADDR_CONF_PSK *)
Definition ADDR_CONF_PSK : Z := 0x21.
(* @src ROM.h:438-438 ADDR_CONF_IP *)
Definition ADDR_CONF_IP : Z := 0x42.
(* @src ROM.h:439-439 ADDR_CONF_NM *)
Definition ADDR_CONF_NM : Z := 0x46.
(* @src ROM.h:444-444 ADDR_CONF_ETH_IP *)
Definition ADDR_CONF_ETH_IP : Z := 0x4A.
(* @src ROM.h:445-445 ADDR_CONF_ETH_NM *)
Definition ADDR_CONF_ETH_NM : Z := 0x4E.
(* @src ROM.h:451-451 ADDR_CONF_GW *)
Definition ADDR_CONF_GW : Z := 0x52.
(* @src ROM.h:452-452 ADDR_CONF_DNS *)
Definition ADDR_CONF_DNS : Z := 0x56.
(* @src ROM.h:453-453 ADDR_CONF_ETH_GW *)
Definition ADDR_CONF_ETH_GW : Z := 0x5A.
(* @src ROM.h:454-454 ADDR_CONF_ETH_DNS *)
Definition ADDR_CONF_ETH_DNS : Z := 0x5E.

(** ** Address macros *)

Section Addr.
  Context `{Board}.

(* @src Boards.h:331-331 EEPROM_OFFSET *)
Definition EEPROM_OFFSET : Z := EEPROM_SIZE - EEPROM_RESERVED.
(* @src Boards.h:332-332 CONFIG_OFFSET *)
Definition CONFIG_OFFSET : Z := 0.
(* @src Config.h:164-164 eeprom_addr *)
Definition eeprom_addr (a : Z) : Z := a + EEPROM_OFFSET.
(* @src Config.h:165-165 config_addr *)
Definition config_addr (a : Z) : Z := a + CONFIG_OFFSET.
(* @src Device.h:59-59 DEV_SIG_LEN *)
Definition DEV_SIG_LEN : Z := 64.
(* @src Device.h:66-66 DEV_HASH_LEN *)
Definition DEV_HASH_LEN : Z := 32.
(* @src Device.h:79-80 dev_sig_addr *)
Definition dev_sig_addr (a : Z) : Z := a + (EEPROM_SIZE - EEPROM_RESERVED - DEV_SIG_LEN).
(* @src Device.h:82-83 dev_fwhash_addr *)
Definition dev_fwhash_addr (a : Z) : Z :=
  a + (EEPROM_SIZE - EEPROM_RESERVED - DEV_SIG_LEN - DEV_HASH_LEN).

(** ** The cells in use *)

(** The device information block and the radio configuration: first byte and
    width, relative to [eeprom_addr]. *)
Definition info_cells : list (Z * Z) :=
  [(ADDR_PRODUCT, 1); (ADDR_MODEL, 1); (ADDR_HW_REV, 1); (ADDR_SERIAL, 4); (ADDR_MADE, 4);
   (ADDR_CHKSUM, 16); (ADDR_SIGNATURE, 128); (ADDR_INFO_LOCK, 1);
   (ADDR_CONF_SF, 1); (ADDR_CONF_CR, 1); (ADDR_CONF_TXP, 1); (ADDR_CONF_BW, 4);
   (ADDR_CONF_FREQ, 4); (ADDR_CONF_OK, 1)].

(** The one-byte settings behind [eeprom_addr]. *)
Definition setting_cells : list Z :=
  [ADDR_CONF_GNSS; ADDR_CONF_GNSS_INTERVAL; ADDR_CONF_BT; ADDR_CONF_DSET; ADDR_CONF_DINT;
   ADDR_CONF_DADR; ADDR_CONF_DBLK; ADDR_CONF_PSET; ADDR_CONF_PINT; ADDR_CONF_BSET;
   ADDR_CONF_DROT; ADDR_CONF_DIA; ADDR_CONF_WIFI; ADDR_CONF_WCHN; ADDR_CONF_SND;
   ADDR_CONF_VSR; ADDR_CONF_BVS; ADDR_CONF_BUZ; ADDR_CONF_EUP; ADDR_CONF_EDN; ADDR_CONF_EPR;
   ADDR_CONF_ENA; ADDR_CONF_ETHSPD; ADDR_CONF_TZ; ADDR_CONF_ESPNOW; ADDR_CONF_WS].

(** The one-byte settings at raw physical addresses. *)
Definition raw_cells : list Z :=
  [ADDR_CONF_ESPNOW_MODE; ADDR_CONF_ESPNOW_LR; ADDR_CONF_URNS; ADDR_CONF_URNS_TRANSPORT;
   ADDR_CONF_URNS_LINK_MTU_DISCOVERY; ADDR_CONF_URNS_REMOTE_MGMT; ADDR_CONF_URNS_PROBE_DEST;
   ADDR_CONF_BT_LEGACY_PAIRING; ADDR_CONF_BT_JUST_WORKS; ADDR_CONF_MSNGR_RETRIES;
   ADDR_CONF_MSNGR_ANNOUNCE_AT_START; ADDR_CONF_MSNGR_ANNOUNCE_INTERVAL;
   ADDR_CONF_MSNGR_RETRY_DELAY; ADDR_CONF_BT_AUTO_START; ADDR_CONF_RADIO_AUTO_START;
   ADDR_CONF_BT_BATTERY_SERVICE; ADDR_CONF_URNS_INTERFACE; ADDR_CONF_MSNGR_PROP_ON_FAIL;
   ADDR_CONF_MSNGR_SYNC_INTERVAL; ADDR_CONF_MSNGR_SYNC_LIMIT; ADDR_CONF_MSNGR_STAMP_COST;
   ADDR_CONF_VAULT_ENABLED; ADDR_CONF_BLEKBD_ENABLED; ADDR_CONF_BLEKBD_PEER_ADDR_TYPE;
   ADDR_CONF_MSNGR_PLAYBACK_VOLUME].

(** The network configuration block (ESP32), relative to [config_addr]. *)
Definition config_cells : list (Z * Z) :=
  [(ADDR_CONF_SSID, 33); (ADDR_CONF_PSK, 33); (ADDR_CONF_IP, 4); (ADDR_CONF_NM, 4);
   (ADDR_CONF_ETH_IP, 4); (ADDR_CONF_ETH_NM, 4); (ADDR_CONF_GW, 4); (ADDR_CONF_DNS, 4);
   (ADDR_CONF_ETH_GW, 4); (ADDR_CONF_ETH_DNS, 4)].

(** The physical byte ranges in use on an ESP32 board. *)
Definition memory_map : list (Z * Z) :=
  map (fun '(a, n) => (eeprom_addr a, n)) info_cells ++
  map (fun a => (eeprom_addr a, 1)) setting_cells ++
  map (fun a => (a, 1)) raw_cells ++ [(ADDR_CONF_BLEKBD_PEER_ADDR, 6)] ++
  map (fun '(a, n) => (config_addr a, n)) config_cells ++
  [(dev_sig_addr 0, DEV_SIG_LEN); (dev_fwhash_addr 0, DEV_HASH_LEN)].
End Addr.

(** Two ranges that share no byte, and pairwise separation of a map. *)
Definition apart (r1 r2 : Z * Z) : bool :=
  (fst r1 + snd r1 <=? fst r2) || (fst r2 + snd r2 <=? fst r1).
Fixpoint separate (m : list (Z * Z)) : bool :=
  match m with [] => true | r :: m => forallb (apart r) m && separate m end.

Lemma separate_spec m i j r1 r2 :
  separate m = true -> m !! i = Some r1 -> m !! j = Some r2 -> i <> j -> apart r1 r2 = true.
Proof.
  assert (Hsym : forall a b, apart a b = apart b a) by (intros; unfold apart; apply orb_comm).
  revert i j. induction m as [|r m IH]; intros i j Hs Hi Hj Hn; [done|].
  cbn [separate] in Hs. apply andb_true_iff in Hs as [Hf Hs]. rewrite forallb_forall in Hf.
  destruct i as [|i], j as [|j]; cbn in Hi, Hj; [done|..].
  - injection Hi as <-. apply Hf, list_elem_of_In, list_elem_of_lookup. eauto.
  - injection Hj as <-. rewrite Hsym. apply Hf, list_elem_of_In, list_elem_of_lookup. eauto.
  - eapply IH; eauto.
Qed.

(** On an ESP32 board (1024 bytes of EEPROM) no two cells of the address map
    overlap and all lie inside the store: the information block, every setting
    byte, the network configuration, the device signature and the firmware hash
    can be written without touching one another. *)
Theorem esp32_map_separate `{Board} (i j : nat) (a n b m : Z) :
  EEPROM_SIZE = 1024 -> memory_map !! i = Some (a, n) -> memory_map !! j = Some (b, m) -> i <> j ->
  (a + n <= b \/ b + m <= a) /\ 0 <= a /\ a + n <= EEPROM_SIZE.
Proof.
  intros HS Hi Hj Hn.
  assert (Hs : separate memory_map = true)
    by (unfold memory_map, eeprom_addr, config_addr, EEPROM_OFFSET, dev_sig_addr, dev_fwhash_addr;
        rewrite HS; vm_compute; reflexivity).
  assert (Hb : forallb (fun '(a, n) => (0 <=? a) && (a + n <=? 1024)) memory_map = true)
    by (unfold memory_map, eeprom_addr, config_addr, EEPROM_OFFSET, dev_sig_addr, dev_fwhash_addr;
        rewrite HS; vm_compute; reflexivity).
  pose proof (separate_spec _ _ _ _ _ Hs Hi Hj Hn) as Ha. unfold apart in Ha. cbn [fst snd] in Ha.
  rewrite forallb_forall in Hb.
  assert (Hin : In (a, n) memory_map) by (apply list_elem_of_In, list_elem_of_lookup; eauto).
  apply Hb in Hin. cbv beta iota in Hin. rewrite andb_true_iff in Hin. rewrite HS.
  rewrite orb_true_iff, !Z.leb_le in Ha. rewrite !Z.leb_le in Hin. tauto.
Qed.

Lemma esp32_map_separate_witness :
  let _ := heltec32_v3 in
  (eeprom_addr ADDR_INFO_LOCK + 1 <= eeprom_addr ADDR_CONF_SF \/
   eeprom_addr ADDR_CONF_SF + 1 <= eeprom_addr ADDR_INFO_LOCK) /\
  0 <= eeprom_addr ADDR_INFO_LOCK /\ eeprom_addr ADDR_INFO_LOCK + 1 <= EEPROM_SIZE.
Proof.
  intros B. apply (@esp32_map_separate heltec32_v3 7 8); [reflexivity..|discriminate].
Defined.
