(* ===== verification/Float.v ===== *)
(** * C floating point

    The firmware computes bit rates, symbol times and channel use in [float] and
    [double].  Both are IEEE 754 binary formats; they are modelled here, bit for
    bit, with the Standard Library's [SpecFloat]: [float] is precision 24 with
    maximal exponent 128, [double] precision 53 with 1024.  Rounding is to
    nearest, ties to even. *)
From Stdlib Require Import Floats.SpecFloat.
From S2P Require Import Prelude.

Abbreviation cfloat := spec_float.

(** ** float *)
Definition f32_add : cfloat -> cfloat -> cfloat := SFadd 24 128.
Definition f32_sub : cfloat -> cfloat -> cfloat := SFsub 24 128.
Definition f32_mul : cfloat -> cfloat -> cfloat := SFmul 24 128.
Definition f32_div : cfloat -> cfloat -> cfloat := SFdiv 24 128.
Definition f32_of_Z (z : Z) : cfloat := binary_normalize 24 128 z 0 false.

(** ** double *)
Definition f64_add : cfloat -> cfloat -> cfloat := SFadd 53 1024.
Definition f64_sub : cfloat -> cfloat -> cfloat := SFsub 53 1024.
Definition f64_mul : cfloat -> cfloat -> cfloat := SFmul 53 1024.
Definition f64_div : cfloat -> cfloat -> cfloat := SFdiv 53 1024.
Definition f64_of_Z (z : Z) : cfloat := binary_normalize 53 1024 z 0 false.

(** ** Conversions *)

(** Rounding a value of one format to another. *)
Definition f_round (prec emax : Z) (x : cfloat) : cfloat :=
  match x with
  | S754_finite s m e => binary_normalize prec emax (if s then Z.neg m else Z.pos m) e s
  | _ => x
  end.
Definition to_f32 : cfloat -> cfloat := f_round 24 128.
Definition to_f64 : cfloat -> cfloat := f_round 53 1024.

(** Truncation toward zero, as a cast to an integer type does it before the
    result is reduced to the width of the type. Infinities and NaN have no
    defined cast in C; they are given 0. *)
Definition f_trunc (x : cfloat) : Z :=
  match x with
  | S754_finite s m e =>
      let a := if 0 <=? e then Z.pos m * 2 ^ e else Z.pos m / 2 ^ (- e) in
      if s then - a else a
  | _ => 0
  end.

(** [ceil], as an integer; the callers convert it straight to one. *)
Definition f_ceil (x : cfloat) : Z :=
  match x with
  | S754_finite s m e =>
      let v := if s then Z.neg m else Z.pos m in
      if 0 <=? e then v * 2 ^ e else - ((- v) / 2 ^ (- e))
  | _ => 0
  end.

(** Comparisons; with a NaN operand both are false. *)
Definition f_ltb : cfloat -> cfloat -> bool := SFltb.
Definition f_leb : cfloat -> cfloat -> bool := SFleb.
Definition f_zero : cfloat := S754_zero false.

(** A value rounded back from a small integer is that integer. *)
Example f_trunc_of_Z : forallb (fun z => f_trunc (f32_of_Z z) =? z) (map Z.of_nat (seq 0 5000)) = true.
Proof. vm_compute. reflexivity. Qed.
