(* ===== verification/FloatBounds.v ===== *)
(** * Truncated sums of floats

    [u16 += float] converts the cell, adds with rounding and truncates.  The result is the
    sum of the cell and the whole part of the float, or one more. *)
From Stdlib Require Import Floats.SpecFloat.
From S2P Require Import Prelude Float.
#[local] Open Scope Z_scope.

(** [m * 2^e], rounded down. *)
Definition floor_at (m e : Z) : Z := if 0 <=? e then m * 2 ^ e else m / 2 ^ (- e).

(** ** Digits and shifts *)

Lemma digits_bounds p : 2 ^ (Z.pos (digits2_pos p) - 1) <= Z.pos p < 2 ^ Z.pos (digits2_pos p).
Proof.
  induction p as [p IH|p IH|]; cbn [digits2_pos]; [| |cbn; lia];
    rewrite Pos2Z.inj_succ; replace (Z.succ (Z.pos (digits2_pos p)) - 1) with (Z.succ (Z.pos (digits2_pos p) - 1)) by lia;
    rewrite !Z.pow_succ_r by lia; lia.
Qed.
Lemma fill_mantissa p (d := Z.pos (digits2_pos p)) : d <= 24 -> 2 ^ 23 <= Z.pos p * 2 ^ (24 - d) < 2 ^ 24.
Proof.
  intros Hd. pose proof (digits_bounds p) as Hp. fold d in Hp. assert (0 < d) by (unfold d; lia).
  replace (2 ^ 23) with (2 ^ (d - 1) * 2 ^ (24 - d)) by (rewrite <- Z.pow_add_r by lia; f_equal; lia).
  replace (2 ^ 24) with (2 ^ d * 2 ^ (24 - d)) by (rewrite <- Z.pow_add_r by lia; f_equal; lia). nia.
Qed.
Lemma digits_unique p k : 0 < k -> 2 ^ (k - 1) <= Z.pos p < 2 ^ k -> Z.pos (digits2_pos p) = k.
Proof.
  intros Hk Hp. pose proof (digits_bounds p) as Hd. set (d := Z.pos (digits2_pos p)) in *.
  assert (k - 1 < d) by (apply (Z.pow_lt_mono_r_iff 2); lia). assert (d - 1 < k) by (apply (Z.pow_lt_mono_r_iff 2); lia). lia.
Qed.
Lemma shr_1_half r : 0 <= shr_m r -> shr_m (shr_1 r) = shr_m r / 2.
Proof. destruct r as [[|[p|p|]|p] r0 s]; cbn [shr_m shr_1]; intros Hm; [reflexivity| | |reflexivity|lia]; Z.div_mod_to_equations; lia. Qed.
Lemma shr_iter (n : positive) : forall r, 0 <= shr_m r -> shr_m (SpecFloat.iter_pos shr_1 n r) = shr_m r / 2 ^ Z.pos n.
Proof.
  induction n as [n IH|n IH|]; intros r Hr; cbn [SpecFloat.iter_pos]; [| |now apply shr_1_half].
  - pose proof (shr_1_half r Hr) as H1. assert (0 <= shr_m r / 2) by (apply Z.div_pos; lia).
    pose proof (IH (shr_1 r) ltac:(lia)) as H2. assert (0 <= shr_m r / 2 / 2 ^ Z.pos n) by (apply Z.div_pos; lia).
    rewrite IH, H2, H1 by (rewrite H2, H1; lia). rewrite !Z.div_div by lia. f_equal.
    rewrite (Pos2Z.inj_xI n), Z.pow_add_r, Z.pow_twice_r by lia. lia.
  - pose proof (IH r Hr) as H2. assert (0 <= shr_m r / 2 ^ Z.pos n) by (apply Z.div_pos; lia).
    rewrite IH, H2 by (rewrite H2; lia). rewrite !Z.div_div by lia. f_equal. now rewrite (Pos2Z.inj_xO n), Z.pow_twice_r.
Qed.
Lemma shl_align_value m e e' : e' <= e -> shl_align m e e' = (Z.to_pos (Z.pos m * 2 ^ (e - e')), e').
Proof.
  intros He. unfold shl_align. destruct (e' - e) as [|d|d] eqn:Ed; [|lia|].
  - replace (e - e') with 0 by lia. rewrite Z.pow_0_r, Z.mul_1_r. cbn [Z.to_pos]. f_equal. lia.
  - f_equal. replace (e - e') with (Z.pos d) by lia. rewrite <- (Pos2Z.inj_pow 2 d), <- Pos2Z.inj_mul. cbn [Z.to_pos].
    clear. induction d as [|d IH] using Pos.peano_ind; [rewrite Pos.pow_1_r; cbn; lia|]. rewrite Pos.iter_succ, IH, Pos.pow_succ_r. lia.
Qed.

(** ** Rounding *)

(** A mantissa of 24 or 25 bits is not shortened, or only by a zero. *)
Lemma round_up_cases q l : round_nearest_even q l = q \/ round_nearest_even q l = q + 1.
Proof. destruct l as [|[]]; cbn; [now left|destruct (Z.even q); auto|now left|now right]. Qed.
Lemma fexp_small d : -125 <= d -> fexp 24 128 d = d - 24.
Proof. unfold fexp, emin. lia. Qed.
Lemma floor_shift m k e : 0 <= k -> e <= 0 -> floor_at (m / 2 ^ k) (e + k) = floor_at m e \/ 0 < e + k.
Proof.
  intros Hk He. destruct (Z_lt_le_dec 0 (e + k)) as [|Hs]; [now right|left]. unfold floor_at.
  assert (Hz : forall x y, y <= 0 -> (if 0 <=? y then x * 2 ^ y else x / 2 ^ (- y)) = x / 2 ^ (- y)).
  { intros x y Hy. destruct (Z.leb_spec 0 y); [|reflexivity]. replace y with 0 by lia. now rewrite Z.mul_1_r, Z.div_1_r. }
  rewrite !Hz, Z.div_div by lia. f_equal. rewrite <- Z.pow_add_r by lia. f_equal. lia.
Qed.
Lemma finish_round M e : 2 ^ 23 <= M <= 2 ^ 24 -> -149 <= e <= -7 ->
  let '(r, e') := shr_fexp 24 128 M e loc_Exact in
  f_trunc match shr_m r with Z0 => S754_zero false | Z.pos m => if e' <=? 128 - 24 then S754_finite false m e' else S754_infinity false | _ => S754_nan end = floor_at M e.
Proof.
  intros HM He. unfold shr_fexp. destruct M as [|m|m]; [lia| |lia]. cbn [Zdigits2].
  assert (Hd : Z.pos (digits2_pos m) = 24 \/ Z.pos m = 2 ^ 24).
  { destruct (Z.eq_dec (Z.pos m) (2 ^ 24)); [now right|left]. apply digits_unique; lia. }
  destruct Hd as [Hd|Hm].
  - rewrite Hd, fexp_small by lia. replace (24 + e - 24 - e) with 0 by lia. cbn [shr shr_record_of_loc shr_m].
    rewrite (proj2 (Z.leb_le e (128 - 24))) by lia. reflexivity.
  - injection Hm as ->. change (Z.pos (digits2_pos _)) with 25. rewrite fexp_small by lia. replace (25 + e - 24 - e) with 1 by lia.
    cbn [shr shr_record_of_loc SpecFloat.iter_pos shr_1 shr_m orb]. rewrite (proj2 (Z.leb_le (e + 1) (128 - 24))) by lia.
    cbn [f_trunc]. destruct (floor_shift (2 ^ 24) 1 e ltac:(lia) ltac:(lia)) as [F|]; [exact F|lia].
Qed.
Lemma round_trunc p e : e <= 0 -> 1 <= floor_at (Z.pos p) e < 2 ^ 17 - 1 ->
  floor_at (Z.pos p) e <= f_trunc (binary_round 24 128 false p e) <= floor_at (Z.pos p) e + 1.
Proof.
  intros He Hv. pose proof (digits_bounds p) as Hp. set (d := Z.pos (digits2_pos p)) in *.
  assert (Hd : 0 < d + e <= 17).
  { assert (Hf : floor_at (Z.pos p) e = Z.pos p / 2 ^ (- e)).
    { unfold floor_at. destruct (Z.leb_spec 0 e); [|reflexivity]. replace e with 0 by lia. now rewrite Z.mul_1_r, Z.div_1_r. }
    rewrite Hf in Hv. pose proof (Z.mul_div_le (Z.pos p) (2 ^ (- e)) ltac:(lia)). pose proof (Z.mul_succ_div_gt (Z.pos p) (2 ^ (- e)) ltac:(lia)).
    split.
    - assert (- e < d); [|lia]. apply (Z.pow_lt_mono_r_iff 2); nia.
    - assert (d - 1 < 17 + - e); [|lia]. apply (Z.pow_lt_mono_r_iff 2); [lia..|]. rewrite Z.pow_add_r by lia.
      set (X := 2 ^ (- e)) in *. assert (0 < X) by lia. set (Y := 2 ^ (d - 1)) in *. assert (Z.succ (Z.pos p / X) <= 2 ^ 17) by lia. nia. }
  enough (exists x, f_trunc (binary_round 24 128 false p e) = x /\ floor_at (Z.pos p) e <= x <= floor_at (Z.pos p) e + 1) as (x & -> & Hx) by exact Hx.
  unfold binary_round. fold d. rewrite fexp_small by lia. unfold binary_round_aux.
  destruct (Z_le_gt_dec (d + e - 24) e) as [Hs|Hs].
  - rewrite shl_align_value by exact Hs. replace (e - (d + e - 24)) with (24 - d) by lia.
    set (m := Z.pos p * 2 ^ (24 - d)).
    assert (Hm : 2 ^ 23 <= m < 2 ^ 24).
    { exact (fill_mantissa p ltac:(fold d; lia)). }
    assert (Ht : floor_at m (d + e - 24) = floor_at (Z.pos p) e).
    { destruct (floor_shift m (24 - d) (d + e - 24) ltac:(lia) ltac:(lia)) as [F|]; [|lia]. rewrite <- F.
      unfold m. rewrite Z.div_mul by lia. f_equal. lia. }
    rewrite <- Ht. rewrite Z2Pos.id by lia.
    assert (Es : shr_fexp 24 128 m (d + e - 24) loc_Exact = (Build_shr_record m false false, d + e - 24)).
    { unfold shr_fexp. destruct m as [|q|q]; [lia| |lia]. cbn [Zdigits2]. rewrite (digits_unique q 24), fexp_small by lia.
      replace (24 + (d + e - 24) - 24 - (d + e - 24)) with 0 by lia. reflexivity. }
    rewrite Es. cbn [shr_m loc_of_shr_record round_nearest_even]. rewrite Es. cbn [shr_m].
    pose proof (finish_round m (d + e - 24) ltac:(lia) ltac:(lia)) as F. rewrite Es in F. cbn [shr_m] in F. rewrite F. eexists. split; [reflexivity|lia].
  - unfold shl_align. replace (d + e - 24 - e) with (d - 24) by lia. destruct (d - 24) as [|n|n] eqn:En; [lia| |lia].
    replace (match Z.pos n with Z.neg d0 => (Pos.iter xO p d0, d + e - 24) | _ => (p, e) end) with (p, e) by reflexivity.
    unfold shr_fexp at 1. cbn [Zdigits2]. fold d. rewrite fexp_small by lia. replace (d + e - 24 - e) with (Z.pos n) by lia.
    cbn [shr shr_record_of_loc]. set (r := SpecFloat.iter_pos shr_1 n _).
    assert (Hr : shr_m r = Z.pos p / 2 ^ Z.pos n) by (apply (shr_iter n (Build_shr_record (Z.pos p) false false)); cbn; lia).
    assert (Hq : 2 ^ 23 <= shr_m r < 2 ^ 24).
    { rewrite Hr, <- En. split; [apply Z.div_le_lower_bound|apply Z.div_lt_upper_bound]; try lia.
      - rewrite <- Z.pow_add_r by lia. replace (d - 24 + 23) with (d - 1) by lia. lia.
      - rewrite <- Z.pow_add_r by lia. replace (d - 24 + 24) with d by lia. lia. }
    assert (Ht : floor_at (shr_m r) (e + Z.pos n) = floor_at (Z.pos p) e).
    { destruct (floor_shift (Z.pos p) (Z.pos n) e ltac:(lia) He) as [F|]; [|lia]. now rewrite Hr. }
    set (M := round_nearest_even _ _).
    assert (HM : M = shr_m r \/ M = shr_m r + 1) by apply round_up_cases. clearbody M.
    pose proof (finish_round M (e + Z.pos n) ltac:(lia) ltac:(lia)) as F. destruct (shr_fexp _ _ M _ _) as [r2 e2]. rewrite F, <- Ht. eexists. split; [reflexivity|].
    unfold floor_at. destruct (Z.leb_spec 0 (e + Z.pos n)); [lia|].
    assert (0 < 2 ^ (- (e + Z.pos n))) by lia. destruct HM as [->| ->]; [lia|].
    split; [apply Z.div_le_mono; lia|]. rewrite <- (Z.div_add _ 1) by lia. apply Z.div_le_mono; lia.
Qed.

(** ** Adding to a cell *)

Lemma f32_of_Z_small b : 0 < b < 2 ^ 16 -> exists p e, f32_of_Z b = S754_finite false p e /\ e <= 0 /\ Z.pos p = b * 2 ^ (- e).
Proof.
  intros Hb. destruct b as [|q|q]; [lia| |lia]. pose proof (digits_bounds q) as Hq. set (d := Z.pos (digits2_pos q)) in *.
  assert (Hd : 0 < d <= 17).
  { assert (0 < d) by (unfold d; lia). split; [lia|]. assert (d - 1 < 17); [|lia]. apply (Z.pow_lt_mono_r_iff 2); lia. }
  unfold f32_of_Z, binary_normalize, binary_round. fold d. rewrite fexp_small by lia. rewrite shl_align_value by lia.
  replace (0 - (d + 0 - 24)) with (24 - d) by lia. replace (d + 0 - 24) with (d - 24) by lia.
  set (m := Z.pos q * 2 ^ (24 - d)).
  assert (Hm : 2 ^ 23 <= m < 2 ^ 24).
  { exact (fill_mantissa q ltac:(fold d; lia)). }
  rewrite Z2Pos.id by lia. unfold binary_round_aux.
  assert (Es : shr_fexp 24 128 m (d - 24) loc_Exact = (Build_shr_record m false false, d - 24)).
  { unfold shr_fexp. destruct m as [|r|r]; [lia| |lia]. cbn [Zdigits2]. rewrite (digits_unique r 24), fexp_small by lia.
    replace (24 + (d - 24) - 24 - (d - 24)) with 0 by lia. reflexivity. }
  rewrite Es. cbn [shr_m loc_of_shr_record round_nearest_even]. rewrite Es. cbn [shr_m]. destruct m as [|r|r] eqn:Em; [lia| |lia].
  rewrite (proj2 (Z.leb_le _ _)) by lia. exists r, (d - 24). split; [reflexivity|]. split; [lia|]. rewrite <- Em. unfold m. f_equal. f_equal. lia.
Qed.
(** A duration: not negative, and a number. *)
Definition duration (c : cfloat) : Prop := match c with S754_zero _ | S754_finite false _ _ => True | _ => False end.
Lemma trunc_add b c : duration c -> 0 <= b -> 0 <= f_trunc c -> b + f_trunc c < 2 ^ 16 ->
  b + f_trunc c <= f_trunc (f32_add (f32_of_Z b) c) <= b + f_trunc c + 1.
Proof.
  intros Hc Hb H0 Hs. destruct (Z.eq_dec b 0) as [->|].
  { change (f32_of_Z 0) with (S754_zero false). destruct c as [[]|[]| |[] m e]; try contradiction; cbn [f32_add SFadd f_trunc]; lia. }
  destruct (f32_of_Z_small b ltac:(lia)) as (p & e & -> & He & Hp).
  destruct c as [[]| | |[] m ec]; try contradiction.
  1, 2: cbn [f32_add SFadd f_trunc]; rewrite Hp; destruct (Z.leb_spec 0 e); [replace e with 0 by lia; cbn; lia|rewrite Z.div_mul by lia; lia].
  unfold f32_add, SFadd. set (ez := Z.min e ec). rewrite !shl_align_value by lia. cbn [fst cond_Zopp].
  assert (Hx : 0 < Z.pos p * 2 ^ (e - ez)) by lia. assert (Hy : 0 < Z.pos m * 2 ^ (ec - ez)) by lia.
  rewrite !Z2Pos.id by lia. set (s := Z.pos p * 2 ^ (e - ez) + Z.pos m * 2 ^ (ec - ez)). destruct s as [|q|q] eqn:Eq; [lia| |lia].
  cbn [binary_normalize].
  assert (Ef : floor_at (Z.pos q) ez = b + f_trunc (S754_finite false m ec)).
  { assert (Hz : floor_at (Z.pos q) ez = Z.pos q / 2 ^ (- ez)).
    { unfold floor_at. destruct (Z.leb_spec 0 ez); [|reflexivity]. replace ez with 0 by lia. now rewrite Z.mul_1_r, Z.div_1_r. }
    rewrite Hz, <- Eq. unfold s. rewrite Hp. replace (b * 2 ^ (- e) * 2 ^ (e - ez)) with (b * 2 ^ (- ez)) by (rewrite <- Z.mul_assoc, <- Z.pow_add_r by lia; f_equal; f_equal; lia).
    rewrite Z.div_add_l by lia. f_equal. cbn [f_trunc]. destruct (Z.leb_spec 0 ec).
    - replace (ec - ez) with (ec + - ez) by lia. rewrite Z.pow_add_r, Z.mul_assoc, Z.div_mul by lia. reflexivity.
    - replace (- ez) with (ec - ez + - ec) by lia. rewrite Z.pow_add_r, <- Z.div_div, Z.div_mul by lia. reflexivity. }
  rewrite <- Ef. apply round_trunc; lia.
Qed.
Lemma trunc_nonneg c : duration c -> 0 <= f_trunc c.
Proof.
  destruct c as [[]| | |[] m e]; cbn [duration f_trunc]; try contradiction; try lia. intros _. pose proof (Z.pow_nonneg 2 e ltac:(lia)).
  destruct (Z.leb_spec 0 e); [nia|apply Z.div_pos; [lia|apply Z.pow_pos_nonneg; lia]].
Qed.
