(* ===== verification/Kiss.v ===== *)
(** * Host reports (Utilities.h, [kiss_indicate_*])

    Each report is the list of bytes the function hands to [serial_write], as a
    function of the globals it reads.  The theorems read them back with the
    reference reader of Framing.v: a report is one frame with its command byte
    and the field bytes the host expects - except where a field is written
    without escaping. *)
From Stdlib Require Import Floats.SpecFloat.
From S2P Require Import Prelude Boards Framing Rom Float.

(* @src Config.h:34-34 MAJ_VERS *)
Definition MAJ_VERS : Z := 0x01.
(* @src Config.h:35-35 MIN_VERS *)
Definition MIN_VERS : Z := 0x56.
(* @src Config.h:176-176 rssi_offset *)
Definition rssi_offset : Z := 157.
(* @src Sensors.h:31-31 SENSOR_MODEL_NONE *)
Definition SENSOR_MODEL_NONE : Z := 0x00.
(* @src Sensors.h:32-32 SENSOR_MODEL_BMP280 *)
Definition SENSOR_MODEL_BMP280 : Z := 0x01.
(* @src Sensors.h:33-33 SENSOR_MODEL_BME280 *)
Definition SENSOR_MODEL_BME280 : Z := 0x02.
(* @src Power.h:18-18 PMU_TEMP_OFFSET *)
Definition PMU_TEMP_OFFSET : Z := 120.

Section Reports.
  Context `{Board}.

(* @src Utilities.h:1839-1844 kiss_indicate_reset *)
Definition kiss_indicate_reset : list Z := raw_frame CMD_RESET [CMD_RESET_BYTE].
(* @src Utilities.h:1846-1851 kiss_indicate_error *)
Definition kiss_indicate_error (error_code : Z) : list Z := raw_frame CMD_ERROR [u8 error_code].
(* @src Utilities.h:1859-1864 kiss_select_interface *)
Definition kiss_select_interface (vport : Z) : list Z := raw_frame CMD_SEL_INT [u8 vport].

(** The bracket in front of a radio report on a board with two interfaces. *)
Definition select_0 : list Z := if HAS_ESPNOW then kiss_select_interface 0 else [].

(* @src Utilities.h:1867-1875 kiss_indicate_radiostate *)
Definition kiss_indicate_radiostate (radio_online : bool) : list Z :=
  select_0 ++ raw_frame CMD_RADIO_STATE [Z.b2z radio_online].
(* @src Utilities.h:1877-1888 kiss_indicate_stat_rx *)
Definition kiss_indicate_stat_rx (stat_rx : Z) : list Z := select_0 ++ frame CMD_STAT_RX (be32 stat_rx).
(* @src Utilities.h:1890-1901 kiss_indicate_stat_tx *)
Definition kiss_indicate_stat_tx (stat_tx : Z) : list Z := select_0 ++ frame CMD_STAT_TX (be32 stat_tx).
(* @src Utilities.h:1903-1912 kiss_indicate_stat_rssi *)
Definition kiss_indicate_stat_rssi (last_rssi : Z) : list Z :=
  let packet_rssi_val := u8 (last_rssi + rssi_offset) in
  select_0 ++ frame CMD_STAT_RSSI [packet_rssi_val].
(* @src Utilities.h:1914-1922 kiss_indicate_stat_snr *)
Definition kiss_indicate_stat_snr (last_snr_raw : Z) : list Z :=
  select_0 ++ frame CMD_STAT_SNR [u8 last_snr_raw].
(* @src Utilities.h:1924-1932 kiss_indicate_radio_lock *)
Definition kiss_indicate_radio_lock (radio_locked : bool) : list Z :=
  select_0 ++ raw_frame CMD_RADIO_LOCK [Z.b2z radio_locked].
(* @src Utilities.h:1934-1942 kiss_indicate_spreadingfactor *)
Definition kiss_indicate_spreadingfactor (lora_sf : Z) : list Z :=
  select_0 ++ raw_frame CMD_SF [u8 lora_sf].
(* @src Utilities.h:1944-1952 kiss_indicate_syncword *)
Definition kiss_indicate_syncword (lora_sw : Z) : list Z :=
  select_0 ++ raw_frame CMD_SYNC_WORD [u8 lora_sw].
(* @src Utilities.h:1954-1962 kiss_indicate_codingrate *)
Definition kiss_indicate_codingrate (lora_cr : Z) : list Z :=
  select_0 ++ raw_frame CMD_CR [u8 lora_cr].
(* @src Utilities.h:1964-1969 kiss_indicate_implicit_length *)
Definition kiss_indicate_implicit_length (implicit_l : Z) : list Z :=
  raw_frame CMD_IMPLICIT [u8 implicit_l].
(* @src Utilities.h:1971-1979 kiss_indicate_txpower *)
Definition kiss_indicate_txpower (lora_txp : Z) : list Z :=
  select_0 ++ raw_frame CMD_TXPOWER [u8 lora_txp].
(* @src Utilities.h:1982-1987 kiss_indicate_vsense_div *)
Definition kiss_indicate_vsense_div (vsense_divider_ratio : cfloat) : list Z :=
  frame CMD_VSENSE_DIV [u8 (f_trunc (f64_mul (to_f64 vsense_divider_ratio) (f64_of_Z 10)))].
(* @src Utilities.h:1990-2001 kiss_indicate_bandwidth *)
Definition kiss_indicate_bandwidth (lora_bw : Z) : list Z := select_0 ++ frame CMD_BANDWIDTH (be32 lora_bw).
(* @src Utilities.h:2003-2014 kiss_indicate_frequency *)
Definition kiss_indicate_frequency (lora_freq : Z) : list Z :=
  select_0 ++ frame CMD_FREQUENCY (be32 lora_freq).
(* @src Utilities.h:2017-2026 kiss_indicate_time *)
Definition kiss_indicate_time (epoch : Z) : list Z := frame CMD_TIME (be32 epoch).
(* @src Utilities.h:2037-2047 kiss_indicate_ntp_sync *)
Definition kiss_indicate_ntp_sync (status epoch : Z) : list Z :=
  frame CMD_NTP_SYNC (u8 status :: be32 epoch).

(** [temperature], [humidity], [pressure]: what the sensor reads. *)
(* @src Utilities.h:2061-2083 kiss_indicate_sensor *)
Definition kiss_indicate_sensor (sensor_present : bool) (sensor_model : Z)
    (temperature humidity pressure : cfloat) : list Z :=
  let temp_cc := if sensor_present then i16 (f_trunc (f32_mul temperature (f32_of_Z 100))) else 0 in
  let humid_cc := if sensor_present && (sensor_model =? SENSOR_MODEL_BME280)
                  then u16 (f_trunc (f32_mul humidity (f32_of_Z 100))) else 0xFFFF in
  let press_pa := if sensor_present then u32 (f_trunc pressure) else 0 in
  select_0 ++ frame CMD_SENSOR
    ([Z.b2z sensor_present; u8 sensor_model] ++ be16 temp_cc ++ be16 humid_cc ++ be32 press_pa).

(** [(uint16_t)(x*100*100)] of a [float]. *)
Definition hundredths (x : cfloat) : Z := u16 (f_trunc (f32_mul (f32_mul x (f32_of_Z 100)) (f32_of_Z 100))).

(* @src Utilities.h:2086-2096 kiss_indicate_st_alock *)
Definition kiss_indicate_st_alock (st_airtime_limit : cfloat) : list Z :=
  let at' := hundredths st_airtime_limit in select_0 ++ frame CMD_ST_ALOCK (be16 at').
(* @src Utilities.h:2098-2108 kiss_indicate_lt_alock *)
Definition kiss_indicate_lt_alock (lt_airtime_limit : cfloat) : list Z :=
  let at' := hundredths lt_airtime_limit in select_0 ++ frame CMD_LT_ALOCK (be16 at').

(* @src Utilities.h:2110-2134 kiss_indicate_channel_stats *)
Definition kiss_indicate_channel_stats (airtime longterm_airtime total_channel_util longterm_channel_util : cfloat)
    (current_rssi noise_floor : Z) (interference_detected : bool) : list Z :=
  let crs := u8 (current_rssi + rssi_offset) in
  let nfl := u8 (noise_floor + rssi_offset) in
  let ntf := if interference_detected then u8 (current_rssi + rssi_offset) else 0xFF in
  frame CMD_STAT_CHTM (be16 (hundredths airtime) ++ be16 (hundredths longterm_airtime) ++
    be16 (hundredths total_channel_util) ++ be16 (hundredths longterm_channel_util) ++ [crs; nfl; ntf]).

(* @src Utilities.h:2136-2145 kiss_indicate_csma_stats *)
Definition kiss_indicate_csma_stats (cw_band cw_min cw_max : Z) : list Z :=
  frame CMD_STAT_CSMA [u8 cw_band; u8 cw_min; u8 cw_max].

(* @src Utilities.h:2147-2165 kiss_indicate_phy_stats *)
Definition kiss_indicate_phy_stats (lora_symbol_time_ms lora_symbol_rate : cfloat)
    (lora_preamble_symbols lora_preamble_time_ms csma_slot_ms difs_ms : Z) : list Z :=
  let lst := u16 (f_trunc (f32_mul lora_symbol_time_ms (f32_of_Z 1000))) in
  let lsr := u16 (f_trunc lora_symbol_rate) in
  frame CMD_STAT_PHYPRM (be16 lst ++ be16 lsr ++ be16 (u16 lora_preamble_symbols) ++
    be16 (u16 lora_preamble_time_ms) ++ be16 (u16 csma_slot_ms) ++ be16 (u16 difs_ms)).

(* @src Utilities.h:2167-2175 kiss_indicate_battery *)
Definition kiss_indicate_battery (battery_state : Z) (battery_percent : cfloat) : list Z :=
  frame CMD_STAT_BAT [u8 battery_state; u8 (f_trunc battery_percent)].

(** [roundf]: to the nearest integer, halves away from zero. *)
Definition roundf (x : cfloat) : Z :=
  match x with
  | S754_finite s m e =>
      let a := if 0 <=? e then Z.pos m * 2 ^ e else (2 * Z.pos m + 2 ^ (- e)) / (2 * 2 ^ (- e)) in
      if s then - a else a
  | _ => 0
  end.

(* @src Utilities.h:2177-2187 kiss_indicate_temperature *)
Definition kiss_indicate_temperature (pmu_temperature : cfloat) : list Z :=
  frame CMD_STAT_TEMP [u8 (roundf (f32_add pmu_temperature (f32_of_Z PMU_TEMP_OFFSET)))].

(* @src Utilities.h:2189-2203 kiss_indicate_btpin *)
Definition kiss_indicate_btpin (bt_ssp_pin : Z) : list Z :=
  if HAS_BLUETOOTH || HAS_BLE then frame CMD_BT_PIN (be32 bt_ssp_pin) else [].

(* @src Utilities.h:2205-2210 kiss_indicate_random *)
Definition kiss_indicate_random (byte : Z) : list Z := raw_frame CMD_RANDOM [u8 byte].

(* @src Utilities.h:2212-2225 kiss_indicate_fbstate *)
Definition kiss_indicate_fbstate (disp_ext_fb : bool) : list Z :=
  raw_frame CMD_FB_EXT [if HAS_DISPLAY then Z.b2z disp_ext_fb else 0xFF].

(* @src Utilities.h:2228-2236 kiss_indicate_device_hash *)
Definition kiss_indicate_device_hash (dev_hash : list Z) : list Z :=
  frame CMD_DEV_HASH (map u8 (take (Z.to_nat DEV_HASH_LEN) dev_hash)).

(** The four answers to CMD_HASHES: a raw selector and the hash. *)
Definition hashes_frame (selector : Z) (hash : list Z) : list Z :=
  [FEND; CMD_HASHES; selector] ++ escaped (map u8 (take (Z.to_nat DEV_HASH_LEN) hash)) ++ [FEND].
(* @src Utilities.h:2238-2247 kiss_indicate_target_fw_hash *)
Definition kiss_indicate_target_fw_hash (dev_firmware_hash_target : list Z) : list Z :=
  hashes_frame 0x01 dev_firmware_hash_target.
(* @src Utilities.h:2249-2258 kiss_indicate_fw_hash *)
Definition kiss_indicate_fw_hash (dev_firmware_hash : list Z) : list Z :=
  hashes_frame 0x02 dev_firmware_hash.
(* @src Utilities.h:2260-2269 kiss_indicate_bootloader_hash *)
Definition kiss_indicate_bootloader_hash (dev_bootloader_hash : list Z) : list Z :=
  hashes_frame 0x03 dev_bootloader_hash.
(* @src Utilities.h:2271-2280 kiss_indicate_partition_table_hash *)
Definition kiss_indicate_partition_table_hash (dev_partition_table_hash : list Z) : list Z :=
  hashes_frame 0x04 dev_partition_table_hash.

(* @src Utilities.h:2283-2295 kiss_indicate_fb *)
Definition kiss_indicate_fb (fb : list Z) : list Z :=
  if HAS_DISPLAY then frame CMD_FB_READ (map u8 (take 512 fb)) else raw_frame CMD_FB_READ [0xFF].

(** [menu_direct]: the menu draws into the panel's own buffer (first branch);
    otherwise the two areas of the main screen are sent. *)
(* @src Utilities.h:2297-2345 kiss_indicate_disp *)
Definition kiss_indicate_disp (menu_direct : bool) (panel disp_area stat_area : list Z) : list Z :=
  if HAS_DISPLAY
  then frame CMD_DISP_READ (if menu_direct then 0x01 :: map u8 panel
                            else 0x00 :: map u8 disp_area ++ map u8 stat_area)
  else raw_frame CMD_DISP_READ [0xFF].

(* @src Utilities.h:2347-2352 kiss_indicate_ready *)
Definition kiss_indicate_ready : list Z := raw_frame CMD_READY [0x01].
(* @src Utilities.h:2354-2359 kiss_indicate_not_ready *)
Definition kiss_indicate_not_ready : list Z := raw_frame CMD_READY [0x00].
(* @src Utilities.h:2361-2370 kiss_indicate_promisc *)
Definition kiss_indicate_promisc (promisc : bool) : list Z :=
  raw_frame CMD_PROMISC [if promisc then 0x01 else 0x00].
(* @src Utilities.h:2372-2377 kiss_indicate_detect *)
Definition kiss_indicate_detect : list Z := raw_frame CMD_DETECT [DETECT_RESP].
(* @src Utilities.h:2379-2395 kiss_indicate_version *)
Definition kiss_indicate_version : list Z :=
  [FEND; CMD_FW_VERSION; MAJ_VERS; MIN_VERS] ++ escaped (be32 (u32 BUILD_NUMBER)) ++ [FEND].
(* @src Utilities.h:2397-2402 kiss_indicate_platform *)
Definition kiss_indicate_platform : list Z := raw_frame CMD_PLATFORM [u8 PLATFORM].
(* @src Utilities.h:2404-2409 kiss_indicate_board *)
Definition kiss_indicate_board : list Z := raw_frame CMD_BOARD [u8 BOARD_MODEL].
(* @src Utilities.h:2411-2416 kiss_indicate_mcu *)
Definition kiss_indicate_mcu : list Z := raw_frame CMD_MCU [u8 MCU_VARIANT].
End Reports.

(** The limit a host sets, in hundredths of a percent, as [serial_callback]
    stores it. *)
(* @src RNode_Firmware.ino:2246-2252 serial_callback *)
Definition airtime_limit (at' : Z) : cfloat :=
  if at' =? 0 then f_zero
  else
    let l := to_f32 (f64_div (to_f64 (f32_of_Z at')) (f64_of_Z 10000)) in
    if f_leb (f64_of_Z 1) (to_f64 l) then f_zero else l.

(** The divider a host sets, in tenths, as [vsr_conf_save] stores it. *)
(* @src Utilities.h:3186-3187 vsr_conf_save *)
Definition vsense_ratio (VSENSE_DIVIDER_RATIO_DEFAULT : cfloat) (val : Z) : cfloat :=
  if negb (val =? 0x00) && negb (val =? 0xFF)
  then to_f32 (f64_div (to_f64 (f32_of_Z val)) (f64_of_Z 10))
  else VSENSE_DIVIDER_RATIO_DEFAULT.

(** ** The reports as frames *)

Inductive report :=
  | RReset | RError (code : Z) | RRadioState (online : bool) | RStatRx (n : Z) | RStatTx (n : Z)
  | RRssi (rssi : Z) | RSnr (raw : Z) | RRadioLock (locked : bool) | RBandwidth (bw : Z)
  | RFrequency (freq : Z) | RTime (epoch : Z) | RNtp (status epoch : Z)
  | RSensor (present : bool) (model : Z) (t h p : cfloat)
  | RStAlock (l : cfloat) | RLtAlock (l : cfloat)
  | RChannel (a l t u : cfloat) (rssi floor : Z) (interference : bool)
  | RCsma (band wmin wmax : Z) | RPhy (st sr : cfloat) (ps pt slot difs : Z)
  | RBattery (state : Z) (percent : cfloat) | RTemperature (t : cfloat)
  | RDeviceHash (h : list Z) | RReady | RNotReady | RPromisc (on : bool) | RDetect | RVersion.

Section Readable.
  Context `{Board}.

Definition render (r : report) : list Z :=
  match r with
  | RReset => kiss_indicate_reset
  | RError c => kiss_indicate_error c
  | RRadioState b => kiss_indicate_radiostate b
  | RStatRx n => kiss_indicate_stat_rx n
  | RStatTx n => kiss_indicate_stat_tx n
  | RRssi r => kiss_indicate_stat_rssi r
  | RSnr r => kiss_indicate_stat_snr r
  | RRadioLock b => kiss_indicate_radio_lock b
  | RBandwidth n => kiss_indicate_bandwidth n
  | RFrequency n => kiss_indicate_frequency n
  | RTime n => kiss_indicate_time n
  | RNtp s n => kiss_indicate_ntp_sync s n
  | RSensor b m t h p => kiss_indicate_sensor b m t h p
  | RStAlock l => kiss_indicate_st_alock l
  | RLtAlock l => kiss_indicate_lt_alock l
  | RChannel a l t u r f i => kiss_indicate_channel_stats a l t u r f i
  | RCsma b m n => kiss_indicate_csma_stats b m n
  | RPhy a b c d e f => kiss_indicate_phy_stats a b c d e f
  | RBattery s p => kiss_indicate_battery s p
  | RTemperature t => kiss_indicate_temperature t
  | RDeviceHash h => kiss_indicate_device_hash h
  | RReady => kiss_indicate_ready
  | RNotReady => kiss_indicate_not_ready
  | RPromisc b => kiss_indicate_promisc b
  | RDetect => kiss_indicate_detect
  | RVersion => kiss_indicate_version
  end.

Definition selected : list (Z * list Z) := if HAS_ESPNOW then [(CMD_SEL_INT, [0])] else [].

(** What the host is meant to receive. *)
Definition host_view (r : report) : list (Z * list Z) :=
  match r with
  | RReset => [(CMD_RESET, [CMD_RESET_BYTE])]
  | RError c => [(CMD_ERROR, [u8 c])]
  | RRadioState b => selected ++ [(CMD_RADIO_STATE, [Z.b2z b])]
  | RStatRx n => selected ++ [(CMD_STAT_RX, be32 n)]
  | RStatTx n => selected ++ [(CMD_STAT_TX, be32 n)]
  | RRssi r => selected ++ [(CMD_STAT_RSSI, [u8 (r + 157)])]
  | RSnr r => selected ++ [(CMD_STAT_SNR, [u8 r])]
  | RRadioLock b => selected ++ [(CMD_RADIO_LOCK, [Z.b2z b])]
  | RBandwidth n => selected ++ [(CMD_BANDWIDTH, be32 n)]
  | RFrequency n => selected ++ [(CMD_FREQUENCY, be32 n)]
  | RTime n => [(CMD_TIME, be32 n)]
  | RNtp s n => [(CMD_NTP_SYNC, u8 s :: be32 n)]
  | RSensor b m t h p => selected ++ [(CMD_SENSOR, [Z.b2z b; u8 m] ++
      be16 (if b then i16 (f_trunc (f32_mul t (f32_of_Z 100))) else 0) ++
      be16 (if b && (m =? SENSOR_MODEL_BME280) then u16 (f_trunc (f32_mul h (f32_of_Z 100))) else 0xFFFF) ++
      be32 (if b then u32 (f_trunc p) else 0))]
  | RStAlock l => selected ++ [(CMD_ST_ALOCK, be16 (hundredths l))]
  | RLtAlock l => selected ++ [(CMD_LT_ALOCK, be16 (hundredths l))]
  | RChannel a l t u r f i => [(CMD_STAT_CHTM, be16 (hundredths a) ++ be16 (hundredths l) ++
      be16 (hundredths t) ++ be16 (hundredths u) ++
      [u8 (r + 157); u8 (f + 157); if i then u8 (r + 157) else 0xFF])]
  | RCsma b m n => [(CMD_STAT_CSMA, [u8 b; u8 m; u8 n])]
  | RPhy a b c d e f => [(CMD_STAT_PHYPRM, be16 (u16 (f_trunc (f32_mul a (f32_of_Z 1000)))) ++
      be16 (u16 (f_trunc b)) ++ be16 (u16 c) ++ be16 (u16 d) ++ be16 (u16 e) ++ be16 (u16 f))]
  | RBattery s p => [(CMD_STAT_BAT, [u8 s; u8 (f_trunc p)])]
  | RTemperature t => [(CMD_STAT_TEMP, [u8 (roundf (f32_add t (f32_of_Z 120)))])]
  | RDeviceHash h => [(CMD_DEV_HASH, map u8 (take 32 h))]
  | RReady => [(CMD_READY, [1])]
  | RNotReady => [(CMD_READY, [0])]
  | RPromisc b => [(CMD_PROMISC, [Z.b2z b])]
  | RDetect => [(CMD_DETECT, [DETECT_RESP])]
  | RVersion => [(CMD_FW_VERSION, [MAJ_VERS; MIN_VERS] ++ be32 (u32 BUILD_NUMBER))]
  end.

(** An error code that needs no escaping; every other report is unconditional. *)
Definition report_ok (r : report) : Prop :=
  match r with RError c => plain (u8 c) | _ => True end.

Lemma frames_app a b : frames (a ++ b) = frames a ++ frames b.
Proof. unfold frames. now rewrite map_app, concat_app. Qed.
Lemma frames_one c p : frames [(c, p)] = frame c p.
Proof. unfold frames. cbn. now rewrite app_nil_r. Qed.

Lemma frames_selected f : frames (selected ++ [f]) = select_0 ++ frame (fst f) (snd f).
Proof.
  rewrite frames_app. destruct f as [c p]. rewrite frames_one. f_equal.
  unfold selected, select_0, kiss_select_interface. destruct HAS_ESPNOW; reflexivity.
Qed.

Lemma render_frames r : report_ok r -> render r = frames (host_view r).
Proof.
  destruct r; intros Hr; cbn [host_view render]; rewrite ?frames_selected, ?frames_one; cbn [fst snd];
    try reflexivity; try (now rewrite <- raw_frame_plain by (repeat constructor; (done || apply Hr))).
  all: try match goal with b : bool |- _ => destruct b; reflexivity end.
Qed.

Lemma host_view_cmds r : Forall (fun f => cmd_ok (fst f)) (host_view r).
Proof.
  destruct r; cbn [host_view]; unfold selected; try destruct HAS_ESPNOW;
    repeat constructor; discriminate.
Qed.

(** Every report the firmware sends with escaped fields - statistics, radio
    parameters, times, sensor, channel, PHY, battery and hash reports, and the
    constant acknowledgements - reaches the host as intended: a KISS reader that
    is between frames recovers from any sequence of reports exactly their commands
    and field bytes, each radio report preceded by its interface selection on a
    board with two interfaces. *)
Theorem reports_readable (rs : list report) :
  Forall report_ok rs ->
  snd (kiss_read reader0 (concat (map render rs))) = concat (map host_view rs).
Proof.
  intros Hrs.
  assert (E : concat (map render rs) = frames (concat (map host_view rs))).
  { induction Hrs as [|r rs Hr _ IH]; [reflexivity|]. cbn [map concat].
    now rewrite frames_app, <- IH, render_frames. }
  rewrite E, kiss_roundtrip_gen; [reflexivity|reflexivity|].
  apply Forall_concat, Forall_map, Forall_forall. intros r _. apply host_view_cmds.
Qed.
End Readable.

Lemma reports_readable_witness :
  let _ := heltec32_v3 in
  snd (kiss_read reader0 (concat (map render [RFrequency 0xC0DBDCDD; RError 1; RReady])))
  = [(CMD_FREQUENCY, [0xC0; 0xDB; 0xDC; 0xDD]); (CMD_ERROR, [1]); (CMD_READY, [1])].
Proof.
  intros B. apply (@reports_readable heltec32_v3 [RFrequency 0xC0DBDCDD; RError 1; RReady]).
  repeat constructor; discriminate.
Defined.

(** The sync word report writes its field without escaping.  The host reads
    the sync word back exactly when it is neither FEND nor FESC; 0xC0 and 0xDB are
    reported as an empty frame. *)
Theorem syncword_report `{Board} (sw : Z) :
  is_u8 sw -> HAS_ESPNOW = false ->
  (snd (kiss_read reader0 (kiss_indicate_syncword sw)) = [(CMD_SYNC_WORD, [sw])] <-> plain sw) /\
  (~ plain sw -> snd (kiss_read reader0 (kiss_indicate_syncword sw)) = [(CMD_SYNC_WORD, [])]).
Proof.
  intros Hu He. unfold kiss_indicate_syncword, select_0. rewrite He, u8_id by assumption. cbn [app].
  assert (Hp : plain sw -> snd (kiss_read reader0 (raw_frame CMD_SYNC_WORD [sw])) = [(CMD_SYNC_WORD, [sw])]).
  { intros Hp. rewrite raw_frame_plain, kiss_read_frame by (repeat constructor; try discriminate; apply Hp).
    reflexivity. }
  assert (Hn : ~ plain sw -> snd (kiss_read reader0 (raw_frame CMD_SYNC_WORD [sw])) = [(CMD_SYNC_WORD, [])]).
  { intros Hn. unfold plain in Hn.
    destruct (decide (sw = FEND)) as [->|]; [reflexivity|].
    destruct (decide (sw = FESC)) as [->|]; [reflexivity|]. tauto. }
  split; [split; [|exact Hp]|exact Hn].
  intros E. destruct (decide (plain sw)) as [|N]; [assumption|]. rewrite Hn in E by assumption. discriminate.
Qed.

Lemma syncword_report_witness :
  let _ := heltec32_v3 in
  snd (kiss_read reader0 (kiss_indicate_syncword 0xC0)) = [(CMD_SYNC_WORD, [])].
Proof.
  intros B. apply (@syncword_report heltec32_v3 0xC0); [unfold is_u8; lia|reflexivity|].
  intros [E _]. now apply E.
Defined.

(** ** Values echoed through floating point *)

Lemma range_forallb (P : Z -> bool) (n : nat) :
  forallb P (map Z.of_nat (seq 0 n)) = true -> forall x, 0 <= x < Z.of_nat n -> P x = true.
Proof.
  intros H x Hx. rewrite forallb_forall in H. apply H, in_map_iff.
  exists (Z.to_nat x). split; [lia|]. apply in_seq. lia.
Qed.

Definition echo_near (x y : Z) : bool := (y =? x) || (y =? x - 1).

Lemma airtime_echo_check :
  forallb (fun x => echo_near x (hundredths (airtime_limit x))) (map Z.of_nat (seq 0 10000)) = true.
Proof. vm_compute. reflexivity. Qed.

Lemma vsense_echo_check :
  forallb (fun x => (x =? 0) || (x =? 255) ||
                    echo_near x (u8 (f_trunc (f64_mul (to_f64 (vsense_ratio f_zero x)) (f64_of_Z 10)))))
    (map Z.of_nat (seq 0 256)) = true.
Proof. vm_compute. reflexivity. Qed.

(** An airtime limit below 100 percent, set by the host in hundredths of a
    percent, is stored as a [float] and reported back; the report is the value set
    or one less, never anything else.  It is not always the value set: 53 is
    reported as 52. *)
Theorem airtime_limit_echo `{Board} (n : Z) :
  0 <= n < 10000 ->
  (exists m, (m = n \/ m = n - 1) /\
    snd (kiss_read reader0 (kiss_indicate_st_alock (airtime_limit n))) = selected ++ [(CMD_ST_ALOCK, be16 m)] /\
    snd (kiss_read reader0 (kiss_indicate_lt_alock (airtime_limit n))) = selected ++ [(CMD_LT_ALOCK, be16 m)]) /\
  hundredths (airtime_limit 53) = 52.
Proof.
  intros Hn. split; [|vm_compute; reflexivity].
  exists (hundredths (airtime_limit n)).
  pose proof (range_forallb _ _ airtime_echo_check n Hn) as E. cbv beta in E. unfold echo_near in E.
  rewrite orb_true_iff, !Z.eqb_eq in E. split; [tauto|].
  assert (Hc : forall c, cmd_ok c -> Forall (fun f : Z * list Z => cmd_ok (fst f)) (selected ++ [(c, be16 (hundredths (airtime_limit n)))])).
  { intros c Hc. unfold selected. destruct HAS_ESPNOW; repeat constructor; try discriminate; apply Hc. }
  split.
  - change (kiss_indicate_st_alock _) with (render (RStAlock (airtime_limit n))).
    rewrite render_frames, kiss_roundtrip_gen; [reflexivity|reflexivity|apply Hc; done|exact I].
  - change (kiss_indicate_lt_alock _) with (render (RLtAlock (airtime_limit n))).
    rewrite render_frames, kiss_roundtrip_gen; [reflexivity|reflexivity|apply Hc; done|exact I].
Qed.

Lemma airtime_limit_echo_witness : hundredths (airtime_limit 53) = 52.
Proof. apply (@airtime_limit_echo heltec32_v3 0). lia. Defined.

(** The voltage divider a host sets in tenths is reported back as the value
    set or one less: 33, a ratio of 3.3, is reported as 32. *)
Theorem vsense_echo (d : cfloat) (n : Z) :
  0 < n < 255 ->
  (exists m, (m = n \/ m = n - 1) /\ kiss_indicate_vsense_div (vsense_ratio d n) = frame CMD_VSENSE_DIV [m]) /\
  kiss_indicate_vsense_div (vsense_ratio d 33) = frame CMD_VSENSE_DIV [32].
Proof.
  intros Hn. split; [|vm_compute; reflexivity].
  assert (Ed : vsense_ratio d n = vsense_ratio f_zero n).
  { unfold vsense_ratio. rewrite (proj2 (Z.eqb_neq n 0)), (proj2 (Z.eqb_neq n 255)) by lia. reflexivity. }
  rewrite Ed. eexists. split; [|reflexivity].
  pose proof (range_forallb _ _ vsense_echo_check n ltac:(lia)) as E. cbv beta in E.
  rewrite (proj2 (Z.eqb_neq n 0)), (proj2 (Z.eqb_neq n 255)) in E by lia. cbn [orb] in E.
  unfold echo_near in E. rewrite orb_true_iff, !Z.eqb_eq in E. exact E.
Qed.

Lemma vsense_echo_witness :
  kiss_indicate_vsense_div (vsense_ratio f_zero 33) = frame CMD_VSENSE_DIV [32].
Proof. apply (vsense_echo f_zero 33). lia. Defined.
