(* ===== verification/Md5.v ===== *)
(** * MD5 (MD5.cpp)

    The checksum of the EEPROM information block.  The streaming implementation
    - a context that buffers a partial block, a block transformation written with
    optimised boolean functions, a finalisation that pads in place - is modelled
    as it is written and proved equal to a reference written from RFC 1321, whose
    table is computed from the sine.  [MD5_u32plus] is the 32-bit [unsigned long] of the
    targets.  [ctx->block] is scratch space of the block transformation and the
    final [memset] clears the context; neither is observable. *)
From S2P Require Import Prelude.

(** ** Boolean functions and the step *)

Definition not32 (x : Z) : Z := Z.lxor x 0xffffffff.
(* @src MD5.cpp:31-31 E *)
Definition fE (x y z : Z) : Z := Z.lxor z (Z.land x (Z.lxor y z)).
(* @src MD5.cpp:32-32 G *)
Definition fG (x y z : Z) : Z := Z.lxor y (Z.land z (Z.lxor x y)).
(* @src MD5.cpp:33-33 H *)
Definition fH (x y z : Z) : Z := Z.lxor (Z.lxor x y) z.
(* @src MD5.cpp:34-34 I *)
Definition fI (x y z : Z) : Z := Z.lxor y (Z.lor x (not32 z)).

Definition regs : Type := Z * Z * Z * Z.

(** [STEP] on the first register; the tuple comes back rotated, so that the next
    step's target is first again. *)
(* @src MD5.cpp:39-42 STEP *)
Definition STEP (f : Z -> Z -> Z -> Z) (x t s : Z) (r : regs) : regs :=
  let '(a, b, c, d) := r in
  let a := u32 (a + (f b c d + x + t)) in
  let a := u32 (Z.lor (Z.shiftl a s) (Z.shiftr (Z.land a 0xffffffff) (32 - s))) in
  let a := u32 (a + b) in
  (d, a, b, c).

(** [SET(n)]: a little-endian word of the block. *)
(* @src MD5.cpp:58-63 SET *)
Definition SET (ptr : list Z) (n : nat) : Z :=
  let p i := zget 0 ptr (Z.of_nat (n * 4) + i) in
  Z.lor (Z.lor (Z.lor (p 0) (Z.shiftl (p 1) 8)) (Z.shiftl (p 2) 16)) (Z.shiftl (p 3) 24).

(** The 64 steps: function, word, constant, rotation. *)
(* @src MD5.cpp:92-164 body *)
Definition md5_steps : list ((Z -> Z -> Z -> Z) * nat * Z * Z) :=
  [
   (fE, 0%nat, 0xd76aa478, 7); (fE, 1%nat, 0xe8c7b756, 12); (fE, 2%nat, 0x242070db, 17); (fE, 3%nat, 0xc1bdceee, 22);
   (fE, 4%nat, 0xf57c0faf, 7); (fE, 5%nat, 0x4787c62a, 12); (fE, 6%nat, 0xa8304613, 17); (fE, 7%nat, 0xfd469501, 22);
   (fE, 8%nat, 0x698098d8, 7); (fE, 9%nat, 0x8b44f7af, 12); (fE, 10%nat, 0xffff5bb1, 17); (fE, 11%nat, 0x895cd7be, 22);
   (fE, 12%nat, 0x6b901122, 7); (fE, 13%nat, 0xfd987193, 12); (fE, 14%nat, 0xa679438e, 17); (fE, 15%nat, 0x49b40821, 22);
   (fG, 1%nat, 0xf61e2562, 5); (fG, 6%nat, 0xc040b340, 9); (fG, 11%nat, 0x265e5a51, 14); (fG, 0%nat, 0xe9b6c7aa, 20);
   (fG, 5%nat, 0xd62f105d, 5); (fG, 10%nat, 0x02441453, 9); (fG, 15%nat, 0xd8a1e681, 14); (fG, 4%nat, 0xe7d3fbc8, 20);
   (fG, 9%nat, 0x21e1cde6, 5); (fG, 14%nat, 0xc33707d6, 9); (fG, 3%nat, 0xf4d50d87, 14); (fG, 8%nat, 0x455a14ed, 20);
   (fG, 13%nat, 0xa9e3e905, 5); (fG, 2%nat, 0xfcefa3f8, 9); (fG, 7%nat, 0x676f02d9, 14); (fG, 12%nat, 0x8d2a4c8a, 20);
   (fH, 5%nat, 0xfffa3942, 4); (fH, 8%nat, 0x8771f681, 11); (fH, 11%nat, 0x6d9d6122, 16); (fH, 14%nat, 0xfde5380c, 23);
   (fH, 1%nat, 0xa4beea44, 4); (fH, 4%nat, 0x4bdecfa9, 11); (fH, 7%nat, 0xf6bb4b60, 16); (fH, 10%nat, 0xbebfbc70, 23);
   (fH, 13%nat, 0x289b7ec6, 4); (fH, 0%nat, 0xeaa127fa, 11); (fH, 3%nat, 0xd4ef3085, 16); (fH, 6%nat, 0x04881d05, 23);
   (fH, 9%nat, 0xd9d4d039, 4); (fH, 12%nat, 0xe6db99e5, 11); (fH, 15%nat, 0x1fa27cf8, 16); (fH, 2%nat, 0xc4ac5665, 23);
   (fI, 0%nat, 0xf4292244, 6); (fI, 7%nat, 0x432aff97, 10); (fI, 14%nat, 0xab9423a7, 15); (fI, 5%nat, 0xfc93a039, 21);
   (fI, 12%nat, 0x655b59c3, 6); (fI, 3%nat, 0x8f0ccc92, 10); (fI, 10%nat, 0xffeff47d, 15); (fI, 1%nat, 0x85845dd1, 21);
   (fI, 8%nat, 0x6fa87e4f, 6); (fI, 15%nat, 0xfe2ce6e0, 10); (fI, 6%nat, 0xa3014314, 15); (fI, 13%nat, 0x4e0811a1, 21);
   (fI, 4%nat, 0xf7537e82, 6); (fI, 11%nat, 0xbd3af235, 10); (fI, 2%nat, 0x2ad7d2bb, 15); (fI, 9%nat, 0xeb86d391, 21)].

(* @src MD5.cpp:86-169 body *)
Definition md5_block (ptr : list Z) (r : regs) : regs :=
  let '(saved_a, saved_b, saved_c, saved_d) := r in
  let '(a, b, c, d) := foldl (fun r '(f, n, t, s) => STEP f (SET ptr n) t s r) r md5_steps in
  (u32 (a + saved_a), u32 (b + saved_b), u32 (c + saved_c), u32 (d + saved_d)).

(** [body] over [n] blocks: the context registers and the data that is left. *)
(* @src MD5.cpp:72-180 MD5::body *)
Fixpoint body (n : nat) (ptr : list Z) (r : regs) : regs * list Z :=
  match n with
  | O => (r, ptr)
  | S n => body n (drop 64 ptr) (md5_block (take 64 ptr) r)
  end.

(** ** The context *)

(* @src MD5.h:32-37 MD5_CTX *)
Record MD5_CTX := mk_ctx { lo : Z; hi : Z; abcd : regs; buffer : list Z }.

(* @src MD5.cpp:182-195 MD5::MD5Init *)
Definition MD5Init : MD5_CTX :=
  mk_ctx 0 0 (0x67452301, 0xefcdab89, 0x98badcfe, 0x10325476) (repeat 0 64).

(** [memcpy(&buffer[at], data, n)]. *)
Definition blit (buf : list Z) (at' : nat) (data : list Z) : list Z :=
  take at' buf ++ data ++ drop (at' + length data) buf.

(** Whole blocks straight from the data, the rest to the start of the buffer. *)
(* @src MD5.cpp:225-230 MD5::MD5Update *)
Definition MD5Update_tail (data : list Z) (ctx : MD5_CTX) : MD5_CTX :=
  let '(r, rest) := body (length data / 64) data (abcd ctx) in
  ctx <| abcd := r |> <| buffer := blit (buffer ctx) 0 rest |>.

(* @src MD5.cpp:197-231 MD5::MD5Update *)
Definition MD5Update (ctx : MD5_CTX) (data : list Z) : MD5_CTX :=
  let size := zlen data in
  let saved_lo := lo ctx in
  let ctx := ctx <| lo := Z.land (u32 (saved_lo + size)) 0x1fffffff |> in
  let ctx := if lo ctx <? saved_lo then ctx <| hi := u32 (hi ctx + 1) |> else ctx in
  let ctx := ctx <| hi := u32 (hi ctx + Z.shiftr size 29) |> in
  let used := Z.to_nat (Z.land saved_lo 0x3f) in
  if (used =? 0)%nat then MD5Update_tail data ctx
  else
    let free := (64 - used)%nat in
    if (length data <? free)%nat then ctx <| buffer := blit (buffer ctx) used data |>
    else
      let ctx := ctx <| buffer := blit (buffer ctx) used (take free data) |> in
      let data := drop free data in
      MD5Update_tail data (ctx <| abcd := fst (body 1 (buffer ctx) (abcd ctx)) |>).

Definition le32 (x : Z) : list Z :=
  [u8 x; u8 (Z.shiftr x 8); u8 (Z.shiftr x 16); u8 (Z.shiftr x 24)].

(* @src MD5.cpp:233-283 MD5::MD5Final *)
Definition MD5Final (ctx : MD5_CTX) : list Z :=
  let used := Z.to_nat (Z.land (lo ctx) 0x3f) in
  let ctx := ctx <| buffer := blit (buffer ctx) used [0x80] |> in
  let used := S used in
  let free := (64 - used)%nat in
  let '(ctx, used, free) :=
    if (free <? 8)%nat then
      let ctx := ctx <| buffer := blit (buffer ctx) used (repeat 0 free) |> in
      (ctx <| abcd := fst (body 1 (buffer ctx) (abcd ctx)) |>, 0%nat, 64%nat)
    else (ctx, used, free) in
  let ctx := ctx <| buffer := blit (buffer ctx) used (repeat 0 (free - 8)) |> in
  let lo' := u32 (Z.shiftl (lo ctx) 3) in
  let ctx := ctx <| buffer := blit (buffer ctx) 56 (le32 lo' ++ le32 (hi ctx)) |> in
  let '(a, b, c, d) := fst (body 1 (buffer ctx) (abcd ctx)) in
  le32 a ++ le32 b ++ le32 c ++ le32 d.

(* @src MD5.cpp:293-300 MD5::make_hash *)
Definition make_hash (arg : list Z) : list Z := MD5Final (MD5Update MD5Init arg).

(** RFC 1321 test vectors. *)
Example md5_empty : make_hash [] =
  [0xd4; 0x1d; 0x8c; 0xd9; 0x8f; 0x00; 0xb2; 0x04; 0xe9; 0x80; 0x09; 0x98; 0xec; 0xf8; 0x42; 0x7e].
Proof. vm_compute. reflexivity. Qed.
Example md5_abc : make_hash [97; 98; 99] =
  [0x90; 0x01; 0x50; 0x98; 0x3c; 0xd2; 0x4f; 0xb0; 0xd6; 0x96; 0x3f; 0x7d; 0x28; 0xe1; 0x7f; 0x72].
Proof. vm_compute. reflexivity. Qed.

(** ** Reference: RFC 1321 *)

(** The RFC's functions. *)
Definition rfc_F (x y z : Z) : Z := Z.lor (Z.land x y) (Z.land (Z.lnot x) z).
Definition rfc_G (x y z : Z) : Z := Z.lor (Z.land x z) (Z.land y (Z.lnot z)).
Definition rfc_H (x y z : Z) : Z := Z.lxor x (Z.lxor y z).
Definition rfc_I (x y z : Z) : Z := Z.lxor y (Z.lor x (Z.lnot z)).

(** The sine of [i] radians with 256 bits behind the point, by 200 terms of its series:
    for [i] up to 64 the last are below the last bit. *)
Fixpoint sin_terms (n : nat) (k i term : Z) : Z :=
  match n with
  | O => 0
  | S n => term + sin_terms n (k + 2) i (- (term * i * i) / ((k + 1) * (k + 2)))
  end.
Definition sin_fixed (i : Z) : Z := sin_terms 200 1 i (Z.shiftl i 256).
(** T[i], the integer part of 4294967296 times abs(sin(i)). *)
Definition rfc_T (i : Z) : Z := Z.shiftr (Z.abs (sin_fixed i)) (256 - 32).

(** Step [i] (from 0): its function, the word it takes, the rotation. *)
Definition rfc_fun (i : nat) : Z -> Z -> Z -> Z := nth (i / 16) [rfc_F; rfc_G; rfc_H; rfc_I] rfc_F.
Definition rfc_word (i : nat) : nat := nth (i / 16) [i; 1 + 5 * i; 5 + 3 * i; 7 * i]%nat 0%nat mod 16.
Definition rfc_shift (i : nat) : Z := nth (i mod 4) (nth (i / 16) [[7; 12; 17; 22]; [5; 9; 14; 20]; [4; 11; 16; 23]; [6; 10; 15; 21]] []) 0.
(** X <<< s. *)
Definition rotate_left (x s : Z) : Z := (x * 2 ^ s) mod 2 ^ 32 + x / 2 ^ (32 - s).
(** a = b + ((a + f(b,c,d) + X[k] + T[i]) <<< s), with sums modulo 2^32. *)
Definition rfc_op (f : Z -> Z -> Z -> Z) (xk t s a b c d : Z) : Z :=
  (b + rotate_left ((a + f b c d + xk + t) mod 2 ^ 32) s) mod 2 ^ 32.
(** A little-endian word. *)
Definition rfc_le (l : list Z) : Z := foldr (fun b w => Z.lor b (Z.shiftl w 8)) 0 l.
Definition rfc_X (ptr : list Z) (k : nat) : Z := rfc_le (map (fun j => zget 0 ptr (Z.of_nat (4 * k + j))) (seq 0 4)).
(** The steps go round the registers: ABCD, DABC, CDAB, BCDA. *)
Definition rfc_step (ptr : list Z) (r : regs) (i : nat) : regs :=
  let '(a, b, c, d) := r in
  let op := rfc_op (rfc_fun i) (rfc_X ptr (rfc_word i)) (rfc_T (Z.of_nat i + 1)) (rfc_shift i) in
  match (i mod 4)%nat with
  | 0%nat => (op a b c d, b, c, d)
  | 1%nat => (a, b, c, op d a b c)
  | 2%nat => (a, b, op c d a b, d)
  | _ => (a, op b c d a, c, d)
  end.
Definition rfc_block (ptr : list Z) (r : regs) : regs :=
  let '(aa, bb, cc, dd) := r in
  let '(a, b, c, d) := foldl (rfc_step ptr) r (seq 0 64) in
  ((a + aa) mod 2 ^ 32, (b + bb) mod 2 ^ 32, (c + cc) mod 2 ^ 32, (d + dd) mod 2 ^ 32).

Fixpoint rfc_blocks (n : nat) (m : list Z) (r : regs) : regs :=
  match n with
  | O => r
  | S n => rfc_blocks n (drop 64 m) (rfc_block (take 64 m) r)
  end.

(** The [n] low bytes of a number, lowest first. *)
Fixpoint rfc_bytes (n : nat) (x : Z) : list Z :=
  match n with O => [] | S n => x mod 256 :: rfc_bytes n (x / 256) end.
(** Padding: 0x80, zeros to 56 bytes modulo 64, the bit length in eight bytes. *)
Definition pad_zeros (n : nat) : nat := Z.to_nat ((55 - Z.of_nat n) mod 64).
Definition rfc_pad (m : list Z) : list Z := m ++ [0x80] ++ repeat 0 (pad_zeros (length m)) ++ rfc_bytes 8 (8 * zlen m).

(** The words A to D at the start. *)
Definition md5_iv : regs :=
  (rfc_le [0x01; 0x23; 0x45; 0x67], rfc_le [0x89; 0xab; 0xcd; 0xef], rfc_le [0xfe; 0xdc; 0xba; 0x98], rfc_le [0x76; 0x54; 0x32; 0x10]).
Definition rfc_md5 (m : list Z) : list Z :=
  let p := rfc_pad m in
  let '(a, b, c, d) := rfc_blocks (length p / 64) p md5_iv in
  rfc_bytes 4 a ++ rfc_bytes 4 b ++ rfc_bytes 4 c ++ rfc_bytes 4 d.

(** ** Lemmas: the optimised functions *)

Ltac bitwise := apply Z.bits_inj'; intros n Hn; repeat first [rewrite Z.lxor_spec by lia | rewrite Z.land_spec by lia | rewrite Z.lor_spec by lia | rewrite Z.lnot_spec by lia].
Lemma fE_rfc x y z : fE x y z = rfc_F x y z.
Proof. unfold fE, rfc_F. bitwise. destruct (Z.testbit x n), (Z.testbit y n), (Z.testbit z n); reflexivity. Qed.
Lemma fG_rfc x y z : fG x y z = rfc_G x y z.
Proof. unfold fG, rfc_G. bitwise. destruct (Z.testbit x n), (Z.testbit y n), (Z.testbit z n); reflexivity. Qed.
Lemma fH_rfc x y z : fH x y z = rfc_H x y z.
Proof. apply Z.lxor_assoc. Qed.
(** Modulo 2^32 the complements of the source and of the RFC agree. *)
Lemma fI_rfc x y z : fI x y z mod 2 ^ 32 = rfc_I x y z mod 2 ^ 32.
Proof.
  rewrite <- !Z.land_ones by lia. unfold fI, rfc_I, not32. bitwise. change 0xffffffff with (Z.ones 32).
  destruct (Z.ltb_spec n 32); [rewrite !Z.ones_spec_low by lia|rewrite !Z.ones_spec_high, !andb_false_r by lia; reflexivity].
  destruct (Z.testbit x n), (Z.testbit y n), (Z.testbit z n); reflexivity.
Qed.

(** ** Lemmas: a step *)

Lemma SET_rfc ptr k : SET ptr k = rfc_X ptr k.
Proof.
  unfold SET, rfc_X, rfc_le. cbn [seq map foldr]. rewrite Z.shiftl_0_l, Z.lor_0_r, !Z.shiftl_lor, !Z.shiftl_shiftl, !Z.lor_assoc by lia.
  replace (Z.of_nat (k * 4)) with (Z.of_nat (4 * k)) by lia. rewrite !Nat2Z.inj_add. reflexivity.
Qed.
(** [f] and [g] agree modulo 2^32. *)
Definition same32 (f g : Z -> Z -> Z -> Z) : Prop := forall x y z, f x y z mod 2 ^ 32 = g x y z mod 2 ^ 32.
Lemma STEP_rfc f g x t s a b c d : same32 f g -> 0 < s < 32 -> STEP f x t s (a, b, c, d) = (d, rfc_op g x t s a b c d, b, c).
Proof.
  intros Hf Hs. unfold STEP, rfc_op. do 3 f_equal.
  replace (u32 (a + (f b c d + x + t))) with ((a + g b c d + x + t) mod 2 ^ 32).
  2: { unfold wrap. replace (a + (f b c d + x + t)) with (f b c d + (a + x + t)) by lia. replace (a + g b c d + x + t) with (g b c d + (a + x + t)) by lia.
       rewrite <- Zplus_mod_idemp_l, <- (Zplus_mod_idemp_l (f b c d)). now rewrite Hf. }
  pose proof (Z.mod_pos_bound (a + g b c d + x + t) (2 ^ 32) ltac:(lia)) as Hv. set (v := _ mod 2 ^ 32) in *. clearbody v.
  change 0xffffffff with (Z.ones 32). rewrite Z.land_ones, (Z.mod_small v) by lia. rewrite Z.shiftr_div_pow2 by lia.
  assert (Hq : 0 <= v / 2 ^ (32 - s) < 2 ^ s).
  { split; [apply Z.div_pos; lia|]. apply Z.div_lt_upper_bound; [lia|]. rewrite <- Z.pow_add_r by lia. replace (32 - s + s) with 32 by lia. lia. }
  rewrite shiftl_lor_add by lia. unfold wrap, rotate_left. rewrite Zplus_mod_idemp_l, (Z.add_comm b), <- !Z.add_assoc, Zplus_mod_idemp_l. reflexivity.
Qed.
Definition code_fun (i : nat) : Z -> Z -> Z -> Z := nth (i / 16) [fE; fG; fH; fI] fE.
Lemma fun_rfc i : same32 (code_fun i) (rfc_fun i).
Proof.
  intros x y z. unfold code_fun, rfc_fun.
  destruct (i / 16)%nat as [|[|[|[|[]]]]]; cbn [nth]; rewrite ?fE_rfc, ?fG_rfc, ?fH_rfc; try reflexivity. apply fI_rfc.
Qed.
(** The 64 lines of the source are those of the RFC, its table of sines included. *)
Lemma steps_rfc : md5_steps = map (fun i => (code_fun i, rfc_word i, rfc_T (Z.of_nat i + 1), rfc_shift i)) (seq 0 64).
Proof. vm_compute. reflexivity. Qed.
Lemma shift_range i : 0 < rfc_shift i < 32 \/ (64 <= i)%nat.
Proof.
  destruct (Nat.lt_ge_cases i 64) as [Hi|]; [left|now right].
  assert (P : forallb (fun i => (0 <? rfc_shift i) && (rfc_shift i <? 32)) (seq 0 64) = true) by (vm_compute; reflexivity).
  rewrite forallb_forall in P. specialize (P i ltac:(apply in_seq; lia)). lia.
Qed.
(** The code rotates the names, so that a step always writes the first register. *)
Definition rotated (i : nat) (r : regs) : regs :=
  let '(a, b, c, d) := r in
  match (i mod 4)%nat with 0%nat => (a, b, c, d) | 1%nat => (d, a, b, c) | 2%nat => (c, d, a, b) | _ => (b, c, d, a) end.
Lemma step_rfc ptr r i : (i < 64)%nat ->
  STEP (code_fun i) (SET ptr (rfc_word i)) (rfc_T (Z.of_nat i + 1)) (rfc_shift i) (rotated i r) = rotated (S i) (rfc_step ptr r i).
Proof.
  intros Hi. destruct (shift_range i) as [Hs|]; [|lia]. pose proof (fun_rfc i) as Hf. destruct r as [[[a b] c] d]. rewrite SET_rfc. unfold rotated, rfc_step.
  pose proof (Nat.mod_upper_bound i 4 ltac:(lia)) as Hm.
  replace (S i mod 4)%nat with (S (i mod 4) mod 4)%nat by (rewrite <- Nat.add_1_r, Nat.Div0.add_mod_idemp_l, Nat.add_1_r; reflexivity).
  destruct (i mod 4)%nat as [|[|[|[|]]]]; [| | | |lia]; rewrite (STEP_rfc _ _ _ _ _ _ _ _ _ Hf Hs); reflexivity.
Qed.
Lemma fold_rfc ptr n : forall i r, (i + n <= 64)%nat ->
  foldl (fun r '(f, n, t, s) => STEP f (SET ptr n) t s r) (rotated i r) (map (fun i => (code_fun i, rfc_word i, rfc_T (Z.of_nat i + 1), rfc_shift i)) (seq i n)) =
  rotated (i + n) (foldl (rfc_step ptr) r (seq i n)).
Proof.
  induction n as [|n IH]; intros i r Hn; [now rewrite Nat.add_0_r|]. cbn [seq map foldl]. rewrite step_rfc, IH by lia.
  now replace (i + S n)%nat with (S i + n)%nat by lia.
Qed.
Lemma md5_block_rfc ptr r : md5_block ptr r = rfc_block ptr r.
Proof.
  destruct r as [[[a b] c] d]. unfold md5_block, rfc_block. rewrite steps_rfc. change (a, b, c, d) with (rotated 0 (a, b, c, d)) at 1.
  rewrite fold_rfc by lia. destruct (foldl (rfc_step ptr) (a, b, c, d) (seq 0 64)) as [[[a' b'] c'] d']. reflexivity.
Qed.

(** ** Lemmas: bytes and padding *)

Lemma le32_rfc x : le32 x = rfc_bytes 4 x.
Proof. unfold le32, wrap. cbn [rfc_bytes]. rewrite !Z.shiftr_div_pow2, !Z.div_div by lia. reflexivity. Qed.
Lemma low_byte x k j : 0 < k -> 2 ^ 32 = k * 256 * j -> (x mod 2 ^ 32 / k) mod 256 = (x / k) mod 256.
Proof.
  intros Hk Hj. rewrite (Z.div_mod x (2 ^ 32)) at 2 by lia.
  replace (2 ^ 32 * (x / 2 ^ 32) + x mod 2 ^ 32) with (x mod 2 ^ 32 + (256 * j * (x / 2 ^ 32)) * k) by (rewrite Hj; ring).
  rewrite Z.div_add by lia. replace (256 * j * (x / 2 ^ 32)) with (j * (x / 2 ^ 32) * 256) by ring. now rewrite Z.mod_add by lia.
Qed.
Lemma length_rfc x : le32 (u32 x) ++ le32 (u32 (x / 2 ^ 32)) = rfc_bytes 8 x.
Proof.
  rewrite !le32_rfc. cbn [rfc_bytes app]. unfold wrap. rewrite !Z.div_div by lia.
  assert (Z1 : forall y, (y mod 2 ^ 32) mod 256 = y mod 256) by (intros y; pose proof (low_byte y 1 (2 ^ 24) ltac:(lia) eq_refl) as P; now rewrite !Z.div_1_r in P).
  rewrite !Z1, !(low_byte _ 256 (2 ^ 16)), !(low_byte _ (256 * 256) (2 ^ 8)), !(low_byte _ (256 * 256 * 256) 1) by reflexivity.
  rewrite !Z.div_div by lia. reflexivity.
Qed.
Lemma pad_zeros_cases n : pad_zeros n = if (n mod 64 <? 56)%nat then (55 - n mod 64)%nat else (119 - n mod 64)%nat.
Proof.
  unfold pad_zeros. pose proof (Nat2Z.inj_mod n 64) as E. pose proof (Nat.mod_upper_bound n 64 ltac:(lia)).
  assert (F : (55 - Z.of_nat n) mod 64 = (55 - Z.of_nat (n mod 64)) mod 64) by (rewrite E; symmetry; apply (Zminus_mod_idemp_r 55)).
  rewrite F. destruct (Nat.ltb_spec (n mod 64) 56); [rewrite Z.mod_small by lia; lia|].
  rewrite <- (Z.mod_add _ 1), Z.mod_small by lia. lia.
Qed.

Lemma body_rfc n p r : body n p r = (rfc_blocks n p r, drop (64 * n) p).
Proof.
  revert p r. induction n as [|n IH]; intros p r; cbn [body rfc_blocks]; [reflexivity|].
  rewrite IH, md5_block_rfc, drop_drop. do 2 f_equal. lia.
Qed.

Lemma rfc_blocks_add n m p r : rfc_blocks (n + m) p r = rfc_blocks m (drop (64 * n) p) (rfc_blocks n p r).
Proof.
  revert p r. induction n as [|n IH]; intros p r; cbn [rfc_blocks Nat.add]; [reflexivity|].
  rewrite IH, drop_drop. do 2 f_equal. lia.
Qed.

Lemma rfc_blocks_prefix n p q r : (64 * n <= length p)%nat -> rfc_blocks n (p ++ q) r = rfc_blocks n p r.
Proof.
  revert p r. induction n as [|n IH]; intros p r Hp; cbn [rfc_blocks]; [reflexivity|].
  rewrite take_app_le, drop_app_le by lia. apply IH. rewrite length_drop. lia.
Qed.

(** ** Lemmas: the buffered context *)

Lemma blit_length buf n d : (n + length d <= length buf)%nat -> length (blit buf n d) = length buf.
Proof. intros. unfold blit. rewrite !length_app, length_take, length_drop. lia. Qed.

Lemma take_blit buf n d :
  (n + length d <= length buf)%nat -> take (n + length d) (blit buf n d) = take n buf ++ d.
Proof.
  intros. unfold blit. rewrite app_assoc.
  rewrite take_app_length'; [reflexivity|]. rewrite length_app, length_take. lia.
Qed.

Lemma blit_full buf n d : (n + length d = length buf)%nat -> blit buf n d = take n buf ++ d.
Proof. intros H. unfold blit. rewrite H, drop_all, app_nil_r. reflexivity. Qed.

(** The registers cover the whole blocks of [m], the buffer holds the rest. *)
Record md5_core (r : regs) (buf m : list Z) : Prop := {
  core_regs : r = rfc_blocks (length m / 64) m md5_iv;
  core_len : length buf = 64%nat;
  core_buf : take (length m mod 64) buf = drop (64 * (length m / 64)) m
}.

Record md5_rep (ctx : MD5_CTX) (m : list Z) : Prop := {
  mrep_lo : lo ctx = zlen m mod 2 ^ 29;
  mrep_hi : hi ctx = (zlen m / 2 ^ 29) mod 2 ^ 32;
  mrep_core : md5_core (abcd ctx) (buffer ctx) m
}.

Lemma md5_split n : n = (64 * (n / 64) + n mod 64)%nat.
Proof. apply Nat.div_mod. lia. Qed.

Lemma md5_divmod n k u : (u < 64)%nat -> n = (64 * k + u)%nat -> (n / 64 = k /\ n mod 64 = u)%nat.
Proof.
  intros Hu ->. rewrite Nat.mul_comm, Nat.add_comm, Nat.div_add, Nat.Div0.mod_add by lia.
  rewrite Nat.div_small, Nat.mod_small by lia. lia.
Qed.

(** Whole blocks from data that starts on a block boundary. *)
Lemma core_tail r buf m d :
  md5_core r buf m -> (length m mod 64 = 0)%nat ->
  md5_core (fst (body (length d / 64) d r)) (blit buf 0 (snd (body (length d / 64) d r))) (m ++ d).
Proof.
  intros [-> Hl Hb] H0. rewrite body_rfc. cbn [fst snd].
  pose proof (md5_split (length m)) as Em. pose proof (md5_split (length d)) as Ed.
  pose proof (Nat.mod_upper_bound (length d) 64 ltac:(lia)) as Hu.
  set (k := (length m / 64)%nat) in *. set (j := (length d / 64)%nat) in *. set (u := (length d mod 64)%nat) in *.
  destruct (md5_divmod (length (m ++ d)) (k + j) u Hu) as [E1 E2]; [rewrite length_app; lia|].
  assert (Hrest : length (drop (64 * j) d) = u) by (rewrite length_drop; lia).
  constructor; rewrite ?E1, ?E2.
  - rewrite rfc_blocks_add, (rfc_blocks_prefix k m d) by lia.
    rewrite drop_app_length' by lia. reflexivity.
  - rewrite blit_length; [assumption|]. rewrite Hrest. lia.
  - pose proof (take_blit buf 0 (drop (64 * j) d)) as T. rewrite Hrest in T. rewrite take_0 in T. cbn [Nat.add app] in T.
    rewrite T by lia. replace (64 * (k + j))%nat with (length m + 64 * j)%nat by lia.
    rewrite <- drop_drop, drop_app_length by lia. reflexivity.
Qed.

(** A block completed in the buffer. *)
Lemma core_fill r buf m d :
  md5_core r buf m -> (length m mod 64 + length d = 64)%nat ->
  let buf' := blit buf (length m mod 64) d in
  md5_core (fst (body 1 buf' r)) buf' (m ++ d).
Proof.
  intros [-> Hl Hb] Hd. cbn zeta. pose proof (md5_split (length m)) as Em.
  rewrite blit_full by lia. rewrite Hb.
  set (k := (length m / 64)%nat) in *. set (u := (length m mod 64)%nat) in *.
  destruct (md5_divmod (length (m ++ d)) (S k) 0 ltac:(lia)) as [E1 E2]; [rewrite length_app; lia|].
  assert (Hlen : length (drop (64 * k) m ++ d) = 64%nat) by (rewrite length_app, length_drop; lia).
  constructor; rewrite ?E1, ?E2.
  - rewrite body_rfc. cbn [fst]. rewrite <- (Nat.add_1_r k), rfc_blocks_add, (rfc_blocks_prefix k m d) by lia.
    rewrite drop_app_le by lia. reflexivity.
  - exact Hlen.
  - rewrite take_0, drop_ge; [reflexivity|]. rewrite length_app. lia.
Qed.

(** More bytes in a block that stays incomplete. *)
Lemma core_append r buf m d :
  md5_core r buf m -> (length m mod 64 + length d < 64)%nat ->
  md5_core r (blit buf (length m mod 64) d) (m ++ d).
Proof.
  intros [-> Hl Hb] Hd. pose proof (md5_split (length m)) as Em.
  set (k := (length m / 64)%nat) in *. set (u := (length m mod 64)%nat) in *.
  destruct (md5_divmod (length (m ++ d)) k (u + length d) Hd) as [E1 E2]; [rewrite length_app; lia|].
  constructor; rewrite ?E1, ?E2.
  - now rewrite rfc_blocks_prefix by lia.
  - rewrite blit_length; lia.
  - rewrite take_blit by lia. rewrite Hb, drop_app_le by lia. reflexivity.
Qed.

(** The two-word length counter. *)
Lemma md5_count L size :
  0 <= L -> 0 <= size < 2 ^ 32 ->
  let lo0 := L mod 2 ^ 29 in let hi0 := (L / 2 ^ 29) mod 2 ^ 32 in
  let lo1 := Z.land (u32 (lo0 + size)) 0x1fffffff in
  lo1 = (L + size) mod 2 ^ 29 /\
  u32 ((if lo1 <? lo0 then u32 (hi0 + 1) else hi0) + Z.shiftr size 29) = ((L + size) / 2 ^ 29) mod 2 ^ 32.
Proof.
  intros HL Hs. cbn zeta. change 0x1fffffff with (Z.ones 29). rewrite Z.land_ones by lia.
  rewrite Z.shiftr_div_pow2 by lia. unfold wrap.
  change (2 ^ 29) with 536870912 in *. change (2 ^ 32) with 4294967296 in *.
  assert (E1 : ((L mod 536870912 + size) mod 4294967296) mod 536870912 = (L + size) mod 536870912).
  { change 4294967296 with (536870912 * 8). Z.div_mod_to_equations. lia. }
  rewrite E1. split; [reflexivity|].
  assert (Eq : (L + size) / 536870912 = L / 536870912 + size / 536870912
               + (if (L + size) mod 536870912 <? L mod 536870912 then 1 else 0)).
  { destruct (Z.ltb_spec ((L + size) mod 536870912) (L mod 536870912)); Z.div_mod_to_equations; lia. }
  rewrite Eq. destruct (_ <? _).
  - rewrite Zplus_mod_idemp_l, <- Z.add_assoc, Zplus_mod_idemp_l. f_equal. lia.
  - rewrite Zplus_mod_idemp_l. f_equal. lia.
Qed.

Lemma md5_rep_init : md5_rep MD5Init [].
Proof. constructor; [reflexivity..|constructor; reflexivity]. Qed.

Lemma land63 L : 0 <= L -> Z.to_nat (Z.land (L mod 2 ^ 29) 0x3f) = (Z.to_nat L mod 64)%nat.
Proof.
  intros HL. change 0x3f with (Z.ones 6). rewrite Z.land_ones by lia.
  assert (E : (L mod 2 ^ 29) mod 2 ^ 6 = L mod 64).
  { change (2 ^ 29) with (64 * 8388608). change (2 ^ 6) with 64. Z.div_mod_to_equations. lia. }
  rewrite E, Z2Nat.inj_mod by lia. reflexivity.
Qed.

Lemma MD5Update_tail_rep l h r buf m d :
  md5_core r buf m -> (length m mod 64 = 0)%nat ->
  let c := MD5Update_tail d (mk_ctx l h r buf) in
  lo c = l /\ hi c = h /\ md5_core (abcd c) (buffer c) (m ++ d).
Proof.
  intros Hc H0. pose proof (core_tail r buf m d Hc H0) as H1.
  unfold MD5Update_tail. cbn [abcd buffer].
  destruct (body _ d r) as [r' rest]. exact (conj eq_refl (conj eq_refl H1)).
Qed.

Lemma MD5Update_rep ctx m d : md5_rep ctx m -> zlen d < 2 ^ 32 -> md5_rep (MD5Update ctx d) (m ++ d).
Proof.
  intros [Elo Ehi Hc] Hd. destruct ctx as [l h r buf]. cbn [lo hi abcd buffer] in *.
  pose proof (zlen_nonneg m) as Hm0. pose proof (zlen_nonneg d) as Hd0.
  destruct (md5_count (zlen m) (zlen d) Hm0 (conj Hd0 Hd)) as [C1 C2]. cbn zeta in C1, C2.
  rewrite <- Elo in C1. rewrite <- Elo, <- Ehi in C2.
  unfold MD5Update. cbn [lo hi abcd buffer].
  set (lo1 := Z.land (u32 (l + zlen d)) 0x1fffffff) in *.
  assert (Hu : Z.to_nat (Z.land l 0x3f) = (length m mod 64)%nat).
  { rewrite Elo, land63 by lia. unfold zlen. now rewrite Nat2Z.id. }
  rewrite Hu.
  assert (Ec : forall c : MD5_CTX, (if lo1 <? l then mk_ctx lo1 (u32 (h + 1)) r buf else mk_ctx lo1 h r buf) = c ->
    mk_ctx (lo c) (u32 (hi c + Z.shiftr (zlen d) 29)) (abcd c) (buffer c)
    = mk_ctx (zlen (m ++ d) mod 2 ^ 29) ((zlen (m ++ d) / 2 ^ 29) mod 2 ^ 32) r buf).
  { intros c <-. rewrite zlen_app, <- C1, <- C2. destruct (lo1 <? l); reflexivity. }
  cbn [constant apply_update]. specialize (Ec _ eq_refl).
  destruct (if lo1 <? l then _ else _) as [lc hc rc bc] in Ec |- *. cbn [lo hi abcd buffer] in *.
  injection Ec as -> E2 -> ->. rewrite E2. clear E2.
  set (u := (length m mod 64)%nat) in *.
  destruct (Nat.eqb_spec u 0) as [E0|N0].
  - destruct (MD5Update_tail_rep (zlen (m ++ d) mod 2 ^ 29) ((zlen (m ++ d) / 2 ^ 29) mod 2 ^ 32) r buf m d Hc E0)
      as (T1 & T2 & T3). constructor; assumption.
  - destruct (Nat.ltb_spec (length d) (64 - u)) as [Hs|Hb].
    + constructor; [reflexivity|reflexivity|]. cbn. apply core_append; [assumption|]. fold u. lia.
    + set (d1 := take (64 - u) d). set (d2 := drop (64 - u) d).
      assert (Hd1 : length d1 = (64 - u)%nat) by (unfold d1; rewrite length_take; lia).
      assert (Hu64 : (u < 64)%nat) by (apply Nat.mod_upper_bound; lia).
      pose proof (core_fill r buf m d1 Hc ltac:(fold u; lia)) as H1. cbn zeta in H1. fold u in H1.
      assert (Ed : m ++ d = (m ++ d1) ++ d2) by (rewrite <- app_assoc; unfold d1, d2; now rewrite take_drop).
      assert (E0 : (length (m ++ d1) mod 64 = 0)%nat).
      { rewrite length_app, Hd1. pose proof (md5_split (length m)) as Em. fold u in Em.
        apply (md5_divmod _ (S (length m / 64)) 0); lia. }
      destruct (MD5Update_tail_rep (zlen (m ++ d) mod 2 ^ 29) ((zlen (m ++ d) / 2 ^ 29) mod 2 ^ 32)
                  _ _ _ d2 H1 E0) as (T1 & T2 & T3).
      rewrite <- Ed in T3. constructor; assumption.
Qed.

Lemma length_words L : 0 <= L ->
  u32 (Z.shiftl (L mod 2 ^ 29) 3) = u32 (8 * L) /\ (L / 2 ^ 29) mod 2 ^ 32 = u32 (8 * L / 2 ^ 32).
Proof.
  intros HL. rewrite Z.shiftl_mul_pow2 by lia. unfold wrap.
  change (2 ^ 29) with 536870912. change (2 ^ 32) with 4294967296. change (2 ^ 3) with 8.
  split; Z.div_mod_to_equations; lia.
Qed.

Lemma rfc_md5_le m : rfc_md5 m =
  let n := length m in
  let p := m ++ [0x80] ++ repeat 0 (if (n mod 64 <? 56)%nat then (55 - n mod 64)%nat else (119 - n mod 64)%nat) ++ le32 (u32 (8 * zlen m)) ++ le32 (u32 (8 * zlen m / 2 ^ 32)) in
  let '(a, b, c, d) := rfc_blocks (length p / 64) p md5_iv in le32 a ++ le32 b ++ le32 c ++ le32 d.
Proof.
  unfold rfc_md5, rfc_pad. rewrite pad_zeros_cases, <- length_rfc. cbv zeta. destruct (rfc_blocks _ _ md5_iv) as [[[a b] c] d].
  now rewrite !le32_rfc.
Qed.
Lemma MD5Final_rep ctx m : md5_rep ctx m -> MD5Final ctx = rfc_md5 m.
Proof.
  intros [Elo Ehi [Hr Hl Hb]]. destruct ctx as [l h r buf]. cbn [lo hi abcd buffer] in *.
  rewrite rfc_md5_le. unfold MD5Final. cbv zeta. cbn [lo hi abcd buffer].
  assert (Hu : Z.to_nat (Z.land l 0x3f) = (length m mod 64)%nat).
  { rewrite Elo, land63 by apply zlen_nonneg. unfold zlen. now rewrite Nat2Z.id. }
  rewrite Hu. destruct (length_words (zlen m) (zlen_nonneg m)) as [W1 W2].
  rewrite <- W1, <- W2, <- Elo, <- Ehi. set (len := le32 _ ++ le32 h).
  assert (Hlen : length len = 8%nat) by reflexivity.
  pose proof (md5_split (length m)) as Em. pose proof (Nat.mod_upper_bound (length m) 64 ltac:(lia)) as Hu64.
  set (k := (length m / 64)%nat) in *. set (u := (length m mod 64)%nat) in *.
  set (rest := drop (64 * k) m) in *.
  assert (Hrest : length rest = u) by (unfold rest; rewrite length_drop; lia).
  assert (B1 : take (S u) (blit buf u [0x80]) = rest ++ [0x80]).
  { rewrite <- Nat.add_1_r. change 1%nat with (length [0x80]). rewrite take_blit by (cbn; lia). now rewrite Hb. }
  assert (L1 : length (blit buf u [0x80]) = 64%nat) by (rewrite blit_length; cbn; lia).
  set (b1 := blit buf u [0x80]) in *. clearbody u.
  destruct (Nat.ltb_spec (64 - S u) 8) as [H8|H8].
  - (** the length does not fit: two blocks *)
    rewrite (proj2 (Nat.ltb_ge u 56)) by lia.
    assert (B2 : blit b1 (S u) (repeat 0 (64 - S u)) = rest ++ [0x80] ++ repeat 0 (63 - u)).
    { rewrite blit_full by (rewrite repeat_length; lia). rewrite B1, <- app_assoc. do 3 f_equal; lia. }
    cbn [abcd buffer lo hi]. cbn -[body blit Nat.sub Nat.div repeat le32 wrap Z.shiftl]. rewrite B2. fold len.
    set (blk := rest ++ 128 :: repeat 0 (63 - u)).
    assert (Lblk : length blk = 64%nat) by (unfold blk; rewrite length_app; cbn [length]; rewrite repeat_length; lia).
    assert (B3 : blit (blit blk 0 (repeat 0 56)) 56 len = repeat 0 56 ++ len).
    { assert (L3 : length (blit blk 0 (repeat 0 56)) = 64%nat) by (rewrite blit_length; rewrite ?repeat_length; lia).
      rewrite blit_full by lia. reflexivity. }
    change (64 - 8)%nat with 56%nat. change (rest ++ [0x80] ++ repeat 0 (63 - u)) with blk. rewrite B3.
    assert (Ep : m ++ 128 :: repeat 0 (119 - u) ++ len = m ++ ((128 :: repeat 0 (63 - u)) ++ repeat 0 56 ++ len)).
    { f_equal. cbn [app]. f_equal. rewrite app_assoc, <- repeat_app. do 2 f_equal; lia. }
    rewrite Ep. set (tl := (128 :: repeat 0 (63 - u)) ++ repeat 0 56 ++ len).
    assert (Ltl : (length m + length tl = 64 * (k + 2))%nat).
    { unfold tl. rewrite !length_app. cbn [length]. rewrite !repeat_length, Hlen. lia. }
    replace (length (m ++ tl) / 64)%nat with (k + 2)%nat
      by (rewrite length_app, Ltl, Nat.mul_comm, Nat.div_mul; lia).
    rewrite rfc_blocks_add, (rfc_blocks_prefix k m tl) by lia. rewrite drop_app_le by lia. fold rest.
    rewrite Hr, !body_rfc. cbn [fst]. unfold tl. rewrite app_assoc. fold blk.
    change 2%nat with (1 + 1)%nat. rewrite rfc_blocks_add, (rfc_blocks_prefix 1 blk) by lia.
    rewrite drop_app_length' by lia. reflexivity.
  - rewrite (proj2 (Nat.ltb_lt u 56)) by lia.
    cbn [abcd buffer lo hi]. cbn -[body blit Nat.sub Nat.div repeat le32 wrap Z.shiftl]. fold len b1.
    assert (B2 : take 56 (blit b1 (S u) (repeat 0 (63 - u - 8))) = rest ++ [0x80] ++ repeat 0 (55 - u)).
    { pose proof (take_blit b1 (S u) (repeat 0 (63 - u - 8))) as T. rewrite repeat_length in T.
      replace (S u + (63 - u - 8))%nat with 56%nat in T by lia.
      rewrite T by lia. rewrite B1, <- app_assoc. do 3 f_equal; lia. }
    assert (L2 : length (blit b1 (S u) (repeat 0 (63 - u - 8))) = 64%nat)
      by (rewrite blit_length; rewrite ?repeat_length; lia).
    replace (64 - S u - 8)%nat with (63 - u - 8)%nat by lia.
    rewrite blit_full by lia. rewrite B2.
    assert (Ep : m ++ 128 :: repeat 0 (55 - u) ++ len = m ++ ((128 :: repeat 0 (55 - u)) ++ len)) by reflexivity.
    rewrite Ep. set (tl := (128 :: repeat 0 (55 - u)) ++ len).
    assert (Ltl : (length m + length tl = 64 * (k + 1))%nat).
    { unfold tl. rewrite !length_app. cbn [length]. rewrite !repeat_length, Hlen. lia. }
    replace (length (m ++ tl) / 64)%nat with (k + 1)%nat
      by (rewrite length_app, Ltl, Nat.mul_comm, Nat.div_mul; lia).
    rewrite rfc_blocks_add, (rfc_blocks_prefix k m tl) by lia. rewrite drop_app_le by lia. fold rest.
    rewrite Hr, !body_rfc. cbn [fst]. unfold tl. rewrite <- (app_assoc rest). reflexivity.
Qed.

Lemma make_hash_bytes d : length (make_hash d) = 16%nat /\ bytes (make_hash d).
Proof.
  unfold make_hash, MD5Final. cbv zeta. destruct (if Nat.ltb _ _ then _ else _) as [[ctx u] f].
  destruct (fst _) as [[[a b] c] e]. split; [reflexivity|]. repeat constructor; apply u8_range.
Qed.

(** C32. The streaming hash is MD5 as RFC 1321 defines it: feeding a message in any
    sequence of pieces - empty, shorter than a block, spanning blocks - and finalising
    gives the digest of their concatenation.  The reference is written from the RFC: its
    four functions, the steps going round the registers ABCD, DABC, CDAB, BCDA, words and
    rotations by its rules, the constants as 2^32 times the sine of the step's number,
    little-endian words, the padding and the 64-bit length.  (Pieces are below 4 GiB, the
    range of the size.) *)
(* @prop equivalence W=md5_streaming_witness D=MD5Init,MD5Update,MD5Final,body,md5_block,STEP *)
Theorem md5_streaming (pieces : list (list Z)) :
  Forall (fun d => zlen d < 2 ^ 32) pieces ->
  MD5Final (foldl MD5Update MD5Init pieces) = rfc_md5 (concat pieces).
Proof.
  intros Hp. apply MD5Final_rep.
  pose proof md5_rep_init as Hr. revert Hr. generalize MD5Init as ctx.
  change (concat pieces) with ([] ++ concat pieces). generalize (@nil Z) as m.
  induction Hp as [|d ds Hd _ IH]; intros m ctx Hr; cbn [foldl concat].
  - now rewrite app_nil_r.
  - rewrite app_assoc. apply IH, MD5Update_rep; assumption.
Qed.

Lemma md5_streaming_witness :
  MD5Final (foldl MD5Update MD5Init [[97]; []; [98; 99]]) = rfc_md5 [97; 98; 99].
Proof. apply (md5_streaming [[97]; []; [98; 99]]). repeat constructor. Defined.
