(* ===== verification/Eeprom.v ===== *)
(** * The settings store (Utilities.h, Device.h, Bluetooth.h, RNode_Firmware.ino)

    The EEPROM (on nRF52 a file of the same size) holds the signed device
    information, the radio configuration and one byte per setting.  The storage
    driver is third-party code, seen through the interface [Eeprom] and its laws
    [EepromLaws]: a written byte reads back and no other byte changes.  The
    operations act on [conf]: the store, the settings' RAM copies and the log of
    the calls that leave this component. *)
From stdpp Require Import gmap.
From S2P Require Import Prelude Boards Framing Rom Float Kiss Md5.

(** ** The storage driver *)

Class Eeprom (E : Type) := {
  ee_read : Z -> E -> Z;            (** [EEPROM.read], [eeprom_read] *)
  ee_write : Z -> Z -> E -> E;      (** [EEPROM.write] and [commit]; [file.write] and flush *)
  ee_format : E -> E                (** [InternalFS.format] *)
}.

Class EepromLaws (E : Type) `{Eeprom E} `{Board} := {
  read_byte a e : is_u8 (ee_read a e);
  read_write_eq a b e : 0 <= a < EEPROM_SIZE -> is_u8 b -> ee_read a (ee_write a b e) = b;
  read_write_ne a c b e : a <> c -> ee_read c (ee_write a b e) = ee_read c e
}.

(** A store for the witnesses: a finite map, erased bytes read 0xFF. *)
Abbreviation image := (gmap Z Z).
#[export] Instance image_eeprom : Eeprom image := {
  ee_read a e := u8 (default 0xFF (e !! a));
  ee_write a b e := <[a := b]> e;
  ee_format _ := ∅
}.
#[export, refine] Instance image_laws `{Board} : EepromLaws image := {}.
Proof.
  - intros. apply u8_is_u8.
  - intros a b e _ Hb. cbn. rewrite lookup_insert_eq. cbn. now apply u8_id.
  - intros a c b e Hn. cbn. now rewrite lookup_insert_ne.
Defined.

(** ** State *)

(** Calls into the parts that are not modelled here, in the order they happen. *)
Inductive event :=
  | EvSerial (bs : list Z)     (** bytes handed to [serial_write] *)
  | EvHardReset | EvLedInfo (n : Z) | EvLedWarning (n : Z) | EvLedError (n : Z)
  | EvBtStop | EvBtStart | EvBtSecuritySetup | EvBtPairing | EvBtDebondAll | EvFsFormat
  | EvWsRemoteInit | EvWifiRemoteInit | EvDisplayUnblank | EvLedIntensity (n : Z)
  | EvConnectMelody | EvDisconnectMelody | EvRtcSet (t : Z) | EvNtpSync
  | EvProvision (bs : list Z) | EvIdentityExport | EvIdentityImport (bs : list Z).

(* @src Config.h:43-48 BT_STATE_OFF, bt_state *)
Definition BT_STATE_NA : Z := 0xff.
Definition BT_STATE_OFF : Z := 0x00.
Definition BT_STATE_ON : Z := 0x01.
Definition BT_STATE_PAIRING : Z := 0x02.
Definition BT_STATE_CONNECTED : Z := 0x03.

(** The RAM copies of the settings the savers write. *)
Record prefs := mk_prefs {
  bt_legacy_pairing_enabled : bool; bt_just_works_enabled : bool; bt_auto_start_enabled : bool;
  radio_auto_start_enabled : bool; bt_battery_service_enabled : bool; sound_enabled : bool;
  encoder_enabled : bool; ws_enabled : bool; bt_enabled : bool; bt_ready : bool; bt_state : Z;
  vsense_divider_ratio : cfloat; battery_v_scale : cfloat;
  display_blanking_code : Z; display_blanking_enabled : bool; display_blanking_timeout : Z
}.

(** RAM as the compiled initialisers leave it. *)
Definition default_prefs (vsr bvs : cfloat) : prefs :=
  mk_prefs false false false true true false false true false false 0 vsr (to_f32 bvs) 0 false 0.

Record conf (E : Type) := mk_conf { ee : E; pr : prefs; ev : list event }.
Arguments mk_conf {E} _ _ _. Arguments ee {E} _. Arguments pr {E} _. Arguments ev {E} _.

Definition log {E} (e : event) (c : conf E) : conf E := c <| ev ::= fun l => l ++ [e] |>.

Section Store.
  Context `{Board} {E : Type} `{Eeprom E}.
  Implicit Types (e : E) (c : conf E).

(** A byte is written only when it differs (ESP32 and nRF52 by this test, AVR
    inside [EEPROM.update]). *)
(* @src Utilities.h:2825-2854 eeprom_update *)
Definition eeprom_update (mapped_addr byte : Z) (e : E) : E :=
  if negb (ee_read mapped_addr e =? byte) then ee_write mapped_addr byte e else e.

(** [eeprom_update] on the store of a [conf]; the byte parameter is [uint8_t]. *)
Definition upd (mapped_addr byte : Z) (c : conf E) : conf E := c <| ee ::= eeprom_update mapped_addr (u8 byte) |>.

(* @src Utilities.h:2736-2747 eeprom_info_locked *)
Definition eeprom_info_locked (e : E) : bool :=
  ee_read (eeprom_addr ADDR_INFO_LOCK) e =? INFO_LOCK_BYTE.
(* @src Utilities.h:2875-2885 eeprom_lock_set *)
Definition eeprom_lock_set (e : E) : bool :=
  ee_read (eeprom_addr ADDR_INFO_LOCK) e =? INFO_LOCK_BYTE.

(** A run of cells of the information block, escaped for the host. *)
Definition dump (base n : nat) (e : E) : list Z :=
  escaped (map (fun i => ee_read (eeprom_addr (Z.of_nat i)) e) (seq base n)).
(* @src Utilities.h:2749-2758 eeprom_dump_info *)
Definition eeprom_dump_info (e : E) : list Z :=
  dump (Z.to_nat ADDR_PRODUCT) (Z.to_nat (ADDR_INFO_LOCK - ADDR_PRODUCT + 1)) e.
(* @src Utilities.h:2760-2769 eeprom_dump_config *)
Definition eeprom_dump_config (e : E) : list Z :=
  dump (Z.to_nat ADDR_CONF_SF) (Z.to_nat (ADDR_CONF_OK - ADDR_CONF_SF + 1)) e.
(* @src Utilities.h:2771-2780 eeprom_dump_all *)
Definition eeprom_dump_all (e : E) : list Z := dump 0 (Z.to_nat EEPROM_RESERVED) e.
(* @src Utilities.h:2782-2789 eeprom_config_dump_all *)
Definition eeprom_config_dump_all (e : E) : list Z :=
  if MCU_VARIANT =? MCU_ESP32
  then escaped (map (fun i => ee_read (config_addr (Z.of_nat i)) e) (seq 0 (Z.to_nat CONFIG_SIZE)))
  else [].
(* @src Utilities.h:2791-2796 kiss_dump_eeprom *)
Definition kiss_dump_eeprom (e : E) : list Z := [FEND; CMD_ROM_READ] ++ eeprom_dump_all e ++ [FEND].
(* @src Utilities.h:2798-2803 kiss_dump_config *)
Definition kiss_dump_config (e : E) : list Z := [FEND; CMD_CFG_READ] ++ eeprom_config_dump_all e ++ [FEND].

(** [addr] and [byte] are [uint8_t]. *)
(* @src Utilities.h:2856-2862 eeprom_write *)
Definition eeprom_write (addr byte : Z) (c : conf E) : conf E :=
  if negb (eeprom_info_locked (ee c)) && (0 <=? addr) && (addr <? EEPROM_RESERVED)
  then upd (eeprom_addr addr) byte c
  else log (EvSerial (kiss_indicate_error ERROR_EEPROM_LOCKED)) c.

(* @src Utilities.h:2864-2873 eeprom_erase *)
Definition eeprom_erase (c : conf E) : conf E :=
  let c := if negb HAS_EEPROM && (MCU_VARIANT =? MCU_NRF52)
           then log EvFsFormat (c <| ee ::= ee_format |>)
           else foldl (fun c i => upd (eeprom_addr (Z.of_nat i)) 0xFF c) c (seq 0 (Z.to_nat EEPROM_RESERVED)) in
  log EvHardReset c.

(* @src Utilities.h:3442-3445 unlock_rom *)
Definition unlock_rom (c : conf E) : conf E := eeprom_erase (log (EvLedError 50) c).

(** ** Validity of the information block *)

(* @src Utilities.h:2887-2907 eeprom_product_valid *)
Definition eeprom_product_valid (e : E) : bool :=
  let rval := ee_read (eeprom_addr ADDR_PRODUCT) e in
  let one_of l := existsb (Z.eqb rval) l in
  if PLATFORM =? PLATFORM_AVR then one_of [PRODUCT_RNODE; PRODUCT_HMBRW]
  else if PLATFORM =? PLATFORM_ESP32 then
    one_of [PRODUCT_RNODE; BOARD_RNODE_NG_20; BOARD_RNODE_NG_21; PRODUCT_HMBRW; PRODUCT_TBEAM;
        PRODUCT_T32_10; PRODUCT_T32_20; PRODUCT_T32_21; PRODUCT_H32_V2; PRODUCT_H32_V3;
        PRODUCT_H32_V4; PRODUCT_H32_V4_R8; PRODUCT_TDECK_V1; PRODUCT_TBEAM_S_V1;
        PRODUCT_TBEAM_S_V3; PRODUCT_XIAO_S3; PRODUCT_TBEAM_1W; PRODUCT_HELTEC_WTRACKER_V2]
  else if PLATFORM =? PLATFORM_NRF52 then
    one_of [PRODUCT_RAK4631; PRODUCT_HELTEC_T114; PRODUCT_HELTEC_T096; PRODUCT_HELTEC_T1;
        PRODUCT_TECHO; PRODUCT_HMBRW]
  else false.

(** The models each board accepts, in the order of the [#elif] chain. *)
(* @src Utilities.h:2916-2979 eeprom_model_valid *)
Definition board_models : list (list Z * list Z) :=
  [([BOARD_RNODE], [MODEL_A4; MODEL_A9; MODEL_FF; MODEL_FE]);
   ([BOARD_RNODE_NG_20], [MODEL_A3; MODEL_A8]);
   ([BOARD_RNODE_NG_21], [MODEL_A2; MODEL_A7]);
   ([BOARD_T3S3], [MODEL_A1; MODEL_A6; MODEL_A5; MODEL_AA; MODEL_AC]);
   ([BOARD_HMBRW], [MODEL_FF; MODEL_FE; MODEL_FD]);
   ([BOARD_TBEAM], [MODEL_E4; MODEL_E9; MODEL_E3; MODEL_E8]);
   ([BOARD_TBEAM_1W], [MODEL_E5; MODEL_E6]);
   ([BOARD_TDECK], [MODEL_D4; MODEL_D9]);
   ([BOARD_TECHO], [MODEL_16; MODEL_17]);
   ([BOARD_TBEAM_S_V1; BOARD_TBEAM_S_V3], [MODEL_DB; MODEL_DC]);
   ([BOARD_XIAO_S3], [MODEL_DD; MODEL_DE]);
   ([BOARD_LORA32_V1_0], [MODEL_BA; MODEL_BB]);
   ([BOARD_LORA32_V2_0], [MODEL_B3; MODEL_B8]);
   ([BOARD_LORA32_V2_1], [MODEL_B4; MODEL_B9]);
   ([BOARD_HELTEC32_V2], [MODEL_C4; MODEL_C9]);
   ([BOARD_HELTEC32_V3], [MODEL_C5; MODEL_CA]);
   ([BOARD_HELTEC32_V4; BOARD_HELTEC32_V4_R8], [MODEL_C8]);
   ([BOARD_HELTEC_T114], [MODEL_C6; MODEL_C7]);
   ([BOARD_HELTEC_T096], [MODEL_D3; MODEL_D5]);
   ([BOARD_HELTEC_WTRACKER_V2], [MODEL_D6; MODEL_D7]);
   ([BOARD_HELTEC_T1], [MODEL_DF; MODEL_E2]);
   ([BOARD_RAK4631], [MODEL_11; MODEL_12]);
   ([BOARD_RAK3401], [MODEL_13]);
   ([BOARD_HUZZAH32], [MODEL_FF]);
   ([BOARD_GENERIC_ESP32], [MODEL_FF; MODEL_FE]);
   ([BOARD_MESHPOE_S3], [MODEL_FF; MODEL_FE; MODEL_FD]);
   ([BOARD_MESHADVENTURER_S3], [MODEL_FF; MODEL_FE; MODEL_FD]);
   ([BOARD_MESHADVENTURER], [MODEL_FF; MODEL_FE; MODEL_FD]);
   ([BOARD_DIY_V1], [MODEL_FF; MODEL_FE; MODEL_FD]);
   ([BOARD_AETHERNODE], [MODEL_FF; MODEL_FE; MODEL_FD]);
   ([BOARD_AETHERNODE_S3], [MODEL_FF; MODEL_FE; MODEL_FD]);
   ([BOARD_PROMICRO], [MODEL_FF; MODEL_FE])].

(* @src Utilities.h:2910-2986 eeprom_model_valid *)
Definition eeprom_model_valid (e : E) : bool :=
  let model := ee_read (eeprom_addr ADDR_MODEL) e in
  match find (fun bm => existsb (Z.eqb BOARD_MODEL) (fst bm)) board_models with
  | Some (_, models) => existsb (Z.eqb model) models
  | None => false
  end.

(* @src Utilities.h:2988-2999 eeprom_hwrev_valid *)
Definition eeprom_hwrev_valid (e : E) : bool :=
  let hwrev := ee_read (eeprom_addr ADDR_HW_REV) e in
  negb (hwrev =? 0x00) && negb (hwrev =? 0xFF).

(** The eleven checksummed bytes. *)
Definition info_bytes (e : E) : list Z :=
  map (fun i => ee_read (eeprom_addr (Z.of_nat i)) e) (seq 0 (Z.to_nat CHECKSUMMED_SIZE)).

(* @src Utilities.h:3001-3029 eeprom_checksum_valid *)
Definition eeprom_checksum_valid (e : E) : bool :=
  let hash := make_hash (info_bytes e) in
  forallb (fun i => ee_read (eeprom_addr (ADDR_CHKSUM + Z.of_nat i)) e =? zget 0 hash (Z.of_nat i)) (seq 0 16).

(* @src Utilities.h:3385-3395 eeprom_have_conf *)
Definition eeprom_have_conf (e : E) : bool := ee_read (eeprom_addr ADDR_CONF_OK) e =? CONF_OK_BYTE.
End Store.

(** ** Lemmas: reads after writes *)

Section Laws.
  Context `{EepromLaws E}.
  Implicit Types (e : E) (c : conf E).

Lemma read_upd a b v c :
  0 <= b < EEPROM_SIZE -> ee_read a (ee (upd b v c)) = if a =? b then u8 v else ee_read a (ee c).
Proof.
  intros Hb. destruct c as [e p l]. unfold upd, eeprom_update. cbn.
  destruct (Z.eqb_spec a b) as [->|Hn].
  - destruct (Z.eqb_spec (ee_read b e) (u8 v)) as [E1|]; cbn [negb]; [assumption|].
    apply read_write_eq; [assumption|apply u8_is_u8].
  - destruct (Z.eqb_spec (ee_read b e) (u8 v)); cbn [negb]; [reflexivity|]. apply read_write_ne. congruence.
Qed.

Lemma ee_log x c : ee (log x c) = ee c.
Proof. now destruct c. Qed.
Lemma pr_log x c : pr (log x c) = pr c.
Proof. now destruct c. Qed.
Lemma pr_upd a b c : pr (upd a b c) = pr c.
Proof. now destruct c. Qed.

Lemma info_range a : EEPROM_RESERVED <= EEPROM_SIZE -> 0 <= a < EEPROM_RESERVED -> 0 <= eeprom_addr a < EEPROM_SIZE.
Proof. unfold eeprom_addr, EEPROM_OFFSET. lia. Qed.

Lemma eeprom_addr_eqb a b : (eeprom_addr a =? eeprom_addr b) = (a =? b).
Proof. unfold eeprom_addr. destruct (Z.eqb_spec a b); [apply Z.eqb_eq|apply Z.eqb_neq]; lia. Qed.
Lemma eeprom_addr_add a i : eeprom_addr a + i = eeprom_addr (a + i).
Proof. unfold eeprom_addr. lia. Qed.

Lemma read_upd_info a b v c :
  EEPROM_RESERVED <= EEPROM_SIZE -> 0 <= b < EEPROM_RESERVED ->
  ee_read (eeprom_addr a) (ee (upd (eeprom_addr b) v c)) = if a =? b then u8 v else ee_read (eeprom_addr a) (ee c).
Proof. intros HS Hb. rewrite read_upd, eeprom_addr_eqb by (apply info_range; assumption). reflexivity. Qed.

(** C34. Once the information block is locked the host can not change it: a
    write command leaves the store as it was and answers with the locked error;
    while it is unlocked a write changes the addressed byte of the block and
    nothing else, and a write past the block changes nothing. *)
(* @prop safety W=locked_block_is_immutable_witness D=eeprom_write,eeprom_info_locked,eeprom_update *)
Theorem locked_block_is_immutable (addr byte : Z) (c : conf E) :
  EEPROM_RESERVED <= EEPROM_SIZE -> is_u8 addr -> is_u8 byte ->
  let c' := eeprom_write addr byte c in
  (eeprom_info_locked (ee c) = false -> addr < EEPROM_RESERVED ->
    ee_read (eeprom_addr addr) (ee c') = byte /\
    (forall a, a <> eeprom_addr addr -> ee_read a (ee c') = ee_read a (ee c)) /\ ev c' = ev c) /\
  (eeprom_info_locked (ee c) = true \/ EEPROM_RESERVED <= addr ->
    ee c' = ee c /\ ev c' = ev c ++ [EvSerial (kiss_indicate_error ERROR_EEPROM_LOCKED)]).
Proof.
  intros HS Ha Hb. cbv zeta. unfold eeprom_write.
  rewrite (proj2 (Z.leb_le 0 addr)) by apply Ha. rewrite andb_true_r. split.
  - intros Hl Hr. rewrite Hl, (proj2 (Z.ltb_lt _ _) Hr). cbn [negb andb].
    assert (Hi : 0 <= eeprom_addr addr < EEPROM_SIZE) by (apply info_range; [exact HS|split; [apply Ha|exact Hr]]).
    split; [|split].
    + rewrite read_upd by exact Hi. rewrite Z.eqb_refl. now apply u8_id.
    + intros a Hn. rewrite read_upd by exact Hi. now rewrite (proj2 (Z.eqb_neq _ _) Hn).
    + now destruct c.
  - intros [Hl|Hr].
    + rewrite Hl. now destruct c.
    + rewrite (proj2 (Z.ltb_ge _ _) Hr), andb_false_r. now destruct c.
Qed.

(** ** Provisioning *)

(** The host's write commands for a run of bytes. *)
Definition write_run (base : Z) (bs : list Z) (c : conf E) : conf E :=
  foldl (fun c '(i, b) => eeprom_write (base + Z.of_nat i) b c) c (zip (seq 0 (length bs)) bs).

(** [eeprom_write] on an unlocked block, inside it. *)
Lemma eeprom_write_open addr byte c :
  EEPROM_RESERVED <= EEPROM_SIZE -> eeprom_info_locked (ee c) = false -> 0 <= addr < EEPROM_RESERVED ->
  eeprom_write addr byte c = upd (eeprom_addr addr) byte c.
Proof.
  intros HS Hl Ha. unfold eeprom_write. rewrite Hl. cbn [negb andb].
  now rewrite (proj2 (Z.leb_le _ _)), (proj2 (Z.ltb_lt _ _)) by apply Ha.
Qed.

Lemma write_run_gen bs : forall k base c,
  EEPROM_RESERVED <= EEPROM_SIZE -> eeprom_info_locked (ee c) = false ->
  0 <= base -> base + Z.of_nat k + zlen bs <= ADDR_INFO_LOCK -> bytes bs ->
  let c' := foldl (fun c '(i, b) => eeprom_write (base + Z.of_nat i) b c) c (zip (seq k (length bs)) bs) in
  (forall a, ee_read (eeprom_addr a) (ee c') =
     if (base + Z.of_nat k <=? a) && (a <? base + Z.of_nat k + zlen bs) then zget 0 bs (a - base - Z.of_nat k)
     else ee_read (eeprom_addr a) (ee c)) /\
  eeprom_info_locked (ee c') = false /\ ev c' = ev c.
Proof.
  induction bs as [|b bs IH]; intros k base c HS Hl Hb Hr Hbs; cbn [length seq zip zip_with foldl].
  - split; [|now split]. intros a. rewrite zlen_nil in *. bdestr; reflexivity.
  - rewrite zlen_cons in Hr. pose proof (zlen_nonneg bs). inversion_clear Hbs as [|? ? Hb1 Hb2].
    assert (HL : ADDR_INFO_LOCK < EEPROM_RESERVED) by reflexivity.
    rewrite eeprom_write_open by (assumption || lia).
    set (c1 := upd _ b c).
    assert (Hread : forall a, ee_read (eeprom_addr a) (ee c1) =
              if a =? base + Z.of_nat k then b else ee_read (eeprom_addr a) (ee c)).
    { intros a. unfold c1. rewrite read_upd_info by (assumption || lia). now rewrite u8_id. }
    assert (Hl1 : eeprom_info_locked (ee c1) = false).
    { unfold eeprom_info_locked. rewrite Hread, (proj2 (Z.eqb_neq ADDR_INFO_LOCK _)) by lia. exact Hl. }
    destruct (IH (S k) base c1 HS Hl1 Hb ltac:(lia) Hb2) as (R & L & V).
    split; [|split; [exact L|rewrite V; unfold c1; now destruct c]].
    intros a. rewrite R, Hread, zlen_cons. clear IH.
    destruct (Z.eqb_spec a (base + Z.of_nat k)) as [->|Hn].
    + rewrite (proj2 (Z.leb_gt _ _)), (proj2 (Z.leb_le _ _)), (proj2 (Z.ltb_lt _ (_ + (1 + _)))) by lia. cbn [andb].
      unfold zget. now replace (Z.to_nat (base + Z.of_nat k - base - Z.of_nat k)) with 0%nat by lia.
    + bdestr; try reflexivity. unfold zget.
      now replace (Z.to_nat (a - base - Z.of_nat k)) with (S (Z.to_nat (a - base - Z.of_nat (S k)))) by lia.
Qed.

Lemma write_run_spec base bs c :
  EEPROM_RESERVED <= EEPROM_SIZE -> eeprom_info_locked (ee c) = false ->
  0 <= base -> base + zlen bs <= ADDR_INFO_LOCK -> bytes bs ->
  (forall a, ee_read (eeprom_addr a) (ee (write_run base bs c)) =
     if (base <=? a) && (a <? base + zlen bs) then zget 0 bs (a - base)
     else ee_read (eeprom_addr a) (ee c)) /\
  eeprom_info_locked (ee (write_run base bs c)) = false /\ ev (write_run base bs c) = ev c.
Proof.
  intros HS Hl Hb Hr Hbs. destruct (write_run_gen bs 0 base c HS Hl Hb ltac:(lia) Hbs) as (R & L & V).
  split; [|now split]. intros a. unfold write_run. rewrite R. change (Z.of_nat 0) with 0.
  now rewrite Z.add_0_r, Z.sub_0_r.
Qed.

Lemma map_zget (bs : list Z) : map (fun i => zget 0 bs (Z.of_nat i)) (seq 0 (length bs)) = bs.
Proof.
  induction bs as [|b bs IH]; [reflexivity|]. cbn [length seq map]. f_equal.
  rewrite <- seq_shift, map_map. rewrite <- IH at 2. apply map_ext. intros i. unfold zget.
  now rewrite Nat2Z.inj_succ, Z2Nat.inj_succ by lia.
Qed.

(** C33. Provisioning works: on an unlocked store, writing the eleven information
    bytes, their MD5 digest at the checksum cells and the lock byte through the
    host's write command makes a block that passes the checksum test and is
    locked; the bytes read back are the ones written, nothing is reported, and no
    later write command changes anything. *)
(* @prop functional W=provisioned_block_validates_witness D=eeprom_write,eeprom_checksum_valid,eeprom_lock_set,make_hash,ADDR_CHKSUM,ADDR_INFO_LOCK,CHECKSUMMED_SIZE *)
Theorem provisioned_block_validates (info : list Z) (c : conf E) :
  EEPROM_RESERVED <= EEPROM_SIZE -> zlen info = CHECKSUMMED_SIZE -> bytes info ->
  eeprom_info_locked (ee c) = false ->
  let c' := eeprom_write ADDR_INFO_LOCK INFO_LOCK_BYTE
              (write_run ADDR_CHKSUM (make_hash info) (write_run ADDR_PRODUCT info c)) in
  info_bytes (ee c') = info /\ eeprom_checksum_valid (ee c') = true /\ eeprom_lock_set (ee c') = true /\
  ev c' = ev c /\ forall addr byte, ee (eeprom_write addr byte c') = ee c'.
Proof.
  intros HS Hlen Hb Hl. cbv zeta. destruct (make_hash_bytes info) as [Lh Hh].
  destruct (write_run_spec ADDR_PRODUCT info c HS Hl) as (R1 & L1 & V1);
    [discriminate|rewrite Hlen; discriminate|exact Hb|].
  destruct (write_run_spec ADDR_CHKSUM (make_hash info) _ HS L1) as (R2 & L2 & V2);
    [discriminate|unfold zlen; rewrite Lh; discriminate|exact Hh|].
  rewrite eeprom_write_open by (exact HS || exact L2 || (split; [discriminate|reflexivity])).
  set (c2 := write_run ADDR_CHKSUM _ _) in *.
  assert (R : forall a, ee_read (eeprom_addr a) (ee (upd (eeprom_addr ADDR_INFO_LOCK) INFO_LOCK_BYTE c2)) =
            if a =? ADDR_INFO_LOCK then INFO_LOCK_BYTE else ee_read (eeprom_addr a) (ee c2)).
  { intros a. rewrite read_upd_info; [reflexivity|exact HS|split; [discriminate|reflexivity]]. }
  set (c3 := upd _ _ _) in *. assert (Hi : info_bytes (ee c3) = info).
  { unfold info_bytes. rewrite <- Hlen. unfold zlen. rewrite Nat2Z.id. rewrite <- (map_zget info) at 2.
    apply map_ext_in. intros i Hin. apply in_seq in Hin. unfold zlen, CHECKSUMMED_SIZE in Hlen.
    rewrite R, R2, R1. unfold zlen. rewrite Lh, Hlen. unfold ADDR_INFO_LOCK, ADDR_CHKSUM, ADDR_PRODUCT.
    bdestr. now rewrite Z.sub_0_r. }
  split; [exact Hi|]. split; [|split; [|split]].
  - unfold eeprom_checksum_valid. rewrite Hi. apply forallb_forall. intros i Hin. apply in_seq in Hin.
    rewrite R, R2. unfold zlen. rewrite Lh. unfold ADDR_INFO_LOCK, ADDR_CHKSUM.
    replace (11 + Z.of_nat i - 11) with (Z.of_nat i) by lia. bdestr; apply Z.eqb_refl.
  - unfold eeprom_lock_set. rewrite R. apply Z.eqb_refl.
  - unfold c3. rewrite <- V1, <- V2. now destruct c2.
  - intros addr byte. unfold eeprom_write at 1. unfold eeprom_info_locked. rewrite R. cbn [negb andb Z.eqb].
    apply ee_log.
Qed.
End Laws.

Lemma locked_block_is_immutable_witness :
  let B := heltec32_v3 in
  ee_read (eeprom_addr ADDR_MODEL) (ee (eeprom_write ADDR_MODEL MODEL_CA (mk_conf (∅ : image) (default_prefs f_zero f_zero) []))) = MODEL_CA.
Proof.
  intros B.
  assert (HS : EEPROM_RESERVED <= EEPROM_SIZE) by (vm_compute; discriminate).
  assert (Ha : is_u8 ADDR_MODEL) by (vm_compute; split; [discriminate|reflexivity]).
  assert (Hb : is_u8 MODEL_CA) by (vm_compute; split; [discriminate|reflexivity]).
  pose proof (proj1 (@locked_block_is_immutable image image_eeprom heltec32_v3 image_laws ADDR_MODEL MODEL_CA
    (mk_conf (∅ : image) (default_prefs f_zero f_zero) []) HS Ha Hb)) as P.
  apply P; reflexivity.
Defined.

Lemma provisioned_block_validates_witness :
  let B := heltec32_v3 in
  let info := [PRODUCT_H32_V3; MODEL_CA; 1; 0; 0; 0; 7; 0x60; 0; 0; 0] in
  eeprom_checksum_valid (ee (eeprom_write ADDR_INFO_LOCK INFO_LOCK_BYTE
    (write_run ADDR_CHKSUM (make_hash info) (write_run ADDR_PRODUCT info
      (mk_conf (∅ : image) (default_prefs f_zero f_zero) []))))) = true.
Proof.
  intros B info.
  refine (proj1 (proj2 (@provisioned_block_validates image image_eeprom heltec32_v3 image_laws info
    (mk_conf (∅ : image) (default_prefs f_zero f_zero) []) ltac:(discriminate) eq_refl _ eq_refl))).
  repeat constructor; discriminate.
Defined.

(** A RAK3401 can not be provisioned: its board accepts a model, but no
    platform accepts its product code. *)
Theorem rak3401_product_rejected `{Eeprom E} `{Board} (e : E) :
  ee_read (eeprom_addr ADDR_PRODUCT) e = PRODUCT_RAK3401 -> eeprom_product_valid e = false.
Proof.
  intros Hp. unfold eeprom_product_valid. rewrite Hp.
  destruct (PLATFORM =? PLATFORM_AVR), (PLATFORM =? PLATFORM_ESP32), (PLATFORM =? PLATFORM_NRF52); reflexivity.
Qed.

Lemma rak3401_product_rejected_witness :
  let B := rak4631 in eeprom_product_valid (<[eeprom_addr ADDR_PRODUCT := PRODUCT_RAK3401]> (∅ : image)) = false.
Proof. intros B. apply (@rak3401_product_rejected image image_eeprom rak4631). reflexivity. Defined.
