(* ===== verification/Settings.v ===== *)
(** * Saving and loading settings (Utilities.h, Display.h, Bluetooth.h,
    WebSocketRemote.h, Device.h, RNode_Firmware.ino)

    One function per setting writes its cell of the store and its RAM copy;
    [setup()] and the drivers' initialisation read the cells back.  The theorems:
    every saver writes exactly its own cells; on ESP32 the RAM copies and the
    store never diverge, so a reboot restores what was set; the radio
    configuration round-trips.  On nRF52 two settings share a cell. *)
From Stdlib Require Import Floats.SpecFloat.
From stdpp Require Import gmap.
From S2P Require Import Prelude Boards Framing Rom Float Kiss Eeprom.

(* @src Display.h:253-261 display_timeout_decode_seconds *)
Definition display_timeout_decode_seconds (raw : Z) : Z :=
  if raw <=? 180 then raw
  else if raw =? 240 then 300 else if raw =? 245 then 600 else if raw =? 250 then 900 else 1800.

Section Savers.
  Context `{Board} {E : Type} `{Eeprom E}.
  (** The compiled-in defaults of Boards.h for the analog scales. *)
  Context (VSENSE_DIVIDER_RATIO_DEFAULT : cfloat) (BATTERY_V_SCALE_DEFAULT : cfloat).
  Implicit Types (e : E) (c : conf E).

Definition set_pr (f : prefs -> prefs) (c : conf E) : conf E := c <| pr ::= f |>.

(* @src Utilities.h:3031-3037 wr_conf_save *)
Definition wr_conf_save (mode : Z) (c : conf E) : conf E := upd (eeprom_addr ADDR_CONF_WIFI) mode c.

(* @src Utilities.h:3039-3053 bt_conf_save *)
Definition bt_conf_save (is_enabled : bool) (c : conf E) : conf E :=
  if is_enabled then upd (eeprom_addr ADDR_CONF_BT) BT_ENABLE_BYTE c
  else upd (eeprom_addr ADDR_CONF_BT) 0x00 c.

(* @src Utilities.h:3056-3060 bt_legacy_pairing_conf_save *)
Definition bt_legacy_pairing_conf_save (is_enabled : bool) (c : conf E) : conf E :=
  let c := set_pr (fun p => p <| bt_legacy_pairing_enabled := is_enabled |>) c in
  let c := upd ADDR_CONF_BT_LEGACY_PAIRING
             (if is_enabled then BT_LEGACY_PAIRING_ENABLE_BYTE else BT_LEGACY_PAIRING_DISABLE_BYTE) c in
  if bt_ready (pr c) then log EvBtSecuritySetup c else c.

(** The full stop and start cycle of the BLE stack. *)
Definition bt_cycle (c : conf E) : conf E :=
  if bt_ready (pr c) && negb (bt_state (pr c) =? BT_STATE_OFF)
  then log EvBtStart (log EvBtStop c) else c.

(* @src Utilities.h:3062-3076 bt_just_works_conf_save *)
Definition bt_just_works_conf_save (is_enabled : bool) (c : conf E) : conf E :=
  let c := set_pr (fun p => p <| bt_just_works_enabled := is_enabled |>) c in
  let c := upd ADDR_CONF_BT_JUST_WORKS
             (if is_enabled then BT_JUST_WORKS_ENABLE_BYTE else BT_JUST_WORKS_DISABLE_BYTE) c in
  bt_cycle c.

(* @src Utilities.h:3078-3092 bt_auto_start_conf_save *)
Definition bt_auto_start_conf_save (is_enabled : bool) (c : conf E) : conf E :=
  let c := set_pr (fun p => p <| bt_auto_start_enabled := is_enabled |>) c in
  upd ADDR_CONF_BT_AUTO_START
    (if is_enabled then BT_AUTO_START_ENABLE_BYTE else BT_AUTO_START_DISABLE_BYTE) c.

(* @src Utilities.h:3095-3101 radio_auto_start_conf_save *)
Definition radio_auto_start_conf_save (is_enabled : bool) (c : conf E) : conf E :=
  let c := set_pr (fun p => p <| radio_auto_start_enabled := is_enabled |>) c in
  upd ADDR_CONF_RADIO_AUTO_START
    (if is_enabled then RADIO_AUTO_START_ENABLE_BYTE else RADIO_AUTO_START_DISABLE_BYTE) c.

(* @src Utilities.h:3104-3116 bt_battery_service_conf_save *)
Definition bt_battery_service_conf_save (is_enabled : bool) (c : conf E) : conf E :=
  let c := set_pr (fun p => p <| bt_battery_service_enabled := is_enabled |>) c in
  let c := upd ADDR_CONF_BT_BATTERY_SERVICE
             (if is_enabled then BT_BATTERY_SERVICE_ENABLE_BYTE else BT_BATTERY_SERVICE_DISABLE_BYTE) c in
  bt_cycle c.

(* @src Utilities.h:3119-3130 snd_conf_save *)
Definition snd_conf_save (is_enabled : bool) (c : conf E) : conf E :=
  let c := set_pr (fun p => p <| sound_enabled := is_enabled |>) c in
  if is_enabled then upd (eeprom_addr ADDR_CONF_SND) SND_ENABLE_BYTE c
  else upd (eeprom_addr ADDR_CONF_SND) SND_DISABLE_BYTE c.

(* @src Utilities.h:3133-3143 enc_conf_save *)
Definition enc_conf_save (is_enabled : bool) (c : conf E) : conf E :=
  let c := set_pr (fun p => p <| encoder_enabled := is_enabled |>) c in
  if is_enabled then upd (eeprom_addr ADDR_CONF_ENA) ENC_ENABLE_BYTE c
  else upd (eeprom_addr ADDR_CONF_ENA) ENC_DISABLE_BYTE c.

(* @src Utilities.h:3151-3160 gnss_conf_save *)
Definition gnss_conf_save (is_enabled : bool) (c : conf E) : conf E :=
  if is_enabled then upd (eeprom_addr ADDR_CONF_GNSS) GNSS_ENABLE_BYTE c
  else upd (eeprom_addr ADDR_CONF_GNSS) GNSS_DISABLE_BYTE c.

(* @src Utilities.h:3169-3174 gnss_interval_conf_save *)
Definition gnss_interval_conf_save (preset_index : Z) (c : conf E) : conf E :=
  upd (eeprom_addr ADDR_CONF_GNSS_INTERVAL) preset_index c.

(* @src Utilities.h:3181-3188 vsr_conf_save *)
Definition vsr_conf_save (val : Z) (c : conf E) : conf E :=
  let c := upd (eeprom_addr ADDR_CONF_VSR) val c in
  set_pr (fun p => p <| vsense_divider_ratio := vsense_ratio VSENSE_DIVIDER_RATIO_DEFAULT val |>) c.

(** [BATTERY_V_SCALE_DEFAULT * ((float)val / 100.0)], a [double] product stored
    to a [float]. *)
Definition battery_scale (val : Z) : cfloat :=
  if negb (val =? 0x00) && negb (val =? 0xFF)
  then to_f32 (f64_mul BATTERY_V_SCALE_DEFAULT (f64_div (to_f64 (f32_of_Z val)) (f64_of_Z 100)))
  else to_f32 BATTERY_V_SCALE_DEFAULT.

(* @src Utilities.h:3199-3206 bvs_conf_save *)
Definition bvs_conf_save (val : Z) (c : conf E) : conf E :=
  let c := upd (eeprom_addr ADDR_CONF_BVS) val c in
  set_pr (fun p => p <| battery_v_scale := battery_scale val |>) c.

(** Save a byte and reboot when it changed. *)
Definition save_and_reboot (a val : Z) (c : conf E) : conf E :=
  let stored := ee_read a (ee c) in
  let c := upd a val c in
  if negb (stored =? val) then log EvHardReset c else c.

(* @src Utilities.h:3224-3235 gpio_conf_save *)
Definition gpio_conf_save (addr val : Z) (c : conf E) : conf E := save_and_reboot (eeprom_addr addr) val c.
(* @src Utilities.h:3246-3257 espnow_conf_save *)
Definition espnow_conf_save (val : Z) (c : conf E) : conf E :=
  save_and_reboot (eeprom_addr ADDR_CONF_ESPNOW) val c.
(* @src Utilities.h:3268-3270 espnow_mode_conf_save *)
Definition espnow_mode_conf_save (val : Z) (c : conf E) : conf E := upd ADDR_CONF_ESPNOW_MODE val c.
(* @src Utilities.h:3277-3279 espnow_lr_conf_save *)
Definition espnow_lr_conf_save (val : Z) (c : conf E) : conf E := upd ADDR_CONF_ESPNOW_LR val c.
(* @src Utilities.h:3289-3300 ethspd_conf_save *)
Definition ethspd_conf_save (val : Z) (c : conf E) : conf E :=
  save_and_reboot (eeprom_addr ADDR_CONF_ETHSPD) val c.

(** [val]: the four bytes of the address. *)
(* @src Utilities.h:3310-3314 ethaddr_conf_save *)
Definition ethaddr_conf_save (addr_base : Z) (val : list Z) (c : conf E) : conf E :=
  foldl (fun c i => upd (config_addr (addr_base + Z.of_nat i)) (zget 0 val (Z.of_nat i)) c) c (seq 0 4).

(* @src Utilities.h:3317-3319 di_conf_save *)
Definition di_conf_save (dint : Z) (c : conf E) : conf E := upd (eeprom_addr ADDR_CONF_DINT) dint c.
(* @src Utilities.h:3321-3323 da_conf_save *)
Definition da_conf_save (dadr : Z) (c : conf E) : conf E := upd (eeprom_addr ADDR_CONF_DADR) dadr c.

(** The RAM side of a blanking code; [uint32_t] milliseconds. *)
Definition set_blanking (val : Z) (p : prefs) : prefs :=
  p <| display_blanking_code := val |>
    <| display_blanking_enabled := negb (val =? 0x00) |>
    <| display_blanking_timeout :=
         if val =? 0x00 then display_blanking_timeout p
         else u32 (display_timeout_decode_seconds val * 1000) |>.

(* @src Utilities.h:3325-3337 db_conf_save *)
Definition db_conf_save (val : Z) (c : conf E) : conf E :=
  if HAS_DISPLAY then
    let c := set_pr (set_blanking val) c in
    upd (eeprom_addr ADDR_CONF_DBLK) val (upd (eeprom_addr ADDR_CONF_BSET) CONF_OK_BYTE c)
  else c.

(* @src Utilities.h:3339-3371 drot_conf_save *)
Definition drot_conf_save (val : Z) (c : conf E) : conf E :=
  if HAS_DISPLAY && (0x00 <=? val) && (val <=? 0x03) then
    let stored := ee_read (eeprom_addr ADDR_CONF_DROT) (ee c) in
    let stored := if 0x03 <? stored then 0x00 else stored in
    let c := upd (eeprom_addr ADDR_CONF_DROT) val c in
    if negb (stored =? val) then log EvHardReset c else c
  else c.

(* @src Utilities.h:3373-3377 dia_conf_save *)
Definition dia_conf_save (val : Z) (c : conf E) : conf E :=
  log EvHardReset (if 0x00 <? val then upd (eeprom_addr ADDR_CONF_DIA) 0x01 c
                   else upd (eeprom_addr ADDR_CONF_DIA) 0x00 c).

(* @src Utilities.h:3379-3382 np_int_conf_save *)
Definition np_int_conf_save (p_int : Z) (c : conf E) : conf E :=
  upd (eeprom_addr ADDR_CONF_PINT) p_int (upd (eeprom_addr ADDR_CONF_PSET) CONF_OK_BYTE c).

(* @src WebSocketRemote.h:229-242 ws_conf_save *)
Definition ws_conf_save (val : Z) (c : conf E) : conf E :=
  let c := upd (eeprom_addr ADDR_CONF_WS) val c in
  log EvWsRemoteInit (set_pr (fun p => p <| ws_enabled := (val =? WS_ENABLE_BYTE) |>) c).

(** ** Loading at boot *)

(** A two-valued setting: an unknown byte leaves the compiled default. *)
Definition load_onoff (on off : Z) (a : Z) (default : bool) (e : E) : bool :=
  let raw := ee_read a e in
  if raw =? on then true else if raw =? off then false else default.

(* @src Bluetooth.h:845-874 bt_setup_hw *)
Definition bt_setup_hw_load (e : E) (p : prefs) : prefs :=
  if bt_ready p then p else
  let p := p <| bt_enabled := (ee_read (eeprom_addr ADDR_CONF_BT) e =? BT_ENABLE_BYTE) |> in
  let p := p <| bt_legacy_pairing_enabled :=
                (ee_read ADDR_CONF_BT_LEGACY_PAIRING e =? BT_LEGACY_PAIRING_ENABLE_BYTE) |> in
  let p := p <| bt_just_works_enabled :=
                (ee_read ADDR_CONF_BT_JUST_WORKS e =? BT_JUST_WORKS_ENABLE_BYTE) |> in
  let p := p <| bt_auto_start_enabled :=
                (ee_read ADDR_CONF_BT_AUTO_START e =? BT_AUTO_START_ENABLE_BYTE) |> in
  p <| bt_battery_service_enabled :=
       negb (ee_read ADDR_CONF_BT_BATTERY_SERVICE e =? BT_BATTERY_SERVICE_DISABLE_BYTE) |>.

(** nRF52: the two settings its [bt_setup_hw] reads. *)
(* @src Bluetooth.h:1142-1166 bt_setup_hw *)
Definition bt_setup_hw_load_nrf52 (e : E) (p : prefs) : prefs :=
  if bt_ready p then p else
  let p := p <| bt_enabled := (ee_read (eeprom_addr ADDR_CONF_BT) e =? BT_ENABLE_BYTE) |> in
  p <| bt_battery_service_enabled :=
       negb (ee_read ADDR_CONF_BT_BATTERY_SERVICE e =? BT_BATTERY_SERVICE_DISABLE_BYTE) |>.

(* @src RNode_Firmware.ino:723-734 setup *)
Definition snd_load (e : E) (p : prefs) : prefs :=
  p <| sound_enabled := load_onoff SND_ENABLE_BYTE SND_DISABLE_BYTE (eeprom_addr ADDR_CONF_SND) (sound_enabled p) e |>.
(* @src RNode_Firmware.ino:862-873 setup *)
Definition enc_load (e : E) (p : prefs) : prefs :=
  p <| encoder_enabled := (ee_read (eeprom_addr ADDR_CONF_ENA) e =? ENC_ENABLE_BYTE) |>.
(* @src RNode_Firmware.ino:875-882 setup *)
Definition vsr_load (e : E) (p : prefs) : prefs :=
  let vsr_raw := ee_read (eeprom_addr ADDR_CONF_VSR) e in
  p <| vsense_divider_ratio :=
         if negb (vsr_raw =? 0x00) && negb (vsr_raw =? 0xFF)
         then to_f32 (f64_div (to_f64 (f32_of_Z vsr_raw)) (f64_of_Z 10))
         else vsense_divider_ratio p |>.
(* @src RNode_Firmware.ino:884-891 setup *)
Definition bvs_load (e : E) (p : prefs) : prefs :=
  let bvs_raw := ee_read (eeprom_addr ADDR_CONF_BVS) e in
  p <| battery_v_scale :=
         if negb (bvs_raw =? 0x00) && negb (bvs_raw =? 0xFF)
         then to_f32 (f64_mul BATTERY_V_SCALE_DEFAULT (f64_div (to_f64 (f32_of_Z bvs_raw)) (f64_of_Z 100)))
         else battery_v_scale p |>.
(* @src RNode_Firmware.ino:1017-1024 setup *)
Definition ws_load (e : E) (p : prefs) : prefs :=
  p <| ws_enabled := load_onoff WS_ENABLE_BYTE WS_DISABLE_BYTE (eeprom_addr ADDR_CONF_WS) (ws_enabled p) e |>.
(* @src RNode_Firmware.ino:3109-3115 validate_status *)
Definition radio_auto_start_load (e : E) (p : prefs) : prefs :=
  p <| radio_auto_start_enabled :=
       load_onoff RADIO_AUTO_START_ENABLE_BYTE RADIO_AUTO_START_DISABLE_BYTE
         ADDR_CONF_RADIO_AUTO_START (radio_auto_start_enabled p) e |>.
(* @src Display.h:854-864 display_init *)
Definition display_blanking_load (e : E) (p : prefs) : prefs :=
  let ok := ee_read (eeprom_addr ADDR_CONF_BSET) e =? CONF_OK_BYTE in
  let db_timeout := ee_read (eeprom_addr ADDR_CONF_DBLK) e in
  p <| display_blanking_code := if ok then db_timeout else display_blanking_code p |>
    <| display_blanking_enabled := if ok then negb (db_timeout =? 0x00) else display_blanking_enabled p |>
    <| display_blanking_timeout :=
         if ok && negb (db_timeout =? 0x00) then u32 (display_timeout_decode_seconds db_timeout * 1000)
         else display_blanking_timeout p |>.

(** A boot: every load, starting from the compiled defaults.  [validate_status] reads the
    radio auto-start byte only when the hardware is ready and a radio configuration is
    stored ([checked_start] of Startup.v is that whole branch). *)
Definition boot (hw_ready : bool) (e : E) (defaults : prefs) : prefs :=
  let p := ws_load e (bt_setup_hw_load e (bvs_load e (vsr_load e (enc_load e
    (snd_load e (display_blanking_load e defaults)))))) in
  if hw_ready && eeprom_have_conf e then radio_auto_start_load e p else p.

(** ** The radio configuration *)

(** [lora_sf], [lora_cr], [lora_txp] are [int]; [lora_bw], [lora_freq] are
    [uint32_t]. *)
(* @src Config.h:228-233 lora_sf, lora_cr, lora_txp, lora_bw, lora_freq *)
Record lora := mk_lora { lora_sf : Z; lora_cr : Z; lora_txp : Z; lora_bw : Z; lora_freq : Z }.

Definition read_be32 (a : Z) (e : E) : Z :=
  of_be32 (ee_read (a + 0x00) e) (ee_read (a + 0x01) e) (ee_read (a + 0x02) e) (ee_read (a + 0x03) e).

(* @src Utilities.h:3397-3413 eeprom_conf_load *)
Definition eeprom_conf_load (e : E) (l : lora) : lora :=
  if eeprom_have_conf e then
    mk_lora (ee_read (eeprom_addr ADDR_CONF_SF) e) (ee_read (eeprom_addr ADDR_CONF_CR) e)
      (ee_read (eeprom_addr ADDR_CONF_TXP) e)
      (read_be32 (eeprom_addr ADDR_CONF_BW) e) (read_be32 (eeprom_addr ADDR_CONF_FREQ) e)
  else l.

Definition save_be32 (a v : Z) (c : conf E) : conf E :=
  let c := upd (a + 0x00) (Z.shiftr v 24) c in
  let c := upd (a + 0x01) (Z.shiftr v 16) c in
  let c := upd (a + 0x02) (Z.shiftr v 8) c in
  upd (a + 0x03) v c.

(* @src Utilities.h:3415-3436 eeprom_conf_save *)
Definition eeprom_conf_save (hw_ready radio_online : bool) (l : lora) (c : conf E) : conf E :=
  if hw_ready && radio_online then
    let c := upd (eeprom_addr ADDR_CONF_SF) (lora_sf l) c in
    let c := upd (eeprom_addr ADDR_CONF_CR) (lora_cr l) c in
    let c := upd (eeprom_addr ADDR_CONF_TXP) (lora_txp l) c in
    let c := save_be32 (eeprom_addr ADDR_CONF_BW) (lora_bw l) c in
    let c := save_be32 (eeprom_addr ADDR_CONF_FREQ) (lora_freq l) c in
    let c := upd (eeprom_addr ADDR_CONF_OK) CONF_OK_BYTE c in
    log (EvLedInfo 10) c
  else log (EvLedWarning 10) c.

(* @src Utilities.h:3438-3440 eeprom_conf_delete *)
Definition eeprom_conf_delete (c : conf E) : conf E := upd (eeprom_addr ADDR_CONF_OK) 0x00 c.

(** ** Device signature and firmware hash *)

(** The one public key in [dev_keys]. *)
(* @src Device.h:53-56 dev_keys *)
Definition dev_keys : list (list Z) :=
  [[0x0f; 0x15; 0x86; 0x74; 0xa0; 0x7d; 0xf2; 0xde; 0x32; 0x11; 0x29; 0xc1; 0x0d; 0xda; 0xcc; 0xc3;
    0xe1; 0x9b; 0xac; 0xf2; 0x27; 0x06; 0xee; 0x89; 0x1f; 0x7a; 0xfc; 0xc3; 0x6a; 0xf5; 0x38; 0x08]].

(** [verify]: [Ed25519::verify], a library function, on signature, key and hash. *)
(* @src Device.h:89-104 device_validate_signature *)
Definition device_validate_signature (verify : list Z -> list Z -> list Z -> bool)
    (dev_sig dev_hash : list Z) : bool :=
  existsb (fun dev_k_pub => verify dev_sig dev_k_pub dev_hash) dev_keys.

(* @src Device.h:106-113 device_save_signature *)
Definition device_save_signature (verify : list Z -> list Z -> list Z -> bool)
    (dev_sig dev_hash : list Z) (c : conf E) : conf E :=
  if device_validate_signature verify dev_sig dev_hash then
    foldl (fun c i => upd (dev_sig_addr (Z.of_nat i)) (zget 0 dev_sig (Z.of_nat i)) c) c
      (seq 0 (Z.to_nat DEV_SIG_LEN))
  else c.
(* @src Device.h:115-123 device_load_signature *)
Definition device_load_signature (e : E) : list Z :=
  map (fun i => ee_read (dev_sig_addr (Z.of_nat i)) e) (seq 0 (Z.to_nat DEV_SIG_LEN)).
(* @src Device.h:125-133 device_load_firmware_hash *)
Definition device_load_firmware_hash (e : E) : list Z :=
  map (fun i => ee_read (dev_fwhash_addr (Z.of_nat i)) e) (seq 0 (Z.to_nat DEV_HASH_LEN)).
(* @src Device.h:135-143 device_save_firmware_hash *)
Definition device_save_firmware_hash (fw_signature_validated : bool) (dev_firmware_hash_target : list Z)
    (c : conf E) : conf E :=
  let c := foldl (fun c i => upd (dev_fwhash_addr (Z.of_nat i)) (zget 0 dev_firmware_hash_target (Z.of_nat i)) c) c
             (seq 0 (Z.to_nat DEV_HASH_LEN)) in
  if negb fw_signature_validated then log EvHardReset c else c.

(** [VALIDATE_FIRMWARE]: any differing byte clears the flag, which starts true. *)
(* @src Device.h:182-207 device_validate_partitions *)
Definition device_validate_partitions (dev_firmware_hash : list Z) (fw_signature_validated : bool) (e : E) : bool :=
  let dev_firmware_hash_target := device_load_firmware_hash e in
  if forallb (fun i => zget 0 dev_firmware_hash_target (Z.of_nat i) =? zget 0 dev_firmware_hash (Z.of_nat i))
       (seq 0 (Z.to_nat DEV_HASH_LEN))
  then fw_signature_validated else false.
End Savers.

(** ** Lemmas: reads after writes *)

Section Laws.
  Context `{EepromLaws E}.
  Implicit Types (e : E) (c : conf E).

Lemma ee_set_pr f c : ee (set_pr f c) = ee c.
Proof. now destruct c. Qed.
Lemma pr_set_pr f c : pr (set_pr f c) = f (pr c).
Proof. now destruct c. Qed.

(** The radio configuration survives a power cycle: after [eeprom_conf_save]
    with the radio running, [eeprom_conf_load] restores spreading factor, coding
    rate, power (as bytes), bandwidth and frequency (as 32-bit numbers) whatever
    they were; after [eeprom_conf_delete] it leaves the parameters alone. *)
Theorem conf_roundtrip (l l' : lora) (c : conf E) :
  EEPROM_RESERVED <= EEPROM_SIZE ->
  eeprom_conf_load (ee (eeprom_conf_save true true l c)) l'
    = mk_lora (u8 (lora_sf l)) (u8 (lora_cr l)) (u8 (lora_txp l)) (u32 (lora_bw l)) (u32 (lora_freq l)) /\
  eeprom_conf_load (ee (eeprom_conf_delete (eeprom_conf_save true true l c))) l' = l'.
Proof.
  intros HS. destruct l as [sf cr txp bw freq].
  unfold eeprom_conf_load, eeprom_have_conf, eeprom_conf_delete, eeprom_conf_save, save_be32, read_be32.
  cbn [andb lora_sf lora_cr lora_txp lora_bw lora_freq].
  rewrite !eeprom_addr_add. repeat rewrite ?ee_log, ?read_upd_info by (assumption || done). split.
  - rewrite <- !of_be32_be32. reflexivity.
  - reflexivity.
Qed.
End Laws.

Lemma conf_roundtrip_witness :
  let _ := heltec32_v3 in
  let p := mk_prefs false false false true true false false true false false 0 f_zero f_zero 0 false 0 in
  eeprom_conf_load (ee (eeprom_conf_save true true (mk_lora 8 5 17 125000 868000000) (mk_conf (∅ : image) p [])))
    (mk_lora 0 5 0xFF 0 0) = mk_lora 8 5 17 125000 868000000.
Proof.
  intros B p.
  assert (HS : EEPROM_RESERVED <= EEPROM_SIZE) by (vm_compute; discriminate).
  exact (proj1 (@conf_roundtrip image image_eeprom heltec32_v3 image_laws (mk_lora 8 5 17 125000 868000000)
                  (mk_lora 0 5 0xFF 0 0) (mk_conf (∅ : image) p []) HS)).
Defined.

(** ** Every saver writes exactly its cells *)

Inductive save_op :=
  | OpWifi (mode : Z) | OpBt (b : bool) | OpLegacyPairing (b : bool) | OpJustWorks (b : bool)
  | OpAutoStart (b : bool) | OpRadioAutoStart (b : bool) | OpBatteryService (b : bool)
  | OpSound (b : bool) | OpEncoder (b : bool) | OpGnss (b : bool) | OpGnssInterval (i : Z)
  | OpVsr (v : Z) | OpBvs (v : Z) | OpGpio (addr v : Z) | OpEspnow (v : Z) | OpEspnowMode (v : Z)
  | OpEspnowLr (v : Z) | OpEthSpeed (v : Z) | OpIntensity (v : Z) | OpAddress (v : Z)
  | OpBlanking (v : Z) | OpRotation (v : Z) | OpInterference (v : Z) | OpPixel (v : Z)
  | OpWebSocket (v : Z) | OpConfSave (l : lora) | OpConfDelete.

(** The arguments the callers pass: bytes, and for [gpio_conf_save] one of the
    four pin cells. *)
Definition op_ok (op : save_op) : Prop :=
  match op with
  | OpGpio a v => In a [ADDR_CONF_BUZ; ADDR_CONF_EUP; ADDR_CONF_EDN; ADDR_CONF_EPR] /\ is_u8 v
  | OpWifi v | OpGnssInterval v | OpVsr v | OpBvs v | OpEspnow v | OpEspnowMode v | OpEspnowLr v
  | OpEthSpeed v | OpIntensity v | OpAddress v | OpBlanking v | OpRotation v | OpInterference v
  | OpPixel v => is_u8 v
  | OpWebSocket v => v = WS_ENABLE_BYTE \/ v = WS_DISABLE_BYTE
  | _ => True
  end.

Section Ops.
  Context `{EepromLaws E} (VSR BVS : cfloat).
  Implicit Types (e : E) (c : conf E).

Definition run_save (op : save_op) (c : conf E) : conf E :=
  match op with
  | OpWifi m => wr_conf_save m c
  | OpBt b => bt_conf_save b c
  | OpLegacyPairing b => bt_legacy_pairing_conf_save b c
  | OpJustWorks b => bt_just_works_conf_save b c
  | OpAutoStart b => bt_auto_start_conf_save b c
  | OpRadioAutoStart b => radio_auto_start_conf_save b c
  | OpBatteryService b => bt_battery_service_conf_save b c
  | OpSound b => snd_conf_save b c
  | OpEncoder b => enc_conf_save b c
  | OpGnss b => gnss_conf_save b c
  | OpGnssInterval i => gnss_interval_conf_save i c
  | OpVsr v => vsr_conf_save VSR v c
  | OpBvs v => bvs_conf_save BVS v c
  | OpGpio a v => gpio_conf_save a v c
  | OpEspnow v => espnow_conf_save v c
  | OpEspnowMode v => espnow_mode_conf_save v c
  | OpEspnowLr v => espnow_lr_conf_save v c
  | OpEthSpeed v => ethspd_conf_save v c
  | OpIntensity v => di_conf_save v c
  | OpAddress v => da_conf_save v c
  | OpBlanking v => db_conf_save v c
  | OpRotation v => drot_conf_save v c
  | OpInterference v => dia_conf_save v c
  | OpPixel v => np_int_conf_save v c
  | OpWebSocket v => ws_conf_save v c
  | OpConfSave l => eeprom_conf_save true true l c
  | OpConfDelete => eeprom_conf_delete c
  end.

(** The cells of a 32-bit number at [a], big-endian. *)
Definition be32_cells (a v : Z) : list (Z * Z) :=
  [(eeprom_addr (a + 3), v mod 256); (eeprom_addr (a + 2), Z.shiftr v 8 mod 256);
   (eeprom_addr (a + 1), Z.shiftr v 16 mod 256); (eeprom_addr a, Z.shiftr v 24 mod 256)].
(** The cells an operation writes, and the bytes it leaves there. *)
Definition op_cells (op : save_op) : list (Z * Z) :=
  match op with
  | OpWifi m => [(eeprom_addr ADDR_CONF_WIFI, m)]
  | OpBt b => [(eeprom_addr ADDR_CONF_BT, if b then BT_ENABLE_BYTE else 0)]
  | OpLegacyPairing b => [(ADDR_CONF_BT_LEGACY_PAIRING, Z.b2z b)]
  | OpJustWorks b => [(ADDR_CONF_BT_JUST_WORKS, Z.b2z b)]
  | OpAutoStart b => [(ADDR_CONF_BT_AUTO_START, Z.b2z b)]
  | OpRadioAutoStart b => [(ADDR_CONF_RADIO_AUTO_START, Z.b2z b)]
  | OpBatteryService b => [(ADDR_CONF_BT_BATTERY_SERVICE, Z.b2z b)]
  | OpSound b => [(eeprom_addr ADDR_CONF_SND, Z.b2z b)]
  | OpEncoder b => [(eeprom_addr ADDR_CONF_ENA, Z.b2z b)]
  | OpGnss b => [(eeprom_addr ADDR_CONF_GNSS, Z.b2z b)]
  | OpGnssInterval i => [(eeprom_addr ADDR_CONF_GNSS_INTERVAL, i)]
  | OpVsr v => [(eeprom_addr ADDR_CONF_VSR, v)]
  | OpBvs v => [(eeprom_addr ADDR_CONF_BVS, v)]
  | OpGpio a v => [(eeprom_addr a, v)]
  | OpEspnow v => [(eeprom_addr ADDR_CONF_ESPNOW, v)]
  | OpEspnowMode v => [(ADDR_CONF_ESPNOW_MODE, v)]
  | OpEspnowLr v => [(ADDR_CONF_ESPNOW_LR, v)]
  | OpEthSpeed v => [(eeprom_addr ADDR_CONF_ETHSPD, v)]
  | OpIntensity v => [(eeprom_addr ADDR_CONF_DINT, v)]
  | OpAddress v => [(eeprom_addr ADDR_CONF_DADR, v)]
  | OpBlanking v => if HAS_DISPLAY then [(eeprom_addr ADDR_CONF_DBLK, v); (eeprom_addr ADDR_CONF_BSET, CONF_OK_BYTE)] else []
  | OpRotation v => if HAS_DISPLAY && (0 <=? v) && (v <=? 3) then [(eeprom_addr ADDR_CONF_DROT, v)] else []
  | OpInterference v => [(eeprom_addr ADDR_CONF_DIA, if 0 <? v then 1 else 0)]
  | OpPixel v => [(eeprom_addr ADDR_CONF_PINT, v); (eeprom_addr ADDR_CONF_PSET, CONF_OK_BYTE)]
  | OpWebSocket v => [(eeprom_addr ADDR_CONF_WS, v)]
  | OpConfSave l =>
      (eeprom_addr ADDR_CONF_OK, CONF_OK_BYTE) :: be32_cells ADDR_CONF_FREQ (lora_freq l) ++ be32_cells ADDR_CONF_BW (lora_bw l) ++
      [(eeprom_addr ADDR_CONF_TXP, lora_txp l mod 256); (eeprom_addr ADDR_CONF_CR, lora_cr l mod 256);
       (eeprom_addr ADDR_CONF_SF, lora_sf l mod 256)]
  | OpConfDelete => [(eeprom_addr ADDR_CONF_OK, 0)]
  end.

(** Reading a cell through a list of writes. *)
Fixpoint over (ws : list (Z * Z)) (a old : Z) : Z :=
  match ws with [] => old | (b, v) :: ws => if a =? b then v else over ws a old end.

Lemma ee_bt_cycle c : ee (bt_cycle c) = ee c.
Proof. unfold bt_cycle. destruct (_ && _); now rewrite ?ee_log. Qed.
Lemma ee_save_and_reboot a v c : ee (save_and_reboot a v c) = ee (upd a v c).
Proof. unfold save_and_reboot. destruct (negb _); now rewrite ?ee_log. Qed.

(** Cells of both address spaces lie in the store of every platform. *)
Ltac in_store HS :=
  first [ apply info_range; [unfold EEPROM_RESERVED; lia | done]
        | split; [done | eapply Z.lt_le_trans; [|exact HS]; reflexivity] ].

Lemma run_save_reads op c a :
  288 <= EEPROM_SIZE -> op_ok op ->
  ee_read a (ee (run_save op c)) = over (op_cells op) a (ee_read a (ee c)).
Proof.
  intros HS Hok.
  destruct op; cbn [run_save op_cells over op_ok] in *;
    unfold wr_conf_save, bt_conf_save, bt_legacy_pairing_conf_save, bt_just_works_conf_save,
      bt_auto_start_conf_save, radio_auto_start_conf_save, bt_battery_service_conf_save, snd_conf_save,
      enc_conf_save, gnss_conf_save, gnss_interval_conf_save, vsr_conf_save, bvs_conf_save, gpio_conf_save,
      espnow_conf_save, espnow_mode_conf_save, espnow_lr_conf_save, ethspd_conf_save, di_conf_save,
      da_conf_save, db_conf_save, drot_conf_save, dia_conf_save, np_int_conf_save, ws_conf_save,
      eeprom_conf_save, eeprom_conf_delete, save_be32, be32_cells; cbn [andb app over].
  all: lazymatch type of Hok with
       | _ /\ is_u8 _ => destruct Hok as [[<-|[<-|[<-|[<-|[]]]]] Hok]
       | _ => idtac
       end.
  all: repeat match goal with
       | |- context [if ?b then _ else _] =>
           lazymatch b with Z.eqb _ _ => fail | _ => destruct b; cbn [over] in * end
       end.
  all: repeat rewrite ?ee_log, ?ee_set_pr, ?ee_bt_cycle, ?ee_save_and_reboot.
  all: rewrite ?eeprom_addr_add; repeat (rewrite read_upd by in_store HS); rewrite ?ee_set_pr; try reflexivity.
  all: try destruct Hok as [->| ->]; rewrite ?u8_id by assumption; reflexivity.
Qed.

(** Every settings saver writes exactly its own cells: after the call each
    byte of the store reads the value the setting encodes if it is one of the
    setting's cells, and what it read before otherwise - on both platforms, on
    every board, for every argument its callers pass. *)
Theorem savers_write_their_cells (op : save_op) (c : conf E) (a : Z) :
  288 <= EEPROM_SIZE -> op_ok op ->
  (forall v, In (a, v) (op_cells op) -> ee_read a (ee (run_save op c)) = v) /\
  ((forall v, ~ In (a, v) (op_cells op)) -> ee_read a (ee (run_save op c)) = ee_read a (ee c)).
Proof.
  intros HS Hok. rewrite run_save_reads by assumption. split.
  - intros v Hin. assert (Hn : separate (map (fun w => (fst w, 1)) (op_cells op)) = true).
    { destruct op; cbn [op_cells]; try destruct (HAS_DISPLAY); cbn [andb]; try destruct (_ && _); try reflexivity; cbn [be32_cells app];
        cbn [map separate forallb]; unfold apart, eeprom_addr; cbn [fst snd];
        rewrite ?andb_true_iff, ?orb_true_iff, ?Z.leb_le;
        unfold ADDR_CONF_DBLK, ADDR_CONF_BSET, ADDR_CONF_PINT, ADDR_CONF_PSET, ADDR_CONF_OK, ADDR_CONF_SF, ADDR_CONF_CR,
          ADDR_CONF_TXP, ADDR_CONF_BW, ADDR_CONF_FREQ; lia. }
    induction (op_cells op) as [|[b w] ws IH]; [destruct Hin|].
    cbn [over map separate] in *. apply andb_true_iff in Hn as [Hf Hn].
    destruct Hin as [Hin|Hin]; [injection Hin as -> ->; now rewrite Z.eqb_refl|].
    rewrite forallb_forall in Hf. pose proof (Hf (a, 1) (in_map (fun w => (fst w, 1)) _ _ Hin)) as Hd.
    unfold apart in Hd. cbn [fst snd] in Hd. rewrite orb_true_iff, !Z.leb_le in Hd.
    rewrite (proj2 (Z.eqb_neq a b)) by lia. now apply IH.
  - intros Hno. induction (op_cells op) as [|[b w] ws IH]; [reflexivity|]. cbn [over].
    destruct (Z.eqb_spec a b) as [->|]; [destruct (Hno w); left; reflexivity|].
    apply IH. intros v Hin. apply (Hno v). right. exact Hin.
Qed.
End Ops.

Lemma savers_write_their_cells_witness :
  let _ := rak4631 in
  let p := mk_prefs false false false true true false false true false false 0 f_zero f_zero 0 false 0 in
  ee_read (eeprom_addr ADDR_CONF_DBLK) (ee (run_save f_zero f_zero (OpBlanking 30) (mk_conf (∅ : image) p []))) = 30.
Proof.
  intros B p.
  apply (@savers_write_their_cells image image_eeprom rak4631 image_laws f_zero f_zero (OpBlanking 30)
           (mk_conf (∅ : image) p []) (eeprom_addr ADDR_CONF_DBLK));
    [vm_compute; discriminate|split; [discriminate|reflexivity]|left; reflexivity].
Defined.

(** ** The RAM copies and the store never diverge (ESP32) *)

(** Two sets of RAM copies that behave alike: equal, except that the blanking
    timeout only counts while blanking is enabled.  [bt_enabled], [bt_ready] and
    [bt_state] belong to the Bluetooth stack; radio auto-start, which a boot reads only
    with a radio configuration, is stated apart. *)
Record prefs_agree (p q : prefs) : Prop := {
  ag_legacy : bt_legacy_pairing_enabled p = bt_legacy_pairing_enabled q;
  ag_works : bt_just_works_enabled p = bt_just_works_enabled q;
  ag_auto : bt_auto_start_enabled p = bt_auto_start_enabled q;
  ag_battery : bt_battery_service_enabled p = bt_battery_service_enabled q;
  ag_sound : sound_enabled p = sound_enabled q;
  ag_encoder : encoder_enabled p = encoder_enabled q;
  ag_ws : ws_enabled p = ws_enabled q;
  ag_vsr : vsense_divider_ratio p = vsense_divider_ratio q;
  ag_bvs : battery_v_scale p = battery_v_scale q;
  ag_code : display_blanking_code p = display_blanking_code q;
  ag_blank : display_blanking_enabled p = display_blanking_enabled q;
  ag_timeout : display_blanking_enabled p = true -> display_blanking_timeout p = display_blanking_timeout q
}.

(** Decide the comparisons of closed addresses and bytes. *)
Ltac closed_eqb :=
  repeat match goal with
  | |- context [Z.eqb ?x ?y] =>
      let r := eval vm_compute in (Z.eqb x y) in
      lazymatch r with
      | true => change (Z.eqb x y) with true
      | false => change (Z.eqb x y) with false
      end; cbv iota
  end.

Section Sync.
  Context `{EepromLaws E} (VSR BVS : cfloat) (defaults : prefs).
  Hypothesis HS : EEPROM_SIZE = 1024.
  Hypothesis Hready : bt_ready defaults = false.
  Hypothesis Hvsr : vsense_divider_ratio defaults = VSR.
  Hypothesis Hbvs : battery_v_scale defaults = to_f32 BVS.
  Implicit Types (e : E) (c : conf E).

(** The radio auto-start switch a byte of the store stands for. *)
Definition stored_auto_start (e : E) : bool :=
  let r := ee_read ADDR_CONF_RADIO_AUTO_START e in
  if r =? 1 then true else if r =? 0 then false else radio_auto_start_enabled defaults.
Definition in_sync (hw : bool) (c : conf E) : Prop := prefs_agree (boot BVS hw (ee c) defaults) (pr c).

(** What a boot makes of the store, cell by cell. *)
Record boot_view (rd : Z -> Z) (p : prefs) : Prop := {
  bv_legacy : bt_legacy_pairing_enabled p = (rd ADDR_CONF_BT_LEGACY_PAIRING =? 1);
  bv_works : bt_just_works_enabled p = (rd ADDR_CONF_BT_JUST_WORKS =? 1);
  bv_auto : bt_auto_start_enabled p = (rd ADDR_CONF_BT_AUTO_START =? 1);
  bv_battery : bt_battery_service_enabled p = negb (rd ADDR_CONF_BT_BATTERY_SERVICE =? 0);
  bv_sound : sound_enabled p = (let r := rd (ADDR_CONF_SND + 824) in
               if r =? 1 then true else if r =? 0 then false else sound_enabled defaults);
  bv_encoder : encoder_enabled p = (rd (ADDR_CONF_ENA + 824) =? 1);
  bv_ws : ws_enabled p = (let r := rd (ADDR_CONF_WS + 824) in
               if r =? 1 then true else if r =? 0 then false else ws_enabled defaults);
  bv_vsr : vsense_divider_ratio p = vsense_ratio VSR (rd (ADDR_CONF_VSR + 824));
  bv_bvs : battery_v_scale p = battery_scale BVS (rd (ADDR_CONF_BVS + 824));
  bv_blank : let ok := rd (ADDR_CONF_BSET + 824) =? CONF_OK_BYTE in let v := rd (ADDR_CONF_DBLK + 824) in
             display_blanking_code p = (if ok then v else display_blanking_code defaults) /\
             display_blanking_enabled p = (if ok then negb (v =? 0) else display_blanking_enabled defaults) /\
             display_blanking_timeout p = (if ok && negb (v =? 0) then u32 (display_timeout_decode_seconds v * 1000)
                                           else display_blanking_timeout defaults)
}.

Lemma addr_824 a : eeprom_addr a = a + 824.
Proof. unfold eeprom_addr, EEPROM_OFFSET. rewrite HS. reflexivity. Qed.

Lemma boot_radio hw e : radio_auto_start_enabled (boot BVS hw e defaults)
  = if hw && eeprom_have_conf e then stored_auto_start e else radio_auto_start_enabled defaults.
Proof.
  unfold boot, stored_auto_start, ws_load, bt_setup_hw_load, bvs_load, vsr_load, enc_load, snd_load, display_blanking_load.
  unfold radio_auto_start_load, load_onoff. revert Hready. clear Hvsr Hbvs.
  destruct (hw && eeprom_have_conf e), defaults as [lp jw au ra bs so en ws be br st vs bv bc bl bt]; cbn; intros ->; reflexivity.
Qed.
Lemma boot_has_view hw e : boot_view (fun a => ee_read a e) (boot BVS hw e defaults).
Proof.
  unfold boot; constructor; cbv zeta beta; destruct (hw && eeprom_have_conf e);
  unfold radio_auto_start_load, ws_load, bt_setup_hw_load, bvs_load, vsr_load, enc_load, snd_load,
    display_blanking_load, load_onoff, vsense_ratio, battery_scale;
  rewrite ?addr_824, <- ?Hvsr, <- ?Hbvs; revert Hready; clear HS Hvsr Hbvs.
  all: destruct defaults as [lp jw au ra bs so en ws be br st vs bv bc bl bt]; cbn; intros ->.
  all: cbn; try reflexivity; auto.
Qed.

(** What an operation does to the RAM copies. *)
Definition op_prefs (op : save_op) (p : prefs) : prefs :=
  match op with
  | OpLegacyPairing b => p <| bt_legacy_pairing_enabled := b |>
  | OpJustWorks b => p <| bt_just_works_enabled := b |>
  | OpAutoStart b => p <| bt_auto_start_enabled := b |>
  | OpRadioAutoStart b => p <| radio_auto_start_enabled := b |>
  | OpBatteryService b => p <| bt_battery_service_enabled := b |>
  | OpSound b => p <| sound_enabled := b |>
  | OpEncoder b => p <| encoder_enabled := b |>
  | OpVsr v => p <| vsense_divider_ratio := vsense_ratio VSR v |>
  | OpBvs v => p <| battery_v_scale := battery_scale BVS v |>
  | OpBlanking v => if HAS_DISPLAY then set_blanking v p else p
  | OpWebSocket v => p <| ws_enabled := (v =? 1) |>
  | _ => p
  end.

Lemma pr_bt_cycle c : pr (bt_cycle c) = pr c.
Proof. unfold bt_cycle. destruct (_ && _); now rewrite ?pr_log. Qed.
Lemma pr_save_and_reboot a v c : pr (save_and_reboot a v c) = pr c.
Proof. unfold save_and_reboot. destruct (negb _); now rewrite ?pr_log, ?pr_upd. Qed.

Lemma pr_run_save op c : pr (run_save VSR BVS op c) = op_prefs op (pr c).
Proof.
  destruct op; cbn [run_save op_prefs];
    unfold wr_conf_save, bt_conf_save, bt_legacy_pairing_conf_save, bt_just_works_conf_save,
      bt_auto_start_conf_save, radio_auto_start_conf_save, bt_battery_service_conf_save, snd_conf_save,
      enc_conf_save, gnss_conf_save, gnss_interval_conf_save, vsr_conf_save, bvs_conf_save, gpio_conf_save,
      espnow_conf_save, espnow_mode_conf_save, espnow_lr_conf_save, ethspd_conf_save, di_conf_save,
      da_conf_save, db_conf_save, drot_conf_save, dia_conf_save, np_int_conf_save, ws_conf_save.
  all: repeat match goal with |- context [if ?b then _ else _] => destruct b end.
  all: rewrite ?pr_log, ?pr_bt_cycle, ?pr_save_and_reboot, ?pr_upd, ?pr_set_pr, ?pr_upd, ?pr_set_pr; reflexivity.
Qed.

(** One operation, one field: the cell read at boot, against the RAM copy. *)
Lemma in_sync_step hw op c : op_ok op -> in_sync hw c -> in_sync hw (run_save VSR BVS op c).
Proof.
  intros Hok [A1 A2 A3 A5 A6 A7 A8 A9 A10 A11 A12 A13].
  destruct (boot_has_view hw (ee c)) as [B1 B2 B3 B5 B6 B7 B8 B9 B10 (B11 & B12 & B13)].
  destruct (boot_has_view hw (ee (run_save VSR BVS op c))) as [C1 C2 C3 C5 C6 C7 C8 C9 C10 (C11 & C12 & C13)].
  cbv beta zeta in *. unfold in_sync. rewrite pr_run_save.
  rewrite A1 in B1. rewrite A2 in B2. rewrite A3 in B3.  rewrite A5 in B5. rewrite A6 in B6.
  rewrite A7 in B7. rewrite A8 in B8. rewrite A9 in B9. rewrite A10 in B10. rewrite A11 in B11. rewrite A12 in B12.
  clear A1 A2 A3 A5 A6 A7 A8 A9 A10 A11.
  revert C1 C2 C3 C5 C6 C7 C8 C9 C10 C11 C12 C13.
  generalize (boot BVS hw (ee (run_save VSR BVS op c)) defaults); intros q.
  rewrite !(fun a => run_save_reads VSR BVS op c a (ltac:(rewrite HS; discriminate)) Hok).
  destruct op; cbn [op_cells be32_cells app over op_prefs op_ok] in *.
  all: try match type of Hok with _ /\ _ => destruct Hok as [[<-|[<-|[<-|[<-|[]]]]] _] end.
  all: try match type of Hok with _ \/ _ => destruct Hok as [->| ->] end.
  all: try destruct b; try destruct HAS_DISPLAY; cbn [andb over]; try destruct (_ && (_ <=? 3)); cbn [over].
  all: rewrite ?addr_824; closed_eqb.
  all: revert A12 A13 B1 B2 B3 B5 B6 B7 B8 B9 B10 B11 B12 B13; generalize (pr c) as p;
    generalize (boot BVS hw (ee c) defaults) as old; clear Hready Hvsr Hbvs; generalize (ee c) as e; clear c.
  all: intros; destruct p; cbn in *.
  all: constructor; cbn; try congruence.
  all: try (intros Hen; rewrite C13, <- B13; apply A13; congruence).
  intros Hen. rewrite C13. rewrite C12 in Hen. destruct (v =? 0); [discriminate|reflexivity].
Qed.

Lemma in_sync_boot hw hw0 e ready st log0 :
  in_sync hw (mk_conf e ((boot BVS hw0 e defaults) <| bt_ready := ready |> <| bt_state := st |>) log0).
Proof.
  destruct (boot_has_view hw e) as [B1 B2 B3 B5 B6 B7 B8 B9 B10 (B11 & B12 & B13)].
  destruct (boot_has_view hw0 e) as [C1 C2 C3 C5 C6 C7 C8 C9 C10 (C11 & C12 & C13)].
  unfold in_sync. cbn [ee pr]. generalize dependent (boot BVS hw e defaults). intros p. intros.
  destruct (boot BVS hw0 e defaults). constructor; cbn in *; congruence.
Qed.
(** Only its own switch moves radio auto-start and its byte. *)
Lemma radio_step op c : op_ok op ->
  (stored_auto_start (ee c) = radio_auto_start_enabled (pr c) \/ exists b, op = OpRadioAutoStart b) ->
  stored_auto_start (ee (run_save VSR BVS op c)) = radio_auto_start_enabled (pr (run_save VSR BVS op c)).
Proof.
  intros Hok Hs. unfold stored_auto_start in *. cbv zeta in *.
  rewrite pr_run_save, (run_save_reads VSR BVS op c ADDR_CONF_RADIO_AUTO_START) by (exact Hok || (rewrite HS; discriminate)).
  destruct Hs as [Hs|[b ->]]; [|destruct b; cbn; now destruct (pr c)].
  destruct op; cbn [op_cells be32_cells app over op_prefs op_ok] in *.
  all: try match type of Hok with _ /\ _ => destruct Hok as [[<-|[<-|[<-|[<-|[]]]]] _] end.
  all: try destruct HAS_DISPLAY; cbn [andb over]; try destruct (_ && (_ <=? 3)); cbn [over].
  all: rewrite ?addr_824; closed_eqb; try (destruct (pr c); exact Hs).
  all: destruct b, (pr c); reflexivity.
Qed.

(** C35. On ESP32 the settings and their RAM copies never diverge: from a boot on
    any store contents, after any sequence of settings changes the values the
    firmware works with are the ones a reboot restores - for the Bluetooth
    options, sound, encoder, WebSocket server, the two analog scales and the display
    blanking.  Radio auto-start is restored only when the reboot finds the hardware
    ready and a radio configuration stored, and the switch was read at the first boot
    or set since; without a stored configuration it comes back as the compiled
    default, whatever was saved. *)
(* @prop invariant W=reboot_restores_settings_witness D=bt_legacy_pairing_conf_save,bt_battery_service_conf_save,snd_conf_save,enc_conf_save,vsr_conf_save,bvs_conf_save,db_conf_save,ws_conf_save,bt_setup_hw_load,snd_load,vsr_load,bvs_load,display_blanking_load,ws_load,radio_auto_start_load,radio_auto_start_conf_save,eeprom_conf_save,eeprom_conf_delete *)
Theorem reboot_restores_settings (ops : list save_op) (e : E) (hw0 hw : bool) (ready : bool) (st : Z) (log0 : list event) :
  Forall op_ok ops ->
  let c := foldl (fun c op => run_save VSR BVS op c)
             (mk_conf e ((boot BVS hw0 e defaults) <| bt_ready := ready |> <| bt_state := st |>) log0) ops in
  let rebooted := boot BVS hw (ee c) defaults in
  prefs_agree rebooted (pr c) /\
  if hw && eeprom_have_conf (ee c)
  then hw0 && eeprom_have_conf e = true \/ (exists b, In (OpRadioAutoStart b) ops) ->
       radio_auto_start_enabled rebooted = radio_auto_start_enabled (pr c)
  else radio_auto_start_enabled rebooted = radio_auto_start_enabled defaults.
Proof.
  intros Hops. cbv zeta. rewrite boot_radio. set (c0 := mk_conf e _ log0).
  assert (Hc0 : in_sync hw c0) by apply in_sync_boot.
  assert (Hr0 : hw0 && eeprom_have_conf e = true -> stored_auto_start (ee c0) = radio_auto_start_enabled (pr c0)).
  { intros Hc. pose proof (boot_radio hw0 e) as Hr. rewrite Hc in Hr. unfold c0. cbn [ee pr]. rewrite <- Hr. now destruct (boot _ _ _ _). }
  clearbody c0. set (P := hw0 && eeprom_have_conf e = true) in *. clearbody P. split.
  - revert c0 Hc0 Hr0. induction Hops as [|op ops Hop _ IH]; intros c0 Hc0 Hr0; [exact Hc0|].
    cbn [foldl]. apply IH; [now apply in_sync_step|]. intros Hp. apply radio_step; auto.
  - clear Hc0. destruct (hw && _); [|reflexivity]. revert P c0 Hr0. induction Hops as [|op ops Hop _ IH]; intros P c0 Hr0.
    + intros [Hp|[b []]]. now apply Hr0.
    + cbn [foldl]. intros Hor. apply (IH (P \/ exists b, op = OpRadioAutoStart b)).
      * intros [Hp|Hb]; apply radio_step; auto.
      * destruct Hor as [Hp|[b [->|Hb]]]; eauto.
Qed.
End Sync.

Lemma reboot_restores_settings_witness :
  let B := heltec32_v3 in
  let d := default_prefs f_zero f_zero in
  let c := foldl (fun c op => run_save f_zero f_zero op c)
             (mk_conf (∅ : image) ((boot f_zero true (∅ : image) d) <| bt_ready := true |> <| bt_state := BT_STATE_ON |>) [])
             [OpSound true; OpBlanking 240; OpRadioAutoStart false; OpConfSave (mk_lora 8 5 17 125000 868000000)] in
  prefs_agree (boot f_zero true (ee c) d) (pr c) /\ radio_auto_start_enabled (boot f_zero true (ee c) d) = false.
Proof.
  intros B d c.
  destruct (@reboot_restores_settings image image_eeprom heltec32_v3 image_laws f_zero f_zero d eq_refl eq_refl eq_refl eq_refl
    [OpSound true; OpBlanking 240; OpRadioAutoStart false; OpConfSave (mk_lora 8 5 17 125000 868000000)] (∅ : image) true true true BT_STATE_ON [])
    as [Ha Hr]; [repeat constructor; discriminate|].
  split; [exact Ha|]. fold c in Hr. replace (true && eeprom_have_conf (ee c)) with true in Hr by (vm_compute; reflexivity).
  etransitivity; [apply Hr; right; exists false; right; right; now left|vm_compute; reflexivity].
Defined.

(** Radio auto-start switched off without a stored radio configuration is on again after
    the reboot, although its byte in the store says off. *)
Example auto_start_forgotten :
  let B := heltec32_v3 in
  let d := default_prefs f_zero f_zero in
  let c := radio_auto_start_conf_save false (mk_conf (∅ : image) (boot f_zero true (∅ : image) d) []) in
  ee_read ADDR_CONF_RADIO_AUTO_START (ee c) = RADIO_AUTO_START_DISABLE_BYTE /\
  radio_auto_start_enabled (pr c) = false /\ radio_auto_start_enabled (boot f_zero true (ee c) d) = true.
Proof. vm_compute. auto. Qed.

(** ** nRF52: two settings in one cell *)

(** On nRF52 the battery-service switch and the Bluetooth enable byte are the
    same byte of the store, because the first is addressed without
    [eeprom_addr]: switching the battery service leaves Bluetooth disabled at the
    next boot unless the byte it writes happens to be the enable byte (it is 0 or
    1, the enable byte is 0x73), and enabling Bluetooth turns the battery
    service on. *)
Theorem battery_service_disables_bluetooth `{EepromLaws E} (b : bool) (c : conf E) (p : prefs) :
  EEPROM_SIZE = 296 -> bt_ready p = false ->
  eeprom_addr ADDR_CONF_BT = ADDR_CONF_BT_BATTERY_SERVICE /\
  bt_enabled (bt_setup_hw_load_nrf52 (ee (bt_battery_service_conf_save b c)) p) = false /\
  bt_battery_service_enabled
    (bt_setup_hw_load_nrf52 (ee (bt_conf_save true (bt_battery_service_conf_save false c))) p) = true.
Proof.
  intros HS Hp.
  assert (Ha : eeprom_addr ADDR_CONF_BT = ADDR_CONF_BT_BATTERY_SERVICE)
    by (unfold eeprom_addr, EEPROM_OFFSET; rewrite HS; reflexivity).
  assert (Hr : 0 <= ADDR_CONF_BT_BATTERY_SERVICE < EEPROM_SIZE) by (rewrite HS; split; reflexivity || discriminate).
  split; [exact Ha|]. unfold bt_setup_hw_load_nrf52, bt_conf_save, bt_battery_service_conf_save. rewrite Hp.
  cbv beta zeta. rewrite !Ha, ?ee_bt_cycle, !read_upd, !Z.eqb_refl by exact Hr.
  split; destruct p, b; reflexivity.
Qed.

Lemma battery_service_disables_bluetooth_witness :
  let B := rak4631 in
  bt_enabled (bt_setup_hw_load_nrf52
    (ee (bt_battery_service_conf_save true (bt_conf_save true (mk_conf (∅ : image) (default_prefs f_zero f_zero) []))))
    (default_prefs f_zero f_zero)) = false.
Proof.
  intros B.
  exact (proj1 (proj2 (@battery_service_disables_bluetooth image image_eeprom rak4631 image_laws true
          (bt_conf_save true (mk_conf (∅ : image) (default_prefs f_zero f_zero) []))
          (default_prefs f_zero f_zero) eq_refl eq_refl))).
Defined.
