(* ===== verification/Modem.v ===== *)
(** * Radio parameters (Utilities.h, RNode_Firmware.ino)

    The variables of the radio configuration, the rates derived from them, the
    translation between transmit power and power-amplifier input, and the
    functions that push a parameter to the transceiver.  The transceiver driver is
    the interface [LoRaModem]; [Sx126xLink.v] implements it.  The floating point of
    [updateBitrate] is computed bit for bit with [Float.v]. *)
From Stdlib Require Import Floats.SpecFloat.
From S2P Require Import Prelude Boards Framing Rom Float Kiss Eeprom Settings.

(** ** The driver *)

Class LoRaModem (D : Type) := {
  lora_begin : Z -> D -> bool * D;             (** [begin(freq)] *)
  lora_end : D -> D;
  lora_setPreambleLength : Z -> D -> D;
  lora_setSpreadingFactor : Z -> D -> D;
  lora_setCodingRate4 : Z -> D -> D;
  lora_setSyncWord : Z -> D -> D;
  lora_setTxPower : Z -> Z -> D -> D;          (** level, output pin *)
  lora_getTxPower : D -> Z;
  lora_setSignalBandwidth : Z -> D -> D;
  lora_getSignalBandwidth : D -> Z;
  lora_setFrequency : Z -> D -> D;
  lora_getFrequency : D -> Z;
  lora_enableCrc : D -> D;
  lora_receive : Z -> D -> D                   (** [receive(size)], after [onReceive] *)
}.

(* @src sx126x.h:18-19 PA_OUTPUT_RFO_PIN *)
Definition PA_OUTPUT_RFO_PIN : Z := 0.
Definition PA_OUTPUT_PA_BOOST_PIN : Z := 1.

(** ** Rates *)

(* @src Config.h:175-183 LORA_PREAMBLE_SYMBOLS_MIN *)
Definition PHY_HEADER_LORA_SYMBOLS : Z := 20.
Definition PHY_CRC_LORA_BITS : Z := 16.
Definition LORA_PREAMBLE_SYMBOLS_MIN : Z := 18.
Definition LORA_PREAMBLE_TARGET_MS : Z := 24.
Definition LORA_PREAMBLE_FAST_DELTA : Z := 18.
Definition LORA_FAST_THRESHOLD_BPS : Z := 30000.
Definition LORA_LIMIT_THRESHOLD_BPS : Z := 60000.
Definition LORA_GUARD_THRESHOLD_BPS : Z := 14000.
(* @src Config.h:199-205 CSMA_SLOT_MAX_MS *)
Definition CSMA_SIFS_MS : Z := 0.
Definition CSMA_SLOT_MAX_MS : Z := 100.
Definition CSMA_SLOT_MIN_MS : Z := 24.
Definition CSMA_SLOT_MIN_FAST_DELTA : Z := 18.
Definition CSMA_SLOT_SYMBOLS : Z := 12.

(** [lora_preamble_symbols] and the millisecond counts are 32-bit integers. *)
(* @src Config.h:185-193 lora_preamble_symbols *)
Record rates := mk_rates {
  lora_bitrate : Z; lora_symbol_rate : cfloat; lora_symbol_time_ms : cfloat; lora_us_per_byte : cfloat;
  lora_limit_rate : bool; lora_guard_rate : bool; csma_slot_ms : Z; difs_ms : Z;
  lora_preamble_symbols : Z; lora_preamble_time_ms : Z; lora_header_time_ms : Z
}.

Definition rates0 : rates :=
  mk_rates 0 f_zero f_zero f_zero false false CSMA_SLOT_MIN_MS (CSMA_SIFS_MS + 2 * CSMA_SLOT_MIN_MS)
    LORA_PREAMBLE_SYMBOLS_MIN 0 0.

(** [pow(2, sf)] is exact; the conversions and operators are those of the source:
    [float] operands divide in [float], a [double] literal promotes. *)
(* @src Utilities.h:2435-2440 updateBitrate *)
Definition symbol_rate (bw sf : Z) : cfloat := f32_div (f32_of_Z bw) (f32_of_Z (2 ^ sf)).
Definition symbol_time_ms (rate : cfloat) : cfloat :=
  to_f32 (f64_mul (f64_div (f64_of_Z 1) (to_f64 rate)) (f64_of_Z 1000)).
(* @src Utilities.h:2437-2437 updateBitrate *)
Definition bitrate (bw sf cr : Z) : Z :=
  u32 (f_trunc (f64_mul (f64_mul (f64_of_Z sf)
    (f64_div (f64_div (f64_of_Z 4) (to_f64 (f32_of_Z cr)))
       (f64_div (to_f64 (f32_of_Z (2 ^ sf))) (f64_div (to_f64 (f32_of_Z bw)) (f64_of_Z 1000)))))
    (f64_of_Z 1000))).
Definition us_per_byte (br : Z) : cfloat :=
  to_f32 (f64_div (f64_of_Z 1000000) (f64_div (to_f64 (f32_of_Z br)) (f64_of_Z 8))).

(* @src Utilities.h:2446-2454 updateBitrate *)
Definition slot_ms (fast_rate : bool) (symbol_ms : cfloat) : Z :=
  let csma_slot_min_ms := if fast_rate then CSMA_SLOT_MIN_MS - CSMA_SLOT_MIN_FAST_DELTA else CSMA_SLOT_MIN_MS in
  let s := f_trunc (f32_mul symbol_ms (f32_of_Z CSMA_SLOT_SYMBOLS)) in
  let s := if CSMA_SLOT_MAX_MS <? s then CSMA_SLOT_MAX_MS else s in
  if s <? CSMA_SLOT_MIN_MS then csma_slot_min_ms else s.

(* @src Utilities.h:2457-2461 updateBitrate *)
Definition preamble_symbols (fast_rate : bool) (symbol_ms : cfloat) : Z :=
  let target_ms := f32_of_Z (if fast_rate then LORA_PREAMBLE_TARGET_MS - LORA_PREAMBLE_FAST_DELTA
                             else LORA_PREAMBLE_TARGET_MS) in
  let target := f32_div target_ms symbol_ms in
  if f_ltb target (f32_of_Z LORA_PREAMBLE_SYMBOLS_MIN) then LORA_PREAMBLE_SYMBOLS_MIN else f_ceil target.

Definition symbols_ms (n : Z) (symbol_ms : cfloat) : Z := f_ceil (f32_mul (f32_of_Z n) symbol_ms).

(** ** State *)

(** [D] is the driver's state; [out] the bytes handed to [serial_write]. *)
Record modem (D : Type) := mk_modem {
  radio_online : bool; radio_locked : bool; par : lora; lora_sw : Z;
  implicit : bool; implicit_l : Z; promisc : bool; model : Z;
  lora_pa_model : Z; pa_values_determined : bool; tx_gain : list Z;
  rt : rates; drv : D; out : list Z
}.
Arguments mk_modem {D} _ _ _ _ _ _ _ _ _ _ _ _ _ _.
Arguments radio_online {D} _. Arguments radio_locked {D} _. Arguments par {D} _. Arguments lora_sw {D} _.
Arguments implicit {D} _. Arguments implicit_l {D} _. Arguments promisc {D} _. Arguments model {D} _.
Arguments lora_pa_model {D} _. Arguments pa_values_determined {D} _. Arguments tx_gain {D} _.
Arguments rt {D} _. Arguments drv {D} _. Arguments out {D} _.

Definition emit {D} (bs : list Z) (m : modem D) : modem D := m <| out ::= fun o => o ++ bs |>.

(** ** Power amplifier *)

(** Gain of the amplifier, in dB, by modem output level. *)
(* @src Boards.h:1253-1258 PA_GC1109_VALUES *)
Definition PA_GAIN_POINTS : Z := 22.
Definition PA_GC1109_VALUES : list Z :=
  [11; 11; 11; 11; 11; 11; 11; 11; 11; 11; 11; 11; 11; 11; 11; 11; 10; 10; 9; 9; 8; 7].
Definition PA_KCT8103L_VALUES : list Z :=
  [13; 13; 13; 13; 13; 13; 13; 13; 13; 13; 13; 13; 13; 13; 12; 12; 11; 11; 10; 9; 8; 7].

Section Modem.
  Context `{Board} {D : Type} `{LoRaModem D}.
  Implicit Types (m : modem D).

(* @src Utilities.h:2520-2537 determine_pa_values *)
Definition determine_pa_values (m : modem D) : modem D :=
  let set v m := m <| tx_gain := v |> <| pa_values_determined := true |> in
  if (BOARD_MODEL =? BOARD_HELTEC32_V4) || (BOARD_MODEL =? BOARD_HELTEC32_V4_R8) then
    if lora_pa_model m =? LORA_PA_GC1109 then set PA_GC1109_VALUES m
    else if lora_pa_model m =? LORA_PA_KCT8103L then set PA_KCT8103L_VALUES m else m
  else if (BOARD_MODEL =? BOARD_HELTEC_T096) || (BOARD_MODEL =? BOARD_HELTEC_WTRACKER_V2) then
    if lora_pa_model m =? LORA_PA_KCT8103L then set PA_KCT8103L_VALUES m else m
  else m.

(** The search of the loop, from level [i], [n] levels to go. *)
(* @src Utilities.h:2543-2556 map_target_power_to_modem_output *)
Fixpoint pa_search (tx_gain : list Z) (target : Z) (i : Z) (n : nat) : Z :=
  match n with
  | O => -9
  | S n =>
      let effective_output_dbm := i + zget 0 tx_gain i in
      if target <? effective_output_dbm then -1 * (effective_output_dbm - target)
      else if effective_output_dbm =? target then i
      else if i =? PA_GAIN_POINTS - 1 then i + (target - effective_output_dbm)
      else pa_search tx_gain target (i + 1) n
  end.

(* @src Utilities.h:2539-2562 map_target_power_to_modem_output *)
Definition map_target_power_to_modem_output (target_tx_power : Z) (m : modem D) : Z * modem D :=
  if HAS_LORA_PA then
    let m := if negb (pa_values_determined m) then determine_pa_values m else m in
    (pa_search (tx_gain m) target_tx_power 0 (Z.to_nat PA_GAIN_POINTS), m)
  else (target_tx_power, m).

(* @src Utilities.h:2564-2575 map_modem_output_to_target_power *)
Definition map_modem_output_to_target_power (modem_output_dbm : Z) (m : modem D) : Z :=
  if HAS_LORA_PA then
    let o := if modem_output_dbm <? 0 then 0 else modem_output_dbm in
    let o := if PA_GAIN_POINTS <=? o then PA_GAIN_POINTS - 1 else o in
    o + zget 0 (tx_gain m) o
  else modem_output_dbm.

(* @src Utilities.h:2581-2597 lora_txp_max *)
Definition lora_txp_max : Z :=
  if MODEM =? SX1262 then if HAS_LORA_PA then PA_MAX_OUTPUT else 22
  else if MODEM =? SX1280 then if HAS_PA then 20 else 13
  else 20.

(** The output pin each model's [if] selects, in the order of the source. *)
(* @src Utilities.h:2612-2665 setTXPower *)
Definition model_pins : list (Z * Z) :=
  [(MODEL_11, PA_OUTPUT_RFO_PIN); (MODEL_12, PA_OUTPUT_RFO_PIN); (MODEL_13, PA_OUTPUT_RFO_PIN);
   (MODEL_C6, PA_OUTPUT_RFO_PIN); (MODEL_C7, PA_OUTPUT_RFO_PIN);
   (MODEL_A1, PA_OUTPUT_PA_BOOST_PIN); (MODEL_A2, PA_OUTPUT_PA_BOOST_PIN); (MODEL_A3, PA_OUTPUT_RFO_PIN);
   (MODEL_A4, PA_OUTPUT_RFO_PIN); (MODEL_A5, PA_OUTPUT_PA_BOOST_PIN); (MODEL_A6, PA_OUTPUT_PA_BOOST_PIN);
   (MODEL_A7, PA_OUTPUT_PA_BOOST_PIN); (MODEL_A8, PA_OUTPUT_PA_BOOST_PIN); (MODEL_A9, PA_OUTPUT_PA_BOOST_PIN);
   (MODEL_AA, PA_OUTPUT_PA_BOOST_PIN); (MODEL_AC, PA_OUTPUT_PA_BOOST_PIN);
   (MODEL_BA, PA_OUTPUT_PA_BOOST_PIN); (MODEL_BB, PA_OUTPUT_PA_BOOST_PIN); (MODEL_B3, PA_OUTPUT_PA_BOOST_PIN);
   (MODEL_B4, PA_OUTPUT_PA_BOOST_PIN); (MODEL_B8, PA_OUTPUT_PA_BOOST_PIN); (MODEL_B9, PA_OUTPUT_PA_BOOST_PIN);
   (MODEL_C4, PA_OUTPUT_PA_BOOST_PIN); (MODEL_C9, PA_OUTPUT_PA_BOOST_PIN); (MODEL_C5, PA_OUTPUT_PA_BOOST_PIN);
   (MODEL_CA, PA_OUTPUT_PA_BOOST_PIN); (MODEL_C8, PA_OUTPUT_PA_BOOST_PIN);
   (MODEL_D3, PA_OUTPUT_PA_BOOST_PIN); (MODEL_D5, PA_OUTPUT_PA_BOOST_PIN);
   (MODEL_D4, PA_OUTPUT_PA_BOOST_PIN); (MODEL_D9, PA_OUTPUT_PA_BOOST_PIN);
   (MODEL_DB, PA_OUTPUT_PA_BOOST_PIN); (MODEL_DC, PA_OUTPUT_PA_BOOST_PIN);
   (MODEL_DD, PA_OUTPUT_PA_BOOST_PIN); (MODEL_DE, PA_OUTPUT_PA_BOOST_PIN);
   (MODEL_E4, PA_OUTPUT_PA_BOOST_PIN); (MODEL_E9, PA_OUTPUT_PA_BOOST_PIN); (MODEL_E3, PA_OUTPUT_PA_BOOST_PIN);
   (MODEL_E8, PA_OUTPUT_PA_BOOST_PIN); (MODEL_E5, PA_OUTPUT_PA_BOOST_PIN); (MODEL_E6, PA_OUTPUT_PA_BOOST_PIN);
   (MODEL_FD, PA_OUTPUT_PA_BOOST_PIN); (MODEL_FE, PA_OUTPUT_PA_BOOST_PIN); (MODEL_FF, PA_OUTPUT_RFO_PIN)].

(* @src Utilities.h:2599-2667 setTXPower *)
Definition setTXPower (m : modem D) : modem D :=
  if radio_online m then
    let '(mapped_lora_txp, m) := map_target_power_to_modem_output (lora_txp (par m)) m in
    let m := if HAS_LORA_PA
             then let real := map_modem_output_to_target_power mapped_lora_txp m in
                  m <| par ::= fun p => p <| lora_txp := real |> |>
             else m in
    let mapped_lora_txp := if (model m =? MODEL_FD) && (8 <? mapped_lora_txp) then 8 else mapped_lora_txp in
    foldl (fun m '(mdl, pin) =>
             if model m =? mdl then m <| drv ::= lora_setTxPower mapped_lora_txp pin |> else m) m model_pins
  else m.

(* @src Utilities.h:2501-2504 getTxPower *)
Definition getTxPower (m : modem D) : Z := u8 (lora_getTxPower (drv m)).

(** ** Pushing the parameters *)

Definition report_phy (m : modem D) : modem D :=
  let r := rt m in
  emit (kiss_indicate_phy_stats (lora_symbol_time_ms r) (lora_symbol_rate r) (lora_preamble_symbols r)
          (lora_preamble_time_ms r) (csma_slot_ms r) (difs_ms r)) m.

(* @src Utilities.h:2426-2429 setPreamble *)
Definition setPreamble (m : modem D) : modem D :=
  report_phy (if radio_online m then m <| drv ::= lora_setPreambleLength (lora_preamble_symbols (rt m)) |> else m).

(** The preamble and header durations are assigned after the report. *)
(* @src Utilities.h:2431-2476 updateBitrate *)
Definition updateBitrate (m : modem D) : modem D :=
  if negb (radio_online m) then m <| rt ::= fun r => r <| lora_bitrate := 0 |> |>
  else
    let p := par m in
    let sr := symbol_rate (lora_bw p) (lora_sf p) in
    let st := symbol_time_ms sr in
    let br := bitrate (lora_bw p) (lora_sf p) (lora_cr p) in
    let fast_rate := LORA_FAST_THRESHOLD_BPS <? br in
    let limit := LORA_LIMIT_THRESHOLD_BPS <? br in
    let slot := slot_ms fast_rate st in
    let m := m <| rt ::= fun r =>
               mk_rates br sr st (us_per_byte br) limit (negb limit && (LORA_GUARD_THRESHOLD_BPS <? br))
                 slot (CSMA_SIFS_MS + 2 * slot) (preamble_symbols fast_rate st)
                 (lora_preamble_time_ms r) (lora_header_time_ms r) |> in
    let m := setPreamble m in
    m <| rt ::= fun r => r <| lora_preamble_time_ms := symbols_ms (lora_preamble_symbols r) st |>
                           <| lora_header_time_ms := symbols_ms PHY_HEADER_LORA_SYMBOLS st |> |>.

(* @src Utilities.h:2478-2481 setSpreadingFactor *)
Definition setSpreadingFactor (m : modem D) : modem D :=
  updateBitrate (if radio_online m then m <| drv ::= lora_setSpreadingFactor (lora_sf (par m)) |> else m).
(* @src Utilities.h:2483-2486 setCodingRate *)
Definition setCodingRate (m : modem D) : modem D :=
  updateBitrate (if radio_online m then m <| drv ::= lora_setCodingRate4 (lora_cr (par m)) |> else m).
(* @src Utilities.h:2488-2490 setSyncWord *)
Definition setSyncWord (m : modem D) : modem D :=
  if radio_online m then m <| drv ::= lora_setSyncWord (lora_sw m) |> else m.
(* @src Utilities.h:2492-2499 set_implicit_length *)
Definition set_implicit_length (len : Z) (m : modem D) : modem D :=
  m <| implicit_l := len |> <| implicit := negb (len =? 0) |>.
(* @src Utilities.h:2670-2675 getBandwidth *)
Definition getBandwidth (m : modem D) : modem D :=
  updateBitrate (if radio_online m
                 then m <| par ::= fun p => p <| lora_bw := u32 (lora_getSignalBandwidth (drv m)) |> |> else m).
(* @src Utilities.h:2677-2682 setBandwidth *)
Definition setBandwidth (m : modem D) : modem D :=
  if radio_online m then getBandwidth (m <| drv ::= lora_setSignalBandwidth (lora_bw (par m)) |>) else m.
(* @src Utilities.h:2684-2688 getFrequency *)
Definition getFrequency (m : modem D) : modem D :=
  if radio_online m then m <| par ::= fun p => p <| lora_freq := u32 (lora_getFrequency (drv m)) |> |> else m.
(* @src Utilities.h:2690-2695 setFrequency *)
Definition setFrequency (m : modem D) : modem D :=
  if radio_online m then getFrequency (m <| drv ::= lora_setFrequency (lora_freq (par m)) |>) else m.
(* @src Utilities.h:2699-2701 promisc_enable *)
Definition promisc_enable (m : modem D) : modem D := m <| promisc := true |>.
(* @src Utilities.h:2703-2705 promisc_disable *)
Definition promisc_disable (m : modem D) : modem D := m <| promisc := false |>.

(** ** Starting and stopping *)

(* @src RNode_Firmware.ino:1604-1610 update_radio_lock *)
Definition update_radio_lock (m : modem D) : modem D :=
  let p := par m in
  m <| radio_locked := negb (negb (lora_freq p =? 0) && negb (lora_bw p =? 0) &&
                             negb (lora_txp p =? 0xFF) && negb (lora_sf p =? 0)) |>.

(** [lora_receive()]: implicit length in implicit-header mode. *)
(* @src RNode_Firmware.ino:1089-1095 lora_receive *)
Definition lora_receive_mode (m : modem D) : modem D :=
  m <| drv ::= lora_receive (if negb (implicit m) then 0 else implicit_l m) |>.

(** The channel statistics reset belongs to [Csma.v]; LED patterns are not
    modelled. *)
(* @src RNode_Firmware.ino:1542-1596 startRadio *)
Definition startRadio (console_active hw_ready : bool) (m : modem D) : bool * modem D :=
  let m := update_radio_lock m in
  let report m := emit (kiss_indicate_radiostate (radio_online m)) m in
  if negb (radio_online m) && negb console_active then
    if negb (radio_locked m) && hw_ready then
      let '(ok, d) := lora_begin (lora_freq (par m)) (drv m) in
      let m := m <| drv := d |> in
      if negb ok then (false, emit (kiss_indicate_error ERROR_INITRADIO) m)
      else
        let m := m <| radio_online := true |> in
        let m := setSyncWord (setCodingRate (setSpreadingFactor (setBandwidth (setTXPower m)))) in
        let m := getFrequency m in
        let m := lora_receive_mode (m <| drv ::= lora_enableCrc |>) in
        (true, report m)
    else (false, report (m <| radio_online := false |>))
  else (true, report m).

(* @src RNode_Firmware.ino:1598-1602 stopRadio *)
Definition stopRadio (m : modem D) : modem D := m <| drv ::= lora_end |> <| radio_online := false |>.
End Modem.

(** A driver that records the calls it gets, for the witnesses. *)
Inductive call :=
  | CBegin (f : Z) | CEnd | CPreamble (n : Z) | CSf (n : Z) | CCr (n : Z) | CSync (n : Z)
  | CTxPower (level pin : Z) | CBandwidth (n : Z) | CFrequency (n : Z) | CCrc | CReceive (n : Z).

Definition last_call (d : list call) (f : call -> option Z) : Z :=
  fold_left (fun acc c => default acc (f c)) d 0.
Definition calls_modem : LoRaModem (list call) := {|
  lora_begin f d := (true, d ++ [CBegin f]);
  lora_end d := d ++ [CEnd];
  lora_setPreambleLength n d := d ++ [CPreamble n];
  lora_setSpreadingFactor n d := d ++ [CSf n];
  lora_setCodingRate4 n d := d ++ [CCr n];
  lora_setSyncWord n d := d ++ [CSync n];
  lora_setTxPower l p d := d ++ [CTxPower l p];
  lora_getTxPower d := last_call d (fun c => match c with CTxPower l _ => Some l | _ => None end);
  lora_setSignalBandwidth n d := d ++ [CBandwidth n];
  lora_getSignalBandwidth d := last_call d (fun c => match c with CBandwidth n => Some n | _ => None end);
  lora_setFrequency n d := d ++ [CFrequency n];
  lora_getFrequency d := last_call d (fun c => match c with CBegin n | CFrequency n => Some n | _ => None end);
  lora_enableCrc d := d ++ [CCrc];
  lora_receive n d := d ++ [CReceive n]
|}.

(** ** Transmit power *)

Section Power.
  Context `{Board} {D : Type} `{LoRaModem D}.
  Implicit Types (m : modem D).

(** At most one [if] of the chain applies. *)
Lemma drive_pins level l m :
  NoDup (map fst l) ->
  foldl (fun m '(mdl, pin) => if model m =? mdl then m <| drv ::= lora_setTxPower level pin |> else m) m l
  = match find (fun p => model m =? fst p) l with
    | Some (_, pin) => m <| drv ::= lora_setTxPower level pin |>
    | None => m
    end.
Proof.
  revert m. induction l as [|[mdl pin] l IH]; intros m Hnd; [reflexivity|].
  inversion_clear Hnd as [|? ? Hni Hnd']. cbn [foldl find fst].
  destruct (Z.eqb_spec (model m) mdl) as [E|E]; rewrite IH by exact Hnd'; [|reflexivity].
  destruct (find _ l) as [[x pin2]|] eqn:F; [|reflexivity].
  apply find_some in F as [Hin Hx]. cbn in Hx. apply Z.eqb_eq in Hx. exfalso. apply Hni.
  change x with (fst (x, pin2)) in Hx. replace mdl with (fst (x, pin2)).
  - apply list_elem_of_In, in_map, Hin.
  - rewrite <- Hx, <- E. now destruct m.
Qed.

Lemma model_pins_distinct : NoDup (map fst model_pins).
Proof. apply (bool_decide_unpack _). vm_compute. reflexivity. Qed.

(** The level handed to the driver, and the state it is handed over in. *)
Definition pa_prepared (m : modem D) : modem D :=
  if HAS_LORA_PA && negb (pa_values_determined m) then determine_pa_values m else m.
Definition modem_level (m : modem D) : Z :=
  let level := fst (map_target_power_to_modem_output (lora_txp (par m)) m) in
  if (model m =? MODEL_FD) && (8 <? level) then 8 else level.

Lemma determine_keeps m : drv (determine_pa_values m) = drv m /\ model (determine_pa_values m) = model m /\
  par (determine_pa_values m) = par m /\ radio_online (determine_pa_values m) = radio_online m.
Proof.
  unfold determine_pa_values.
  repeat match goal with |- context [if ?b then _ else _] => destruct b end; destruct m; repeat split.
Qed.

Lemma setTXPower_spec m :
  radio_online m = true ->
  drv (setTXPower m) = match find (fun p => model m =? fst p) model_pins with
                       | Some (_, pin) => lora_setTxPower (modem_level m) pin (drv m)
                       | None => drv m
                       end /\
  lora_txp (par (setTXPower m)) =
    (if HAS_LORA_PA
     then map_modem_output_to_target_power (fst (map_target_power_to_modem_output (lora_txp (par m)) m)) (pa_prepared m)
     else lora_txp (par m)).
Proof.
  intros Hon. unfold setTXPower. rewrite Hon.
  unfold modem_level, map_target_power_to_modem_output, pa_prepared.
  destruct HAS_LORA_PA; cbn [andb fst].
  - set (m1 := if negb (pa_values_determined m) then determine_pa_values m else m).
    assert (K : drv m1 = drv m /\ model m1 = model m /\ par m1 = par m).
    { unfold m1. destruct (negb _); [|repeat split]. pose proof (determine_keeps m) as K. tauto. }
    destruct K as (K1 & K2 & K3). rewrite drive_pins by apply model_pins_distinct.
    set (m2 := m1 <| par ::= _ |>). assert (E : model m2 = model m) by (rewrite <- K2; unfold m2; now destruct m1).
    rewrite E. assert (E2 : model m1 = model m) by exact K2.
    destruct (find _ model_pins) as [[x pin]|]; split; rewrite <- ?K1, ?E2; unfold m2; destruct m1; reflexivity.
  - rewrite drive_pins by apply model_pins_distinct.
    destruct (find _ model_pins) as [[x pin]|]; split; destruct m; reflexivity.
Qed.
End Power.

(** The models [eeprom_model_valid] accepts on some board. *)
Definition valid_models : list Z := concat (map snd board_models).
(** T-Echo, Wireless Tracker v2 and T1: no [if] of [setTXPower] names them. *)
Definition undriven_models : list Z := [MODEL_16; MODEL_17; MODEL_D6; MODEL_D7; MODEL_DF; MODEL_E2].

Lemma undriven_exactly :
  forallb (fun x => Bool.eqb (existsb (fun p => x =? fst p) model_pins) (negb (existsb (Z.eqb x) undriven_models)))
    valid_models = true.
Proof. vm_compute. reflexivity. Qed.

(** The transmit power reaches the transceiver exactly for the models
    [setTXPower] names: on a running radio of any other valid model (T-Echo 0x16
    and 0x17, Wireless Tracker v2 0xD6 and 0xD7, T1 0xDF and 0xE2) the driver is
    never called, and the radio keeps the power its initialisation chose. *)
Theorem txpower_reaches_driver `{Board} {D} `{LoRaModem D} (m : modem D) :
  radio_online m = true -> In (model m) valid_models ->
  (In (model m) undriven_models -> drv (setTXPower m) = drv m) /\
  (~ In (model m) undriven_models ->
     exists pin, In (model m, pin) model_pins /\ drv (setTXPower m) = lora_setTxPower (modem_level m) pin (drv m)).
Proof.
  intros Hon Hv. destruct (setTXPower_spec m Hon) as [E _]. rewrite E.
  pose proof undriven_exactly as U. rewrite forallb_forall in U. specialize (U _ Hv).
  apply Bool.eqb_prop in U.
  assert (Hex : forall l, existsb (Z.eqb (model m)) l = true <-> In (model m) l).
  { intros l. rewrite existsb_exists. split; [intros (x & Hx & ->%Z.eqb_eq); exact Hx|].
    intros Hx. exists (model m). split; [exact Hx|apply Z.eqb_refl]. }
  destruct (find _ model_pins) as [[x pin]|] eqn:F.
  - apply find_some in F as [Hin Hx]. cbn in Hx. apply Z.eqb_eq in Hx. subst x. split.
    + intros Hu. apply Hex in Hu. rewrite Hu in U. cbn [negb] in U.
      assert (existsb (fun p => model m =? fst p) model_pins = true); [|congruence].
      apply existsb_exists. exists (model m, pin). split; [exact Hin|apply Z.eqb_refl].
    + intros _. now exists pin.
  - split; [reflexivity|]. intros Hu. exfalso. apply Hu, Hex.
    destruct (existsb (Z.eqb (model m)) undriven_models); [reflexivity|]. cbn [negb] in U.
    apply existsb_exists in U as (p & Hp & Hp'). apply (find_none _ _ F) in Hp. cbv beta in Hp. congruence.
Qed.

(** A running radio. *)
Definition online_modem {D} (txp mdl pa : Z) (gain : list Z) (d : D) : modem D :=
  mk_modem true false (mk_lora 8 5 txp 125000 868000000) 0x12 false 0 false mdl pa (negb (pa =? 0)) gain rates0 d [].

Lemma txpower_reaches_driver_witness :
  let B := rak4631 in let M := calls_modem in
  drv (setTXPower (online_modem 17 MODEL_16 0 [] ([] : list call))) = [].
Proof.
  intros B M.
  apply (proj1 (@txpower_reaches_driver rak4631 (list call) calls_modem (online_modem 17 MODEL_16 0 [] []) eq_refl
                  ltac:(vm_compute; tauto))).
  left. reflexivity.
Defined.

(** A board with a front-end amplifier. *)
(* @src Boards.h:1146-1178 BOARD_HELTEC32_V4 *)
Definition heltec32_v4 : Board := {|
  MCU_VARIANT := MCU_ESP32; BOARD_MODEL := BOARD_HELTEC32_V4; MODEM := SX1262;
  HAS_EEPROM := true; HAS_DISPLAY := true; HAS_BLUETOOTH := false; HAS_BLE := true;
  HAS_WIFI := true; HAS_ETHERNET := false; HAS_ESPNOW := false; HAS_BUZZER := false;
  HAS_VSENSE := false; HAS_NP := false; HAS_PMU := true; HAS_LORA_PA := true;
  HAS_PA := false; PA_MAX_OUTPUT := 28; BUILD_NUMBER := 0; EEPROM_SIZE := 1024 |}.

Definition known_gains (g : list Z) : Prop := g = PA_GC1109_VALUES \/ g = PA_KCT8103L_VALUES.
(** The least power the amplifier delivers. *)
Definition pa_floor (g : list Z) : Z := zget 0 g 0.

(** What the search gives on the two gain tables. *)
Definition pa_ok (g : list Z) (t : Z) : bool :=
  let o := pa_search g t 0 22 in
  if t <? pa_floor g then o =? t - pa_floor g
  else (0 <=? o) && (o <? PA_GAIN_POINTS) && (o + zget 0 g o =? t).

Lemma pa_search_ok g t : known_gains g -> 0 <= t <= 28 -> pa_ok g t = true.
Proof.
  intros Hg Ht.
  assert (A : forallb (fun t => pa_ok PA_GC1109_VALUES t && pa_ok PA_KCT8103L_VALUES t) (map Z.of_nat (seq 0 29)) = true)
    by (vm_compute; reflexivity).
  rewrite forallb_forall in A. specialize (A t). destruct (proj1 (andb_true_iff _ _) (A ltac:(
    apply in_map_iff; exists (Z.to_nat t); split; [lia|apply in_seq; lia]))).
  destruct Hg as [->| ->]; assumption.
Qed.

(** On a board with a characterised amplifier, a power between the
    amplifier's floor and 28 dBm is realised exactly: the transceiver is set to a
    level of the table whose level plus gain is the requested power, and the
    reported power is the requested one. *)
Theorem txpower_exact `{Board} {D} `{LoRaModem D} (m : modem D) :
  HAS_LORA_PA = true -> radio_online m = true -> pa_values_determined m = true -> known_gains (tx_gain m) ->
  pa_floor (tx_gain m) <= lora_txp (par m) <= 28 -> model m <> MODEL_FD ->
  0 <= modem_level m < PA_GAIN_POINTS /\
  modem_level m + zget 0 (tx_gain m) (modem_level m) = lora_txp (par m) /\
  lora_txp (par (setTXPower m)) = lora_txp (par m).
Proof.
  intros Hpa Hon Hd Hg Ht Hm. destruct (setTXPower_spec m Hon) as [_ E]. rewrite E, Hpa.
  assert (Hf0 : 0 <= pa_floor (tx_gain m)) by (destruct Hg as [->| ->]; discriminate).
  pose proof (pa_search_ok _ (lora_txp (par m)) Hg ltac:(lia)) as Hs. unfold pa_ok in Hs.
  rewrite (proj2 (Z.ltb_ge _ _)) in Hs by lia. rewrite !andb_true_iff, Z.leb_le, Z.ltb_lt, Z.eqb_eq in Hs.
  unfold modem_level, map_target_power_to_modem_output, pa_prepared. rewrite Hpa, Hd. cbn [negb andb fst].
  rewrite (proj2 (Z.eqb_neq _ _) Hm). cbn [andb]. change (Z.to_nat PA_GAIN_POINTS) with 22%nat.
  set (o := pa_search _ _ 0 22) in *. destruct Hs as [[Hs1 Hs2] Hs3]. split; [split; assumption|]. split; [exact Hs3|].
  unfold map_modem_output_to_target_power. rewrite Hpa, (proj2 (Z.ltb_ge o 0)), (proj2 (Z.leb_gt PA_GAIN_POINTS o)) by lia.
  exact Hs3.
Qed.

Lemma txpower_exact_witness :
  let B := heltec32_v4 in let M := calls_modem in
  lora_txp (par (setTXPower (online_modem 27 MODEL_C8 LORA_PA_GC1109 PA_GC1109_VALUES ([] : list call)))) = 27.
Proof.
  intros B M.
  apply (@txpower_exact heltec32_v4 (list call) calls_modem (online_modem 27 MODEL_C8 LORA_PA_GC1109 PA_GC1109_VALUES []));
    try reflexivity; [left; reflexivity|split; discriminate|discriminate].
Defined.

(** Below the amplifier's floor the power ratchets up: the first call drives
    the transceiver to the requested power but records the floor as the requested
    one, so the next call - when the radio is restarted - finds the floor and
    drives level 0, whose output is the floor. *)
Theorem txpower_ratchets `{Board} {D} `{LoRaModem D} (m : modem D) :
  HAS_LORA_PA = true -> radio_online m = true -> pa_values_determined m = true -> known_gains (tx_gain m) ->
  0 <= lora_txp (par m) < pa_floor (tx_gain m) -> model m <> MODEL_FD ->
  modem_level m + pa_floor (tx_gain m) = lora_txp (par m) /\
  lora_txp (par (setTXPower m)) = pa_floor (tx_gain m) /\
  (forall m' : modem D, tx_gain m' = tx_gain m -> pa_values_determined m' = true -> model m' = model m ->
     lora_txp (par m') = lora_txp (par (setTXPower m)) -> modem_level m' = 0).
Proof.
  intros Hpa Hon Hd Hg Ht Hm. destruct (setTXPower_spec m Hon) as [_ E].
  assert (Hf : pa_floor (tx_gain m) <= 28) by (destruct Hg as [->| ->]; discriminate).
  pose proof (pa_search_ok _ (lora_txp (par m)) Hg ltac:(lia)) as Hs. unfold pa_ok in Hs.
  rewrite (proj2 (Z.ltb_lt _ _)) in Hs by lia. apply Z.eqb_eq in Hs.
  assert (EF : lora_txp (par (setTXPower m)) = pa_floor (tx_gain m)).
  { rewrite E, Hpa. unfold map_target_power_to_modem_output, pa_prepared, map_modem_output_to_target_power.
    rewrite Hpa, Hd. cbn [negb andb fst]. change (Z.to_nat PA_GAIN_POINTS) with 22%nat. rewrite Hs.
    rewrite (proj2 (Z.ltb_lt _ _)) by lia. reflexivity. }
  split; [|split; [exact EF|]].
  - unfold modem_level, map_target_power_to_modem_output. rewrite Hpa, Hd. cbn [negb andb fst].
    rewrite (proj2 (Z.eqb_neq _ _) Hm). cbn [andb]. change (Z.to_nat PA_GAIN_POINTS) with 22%nat. rewrite Hs. lia.
  - intros m' Hg' Hd' Hm' Ht'. unfold modem_level, map_target_power_to_modem_output.
    rewrite Hpa, Hd', Hm', Ht', EF. cbn [negb andb fst]. rewrite Hg', (proj2 (Z.eqb_neq _ _) Hm). cbn [andb].
    destruct Hg as [->| ->]; reflexivity.
Qed.

Lemma txpower_ratchets_witness :
  let B := heltec32_v4 in let M := calls_modem in
  lora_txp (par (setTXPower (online_modem 5 MODEL_C8 LORA_PA_GC1109 PA_GC1109_VALUES ([] : list call)))) = 11.
Proof.
  intros B M.
  set (m := online_modem 5 MODEL_C8 LORA_PA_GC1109 PA_GC1109_VALUES ([] : list call)).
  assert (Hg : known_gains (tx_gain m)) by (left; reflexivity).
  assert (Ht : 0 <= lora_txp (par m) < pa_floor (tx_gain m)) by (split; [discriminate|reflexivity]).
  assert (Hm : model m <> MODEL_FD) by discriminate.
  exact (proj1 (proj2 (@txpower_ratchets heltec32_v4 (list call) calls_modem m eq_refl eq_refl eq_refl Hg Ht Hm))).
Defined.

(** ** Rates *)

(** Every bandwidth, spreading factor and coding rate of the SX126x and SX128x
    drivers. *)
Definition lora_bandwidths : list Z :=
  [7800; 10400; 15600; 20800; 31250; 41700; 62500; 125000; 250000; 500000; 203125; 406250; 812500; 1625000].
Definition lora_configs : list (Z * Z * Z) :=
  concat (map (fun bw => concat (map (fun sf => map (fun cr => (bw, sf, cr)) [5; 6; 7; 8])
    [5; 6; 7; 8; 9; 10; 11; 12])) lora_bandwidths).

(** The bounds on the derived values of one configuration. *)
Definition rates_ok '(bw, sf, cr) : bool :=
  let st := symbol_time_ms (symbol_rate bw sf) in
  let br := bitrate bw sf cr in
  let fast := LORA_FAST_THRESHOLD_BPS <? br in
  let s := slot_ms fast st in let n := preamble_symbols fast st in
  let exact := sf * 4 * bw / (cr * 2 ^ sf) in
  (exact - 1 <=? br) && (br <=? exact) && (0 <? br) &&
  ((s =? 6) && fast || (24 <=? s) && (s <=? 100)) &&
  (18 <=? n) && (n <=? 305) &&
  (n * 2 ^ sf * 1000 <=? bw * symbols_ms n st) && (bw * (symbols_ms n st - 2) <=? n * 2 ^ sf * 1000).

Lemma rates_all_ok : forallb rates_ok lora_configs = true.
Proof. vm_compute. reflexivity. Qed.

(** The configuration survives the computation. *)
Lemma updateBitrate_frame `{Board} {D} `{LoRaModem D} (m : modem D) :
  par (updateBitrate m) = par m /\ radio_online (updateBitrate m) = radio_online m /\
  lora_sw (updateBitrate m) = lora_sw m /\ model (updateBitrate m) = model m.
Proof.
  unfold updateBitrate, setPreamble, report_phy, emit.
  destruct m as [on lk p sw im il pr md pa pd tg r d o]; destruct on; repeat split.
Qed.

(** C39. The derived rates are sound for each of the 448 configurations the
    drivers support, in the floating-point arithmetic of the source: the bit rate
    is the exact one rounded down or one less; the contention slot is between 24
    and 100 ms, or 6 ms on a link above 30 kbit/s; the preamble has at least 18
    and at most 305 symbols and its recorded duration is the exact one rounded up
    to the next millisecond or two; the inter-frame space is two slots; and the
    "limit" and "guard" classes exclude each other. *)
(* @prop bounds W=rates_sound_witness D=updateBitrate,bitrate,slot_ms,preamble_symbols,symbol_rate *)
Theorem rates_sound `{Board} {D} `{LoRaModem D} (m : modem D) :
  radio_online m = true -> In (lora_bw (par m), lora_sf (par m), lora_cr (par m)) lora_configs ->
  let r := rt (updateBitrate m) in
  let exact := lora_sf (par m) * 4 * lora_bw (par m) / (lora_cr (par m) * 2 ^ lora_sf (par m)) in
  exact - 1 <= lora_bitrate r <= exact /\ 0 < lora_bitrate r /\
  (csma_slot_ms r = 6 /\ 30000 < lora_bitrate r \/ 24 <= csma_slot_ms r <= 100) /\
  difs_ms r = 2 * csma_slot_ms r /\ 18 <= lora_preamble_symbols r <= 305 /\
  lora_preamble_symbols r * 2 ^ lora_sf (par m) * 1000 <= lora_bw (par m) * lora_preamble_time_ms r /\
  lora_bw (par m) * (lora_preamble_time_ms r - 2) <= lora_preamble_symbols r * 2 ^ lora_sf (par m) * 1000 /\
  lora_limit_rate r && lora_guard_rate r = false.
Proof.
  intros Hon Hc. pose proof rates_all_ok as A. rewrite forallb_forall in A. apply A in Hc. clear A.
  unfold updateBitrate, setPreamble, report_phy, emit.
  destruct m as [on lk [sf cr txp bw fq] sw im il pr md pa pd tg r d o]. cbn [radio_online] in Hon. subst on.
  unfold rates_ok in Hc. cbn [par lora_bw lora_sf lora_cr] in *.
  rewrite !andb_true_iff, orb_true_iff, !andb_true_iff, !Z.leb_le, !Z.ltb_lt, Z.eqb_eq in Hc.
  cbn -[bitrate slot_ms preamble_symbols symbol_time_ms symbol_rate us_per_byte symbols_ms
        LORA_FAST_THRESHOLD_BPS LORA_LIMIT_THRESHOLD_BPS LORA_GUARD_THRESHOLD_BPS Z.mul Z.sub Z.add Z.pow Z.div Z.ltb].
  destruct Hc as [[[[[[[H1 H2] H3] H4] H5] H6] H7] H8].
  repeat split; try assumption.
  destruct (LORA_LIMIT_THRESHOLD_BPS <? _); reflexivity.
Qed.

Lemma rates_sound_witness :
  let B := rak4631 in let M := calls_modem in
  difs_ms (rt (updateBitrate (online_modem 17 MODEL_11 0 [] ([] : list call))))
  = 2 * csma_slot_ms (rt (updateBitrate (online_modem 17 MODEL_11 0 [] ([] : list call)))).
Proof.
  intros B M.
  assert (Hin : In (125000, 8, 5) lora_configs) by (vm_compute; tauto).
  exact (proj1 (proj2 (proj2 (proj2 (@rates_sound rak4631 (list call) calls_modem (online_modem 17 MODEL_11 0 [] [])
          eq_refl Hin))))).
Defined.

(** The PHY report is one update late: the report [updateBitrate] sends
    carries the new symbol rate, slot and preamble length, but the preamble
    duration of the previous configuration, which is replaced only after the
    report is out - a single parameter change at run time is reported with a wrong
    preamble time. *)
Theorem phy_report_lags `{Board} {D} `{LoRaModem D} (m : modem D) :
  radio_online m = true ->
  let m' := setSpreadingFactor m in let r := rt m' in
  out m' = out m ++ kiss_indicate_phy_stats (lora_symbol_time_ms r) (lora_symbol_rate r) (lora_preamble_symbols r)
                      (lora_preamble_time_ms (rt m)) (csma_slot_ms r) (difs_ms r) /\
  lora_preamble_time_ms r = symbols_ms (lora_preamble_symbols r) (lora_symbol_time_ms r).
Proof.
  intros Hon. destruct m as [on lk [sf cr txp bw fq] sw im il pr md pa pd tg r d o].
  cbn [radio_online] in Hon. subst on. split; reflexivity.
Qed.

Lemma phy_report_lags_witness :
  let B := rak4631 in let M := calls_modem in
  let m := online_modem 17 MODEL_11 0 [] ([] : list call) in
  lora_preamble_time_ms (rt m) = 0 /\ lora_preamble_time_ms (rt (setSpreadingFactor m)) = 37.
Proof.
  intros B M m. split; [reflexivity|].
  etransitivity; [exact (proj2 (@phy_report_lags rak4631 (list call) calls_modem m eq_refl))|].
  vm_compute. reflexivity.
Defined.

(** ** Starting the radio *)

Section Online.
  Context `{Board} {D : Type} `{LoRaModem D}.
  Implicit Types (m : modem D).

Lemma online_drv f m : radio_online (m <| drv ::= f |>) = radio_online m.
Proof. now destruct m. Qed.
Lemma online_par f m : radio_online (m <| par ::= f |>) = radio_online m.
Proof. now destruct m. Qed.
Lemma online_updateBitrate m : radio_online (updateBitrate m) = radio_online m.
Proof. apply updateBitrate_frame. Qed.
Lemma online_setTXPower m : radio_online (setTXPower m) = radio_online m.
Proof.
  unfold setTXPower, map_target_power_to_modem_output.
  case_eq (radio_online m); intros E; [|exact E]. rewrite <- E. destruct HAS_LORA_PA.
  - rewrite drive_pins by apply model_pins_distinct.
    destruct (find _ _) as [[x pin]|]; rewrite ?online_drv, online_par;
      (destruct (negb _); [apply determine_keeps|reflexivity]).
  - rewrite drive_pins by apply model_pins_distinct.
    destruct (find _ _) as [[x pin]|]; rewrite ?online_drv; reflexivity.
Qed.
Lemma online_setBandwidth m : radio_online (setBandwidth m) = radio_online m.
Proof.
  unfold setBandwidth, getBandwidth. case_eq (radio_online m); intros E; [|exact E].
  rewrite online_updateBitrate, online_drv, E, online_par, online_drv. exact E.
Qed.
Lemma online_setSpreadingFactor m : radio_online (setSpreadingFactor m) = radio_online m.
Proof. unfold setSpreadingFactor. rewrite online_updateBitrate. case_eq (radio_online m); intros E; [rewrite online_drv|]; exact E. Qed.
Lemma online_setCodingRate m : radio_online (setCodingRate m) = radio_online m.
Proof. unfold setCodingRate. rewrite online_updateBitrate. case_eq (radio_online m); intros E; [rewrite online_drv|]; exact E. Qed.
Lemma online_setSyncWord m : radio_online (setSyncWord m) = radio_online m.
Proof. unfold setSyncWord. case_eq (radio_online m); intros E; [rewrite online_drv|]; exact E. Qed.
Lemma online_getFrequency m : radio_online (getFrequency m) = radio_online m.
Proof. unfold getFrequency. case_eq (radio_online m); intros E; [rewrite online_par|]; exact E. Qed.
Lemma online_emit bs m : radio_online (emit bs m) = radio_online m.
Proof. now destruct m. Qed.
End Online.

Lemma startRadio_cases `{Board} {D} `{LoRaModem D} (console hw : bool) (m : modem D) :
  radio_online m = false ->
  let p := par m in let m' := snd (startRadio console hw m) in
  let configured := lora_freq p <> 0 /\ lora_bw p <> 0 /\ lora_txp p <> 0xFF /\ lora_sf p <> 0 in
  (radio_online m' = true -> hw = true /\ console = false /\ configured) /\
  (console = false -> ~ (hw = true /\ configured) ->
     drv m' = drv m /\ out m' = out m ++ kiss_indicate_radiostate false) /\
  (console = false -> hw = true -> configured ->
     if fst (lora_begin (lora_freq p) (drv m)) then radio_online m' = true /\ fst (startRadio console hw m) = true
     else radio_online m' = false /\ out m' = out m ++ kiss_indicate_error ERROR_INITRADIO).
Proof.
  intros Hoff. cbv zeta.
  set (cf := negb (lora_freq (par m) =? 0) && negb (lora_bw (par m) =? 0) && negb (lora_txp (par m) =? 0xFF) &&
             negb (lora_sf (par m) =? 0)).
  assert (Hcf : cf = true <-> lora_freq (par m) <> 0 /\ lora_bw (par m) <> 0 /\ lora_txp (par m) <> 0xFF /\ lora_sf (par m) <> 0).
  { unfold cf. rewrite !andb_true_iff, !negb_true_iff, !Z.eqb_neq. tauto. }
  rewrite <- Hcf. clear Hcf.
  unfold startRadio, update_radio_lock. fold cf. clearbody cf.
  set (m0 := m <| radio_locked := negb cf |>).
  assert (K : radio_online m0 = false /\ radio_locked m0 = negb cf /\ drv m0 = drv m /\ par m0 = par m /\ out m0 = out m)
    by (unfold m0; destruct m; repeat split; assumption).
  destruct K as (-> & -> & Kd & Kp & Ko). cbn [negb].
  destruct console; cbn [andb]; [split; [|split]; intros; cbn [snd] in *; try congruence;
    exfalso; unfold m0 in *; destruct m; cbn in *; congruence|].
  rewrite negb_involutive.
  destruct (cf && hw) eqn:Eb; cbn [snd fst].
  - apply andb_true_iff in Eb as [-> ->]. rewrite Kp, Kd.
    destruct (lora_begin _ _) as [[] d]; cbn [negb fst snd].
    + rewrite online_emit. unfold lora_receive_mode. rewrite !online_drv, online_getFrequency, online_setSyncWord,
        online_setCodingRate, online_setSpreadingFactor, online_setBandwidth, online_setTXPower.
      cbn [radio_online]. repeat split; intros; tauto.
    + rewrite online_emit. clear Kd Kp Ko. unfold m0. clear m0. destruct m; cbn in *. subst.
      split; [congruence|]. split; [tauto|]. intros. split; reflexivity.
  - split; [|split].
    + unfold m0. destruct m; discriminate.
    + intros _ _. unfold m0. destruct m; split; reflexivity.
    + intros _ -> ->. discriminate.
Qed.

(** The calls [startRadio] makes to the driver it has begun, in order. *)
Section StartCalls.
  Context `{Board} {D : Type} `{LoRaModem D}.
  Implicit Types (m : modem D).

Definition settings_of m := (lora_sf (par m), lora_cr (par m), lora_sw m, implicit m, implicit_l m, radio_online m).

Lemma updateBitrate_drv m : radio_online m = true -> exists n, drv (updateBitrate m) = lora_setPreambleLength n (drv m).
Proof.
  unfold updateBitrate, setPreamble, report_phy, emit.
  destruct m as [on lk p sw im il pr md pa pd tg r d o]; cbn. intros ->. eexists. reflexivity.
Qed.
Lemma updateBitrate_settings m : settings_of (updateBitrate m) = settings_of m.
Proof.
  unfold updateBitrate, setPreamble, report_phy, emit.
  destruct m as [on lk p sw im il pr md pa pd tg r d o]; destruct on; reflexivity.
Qed.
Lemma drv_settings f m : settings_of (m <| drv ::= f |>) = settings_of m.
Proof. now destruct m. Qed.
Lemma drv_of_drv f m : drv (m <| drv ::= f |>) = f (drv m).
Proof. now destruct m. Qed.
Lemma par_of_drv f m : par (m <| drv ::= f |>) = par m.
Proof. now destruct m. Qed.

Lemma setTXPower_calls m : radio_online m = true ->
  (lora_bw (par (setTXPower m)), settings_of (setTXPower m)) = (lora_bw (par m), settings_of m) /\
  (drv (setTXPower m) = drv m \/ exists level pin, drv (setTXPower m) = lora_setTxPower level pin (drv m)).
Proof.
  intros Hon. split.
  - unfold setTXPower, map_target_power_to_modem_output. rewrite Hon.
    assert (K : (lora_bw (par (if negb (pa_values_determined m) then determine_pa_values m else m)),
                 settings_of (if negb (pa_values_determined m) then determine_pa_values m else m)) = (lora_bw (par m), settings_of m)).
    { destruct (negb _); [|reflexivity]. unfold determine_pa_values.
      repeat match goal with |- context [if ?b then _ else _] => destruct b end; destruct m; reflexivity. }
    destruct HAS_LORA_PA.
    + rewrite drive_pins by apply model_pins_distinct. rewrite <- K. clear K.
      set (m1 := if negb (pa_values_determined m) then determine_pa_values m else m). clearbody m1.
      destruct (find _ _) as [[x pin]|]; destruct m1; reflexivity.
    + rewrite drive_pins by apply model_pins_distinct. destruct (find _ _) as [[x pin]|]; destruct m; reflexivity.
  - destruct (setTXPower_spec m Hon) as [E _]. rewrite E. destruct (find _ _) as [[x pin]|]; eauto.
Qed.

(** A setter followed by [updateBitrate]. *)
Lemma set_and_update f m : radio_online m = true ->
  settings_of (updateBitrate (m <| drv ::= f |>)) = settings_of m /\
  exists n, drv (updateBitrate (m <| drv ::= f |>)) = lora_setPreambleLength n (f (drv m)).
Proof.
  intros Hon. rewrite updateBitrate_settings, drv_settings. split; [reflexivity|].
  destruct (updateBitrate_drv (m <| drv ::= f |>)) as [n E]; [now destruct m|]. exists n. now rewrite E, drv_of_drv.
Qed.

Lemma settings_eq m m' : settings_of m' = settings_of m ->
  lora_sf (par m') = lora_sf (par m) /\ lora_cr (par m') = lora_cr (par m) /\ lora_sw m' = lora_sw m /\
  radio_online m' = radio_online m.
Proof. unfold settings_of. intros [= K1 K2 K3 _ _ K4]. auto. Qed.

Lemma setBandwidth_calls m : radio_online m = true ->
  settings_of (setBandwidth m) = settings_of m /\
  exists n, drv (setBandwidth m) = lora_setPreambleLength n (lora_setSignalBandwidth (lora_bw (par m)) (drv m)).
Proof.
  intros Hon. unfold setBandwidth, getBandwidth. rewrite Hon, online_drv, Hon, updateBitrate_settings.
  split; [destruct m; reflexivity|]. set (m1 := m <| drv ::= _ |>).
  assert (E1 : radio_online m1 = true /\ drv m1 = lora_setSignalBandwidth (lora_bw (par m)) (drv m)) by now destruct m.
  clearbody m1. destruct E1 as [Ho <-]. destruct (updateBitrate_drv (m1 <| par ::= fun p => p <| lora_bw := u32 (lora_getSignalBandwidth (drv m1)) |> |>)) as [n E];
    [now destruct m1|]. exists n. rewrite E. now destruct m1.
Qed.
Lemma setSpreadingFactor_calls m : radio_online m = true ->
  settings_of (setSpreadingFactor m) = settings_of m /\
  exists n, drv (setSpreadingFactor m) = lora_setPreambleLength n (lora_setSpreadingFactor (lora_sf (par m)) (drv m)).
Proof. intros Hon. unfold setSpreadingFactor. rewrite Hon. now apply set_and_update. Qed.
Lemma setCodingRate_calls m : radio_online m = true ->
  settings_of (setCodingRate m) = settings_of m /\
  exists n, drv (setCodingRate m) = lora_setPreambleLength n (lora_setCodingRate4 (lora_cr (par m)) (drv m)).
Proof. intros Hon. unfold setCodingRate. rewrite Hon. now apply set_and_update. Qed.

(** What the driver has been through when the radio comes up: [power] is the power
    setting, if the model has one, and [n1], [n2], [n3] the preambles. *)
Definition start_calls m (d d' : D) : Prop :=
  exists power n1 n2 n3 size, (power = (fun d => d) \/ exists level pin, power = lora_setTxPower level pin) /\
    d' = lora_receive size (lora_enableCrc (lora_setSyncWord (lora_sw m)
           (lora_setPreambleLength n3 (lora_setCodingRate4 (lora_cr (par m))
             (lora_setPreambleLength n2 (lora_setSpreadingFactor (lora_sf (par m))
               (lora_setPreambleLength n1 (lora_setSignalBandwidth (lora_bw (par m)) (power d))))))))).

Lemma started_calls m d : radio_online m = true -> drv m = d ->
  let m' := setSyncWord (setCodingRate (setSpreadingFactor (setBandwidth (setTXPower m)))) in
  start_calls m d (drv (lora_receive_mode ((getFrequency m') <| drv ::= lora_enableCrc |>))).
Proof.
  intros So <-. cbn zeta.
  destruct (setTXPower_calls m So) as [E1 P1]. set (m1 := setTXPower m) in *. clearbody m1. apply pair_equal_spec in E1 as [Eb Es].
  destruct (settings_eq _ _ Es) as (F1 & F2 & F3 & F4). rewrite So in F4.
  destruct (setBandwidth_calls m1 F4) as [E2 [n1 P2]]. set (m2 := setBandwidth m1) in *. clearbody m2.
  destruct (settings_eq _ _ E2) as (G1 & G2 & G3 & G4). rewrite F4 in G4.
  destruct (setSpreadingFactor_calls m2 G4) as [E3 [n2 P3]]. set (m3 := setSpreadingFactor m2) in *. clearbody m3.
  destruct (settings_eq _ _ E3) as (H1' & H2 & H3 & H4). rewrite G4 in H4.
  destruct (setCodingRate_calls m3 H4) as [E4 [n3 P4]]. set (m4 := setCodingRate m3) in *. clearbody m4.
  destruct (settings_eq _ _ E4) as (_ & _ & I3 & I4). rewrite H4 in I4.
  unfold setSyncWord. rewrite I4. unfold getFrequency. rewrite online_drv, I4.
  unfold start_calls, lora_receive_mode. rewrite !drv_of_drv.
  assert (K : forall m f (q : lora -> lora), drv (m <| drv ::= f |> <| par ::= q |>) = f (drv m)) by (intros []; reflexivity).
  rewrite K, P4, P3, P2, I3, H3, G3, F3, H2, G2, F2, G1, F1, Eb.
  destruct P1 as [->|(level & pin & ->)].
  - exists (fun d => d), n1, n2, n3. eexists. split; [now left|reflexivity].
  - exists (lora_setTxPower level pin), n1, n2, n3. eexists. split; [right; eauto|reflexivity].
Qed.

Lemma startRadio_drives (m : modem D) :
  radio_online m = false -> radio_online (snd (startRadio false true m)) = true ->
  let m' := snd (startRadio false true m) in
  exists d, lora_begin (lora_freq (par m)) (drv m) = (true, d) /\ start_calls m d (drv m').
Proof.
  intros Hoff. cbn zeta. unfold startRadio. set (m0 := update_radio_lock m).
  assert (K : drv m0 = drv m /\ par m0 = par m /\ lora_sw m0 = lora_sw m /\ radio_online m0 = false)
    by (unfold m0, update_radio_lock; now destruct m).
  clearbody m0. destruct K as (Kd & Kp & Ks & Ko). rewrite Ko, Kd, Kp. cbn [negb andb].
  destruct (radio_locked m0); cbn [negb andb snd]; [rewrite online_emit; destruct m0; discriminate|].
  destruct (lora_begin _ _) as [[] d]; cbn [negb fst snd];
    [|rewrite online_emit; destruct m0; cbn in *; congruence].
  intros _. exists d. split; [reflexivity|].
  set (m1 := (m0 <| drv := d |>) <| radio_online := true |>).
  assert (S1 : par m1 = par m /\ drv m1 = d /\ radio_online m1 = true /\ lora_sw m1 = lora_sw m)
    by (unfold m1; destruct m0; cbn in *; auto).
  clearbody m1. destruct S1 as (Sp & Sd & So & Ss).
  pose proof (started_calls m1 d So Sd) as S. cbn zeta in S. unfold start_calls in *. rewrite Ss, Sp in S.
  revert S. set (x := lora_receive_mode _). clearbody x. intros S.
  replace (drv (emit _ x)) with (drv x) by now destruct x. exact S.
Qed.
End StartCalls.

(** The radio never starts unconfigured: if [startRadio] turns the radio on,
    the hardware was ready, no console was active, and frequency, bandwidth,
    transmit power and spreading factor had all been set; if it refuses because
    something is missing the transceiver is not touched and the host is told that
    the radio is off; if the transceiver does not start the host gets the
    initialisation error and the radio stays off. *)
Theorem radio_starts_configured `{Board} {D} `{LoRaModem D} (console hw : bool) (m : modem D) :
  radio_online m = false ->
  let p := par m in let m' := snd (startRadio console hw m) in
  let configured := lora_freq p <> 0 /\ lora_bw p <> 0 /\ lora_txp p <> 0xFF /\ lora_sf p <> 0 in
  (radio_online m' = true -> hw = true /\ console = false /\ configured) /\
  (console = false -> ~ (hw = true /\ configured) ->
     drv m' = drv m /\ out m' = out m ++ kiss_indicate_radiostate false) /\
  (console = false -> hw = true -> configured ->
     if fst (lora_begin (lora_freq p) (drv m)) then radio_online m' = true /\ fst (startRadio console hw m) = true
     else radio_online m' = false /\ out m' = out m ++ kiss_indicate_error ERROR_INITRADIO).
Proof. exact (startRadio_cases console hw m). Qed.

Lemma radio_starts_configured_witness :
  let B := rak4631 in let M := calls_modem in
  let m := stopRadio (online_modem 17 MODEL_11 0 [] ([] : list call)) in
  radio_online (snd (startRadio false true m)) = true.
Proof.
  intros B M m.
  pose proof (proj2 (proj2 (@radio_starts_configured rak4631 (list call) calls_modem false true m eq_refl))) as P.
  apply (P eq_refl eq_refl). repeat split; discriminate.
Defined.
