(* ===== verification/Calendar.v ===== *)
(** * Calendar and clocks (RTC.h, GNSS.h, Messenger.h, Utilities.h)

    The conversion between day numbers and civil dates (written out three times in
    the source, with the same text), the DS3231 driver that stores a time as seven
    BCD registers, the GNSS-seeded free-running clock, and the layer that chooses
    between them.  The registers of the chip and the bus are the environment: a
    chip is its seven registers, and a bus transaction succeeds or fails. *)
From stdpp Require Import gmap.
From S2P Require Import Prelude Boards Framing Rom Float Kiss Eeprom.

(** ** Days and civil dates *)

(** [y], [z] and [era] are [int32_t] (division truncates), the others [uint32_t].  The
    signed sums are left unwrapped: every caller passes a day or a year of a 32-bit
    epoch (at most day 49710), where none of them overflows. *)
(* @src RTC.h:41-48 rtc_days_from_civil *)
Definition rtc_days_from_civil (y m d : Z) : Z :=
  let y := y - Z.b2z (m <=? 2) in
  let era := Z.quot (if 0 <=? y then y else y - 399) 400 in
  let yoe := u32 (y - era * 400) in
  let doy := u32 (u32 (153 * u32 (m + (if 2 <? m then -3 else 9)) + 2) / 5 + d - 1) in
  let doe := u32 (yoe * 365 + yoe / 4 - yoe / 100 + doy) in
  era * 146097 + doe - 719468.

(** The part of [rtc_civil_from_days] that works on the day of the era: year of
    the era, month, day. *)
(* @src RTC.h:53-59 rtc_civil_from_days *)
Definition civil_of_doe (doe : Z) : Z * Z * Z :=
  let yoe := u32 (doe - doe / 1460 + doe / 36524 - doe / 146096) / 365 in
  let doy := u32 (doe - (365 * yoe + yoe / 4 - yoe / 100)) in
  let mp := u32 (5 * doy + 2) / 153 in
  let d := u32 (doy - u32 (153 * mp + 2) / 5 + 1) in
  let m := u32 (mp + (if mp <? 10 then 3 else -9)) in
  (yoe, m, d).

(* @src RTC.h:50-61 rtc_civil_from_days *)
Definition rtc_civil_from_days (z : Z) : Z * Z * Z :=
  let z := z + 719468 in
  let era := Z.quot (if 0 <=? z then z else z - 146096) 146097 in
  let doe := u32 (z - era * 146097) in
  let '(yoe, m, d) := civil_of_doe doe in
  (yoe + era * 400 + Z.b2z (m <=? 2), m, d).

(** The copies in GNSS.h and Messenger.h have the same text. *)
(* @src GNSS.h:122-129 gnss_days_from_civil *)
Definition gnss_days_from_civil : Z -> Z -> Z -> Z := rtc_days_from_civil.
(* @src GNSS.h:131-142 gnss_civil_from_days *)
Definition gnss_civil_from_days : Z -> Z * Z * Z := rtc_civil_from_days.
(* @src Messenger.h:451-462 msngr_civil_from_days *)
Definition msngr_civil_from_days : Z -> Z * Z * Z := rtc_civil_from_days.

(** ** The DS3231 *)

(* @src RTC.h:34-34 rtc_bcd2bin *)
Definition rtc_bcd2bin (val : Z) : Z := u8 (val - 6 * Z.shiftr val 4).
(* @src RTC.h:35-35 rtc_bin2bcd *)
Definition rtc_bin2bcd (val : Z) : Z := u8 (val + 6 * (val / 10)).

(** The chip: [rtc_present] is the variable of the source; [rtc_ack] and [rtc_all]
    say whether the bus acknowledges and delivers the seven bytes asked for. *)
Record rtc := mk_rtc { rtc_present : bool; rtc_ack : bool; rtc_all : bool; rtc_regs : list Z }.

(* @src RTC.h:71-78 rtc_init *)
Definition rtc_init (c : rtc) : rtc := c <| rtc_present := rtc_ack c |>.

(* @src RTC.h:81-115 rtc_get_unixtime *)
Definition rtc_get_unixtime (c : rtc) : Z :=
  if negb (rtc_present c) then 0 else if negb (rtc_ack c) then 0 else if negb (rtc_all c) then 0 else
  let r i := zget 0 (rtc_regs c) i in
  let seconds := rtc_bcd2bin (Z.land (r 0) 0x7F) in
  let minutes := rtc_bcd2bin (Z.land (r 1) 0x7F) in
  let hours :=
    if negb (Z.land (r 2) 0x40 =? 0) then
      let h := rtc_bcd2bin (Z.land (r 2) 0x1F) mod 12 in
      if negb (Z.land (r 2) 0x20 =? 0) then u8 (h + 12) else h
    else rtc_bcd2bin (Z.land (r 2) 0x3F) in
  let date := rtc_bcd2bin (Z.land (r 4) 0x3F) in
  let month := rtc_bcd2bin (Z.land (r 5) 0x1F) in
  let year := 2000 + rtc_bcd2bin (r 6) + (if negb (Z.land (r 5) 0x80 =? 0) then 100 else 0) in
  let days := rtc_days_from_civil year month date in
  u32 (u32 days * 86400 + hours * 3600 + minutes * 60 + seconds).

(* @src RTC.h:122-131 rtc_time_valid *)
Definition rtc_time_valid (c : rtc) : bool :=
  if negb (rtc_present c) then false
  else let '(y, _, _) := rtc_civil_from_days (i32 (rtc_get_unixtime c / 86400)) in negb (y =? 2000).

(* @src RTC.h:140-172 rtc_set_unixtime *)
Definition rtc_set_unixtime (epoch : Z) (c : rtc) : bool * rtc :=
  if negb (rtc_present c) then (false, c) else
  let days := epoch / 86400 in
  let rem := epoch mod 86400 in
  let hours := u8 (rem / 3600) in
  let rem := rem mod 3600 in
  let minutes := u8 (rem / 60) in
  let seconds := u8 (rem mod 60) in
  let '(year, month, date) := rtc_civil_from_days days in
  let yy := year - 2000 in
  let century := if 100 <=? yy then 0x80 else 0 in
  let yy := if 100 <=? yy then yy - 100 else yy in
  let dow := u8 (u8 ((Z.rem days 7 + 7 + 3) mod 7) + 1) in
  if rtc_ack c then
    (true, c <| rtc_regs := [rtc_bin2bcd seconds; rtc_bin2bcd minutes; rtc_bin2bcd hours; dow;
                             rtc_bin2bcd (u8 date); Z.lor (rtc_bin2bcd (u8 month)) century;
                             rtc_bin2bcd (u8 yy)] |>)
  else (false, c).

(** ** Synchronisation *)

(* @src RTC.h:192-196 NTP_SYNC_OK *)
Definition NTP_SYNC_OK : Z := 0.
Definition NTP_SYNC_ERR_NO_RTC : Z := 1.
Definition NTP_SYNC_ERR_NO_NET : Z := 2.
Definition NTP_SYNC_ERR_TIMEOUT : Z := 3.
Definition NTP_SYNC_ERR_RTC_WRITE : Z := 4.

(** [net_up]: WiFi or Ethernet connected; [sntp]: the time the core's SNTP client
    delivered within the timeout, if any. *)
(* @src RTC.h:209-246 rtc_sync_ntp *)
Definition rtc_sync_ntp (net_up : bool) (sntp : option Z) (c : rtc) : Z * rtc :=
  if negb (rtc_present c) then (NTP_SYNC_ERR_NO_RTC, c)
  else if negb net_up then (NTP_SYNC_ERR_NO_NET, c)
  else match sntp with
       | None => (NTP_SYNC_ERR_TIMEOUT, c)
       | Some now => let '(ok, c) := rtc_set_unixtime (u32 now) c in
                     if negb ok then (NTP_SYNC_ERR_RTC_WRITE, c) else (NTP_SYNC_OK, c)
       end.

(* @src RTC.h:256-260 GPS_SYNC_OK *)
Definition GPS_SYNC_OK : Z := 0.
Definition GPS_SYNC_ERR_NO_RTC : Z := 1.
Definition GPS_SYNC_ERR_DISABLED : Z := 2.
Definition GPS_SYNC_ERR_NO_FIX : Z := 3.
Definition GPS_SYNC_ERR_RTC_WRITE : Z := 4.

(** What the NMEA parser has latched; [day] 0 is its "no date" value. *)
Record nmea := mk_nmea {
  fx_date_valid : bool; fx_time_valid : bool;
  fx_year : Z; fx_month : Z; fx_day : Z; fx_hour : Z; fx_minute : Z; fx_second : Z
}.
(* @src GNSS.h:112-112 gnss_date_valid *)
Definition gnss_date_valid (f : nmea) : bool := fx_date_valid f && negb (fx_day f =? 0).

Definition fix_epoch (f : nmea) : Z :=
  u32 (u32 (rtc_days_from_civil (fx_year f) (fx_month f) (fx_day f)) * 86400 +
       fx_hour f * 3600 + fx_minute f * 60 + fx_second f).

(* @src RTC.h:274-290 rtc_sync_gps *)
Definition rtc_sync_gps (gnss_enabled : bool) (f : nmea) (c : rtc) : Z * rtc :=
  if negb (rtc_present c) then (GPS_SYNC_ERR_NO_RTC, c)
  else if negb gnss_enabled then (GPS_SYNC_ERR_DISABLED, c)
  else if negb (gnss_date_valid f) || negb (fx_time_valid f) then (GPS_SYNC_ERR_NO_FIX, c)
  else let '(ok, c) := rtc_set_unixtime (fix_epoch f) c in
       if negb ok then (GPS_SYNC_ERR_RTC_WRITE, c) else (GPS_SYNC_OK, c).

(** ** The GNSS-seeded clock *)

(** [millis] is the 32-bit millisecond counter. *)
(* @src GNSS.h:152-154 gnss_system_time_synced *)
Record gnss_clock := mk_gnss_clock { gc_synced : bool; gc_epoch : Z; gc_millis : Z }.

(* @src GNSS.h:161-170 gnss_sync_system_time *)
Definition gnss_sync_system_time (millis : Z) (f : nmea) (g : gnss_clock) : gnss_clock :=
  if gc_synced g then g
  else if negb (gnss_date_valid f) || negb (fx_time_valid f) then g
  else mk_gnss_clock true (fix_epoch f) millis.

(* @src GNSS.h:174-177 gnss_system_time_now *)
Definition gnss_system_time_now (millis : Z) (g : gnss_clock) : Z :=
  if negb (gc_synced g) then 0 else u32 (gc_epoch g + u32 (millis - gc_millis g) / 1000).

(** ** The system time *)

(** [has_rtc], [has_gps]: the board's [HAS_RTC] and [HAS_GPS]. *)
(* @src Utilities.h:446-454 system_time_valid *)
Definition system_time_valid (has_rtc has_gps : bool) (c : rtc) (g : gnss_clock) : bool :=
  if has_rtc && rtc_time_valid c then true else if has_gps && gc_synced g then true else false.
(* @src Utilities.h:457-465 system_time_utc *)
Definition system_time_utc (has_rtc has_gps : bool) (millis : Z) (c : rtc) (g : gnss_clock) : Z :=
  if has_rtc && rtc_time_valid c then rtc_get_unixtime c
  else if has_gps && gc_synced g then gnss_system_time_now millis g else 0.

(* @src Utilities.h:485-487 TZ_OFFSET_QH_MIN *)
Definition TZ_OFFSET_QH_MIN : Z := -48.
Definition TZ_OFFSET_QH_MAX : Z := 56.
Definition TZ_OFFSET_RAW_ZERO : Z := 64.

Section Tz.
  Context `{Board} {E : Type} `{Eeprom E}.
(* @src Utilities.h:489-498 get_tz_offset_qh *)
Definition get_tz_offset_qh (e : E) : Z :=
  let qh := ee_read (eeprom_addr ADDR_CONF_TZ) e - TZ_OFFSET_RAW_ZERO in
  if (qh <? TZ_OFFSET_QH_MIN) || (TZ_OFFSET_QH_MAX <? qh) then 0 else qh.
(* @src Utilities.h:505-507 apply_tz_offset *)
Definition apply_tz_offset (utc_epoch : Z) (e : E) : Z := u32 (utc_epoch + get_tz_offset_qh e * 900).
(* @src Utilities.h:512-514 tz_conf_save *)
Definition tz_conf_save (val : Z) (c : conf E) : conf E := upd (eeprom_addr ADDR_CONF_TZ) val c.
End Tz.

(** ** The Gregorian calendar *)

Definition leap (y : Z) : bool := (y mod 4 =? 0) && (negb (y mod 100 =? 0) || (y mod 400 =? 0)).
Definition month_len (y m : Z) : Z :=
  if m =? 2 then if leap y then 29 else 28
  else if (m =? 4) || (m =? 6) || (m =? 9) || (m =? 11) then 30 else 31.
Definition date_ok '(y, m, d) : bool := (1 <=? m) && (m <=? 12) && (1 <=? d) && (d <=? month_len y m).
Definition next_day '(y, m, d) : Z * Z * Z :=
  if d <? month_len y m then (y, m, d + 1) else if m <? 12 then (y, m + 1, 1) else (y + 1, 1, 1).

(** ** The day of the era *)

(** March-based years of a 400-year era: year [y] starts at day [start y] and its
    leap day, if any, is its last. *)
Definition start (y : Z) : Z := 365 * y + y / 4 - y / 100.
Definition year_len (y : Z) : Z := if leap (y + 1) then 366 else 365.
Definition month_day (doy : Z) : Z * Z :=
  let mp := u32 (5 * doy + 2) / 153 in
  (u32 (mp + (if mp <? 10 then 3 else -9)), u32 (doy - u32 (153 * mp + 2) / 5 + 1)).
Definition year_num (doe : Z) : Z := doe - doe / 1460 + doe / 36524 - doe / 146096.

Lemma start_succ y : start (y + 1) + (if y =? 399 then 1 else 0) = start y + year_len y \/ y < 0 \/ 400 <= y.
Proof.
  destruct (Z_lt_le_dec y 0); [lia|]. destruct (Z_lt_le_dec y 400); [|lia]. left.
  assert (A : forallb (fun y => start (y + 1) + (if y =? 399 then 1 else 0) =? start y + year_len y)
                (map Z.of_nat (seq 0 400)) = true) by (vm_compute; reflexivity).
  rewrite forallb_forall in A. apply Z.eqb_eq, A, in_map_iff. exists (Z.to_nat y). split; [lia|apply in_seq; lia].
Qed.

(** Every day of the era is day [doy] of one of its years. *)
Lemma doe_split doe : 0 <= doe < 146097 -> exists y doy, 0 <= y < 400 /\ 0 <= doy < year_len y /\ doe = start y + doy.
Proof.
  intros Hd.
  assert (A : forall n : nat, (n <= 400)%nat -> start (Z.of_nat n) + (if Z.of_nat n =? 400 then 1 else 0) <= doe \/
            exists y doy, 0 <= y < 400 /\ 0 <= doy < year_len y /\ doe = start y + doy).
  { induction n as [|n IH]; intros Hn; [left; change (0 <= doe); lia|].
    destruct IH as [IH|IH]; [lia| |right; exact IH].
    rewrite (proj2 (Z.eqb_neq (Z.of_nat n) 400)) in IH by lia.
    destruct (start_succ (Z.of_nat n)) as [S|S]; [|lia].
    destruct (Z_lt_le_dec doe (start (Z.of_nat n) + year_len (Z.of_nat n))) as [L|L].
    - right. exists (Z.of_nat n), (doe - start (Z.of_nat n)). lia.
    - left. rewrite Nat2Z.inj_succ. unfold Z.succ.
      destruct (Z.eqb_spec (Z.of_nat n) 399), (Z.eqb_spec (Z.of_nat n + 1) 400); lia. }
  destruct (A 400%nat (le_n _)) as [H|H]; [|exact H]. exfalso. change (146097 <= doe) in H. lia.
Qed.

(** The year of the era is monotone in the day, and right at both ends of each year. *)
Lemma year_num_mono a b : 0 <= a <= b -> b < 146097 -> year_num a <= year_num b.
Proof. unfold year_num. intros. Z.div_mod_to_equations. lia. Qed.

Definition year_ends_ok (y : Z) : bool :=
  (365 * y <=? year_num (start y)) && (year_num (start y + year_len y - 1) <? 365 * (y + 1)) &&
  (0 <=? start y) && (start y + year_len y <=? 146097).
Lemma year_ends y : 0 <= y < 400 -> year_ends_ok y = true.
Proof.
  intros Hy. assert (A : forallb year_ends_ok (map Z.of_nat (seq 0 400)) = true) by (vm_compute; reflexivity).
  rewrite forallb_forall in A. apply A, in_map_iff. exists (Z.to_nat y). split; [lia|apply in_seq; lia].
Qed.

Lemma year_len_range y : 365 <= year_len y <= 366.
Proof. unfold year_len. destruct (leap _); lia. Qed.

Lemma civil_of_start y doy : 0 <= y < 400 -> 0 <= doy < year_len y ->
  civil_of_doe (start y + doy) = (y, fst (month_day doy), snd (month_day doy)).
Proof.
  intros Hy Hd. pose proof (year_ends y Hy) as E. unfold year_ends_ok in E.
  rewrite !andb_true_iff, !Z.leb_le, Z.ltb_lt in E. destruct E as [[[E1 E2] E3] E4].
  pose proof (year_num_mono (start y) (start y + doy) ltac:(lia) ltac:(lia)) as M1.
  pose proof (year_num_mono (start y + doy) (start y + year_len y - 1) ltac:(lia) ltac:(lia)) as M2.
  unfold civil_of_doe. fold (year_num (start y + doy)).
  assert (N : 0 <= year_num (start y + doy) < 4294967296).
  { split; [lia|]. assert (y + 1 <= 400) by lia. lia. }
  rewrite (u32_id (year_num _)) by exact N.
  replace (year_num (start y + doy) / 365) with y
    by (apply (Z.div_unique _ _ _ (year_num (start y + doy) - 365 * y)); lia).
  cbv zeta. fold (start y). replace (start y + doy - start y) with doy by lia.
  pose proof (year_len_range y). rewrite (u32_id doy) by lia. reflexivity.
Qed.

(** ** The day of the year *)

Definition md_ok (doy : Z) : bool :=
  let '(m, d) := month_day doy in
  (1 <=? m) && (m <=? 12) && (1 <=? d) &&
  (u32 (153 * u32 (m + (if 2 <? m then -3 else 9)) + 2) / 5 + d - 1 =? doy) &&
  (if doy =? 365 then (m =? 2) && (d =? 29)
   else if doy =? 364 then (m =? 2) && (d =? 28)
   else negb (m =? 2) || (d <? 28)) &&
  (if doy <? 364 then
     forallb (fun lp : bool =>
       let len := if m =? 2 then if lp then 29 else 28
                  else if (m =? 4) || (m =? 6) || (m =? 9) || (m =? 11) then 30 else 31 in
       let '(m', d') := month_day (doy + 1) in
       (d <=? len) &&
       (if d <? len then (m' =? m) && (d' =? d + 1)
        else if m <? 12 then (m' =? m + 1) && (d' =? 1) && negb (m =? 2) else (m' =? 1) && (d' =? 1)))
       [true; false]
   else true).
Lemma md_all doy : 0 <= doy < 366 -> md_ok doy = true.
Proof.
  intros Hy. assert (A : forallb md_ok (map Z.of_nat (seq 0 366)) = true) by (vm_compute; reflexivity).
  rewrite forallb_forall in A. apply A, in_map_iff. exists (Z.to_nat doy). split; [lia|apply in_seq; lia].
Qed.

(** ** Correctness *)

Lemma floor_quot a n : 0 < n -> Z.quot (if 0 <=? a then a else a - (n - 1)) n = a / n.
Proof.
  intros Hn. destruct (Z.leb_spec 0 a).
  - apply Z.quot_div_nonneg; lia.
  - replace (a - (n - 1)) with (- (n - 1 - a)) by lia. rewrite Z.quot_opp_l by lia.
    rewrite Z.quot_div_nonneg by lia. apply (Z.div_unique a n _ (a - n * (- ((n - 1 - a) / n)))); [|lia].
    left. pose proof (Z.div_mod (n - 1 - a) n ltac:(lia)). pose proof (Z.mod_pos_bound (n - 1 - a) n Hn). lia.
Qed.

Lemma civil_spec z :
  rtc_civil_from_days z =
    let w := z + 719468 in let '(yoe, m, d) := civil_of_doe (w mod 146097) in
    (yoe + w / 146097 * 400 + Z.b2z (m <=? 2), m, d).
Proof.
  unfold rtc_civil_from_days. cbv zeta. change 146096 with (146097 - 1). rewrite floor_quot by lia.
  rewrite u32_id; [|pose proof (Z.mod_pos_bound (z + 719468) 146097 ltac:(lia))];
    replace (z + 719468 - (z + 719468) / 146097 * 146097) with ((z + 719468) mod 146097)
    by (rewrite Z.mod_eq by lia; lia); [reflexivity|lia].
Qed.

(** A day as era, year of the era and day of the year. *)
Lemma civil_at e y doy : 0 <= y < 400 -> 0 <= doy < year_len y ->
  rtc_civil_from_days (e * 146097 + (start y + doy) - 719468) =
    (y + e * 400 + Z.b2z (fst (month_day doy) <=? 2), fst (month_day doy), snd (month_day doy)).
Proof.
  intros Hy Hd. pose proof (year_ends y Hy) as E. unfold year_ends_ok in E.
  rewrite !andb_true_iff, !Z.leb_le, Z.ltb_lt in E. destruct E as [[[E1 E2] E3] E4].
  rewrite civil_spec. cbv zeta.
  replace (e * 146097 + (start y + doy) - 719468 + 719468) with (start y + doy + e * 146097) by lia.
  rewrite Z.mod_add, Z.mod_small, Z.div_add, Z.div_small by lia. rewrite civil_of_start by assumption.
  do 2 f_equal; lia.
Qed.

Lemma day_split z : exists e y doy, 0 <= y < 400 /\ 0 <= doy < year_len y /\ z = e * 146097 + (start y + doy) - 719468.
Proof.
  destruct (doe_split ((z + 719468) mod 146097)) as (y & doy & Hy & Hd & E); [apply Z.mod_pos_bound; lia|].
  exists ((z + 719468) / 146097), y, doy. repeat split; try lia.
  rewrite <- E. pose proof (Z.div_mod (z + 719468) 146097 ltac:(lia)). lia.
Qed.

Lemma leap_400 y e : leap (y + e * 400) = leap y.
Proof.
  unfold leap. replace ((y + e * 400) mod 4) with (y mod 4) by (Z.div_mod_to_equations; lia).
  replace ((y + e * 400) mod 100) with (y mod 100) by (Z.div_mod_to_equations; lia).
  replace ((y + e * 400) mod 400) with (y mod 400) by (Z.div_mod_to_equations; lia). reflexivity.
Qed.

(** February belongs to the year after the March-based one. *)
Lemma month_len_feb y e m : month_len (y + e * 400 + Z.b2z (m <=? 2)) m =
  if m =? 2 then if leap (y + 1) then 29 else 28
  else if (m =? 4) || (m =? 6) || (m =? 9) || (m =? 11) then 30 else 31.
Proof.
  unfold month_len. destruct (Z.eqb_spec m 2) as [->|]; [|reflexivity].
  change (Z.b2z (2 <=? 2)) with 1. replace (y + e * 400 + 1) with (y + 1 + e * 400) by lia. now rewrite leap_400.
Qed.

Lemma civil_legal e y doy : 0 <= y < 400 -> 0 <= doy < year_len y ->
  date_ok (rtc_civil_from_days (e * 146097 + (start y + doy) - 719468)) = true.
Proof.
  intros Hy Hd. rewrite civil_at by assumption. unfold date_ok. rewrite month_len_feb.
  pose proof (year_len_range y). pose proof (md_all doy ltac:(lia)) as M. unfold md_ok in M.
  destruct (month_day doy) as [m d]. cbn [fst snd]. rewrite !andb_true_iff in M.
  destruct M as [[[[[M1 M2] M3] M4] M5] M6]. rewrite M1, M2, M3. cbn [andb].
  unfold year_len in Hd. destruct (Z.eqb_spec doy 365).
  - apply andb_true_iff in M5 as [->%Z.eqb_eq ->%Z.eqb_eq]. destruct (leap (y + 1)); [reflexivity|lia].
  - destruct (Z.eqb_spec doy 364).
    + apply andb_true_iff in M5 as [->%Z.eqb_eq ->%Z.eqb_eq]. destruct (leap (y + 1)); reflexivity.
    + rewrite (proj2 (Z.ltb_lt doy 364)) in M6 by (destruct (leap (y + 1)); lia).
      destruct (month_day (doy + 1)) as [m' d']. rewrite forallb_forall in M6.
      specialize (M6 (leap (y + 1)) ltac:(destruct (leap (y + 1)); cbn; tauto)).
      apply andb_true_iff in M6 as [M6 _]. exact M6.
Qed.

Lemma civil_back e y doy : 0 <= y < 400 -> 0 <= doy < year_len y ->
  let '(yy, m, d) := rtc_civil_from_days (e * 146097 + (start y + doy) - 719468) in
  rtc_days_from_civil yy m d = e * 146097 + (start y + doy) - 719468.
Proof.
  intros Hy Hd. rewrite civil_at by assumption.
  pose proof (year_len_range y). pose proof (md_all doy ltac:(lia)) as M. unfold md_ok in M.
  destruct (month_day doy) as [m d]. cbn [fst snd]. rewrite !andb_true_iff in M.
  destruct M as [[[[[M1 M2] M3] M4] M5] M6]. apply Z.eqb_eq in M4.
  unfold rtc_days_from_civil. cbv zeta. change 399 with (400 - 1). rewrite floor_quot by lia.
  replace (y + e * 400 + Z.b2z (m <=? 2) - Z.b2z (m <=? 2)) with (y + e * 400) by lia.
  rewrite Z.div_add, Z.div_small by lia. replace (y + e * 400 - (0 + e) * 400) with y by lia.
  rewrite (u32_id y) by lia. rewrite M4, (u32_id doy) by lia.
  fold (start y). pose proof (year_ends y Hy) as E. unfold year_ends_ok in E.
  rewrite !andb_true_iff, !Z.leb_le in E.
  replace (y * 365 + y / 4 - y / 100 + doy) with (start y + doy) by (unfold start; lia).
  rewrite u32_id by lia. lia.
Qed.

Lemma civil_next e y doy : 0 <= y < 400 -> 0 <= doy < year_len y ->
  rtc_civil_from_days (e * 146097 + (start y + doy) - 719468 + 1) =
  next_day (rtc_civil_from_days (e * 146097 + (start y + doy) - 719468)).
Proof.
  intros Hy Hd. pose proof (year_len_range y) as HL. rewrite (civil_at e y doy) by assumption.
  pose proof (md_all doy ltac:(lia)) as M. unfold md_ok in M.
  destruct (month_day doy) as [m d] eqn:Emd. cbn [fst snd]. unfold next_day. rewrite month_len_feb.
  rewrite !andb_true_iff in M. destruct M as [[[[[M1 M2] M3] M4] M5] M6].
  destruct (Z_lt_le_dec (doy + 1) (year_len y)) as [Hin|Hout].
  - replace (e * 146097 + (start y + doy) - 719468 + 1) with (e * 146097 + (start y + (doy + 1)) - 719468) by lia.
    rewrite civil_at by lia. destruct (Z_lt_le_dec doy 364) as [H364|H364].
    + rewrite (proj2 (Z.ltb_lt doy 364) H364) in M6.
      destruct (month_day (doy + 1)) as [m' d']. cbn [fst snd]. rewrite forallb_forall in M6.
      specialize (M6 (leap (y + 1)) ltac:(destruct (leap (y + 1)); cbn; tauto)).
      apply andb_true_iff in M6 as [_ M6]. rewrite Z.leb_le in M1, M2. clear M3 M4 M5.
      destruct (d <? _); [|destruct (m <? 12) eqn:E12]; rewrite ?andb_true_iff, ?Z.eqb_eq in M6.
      * destruct M6 as [-> ->]. reflexivity.
      * destruct M6 as [[-> ->] M6]. rewrite negb_true_iff, Z.eqb_neq in M6.
        replace (m + 1 <=? 2) with (m <=? 2) by (destruct (Z.leb_spec m 2), (Z.leb_spec (m + 1) 2); lia). reflexivity.
      * destruct M6 as [-> ->]. apply Z.ltb_ge in E12. rewrite (proj2 (Z.leb_gt m 2)) by lia. cbn [Z.b2z].
        change (Z.b2z (1 <=? 2)) with 1. now rewrite Z.add_0_r.
    + assert (doy = 364) as -> by (unfold year_len in *; destruct (leap (y + 1)); lia).
      assert (Hl : leap (y + 1) = true) by (unfold year_len in Hin; destruct (leap (y + 1)); [reflexivity|lia]).
      change (month_day 364) with (2, 28) in Emd. injection Emd as <- <-. rewrite Hl. reflexivity.
  - assert (Hlast : (if d <? (if m =? 2 then if leap (y + 1) then 29 else 28
                     else if (m =? 4) || (m =? 6) || (m =? 9) || (m =? 11) then 30 else 31) then false else true) = true
                    /\ m = 2).
    { unfold year_len in *. destruct (leap (y + 1)).
      - assert (doy = 365) as -> by lia. change (month_day 365) with (2, 29) in Emd. inversion Emd; split; reflexivity.
      - assert (doy = 364) as -> by lia. change (month_day 364) with (2, 28) in Emd. inversion Emd; split; reflexivity. }
    clear M1 M2 M3 M4 M5 M6 Emd. destruct Hlast as [Hlast ->]. destruct (d <? _); [discriminate|]. cbn [Z.ltb Z.compare Pos.compare Pos.compare_cont].
    destruct (start_succ y) as [S|S]; [|lia]. destruct (Z.eqb_spec y 399) as [->|Hn].
    + replace (e * 146097 + (start 399 + doy) - 719468 + 1) with ((e + 1) * 146097 + (start 0 + 0) - 719468).
      * rewrite civil_at by (pose proof (year_len_range 0); lia).
        change (month_day 0) with (3, 1). cbn [fst snd Z.leb Z.compare Pos.compare Pos.compare_cont Z.b2z].
        do 2 f_equal; lia.
      * change (start (399 + 1)) with 146096 in S. change (start 0) with 0. lia.
    + replace (e * 146097 + (start y + doy) - 719468 + 1) with (e * 146097 + (start (y + 1) + 0) - 719468) by lia.
      rewrite civil_at by (pose proof (year_len_range (y + 1)); lia).
      change (month_day 0) with (3, 1). cbn [fst snd Z.leb Z.compare Pos.compare Pos.compare_cont Z.b2z].
      do 2 f_equal; lia.
Qed.

(** The date of a day is legal and converts back. *)
Lemma day_round_trip z : date_ok (rtc_civil_from_days z) = true /\
  (let '(y, m, d) := rtc_civil_from_days z in rtc_days_from_civil y m d = z).
Proof. destruct (day_split z) as (e & y & doy & Hy & Hd & ->). split; [now apply civil_legal|now apply civil_back]. Qed.

(** C40. The calendar is the Gregorian one, for every day: day 0 is 1970-01-01,
    the date of every day is legal, the date of the next day is its successor with
    the leap rule of 4, 100 and 400 years, and converting a date back gives its
    day. *)
(* @prop roundtrip D=rtc_civil_from_days,rtc_days_from_civil,civil_of_doe,gnss_days_from_civil,msngr_civil_from_days *)
Theorem calendar_gregorian (z : Z) :
  rtc_civil_from_days 0 = (1970, 1, 1) /\
  date_ok (rtc_civil_from_days z) = true /\
  rtc_civil_from_days (z + 1) = next_day (rtc_civil_from_days z) /\
  (let '(y, m, d) := rtc_civil_from_days z in rtc_days_from_civil y m d = z).
Proof.
  split; [reflexivity|]. destruct (day_round_trip z) as [Hl Hb]. split; [exact Hl|]. split; [|exact Hb].
  destruct (day_split z) as (e & y & doy & Hy & Hd & ->). now apply civil_next.
Qed.

(** ** The clocks *)

Lemma u8_small x : 0 <= x < 256 -> u8 x = x.
Proof. apply u8_id. Qed.

(** Two digits survive BCD, with the mask each register is read through. *)
Definition bcd_ok (mask bound : Z) (v : Z) : bool :=
  (bound <=? v) || (rtc_bcd2bin (Z.land (rtc_bin2bcd v) mask) =? v).
Lemma bcd_round mask bound v :
  In (mask, bound) [(0x7F, 60); (0x3F, 32); (0x1F, 13); (0xFF, 100)] -> 0 <= v < bound ->
  rtc_bcd2bin (Z.land (rtc_bin2bcd v) mask) = v.
Proof.
  intros Hm Hv. assert (A : forallb (fun v => forallb (fun mb => bcd_ok (fst mb) (snd mb) v)
    [(0x7F, 60); (0x3F, 32); (0x1F, 13); (0xFF, 100)]) (map Z.of_nat (seq 0 100)) = true) by (vm_compute; reflexivity).
  rewrite forallb_forall in A.
  assert (Hb : bound <= 100) by (destruct Hm as [E|[E|[E|[E|[]]]]]; inversion E; lia).
  specialize (A v ltac:(apply in_map_iff; exists (Z.to_nat v); split; [lia|apply in_seq; lia])).
  rewrite forallb_forall in A. specialize (A _ Hm). unfold bcd_ok in A. cbn [fst snd] in A.
  rewrite (proj2 (Z.leb_gt bound v)) in A by lia. now apply Z.eqb_eq.
Qed.

(** The month register carries the century in its top bit. *)
Lemma month_round m (hi : bool) : 1 <= m <= 12 ->
  let r := Z.lor (rtc_bin2bcd m) (if hi then 0x80 else 0) in
  rtc_bcd2bin (Z.land r 0x1F) = m /\ negb (Z.land r 0x80 =? 0) = hi.
Proof.
  intros Hm. assert (A : forallb (fun m => forallb (fun hi : bool => let r := Z.lor (rtc_bin2bcd m) (if hi then 0x80 else 0) in
     (rtc_bcd2bin (Z.land r 0x1F) =? m) && Bool.eqb (negb (Z.land r 0x80 =? 0)) hi) [true; false])
     (map Z.of_nat (seq 1 12)) = true) by (vm_compute; reflexivity).
  rewrite forallb_forall in A. specialize (A m ltac:(apply in_map_iff; exists (Z.to_nat m); split; [lia|apply in_seq; lia])).
  rewrite forallb_forall in A. specialize (A hi ltac:(destruct hi; cbn; tauto)).
  apply andb_true_iff in A as [A1 A2]. apply Z.eqb_eq in A1. apply Bool.eqb_prop in A2. now split.
Qed.

(** Hours are stored in 24-hour mode. *)
Lemma hour_round h : 0 <= h < 24 ->
  Z.land (rtc_bin2bcd h) 0x40 = 0 /\ rtc_bcd2bin (Z.land (rtc_bin2bcd h) 0x3F) = h.
Proof.
  intros Hh. split; [|apply (bcd_round 0x3F 32); [cbn; tauto|lia]].
  assert (A : forallb (fun h => Z.land (rtc_bin2bcd h) 0x40 =? 0) (map Z.of_nat (seq 0 24)) = true) by (vm_compute; reflexivity).
  rewrite forallb_forall in A. apply Z.eqb_eq, A, in_map_iff. exists (Z.to_nat h). split; [lia|apply in_seq; lia].
Qed.

(** The days of 2000-01-01 to the last second of [uint32_t]. *)
Lemma year_range z : 10957 <= z <= 49710 -> let '(y, m, d) := rtc_civil_from_days z in 2000 <= y <= 2106.
Proof.
  intros Hz. destruct (day_split z) as (e & y & doy & Hy & Hd & ->). rewrite civil_at by assumption.
  pose proof (year_len_range y) as HL. pose proof (year_ends y Hy) as E. unfold year_ends_ok in E.
  rewrite !andb_true_iff, !Z.leb_le in E. destruct E as [[[_ _] E3] E4].
  assert (He : e = 4 \/ e = 5) by lia. pose proof (md_all doy ltac:(lia)) as M.
  assert (Hm : 306 <= doy -> (fst (month_day doy) <=? 2) = true).
  { intros H306. assert (A : forallb (fun doy => fst (month_day doy) <=? 2) (map Z.of_nat (seq 306 60)) = true) by (vm_compute; reflexivity).
    rewrite forallb_forall in A. apply A, in_map_iff. exists (Z.to_nat doy). split; [lia|apply in_seq; lia]. }
  unfold start in *. destruct He as [-> | ->].
  - assert (y = 399) as -> by (Z.div_mod_to_equations; lia). rewrite Hm; [cbn [Z.b2z]; lia|].
    change (399 / 4) with 99 in *. change (399 / 100) with 3 in *. lia.
  - assert (y <= 105) by (Z.div_mod_to_equations; lia). destruct (_ <=? 2); cbn [Z.b2z]; lia.
Qed.

(** Reading the chip back after a write of its seven registers. *)
Definition reg_time (s mi h dt mo yr : Z) : Z :=
  let seconds := rtc_bcd2bin (Z.land s 0x7F) in
  let minutes := rtc_bcd2bin (Z.land mi 0x7F) in
  let hours :=
    if negb (Z.land h 0x40 =? 0) then
      let hh := rtc_bcd2bin (Z.land h 0x1F) mod 12 in
      if negb (Z.land h 0x20 =? 0) then u8 (hh + 12) else hh
    else rtc_bcd2bin (Z.land h 0x3F) in
  let date := rtc_bcd2bin (Z.land dt 0x3F) in
  let month := rtc_bcd2bin (Z.land mo 0x1F) in
  let year := 2000 + rtc_bcd2bin yr + (if negb (Z.land mo 0x80 =? 0) then 100 else 0) in
  u32 (u32 (rtc_days_from_civil year month date) * 86400 + hours * 3600 + minutes * 60 + seconds).
Lemma rtc_get_regs s mi h w dt mo yr : rtc_get_unixtime (mk_rtc true true true [s; mi; h; w; dt; mo; yr])
  = reg_time s mi h dt mo yr.
Proof.
  unfold rtc_get_unixtime, reg_time. cbn [rtc_present rtc_ack rtc_all rtc_regs negb].
  set (l := [s; mi; h; w; dt; mo; yr]).
  change (zget 0 l 0) with s. change (zget 0 l 1) with mi. change (zget 0 l 2) with h.
  change (zget 0 l 4) with dt. change (zget 0 l 5) with mo. change (zget 0 l 6) with yr. reflexivity.
Qed.

Lemma reg_time_ok y m d h mi s (hi : bool) yy :
  1 <= m <= 12 -> 1 <= d <= 31 -> 0 <= h < 24 -> 0 <= mi < 60 -> 0 <= s < 60 -> 0 <= yy < 100 ->
  y = 2000 + yy + (if hi then 100 else 0) ->
  reg_time (rtc_bin2bcd s) (rtc_bin2bcd mi) (rtc_bin2bcd h) (rtc_bin2bcd d)
    (Z.lor (rtc_bin2bcd m) (if hi then 0x80 else 0)) (rtc_bin2bcd yy)
  = u32 (u32 (rtc_days_from_civil y m d) * 86400 + h * 3600 + mi * 60 + s).
Proof.
  intros Hm Hd Hh Hmi Hs Hyy ->. unfold reg_time.
  rewrite (bcd_round 0x7F 60 s), (bcd_round 0x7F 60 mi), (bcd_round 0x3F 32 d) by (cbn; tauto || lia).
  destruct (hour_round h Hh) as [-> ->]. destruct (month_round m hi Hm) as [-> ->]. cbn [negb Z.eqb].
  assert (Hy : rtc_bcd2bin (rtc_bin2bcd yy) = yy).
  { rewrite <- (bcd_round 0xFF 100 yy) at 2 by (cbn; tauto || lia). f_equal. symmetry.
    change 0xFF with (Z.ones 8). rewrite Z.land_ones by lia. apply u8_small. unfold rtc_bin2bcd. apply u8_range. }
  rewrite Hy. reflexivity.
Qed.

(** The real-time clock keeps the time it is given: on a responding chip,
    writing any time from 2000-01-01 to the end of the 32-bit epoch in 2106 and
    reading the registers back gives that time to the second - BCD digits, the
    century bit, the 24-hour flag and the calendar included. *)
Theorem rtc_keeps_time (epoch : Z) (c : rtc) :
  rtc_present c = true -> rtc_ack c = true -> rtc_all c = true -> 946684800 <= epoch < 2 ^ 32 ->
  fst (rtc_set_unixtime epoch c) = true /\ rtc_get_unixtime (snd (rtc_set_unixtime epoch c)) = epoch.
Proof.
  intros Hp Ha Hl He. change (2 ^ 32) with 4294967296 in He. unfold rtc_set_unixtime. rewrite Hp, Ha. cbn [negb].
  assert (Hdays : 10957 <= epoch / 86400 <= 49710) by (Z.div_mod_to_equations; lia).
  pose proof (year_range _ Hdays) as Hyr. destruct (day_round_trip (epoch / 86400)) as [Hok Hback].
  destruct (rtc_civil_from_days (epoch / 86400)) as [[y m] d]. unfold date_ok in Hok.
  rewrite !andb_true_iff, !Z.leb_le in Hok. destruct Hok as [[[Hm1 Hm2] Hd1] Hd2].
  assert (Hd3 : d <= 31) by (revert Hd2; unfold month_len;
    repeat match goal with |- context [if ?b then _ else _] => destruct b end; lia).
  cbv zeta. split; [reflexivity|]. destruct c as [p a l r]. cbn [rtc_present rtc_ack rtc_all] in *. subst p a l.
  change (rtc_get_unixtime _) with (rtc_get_unixtime (mk_rtc true true true
    [rtc_bin2bcd (u8 (epoch mod 86400 mod 3600 mod 60)); rtc_bin2bcd (u8 (epoch mod 86400 mod 3600 / 60));
     rtc_bin2bcd (u8 (epoch mod 86400 / 3600)); u8 (u8 ((Z.rem (epoch / 86400) 7 + 7 + 3) mod 7) + 1);
     rtc_bin2bcd (u8 d); Z.lor (rtc_bin2bcd (u8 m)) (if 100 <=? y - 2000 then 0x80 else 0);
     rtc_bin2bcd (u8 (if 100 <=? y - 2000 then y - 2000 - 100 else y - 2000))])).
  rewrite rtc_get_regs.
  assert (Hyy : 0 <= (if 100 <=? y - 2000 then y - 2000 - 100 else y - 2000) < 100)
    by (destruct (Z.leb_spec 100 (y - 2000)); lia).
  rewrite !u8_small by (Z.div_mod_to_equations; lia).
  rewrite (reg_time_ok y) by (Z.div_mod_to_equations; lia || (destruct (Z.leb_spec 100 (y - 2000)); lia)).
  rewrite Hback. rewrite u32_id; rewrite u32_id; Z.div_mod_to_equations; lia.
Qed.

Lemma rtc_keeps_time_witness :
  rtc_get_unixtime (snd (rtc_set_unixtime 4107542399 (mk_rtc true true true []))) = 4107542399.
Proof. apply (rtc_keeps_time 4107542399); [reflexivity..|split; [discriminate|reflexivity]]. Defined.

(** The GNSS-seeded clock keeps time for one period of the millisecond
    counter only: for 2^32 ms (49.7 days) after a synchronisation it shows the
    synchronised time plus the elapsed seconds, then it jumps back to the
    synchronised time - a synchronised clock is never set again, whatever fixes
    arrive later. *)
Theorem gnss_clock_jumps_back (t0 elapsed : Z) (f : nmea) (fixes : list (Z * nmea)) :
  gnss_date_valid f = true -> fx_time_valid f = true -> 0 <= t0 < 2 ^ 32 ->
  let g := foldl (fun g '(t, f) => gnss_sync_system_time t f g)
             (gnss_sync_system_time t0 f (mk_gnss_clock false 0 0)) fixes in
  (0 <= elapsed < 2 ^ 32 -> gnss_system_time_now (u32 (t0 + elapsed)) g = u32 (fix_epoch f + elapsed / 1000)) /\
  gnss_system_time_now (u32 (t0 + 2 ^ 32)) g = u32 (fix_epoch f).
Proof.
  intros Hd Ht Ht0. cbv zeta.
  assert (Hg : foldl (fun g '(t, f) => gnss_sync_system_time t f g)
             (gnss_sync_system_time t0 f (mk_gnss_clock false 0 0)) fixes = mk_gnss_clock true (fix_epoch f) t0).
  { unfold gnss_sync_system_time at 2. cbn [gc_synced]. rewrite Hd, Ht. cbn [negb orb].
    induction fixes as [|[t f'] fixes IH]; [reflexivity|exact IH]. }
  rewrite Hg. unfold gnss_system_time_now. cbn [gc_synced gc_epoch gc_millis negb]. unfold wrap.
  rewrite !Zminus_mod_idemp_l. split.
  - intros He. replace (t0 + elapsed - t0) with elapsed by lia. now rewrite (Z.mod_small elapsed).
  - replace (t0 + 2 ^ 32 - t0) with (2 ^ 32) by lia. rewrite Z.mod_same by lia.
    now rewrite Z.add_0_r.
Qed.

Lemma gnss_clock_jumps_back_witness :
  let f := mk_nmea true true 2026 3 1 12 0 0 in
  gnss_system_time_now (u32 (5000 + 2 ^ 32)) (gnss_sync_system_time 5000 f (mk_gnss_clock false 0 0)) = u32 (fix_epoch f).
Proof.
  intros f. refine (proj2 (gnss_clock_jumps_back 5000 0 f [] eq_refl eq_refl _)). split; [discriminate|reflexivity].
Defined.

(** The time-zone byte. *)
Section TzLaws.
  Context `{EepromLaws E}.
  Implicit Types (e : E) (c : conf E).

(** The display offset is stored faithfully: saving a quarter-hour count
    between -48 (UTC-12) and 56 (UTC+14) in its offset encoding makes every reader
    see exactly that count and shift times by that many quarter hours; any other
    stored byte, erased cells included, means UTC. *)
Theorem tz_roundtrip (qh raw : Z) (c : conf E) :
  EEPROM_RESERVED <= EEPROM_SIZE ->
  (-48 <= qh <= 56 -> get_tz_offset_qh (ee (tz_conf_save (qh + TZ_OFFSET_RAW_ZERO) c)) = qh /\
     forall t, apply_tz_offset t (ee (tz_conf_save (qh + TZ_OFFSET_RAW_ZERO) c)) = u32 (t + 900 * qh)) /\
  (is_u8 raw -> raw < 16 \/ 120 < raw -> get_tz_offset_qh (ee (tz_conf_save raw c)) = 0).
Proof.
  intros HS.
  assert (R : forall v, is_u8 v -> ee_read (eeprom_addr ADDR_CONF_TZ) (ee (tz_conf_save v c)) = v).
  { intros v Hv. unfold tz_conf_save. rewrite read_upd_info; [rewrite Z.eqb_refl; now apply u8_id|exact HS|].
    split; [discriminate|reflexivity]. }
  assert (K : forall v, is_u8 v -> get_tz_offset_qh (ee (tz_conf_save v c)) =
            if (v - 64 <? -48) || (56 <? v - 64) then 0 else v - 64).
  { intros v Hv. unfold get_tz_offset_qh. now rewrite R. }
  split.
  - intros Hq. unfold apply_tz_offset, TZ_OFFSET_RAW_ZERO. rewrite K by (unfold is_u8; lia).
    rewrite (proj2 (Z.ltb_ge _ _)), (proj2 (Z.ltb_ge _ _)) by lia. cbn [orb].
    replace (qh + 64 - 64) with qh by lia. split; [reflexivity|]. intros t. now rewrite (Z.mul_comm 900).
  - intros Hr Ho. rewrite K by exact Hr. destruct Ho.
    + now rewrite (proj2 (Z.ltb_lt _ _)) by lia.
    + rewrite (proj2 (Z.ltb_lt 56 _)) by lia. now rewrite orb_true_r.
Qed.
End TzLaws.

Lemma tz_roundtrip_witness :
  let B := heltec32_v3 in
  get_tz_offset_qh (ee (tz_conf_save (-20 + TZ_OFFSET_RAW_ZERO) (mk_conf (∅ : image) (default_prefs f_zero f_zero) []))) = -20.
Proof.
  intros B. assert (HS : EEPROM_RESERVED <= EEPROM_SIZE) by (vm_compute; discriminate).
  pose proof (proj1 (@tz_roundtrip image image_eeprom heltec32_v3 image_laws (-20) 0
    (mk_conf (∅ : image) (default_prefs f_zero f_zero) []) HS)) as P.
  apply P. split; discriminate.
Defined.
