(* ===== verification/EspNow.v ===== *)
(** * The ESP-NOW interface (ESPNOW.h)

    The second virtual interface: packets of up to [MTU] bytes carried over raw
    ESP-NOW frames of 250 bytes.  A packet becomes chunks with a one-byte header
    (sequence tag, "more" flag), paced through a queue of twelve; the receiver
    reassembles them and hands complete packets to a queue of eight, from which the
    main loop writes them to the host.  The ESP-NOW driver and the FreeRTOS queues
    are the environment: a send succeeds or fails, an allocation succeeds or fails. *)
From S2P Require Import Prelude Boards Framing Fifo TxQueue Rom Float Kiss.

(* @src ESPNOW.h:19-19 ESPNOW_QUEUE_SIZE *)
Definition ESPNOW_QUEUE_SIZE : Z := 8.
(* @src ESPNOW.h:150-152 ESPNOW_RAW_MTU *)
Definition ESPNOW_RAW_MTU : Z := 250.
Definition ESPNOW_CHUNK_SIZE : Z := ESPNOW_RAW_MTU - 1.
Definition ESPNOW_FRAG_MORE : Z := 0x01.
(* @src ESPNOW.h:200-200 ESPNOW_TX_QUEUE_SIZE *)
Definition ESPNOW_TX_QUEUE_SIZE : Z := 12.

(** ** State *)

(* @src ESPNOW.h:21-27 espnow_packet_t *)
Record espnow_packet_t := mk_pkt { p_rssi : Z; p_snr_raw : Z; p_mac : list Z; p_data : list Z }.

(* @src ESPNOW.h:42-52 espnow_vport_cfg_t *)
Record espnow_vport_cfg_t := mk_cfg {
  frequency : Z; bandwidth : Z; txpower : Z; sf : Z; cr : Z; st_alock : Z; lt_alock : Z; radio_state : Z
}.

(** [espnow_rx_buf] is its first [espnow_rx_len] bytes; [on_air] logs the frames
    the driver accepted. *)
(* @src ESPNOW.h:201-210 espnow_tx_queue *)
Record espnow := mk_espnow {
  espnow_enabled : bool; espnow_ready : bool; espnow_lr_enabled : bool; espnow_v2 : bool;
  espnow_vport_cfg : espnow_vport_cfg_t;
  espnow_tx_queue : list (list Z); espnow_tx_busy : bool; on_air : list (list Z);
  espnow_rx_buf : list Z; espnow_rx_seq : Z; espnow_packet_queue : list espnow_packet_t;
  espnow_display_rx : bool; espnow_display_tx : bool; en_memory_low : bool
}.

(** What the driver reports about a frame: the [rx_ctrl] block may be missing. *)
Record recv_info := mk_info { src_addr : list Z; rx_ctrl : option (Z * Z) (** RSSI, noise floor *) }.

(** [HAS_URNS] is off: the on-board node is not modelled. *)
(* @src ESPNOW.h:71-80 espnow_ui_active *)
Definition espnow_ui_active (s : espnow) : bool :=
  espnow_enabled s && espnow_ready s && (radio_state (espnow_vport_cfg s) =? RADIO_STATE_ON).
(* @src ESPNOW.h:89-91 espnow_wifi_disabled *)
Definition espnow_wifi_disabled (s : espnow) : bool := espnow_enabled s && espnow_lr_enabled s.

(** ** Receiving *)

(* @src ESPNOW.h:245-251 espnow_rx_deliver *)
Definition snr_quarter (rc : option (Z * Z)) : Z :=
  let snr_db := match rc with Some (rssi, noise) => rssi - noise | None => 0 end in
  let q := snr_db * 4 in
  let q := if 127 <? q then 127 else q in
  if q <? -128 then -128 else q.

(** [mem]: whether the allocation succeeds. *)
(* @src ESPNOW.h:213-261 espnow_rx_deliver *)
Definition espnow_rx_deliver (mem : bool) (payload : list Z) (info : recv_info) (s : espnow) : espnow :=
  let s := s <| espnow_display_rx := true |> in
  if negb mem then s <| en_memory_low := true |>
  else
    let rssi := match rx_ctrl info with Some (rssi, _) => rssi | None => 0 end in
    let p := mk_pkt rssi (snr_quarter (rx_ctrl info)) (src_addr info) payload in
    if zlen (espnow_packet_queue s) <? ESPNOW_QUEUE_SIZE
    then s <| espnow_packet_queue ::= fun q => q ++ [p] |> else s.

(* @src ESPNOW.h:263-311 espnow_recv_cb *)
Definition espnow_recv_cb (mem : bool) (info : recv_info) (data : list Z) (s : espnow) : espnow :=
  let len := zlen data in
  if len <=? 0 then s
  else if espnow_v2 s then
    if MTU <? len then s else espnow_rx_deliver mem data info s
  else if len <=? 1 then s
  else
    let header := zget 0 data 0 in
    let seq := Z.land header NIBBLE_SEQ in
    let more := negb (Z.land header ESPNOW_FRAG_MORE =? 0) in
    let chunk := drop 1 data in
    let s := if negb (seq =? espnow_rx_seq s)
             then s <| espnow_rx_buf := [] |> <| espnow_rx_seq := seq |> else s in
    if MTU <? zlen (espnow_rx_buf s) + zlen chunk
    then s <| espnow_rx_buf := [] |> <| espnow_rx_seq := SEQ_UNSET |>
    else
      let s := s <| espnow_rx_buf ::= fun b => b ++ chunk |> in
      if more then s
      else
        let s := s <| espnow_rx_seq := SEQ_UNSET |> in
        (espnow_rx_deliver mem (espnow_rx_buf s) info s) <| espnow_rx_buf := [] |>.

(** ** Sending *)

(* @src ESPNOW.h:330-336 espnow_send_chunk *)
Definition espnow_send_chunk (data : list Z) (s : espnow) : bool * espnow :=
  if negb (espnow_ready s) then (false, s)
  else if zlen (espnow_tx_queue s) <? ESPNOW_TX_QUEUE_SIZE
       then (true, s <| espnow_tx_queue ::= fun q => q ++ [data] |>) else (false, s).

(** The do-while loop from [offset]; one unit of fuel per chunk. *)
(* @src ESPNOW.h:380-389 espnow_send *)
Fixpoint espnow_send_loop (fuel : nat) (header : Z) (data : list Z) (offset : Z) (all_ok : bool) (s : espnow)
    : bool * espnow :=
  match fuel with
  | O => (all_ok, s)
  | S fuel =>
      let len := zlen data in
      let remaining := u16 (len - offset) in
      let chunk_len := if ESPNOW_CHUNK_SIZE <? remaining then ESPNOW_CHUNK_SIZE else remaining in
      let more := offset + chunk_len <? len in
      let chunk := Z.lor header (if more then ESPNOW_FRAG_MORE else 0)
                   :: take (Z.to_nat chunk_len) (drop (Z.to_nat offset) data) in
      let '(ok, s) := espnow_send_chunk chunk s in
      let all_ok := ok && all_ok in
      let offset := u16 (offset + chunk_len) in
      if offset <? len then espnow_send_loop fuel header data offset all_ok s else (all_ok, s)
  end.

(** [rnd]: the byte [random(256)] returns. *)
(* @src ESPNOW.h:368-398 espnow_send *)
Definition espnow_send (rnd : Z) (data : list Z) (s : espnow) : bool * espnow :=
  let '(all_ok, s) :=
    if espnow_v2 s then espnow_send_chunk data s
    else espnow_send_loop (S (length data)) (Z.land rnd NIBBLE_SEQ) data 0 true s in
  (all_ok, s <| espnow_display_tx := true |>).

(** [ok]: whether [esp_now_send] takes the frame. *)
(* @src ESPNOW.h:344-358 update_espnow_tx *)
Definition update_espnow_tx (ok : bool) (s : espnow) : espnow :=
  if espnow_tx_busy s then s
  else match espnow_tx_queue s with
       | [] => s
       | c :: q =>
           let s := s <| espnow_tx_queue := q |> <| espnow_tx_busy := true |> in
           if ok then s <| on_air ::= fun l => l ++ [c] |> else s <| espnow_tx_busy := false |>
       end.

(* @src ESPNOW.h:319-322 espnow_send_cb *)
Definition espnow_send_cb (s : espnow) : espnow := s <| espnow_tx_busy := false |>.

(** ** To the host *)

Section Host.
(* @src ESPNOW.h:439-453 kiss_indicate_interfaces *)
Definition kiss_indicate_interfaces (s : espnow) : list Z :=
  raw_frame CMD_INTERFACES [0x00; KISS_SX1262] ++
  (if espnow_ready s then raw_frame CMD_INTERFACES [0x01; KISS_SX1262] else []).

Definition select_1 : list Z := kiss_select_interface 1.
(* @src ESPNOW.h:461-470 kiss_indicate_v1_frequency *)
Definition kiss_indicate_v1_frequency (s : espnow) : list Z :=
  select_1 ++ Framing.frame CMD_FREQUENCY (be32 (frequency (espnow_vport_cfg s))).
(* @src ESPNOW.h:472-481 kiss_indicate_v1_bandwidth *)
Definition kiss_indicate_v1_bandwidth (s : espnow) : list Z :=
  select_1 ++ Framing.frame CMD_BANDWIDTH (be32 (bandwidth (espnow_vport_cfg s))).
(* @src ESPNOW.h:483-489 kiss_indicate_v1_txpower *)
Definition kiss_indicate_v1_txpower (s : espnow) : list Z :=
  select_1 ++ raw_frame CMD_TXPOWER [u8 (txpower (espnow_vport_cfg s))].
(* @src ESPNOW.h:491-497 kiss_indicate_v1_sf *)
Definition kiss_indicate_v1_sf (s : espnow) : list Z := select_1 ++ raw_frame CMD_SF [u8 (sf (espnow_vport_cfg s))].
(* @src ESPNOW.h:499-505 kiss_indicate_v1_cr *)
Definition kiss_indicate_v1_cr (s : espnow) : list Z := select_1 ++ raw_frame CMD_CR [u8 (cr (espnow_vport_cfg s))].
(* @src ESPNOW.h:507-513 kiss_indicate_v1_radiostate *)
Definition kiss_indicate_v1_radiostate (s : espnow) : list Z :=
  select_1 ++ raw_frame CMD_RADIO_STATE [u8 (radio_state (espnow_vport_cfg s))].
(* @src ESPNOW.h:515-522 kiss_indicate_v1_st_alock *)
Definition kiss_indicate_v1_st_alock (s : espnow) : list Z :=
  select_1 ++ Framing.frame CMD_ST_ALOCK (be16 (st_alock (espnow_vport_cfg s))).
(* @src ESPNOW.h:524-531 kiss_indicate_v1_lt_alock *)
Definition kiss_indicate_v1_lt_alock (s : espnow) : list Z :=
  select_1 ++ Framing.frame CMD_LT_ALOCK (be16 (lt_alock (espnow_vport_cfg s))).
(* @src ESPNOW.h:539-545 kiss_indicate_v1_stat_rssi *)
Definition kiss_indicate_v1_stat_rssi (rssi : Z) : list Z :=
  select_1 ++ Framing.frame CMD_STAT_RSSI [u8 (rssi + rssi_offset)].
(* @src ESPNOW.h:547-553 kiss_indicate_v1_stat_snr *)
Definition kiss_indicate_v1_stat_snr (snr_raw : Z) : list Z := select_1 ++ Framing.frame CMD_STAT_SNR [u8 snr_raw].

(** The frame built into [frame_buf], 2*MTU+8 bytes long: the loop stops two short
    of its end. *)
(* @src ESPNOW.h:586-594 kiss_write_espnow_packet *)
Fixpoint fill_frame (buf : list Z) (data : list Z) : list Z :=
  match data with
  | [] => buf
  | byte :: data =>
      if zlen buf <? 2 * MTU + 8 - 2 then
        let buf := if byte =? FEND then buf ++ [FESC] else buf in
        let byte := if byte =? FEND then TFEND else byte in
        let buf := if byte =? FESC then buf ++ [FESC] else buf in
        let byte := if byte =? FESC then TFESC else byte in
        fill_frame (buf ++ [byte]) data
      else buf
  end.
(* @src ESPNOW.h:581-607 kiss_write_espnow_packet *)
Definition kiss_write_espnow_packet (data : list Z) : list Z :=
  select_1 ++ fill_frame [FEND; CMD_DATA] data ++ [FEND].

(* @src ESPNOW.h:672-688 update_espnow *)
Definition update_espnow (s : espnow) : list Z * espnow :=
  match espnow_packet_queue s with
  | [] => ([], s)
  | p :: q =>
      (kiss_indicate_v1_stat_rssi (p_rssi p) ++ kiss_indicate_v1_stat_snr (p_snr_raw p) ++
       kiss_write_espnow_packet (p_data p), s <| espnow_packet_queue := q |>)
  end.
End Host.

(** ** Fragmentation and reassembly *)

(** The chunks of a packet, as a function of what is left to send. *)
Fixpoint split_chunks (fuel : nat) (tag : Z) (rest : list Z) : list (list Z) :=
  match fuel with
  | O => []
  | S fuel =>
      if zlen rest <=? ESPNOW_CHUNK_SIZE then [tag :: rest]
      else (Z.lor tag ESPNOW_FRAG_MORE :: take 249 rest) :: split_chunks fuel tag (drop 249 rest)
  end.

Definition is_tag (tag : Z) : Prop := exists rnd, is_u8 rnd /\ tag = Z.land rnd NIBBLE_SEQ.
Lemma tag_bits tag : is_tag tag ->
  Z.land tag NIBBLE_SEQ = tag /\ Z.land tag ESPNOW_FRAG_MORE = 0 /\
  Z.land (Z.lor tag ESPNOW_FRAG_MORE) NIBBLE_SEQ = tag /\ Z.land (Z.lor tag ESPNOW_FRAG_MORE) ESPNOW_FRAG_MORE = 1 /\
  tag <> SEQ_UNSET.
Proof.
  intros (rnd & Hr & ->).
  pose proof (u8_forallb (fun rnd => let tag := Z.land rnd NIBBLE_SEQ in
    (Z.land tag NIBBLE_SEQ =? tag) && (Z.land tag ESPNOW_FRAG_MORE =? 0) &&
    (Z.land (Z.lor tag ESPNOW_FRAG_MORE) NIBBLE_SEQ =? tag) &&
    (Z.land (Z.lor tag ESPNOW_FRAG_MORE) ESPNOW_FRAG_MORE =? 1) && negb (tag =? SEQ_UNSET)) ltac:(vm_compute; reflexivity) rnd Hr) as A.
  cbv beta zeta in A. rewrite !andb_true_iff, !Z.eqb_eq, negb_true_iff, Z.eqb_neq in A. tauto.
Qed.

Lemma zlen_drop {A} n (l : list A) : 0 <= n <= zlen l -> zlen (drop (Z.to_nat n) l) = zlen l - n.
Proof. unfold zlen. rewrite length_drop. lia. Qed.

Lemma send_chunk_room c s :
  espnow_ready s = true -> zlen (espnow_tx_queue s) < ESPNOW_TX_QUEUE_SIZE ->
  espnow_send_chunk c s = (true, s <| espnow_tx_queue ::= fun q => q ++ [c] |>).
Proof. intros Hr Hq. unfold espnow_send_chunk. rewrite Hr, (proj2 (Z.ltb_lt _ _)) by exact Hq. reflexivity. Qed.

(** With room in the queue the loop enqueues exactly the chunks. *)
Lemma send_loop_chunks fuel : forall tag data offset ok s,
  0 <= offset -> offset < zlen data \/ zlen data = offset -> zlen data <= MTU ->
  (length data - Z.to_nat offset < fuel)%nat ->
  espnow_ready s = true ->
  zlen (espnow_tx_queue s) + zlen (split_chunks fuel tag (drop (Z.to_nat offset) data)) <= ESPNOW_TX_QUEUE_SIZE ->
  espnow_send_loop fuel tag data offset ok s =
    (ok, s <| espnow_tx_queue ::= fun q => q ++ split_chunks fuel tag (drop (Z.to_nat offset) data) |>).
Proof.
  induction fuel as [|fuel IH]; intros tag data offset ok s Ho Hlt Hmtu Hf Hr Hq; [lia|].
  unfold MTU in Hmtu. cbn [espnow_send_loop split_chunks] in *. cbv zeta.
  assert (Hoff : 0 <= offset <= zlen data) by lia.
  rewrite (u16_id (zlen data - offset)) by lia. rewrite (zlen_drop offset data Hoff) in *.
  unfold ESPNOW_CHUNK_SIZE, ESPNOW_RAW_MTU in *. change (250 - 1) with 249 in *.
  destruct (Z.leb_spec (zlen data - offset) 249) as [Hs|Hs].
  - rewrite (proj2 (Z.ltb_ge 249 _)) by lia. replace (offset + (zlen data - offset)) with (zlen data) by lia.
    rewrite (u16_id (zlen data)), Z.ltb_irrefl, Z.lor_0_r by lia.
    rewrite take_ge by (rewrite length_drop; unfold zlen; lia).
    rewrite send_chunk_room by (rewrite ?zlen_cons, ?zlen_nil in Hq; assumption || (unfold ESPNOW_TX_QUEUE_SIZE in *; lia)).
    now destruct ok.
  - rewrite (proj2 (Z.ltb_lt 249 _)), (proj2 (Z.ltb_lt (offset + 249) _)) by lia.
    rewrite (u16_id (offset + 249)), (proj2 (Z.ltb_lt (offset + 249) _)) by lia.
    rewrite zlen_cons in Hq. pose proof (zlen_nonneg (split_chunks fuel tag (drop 249 (drop (Z.to_nat offset) data)))).
    rewrite send_chunk_room by (assumption || lia).
    assert (Ed : drop (Z.to_nat (offset + 249)) data = drop 249 (drop (Z.to_nat offset) data))
      by (rewrite drop_drop; f_equal; lia).
    change (Z.to_nat 249) with 249%nat.
    destruct s as [en rdy lr v2 cfg q b air rb rs pq d1 d2 m]. cbn [espnow_ready espnow_tx_queue] in *.
    rewrite IH; cbn [espnow_ready espnow_tx_queue]; rewrite ?Ed; try lia; try assumption.
    + cbn. rewrite <- app_assoc. reflexivity.
    + unfold zlen in *. lia.
    + change (zlen (q ++ [Z.lor tag ESPNOW_FRAG_MORE :: take 249 (drop (Z.to_nat offset) data)]) +
              zlen (split_chunks fuel tag (drop 249 (drop (Z.to_nat offset) data))) <= ESPNOW_TX_QUEUE_SIZE).
      rewrite zlen_app, zlen_cons, zlen_nil. lia.
Qed.

(** One chunk with payload, at a receiver that has [acc] of the packet [tag]. *)
Lemma recv_step mem info tag acc s h c :
  espnow_v2 s = false ->
  (espnow_rx_seq s = tag /\ espnow_rx_buf s = acc) \/ (espnow_rx_seq s <> tag /\ acc = []) ->
  Z.land h NIBBLE_SEQ = tag -> 0 < zlen c -> zlen acc + zlen c <= MTU ->
  espnow_recv_cb mem info (h :: c) s =
    let s := s <| espnow_rx_buf := acc ++ c |> <| espnow_rx_seq := tag |> in
    if negb (Z.land h ESPNOW_FRAG_MORE =? 0) then s
    else (espnow_rx_deliver mem (acc ++ c) info (s <| espnow_rx_seq := SEQ_UNSET |>)) <| espnow_rx_buf := [] |>.
Proof.
  intros Hv Hs Hh Hc Hm.
  assert (Hstart : (if negb (tag =? espnow_rx_seq s) then s <| espnow_rx_buf := [] |> <| espnow_rx_seq := tag |> else s)
                   = s <| espnow_rx_buf := acc |> <| espnow_rx_seq := tag |>).
  { destruct Hs as [[E1 E2]|[E1 ->]].
    - rewrite E1, Z.eqb_refl. destruct s; cbn in *; now subst.
    - rewrite (proj2 (Z.eqb_neq tag _)) by congruence. reflexivity. }
  unfold espnow_recv_cb. rewrite Hv, zlen_cons.
  rewrite (proj2 (Z.leb_gt (1 + zlen c) 0)), (proj2 (Z.leb_gt (1 + zlen c) 1)) by lia.
  change (zget 0 (h :: c) 0) with h. change (drop 1 (h :: c)) with c. rewrite Hh, Hstart.
  destruct s as [en rdy lr v2 cfg q b air rb rs pq d1 d2 m]. cbn -[MTU zlen Z.ltb Z.add Z.land].
  rewrite (proj2 (Z.ltb_ge MTU _)) by exact Hm. reflexivity.
Qed.

(** The receiver, between two chunks of a packet. *)
Lemma recv_chunks mem info tag fuel : forall rest acc s,
  is_tag tag -> espnow_v2 s = false -> 0 < zlen rest -> zlen acc + zlen rest <= MTU -> (length rest < fuel)%nat ->
  (espnow_rx_seq s = tag /\ espnow_rx_buf s = acc) \/ (espnow_rx_seq s <> tag /\ acc = []) ->
  foldl (fun s c => espnow_recv_cb mem info c s) s (split_chunks fuel tag rest) =
    (espnow_rx_deliver mem (acc ++ rest) info (s <| espnow_rx_buf := acc ++ rest |> <| espnow_rx_seq := SEQ_UNSET |>))
      <| espnow_rx_buf := [] |>.
Proof.
  induction fuel as [|fuel IH]; intros rest acc s Ht Hv Hr Hm Hf Hs; [lia|].
  destruct (tag_bits tag Ht) as (B1 & B2 & B3 & B4 & B5).
  cbn [split_chunks]. unfold ESPNOW_CHUNK_SIZE, ESPNOW_RAW_MTU. change (250 - 1) with 249.
  destruct (Z.leb_spec (zlen rest) 249) as [Hle|Hgt].
  - cbn [foldl]. rewrite (recv_step mem info tag acc) by (assumption || lia). cbv zeta. rewrite B2. cbn [negb Z.eqb].
    destruct s; reflexivity.
  - cbn [foldl]. assert (Hlen : zlen (take 249 rest) = 249) by (unfold zlen in *; rewrite length_take; lia).
    assert (Hlen2 : zlen (drop 249 rest) = zlen rest - 249) by (apply (zlen_drop 249); lia).
    rewrite (recv_step mem info tag acc) by (rewrite ?Hlen; assumption || lia). cbv zeta. rewrite B4. cbn [negb Z.eqb].
    rewrite (IH (drop 249 rest) (acc ++ take 249 rest)); try assumption; try lia.
    + rewrite <- app_assoc, take_drop. destruct s; reflexivity.
    + rewrite zlen_app. lia.
    + unfold zlen in *. rewrite length_drop. lia.
    + left. destruct s; split; reflexivity.
Qed.

(** The paced transmission: each [update_espnow_tx] is answered by the send
    callback. *)
Fixpoint pump (n : nat) (s : espnow) : espnow :=
  match n with O => s | S n => pump n (espnow_send_cb (update_espnow_tx true s)) end.

(** What sending leaves alone. *)
Definition ready_idle (s : espnow) : Prop :=
  espnow_ready s = true /\ espnow_v2 s = false /\ espnow_tx_queue s = [] /\ espnow_tx_busy s = false.

Lemma pump_all n : forall s, espnow_tx_busy s = false -> (length (espnow_tx_queue s) <= n)%nat ->
  pump n s = s <| espnow_tx_queue := [] |> <| on_air ::= fun l => l ++ espnow_tx_queue s |>.
Proof.
  induction n as [|n IH]; intros s Hb Hn.
  - destruct s as [en rdy lr v2 cfg q b air rb rs pq d1 d2 m]. cbn in *.
    destruct q; [|cbn in Hn; lia]. now rewrite app_nil_r.
  - cbn [pump]. rewrite IH.
    + destruct s as [en rdy lr v2 cfg q b air rb rs pq d1 d2 m]. cbn in Hb, Hn. subst b.
      destruct q as [|c q]; cbn; rewrite ?app_nil_r, <- ?app_assoc; reflexivity.
    + destruct s as [en rdy lr v2 cfg q b air rb rs pq d1 d2 m]. cbn in *. subst b. destruct q; reflexivity.
    + destruct s as [en rdy lr v2 cfg q b air rb rs pq d1 d2 m]. cbn in *. subst b. destruct q; cbn in *; lia.
Qed.

Lemma split_len fuel : forall tag d, 249 * (zlen (split_chunks fuel tag d) - 1) <= zlen d.
Proof.
  induction fuel as [|fuel IH]; intros tag d; cbn [split_chunks]; pose proof (zlen_nonneg d).
  - rewrite zlen_nil. lia.
  - unfold ESPNOW_CHUNK_SIZE, ESPNOW_RAW_MTU. destruct (Z.leb_spec (zlen d) (250 - 1)).
    + rewrite zlen_cons, (@zlen_nil (list Z)). lia.
    + specialize (IH tag (drop 249 d)). rewrite zlen_cons. rewrite (zlen_drop 249) in IH by lia. lia.
Qed.
Lemma split_few tag data : zlen data <= MTU -> (length (split_chunks (S (length data)) tag data) <= 3)%nat.
Proof.
  unfold MTU. intros Hd. pose proof (split_len (S (length data)) tag data) as H. unfold zlen in *. lia.
Qed.

(** One packet handed over and paced out. *)
Definition send_and_pump (s : espnow) (p : Z * list Z) : espnow := pump 3 (snd (espnow_send (fst p) (snd p) s)).
Definition packet_chunks (p : Z * list Z) : list (list Z) :=
  split_chunks (S (length (snd p))) (Z.land (fst p) NIBBLE_SEQ) (snd p).

Lemma send_and_pump_spec s p : ready_idle s -> 0 < zlen (snd p) <= MTU ->
  fst (espnow_send (fst p) (snd p) s) = true /\
  ready_idle (send_and_pump s p) /\ on_air (send_and_pump s p) = on_air s ++ packet_chunks p.
Proof.
  intros (Hr & Hv & Hq & Hb) Hd. unfold send_and_pump, espnow_send. rewrite Hv.
  pose proof (split_few (Z.land (fst p) NIBBLE_SEQ) (snd p) (proj2 Hd)) as Hf.
  rewrite send_loop_chunks; try assumption; try lia.
  - cbn [fst snd]. change (drop (Z.to_nat 0) (snd p)) with (snd p). fold (packet_chunks p) in *.
    destruct s as [en rdy lr v2 cfg q b air rb rs pq d1 d2 m]. cbn in Hr, Hv, Hq, Hb. subst.
    split; [reflexivity|]. rewrite pump_all; [repeat split|reflexivity|exact Hf].
  - rewrite Hq, zlen_nil. change (drop (Z.to_nat 0) (snd p)) with (snd p). unfold zlen, ESPNOW_TX_QUEUE_SIZE. lia.
Qed.

Lemma recv_packet info p s :
  is_u8 (fst p) -> espnow_v2 s = false -> espnow_rx_seq s = SEQ_UNSET -> 0 < zlen (snd p) <= MTU ->
  foldl (fun s c => espnow_recv_cb true info c s) s (packet_chunks p) =
  (espnow_rx_deliver true (snd p) info (s <| espnow_rx_buf := snd p |>)) <| espnow_rx_buf := [] |>.
Proof.
  intros Hu Hv Hs Hd. unfold packet_chunks.
  assert (Ht : is_tag (Z.land (fst p) NIBBLE_SEQ)) by (exists (fst p); split; [exact Hu|reflexivity]).
  rewrite (recv_chunks true info _ _ _ []); try assumption; try lia.
  - destruct s as [en rdy lr v2 cfg q b air rb rs pq d1 d2 m]. cbn [espnow_rx_seq] in Hs. subst rs. reflexivity.
  - rewrite zlen_nil. lia.
  - right. rewrite Hs. split; [|reflexivity]. intros E. now apply (tag_bits _ Ht).
Qed.

(** ESP-NOW delivers packets whole and in order: a ready sender accepts any
    packets of 1 to 508 bytes, whatever random tags it draws, and puts frames of at
    most 250 bytes on the air; a receiver that is between packets and gets those
    frames reassembles exactly the packets, in order, while its packet queue has
    room. *)
Theorem espnow_reassembles (ps : list (Z * list Z)) (s r : espnow) (info : recv_info) :
  ready_idle s -> on_air s = [] ->
  Forall (fun p => is_u8 (fst p) /\ 0 < zlen (snd p) <= MTU) ps ->
  espnow_v2 r = false -> espnow_rx_seq r = SEQ_UNSET ->
  zlen (espnow_packet_queue r) + zlen ps <= ESPNOW_QUEUE_SIZE ->
  let frames := on_air (foldl send_and_pump s ps) in
  let r' := foldl (fun r f => espnow_recv_cb true info f r) r frames in
  Forall (fun f => zlen f <= ESPNOW_RAW_MTU) frames /\
  map p_data (espnow_packet_queue r') = map p_data (espnow_packet_queue r) ++ map snd ps /\
  espnow_rx_seq r' = SEQ_UNSET.
Proof.
  intros Hs Hair Hps Hv Hq Hroom. cbv zeta.
  assert (Hframes : on_air (foldl send_and_pump s ps) = concat (map packet_chunks ps)).
  { rewrite <- (app_nil_l (concat _)), <- Hair. clear Hair Hroom. revert s Hs.
    induction Hps as [|p ps [_ Hp] _ IH]; intros s Hs; [now rewrite app_nil_r|]. cbn [foldl map concat].
    destruct (send_and_pump_spec s p Hs Hp) as (_ & Hs' & E). now rewrite (IH _ Hs'), E, app_assoc. }
  rewrite Hframes. split; [|clear Hframes Hs s Hair].
  - apply Forall_concat, Forall_map. apply Forall_true. intros [rnd d]. unfold packet_chunks.
    cbn [fst snd] in *. generalize (S (length d)), (Z.land rnd NIBBLE_SEQ). intros fuel tag. revert d.
    induction fuel as [|fuel IH]; intros d; cbn [split_chunks]; [constructor|].
    unfold ESPNOW_CHUNK_SIZE, ESPNOW_RAW_MTU in *. destruct (Z.leb_spec (zlen d) (250 - 1)); repeat constructor.
    + rewrite zlen_cons. lia.
    + rewrite zlen_cons. unfold zlen. rewrite length_take. lia.
    + apply IH.
  - revert r Hv Hq Hroom. induction Hps as [|p ps [Hu Hp] _ IH]; intros r Hv Hq Hroom.
    { split; [now rewrite app_nil_r|exact Hq]. }
    cbn [map concat]. rewrite foldl_app, recv_packet by assumption. rewrite zlen_cons in Hroom.
    pose proof (zlen_nonneg ps). unfold espnow_rx_deliver. cbn [negb].
    destruct r as [en rdy lr v2 cfg q b air rb rs pq d1 d2 m]. cbn in Hv, Hq, Hroom. subst.
    cbn -[zlen Z.ltb ESPNOW_QUEUE_SIZE foldl]. rewrite (proj2 (Z.ltb_lt (zlen pq) _)) by lia.
    edestruct IH as [E1 E2]; [| | |split; [|exact E2]]; cbn -[zlen ESPNOW_QUEUE_SIZE]; try reflexivity.
    + rewrite zlen_app, zlen_cons, zlen_nil. lia.
    + etransitivity; [exact E1|]. cbn. rewrite map_app, <- app_assoc. reflexivity.
Qed.

(** An interface that is up, in v1 framing. *)
Definition espnow0 : espnow :=
  mk_espnow true true false false (mk_cfg 0 0 0 0 0 0 0 0) [] false [] [] SEQ_UNSET [] false false false.

Lemma espnow_reassembles_witness :
  let info := mk_info [1; 2; 3; 4; 5; 6] (Some (-60, -95)) in
  map p_data (espnow_packet_queue (foldl (fun r f => espnow_recv_cb true info f r) espnow0
    (on_air (foldl send_and_pump espnow0 [(0x37, repeat 7 508); (0x31, [1])])))) = [repeat 7 508; [1]].
Proof.
  intros info.
  assert (Hps : Forall (fun p => is_u8 (fst p) /\ 0 < zlen (snd p) <= MTU) [(0x37, repeat 7 508); (0x31, [1])])
    by (repeat constructor; discriminate).
  pose proof (espnow_reassembles [(0x37, repeat 7 508); (0x31, [1])] espnow0 espnow0 info
    (conj eq_refl (conj eq_refl (conj eq_refl eq_refl))) eq_refl Hps eq_refl eq_refl) as P.
  assert (Hroom : zlen (espnow_packet_queue espnow0) + zlen [(0x37, repeat 7 508); (0x31, [1])] <= ESPNOW_QUEUE_SIZE)
    by discriminate.
  specialize (P Hroom). cbv zeta in P. destruct P as (_ & P & _). exact P.
Defined.

(** A lost last chunk can join two packets: when the second half of a packet
    of 250 to 498 bytes is lost and the next packet of at most 259 bytes draws the
    same tag (one chance in sixteen), the receiver appends it to the orphaned first
    half and delivers the two as one packet. *)
Theorem espnow_lost_tail_joins (rnd : Z) (a b : list Z) (r : espnow) (info : recv_info) :
  is_u8 rnd -> espnow_v2 r = false -> espnow_rx_seq r = SEQ_UNSET ->
  249 < zlen a <= 498 -> 0 < zlen b <= 259 -> zlen (espnow_packet_queue r) < ESPNOW_QUEUE_SIZE ->
  let r' := foldl (fun r f => espnow_recv_cb true info f r) r (take 1 (packet_chunks (rnd, a)) ++ packet_chunks (rnd, b)) in
  map p_data (espnow_packet_queue r') = map p_data (espnow_packet_queue r) ++ [take 249 a ++ b].
Proof.
  intros Hu Hv Hs Ha Hb Hq. cbv zeta.
  assert (Ht : is_tag (Z.land rnd NIBBLE_SEQ)) by (exists rnd; split; [exact Hu|reflexivity]).
  destruct (tag_bits _ Ht) as (B1 & B2 & B3 & B4 & B5).
  assert (E : take 1 (packet_chunks (rnd, a)) = [Z.lor (Z.land rnd NIBBLE_SEQ) ESPNOW_FRAG_MORE :: take 249 a]).
  { unfold packet_chunks. cbn [fst snd split_chunks]. unfold ESPNOW_CHUNK_SIZE, ESPNOW_RAW_MTU.
    rewrite (proj2 (Z.leb_gt (zlen a) (250 - 1))) by lia. reflexivity. }
  assert (Hlen : zlen (take 249 a) = 249) by (unfold zlen in *; rewrite length_take; lia).
  rewrite E. cbn [app foldl].
  rewrite (recv_step true info (Z.land rnd NIBBLE_SEQ) []);
    [|exact Hv|right; split; [rewrite Hs; congruence|reflexivity]|exact B3|lia|rewrite Hlen; discriminate].
  cbv zeta. rewrite B4. cbn [negb Z.eqb]. unfold packet_chunks. cbn [fst snd].
  destruct r as [en rdy lr v2 cfg q bz air rb rs pq d1 d2 m]. cbn in Hv, Hs, Hq. subst.
  rewrite (recv_chunks true info _ _ _ (take 249 a)); try assumption; try lia; try reflexivity.
  - unfold espnow_rx_deliver. cbn -[zlen Z.ltb ESPNOW_QUEUE_SIZE].
    rewrite (proj2 (Z.ltb_lt (zlen pq) _)) by exact Hq. cbn. now rewrite map_app.
  - rewrite Hlen. unfold MTU. lia.
  - left. split; reflexivity.
Qed.

Lemma espnow_lost_tail_joins_witness :
  let info := mk_info [] None in
  map p_data (espnow_packet_queue (foldl (fun r f => espnow_recv_cb true info f r) espnow0
    (take 1 (packet_chunks (0x37, repeat 7 300)) ++ packet_chunks (0x37, [1; 2])))) = [repeat 7 249 ++ [1; 2]].
Proof.
  intros info.
  assert (Hu : is_u8 0x37) by (split; [discriminate|reflexivity]).
  assert (Ha : 249 < zlen (repeat 7 300) <= 498) by (split; [reflexivity|discriminate]).
  assert (Hb : 0 < zlen [1; 2] <= 259) by (split; [reflexivity|discriminate]).
  assert (Hq : zlen (espnow_packet_queue espnow0) < ESPNOW_QUEUE_SIZE) by reflexivity.
  pose proof (espnow_lost_tail_joins 0x37 (repeat 7 300) [1; 2] espnow0 info Hu eq_refl eq_refl Ha Hb Hq) as P.
  cbv zeta in P. exact P.
Defined.

(** ** To the host *)

Lemma fill_frame_escaped data : forall buf,
  zlen buf + 2 * zlen data <= 2 * MTU + 2 -> fill_frame buf data = buf ++ escaped data.
Proof.
  induction data as [|b data IH]; intros buf Hb; [now rewrite app_nil_r|]. rewrite zlen_cons in Hb.
  pose proof (zlen_nonneg data). cbn [fill_frame]. rewrite (proj2 (Z.ltb_lt (zlen buf) _)) by lia.
  rewrite escaped_cons, escaped_serial_write_spec.
  destruct (Z.eqb_spec b FEND) as [->|]; [|destruct (Z.eqb_spec b FESC) as [->|]]; cbn [Z.eqb FEND FESC TFEND Pos.eqb];
    rewrite IH by (rewrite ?zlen_app, ?zlen_cons, ?zlen_nil; lia); now rewrite <- ?app_assoc.
Qed.

(** The host receives every reassembled packet intact: when the main loop
    drains the packet queue, a KISS reader recovers the interface selection, the
    RSSI and SNR of the packet and its exact payload, whatever bytes it contains,
    and the frame buffer never truncates a packet of up to 508 bytes. *)
Theorem espnow_host_receives (s : espnow) (p : espnow_packet_t) (q : list espnow_packet_t) :
  espnow_packet_queue s = p :: q -> zlen (p_data p) <= MTU ->
  espnow_packet_queue (snd (update_espnow s)) = q /\
  snd (kiss_read reader0 (fst (update_espnow s))) =
    [(CMD_SEL_INT, [1]); (CMD_STAT_RSSI, [u8 (p_rssi p + rssi_offset)]);
     (CMD_SEL_INT, [1]); (CMD_STAT_SNR, [u8 (p_snr_raw p)]); (CMD_SEL_INT, [1]); (CMD_DATA, p_data p)].
Proof.
  intros Hq Hd. unfold update_espnow. rewrite Hq. cbn [fst snd]. split; [now destruct s|].
  unfold kiss_write_espnow_packet. rewrite fill_frame_escaped by (rewrite !zlen_cons, zlen_nil; lia).
  set (fs := [(CMD_SEL_INT, [1]); (CMD_STAT_RSSI, _); _; _; _; _]).
  assert (E : forall x, x = frames fs -> snd (kiss_read reader0 x) = fs).
  { intros x ->. rewrite kiss_roundtrip_gen; [reflexivity|reflexivity|]. repeat constructor; discriminate. }
  apply E. unfold frames, fs. cbn [map concat fst snd]. rewrite app_nil_r.
  unfold kiss_indicate_v1_stat_rssi, kiss_indicate_v1_stat_snr.
  assert (Es : select_1 = Framing.frame CMD_SEL_INT [1])
    by (unfold select_1, kiss_select_interface; rewrite raw_frame_plain; [reflexivity|repeat constructor; discriminate]).
  rewrite Es, <- !app_assoc. reflexivity.
Qed.

Lemma espnow_host_receives_witness :
  let s := espnow0 <| espnow_packet_queue := [mk_pkt (-60) 40 [] [0xC0; 0xDB; 1]] |> in
  In (CMD_DATA, [0xC0; 0xDB; 1]) (snd (kiss_read reader0 (fst (update_espnow s)))).
Proof.
  intros s. rewrite (proj2 (espnow_host_receives s (mk_pkt (-60) 40 [] [0xC0; 0xDB; 1]) [] eq_refl ltac:(discriminate))).
  cbn. tauto.
Defined.
