(* ===== verification/Airtime.v ===== *)
(** * Airtime accounting (RNode_Firmware.ino, Config.h)

    The firmware charges each transmission to one of 480 bins of 7.5 seconds, and
    derives from the bins the short-term and the one-hour airtime, the channel
    utilisation, and the lock that stops transmission when a limit is reached.
    Time is the 32-bit millisecond counter.  [airtime_window] shows that the bins
    are a sliding window over the last 479 bins. *)
From Stdlib Require Import Floats.SpecFloat.
From S2P Require Import Prelude Boards Framing Rom Float FloatBounds Kiss Settings Modem.

(* @src Config.h:346-361 AIRTIME_BINS *)
Definition STATUS_INTERVAL_MS : Z := 3.
Definition DCD_SAMPLES : Z := 2500.
Definition UTIL_UPDATE_INTERVAL_MS : Z := 1000.
Definition UTIL_UPDATE_INTERVAL : Z := UTIL_UPDATE_INTERVAL_MS / STATUS_INTERVAL_MS.
Definition AIRTIME_LONGTERM : Z := 3600.
Definition AIRTIME_LONGTERM_MS : Z := AIRTIME_LONGTERM * 1000.
Definition AIRTIME_BINLEN_MS : Z := STATUS_INTERVAL_MS * DCD_SAMPLES.
Definition AIRTIME_BINS : Z := AIRTIME_LONGTERM * 1000 / AIRTIME_BINLEN_MS.

(* @src Config.h:352-363 airtime_bins *)
Record chan := mk_chan {
  util_samples : list bool; airtime_bins : list Z; longterm_bins : list cfloat; dcd_sample : Z;
  local_channel_util : cfloat; total_channel_util : cfloat; longterm_channel_util : cfloat;
  airtime : cfloat; longterm_airtime : cfloat;
  st_airtime_limit : cfloat; lt_airtime_limit : cfloat; airtime_lock : bool
}.

(* @src Config.h:362-362 current_airtime_bin *)
Definition current_airtime_bin (millis : Z) : Z := millis mod AIRTIME_LONGTERM_MS / AIRTIME_BINLEN_MS.
Definition next_bin (cb : Z) : Z := let nb := cb + 1 in if nb =? AIRTIME_BINS then 0 else nb.

(** ESP32 only; on nRF52 the body is compiled out. *)
(* @src Utilities.h:3447-3457 init_channel_stats *)
Definition init_channel_stats `{Board} (c : chan) : chan :=
  if MCU_VARIANT =? MCU_ESP32 then
    c <| util_samples := repeat false (Z.to_nat DCD_SAMPLES) |>
      <| airtime_bins := repeat 0 (Z.to_nat AIRTIME_BINS) |>
      <| longterm_bins := repeat f_zero (Z.to_nat AIRTIME_BINS) |>
      <| local_channel_util := f_zero |> <| total_channel_util := f_zero |>
      <| airtime := f_zero |> <| longterm_airtime := f_zero |>
  else c.

(** ** Charging a transmission *)

(** [lora_symbols] after the assignments of one branch: [int] arithmetic converted
    to [float]; the preamble is added in [double]. *)
(* @src RNode_Firmware.ino:1728-1751 add_airtime *)
Definition packet_cost (sum den cr preamble : Z) (quarter : cfloat) (symbol_ms : cfloat) : cfloat :=
  let s := f32_add f_zero (f32_of_Z sum) in
  let s := f32_div s (f32_of_Z den) in
  let s := f32_mul s (f32_of_Z cr) in
  let s := to_f32 (f64_add (to_f64 s) (f64_add (f64_add (f64_of_Z preamble) quarter) (f64_of_Z 8))) in
  f32_add f_zero (f32_mul s symbol_ms).

Definition quarter_025 : cfloat := f64_div (f64_of_Z 1) (f64_of_Z 4).
Definition quarter_225 : cfloat := f64_div (f64_of_Z 9) (f64_of_Z 4).

(* @src RNode_Firmware.ino:1722-1751 add_airtime *)
Definition packet_cost_ms `{Board} (written : Z) (lora_low_datarate : bool) (sf cr : Z) (r : rates) : cfloat :=
  let ldr_opt := if lora_low_datarate then 1 else 0 in
  let long_cost :=
    packet_cost (8 * written + PHY_CRC_LORA_BITS - 4 * sf + 8 + PHY_HEADER_LORA_SYMBOLS)
      (4 * (sf - 2 * ldr_opt)) cr (lora_preamble_symbols r) quarter_025 (lora_symbol_time_ms r) in
  if (MODEM =? SX1276) || (MODEM =? SX1278) then long_cost
  else if (MODEM =? SX1262) || (MODEM =? SX1280) then
    if sf <? 7 then
      packet_cost (8 * written + PHY_CRC_LORA_BITS - 4 * sf + PHY_HEADER_LORA_SYMBOLS)
        (4 * sf) cr (lora_preamble_symbols r) quarter_225 (lora_symbol_time_ms r)
    else long_cost
  else f_zero.

(** [airtime_bins[cb] += packet_cost_ms]: [uint16_t] plus [float]. *)
(* @src RNode_Firmware.ino:1755-1755 add_airtime *)
Definition bin_add (b : Z) (cost : cfloat) : Z := u16 (f_trunc (f32_add (f32_of_Z b) cost)).

(* @src RNode_Firmware.ino:1753-1756 add_airtime *)
Definition charge (millis : Z) (cost : cfloat) (bins : list Z) : list Z :=
  let cb := current_airtime_bin millis in
  zset (zset bins cb (bin_add (zget 0 bins cb) cost)) (next_bin cb) 0.

(* @src RNode_Firmware.ino:1722-1759 add_airtime *)
Definition add_airtime `{Board} (millis written : Z) (lora_low_datarate : bool) (sf cr : Z) (r : rates) (c : chan) : chan :=
  c <| airtime_bins ::= charge millis (packet_cost_ms written lora_low_datarate sf cr r) |>.

(** ** Deriving the statistics *)

Definition sumZ (l : list Z) : Z := foldl Z.add 0 l.
Definition sum32 (l : list cfloat) : cfloat := foldl f32_add f_zero l.

(** The call of [update_csma_parameters] and the channel report follow in
    [Csma.v]. *)
(* @src RNode_Firmware.ino:1769-1785 update_airtime *)
Definition update_airtime_bins (millis : Z) (c : chan) : chan :=
  let cb := current_airtime_bin millis in
  let pb := if cb - 1 <? 0 then AIRTIME_BINS - 1 else cb - 1 in
  let bins := zset (airtime_bins c) (next_bin cb) 0 in
  c <| airtime_bins := bins |>
    <| airtime := to_f32 (f64_div (to_f64 (f32_of_Z (zget 0 bins cb + zget 0 bins pb)))
                            (f64_mul (f64_of_Z 2) (f64_of_Z AIRTIME_BINLEN_MS))) |>
    <| longterm_airtime := f32_div (f32_of_Z (u32 (sumZ bins))) (f32_of_Z AIRTIME_LONGTERM_MS) |>
    <| longterm_channel_util := f32_div (sum32 (longterm_bins c)) (f32_of_Z AIRTIME_BINS) |>.

(* @src RNode_Firmware.ino:3357-3359 loop *)
Definition update_lock (c : chan) : chan :=
  let c := c <| airtime_lock := false |> in
  let hit limit value := negb (SFeqb limit f_zero) && f_leb limit value in
  let c := if hit (st_airtime_limit c) (airtime c) then c <| airtime_lock := true |> else c in
  if hit (lt_airtime_limit c) (longterm_airtime c) then c <| airtime_lock := true |> else c.

(** The sampling half of [check_modem_status]: [dcd] is the carrier flag; the
    result says whether [update_airtime] follows. *)
(* @src RNode_Firmware.ino:2991-3009 check_modem_status *)
Definition sample_utilisation (millis : Z) (dcd : bool) (c : chan) : bool * chan :=
  let c := c <| util_samples := zset (util_samples c) (dcd_sample c) dcd |>
             <| dcd_sample := (dcd_sample c + 1) mod DCD_SAMPLES |> in
  if dcd_sample c mod UTIL_UPDATE_INTERVAL =? 0 then
    let util_count := Z.of_nat (length (List.filter (fun b => b) (util_samples c))) in
    let local := f32_div (f32_of_Z util_count) (f32_of_Z DCD_SAMPLES) in
    let total := f32_add local (airtime c) in
    let total := if f_ltb (f32_of_Z 1) total then f32_of_Z 1 else total in
    let cb := current_airtime_bin millis in
    let lt := if f_ltb (zget f_zero (longterm_bins c) cb) total then zset (longterm_bins c) cb total
              else longterm_bins c in
    (true, c <| local_channel_util := local |> <| total_channel_util := total |>
             <| longterm_bins := zset lt (next_bin cb) f_zero |>)
  else (false, c).

(** ** The sliding window *)

(** What happens to the bins: a charge, or an update. *)
Inductive bin_op := Charge (cost : cfloat) | Refresh.
Definition run_bin (bins : list Z) (e : Z * bin_op) : list Z :=
  match snd e with
  | Charge cost => charge (fst e) cost bins
  | Refresh => zset bins (next_bin (current_airtime_bin (fst e))) 0
  end.

(** The bin of a time, counted from the start. *)
Definition abs_bin (t : Z) : Z := t / AIRTIME_BINLEN_MS.
(** The specification: the whole milliseconds charged in a bin, and the charges there. *)
Definition charges_in (es : list (Z * bin_op)) (n : Z) : list cfloat :=
  omap (fun '(t, op) => match op with Charge c => if abs_bin t =? n then Some c else None | Refresh => None end) es.
Definition charged (es : list (Z * bin_op)) (n : Z) : Z := foldr Z.add 0 (map f_trunc (charges_in es n)).
(** What a cell goes through, as the code computes it. *)
Definition content (es : list (Z * bin_op)) (n : Z) : Z :=
  foldl (fun b e => match snd e with Charge c => if abs_bin (fst e) =? n then bin_add b c else b | Refresh => b end) 0 es.

(** Time runs forward and no bin passes without an operation. *)
Inductive timeline : Z -> list (Z * bin_op) -> Prop :=
  | tl_start t op : 0 <= t < 2 ^ 32 -> timeline t [(t, op)]
  | tl_step t es t' op : timeline t es -> t <= t' < 2 ^ 32 -> abs_bin t' <= abs_bin t + 1 ->
      timeline t' (es ++ [(t', op)]).

Lemma bins_480 : AIRTIME_BINS = 480.
Proof. reflexivity. Qed.
Lemma current_bin_abs t : current_airtime_bin t = abs_bin t mod 480.
Proof.
  unfold current_airtime_bin, abs_bin. change AIRTIME_LONGTERM_MS with (7500 * 480). change AIRTIME_BINLEN_MS with 7500.
  rewrite Z.rem_mul_r by lia. rewrite Z.add_comm, (Z.mul_comm 7500), Z.div_add_l by lia.
  rewrite (Z.div_small (t mod 7500)) by (apply Z.mod_pos_bound; lia). lia.
Qed.
Lemma next_bin_mod n : next_bin (n mod 480) = (n + 1) mod 480.
Proof.
  unfold next_bin. rewrite bins_480. pose proof (Z.mod_pos_bound n 480 ltac:(lia)).
  destruct (Z.eqb_spec (n mod 480 + 1) 480); Z.div_mod_to_equations; lia.
Qed.

(** The bins after the operations up to absolute bin [n]. *)
Record window (n : Z) (es : list (Z * bin_op)) (bins : list Z) : Prop := {
  w_len : length bins = 480%nat;
  w_past j : 0 <= j < 479 -> zget 0 bins ((n - j) mod 480) = if n - j <? 0 then 0 else content es (n - j);
  w_next : zget 0 bins ((n + 1) mod 480) = 0
}.

Lemma content_future es n : Forall (fun e => abs_bin (fst e) < n) es -> content es n = 0.
Proof.
  unfold content. generalize 0 as b. induction es as [|[t op] es IH]; intros b Hf; [reflexivity|].
  inversion_clear Hf as [|? ? Ht Hf']. cbn [foldl fst snd] in *. destruct op; [|now apply IH].
  rewrite (proj2 (Z.eqb_neq _ _)) by lia. now apply IH.
Qed.
Lemma content_app es e n : content (es ++ [e]) n =
  match snd e with Charge c => if abs_bin (fst e) =? n then bin_add (content es n) c else content es n | Refresh => content es n end.
Proof. unfold content. rewrite foldl_app. reflexivity. Qed.

Lemma timeline_past t es : timeline t es -> Forall (fun e => abs_bin (fst e) <= abs_bin t) es /\ 0 <= t.
Proof.
  unfold abs_bin. induction 1 as [t op Ht|t es t' op Htl [IH IH0] Ht' Hb]; [split; [repeat constructor; cbn; lia|lia]|].
  split; [|lia]. apply Forall_app. split; [|repeat constructor; cbn; lia].
  eapply List.Forall_impl; [|exact IH]. cbn. intros e He.
  pose proof (Z.div_le_mono t t' AIRTIME_BINLEN_MS ltac:(reflexivity) ltac:(lia)). lia.
Qed.

(** The window at bin [n], apart from the cleared cell ahead. *)
Definition cells (n : Z) (es : list (Z * bin_op)) (bins : list Z) : Prop :=
  forall j, 0 <= j < 479 -> zget 0 bins ((n - j) mod 480) = if n - j <? 0 then 0 else content es (n - j).

Lemma window_advance n n' es bins :
  window n es bins -> Forall (fun e => abs_bin (fst e) <= n) es -> 0 <= n -> n <= n' <= n + 1 -> cells n' es bins.
Proof.
  intros [_ Hp Hn] Hf H0 Hn' j Hj. destruct (decide (n' = n)) as [->|]; [now apply Hp|].
  replace n' with (n + 1) by lia. destruct (decide (j = 0)) as [->|].
  - rewrite Z.sub_0_r, Hn, content_future; [now destruct (_ <? _)|].
    eapply List.Forall_impl; [|exact Hf]. cbn. lia.
  - replace (n + 1 - j) with (n - (j - 1)) by lia. apply Hp. lia.
Qed.

Lemma mod_ne n j k : 0 < k - j < 480 -> (n - j) mod 480 <> (n - k) mod 480.
Proof. intros Hk He. Z.div_mod_to_equations; lia. Qed.

Lemma window_clear n es bins : length bins = 480%nat -> cells n es bins ->
  window n es (zset bins ((n + 1) mod 480) 0).
Proof.
  intros Hl Hc. pose proof (Z.mod_pos_bound (n + 1) 480 ltac:(lia)). split.
  - rewrite length_zset; [exact Hl|]. unfold zlen. lia.
  - intros j Hj. pose proof (Z.mod_pos_bound (n - j) 480 ltac:(lia)).
    rewrite zget_zset_ne; [now apply Hc|unfold zlen; lia|lia|].
    replace (n + 1) with (n - -1) by lia. apply mod_ne. lia.
  - apply zget_zset_eq. unfold zlen. lia.
Qed.

Lemma window_op t es op bins : length bins = 480%nat -> 0 <= t -> cells (abs_bin t) es bins ->
  window (abs_bin t) (es ++ [(t, op)]) (run_bin bins (t, op)).
Proof.
  intros Hl Ht Hc. unfold run_bin, charge. cbn [fst snd]. rewrite current_bin_abs, next_bin_mod.
  destruct op as [c|]; apply window_clear; unfold cells in *; try exact Hl.
  - pose proof (Z.mod_pos_bound (abs_bin t) 480 ltac:(lia)). rewrite length_zset; [exact Hl|]. unfold zlen. lia.
  - intros j Hj. pose proof (Z.mod_pos_bound (abs_bin t - j) 480 ltac:(lia)).
    pose proof (Z.mod_pos_bound (abs_bin t) 480 ltac:(lia)). rewrite content_app. cbn [fst snd].
    destruct (decide (j = 0)) as [->|].
    + assert (0 <= abs_bin t) by (apply Z.div_pos; [lia|reflexivity]).
      specialize (Hc 0 ltac:(lia)). rewrite Z.sub_0_r in *. rewrite Z.eqb_refl, zget_zset_eq by (unfold zlen; lia).
      rewrite Hc. now rewrite (proj2 (Z.ltb_ge (abs_bin t) 0)) by lia.
    + rewrite zget_zset_ne; [|unfold zlen; lia|lia|].
      * rewrite (proj2 (Z.eqb_neq (abs_bin t) (abs_bin t - j))) by lia. now apply Hc.
      * intros He. apply (mod_ne (abs_bin t) 0 j); [lia|]. now rewrite Z.sub_0_r.
  - intros j Hj. rewrite content_app. cbn [fst snd]. now apply Hc.
Qed.

Lemma cells_init t : cells t [] (repeat 0 480).
Proof.
  intros j Hj. unfold zget. replace (content [] (t - j)) with 0 by reflexivity.
  replace (if _ <? _ then 0 else 0) with 0 by now destruct (_ <? _).
  destruct (repeat 0 480 !! _) as [v|] eqn:He; [|reflexivity].
  apply list_elem_of_lookup_2, list_elem_of_In, repeat_spec in He. now subst.
Qed.

Lemma timeline_window t es : timeline t es -> window (abs_bin t) es (foldl run_bin (repeat 0 480) es).
Proof.
  induction 1 as [t op Ht|t es t' op Htl IH Ht' Hb].
  - cbn [foldl]. apply (window_op t [] op); [reflexivity|lia|apply cells_init].
  - destruct (timeline_past t es Htl) as [Hf H0]. rewrite foldl_app. cbn [foldl].
    apply window_op; [exact (w_len _ _ _ IH)|lia|].
    apply (window_advance (abs_bin t)); [exact IH|exact Hf|apply Z.div_pos; [lia|reflexivity]|].
    pose proof (Z.div_le_mono t t' AIRTIME_BINLEN_MS ltac:(reflexivity) ltac:(lia)). unfold abs_bin in *. lia.
Qed.

(** A cell against the specification: a charge adds the whole milliseconds of its cost, or
    one more where the addition rounds up. *)
Definition fits (es : list (Z * bin_op)) : Prop :=
  forall n, Forall duration (charges_in es n) /\ charged es n + zlen (charges_in es n) < 2 ^ 16.
Lemma bin_add_bounds b c : duration c -> 0 <= b -> b + f_trunc c + 1 < 2 ^ 16 -> b + f_trunc c <= bin_add b c <= b + f_trunc c + 1.
Proof.
  intros Hc Hb Hs. pose proof (trunc_nonneg c Hc). pose proof (trunc_add b c Hc Hb ltac:(lia) ltac:(lia)). unfold bin_add. rewrite u16_id by lia. lia.
Qed.
Lemma content_charges es n : content es n = foldl bin_add 0 (charges_in es n).
Proof.
  unfold content, charges_in. generalize 0 as b. induction es as [|[t [c|]] es IH]; intros b; [reflexivity| |apply IH].
  cbn [foldl fst snd omap list_omap]. destruct (abs_bin t =? n); apply IH.
Qed.
Lemma sum_charges cs : forall b, Forall duration cs -> 0 <= b -> b + foldr Z.add 0 (map f_trunc cs) + zlen cs < 2 ^ 16 ->
  b + foldr Z.add 0 (map f_trunc cs) <= foldl bin_add b cs <= b + foldr Z.add 0 (map f_trunc cs) + zlen cs.
Proof.
  induction cs as [|c cs IH]; intros b Hc Hb Hs; [change (zlen (@nil cfloat)) with 0 in *; cbn [map foldr foldl] in *; lia|]. inversion Hc as [|? ? Hc1 Hc2]; subst. rewrite zlen_cons in *. cbn [map foldr foldl] in *.
  pose proof (trunc_nonneg c Hc1). pose proof (zlen_nonneg cs).
  assert (0 <= foldr Z.add 0 (map f_trunc cs)) by (clear -Hc2; induction Hc2 as [|c cs Hc _ IH]; cbn [map foldr]; [lia|]; pose proof (trunc_nonneg c Hc); lia).
  pose proof (bin_add_bounds b c Hc1 Hb ltac:(lia)). pose proof (IH (bin_add b c) Hc2 ltac:(lia) ltac:(lia)). lia.
Qed.
Lemma content_charged es n : fits es -> charged es n <= content es n <= charged es n + zlen (charges_in es n).
Proof. intros Hf. destruct (Hf n) as [Hd Hs]. rewrite content_charges. apply (sum_charges _ 0 Hd); unfold charged in *; lia. Qed.

(** C30. The circular array of bins is a sliding window, up to the first overflow of the
    32-bit millisecond counter (49 days).  From zeroed bins, after any sequence of charges
    and updates in which no 7.5-second bin passes without one, each of the last 479 bins
    holds the sum of the whole milliseconds charged in that period, and at most one
    millisecond more for each charge, by rounding; nothing older is left, and the bin ahead
    is empty.  (A charge is a number of milliseconds, not negative, and those of one bin
    stay below its 65536.) *)
(* @prop equivalence W=airtime_window_witness D=charge,current_airtime_bin,bin_add *)
Theorem airtime_window t es : timeline t es -> fits es ->
  let bins := foldl run_bin (repeat 0 480) es in
  (forall j, 0 <= j < 479 -> 0 <= abs_bin t - j ->
     charged es (abs_bin t - j) <= zget 0 bins ((abs_bin t - j) mod AIRTIME_BINS) <= charged es (abs_bin t - j) + zlen (charges_in es (abs_bin t - j))) /\
  (forall j, 0 <= j < 479 -> abs_bin t - j < 0 -> zget 0 bins ((abs_bin t - j) mod AIRTIME_BINS) = 0) /\
  zget 0 bins ((abs_bin t + 1) mod AIRTIME_BINS) = 0.
Proof.
  intros Htl Hf bins. rewrite bins_480. destruct (timeline_window t es Htl) as [_ Hp Hn].
  split; [|split; [|exact Hn]]; intros j Hj Hb; unfold bins; rewrite Hp by lia.
  - rewrite (proj2 (Z.ltb_ge (abs_bin t - j) 0)) by lia. now apply content_charged.
  - now rewrite (proj2 (Z.ltb_lt (abs_bin t - j) 0)) by lia.
Qed.

Lemma airtime_window_witness :
  let es := [(1000, Charge (f32_of_Z 100)); (8000, Refresh); (8100, Charge (f32_of_Z 55)); (8200, Charge (f32_of_Z 20))] in
  timeline 8200 es /\ fits es /\ 75 <= zget 0 (foldl run_bin (repeat 0 480) es) 1 <= 77.
Proof.
  intros es. assert (H : timeline 8200 es).
  { apply (tl_step 8100 [_; _; _]); [|lia|now vm_compute].
    apply (tl_step 8000 [_; _]); [|lia|now vm_compute].
    apply (tl_step 1000 [_]); [constructor; lia|lia|now vm_compute]. }
  assert (F : fits es).
  { intros n. unfold charged, charges_in, es. cbn [omap list_omap]. change (abs_bin 1000) with 0. change (abs_bin 8100) with 1. change (abs_bin 8200) with 1.
    destruct (Z.eqb_spec 0 n) as [<-|]; [|destruct (Z.eqb_spec 1 n) as [<-|]]; (split; [repeat constructor|reflexivity]). }
  split; [exact H|]. split; [exact F|]. exact (proj1 (airtime_window 8200 es H F) 0 ltac:(lia) ltac:(now vm_compute)).
Defined.
(** When the counter starts again from zero, the index falls back from bin 22 to bin 0,
    which was not cleared: what was charged there 167 seconds before is counted again. *)
Example airtime_wrap :
  let es := [(4294800000, Charge (f32_of_Z 100)); (2 ^ 32 - 1, Refresh); (0, Charge (f32_of_Z 50))] in
  map (fun e => current_airtime_bin (fst e)) es = [0; 22; 0] /\ zget 0 (foldl run_bin (repeat 0 480) es) 0 = 150.
Proof. split; vm_compute; reflexivity. Qed.

(** When one bin passes without an operation, as during a transmission longer than
    7.5 seconds, the bin after it was not cleared: the next charge adds to what was
    charged there an hour before. *)
Theorem airtime_skipped_bin t es t' c : timeline t es -> abs_bin t' = abs_bin t + 2 -> 478 <= abs_bin t ->
  zget 0 (run_bin (foldl run_bin (repeat 0 480) es) (t', Charge c)) (current_airtime_bin t') =
  bin_add (content es (abs_bin t - 478)) c.
Proof.
  intros Htl Ht' Hn. destruct (timeline_window t es Htl) as [Hl Hp _].
  unfold run_bin at 1, charge. cbn [fst snd]. rewrite current_bin_abs, next_bin_mod.
  pose proof (Z.mod_pos_bound (abs_bin t') 480 ltac:(lia)). pose proof (Z.mod_pos_bound (abs_bin t' + 1) 480 ltac:(lia)).
  assert (Hz : zlen (foldl run_bin (repeat 0 480) es) = 480) by (unfold zlen; lia).
  rewrite zget_zset_ne by (rewrite ?zlen_zset by lia; first [lia | intros He; apply (mod_ne (abs_bin t' + 1) 0 1); [lia|]; rewrite Z.sub_0_r, He; f_equal; lia]).
  rewrite zget_zset_eq by lia. f_equal.
  replace (abs_bin t' mod 480) with ((abs_bin t - 478) mod 480)
    by (rewrite Ht'; replace (abs_bin t + 2) with (abs_bin t - 478 + 1 * 480) by lia; now rewrite Z.mod_add by lia).
  rewrite Hp by lia. now rewrite (proj2 (Z.ltb_ge (abs_bin t - 478) 0)) by lia.
Qed.
