(* ===== verification/Csma.v ===== *)
(** * Medium access (RNode_Firmware.ino, Config.h)

    Carrier sensing, the noise floor, interference detection, the contention
    window of each airtime band and [tx_queue_handler], which decides in each turn of
    [loop()] whether the transmit queue is drained.  The clock is the 32-bit
    millisecond counter; each call of the handler gets the readings it makes.  The
    driver's carrier flag and signal strength are inputs of each call. *)
From S2P Require Import Prelude Boards Framing Rom Float Kiss Settings Modem Airtime Fifo TxQueue.

(** What the code uses of the Arduino core. *)
Class Arduino := { arduino_map : Z -> Z -> Z -> Z -> Z -> Z }.

(** Boards with a low-noise amplifier in front of the receiver. *)
(* @src Boards.h:1239-1247 LORA_LNA_GVT *)
Class Lna := { HAS_LORA_LNA : bool; LORA_LNA_GVT : Z }.
(* @src Boards.h:1239-1239 LNA_GD_THRSHLD *)
Definition LNA_GD_THRSHLD : Z := -109.
(* @src Boards.h:1240-1240 LNA_GD_LIMIT *)
Definition LNA_GD_LIMIT : Z := -89.

(* @src Config.h:205-209 CSMA_CW_BANDS *)
Definition CSMA_CW_BANDS : Z := 4.
Definition CSMA_CW_PER_BAND_WINDOWS : Z := 15.
Definition CSMA_BAND_1_MAX_AIRTIME : Z := 7.
Definition CSMA_BAND_N_MIN_AIRTIME : Z := 85.
(* @src Config.h:211-218 CSMA_INFR_THRESHOLD_DB *)
Definition CSMA_INFR_THRESHOLD_DB `{Board} : Z :=
  if (BOARD_MODEL =? BOARD_MESHADVENTURER_S3) || (BOARD_MODEL =? BOARD_MESHADVENTURER) ||
     (BOARD_MODEL =? BOARD_MESHPOE_S3) || (BOARD_MODEL =? BOARD_TBEAM_1W) then 14
  else if BOARD_MODEL =? BOARD_PROMICRO then 28 else 11.
(* @src Config.h:220-221 CSMA_RFENV_RECAL_MS *)
Definition CSMA_RFENV_RECAL_MS : Z := 2500.
Definition CSMA_RFENV_RECAL_LIMIT_DB : Z := -83.
(* @src Config.h:286-286 NOISE_FLOOR_SAMPLES *)
Definition NOISE_FLOOR_SAMPLES : Z := 128.
(* @src RNode_Firmware.ino:2859-2859 LED_ID_TRIG *)
Definition LED_ID_TRIG : Z := 16.

Definition is_heltec_v4 `{Board} : bool :=
  (BOARD_MODEL =? BOARD_HELTEC32_V4) || (BOARD_MODEL =? BOARD_HELTEC32_V4_R8).

(** ** The modem's status *)

(* @src RNode_Firmware.ino:2825-2862 noise_floor_sampled *)
Record modem_status := mk_status {
  dcd : bool; interference_detected : bool; current_rssi : Z; noise_floor : Z;
  noise_floor_sampled : bool; noise_floor_sample : Z; noise_floor_buffer : list Z;
  last_status_update : Z; led_id_filter : Z; interference_start : Z; interference_persists : bool
}.
Definition status_init : modem_status :=
  mk_status false false (-292) (-292) false 0 (repeat 0 (Z.to_nat NOISE_FLOOR_SAMPLES)) 0 0 0 false.

(* @src RNode_Firmware.ino:2828-2857 update_noise_floor *)
Definition update_noise_floor `{Board} `{Lna} (m : modem_status) : modem_status :=
  if negb (dcd m) then
    let near := negb (noise_floor_sampled m) || (current_rssi m <? noise_floor m + CSMA_INFR_THRESHOLD_DB) in
    let take := if is_heltec_v4
      then near || (noise_floor_sampled m && ((noise_floor m <? LNA_GD_THRSHLD) && (current_rssi m <=? LNA_GD_LIMIT)))
      else near in
    if take then
      if HAS_LORA_LNA && (current_rssi m <? noise_floor m - LORA_LNA_GVT) then m
      else
        let m := m <| noise_floor_buffer := zset (noise_floor_buffer m) (noise_floor_sample m) (current_rssi m) |>
                   <| noise_floor_sample := noise_floor_sample m + 1 |> in
        let '(sum_noise_floor, m) :=
          if NOISE_FLOOR_SAMPLES <=? noise_floor_sample m
          then (true, m <| noise_floor_sample := noise_floor_sample m mod NOISE_FLOOR_SAMPLES |>
                        <| noise_floor_sampled := true |>)
          else (false, m) in
        if noise_floor_sampled m && sum_noise_floor
        then m <| noise_floor := Z.quot (sumZ (noise_floor_buffer m)) NOISE_FLOOR_SAMPLES |>
        else m
    else m
  else m.

(** What the receive LEDs show; [LedKeep] leaves them as they are. *)
Inductive rx_led := LedRx | LedInterference | LedAirtimeLock | LedOff | LedKeep.

(** One look at the radio: its carrier flag and signal strength, and the clock at
    the two places it may be read. *)
Record look := mk_look { carrier_detected : bool; new_current_rssi : Z; t_status : Z; t_interf : Z }.

(* @src RNode_Firmware.ino:2912-2916 update_modem_status *)
Definition interference `{Board} (l : look) (m : modem_status) : bool :=
  if is_heltec_v4 then
    if LNA_GD_THRSHLD <? noise_floor m
    then negb (carrier_detected l) && (noise_floor m + CSMA_INFR_THRESHOLD_DB <? current_rssi m)
    else negb (carrier_detected l) && (LNA_GD_LIMIT <? current_rssi m)
  else negb (carrier_detected l) && (noise_floor m + CSMA_INFR_THRESHOLD_DB <? current_rssi m).

(** A persisting interference below the limit restarts the noise floor. *)
(* @src RNode_Firmware.ino:2921-2929 update_modem_status *)
Definition recalibrate (l : look) (m : modem_status) : modem_status :=
  if interference_detected m && (current_rssi m <? CSMA_RFENV_RECAL_LIMIT_DB) then
    if negb (interference_persists m)
    then m <| interference_persists := true |> <| interference_start := t_interf l |>
    else if CSMA_RFENV_RECAL_MS <=? u32 (t_interf l - interference_start m)
         then m <| noise_floor_sampled := false |> <| interference_persists := false |>
         else m
  else m <| interference_persists := false |>.

(* @src RNode_Firmware.ino:2933-2958 update_modem_status *)
Definition status_led (LED_DISPLAY_BLANKED airtime_lock : bool) (m : modem_status) : rx_led :=
  if negb LED_DISPLAY_BLANKED && dcd m then LedRx
  else if interference_detected m && noise_floor_sampled m then
    if (LED_ID_TRIG <=? led_id_filter m) && negb LED_DISPLAY_BLANKED then LedInterference else LedKeep
  else if airtime_lock && negb LED_DISPLAY_BLANKED then LedAirtimeLock
  else if negb LED_DISPLAY_BLANKED then LedOff else LedKeep.

(* @src RNode_Firmware.ino:2863-2976 update_modem_status *)
Definition update_modem_status `{Board} `{Lna} (LED_DISPLAY_BLANKED airtime_lock : bool) (l : look)
    (m : modem_status) : rx_led * modem_status :=
  let m := m <| current_rssi := new_current_rssi l |> <| last_status_update := t_status l |> in
  let m := m <| interference_detected := interference l m |> in
  let m := if interference_detected m
    then if led_id_filter m <? LED_ID_TRIG then m <| led_id_filter := u8 (led_id_filter m + 1) |> else m
    else if 0 <? led_id_filter m then m <| led_id_filter := u8 (led_id_filter m - 1) |> else m in
  let m := recalibrate l m in
  let m := m <| dcd := carrier_detected l |> in
  (status_led LED_DISPLAY_BLANKED airtime_lock m, update_noise_floor m).

(* @src RNode_Firmware.ino:2819-2823 medium_free *)
Definition medium_free `{Board} `{Lna} (LED_DISPLAY_BLANKED airtime_lock avoid_interference : bool) (l : look)
    (m : modem_status) : bool * modem_status :=
  let m := snd (update_modem_status LED_DISPLAY_BLANKED airtime_lock l m) in
  if avoid_interference && interference_detected m then (false, m) else (negb (dcd m), m).

(** ** Contention *)

(** [(unsigned long)-1], the "not started" mark. *)
Definition UNSET : Z := 2 ^ 32 - 1.

(* @src Config.h:224-233 difs_wait_start *)
Record csma := mk_csma {
  difs_wait_start : Z; cw_wait_start : Z; cw_wait_target : Z; cw_wait_passed : Z; csma_cw : Z;
  cw_band : Z; cw_min : Z; cw_max : Z
}.
Definition csma_init : csma := mk_csma UNSET UNSET UNSET 0 (-1) 1 0 CSMA_CW_PER_BAND_WINDOWS.

(* @src RNode_Firmware.ino:3162-3180 update_csma_parameters *)
Definition update_csma_parameters `{Arduino} (airtime : cfloat) (c : csma) : list Z * csma :=
  let airtime_pct := f_trunc (f32_mul airtime (f32_of_Z 100)) in
  let new_cw_band :=
    if airtime_pct <=? CSMA_BAND_1_MAX_AIRTIME then 1
    else arduino_map (airtime_pct + CSMA_BAND_1_MAX_AIRTIME) CSMA_BAND_1_MAX_AIRTIME CSMA_BAND_N_MIN_AIRTIME
           2 CSMA_CW_BANDS in
  let new_cw_band := if CSMA_CW_BANDS <? new_cw_band then CSMA_CW_BANDS else new_cw_band in
  if negb (new_cw_band =? cw_band c) then
    let c := c <| cw_band := u8 new_cw_band |> in
    let c := c <| cw_min := u8 ((cw_band c - 1) * CSMA_CW_PER_BAND_WINDOWS) |>
               <| cw_max := u8 (cw_band c * CSMA_CW_PER_BAND_WINDOWS - 1) |> in
    (kiss_indicate_csma_stats (cw_band c) (cw_min c) (cw_max c), c)
  else ([], c).

(** The state of [update_airtime] and [check_modem_status]: the statistics, the
    contention state and the bytes sent to the host.  The report is sent at once,
    as on the boards without the deferred-report task. *)
(* @src RNode_Firmware.ino:1769-1815 update_airtime *)
Definition update_airtime `{Arduino} (millis : Z) (m : modem_status) (ch : chan) (c : csma) : list Z * chan * csma :=
  let ch := update_airtime_bins millis ch in
  let '(o, c) := update_csma_parameters (airtime ch) c in
  (o ++ kiss_indicate_channel_stats (airtime ch) (longterm_airtime ch) (total_channel_util ch)
          (longterm_channel_util ch) (current_rssi m) (noise_floor m) (interference_detected m), ch, c).

(* @src RNode_Firmware.ino:2983-3016 check_modem_status *)
Definition check_modem_status `{Board} `{Lna} `{Arduino} (status_interval_ms now t_bin : Z)
    (LED_DISPLAY_BLANKED : bool) (l : look) (m : modem_status) (ch : chan) (c : csma)
    : list Z * modem_status * chan * csma :=
  if status_interval_ms <=? u32 (now - last_status_update m) then
    let m := snd (update_modem_status LED_DISPLAY_BLANKED (airtime_lock ch) l m) in
    let '(full, ch') := sample_utilisation t_bin (dcd m) ch in
    if full then
      let '(o, ch', c) := update_airtime t_bin m ch' c in (o, m, ch', c)
    else ([], m, ch', c)
  else ([], m, ch, c).

(** ** The transmit queue handler *)

(** One turn of the handler: the draw of [random(cw_min, cw_max)], the look at the
    medium, and the clock where it is read: for the DIFS wait, for the contention
    counter, and when the counter restarts. *)
Record turn := mk_turn { draw : Z -> Z -> Z; at_medium : look; t_difs : Z; t_count : Z; t_restart : Z }.

Record mac := mk_mac { status : modem_status; cs : csma; queue : txq }.

Section Handler.
  Context `{Board} `{Lna}.
  (** [S] is the state of [transmit], [lora_receive] and [update_airtime]; the last
      may change the contention window. *)
  Context {S : Type} (transmit : list Z -> S -> S) (lora_receive : S -> S)
    (update_airtime_s : csma * S -> csma * S).
  Context (csma_slot_ms difs_ms : Z) (avoid_interference LED_DISPLAY_BLANKED : bool).
  (** [!lora_limit_rate && !lora_guard_rate]. *)
  Context (should_flush : bool).

(* @src RNode_Firmware.ino:3183-3188 tx_queue_handler *)
Definition draw_window (t : turn) (c : csma) : csma :=
  if csma_cw c =? -1 then
    let cw := draw t (cw_min c) (cw_max c) in
    c <| csma_cw := cw |> <| cw_wait_target := u32 (cw * csma_slot_ms) |>
  else c.

(** Draining the queue: the window drawn from here on may be a new one. *)
(* @src RNode_Firmware.ino:3202-3204 tx_queue_handler *)
Definition drain (c : csma) (q : txq) (s : S) : csma * txq * S :=
  let tx p (cs : csma * S) := (fst cs, transmit p (snd cs)) in
  let rx (cs : csma * S) := (fst cs, lora_receive (snd cs)) in
  let '(q, (c, s)) := if should_flush then flush_queue tx rx update_airtime_s false q (c, s)
                      else pop_queue tx rx update_airtime_s false q (c, s) in
  (c <| cw_wait_passed := 0 |> <| csma_cw := -1 |> <| difs_wait_start := UNSET |>, q, s).

(** The flag tells whether the queue was drained. *)
(* @src RNode_Firmware.ino:3182-3211 tx_queue_handler *)
Definition tx_queue_handler (airtime_lock : bool) (t : turn) (m : mac) (s : S) : bool * mac * S :=
  if negb airtime_lock && (0 <? queue_height (queue m)) then
    let c := draw_window t (cs m) in
    let '(free, st) := medium_free LED_DISPLAY_BLANKED airtime_lock avoid_interference (at_medium t) (status m) in
    let m := m <| status := st |> in
    if difs_wait_start c =? UNSET then
      if free then (false, m <| cs := c <| difs_wait_start := t_difs t |> |>, s)
      else (false, m <| cs := c |>, s)
    else if negb free then
      (false, m <| cs := c <| difs_wait_start := UNSET |> <| cw_wait_start := UNSET |> |>, s)
    else if t_difs t <? u32 (difs_wait_start c + difs_ms) then (false, m <| cs := c |>, s)
    else if cw_wait_start c =? UNSET then (false, m <| cs := c <| cw_wait_start := t_count t |> |>, s)
    else
      let c := c <| cw_wait_passed := u32 (cw_wait_passed c + u32 (t_count t - cw_wait_start c)) |>
                 <| cw_wait_start := t_restart t |> in
      if cw_wait_passed c <? cw_wait_target c then (false, m <| cs := c |>, s)
      else
        let '(c, q, s) := drain c (queue m) s in
        (true, m <| cs := c |> <| queue := q |>, s)
  else (false, m, s).

(** Turns in order until the queue is drained. *)
Fixpoint handler_run (ts : list turn) (m : mac) (s : S) : bool * mac * S :=
  match ts with
  | [] => (false, m, s)
  | t :: ts =>
      let '(sent, m, s) := tx_queue_handler false t m s in
      if sent then (true, m, s) else handler_run ts m s
  end.

(** The medium is free at every one of these turns. *)
Fixpoint quiet (ts : list turn) (m : mac) (s : S) : Prop :=
  match ts with
  | [] => True
  | t :: ts =>
      fst (medium_free LED_DISPLAY_BLANKED false avoid_interference (at_medium t) (status m)) = true /\
      let '(_, m, s) := tx_queue_handler false t m s in quiet ts m s
  end.

(** [random] as documented, one instant per turn, and the clock before 2^31 ms. *)
Record fair (t : turn) : Prop := {
  fair_draw a b : a < b -> a <= draw t a b < b;
  fair_count : t_count t = t_difs t;
  fair_restart : t_restart t = t_difs t;
  fair_time : 0 <= t_difs t < 2 ^ 31
}.

(** Timers at time [n]: starts lie in the past, targets below [W]. *)
Record timers (W n : Z) (c : csma) : Prop := {
  tm_difs : difs_wait_start c = UNSET \/ 0 <= difs_wait_start c <= n;
  tm_cw : cw_wait_start c = UNSET \/ 0 <= cw_wait_start c <= n;
  tm_passed : 0 <= cw_wait_passed c < 2 ^ 31;
  tm_window : 0 <= cw_min c < cw_max c;
  tm_width : cw_max c * csma_slot_ms <= W;
  tm_target : csma_cw c = -1 \/ 0 <= cw_wait_target c <= W
}.

Definition waiting (d : Z) (c : csma) : Prop := difs_wait_start c <> UNSET /\ difs_wait_start c <= d.
Definition counting (k : Z) (c : csma) : Prop := cw_wait_start c <> UNSET /\ cw_wait_start c <= cw_wait_passed c + k.

Ltac timer := unfold UNSET in *; try (split; intros; exfalso; lia); lia.

Section Progress.
  Context (W : Z) (HW : 0 <= W < 2 ^ 31) (Hslot : 0 <= csma_slot_ms) (Hdifs : 0 <= difs_ms < 2 ^ 31).

Lemma draw_window_timers n t c : fair t -> timers W n c ->
  timers W n (draw_window t c) /\ csma_cw (draw_window t c) <> -1 /\ 0 <= cw_wait_target (draw_window t c) <= W /\
  difs_wait_start (draw_window t c) = difs_wait_start c /\ cw_wait_start (draw_window t c) = cw_wait_start c /\
  cw_wait_passed (draw_window t c) = cw_wait_passed c.
Proof.
  intros [Hd _ _ _] []. unfold draw_window. destruct (Z.eqb_spec (csma_cw c) (-1)) as [He|He].
  - specialize (Hd _ _ (proj2 tm_window0)). set (k := draw t (cw_min c) (cw_max c)) in *.
    assert (0 <= k * csma_slot_ms <= W) by nia.
    split; [constructor; cbn; try assumption; right|repeat split; cbn; try lia]; rewrite u32_id by lia; lia.
  - repeat split; try assumption; try lia.
Qed.

Lemma turn_step n t m s : fair t -> timers W n (cs m) -> n <= t_difs t -> 0 < queue_height (queue m) ->
  fst (medium_free LED_DISPLAY_BLANKED false avoid_interference (at_medium t) (status m)) = true ->
  (exists m1 c, tx_queue_handler false t m s = (let '(c', q', s') := drain c (queue m) s in
      (true, m1 <| cs := c' |> <| queue := q' |>, s'))) \/
  (exists m', tx_queue_handler false t m s = (false, m', s) /\ queue m' = queue m /\ timers W (t_difs t) (cs m') /\
     waiting (t_difs t) (cs m') /\
     (forall d, waiting d (cs m) -> waiting d (cs m') /\
        (d + difs_ms <= t_difs t -> counting (t_difs t) (cs m') /\
           forall k, counting k (cs m) -> counting k (cs m') /\ t_difs t < W + k))).
Proof.
  intros Hf Ht Hn Hq Hfree. destruct (draw_window_timers n t (cs m) Hf Ht) as (Ht' & Hcw & Htg & Ed & Ec & Ep).
  destruct Hf as [_ Hc Hr Hb]. unfold tx_queue_handler. cbn [negb andb]. rewrite (proj2 (Z.ltb_lt _ _) Hq).
  destruct (medium_free _ _ _ _ _) as [free st]. cbn [fst] in Hfree. subst free.
  set (c := draw_window t (cs m)) in *. clearbody c. unfold waiting, counting.
  rewrite <- Ed, <- Ec, <- Ep. clear Ed Ec Ep Ht. destruct Ht'.
  destruct (Z.eqb_spec (difs_wait_start c) UNSET) as [Eu|Eu].
  { right. eexists. split; [reflexivity|]. destruct c; cbn in *. unfold UNSET in *.
    split; [reflexivity|]. split; [constructor; cbn in *; timer|]. split; [timer|]. intros d []. timer. }
  cbn [negb]. rewrite (u32_id (difs_wait_start c + difs_ms)) by lia.
  destruct (Z.ltb_spec (t_difs t) (difs_wait_start c + difs_ms)) as [Hl|Hl].
  { right. eexists. split; [reflexivity|]. destruct c; cbn in *. unfold UNSET in *.
    split; [reflexivity|]. split; [constructor; cbn in *; timer|]. split; [timer|]. intros d []. timer. }
  destruct (Z.eqb_spec (cw_wait_start c) UNSET) as [Ew|Ew].
  { right. eexists. split; [reflexivity|]. rewrite Hc. destruct c; cbn in *. unfold UNSET in *.
    split; [reflexivity|]. split; [constructor; cbn in *; timer|]. split; [timer|]. intros d []. split; [timer|]. split; [timer|]. intros k []. timer. }
  rewrite Hc, Hr, (u32_id (t_difs t - cw_wait_start c)) by lia.
  rewrite u32_id by lia. cbn [cw_wait_passed cw_wait_target].
  destruct c; cbn in *. unfold UNSET in *.
  match goal with |- context [?a <? ?b] => destruct (Z.ltb_spec a b) as [Hp|Hp] end.
  - right. eexists. split; [reflexivity|]. cbn.
    split; [reflexivity|]. split; [constructor; cbn in *; timer|]. split; [timer|]. intros d []. split; [timer|]. split; [timer|]. intros k []. timer.
  - left. match goal with |- context [drain ?c _ _] => exists (mk_mac st (cs m) (queue m)), c end. destruct (drain _ _ _) as [[c' q'] s']. reflexivity.
Qed.

(** Turns from time [n] on, in order. *)
Inductive ordered : Z -> list turn -> Prop :=
  | ord_nil n : ordered n []
  | ord_cons n t ts : n <= t_difs t -> ordered (t_difs t) ts -> ordered n (t :: ts).

Lemma last_cons {A} (l : list A) (x d : A) : List.last (x :: l) d = List.last l x.
Proof. revert x d. induction l as [|y l IH]; intros x d; [reflexivity|]. change (List.last (y :: l) d = List.last (y :: l) x). now rewrite !IH. Qed.

Lemma run_waiting d ts : forall n m s m1 s1, Forall fair ts -> ordered n ts -> timers W n (cs m) -> 0 < queue_height (queue m) ->
  quiet ts m s -> waiting d (cs m) -> handler_run ts m s = (false, m1, s1) ->
  s1 = s /\ queue m1 = queue m /\ waiting d (cs m1) /\ timers W (List.last (map t_difs ts) n) (cs m1) /\
  (forall k, (forall t, List.In t ts -> d + difs_ms <= t_difs t) -> counting k (cs m) -> counting k (cs m1)).
Proof.
  induction ts as [|t ts IH]; intros n m s m1 s1 Hf Ho Ht Hq Hqu Hw Hr; cbn [handler_run quiet] in *.
  { injection Hr as <- <-. auto 10. }
  destruct Hqu as [Hfree Hqu]. inversion_clear Hf as [|? ? Hft Hf']. inversion_clear Ho as [|? ? ? Hn Ho'].
  destruct (turn_step n t m s Hft Ht Hn Hq Hfree) as [(x & c & E)|(m' & E & Eq & Ht' & Hw' & Hd)].
  { rewrite E in Hr. destruct (drain _ _ _) as [[? ?] ?]. discriminate. }
  rewrite E in Hr, Hqu. destruct (Hd d Hw) as [Hwd Hk].
  destruct (IH _ m' s m1 s1 Hf' Ho' Ht' ltac:(now rewrite Eq) Hqu Hwd Hr) as (-> & E1 & H1 & H2 & H3).
  split; [reflexivity|]. split; [congruence|]. split; [exact H1|]. split.
  - cbn [map]. rewrite last_cons. exact H2.
  - intros k Hall Hck. apply H3; [intros; apply Hall; now right|]. apply Hk; [apply Hall; now left|exact Hck].
Qed.

Lemma quiet_prefix ts ts' m s : quiet (ts ++ ts') m s -> quiet ts m s.
Proof.
  revert m s. induction ts as [|t ts IH]; intros m s Hq; cbn [app quiet] in *; [exact I|].
  destruct Hq as [H1 H2]. split; [exact H1|]. destruct (tx_queue_handler false t m s) as [[? ?] ?]. now apply IH.
Qed.
Lemma quiet_app ts ts' m s m1 s1 : quiet (ts ++ ts') m s -> handler_run ts m s = (false, m1, s1) -> quiet ts' m1 s1.
Proof.
  revert m s. induction ts as [|t ts IH]; intros m s Hq Hr; cbn [app quiet handler_run] in *.
  - now injection Hr as <- <-.
  - destruct Hq as [_ Hq]. destruct (tx_queue_handler false t m s) as [[b m'] s'].
    destruct b; [discriminate|]. now apply (IH m' s').
Qed.
Lemma handler_run_app ts ts' m s : handler_run (ts ++ ts') m s =
  let '(b, m1, s1) := handler_run ts m s in if b then (true, m1, s1) else handler_run ts' m1 s1.
Proof.
  revert m s. induction ts as [|t ts IH]; intros m s; cbn [app handler_run]; [reflexivity|].
  destruct (tx_queue_handler false t m s) as [[b m'] s']. destruct b; [reflexivity|]. apply IH.
Qed.
Lemma ordered_app n ts ts' : ordered n (ts ++ ts') -> ordered n ts /\ ordered (List.last (map t_difs ts) n) ts'.
Proof.
  revert n. induction ts as [|t ts IH]; intros n Ho; cbn [app] in *; [split; [constructor|exact Ho]|].
  inversion_clear Ho as [|? ? ? Hn Ho']. destruct (IH _ Ho') as [H1 H2]. split; [now constructor|].
  cbn [map]. rewrite last_cons. exact H2.
Qed.
Lemma ordered_le n ts t : ordered n ts -> List.In t ts -> n <= t_difs t.
Proof.
  induction 1 as [|n t' ts Hn Ho IH]; intros Hin; [destruct Hin|].
  destruct Hin as [->|Hin]; [lia|]. specialize (IH Hin). lia.
Qed.

Lemma run_split ts ts' m s m2 s2 : handler_run (ts ++ ts') m s = (false, m2, s2) ->
  exists m1 s1, handler_run ts m s = (false, m1, s1) /\ handler_run ts' m1 s1 = (false, m2, s2).
Proof.
  rewrite handler_run_app. destruct (handler_run ts m s) as [[[] m1] s1]; [discriminate|]. eauto.
Qed.

Lemma run_drains ts : forall n m s m' s', Forall fair ts -> ordered n ts -> timers W n (cs m) ->
  0 < queue_height (queue m) -> quiet ts m s -> handler_run ts m s = (true, m', s') ->
  exists c, drain c (queue m) s = (cs m', queue m', s').
Proof.
  induction ts as [|t ts IH]; intros n m s m' s' Hf Ho Ht Hq Hqu Hr; cbn [handler_run quiet] in *; [discriminate|].
  destruct Hqu as [Hfree Hqu]. inversion_clear Hf as [|? ? Hft Hf']. inversion_clear Ho as [|? ? ? Hn Ho'].
  destruct (turn_step n t m s Hft Ht Hn Hq Hfree) as [(x & c & E)|(m1 & E & Eq & Ht' & _)].
  - rewrite E in Hr. exists c. destruct (drain _ _ _) as [[? ?] ?]. now injection Hr as <- <-.
  - rewrite E in Hr, Hqu. rewrite <- Eq. apply (IH (t_difs t) m1 s m' s'); auto. now rewrite Eq.
Qed.

(** From a free medium the queue is drained once the DIFS time has passed and then
    the longest contention window. *)
Lemma run_sends n t0 a t1 b t2 m s : let ts := t0 :: a ++ t1 :: b ++ [t2] in
  Forall fair ts -> ordered n ts -> timers W n (cs m) -> 0 < queue_height (queue m) -> quiet ts m s ->
  t_difs t0 + difs_ms <= t_difs t1 -> t_difs t1 + W <= t_difs t2 ->
  exists m' s', handler_run ts m s = (true, m', s').
Proof.
  intros ts Hf Ho Ht Hq Hqu Hd Hw. destruct (handler_run ts m s) as [[[] m'] s'] eqn:Hr; [eauto|exfalso].
  unfold ts in *. cbn [handler_run quiet] in *. destruct Hqu as [Hfree Hqu].
  inversion_clear Hf as [|? ? Hft Hf']. inversion_clear Ho as [|? ? ? Hn Ho'].
  destruct (turn_step n t0 m s Hft Ht Hn Hq Hfree) as [(x & c & E)|(m0 & E & Eq & Ht0 & Hw0 & _)].
  { rewrite E in Hr. destruct (drain _ _ _) as [[? ?] ?]. discriminate. }
  rewrite E in Hr, Hqu. rewrite <- Eq in Hq. clear E Eq Ht Hn Hfree.
  pose proof (quiet_app a (t1 :: b ++ [t2]) m0 s) as Hqa.
  destruct (run_split a _ _ _ _ _ Hr) as (ma & sa & Ra & Hr1). specialize (Hqa ma sa Hqu Ra).
  pose proof (quiet_prefix _ _ _ _ Hqu) as Hqu_a.
  apply Forall_app in Hf' as [Hfa Hfb]. apply ordered_app in Ho' as [Hoa Hob].
  destruct (run_waiting (t_difs t0) a _ m0 s ma sa Hfa Hoa Ht0 Hq Hqu_a Hw0 Ra) as (-> & Eqa & Hwa & Hta & _).
  rewrite <- Eqa in Hq. cbn [handler_run quiet] in *. destruct Hqa as [Hfree1 Hqb].
  inversion_clear Hfb as [|? ? Hft1 Hfb']. inversion_clear Hob as [|? ? ? Hn1 Hob'].
  destruct (turn_step _ t1 ma s Hft1 Hta Hn1 Hq Hfree1) as [(x & c & E)|(m1 & E & Eq1 & Ht1 & Hw1 & Hk)].
  { rewrite E in Hr1. destruct (drain _ _ _) as [[? ?] ?]. discriminate. }
  rewrite E in Hr1, Hqb. rewrite <- Eq1 in Hq. destruct (Hk _ Hwa) as [Hwa1 Hc1]. destruct (Hc1 Hd) as [Hcount _].
  pose proof (quiet_prefix _ _ _ _ Hqb) as Hqu_b. pose proof (fun m1' s1' => quiet_app b [t2] m1 s m1' s1' Hqb) as Hqc.
  destruct (run_split b _ _ _ _ _ Hr1) as (mb & sb & Rb & Hr2). specialize (Hqc mb sb Rb).
  apply Forall_app in Hfb' as [Hfb Hfc]. apply ordered_app in Hob' as [Hob Hoc].
  destruct (run_waiting (t_difs t0) b _ m1 s mb sb Hfb Hob Ht1 Hq Hqu_b Hwa1 Rb) as (-> & Eqb & Hwb & Htb & Hkb).
  rewrite <- Eqb in Hq. cbn [handler_run quiet] in *. destruct Hqc as [Hfree2 _].
  inversion_clear Hfc as [|? ? Hft2 _]. inversion_clear Hoc as [|? ? ? Hn2 _].
  destruct (turn_step _ t2 mb s Hft2 Htb Hn2 Hq Hfree2) as [(x & c & E2)|(m2 & E2 & _ & _ & _ & Hk2)].
  { rewrite E2 in Hr2. destruct (drain _ _ _) as [[? ?] ?]. discriminate. }
  destruct (Hk2 _ Hwb) as [_ Hc2]. destruct (Hc2 ltac:(lia)) as [_ Hc3]. destruct (Hc3 (t_difs t1)) as [_ ?]; [|lia].
  apply Hkb; [|exact Hcount]. intros t Hin. pose proof (ordered_le _ _ _ Hob Hin). lia.
Qed.
End Progress.

(** What one drain hands to the transmitter, and what stays queued: everything and
    nothing where the links are not limited, else the oldest payload and the rest. *)
Definition drained (ps : list (list Z)) : list (list Z) := if should_flush then ps else firstn 1 ps.
Definition left_queued (ps : list (list Z)) : list (list Z) := if should_flush then [] else skipn 1 ps.

Lemma send_all_snd (c : csma) ps s :
  send_all (fun p (x : csma * S) => (fst x, transmit p (snd x))) ps (c, s) = (c, send_all transmit ps s).
Proof.
  unfold send_all. revert s. induction ps as [|p ps IH]; intros s; [reflexivity|].
  cbn [foldl]. destruct (legal p); cbn [fst snd]; apply IH.
Qed.

Lemma drain_rep base c q ps cur s : txq_rep base q ps cur -> 0 < zlen ps ->
  exists q', txq_data ((base + zlen (concat (drained ps))) mod CONFIG_QUEUE_SIZE) q' (left_queued ps) cur /\
    queue_height q' = zlen (left_queued ps) /\
    drain c q s = (let '(c', s') := update_airtime_s (c, lora_receive (send_all transmit (drained ps) s)) in
      (c' <| cw_wait_passed := 0 |> <| csma_cw := -1 |> <| difs_wait_start := UNSET |>, q', s')).
Proof.
  set (tx := fun p (x : csma * S) => (fst x, transmit p (snd x))). set (rx := fun x : csma * S => (fst x, lora_receive (snd x))).
  intros Hr Hp. unfold drain, drained, left_queued. fold tx rx. destruct should_flush.
  - destruct (flush_queue_rep tx rx update_airtime_s base q ps cur (c, s) (rep_data_of _ _ _ _ Hr)) as (q' & E & Hh & _ & Hd').
    exists q'. split; [exact Hd'|]. split; [exact Hh|]. rewrite E. unfold tx. now rewrite send_all_snd.
  - destruct ps as [|p ps]; [discriminate Hp|].
    destruct (pop_queue_rep tx rx update_airtime_s base q p ps cur (c, s) Hr) as (q' & E & Hr').
    exists q'. cbn [firstn skipn concat]. rewrite app_nil_r. split; [exact (rep_data_of _ _ _ _ Hr')|].
    split; [exact (rep_height _ _ _ _ Hr')|]. rewrite E. unfold send_all. cbn [foldl]. now destruct (legal p).
Qed.
Lemma drain_timers c q s : let '(c', _, _) := drain c q s in
  difs_wait_start c' = UNSET /\ csma_cw c' = -1 /\ cw_wait_passed c' = 0.
Proof. unfold drain. destruct should_flush; destruct (_ : txq * (csma * S)) as [q' [c' s']]; cbn; auto. Qed.
End Handler.

(** C18. With payloads waiting and no airtime lock, a free medium gets them sent: for
    any turns of [loop()] before 2^31 ms of uptime, each at one instant, at which the
    medium is free, from timers that were started in the past and with [random] as
    documented, once one comes at least [difs_ms] after the first and a later one at least the longest
    contention window after that, the handler has drained the queue.  Where the link
    is neither rate-limited nor guarded ([flush]) every queued payload of legal length
    went to [transmit], in order, and the queue is empty; otherwise exactly the oldest
    payload went, and the others are still queued, unaltered and in order. *)
(* @prop liveness W=csma_sends_witness D=tx_queue_handler,draw_window,drain,medium_free,update_modem_status *)
Theorem csma_sends `{Board} `{Lna} {S} (transmit : list Z -> S -> S) (lora_receive : S -> S)
    (update_airtime_s : csma * S -> csma * S) (slot difs W n base : Z) (avoid blanked flush : bool)
    (t0 t1 t2 : turn) (a b : list turn) (m : mac) (s : S) (ps : list (list Z)) (cur : list Z) :
  let ts := t0 :: a ++ t1 :: b ++ [t2] in
  let run := handler_run transmit lora_receive update_airtime_s slot difs avoid blanked flush in
  0 <= slot -> 0 <= difs < 2 ^ 31 -> 0 <= W < 2 ^ 31 ->
  Forall fair ts -> ordered n ts -> timers slot W n (cs m) ->
  txq_rep base (queue m) ps cur -> 0 < queue_height (queue m) ->
  quiet transmit lora_receive update_airtime_s slot difs avoid blanked flush ts m s ->
  t_difs t0 + difs <= t_difs t1 -> t_difs t1 + W <= t_difs t2 ->
  let '(sent, rest) := if flush then (ps, []) else (firstn 1 ps, skipn 1 ps) in
  exists m' s' c c', run ts m s = (true, m', s') /\
    update_airtime_s (c, lora_receive (send_all transmit sent s)) = (c', s') /\
    txq_data ((base + zlen (concat sent)) mod CONFIG_QUEUE_SIZE) (queue m') rest cur /\
    queue_height (queue m') = zlen rest.
Proof.
  intros ts run Hs Hdf HW Hf Ho Ht Hrep Hq Hqu Hd1 Hd2.
  destruct (run_sends transmit lora_receive update_airtime_s slot difs avoid blanked flush W HW Hs Hdf n t0 a t1 b t2 m s
              Hf Ho Ht Hq Hqu Hd1 Hd2) as (m' & s' & Hr).
  destruct (run_drains transmit lora_receive update_airtime_s slot difs avoid blanked flush W HW Hs Hdf
              _ n m s m' s' Hf Ho Ht Hq Hqu Hr) as (c & Hdr).
  destruct (drain_rep transmit lora_receive update_airtime_s flush base c (queue m) ps cur s Hrep
              ltac:(rewrite <- (rep_height _ _ _ _ Hrep); exact Hq)) as (q' & Hd & Hh & E).
  rewrite Hdr in E. destruct (update_airtime_s _) as [c' s''] eqn:Eu. injection E as _ <- <-.
  unfold drained, left_queued in *. destruct flush; exists m', s', c, c'; auto.
Qed.

(** A board without a receive amplifier; the core's [map]. *)
Definition no_lna : Lna := {| HAS_LORA_LNA := false; LORA_LNA_GVT := 0 |}.
Definition core_map (x in_min in_max out_min out_max : Z) : Z :=
  Z.quot ((x - in_min) * (out_max - out_min)) (in_max - in_min) + out_min.
Definition arduino_core : Arduino := {| arduino_map := core_map |}.

(** A turn at time [n] that hears [rssi] and the carrier flag [busy]; it draws the
    top of the window. *)
Definition turn_at (busy : bool) (n : Z) : turn :=
  mk_turn (fun _ hi => hi - 1) (mk_look busy (-120) n n) n n n.
Definition waiting_mac (p : list Z) : mac :=
  mk_mac (status_init <| noise_floor := -115 |> <| noise_floor_sampled := true |>) csma_init (fst (qstep (S := list (list Z)) (fun p s => s ++ [p]) id id (txq_init, []) (EvFrame p))).

Lemma turn_at_fair n : 0 <= n < 2 ^ 31 -> fair (turn_at false n).
Proof. intros. split; cbn; intros; try lia; try reflexivity. Qed.

(** The device with these payloads queued. *)
Definition queued_mac (ps : list (list Z)) : mac :=
  (waiting_mac []) <| queue := fst (foldl (qstep (S := list (list Z)) (fun p s => s ++ [p]) id id) (txq_init, []) (map EvFrame ps)) |>.

(** Two payloads: an unlimited link sends both, a limited one the first. *)
Lemma csma_sends_witness :
  let ts := [turn_at false 10; turn_at false 30; turn_at false 60; turn_at false 300; turn_at false 420] in
  let run flush := @handler_run heltec32_v3 no_lna (list (list Z)) (fun p s => s ++ [p]) id id 24 48 true false flush
    ts (queued_mac [[1; 2; 3]; [4]]) [] in
  (exists m' s', run true = (true, m', s') /\ s' = [[1; 2; 3]; [4]] /\ queue_height (queue m') = 0) /\
  (exists m' s', run false = (true, m', s') /\ s' = [[1; 2; 3]] /\ queue_height (queue m') = 1).
Proof.
  intros ts run.
  assert (Hrep : exists base, txq_rep base (queue (queued_mac [[1; 2; 3]; [4]])) [[1; 2; 3]; [4]] []).
  { destruct (qstep_refines (S := list (list Z)) (fun p s => s ++ [p]) id id 0 txq_init [] [] (EvFrame [1; 2; 3]) [[1; 2; 3]] []
      txq_init_rep eq_refl) as (base1 & q1 & E1 & R1).
    destruct (qstep_refines (S := list (list Z)) (fun p s => s ++ [p]) id id base1 q1 [[1; 2; 3]] [] (EvFrame [4])
      [[1; 2; 3]; [4]] [] R1 eq_refl) as (base & q & E & R).
    exists base. unfold queued_mac. cbn [map foldl]. rewrite E1, E. exact R. }
  destruct Hrep as [base Hrep].
  assert (Hf : Forall fair ts) by (unfold ts; repeat constructor; cbn; intros; try lia; try reflexivity).
  assert (Ho : ordered 0 ts) by (unfold ts; repeat constructor; cbn; lia).
  assert (Ht : timers 24 360 0 (cs (queued_mac [[1; 2; 3]; [4]]))).
  { unfold queued_mac, waiting_mac, csma_init, UNSET, CSMA_CW_PER_BAND_WINDOWS. split; cbn; auto; lia. }
  assert (Hh : 0 < queue_height (queue (queued_mac [[1; 2; 3]; [4]]))) by (vm_compute; reflexivity).
  assert (Hq : forall flush, @quiet heltec32_v3 no_lna (list (list Z)) (fun p s => s ++ [p]) id id 24 48 true false flush ts
                 (queued_mac [[1; 2; 3]; [4]]) []).
  { unfold ts. intros []; vm_compute; tauto. }
  pose proof (fun flush => @csma_sends heltec32_v3 no_lna (list (list Z)) (fun p s => s ++ [p]) id id 24 48 360 0 base true false flush
    (turn_at false 10) (turn_at false 60) (turn_at false 420) [turn_at false 30] [turn_at false 300]
    (queued_mac [[1; 2; 3]; [4]]) [] [[1; 2; 3]; [4]] [] ltac:(lia) ltac:(lia) ltac:(lia) Hf Ho Ht Hrep Hh (Hq flush)
    ltac:(vm_compute; discriminate) ltac:(vm_compute; discriminate)) as P.
  split.
  - destruct (P true) as (m' & s' & c & c' & E1 & E2 & _ & E4).
    exists m', s'. split; [exact E1|]. split; [|exact E4]. unfold id in E2. now injection E2 as _ <-.
  - destruct (P false) as (m' & s' & c & c' & E1 & E2 & _ & E4).
    exists m', s'. split; [exact E1|]. split; [|exact E4]. unfold id in E2. now injection E2 as _ <-.
Defined.

(** ** Nothing is sent into a busy medium *)

Section Safety.
  Context `{Board} `{Lna} {S : Type} (transmit : list Z -> S -> S) (lora_receive : S -> S)
    (update_airtime_s : csma * S -> csma * S) (slot difs : Z) (avoid blanked should_flush : bool).
  Abbreviation handler := (tx_queue_handler transmit lora_receive update_airtime_s slot difs avoid blanked should_flush).
  Abbreviation free lock t m := (fst (medium_free blanked lock avoid (at_medium t) (status m))).

(** The looks of the handler since start-up, with their result.  Between turns the
    queue, the modem's status, the window bounds and the transmitter's state may
    change; the timers are the handler's own. *)
Inductive reach : list (turn * bool) -> mac -> Prop :=
  | reach_init st q : reach [] (mk_mac st csma_init q)
  | reach_turn h m lock t s b m' s' : reach h m -> handler lock t m s = (b, m', s') ->
      lock = false -> 0 < queue_height (queue m) -> reach (h ++ [(t, free lock t m)]) m'
  | reach_env h m st q cb lo hi : reach h m ->
      reach h (mk_mac st ((cs m) <| cw_band := cb |> <| cw_min := lo |> <| cw_max := hi |>) q).

(** The DIFS wait was started at a look that found the medium free, and every look
    since found it free. *)
Definition idle_since (h : list (turn * bool)) (d : Z) : Prop :=
  exists h1 t0 h2, h = h1 ++ (t0, true) :: h2 /\ Forall (fun e => snd e = true) h2 /\ t_difs t0 = d.

Lemma idle_since_free h t d : idle_since h d -> idle_since (h ++ [(t, true)]) d.
Proof.
  intros (h1 & t0 & h2 & -> & Hf & Hd). exists h1, t0, (h2 ++ [(t, true)]).
  rewrite <- app_assoc. split; [reflexivity|]. split; [|exact Hd]. apply Forall_app. repeat constructor; assumption.
Qed.

Lemma draw_window_difs t c : difs_wait_start (draw_window slot t c) = difs_wait_start c.
Proof. unfold draw_window. destruct (csma_cw c =? -1); reflexivity. Qed.

Lemma reach_idle h m : reach h m -> difs_wait_start (cs m) <> UNSET -> idle_since h (difs_wait_start (cs m)).
Proof.
  induction 1 as [st q|h m lock t s b m' s' Hr IH E -> Hq|h m st q cb lo hi Hr IH]; intros Hd; [now destruct Hd| |now apply IH].
  unfold tx_queue_handler in E. cbn [negb andb] in E. rewrite (proj2 (Z.ltb_lt _ _) Hq) in E.
  destruct (medium_free _ _ _ _ _) as [fr st] eqn:Ef. cbn [fst].
  pose proof (draw_window_difs t (cs m)) as Edw. set (c := draw_window slot t (cs m)) in *. clearbody c. rewrite <- Edw in IH.
  destruct (Z.eqb_spec (difs_wait_start c) UNSET) as [Eu|Eu].
  { destruct fr; injection E as <- <- <-; cbn in *; [|now destruct Hd].
    exists h, t, []. repeat split; constructor. }
  specialize (IH Eu). destruct fr; cbn [negb] in E; [|injection E as <- <- <-; cbn in *; now destruct Hd].
  apply (idle_since_free _ t) in IH.
  repeat (destruct (_ <? _) in E; [injection E as <- <- <-; exact IH|]).
  destruct (_ =? _) in E; [injection E as <- <- <-; exact IH|].
  destruct (_ <? _) in E; [injection E as <- <- <-; exact IH|].
  match type of E with context [drain _ _ _ _ ?c _ _] =>
    pose proof (drain_timers transmit lora_receive update_airtime_s should_flush c (queue m) s) as Hdt end.
  destruct (drain _ _ _ _ _ _ _) as [[c' q'] s''] in E, Hdt. injection E as <- <- <-. cbn in *. now destruct Hdt.
Qed.

(** C17. Whatever happens between the turns of [loop()], the handler drains the queue
    only when there is no airtime lock, something is queued, the medium is free at
    that very look, the contention counter has reached its target, and the medium
    was free at an earlier look and at every look since; that earlier look was at
    least [difs_ms] before, unless it fell into the last [difs_ms] before the 32-bit
    millisecond counter wraps ([difs_skipped_at_wrap] shows what happens then). *)
(* @prop safety W=csma_safe_witness D=tx_queue_handler,drain,medium_free,csma *)
Theorem csma_safe h m lock t s m' s' : reach h m -> Forall (fun e => 0 <= t_difs (fst e) < 2 ^ 32) h ->
  0 <= difs -> handler lock t m s = (true, m', s') ->
  lock = false /\ 0 < queue_height (queue m) /\ free lock t m = true /\
  (exists h1 t0 h2, h = h1 ++ (t0, true) :: h2 /\ Forall (fun e => snd e = true) h2 /\
     (t_difs t0 + difs < 2 ^ 32 -> t_difs t0 + difs <= t_difs t)) /\
  cw_wait_start (cs m) <> UNSET /\
  cw_wait_target (draw_window slot t (cs m)) <= u32 (cw_wait_passed (cs m) + u32 (t_count t - cw_wait_start (cs m))).
Proof.
  intros Hr Hh Hdf E. pose proof (reach_idle h m Hr) as Hi. unfold tx_queue_handler in E.
  destruct lock; [discriminate|]. cbn [negb andb] in E.
  destruct (Z.ltb_spec 0 (queue_height (queue m))) as [Hq|]; [|discriminate].
  destruct (medium_free _ _ _ _ _) as [fr st] eqn:Ef. cbn [fst]. rewrite draw_window_difs in E.
  assert (Ec : cw_wait_start (draw_window slot t (cs m)) = cw_wait_start (cs m) /\
               cw_wait_passed (draw_window slot t (cs m)) = cw_wait_passed (cs m))
    by (unfold draw_window; destruct (csma_cw (cs m) =? -1); split; reflexivity).
  destruct Ec as [Ec Ep]. rewrite Ec, Ep in E.
  destruct (Z.eqb_spec (difs_wait_start (cs m)) UNSET) as [Eu|Eu]; [destruct fr; discriminate|].
  destruct fr; [|discriminate]. cbn [negb] in E. destruct (Hi Eu) as (h1 & t0 & h2 & -> & Hf & Hd).
  apply Forall_app in Hh as [_ Hh]. inversion_clear Hh as [|? ? Ht0 _]. cbn [fst] in Ht0.
  match type of E with context [t_difs t <? ?a] => destruct (Z.ltb_spec (t_difs t) a) as [|Hw]; [discriminate|] end.
  destruct (Z.eqb_spec (cw_wait_start (cs m)) UNSET) as [|Ew]; [discriminate|]. cbn [cw_wait_passed cw_wait_target] in E.
  match type of E with context [?a <? ?b] => destruct (Z.ltb_spec a b) as [|Hp]; [discriminate|] end.
  split; [reflexivity|]. split; [exact Hq|]. split; [reflexivity|]. split; [|split; [exact Ew|exact Hp]].
  exists h1, t0, h2. split; [reflexivity|]. split; [exact Hf|]. intros Hlt. rewrite u32_id in Hw; lia.
Qed.
End Safety.

Definition concrete_handler (t : turn) (m : mac) : bool * mac * list (list Z) :=
  @tx_queue_handler heltec32_v3 no_lna (list (list Z)) (fun p s => s ++ [p]) id id 24 48 true false true false t m [].

Lemma triple_eta {A B C} (x : A * B * C) a : fst (fst x) = a -> x = (a, snd (fst x), snd x).
Proof. destruct x as [[? ?] ?]. now intros <-. Qed.

Lemma csma_safe_witness :
  let m0 := waiting_mac [1; 2; 3] in
  let m1 := snd (fst (concrete_handler (turn_at false 10) m0)) in
  let m2 := snd (fst (concrete_handler (turn_at false 60) m1)) in
  fst (fst (concrete_handler (turn_at false 420) m2)) = true /\
  exists h1 t0 h2, [(turn_at false 10, true); (turn_at false 60, true)] = h1 ++ (t0, true) :: h2 /\
    (t_difs t0 + 48 < 2 ^ 32 -> t_difs t0 + 48 <= 420).
Proof.
  intros m0 m1 m2.
  assert (E : concrete_handler (turn_at false 420) m2 = (true, snd (fst (concrete_handler (turn_at false 420) m2)), snd (concrete_handler (turn_at false 420) m2))).
  { apply triple_eta. vm_compute. reflexivity. }
  split; [vm_compute; reflexivity|].
  assert (R : @reach heltec32_v3 no_lna (list (list Z)) (fun p s => s ++ [p]) id id 24 48 true false true
                [(turn_at false 10, true); (turn_at false 60, true)] m2).
  { apply (@reach_turn heltec32_v3 no_lna (list (list Z)) (fun p s => s ++ [p]) id id 24 48 true false true
      [(turn_at false 10, true)] m1 false (turn_at false 60) [] false m2 (snd (concrete_handler (turn_at false 60) m1))); [|apply triple_eta; vm_compute; reflexivity|reflexivity|vm_compute; reflexivity].
    apply (@reach_turn heltec32_v3 no_lna (list (list Z)) (fun p s => s ++ [p]) id id 24 48 true false true
      [] m0 false (turn_at false 10) [] false m1 (snd (concrete_handler (turn_at false 10) m0))); [apply reach_init|apply triple_eta; vm_compute; reflexivity|reflexivity|vm_compute; reflexivity]. }
  assert (F : Forall (fun e => 0 <= t_difs (fst e) < 2 ^ 32) [(turn_at false 10, true); (turn_at false 60, true)])
    by (repeat constructor; cbn; lia).
  destruct (@csma_safe heltec32_v3 no_lna (list (list Z)) (fun p s => s ++ [p]) id id 24 48 true false true
    _ m2 false (turn_at false 420) [] _ _ R F ltac:(lia) E) as (_ & _ & _ & (h1 & t0 & h2 & Eh & _ & Hd) & _).
  exists h1, t0, h2. split; [exact Eh|exact Hd].
Defined.

(** The DIFS deadline [difs_wait_start+difs_ms] is computed in 32 bits and compared
    with [<]: 20 ms before the counter wraps it lies in the past at once, and a
    device that draws the shortest window transmits 4 ms after it first found the
    medium free, with a DIFS of 48 ms. *)
Example difs_skipped_at_wrap :
  let at_ n := mk_turn (fun lo _ => lo) (mk_look false (-120) n n) n n n in
  let m1 := snd (fst (concrete_handler (at_ (2 ^ 32 - 20)) (waiting_mac [1; 2; 3]))) in
  let m2 := snd (fst (concrete_handler (at_ (2 ^ 32 - 18)) m1)) in
  let '(sent, _, frames) := concrete_handler (at_ (2 ^ 32 - 16)) m2 in
  difs_wait_start (cs m1) = 2 ^ 32 - 20 /\ sent = true /\ frames = [[1; 2; 3]].
Proof. vm_compute. auto. Qed.

(** ** The contention counter after a transmission *)

Section Stale.
  Context `{Board} `{Lna} {S : Type} (transmit : list Z -> S -> S) (lora_receive : S -> S)
    (update_airtime_s : csma * S -> csma * S) (slot difs : Z) (avoid blanked should_flush : bool).
  Context (Hupd : forall c s, cw_wait_start (fst (update_airtime_s (c, s))) = cw_wait_start c).
  Abbreviation handler := (tx_queue_handler transmit lora_receive update_airtime_s slot difs avoid blanked should_flush).
  Abbreviation free t m := (fst (medium_free blanked false avoid (at_medium t) (status m))).
  Abbreviation tx := (fun p (x : csma * S) => (fst x, transmit p (snd x))).

Lemma transmit_entry_fst q x : fst (snd (transmit_entry tx q x)) = fst x.
Proof.
  unfold transmit_entry. destruct (fifo_pop (packet_starts q)) as [a fs]. destruct (fifo_pop (packet_lengths q)) as [l fl].
  cbn [snd]. now destruct (_ && _).
Qed.
Lemma flush_loop_fst fuel : forall q x, fst (snd (flush_loop tx fuel q x)) = fst x.
Proof.
  induction fuel as [|fuel IH]; intros q x; cbn [flush_loop]; [reflexivity|].
  destruct (fifo_isempty _); [reflexivity|]. pose proof (transmit_entry_fst q x) as E.
  destruct (transmit_entry tx q x) as [[l q'] x']. now rewrite IH.
Qed.
Lemma drain_cw c q s : let '(c', _, _) := drain transmit lora_receive update_airtime_s should_flush c q s in
  cw_wait_start c' = cw_wait_start c.
Proof.
  unfold drain, flush_queue, pop_queue. destruct should_flush.
  - pose proof (flush_loop_fst (Z.to_nat (fifo_size (packet_starts q))) q (c, s)) as E.
    destruct (flush_loop _ _ _ _) as [q' [c' s']]. cbn in *. subst c'.
    specialize (Hupd c (lora_receive s')). destruct (update_airtime_s _) as [c' s'']. exact Hupd.
  - destruct (fifo_isempty _).
    + cbn. specialize (Hupd c (lora_receive s)). destruct (update_airtime_s _) as [c' s'']. exact Hupd.
    + pose proof (transmit_entry_fst q (c, s)) as E. destruct (transmit_entry _ _ _) as [[l q'] [c' s']]. cbn in *. subst c'.
      specialize (Hupd c (lora_receive s')). destruct (update_airtime_s _) as [c' s'']. exact Hupd.
Qed.

Lemma sent_state t m s m' s' : handler false t m s = (true, m', s') ->
  cw_wait_start (cs m') = t_restart t /\ difs_wait_start (cs m') = UNSET /\ csma_cw (cs m') = -1 /\ cw_wait_passed (cs m') = 0.
Proof.
  unfold tx_queue_handler. cbn [negb andb]. intros E. destruct (0 <? _); [|discriminate].
  destruct (medium_free _ _ _ _ _) as [fr st].
  destruct (_ =? _); [destruct fr; discriminate|]. destruct (negb fr); [discriminate|].
  destruct (_ <? _); [discriminate|]. destruct (_ =? _); [discriminate|]. destruct (_ <? _); [discriminate|].
  match type of E with context [drain _ _ _ _ ?c _ _] =>
    pose proof (drain_timers transmit lora_receive update_airtime_s should_flush c (queue m) s) as Hdt;
    pose proof (drain_cw c (queue m) s) as Hcw end.
  destruct (drain _ _ _ _ _ _ _) as [[c' q'] s''] in E, Hdt, Hcw. injection E as <- <-. cbn in *. tauto.
Qed.

(** After a transmission the contention counter's start is left at the time of
    that transmission.  The next payload then needs no contention wait: if the time
    since the previous drain covers the longest window, two turns at a free medium
    that are [difs_ms] apart are enough, whatever window is drawn. *)
Theorem contention_skipped tf t0 t1 m m1 q2 st2 s s1 s2 :
  fair tf -> fair t0 -> fair t1 -> 0 <= slot -> 0 <= difs < 2 ^ 31 ->
  handler false tf m s = (true, m1, s1) ->
  let m2 := mk_mac st2 (cs m1) q2 in
  let m3 := snd (fst (handler false t0 m2 s1)) in
  0 < queue_height q2 -> 0 <= cw_min (cs m1) < cw_max (cs m1) ->
  t_difs tf <= t_difs t0 -> t_difs t0 + difs <= t_difs t1 ->
  (cw_max (cs m1) - 1) * slot <= t_difs t1 - t_difs tf ->
  free t0 m2 = true -> free t1 m3 = true ->
  fst (fst (handler false t1 m3 s2)) = true.
Proof.
  intros [] [] [] Hs Hd E m2 m3 Hq Hw H01 H12 Hcov F0 F1.
  destruct (sent_state tf m s m1 s1 E) as (E1 & E2 & E3 & E4). clear E Hupd.
  assert (E5 : cs m3 = (draw_window slot t0 (cs m1)) <| difs_wait_start := t_difs t0 |> /\ queue m3 = q2).
  { unfold m3, m2, tx_queue_handler in *. cbn [negb andb queue cs status] in *.
    rewrite (proj2 (Z.ltb_lt _ _) Hq), draw_window_difs, E2, Z.eqb_refl. clear F1.
    destruct (medium_free _ _ _ _ _) as [fr st]. cbn [fst] in F0. subst fr. split; reflexivity. }
  clearbody m3. clear F0.
  destruct E5 as [E5 E6]. unfold tx_queue_handler. cbn [negb andb]. rewrite E6, (proj2 (Z.ltb_lt _ _) Hq).
  destruct (medium_free _ _ _ _ _) as [fr st]. cbn [fst] in F1. subst fr.
  specialize (fair_draw1 _ _ (proj2 Hw)). destruct (cs m1) as [d0 w0 g0 p0 k0 b0 lo hi]. cbn in *. subst d0 w0 p0 k0.
  unfold draw_window in *. cbn in E5. set (k := draw t0 lo hi) in *.
  assert (0 <= k * slot <= t_difs t1 - t_difs tf) by nia.
  rewrite E5. cbn. rewrite (proj2 (Z.eqb_neq k (-1))) by lia. cbn. unfold UNSET.
  rewrite (proj2 (Z.eqb_neq (t_difs t0) (2 ^ 32 - 1))) by lia. rewrite (u32_id (t_difs t0 + difs)) by lia.
  rewrite (proj2 (Z.ltb_ge (t_difs t1) (t_difs t0 + difs))) by lia.
  rewrite (proj2 (Z.eqb_neq (t_restart tf) (2 ^ 32 - 1))) by lia.
  rewrite fair_count2, fair_restart0, (u32_id (t_difs t1 - t_difs tf)), (u32_id (0 + _)), (u32_id (k * slot)) by lia.
  rewrite (proj2 (Z.ltb_ge (0 + (t_difs t1 - t_difs tf)) (k * slot))) by lia.
  destruct (drain _ _ _ _ _ _ _) as [[c' q'] s']. reflexivity.
Qed.
End Stale.

Lemma contention_skipped_witness :
  let m := snd (fst (concrete_handler (turn_at false 60) (snd (fst (concrete_handler (turn_at false 10) (waiting_mac [1; 2; 3])))))) in
  let m1 := snd (fst (concrete_handler (turn_at false 420) m)) in
  let m2 := mk_mac (status (waiting_mac [])) (cs m1) (queue (waiting_mac [7])) in
  let m3 := snd (fst (concrete_handler (turn_at false 800) m2)) in
  fst (fst (concrete_handler (turn_at false 850) m3)) = true /\ csma_cw (cs m3) * 24 = 336.
Proof.
  intros m m1 m2 m3.
  assert (E : concrete_handler (turn_at false 420) m = (true, m1, snd (concrete_handler (turn_at false 420) m)))
    by (apply triple_eta; vm_compute; reflexivity).
  pose proof (turn_at_fair 420 ltac:(lia)) as Ff. pose proof (turn_at_fair 800 ltac:(lia)) as F0.
  pose proof (turn_at_fair 850 ltac:(lia)) as F1.
  assert (Hq : 0 < queue_height (queue (waiting_mac [7]))) by (vm_compute; reflexivity).
  assert (Hw : 0 <= cw_min (cs m1) < cw_max (cs m1)) by (split; [vm_compute; discriminate|vm_compute; reflexivity]).
  assert (Hc : (cw_max (cs m1) - 1) * 24 <= t_difs (turn_at false 850) - t_difs (turn_at false 420)) by (vm_compute; discriminate).
  split; [|vm_compute; reflexivity].
  refine (@contention_skipped heltec32_v3 no_lna (list (list Z)) (fun p s => s ++ [p]) id id 24 48 true false true
    (fun c s => eq_refl) (turn_at false 420) (turn_at false 800) (turn_at false 850) m m1 (queue (waiting_mac [7]))
    (status (waiting_mac [])) [] _ [] Ff F0 F1 ltac:(lia) ltac:(lia) E Hq Hw _ _ Hc _ _);
    vm_compute; first [reflexivity | discriminate].
Defined.

(** ** The contention window *)

(** The window bounds belong to the band. *)
Definition band_ok (c : csma) : Prop :=
  1 <= cw_band c <= CSMA_CW_BANDS /\ cw_min c = (cw_band c - 1) * CSMA_CW_PER_BAND_WINDOWS /\
  cw_max c = cw_band c * CSMA_CW_PER_BAND_WINDOWS - 1.

(** The band and the contention window after [update_csma_parameters], with
    [map] as the Arduino core documents it: band 1 up to 7 % airtime, then a band
    that grows with the airtime and never leaves 1..4; a window whose bounds
    belong to its band stays so, and a change of band always makes it so. *)
Theorem csma_window_typed `{Arduino} (airtime : cfloat) (c : csma) :
  (forall x a b p q, arduino_map x a b p q = Z.quot ((x - a) * (q - p)) (b - a) + p) ->
  let pct := f_trunc (f32_mul airtime (f32_of_Z 100)) in
  let c' := snd (update_csma_parameters airtime c) in
  cw_band c' = (if pct <=? 7 then 1 else Z.min 4 (2 + 2 * pct / 78)) /\
  1 <= cw_band c' <= CSMA_CW_BANDS /\
  (band_ok c -> band_ok c') /\ (cw_band c' <> cw_band c -> band_ok c').
Proof.
  intros Hmap pct c'. unfold band_ok, CSMA_CW_BANDS, CSMA_CW_PER_BAND_WINDOWS.
  set (band := if pct <=? 7 then 1 else Z.min 4 (2 + 2 * pct / 78)).
  assert (Hb : 1 <= band <= 4).
  { unfold band. destruct (Z.leb_spec pct 7); [lia|]. pose proof (Z.div_pos (2 * pct) 78). lia. }
  assert (E : c' = if negb (band =? cw_band c)
    then c <| cw_band := band |> <| cw_min := (band - 1) * 15 |> <| cw_max := band * 15 - 1 |> else c).
  { unfold c', update_csma_parameters. rewrite Hmap. fold pct. unfold CSMA_BAND_1_MAX_AIRTIME, CSMA_BAND_N_MIN_AIRTIME, CSMA_CW_BANDS.
    replace (if 4 <? _ then _ else _) with band.
    - destruct (negb (band =? cw_band c)); [|reflexivity]. cbn. unfold CSMA_CW_PER_BAND_WINDOWS.
      rewrite !(u8_id band), !u8_id by (unfold is_u8; lia). reflexivity.
    - unfold band. destruct (Z.leb_spec pct 7); [reflexivity|].
      replace (pct + 7 - 7) with pct by lia. change (85 - 7) with 78. change (4 - 2) with 2.
      rewrite Z.quot_div_nonneg by lia. rewrite (Z.mul_comm pct 2).
      destruct (Z.ltb_spec 4 (2 * pct / 78 + 2)); lia. }
  rewrite E. destruct (Z.eqb_spec band (cw_band c)) as [Eb|Eb]; cbn; [|lia].
  rewrite <- Eb. split; [reflexivity|]. split; [lia|]. split; [tauto|]. intros Hn. now destruct Hn.
Qed.

Lemma csma_window_typed_witness :
  cw_band (snd (@update_csma_parameters arduino_core (f32_div (f32_of_Z 1) (f32_of_Z 2)) csma_init)) = 3 /\
  band_ok (snd (@update_csma_parameters arduino_core (f32_div (f32_of_Z 1) (f32_of_Z 2)) csma_init)).
Proof.
  destruct (@csma_window_typed arduino_core (f32_div (f32_of_Z 1) (f32_of_Z 2)) csma_init (fun x a b p q => eq_refl))
    as (E & _ & _ & Hn).
  split; [exact E|]. apply Hn. rewrite E. vm_compute. discriminate.
Defined.
