(* ===== verification/Serial.v ===== *)
(** * The host's command interface (RNode_Firmware.ino)

    [serial_callback], the handler of every byte the host sends, over the state of
    the components it drives: the transmit queue, the modem, the settings store,
    the airtime limits and the ESP-NOW interface.  Its branches are grouped by the
    component they serve.  [host_payload_arrives] composes the whole path from one
    host through two radios to the other. *)
From S2P Require Import Prelude Boards Framing Rom Float Kiss Eeprom Settings Modem Airtime Fifo TxQueue Link EspNow Csma.

(** More build switches. *)
(* @src Boards.h:2632-2632 HAS_RTC *)
Class Build := { HAS_RTC : bool; HAS_SENSORS : bool; HAS_URNS : bool }.

(* @src Config.h:37-41 RNS_LINK_STATE_CONNECTED *)
Definition MODE_HOST : Z := 0x11.
Definition MODE_TNC : Z := 0x12.
Definition RNS_LINK_STATE_DISCONNECTED : Z := 0x00.
Definition RNS_LINK_STATE_CONNECTED : Z := 0x01.
(* @src Config.h:59-61 WR_WIFI_OFF *)
Definition WR_WIFI_OFF : Z := 0x00.
Definition WR_WIFI_STA : Z := 0x01.
Definition WR_WIFI_AP : Z := 0x02.
(* @src Config.h:107-107 ETH_SPEED_OFF *)
Definition ETH_SPEED_OFF : Z := 0x05.
(* @src ESPNOW.h:405-405 ESPNOW_TX_BUF_SIZE *)
Definition ESPNOW_TX_BUF_SIZE : Z := MTU.

(** What the handler reads from parts that are not in the state: the random source,
    the clock, the sensor, the hashes computed at start-up, the display buffers. *)
Record host_env := mk_host_env {
  LED_DISPLAY_BLANKED : bool; random_254 : Z; random_256 : Z; now_epoch : Z; ntp_status : Z;
  sensor_present : bool; sensor_model : Z; temperature : cfloat; humidity : cfloat; pressure : cfloat;
  dev_hash : list Z; dev_firmware_hash : list Z; dev_bootloader_hash : list Z; dev_partition_table_hash : list Z;
  menu_direct : bool; panel : list Z; disp_area : list Z; stat_area : list Z;
  console_active : bool; ed25519_verify : list Z -> list Z -> list Z -> bool; fw_signature_validated : bool
}.

(** ** State *)

(** The receiving automaton. *)
(* @src Config.h:300-313 cmdbuf *)
Record kiss_in := mk_kiss_in {
  IN_FRAME : bool; ESCAPE : bool; command : Z; frame_len : Z;
  cmdbuf : list Z; prov_req_buf : list Z; identity_import_buf : list Z
}.
Definition kiss_in0 : kiss_in :=
  mk_kiss_in false false CMD_UNKNOWN 0 (repeat 0 (Z.to_nat CMD_L)) (repeat 0 (Z.to_nat MTU)) (repeat 0 (Z.to_nat MTU)).

(* @src Config.h:275-296 op_mode *)
Record dev (D E : Type) := mk_dev {
  ki : kiss_in; mo : modem D; cf : conf E; tq : txq; ch : chan; ms : modem_status; en : espnow;
  selected_vport : Z; espnow_tx_buf : list Z;
  hw_ready : bool; op_mode : Z; rns_link_state : Z; stat_rx : Z; stat_tx : Z;
  last_rssi : Z; last_rssi_raw : Z; last_snr_raw : Z;
  disp_ext_fb : bool; fb : list Z; display_intensity : Z; display_addr : Z; recondition_display : bool;
  dev_sig : list Z; dev_firmware_hash_target : list Z; firmware_update_mode : bool; wifi_mode : Z
}.
Arguments mk_dev {D E} _ _ _ _ _ _ _ _ _ _ _ _ _ _ _ _ _ _ _ _ _ _ _ _ _ _.
Arguments ki {D E} _. Arguments mo {D E} _. Arguments cf {D E} _. Arguments tq {D E} _. Arguments ch {D E} _.
Arguments ms {D E} _. Arguments en {D E} _. Arguments selected_vport {D E} _. Arguments espnow_tx_buf {D E} _.
Arguments hw_ready {D E} _. Arguments op_mode {D E} _. Arguments rns_link_state {D E} _. Arguments stat_rx {D E} _.
Arguments stat_tx {D E} _. Arguments last_rssi {D E} _. Arguments last_rssi_raw {D E} _. Arguments last_snr_raw {D E} _.
Arguments disp_ext_fb {D E} _. Arguments fb {D E} _. Arguments display_intensity {D E} _. Arguments display_addr {D E} _.
Arguments recondition_display {D E} _. Arguments dev_sig {D E} _. Arguments dev_firmware_hash_target {D E} _.
Arguments firmware_update_mode {D E} _. Arguments wifi_mode {D E} _.

Section Serial.
  Context `{Board} `{Build} {D : Type} `{LoRaModem D} {E : Type} `{Eeprom E} (env : host_env) (VSR : cfloat).
  Abbreviation dev := (dev D E).

(** Everything the device does to its surroundings, in order, is the log of [cf]. *)
Definition act (e : event) (d : dev) : dev := d <| cf ::= log e |>.
Definition say (bs : list Z) (d : dev) : dev := act (EvSerial bs) d.
Definition set_in (f : kiss_in -> kiss_in) (d : dev) : dev := d <| ki ::= f |>.
Definition stored (f : conf E -> conf E) (d : dev) : dev := d <| cf ::= f |>.
(** An operation of the modem: what it sends to the host joins the log. *)
Definition radio (f : modem D -> modem D) (d : dev) : dev :=
  let m := f ((mo d) <| out := [] |>) in
  say (out m) (d <| mo := (m <| out := [] |>) |>).
Definition set_par (f : lora -> lora) (d : dev) : dev := d <| mo ::= fun m => m <| par ::= f |> |>.
Definition host_mode (f : modem D -> modem D) (d : dev) : dev :=
  if op_mode d =? MODE_HOST then radio f d else d.
Definition set_vport_cfg (f : espnow_vport_cfg_t -> espnow_vport_cfg_t) (d : dev) : dev :=
  d <| en ::= fun s => s <| espnow_vport_cfg ::= f |> |>.
(** [selected_vport == 1] in the branches compiled with ESP-NOW. *)
Definition on_vport_1 (d : dev) : bool := HAS_ESPNOW && (selected_vport d =? 1).

(* @src Utilities.h:975-981 set_rns_link_state *)
Definition set_rns_link_state (new_state : Z) (d : dev) : dev :=
  let d := if negb (new_state =? rns_link_state d) then
    if new_state =? RNS_LINK_STATE_CONNECTED then act EvConnectMelody d
    else if new_state =? RNS_LINK_STATE_DISCONNECTED then act EvDisconnectMelody d else d
    else d in
  d <| rns_link_state := new_state |>.

(** ** Buffering a parameter *)

(** The shared lines of the branches that collect bytes in [cmdbuf]; the byte is
    returned as the assignments to [sbyte] leave it. *)
(* @src RNode_Firmware.ino:2004-2013 serial_callback *)
Definition cmd_byte (sbyte : Z) (d : dev) : Z * dev :=
  let k := ki d in
  match unescape_step (ESCAPE k) sbyte with
  | (e, None) => (sbyte, set_in (fun k => k <| ESCAPE := e |>) d)
  | (e, Some b) =>
      (b, set_in (fun k =>
            let k := k <| ESCAPE := e |> in
            if frame_len k <? CMD_L
            then k <| cmdbuf := zset (cmdbuf k) (frame_len k) b |> <| frame_len := frame_len k + 1 |>
            else k) d)
  end.

(** The branches that unescape without buffering: [f] gets the byte. *)
(* @src RNode_Firmware.ino:2716-2727 serial_callback *)
Definition plain_byte (sbyte : Z) (f : Z -> dev -> dev) (d : dev) : dev :=
  match unescape_step (ESCAPE (ki d)) sbyte with
  | (e, None) => set_in (fun k => k <| ESCAPE := e |>) d
  | (e, Some b) => f b (set_in (fun k => k <| ESCAPE := e |>) d)
  end.

Definition cb (d : dev) (i : Z) : Z := zget 0 (cmdbuf (ki d)) i.
(** [frame_len == n] after the byte. *)
Definition at_len (n : Z) (d : dev) : bool := frame_len (ki d) =? n.
(* @src RNode_Firmware.ino:2016-2016 serial_callback *)
Definition cmd_u32 (d : dev) : Z :=
  Z.lor (Z.lor (Z.lor (Z.shiftl (cb d 0) 24) (Z.shiftl (cb d 1) 16)) (Z.shiftl (cb d 2) 8)) (cb d 3).
(* @src RNode_Firmware.ino:2255-2255 serial_callback *)
Definition cmd_u16 (d : dev) : Z := Z.lor (Z.shiftl (cb d 0) 8) (cb d 1).

(** ** The radio's parameters *)

(* @src RNode_Firmware.ino:2003-2031 serial_callback *)
Definition cmd_frequency (sbyte : Z) (d : dev) : dev :=
  let d := snd (cmd_byte sbyte d) in
  if at_len 4 d then
    let freq := cmd_u32 d in
    let report d := say (kiss_indicate_frequency (lora_freq (par (mo d)))) d in
    if on_vport_1 d then
      let d := if negb (freq =? 0) then set_vport_cfg (fun c => c <| frequency := freq |>) d else d in
      say (kiss_indicate_v1_frequency (en d)) d
    else if freq =? 0 then report d
    else report (host_mode setFrequency (set_par (fun p => p <| lora_freq := freq |>) d))
  else d.

(* @src RNode_Firmware.ino:2032-2060 serial_callback *)
Definition cmd_bandwidth (sbyte : Z) (d : dev) : dev :=
  let d := snd (cmd_byte sbyte d) in
  if at_len 4 d then
    let bw := cmd_u32 d in
    let report d := say (kiss_indicate_bandwidth (lora_bw (par (mo d)))) d in
    if on_vport_1 d then
      let d := if negb (bw =? 0) then set_vport_cfg (fun c => c <| bandwidth := bw |>) d else d in
      say (kiss_indicate_v1_bandwidth (en d)) d
    else if bw =? 0 then report d
    else report (host_mode setBandwidth (set_par (fun p => p <| lora_bw := bw |>) d))
  else d.

(* @src RNode_Firmware.ino:2107-2121 serial_callback *)
Definition clamp_txp (txp : Z) : Z :=
  let limit n := if n <? txp then n else txp in
  if MODEM =? SX1262 then (if HAS_LORA_PA then limit PA_MAX_OUTPUT else limit 22)
  else if MODEM =? SX1280 then (if HAS_PA then limit 20 else limit 13)
  else limit 20.

(* @src RNode_Firmware.ino:2096-2126 serial_callback *)
Definition cmd_txpower (sbyte : Z) (d : dev) : dev :=
  let report d := say (kiss_indicate_txpower (lora_txp (par (mo d)))) d in
  if on_vport_1 d then
    let d := if negb (sbyte =? 0xFF) then set_vport_cfg (fun c => c <| txpower := i8 sbyte |>) d else d in
    say (kiss_indicate_v1_txpower (en d)) d
  else if sbyte =? 0xFF then report d
  else report (host_mode setTXPower (set_par (fun p => p <| lora_txp := clamp_txp sbyte |>) d)).

Definition clamp (lo hi x : Z) : Z := let x := if x <? lo then lo else x in if hi <? x then hi else x.

(* @src RNode_Firmware.ino:2127-2144 serial_callback *)
Definition cmd_sf (sbyte : Z) (d : dev) : dev :=
  let report d := say (kiss_indicate_spreadingfactor (lora_sf (par (mo d)))) d in
  if on_vport_1 d then
    let d := if negb (sbyte =? 0xFF) then set_vport_cfg (fun c => c <| sf := sbyte |>) d else d in
    say (kiss_indicate_v1_sf (en d)) d
  else if sbyte =? 0xFF then report d
  else report (host_mode setSpreadingFactor (set_par (fun p => p <| lora_sf := clamp 5 12 sbyte |>) d)).

(* @src RNode_Firmware.ino:2145-2162 serial_callback *)
Definition cmd_cr (sbyte : Z) (d : dev) : dev :=
  let report d := say (kiss_indicate_codingrate (lora_cr (par (mo d)))) d in
  if on_vport_1 d then
    let d := if negb (sbyte =? 0xFF) then set_vport_cfg (fun c => c <| cr := sbyte |>) d else d in
    say (kiss_indicate_v1_cr (en d)) d
  else if sbyte =? 0xFF then report d
  else report (host_mode setCodingRate (set_par (fun p => p <| lora_cr := clamp 5 8 sbyte |>) d)).

(* @src RNode_Firmware.ino:2212-2214 serial_callback *)
Definition cmd_implicit (sbyte : Z) (d : dev) : dev :=
  let d := radio (set_implicit_length sbyte) d in say (kiss_indicate_implicit_length (implicit_l (mo d))) d.

(* @src RNode_Firmware.ino:2215-2223 serial_callback *)
Definition cmd_leave (sbyte : Z) (d : dev) : dev :=
  if sbyte =? 0xFF then
    let d := set_rns_link_state RNS_LINK_STATE_DISCONNECTED (act EvDisplayUnblank d) in
    d <| ms ::= fun m => m <| current_rssi := -292 |> |> <| last_rssi := -292 |>
      <| last_rssi_raw := 0x00 |> <| last_snr_raw := 0x80 |>
  else d.

(** [startRadio()] resets the channel statistics once the modem has started. *)
(* @src RNode_Firmware.ino:2224-2241 serial_callback *)
Definition cmd_radio_state (sbyte : Z) (d : dev) : dev :=
  let d := act EvDisplayUnblank (set_rns_link_state RNS_LINK_STATE_CONNECTED d) in
  let report d := say (kiss_indicate_radiostate (radio_online (mo d))) d in
  if on_vport_1 d then
    let d := if negb (sbyte =? 0xFF) then set_vport_cfg (fun c => c <| radio_state := sbyte |>) d else d in
    say (kiss_indicate_v1_radiostate (en d)) d
  else if sbyte =? 0xFF then report d
  else if sbyte =? 0x00 then report (radio stopRadio d)
  else if sbyte =? 0x01 then
    let was := radio_online (mo d) in
    let d := radio (fun m => snd (startRadio (console_active env) (hw_ready d) m)) d in
    report (if negb was && radio_online (mo d) then d <| ch ::= init_channel_stats |> else d)
  else d.

(** [(float)at/(100.0*100.0)]: a [double] quotient stored to a [float]; a limit of
    100 % or more is no limit. *)
(* @src RNode_Firmware.ino:2264-2270 serial_callback *)
Definition limit_of (at' : Z) : cfloat :=
  if at' =? 0 then f_zero
  else
    let l := to_f32 (f64_div (to_f64 (f32_of_Z at')) (f64_mul (f64_of_Z 100) (f64_of_Z 100))) in
    if f_leb (f32_of_Z 1) l then f_zero else l.

(* @src RNode_Firmware.ino:2242-2272 serial_callback *)
Definition cmd_st_alock (sbyte : Z) (d : dev) : dev :=
  let d := snd (cmd_byte sbyte d) in
  if at_len 2 d then
    let at' := cmd_u16 d in
    if on_vport_1 d
    then let d := set_vport_cfg (fun c => c <| st_alock := at' |>) d in say (kiss_indicate_v1_st_alock (en d)) d
    else let d := d <| ch ::= fun c => c <| st_airtime_limit := limit_of at' |> |> in
         say (kiss_indicate_st_alock (st_airtime_limit (ch d))) d
  else d.

(* @src RNode_Firmware.ino:2273-2303 serial_callback *)
Definition cmd_lt_alock (sbyte : Z) (d : dev) : dev :=
  let d := snd (cmd_byte sbyte d) in
  if at_len 2 d then
    let at' := cmd_u16 d in
    if on_vport_1 d
    then let d := set_vport_cfg (fun c => c <| lt_alock := at' |>) d in say (kiss_indicate_v1_lt_alock (en d)) d
    else let d := d <| ch ::= fun c => c <| lt_airtime_limit := limit_of at' |> |> in
         say (kiss_indicate_lt_alock (lt_airtime_limit (ch d))) d
  else d.

(** ** Settings that take a whole buffered parameter *)

(* @src RNode_Firmware.ino:2353-2367 serial_callback *)
Definition cmd_rom_write (sbyte : Z) (d : dev) : dev :=
  let d := snd (cmd_byte sbyte d) in
  if at_len 2 d then stored (eeprom_write (cb d 0) (cb d 1)) d else d.

(* @src RNode_Firmware.ino:2392-2410 serial_callback *)
Definition cmd_fb_write (sbyte : Z) (d : dev) : dev :=
  let d := snd (cmd_byte sbyte d) in
  if HAS_DISPLAY && at_len 9 d then
    let line := cb d 0 in
    let line := if 63 <? line then 63 else line in
    let fb_o := line * 8 in
    d <| fb ::= fun f => foldl (fun f i => zset f (fb_o + Z.of_nat i) (cb d (1 + Z.of_nat i))) f (List.seq 0 8) |>
  else d.

Definition esp_or_nrf : bool := (MCU_VARIANT =? MCU_ESP32) || (MCU_VARIANT =? MCU_NRF52).

(* @src RNode_Firmware.ino:2434-2451 serial_callback *)
Definition cmd_dev_sig (sbyte : Z) (d : dev) : dev :=
  if esp_or_nrf then
    let d := snd (cmd_byte sbyte d) in
    if at_len DEV_SIG_LEN d then
      let d := d <| dev_sig := take (Z.to_nat DEV_SIG_LEN) (cmdbuf (ki d)) |> in
      stored (device_save_signature (ed25519_verify env) (dev_sig d) (dev_hash env)) d
    else d
  else d.

(* @src RNode_Firmware.ino:2470-2487 serial_callback *)
Definition cmd_fw_hash (sbyte : Z) (d : dev) : dev :=
  if esp_or_nrf then
    let d := snd (cmd_byte sbyte d) in
    if at_len DEV_HASH_LEN d then
      let d := d <| dev_firmware_hash_target := take (Z.to_nat DEV_HASH_LEN) (cmdbuf (ki d)) |> in
      stored (device_save_firmware_hash (fw_signature_validated env) (dev_firmware_hash_target d)) d
    else d
  else d.

(** Network names: stored when the terminating zero arrives, 32 bytes and a zero. *)
(* @src RNode_Firmware.ino:2527-2564 serial_callback *)
Definition cmd_wifi_string (base sbyte : Z) (d : dev) : dev :=
  if HAS_WIFI then
    let '(sbyte, d) := cmd_byte sbyte d in
    if sbyte =? 0x00 then
      stored (fun c => foldl (fun c i =>
        let i := Z.of_nat i in
        if (i <? frame_len (ki d)) && (i <? 32) then upd (config_addr (base + i)) (cb d i) c
        else upd (config_addr (base + i)) 0x00 c) c (List.seq 0 33)) d
    else d
  else d.

(** Addresses: four bytes. *)
(* @src RNode_Firmware.ino:2565-2578 serial_callback *)
Definition cmd_address (base sbyte : Z) (d : dev) : dev :=
  let d := snd (cmd_byte sbyte d) in
  if at_len 4 d then
    stored (fun c => foldl (fun c i => upd (config_addr (base + Z.of_nat i)) (cb d (Z.of_nat i)) c) c (List.seq 0 4)) d
  else d.
(* @src RNode_Firmware.ino:2565-2620 serial_callback *)
Definition cmd_wifi_address (base sbyte : Z) (d : dev) : dev := if HAS_WIFI then cmd_address base sbyte d else d.
(* @src RNode_Firmware.ino:2621-2676 serial_callback *)
Definition cmd_eth_address (base sbyte : Z) (d : dev) : dev := if HAS_ETHERNET then cmd_address base sbyte d else d.

(* @src RNode_Firmware.ino:2061-2084 serial_callback *)
Definition cmd_time (sbyte : Z) (d : dev) : dev :=
  if HAS_RTC then
    let d := snd (cmd_byte sbyte d) in
    if at_len 4 d then
      let new_time := cmd_u32 d in
      if new_time =? 0 then say (kiss_indicate_time (now_epoch env)) d
      else say (kiss_indicate_time new_time) (act (EvRtcSet new_time) d)
    else d
  else d.

(** ** Settings that take one byte *)

(* @src RNode_Firmware.ino:2488-2526 serial_callback *)
Definition cmd_switches (command sbyte : Z) (d : dev) : dev :=
  if command =? CMD_WIFI_CHN then
    if HAS_WIFI && ((0 <? sbyte) && (sbyte <? 14)) then stored (upd (eeprom_addr ADDR_CONF_WCHN) sbyte) d else d
  else if command =? CMD_WIFI_MODE then
    if HAS_WIFI && ((sbyte =? WR_WIFI_OFF) || (sbyte =? WR_WIFI_STA) || (sbyte =? WR_WIFI_AP))
    then act EvWifiRemoteInit (stored (wr_conf_save sbyte) d <| wifi_mode := sbyte |>) else d
  else if command =? CMD_SND then
    if HAS_BUZZER && ((sbyte =? SND_ENABLE_BYTE) || (sbyte =? SND_DISABLE_BYTE))
    then stored (snd_conf_save (sbyte =? SND_ENABLE_BYTE)) d else d
  else if command =? CMD_ESPNOW_ENABLE then
    if HAS_ESPNOW && ((sbyte =? ESPNOW_ENABLE_BYTE) || (sbyte =? ESPNOW_DISABLE_BYTE))
    then stored (espnow_conf_save sbyte) d else d
  else if command =? CMD_WS_ENABLE then
    if HAS_WIFI && ((sbyte =? WS_ENABLE_BYTE) || (sbyte =? WS_DISABLE_BYTE))
    then stored (ws_conf_save sbyte) d else d
  else if command =? CMD_VSENSE_DIV then
    if HAS_VSENSE then
      let d := if sbyte =? 0xFF then d else stored (vsr_conf_save VSR sbyte) d in
      say (kiss_indicate_vsense_div (vsense_divider_ratio (pr (cf d)))) d
    else d
  else if command =? CMD_ETH_SPEED then
    if HAS_ETHERNET && (sbyte <=? ETH_SPEED_OFF) then stored (ethspd_conf_save sbyte) d else d
  else d.

Definition set_bt_state (s : Z) (d : dev) : dev := d <| cf ::= set_pr (fun p => p <| bt_state := s |>) |>.

(** [bt_start()] and [bt_stop()] belong to the Bluetooth stack and appear in the log. *)
(* @src RNode_Firmware.ino:2681-2713 serial_callback *)
Definition cmd_bt (command sbyte : Z) (d : dev) : dev :=
  if command =? CMD_BT_CTRL then
    if HAS_BLUETOOTH || HAS_BLE then
      if sbyte =? 0x00 then stored (bt_conf_save false) (act EvBtStop d)
      else if sbyte =? 0x01 then stored (bt_conf_save true) (act EvBtStart d)
      else if sbyte =? 0x02 then
        let st := bt_state (pr (cf d)) in
        let d := if st =? BT_STATE_OFF then stored (bt_conf_save true) (act EvBtStart d) else d in
        if negb (st =? BT_STATE_CONNECTED) then act EvBtPairing d else d
      else if (MCU_VARIANT =? MCU_ESP32) && HAS_BLE then
        if sbyte =? 0x03 then stored (bt_legacy_pairing_conf_save false) d
        else if sbyte =? 0x04 then stored (bt_legacy_pairing_conf_save true) d
        else if sbyte =? 0x05 then stored (bt_just_works_conf_save false) d
        else if sbyte =? 0x06 then stored (bt_just_works_conf_save true) d
        else d
      else d
    else d
  else if command =? CMD_BT_UNPAIR then
    if HAS_BLE && (sbyte =? 0x01) then act EvBtDebondAll d else d
  else d.

(* @src RNode_Firmware.ino:2714-2812 serial_callback *)
Definition cmd_display (command sbyte : Z) (d : dev) : dev :=
  let unblank d := act EvDisplayUnblank d in
  if command =? CMD_DISP_INT then
    if HAS_DISPLAY then plain_byte sbyte (fun b d => unblank (stored (di_conf_save b) (d <| display_intensity := b |>))) d else d
  else if command =? CMD_DISP_ADDR then
    if HAS_DISPLAY then plain_byte sbyte (fun b d => stored (da_conf_save b) (d <| display_addr := b |>)) d else d
  else if command =? CMD_DISP_BLNK then
    if HAS_DISPLAY then plain_byte sbyte (fun b d => unblank (stored (db_conf_save b) d)) d else d
  else if command =? CMD_DISP_ROT then
    if HAS_DISPLAY then plain_byte sbyte (fun b d => unblank (stored (drot_conf_save b) d)) d else d
  else if command =? CMD_DIS_IA then plain_byte sbyte (fun b d => stored (dia_conf_save b) d) d
  else if command =? CMD_DISP_RCND then
    if HAS_DISPLAY then plain_byte sbyte (fun b d => if 0x00 <? b then d <| recondition_display := true |> else d) d else d
  else if command =? CMD_NP_INT then
    if HAS_NP then plain_byte sbyte (fun b d => stored (np_int_conf_save b) (act (EvLedIntensity b) d)) d else d
  else d.

(** ** Reports and controls *)

(* @src RNode_Firmware.ino:2304-2352 serial_callback *)
Definition cmd_reports (command sbyte : Z) (d : dev) : dev :=
  if command =? CMD_STAT_RX then say (kiss_indicate_stat_rx (stat_rx d)) d
  else if command =? CMD_STAT_TX then say (kiss_indicate_stat_tx (stat_tx d)) d
  else if command =? CMD_STAT_RSSI then say (kiss_indicate_stat_rssi (last_rssi d)) d
  else if command =? CMD_RADIO_LOCK then
    let d := radio update_radio_lock d in say (kiss_indicate_radio_lock (radio_locked (mo d))) d
  else if (command =? CMD_BLINK) && negb (LED_DISPLAY_BLANKED env) then act (EvLedInfo sbyte) d
  else if command =? CMD_RANDOM then say (kiss_indicate_random (random_254 env)) d
  else if command =? CMD_DETECT then
    if sbyte =? DETECT_REQ then say kiss_indicate_detect (set_rns_link_state RNS_LINK_STATE_CONNECTED d) else d
  else if HAS_ESPNOW && (command =? CMD_SEL_INT) then d <| selected_vport := if sbyte <=? 1 then sbyte else 0 |>
  else if HAS_ESPNOW && (command =? CMD_INTERFACES) then say (kiss_indicate_interfaces (en d)) d
  else if command =? CMD_PROMISC then
    let d := if sbyte =? 0x01 then radio promisc_enable d else if sbyte =? 0x00 then radio promisc_disable d else d in
    say (kiss_indicate_promisc (promisc (mo d))) d
  else if command =? CMD_READY then
    say (if negb (queue_full (tq d)) then kiss_indicate_ready else kiss_indicate_not_ready) d
  else if command =? CMD_UNLOCK_ROM then if sbyte =? ROM_UNLOCK_BYTE then stored unlock_rom d else d
  else if command =? CMD_RESET then if sbyte =? CMD_RESET_BYTE then act EvHardReset d else d
  else if command =? CMD_ROM_READ then say (kiss_dump_eeprom (ee (cf d))) d
  else if command =? CMD_CFG_READ then say (kiss_dump_config (ee (cf d))) d
  else d.

(* @src RNode_Firmware.ino:2368-2391 serial_callback *)
Definition cmd_info (command sbyte : Z) (d : dev) : dev :=
  if command =? CMD_FW_VERSION then say kiss_indicate_version d
  else if command =? CMD_PLATFORM then say kiss_indicate_platform d
  else if command =? CMD_MCU then say kiss_indicate_mcu d
  else if command =? CMD_BOARD then say kiss_indicate_board d
  else if command =? CMD_CONF_SAVE then
    stored (eeprom_conf_save (hw_ready d) (radio_online (mo d)) (par (mo d))) d
  else if command =? CMD_CONF_DELETE then stored eeprom_conf_delete d
  else if command =? CMD_FB_EXT then
    if HAS_DISPLAY then
      let report d := say (kiss_indicate_fbstate (disp_ext_fb d)) d in
      if sbyte =? 0xFF then report d
      else if sbyte =? 0x00 then report (d <| disp_ext_fb := false |>)
      else if sbyte =? 0x01 then report (d <| disp_ext_fb := true |>)
      else d
    else d
  else d.

(* @src RNode_Firmware.ino:2411-2433 serial_callback *)
Definition cmd_readback (command sbyte : Z) (d : dev) : dev :=
  if command =? CMD_FB_READ then if negb (sbyte =? 0x00) then say (kiss_indicate_fb (fb d)) d else d
  else if command =? CMD_DISP_READ then
    if negb (sbyte =? 0x00) then
      let d := if HAS_DISPLAY then act EvDisplayUnblank d else d in
      say (kiss_indicate_disp (menu_direct env) (panel env) (disp_area env) (stat_area env)) d
    else d
  else if command =? CMD_DEV_HASH then
    if esp_or_nrf && negb (sbyte =? 0x00) then say (kiss_indicate_device_hash (dev_hash env)) d else d
  else d.

(* @src RNode_Firmware.ino:2452-2469 serial_callback *)
Definition cmd_firmware (command sbyte : Z) (d : dev) : dev :=
  if command =? CMD_FW_UPD then d <| firmware_update_mode := (sbyte =? 0x01) |>
  else if command =? CMD_HASHES then
    if esp_or_nrf then
      if sbyte =? 0x01 then say (kiss_indicate_target_fw_hash (dev_firmware_hash_target d)) d
      else if sbyte =? 0x02 then say (kiss_indicate_fw_hash (dev_firmware_hash env)) d
      else if sbyte =? 0x03 then say (kiss_indicate_bootloader_hash (dev_bootloader_hash env)) d
      else if sbyte =? 0x04 then say (kiss_indicate_partition_table_hash (dev_partition_table_hash env)) d
      else d
    else d
  else d.

(* @src RNode_Firmware.ino:2085-2095 serial_callback *)
Definition cmd_peripherals (command sbyte : Z) (d : dev) : dev :=
  if command =? CMD_NTP_SYNC then
    if (MCU_VARIANT =? MCU_ESP32) && HAS_RTC && (HAS_WIFI || HAS_ETHERNET) && (sbyte =? 0x01)
    then say (kiss_indicate_ntp_sync (ntp_status env) (now_epoch env)) (act EvNtpSync d) else d
  else if command =? CMD_SENSOR then
    if HAS_SENSORS
    then say (kiss_indicate_sensor (sensor_present env) (sensor_model env) (temperature env) (humidity env) (pressure env)) d
    else d
  else d.

(** ** Payloads *)

(* @src RNode_Firmware.ino:1968-2002 serial_callback *)
Definition cmd_data (sbyte : Z) (d : dev) : dev :=
  let d := if negb (bt_state (pr (cf d)) =? BT_STATE_CONNECTED)
           then set_rns_link_state RNS_LINK_STATE_CONNECTED d else d in
  if on_vport_1 d then
    plain_byte sbyte (fun b d => if zlen (espnow_tx_buf d) <? ESPNOW_TX_BUF_SIZE
                                 then d <| espnow_tx_buf ::= fun l => l ++ [b] |> else d) d
  else plain_byte sbyte (fun b d => d <| tq ::= fun q => kiss_data_byte q b |>) d.

(** The commands of the on-board node: its requests are buffered here. *)
(* @src RNode_Firmware.ino:2174-2210 serial_callback *)
Definition cmd_urns (command sbyte : Z) (d : dev) : dev :=
  if command =? CMD_PROVISION_REQ then
    plain_byte sbyte (fun b => set_in (fun k => if frame_len k <? MTU
      then k <| prov_req_buf := zset (prov_req_buf k) (frame_len k) b |> <| frame_len := frame_len k + 1 |> else k)) d
  else if command =? CMD_IDENTITY_EXPORT then snd (cmd_byte sbyte d)
  else if command =? CMD_IDENTITY_IMPORT then
    plain_byte sbyte (fun b => set_in (fun k => if frame_len k <? MTU
      then k <| identity_import_buf := zset (identity_import_buf k) (frame_len k) b |> <| frame_len := frame_len k + 1 |> else k)) d
  else d.

(** One byte inside a frame, after the command byte. *)
(* @src RNode_Firmware.ino:1964-2812 serial_callback *)
Definition parameter_byte (sbyte : Z) (d : dev) : dev :=
  let c := command (ki d) in
  let cmd k := c =? k in
  let among ks := existsb cmd ks in
  if cmd CMD_DATA then cmd_data sbyte d
  else if cmd CMD_FREQUENCY then cmd_frequency sbyte d
  else if cmd CMD_BANDWIDTH then cmd_bandwidth sbyte d
  else if cmd CMD_TIME then cmd_time sbyte d
  else if among [CMD_NTP_SYNC; CMD_SENSOR] then cmd_peripherals c sbyte d
  else if cmd CMD_TXPOWER then cmd_txpower sbyte d
  else if cmd CMD_SF then cmd_sf sbyte d
  else if cmd CMD_CR then cmd_cr sbyte d
  else if cmd CMD_SYNC_WORD then snd (cmd_byte sbyte d)
  else if HAS_URNS && among [CMD_PROVISION_REQ; CMD_IDENTITY_EXPORT; CMD_IDENTITY_IMPORT] then cmd_urns c sbyte d
  else if cmd CMD_IMPLICIT then cmd_implicit sbyte d
  else if cmd CMD_LEAVE then cmd_leave sbyte d
  else if cmd CMD_RADIO_STATE then cmd_radio_state sbyte d
  else if cmd CMD_ST_ALOCK then cmd_st_alock sbyte d
  else if cmd CMD_LT_ALOCK then cmd_lt_alock sbyte d
  else if among [CMD_STAT_RX; CMD_STAT_TX; CMD_STAT_RSSI; CMD_RADIO_LOCK; CMD_BLINK; CMD_RANDOM; CMD_DETECT;
                 CMD_SEL_INT; CMD_INTERFACES; CMD_PROMISC; CMD_READY; CMD_UNLOCK_ROM; CMD_RESET; CMD_ROM_READ; CMD_CFG_READ]
       then cmd_reports c sbyte d
  else if cmd CMD_ROM_WRITE then cmd_rom_write sbyte d
  else if among [CMD_FW_VERSION; CMD_PLATFORM; CMD_MCU; CMD_BOARD; CMD_CONF_SAVE; CMD_CONF_DELETE; CMD_FB_EXT]
       then cmd_info c sbyte d
  else if cmd CMD_FB_WRITE then cmd_fb_write sbyte d
  else if among [CMD_FB_READ; CMD_DISP_READ; CMD_DEV_HASH] then cmd_readback c sbyte d
  else if cmd CMD_DEV_SIG then cmd_dev_sig sbyte d
  else if among [CMD_FW_UPD; CMD_HASHES] then cmd_firmware c sbyte d
  else if cmd CMD_FW_HASH then cmd_fw_hash sbyte d
  else if among [CMD_WIFI_CHN; CMD_WIFI_MODE; CMD_SND; CMD_ESPNOW_ENABLE; CMD_WS_ENABLE; CMD_VSENSE_DIV; CMD_ETH_SPEED]
       then cmd_switches c sbyte d
  else if cmd CMD_WIFI_SSID then cmd_wifi_string ADDR_CONF_SSID sbyte d
  else if cmd CMD_WIFI_PSK then cmd_wifi_string ADDR_CONF_PSK sbyte d
  else if cmd CMD_WIFI_IP then cmd_wifi_address ADDR_CONF_IP sbyte d
  else if cmd CMD_WIFI_NM then cmd_wifi_address ADDR_CONF_NM sbyte d
  else if cmd CMD_WIFI_GW then cmd_wifi_address ADDR_CONF_GW sbyte d
  else if cmd CMD_WIFI_DNS then cmd_wifi_address ADDR_CONF_DNS sbyte d
  else if cmd CMD_ETH_IP then cmd_eth_address ADDR_CONF_ETH_IP sbyte d
  else if cmd CMD_ETH_NM then cmd_eth_address ADDR_CONF_ETH_NM sbyte d
  else if cmd CMD_ETH_GW then cmd_eth_address ADDR_CONF_ETH_GW sbyte d
  else if cmd CMD_ETH_DNS then cmd_eth_address ADDR_CONF_ETH_DNS sbyte d
  else if among [CMD_BT_CTRL; CMD_BT_UNPAIR] then cmd_bt c sbyte d
  else cmd_display c sbyte d.

(** ** Frames *)

(* @src RNode_Firmware.ino:1902-1925 serial_callback *)
Definition end_of_data (d : dev) : dev :=
  let d := set_in (fun k => k <| IN_FRAME := false |>) d in
  if on_vport_1 d then
    let d := if 0 <? zlen (espnow_tx_buf d)
             then d <| en ::= fun s => snd (espnow_send (random_256 env) (espnow_tx_buf d) s) |> else d in
    d <| espnow_tx_buf := [] |>
  else d <| tq ::= kiss_data_end |>.

(* @src RNode_Firmware.ino:1927-1946 serial_callback *)
Definition end_of_syncword (d : dev) : dev :=
  let d := set_in (fun k => k <| IN_FRAME := false |>) d in
  let report d := say (kiss_indicate_syncword (lora_sw (mo d))) d in
  if at_len 1 d && (cb d 0 =? 0xFF) then report d
  else if at_len 1 d then report (host_mode setSyncWord (d <| mo ::= fun m => m <| lora_sw := cb d 0 |> |>))
  else report (host_mode setSyncWord (d <| mo ::= fun m =>
         m <| lora_sw := Z.lor (Z.land (cb d 0) 0xF0) (Z.land (Z.shiftr (cb d 1) 4) 0x0F) |> |>)).

(* @src RNode_Firmware.ino:1901-1967 serial_callback *)
Definition serial_callback (sbyte : Z) (d : dev) : dev :=
  let k := ki d in
  let closes c := IN_FRAME k && (sbyte =? FEND) && (command k =? c) in
  if closes CMD_DATA then end_of_data d
  else if closes CMD_SYNC_WORD && (0 <? frame_len k) then end_of_syncword d
  else if HAS_URNS && closes CMD_PROVISION_REQ && (0 <? frame_len k) then
    act (EvProvision (take (Z.to_nat (frame_len k)) (prov_req_buf k))) (set_in (fun k => k <| IN_FRAME := false |>) d)
  else if HAS_URNS && closes CMD_IDENTITY_EXPORT && (0 <? frame_len k) then
    act EvIdentityExport (set_in (fun k => k <| IN_FRAME := false |>) d)
  else if HAS_URNS && closes CMD_IDENTITY_IMPORT && (0 <? frame_len k) then
    act (EvIdentityImport (take (Z.to_nat (frame_len k)) (identity_import_buf k))) (set_in (fun k => k <| IN_FRAME := false |>) d)
  else if sbyte =? FEND then
    set_in (fun k => k <| IN_FRAME := true |> <| command := CMD_UNKNOWN |> <| frame_len := 0 |>) d
  else if IN_FRAME k && (frame_len k <? MTU) then
    if (frame_len k =? 0) && (command k =? CMD_UNKNOWN) then set_in (fun k => k <| command := sbyte |>) d
    else parameter_byte sbyte d
  else d.

(** The bytes of [serial_poll], one at a time. *)
Definition serial_run (bs : list Z) (d : dev) : dev := foldl (fun d b => serial_callback b d) d bs.

(** ** Lemmas: a data frame *)

(** No frame is open that a FEND would close with an effect, and no escape is armed. *)
Definition kiss_closed (k : kiss_in) : Prop := IN_FRAME k = false \/ (command k = CMD_UNKNOWN /\ frame_len k = 0).
Definition kiss_idle (k : kiss_in) : Prop := ESCAPE k = false /\ kiss_closed k.

(** What a data frame leaves alone: everything but the automaton, the transmit
    queue, the link state and the log. *)
Record data_only (d d' : dev) : Prop := {
  do_mo : mo d' = mo d; do_ee : ee (cf d') = ee (cf d); do_pr : pr (cf d') = pr (cf d); do_ch : ch d' = ch d;
  do_en : en d' = en d; do_vport : selected_vport d' = selected_vport d; do_buf : espnow_tx_buf d' = espnow_tx_buf d
}.
Lemma data_only_trans d1 d2 d3 : data_only d1 d2 -> data_only d2 d3 -> data_only d1 d3.
Proof. intros [] []. split; congruence. Qed.
Lemma data_only_vport d d' : data_only d d' -> on_vport_1 d' = on_vport_1 d.
Proof. intros []. unfold on_vport_1. congruence. Qed.

Lemma link_state_fields st d : let d' := set_rns_link_state st d in
  data_only d d' /\ ki d' = ki d /\ tq d' = tq d.
Proof.
  unfold set_rns_link_state, act, log.
  destruct (negb _); [destruct (_ =? _); [|destruct (_ =? _)]|];
    (split; [split; reflexivity|split; reflexivity]).
Qed.

Lemma link_if_fields (b : bool) st d : let d' := if b then set_rns_link_state st d else d in
  data_only d d' /\ ki d' = ki d /\ tq d' = tq d.
Proof. destruct b; [apply link_state_fields|repeat split; reflexivity]. Qed.

Lemma open_frame c d : kiss_closed (ki d) -> c <> FEND -> c <> CMD_UNKNOWN ->
  let d' := serial_run [FEND; c] d in
  data_only d d' /\ tq d' = tq d /\ ki d' = ((ki d) <| IN_FRAME := true |> <| command := c |> <| frame_len := 0 |>).
Proof.
  intros Ic Hnf Hnu. unfold serial_run. cbn [foldl].
  assert (E0 : serial_callback FEND d =
    set_in (fun k => k <| IN_FRAME := true |> <| command := CMD_UNKNOWN |> <| frame_len := 0 |>) d).
  { unfold serial_callback. destruct Ic as [Ic|[Ic Il]].
    - rewrite Ic. cbn [andb]. rewrite !andb_false_r. reflexivity.
    - rewrite Ic, Il. change (CMD_UNKNOWN =? CMD_DATA) with false. change (0 <? 0) with false. rewrite !andb_false_r. reflexivity. }
  rewrite E0. unfold serial_callback. destruct d as [k]; cbn. destruct k; cbn.
  rewrite (proj2 (Z.eqb_neq c FEND)) by assumption. cbn. rewrite !andb_false_r. cbn. repeat split.
Qed.

Lemma data_byte b d : IN_FRAME (ki d) = true -> command (ki d) = CMD_DATA -> frame_len (ki d) = 0 ->
  b <> FEND -> on_vport_1 d = false ->
  let d' := serial_callback b d in let '(e, o) := unescape_step (ESCAPE (ki d)) b in
  data_only d d' /\ ki d' = ((ki d) <| ESCAPE := e |>) /\ tq d' = foldl kiss_data_byte (tq d) (option_list o).
Proof.
  intros Hi Hc Hl Hb Hv. cbn zeta. unfold serial_callback. rewrite Hi, Hc, Hl, (proj2 (Z.eqb_neq b FEND)) by assumption.
  cbn [andb]. rewrite !andb_false_r. change (0 <? MTU) with true. change (CMD_DATA =? CMD_UNKNOWN) with false. cbn [andb].
  change (0 =? 0) with true. cbn [andb]. unfold parameter_byte. rewrite Hc. change (CMD_DATA =? CMD_DATA) with true. cbn iota.
  unfold cmd_data. destruct (link_if_fields (negb (bt_state (pr (cf d)) =? BT_STATE_CONNECTED)) RNS_LINK_STATE_CONNECTED d) as (F1 & F2 & F3).
  set (d1 := if negb _ then _ else d) in *. clearbody d1.
  rewrite (data_only_vport _ _ F1), Hv. unfold plain_byte. rewrite F2.
  destruct (unescape_step (ESCAPE (ki d)) b) as [e [x|]]; cbn [option_list foldl].
  - destruct F1, d1; cbn in *. subst. repeat split; cbn; congruence.
  - destruct F1, d1; cbn in *. subst. repeat split; cbn; congruence.
Qed.

Lemma data_bytes bs : forall d, IN_FRAME (ki d) = true -> command (ki d) = CMD_DATA -> frame_len (ki d) = 0 ->
  Forall (fun b => b <> FEND) bs -> on_vport_1 d = false ->
  let d' := serial_run bs d in let '(e, r) := unescape (ESCAPE (ki d)) bs in
  data_only d d' /\ ki d' = ((ki d) <| ESCAPE := e |>) /\ tq d' = foldl kiss_data_byte (tq d) r.
Proof.
  induction bs as [|b bs IH]; intros d Hi Hc Hl Hf Hv; cbn [unescape].
  - unfold serial_run. cbn [foldl]. destruct d as [k]; destruct k; cbn. repeat split.
  - inversion_clear Hf as [|? ? Hb Hf']. pose proof (data_byte b d Hi Hc Hl Hb Hv) as Eb. cbn zeta in Eb.
    destruct (unescape_step (ESCAPE (ki d)) b) as [e o]. destruct Eb as (E1 & E2 & E3).
    unfold serial_run. cbn [foldl]. fold (serial_run bs (serial_callback b d)).
    specialize (IH (serial_callback b d)). rewrite E2, (data_only_vport _ _ E1) in IH.
    destruct (ki d) as [a0 a1 a2 a3 a4 a5 a6]; cbn in *. specialize (IH Hi Hc Hl Hf' Hv).
    destruct (unescape e bs) as [e' r]. destruct IH as (I1 & I2 & I3).
    split; [exact (data_only_trans _ _ _ E1 I1)|]. split; [exact I2|].
    rewrite I3, E3. destruct o; cbn [option_list foldl]; reflexivity.
Qed.

(** A data frame of any bytes hands what they unescape to, from the armed or
    unarmed state left by the frame before, to the transmit queue. *)
Lemma data_raw bs d : kiss_closed (ki d) -> Forall (fun b => b <> FEND) bs -> on_vport_1 d = false ->
  let d' := serial_run (raw_frame CMD_DATA bs) d in let '(e, p) := unescape (ESCAPE (ki d)) bs in
  data_only d d' /\ IN_FRAME (ki d') = false /\ ESCAPE (ki d') = e /\ tq d' = kiss_data_end (foldl kiss_data_byte (tq d) p).
Proof.
  intros Hk Hf Hv. unfold raw_frame, serial_run. rewrite !foldl_app.
  destruct (open_frame CMD_DATA d Hk ltac:(discriminate) ltac:(discriminate)) as (O1 & O2 & O3).
  unfold serial_run in *. set (d1 := foldl _ d _) in *. clearbody d1.
  pose proof (data_bytes bs d1) as Hb. rewrite (data_only_vport _ _ O1) in Hb.
  destruct (ki d) as [k0 k1 k2 k3 k4 k5 k6]. cbn in O3. rewrite O3 in Hb.
  specialize (Hb eq_refl eq_refl eq_refl Hf Hv). cbn [ESCAPE] in *. destruct (unescape k1 bs) as [e p].
  unfold serial_run in Hb. set (d2 := foldl _ d1 _) in *. clearbody d2. destruct Hb as (B1 & B2 & B3).
  cbn [foldl]. unfold serial_callback. rewrite B2. cbn. unfold end_of_data.
  pose proof (data_only_vport _ _ (data_only_trans _ _ _ O1 B1)) as Ev. rewrite Hv in Ev.
  replace (on_vport_1 (set_in _ d2)) with false by (symmetry; exact Ev).
  rewrite <- O2, <- B3. split; [|destruct d2; cbn in B2 |- *; rewrite B2; auto].
  apply (data_only_trans _ _ _ O1), (data_only_trans _ _ _ B1). split; reflexivity.
Qed.

(** A whole data frame hands its payload to the transmit queue. *)
Lemma data_frame p d : kiss_idle (ki d) -> on_vport_1 d = false ->
  let d' := serial_run (frame CMD_DATA p) d in
  data_only d d' /\ kiss_idle (ki d') /\ tq d' = kiss_data_end (foldl kiss_data_byte (tq d) p).
Proof.
  intros [He Hk] Hv. change (frame CMD_DATA p) with (raw_frame CMD_DATA (escaped p)).
  pose proof (data_raw (escaped p) d Hk (escaped_no_fend p) Hv) as R. rewrite He, unescape_escaped in R.
  destruct R as (R1 & R2 & R3 & R4). split; [exact R1|]. split; [split; [exact R3|left; exact R2]|exact R4].
Qed.

(** [ESCAPE] outlives the frame: after a data frame that ends in a lone FESC,
    the first payload byte of the next data frame is translated as if it had been
    escaped, so a payload starting with 0xDC is queued starting with 0xC0. *)
Theorem stale_escape_corrupts p q d : kiss_idle (ki d) -> on_vport_1 d = false ->
  let d1 := serial_run (raw_frame CMD_DATA (escaped p ++ [FESC])) d in
  let d2 := serial_run (frame CMD_DATA (TFEND :: q)) d1 in
  tq d1 = kiss_data_end (foldl kiss_data_byte (tq d) p) /\
  tq d2 = kiss_data_end (foldl kiss_data_byte (tq d1) (FEND :: q)).
Proof.
  intros [He Hk] Hv d1 d2.
  assert (Hf : Forall (fun b => b <> FEND) (escaped p ++ [FESC]))
    by (apply Forall_app; split; [apply escaped_no_fend|repeat constructor; discriminate]).
  pose proof (data_raw _ d Hk Hf Hv) as R. rewrite He, unescape_app, unescape_escaped in R. cbn [unescape] in R.
  change (unescape_step false FESC) with (true, @None Z) in R. cbn iota beta in R. rewrite app_nil_r in R.
  destruct R as (R1 & R2 & R3 & R4). fold d1 in R1, R2, R3, R4. split; [exact R4|]. unfold d2.
  pose proof (data_raw (escaped (TFEND :: q)) d1 (or_introl R2) (escaped_no_fend _)) as Q.
  rewrite (data_only_vport _ _ R1), R3 in Q. specialize (Q Hv). rewrite escaped_cons in Q.
  change (escaped_serial_write TFEND) with [TFEND] in Q. cbn [app unescape] in Q.
  change (unescape_step true TFEND) with (false, Some FEND) in Q. cbn iota beta in Q. rewrite unescape_escaped in Q.
  destruct Q as (_ & _ & _ & Q4). exact Q4.
Qed.
End Serial.

(** ** From host to host *)

(** One dequeue of [loop()]: the two reports and the payload. *)
(* @src RNode_Firmware.ino:3317-3355 loop *)
Definition loop_receive `{Board} (r : rxst) : list Z * rxst :=
  match modem_dequeue r with
  | (Some mp, r) => (kiss_indicate_stat_rssi (mp_rssi mp) ++ kiss_indicate_stat_snr (mp_snr_raw mp) ++
                     kiss_write_packet (mp_len mp) (pbuf r), r)
  | (None, r) => ([], r)
  end.
Fixpoint loop_turns `{Board} (n : nat) (r : rxst) : list Z :=
  match n with O => [] | S n => let '(o, r) := loop_receive r in o ++ loop_turns n r end.

(** The payloads a host reads from the device's output. *)
Definition payloads (bs : list Z) : list (list Z) :=
  map snd (List.filter (fun f => fst f =? CMD_DATA) (snd (kiss_read reader0 bs))).

Lemma data_frames `{Board} `{Build} {D} `{LoRaModem D} {E} `{Eeprom E} env VSR (ps : list (list Z)) :
  forall (d : dev D E) base qs, kiss_idle (ki d) -> on_vport_1 d = false -> txq_rep base (tq d) qs [] ->
  Forall (fun p => 1 <= zlen p) ps -> zlen (qs ++ ps) <= CONFIG_QUEUE_MAX_LENGTH ->
  zlen (concat (qs ++ ps)) < CONFIG_QUEUE_SIZE ->
  txq_rep base (tq (serial_run env VSR (concat (map (frame CMD_DATA) ps)) d)) (qs ++ ps) [].
Proof.
  induction ps as [|p ps IH]; intros d base qs Hk Hv Hr Hl Hn Hb; cbn [map concat].
  - rewrite app_nil_r. exact Hr.
  - inversion_clear Hl as [|? ? Hp Hl']. rewrite concat_app in Hb. cbn [concat] in Hb.
    rewrite zlen_app, zlen_cons in Hn. rewrite !zlen_app in Hb.
    pose proof (zlen_nonneg ps). pose proof (zlen_nonneg (concat ps)). pose proof (zlen_nonneg (concat qs)).
    destruct (data_frame env VSR p d Hk Hv) as (F1 & F2 & F3).
    unfold serial_run in *. rewrite foldl_app. set (d1 := foldl _ d (frame CMD_DATA p)) in *. clearbody d1.
    replace (qs ++ p :: ps) with ((qs ++ [p]) ++ ps) by (rewrite <- app_assoc; reflexivity).
    apply IH; auto.
    + now rewrite (data_only_vport _ _ F1).
    + rewrite F3. apply (kiss_data_end_rep base (foldl kiss_data_byte (tq d) p) qs p).
      * apply (kiss_data_bytes_rep base (tq d) qs [] p Hr); rewrite ?app_nil_r; lia.
      * intros ->. cbn in Hp. rewrite zlen_nil in Hp. lia.
      * lia.
      * rewrite zlen_app. cbn. lia.
    + rewrite !zlen_app, zlen_cons, zlen_nil. lia.
    + rewrite !concat_app. cbn [concat]. rewrite app_nil_r, !zlen_app. lia.
Qed.

Section Air.
  Context {D : Type} `{LoraTxPrompt D} {A : Type} (add_airtime : Z -> A -> A) (rnd : list Z -> Z).
  Context (Hrnd : forall p, is_u8 (rnd p)).
  Abbreviation tx := (fun p s => transmit add_airtime true false false (rnd p) p s).

(** All the fragments of all the payloads go on the air, in order. *)
Lemma send_all_air ps : forall (s : txst D A), healthy (Link.drv s) -> Forall (fun p => 1 <= zlen p <= MTU) ps ->
  Link.on_air (Link.drv (send_all tx ps s)) = Link.on_air (Link.drv s) ++ concat (map (fun p => fragments (rnd p) p) ps).
Proof.
  induction ps as [|p ps IH]; intros s Hh Hp; cbn [map concat]; [now rewrite app_nil_r|].
  inversion_clear Hp as [|? ? [Hp1 Hp2] Hp']. unfold send_all. cbn [foldl]. fold (send_all tx ps).
  replace (legal p) with true by (symmetry; apply andb_true_intro; split; apply Z.leb_le; unfold MIN_L; lia).
  pose proof (transmit_fragments_gen add_airtime (rnd p) false p s (Hrnd p) Hh Hp2) as Hs.
  pose proof (sent_air _ _ Hs) as Ea. pose proof (sent_keeps _ _ Hs) as Eh. clear Hs.
  specialize (IH _ Eh Hp'). unfold send_all in IH. rewrite IH, Ea, <- app_assoc. reflexivity.
Qed.
End Air.

Lemma receive_all_app rssi snr a b s : receive_all rssi snr (a ++ b) s = receive_all rssi snr b (receive_all rssi snr a s).
Proof. apply foldl_app. Qed.

Lemma receive_payloads rssi snr (rnd : list Z -> Z) ps : forall r, (forall p, is_u8 (rnd p)) -> rx_idle r ->
  Forall (fun p => 1 <= zlen p <= MTU - 1) ps -> zlen (modem_packet_queue r) + zlen ps <= MODEM_QUEUE_SIZE ->
  let r' := receive_all rssi snr (concat (map (fun p => fragments (rnd p) p) ps)) r in
  rx_idle r' /\ modem_packet_queue r' = modem_packet_queue r ++ map (fun p => mk_modem_packet (zlen p) rssi snr p) ps.
Proof.
  induction ps as [|p ps IH]; intros r Hr Hi Hp Hn; cbn [map concat].
  - rewrite app_nil_r. split; [exact Hi|reflexivity].
  - inversion_clear Hp as [|? ? [Hp1 Hp2] Hp']. rewrite zlen_cons in Hn. pose proof (zlen_nonneg ps).
    destruct (link_roundtrip_gen rssi snr (rnd p) p r (Hr p) Hp2 Hi ltac:(lia)) as (I1 & _ & I3).
    rewrite receive_all_app. set (r1 := receive_all rssi snr (fragments (rnd p) p) r) in *. clearbody r1.
    destruct (IH r1 Hr I1 Hp') as [J1 J2].
    { rewrite I3, zlen_app, zlen_cons, zlen_nil. lia. }
    split; [exact J1|]. rewrite J2, I3, <- app_assoc. reflexivity.
Qed.

Lemma loop_turns_read `{Board} rssi snr ps : forall r, zlen (pbuf r) = MTU -> Forall (fun p => zlen p <= MTU) ps ->
  modem_packet_queue r = map (fun p => mk_modem_packet (zlen p) rssi snr p) ps ->
  exists fs, loop_turns (length ps) r = frames fs /\ Forall (fun f => cmd_ok (fst f)) fs /\
    map snd (List.filter (fun f => fst f =? CMD_DATA) fs) = ps.
Proof.
  induction ps as [|p ps IH]; intros r Hb Hp Hq; cbn [length loop_turns]; [exists []; repeat split; constructor|].
  inversion_clear Hp as [|? ? Hp1 Hp']. unfold loop_receive, modem_dequeue. rewrite Hq. cbn [map].
  set (r1 := r <| modem_packet_queue := _ |> <| pbuf := _ |>).
  destruct (IH r1) as (fs & E & Hc & Hf).
  { unfold r1. destruct r; cbn in *. unfold zlen in *. rewrite length_app, length_drop. lia. }
  { exact Hp'. }
  { reflexivity. }
  exists (host_view (RRssi rssi) ++ host_view (RSnr snr) ++ [(CMD_DATA, p)] ++ fs). split; [|split].
  - rewrite !frames_app, <- !render_frames by exact I. cbn [render mp_rssi mp_snr_raw mp_len].
    rewrite <- E, frames_one. unfold kiss_write_packet, frame. replace (take _ (pbuf r1)) with p.
    + rewrite <- !app_assoc. reflexivity.
    + unfold r1. cbn. replace (Z.to_nat (zlen p)) with (length p) by (unfold zlen; lia). now rewrite take_app_length.
  - apply Forall_app. split; [apply host_view_cmds|]. apply Forall_app. split; [apply host_view_cmds|].
    constructor; [split; discriminate|exact Hc].
  - rewrite !List.filter_app, !map_app, Hf. cbn. unfold selected. destruct HAS_ESPNOW; reflexivity.
Qed.

(** C1. The whole path, from one host to another.  One host sends up to eight
    payloads of 1 to 507 bytes as KISS data frames to an idle device; its handler
    queues them, a flush of the transmit queue puts their fragments on the air, and
    a receiver between packets that hears those fragments hands its own host, in
    as many turns of [loop()], frames from which exactly those payloads are read, in
    order and unaltered. *)
(* @prop refinement W=host_payloads_arrive_witness D=serial_callback,cmd_data,end_of_data,plain_byte,flush_queue,transmit,receive_callback,loop_receive *)
Theorem host_payloads_arrive `{Board} `{Build} {M} `{LoRaModem M} {E} `{Eeprom E} {D} `{LoraTxPrompt D} {A}
    (env : host_env) (VSR : cfloat) (add_airtime : Z -> A -> A) (lora_receive update_airtime : txst D A -> txst D A)
    (rnd : list Z -> Z) (rssi snr base : Z) (d : dev M E) (s : txst D A) (r : rxst) (ps : list (list Z)) :
  (forall s, Link.on_air (Link.drv (lora_receive s)) = Link.on_air (Link.drv s)) ->
  (forall s, Link.on_air (Link.drv (update_airtime s)) = Link.on_air (Link.drv s)) ->
  (forall p, is_u8 (rnd p)) ->
  kiss_idle (ki d) -> on_vport_1 d = false -> txq_rep base (tq d) [] [] -> healthy (Link.drv s) ->
  rx_idle r -> modem_packet_queue r = [] ->
  Forall (fun p => 1 <= zlen p <= MTU - 1) ps -> zlen ps <= MODEM_QUEUE_SIZE ->
  let d' := serial_run env VSR (concat (map (frame CMD_DATA) ps)) d in
  let '(q', s') := flush_queue (fun p s => transmit add_airtime true false false (rnd p) p s) lora_receive update_airtime
                     false (tq d') s in
  queue_height q' = 0 /\
  exists heard, Link.on_air (Link.drv s') = Link.on_air (Link.drv s) ++ heard /\
    payloads (loop_turns (length ps) (receive_all rssi snr heard r)) = ps.
Proof.
  intros Hlr Hua Hrnd Hk Hv Hq Hh Hr Hrq Hp Hn d'.
  assert (Hb : zlen (concat ps) <= 507 * zlen ps).
  { clear - Hp. induction Hp as [|p ps [_ Hp] _ IH]; [reflexivity|]. cbn [concat]. rewrite zlen_app, zlen_cons. unfold MTU in *. lia. }
  assert (Hrep : txq_rep base (tq d') ([] ++ ps) []).
  { apply data_frames; try assumption; cbn [app].
    - eapply List.Forall_impl; [|exact Hp]. cbn. lia.
    - unfold MODEM_QUEUE_SIZE, CONFIG_QUEUE_MAX_LENGTH in *. lia.
    - unfold MODEM_QUEUE_SIZE, CONFIG_QUEUE_SIZE in *. lia. }
  destruct (flush_queue_rep (fun p s => transmit add_airtime true false false (rnd p) p s) lora_receive update_airtime
    base (tq d') ps [] s (rep_data_of _ _ _ _ Hrep)) as (q' & Ef & Hh0 & _ & _).
  rewrite Ef. split; [exact Hh0|]. exists (concat (map (fun p => fragments (rnd p) p) ps)). split.
  - rewrite Hua, Hlr. apply send_all_air; [exact Hrnd|exact Hh|].
    eapply List.Forall_impl; [|exact Hp]. cbn. lia.
  - destruct (receive_payloads rssi snr rnd ps r Hrnd Hr Hp) as [[_ [_ Hb']] Hq']; [rewrite Hrq; exact Hn|].
    rewrite Hrq in Hq'. unfold payloads.
    destruct (loop_turns_read rssi snr ps (receive_all rssi snr (concat (map (fun p => fragments (rnd p) p) ps)) r) Hb')
      as (fs & Efs & Hc & Hf); [|exact Hq'|].
    { eapply List.Forall_impl; [|exact Hp]. cbn. lia. }
    rewrite Efs, kiss_roundtrip_gen by (reflexivity || exact Hc). exact Hf.
Qed.

(** ** The device at start-up, for the witnesses *)

Definition chan_init : chan :=
  mk_chan (repeat false (Z.to_nat DCD_SAMPLES)) (repeat 0 (Z.to_nat AIRTIME_BINS)) (repeat f_zero (Z.to_nat AIRTIME_BINS)) 0
    f_zero f_zero f_zero f_zero f_zero f_zero f_zero false.
Definition dev_init {D E} (m : modem D) (e : E) : dev D E :=
  mk_dev kiss_in0 m (mk_conf e (default_prefs f_zero f_zero) []) txq_init chan_init status_init espnow0
    0 [] true MODE_HOST 0 0 0 (-292) 0 0x80 false (repeat 0 512) 0 0 false [] [] false 0.
Definition plain_build : Build := {| HAS_RTC := false; HAS_SENSORS := false; HAS_URNS := false |}.
Definition quiet_env : host_env :=
  mk_host_env false 0 0 0 0 false 0 f_zero f_zero f_zero [] [] [] [] false [] [] [] false (fun _ _ _ => false) false.

Lemma host_payloads_arrive_witness :
  let ps := [[1; FEND; FESC; TFEND]; repeat 0xC0 300] in
  let d' := @serial_run heltec32_v3 plain_build _ calls_modem image image_eeprom quiet_env f_zero (concat (map (frame CMD_DATA) ps))
              (dev_init (online_modem 17 0 0 [] []) ∅) in
  let '(q', s') := flush_queue (fun p s => transmit cons true false false 0x55 p s) id id
                     false (tq d') (mk_txst (mk_frame_log [] []) [] [] 0 false) in
  exists heard, fl_air (Link.drv s') = heard /\
    payloads (@loop_turns heltec32_v3 2 (receive_all (-80) 20 heard rx_init)) = ps.
Proof.
  intros ps d'.
  pose proof (@host_payloads_arrive heltec32_v3 plain_build (list call) calls_modem image image_eeprom frame_log frame_log_tx
    frame_log_laws frame_log_prompt (list Z) quiet_env f_zero cons id id (fun _ => 0x55) (-80) 20 0
    (dev_init (online_modem 17 0 0 [] []) ∅) (mk_txst (mk_frame_log [] []) [] [] 0 false) rx_init ps
    (fun _ => eq_refl) (fun _ => eq_refl) ltac:(intros; unfold is_u8; lia)
    ltac:(split; [reflexivity|left; reflexivity]) eq_refl txq_init_rep I
    ltac:(repeat split) eq_refl
    ltac:(repeat constructor; vm_compute; discriminate) ltac:(vm_compute; discriminate)) as P.
  cbv zeta in P. fold d' in P.
  destruct (flush_queue _ _ _ _ _ _) as [q' s']. destruct P as [_ [heard [E1 E2]]].
  exists heard. split; [exact E1|exact E2].
Defined.

Lemma stale_escape_corrupts_witness :
  let d := dev_init (online_modem 17 0 0 [] []) ∅ in
  let run := @serial_run heltec32_v3 plain_build _ calls_modem image image_eeprom quiet_env f_zero in
  let d2 := run (frame CMD_DATA [TFEND; 7]) (run (raw_frame CMD_DATA (escaped [1] ++ [FESC])) d) in
  take 3 (packet_queue (tq d2)) = [1; FEND; 7].
Proof.
  intros d run d2.
  pose proof (@stale_escape_corrupts heltec32_v3 plain_build (list call) calls_modem image image_eeprom quiet_env f_zero [1] [7] d
    ltac:(split; [reflexivity|left; reflexivity]) eq_refl) as P.
  cbv zeta in P. destruct P as [_ P]. unfold d2, run. rewrite P. vm_compute. reflexivity.
Defined.

(** ** No buffer is written out of bounds *)

Section Buffers.
  Context `{Board} `{Build} {D : Type} `{LoRaModem D} {E : Type} `{Eeprom E} (env : host_env) (VSR : cfloat).
  Abbreviation dev := (dev D E).

(** The buffers have their declared sizes and every index the handler writes with
    is inside its buffer. *)
Record buffers_ok (d : dev) : Prop := {
  bo_frame_len : 0 <= frame_len (ki d) <= MTU;
  bo_cmdbuf : zlen (cmdbuf (ki d)) = CMD_L /\ bytes (cmdbuf (ki d));
  bo_prov : zlen (prov_req_buf (ki d)) = MTU;
  bo_import : zlen (identity_import_buf (ki d)) = MTU;
  bo_espnow : zlen (espnow_tx_buf d) <= ESPNOW_TX_BUF_SIZE;
  bo_queue : zlen (packet_queue (tq d)) = CONFIG_QUEUE_SIZE /\ 0 <= queue_cursor (tq d) < CONFIG_QUEUE_SIZE;
  bo_rings : fifo_wf (packet_starts (tq d)) /\ fifo_wf (packet_lengths (tq d));
  bo_fb : zlen (fb d) = 512
}.

(** The part of the state the buffers live in. *)
Definition bufs (d : dev) := (ki d, espnow_tx_buf d, tq d, fb d).
Lemma ok_same d d' : bufs d' = bufs d -> buffers_ok d -> buffers_ok d'.
Proof. unfold bufs. intros [= E1 E2 E3 E4] []. split; rewrite ?E1, ?E2, ?E3, ?E4; assumption. Qed.

Lemma unescape_u8 e b e' x : is_u8 b -> unescape_step e b = (e', Some x) -> is_u8 x.
Proof.
  unfold unescape_step. intros Hb. destruct (b =? FESC); [discriminate|]. destruct e; intros [= _ <-]; [|exact Hb].
  destruct (b =? TFEND); [unfold is_u8, FEND; change (0xC0 =? TFESC) with false; cbn; lia|].
  destruct (b =? TFESC); [unfold is_u8, FESC; lia|exact Hb].
Qed.

Lemma ok_ki f d : buffers_ok d -> (let k := f (ki d) in 0 <= frame_len k <= MTU /\
  (zlen (cmdbuf k) = CMD_L /\ bytes (cmdbuf k)) /\ zlen (prov_req_buf k) = MTU /\ zlen (identity_import_buf k) = MTU) ->
  buffers_ok (set_in f d).
Proof. intros [] (? & ? & ? & ?). split; assumption. Qed.

Lemma ok_escape e d : buffers_ok d -> buffers_ok (set_in (fun k => k <| ESCAPE := e |>) d).
Proof. intros Ho. apply ok_ki; [exact Ho|]. destruct Ho. auto. Qed.

Lemma bytes_zset l i x : bytes l -> is_u8 x -> bytes (zset l i x).
Proof. intros. unfold zset. destruct (_ && _); [now apply Forall_insert|constructor]. Qed.

Lemma ok_cmd_byte b d : is_u8 b -> buffers_ok d -> buffers_ok (snd (cmd_byte b d)).
Proof.
  intros Hb Ho. unfold cmd_byte. destruct (unescape_step (ESCAPE (ki d)) b) as [e [x|]] eqn:Eu; [|now apply ok_escape].
  apply ok_ki; [exact Ho|]. destruct Ho. destruct (ki d) as [k0 k1 k2 n k4 k5 k6]. cbn in *.
  destruct (Z.ltb_spec n CMD_L); cbn; [|auto].
  rewrite zlen_zset by lia. unfold CMD_L, MTU in *. split; [lia|]. split; [|auto].
  split; [apply bo_cmdbuf0|]. apply bytes_zset; [apply bo_cmdbuf0|]. exact (unescape_u8 _ _ _ _ Hb Eu).
Qed.

Lemma ok_plain_byte b f d : is_u8 b -> (forall x d, is_u8 x -> buffers_ok d -> buffers_ok (f x d)) -> buffers_ok d ->
  buffers_ok (plain_byte b f d).
Proof.
  intros Hb Hf Ho. unfold plain_byte. destruct (unescape_step (ESCAPE (ki d)) b) as [e [x|]] eqn:Eu; [|now apply ok_escape].
  apply Hf; [exact (unescape_u8 _ _ _ _ Hb Eu)|now apply ok_escape].
Qed.

Ltac same := unfold host_mode, set_rns_link_state; repeat case_match; reflexivity.
Lemma ok_buffered b d : is_u8 b -> buffers_ok d ->
  buffers_ok (cmd_frequency b d) /\ buffers_ok (cmd_bandwidth b d) /\ buffers_ok (cmd_st_alock b d) /\
  buffers_ok (cmd_lt_alock b d) /\ buffers_ok (cmd_rom_write b d) /\ buffers_ok (cmd_time env b d) /\
  buffers_ok (cmd_dev_sig env b d) /\ buffers_ok (cmd_fw_hash env b d) /\
  (forall base, buffers_ok (cmd_wifi_string base b d)) /\ (forall base, buffers_ok (cmd_address base b d)).
Proof.
  intros Hb Ho.
  unfold cmd_frequency, cmd_bandwidth, cmd_st_alock, cmd_lt_alock, cmd_rom_write, cmd_time, cmd_dev_sig, cmd_fw_hash,
    cmd_wifi_string, cmd_address.
  pose proof (ok_cmd_byte b d Hb Ho) as Hc. destruct (cmd_byte b d) as [b' d']. cbn [snd] in *.
  split_and!; intros; repeat case_match; try assumption; (apply (ok_same d'); [same|exact Hc]).
Qed.

Lemma zlen_foldl_zset (g h : nat -> Z) l : forall f : list Z, Forall (fun i => 0 <= g i < zlen f) l -> zlen (foldl (fun f i => zset f (g i) (h i)) f l) = zlen f.
Proof.
  induction l as [|i l IH]; intros f Hl; cbn [foldl]; [reflexivity|]. inversion Hl as [|? ? Hi Hl']; subst.
  rewrite IH; rewrite zlen_zset by exact Hi; [reflexivity|exact Hl'].
Qed.
Lemma zget_u8 l i : bytes l -> is_u8 (zget 0 l i).
Proof.
  intros Hl. unfold zget. destruct (l !! Z.to_nat i) as [x|] eqn:Ex; [exact (Forall_lookup_1 _ _ _ _ Hl Ex)|cbn; unfold is_u8; lia].
Qed.

Lemma ok_fb_write b d : is_u8 b -> buffers_ok d -> buffers_ok (cmd_fb_write b d).
Proof.
  intros Hb Ho. unfold cmd_fb_write. pose proof (ok_cmd_byte b d Hb Ho) as Hc. destruct (cmd_byte b d) as [b' d']. cbn [snd] in *.
  case_match; [|exact Hc]. destruct Hc. split; try assumption. etransitivity; [|exact bo_fb0]. apply zlen_foldl_zset.
  rewrite bo_fb0. apply List.Forall_forall. intros i Hi%in_seq. pose proof (zget_u8 _ 0 (proj2 bo_cmdbuf0)) as Hl. fold (cb d' 0) in Hl. unfold is_u8 in Hl.
  destruct (Z.ltb_spec 63 (cb d' 0)); lia.
Qed.

Lemma ok_simple c b d : buffers_ok d ->
  buffers_ok (cmd_txpower b d) /\ buffers_ok (cmd_sf b d) /\ buffers_ok (cmd_cr b d) /\ buffers_ok (cmd_implicit b d) /\
  buffers_ok (cmd_leave b d) /\ buffers_ok (cmd_radio_state env b d) /\ buffers_ok (cmd_peripherals env c b d) /\
  buffers_ok (cmd_reports env c b d) /\ buffers_ok (cmd_info c b d) /\ buffers_ok (cmd_readback env c b d) /\
  buffers_ok (cmd_firmware env c b d) /\ buffers_ok (cmd_switches VSR c b d) /\ buffers_ok (cmd_bt c b d).
Proof.
  intros Ho. unfold cmd_txpower, cmd_sf, cmd_cr, cmd_implicit, cmd_leave, cmd_radio_state, cmd_peripherals, cmd_reports,
    cmd_info, cmd_readback, cmd_firmware, cmd_switches, cmd_bt.
  split_and!; (apply (ok_same d); [same|exact Ho]).
Qed.

Lemma ok_display c b d : is_u8 b -> buffers_ok d -> buffers_ok (cmd_display c b d).
Proof.
  intros Hb Ho. unfold cmd_display. repeat case_match; try exact Ho; (apply ok_plain_byte; [exact Hb| |exact Ho]);
    intros x d' _ Hd'; (apply (ok_same d'); [same|exact Hd']).
Qed.

Lemma queue_bounded q b : zlen (packet_queue q) = CONFIG_QUEUE_SIZE /\ 0 <= queue_cursor q < CONFIG_QUEUE_SIZE ->
  let q' := kiss_data_byte q b in
  zlen (packet_queue q') = CONFIG_QUEUE_SIZE /\ 0 <= queue_cursor q' < CONFIG_QUEUE_SIZE.
Proof.
  intros [Hm Hc]. unfold kiss_data_byte, put_byte. destruct q as [a0 a1 mem h n c st]. cbn in *.
  destruct (_ && _); cbn; [|auto]. unfold CONFIG_QUEUE_SIZE in *. rewrite (u16_id (c + 1)) by lia.
  destruct (Z.eqb_spec (c + 1) 6144); cbn; rewrite zlen_zset by lia; lia.
Qed.
Lemma rings_byte q b : packet_starts (kiss_data_byte q b) = packet_starts q /\ packet_lengths (kiss_data_byte q b) = packet_lengths q.
Proof. unfold kiss_data_byte, put_byte. repeat case_match; split; reflexivity. Qed.
Lemma rings_end q : fifo_wf (packet_starts q) /\ fifo_wf (packet_lengths q) -> fifo_wf (packet_starts (kiss_data_end q)) /\ fifo_wf (packet_lengths (kiss_data_end q)).
Proof. intros []. unfold kiss_data_end. cbv zeta. repeat case_match; cbn; auto using fifo_push_wf. Qed.
Lemma queue_end_fields q : packet_queue (kiss_data_end q) = packet_queue q /\ queue_cursor (kiss_data_end q) = queue_cursor q.
Proof. unfold kiss_data_end. repeat case_match; split; reflexivity. Qed.

Lemma ok_data b d : is_u8 b -> buffers_ok d -> buffers_ok (cmd_data b d).
Proof.
  intros Hb Ho. unfold cmd_data. set (d1 := if negb _ then _ else d).
  assert (O1 : buffers_ok d1) by (apply (ok_same d); [unfold d1; same|exact Ho]). clearbody d1.
  case_match; (apply ok_plain_byte; [exact Hb| |exact O1]); intros x d' _ [].
  - destruct (Z.ltb_spec (zlen (espnow_tx_buf d')) ESPNOW_TX_BUF_SIZE); split; try assumption.
    change (zlen (espnow_tx_buf d' ++ [x]) <= ESPNOW_TX_BUF_SIZE). rewrite zlen_app, zlen_cons, zlen_nil. lia.
  - split; try assumption; [now apply queue_bounded|]. change (tq (d' <| tq ::= _ |>)) with (kiss_data_byte (tq d') x). now destruct (rings_byte (tq d') x) as [-> ->].
Qed.

Lemma ok_urns c b d : is_u8 b -> buffers_ok d -> buffers_ok (cmd_urns c b d).
Proof.
  intros Hb Ho. unfold cmd_urns.
  repeat case_match; try exact Ho; try (apply ok_cmd_byte; assumption);
    (apply ok_plain_byte; [exact Hb| |exact Ho]); intros x d' _ Hd'; (apply ok_ki; [exact Hd'|]); destruct Hd';
    destruct (ki d') as [k0 k1 k2 n k4 k5 k6]; cbn in *; destruct (Z.ltb_spec n MTU); cbn; rewrite ?zlen_zset by lia; auto;
    (split; [lia|auto]).
Qed.

Lemma ok_parameter_byte b d : is_u8 b -> buffers_ok d -> buffers_ok (parameter_byte env VSR b d).
Proof.
  intros Hb Ho. pose proof (ok_buffered b d Hb Ho) as B. pose proof (ok_simple (command (ki d)) b d Ho) as S.
  unfold parameter_byte, cmd_wifi_address, cmd_eth_address.
  repeat case_match; try (apply S); try (apply B); try exact Ho; try (apply ok_cmd_byte; assumption);
    try (apply ok_data; assumption); try (apply ok_urns; assumption); try (apply ok_fb_write; assumption);
    apply ok_display; assumption.
Qed.

(** C13. For every sequence of bytes a host can send, in any mode and from any state
    with intact buffers: the command, provisioning, identity and ESP-NOW buffers, the
    packet ring with its two offset rings and the framebuffer keep their sizes.  A write
    outside an array loses the array ([zset]), so none of these writes ever is: not to a
    full command buffer, not below the last line of the framebuffer. *)
(* @prop invariant W=serial_buffers_bounded_witness D=serial_callback,parameter_byte,cmd_byte,cmd_data,cmd_urns,cmd_fb_write,kiss_in *)
Theorem serial_buffers_bounded bs d : bytes bs -> buffers_ok d -> buffers_ok (serial_run env VSR bs d).
Proof.
  intros Hbs. revert d. induction Hbs as [|b bs Hb _ IH]; intros d Ho; [exact Ho|].
  unfold serial_run. cbn [foldl]. apply IH. unfold serial_callback. cbv zeta.
  assert (Hin : forall v, buffers_ok (set_in (fun k => k <| IN_FRAME := v |>) d))
    by (intros v; apply ok_ki; [exact Ho|destruct Ho; auto]).
  assert (Hact : forall e d, buffers_ok d -> buffers_ok (act e d)) by (intros e d' Hd'; apply (ok_same d'); [reflexivity|exact Hd']).
  destruct (IN_FRAME (ki d) && (b =? FEND) && (command (ki d) =? CMD_DATA)).
  { unfold end_of_data. specialize (Hin false). set (d1 := set_in _ d) in *. clearbody d1. destruct Hin. case_match.
    - case_match; split; try assumption; vm_compute; discriminate.
    - split; try assumption; [|now apply rings_end].
      change (zlen (packet_queue (kiss_data_end (tq d1))) = CONFIG_QUEUE_SIZE /\
              0 <= queue_cursor (kiss_data_end (tq d1)) < CONFIG_QUEUE_SIZE).
      destruct (queue_end_fields (tq d1)) as [-> ->]. assumption. }
  repeat (match goal with |- buffers_ok (if ?c then _ else _) => destruct c end); try (apply Hact, Hin); try exact Ho.
  - specialize (Hin false). unfold end_of_syncword. set (d1 := set_in _ d) in *. clearbody d1.
    apply (ok_same d1); [same|exact Hin].
  - apply ok_ki; [exact Ho|]. destruct Ho. cbn. unfold MTU. auto with lia.
  - apply ok_ki; [exact Ho|]. destruct Ho. auto.
  - now apply ok_parameter_byte.
Qed.
End Buffers.

Lemma serial_buffers_bounded_witness :
  let bs := [FEND; CMD_FB_WRITE; 200] ++ repeat 7 8 ++ [FEND; CMD_DATA; 1; 2; FESC; TFESC; FEND; FEND; CMD_FREQUENCY] ++ repeat 0xFF 100 in
  @buffers_ok (list call) image (@serial_run heltec32_v3 plain_build _ calls_modem image image_eeprom quiet_env f_zero bs
    (dev_init (online_modem 17 0 0 [] []) ∅)).
Proof.
  intros bs.
  assert (Hb : bytes bs) by (unfold bs; repeat constructor; vm_compute; (discriminate || reflexivity)).
  assert (Ho : @buffers_ok (list call) image (dev_init (online_modem 17 0 0 [] []) ∅)).
  { assert (Hz : bytes (repeat 0 (Z.to_nat CMD_L))).
    { generalize (Z.to_nat CMD_L). intros n. induction n; cbn; constructor; [unfold is_u8; lia|assumption]. }
    split; [split; discriminate|split; [reflexivity|exact Hz]|reflexivity|reflexivity|discriminate| | |reflexivity].
    - split; [reflexivity|split; [discriminate|reflexivity]].
    - split; constructor; cbn; try (split; discriminate); reflexivity. }
  exact (@serial_buffers_bounded heltec32_v3 plain_build _ calls_modem image image_eeprom quiet_env f_zero bs _ Hb Ho).
Defined.
