(* ===== verification/Transport.v ===== *)
(** * Transports to the host (Utilities.h, BLESerial.h, BLESerial.cpp, WebSocketRemote.h)

    [serial_write] sends each byte of a report to the host's transport; over Bluetooth
    it flushes at the end of each frame, so that a notification holds one frame.  The
    receive buffers of the Bluetooth and WebSocket transports are rings: the first
    drops the oldest byte when full, the second the newest. *)
From S2P Require Import Prelude Boards Framing.

Lemma zlen_snoc {A} (l : list A) x : zlen (l ++ [x]) = zlen l + 1.
Proof. unfold zlen. rewrite length_app. cbn. lia. Qed.

(** ** The Bluetooth transmit buffer *)

(* @src BLESerial.h:71-71 BLE_BUFFER_SIZE *)
Definition BLE_BUFFER_SIZE : Z := 512.

(** [ble_flushed] are the notifications handed to the stack. *)
(* @src BLESerial.h:109-127 transmitBuffer *)
Record ble_tx := mk_ble_tx { transmitBuffer : list Z; maxTransferSize : Z; ble_flushed : list (list Z) }.

(* @src BLESerial.cpp:106-136 BLESerial::flush *)
Definition ble_flush (b : ble_tx) : ble_tx :=
  if 0 <? zlen (transmitBuffer b)
  then b <| ble_flushed ::= fun l => l ++ [transmitBuffer b] |> <| transmitBuffer := [] |> else b.
(* @src BLESerial.cpp:95-104 BLESerial::write *)
Definition ble_write (authenticated : bool) (byte : Z) (b : ble_tx) : ble_tx :=
  if authenticated then
    let b := b <| transmitBuffer ::= fun l => l ++ [byte] |> in
    if zlen (transmitBuffer b) =? maxTransferSize b then ble_flush b else b
  else b.

(** ** Routing *)

(** Which transports have a host, and what each was given. *)
(* @src Utilities.h:1739-1739 kiss_host_tx_stalled *)
Record routes := mk_routes {
  bt_connected : bool; bt_authenticated : bool; eth_host : bool; wifi_host : bool; ws_host : bool;
  kiss_host_tx_stalled : bool; serial_in_frame : bool;
  to_usb : list Z; to_eth : list Z; to_wifi : list Z; to_ws : list Z; to_bt : ble_tx
}.

(** [room]: space in the USB buffer at once, or within the 5 ms the first stalled
    byte waits. *)
(* @src Utilities.h:1741-1753 kiss_serial_put *)
Definition kiss_serial_put `{Board} (room_now room_soon : bool) (byte : Z) (r : routes) : routes :=
  if MCU_VARIANT =? MCU_ESP32 then
    let put r := r <| kiss_host_tx_stalled := false |> <| to_usb ::= fun l => l ++ [byte] |> in
    if negb room_now then
      if kiss_host_tx_stalled r then r
      else if room_soon then put r else r <| kiss_host_tx_stalled := true |>
    else put r
  else r <| to_usb ::= fun l => l ++ [byte] |>.

(* @src Utilities.h:1787-1831 serial_write *)
Definition serial_write `{Board} (room_now room_soon : bool) (byte : Z) (r : routes) : routes :=
  let usb := kiss_serial_put room_now room_soon byte r in
  let wifi := r <| to_wifi ::= fun l => l ++ [byte] |> in
  let ws := r <| to_ws ::= fun l => l ++ [byte] |> in
  if HAS_BLUETOOTH || HAS_BLE then
    if negb (bt_connected r) then
      if HAS_ETHERNET then
        if eth_host r then r <| to_eth ::= fun l => l ++ [byte] |>
        else if HAS_WIFI && wifi_host r then wifi
        else if HAS_WIFI && ws_host r then ws
        else usb
      else if HAS_WIFI then if wifi_host r then wifi else if ws_host r then ws else usb
      else usb
    else
      let r := r <| to_bt ::= ble_write (bt_authenticated r) byte |> in
      if HAS_BLE then
        if serial_in_frame r && (byte =? FEND) then r <| to_bt ::= ble_flush |> <| serial_in_frame := false |>
        else if negb (serial_in_frame r) && (byte =? FEND) then r <| serial_in_frame := true |>
        else r
      else r
  else usb.

Definition serial_write_all `{Board} (bs : list Z) (r : routes) : routes :=
  foldl (fun r b => serial_write true true b r) r bs.

Section Ble.
  Context `{Board} (Hble : HAS_BLE = true).

(** A connected Bluetooth host, between frames. *)
Definition ble_ready (r : routes) : Prop :=
  bt_connected r = true /\ bt_authenticated r = true /\ serial_in_frame r = false /\ transmitBuffer (to_bt r) = [].

Lemma ble_body bs : forall r, bt_connected r = true -> bt_authenticated r = true -> serial_in_frame r = true ->
  Forall (fun b => b <> FEND) bs -> zlen (transmitBuffer (to_bt r)) + zlen bs < maxTransferSize (to_bt r) ->
  serial_write_all bs r = r <| to_bt ::= fun b => b <| transmitBuffer ::= fun l => l ++ bs |> |>.
Proof.
  induction bs as [|b bs IH]; intros r Hc Ha Hf Hb Hn.
  - destruct r as [? ? ? ? ? ? ? ? ? ? ? [tb mx fl]]. cbn. now rewrite app_nil_r.
  - inversion_clear Hb as [|? ? Hb1 Hb2]. rewrite zlen_cons in Hn. pose proof (zlen_nonneg bs).
    unfold serial_write_all. cbn [foldl]. fold (serial_write_all bs).
    assert (E : serial_write true true b r = r <| to_bt ::= fun t => t <| transmitBuffer ::= fun l => l ++ [b] |> |>).
    { unfold serial_write, ble_write. rewrite Hble, Hc, Ha, orb_true_r. cbn [negb].
      destruct r as [? ? ? ? ? ? sf ? ? ? ? [tb mx fl]]. cbn in *. subst sf.
      rewrite (proj2 (Z.eqb_neq (zlen (tb ++ [b])) mx)) by (rewrite zlen_app, zlen_cons, zlen_nil; lia).
      cbn. rewrite (proj2 (Z.eqb_neq b FEND)) by assumption. reflexivity. }
    rewrite E. unfold serial_write_all in *. rewrite IH; destruct r as [? ? ? ? ? ? ? ? ? ? ? [tb mx fl]]; cbn in *; auto.
    + now rewrite <- app_assoc.
    + rewrite zlen_app, zlen_cons, zlen_nil. lia.
Qed.

(** One frame: its bytes leave in one notification. *)
Lemma ble_one_frame f r : ble_ready r -> Forall (fun b => b <> FEND) f ->
  zlen (FEND :: f ++ [FEND]) <= maxTransferSize (to_bt r) ->
  let r' := serial_write_all (FEND :: f ++ [FEND]) r in
  ble_ready r' /\ maxTransferSize (to_bt r') = maxTransferSize (to_bt r) /\
  ble_flushed (to_bt r') = ble_flushed (to_bt r) ++ [FEND :: f ++ [FEND]].
Proof.
  intros (Hc & Ha & Hf & Ht) Hb Hn. rewrite zlen_cons, zlen_app, zlen_cons, zlen_nil in Hn. pose proof (zlen_nonneg f).
  unfold serial_write_all. cbn [foldl]. rewrite foldl_app.
  assert (E : serial_write true true FEND r =
    (r <| to_bt ::= fun t => t <| transmitBuffer := [FEND] |> |>) <| serial_in_frame := true |>).
  { unfold serial_write, ble_write. rewrite Hble, Hc, Ha, orb_true_r. cbn [negb].
    destruct r as [? ? ? ? ? ? sf ? ? ? ? [tb mx fl]]. cbn in *. subst sf tb. cbn.
    rewrite (proj2 (Z.eqb_neq (zlen [FEND]) mx)) by (rewrite zlen_cons, zlen_nil; lia). reflexivity. }
  rewrite E. match goal with |- context [foldl ?g ?x f] => change (foldl g x f) with (serial_write_all f x) end.
  rewrite ble_body; destruct r as [? ? ? ? ? ? sf ? ? ? ? [tb mx fl]]; cbn in *; subst; auto.
  - unfold serial_write, ble_write. rewrite Hble, orb_true_r. cbn.
    assert (Hpos : (0 <? zlen (FEND :: f ++ [FEND])) = true)
      by (apply Z.ltb_lt; rewrite zlen_cons; pose proof (zlen_nonneg (f ++ [FEND])); lia).
    destruct (Z.eqb_spec (zlen (FEND :: f ++ [FEND])) mx) as [Em|Em]; unfold ble_flush; cbn; rewrite ?Hpos; cbn;
      repeat split; reflexivity.
  - rewrite zlen_cons, zlen_nil. lia.
Qed.
End Ble.

(** With a connected Bluetooth host, every frame that fits the transmit buffer is
    handed to the stack as one notification of its own, complete, in order, and
    nothing is left in the buffer. *)
Theorem ble_notifications_are_frames `{Board} (fs : list (Z * list Z)) (r : routes) :
  HAS_BLE = true -> ble_ready r -> Forall (fun f => fst f <> FEND) fs ->
  Forall (fun f => zlen (frame (fst f) (snd f)) <= maxTransferSize (to_bt r)) fs ->
  let r' := serial_write_all (frames fs) r in
  ble_ready r' /\ ble_flushed (to_bt r') = ble_flushed (to_bt r) ++ map (fun f => frame (fst f) (snd f)) fs.
Proof.
  intros Hble Hr Hc. revert r Hr. induction Hc as [|[c p] fs Hc _ IH]; intros r Hr Hn.
  - cbn. rewrite app_nil_r. split; [exact Hr|reflexivity].
  - inversion_clear Hn as [|? ? Hn1 Hn2]. cbn [fst snd] in *. cbn zeta.
    change (frames ((c, p) :: fs)) with (frame c p ++ frames fs). unfold serial_write_all. rewrite foldl_app.
    assert (Ef : frame c p = FEND :: (c :: escaped p) ++ [FEND]) by reflexivity. rewrite Ef in Hn1 |- *.
    destruct (ble_one_frame Hble (c :: escaped p) r Hr) as (R1 & R2 & R3); [constructor; [exact Hc|apply escaped_no_fend]|exact Hn1|].
    unfold serial_write_all in R1, R2, R3, IH. set (r1 := foldl _ r _) in *. clearbody r1.
    rewrite <- R2 in Hn2. destruct (IH r1 R1 Hn2) as [I1 I2]. split; [exact I1|].
    rewrite I2, R3, <- app_assoc. cbn [map fst snd app]. now rewrite Ef.
Qed.

Lemma ble_notifications_are_frames_witness :
  let r := mk_routes true true false false false false false [] [] [] [] (mk_ble_tx [] 20 []) in
  ble_flushed (to_bt (@serial_write_all heltec32_v3 (frames [(CMD_DETECT, [DETECT_RESP]); (CMD_STAT_SNR, [0xC0])]) r)) =
  [[FEND; CMD_DETECT; DETECT_RESP; FEND]; [FEND; CMD_STAT_SNR; FESC; TFEND; FEND]].
Proof.
  intros r.
  destruct (@ble_notifications_are_frames heltec32_v3 [(CMD_DETECT, [DETECT_RESP]); (CMD_STAT_SNR, [0xC0])] r eq_refl
    ltac:(repeat split) ltac:(repeat constructor; discriminate) ltac:(repeat constructor; vm_compute; discriminate)) as [_ E].
  rewrite E. reflexivity.
Defined.

(** ** Receive rings *)

(** [BLEFIFO<n>]. *)
(* @src BLESerial.h:29-33 BLEFIFO *)
Record blefifo := mk_blefifo { bf_buffer : list Z; bf_head : Z; bf_tail : Z }.

Section Ring.
  Context (n : Z) (Hn : 1 < n < 2 ^ 31).

(* @src BLESerial.h:35-39 BLEFIFO::push *)
Definition bf_push (value : Z) (f : blefifo) : blefifo :=
  let f := f <| bf_buffer := zset (bf_buffer f) (bf_head f) value |> in
  let f := f <| bf_head := (bf_head f + 1) mod n |> in
  if bf_head f =? bf_tail f then f <| bf_tail := (bf_tail f + 1) mod n |> else f.
(* @src BLESerial.h:41-49 BLEFIFO::pop *)
Definition bf_pop (f : blefifo) : Z * blefifo :=
  if bf_head f =? bf_tail f then (-1, f)
  else (zget 0 (bf_buffer f) (bf_tail f), f <| bf_tail := (bf_tail f + 1) mod n |>).
(* @src BLESerial.h:61-67 BLEFIFO::getLength *)
Definition bf_length (f : blefifo) : Z :=
  if bf_tail f <=? bf_head f then bf_head f - bf_tail f else n - bf_tail f + bf_head f.
(* @src BLESerial.h:53-59 BLEFIFO::get *)
Definition bf_get (index : Z) (f : blefifo) : Z :=
  if bf_length f <=? index then -1 else zget 0 (bf_buffer f) ((bf_tail f + index) mod n).
(* @src BLESerial.h:51-51 BLEFIFO::clear *)
Definition bf_clear (f : blefifo) : blefifo := f <| bf_head := 0 |> <| bf_tail := 0 |>.

(** The WebSocket ring. *)
(* @src WebSocketRemote.h:62-66 ws_rx_push *)
Definition ws_rx_isfull (f : blefifo) : bool := (bf_head f + 1) mod n =? bf_tail f.
Definition ws_rx_push (b : Z) (f : blefifo) : blefifo :=
  if negb (ws_rx_isfull f)
  then f <| bf_buffer := zset (bf_buffer f) (bf_head f) b |> <| bf_head := (bf_head f + 1) mod n |> else f.
(* @src WebSocketRemote.h:67-71 ws_rx_pop *)
Definition ws_rx_pop (f : blefifo) : Z * blefifo :=
  (zget 0 (bf_buffer f) (bf_tail f), f <| bf_tail := (bf_tail f + 1) mod n |>).

(** The bytes in the ring, oldest first. *)
Record ring_rep (f : blefifo) (l : list Z) : Prop := {
  rr_len : zlen (bf_buffer f) = n;
  rr_tail : 0 <= bf_tail f < n;
  rr_head : bf_head f = (bf_tail f + zlen l) mod n;
  rr_room : zlen l < n;
  rr_data i : 0 <= i < zlen l -> zget 0 (bf_buffer f) ((bf_tail f + i) mod n) = zget 0 l i
}.

Lemma ring_distinct t i j : 0 <= i < n -> 0 <= j < n -> i <> j -> (t + i) mod n <> (t + j) mod n.
Proof.
  intros Hi Hj Hne He. assert (Hz : (i - j) mod n = 0).
  { replace (i - j) with (t + i - (t + j)) by lia. now rewrite Zminus_mod, He, Z.sub_diag. }
  apply Z.mod_divide in Hz as [q Hq]; [|lia]. assert (q = 0 \/ 1 <= q \/ q <= -1) as [-> | [Hq1 | Hq1]] by lia; nia.
Qed.

Lemma zget_app_l (l r : list Z) i : 0 <= i < zlen l -> zget 0 (l ++ r) i = zget 0 l i.
Proof. unfold zget, zlen. intros. rewrite lookup_app_l by lia. reflexivity. Qed.
Lemma zget_snoc (l : list Z) v : zget 0 (l ++ [v]) (zlen l) = v.
Proof. unfold zget, zlen. rewrite Nat2Z.id. now rewrite lookup_app_r, Nat.sub_diag by lia. Qed.

(** Writing at the head: the ring then holds one more byte, if there is a cell for it. *)
Lemma ring_write f l v : ring_rep f l ->
  let b := zset (bf_buffer f) (bf_head f) v in
  zlen b = n /\ (forall i, 0 <= i < zlen l + 1 -> zget 0 b ((bf_tail f + i) mod n) = zget 0 (l ++ [v]) i).
Proof.
  intros [] b. pose proof (zlen_nonneg l). unfold b. pose proof (Z.mod_pos_bound (bf_tail f + zlen l) n ltac:(lia)).
  split; [rewrite zlen_zset; lia|]. intros i Hi. rewrite rr_head0.
  pose proof (Z.mod_pos_bound (bf_tail f + i) n ltac:(lia)).
  destruct (decide (i = zlen l)) as [->|].
  - rewrite zget_zset_eq by lia. now rewrite zget_snoc.
  - rewrite zget_zset_ne, rr_data0, zget_app_l by (try apply ring_distinct; lia). reflexivity.
Qed.

Lemma mod_succ a : (a mod n + 1) mod n = (a + 1) mod n.
Proof. rewrite Z.add_mod_idemp_l by lia. reflexivity. Qed.

Lemma ring_full f l : ring_rep f l -> (((bf_head f + 1) mod n =? bf_tail f) = (zlen l =? n - 1)).
Proof.
  intros []. pose proof (zlen_nonneg l). rewrite rr_head0, mod_succ.
  destruct (Z.eqb_spec (zlen l) (n - 1)) as [->|Hne].
  - apply Z.eqb_eq. replace (bf_tail f + (n - 1) + 1) with (bf_tail f + 1 * n) by lia. rewrite Z.mod_add by lia. apply Z.mod_small. lia.
  - apply Z.eqb_neq. rewrite <- (Z.mod_small (bf_tail f) n) at 2 by lia. rewrite <- (Z.add_0_r (bf_tail f)) at 2.
    rewrite <- Z.add_assoc. apply ring_distinct; lia.
Qed.

Lemma bf_push_rep f l v : ring_rep f l ->
  ring_rep (bf_push v f) (if zlen l =? n - 1 then tail l ++ [v] else l ++ [v]).
Proof.
  intros Hr. pose proof (ring_full f l Hr) as Hf. destruct (ring_write f l v Hr) as [W1 W2].
  unfold bf_push. cbn [bf_buffer bf_head bf_tail]. destruct f as [buf h t]. cbn in *. rewrite Hf. destruct Hr. cbn in *.
  pose proof (zlen_nonneg l). destruct (Z.eqb_spec (zlen l) (n - 1)) as [He|He].
  - destruct l as [|x l]; [rewrite zlen_nil in He; lia|]. cbn [tail]. rewrite zlen_cons in *.
    split; cbn; [exact W1|apply Z.mod_pos_bound; lia| |rewrite zlen_snoc; lia|].
    + rewrite rr_head0, mod_succ, Z.add_mod_idemp_l by lia. rewrite zlen_snoc. f_equal. lia.
    + intros i Hi. rewrite zlen_snoc in Hi. rewrite Z.add_mod_idemp_l by lia.
      replace (t + 1 + i) with (t + (i + 1)) by lia. rewrite W2 by lia. unfold zget. cbn [app].
      replace (Z.to_nat (i + 1)) with (S (Z.to_nat i)) by lia. reflexivity.
  - split; cbn; [exact W1|exact rr_tail0| |rewrite zlen_snoc; lia|].
    + rewrite rr_head0, mod_succ, zlen_snoc. f_equal. lia.
    + intros i Hi. rewrite zlen_snoc in Hi. apply W2. lia.
Qed.

Lemma ws_push_rep f l v : ring_rep f l ->
  ring_rep (ws_rx_push v f) (if zlen l =? n - 1 then l else l ++ [v]).
Proof.
  intros Hr. pose proof (ring_full f l Hr) as Hf. destruct (ring_write f l v Hr) as [W1 W2].
  unfold ws_rx_push, ws_rx_isfull. rewrite Hf. destruct (Z.eqb_spec (zlen l) (n - 1)) as [He|He]; cbn [negb]; [exact Hr|].
  destruct Hr. pose proof (zlen_nonneg l). destruct f as [buf h t]. cbn in *.
  split; cbn; [exact W1|exact rr_tail0| |rewrite zlen_snoc; lia|].
  - rewrite rr_head0, mod_succ, zlen_snoc. f_equal. lia.
  - intros i Hi. rewrite zlen_snoc in Hi. apply W2. lia.
Qed.

Lemma bf_pop_rep f x l : ring_rep f (x :: l) -> fst (bf_pop f) = x /\ ring_rep (snd (bf_pop f)) l.
Proof.
  intros Hr. destruct Hr. rewrite zlen_cons in *. pose proof (zlen_nonneg l). unfold bf_pop.
  destruct (Z.eqb_spec (bf_head f) (bf_tail f)) as [He|He].
  - exfalso. rewrite rr_head0 in He. rewrite <- (Z.mod_small (bf_tail f) n) in He at 2 by lia.
    rewrite <- (Z.add_0_r (bf_tail f)) in He at 2. revert He. apply ring_distinct; lia.
  - cbn [fst snd]. split.
    + specialize (rr_data0 0 ltac:(lia)). rewrite Z.add_0_r, Z.mod_small in rr_data0 by lia. exact rr_data0.
    + destruct f as [buf h t]. cbn in *. split; cbn; [exact rr_len0|apply Z.mod_pos_bound; lia| |lia|].
      * rewrite rr_head0, Z.add_mod_idemp_l by lia. f_equal. lia.
      * intros i Hi. rewrite Z.add_mod_idemp_l by lia. replace (t + 1 + i) with (t + (i + 1)) by lia.
        rewrite rr_data0 by lia. unfold zget. replace (Z.to_nat (i + 1)) with (S (Z.to_nat i)) by lia. reflexivity.
Qed.

Lemma bf_length_rep f l : ring_rep f l -> bf_length f = zlen l.
Proof.
  intros []. pose proof (zlen_nonneg l). unfold bf_length. rewrite rr_head0.
  destruct (Z.lt_ge_cases (bf_tail f + zlen l) n) as [Hl|Hl].
  - rewrite Z.mod_small by lia. rewrite (proj2 (Z.leb_le _ _)) by lia. lia.
  - replace (bf_tail f + zlen l) with (bf_tail f + zlen l - n + 1 * n) by lia. rewrite Z.mod_add, Z.mod_small by lia.
    rewrite (proj2 (Z.leb_gt _ _)) by lia. lia.
Qed.
End Ring.

(** What a host's burst leaves in the two receive rings of [n] cells: the
    Bluetooth ring keeps the newest [n - 1] bytes, the WebSocket ring the oldest,
    both in order and unaltered. *)
Theorem receive_rings_keep n f bs : 1 < n < 2 ^ 31 -> ring_rep n f [] ->
  ring_rep n (foldl (fun f b => bf_push n b f) f bs) (drop (length bs - Z.to_nat (n - 1)) bs) /\
  ring_rep n (foldl (fun f b => ws_rx_push n b f) f bs) (take (Z.to_nat (n - 1)) bs).
Proof.
  intros Hn Hr. induction bs as [|b bs IH] using rev_ind; [now rewrite take_nil|].
  rewrite !foldl_app. cbn [foldl]. destruct IH as [I1 I2]. split.
  - apply (bf_push_rep n Hn _ _ b) in I1. revert I1. match goal with |- ring_rep _ _ ?x -> ring_rep _ _ ?y => replace x with y; [auto|] end.
    unfold zlen. rewrite length_drop, length_app. cbn [length].
    destruct (Z.eqb_spec (Z.of_nat (length bs - (length bs - Z.to_nat (n - 1)))) (n - 1)) as [E|E].
    + set (k := (length bs - Z.to_nat (n - 1))%nat) in *.
      replace (tail (drop k bs)) with (drop 1 (drop k bs)) by (destruct (drop k bs); reflexivity).
      rewrite drop_drop, drop_app_le by lia. f_equal. f_equal. lia.
    + rewrite drop_app_le by lia. f_equal. f_equal. lia.
  - apply (ws_push_rep n Hn _ _ b) in I2. revert I2. match goal with |- ring_rep _ _ ?x -> ring_rep _ _ ?y => replace x with y; [auto|] end.
    unfold zlen. rewrite length_take.
    destruct (Z.eqb_spec (Z.of_nat (Nat.min (Z.to_nat (n - 1)) (length bs))) (n - 1)) as [E|E].
    + rewrite take_app_le by lia. reflexivity.
    + rewrite take_ge by (rewrite length_app; cbn; lia). rewrite take_ge by lia. reflexivity.
Qed.

Lemma receive_rings_keep_witness :
  let f := mk_blefifo [0; 0; 0; 0] 3 3 in
  ring_rep 4 (foldl (fun f b => bf_push 4 b f) f [1; 2; 3; 4; 5]) [3; 4; 5] /\
  ring_rep 4 (foldl (fun f b => ws_rx_push 4 b f) f [1; 2; 3; 4; 5]) [1; 2; 3].
Proof.
  intros f. assert (Hr : ring_rep 4 f []).
  { split; [reflexivity|cbn; lia|reflexivity|vm_compute; reflexivity|unfold zlen; cbn; lia]. }
  exact (receive_rings_keep 4 f [1; 2; 3; 4; 5] ltac:(lia) Hr).
Defined.
