(* ===== verification/Pin.v ===== *)
(** * PIN entry of the key vault (VaultUnlock.h)

    A PIN of four to eight digits is entered with a rotary encoder or one button; a
    hold of three seconds submits it.  [vault_unlock_boot_screen] slows repeated
    failures down.  The cipher that checks the PIN is a parameter. *)
From S2P Require Import Prelude.

(* @src VaultUnlock.h:72-78 VAULT_PIN_MAX_LEN *)
Definition VAULT_PIN_MAX_LEN : Z := 8.
Definition VAULT_PIN_MIN_LEN : Z := 4.
Definition VAULT_SUBMIT_HOLD_MS : Z := 3000.
(* @src VaultUnlock.h:334-334 VAULT_HOLD_GRACE_MS *)
Definition VAULT_HOLD_GRACE_MS : Z := 150.

(** [vault_pin_buf] is its first [vault_pin_len] characters. *)
(* @src VaultUnlock.h:80-109 vault_pin_buf *)
Record pin := mk_pin {
  vault_pin_buf : list Z; vault_pin_current_digit : Z; vault_pin_submitted : bool; vault_pin_submit_fired : bool;
  vault_ui_dirty : bool; vault_confirm_mode : bool; vault_confirm_cancelled : bool;
  vault_unlock_active : bool; vault_suppress_next_release : bool
}.

(* @src VaultUnlock.h:111-118 vault_pin_reset *)
Definition vault_pin_reset (p : pin) : pin :=
  p <| vault_pin_buf := [] |> <| vault_pin_current_digit := 0 |> <| vault_pin_submitted := false |>
    <| vault_pin_submit_fired := false |> <| vault_ui_dirty := true |>.

(* @src VaultUnlock.h:120-144 vault_unlock_confirm_digit *)
Definition vault_unlock_confirm_digit (p : pin) : pin :=
  let p := if zlen (vault_pin_buf p) <? VAULT_PIN_MAX_LEN then
    let p := p <| vault_pin_buf ::= fun b => b ++ [48 + vault_pin_current_digit p] |> <| vault_pin_current_digit := 0 |> in
    if zlen (vault_pin_buf p) =? VAULT_PIN_MAX_LEN then p <| vault_pin_submitted := true |> else p
    else p in
  p <| vault_ui_dirty := true |>.

(* @src VaultUnlock.h:146-152 vault_unlock_backspace *)
Definition vault_unlock_backspace (p : pin) : pin :=
  p <| vault_pin_buf ::= fun b => take (length b - 1) b |> <| vault_ui_dirty := true |>.

(* @src VaultUnlock.h:154-159 vault_unlock_try_submit *)
Definition vault_unlock_try_submit (p : pin) : pin :=
  let p := if VAULT_PIN_MIN_LEN <=? zlen (vault_pin_buf p) then p <| vault_pin_submitted := true |> else p in
  p <| vault_ui_dirty := true |>.

(** [dir] is 1 or -1. *)
(* @src VaultUnlock.h:164-168 vault_unlock_encoder_rotate *)
Definition vault_unlock_encoder_rotate (dir : Z) (p : pin) : pin :=
  if vault_confirm_mode p then p
  else p <| vault_pin_current_digit := u8 (Z.rem (vault_pin_current_digit p + dir + 10) 10) |> <| vault_ui_dirty := true |>.

(* @src VaultUnlock.h:170-179 vault_unlock_encoder_button *)
Definition vault_unlock_encoder_button (duration : Z) (p : pin) : pin :=
  if vault_confirm_mode p then p <| vault_confirm_cancelled := true |>
  else if duration <? 400 then vault_unlock_confirm_digit p
  else if duration <? 3000 then vault_unlock_backspace p
  else vault_unlock_try_submit p.

(* @src VaultUnlock.h:184-190 vault_unlock_button_press *)
Definition vault_unlock_button_press (duration : Z) (p : pin) : pin :=
  if vault_confirm_mode p then p <| vault_confirm_cancelled := true |>
  else if duration <? 400 then vault_unlock_encoder_rotate 1 p
  else if duration <? 1200 then vault_unlock_confirm_digit p
  else if duration <? 3000 then vault_unlock_backspace p
  else vault_unlock_try_submit p.

(** ** Holding *)

(* @src VaultUnlock.h:335-337 vault_hold_active *)
Record hold := mk_hold { vault_hold_anchor_ms : Z; vault_hold_active : bool; vault_last_seen_pressed_ms : Z }.
(* @src VaultUnlock.h:352-356 vault_hold_reset *)
Definition vault_hold_reset : hold := mk_hold 0 false 0.

(* @src VaultUnlock.h:338-350 vault_track_hold *)
Definition vault_track_hold (currently_pressed : bool) (now : Z) (h : hold) : Z * hold :=
  let h :=
    if currently_pressed then
      let h := h <| vault_last_seen_pressed_ms := now |> in
      if negb (vault_hold_active h) then h <| vault_hold_active := true |> <| vault_hold_anchor_ms := now |> else h
    else if vault_hold_active h && (VAULT_HOLD_GRACE_MS <? u32 (now - vault_last_seen_pressed_ms h))
    then h <| vault_hold_active := false |> else h in
  (if vault_hold_active h then u32 (now - vault_hold_anchor_ms h) else 0, h).

(** ** The prompt *)

(** What one turn of the prompt's loop sees: the events [encoder_process] and
    [input_read] dispatch, the raw state of the controls, and the clock. *)
Inductive control := Rotate (dir : Z) | EncoderButton (duration : Z) | ButtonPress (duration : Z).
Record poll := mk_poll { controls : list control; raw_pressed : bool; now : Z }.

Definition dispatch (p : pin) (c : control) : pin :=
  match c with
  | Rotate dir => vault_unlock_encoder_rotate dir p
  | EncoderButton d => vault_unlock_encoder_button d p
  | ButtonPress d => vault_unlock_button_press d p
  end.

(** One turn of the loop, drawing aside. *)
(* @src VaultUnlock.h:371-418 vault_unlock_prompt *)
Definition prompt_turn (i : poll) (s : pin * hold) : pin * hold :=
  let '(p, h) := s in
  let p := foldl dispatch p (controls i) in
  let '(held_ms, h) := vault_track_hold (raw_pressed i) (now i) h in
  if negb (vault_pin_submit_fired p) && (VAULT_SUBMIT_HOLD_MS <=? held_ms)
  then ((vault_unlock_try_submit p) <| vault_pin_submit_fired := true |>, h)
  else (p, h).

(** The loop over the turns there are; [None]: still waiting for a submission. *)
Fixpoint prompt_loop (polls : list poll) (s : pin * hold) : option (pin * hold) :=
  if vault_pin_submitted (fst s) then Some s
  else match polls with [] => None | i :: polls => prompt_loop polls (prompt_turn i s) end.

(** The PIN entered, and the buffer wiped. *)
(* @src VaultUnlock.h:365-461 vault_unlock_prompt *)
Definition vault_unlock_prompt (polls : list poll) (p : pin) : option (list Z * pin) :=
  match prompt_loop polls (vault_pin_reset (p <| vault_unlock_active := true |>), vault_hold_reset) with
  | None => None
  | Some (p, _) =>
      Some (vault_pin_buf p, p <| vault_pin_buf := [] |> <| vault_unlock_active := false |> <| vault_suppress_next_release := true |>)
  end.

(** Hold to confirm, tap to cancel, over the turns there are. *)
Fixpoint confirm_loop (polls : list poll) (s : pin * hold) : option (bool * pin) :=
  match polls with
  | [] => None
  | i :: polls =>
      let '(p, h) := s in
      let p := foldl dispatch p (controls i) in
      let '(held_ms, h) := vault_track_hold (raw_pressed i) (now i) h in
      if VAULT_SUBMIT_HOLD_MS <=? held_ms then Some (true, p)
      else if vault_confirm_cancelled p then Some (false, p)
      else confirm_loop polls (p, h)
  end.
(* @src IdentityTransfer.h:141-202 vault_identity_confirm *)
Definition vault_identity_confirm (polls : list poll) (p : pin) : option (bool * pin) :=
  match confirm_loop polls (p <| vault_unlock_active := true |> <| vault_confirm_mode := true |>
                              <| vault_confirm_cancelled := false |>, vault_hold_reset) with
  | None => None
  | Some (confirmed, p) =>
      let p := p <| vault_unlock_active := false |> <| vault_confirm_mode := false |> in
      Some (confirmed, if confirmed then p <| vault_suppress_next_release := true |> else p)
  end.

(** ** Failed attempts *)

(** The wait after the [attempts]-th failure; [attempts] is a [uint8_t]. *)
(* @src VaultUnlock.h:479-488 vault_unlock_boot_screen *)
Definition throttle_ms (attempts : Z) : Z :=
  if attempts <=? 3 then 800
  else
    let t := Z.shiftl 1000 (if 6 <? attempts - 3 then 6 else attempts - 3) in
    if 60000 <? t then 60000 else t.

(** The boot screen over the PINs entered: the total wait and whether it opened. *)
(* @src VaultUnlock.h:470-491 vault_unlock_boot_screen *)
Fixpoint boot_screen (unlocks : list Z -> bool) (pins : list (list Z)) (attempts waited : Z) : bool * Z :=
  match pins with
  | [] => (false, waited)
  | p :: pins =>
      if unlocks p then (true, waited)
      else let attempts := u8 (attempts + 1) in boot_screen unlocks pins attempts (waited + throttle_ms attempts)
  end.

(** ** Theorems *)

Definition digit (c : Z) : Prop := 48 <= c <= 57.

(** The entry is well formed; a submitted one is long enough. *)
Record pin_ok (p : pin) : Prop := {
  po_len : zlen (vault_pin_buf p) <= VAULT_PIN_MAX_LEN;
  po_digits : Forall digit (vault_pin_buf p);
  po_current : 0 <= vault_pin_current_digit p <= 9;
  po_mode : vault_confirm_mode p = false;
  po_submitted : vault_pin_submitted p = true -> VAULT_PIN_MIN_LEN <= zlen (vault_pin_buf p)
}.

Lemma ok_confirm p : pin_ok p -> pin_ok (vault_unlock_confirm_digit p).
Proof.
  intros []. unfold vault_unlock_confirm_digit. destruct p as [b c s f d m cc va vs]. cbn in *.
  destruct (Z.ltb_spec (zlen b) VAULT_PIN_MAX_LEN) as [Hl|Hl]; cbn; [|split; cbn; auto].
  assert (Hz : zlen (b ++ [48 + c]) = zlen b + 1) by (unfold zlen; rewrite length_app; cbn; lia).
  assert (Hd : Forall digit (b ++ [48 + c])) by (apply Forall_app; split; [assumption|repeat constructor; unfold digit; lia]).
  unfold VAULT_PIN_MAX_LEN, VAULT_PIN_MIN_LEN in *.
  destruct (Z.eqb_spec (zlen (b ++ [48 + c])) 8); split; cbn; unfold VAULT_PIN_MAX_LEN, VAULT_PIN_MIN_LEN in *;
    rewrite ?Hz; auto; try lia; intros Hs; specialize (po_submitted0 Hs); lia.
Qed.
Lemma ok_submit p : pin_ok p -> pin_ok (vault_unlock_try_submit p).
Proof.
  intros []. unfold vault_unlock_try_submit. destruct p as [b c s f d m cc va vs]. cbn in *.
  destruct (Z.leb_spec VAULT_PIN_MIN_LEN (zlen b)); split; cbn; auto.
Qed.
Lemma ok_backspace p : vault_pin_submitted p = false -> pin_ok p -> pin_ok (vault_unlock_backspace p).
Proof.
  intros Hs []. destruct p as [b c s f d m cc va vs]. cbn in *. subst s. split; cbn; auto.
  - unfold zlen in *. rewrite length_take. lia.
  - now apply Forall_take.
  - discriminate.
Qed.
Lemma ok_rotate dir p : -1 <= dir <= 1 -> pin_ok p -> pin_ok (vault_unlock_encoder_rotate dir p).
Proof.
  intros Hd []. unfold vault_unlock_encoder_rotate. rewrite po_mode0. destruct p as [b c s f d m cc va vs]. cbn in *.
  rewrite Z.rem_mod_nonneg by lia. pose proof (Z.mod_pos_bound (c + dir + 10) 10 ltac:(lia)).
  rewrite u8_id by (unfold is_u8; lia). split; cbn; auto; lia.
Qed.

Definition control_ok (c : control) : Prop := match c with Rotate dir => dir = 1 \/ dir = -1 | _ => True end.

(** One event leaves an entry that was not yet submitted well formed. *)
Lemma ok_dispatch c p : control_ok c -> vault_pin_submitted p = false -> pin_ok p -> pin_ok (dispatch p c).
Proof.
  intros Hc Hs Ho. pose proof (po_mode _ Ho) as Hm.
  destruct c as [dir|d|d]; cbn [dispatch control_ok] in *.
  - apply ok_rotate; [lia|exact Ho].
  - unfold vault_unlock_encoder_button. rewrite Hm. destruct (d <? 400); [now apply ok_confirm|].
    destruct (d <? 3000); [now apply ok_backspace|now apply ok_submit].
  - unfold vault_unlock_button_press. rewrite Hm. destruct (d <? 400); [apply ok_rotate; [lia|exact Ho]|].
    destruct (d <? 1200); [now apply ok_confirm|]. destruct (d <? 3000); [now apply ok_backspace|now apply ok_submit].
Qed.

Definition poll_ok (i : poll) : Prop := (length (controls i) <= 1)%nat /\ Forall control_ok (controls i).

Lemma ok_turn i s : poll_ok i -> vault_pin_submitted (fst s) = false -> pin_ok (fst s) -> pin_ok (fst (prompt_turn i s)).
Proof.
  intros [Hl Hc] Hs Ho. destruct s as [p h]. cbn [fst] in *. unfold prompt_turn.
  assert (Hp : pin_ok (foldl dispatch p (controls i))).
  { destruct (controls i) as [|c [|? ?]]; cbn in *; [exact Ho| |lia]. inversion_clear Hc. now apply ok_dispatch. }
  destruct (vault_track_hold _ _ _) as [held h']. destruct (_ && _); cbn [fst]; [|exact Hp].
  apply ok_submit in Hp. destruct Hp. split; assumption.
Qed.

Lemma ok_loop polls : forall s r, Forall poll_ok polls -> pin_ok (fst s) -> prompt_loop polls s = Some r ->
  pin_ok (fst r) /\ vault_pin_submitted (fst r) = true.
Proof.
  induction polls as [|i polls IH]; intros s r Hi Ho; cbn [prompt_loop]; destruct (vault_pin_submitted (fst s)) eqn:Hs;
    try (intros [= <-]; auto; fail).
  inversion_clear Hi. intros Hr. apply (IH (prompt_turn i s)); auto. now apply ok_turn.
Qed.

(** C38. Whatever is turned, pressed and held, a PIN that the prompt returns has four
    to eight characters, every one a decimal digit, and the buffer it was typed into is
    left empty (one control event per turn of the loop). *)
(* @prop type W=entered_pin_valid_witness D=vault_unlock_prompt,prompt_turn,vault_unlock_confirm_digit,vault_unlock_backspace,vault_unlock_try_submit,vault_unlock_encoder_rotate *)
Theorem entered_pin_valid polls p b p' : Forall poll_ok polls -> vault_confirm_mode p = false ->
  vault_unlock_prompt polls p = Some (b, p') ->
  VAULT_PIN_MIN_LEN <= zlen b <= VAULT_PIN_MAX_LEN /\ Forall digit b /\ vault_pin_buf p' = [].
Proof.
  intros Hi Hm. unfold vault_unlock_prompt.
  destruct (prompt_loop _ _) as [[q h]|] eqn:El; intros [= <- <-].
  apply ok_loop in El; [|exact Hi|now split; cbn; auto; try lia; vm_compute].
  cbn [fst] in El. destruct El as [[Hl Hd _ _ Hs] Hsub]. auto.
Qed.

Lemma entered_pin_valid_witness :
  let step := map (fun c => mk_poll [c] false 0) [Rotate 1; EncoderButton 100; Rotate (-1); EncoderButton 100; EncoderButton 100; ButtonPress 100; ButtonPress 900; EncoderButton 3100] in
  let blank := mk_pin [] 0 false false false false false false false in
  match vault_unlock_prompt step blank with
  | Some (b, p') => b = [49; 57; 48; 49] /\ Forall digit b /\ vault_pin_buf p' = []
  | None => False
  end.
Proof.
  intros step blank. destruct (vault_unlock_prompt step blank) as [[b p']|] eqn:Er; [|discriminate].
  assert (Hs : Forall poll_ok step).
  { unfold step. repeat (constructor; [split; [cbn; lia|repeat constructor; cbn; lia]|]). constructor. }
  split; [now injection Er as <- _|]. exact (proj2 (entered_pin_valid step blank b p' Hs eq_refl Er)).
Defined.

(** ** Guessing *)

(** The total wait of [n] failures in a row, [a] before them. *)
Fixpoint fails (n : nat) (a : Z) : Z :=
  match n with O => 0 | S n => throttle_ms (u8 (a + 1)) + fails n (u8 (a + 1)) end.

(** Wrong PINs are counted and waited for, then the rest is tried. *)
Lemma boot_fails unlocks pins rest : Forall (fun p => unlocks p = false) pins -> forall a w, is_u8 a ->
  boot_screen unlocks (pins ++ rest) a w = boot_screen unlocks rest (u8 (a + zlen pins)) (w + fails (length pins) a).
Proof.
  unfold zlen. induction 1 as [|p pins Hp _ IH]; intros a w Ha; cbn [boot_screen length fails app].
  - now rewrite Z.add_0_r, Z.add_0_r, u8_id by exact Ha.
  - rewrite Hp, IH by apply u8_is_u8. f_equal; [|lia].
    unfold wrap. rewrite Z.add_mod_idemp_l by lia. f_equal. lia.
Qed.

Lemma throttle_pos a : 0 <= a -> 800 <= throttle_ms a.
Proof.
  intros Ha. unfold throttle_ms. destruct (Z.leb_spec a 3); [lia|].
  assert (1000 <= Z.shiftl 1000 (if 6 <? a - 3 then 6 else a - 3)).
  { rewrite Z.shiftl_mul_pow2 by (destruct (6 <? a - 3); lia).
    assert (0 < 2 ^ (if 6 <? a - 3 then 6 else a - 3)) by (apply Z.pow_pos_nonneg; destruct (6 <? a - 3); lia). nia. }
  destruct (60000 <? _); lia.
Qed.

Lemma fails_app n m : forall a, is_u8 a -> fails (n + m) a = fails n a + fails m (u8 (a + Z.of_nat n)).
Proof.
  induction n as [|n IH]; intros a Ha; cbn [Nat.add fails].
  - rewrite Z.add_0_r, u8_id by exact Ha. lia.
  - rewrite IH by apply u8_is_u8. replace (u8 (u8 (a + 1) + Z.of_nat n)) with (u8 (a + Z.of_nat (S n))); [lia|].
    unfold wrap. rewrite Z.add_mod_idemp_l by lia. f_equal. lia.
Qed.
Lemma fails_pos n : forall a, 0 <= fails n a.
Proof.
  induction n as [|n IH]; intros a; cbn [fails]; [lia|].
  pose proof (throttle_pos (u8 (a + 1))). pose proof (u8_range (a + 1)). specialize (IH (u8 (a + 1))). lia.
Qed.

Lemma fails_cycle : fails 256 0 = 14885200.
Proof. vm_compute. reflexivity. Qed.
Lemma fails_cycles k : fails (256 * k) 0 = Z.of_nat k * 14885200.
Proof.
  induction k as [|k IH]; [reflexivity|]. replace (256 * S k)%nat with (256 + 256 * k)%nat by lia.
  rewrite fails_app by (unfold is_u8; lia). change (u8 (0 + Z.of_nat 256)) with 0. rewrite fails_cycle, IH. lia.
Qed.

Lemma fails_floor n : Z.of_nat n / 256 * 14885200 <= fails n 0.
Proof.
  replace n with (256 * (n / 256) + n mod 256)%nat at 2 by (symmetry; apply Nat.div_mod; lia).
  rewrite fails_app by (unfold is_u8; lia). rewrite fails_cycles, Nat2Z.inj_div.
  pose proof (fails_pos (n mod 256) (u8 (0 + Z.of_nat (256 * (n / 256))))). change (Z.of_nat 256) with 256. lia.
Qed.

(** Guessing is slowed down for good, although the 8-bit counter of attempts wraps:
    every 256 wrong PINs cost at least 14885 seconds, whichever PIN opens the vault, so
    reaching the last of the 10000 PINs of four digits takes more than six and a half days. *)
Theorem guessing_throttled (unlocks : list Z -> bool) (wrong : list (list Z)) (right : list Z) :
  Forall (fun p => unlocks p = false) wrong -> unlocks right = true ->
  exists waited, boot_screen unlocks (wrong ++ [right]) 0 0 = (true, waited) /\
    zlen wrong / 256 * 14885200 <= waited /\ (9999 <= zlen wrong -> 580000000 < waited).
Proof.
  intros Hw Hr. rewrite boot_fails by (assumption || (unfold is_u8; lia)). cbn [boot_screen]. rewrite Hr, Z.add_0_l.
  eexists. split; [reflexivity|]. pose proof (fails_floor (length wrong)) as Hf. fold (zlen wrong) in Hf.
  split; [exact Hf|]. intros Hn. assert (39 <= zlen wrong / 256) by (apply Z.div_le_lower_bound; lia). lia.
Qed.

Lemma guessing_throttled_witness :
  let unlocks p := bool_decide (p = [49; 50; 51; 52]) in
  exists waited, boot_screen unlocks (replicate 512 [48; 48; 48; 48] ++ [[49; 50; 51; 52]]) 0 0 = (true, waited) /\ 29770400 <= waited.
Proof.
  intros unlocks. destruct (guessing_throttled unlocks (replicate 512 [48; 48; 48; 48]) [49; 50; 51; 52]) as (w & E1 & Ht & _).
  - now apply Forall_replicate.
  - reflexivity.
  - exists w. split; [exact E1|exact Ht].
Defined.
