(* ===== verification/Identity.v ===== *)
(** * Identity keys as text (IdentityTransfer.h)

    The 64-byte private key of the on-board node is shown as 104 base32 characters
    and typed back in. *)
From S2P Require Import Prelude.

(* @src IdentityTransfer.h:30-30 VAULT_IDENTITY_KEYSIZE_BYTES *)
Definition VAULT_IDENTITY_KEYSIZE_BYTES : Z := 64.
(* @src IdentityTransfer.h:44-44 VAULT_IDENTITY_KEY_BASE32_LEN *)
Definition VAULT_IDENTITY_KEY_BASE32_LEN : Z := 104.

(** ** Base32 *)

(** ["ABCDEFGHIJKLMNOPQRSTUVWXYZ234567"] as character codes. *)
(* @src IdentityTransfer.h:47-47 ALPHABET *)
Definition ALPHABET : list Z := map Z.of_nat (List.seq 65 26 ++ List.seq 50 6).
Definition pad : Z := 61.

(* @src IdentityTransfer.h:54-55 identity_key_to_base32 *)
Definition group_bits (b0 b1 b2 b3 b4 : Z) : Z :=
  Z.lor (Z.lor (Z.lor (Z.lor (Z.shiftl b0 32) (Z.shiftl b1 24)) (Z.shiftl b2 16)) (Z.shiftl b3 8)) b4.
(** The first [nchars] digits of a group. *)
(* @src IdentityTransfer.h:56-56 identity_key_to_base32 *)
Definition group_digits (nchars : nat) (buf : Z) : list Z :=
  map (fun c => zget 0 ALPHABET (Z.land (Z.shiftr buf (35 - Z.of_nat c * 5)) 0x1F)) (List.seq 0 nchars).
(* @src IdentityTransfer.h:63-66 CHARS_FOR_REM *)
Definition tail_group (nchars : nat) (buf : Z) : list Z := group_digits nchars buf ++ repeat pad (8 - nchars).

(* @src IdentityTransfer.h:46-70 identity_key_to_base32 *)
Fixpoint identity_key_to_base32 (key : list Z) : list Z :=
  match key with
  | b0 :: b1 :: b2 :: b3 :: b4 :: key => group_digits 8 (group_bits b0 b1 b2 b3 b4) ++ identity_key_to_base32 key
  | [b0; b1; b2; b3] => tail_group 7 (group_bits b0 b1 b2 b3 0)
  | [b0; b1; b2] => tail_group 5 (group_bits b0 b1 b2 0 0)
  | [b0; b1] => tail_group 4 (group_bits b0 b1 0 0 0)
  | [b0] => tail_group 2 (group_bits b0 0 0 0 0)
  | [] => []
  end.

(* @src IdentityTransfer.h:80-84 charval *)
Definition charval (c : Z) : Z :=
  if (65 <=? c) && (c <=? 90) then c - 65
  else if (50 <=? c) && (c <=? 55) then c - 50 + 26
  else -1.

(** The digits of one group, most significant first; [None]: a foreign character. *)
(* @src IdentityTransfer.h:92-96 identity_key_from_base32 *)
Fixpoint group_value (buf : Z) (chars : list Z) : option Z :=
  match chars with
  | [] => Some buf
  | c :: chars =>
      let v := charval c in
      if v <? 0 then None else group_value (Z.lor (Z.shiftl buf 5) v) chars
  end.

(* @src IdentityTransfer.h:86-99 identity_key_from_base32 *)
Definition decode_group (nchars nbytes : nat) (group : list Z) : option (list Z) :=
  if negb (forallb (fun c => c =? pad) (drop nchars group)) then None
  else match group_value 0 (take nchars group) with
       | None => None
       | Some buf =>
           let buf := Z.shiftl buf (40 - Z.of_nat nchars * 5) in
           Some (map (fun i => Z.land (Z.shiftr buf (32 - Z.of_nat i * 8)) 0xFF) (List.seq 0 nbytes))
       end.

Fixpoint decode_groups (g : nat) (b32 : list Z) : option (list Z) :=
  match g with
  | O => Some []
  | S g =>
      let last := (g =? 0)%nat in
      match decode_group (if last then 7 else 8) (if last then 4 else 5) (take 8 b32) with
      | None => None
      | Some bs => match decode_groups g (drop 8 b32) with Some r => Some (bs ++ r) | None => None end
      end
  end.
(* @src IdentityTransfer.h:78-102 identity_key_from_base32 *)
Definition identity_key_from_base32 (b32 : list Z) : option (list Z) :=
  if negb (zlen b32 =? VAULT_IDENTITY_KEY_BASE32_LEN) then None else decode_groups 13 b32.

(** ** Lemmas *)

Lemma group_bits_sum b0 b1 b2 b3 b4 : is_u8 b0 -> is_u8 b1 -> is_u8 b2 -> is_u8 b3 -> is_u8 b4 ->
  group_bits b0 b1 b2 b3 b4 = b0 * 2 ^ 32 + b1 * 2 ^ 24 + b2 * 2 ^ 16 + b3 * 2 ^ 8 + b4.
Proof.
  unfold is_u8. intros. unfold group_bits.
  replace (Z.shiftl b1 24) with (b1 * 2 ^ 24) by (rewrite Z.shiftl_mul_pow2; lia).
  rewrite shiftl_lor_add by lia.
  replace (b0 * 2 ^ 32 + b1 * 2 ^ 24) with (Z.shiftl (b0 * 2 ^ 8 + b1) 24) by (rewrite Z.shiftl_mul_pow2; lia).
  replace (Z.shiftl b2 16) with (b2 * 2 ^ 16) by (rewrite Z.shiftl_mul_pow2; lia). rewrite shiftl_lor_add by lia.
  replace ((b0 * 2 ^ 8 + b1) * 2 ^ 24 + b2 * 2 ^ 16) with (Z.shiftl (b0 * 2 ^ 16 + b1 * 2 ^ 8 + b2) 16)
    by (rewrite Z.shiftl_mul_pow2; lia).
  replace (Z.shiftl b3 8) with (b3 * 2 ^ 8) by (rewrite Z.shiftl_mul_pow2; lia). rewrite shiftl_lor_add by lia.
  replace ((b0 * 2 ^ 16 + b1 * 2 ^ 8 + b2) * 2 ^ 16 + b3 * 2 ^ 8) with
    (Z.shiftl (b0 * 2 ^ 24 + b1 * 2 ^ 16 + b2 * 2 ^ 8 + b3) 8) by (rewrite Z.shiftl_mul_pow2; lia).
  rewrite shiftl_lor_add by lia. rewrite Z.shiftl_mul_pow2 by lia. lia.
Qed.

Lemma charval_alphabet v : 0 <= v < 32 -> charval (zget 0 ALPHABET v) = v.
Proof.
  intros Hv. assert (Ha : forallb (fun v => charval (zget 0 ALPHABET v) =? v) (map Z.of_nat (List.seq 0 32)) = true) by reflexivity.
  rewrite forallb_forall in Ha. apply Z.eqb_eq, Ha. apply in_map_iff. exists (Z.to_nat v). split; [lia|]. apply in_seq. lia.
Qed.

(** Reading the digits back gives the leading bits. *)
Lemma group_value_digits buf n : forall k acc, 0 <= buf < 2 ^ 40 -> (k + n <= 8)%nat -> acc = buf / 2 ^ (40 - 5 * Z.of_nat k) ->
  group_value acc (map (fun c => zget 0 ALPHABET (Z.land (Z.shiftr buf (35 - Z.of_nat c * 5)) 0x1F)) (List.seq k n)) =
  Some (buf / 2 ^ (40 - 5 * Z.of_nat (k + n))).
Proof.
  induction n as [|n IH]; intros k acc Hb Hk ->; cbn [List.seq map group_value]; [now rewrite Nat.add_0_r|].
  set (d := Z.land (Z.shiftr buf (35 - Z.of_nat k * 5)) 0x1F).
  assert (Hd : d = (buf / 2 ^ (35 - 5 * Z.of_nat k)) mod 32).
  { unfold d. change 0x1F with (Z.ones 5). rewrite Z.land_ones, Z.shiftr_div_pow2 by lia. do 3 f_equal. lia. }
  assert (0 <= d < 32) by (rewrite Hd; apply Z.mod_pos_bound; lia).
  rewrite charval_alphabet by assumption. rewrite (proj2 (Z.ltb_ge d 0)) by lia.
  replace (k + S n)%nat with (S k + n)%nat by lia. apply IH; [assumption|lia|].
  rewrite shiftl_lor_add by lia. rewrite Hd. replace (40 - 5 * Z.of_nat (S k)) with (35 - 5 * Z.of_nat k) by lia.
  replace (40 - 5 * Z.of_nat k) with (35 - 5 * Z.of_nat k + 5) by lia. rewrite Z.pow_add_r by lia.
  rewrite <- Z.div_div by lia. change (2 ^ 5) with 32. rewrite (Z.mul_comm _ 32). symmetry. apply Z.div_mod. lia.
Qed.

Lemma group_digits_length n buf : length (group_digits n buf) = n.
Proof. unfold group_digits. now rewrite length_map, length_seq. Qed.

(** The bytes of a group, from the 40 bits. *)
Lemma group_bytes b0 b1 b2 b3 b4 : is_u8 b0 -> is_u8 b1 -> is_u8 b2 -> is_u8 b3 -> is_u8 b4 ->
  map (fun i => Z.land (Z.shiftr (group_bits b0 b1 b2 b3 b4) (32 - Z.of_nat i * 8)) 0xFF) (List.seq 0 5) = [b0; b1; b2; b3; b4].
Proof.
  intros H0 H1 H2 H3 H4. rewrite group_bits_sum by assumption. unfold is_u8 in *. cbn [List.seq map].
  assert (E : forall x n, 0 <= n -> Z.land (Z.shiftr x n) 0xFF = x / 2 ^ n mod 256).
  { intros x n Hn. change 0xFF with (Z.ones 8). now rewrite Z.land_ones, Z.shiftr_div_pow2 by lia. }
  rewrite !E by lia.
  repeat f_equal; repeat match goal with |- context [32 - Z.of_nat ?k * 8] =>
    let v := eval vm_compute in (32 - Z.of_nat k * 8) in change (32 - Z.of_nat k * 8) with v end;
  repeat match goal with |- context [2 ^ ?k] => let v := eval vm_compute in (2 ^ k) in change (2 ^ k) with v end;
  Z.div_mod_to_equations; lia.
Qed.
Lemma group_bits_range b0 b1 b2 b3 b4 : is_u8 b0 -> is_u8 b1 -> is_u8 b2 -> is_u8 b3 -> is_u8 b4 ->
  0 <= group_bits b0 b1 b2 b3 b4 < 2 ^ 40.
Proof. intros H0 H1 H2 H3 H4. rewrite group_bits_sum by assumption. unfold is_u8 in *. lia. Qed.

Lemma decode_full b0 b1 b2 b3 b4 : bytes [b0; b1; b2; b3; b4] ->
  decode_group 8 5 (group_digits 8 (group_bits b0 b1 b2 b3 b4)) = Some [b0; b1; b2; b3; b4].
Proof.
  intros Hb. repeat match goal with H : Forall _ (_ :: _) |- _ => inversion_clear H end.
  unfold decode_group. rewrite drop_ge, take_ge by (rewrite group_digits_length; lia). cbn [forallb negb].
  unfold group_digits. rewrite (group_value_digits _ 8 0 0); [|now apply group_bits_range|lia|].
  - replace (40 - 5 * Z.of_nat (0 + 8)) with 0 by lia. replace (40 - Z.of_nat 8 * 5) with 0 by lia.
    rewrite Z.pow_0_r, Z.div_1_r, Z.shiftl_0_r. f_equal. now apply group_bytes.
  - symmetry. apply Z.div_small. now apply group_bits_range.
Qed.

Lemma decode_tail b0 b1 b2 b3 : bytes [b0; b1; b2; b3] ->
  decode_group 7 4 (tail_group 7 (group_bits b0 b1 b2 b3 0)) = Some [b0; b1; b2; b3].
Proof.
  intros Hb. repeat match goal with H : Forall _ (_ :: _) |- _ => inversion_clear H end.
  assert (Hz : is_u8 0) by (unfold is_u8; lia).
  unfold decode_group, tail_group. rewrite drop_app_length', take_app_length' by (now rewrite group_digits_length).
  cbn [Nat.sub repeat forallb]. change (pad =? pad) with true. cbn [andb negb].
  unfold group_digits. rewrite (group_value_digits _ 7 0 0); [|now apply group_bits_range|lia|].
  - replace (40 - 5 * Z.of_nat (0 + 7)) with 5 by lia. replace (40 - Z.of_nat 7 * 5) with 5 by lia.
    assert (E : Z.shiftl (group_bits b0 b1 b2 b3 0 / 2 ^ 5) 5 = group_bits b0 b1 b2 b3 0).
    { rewrite Z.shiftl_mul_pow2 by lia. rewrite group_bits_sum by assumption. unfold is_u8 in *.
      replace (b0 * 2 ^ 32 + b1 * 2 ^ 24 + b2 * 2 ^ 16 + b3 * 2 ^ 8 + 0) with
        ((b0 * 2 ^ 27 + b1 * 2 ^ 19 + b2 * 2 ^ 11 + b3 * 2 ^ 3) * 2 ^ 5) by lia.
      now rewrite Z.div_mul by lia. }
    rewrite E. f_equal. pose proof (group_bytes b0 b1 b2 b3 0) as G. cbn [List.seq map] in *.
    specialize (G ltac:(assumption) ltac:(assumption) ltac:(assumption) ltac:(assumption) Hz). now injection G as -> -> -> -> _.
  - symmetry. apply Z.div_small. now apply group_bits_range.
Qed.

Lemma decode_encode n : forall key, length key = (5 * n + 4)%nat -> bytes key ->
  decode_groups (S n) (identity_key_to_base32 key) = Some key /\ length (identity_key_to_base32 key) = (8 * n + 8)%nat.
Proof.
  induction n as [|n IH]; intros key Hl Hb.
  - destruct key as [|b0 [|b1 [|b2 [|b3 [|? ?]]]]]; try discriminate. cbn [identity_key_to_base32 decode_groups].
    change (0 =? 0)%nat with true. cbn iota. split.
    + rewrite take_ge by (unfold tail_group; rewrite length_app, group_digits_length; cbn; lia).
      now rewrite decode_tail, app_nil_r.
    + unfold tail_group. now rewrite length_app, group_digits_length.
  - destruct key as [|b0 [|b1 [|b2 [|b3 [|b4 key]]]]]; try (cbn in Hl; lia).
    assert (Hb5 : bytes [b0; b1; b2; b3; b4] /\ bytes key).
    { repeat match goal with H : Forall _ (_ :: _) |- _ => inversion_clear H end.
      split; [repeat (apply Forall_cons; [assumption|]); apply Forall_nil|assumption]. }
    destruct Hb5 as [Hb5 Hk]. destruct (IH key ltac:(cbn in Hl; lia) Hk) as [I1 I2].
    cbn [identity_key_to_base32]. split.
    + remember (S n) as m eqn:Em. cbn [decode_groups]. rewrite (proj2 (Nat.eqb_neq m 0)) by lia.
      rewrite take_app_length', drop_app_length' by (now rewrite group_digits_length). rewrite decode_full by assumption.
      rewrite I1. reflexivity.
    + rewrite length_app, group_digits_length, I2. lia.
Qed.

(** Every 64-byte identity key survives its paper backup: its base32 text has the
    104 characters the decoder demands, and decoding that text gives back the key. *)
Theorem identity_key_roundtrip (key : list Z) : bytes key -> zlen key = VAULT_IDENTITY_KEYSIZE_BYTES ->
  zlen (identity_key_to_base32 key) = VAULT_IDENTITY_KEY_BASE32_LEN /\
  identity_key_from_base32 (identity_key_to_base32 key) = Some key.
Proof.
  intros Hb Hl. assert (Hn : length key = (5 * 12 + 4)%nat) by (unfold zlen, VAULT_IDENTITY_KEYSIZE_BYTES in Hl; lia).
  destruct (decode_encode 12 key Hn Hb) as [H1 H2].
  assert (E : zlen (identity_key_to_base32 key) = 104) by (unfold zlen; rewrite H2; reflexivity).
  split; [exact E|]. unfold identity_key_from_base32. rewrite E. exact H1.
Qed.

Lemma identity_key_roundtrip_witness :
  let key := map Z.of_nat (List.seq 150 64) in
  identity_key_from_base32 (identity_key_to_base32 key) = Some key.
Proof.
  intros key. assert (Hb : bytes key) by (unfold key; repeat constructor; vm_compute; (discriminate || reflexivity)).
  exact (proj2 (identity_key_roundtrip key Hb eq_refl)).
Defined.

(** The decoder calls itself strict, but the last character of the key has three
    spare bits that it drops: eight texts decode to the same key. *)
Theorem identity_key_not_strict :
  let text c := repeat 65 102 ++ [c; pad] in
  map (fun c => identity_key_from_base32 (text c)) (map Z.of_nat (List.seq 65 8)) = repeat (Some (repeat 0 64)) 8.
Proof. vm_compute. reflexivity. Qed.
