(* ===== verification/Vault.v ===== *)
(** * The key vault and the identity's transfer (Vault.h, IdentityTransfer.h)

    The private key of the on-board node is a file on the flash, in clear or wrapped
    under a key that is itself wrapped under the PIN.  The ciphers, the hardware
    random numbers and the file system driver are third-party code behind the interface
    [Platform].  Every operation that changes the flash records the flash it leaves, so
    that a power cut is a choice among the recorded states. *)
From stdpp Require Import gmap strings.
From S2P Require Import Prelude Boards Framing Rom Kiss Pin Identity.

(** ** The platform *)

Class Platform := {
  esp_random : nat -> Z;                             (** the [n]-th word the hardware draws *)
  mbedtls_pbkdf2 : list Z -> list Z -> Z -> list Z;  (** password, salt, iterations: 32 bytes *)
  hkdf_extract : list Z -> list Z -> list Z;         (** key, info: 32 bytes *)
  gcm_crypt_and_tag : list Z -> list Z -> list Z -> list Z * list Z;                  (** key, nonce, plaintext *)
  gcm_auth_decrypt : list Z -> list Z -> list Z -> list Z -> option (list Z);         (** key, nonce, ciphertext, tag *)
  stored : list Z -> list Z;                         (** what of a file's contents fits on the flash *)
  rename_done : nat -> string -> bool;               (** whether a rename to this name is carried out, after [n] changes *)
  new_private_key : list Z                           (** of [RNS::Identity()] *)
}.

(** What the code relies on: the cipher decrypts what it encrypted, keeps lengths and
    yields bytes. *)
Class PlatformLaws `{Platform} := {
  gcm_opens k n p : gcm_auth_decrypt k n (fst (gcm_crypt_and_tag k n p)) (snd (gcm_crypt_and_tag k n p)) = Some p;
  gcm_length k n p : length (fst (gcm_crypt_and_tag k n p)) = length p;
  gcm_tag_length k n p : length (snd (gcm_crypt_and_tag k n p)) = 16%nat
}.

(** A platform for the witnesses: the tag is the start of the key. *)
Definition toy_with (renames : nat -> string -> bool) : Platform := {|
  esp_random n := u32 (Z.of_nat n * 2654435761);
  mbedtls_pbkdf2 pw salt _ := take 32 (pw ++ salt ++ repeat 7 32);
  hkdf_extract k c := take 32 (rev k ++ c);
  gcm_crypt_and_tag k _ p := (map (Z.lxor 90) p, take 16 (k ++ repeat 0 16));
  gcm_auth_decrypt k _ c t := if bool_decide (t = take 16 (k ++ repeat 0 16)) then Some (map (Z.lxor 90) c) else None;
  stored data := data;
  rename_done := renames;
  new_private_key := repeat 9 64
|}.
#[export] Instance toy_platform : Platform := toy_with (fun _ _ => true).
Lemma toy_laws_with renames : @PlatformLaws (toy_with renames).
Proof.
  split.
  - intros k n p. cbn. rewrite bool_decide_true by reflexivity. rewrite map_map. f_equal.
    rewrite <- (map_id p) at 2. apply map_ext. intros x. now rewrite <- Z.lxor_assoc, Z.lxor_nilpotent, Z.lxor_0_l.
  - intros. apply length_map.
  - intros k n p. change (length (take 16 (k ++ repeat 0 16)) = 16%nat). rewrite length_take, length_app, repeat_length. lia.
Defined.

#[export] Instance toy_laws : @PlatformLaws toy_platform := toy_laws_with _.

(* @src Vault.h:47-50 VAULT_VK_PATH *)
Definition VAULT_LEGACY_IDENTITY_PATH : string := "/urns/identity".
Definition VAULT_VK_PATH : string := "/urns/vault.vk".
Definition VAULT_IDENTITY_PATH : string := "/urns/identity.vault".
Definition tmp (path : string) : string := path +:+ ".tmp".
(* @src Vault.h:59-62 VAULT_PBKDF2_ITERATIONS *)
Definition VAULT_PBKDF2_ITERATIONS : Z := 10000.
Definition VAULT_SALT_SIZE : nat := 16.
Definition VAULT_NONCE_SIZE : nat := 12.

(** The exceptions. *)
Inductive vault_error :=
  | BlobTruncated | BadMagic | LengthMismatch | NotUnlocked | IdentityMissing | IdentityTruncated
  | FieldTruncated | ShorterThanTag | TagFailed | NoIterations | EmptyKey.
Abbreviation fallible := (sum vault_error).

#[global] Instance fallible_bind : MBind fallible := fun A B f x => match x with inl e => inl e | inr x => f x end.
#[global] Instance fallible_ret : MRet fallible := fun A x => inr x.

(** What survives a power cut. *)
Record flash := mk_flash { files : gmap string (list Z); conf_vault : Z }.

(* @src Vault.h:64-79 vault_enabled, vault_unlocked, vault_key *)
Record device := mk_device {
  storage : flash; vault_enabled : bool; vault_unlocked : bool; vault_key : list Z;
  drawn : nat;           (** words taken from the hardware generator *)
  past : list flash;     (** the flash after each write to it, newest first *)
  sent : list Z          (** bytes given to [serial_write] *)
}.

Section vault.
Context `{Platform, Board}.

(** ** Files *)

Definition commit (f : flash) (d : device) : device := d <| storage := f |> <| past ::= cons f |>.
Definition on_files (g : gmap string (list Z) -> gmap string (list Z)) (d : device) : device :=
  commit (mk_flash (g (files (storage d))) (conf_vault (storage d))) d.

Definition file_exists (path : string) (d : device) : bool := bool_decide (is_Some (files (storage d) !! path)).
(** An absent file reads as empty. *)
Definition read_file (path : string) (d : device) : list Z := default [] (files (storage d) !! path).
Definition remove_file (path : string) (d : device) : device := on_files (delete path) d.
(** The old file goes first. *)
Definition write_file (path : string) (data : list Z) (d : device) : device :=
  on_files (<[path := stored data]>) (remove_file path d).
(** A rename that fails leaves both files as they are. *)
(* @src lib/microReticulum/src/microReticulum/Utilities/OS.h:208-213 rename_file *)
Definition rename_file (from to : string) (d : device) : bool * device :=
  match files (storage d) !! from with
  | Some data => if rename_done (length (past d)) to then (true, on_files (fun m => <[to := data]> (delete from m)) d) else (false, d)
  | None => (false, d)
  end.

Definition write_conf (b : Z) (d : device) : device := commit (mk_flash (files (storage d)) b) d.

(** ** Ciphers *)

(* @src lib/microReticulum/src/microReticulum/Cryptography/AES.h:133-153 AES_256_GCM::encrypt *)
Definition gcm_encrypt (plaintext key nonce : list Z) : list Z :=
  let '(ciphertext, tag) := gcm_crypt_and_tag key nonce plaintext in ciphertext ++ tag.
(* @src lib/microReticulum/src/microReticulum/Cryptography/AES.h:171-194 AES_256_GCM::decrypt *)
Definition gcm_decrypt (ciphertext key nonce : list Z) : fallible (list Z) :=
  if zlen ciphertext <? 16 then inl ShorterThanTag
  else let body_size := (length ciphertext - 16)%nat in
    match gcm_auth_decrypt key nonce (take body_size ciphertext) (drop body_size ciphertext) with
    | Some plaintext => inr plaintext
    | None => inl TagFailed
    end.
(* @src lib/microReticulum/src/microReticulum/Cryptography/PBKDF2.cpp:51-69 pbkdf2_hmac_sha256 *)
Definition pbkdf2_hmac_sha256 (password salt : list Z) (iterations : Z) : fallible (list Z) :=
  if iterations =? 0 then inl NoIterations else inr (mbedtls_pbkdf2 password salt iterations).
(* @src lib/microReticulum/src/microReticulum/Cryptography/HKDF.cpp:22-45 hkdf *)
Definition hkdf (derive_from context : list Z) : fallible (list Z) :=
  match derive_from with [] => inl EmptyKey | _ => inr (hkdf_extract derive_from context) end.

(** [n] bytes, four from each word drawn, low byte first. *)
(* @src Vault.h:81-98 vault_random_bytes *)
Definition vault_random_bytes (n : nat) (at_ : nat) : list Z * nat :=
  let words := ((n + 3) / 4)%nat in
  (take n (flat_map (fun i => rev (be32 (esp_random (at_ + i)))) (List.seq 0 words)), (at_ + words)%nat).

(** "RNVB" *)
Definition magic : list Z := [82; 78; 86; 66].
(* @src Vault.h:104-132 vault_wrap_blob *)
Definition vault_wrap_blob (plaintext password : list Z) (iterations : Z) (at_ : nat) : fallible (list Z * nat) :=
  let '(salt, at_) := vault_random_bytes VAULT_SALT_SIZE at_ in
  let '(nonce, at_) := vault_random_bytes VAULT_NONCE_SIZE at_ in
  kek ← pbkdf2_hmac_sha256 password salt iterations;
  let payload := gcm_encrypt plaintext kek nonce in
  mret (magic ++ [1; 1] ++ be32 iterations ++ salt ++ nonce ++ be32 (u32 (zlen payload)) ++ payload, at_).

Definition header_size : nat := 42.
Definition be32_at (pos : Z) (blob : list Z) : Z :=
  of_be32 (zget 0 blob pos) (zget 0 blob (pos + 1)) (zget 0 blob (pos + 2)) (zget 0 blob (pos + 3)).
Definition mid (pos len : nat) (blob : list Z) : list Z := take len (drop pos blob).
(* @src Vault.h:138-163 vault_unwrap_blob *)
Definition vault_unwrap_blob (blob password : list Z) : fallible (list Z) :=
  if (length blob <? header_size)%nat then inl BlobTruncated
  else if negb (bool_decide (take 4 blob = magic)) then inl BadMagic
  else
    let iterations := be32_at 6 blob in
    let salt := mid 10 VAULT_SALT_SIZE blob in
    let nonce := mid (10 + VAULT_SALT_SIZE) VAULT_NONCE_SIZE blob in
    let len_pos := Z.of_nat (10 + VAULT_SALT_SIZE + VAULT_NONCE_SIZE) in
    let payload_len := be32_at len_pos blob in
    if negb (zlen blob =? u32 (Z.of_nat header_size + payload_len)) then inl LengthMismatch
    else
      let payload := mid header_size (Z.to_nat payload_len) blob in
      kek ← pbkdf2_hmac_sha256 password salt iterations; gcm_decrypt payload kek nonce.

(** "rnode-vault/identity/v1" *)
Definition identity_context : list Z :=
  [114; 110; 111; 100; 101; 45; 118; 97; 117; 108; 116; 47; 105; 100; 101; 110; 116; 105; 116; 121; 47; 118; 49].
(* @src Vault.h:165-170 vault_derive_subkey *)
Definition vault_derive_subkey (context : list Z) (d : device) : fallible (list Z) :=
  if negb (vault_unlocked d) then inl NotUnlocked else hkdf (vault_key d) context.
(* @src Vault.h:172-175 vault_lock *)
Definition vault_lock (d : device) : device := d <| vault_key := [] |> <| vault_unlocked := false |>.

(** "rnode-vault/msg/" and the peer's hash in lower-case hex *)
Definition hex_digit (n : Z) : Z := if n <? 10 then 48 + n else 87 + n.
Definition message_context (peer_hash : list Z) : list Z :=
  [114; 110; 111; 100; 101; 45; 118; 97; 117; 108; 116; 47; 109; 115; 103; 47] ++
  flat_map (fun b => [hex_digit (Z.shiftr b 4); hex_digit (Z.land b 15)]) peer_hash.
(* @src Vault.h:187-197 vault_encrypt_message_field *)
Definition vault_encrypt_message_field (peer_hash plaintext : list Z) (d : device) : fallible (list Z * device) :=
  subkey ← vault_derive_subkey (message_context peer_hash) d;
  let '(nonce, at_) := vault_random_bytes VAULT_NONCE_SIZE (drawn d) in
  mret (nonce ++ gcm_encrypt plaintext subkey nonce, d <| drawn := at_ |>).
(* @src Vault.h:203-213 vault_decrypt_message_field *)
Definition vault_decrypt_message_field (peer_hash envelope : list Z) (d : device) : fallible (list Z) :=
  if (length envelope <=? VAULT_NONCE_SIZE)%nat then inl FieldTruncated
  else
    let nonce := take VAULT_NONCE_SIZE envelope in let payload := drop VAULT_NONCE_SIZE envelope in
    subkey ← vault_derive_subkey (message_context peer_hash) d; gcm_decrypt payload subkey nonce.

(** ** Unlocking *)

(** The key the vault file holds under a password. *)
(* @src Vault.h:221-233 vault_try_unlock *)
Definition vault_open (password : list Z) (d : device) : option (list Z) :=
  if negb (file_exists VAULT_VK_PATH d) then None
  else match read_file VAULT_VK_PATH d with
       | [] => None
       | vk_blob => match vault_unwrap_blob vk_blob password with
                    | inl _ => None
                    | inr vk => if negb (length vk =? 32)%nat then None else Some vk
                    end
       end.
(* @src Vault.h:220-241 vault_try_unlock *)
Definition vault_try_unlock (password : list Z) (d : device) : bool * device :=
  match vault_open password d with
  | None => (false, d)
  | Some vk => (true, d <| vault_key := vk |> <| vault_unlocked := true |>)
  end.
(* @src Vault.h:350-367 vault_verify_password *)
Definition vault_verify_password (password : list Z) (d : device) : bool :=
  match vault_open password d with None => false | Some _ => true end.

(* @src Vault.h:248-265 vault_load_identity_plaintext *)
Definition vault_load_identity_plaintext (d : device) : fallible (list Z) :=
  if negb (vault_unlocked d) then inl NotUnlocked
  else match read_file VAULT_IDENTITY_PATH d with
       | [] => inl IdentityMissing
       | id_file =>
           if (length id_file <=? VAULT_NONCE_SIZE)%nat then inl IdentityTruncated
           else
             id_key ← vault_derive_subkey identity_context d;
             gcm_decrypt (drop VAULT_NONCE_SIZE id_file) id_key (take VAULT_NONCE_SIZE id_file)
       end.

(** ** Turning the protection on and off *)

(** A file written beside its place reads back. *)
Definition same (verify data : list Z) : bool := bool_decide (verify = data).

(** The identity under the key's identity subkey. *)
(* @src Vault.h:295-304 vault_enable *)
Definition wrap_identity (id_key identity_plain : list Z) (at_ : nat) : list Z * nat :=
  let '(id_nonce, at_) := vault_random_bytes VAULT_NONCE_SIZE at_ in
  (id_nonce ++ gcm_encrypt identity_plain id_key id_nonce, at_).

(* @src Vault.h:306-321 vault_enable *)
Definition write_verified (vk_blob id_file : list Z) (d : device) : bool * device :=
  let d := write_file (tmp VAULT_IDENTITY_PATH) id_file (write_file (tmp VAULT_VK_PATH) vk_blob d) in
  if same (read_file (tmp VAULT_VK_PATH) d) vk_blob && same (read_file (tmp VAULT_IDENTITY_PATH) d) id_file
  then (true, d)
  else (false, remove_file (tmp VAULT_IDENTITY_PATH) (remove_file (tmp VAULT_VK_PATH) d)).

(** Whether the two renames were carried out is not looked at. *)
(* @src Vault.h:306-335 vault_enable *)
Definition enable_commit (vk vk_blob id_file : list Z) (d : device) : bool * device :=
  let '(verified, d) := write_verified vk_blob id_file d in
  if negb verified then (false, d)
  else
    let d := snd (rename_file (tmp VAULT_VK_PATH) VAULT_VK_PATH d) in
    let d := snd (rename_file (tmp VAULT_IDENTITY_PATH) VAULT_IDENTITY_PATH d) in
    let d := remove_file VAULT_LEGACY_IDENTITY_PATH d in
    let d := write_conf VAULT_ENABLE_BYTE d in
    (true, d <| vault_enabled := true |> <| vault_key := vk |> <| vault_unlocked := true |>).
(* @src Vault.h:277-336 vault_enable *)
Definition vault_enable (password : list Z) (d : device) : fallible (bool * device) :=
  if vault_enabled d then mret (false, d)
  else if negb (file_exists VAULT_LEGACY_IDENTITY_PATH d) then mret (false, d)
  else
    let '(vk, at_) := vault_random_bytes 32 (drawn d) in
    '(vk_blob, at_) ← vault_wrap_blob vk password VAULT_PBKDF2_ITERATIONS at_;
    match read_file VAULT_LEGACY_IDENTITY_PATH d with
    | [] => mret (false, d <| drawn := at_ |>)
    | identity_plain =>
        id_key ← hkdf vk identity_context;
        let '(id_file, at_) := wrap_identity id_key identity_plain at_ in
        mret (enable_commit vk vk_blob id_file ((d) <| drawn := at_ |>))
    end.
(** The identity's plaintext, decrypted under [vk]. *)
(* @src Vault.h:397-414 vault_disable *)
Definition open_identity (vk : list Z) (d : device) : option (list Z) :=
  let id_file := read_file VAULT_IDENTITY_PATH d in
  if (length id_file <=? VAULT_NONCE_SIZE)%nat then None
  else match hkdf vk identity_context with
       | inl _ => None
       | inr id_key =>
           match gcm_decrypt (drop VAULT_NONCE_SIZE id_file) id_key (take VAULT_NONCE_SIZE id_file) with
           | inl _ => None
           | inr identity_plain => Some identity_plain
           end
       end.
(** Written beside its place, read back and, if it is whole, renamed into it. *)
(* @src IdentityTransfer.h:318-328 vault_identity_commit *)
Definition replace_file (path : string) (data : list Z) (d : device) : bool * device :=
  let d := write_file (tmp path) data d in
  if negb (same (read_file (tmp path) d) data) then (false, remove_file (tmp path) d)
  else (true, snd (rename_file (tmp path) path d)).

(* @src Vault.h:377-441 vault_disable *)
Definition vault_disable (password : list Z) (d : device) : bool * device :=
  match vault_open password d with
  | None => (false, d)
  | Some vk =>
      match open_identity vk d with
      | None => (false, d)
      | Some identity_plain =>
          let '(verified, d) := replace_file VAULT_LEGACY_IDENTITY_PATH identity_plain d in
          if negb verified then (false, d)
          else
            let d := remove_file VAULT_IDENTITY_PATH d in
            let d := remove_file VAULT_VK_PATH d in
            let d := write_conf VAULT_DISABLE_BYTE d in
            (true, vault_lock (d <| vault_enabled := false |>))
      end
  end.

(** ** Export and import *)

Definition send (bs : list Z) (d : device) : device := d <| sent ::= fun s => s ++ bs |>.
(* @src IdentityTransfer.h:210-220 kiss_indicate_identity_export *)
Definition kiss_indicate_identity_export (blob : list Z) : list Z := select_0 ++ frame CMD_IDENTITY_EXPORT blob.
(* @src IdentityTransfer.h:226-234 kiss_indicate_identity_import_result *)
Definition kiss_indicate_identity_import_result (ok : bool) : list Z :=
  select_0 ++ raw_frame CMD_IDENTITY_IMPORT [Z.b2z ok].

(** [current], [exp_pw1] and [exp_pw2] are what the three prompts return. *)
(* @src IdentityTransfer.h:240-301 vault_identity_export_flow *)
Definition vault_identity_export_flow (current exp_pw1 exp_pw2 : list Z) (d : device) : fallible device :=
  let refused := mret (send (kiss_indicate_identity_export []) d) in
  if vault_enabled d && negb (vault_verify_password current d) then refused
  else if zlen exp_pw1 <? VAULT_PIN_MIN_LEN then refused
  else if negb (bool_decide (exp_pw1 = exp_pw2)) then refused
  else
    match (if vault_enabled d then vault_load_identity_plaintext d
           else match read_file VAULT_LEGACY_IDENTITY_PATH d with [] => inl IdentityMissing | p => inr p end) with
    | inl _ => refused
    | inr identity_plain =>
        '(blob, at_) ← vault_wrap_blob identity_plain exp_pw1 VAULT_PBKDF2_ITERATIONS (drawn d);
        mret (send (kiss_indicate_identity_export blob) (d <| drawn := at_ |>))
    end.

(* @src IdentityTransfer.h:307-340 vault_identity_commit *)
Definition vault_identity_commit (identity_plain : list Z) (d : device) : fallible (bool * device) :=
  if vault_enabled d then
    id_key ← vault_derive_subkey identity_context d;
    let '(id_file, at_) := wrap_identity id_key identity_plain (drawn d) in
    mret (replace_file VAULT_IDENTITY_PATH id_file (d <| drawn := at_ |>))
  else mret (replace_file VAULT_LEGACY_IDENTITY_PATH identity_plain d).

(** The result says whether [hard_reset] follows; [confirmed] is what the screen
    returns. *)
(* @src IdentityTransfer.h:342-400 vault_identity_import_flow *)
Definition vault_identity_import_flow (import_blob pw : list Z) (confirmed : bool) (d : device) : fallible (bool * device) :=
  let refused d := (false, send (kiss_indicate_identity_import_result false) d) in
  match vault_unwrap_blob import_blob pw with
  | inl _ => mret (refused d)
  | inr identity_plain =>
      if negb (zlen identity_plain =? VAULT_IDENTITY_KEYSIZE_BYTES) then mret (refused d)
      else if negb confirmed then mret (refused d)
      else
        '(committed, d) ← vault_identity_commit identity_plain d;
        if negb committed then mret (refused d)
        else mret (true, send (kiss_indicate_identity_import_result true) d)
  end.

(* @src IdentityTransfer.h:406-413 on_identity_export_request *)
Definition on_identity_export_request (urns_ready : bool) (current exp_pw1 exp_pw2 : list Z) (d : device) : fallible device :=
  if negb urns_ready then mret (send (kiss_indicate_identity_export []) d)
  else vault_identity_export_flow current exp_pw1 exp_pw2 d.
(* @src IdentityTransfer.h:417-424 on_identity_import_request *)
Definition on_identity_import_request (urns_ready : bool) (blob pw : list Z) (confirmed : bool) (d : device) : fallible (bool * device) :=
  if negb urns_ready then mret (false, send (kiss_indicate_identity_import_result false) d)
  else vault_identity_import_flow blob pw confirmed d.

(** ** Start-up *)

(** The device after a power cut that leaves [f] on the flash. *)
Definition power_on (f : flash) (at_ : nat) : device := mk_device f false false [] at_ [] [].

(* @src VaultUnlock.h:470-491 vault_unlock_boot_screen *)
Fixpoint vault_unlock_boot_screen (pins : list (list Z)) (d : device) : option device :=
  match pins with
  | [] => None
  | p :: pins => let '(ok, d) := vault_try_unlock p d in if ok then Some d else vault_unlock_boot_screen pins d
  end.

Inductive booted :=
  | Running (identity : list Z) (d : device)
  | AskingPin                      (** the boot screen never returned *)
  | Thrown (e : vault_error).      (** an exception nobody catches *)

(** The identity the on-board node comes up with. *)
(* @src URNS.h:601-624 urns_init *)
Definition urns_init (d : device) : booted :=
  if vault_enabled d then
    match vault_load_identity_plaintext d with
    | inr identity_plain => Running identity_plain d
    | inl e => Thrown e
    end
  else if file_exists VAULT_LEGACY_IDENTITY_PATH d then Running (read_file VAULT_LEGACY_IDENTITY_PATH d) d
  else Running new_private_key (write_file VAULT_LEGACY_IDENTITY_PATH new_private_key d).

(** [setup], from the settings byte to the identity, with the node enabled and [pins]
    entered. *)
(* @src RNode_Firmware.ino:803-826 setup *)
Definition boot (pins : list (list Z)) (d : device) : booted :=
  let vault_raw := conf_vault (storage d) in
  let d := if vault_raw =? VAULT_ENABLE_BYTE then d <| vault_enabled := true |>
           else if vault_raw =? VAULT_DISABLE_BYTE then d <| vault_enabled := false |> else d in
  if vault_enabled d then
    match vault_unlock_boot_screen pins d with
    | None => AskingPin
    | Some d => urns_init d
    end
  else urns_init d.
End vault.

(** ** A device for the witnesses *)

Definition sample_key : list Z := map Z.of_nat (List.seq 1 64).
Definition sample_pin : list Z := [49; 50; 51; 52].
(** An unprotected device with an identity. *)
Definition sample : device :=
  mk_device (mk_flash {[VAULT_LEGACY_IDENTITY_PATH := sample_key]} 255) false false [] 0 [] [].
(** The same after the protection was turned on. *)
Definition sample_protected : device :=
  match vault_enable sample_pin sample with inr (_, d) => d | inl _ => sample end.

(** ** Lemmas *)

(** The files after an operation, as map operations. *)
Lemma files_on `{Platform} g d : files (storage (on_files g d)) = g (files (storage d)).
Proof. reflexivity. Qed.
Ltac lookups := unfold write_file, remove_file; cbn beta;
    repeat first [rewrite files_on; cbn beta | rewrite lookup_insert_eq | rewrite lookup_delete_eq
      | rewrite lookup_insert_ne by (vm_compute; discriminate) | rewrite lookup_delete_ne by (vm_compute; discriminate)].

Section vault_lemmas.
Context `{PlatformLaws, Board}.

Lemma length_random n at_ : length (fst (vault_random_bytes n at_)) = n.
Proof.
  cbn [vault_random_bytes fst]. rewrite length_take, length_flat_map.
  rewrite (map_ext _ (fun _ => 4%nat)) by (intros; reflexivity). rewrite (map_const 4%nat).
  assert (Hs : forall k, list_sum (repeat 4%nat k) = (4 * k)%nat) by (induction k as [|k IH]; [reflexivity|cbn [repeat]; change (list_sum (4%nat :: repeat 4%nat k)) with (4 + list_sum (repeat 4 k))%nat; lia]).
  rewrite length_seq, Hs. pose proof (Nat.div_mod (n + 3) 4 ltac:(lia)). pose proof (Nat.mod_upper_bound (n + 3) 4 ltac:(lia)). lia.
Qed.

Lemma length_gcm p k n : length (gcm_encrypt p k n) = (length p + 16)%nat.
Proof.
  unfold gcm_encrypt. pose proof (gcm_length k n p) as Hl. pose proof (gcm_tag_length k n p) as Ht.
  destruct (gcm_crypt_and_tag k n p). cbn [fst snd] in *. rewrite length_app. lia.
Qed.
Lemma gcm_decrypt_encrypt p k n : gcm_decrypt (gcm_encrypt p k n) k n = inr p.
Proof.
  unfold gcm_decrypt. rewrite (proj2 (Z.ltb_ge _ _)) by (unfold zlen; rewrite length_gcm; lia).
  rewrite length_gcm. unfold gcm_encrypt. pose proof (gcm_length k n p) as Hl. pose proof (gcm_opens k n p) as Ho.
  destruct (gcm_crypt_and_tag k n p). cbn [fst snd] in *.
  rewrite take_app_length', drop_app_length' by lia. now rewrite Ho.
Qed.

(** A header field is four bytes at a fixed place. *)
Lemma unwrap_fields it salt nonce payload pw : length salt = 16%nat -> length nonce = 12%nat ->
  0 <= it < 2 ^ 32 -> zlen payload < 2 ^ 32 - 42 ->
  vault_unwrap_blob (magic ++ [1; 1] ++ be32 it ++ salt ++ nonce ++ be32 (u32 (zlen payload)) ++ payload) pw =
    (kek ← pbkdf2_hmac_sha256 pw salt it; gcm_decrypt payload kek nonce).
Proof.
  intros Hs Hn Hi Hp. pose proof (zlen_nonneg payload) as Hz. rewrite (u32_id (zlen payload)) by lia.
  do 16 (destruct salt as [|? salt]; [discriminate|]). destruct salt; [|discriminate].
  do 12 (destruct nonce as [|? nonce]; [discriminate|]). destruct nonce; [|discriminate].
  unfold vault_unwrap_blob. cbn [app magic be32]. set (blob := 82 :: _).
  assert (Hb : zlen blob = 42 + zlen payload) by (unfold blob; rewrite !zlen_cons; lia).
  change (length blob <? header_size)%nat with false. cbn iota.
  change (take 4 blob) with magic. rewrite bool_decide_true by reflexivity. cbn [negb].
  assert (Hf : forall x, 0 <= x < 2 ^ 32 ->
    of_be32 (u8 (Z.shiftr x 24)) (u8 (Z.shiftr x 16)) (u8 (Z.shiftr x 8)) (u8 x) = x)
    by (intros; rewrite of_be32_be32; now apply u32_id).
  assert (Ei : be32_at 6 blob = it) by exact (Hf it Hi).
  assert (El : be32_at (Z.of_nat (10 + VAULT_SALT_SIZE + VAULT_NONCE_SIZE)) blob = zlen payload)
    by (apply (Hf (zlen payload)); lia).
  rewrite Ei, El, u32_id, Hb, Z.eqb_refl by (unfold header_size; lia). cbn [negb].
  change (mid header_size ?n blob) with (take n payload).
  rewrite take_ge by (unfold zlen; lia). reflexivity.
Qed.

(** The container opens under the password it was made with. *)
Lemma unwrap_wrap p pw it at_ : 0 < it < 2 ^ 32 -> zlen p < 2 ^ 32 - 58 ->
  exists blob at', vault_wrap_blob p pw it at_ = inr (blob, at') /\ vault_unwrap_blob blob pw = inr p.
Proof.
  intros Hi Hp. unfold vault_wrap_blob.
  pose proof (length_random VAULT_SALT_SIZE at_) as Hs. destruct (vault_random_bytes VAULT_SALT_SIZE at_) as [salt at1].
  pose proof (length_random VAULT_NONCE_SIZE at1) as Hn. destruct (vault_random_bytes VAULT_NONCE_SIZE at1) as [nonce at2].
  unfold pbkdf2_hmac_sha256 at 1. rewrite (proj2 (Z.eqb_neq it 0)) by lia. cbn [mbind fallible_bind].
  eexists _, _. split; [reflexivity|].
  rewrite unwrap_fields; [|assumption|assumption|lia|unfold zlen in *; rewrite length_gcm; lia].
  unfold pbkdf2_hmac_sha256. rewrite (proj2 (Z.eqb_neq it 0)) by lia. apply gcm_decrypt_encrypt.
Qed.

Lemma unwrap_nil pw : vault_unwrap_blob [] pw = inl BlobTruncated.
Proof. reflexivity. Qed.

Lemma vault_open_spec pw d vk_blob vk : files (storage d) !! VAULT_VK_PATH = Some vk_blob ->
  vault_unwrap_blob vk_blob pw = inr vk -> length vk = 32%nat -> vault_open pw d = Some vk.
Proof.
  intros Hf Hu Hl. unfold vault_open, file_exists, read_file. rewrite Hf, bool_decide_true by eauto. cbn [negb from_option id].
  destruct vk_blob; [discriminate|]. rewrite Hu, Hl. reflexivity.
Qed.
Lemma vault_open_absent pw d : files (storage d) !! VAULT_VK_PATH = None -> vault_open pw d = None.
Proof. intros Hf. unfold vault_open, file_exists. now rewrite Hf, bool_decide_false by (intros [? [=]]). Qed.

(** What [wrap_identity] yields opens under the same key. *)
Lemma length_wrap_identity key idp at_ : length (fst (wrap_identity key idp at_)) = (length idp + 28)%nat.
Proof.
  unfold wrap_identity. pose proof (length_random VAULT_NONCE_SIZE at_) as Hn.
  destruct (vault_random_bytes VAULT_NONCE_SIZE at_) as [nonce at']. cbn [fst] in *. rewrite length_app, length_gcm, Hn.
  unfold VAULT_NONCE_SIZE. lia.
Qed.
Lemma open_wrapped key idp at_ : let id_file := fst (wrap_identity key idp at_) in
  gcm_decrypt (drop VAULT_NONCE_SIZE id_file) key (take VAULT_NONCE_SIZE id_file) = inr idp.
Proof.
  unfold wrap_identity. pose proof (length_random VAULT_NONCE_SIZE at_) as Hn.
  destruct (vault_random_bytes VAULT_NONCE_SIZE at_) as [nonce at']. cbn [fst] in *.
  rewrite take_app_length', drop_app_length' by (now rewrite Hn). apply gcm_decrypt_encrypt.
Qed.
Lemma open_identity_spec vk key idp at_ d : files (storage d) !! VAULT_IDENTITY_PATH = Some (fst (wrap_identity key idp at_)) ->
  hkdf vk identity_context = inr key -> open_identity vk d = Some idp.
Proof.
  intros Hf Hk. unfold open_identity, read_file. rewrite Hf. cbn [from_option id].
  rewrite length_wrap_identity, (proj2 (Nat.leb_gt _ _)) by (unfold VAULT_NONCE_SIZE; lia).
  now rewrite Hk, open_wrapped.
Qed.
(** Unlocked, the node loads what [open_identity] finds. *)
Lemma load_identity_spec d idp : vault_unlocked d = true -> open_identity (vault_key d) d = Some idp ->
  vault_load_identity_plaintext d = inr idp.
Proof.
  intros Hu. unfold open_identity, vault_load_identity_plaintext, vault_derive_subkey. rewrite Hu. cbn [negb].
  destruct (read_file VAULT_IDENTITY_PATH d) as [|b f]; [discriminate|].
  destruct (_ <=? _)%nat; [discriminate|]. destruct (hkdf _ _) as [|k]; [discriminate|]. cbn [mbind fallible_bind].
  destruct (gcm_decrypt _ _ _); [discriminate|]. now intros [= ->].
Qed.

Lemma rename_spec from to data d : files (storage d) !! from = Some data -> rename_done (length (past d)) to = true ->
  snd (rename_file from to d) = on_files (fun m => <[to := data]> (delete from m)) d.
Proof. unfold rename_file. now intros -> ->. Qed.
Lemma rename_refused from to d : rename_done (length (past d)) to = false -> snd (rename_file from to d) = d.
Proof. unfold rename_file. intros ->. now destruct (files _ !! _). Qed.
(** The file system carries out every rename. *)
Definition renames_work : Prop := forall n path, rename_done n path = true.

(** Written beside its place: either the flash holds all of it, or it is taken away again. *)
Lemma read_written path data d : read_file path (write_file path data d) = stored data.
Proof. unfold read_file. lookups. reflexivity. Qed.
Lemma write_verified_spec vk_blob id_file d :
  let w := write_file (tmp VAULT_IDENTITY_PATH) id_file (write_file (tmp VAULT_VK_PATH) vk_blob d) in
  (stored vk_blob = vk_blob /\ stored id_file = id_file /\ write_verified vk_blob id_file d = (true, w)) \/
  write_verified vk_blob id_file d = (false, remove_file (tmp VAULT_IDENTITY_PATH) (remove_file (tmp VAULT_VK_PATH) w)).
Proof.
  intros w. unfold write_verified. fold w. unfold same.
  assert (E1 : read_file (tmp VAULT_VK_PATH) w = stored vk_blob) by (unfold read_file, w; lookups; reflexivity).
  assert (E2 : read_file (tmp VAULT_IDENTITY_PATH) w = stored id_file) by apply read_written.
  rewrite E1, E2. destruct (bool_decide (stored vk_blob = vk_blob)) eqn:B1; cbn [andb]; [|now right].
  destruct (bool_decide (stored id_file = id_file)) eqn:B2; [|now right].
  apply bool_decide_eq_true in B1, B2. now left.
Qed.

(** The identity can be had back from a flash: it is there in clear, or the two vault
    files open under the PIN and hold it. *)
Definition recoverable (pw idp : list Z) (f : flash) : Prop :=
  files f !! VAULT_LEGACY_IDENTITY_PATH = Some idp \/
  exists vk, vault_open pw (power_on f 0) = Some vk /\ open_identity vk (power_on f 0) = Some idp.

(** The files of a vault: the key under the PIN, the identity under the key. *)
Record vault_files (pw idp vk vk_blob id_file : list Z) : Prop := {
  vf_vk : length vk = 32%nat;
  vf_blob : vault_unwrap_blob vk_blob pw = inr vk;
  vf_id : exists key at_, hkdf vk identity_context = inr key /\ id_file = fst (wrap_identity key idp at_)
}.
Lemma vault_files_open pw idp vk vk_blob id_file d : vault_files pw idp vk vk_blob id_file ->
  files (storage d) !! VAULT_VK_PATH = Some vk_blob -> files (storage d) !! VAULT_IDENTITY_PATH = Some id_file ->
  vault_open pw d = Some vk /\ open_identity vk d = Some idp.
Proof.
  intros [Hl Hb (key & at_ & Hk & ->)] Hv Hi. split; [now apply (vault_open_spec pw d vk_blob)|].
  now apply (open_identity_spec vk key idp at_).
Qed.

Lemma past_on (P : flash -> Prop) g d : P (mk_flash (g (files (storage d))) (conf_vault (storage d))) ->
  Forall P (past d) -> Forall P (past (on_files g d)).
Proof. intros. now constructor. Qed.
Lemma past_conf (P : flash -> Prop) b d : P (mk_flash (files (storage d)) b) -> Forall P (past d) -> Forall P (past (write_conf b d)).
Proof. intros. now constructor. Qed.
Lemma past_session b k u d : past (d <| vault_enabled := b |> <| vault_key := k |> <| vault_unlocked := u |>) = past d.
Proof. now destruct d. Qed.

Ltac each_state := repeat first [apply past_conf | apply past_on | assumption].
Ltac still_there := left; cbn [files]; lookups; assumption.

(** The flash after a commit that went through, up to the settings byte. *)
Definition migrated (vk_blob id_file : list Z) (d : device) : device :=
  remove_file VAULT_LEGACY_IDENTITY_PATH
    (on_files (fun m => <[VAULT_IDENTITY_PATH := id_file]> (delete (tmp VAULT_IDENTITY_PATH) m))
      (on_files (fun m => <[VAULT_VK_PATH := vk_blob]> (delete (tmp VAULT_VK_PATH) m))
        (write_file (tmp VAULT_IDENTITY_PATH) id_file (write_file (tmp VAULT_VK_PATH) vk_blob d)))).

Lemma enable_commit_spec vk vk_blob id_file d : renames_work ->
  (stored vk_blob = vk_blob /\ stored id_file = id_file /\ enable_commit vk vk_blob id_file d =
    (true, (write_conf VAULT_ENABLE_BYTE (migrated vk_blob id_file d))
             <| vault_enabled := true |> <| vault_key := vk |> <| vault_unlocked := true |>)) \/
  enable_commit vk vk_blob id_file d = (false, snd (write_verified vk_blob id_file d)) /\
    fst (write_verified vk_blob id_file d) = false.
Proof.
  intros Hren. unfold enable_commit, migrated.
  destruct (write_verified_spec vk_blob id_file d) as [(S1 & S2 & ->)| -> ]; cbn [negb snd fst]; [left|now right].
  rewrite (rename_spec (tmp VAULT_VK_PATH) _ vk_blob) by (apply Hren || (lookups; now rewrite S1)).
  rewrite (rename_spec _ _ id_file) by (apply Hren || (lookups; now rewrite S2)). auto.
Qed.

Lemma enable_commit_past pw idp vk vk_blob id_file d : renames_work -> vault_files pw idp vk vk_blob id_file ->
  files (storage d) !! VAULT_LEGACY_IDENTITY_PATH = Some idp -> Forall (recoverable pw idp) (past d) ->
  Forall (recoverable pw idp) (past (snd (enable_commit vk vk_blob id_file d))).
Proof.
  intros Hren Hf Hid Hp. destruct (enable_commit_spec vk vk_blob id_file d Hren) as [(S1 & S2 & ->)|(-> & Hv)]; cbn [snd].
  - rewrite past_session. unfold migrated, write_file, remove_file. each_state; try still_there.
    all: right; exists vk; apply (vault_files_open pw idp vk vk_blob id_file); [exact Hf| |]; cbn [power_on storage files]; lookups; reflexivity.
  - destruct (write_verified_spec vk_blob id_file d) as [(_ & _ & E)|E]; rewrite E in *; [discriminate|]. cbn [snd].
    unfold write_file, remove_file. each_state; still_there.
Qed.

Lemma vault_enable_commits pw d idp : vault_enabled d = false -> idp <> [] ->
  files (storage d) !! VAULT_LEGACY_IDENTITY_PATH = Some idp ->
  exists vk vk_blob id_file at_, vault_files pw idp vk vk_blob id_file /\
    vault_enable pw d = inr (enable_commit vk vk_blob id_file ((d) <| drawn := at_ |>)).
Proof.
  intros He Hn Hid. unfold vault_enable, file_exists, read_file. rewrite He, Hid, bool_decide_true by eauto. cbn [negb from_option id].
  pose proof (length_random 32 (drawn d)) as Hl. destruct (vault_random_bytes 32 (drawn d)) as [vk at1]. cbn [fst] in Hl.
  destruct (unwrap_wrap vk pw VAULT_PBKDF2_ITERATIONS at1) as (vk_blob & at2 & Hw & Hu);
    [unfold VAULT_PBKDF2_ITERATIONS; lia|unfold zlen; lia|]. rewrite Hw. cbn [mbind fallible_bind].
  destruct idp as [|b idp]; [congruence|]. destruct vk as [|k vk]; [discriminate|]. cbn [hkdf mbind fallible_bind].
  destruct (wrap_identity _ (b :: idp) at2) as [id_file at3] eqn:Ew.
  exists (k :: vk), vk_blob, id_file, at3. split; [|reflexivity]. split; [assumption|assumption|].
  eexists _, at2. split; [reflexivity|]. now rewrite Ew.
Qed.

Lemma drawn_only n d : let d' := d <| drawn := n |> in
  storage d' = storage d /\ past d' = past d /\ vault_enabled d' = vault_enabled d.
Proof. now destruct d. Qed.
End vault_lemmas.

(** ** Boot *)

Section vault_boot.
Context `{PlatformLaws, Board}.

Lemma boot_screen_wrong wrong pins d : Forall (fun p => vault_open p d = None) wrong ->
  vault_unlock_boot_screen (wrong ++ pins) d = vault_unlock_boot_screen pins d.
Proof.
  induction 1 as [|p wrong Hp _ IH]; [reflexivity|]. cbn [app vault_unlock_boot_screen].
  unfold vault_try_unlock at 1. now rewrite Hp.
Qed.
(** Only the files matter to [vault_open]. *)
Lemma vault_open_files p d d' : files (storage d) = files (storage d') -> vault_open p d = vault_open p d'.
Proof. intros Hf. unfold vault_open, file_exists, read_file. now rewrite Hf. Qed.
Lemma open_identity_files vk d d' : files (storage d) = files (storage d') -> open_identity vk d = open_identity vk d'.
Proof. intros Hf. unfold open_identity, read_file. now rewrite Hf. Qed.

(** The device comes up with [idp] after the PINs [pins]. *)
Definition boots_as (pins : list (list Z)) (f : flash) (idp : list Z) : Prop :=
  exists d, boot pins (power_on f 0) = Running idp d.

Lemma boot_protected wrong pw pins f vk idp : conf_vault f = VAULT_ENABLE_BYTE ->
  Forall (fun p => vault_open p (power_on f 0) = None) wrong ->
  vault_open pw (power_on f 0) = Some vk -> open_identity vk (power_on f 0) = Some idp ->
  boots_as (wrong ++ pw :: pins) f idp.
Proof.
  intros Hc Hw Hv Hi. unfold boots_as, boot. cbn [power_on storage]. rewrite Hc, Z.eqb_refl.
  set (d := (power_on f 0) <| vault_enabled := true |>).
  change (vault_enabled d) with true. cbn iota. rewrite boot_screen_wrong by exact Hw.
  cbn [vault_unlock_boot_screen]. unfold vault_try_unlock.
  rewrite (vault_open_files pw d (power_on f 0)) by reflexivity. rewrite Hv. unfold urns_init. change (vault_enabled _) with true. cbn iota.
  rewrite (load_identity_spec _ idp); [eauto|reflexivity|].
  rewrite <- Hi. now apply open_identity_files.
Qed.
Lemma boot_plain pins f idp : conf_vault f <> VAULT_ENABLE_BYTE ->
  files f !! VAULT_LEGACY_IDENTITY_PATH = Some idp -> boots_as pins f idp.
Proof.
  intros Hc Hf. unfold boots_as, boot. cbn [power_on storage]. rewrite (proj2 (Z.eqb_neq _ _) Hc).
  set (d := if _ =? _ then _ else _). assert (Hd : vault_enabled d = false /\ files (storage d) = files f)
    by (unfold d; destruct (_ =? _); split; reflexivity). destruct Hd as [Hd Hs].
  rewrite Hd. unfold urns_init, file_exists, read_file. rewrite Hd, Hs, Hf, bool_decide_true by eauto. cbn. eauto.
Qed.
(** Without the vault file there is no way past the PIN screen. *)
Lemma boot_locked_out pins f : conf_vault f = VAULT_ENABLE_BYTE -> files f !! VAULT_VK_PATH = None ->
  boot pins (power_on f 0) = AskingPin.
Proof.
  intros Hc Hf. unfold boot. cbn [power_on storage]. rewrite Hc, Z.eqb_refl.
  set (d := (power_on f 0) <| vault_enabled := true |>). change (vault_enabled d) with true. cbn iota.
  assert (Hs : vault_unlock_boot_screen (pins ++ []) d = None).
  { apply boot_screen_wrong. apply Forall_forall. intros p _. now apply vault_open_absent. }
  rewrite app_nil_r in Hs. now rewrite Hs.
Qed.

(** Without the vault's identity file a protected device comes up with none. *)
Lemma boot_without_identity pins f i d : conf_vault f = VAULT_ENABLE_BYTE -> files f !! VAULT_IDENTITY_PATH = None ->
  boot pins (power_on f 0) <> Running i d.
Proof.
  intros Hc Hf. unfold boot. cbn [power_on storage]. rewrite Hc, Z.eqb_refl.
  set (d0 := (power_on f 0) <| vault_enabled := true |>). change (vault_enabled d0) with true. cbn iota.
  assert (Hs : forall d, vault_unlock_boot_screen pins d0 = Some d -> storage d = f /\ vault_enabled d = true).
  { assert (Hd0 : storage d0 = f /\ vault_enabled d0 = true) by easy. revert Hd0. generalize d0. clear d0.
    induction pins as [|p pins IH]; intros d0 Hd0 d1; [discriminate|]. cbn [vault_unlock_boot_screen]. unfold vault_try_unlock.
    destruct (vault_open p d0); [|now apply IH]. intros [= <-]. now destruct d0. }
  destruct (vault_unlock_boot_screen pins d0) as [d1|]; [|discriminate]. destruct (Hs d1 eq_refl) as [E1 E2].
  unfold urns_init. rewrite E2. unfold vault_load_identity_plaintext, read_file. rewrite E1, Hf. cbn [from_option id default].
  now destruct (negb (vault_unlocked d1)).
Qed.

(** ** The identity a device runs with *)

Definition flash_holds (protected : bool) (pw idp : list Z) (f : flash) : Prop :=
  if protected then conf_vault f = VAULT_ENABLE_BYTE /\
    exists vk, vault_open pw (power_on f 0) = Some vk /\ open_identity vk (power_on f 0) = Some idp
  else conf_vault f <> VAULT_ENABLE_BYTE /\ files f !! VAULT_LEGACY_IDENTITY_PATH = Some idp.
(** The device runs with [idp]; if it is protected, it was opened with [pw]. *)
Definition holds (pw idp : list Z) (d : device) : Prop :=
  flash_holds (vault_enabled d) pw idp (storage d) /\
  (vault_enabled d = true -> vault_unlocked d = true /\ vault_open pw d = Some (vault_key d)).

Lemma flash_holds_boots b pw idp f : flash_holds b pw idp f -> boots_as [pw] f idp.
Proof.
  destruct b; intros [Hc Hf]; [|now apply boot_plain]. destruct Hf as (vk & Hv & Hi).
  now apply (boot_protected [] pw [] f vk idp).
Qed.
Lemma vault_open_length pw d vk : vault_open pw d = Some vk -> length vk = 32%nat.
Proof.
  unfold vault_open. destruct (file_exists _ _); cbn [negb]; [|discriminate]. destruct (read_file _ _); [discriminate|].
  destruct (vault_unwrap_blob _ _); [discriminate|]. destruct (Nat.eqb_spec (length l0) 32); cbn [negb]; [|discriminate].
  now intros [= <-].
Qed.
Lemma hkdf_vk vk : length vk = 32%nat -> exists key, hkdf vk identity_context = inr key.
Proof. destruct vk; [discriminate|]. eexists. reflexivity. Qed.
(** The three files decide. *)
Definition vault_path (path : string) : Prop :=
  path = VAULT_LEGACY_IDENTITY_PATH \/ path = VAULT_VK_PATH \/ path = VAULT_IDENTITY_PATH.
Lemma vault_path_tmp p q : vault_path p -> vault_path q -> q <> tmp p.
Proof. unfold vault_path. intros [->|[->| ->]] [->|[->| ->]]; vm_compute; discriminate. Qed.
Lemma flash_holds_ext b pw idp f g : flash_holds b pw idp f -> conf_vault g = conf_vault f ->
  (forall path, vault_path path -> files g !! path = files f !! path) -> flash_holds b pw idp g.
Proof.
  unfold vault_path. intros Hf Hc Hp. destruct b; destruct Hf as [Hb Hf]; (split; [congruence|]); [|rewrite Hp by auto; exact Hf].
  destruct Hf as (vk & Hv & Hi). exists vk.
  unfold vault_open, open_identity, file_exists, read_file in *. cbn [power_on storage] in *. now rewrite !Hp by auto.
Qed.

Ltac elsewhere := repeat first [rewrite files_on | rewrite lookup_insert_eq | rewrite lookup_insert_ne by congruence
  | rewrite lookup_delete_ne by congruence]; reflexivity.
(** Replacing a file: until the rename nothing but the file beside it changes, and the
    rename puts all of the new file in place. *)
Lemma replace_file_past (P : flash -> Prop) path data d :
  (forall m, (forall q, q <> tmp path -> m !! q = files (storage d) !! q) -> P (mk_flash m (conf_vault (storage d)))) ->
  (forall m, m !! path = Some data -> (forall q, q <> tmp path -> q <> path -> m !! q = files (storage d) !! q) ->
    P (mk_flash m (conf_vault (storage d)))) ->
  tmp path <> path -> Forall P (past d) ->
  let '(r, d') := replace_file path data d in
  Forall P (past d') /\ (r = false -> (forall q, q <> tmp path -> files (storage d') !! q = files (storage d) !! q) /\
    conf_vault (storage d') = conf_vault (storage d)).
Proof.
  intros P1 P2 Hne Hp. unfold replace_file. rewrite read_written. unfold same.
  destruct (bool_decide (stored data = data)) eqn:B; cbn [negb].
  - apply bool_decide_eq_true in B. split; [|discriminate].
    destruct (rename_done (length (past (write_file (tmp path) data d))) path) eqn:Er.
    2: { rewrite rename_refused by exact Er. unfold write_file, remove_file.
         repeat first [apply past_on | assumption]; apply P1; intros; elsewhere. }
    rewrite (rename_spec (tmp path) path (stored data)); [|unfold write_file, remove_file; now rewrite files_on, lookup_insert_eq|exact Er].
    unfold write_file, remove_file. rewrite B. repeat first [apply past_on | assumption]; [apply P2|apply P1|apply P1]; intros; elsewhere.
  - unfold write_file, remove_file. split.
    + repeat first [apply past_on | assumption]; apply P1; intros; elsewhere.
    + intros _. split; [|reflexivity]. intros q Hq. elsewhere.
Qed.

Lemma commit_cases pw old new d : flash_holds (vault_enabled d) pw old (storage d) ->
  (vault_enabled d = true -> vault_unlocked d = true /\ vault_open pw d = Some (vault_key d)) ->
  Forall (fun f => boots_as [pw] f old \/ boots_as [pw] f new) (past d) ->
  exists r d', vault_identity_commit new d = inr (r, d') /\
    Forall (fun f => boots_as [pw] f old \/ boots_as [pw] f new) (past d') /\
    (r = false -> flash_holds (vault_enabled d) pw old (storage d')).
Proof.
  intros Hh Hu Hp. unfold vault_identity_commit. set (P := fun f => boots_as [pw] f old \/ boots_as [pw] f new) in *.
  assert (Hold : forall b m, flash_holds b pw old (storage d) ->
    (forall q, vault_path q -> m !! q = files (storage d) !! q) ->
    P (mk_flash m (conf_vault (storage d)))).
  { intros b m Hb Hm. left. apply (flash_holds_boots b). now apply (flash_holds_ext b pw old (storage d)). }
  destruct (vault_enabled d) eqn:He.
  - destruct (Hu eq_refl) as [Hul Hvo]. destruct (hkdf_vk (vault_key d) (vault_open_length _ _ _ Hvo)) as [key Hk].
    unfold vault_derive_subkey. rewrite Hul, Hk. cbn [negb mbind fallible_bind].
    destruct (wrap_identity key new (drawn d)) as [id_file at'] eqn:Ew.
    destruct (drawn_only at' d) as (Es & Ep & _). revert Es Ep. generalize (d <| drawn := at' |>) as d1. intros d1 Es Ep.
    pose proof (replace_file_past P VAULT_IDENTITY_PATH id_file d1) as R. rewrite Es, Ep in R.
    destruct (replace_file VAULT_IDENTITY_PATH id_file d1) as [r d']. exists r, d'. split; [reflexivity|].
    assert (Hn : tmp VAULT_IDENTITY_PATH <> VAULT_IDENTITY_PATH) by (vm_compute; discriminate).
    destruct R as [R1 R2]; [| |exact Hn|exact Hp|].
    + intros m Hm. apply (Hold true); [exact Hh|]. intros q Hq. apply Hm, vault_path_tmp; [unfold vault_path; auto|exact Hq].
    + intros m Hi Hm. right. apply (flash_holds_boots true). destruct Hh as [Hc _]. split; [exact Hc|].
      exists (vault_key d). split; [rewrite <- Hvo|].
      * unfold vault_open, file_exists, read_file. cbn [power_on storage files].
        now rewrite Hm by (vm_compute; discriminate).
      * apply (open_identity_spec _ key new (drawn d)); [cbn [power_on storage files]; now rewrite Ew|exact Hk].
    + split; [exact R1|]. intros ->. destruct (R2 eq_refl) as [R3 R4].
      apply (flash_holds_ext true pw old (storage d)); [exact Hh|congruence|].
      intros q Hq. apply R3, vault_path_tmp; [unfold vault_path; auto|exact Hq].
  - pose proof (replace_file_past P VAULT_LEGACY_IDENTITY_PATH new d) as R.
    destruct (replace_file VAULT_LEGACY_IDENTITY_PATH new d) as [r d']. exists r, d'. split; [reflexivity|].
    destruct R as [R1 R2]; [| |vm_compute; discriminate|exact Hp|].
    + intros m Hm. apply (Hold false); [exact Hh|]. intros q Hq. apply Hm, vault_path_tmp; [unfold vault_path; auto|exact Hq].
    + intros m Hi _. right. apply (flash_holds_boots false). destruct Hh as [Hc _]. now split.
    + split; [exact R1|]. intros ->. destruct (R2 eq_refl) as [R3 R4].
      apply (flash_holds_ext false pw old (storage d)); [exact Hh|congruence|].
      intros q Hq. apply R3, vault_path_tmp; [unfold vault_path; auto|exact Hq].
Qed.

(** ** A flash that stores what is written and renames *)

Context (Hst : forall data, stored data = data) (Hren : renames_work).

Lemma enable_success pw d idp : vault_enabled d = false -> idp <> [] ->
  files (storage d) !! VAULT_LEGACY_IDENTITY_PATH = Some idp ->
  exists vk vk_blob id_file d', vault_files pw idp vk vk_blob id_file /\ vault_enable pw d = inr (true, d') /\
    files (storage d') !! VAULT_VK_PATH = Some vk_blob /\ files (storage d') !! VAULT_IDENTITY_PATH = Some id_file /\
    files (storage d') !! VAULT_LEGACY_IDENTITY_PATH = None /\ conf_vault (storage d') = VAULT_ENABLE_BYTE /\
    vault_enabled d' = true /\ vault_unlocked d' = true /\ vault_key d' = vk /\
    mk_flash (files (storage d')) (conf_vault (storage d)) ∈ past d'.
Proof.
  intros He Hn Hid. destruct (vault_enable_commits pw d idp He Hn Hid) as (vk & vb & idf & at_ & Hf & Hr).
  exists vk, vb, idf. rewrite Hr. destruct (drawn_only at_ d) as (Es & _ & _). revert Es.
  generalize (d <| drawn := at_ |>) as d1. intros d1 Es.
  destruct (enable_commit_spec vk vb idf d1 Hren) as [(_ & _ & ->)|(_ & Hv)].
  2: { exfalso. revert Hv. unfold write_verified. rewrite read_written.
       unfold read_file. lookups. cbn [from_option id]. rewrite !Hst. unfold same. now rewrite !bool_decide_true. }
  rewrite <- Es. eexists. split; [exact Hf|]. split; [reflexivity|]. cbn. unfold migrated. repeat split; lookups; try reflexivity.
  apply elem_of_cons. right. apply elem_of_cons. now left.
Qed.

Lemma replace_file_spec path data d : tmp path <> path ->
  exists d', replace_file path data d = (true, d') /\ files (storage d') = <[path := data]> (delete (tmp path) (files (storage d))) /\
    conf_vault (storage d') = conf_vault (storage d) /\ (vault_enabled d', vault_unlocked d', vault_key d', sent d') =
    (vault_enabled d, vault_unlocked d, vault_key d, sent d).
Proof.
  intros Hne. unfold replace_file. rewrite read_written, Hst. unfold same. rewrite bool_decide_true by reflexivity. cbn [negb].
  unfold write_file, remove_file. rewrite (rename_spec (tmp path) path data) by (apply Hren || (rewrite files_on, lookup_insert_eq; now rewrite Hst)).
  eexists. split; [reflexivity|]. repeat split. rewrite !files_on. now rewrite delete_insert_eq, delete_delete_eq.
Qed.

Lemma disable_success pw vk idp d : vault_open pw d = Some vk -> open_identity vk d = Some idp ->
  exists d', vault_disable pw d = (true, d') /\
    files (storage d') !! VAULT_LEGACY_IDENTITY_PATH = Some idp /\ files (storage d') !! VAULT_IDENTITY_PATH = None /\
    files (storage d') !! VAULT_VK_PATH = None /\ storage d' = mk_flash (files (storage d')) VAULT_DISABLE_BYTE /\
    vault_enabled d' = false /\ vault_unlocked d' = false /\
    mk_flash (files (storage d')) (conf_vault (storage d)) ∈ past d' /\
    exists f, f ∈ past d' /\ conf_vault f = conf_vault (storage d) /\
      files f !! VAULT_IDENTITY_PATH = None /\ files f !! VAULT_VK_PATH = files (storage d) !! VAULT_VK_PATH.
Proof.
  intros Ho Hi. unfold vault_disable. rewrite Ho, Hi.
  destruct (replace_file_spec VAULT_LEGACY_IDENTITY_PATH idp d ltac:(vm_compute; discriminate)) as (d1 & -> & Hf & Hc & _).
  cbn [negb]. eexists. split; [reflexivity|]. cbn. rewrite Hf, Hc. repeat split; lookups; try reflexivity.
  - apply elem_of_cons. right. apply elem_of_cons. now left.
  - eexists. split; [do 2 (apply elem_of_cons; right); apply elem_of_cons; left; reflexivity|].
    cbn. repeat split; lookups; reflexivity.
Qed.

Lemma commit_success pw old new d : holds pw old d ->
  exists d', vault_identity_commit new d = inr (true, d') /\ flash_holds (vault_enabled d) pw new (storage d') /\ sent d' = sent d.
Proof.
  intros [Hh Hu]. unfold vault_identity_commit. destruct (vault_enabled d) eqn:He.
  - destruct (Hu eq_refl) as [Hul Hvo]. destruct (hkdf_vk (vault_key d) (vault_open_length _ _ _ Hvo)) as [key Hk].
    unfold vault_derive_subkey. rewrite Hul, Hk. cbn [negb mbind fallible_bind].
    destruct (wrap_identity key new (drawn d)) as [id_file at'] eqn:Ew.
    assert (Es : storage (d <| drawn := at' |>) = storage d /\ sent (d <| drawn := at' |>) = sent d) by (now destruct d).
    revert Es. generalize (d <| drawn := at' |>) as d1. intros d1 [Es En].
    destruct (replace_file_spec VAULT_IDENTITY_PATH id_file d1 ltac:(vm_compute; discriminate)) as (d' & -> & Hf & Hc & [= _ _ _ Hs]).
    eexists. split; [reflexivity|]. split; [|congruence]. destruct Hh as [Hc0 _]. split; [congruence|].
    exists (vault_key d). split; [rewrite <- Hvo|].
    + unfold vault_open, file_exists, read_file. cbn [power_on storage]. rewrite Hf, Es. lookups. reflexivity.
    + apply (open_identity_spec _ key new (drawn d)); [|exact Hk]. cbn [power_on storage]. rewrite Hf, Ew. apply lookup_insert_eq.
  - destruct (replace_file_spec VAULT_LEGACY_IDENTITY_PATH new d ltac:(vm_compute; discriminate)) as (d' & -> & Hf & Hc & [= _ _ _ Hs]).
    eexists. split; [reflexivity|]. split; [|exact Hs]. destruct Hh as [Hc0 _]. split; [congruence|].
    rewrite Hf. apply lookup_insert_eq.
Qed.

(** What a device runs with is what it exports. *)
Lemma export_source pw idp d : holds pw idp d -> idp <> [] ->
  (vault_enabled d = true -> vault_verify_password pw d = true) /\
  (if vault_enabled d then vault_load_identity_plaintext d
   else match read_file VAULT_LEGACY_IDENTITY_PATH d with [] => inl IdentityMissing | p => inr p end) = inr idp.
Proof.
  intros [Hh Hu] Hn. destruct (vault_enabled d).
  - destruct (Hu eq_refl) as [Hul Hvo]. split; [intros _; unfold vault_verify_password; now rewrite Hvo|].
    apply load_identity_spec; [exact Hul|]. destruct Hh as (_ & vk & Hv & Hi).
    rewrite (vault_open_files pw _ d) in Hv by reflexivity. rewrite Hvo in Hv. injection Hv as <-.
    rewrite <- Hi. now apply open_identity_files.
  - split; [discriminate|]. destruct Hh as [_ Hf]. unfold read_file. rewrite Hf. cbn. now destruct idp.
Qed.
End vault_boot.

(** ** Theorems *)

Section vault_theorems.
Context `{PlatformLaws, Board}.

(** C15. On a file system whose renames do not fail, turning the PIN protection on never
    loses the identity: it always returns, and whatever part of the new files fits on the
    flash and whenever the power is cut, the flash holds the identity in clear, or both
    vault files, and these open under the chosen PIN and hold the identity.  If it reports
    failure, the clear file, the settings byte and the session - protection off, locked
    or not and with the key it had - are as before.  What a failing rename does is shown
    by [enable_ignores_rename]. *)
(* @prop safety W=enable_keeps_identity_witness D=vault_enable,enable_commit,write_verified,vault_wrap_blob,vault_unwrap_blob,wrap_identity *)
Theorem enable_keeps_identity pw d idp : renames_work -> vault_enabled d = false -> past d = [] -> idp <> [] ->
  files (storage d) !! VAULT_LEGACY_IDENTITY_PATH = Some idp ->
  exists r d', vault_enable pw d = inr (r, d') /\ Forall (recoverable pw idp) (past d') /\
    (r = false -> files (storage d') !! VAULT_LEGACY_IDENTITY_PATH = Some idp /\
      conf_vault (storage d') = conf_vault (storage d) /\
      (vault_enabled d', vault_unlocked d', vault_key d') = (false, vault_unlocked d, vault_key d)).
Proof.
  intros Hren He Hp Hn Hid. destruct (vault_enable_commits pw d idp He Hn Hid) as (vk & vb & idf & at_ & Hf & Hr).
  rewrite Hr. clear Hr. destruct (drawn_only at_ d) as (Es & Ep & Een).
  assert (Hses : (vault_unlocked (d <| drawn := at_ |>), vault_key (d <| drawn := at_ |>)) = (vault_unlocked d, vault_key d)) by now destruct d.
  revert Es Ep Een Hses. generalize (d <| drawn := at_ |>) as d1.
  intros d1 Es Ep Een [= Eu Ek]. destruct (enable_commit vk vb idf d1) as [r d'] eqn:Ec. exists r, d'. split; [reflexivity|]. split.
  - pose proof (enable_commit_past pw idp vk vb idf d1 Hren Hf) as P. rewrite Ec, Es, Ep, Hp in P. apply P; [exact Hid|constructor].
  - intros ->. destruct (enable_commit_spec vk vb idf d1 Hren) as [(_ & _ & E)|(E & Hv)]; rewrite E in Ec; [discriminate|].
    destruct (write_verified_spec vb idf d1) as [(_ & _ & Ew)|Ew]; rewrite Ew in *; [discriminate|].
    injection Ec as <-. cbn [snd]. split; [lookups; now rewrite Es|]. split; [exact (f_equal conf_vault Es)|].
    rewrite <- He, <- Een, <- Eu, <- Ek. reflexivity.
Qed.

(** [vault_enable] does not look at what [rename_file] returns.  Where the file system
    refuses the rename of the identity file, it still removes the clear file, sets the
    byte and reports success: nothing a start-up opens holds the identity any more, and
    no start-up comes up with any identity. *)
Theorem enable_ignores_rename (Hst : forall data, stored data = data) pw d idp : (forall n, rename_done n VAULT_IDENTITY_PATH = false) ->
  vault_enabled d = false -> idp <> [] -> files (storage d) !! VAULT_LEGACY_IDENTITY_PATH = Some idp ->
  files (storage d) !! VAULT_IDENTITY_PATH = None ->
  exists d', vault_enable pw d = inr (true, d') /\ ~ recoverable pw idp (storage d') /\
    forall pins i d1, boot pins (power_on (storage d') 0) <> Running i d1.
Proof.
  intros Hno He Hn Hid Habs. destruct (vault_enable_commits pw d idp He Hn Hid) as (vk & vb & idf & at_ & _ & Hr).
  rewrite Hr. clear Hr. destruct (drawn_only at_ d) as (Es & _ & _). revert Es. generalize (d <| drawn := at_ |>) as d1. intros d1 Es.
  rewrite <- Es in Habs. clear Es. unfold enable_commit. destruct (write_verified_spec vb idf d1) as [(_ & _ & ->)|E].
  2: { exfalso. unfold write_verified in E. rewrite read_written in E. unfold read_file in E. revert E. lookups.
       cbn [from_option id]. rewrite !Hst. unfold same. rewrite !bool_decide_true by reflexivity. discriminate. }
  cbn [negb]. rewrite (rename_refused _ VAULT_IDENTITY_PATH) by apply Hno. set (d2 := snd (rename_file _ _ _)).
  assert (Hi : files (storage d2) !! VAULT_IDENTITY_PATH = None).
  { unfold d2, rename_file. destruct (_ !! tmp VAULT_VK_PATH); [destruct (rename_done _ _)|]; cbn [snd]; lookups; exact Habs. }
  clearbody d2. set (g := files (storage (remove_file VAULT_LEGACY_IDENTITY_PATH d2))).
  assert (Hg : g !! VAULT_LEGACY_IDENTITY_PATH = None /\ g !! VAULT_IDENTITY_PATH = None) by (unfold g; lookups; auto).
  destruct Hg as [Hl Hg]. eexists. split; [reflexivity|].
  change (storage _) with (mk_flash g VAULT_ENABLE_BYTE). clearbody g. split.
  - intros [Hc|(vk' & _ & Ho)]; [cbn [files] in Hc; congruence|]. revert Ho. unfold open_identity, read_file.
    cbn [power_on storage files]. rewrite Hg. discriminate.
  - intros pins i d3. now apply boot_without_identity.
Qed.

(** On a flash that stores what is written, turning the protection on and off
    works: after it is on, no clear copy is left and the device comes up with the same
    identity, once the right PIN is entered, however many wrong ones come first; turned
    off with the same PIN, the identity is back in clear, both vault files are gone and
    no PIN is asked for. *)
Theorem vault_on_off (Hst : forall data, stored data = data) (Hren : renames_work) pw d idp :
  vault_enabled d = false -> idp <> [] -> files (storage d) !! VAULT_LEGACY_IDENTITY_PATH = Some idp ->
  exists d1 d2, vault_enable pw d = inr (true, d1) /\ files (storage d1) !! VAULT_LEGACY_IDENTITY_PATH = None /\
    (forall wrong pins, Forall (fun p => vault_open p d1 = None) wrong -> boots_as (wrong ++ pw :: pins) (storage d1) idp) /\
    vault_disable pw d1 = (true, d2) /\ files (storage d2) !! VAULT_VK_PATH = None /\
    files (storage d2) !! VAULT_IDENTITY_PATH = None /\ boots_as [] (storage d2) idp.
Proof.
  intros He Hn Hid. destruct (enable_success Hst Hren pw d idp He Hn Hid) as (vk & vb & idf & d1 & Hf & Er & Fv & Fi & Fl & Hc & _).
  destruct (vault_files_open pw idp vk vb idf d1 Hf Fv Fi) as [Ho Hi].
  destruct (disable_success Hst Hren pw vk idp d1 Ho Hi) as (d2 & Ed & Gl & Gi & Gv & Gc & _).
  exists d1, d2. split; [exact Er|]. split; [exact Fl|]. split; [|split; [exact Ed|split; [exact Gv|split; [exact Gi|]]]].
  - intros wrong pins Hw. apply (boot_protected wrong pw pins _ vk idp Hc); [|exact Ho|exact Hi].
    eapply Forall_impl; [|exact Hw]. intros p Hp. now rewrite <- Hp.
  - apply boot_plain; [rewrite Gc; vm_compute; discriminate|exact Gl].
Qed.

(** The settings byte is written after the clear file is removed.  A power cut
    between the two, while the protection is being turned on, makes the device come up
    under a new identity, whatever PIN was chosen: the comment in [urns_init] that the
    migration leaves the right file in place does not cover this state. *)
Theorem enable_cut_swaps_identity (Hst : forall data, stored data = data) (Hren : renames_work) pw d idp :
  vault_enabled d = false -> idp <> [] -> files (storage d) !! VAULT_LEGACY_IDENTITY_PATH = Some idp ->
  conf_vault (storage d) <> VAULT_ENABLE_BYTE ->
  exists d' f, vault_enable pw d = inr (true, d') /\ f ∈ past d' /\
    forall pins, exists d1, boot pins (power_on f 0) = Running new_private_key d1 /\
      files (storage d1) !! VAULT_LEGACY_IDENTITY_PATH = Some new_private_key.
Proof.
  intros He Hn Hid Hb. destruct (enable_success Hst Hren pw d idp He Hn Hid) as (vk & vb & idf & d' & _ & Er & _ & _ & Fl & _ & _ & _ & _ & Hp).
  eexists d', _. split; [exact Er|]. split; [exact Hp|]. intros pins. unfold boot. cbn [power_on storage conf_vault].
  rewrite (proj2 (Z.eqb_neq _ _) Hb). set (p := power_on _ 0). set (q := if _ =? _ then _ else _).
  assert (Hq : vault_enabled q = false /\ files (storage q) = files (storage d')) by (unfold q; destruct (_ =? _); split; reflexivity).
  destruct Hq as [Hq Hs]. rewrite Hq. unfold urns_init, file_exists. rewrite Hq, Hs, Fl, bool_decide_false by (intros [? [=]]).
  eexists. split; [reflexivity|]. lookups. now rewrite Hst.
Qed.

(** Turning the protection off has the same gap on the other side: a power cut after
    the vault files are removed and before the settings byte is cleared leaves a device
    that asks for the PIN for ever, and one a step earlier a device that accepts the PIN
    and then dies of an exception nobody catches, although the identity lies in clear on
    the flash. *)
Theorem disable_cut_locks_out (Hst : forall data, stored data = data) (Hren : renames_work) pw vk idp d :
  conf_vault (storage d) = VAULT_ENABLE_BYTE -> vault_open pw d = Some vk -> open_identity vk d = Some idp ->
  exists d' f g, vault_disable pw d = (true, d') /\ f ∈ past d' /\ g ∈ past d' /\
    files f !! VAULT_LEGACY_IDENTITY_PATH = Some idp /\ (forall pins, boot pins (power_on f 0) = AskingPin) /\
    boot [pw] (power_on g 0) = Thrown IdentityMissing.
Proof.
  intros Hc Ho Hi. destruct (disable_success Hst Hren pw vk idp d Ho Hi) as (d' & Ed & Gl & _ & Gv & _ & _ & _ & Hf & g & Hg & Cg & Ig & Vg).
  rewrite Hc in Hf, Cg. eexists d', _, g. split; [exact Ed|]. split; [exact Hf|]. split; [exact Hg|]. split; [exact Gl|]. split.
  - intros pins. now apply boot_locked_out.
  - unfold boot. cbn [power_on storage]. rewrite Cg, Z.eqb_refl. change (vault_enabled _) with true. cbn iota.
    cbn [vault_unlock_boot_screen]. unfold vault_try_unlock.
    assert (Hv : vault_open pw (power_on g 0) = Some vk)
      by (rewrite <- Ho; unfold vault_open, file_exists, read_file; cbn [power_on storage]; now rewrite Vg).
    rewrite (vault_open_files pw _ (power_on g 0)) by reflexivity. rewrite Hv.
    unfold urns_init. change (vault_enabled _) with true. cbn iota. unfold vault_load_identity_plaintext, read_file.
    change (files (storage _)) with (files g). rewrite Ig. reflexivity.
Qed.

(** C16. An import is atomic: whatever part of the file fits on the flash, whether or not
    its rename is carried out, and whenever the power is cut, the device comes up with its own identity or with the imported
    one - under its own PIN if it is protected - and a reported failure leaves it its own. *)
(* @prop safety W=import_atomic_witness D=vault_identity_import_flow,vault_identity_commit,replace_file *)
Theorem import_atomic pw old new blob exp confirmed d : holds pw old d -> past d = [] ->
  vault_unwrap_blob blob exp = inr new ->
  exists r d', vault_identity_import_flow blob exp confirmed d = inr (r, d') /\
    Forall (fun f => boots_as [pw] f old \/ boots_as [pw] f new) (past d') /\
    (r = false -> boots_as [pw] (storage d') old).
Proof.
  intros [Hh Hu] Hp Hb. unfold vault_identity_import_flow. rewrite Hb.
  assert (Hkeep : exists r d', (mret (false, send (kiss_indicate_identity_import_result false) d) : fallible (bool * device)) = inr (r, d') /\
    Forall (fun f => boots_as [pw] f old \/ boots_as [pw] f new) (past d') /\ (r = false -> boots_as [pw] (storage d') old)).
  { eexists _, _. split; [reflexivity|]. destruct d. cbn in *. subst. split; [constructor|]. intros _. now apply flash_holds_boots in Hh. }
  destruct (zlen new =? _); cbn [negb]; [|exact Hkeep]. destruct confirmed; cbn [negb]; [|exact Hkeep]. clear Hkeep.
  destruct (commit_cases pw old new d Hh Hu) as (r & d' & Hc & Hf & Hr); [rewrite Hp; constructor|].
  rewrite Hc. cbn [mbind fallible_bind].
  assert (Hs : forall bs, storage (send bs d') = storage d' /\ past (send bs d') = past d') by (now destruct d').
  destruct r; cbn [negb]; eexists _, _; (split; [reflexivity|]); rewrite (proj1 (Hs _)), (proj2 (Hs _)).
  - split; [exact Hf|discriminate].
  - split; [exact Hf|]. intros _. apply (flash_holds_boots (vault_enabled d)). now apply Hr.
Qed.

(** C29. On flashes that store what is written and rename, an identity can be moved: exported under a passphrase by one device, it is one
    KISS frame with the container, and another device that is given the container and
    the passphrase, and confirms, comes up with that identity - each of the two with or
    without PIN protection of its own. *)
(* @prop roundtrip W=identity_moves_witness D=vault_identity_export_flow,vault_identity_import_flow,vault_wrap_blob,vault_unwrap_blob,kiss_indicate_identity_export,boot *)
Theorem identity_moves (Hst : forall data, stored data = data) (Hren : renames_work) pa a idp pb b old exp :
  holds pa idp a -> holds pb old b -> zlen idp = VAULT_IDENTITY_KEYSIZE_BYTES -> VAULT_PIN_MIN_LEN <= zlen exp ->
  exists blob a' b', vault_identity_export_flow pa exp exp a = inr a' /\
    sent a' = sent a ++ kiss_indicate_identity_export blob /\
    vault_identity_import_flow blob exp true b = inr (true, b') /\
    sent b' = sent b ++ kiss_indicate_identity_import_result true /\ boots_as [pb] (storage b') idp.
Proof.
  intros Ha Hb Hl He. assert (Hn : idp <> []) by (intros ->; discriminate).
  destruct (export_source pa idp a Ha Hn) as [Hv Hsrc].
  destruct (unwrap_wrap idp exp VAULT_PBKDF2_ITERATIONS (drawn a)) as (blob & at' & Hw & Hu);
    [unfold VAULT_PBKDF2_ITERATIONS; lia|rewrite Hl; unfold VAULT_IDENTITY_KEYSIZE_BYTES; lia|].
  destruct (commit_success Hst Hren pb old idp b Hb) as (b1 & Hc & Hf & Hs).
  assert (Hsend : forall d bs, storage (send bs d) = storage d /\ sent (send bs d) = sent d ++ bs) by (now intros [] ?).
  exists blob, (send (kiss_indicate_identity_export blob) (a <| drawn := at' |>)), (send (kiss_indicate_identity_import_result true) b1).
  split; [|split; [|split; [|split]]].
  - unfold vault_identity_export_flow. rewrite Hsrc, (proj2 (Z.ltb_ge _ _) He), bool_decide_true by reflexivity. cbn [negb].
    destruct (vault_enabled a); cbn [andb]; [rewrite Hv by reflexivity; cbn [negb]|]; now rewrite Hw.
  - rewrite (proj2 (Hsend _ _)). now destruct a.
  - unfold vault_identity_import_flow. rewrite Hu, Hl, Z.eqb_refl. cbn [negb]. now rewrite Hc.
  - rewrite (proj2 (Hsend _ _)). now rewrite Hs.
  - rewrite (proj1 (Hsend _ _)). now apply (flash_holds_boots (vault_enabled b)).
Qed.

(** A stored message opens again while the device is unlocked, and only then. *)
Theorem message_field_roundtrip peer text d : vault_unlocked d = true -> vault_key d <> [] ->
  exists envelope d', vault_encrypt_message_field peer text d = inr (envelope, d') /\
    vault_decrypt_message_field peer envelope d' = inr text /\
    vault_decrypt_message_field peer envelope (vault_lock d') = inl NotUnlocked.
Proof.
  intros Hu Hk. unfold vault_encrypt_message_field, vault_derive_subkey. rewrite Hu. cbn [negb].
  destruct (vault_key d) as [|k ks] eqn:Ek; [congruence|]. cbn [hkdf mbind fallible_bind].
  pose proof (length_random VAULT_NONCE_SIZE (drawn d)) as Hl. destruct (vault_random_bytes VAULT_NONCE_SIZE (drawn d)) as [nonce at'].
  cbn [fst] in Hl. eexists _, _. split; [reflexivity|]. unfold vault_decrypt_message_field, vault_derive_subkey.
  rewrite length_app, length_gcm, Hl, (proj2 (Nat.leb_gt _ _)) by lia.
  rewrite take_app_length', drop_app_length' by (now rewrite Hl). split; [|now destruct d].
  replace (vault_unlocked _) with true by (now destruct d). replace (vault_key _) with (k :: ks) by (now destruct d).
  cbn [negb hkdf mbind fallible_bind]. apply gcm_decrypt_encrypt.
Qed.
End vault_theorems.

(** ** Witnesses *)

Lemma toy_stored data : @stored toy_platform data = data.
Proof. reflexivity. Qed.
Lemma toy_renames : @renames_work toy_platform.
Proof. easy. Qed.

Lemma enable_keeps_identity_witness :
  exists r d', vault_enable sample_pin sample = inr (r, d') /\ Forall (recoverable sample_pin sample_key) (past d').
Proof.
  destruct (enable_keeps_identity sample_pin sample sample_key toy_renames eq_refl eq_refl ltac:(discriminate) eq_refl) as (r & d' & E1 & P & _).
  exists r, d'. split; [exact E1|exact P].
Defined.

(** No rename of the identity file succeeds: the protection reports success, and the
    identity is gone. *)
Lemma enable_ignores_rename_witness :
  exists d', @vault_enable (toy_with (fun _ p => negb (bool_decide (p = VAULT_IDENTITY_PATH)))) sample_pin sample = inr (true, d') /\
    forall pins i d1, boot pins (power_on (storage d') 0) <> Running i d1.
Proof.
  destruct (@enable_ignores_rename (toy_with (fun _ p => negb (bool_decide (p = VAULT_IDENTITY_PATH)))) (toy_laws_with _)
    (fun _ => eq_refl) sample_pin sample sample_key) as (d' & E1 & _ & P);
    [intros n; now vm_compute|reflexivity|discriminate|reflexivity|reflexivity|].
  exists d'. split; [exact E1|exact P].
Defined.

Lemma vault_on_off_witness :
  exists d1, vault_enable sample_pin sample = inr (true, d1) /\ boots_as [[48; 48; 48; 48]; sample_pin] (storage d1) sample_key.
Proof.
  destruct (vault_on_off toy_stored toy_renames sample_pin sample sample_key eq_refl ltac:(discriminate) eq_refl) as (d1 & d2 & E1 & _ & P & _).
  exists d1. split; [exact E1|]. apply (P [[48; 48; 48; 48]] []). constructor; [|constructor].
  assert (Ed : d1 = sample_protected) by (unfold sample_protected; now rewrite E1). rewrite Ed. vm_compute. reflexivity.
Defined.

Lemma enable_cut_swaps_identity_witness :
  exists d' f d1, vault_enable sample_pin sample = inr (true, d') /\ f ∈ past d' /\ boot [sample_pin] (power_on f 0) = Running (repeat 9 64) d1.
Proof.
  destruct (enable_cut_swaps_identity toy_stored toy_renames sample_pin sample sample_key eq_refl ltac:(discriminate) eq_refl ltac:(vm_compute; discriminate))
    as (d' & f & E1 & Hf & P). destruct (P [sample_pin]) as (d1 & Hb & _). exists d', f, d1. split; [exact E1|split; [exact Hf|exact Hb]].
Defined.

Lemma disable_cut_locks_out_witness :
  exists d' f, vault_disable sample_pin sample_protected = (true, d') /\ f ∈ past d' /\ boot [sample_pin] (power_on f 0) = AskingPin.
Proof.
  destruct (disable_cut_locks_out toy_stored toy_renames sample_pin (vault_key sample_protected) sample_key sample_protected)
    as (d' & f & g & E1 & Hf & _ & _ & P & _); [vm_compute; reflexivity|vm_compute; reflexivity|vm_compute; reflexivity|].
  exists d', f. split; [exact E1|split; [exact Hf|apply P]].
Defined.

Lemma sample_holds : holds [] sample_key sample.
Proof. split; [split; [vm_compute; discriminate|reflexivity]|discriminate]. Qed.
Lemma sample_protected_holds : holds sample_pin sample_key sample_protected.
Proof.
  split; [split; [vm_compute; reflexivity|]|intros _; split; vm_compute; reflexivity].
  exists (vault_key sample_protected). split; vm_compute; reflexivity.
Qed.

Lemma import_atomic_witness : let _ := heltec32_v3 in
  let blob := match vault_wrap_blob (repeat 5 64) sample_pin VAULT_PBKDF2_ITERATIONS 0 with inr (b, _) => b | inl _ => [] end in
  exists r d', vault_identity_import_flow blob sample_pin true sample = inr (r, d') /\
    Forall (fun f => boots_as [[]] f sample_key \/ boots_as [[]] f (repeat 5 64)) (past d').
Proof.
  intros board blob. destruct (import_atomic [] sample_key (repeat 5 64) blob sample_pin true sample sample_holds eq_refl) as (r & d' & E1 & P & _);
    [vm_compute; reflexivity|]. exists r, d'. split; [exact E1|exact P].
Defined.

Lemma identity_moves_witness : let _ := heltec32_v3 in
  exists blob a' b', vault_identity_export_flow sample_pin [55; 55; 55; 55] [55; 55; 55; 55] sample_protected = inr a' /\
    vault_identity_import_flow blob [55; 55; 55; 55] true sample = inr (true, b') /\ boots_as [[]] (storage b') sample_key.
Proof.
  intros board. destruct (identity_moves toy_stored toy_renames sample_pin sample_protected sample_key [] sample sample_key [55; 55; 55; 55]
    sample_protected_holds sample_holds eq_refl) as (blob & a' & b' & E1 & _ & E2 & _ & P); [vm_compute; discriminate|].
  exists blob, a', b'. split; [exact E1|split; [exact E2|exact P]].
Defined.
