(* ===== verification/Startup.v ===== *)
(** * Start-up checks (RNode_Firmware.ino, Device.h)

    [validate_status] decides once per start whether the hardware may be used and
    whether the radio comes up by itself: the information block of the store must be
    locked, of a known product, model and revision and with a matching checksum, the
    radio module must answer, and the running firmware must have the hash the owner
    stored. *)
From stdpp Require Import gmap strings.
From S2P Require Import Prelude Boards Framing Rom Float Kiss Md5 Eeprom Settings Modem Airtime Fifo TxQueue Link EspNow Csma Serial.

(* @src Config.h:407-410 START_FROM_BOOTLOADER *)
Definition START_FROM_BOOTLOADER : Z := 0x01.
Definition START_FROM_POWERON : Z := 0x02.
Definition START_FROM_BROWNOUT : Z := 0x03.
Definition START_FROM_JTAG : Z := 0x04.

(** What start-up learns from outside: the reset flags of the AVR boot loader, whether
    the radio module answered, whether the display runs, the Bluetooth address, and the
    hash function of the platform's library. *)
Record start_env := mk_start_env {
  OPTIBOOT_MCUSR : Z; modem_installed : bool; disp_ready : bool; dev_bt_mac : list Z; sha256 : list Z -> list Z
}.

(* @src Config.h:399-405 device_init_done, eeprom_ok *)
Record startup (D E : Type) := mk_startup {
  dv : dev D E; device_init_done : bool; eeprom_ok : bool; boot_vector : Z;
  dev_signature_validated : bool; fw_validated : bool; hwrev : Z;
  console : list string    (** lines given to [Serial.write] *)
}.
Arguments mk_startup {D E} _ _ _ _ _ _ _ _. Arguments dv {D E} _. Arguments device_init_done {D E} _.
Arguments eeprom_ok {D E} _. Arguments boot_vector {D E} _. Arguments dev_signature_validated {D E} _.
Arguments fw_validated {D E} _. Arguments hwrev {D E} _. Arguments console {D E} _.

(** [BootError]: the endless blinking of [led_indicate_boot_error]; [Resetting]: after
    [hard_reset]. *)
Inductive outcome := Booted | BootError | Resetting.

Section Startup.
Context `{Board} {D : Type} `{LoRaModem D} {E : Type} `{Eeprom E} (env : host_env) (se : start_env).
Abbreviation startup := (startup D E).

(** The reset flags; ESP32 and nRF52 report a fixed value. *)
(* @src RNode_Firmware.ino:3019-3042 validate_status *)
Definition boot_flags : Z :=
  if MCU_VARIANT =? MCU_1284P then OPTIBOOT_MCUSR se
  else if MCU_VARIANT =? MCU_2560 then if OPTIBOOT_MCUSR se =? 0x00 then 0x03 else OPTIBOOT_MCUSR se
  else 0x02.
Definition F_POR : Z := 0.
Definition F_BOR : Z := if PLATFORM =? PLATFORM_AVR then 2 else 0.
Definition F_WDR : Z := if PLATFORM =? PLATFORM_AVR then 3 else 1.

(** A complaint on the serial line; a running display is redrawn. *)
(* @src RNode_Firmware.ino:3046-3052 validate_status *)
Definition complain (line : string) (s : startup) : startup :=
  let s := s <| console ::= fun l => l ++ [line] |> in
  if HAS_DISPLAY && disp_ready se then s <| device_init_done := true |> else s.

Definition set_ready (b : bool) (s : startup) : startup := s <| dv ::= fun d => d <| hw_ready := b |> |>.

(* @src Device.h:214-263 device_init *)
Definition device_init (s : startup) : bool * startup :=
  let e := ee (cf (dv s)) in
  if bt_ready (pr (cf (dv s))) then
    let dev_eeprom_signature := map (fun i => ee_read (eeprom_addr (ADDR_SIGNATURE + Z.of_nat i)) e) (List.seq 0 128) in
    let dev_hash := sha256 se ((if HAS_BLUETOOTH || HAS_BLE then dev_bt_mac se else []) ++ dev_eeprom_signature) in
    let s := s <| dev_signature_validated := device_validate_signature (ed25519_verify env) (device_load_signature e) dev_hash |> in
    let s := s <| fw_validated := device_validate_partitions (dev_firmware_hash env) (fw_validated s) e |> in
    (fw_validated s, s <| device_init_done := true |>)
  else (false, s).

(** A device with a radio configuration works on its own from here on. *)
(* @src RNode_Firmware.ino:3102-3119 validate_status *)
Definition tnc_start (s : startup) : startup :=
  let d := dv s in
  let e := ee (cf d) in
  let d := d <| mo ::= fun m => m <| par ::= eeprom_conf_load e |> |> <| op_mode := MODE_TNC |> in
  let d := stored (fun c => c <| pr ::= radio_auto_start_load e |>) d in
  s <| dv := if radio_auto_start_enabled (pr (cf d))
             then radio (fun m => snd (startRadio (console_active env) (hw_ready d) m)) d else d |>.

(* @src RNode_Firmware.ino:3075-3120 validate_status *)
Definition checked_start (s : startup) : outcome * startup :=
  let s := s <| eeprom_ok := true |> in
  if modem_installed se then
    let s := if (PLATFORM =? PLATFORM_ESP32) || (PLATFORM =? PLATFORM_NRF52)
             then let '(ok, s) := device_init s in set_ready ok s
             else set_ready true s in
    (Booted, if hw_ready (dv s) && eeprom_have_conf (ee (cf (dv s))) then tnc_start s else s)
  else
    let s := complain "No radio module found" (set_ready false s) in
    (Resetting, s <| dv ::= act EvHardReset |>).

(** The model and the revision that [eeprom_model_valid] and [eeprom_hwrev_valid] leave
    in the globals, as far as [&&] evaluates them. *)
(* @src Utilities.h:2910-2915 eeprom_model_valid *)
Definition read_identity (s : startup) : startup :=
  let e := ee (cf (dv s)) in
  if eeprom_product_valid e then
    let s := s <| dv ::= fun d => d <| mo ::= fun m => m <| model := ee_read (eeprom_addr ADDR_MODEL) e |> |> |> in
    if eeprom_model_valid e then s <| hwrev := ee_read (eeprom_addr ADDR_HW_REV) e |> else s
  else s.

(* @src RNode_Firmware.ino:3018-3159 validate_status *)
Definition validate_status (s : startup) : outcome * startup :=
  if hw_ready (dv s) || device_init_done s then (BootError, complain "Error, invalid hardware check state" (set_ready false s))
  else
    let flag f := negb (Z.land boot_flags (Z.shiftl 1 f) =? 0) in
    let vector := if flag F_POR then Some START_FROM_POWERON else if flag F_BOR then Some START_FROM_BROWNOUT
                  else if flag F_WDR then Some START_FROM_BOOTLOADER else None in
    match vector with
    | None => (BootError, complain "Error, indeterminate boot vector" s)
    | Some v =>
        let s := s <| boot_vector := v |> in
        let e := ee (cf (dv s)) in
        if (v =? START_FROM_BOOTLOADER) || (v =? START_FROM_POWERON) then
          if eeprom_lock_set e then
            let s := read_identity s in
            if eeprom_product_valid e && eeprom_model_valid e && eeprom_hwrev_valid e then
              if eeprom_checksum_valid e then checked_start s
              else (Booted, complain "Invalid EEPROM checksum" (set_ready false s))
            else (Booted, complain "Invalid EEPROM configuration" (set_ready false s))
          else (Booted, complain "Device unprovisioned, no device configuration found in EEPROM" (set_ready false s))
        else (BootError, complain "Error, incorrect boot vector" (set_ready false s))
    end.

(** ** Lemmas *)

(** The store a device may run on: its information block. *)
Definition provisioned (e : E) : bool :=
  eeprom_lock_set e && (eeprom_product_valid e && eeprom_model_valid e && eeprom_hwrev_valid e) && eeprom_checksum_valid e.
(** What [validate_status] demands of ESP32 and nRF52 boards. *)
Definition accepted (s : startup) : bool :=
  let e := ee (cf (dv s)) in
  provisioned e && modem_installed se && bt_ready (pr (cf (dv s))) &&
    device_validate_partitions (dev_firmware_hash env) (fw_validated s) e.
Definition configured (l : lora) : Prop := lora_freq l <> 0 /\ lora_bw l <> 0 /\ lora_txp l <> 0xFF /\ lora_sf l <> 0.

Lemma complain_dv line s : dv (complain line s) = dv s.
Proof. unfold complain. destruct (_ && _); now destruct s. Qed.
Lemma read_identity_dv s : hw_ready (dv (read_identity s)) = hw_ready (dv s) /\ cf (dv (read_identity s)) = cf (dv s) /\
  Modem.drv (mo (dv (read_identity s))) = Modem.drv (mo (dv s)) /\ radio_online (mo (dv (read_identity s))) = radio_online (mo (dv s)) /\
  Modem.par (mo (dv (read_identity s))) = Modem.par (mo (dv s)) /\ fw_validated (read_identity s) = fw_validated s.
Proof.
  unfold read_identity. destruct (eeprom_product_valid _); [|now repeat split].
  destruct (eeprom_model_valid _); destruct s as [d]; destruct d as [? m]; destruct m; now repeat split.
Qed.

Definition auto_start (s : startup) : bool :=
  radio_auto_start_enabled (radio_auto_start_load (ee (cf (dv s))) (pr (cf (dv s)))).

(** An operation of the modem acts on the modem and on the log only. *)
Lemma radio_mo f (d : dev D E) : radio_online (mo (radio f d)) = radio_online (f ((mo d) <| out := [] |>)) /\
  hw_ready (radio f d) = hw_ready d /\ op_mode (radio f d) = op_mode d.
Proof. unfold radio. destruct (f _), d. repeat split. Qed.

Lemma tnc_start_spec s : let s' := tnc_start s in
  let l := eeprom_conf_load (ee (cf (dv s))) (Modem.par (mo (dv s))) in
  hw_ready (dv s') = hw_ready (dv s) /\ op_mode (dv s') = MODE_TNC /\
  (radio_online (mo (dv s)) = false ->
    (radio_online (mo (dv s')) = true -> auto_start s = true /\ console_active env = false /\ configured l) /\
    (auto_start s = true -> console_active env = false -> hw_ready (dv s) = true -> configured l ->
      fst (lora_begin (lora_freq l) (Modem.drv (mo (dv s)))) = true -> radio_online (mo (dv s')) = true)).
Proof.
  cbv zeta. unfold tnc_start. set (e := ee (cf (dv s))).
  set (d1 := stored _ _).
  assert (Hd : hw_ready d1 = hw_ready (dv s) /\ op_mode d1 = MODE_TNC /\ radio_online (mo d1) = radio_online (mo (dv s)) /\
    Modem.par (mo d1) = eeprom_conf_load e (Modem.par (mo (dv s))) /\ Modem.drv (mo d1) = Modem.drv (mo (dv s)) /\
    radio_auto_start_enabled (pr (cf d1)) = auto_start s).
  { unfold d1, auto_start, e. destruct s as [d]. destruct d as [? m c]. destruct m, c. now repeat split. }
  clearbody d1. destruct Hd as (Hh & Hop & Hon & Hpar & Hdrv & Hau). rewrite Hau.
  replace (dv (s <| dv := _ |>)) with (if auto_start s then radio (fun m => snd (startRadio (console_active env) (hw_ready d1) m)) d1 else d1)
    by (now destruct s).
  destruct (auto_start s).
  2: { split; [exact Hh|]. split; [exact Hop|]. intros Hoff. rewrite Hon, Hoff. split; [discriminate|]. discriminate. }
  destruct (radio_mo (fun m => snd (startRadio (console_active env) (hw_ready d1) m)) d1) as (R1 & R2 & R3).
  rewrite R1, R2, R3. split; [exact Hh|]. split; [exact Hop|]. intros Hoff.
  set (m1 := (mo d1) <| out := [] |>).
  assert (Hm : radio_online m1 = false /\ Modem.par m1 = Modem.par (mo d1) /\ Modem.drv m1 = Modem.drv (mo d1))
    by (unfold m1; rewrite <- Hoff, <- Hon; destruct d1 as [? m]; destruct m; now repeat split).
  clearbody m1. destruct Hm as (Ho & Hp & Hd). 
  destruct (startRadio_cases (console_active env) (hw_ready d1) m1 Ho) as (C1 & _ & C3).
  cbv zeta in C1, C3. rewrite Hp, Hpar in C1, C3. rewrite Hd, Hdrv in C3. split.
  - intros Hr. destruct (C1 Hr) as (_ & Hc & Hcf). auto.
  - intros _ Hc Hw Hcf Hb. rewrite Hh in C3. specialize (C3 Hc Hw Hcf). rewrite Hb in C3. rewrite Hh. apply C3.
Qed.

Lemma device_init_spec s : fst (device_init s) =
    bt_ready (pr (cf (dv s))) && device_validate_partitions (dev_firmware_hash env) (fw_validated s) (ee (cf (dv s))) /\
  dv (snd (device_init s)) = dv s.
Proof. unfold device_init. destruct (bt_ready _); [|now split]. cbn [andb]. destruct s. now split. Qed.

(** The two platforms that check their firmware. *)
Context (Hmcu : MCU_VARIANT = MCU_ESP32 \/ MCU_VARIANT = MCU_NRF52).

Lemma vector_ok : Z.land (boot_flags) (Z.shiftl 1 F_POR) = 0 /\ Z.land (boot_flags) (Z.shiftl 1 F_BOR) = 0 /\
  Z.land (boot_flags) (Z.shiftl 1 F_WDR) = 2 /\ (PLATFORM =? PLATFORM_ESP32) || (PLATFORM =? PLATFORM_NRF52) = true.
Proof. unfold boot_flags, F_POR, F_BOR, F_WDR, PLATFORM. destruct Hmcu as [-> | ->]; now repeat split. Qed.

(** [validate_status] on these platforms, in one line per way out. *)
Lemma validate_cases s : hw_ready (dv s) = false -> device_init_done s = false -> exists s1,
  hw_ready (dv s1) = false /\ cf (dv s1) = cf (dv s) /\ Modem.drv (mo (dv s1)) = Modem.drv (mo (dv s)) /\
  radio_online (mo (dv s1)) = radio_online (mo (dv s)) /\ Modem.par (mo (dv s1)) = Modem.par (mo (dv s)) /\
  fw_validated s1 = fw_validated s /\
  if provisioned (ee (cf (dv s))) then validate_status s = checked_start s1
  else exists line, validate_status s = (Booted, complain line (set_ready false s1)).
Proof.
  intros Hh Hd. unfold validate_status, provisioned. rewrite Hh, Hd. cbn [orb]. destruct vector_ok as (-> & -> & -> & _).
  change (negb (0 =? 0)) with false. change (negb (2 =? 0)) with true. cbn iota.
  change ((START_FROM_BOOTLOADER =? START_FROM_BOOTLOADER) || (START_FROM_BOOTLOADER =? START_FROM_POWERON)) with true. cbn iota.
  set (s0 := s <| boot_vector := START_FROM_BOOTLOADER |>).
  assert (Hs0 : dv s0 = dv s /\ fw_validated s0 = fw_validated s) by (now destruct s). destruct Hs0 as [Hdv Hfw].
  destruct (read_identity_dv s0) as (R1 & R2 & R3 & R4 & R5 & R6). rewrite Hdv in *.
  destruct (eeprom_lock_set _); cbn [andb]; [|exists s0; rewrite Hdv, Hfw; repeat split; eauto].
  exists (read_identity s0). rewrite R1, R6. repeat (split; [assumption|]).
  destruct (_ && _ && eeprom_hwrev_valid _); cbn [andb]; [|eauto]. destruct (eeprom_checksum_valid _); eauto.
Qed.

Lemma set_ready_dv b s : hw_ready (dv (set_ready b s)) = b /\ mo (dv (set_ready b s)) = mo (dv s) /\ cf (dv (set_ready b s)) = cf (dv s).
Proof. destruct s as [d]. now destruct d. Qed.

Lemma acted f (s : startup) : dv (s <| dv ::= f |>) = f (dv s).
Proof. now destruct s. Qed.
Lemma acts ev (d : dev D E) : hw_ready (act ev d) = hw_ready d /\ mo (act ev d) = mo d.
Proof. now destruct d. Qed.

(** C14. The hardware comes up exactly when it may: on ESP32 and nRF52 [validate_status]
    sets [hw_ready] if and only if the information block is locked, of a known product,
    model and revision and with the right checksum, the radio module answers, Bluetooth
    is up and the running firmware has the stored hash.  The radio is on afterwards only
    if, besides, a configuration is stored, automatic start is enabled and frequency,
    bandwidth, power and spreading factor in it are set.  Only a provisioned device
    without a radio module restarts, and none ends in the boot error. *)
(* @prop safety W=startup_gate_witness D=validate_status,checked_start,device_init,tnc_start,startRadio,eeprom_checksum_valid *)
Theorem startup_gate s : hw_ready (dv s) = false -> device_init_done s = false -> radio_online (mo (dv s)) = false ->
  let '(o, s') := validate_status s in
  let e := ee (cf (dv s)) in
  (hw_ready (dv s') = true <-> accepted s = true) /\
  (radio_online (mo (dv s')) = true -> accepted s = true /\ eeprom_have_conf e = true /\ auto_start s = true /\
    configured (eeprom_conf_load e (Modem.par (mo (dv s))))) /\
  (o = Resetting <-> provisioned e = true /\ modem_installed se = false) /\ o <> BootError.
Proof.
  intros Hh Hd Hr. destruct (validate_cases s Hh Hd) as (s1 & Hh1 & Hc & Hdrv & Hon & Hpar & Hfw & Hv).
  unfold accepted, auto_start. rewrite <- Hc, <- Hpar, <- Hfw in *. set (e := ee (cf (dv s1))) in *. rewrite Hr in Hon.
  destruct (provisioned e); cbn [andb].
  2: { destruct Hv as [line ->]. rewrite complain_dv. destruct (set_ready_dv false s1) as (-> & -> & _). rewrite Hon.
       repeat split; try discriminate. intros [? _]. discriminate. }
  rewrite Hv. unfold checked_start. set (s2 := s1 <| eeprom_ok := true |>).
  assert (E2 : dv s2 = dv s1 /\ fw_validated s2 = fw_validated s1) by (now destruct s1). destruct E2 as [E2 F2]. clearbody s2.
  destruct (modem_installed se); cbn [andb].
  2: { rewrite acted, complain_dv. destruct (set_ready_dv false s2) as (A1 & A2 & _). rewrite E2 in A2.
       destruct (acts EvHardReset (dv (set_ready false s2))) as [-> ->]. rewrite A1, A2, Hon. repeat split; try discriminate; auto. }
  destruct vector_ok as (_ & _ & _ & ->). destruct (device_init_spec s2) as [I1 I2].
  destruct (device_init s2) as [ok s3]. cbn [fst snd] in I1, I2. rewrite E2 in I1, I2. fold e in I1. rewrite F2 in I1.
  destruct (set_ready_dv ok s3) as (S1 & S2 & S3). set (s4 := set_ready ok s3) in *. clearbody s4. rewrite I2 in S2, S3. rewrite S1, S3. fold e.
  rewrite <- I1.
  destruct (ok && eeprom_have_conf e) eqn:Eb.
  2: { rewrite S1, S2, Hon. repeat split; auto; try discriminate. intros [_ ?]. discriminate. }
  apply andb_true_iff in Eb as [-> Hhc].
  destruct (tnc_start_spec s4) as (T1 & _ & T3). rewrite S3, S2 in T3. fold e in T3. destruct (T3 Hon) as [T4 _]. rewrite T1, S1.
  repeat split; auto; try discriminate.
  - unfold auto_start in T4. rewrite S3 in T4. now apply T4.
  - now apply T4.
  - now apply T4.
  - now apply T4.
  - now apply T4.
  - intros [_ ?]. discriminate.
Qed.

(** C28. A configured device comes back by itself: if the running configuration was
    saved, the device passes the checks, automatic start is enabled and the transceiver
    starts, then after a power cycle it is in TNC mode with the radio on, started on the
    saved frequency. *)
(* @prop roundtrip W=tnc_restart_witness D=validate_status,tnc_start,eeprom_conf_save,eeprom_conf_load,startRadio,radio_auto_start_load *)
Theorem tnc_restart `{!EepromLaws E} (l : lora) (c : conf E) s : EEPROM_RESERVED <= EEPROM_SIZE ->
  is_u8 (lora_sf l) -> is_u8 (lora_cr l) -> is_u8 (lora_txp l) -> 0 <= lora_bw l < 2 ^ 32 -> 0 <= lora_freq l < 2 ^ 32 ->
  configured l -> ee (cf (dv s)) = ee (eeprom_conf_save true true l c) ->
  hw_ready (dv s) = false -> device_init_done s = false -> radio_online (mo (dv s)) = false ->
  accepted s = true -> auto_start s = true -> console_active env = false ->
  fst (lora_begin (lora_freq l) (Modem.drv (mo (dv s)))) = true ->
  let '(o, s') := validate_status s in
  o = Booted /\ hw_ready (dv s') = true /\ op_mode (dv s') = MODE_TNC /\ radio_online (mo (dv s')) = true.
Proof.
  intros HS B1 B2 B3 B4 B5 Hcf He Hh Hd Hr Ha Hau Hco Hb.
  destruct (validate_cases s Hh Hd) as (s1 & _ & Hc & Hdrv & Hon & Hpar & Hfw & Hv).
  unfold accepted, auto_start in Ha, Hau. rewrite <- Hc, <- Hfw in Ha. rewrite <- Hc in Hau, He, Hv. rewrite Hr in Hon. rewrite <- Hdrv in Hb.
  set (e := ee (cf (dv s1))) in *. rewrite !andb_true_iff in Ha. destruct Ha as [[[Hp Hm] Hbt] Hfh]. rewrite Hp in Hv. rewrite Hv.
  unfold checked_start. set (s2 := s1 <| eeprom_ok := true |>).
  assert (E2 : dv s2 = dv s1 /\ fw_validated s2 = fw_validated s1) by (now destruct s1). destruct E2 as [E2 F2]. clearbody s2.
  rewrite Hm. destruct vector_ok as (_ & _ & _ & ->). destruct (device_init_spec s2) as [I1 I2].
  destruct (device_init s2) as [ok s3]. cbn [fst snd] in I1, I2. rewrite E2 in I1, I2. fold e in I1. rewrite F2, Hbt, Hfh in I1. cbn in I1. subst ok.
  destruct (set_ready_dv true s3) as (S1 & S2 & S3). set (s4 := set_ready true s3) in *. clearbody s4. rewrite I2 in S2, S3.
  rewrite S1, S3. fold e.
  assert (Hl : forall l', eeprom_conf_load e l' = l).
  { intros l'. rewrite He, (proj1 (conf_roundtrip l l' c HS)). rewrite !u8_id, !u32_id by assumption. now destruct l. }
  assert (Hhc : eeprom_have_conf e = true).
  { destruct (eeprom_have_conf e) eqn:Eh; [reflexivity|]. pose proof (Hl (mk_lora 0 0 0 0 0)) as X1. unfold eeprom_conf_load in X1. rewrite Eh in X1.
    destruct Hcf as [Hf _]. rewrite <- X1 in Hf. now destruct Hf. }
  rewrite Hhc. cbn [andb]. destruct (tnc_start_spec s4) as (T1 & T2 & T3). rewrite S3, S2 in T3. fold e in T3. rewrite Hl in T3.
  split; [reflexivity|]. rewrite T1, T2, S1. repeat split. apply (proj2 (T3 Hon)); auto.
  unfold auto_start. now rewrite S3.
Qed.
End Startup.

(** ** Witnesses *)

Definition put (a : Z) (bs : list Z) (e : image) : image :=
  foldl (fun e ib => <[a + Z.of_nat (fst ib) := snd ib]> e) e (combine (List.seq 0 (length bs)) bs).
(** A provisioned board with a stored firmware hash. *)
Definition sample_store : image := let _ := heltec32_v3 in
  let info := [PRODUCT_H32_V3; MODEL_C5; 1; 0; 0; 0; 7; 0; 0; 0; 0] in
  put (dev_fwhash_addr 0) (repeat 170 32) (put ADDR_CONF_RADIO_AUTO_START [RADIO_AUTO_START_ENABLE_BYTE]
    (put (eeprom_addr 0) info (put (eeprom_addr ADDR_CHKSUM) (make_hash info)
      (put (eeprom_addr ADDR_INFO_LOCK) [INFO_LOCK_BYTE] ∅)))).
Definition sample_lora : lora := mk_lora 8 5 17 125000 868000000.
Definition sample_prefs : prefs := (default_prefs f_zero f_zero) <| bt_ready := true |>.
Definition sample_conf : conf image := let _ := heltec32_v3 in
  eeprom_conf_save true true sample_lora (mk_conf sample_store sample_prefs []).
Definition sample_host : host_env :=
  mk_host_env false 0 0 0 0 false 0 f_zero f_zero f_zero [] (repeat 170 32) [] [] false [] [] [] false (fun _ _ _ => false) true.
Definition sample_start : start_env := mk_start_env 0 true true [1; 2; 3; 4; 5; 6] (fun bs => bs).
Definition sample_boot : startup (list call) image :=
  mk_startup ((dev_init (stopRadio (H0 := calls_modem) (online_modem 0xFF 0 0 [] [])) ∅) <| cf := sample_conf |> <| hw_ready := false |>)
    false false 0 false true 0 [].

Lemma startup_gate_witness :
  let '(o, s') := @validate_status heltec32_v3 _ calls_modem image image_eeprom sample_host sample_start sample_boot in
  o <> BootError /\ hw_ready (dv s') = true.
Proof.
  pose proof (@startup_gate heltec32_v3 _ calls_modem image image_eeprom sample_host sample_start (or_introl eq_refl) sample_boot
    eq_refl eq_refl eq_refl) as P.
  destruct (validate_status _ _ _) as [o s']. destruct P as (P1 & _ & _ & P3). split; [exact P3|].
  apply P1. vm_compute. reflexivity.
Defined.

Lemma tnc_restart_witness :
  let '(o, s') := @validate_status heltec32_v3 _ calls_modem image image_eeprom sample_host sample_start sample_boot in
  o = Booted /\ op_mode (dv s') = MODE_TNC /\ radio_online (mo (dv s')) = true.
Proof.
  pose proof (@tnc_restart heltec32_v3 _ calls_modem image image_eeprom sample_host sample_start (or_introl eq_refl) image_laws
    sample_lora (mk_conf sample_store sample_prefs []) sample_boot) as P.
  destruct (validate_status _ _ _) as [o s']. assert (Q : o = Booted /\ hw_ready (dv s') = true /\ op_mode (dv s') = MODE_TNC /\ radio_online (mo (dv s')) = true).
  { apply P; try (vm_compute; (discriminate || reflexivity)); try (vm_compute; split; (discriminate || reflexivity)).
    repeat split; vm_compute; discriminate. }
  destruct Q as (Q1 & _ & Q2 & Q3). auto.
Defined.
