(* ===== verification/Gnss.v ===== *)
(** * Power cycling of the GNSS receiver (GNSS.h)

    Boards that can switch their receiver off search for a fix, hold it for ten seconds
    and sleep for the rest of the update interval.  The NMEA parser is third-party code:
    whether it has a fix, how many sentences it accepted and the fields of a sentence are
    inputs of the steps.  [unsigned long] has 32 bits. *)
From S2P Require Import Prelude Float.

(** The pins a board has for its receiver. *)
(* @src Boards.h:2738-2745 GNSS_DUTY_CYCLE_CAPABLE *)
Class GnssBoard := { PIN_GPS_EN : bool; PIN_GPS_STANDBY : bool; GNSS_DUTY_CYCLE_CAPABLE : bool }.

(* @src GNSS.h:200-204 GNSS_DETECT_PROBING *)
Definition GNSS_DETECT_PROBING : Z := 0.
Definition GNSS_DETECT_PRESENT : Z := 1.
Definition GNSS_DETECT_ABSENT : Z := 2.
Definition GNSS_DETECT_ATTEMPT_MS : Z := 1000.
Definition GNSS_DETECT_MAX_ATTEMPTS : Z := 5.
(* @src GNSS.h:245-256 GNSS_PSTATE_ACTIVE *)
Definition GNSS_PSTATE_ACTIVE : Z := 0.
Definition GNSS_PSTATE_HOLD : Z := 1.
Definition GNSS_PSTATE_SLEEP : Z := 2.
Definition GNSS_UPDATE_INTERVAL_CONTINUOUS : Z := 0.
Definition GNSS_FIX_HOLD_MS : Z := 10000.
Definition GNSS_SEARCH_TIMEOUT_MS : Z := 90000.
Definition GNSS_SEARCH_TIMEOUT_BACKOFF_MS : Z := 45000.
Definition GNSS_INITIAL_FIX_TIMEOUT_MS : Z := 180000.
Definition GNSS_FAILED_SEARCH_RETRY_MS : Z := 5 * 60 * 1000.
Definition GNSS_LOCK_EWMA_WEIGHT : cfloat := f32_div (f32_of_Z 1) (f32_of_Z 5).
(* @src GNSS.h:299-299 GNSS_SOFTSLEEP_HARDSLEEP_CUTOVER_S *)
Definition GNSS_SOFTSLEEP_HARDSLEEP_CUTOVER_S : Z := 15 * 60.

(* @src GNSS.h:272-278 gnss_pstate *)
Record gnss := mk_gnss {
  gnss_enabled : bool; gnss_pstate : Z; gnss_pstate_entered_ms : Z; gnss_duty_wake_at_ms : Z;
  gnss_duty_predicted_lock_ms : Z; gnss_duty_lock_count : Z; gnss_duty_consecutive_failures : Z;
  gnss_detect_state : Z; gnss_detect_baseline_sentences : Z; gnss_detect_attempts : Z; gnss_detect_last_attempt_ms : Z;
  en_high : bool; standby_high : bool    (** the levels of the two pins *)
}.

Section Gnss.
Context `{GnssBoard}.
Implicit Types (g : gnss).

(* @src GNSS.h:301-309 gnss_duty_sleep_should_be_hard *)
Definition gnss_duty_sleep_should_be_hard (interval_s : Z) : bool :=
  if PIN_GPS_EN && PIN_GPS_STANDBY then GNSS_SOFTSLEEP_HARDSLEEP_CUTOVER_S <=? interval_s
  else PIN_GPS_EN.
(* @src GNSS.h:317-324 gnss_duty_pins_wake *)
Definition gnss_duty_pins_wake (g : gnss) : gnss :=
  let g := if PIN_GPS_EN then g <| en_high := false |> else g in
  if PIN_GPS_STANDBY then g <| standby_high := true |> else g.
(* @src GNSS.h:326-337 gnss_duty_pins_sleep *)
Definition gnss_duty_pins_sleep (interval_s : Z) (g : gnss) : gnss :=
  let hard := gnss_duty_sleep_should_be_hard interval_s in
  let g := if PIN_GPS_EN && hard then g <| en_high := true |> else g in
  if PIN_GPS_STANDBY && negb hard then g <| standby_high := false |> else g.

(* @src GNSS.h:217-222 gnss_detect_reset *)
Definition gnss_detect_reset (now passed : Z) (g : gnss) : gnss :=
  g <| gnss_detect_state := GNSS_DETECT_PROBING |> <| gnss_detect_baseline_sentences := passed |>
    <| gnss_detect_attempts := 0 |> <| gnss_detect_last_attempt_ms := now |>.
(* @src GNSS.h:344-350 gnss_duty_reset *)
Definition gnss_duty_reset (now : Z) (g : gnss) : gnss :=
  g <| gnss_pstate := GNSS_PSTATE_ACTIVE |> <| gnss_pstate_entered_ms := now |>
    <| gnss_duty_predicted_lock_ms := 0 |> <| gnss_duty_lock_count := 0 |> <| gnss_duty_consecutive_failures := 0 |>.
(* @src GNSS.h:363-387 gnss_set_enabled *)
Definition gnss_set_enabled (en : bool) (now passed : Z) (g : gnss) : gnss :=
  let g := g <| gnss_enabled := en |> in
  let g := if PIN_GPS_EN then g <| en_high := negb en |> else g in
  let g := if PIN_GPS_STANDBY then g <| standby_high := en |> else g in
  if en then gnss_duty_reset now (gnss_detect_reset now passed g) else g.

(* @src GNSS.h:434-447 gnss_duty_schedule_sleep *)
Definition gnss_duty_schedule_sleep (interval_s now : Z) (failed : bool) (g : gnss) : gnss :=
  let g := (gnss_duty_pins_sleep interval_s g) <| gnss_pstate := GNSS_PSTATE_SLEEP |> <| gnss_pstate_entered_ms := now |> in
  let interval_ms := u32 (interval_s * 1000) in
  let sleep_ms :=
    if failed then Z.min interval_ms GNSS_FAILED_SEARCH_RETRY_MS
    else if gnss_duty_predicted_lock_ms g <? interval_ms then interval_ms - gnss_duty_predicted_lock_ms g else 0 in
  g <| gnss_duty_wake_at_ms := u32 (now + sleep_ms) |>.

(** The smoothed time to a fix, in [float]. *)
(* @src GNSS.h:471-474 gnss_duty_cycle_update *)
Definition predict_lock (predicted lock_ms : Z) : Z :=
  if predicted =? 0 then lock_ms
  else u32 (f_trunc (f32_add (f32_mul (f32_sub (f32_of_Z 1) GNSS_LOCK_EWMA_WEIGHT) (f32_of_Z predicted))
                             (f32_mul GNSS_LOCK_EWMA_WEIGHT (f32_of_Z lock_ms)))).

(* @src GNSS.h:465-493 gnss_duty_cycle_update *)
Definition duty_active (interval_s now : Z) (has_fix : bool) (g : gnss) : gnss :=
  let awake_ms := u32 (now - gnss_pstate_entered_ms g) in
  if has_fix then
    let g := g <| gnss_duty_lock_count ::= fun n => u8 (n + 1) |> in
    let g := if 2 <=? gnss_duty_lock_count g
             then g <| gnss_duty_predicted_lock_ms ::= fun p => predict_lock p awake_ms |> else g in
    g <| gnss_duty_consecutive_failures := 0 |> <| gnss_pstate := GNSS_PSTATE_HOLD |> <| gnss_pstate_entered_ms := now |>
  else
    let timeout := if gnss_duty_lock_count g =? 0 then GNSS_INITIAL_FIX_TIMEOUT_MS
                   else if 0 <? gnss_duty_consecutive_failures g then GNSS_SEARCH_TIMEOUT_BACKOFF_MS else GNSS_SEARCH_TIMEOUT_MS in
    if timeout <=? awake_ms
    then gnss_duty_schedule_sleep interval_s now true (g <| gnss_duty_consecutive_failures ::= fun n => u8 (n + 1) |>)
    else g.

(* @src GNSS.h:457-506 gnss_duty_cycle_update *)
Definition gnss_duty_cycle_update (interval_s now : Z) (has_fix : bool) (g : gnss) : gnss :=
  if (interval_s =? GNSS_UPDATE_INTERVAL_CONTINUOUS) || negb GNSS_DUTY_CYCLE_CAPABLE then
    (if negb (gnss_pstate g =? GNSS_PSTATE_ACTIVE) then gnss_duty_pins_wake g else g) <| gnss_pstate := GNSS_PSTATE_ACTIVE |>
  else if gnss_pstate g =? GNSS_PSTATE_ACTIVE then duty_active interval_s now has_fix g
  else if gnss_pstate g =? GNSS_PSTATE_HOLD then
    if GNSS_FIX_HOLD_MS <=? u32 (now - gnss_pstate_entered_ms g) then gnss_duty_schedule_sleep interval_s now false g else g
  else if 0 <=? i32 (now - gnss_duty_wake_at_ms g) then
    (gnss_duty_pins_wake g) <| gnss_pstate := GNSS_PSTATE_ACTIVE |> <| gnss_pstate_entered_ms := now |>
  else g.

(** What [gnss_update] sees: the interval set, the clock, and of the parser whether it
    has a position and how many sentences passed their checksum. *)
Record gnss_input := mk_gnss_input { gi_interval_s : Z; gi_now : Z; gi_has_fix : bool; gi_passed : Z }.

(* @src GNSS.h:734-745 gnss_update *)
Definition gnss_detect_step (i : gnss_input) (g : gnss) : gnss :=
  if gnss_enabled g && (gnss_detect_state g =? GNSS_DETECT_PROBING) then
    if gnss_detect_baseline_sentences g <? gi_passed i then g <| gnss_detect_state := GNSS_DETECT_PRESENT |>
    else if GNSS_DETECT_ATTEMPT_MS <=? u32 (gi_now i - gnss_detect_last_attempt_ms g) then
      let g := g <| gnss_detect_last_attempt_ms := gi_now i |> <| gnss_detect_attempts ::= fun n => u8 (n + 1) |> in
      if GNSS_DETECT_MAX_ATTEMPTS <=? gnss_detect_attempts g then g <| gnss_detect_state := GNSS_DETECT_ABSENT |> else g
    else g
  else g.
(** The satellite view and the system clock are separate. *)
(* @src GNSS.h:713-747 gnss_update *)
Definition gnss_update (i : gnss_input) (g : gnss) : gnss :=
  let g := gnss_detect_step i g in
  if gnss_enabled g then gnss_duty_cycle_update (gi_interval_s i) (gi_now i) (gi_has_fix i) g else g.

(* @src GNSS.h:694-698 gnss_duty_wake_countdown_s *)
Definition gnss_duty_wake_countdown_s (now : Z) (g : gnss) : Z :=
  if negb (gnss_pstate g =? GNSS_PSTATE_SLEEP) then 0
  else let remain_ms := i32 (gnss_duty_wake_at_ms g - now) in if 0 <? remain_ms then remain_ms / 1000 else 0.
End Gnss.

(** ** The satellites in view *)

(* @src GNSS.h:569-574 gnss_sat_view_t *)
Record gnss_sat_view_t := mk_sat { prn : Z; elevation_deg : Z; azimuth_deg : Z; snr_db : Z }.
(* @src GNSS.h:548-548 GNSS_SAT_VIEW_MAX *)
Definition GNSS_SAT_VIEW_MAX : nat := 16.

(** The fields of a GPGSV sentence as [atoi] reads them; an empty slot is [None]. *)
Record gsv := mk_gsv { gsv_msg : Z; gsv_total : Z; gsv_slots : list (option gnss_sat_view_t) }.
(** The counts are the lengths. *)
(* @src GNSS.h:576-579 gnss_sat_view_staging *)
Record sat_view := mk_sat_view { staging : list gnss_sat_view_t; committed : list gnss_sat_view_t }.

Definition sat_bytes (s : gnss_sat_view_t) : gnss_sat_view_t :=
  mk_sat (u8 (prn s)) (u8 (elevation_deg s)) (u16 (azimuth_deg s)) (u8 (snr_db s)).
(* @src GNSS.h:599-607 gnss_gsv_update *)
Definition stage (st : list gnss_sat_view_t) (slot : option gnss_sat_view_t) : list gnss_sat_view_t :=
  if (length st <? GNSS_SAT_VIEW_MAX)%nat then match slot with Some s => st ++ [sat_bytes s] | None => st end else st.
(* @src GNSS.h:591-613 gnss_gsv_update *)
Definition gnss_gsv_update (updated : option gsv) (v : sat_view) : sat_view :=
  match updated with
  | None => v
  | Some m =>
      let msg_num := u8 (gsv_msg m) in
      let total_msgs := u8 (gsv_total m) in
      if (msg_num =? 0) || (total_msgs =? 0) then v
      else
        let v := if msg_num =? 1 then v <| staging := [] |> else v in
        let v := v <| staging ::= fun st => foldl stage st (take 4 (gsv_slots m)) |> in
        if msg_num =? total_msgs then v <| committed := staging v |> else v
  end.
(** One [gnss_update]: it reads all the bytes there are and looks at the fields once,
    so of several sentences only the last is seen. *)
(* @src GNSS.h:714-732 gnss_update *)
Definition gnss_update_view (sentences : list gsv) (v : sat_view) : sat_view := gnss_gsv_update (sentences !! (length sentences - 1)%nat) v.

(** ** Theorems *)

Section GnssTheorems.
Context `{GnssBoard}.

(** Every pin the board has lets the receiver run; some pin it has stops it. *)
Definition powered (g : gnss) : Prop := (PIN_GPS_EN = true -> en_high g = false) /\ (PIN_GPS_STANDBY = true -> standby_high g = true).
Definition stopped (g : gnss) : Prop := PIN_GPS_EN = true /\ en_high g = true \/ PIN_GPS_STANDBY = true /\ standby_high g = false.

(** What happens to the receiver: it is switched on or off, or [loop()] polls it. *)
Inductive gnss_op := SetEnabled (en : bool) (now passed : Z) | Update (i : gnss_input).
Definition gnss_step (g : gnss) (op : gnss_op) : gnss :=
  match op with SetEnabled en now passed => gnss_set_enabled en now passed g | Update i => gnss_update i g end.

Definition power_ok (g : gnss) : Prop :=
  if gnss_enabled g then
    (gnss_pstate g = GNSS_PSTATE_ACTIVE \/ gnss_pstate g = GNSS_PSTATE_HOLD \/ gnss_pstate g = GNSS_PSTATE_SLEEP) /\
    (if gnss_pstate g =? GNSS_PSTATE_SLEEP then GNSS_DUTY_CYCLE_CAPABLE = true -> stopped g else powered g)
  else PIN_GPS_EN = true \/ PIN_GPS_STANDBY = true -> stopped g.

Lemma pins_sleep s g : (PIN_GPS_EN = true \/ PIN_GPS_STANDBY = true) -> stopped (gnss_duty_pins_sleep s g) /\
  gnss_enabled (gnss_duty_pins_sleep s g) = gnss_enabled g.
Proof.
  intros Hp. unfold stopped, gnss_duty_pins_sleep, gnss_duty_sleep_should_be_hard.
  destruct PIN_GPS_EN, PIN_GPS_STANDBY, (_ <=? s), g; cbn; intuition congruence.
Qed.
Lemma pins_wake g : powered (gnss_duty_pins_wake g) /\ gnss_enabled (gnss_duty_pins_wake g) = gnss_enabled g.
Proof. unfold powered, gnss_duty_pins_wake. destruct PIN_GPS_EN, PIN_GPS_STANDBY, g; cbn; intuition congruence. Qed.
(** Only the two levels matter. *)
Lemma power_ext g g' : en_high g' = en_high g -> standby_high g' = standby_high g -> (powered g -> powered g') /\ (stopped g -> stopped g').
Proof. unfold powered, stopped. intros -> ->. auto. Qed.

Lemma detect_keeps i g : let g' := gnss_detect_step i g in gnss_enabled g' = gnss_enabled g /\ gnss_pstate g' = gnss_pstate g /\
  en_high g' = en_high g /\ standby_high g' = standby_high g.
Proof. unfold gnss_detect_step. destruct g; cbn. repeat (case_match; cbn); auto. Qed.

Lemma schedule_power s now failed g : (PIN_GPS_EN = true \/ PIN_GPS_STANDBY = true) ->
  let g' := gnss_duty_schedule_sleep s now failed g in
  stopped g' /\ gnss_enabled g' = gnss_enabled g /\ gnss_pstate g' = GNSS_PSTATE_SLEEP.
Proof.
  intros Hp. cbv zeta. unfold gnss_duty_schedule_sleep. destruct (pins_sleep s g Hp) as [P E]. revert P E.
  generalize (gnss_duty_pins_sleep s g) as h. intros [] P <-. repeat split. exact P.
Qed.

Definition capable_has_pin : Prop := GNSS_DUTY_CYCLE_CAPABLE = true -> PIN_GPS_EN = true \/ PIN_GPS_STANDBY = true.

Lemma active_power s now fix_ g : gnss_pstate g = GNSS_PSTATE_ACTIVE -> (PIN_GPS_EN = true \/ PIN_GPS_STANDBY = true) -> powered g ->
  let g' := duty_active s now fix_ g in gnss_enabled g' = gnss_enabled g /\
  ((gnss_pstate g' = GNSS_PSTATE_ACTIVE \/ gnss_pstate g' = GNSS_PSTATE_HOLD) /\ powered g' \/ gnss_pstate g' = GNSS_PSTATE_SLEEP /\ stopped g').
Proof.
  intros Hs Hp Hg. unfold duty_active. destruct fix_.
  - destruct g; cbn in *. destruct (2 <=? _); cbn; split; auto.
  - destruct (_ <=? u32 _); [|auto].
    destruct (schedule_power s now true (g <| gnss_duty_consecutive_failures ::= fun n => u8 (n + 1) |>) Hp) as (P1 & P2 & P3).
    split; [rewrite P2; now destruct g|auto].
Qed.

Lemma update_power i g : capable_has_pin -> gnss_enabled g = true -> power_ok g ->
  let g' := gnss_duty_cycle_update (gi_interval_s i) (gi_now i) (gi_has_fix i) g in power_ok g' /\ gnss_enabled g' = true.
Proof.
  intros Hcap He. unfold power_ok at 1. rewrite He. intros [Hst Hg]. cbv zeta. unfold gnss_duty_cycle_update.
  destruct (_ || negb GNSS_DUTY_CYCLE_CAPABLE) eqn:Hc.
  - destruct (Z.eqb_spec (gnss_pstate g) GNSS_PSTATE_ACTIVE) as [Ha|Ha]; cbn [negb].
    + rewrite Ha in Hg. unfold power_ok. destruct g; cbn in *. rewrite He. cbn. auto.
    + destruct (pins_wake g) as [P1 P2]. revert P1 P2. generalize (gnss_duty_pins_wake g) as h. intros [] P1 P2. cbn in P2. unfold power_ok. cbn. rewrite P2, He. auto.
  - apply orb_false_iff in Hc as [_ Hc%negb_false_iff]. specialize (Hcap Hc).
    destruct (Z.eqb_spec (gnss_pstate g) GNSS_PSTATE_ACTIVE) as [Ha|Ha].
    { rewrite Ha in Hg. destruct (active_power (gi_interval_s i) (gi_now i) (gi_has_fix i) g Ha Hcap Hg) as [E1 E2].
      split; [|congruence]. unfold power_ok. rewrite E1, He. destruct E2 as [[[E2|E2] P]|[E2 P]]; rewrite E2; cbn; auto. }
    destruct (Z.eqb_spec (gnss_pstate g) GNSS_PSTATE_HOLD) as [Hh|Hh].
    + destruct (_ <=? u32 _); [|split; [unfold power_ok; rewrite He; auto|exact He]].
      destruct (schedule_power (gi_interval_s i) (gi_now i) false g Hcap) as (P1 & P2 & P3).
      split; [|congruence]. unfold power_ok. rewrite P2, He, P3. cbn. auto.
    + destruct (0 <=? _); [|split; [unfold power_ok; rewrite He; auto|exact He]].
      destruct (pins_wake g) as [P1 P2]. revert P1 P2. generalize (gnss_duty_pins_wake g) as h. intros [] P1 P2. cbn in P2. unfold power_ok. cbn. rewrite P2, He. auto.
Qed.

(** The pins follow the state: whatever is switched and polled, a receiver that is
    enabled is powered while it searches or holds and stopped while it sleeps, and one
    that is disabled is stopped, on every board that has a pin to do it (a board marked
    capable has one). *)
Theorem receiver_power_follows_state (ops : list gnss_op) (g : gnss) :
  capable_has_pin -> power_ok g -> power_ok (foldl gnss_step g ops).
Proof.
  intros Hcap. revert g. induction ops as [|op ops IH]; intros g Hg; [exact Hg|]. cbn [foldl]. apply IH. clear IH.
  destruct op as [en now passed|i]; cbn [gnss_step].
  - unfold power_ok, powered, stopped, gnss_set_enabled. destruct en, PIN_GPS_EN, PIN_GPS_STANDBY, g; cbn; intuition congruence.
  - unfold gnss_update. destruct (detect_keeps i g) as (D1 & D2 & D3 & D4). revert D1 D2 D3 D4.
    generalize (gnss_detect_step i g) as h. intros h D1 D2 D3 D4. destruct (power_ext g h D3 D4) as [Pp Ps].
    assert (Hh : power_ok h).
    { unfold power_ok in *. rewrite D1, D2. destruct (gnss_enabled g); [|auto]. destruct Hg as [Hst Hg]. split; [exact Hst|].
      destruct (_ =? _); auto. }
    destruct (gnss_enabled h) eqn:He; [|exact Hh]. now apply update_power.
Qed.

(** Every search ends: polled 180 seconds into a search without a fix, the receiver goes
    to sleep, and it is due again after the interval or five minutes, whichever is less;
    polled when it is due, it searches again. *)
Theorem search_and_sleep_bounded s now g : GNSS_DUTY_CYCLE_CAPABLE = true -> 0 < s <= 3600 -> 0 <= now < 2 ^ 32 ->
  (gnss_pstate g = GNSS_PSTATE_ACTIVE -> 180000 <= u32 (now - gnss_pstate_entered_ms g) ->
    let g' := gnss_duty_cycle_update s now false g in
    gnss_pstate g' = GNSS_PSTATE_SLEEP /\ gnss_duty_wake_at_ms g' = u32 (now + Z.min (s * 1000) 300000)) /\
  (gnss_pstate g = GNSS_PSTATE_SLEEP -> u32 (now - gnss_duty_wake_at_ms g) < 2 ^ 31 ->
    gnss_pstate (gnss_duty_cycle_update s now false g) = GNSS_PSTATE_ACTIVE).
Proof.
  intros Hc Hs Hn. unfold gnss_duty_cycle_update. rewrite Hc, (proj2 (Z.eqb_neq s _)) by (unfold GNSS_UPDATE_INTERVAL_CONTINUOUS; lia).
  cbn [orb negb]. split.
  - intros Ha Ht. rewrite Ha, Z.eqb_refl. unfold duty_active.
    assert (Hto : forall a b : bool, (if a then GNSS_INITIAL_FIX_TIMEOUT_MS else if b then GNSS_SEARCH_TIMEOUT_BACKOFF_MS else GNSS_SEARCH_TIMEOUT_MS) <= 180000)
      by (intros [] []; vm_compute; discriminate).
    rewrite (proj2 (Z.leb_le _ _)) by (eapply Z.le_trans; [apply Hto|exact Ht]).
    unfold gnss_duty_schedule_sleep. rewrite (u32_id (s * 1000)) by lia.
    generalize (gnss_duty_pins_sleep s (g <| gnss_duty_consecutive_failures ::= fun n => u8 (n + 1) |>)) as h. intros []. split; reflexivity.
  - intros Ha Hd. rewrite Ha. change (GNSS_PSTATE_SLEEP =? GNSS_PSTATE_ACTIVE) with false. change (GNSS_PSTATE_SLEEP =? GNSS_PSTATE_HOLD) with false. cbn iota.
    assert (Hi : 0 <= i32 (now - gnss_duty_wake_at_ms g)).
    { unfold wrap, swrap in *. change (2 ^ (32 - 1)) with (2 ^ 31). set (x := now - gnss_duty_wake_at_ms g) in *.
      rewrite (Z.div_mod x (2 ^ 32)) by lia. rewrite <- Z.add_assoc, Z.mul_comm, Z.add_comm, Z.mod_add by lia.
      pose proof (Z.mod_pos_bound x (2 ^ 32) ltac:(lia)). rewrite Z.mod_small by lia. lia. }
    rewrite (proj2 (Z.leb_le _ _) Hi). generalize (gnss_duty_pins_wake g) as h. now intros [].
Qed.

(** The parser's position stays valid for ever once there was one, so after the first
    fix a wake is never a search: the next poll takes the old position for a fix and
    the time to it, close to zero, as the time the receiver needs. *)
Theorem stale_fix_ends_search s t0 t1 g : GNSS_DUTY_CYCLE_CAPABLE = true -> 0 < s -> gnss_pstate g = GNSS_PSTATE_SLEEP ->
  0 <= i32 (t0 - gnss_duty_wake_at_ms g) ->
  let g1 := gnss_duty_cycle_update s t0 true g in let g2 := gnss_duty_cycle_update s t1 true g1 in
  gnss_pstate g1 = GNSS_PSTATE_ACTIVE /\ gnss_pstate g2 = GNSS_PSTATE_HOLD /\ gnss_duty_consecutive_failures g2 = 0 /\
  (1 <= gnss_duty_lock_count g < 255 -> gnss_duty_predicted_lock_ms g2 = predict_lock (gnss_duty_predicted_lock_ms g) (u32 (t1 - t0))).
Proof.
  intros Hc Hs Ha Hd. cbv zeta.
  assert (Hw : exists g1, gnss_duty_cycle_update s t0 true g = g1 /\ gnss_pstate g1 = GNSS_PSTATE_ACTIVE /\ gnss_pstate_entered_ms g1 = t0 /\
    gnss_duty_lock_count g1 = gnss_duty_lock_count g /\ gnss_duty_predicted_lock_ms g1 = gnss_duty_predicted_lock_ms g).
  { eexists. split; [reflexivity|]. unfold gnss_duty_cycle_update. rewrite Hc, (proj2 (Z.eqb_neq s _)) by (unfold GNSS_UPDATE_INTERVAL_CONTINUOUS; lia).
    rewrite Ha, (proj2 (Z.leb_le _ _) Hd). unfold gnss_duty_pins_wake. destruct PIN_GPS_EN, PIN_GPS_STANDBY, g; repeat split. }
  destruct Hw as (g1 & -> & A1 & A2 & A3 & A4). split; [exact A1|].
  unfold gnss_duty_cycle_update. rewrite Hc, (proj2 (Z.eqb_neq s _)) by (unfold GNSS_UPDATE_INTERVAL_CONTINUOUS; lia).
  cbn [orb negb]. rewrite A1, Z.eqb_refl. unfold duty_active. rewrite A2. rewrite <- A3, <- A4. destruct g1. cbn in *.
  destruct (Z.leb_spec 2 (u8 (gnss_duty_lock_count0 + 1))) as [Hl|Hl]; cbn; repeat split; auto.
  intros Hr. rewrite u8_id in Hl by (unfold is_u8; lia). lia.
Qed.
End GnssTheorems.

(** A receiver with both pins (the Heltec32 v4), switched off. *)
Definition demo_gnss_board : GnssBoard := {| PIN_GPS_EN := true; PIN_GPS_STANDBY := true; GNSS_DUTY_CYCLE_CAPABLE := true |}.
Definition demo_gnss : gnss := mk_gnss false 0 0 0 0 0 0 0 0 0 0 true false.

(** ** The satellites in view *)

Definition sats (m : gsv) : list gnss_sat_view_t := map sat_bytes (omap id (take 4 (gsv_slots m))).

(** Taking what still fits is taking from the whole. *)
Lemma app_take_cap {A} n (st l : list A) : take n st ++ take (n - min n (length st)) l = take n (st ++ l).
Proof. rewrite take_app. f_equal. f_equal. lia. Qed.
Lemma length_omap_le {A B} (f : A -> option B) (l : list A) : (length (omap f l) <= length l)%nat.
Proof. induction l as [|x l IH]; cbn [omap list_omap length]; [lia|]. destruct (f x); cbn [length]; lia. Qed.

Lemma stage_all slots : forall st, foldl stage st slots = st ++ take (GNSS_SAT_VIEW_MAX - length st) (map sat_bytes (omap id slots)).
Proof.
  induction slots as [|[x|] slots IH]; intros st; cbn [foldl omap list_omap].
  - cbn. now rewrite take_nil, app_nil_r.
  - cbn [id map]. rewrite IH. unfold stage. destruct (Nat.ltb_spec (length st) GNSS_SAT_VIEW_MAX) as [Hl|Hl].
    + rewrite length_app. cbn [length]. rewrite <- app_assoc. cbn [app].
      replace (GNSS_SAT_VIEW_MAX - length st)%nat with (S (GNSS_SAT_VIEW_MAX - (length st + 1))) by lia. reflexivity.
    + replace (GNSS_SAT_VIEW_MAX - length st)%nat with 0%nat by lia. reflexivity.
  - cbn [id]. rewrite IH. unfold stage. now destruct (_ <? _)%nat.
Qed.

(** The messages [k..n] of a round of [n]. *)
Fixpoint round_from (k n : Z) (ms : list gsv) : Prop :=
  match ms with
  | [] => k = n + 1
  | m :: ms => gsv_msg m = k /\ gsv_total m = n /\ round_from (k + 1) n ms
  end.
Definition see (v : sat_view) (ms : list gsv) : sat_view := foldl (fun v m => gnss_gsv_update (Some m) v) v ms.

(** One sentence of a round, its first apart. *)
Lemma gsv_step m v k n : gsv_msg m = k -> gsv_total m = n -> 1 <= k <= n -> n <= 255 ->
  let st := foldl stage (if k =? 1 then [] else staging v) (take 4 (gsv_slots m)) in
  gnss_gsv_update (Some m) v = mk_sat_view st (if k =? n then st else committed v).
Proof.
  intros Hm Ht Hk Hn. unfold gnss_gsv_update. rewrite Hm, Ht, !u8_id by (unfold is_u8; lia).
  rewrite !(proj2 (Z.eqb_neq _ 0)) by lia. cbn [orb]. destruct v as [sg cm], (k =? 1), (k =? n); reflexivity.
Qed.

Lemma round_le n ms : forall k, round_from k n ms -> k <= n + 1.
Proof. induction ms as [|m ms IH]; intros k Hr; cbn in Hr; [lia|]. destruct Hr as (_ & _ & Hr%IH). lia. Qed.

Lemma see_tail n ms : forall k st v, 2 <= k -> n <= 255 -> round_from k n ms -> ms <> [] -> staging v = take GNSS_SAT_VIEW_MAX st ->
  committed (see v ms) = take GNSS_SAT_VIEW_MAX (st ++ concat (map sats ms)).
Proof.
  induction ms as [|m ms IH]; intros k st v Hk Hn Hr Hne Hv; [congruence|].
  destruct Hr as (Hm & Ht & Hr). unfold see. cbn [foldl map concat]. pose proof (round_le _ _ _ Hr) as Hkn.
  rewrite (gsv_step m v k n Hm Ht) by lia. rewrite (proj2 (Z.eqb_neq k 1)) by lia.
  rewrite stage_all, Hv. fold (sats m). rewrite length_take, app_take_cap.
  destruct ms as [|m' ms].
  - cbn in Hr. rewrite (proj2 (Z.eqb_eq k n)) by lia. cbn [foldl map concat committed]. now rewrite app_nil_r.
  - fold (see (mk_sat_view (take GNSS_SAT_VIEW_MAX (st ++ sats m)) (if k =? n then take GNSS_SAT_VIEW_MAX (st ++ sats m) else committed v)) (m' :: ms)).
    rewrite (IH (k + 1) (st ++ sats m)); [now rewrite <- app_assoc|lia|exact Hn|exact Hr|discriminate|reflexivity].
Qed.

(** A round seen sentence by sentence is the view: its first sixteen satellites, in
    order, whatever was staged before. *)
Theorem round_is_committed n ms v : n <= 255 -> ms <> [] -> round_from 1 n ms ->
  committed (see v ms) = take GNSS_SAT_VIEW_MAX (concat (map sats ms)).
Proof.
  intros Hn Hne Hr. destruct ms as [|m ms]; [congruence|]. destruct Hr as (Hm & Ht & Hr).
  unfold see. cbn [foldl map concat]. pose proof (round_le _ _ _ Hr) as Hkn.
  rewrite (gsv_step m v 1 n Hm Ht) by lia. change (1 =? 1) with true. cbn iota. rewrite stage_all. cbn [app length].
  fold (sats m). rewrite Nat.sub_0_r. revert Hr. set (cm := if 1 =? n then _ else _). intros Hr. destruct ms as [|m' ms].
  - cbn in Hr. cbn [foldl map concat committed]. subst cm. now rewrite (proj2 (Z.eqb_eq 1 n)), app_nil_r by lia.
  - fold (see (mk_sat_view (take GNSS_SAT_VIEW_MAX (sats m)) cm) (m' :: ms)). rewrite (see_tail n (m' :: ms) (1 + 1) (sats m)); auto with lia.
Qed.

(** But [gnss_update] looks once for all the sentences it has read: a round of two that
    arrives in one poll leaves of a fresh view the satellites of its second sentence. *)
Theorem batched_round_loses_sentences m1 m2 : round_from 1 2 [m1; m2] ->
  committed (gnss_update_view [m1; m2] (mk_sat_view [] [])) = sats m2.
Proof.
  intros (Hm1 & Ht1 & Hm2 & Ht2 & _). unfold gnss_update_view. cbn [length Nat.sub lookup list_lookup].
  rewrite (gsv_step m2 _ 2 2) by (rewrite ?Hm2, ?Ht2; lia). change (2 =? 1) with false. cbn [Z.eqb Pos.eqb committed staging].
  rewrite stage_all. cbn [app length]. fold (sats m2). apply take_ge. unfold sats, GNSS_SAT_VIEW_MAX.
  rewrite length_map. etransitivity; [apply length_omap_le|]. rewrite length_take. lia.
Qed.

Lemma receiver_power_follows_state_witness : @power_ok demo_gnss_board
  (foldl (@gnss_step demo_gnss_board) demo_gnss
    [SetEnabled true 0 0; Update (mk_gnss_input 3600 180000 false 0); Update (mk_gnss_input 3600 480000 false 0)]).
Proof. apply (@receiver_power_follows_state demo_gnss_board); [intros _; left; reflexivity|intros _; left; split; reflexivity]. Defined.
