(* ===== verification/Controls.v ===== *)
(** * The button and the rotary encoder (Input.h, Encoder.h, RNode_Firmware.ino, Menu.h)

    The debouncing of the two push-buttons, the quadrature decoder, what the release of
    the main button does for each length of the hold and what the screen announces while
    it is held, and the taps that drive an open menu.  Levels are booleans ([LOW] is
    [false]); the buttons pull to ground.  Everything in one call happens at one reading
    of the clock.  What the screens do with a step or a press is a call in the log. *)
From S2P Require Import Prelude Rom Boards Eeprom.

(** ** Debouncing *)

(* @src Input.h:21-22 PRESSED *)
Definition PRESSED : bool := false.
Definition RELEASED : bool := true.

(* @src Input.h:33-36 button_state, debounce_state, button_debounce_last *)
Record debouncer := mk_debouncer { button_state : bool; debounce_state : bool; button_debounce_last : Z }.
Definition button_debounce_delay : Z := 25.

(** The new state, and whether it changed. *)
(* @src Input.h:56-66 input_read *)
Definition debounce (now : Z) (reading : bool) (d : debouncer) : debouncer * bool :=
  let d := if negb (Bool.eqb reading (debounce_state d))
           then d <| button_debounce_last := now |> <| debounce_state := reading |> else d in
  if (button_debounce_delay <? u32 (now - button_debounce_last d)) && negb (Bool.eqb reading (button_state d))
  then (d <| button_state := reading |>, true) else (d, false).

(* @src Input.h:24-28 EVENT_ALL *)
Definition EVENT_ALL : Z := 0x00.
Definition EVENT_CLICKS : Z := 0x01.
Definition EVENT_BUTTON_DOWN : Z := 0x11.
Definition EVENT_BUTTON_UP : Z := 0x12.
Definition EVENT_BUTTON_CLICK : Z := 0x13.

(* @src Input.h:32-38 button_events *)
Record input := mk_input { deb : debouncer; button_events : Z; button_down_last : Z; button_up_last : Z }.
Definition input0 : input := mk_input (mk_debouncer RELEASED RELEASED 0) EVENT_CLICKS 0 0.

(** The event passed to [button_event], if any. *)
(* @src Input.h:55-85 input_read *)
Definition input_read (now : Z) (reading : bool) (s : input) : input * option (Z * Z) :=
  let previous_state := button_state (deb s) in
  let '(d, changed) := debounce now reading (deb s) in
  let s := s <| deb := d |> in
  if negb changed then (s, None)
  else if button_events s =? EVENT_ALL then
    (s, Some (if Bool.eqb (button_state d) PRESSED then EVENT_BUTTON_DOWN else EVENT_BUTTON_UP, 0))
  else if button_events s =? EVENT_CLICKS then
    if Bool.eqb previous_state PRESSED && Bool.eqb (button_state d) RELEASED then
      (s <| button_up_last := now |>, Some (EVENT_BUTTON_CLICK, u32 (now - button_down_last s)))
    else if Bool.eqb previous_state RELEASED && Bool.eqb (button_state d) PRESSED then
      (s <| button_down_last := now |>, None)
    else (s, None)
  else (s, None).
(* @src Input.h:87-93 button_pressed *)
Definition button_pressed (s : input) : bool := Bool.eqb (button_state (deb s)) PRESSED.

(** *** What debouncing means

    A history of polls, the latest first: the level counts once it has been read
    unchanged for more than 25 ms. *)
Definition poll : Type := Z * bool.
Fixpoint run_start (r : bool) (since : Z) (h : list poll) : Z :=
  match h with
  | (t, r') :: h => if Bool.eqb r' r then run_start r t h else since
  | [] => if Bool.eqb r RELEASED then 0 else since
  end.
Fixpoint settled (h : list poll) : bool :=
  match h with
  | (t, r) :: h => if button_debounce_delay <? t - run_start r t h then r else settled h
  | [] => RELEASED
  end.
Definition debounced (polls : list poll) : debouncer :=
  foldl (fun d '(t, r) => fst (debounce t r d)) (mk_debouncer RELEASED RELEASED 0) polls.

(** Clock readings that do not run backwards, before the counter wraps. *)
Fixpoint clocked (h : list poll) : Prop :=
  match h with
  | (t, _) :: h => 0 <= t < 2 ^ 32 /\ (forall t', In t' (map fst h) -> t' <= t) /\ clocked h
  | [] => True
  end.

Lemma run_start_bounds r h : forall since, 0 <= since -> clocked h -> (forall t, In t (map fst h) -> t <= since) ->
  0 <= run_start r since h <= since.
Proof.
  induction h as [|[t r'] h IH]; intros since Hs Hc Hle; cbn [run_start].
  - destruct (Bool.eqb r RELEASED); lia.
  - destruct Hc as (Ht & Hi & Hc). assert (t <= since) by (apply Hle; now left).
    destruct (Bool.eqb r' r); [|lia]. specialize (IH t ltac:(lia) Hc Hi). lia.
Qed.

(** What the three variables hold. *)
Lemma debounced_spec polls : clocked (rev polls) ->
  let d := debounced polls in
  button_state d = settled (rev polls) /\ debounce_state d = match rev polls with (_, r) :: _ => r | [] => RELEASED end /\
  button_debounce_last d = match rev polls with (t, r) :: h => run_start r t h | [] => 0 end.
Proof.
  induction polls as [|[t r] polls IH] using rev_ind; [intros _; now repeat split|].
  rewrite rev_unit. intros (Ht & Hle & Hc). unfold debounced. rewrite foldl_snoc. fold (debounced polls).
  destruct (IH Hc) as (I1 & I2 & I3). clear IH. destruct (debounced polls) as [bs ds bl]. cbn in I1, I2, I3.
  assert (Hrun : (if negb (Bool.eqb r ds) then t else bl) = run_start r t (rev polls)).
  { subst ds bl. destruct (rev polls) as [|[t' r'] h]; cbn [run_start]; [now destruct r|]. now destruct r, r'. }
  pose proof (run_start_bounds r (rev polls) t ltac:(lia) Hc Hle) as Hb.
  unfold debounce. cbn [debounce_state settled].
  replace (if negb (Bool.eqb r ds) then _ else _) with (mk_debouncer bs r (run_start r t (rev polls)))
    by (rewrite <- Hrun; destruct (Bool.eqb r ds) eqn:Hn; cbn; [apply eqb_prop in Hn|]; now subst).
  cbn [button_state button_debounce_last]. rewrite u32_id by lia. rewrite <- I1.
  destruct (_ <? _); cbn [andb]; [|now repeat split]. destruct (Bool.eqb r bs) eqn:Hbs; cbn; repeat split.
  now apply eqb_prop in Hbs.
Qed.

(** Debouncing is exact: polled at any sequence of times, the button counts as
    pressed exactly when the latest level that was read unchanged for more than 25 ms is
    the pressed one, so no bounce shorter than that is ever seen and no stable press is
    missed. *)
Theorem debounce_exact (polls : list poll) : clocked (rev polls) -> button_state (debounced polls) = settled (rev polls).
Proof. intros Hc. apply (debounced_spec polls Hc). Qed.

Lemma debounce_exact_witness :
  clocked (rev [(10, PRESSED); (20, RELEASED); (30, PRESSED); (50, PRESSED); (60, PRESSED); (70, RELEASED); (80, PRESSED)]) /\
  button_state (debounced [(10, PRESSED); (20, RELEASED); (30, PRESSED); (50, PRESSED); (60, PRESSED); (70, RELEASED); (80, PRESSED)]) = PRESSED.
Proof.
  match goal with |- ?P /\ _ => assert (Hc : P) by (cbn; repeat split; intuition lia) end.
  split; [exact Hc|]. rewrite (debounce_exact _ Hc). reflexivity.
Defined.

(** ** The rotary encoder *)

(* @src Encoder.h:22-22 ENCODER_STEPS_PER_DETENT *)
Definition ENCODER_STEPS_PER_DETENT : Z := 4.
(* @src Encoder.h:73-78 ENCODER_TABLE *)
Definition ENCODER_TABLE : list Z :=
  [0; -1; 1; 0;
   1; 0; 0; -1;
   -1; 0; 0; 1;
   0; 1; -1; 0].
(* @src Encoder.h:80-82 encoder_prev_ab *)
Record quadrature := mk_quadrature { encoder_prev_ab : Z; encoder_quarter : Z; encoder_delta : Z }.

(* @src Encoder.h:101-112 encoder_isr *)
Definition encoder_isr (curr_ab : Z) (q : quadrature) : quadrature :=
  let step := nth (Z.to_nat (Z.lor (Z.shiftl (encoder_prev_ab q) 2) curr_ab)) ENCODER_TABLE 0 in
  let q := q <| encoder_prev_ab := curr_ab |> in
  if negb (step =? 0) then
    let q := q <| encoder_quarter ::= fun n => i8 (n + step) |> in
    let q := if ENCODER_STEPS_PER_DETENT <=? encoder_quarter q then q <| encoder_delta := 1 |> <| encoder_quarter := 0 |> else q in
    if encoder_quarter q <=? - ENCODER_STEPS_PER_DETENT then q <| encoder_delta := -1 |> <| encoder_quarter := 0 |> else q
  else q.
(** The step the main loop takes, under the same lock as the interrupt. *)
(* @src Encoder.h:143-147 encoder_process *)
Definition encoder_take (q : quadrature) : quadrature * Z := (q <| encoder_delta := 0 |>, encoder_delta q).

(** The shaft: the two contacts at a position, a quarter of a detent apart. *)
Definition contacts (p : Z) : Z := nth (Z.to_nat (p mod 4)) [0; 2; 3; 1] 0.
(** The interrupts of a movement from position to position, with the detents they report. *)
Fixpoint turn (q : quadrature) (ps : list Z) : quadrature * Z :=
  match ps with
  | [] => (q, 0)
  | p :: ps => let '(q, d) := encoder_take (encoder_isr (contacts p) q) in let '(q, ds) := turn q ps in (q, d + ds)
  end.
Fixpoint moves (p : Z) (ps : list Z) : Prop :=
  match ps with [] => True | p' :: ps => Z.abs (p' - p) <= 1 /\ moves p' ps end.

Lemma contacts_step p s : Z.abs s <= 1 ->
  nth (Z.to_nat (Z.lor (Z.shiftl (contacts p) 2) (contacts (p + s)))) ENCODER_TABLE 0 = s.
Proof.
  intros Hs. unfold contacts. rewrite <- Z.add_mod_idemp_l by lia. pose proof (Z.mod_pos_bound p 4 ltac:(lia)) as Hm. revert Hm.
  generalize (p mod 4) as m. intros m Hm.
  assert (m = 0 \/ m = 1 \/ m = 2 \/ m = 3) as [-> | [-> | [-> | ->]]] by lia;
    assert (s = -1 \/ s = 0 \/ s = 1) as [-> | [-> | ->]] by lia; reflexivity.
Qed.

Ltac quarter :=
  repeat match goal with |- context [?a <=? ?b] => destruct (Z.leb_spec a b); [exfalso; unfold ENCODER_STEPS_PER_DETENT in *; lia|]; cbn end;
  repeat split; lia.
(** One interrupt: the position it adds is what the counter and the reported detent add. *)
Lemma isr_counts p s q : Z.abs s <= 1 -> encoder_prev_ab q = contacts p -> -4 < encoder_quarter q < 4 -> encoder_delta q = 0 ->
  let '(q', d) := encoder_take (encoder_isr (contacts (p + s)) q) in
  encoder_prev_ab q' = contacts (p + s) /\ -4 < encoder_quarter q' < 4 /\ encoder_delta q' = 0 /\
  4 * d + encoder_quarter q' = encoder_quarter q + s.
Proof.
  intros Hs Hp Hq Hd. unfold encoder_isr. rewrite Hp, contacts_step by exact Hs.
  destruct q as [ab n dl]. cbn in Hp, Hq, Hd. subst ab dl.
  assert (s = 0 \/ s = 1 \/ s = -1) as [-> | [-> | ->]] by lia.
  - cbn. repeat split; lia.
  - assert (n = 3 \/ n < 3) as [-> | Hn] by lia; [repeat split; vm_compute; intuition congruence|]. cbn. change ENCODER_STEPS_PER_DETENT with 4.
    rewrite (i8_id (n + 1)) by lia. quarter.
  - assert (n = -3 \/ -3 < n) as [-> | Hn] by lia; [repeat split; vm_compute; intuition congruence|]. cbn. change ENCODER_STEPS_PER_DETENT with 4.
    rewrite (i8_id (n + -1)) by lia. quarter.
Qed.

Lemma turn_spec ps : forall p q, moves p ps -> encoder_prev_ab q = contacts p -> -4 < encoder_quarter q < 4 -> encoder_delta q = 0 ->
  let '(q', d) := turn q ps in -4 < encoder_quarter q' < 4 /\ 4 * d + encoder_quarter q' = encoder_quarter q + (List.last ps p - p).
Proof.
  induction ps as [|p' ps IH]; intros p q Hm Hp Hq Hd; cbn [turn].
  - cbn [List.last]. lia.
  - destruct Hm as [Hs Hm]. pose proof (isr_counts p (p' - p) q Hs Hp Hq Hd) as H1.
    replace (p + (p' - p)) with p' in H1 by lia.
    destruct (encoder_take (encoder_isr (contacts p') q)) as [q1 d1]. destruct H1 as (P1 & Q1 & D1 & C1).
    specialize (IH p' q1 Hm P1 Q1 D1). destruct (turn q1 ps) as [q2 d2]. destruct IH as [Q2 C2].
    split; [exact Q2|]. replace (List.last (p' :: ps) p) with (List.last ps p'); [lia|].
    destruct ps as [|x ps]; [reflexivity|]. cbn [List.last]. fold (List.last (x :: ps) p). clear. revert x.
    induction ps as [|y ps IH]; intros x; [reflexivity|]. apply (IH y).
Qed.

(** The decoder counts: however the shaft moves to and fro, quarter by quarter, the
    detents reported add up to its displacement, short of a whole detent; contact bounce
    between two neighbouring positions reports nothing that it does not take back. *)
Theorem encoder_counts (p : Z) (ps : list Z) : moves p ps ->
  let '(q, d) := turn (mk_quadrature (contacts p) 0 0) ps in
  -4 < encoder_quarter q < 4 /\ 4 * d + encoder_quarter q = List.last ps p - p.
Proof. intros Hm. apply (turn_spec ps p (mk_quadrature (contacts p) 0 0) Hm); cbn; lia. Qed.

Lemma encoder_counts_witness : moves 7 [8; 9; 8; 9; 10; 11; 12; 11] /\
  snd (turn (mk_quadrature (contacts 7) 0 0) [8; 9; 8; 9; 10; 11; 12; 11]) = 1.
Proof.
  assert (Hm : moves 7 [8; 9; 8; 9; 10; 11; 12; 11]) by (cbn; lia). split; [exact Hm|].
  pose proof (encoder_counts _ _ Hm) as Hc. destruct (turn _ _) as [q d]. cbn in Hc |- *. lia.
Defined.

(** Two detents between two turns of the main loop are one step, and the two directions
    one after the other are the last. *)
Theorem fast_turn_loses_steps : let go ps := snd (encoder_take (foldl (fun q p => encoder_isr (contacts p) q) (mk_quadrature 0 0 0) ps)) in
  go [1; 2; 3; 4; 5; 6; 7; 8] = 1 /\ go [1; 2; 3; 4; 3; 2; 1; 0] = -1.
Proof. split; reflexivity. Qed.

(** ** The calls the controls make *)

(* @src Menu.h:260-260 MENU_STATE_CLOSED *)
Definition MENU_STATE_CLOSED : Z := 0.
(* @src Menu.h:280-280 MENU_STATE_STATUS_POPUP *)
Definition MENU_STATE_STATUS_POPUP : Z := 17.
(* @src Menu.h:304-304 MENU_STATE_MSNGR_TEXT_ENTRY *)
Definition MENU_STATE_MSNGR_TEXT_ENTRY : Z := 41.

Inductive action :=
| VaultRotate (dir : Z) | VaultEncoderButton (ms : Z) | VaultButton (ms : Z)
| MenuRotate (dir : Z) (wrap : bool) | MenuChord (dir : Z) | MenuEncoderButton (ms : Z) | MenuButton (ms : Z) | MenuConfirm (ms : Z)
| KeyboardHold (held_ms : Z) | KeyboardPress | KeyboardRelease | HoldTick | Click | Unblank
| BtStop | BtStart | BtPairing | BtConf (on : bool) | MaskDio0 | UnmaskDio0
| ConsoleStart | SleepNow | OpenSettings | OpenMessenger | HoldBox (tier : Z).

(** What the handlers look at. *)
Record ui := mk_ui {
  vault_unlock_active : bool; vault_suppress_next_release : bool; encoder_enabled : bool; menu_state : Z;
  display_blanked : bool; device_init_done : bool; ui_bt_state : Z; console_active : bool
}.
(* @src Menu.h:4171-4173 menu_is_open *)
Definition menu_is_open (u : ui) : bool := negb (menu_state u =? MENU_STATE_CLOSED).

(* @src Boards.h:278-278 HAS_SLEEP *)
Class ControlBuild := { HAS_CONSOLE : bool; HAS_SLEEP : bool; HAS_MENU : bool; HAS_LXMF : bool; HAS_URNS : bool }.

Section Controls.
Context `{Board} `{ControlBuild}.

(** The [msngr_kb_*] flags and hold functions belong to the keyboard. *)
(* @src Encoder.h:117-129 enc_btn_state *)
Record encoder := mk_encoder { quad : quadrature; enc_btn : debouncer; enc_btn_down_last : Z; enc_btn_hold_beeped : bool }.
(* @src Encoder.h:24-24 ENC_PRESSED *)
Definition enc_pressed (e : encoder) : bool := Bool.eqb (button_state (enc_btn e)) PRESSED.

(* @src Encoder.h:166-170 encoder_process *)
Definition rotation (d : Z) (u : ui) (e : encoder) : list action :=
  if negb (d =? 0) && (encoder_enabled u || vault_unlock_active u) then
    if vault_unlock_active u then [VaultRotate d]
    else if enc_pressed e then [MenuChord d]
    else [MenuRotate d false]
  else [].
(* @src Encoder.h:172-197 encoder_process *)
Definition press (now : Z) (reading : bool) (u : ui) (e : encoder) : encoder * ui * list action :=
  let '(d, changed) := debounce now reading (enc_btn e) in
  let e := e <| enc_btn := d |> in
  if negb changed then (e, u, [])
  else if enc_pressed e then (e <| enc_btn_down_last := now |> <| enc_btn_hold_beeped := false |>, u, [KeyboardPress])
  else if encoder_enabled u || vault_unlock_active u then
    let held := u32 (now - enc_btn_down_last e) in
    if vault_unlock_active u then (e, u, [VaultEncoderButton held])
    else if vault_suppress_next_release u then (e, u <| vault_suppress_next_release := false |>, [])
    else (e, u, [MenuEncoderButton held])
  else (e, u, []).
(* @src Encoder.h:205-222 encoder_process *)
Definition hold_beep (now : Z) (u : ui) (e : encoder) : encoder * list action :=
  let hold_beep_threshold := if menu_state u =? MENU_STATE_MSNGR_TEXT_ENTRY then 3000 else 700 in
  if encoder_enabled u && enc_pressed e && negb (enc_btn_hold_beeped e) && negb (menu_state u =? MENU_STATE_STATUS_POPUP) &&
     negb (vault_unlock_active u) && negb (vault_suppress_next_release u) && (hold_beep_threshold <? u32 (now - enc_btn_down_last e))
  then (e <| enc_btn_hold_beeped := true |>, [HoldTick]) else (e, []).
(** The menu's answers to the calls are not in [u]; the calls follow one another. *)
(* @src Encoder.h:142-243 encoder_process *)
Definition encoder_process (now : Z) (reading : bool) (u : ui) (e : encoder) : encoder * ui * list action :=
  let '(q, d) := encoder_take (quad e) in
  let e := e <| quad := q |> in
  let r := rotation d u e in
  let '(e, u, p) := press now reading u e in
  let '(e, b) := hold_beep now u e in
  let k := if encoder_enabled u && enc_pressed e then [KeyboardHold (u32 (now - enc_btn_down_last e))] else [KeyboardRelease] in
  (e, u, r ++ p ++ b ++ k).

(** *** Holding the main button *)

(* @src Config.h:85-85 SLEEP_HOLD_CANCEL_MS *)
Definition SLEEP_HOLD_CANCEL_MS : Z := 2000.

(* @src RNode_Firmware.ino:3782-3811 button_event *)
Definition short_press (u : ui) : list action :=
  if (HAS_BLUETOOTH || HAS_BLE) && negb (ui_bt_state u =? BT_STATE_CONNECTED) then
    let mask a := if MODEM =? SX1262 then [MaskDio0] ++ a ++ [UnmaskDio0] else a in
    mask (if ui_bt_state u =? BT_STATE_OFF then [BtStart; BtConf true] else [BtStop; BtConf false])
  else [].
(* @src RNode_Firmware.ino:3748-3764 button_event *)
Definition pairing_press (u : ui) : list action :=
  if negb (ui_bt_state u =? BT_STATE_CONNECTED)
  then if MODEM =? SX1262 then [MaskDio0; BtPairing; UnmaskDio0] else [BtPairing] else [].
(* @src RNode_Firmware.ino:3725-3812 button_event *)
Definition button_tiers (duration : Z) (u : ui) : ui * list action :=
  if HAS_CONSOLE && (10000 <? duration) then
    (u <| console_active := true |>, (if HAS_BLUETOOTH || HAS_BLE then [BtStop] else []) ++ [ConsoleStart])
  else if HAS_SLEEP && (7000 <? duration) then (u, if duration <=? 7000 + SLEEP_HOLD_CANCEL_MS then [SleepNow] else [])
  else if (HAS_BLUETOOTH || HAS_BLE) && (5000 <? duration) then (u, pairing_press u)
  else if HAS_MENU && (3000 <? duration) then (u, [OpenSettings])
  else if HAS_LXMF && (1500 <? duration) then (u, [OpenMessenger])
  else (u, short_press u).
(* @src RNode_Firmware.ino:3661-3815 button_event *)
Definition button_event (event duration : Z) (u : ui) : ui * list action :=
  if HAS_URNS && vault_unlock_active u then (u, if event =? EVENT_BUTTON_CLICK then [VaultButton duration] else [])
  else
    let suppressed := HAS_URNS && vault_suppress_next_release u in
    let u := if suppressed then u <| vault_suppress_next_release := false |> else u in
    if suppressed && (event =? EVENT_BUTTON_CLICK) then (u, [])
    else if display_blanked u then (u, [Unblank])
    else if HAS_MENU && menu_is_open u then (u, [MenuButton duration])
    else if device_init_done u then button_tiers duration u
    else (u, []).

(* @src Menu.h:2015-2020 BUTTON_HOLD_TIER_NONE *)
Definition BUTTON_HOLD_TIER_NONE : Z := 0.
Definition BUTTON_HOLD_TIER_SLEEP : Z := 1.
Definition BUTTON_HOLD_TIER_SETTINGS : Z := 2.
Definition BUTTON_HOLD_TIER_BT_PAIRING : Z := 3.
Definition BUTTON_HOLD_TIER_CONSOLE : Z := 4.
Definition BUTTON_HOLD_TIER_MESSENGER : Z := 5.
(* @src Menu.h:2024-2054 button_hold_tier *)
Definition button_hold_tier (held_ms : Z) : Z :=
  if HAS_CONSOLE && (10000 <? held_ms) then BUTTON_HOLD_TIER_CONSOLE
  else if HAS_SLEEP && (7000 <? held_ms) then
    if held_ms <=? 7000 + SLEEP_HOLD_CANCEL_MS then BUTTON_HOLD_TIER_SLEEP else BUTTON_HOLD_TIER_NONE
  else if (HAS_BLUETOOTH || HAS_BLE) && (5000 <? held_ms) then BUTTON_HOLD_TIER_BT_PAIRING
  else if 3000 <? held_ms then BUTTON_HOLD_TIER_SETTINGS
  else if HAS_LXMF && (1500 <? held_ms) then BUTTON_HOLD_TIER_MESSENGER
  else BUTTON_HOLD_TIER_NONE.
(** The tier last announced, and what is drawn. *)
(* @src Menu.h:2082-2113 draw_button_hold_overlay *)
Definition draw_button_hold_overlay (now : Z) (u : ui) (s : input) (button_hold_beeped_tier : Z) : Z * list action :=
  if menu_is_open u || negb (button_pressed s) then (BUTTON_HOLD_TIER_NONE, [])
  else
    let tier := button_hold_tier (u32 (now - button_down_last s)) in
    if negb (tier =? BUTTON_HOLD_TIER_NONE)
    then (tier, (if negb (tier =? button_hold_beeped_tier) then [HoldTick] else []) ++ [HoldBox tier])
    else (BUTTON_HOLD_TIER_NONE, []).

(** *** Taps in an open menu *)

(* @src Menu.h:1816-1818 MENU_BTN_DOUBLE_TAP_WINDOW *)
Definition MENU_BTN_DOUBLE_TAP_WINDOW : Z := 300.
Record taps := mk_taps { menu_btn_pending : bool; menu_btn_last_click : Z }.
(* @src Menu.h:2238-2238 MENU_POPUP_DISMISS_MIN_MS *)
Definition MENU_POPUP_DISMISS_MIN_MS : Z := 50.

(** A popup closes to the state it was opened over. *)
(* @src Menu.h:8591-8634 menu_button_press *)
Definition menu_button_press (now duration menu_popup_return_state : Z) (hold_beeped : bool) (u : ui) (s : taps) : ui * taps * list action :=
  if menu_state u =? MENU_STATE_STATUS_POPUP then
    if MENU_POPUP_DISMISS_MIN_MS <=? duration
    then (u <| menu_state := menu_popup_return_state |>, s <| menu_btn_pending := false |>, [Unblank; Click]) else (u, s, [Unblank])
  else if duration <? 200 then
    if menu_btn_pending s && (u32 (now - menu_btn_last_click s) <=? MENU_BTN_DOUBLE_TAP_WINDOW)
    then (u, s <| menu_btn_pending := false |>, [Unblank; MenuRotate (-1) true])
    else (u, s <| menu_btn_pending := true |> <| menu_btn_last_click := now |>, [Unblank])
  else if 500 <=? duration then
    (u, s <| menu_btn_pending := false |>,
     [Unblank] ++ (if menu_is_open u && negb hold_beeped then [Click] else []) ++ [MenuConfirm duration])
  else (u, s, [Unblank]).
(* @src Menu.h:8639-8662 menu_button_process *)
Definition menu_button_process (now : Z) (i : input) (s : taps) : taps * list action :=
  let '(s, a) :=
    if menu_btn_pending s && (MENU_BTN_DOUBLE_TAP_WINDOW <? u32 (now - menu_btn_last_click s))
    then (s <| menu_btn_pending := false |>, [MenuRotate 1 true]) else (s, []) in
  (s, a ++ if button_pressed i then [KeyboardHold (u32 (now - button_down_last i))] else [KeyboardRelease]).
End Controls.

(** ** Theorems *)

Section ControlsTheorems.
Context `{Board} `{ControlBuild}.

(** What the box on the screen promises of a release. *)
Definition promised (tier duration : Z) (u : ui) : list action :=
  if tier =? BUTTON_HOLD_TIER_CONSOLE then (if HAS_BLUETOOTH || HAS_BLE then [BtStop] else []) ++ [ConsoleStart]
  else if tier =? BUTTON_HOLD_TIER_SLEEP then [SleepNow]
  else if tier =? BUTTON_HOLD_TIER_BT_PAIRING then pairing_press u
  else if tier =? BUTTON_HOLD_TIER_SETTINGS then [OpenSettings]
  else if tier =? BUTTON_HOLD_TIER_MESSENGER then [OpenMessenger]
  else if HAS_SLEEP && (7000 <? duration) then [] else short_press u.

(** The box tells the truth: on every build with a menu, for every length of a hold
    with the menu closed, the box drawn at that moment names what the release then does,
    where no box means the short press, or nothing once a hold for sleep has been
    overdone. *)
Theorem hold_box_is_release (duration : Z) (u : ui) :
  HAS_MENU = true -> vault_unlock_active u = false -> vault_suppress_next_release u = false ->
  display_blanked u = false -> menu_is_open u = false -> device_init_done u = true ->
  snd (button_event EVENT_BUTTON_CLICK duration u) = promised (button_hold_tier duration) duration u.
Proof.
  intros Hm Hv Hs Hb Ho Hi. unfold button_event. rewrite Hv, Hs, !andb_false_r, Hb, Ho, Hi, andb_false_r. cbn [andb].
  unfold button_tiers, button_hold_tier, promised. rewrite Hm. cbn [andb].
  destruct (HAS_CONSOLE && _); [reflexivity|]. destruct (HAS_SLEEP && _); [now destruct (duration <=? _)|].
  destruct ((HAS_BLUETOOTH || HAS_BLE) && (_ <? _)); [reflexivity|]. destruct (3000 <? duration); [reflexivity|].
  now destruct (HAS_LXMF && _).
Qed.

(** While the screen that asks for the PIN is up, no press and no step reaches anything
    else. *)
Theorem vault_owns_controls event duration now reading u e : HAS_URNS = true -> vault_unlock_active u = true ->
  Forall (fun a => match a with VaultButton _ | VaultRotate _ | VaultEncoderButton _ | KeyboardHold _ | KeyboardPress | KeyboardRelease => True | _ => False end)
    (snd (button_event event duration u) ++ snd (encoder_process now reading u e)).
Proof.
  intros Hu Hv. unfold button_event, encoder_process, rotation, press, hold_beep. rewrite Hu, Hv. cbn [andb].
  destruct (encoder_take (quad e)) as [q d], (debounce now reading _) as [db c].
  rewrite !orb_true_r. apply Forall_app. split; [destruct (event =? _); repeat constructor|].
  destruct (negb (d =? 0) && true); destruct c; cbn [negb]; try destruct (enc_pressed _) eqn:Hp; cbn;
    rewrite ?Hv, ?andb_false_r; cbn; destruct (_ && enc_pressed _); repeat constructor.
Qed.

(** The release that follows an unlock by a hold is swallowed, once.  If the unlocking
    hold was the encoder's and the encoder is off in the settings, its release does not
    clear the mark, and the next click of the main button is swallowed instead. *)
Theorem unlock_swallows_next_click (now duration : Z) (reading : bool) u e : HAS_URNS = true ->
  vault_unlock_active u = false -> vault_suppress_next_release u = true -> encoder_enabled u = false ->
  let '(_, u', a) := encoder_process now reading u e in
  u' = u /\ Forall (fun x => x = KeyboardPress \/ x = KeyboardRelease) a /\ snd (button_event EVENT_BUTTON_CLICK duration u') = [].
Proof.
  intros Hu Hv Hs He.
  assert (Hb : snd (button_event EVENT_BUTTON_CLICK duration u) = []) by (unfold button_event; now rewrite Hu, Hv, Hs).
  unfold encoder_process, rotation, press, hold_beep. rewrite He, Hv. cbn [orb].
  destruct (encoder_take (quad e)) as [q d], (debounce now reading _) as [db c].
  destruct (negb (d =? 0) && false) eqn:Hf; [now rewrite andb_false_r in Hf|].
  destruct c; cbn [negb]; [destruct (enc_pressed _)|]; cbn; rewrite ?He; cbn; repeat split; auto.
Qed.

(** *** Taps *)

(** One turn of the main loop: a tap whose release is seen in it, then the deferred step. *)
Definition tap_turn (i : input) (u : ui) (s : taps) (turn : Z * bool) : taps * list action :=
  let '(now, tap) := turn in
  let '(_, s, a) := if (tap : bool) then menu_button_press now 100 0 false u s else (u, s, []) in
  let '(s, b) := menu_button_process now i s in (s, a ++ b).
Fixpoint tap_turns (i : input) (u : ui) (s : taps) (turns : list (Z * bool)) : taps * list action :=
  match turns with
  | [] => (s, [])
  | t :: turns => let '(s, a) := tap_turn i u s t in let '(s, b) := tap_turns i u s turns in (s, a ++ b)
  end.
Definition steps (wanted : Z) (a : list action) : Z :=
  Z.of_nat (length (List.filter (fun x => match x with MenuRotate d true => d =? wanted | _ => false end) a)).
(** No tap arrives while an earlier one is overdue. *)
Fixpoint prompt (i : input) (u : ui) (s : taps) (turns : list (Z * bool)) : Prop :=
  match turns with
  | [] => True
  | (now, tap) :: turns => (tap = true -> menu_btn_pending s = true -> u32 (now - menu_btn_last_click s) <= MENU_BTN_DOUBLE_TAP_WINDOW) /\
      prompt i u (fst (tap_turn i u s (now, tap))) turns
  end.
Definition waiting (s : taps) : Z := if menu_btn_pending s then 1 else 0.

Lemma steps_app w a b : steps w (a ++ b) = steps w a + steps w b.
Proof. unfold steps. rewrite filter_app, length_app. lia. Qed.

Lemma tap_turn_counts i u s now tap : menu_state u <> MENU_STATE_STATUS_POPUP ->
  (tap = true -> menu_btn_pending s = true -> u32 (now - menu_btn_last_click s) <= MENU_BTN_DOUBLE_TAP_WINDOW) ->
  let '(s', a) := tap_turn i u s (now, tap) in
  waiting s' + steps 1 a + 2 * steps (-1) a = waiting s + (if tap : bool then 1 else 0).
Proof.
  intros Hu Hp. unfold tap_turn, menu_button_press, menu_button_process. rewrite (proj2 (Z.eqb_neq _ _) Hu).
  change (100 <? 200) with true. destruct s as [p l]. cbn [menu_btn_pending menu_btn_last_click] in *.
  destruct tap, p; cbn [andb].
  - rewrite (proj2 (Z.leb_le _ _) (Hp eq_refl eq_refl)). cbn. destruct (button_pressed i); reflexivity.
  - cbn. rewrite Z.sub_diag. cbn. destruct (button_pressed i); reflexivity.
  - destruct (_ <? _); cbn; destruct (button_pressed i); reflexivity.
  - cbn. destruct (button_pressed i); reflexivity.
Qed.

(** No tap is lost: every one is a step forward, half of a step back, or still waiting
    for a second, as long as none arrives while an earlier one is overdue. *)
Theorem taps_conserved i u turns : forall s, menu_state u <> MENU_STATE_STATUS_POPUP -> prompt i u s turns ->
  let '(s', a) := tap_turns i u s turns in
  waiting s' + steps 1 a + 2 * steps (-1) a = waiting s + Z.of_nat (length (List.filter snd turns)).
Proof.
  induction turns as [|[now tap] turns IH]; intros s Hu Hp; cbn [tap_turns].
  - unfold steps. cbn. lia.
  - destruct Hp as [Hp Hps]. pose proof (tap_turn_counts i u s now tap Hu Hp) as Ht.
    destruct (tap_turn i u s (now, tap)) as [s1 a1]. cbn [fst] in Hps. specialize (IH s1 Hu Hps).
    destruct (tap_turns i u s1 turns) as [s2 a2]. rewrite !steps_app. cbn [List.filter snd]. destruct tap; cbn [length]; lia.
Qed.
(** The main loop reads the button before it takes the deferred step, so a second tap
    seen in the turn in which the first falls due replaces it: two taps, one step. *)
Theorem overdue_tap_is_lost i u : menu_state u <> MENU_STATE_STATUS_POPUP ->
  let '(s, a) := tap_turns i u (mk_taps false 0) [(1000, true); (1300, false); (1301, true); (1602, false)] in
  waiting s = 0 /\ steps 1 a = 1 /\ steps (-1) a = 0.
Proof.
  intros Hu. unfold tap_turns, tap_turn, menu_button_press, menu_button_process. rewrite (proj2 (Z.eqb_neq _ _) Hu).
  destruct (button_pressed i); vm_compute; auto.
Qed.
End ControlsTheorems.

(** A board with every control and the short press free. *)
Definition demo_controls : ControlBuild := {| HAS_CONSOLE := true; HAS_SLEEP := true; HAS_MENU := true; HAS_LXMF := true; HAS_URNS := true |}.
Definition demo_ui : ui := mk_ui false false true MENU_STATE_CLOSED false true BT_STATE_OFF false.
Lemma hold_box_is_release_witness : map (fun d => snd (@button_event heltec32_v3 demo_controls EVENT_BUTTON_CLICK d demo_ui)) [2000; 8000; 9500] =
  [[OpenMessenger]; [SleepNow]; []].
Proof. cbn [map]. rewrite !(@hold_box_is_release heltec32_v3 demo_controls) by reflexivity. reflexivity. Defined.
