(* ===== verification/HidKeyboard.v ===== *)
(** * A Bluetooth keyboard (BLEKeyboardHost.h, Menu.h)

    The reports of the keyboard name the keys that are down; what is typed are the keys that
    were not down in the report before.  The characters go through a ring from the task that
    gets the reports to the main loop. *)
From Stdlib Require Import String.
From S2P Require Import Prelude Boards Rom Float Kiss Md5 Eeprom Settings Framing Transport.
From stdpp Require Import list.
#[local] Open Scope Z_scope.

(** ** Constants *)

(* @src BLEKeyboardHost.h:401-417 BLEKBD_CH_UP *)
Definition BLEKBD_CH_UP : Z := 0x12.
Definition BLEKBD_CH_DOWN : Z := 0x11.
Definition BLEKBD_CH_LEFT : Z := 0x16.
Definition BLEKBD_CH_RIGHT : Z := 0x17.
Definition BLEKBD_CH_HOME : Z := 0x18.
Definition BLEKBD_CH_END : Z := 0x19.
Definition BLEKBD_CH_PAGE_UP : Z := 0x1A.
Definition BLEKBD_CH_PAGE_DOWN : Z := 0x1C.
Definition BLEKBD_CH_BRIGHTNESS_UP : Z := 0x1D.
Definition BLEKBD_CH_BRIGHTNESS_DOWN : Z := 0x1E.
Definition BLEKBD_CH_SOUND_ENABLE : Z := 0x1F.
Definition BLEKBD_CH_SOUND_DISABLE : Z := 0x0F.
Definition BLEKBD_CH_TOGGLE_MARQUEE : Z := 0x10.
Definition BLEKBD_CH_OPEN_DIALOG_MODE : Z := 0x01.
Definition BLEKBD_CH_OPEN_MESSENGER : Z := 0x13.
Definition BLEKBD_CH_OPEN_SETTINGS : Z := 0x14.
Definition BLEKBD_CH_TOGGLE_LANG : Z := 0x15.
(* @src BLEKeyboardHost.h:342-355 BLEKBD_HID_USAGE_ESC *)
Definition BLEKBD_HID_USAGE_ESC : Z := 0x29.
Definition BLEKBD_HID_USAGE_BACKSPACE : Z := 0x2A.
Definition BLEKBD_HID_USAGE_UP : Z := 0x52.
Definition BLEKBD_HID_USAGE_DOWN : Z := 0x51.
Definition BLEKBD_HID_USAGE_LEFT : Z := 0x50.
Definition BLEKBD_HID_USAGE_RIGHT : Z := 0x4F.
Definition BLEKBD_HID_USAGE_HOME : Z := 0x4A.
Definition BLEKBD_HID_USAGE_PAGE_UP : Z := 0x4B.
Definition BLEKBD_HID_USAGE_END : Z := 0x4D.
Definition BLEKBD_HID_USAGE_PAGE_DOWN : Z := 0x4E.
Definition BLEKBD_HID_USAGE_TAB : Z := 0x2B.
Definition BLEKBD_HID_USAGE_CAPS_LOCK : Z := 0x39.
Definition BLEKBD_HID_USAGE_A : Z := 0x04.
Definition BLEKBD_HID_USAGE_F2 : Z := 0x3B.
(* @src BLEKeyboardHost.h:387-390 BLEKBD_HID_MOD_SHIFT *)
Definition BLEKBD_HID_MOD_SHIFT : Z := 0x22.
Definition BLEKBD_HID_MOD_CTRL : Z := 0x11.
Definition BLEKBD_HID_MOD_ALT : Z := 0x44.
Definition BLEKBD_HID_MOD_GUI : Z := 0x88.
(* @src BLEKeyboardHost.h:459-460 BLEKBD_KEY_REPEAT_START_MS *)
Definition BLEKBD_KEY_REPEAT_START_MS : Z := 500.
Definition BLEKBD_KEY_REPEAT_INTERVAL_MS : Z := 120.
(* @src BLEKeyboardHost.h:483-483 BLEKBD_KEY_QUEUE_LEN *)
Definition BLEKBD_KEY_QUEUE_LEN : Z := 16.

(** The characters of the keys, plain and with Shift, in both layouts; a [char] is kept as
    its byte. *)
(* @src BLEKeyboardHost.h:222-222 BLEKBD_HID_KEYMAP_LEN *)
Definition BLEKBD_HID_KEYMAP_LEN : Z := 0x39.
(* @src BLEKeyboardHost.h:223-234 BLEKBD_HID_KEYMAP *)
Definition BLEKBD_HID_KEYMAP : list Z :=
  [0; 0; 0; 0;
   97; 98; 99; 100; 101; 102; 103; 104; 105; 106; 107; 108; 109;
   110; 111; 112; 113; 114; 115; 116; 117; 118; 119; 120; 121; 122;
   49; 50; 51; 52; 53; 54; 55; 56; 57; 48;
   10; 0; 8; 0; 32;
   45; 61; 91; 93; 92; 0; 59; 39; 96; 44; 46; 47].
(* @src BLEKeyboardHost.h:235-246 BLEKBD_HID_KEYMAP_SHIFT *)
Definition BLEKBD_HID_KEYMAP_SHIFT : list Z :=
  [0; 0; 0; 0;
   65; 66; 67; 68; 69; 70; 71; 72; 73; 74; 75; 76; 77;
   78; 79; 80; 81; 82; 83; 84; 85; 86; 87; 88; 89; 90;
   33; 64; 35; 36; 37; 94; 38; 42; 40; 41;
   10; 0; 8; 0; 32;
   95; 43; 123; 125; 124; 0; 58; 34; 126; 60; 62; 63].
(* @src BLEKeyboardHost.h:288-309 BLEKBD_HID_KEYMAP_RU *)
Definition BLEKBD_HID_KEYMAP_RU : list Z :=
  [0; 0; 0; 0;
   182; 170; 179; 164; 181; 162; 177; 178; 186; 176; 173; 166; 190;
   180; 187; 169; 171; 172; 189; 167; 165; 174; 184; 185; 175; 193;
   49; 50; 51; 52; 53; 54; 55; 56; 57; 48;
   10; 0; 8; 0; 32;
   45; 61; 183; 188; 92; 0; 168; 191; 128; 163; 192; 46].
(* @src BLEKeyboardHost.h:310-340 BLEKBD_HID_KEYMAP_RU_SHIFT *)
Definition BLEKBD_HID_KEYMAP_RU_SHIFT : list Z :=
  [0; 0; 0; 0;
   149; 137; 146; 131; 148; 129; 144; 145; 153; 143; 140; 133; 157;
   147; 154; 136; 138; 139; 156; 134; 132; 141; 151; 152; 142; 160;
   33; 34; 35; 59; 37; 58; 63; 42; 40; 41;
   10; 0; 8; 0; 32;
   45; 61; 150; 155; 92; 0; 135; 158; 128; 130; 159; 44].

(** ** State *)

(** The media keys that are down. *)
(* @src BLEKeyboardHost.h:437-442 blekbd_cc_brightness_up_active *)
Record media := mk_media {
  brightness_up : bool; brightness_down : bool; ac_home : bool; volume_up : bool; volume_down : bool; play_pause : bool
}.
(* @src BLEKeyboardHost.h:424-486 blekbd_prev_keys, blekbd_held_active, blekbd_key_queue *)
Record hid := mk_hid {
  blekbd_key_queue : blefifo;
  blekbd_lang_ru : bool; blekbd_caps_lock : bool; blekbd_caps_led_dirty : bool;
  blekbd_prev_keys : list Z; blekbd_prev_modifier : Z; cc : media;
  blekbd_held_active : bool; blekbd_held_keycode : Z; blekbd_held_char : Z; blekbd_held_press_ms : Z; blekbd_held_last_repeat_ms : Z
}.
Definition hid0 (ru : bool) : hid :=
  mk_hid (mk_blefifo (repeat 0 16) 0 0) ru false false (repeat 0 6) 0 (mk_media false false false false false false) false 0 0 0 0.
Implicit Types (s : hid) (f : blefifo).

(** ** The queue *)

(** A character that finds the queue full is dropped. *)
(* @src BLEKeyboardHost.h:488-493 blekbd_key_queue_push *)
Definition queue_push (ch : Z) f : blefifo :=
  let next := u8 ((bf_head f + 1) mod BLEKBD_KEY_QUEUE_LEN) in
  if next =? bf_tail f then f
  else f <| bf_buffer := zset (bf_buffer f) (bf_head f) ch |> <| bf_head := next |>.
Definition blekbd_key_queue_push (ch : Z) s : hid := s <| blekbd_key_queue ::= queue_push ch |>.
(** The main loop takes everything out; the queue's length bounds the turns. *)
(* @src BLEKeyboardHost.h:1060-1064 blekbd_loop *)
Fixpoint drain_keys (fuel : nat) f : list Z * blefifo :=
  match fuel with
  | O => ([], f)
  | S fuel =>
      if bf_tail f =? bf_head f then ([], f)
      else
        let ch := zget 0 (bf_buffer f) (bf_tail f) in
        let '(l, f) := drain_keys fuel (f <| bf_tail := u8 ((bf_tail f + 1) mod BLEKBD_KEY_QUEUE_LEN) |>) in
        (ch :: l, f)
  end.
Definition take_keys s : list Z * hid := let '(l, f) := drain_keys 16 (blekbd_key_queue s) in (l, s <| blekbd_key_queue := f |>).

(** ** Reports *)

Definition has (modifier mask : Z) : bool := negb (Z.land modifier mask =? 0).
Definition hold (kc ch now : Z) s : hid :=
  s <| blekbd_held_active := true |> <| blekbd_held_keycode := kc |> <| blekbd_held_char := ch |> <| blekbd_held_press_ms := now |>
    <| blekbd_held_last_repeat_ms := 0 |>.
(* @src BLEKeyboardHost.h:592-596 blekbd_translate_report *)
Definition layout (lang_ru caps_lock : bool) (modifier kc : Z) : Z :=
  let shift := has modifier BLEKBD_HID_MOD_SHIFT in
  let is_letter := (0x04 <=? kc) && (kc <=? 0x1D) in
  let effective_shift := if is_letter then negb (Bool.eqb shift caps_lock) else shift in
  zget 0 (if lang_ru then (if effective_shift then BLEKBD_HID_KEYMAP_RU_SHIFT else BLEKBD_HID_KEYMAP_RU)
          else (if effective_shift then BLEKBD_HID_KEYMAP_SHIFT else BLEKBD_HID_KEYMAP)) kc.
(** A key that has gone down. *)
(* @src BLEKeyboardHost.h:510-606 blekbd_translate_report *)
Definition key_press (modifier kc now : Z) s : hid :=
  let held ch := hold kc ch now (blekbd_key_queue_push ch s) in
  if kc =? BLEKBD_HID_USAGE_ESC then blekbd_key_queue_push 0x1b s
  else if kc =? BLEKBD_HID_USAGE_BACKSPACE then held 8
  else if kc =? BLEKBD_HID_USAGE_UP then held BLEKBD_CH_UP
  else if kc =? BLEKBD_HID_USAGE_DOWN then held BLEKBD_CH_DOWN
  else if kc =? BLEKBD_HID_USAGE_LEFT then held BLEKBD_CH_LEFT
  else if kc =? BLEKBD_HID_USAGE_RIGHT then held BLEKBD_CH_RIGHT
  else if kc =? BLEKBD_HID_USAGE_HOME then blekbd_key_queue_push BLEKBD_CH_HOME s
  else if kc =? BLEKBD_HID_USAGE_END then blekbd_key_queue_push BLEKBD_CH_END s
  else if kc =? BLEKBD_HID_USAGE_PAGE_UP then blekbd_key_queue_push BLEKBD_CH_PAGE_UP s
  else if kc =? BLEKBD_HID_USAGE_PAGE_DOWN then blekbd_key_queue_push BLEKBD_CH_PAGE_DOWN s
  else if (kc =? BLEKBD_HID_USAGE_TAB) && has modifier BLEKBD_HID_MOD_ALT then blekbd_key_queue_push BLEKBD_CH_OPEN_MESSENGER s
  else if kc =? BLEKBD_HID_USAGE_TAB then blekbd_key_queue_push 9 s
  else if kc =? BLEKBD_HID_USAGE_CAPS_LOCK then s <| blekbd_caps_lock ::= negb |> <| blekbd_caps_led_dirty := true |>
  else if ((kc =? BLEKBD_HID_USAGE_A) && has modifier BLEKBD_HID_MOD_CTRL) || (kc =? BLEKBD_HID_USAGE_F2) then blekbd_key_queue_push BLEKBD_CH_OPEN_DIALOG_MODE s
  else if (kc <? BLEKBD_HID_KEYMAP_LEN) && negb (has modifier BLEKBD_HID_MOD_GUI) then
    let ch := layout (blekbd_lang_ru s) (blekbd_caps_lock s) modifier kc in
    if negb (ch =? 0) then held ch else s
  else s.
Definition lang_combo (modifier : Z) : bool :=
  (has modifier BLEKBD_HID_MOD_ALT && has modifier BLEKBD_HID_MOD_SHIFT) || (has modifier BLEKBD_HID_MOD_CTRL && has modifier BLEKBD_HID_MOD_SHIFT).
(* @src BLEKeyboardHost.h:495-639 blekbd_translate_report *)
Definition blekbd_translate_report (data : list Z) (now : Z) s : hid :=
  if zlen data <? 8 then s
  else
    let modifier := zget 0 data 0 in
    let keys := take 6 (drop 2 data) in
    let s := foldl (fun s kc => if (kc =? 0) || (kc =? 1) || existsb (Z.eqb kc) (blekbd_prev_keys s) then s else key_press modifier kc now s) s keys in
    let s := if blekbd_held_active s && negb (existsb (Z.eqb (blekbd_held_keycode s)) keys) then s <| blekbd_held_active := false |> else s in
    let s := s <| blekbd_prev_keys := keys |> in
    let prev := blekbd_prev_modifier s in
    let any_key_down := existsb (fun kc => negb (kc =? 0)) keys in
    let s := if has modifier BLEKBD_HID_MOD_GUI && negb (has prev BLEKBD_HID_MOD_GUI) && negb any_key_down then blekbd_key_queue_push BLEKBD_CH_OPEN_SETTINGS s else s in
    let s := if lang_combo modifier && negb (lang_combo prev) then blekbd_key_queue_push BLEKBD_CH_TOGGLE_LANG s else s in
    s <| blekbd_prev_modifier := modifier |>.

(** The media keys: a bit each, acted on when it appears. *)
(* @src BLEKeyboardHost.h:376-386 BLEKBD_CC_LEN *)
Definition BLEKBD_CC_LEN : Z := 3.
(* @src BLEKeyboardHost.h:729-738 blekbd_hidh_cb *)
Definition media_keys (data : list Z) : media :=
  if zlen data =? BLEKBD_CC_LEN
  then mk_media (has (zget 0 data 0) 0x02) (has (zget 0 data 0) 0x01) (has (zget 0 data 1) 0x80) (has (zget 0 data 1) 0x08) (has (zget 0 data 1) 0x04) (has (zget 0 data 0) 0x80)
  else mk_media false false false false false false.
(* @src BLEKeyboardHost.h:729-758 blekbd_hidh_cb *)
Definition media_report (data : list Z) s : hid :=
  let m := media_keys data in
  let edge (key : media -> bool) ch s := if key m && negb (key (cc s)) then blekbd_key_queue_push ch s else s in
  let s := edge brightness_up BLEKBD_CH_BRIGHTNESS_UP s in
  let s := edge brightness_down BLEKBD_CH_BRIGHTNESS_DOWN s in
  let s := edge ac_home 0x1b s in
  let s := edge volume_up BLEKBD_CH_SOUND_ENABLE s in
  let s := edge volume_down BLEKBD_CH_SOUND_DISABLE s in
  let s := edge play_pause BLEKBD_CH_TOGGLE_MARQUEE s in
  s <| cc := m |>.
(** The keyboard has gone: what was down is not forgotten. *)
(* @src BLEKeyboardHost.h:761-777 blekbd_hidh_cb *)
Definition hid_closed s : hid := s <| blekbd_held_active := false |> <| blekbd_caps_lock := false |> <| blekbd_caps_led_dirty := false |>.

(** A keyboard has come: its Caps Lock is off, and its light is set if it has one. *)
(* @src BLEKeyboardHost.h:670-684 blekbd_hidh_cb *)
Definition hid_opened (blekbd_output_report_known : bool) s : hid :=
  s <| blekbd_caps_lock := false |> <| blekbd_caps_led_dirty := blekbd_output_report_known |>.

(** A key that is held repeats; [composing]: a text is being entered; [closed]: no menu. *)
(* @src Menu.h:3383-3394 blekbd_key_repeat_process *)
Definition blekbd_key_repeat_process (composing closed : bool) (now : Z) s : hid :=
  let nav_repeat_key := existsb (Z.eqb (blekbd_held_char s)) [BLEKBD_CH_UP; BLEKBD_CH_DOWN; BLEKBD_CH_LEFT; BLEKBD_CH_RIGHT] in
  if negb (blekbd_held_active s) then s
  else if negb composing && negb (nav_repeat_key && negb closed) then s
  else if i32 (now - blekbd_held_press_ms s) <? BLEKBD_KEY_REPEAT_START_MS then s
  else if negb (blekbd_held_last_repeat_ms s =? 0) && (i32 (now - blekbd_held_last_repeat_ms s) <? BLEKBD_KEY_REPEAT_INTERVAL_MS) then s
  else (blekbd_key_queue_push (blekbd_held_char s) s) <| blekbd_held_last_repeat_ms := now |>.

(** ** A turn of the main loop *)

(** Where the keyboard meets the screens: the time, whether a text is being entered or the
    menu closed, whether the screen takes the language shortcut, and what the screens have
    set [msngr_kb_lang_ru] to since the last turn. *)
Record kb_turn := mk_kb_turn { tn_at : Z; tn_composing : bool; tn_closed : bool; tn_toggles : bool; tn_screen_ru : option bool }.
(** The state is the keyboard's and [msngr_kb_lang_ru]. *)
(* @src Menu.h:8322-8327 blekbd_key_event *)
Definition heed (toggles : bool) (p : hid * bool) (ch : Z) : hid * bool :=
  let '(s, msngr_kb_lang_ru) := p in
  if toggles && (ch =? BLEKBD_CH_TOGGLE_LANG)
  then let msngr_kb_lang_ru := negb msngr_kb_lang_ru in (s <| blekbd_lang_ru := msngr_kb_lang_ru |>, msngr_kb_lang_ru)
  else (s, msngr_kb_lang_ru).
(** The characters that are handed to the screens, and the state behind the turn. *)
(* @src RNode_Firmware.ino:3220-3223 loop *)
Definition loop_turn (t : kb_turn) (p : hid * bool) : list Z * (hid * bool) :=
  let '(s, msngr_kb_lang_ru) := p in
  let msngr_kb_lang_ru := default msngr_kb_lang_ru (tn_screen_ru t) in
  let '(l, s) := take_keys s in
  let '(s, msngr_kb_lang_ru) := foldl (heed (tn_toggles t)) (s, msngr_kb_lang_ru) l in
  (l, (blekbd_key_repeat_process (tn_composing t) (tn_closed t) (tn_at t) s, msngr_kb_lang_ru)).
