(* ===== verification/HidTyping.v ===== *)
(** * What is typed on the Bluetooth keyboard

    What the main loop gets, against what is done with the keys: a character for each press
    in whatever slot the reports name it, the repetitions of the last key that stays down,
    and the two shortcuts of the modifiers, of which one switches the layout.  So a text
    that is typed arrives. *)
From Stdlib Require Import String.
From S2P Require Import Prelude Boards Rom Float Kiss Md5 Eeprom Settings Framing Transport HidKeyboard.
From stdpp Require Import list.
#[local] Open Scope Z_scope.
Implicit Types (s : hid) (f : blefifo) (held keys l : list Z).

(** ** The queue *)

Abbreviation queued := (ring_rep 16).
Lemma push_queued ch f l : queued f l -> zlen l < 15 -> queued (queue_push ch f) (l ++ [ch]).
Proof.
  intros Hq Hl. pose proof (ws_push_rep 16 ltac:(lia) f l ch Hq) as P. change (16 - 1) with 15 in P. rewrite (proj2 (Z.eqb_neq _ 15)) in P by lia.
  assert (Hu : queue_push ch f = ws_rx_push 16 ch f); [|now rewrite Hu]. unfold queue_push, ws_rx_push, ws_rx_isfull, BLEKBD_KEY_QUEUE_LEN.
  rewrite u8_id by (unfold is_u8; pose proof (Z.mod_pos_bound (bf_head f + 1) 16); lia). now destruct (_ =? _).
Qed.
Lemma drain_queued fuel : forall f l, queued f l -> (length l <= fuel)%nat -> fst (drain_keys fuel f) = l /\ queued (snd (drain_keys fuel f)) [].
Proof.
  induction fuel as [|fuel IH]; intros f l Hq Hl; [destruct l; [now split|cbn in Hl; lia]|]. cbn [drain_keys]. destruct l as [|x l].
  - pose proof (rr_head _ _ _ Hq) as Hh. rewrite zlen_nil, Z.add_0_r, Z.mod_small in Hh by apply (rr_tail _ _ _ Hq). rewrite Hh, Z.eqb_refl. now split.
  - destruct (bf_pop_rep 16 ltac:(lia) f x l Hq) as [H1 H2]. unfold bf_pop in H1, H2. rewrite Z.eqb_sym. destruct (Z.eqb_spec (bf_head f) (bf_tail f)) as [He|He].
    + exfalso. pose proof (rr_head _ _ _ Hq) as Hh. pose proof (rr_tail _ _ _ Hq). pose proof (rr_room _ _ _ Hq). rewrite He in Hh. rewrite zlen_cons in *. pose proof (zlen_nonneg l).
      rewrite <- (Z.mod_small (bf_tail f) 16) in Hh at 1 by lia. rewrite <- (Z.add_0_r (bf_tail f)) in Hh at 1. revert Hh. apply (ring_distinct 16); lia.
    + cbn [fst snd] in H1, H2. rewrite u8_id by (unfold is_u8, BLEKBD_KEY_QUEUE_LEN; pose proof (Z.mod_pos_bound (bf_tail f + 1) 16); lia).
      destruct (IH _ l H2 ltac:(cbn in Hl; lia)) as [H3 H4]. change (BLEKBD_KEY_QUEUE_LEN) with 16. destruct (drain_keys fuel _) as [l' f']. cbn [fst snd] in *. now rewrite H1, H3.
Qed.

(** ** Keys *)

(** What a key does: its character, and whether it repeats while it is held. *)
Definition key_does (ru caps : bool) (m kc : Z) : option (Z * bool) :=
  let special := [(BLEKBD_HID_USAGE_ESC, (0x1b, false)); (BLEKBD_HID_USAGE_BACKSPACE, (8, true)); (BLEKBD_HID_USAGE_UP, (BLEKBD_CH_UP, true));
    (BLEKBD_HID_USAGE_DOWN, (BLEKBD_CH_DOWN, true)); (BLEKBD_HID_USAGE_LEFT, (BLEKBD_CH_LEFT, true)); (BLEKBD_HID_USAGE_RIGHT, (BLEKBD_CH_RIGHT, true));
    (BLEKBD_HID_USAGE_HOME, (BLEKBD_CH_HOME, false)); (BLEKBD_HID_USAGE_END, (BLEKBD_CH_END, false));
    (BLEKBD_HID_USAGE_PAGE_UP, (BLEKBD_CH_PAGE_UP, false)); (BLEKBD_HID_USAGE_PAGE_DOWN, (BLEKBD_CH_PAGE_DOWN, false))] in
  match find (fun p => kc =? fst p) special with
  | Some (_, a) => Some a
  | None =>
      if kc =? BLEKBD_HID_USAGE_TAB then Some (if has m BLEKBD_HID_MOD_ALT then BLEKBD_CH_OPEN_MESSENGER else 9, false)
      else if kc =? BLEKBD_HID_USAGE_CAPS_LOCK then None
      else if ((kc =? BLEKBD_HID_USAGE_A) && has m BLEKBD_HID_MOD_CTRL) || (kc =? BLEKBD_HID_USAGE_F2) then Some (BLEKBD_CH_OPEN_DIALOG_MODE, false)
      else if (kc <? BLEKBD_HID_KEYMAP_LEN) && negb (has m BLEKBD_HID_MOD_GUI) && negb (layout ru caps m kc =? 0) then Some (layout ru caps m kc, true) else None
  end.
Definition key_char (ru caps : bool) (m kc : Z) : option Z := fst <$> key_does ru caps m kc.
Definition caps_after (kc : Z) (caps : bool) : bool := if kc =? BLEKBD_HID_USAGE_CAPS_LOCK then negb caps else caps.
Definition pushed (o : option Z) f : blefifo := match o with Some ch => queue_push ch f | None => f end.
(** The key that is held: whether there is one, its code, its character, since when, its
    last repetition. *)
Definition hold_state : Type := bool * Z * Z * Z * Z.
Definition hold_of s : hold_state :=
  (blekbd_held_active s, blekbd_held_keycode s, blekbd_held_char s, blekbd_held_press_ms s, blekbd_held_last_repeat_ms s).
(** What a state shows of the typing. *)
Record shows s (f : blefifo) (ru caps : bool) (prev : list Z) (m : Z) (h : hold_state) : Prop := {
  sh_queue : blekbd_key_queue s = f; sh_ru : blekbd_lang_ru s = ru; sh_caps : blekbd_caps_lock s = caps;
  sh_prev : blekbd_prev_keys s = prev; sh_mod : blekbd_prev_modifier s = m; sh_hold : hold_of s = h
}.
Definition hold_after (a : option (Z * bool)) (kc now : Z) (h : hold_state) : hold_state :=
  match a with Some (ch, true) => (true, kc, ch, now, 0) | _ => h end.
Lemma press_shows m0 kc now s f ru caps prev m h : shows s f ru caps prev m h ->
  shows (key_press m0 kc now s) (pushed (key_char ru caps m0 kc) f) ru (caps_after kc caps) prev m (hold_after (key_does ru caps m0 kc) kc now h).
Proof.
  intros [<- <- <- <- <- <-]. unfold key_press, key_char, key_does, caps_after. cbn [find fst snd].
  repeat match goal with |- context [if kc =? ?y then _ else _] => destruct (Z.eqb_spec kc y) as [->|]; [destruct (has m0 BLEKBD_HID_MOD_ALT); constructor; reflexivity|] end.
  cbn [andb].
  destruct (((kc =? BLEKBD_HID_USAGE_A) && has m0 BLEKBD_HID_MOD_CTRL) || (kc =? BLEKBD_HID_USAGE_F2)); [constructor; reflexivity|].
  destruct ((kc <? BLEKBD_HID_KEYMAP_LEN) && negb (has m0 BLEKBD_HID_MOD_GUI)); [|constructor; reflexivity]. cbn [andb]. cbv zeta.
  destruct (negb (layout _ _ m0 kc =? 0)); constructor; reflexivity.
Qed.
(** No key types the character of the language shortcut. *)
Lemma layout_no_toggle ru caps m kc : layout ru caps m kc <> BLEKBD_CH_TOGGLE_LANG.
Proof.
  unfold layout. assert (P : forall l, forallb (fun x => negb (x =? BLEKBD_CH_TOGGLE_LANG)) l = true -> zget 0 l kc <> BLEKBD_CH_TOGGLE_LANG).
  { intros l Hl. unfold zget. destruct (l !! Z.to_nat kc) as [x|] eqn:Ex; [|discriminate]. rewrite forallb_forall in Hl.
    specialize (Hl x (proj1 (list_elem_of_In _ _) (list_elem_of_lookup_2 _ _ _ Ex))). cbn. intros ->. discriminate. }
  destruct ru; (destruct (if (_ <=? _) && (_ <=? _) then _ else _); apply P; reflexivity).
Qed.
Lemma does_no_toggle ru caps m kc a : key_does ru caps m kc = Some a -> fst a <> BLEKBD_CH_TOGGLE_LANG.
Proof.
  unfold key_does. cbn [find fst snd]. repeat match goal with |- context [if kc =? ?y then _ else _] => destruct (kc =? y); [intros [= <-]; try destruct (has m BLEKBD_HID_MOD_ALT); discriminate || (intros; discriminate)|] end.
  destruct (_ || _); [intros [= <-]; discriminate|]. destruct (_ && _); intros [= <-]. apply layout_no_toggle.
Qed.

(** ** Reports *)

(** What is done at the keyboard, and the keys that are down then. *)
Inductive move := Down (kc : Z) | Up (kc : Z) | Mods (m : Z).
Definition legal held (mv : move) : Prop :=
  match mv with Down kc => (kc ∉ held) /\ 1 < kc /\ (length held < 6)%nat | _ => True end.
Definition down held (mv : move) : list Z :=
  match mv with Down kc => kc :: held | Up kc => filter (fun k => k <> kc) held | Mods _ => held end.
Definition mods (m : Z) (mv : move) : Z := match mv with Mods m => m | _ => m end.
(** The slots name the keys that are down, in any order, and are zero otherwise. *)
Definition slots held keys : Prop := keys ≡ₚ (held ++ repeat 0 (6 - length held)).
Definition report held (m : Z) (data : list Z) : Prop := 8 <= zlen data /\ zget 0 data 0 = m /\ slots held (take 6 (drop 2 data)).

(** The program: a report is translated, then the main loop turns, once or more often. *)
Record input := mk_input { in_move : move; in_report : list Z; in_at : Z; in_turns : list kb_turn }.
Fixpoint turns (ts : list kb_turn) (p : hid * bool) : list Z * (hid * bool) :=
  match ts with
  | [] => ([], p)
  | t :: ts => let '(l, p) := loop_turn t p in let '(l', p) := turns ts p in (l ++ l', p)
  end.
Fixpoint hear (ins : list input) (p : hid * bool) : list Z * (hid * bool) :=
  match ins with
  | [] => ([], p)
  | i :: ins =>
      let '(s, msngr_kb_lang_ru) := p in
      let '(l, p) := turns (in_turns i) (blekbd_translate_report (in_report i) (in_at i) s, msngr_kb_lang_ru) in
      let '(l', p) := hear ins p in (l ++ l', p)
  end.

(** ** The specification *)

(** The typing: the layout and the screens' own language, Caps Lock, the keys that are
    down and the modifiers, the key that repeats with its character and the time of its
    next repetition, the characters that have not been read. *)
Record typing := mk_typing {
  ty_ru : bool; ty_screen : bool; ty_caps : bool; ty_down : list Z; ty_mods : Z; ty_repeat : option (Z * Z * Z); ty_unread : list Z
}.
(** A key acts when it goes down, and becomes the one that repeats if it is of that kind;
    going up it stops.  The modifiers alone have two shortcuts, when they are completed. *)
Definition acts (mv : move) (now : Z) (y : typing) : typing :=
  let y' := y <| ty_down := down (ty_down y) mv |> <| ty_mods := mods (ty_mods y) mv |> in
  match mv with
  | Down kc =>
      let a := key_does (ty_ru y) (ty_caps y) (ty_mods y) kc in
      y' <| ty_caps := caps_after kc (ty_caps y) |> <| ty_unread ::= fun l => l ++ option_list (fst <$> a) |>
         <| ty_repeat := match a with Some (ch, true) => Some (kc, ch, now + BLEKBD_KEY_REPEAT_START_MS) | _ => ty_repeat y end |>
  | Up kc => y' <| ty_repeat := match ty_repeat y with Some (kc', ch, due) => if kc =? kc' then None else Some (kc', ch, due) | None => None end |>
  | Mods m =>
      y' <| ty_unread ::= fun l => l ++
            (if has m BLEKBD_HID_MOD_GUI && negb (has (ty_mods y) BLEKBD_HID_MOD_GUI) && bool_decide (ty_down y = []) then [BLEKBD_CH_OPEN_SETTINGS] else []) ++
            (if lang_combo m && negb (lang_combo (ty_mods y)) then [BLEKBD_CH_TOGGLE_LANG] else []) |>
  end.
(** Only the arrows repeat where no text is entered, and nothing where no menu is open. *)
Definition repeats_at (t : kb_turn) (ch : Z) : bool :=
  tn_composing t || (bool_decide (ch ∈ [BLEKBD_CH_UP; BLEKBD_CH_DOWN; BLEKBD_CH_LEFT; BLEKBD_CH_RIGHT]) && negb (tn_closed t)).
(** The main loop reads; the language shortcut gives the keyboard the other one than the
    screens have; a repetition that is due is read at the next turn. *)
Definition reads (t : kb_turn) (y : typing) : list Z * typing :=
  let screen := default (ty_screen y) (tn_screen_ru t) in
  let switched := tn_toggles t && bool_decide (BLEKBD_CH_TOGGLE_LANG ∈ ty_unread y) in
  let y' := y <| ty_ru := if switched then negb screen else ty_ru y |> <| ty_screen := if switched then negb screen else screen |> <| ty_unread := [] |> in
  (ty_unread y,
   match ty_repeat y with
   | Some (kc, ch, due) =>
       if (due <=? tn_at t) && repeats_at t ch
       then y' <| ty_unread := [ch] |> <| ty_repeat := Some (kc, ch, tn_at t + BLEKBD_KEY_REPEAT_INTERVAL_MS) |> else y'
   | None => y'
   end).
Fixpoint reads_all (ts : list kb_turn) (y : typing) : list Z * typing :=
  match ts with [] => ([], y) | t :: ts => let '(l, y) := reads t y in let '(l', y) := reads_all ts y in (l ++ l', y) end.
Fixpoint meant (ins : list input) (y : typing) : list Z * typing :=
  match ins with
  | [] => ([], y)
  | i :: ins => let '(l, y) := reads_all (in_turns i) (acts (in_move i) (in_at i) y) in let '(l', y) := meant ins y in (l ++ l', y)
  end.
(** The inputs of a keyboard: its moves are possible, its reports say what is down, the loop
    turns between two of them, and time does not run back; [last] is the time so far. *)
Fixpoint ordered (ts : list kb_turn) (last : Z) : Prop :=
  match ts with [] => True | t :: ts => last <= tn_at t < 2 ^ 31 /\ ordered ts (tn_at t) end.
Definition last_turn (ts : list kb_turn) (now : Z) : Z := foldl (fun _ t => tn_at t) now ts.
Fixpoint played (ins : list input) held (m last : Z) : Prop :=
  match ins with
  | [] => True
  | i :: ins =>
      let held' := down held (in_move i) in let m' := mods m (in_move i) in
      legal held (in_move i) /\ report held' m' (in_report i) /\ last <= in_at i < 2 ^ 31 /\ in_turns i <> [] /\ ordered (in_turns i) (in_at i) /\
      played ins held' m' (last_turn (in_turns i) (in_at i))
  end.

(** ** Lemmas: one report *)

(** Keys that are passed over. *)
Lemma skip_shows m now l : forall s f ru caps prev m0 h, shows s f ru caps prev m0 h -> Forall (fun kc => kc = 0 \/ kc ∈ prev) l ->
  foldl (fun s kc => if (kc =? 0) || (kc =? 1) || existsb (Z.eqb kc) (blekbd_prev_keys s) then s else key_press m kc now s) s l = s.
Proof.
  induction l as [|kc l IH]; intros s f ru caps prev m0 h Hs Hl; [reflexivity|]. inversion Hl as [|? ? Hk Hl']; subst. cbn [foldl]. rewrite (sh_prev _ _ _ _ _ _ _ Hs).
  replace ((kc =? 0) || (kc =? 1) || existsb (Z.eqb kc) prev) with true; [exact (IH s f ru caps prev m0 h Hs Hl')|]. symmetry. destruct Hk as [->|Hk]; [reflexivity|].
  apply orb_true_iff. right. apply existsb_exists. exists kc. split; [now apply list_elem_of_In|apply Z.eqb_refl].
Qed.
(** The one key that is new. *)
Lemma new_shows m now kc rest keys s f ru caps prev m0 h : shows s f ru caps prev m0 h -> keys ≡ₚ kc :: rest -> kc ∉ rest -> kc ∉ prev -> 1 < kc ->
  Forall (fun k => k = 0 \/ k ∈ prev) rest ->
  shows (foldl (fun s kc => if (kc =? 0) || (kc =? 1) || existsb (Z.eqb kc) (blekbd_prev_keys s) then s else key_press m kc now s) s keys)
    (pushed (key_char ru caps m kc) f) ru (caps_after kc caps) prev m0 (hold_after (key_does ru caps m kc) kc now h).
Proof.
  intros Hs Hp Hr Hn Hk Hf. assert (Hin : kc ∈ keys) by (rewrite Hp; left). apply list_elem_of_split in Hin as (l1 & l2 & ->).
  rewrite <- Permutation_middle in Hp. apply Permutation_cons_inv in Hp. rewrite <- Hp in Hf. apply Forall_app in Hf as [F1 F2].
  rewrite foldl_app, (skip_shows m now l1 s f ru caps prev m0 h Hs F1). cbn [foldl]. rewrite (sh_prev _ _ _ _ _ _ _ Hs).
  replace ((kc =? 0) || (kc =? 1) || existsb (Z.eqb kc) prev) with false.
  - pose proof (press_shows m kc now s f ru caps prev m0 h Hs) as P. now rewrite (skip_shows m now l2 _ _ _ _ _ _ _ P F2).
  - symmetry. rewrite !orb_false_iff. split_and!; [apply Z.eqb_neq; lia|apply Z.eqb_neq; lia|]. apply not_true_is_false. intros (k & Hk1 & Hk2)%existsb_exists.
    apply Z.eqb_eq in Hk2 as <-. apply Hn. now apply list_elem_of_In.
Qed.
(** The part behind the keys. *)
Definition tail_of (modifier : Z) keys s : hid :=
  let s := if blekbd_held_active s && negb (existsb (Z.eqb (blekbd_held_keycode s)) keys) then s <| blekbd_held_active := false |> else s in
  let s := s <| blekbd_prev_keys := keys |> in
  let prev := blekbd_prev_modifier s in
  let any_key_down := existsb (fun kc => negb (kc =? 0)) keys in
  let s := if has modifier BLEKBD_HID_MOD_GUI && negb (has prev BLEKBD_HID_MOD_GUI) && negb any_key_down then blekbd_key_queue_push BLEKBD_CH_OPEN_SETTINGS s else s in
  let s := if lang_combo modifier && negb (lang_combo prev) then blekbd_key_queue_push BLEKBD_CH_TOGGLE_LANG s else s in
  s <| blekbd_prev_modifier := modifier |>.
Definition hold_among keys (h : hold_state) : hold_state :=
  let '(active, kc, ch, press, repeat) := h in (active && existsb (Z.eqb kc) keys, kc, ch, press, repeat).
Lemma tail_shows modifier keys s f ru caps prev m0 h : shows s f ru caps prev m0 h ->
  shows (tail_of modifier keys s)
    (pushed (if lang_combo modifier && negb (lang_combo m0) then Some BLEKBD_CH_TOGGLE_LANG else None)
      (pushed (if has modifier BLEKBD_HID_MOD_GUI && negb (has m0 BLEKBD_HID_MOD_GUI) && negb (existsb (fun kc => negb (kc =? 0)) keys) then Some BLEKBD_CH_OPEN_SETTINGS else None) f))
    ru caps keys modifier (hold_among keys h).
Proof.
  intros [<- <- <- <- <- <-]. unfold tail_of. cbv zeta. set (s1 := if blekbd_held_active s && _ then _ else s).
  assert (H1 : shows s1 (blekbd_key_queue s) (blekbd_lang_ru s) (blekbd_caps_lock s) (blekbd_prev_keys s) (blekbd_prev_modifier s) (hold_among keys (hold_of s))).
  { unfold s1, hold_among, hold_of. destruct (blekbd_held_active s) eqn:Ea, (existsb (Z.eqb (blekbd_held_keycode s)) keys); cbn [andb negb]; constructor; try reflexivity; unfold hold_of; cbn; now rewrite Ea. }
  clearbody s1. destruct H1 as [E1 E2 E3 E4 E5 E6]. change (blekbd_prev_modifier (s1 <| blekbd_prev_keys := keys |>)) with (blekbd_prev_modifier s1). rewrite E5, <- E1, <- E2, <- E3, <- E6.
  destruct (has modifier BLEKBD_HID_MOD_GUI && negb (has (blekbd_prev_modifier s) BLEKBD_HID_MOD_GUI) && negb (existsb (fun kc => negb (kc =? 0)) keys)),
    (lang_combo modifier && negb (lang_combo (blekbd_prev_modifier s))); constructor; reflexivity.
Qed.
Lemma has_keys held keys : slots held keys -> Forall (fun k => 1 < k) held -> negb (existsb (fun kc => negb (kc =? 0)) keys) = bool_decide (held = []).
Proof.
  intros Hs Hh. destruct held as [|k held].
  - rewrite bool_decide_eq_true_2 by reflexivity. apply negb_true_iff, not_true_is_false. intros (x & Hx & Hz)%existsb_exists. apply list_elem_of_In in Hx.
    unfold slots in Hs. rewrite Hs in Hx. cbn [app] in Hx. apply list_elem_of_In, repeat_spec in Hx as ->. discriminate.
  - rewrite bool_decide_eq_false_2 by discriminate. apply negb_false_iff. apply existsb_exists. exists k. inversion Hh; subst. split; [apply list_elem_of_In; unfold slots in Hs; rewrite Hs; left|].
    apply negb_true_iff, Z.eqb_neq. lia.
Qed.

Lemma pushed_queued o f l : queued f l -> zlen l < 15 -> queued (pushed o f) (l ++ option_list o).
Proof. destruct o as [ch|]; cbn [pushed option_list]; [apply push_queued|]. now rewrite app_nil_r. Qed.
Lemma option_list_len (o : option Z) : zlen (option_list o) <= 1.
Proof. now destruct o. Qed.
Lemma translate_eq data now s : 8 <= zlen data -> blekbd_translate_report data now s =
  let keys := take 6 (drop 2 data) in
  tail_of (zget 0 data 0) keys (foldl (fun s kc => if (kc =? 0) || (kc =? 1) || existsb (Z.eqb kc) (blekbd_prev_keys s) then s else key_press (zget 0 data 0) kc now s) s keys).
Proof. intros Hl. unfold blekbd_translate_report. now rewrite (proj2 (Z.ltb_ge _ _)) by lia. Qed.
Lemma slots_known held prev rest : slots held prev -> (forall k, k ∈ rest -> k = 0 \/ k ∈ held) -> Forall (fun k => k = 0 \/ k ∈ prev) rest.
Proof.
  intros Hs Hr. apply Forall_forall. intros k Hk. destruct (Hr k Hk) as [|Hh]; [now left|right]. unfold slots in Hs. rewrite Hs. apply elem_of_app. now left.
Qed.
Lemma slots_in held keys k : slots held keys -> k ∈ keys -> k = 0 \/ k ∈ held.
Proof.
  intros Hs Hk. unfold slots in Hs. rewrite Hs in Hk. apply elem_of_app in Hk as [|Hk]; [now right|left]. now apply list_elem_of_In, repeat_spec in Hk.
Qed.
Lemma slots_held held keys kc : slots held keys -> 0 < kc -> existsb (Z.eqb kc) keys = bool_decide (kc ∈ held).
Proof.
  intros Hs Hk. apply Bool.eq_iff_eq_true. rewrite existsb_exists, bool_decide_eq_true. split.
  - intros (k & Hin & ->%Z.eqb_eq). apply list_elem_of_In in Hin. destruct (slots_in _ _ _ Hs Hin); [lia|assumption].
  - intros Hin. exists kc. split; [|apply Z.eqb_refl]. apply list_elem_of_In. unfold slots in Hs. rewrite Hs. apply elem_of_app. now left.
Qed.

(** The key that repeats, in the state and in the specification. *)
Definition hold_is (h : hold_state) (held : list Z) (now : Z) (r : option (Z * Z * Z)) : Prop :=
  let '(active, kc, ch, press, repeat) := h in
  match r with
  | None => active = false
  | Some (kc', ch', due) =>
      active = true /\ kc = kc' /\ ch = ch' /\ kc ∈ held /\ ch <> BLEKBD_CH_TOGGLE_LANG /\ 0 < press <= now /\
      ((repeat = 0 /\ due = press + BLEKBD_KEY_REPEAT_START_MS) \/
       (press + BLEKBD_KEY_REPEAT_START_MS <= repeat <= now /\ due = repeat + BLEKBD_KEY_REPEAT_INTERVAL_MS))
  end.
Lemma hold_later h held now now' r : hold_is h held now r -> now <= now' -> hold_is h held now' r.
Proof.
  destruct h as [[[[a kc] ch] p] l], r as [[[kc' ch'] due]|]; cbn; [|easy]. intros (-> & -> & -> & H1 & H2 & H3 & H4) Hn.
  do 3 (split; [reflexivity|]). split; [exact H1|]. split; [exact H2|]. split; [lia|]. destruct H4 as [H4|H4]; [left|right]; lia.
Qed.
Lemma hold_kept h held held' keys now r : hold_is h held now r -> slots held' keys -> Forall (fun k => 1 < k) held ->
  (forall kc ch due, r = Some (kc, ch, due) -> kc ∈ held') -> hold_is (hold_among keys h) held' now r.
Proof.
  destruct h as [[[[a kc] ch] p] l], r as [[[kc' ch'] due]|]; cbn; [|intros -> _ _ _; reflexivity]. intros (-> & -> & -> & H1 & H2 & H3) Hs Hh Hk.
  specialize (Hk _ _ _ eq_refl). assert (1 < kc') by exact (proj1 (Forall_forall _ _) Hh kc' H1). rewrite (slots_held _ _ _ Hs) by lia. rewrite bool_decide_eq_true_2 by exact Hk.
  do 3 (split; [reflexivity|]). split; [exact Hk|exact (conj H2 H3)].
Qed.
(** State and specification agree, [now] being the time so far. *)
Record agrees s (kb : bool) (now : Z) (y : typing) : Prop := {
  ag_queue : queued (blekbd_key_queue s) (ty_unread y);
  ag_ru : blekbd_lang_ru s = ty_ru y; ag_screen : kb = ty_screen y; ag_caps : blekbd_caps_lock s = ty_caps y;
  ag_keys : slots (ty_down y) (blekbd_prev_keys s); ag_mod : blekbd_prev_modifier s = ty_mods y;
  ag_known : Forall (fun k => 1 < k) (ty_down y); ag_hold : hold_is (hold_of s) (ty_down y) now (ty_repeat y);
  ag_unread : exists l b, ty_unread y = l ++ (if b : bool then [BLEKBD_CH_TOGGLE_LANG] else []) /\ BLEKBD_CH_TOGGLE_LANG ∉ l
}.
Lemma translated i s kb last y : agrees s kb last y -> zlen (ty_unread y) < 10 -> BLEKBD_CH_TOGGLE_LANG ∉ ty_unread y ->
  legal (ty_down y) (in_move i) -> report (down (ty_down y) (in_move i)) (mods (ty_mods y) (in_move i)) (in_report i) -> 0 < last <= in_at i ->
  agrees (blekbd_translate_report (in_report i) (in_at i) s) kb (in_at i) (acts (in_move i) (in_at i) y).
Proof.
  destruct i as [mv data now ts]. cbn [in_move in_report in_at]. intros [Hq Hru Hkb Hcaps Hp Hm Hh Hhold _] Hlen Hno Hl (R1 & R2 & R3) Hnow.
  rewrite translate_eq by exact R1. cbv zeta. rewrite R2. set (keys := take 6 (drop 2 data)) in *. clearbody keys.
  apply (hold_later _ _ _ now) in Hhold; [|lia].
  destruct y as [ru screen caps held m rep unread]. cbn [ty_ru ty_screen ty_caps ty_down ty_mods ty_repeat ty_unread] in *.
  assert (Hs : shows s (blekbd_key_queue s) ru caps (blekbd_prev_keys s) m (hold_of s)) by (constructor; try reflexivity; assumption).
  assert (Hd : Forall (fun k => 1 < k) (down held mv)).
  { destruct mv as [kc|kc|m']; cbn [down legal] in *; [constructor; [apply Hl|exact Hh]| |exact Hh].
    apply Forall_forall. intros k Hk. apply list_elem_of_filter in Hk as [_ Hk]. exact (proj1 (Forall_forall _ _) Hh k Hk). }
  destruct mv as [kc|kc|m']; cbn [down mods legal acts] in *.
  - destruct Hl as (L1 & L2 & L3). unfold slots in R3. cbn [app length] in R3.
    assert (Hr : kc ∉ held ++ repeat 0 (6 - S (length held))).
    { intros [|Hk]%elem_of_app; [now apply L1|]. apply list_elem_of_In, repeat_spec in Hk. lia. }
    assert (Hn : kc ∉ blekbd_prev_keys s) by (intros Hk; destruct (slots_in _ _ _ Hp Hk); [lia|now apply L1]).
    pose proof (new_shows m now kc _ keys s _ ru caps _ m _ Hs R3 Hr Hn L2) as P. set (s1 := foldl _ s keys) in *. clearbody s1.
    specialize (P (slots_known held _ (held ++ repeat 0 (6 - S (length held))) Hp ltac:(intros k [|Hk]%elem_of_app; [now right|left]; now apply list_elem_of_In, repeat_spec in Hk))).
    pose proof (tail_shows m keys s1 _ _ _ _ _ _ P) as T. rewrite !andb_negb_r in T. cbn [andb pushed] in T. destruct T as [T1 T2 T3 T4 T5 T6].
    constructor; cbn [ty_ru ty_screen ty_caps ty_down ty_mods ty_repeat ty_unread constant apply_update]; try assumption.
    + rewrite T1. apply pushed_queued; [exact Hq|lia].
    + rewrite T4. exact R3.
    + rewrite T6. assert (Hr3 : slots (kc :: held) keys) by exact R3. destruct (key_does ru caps m kc) as [[ch []]|] eqn:Ed; cbn [hold_after].
      * cbn [hold_among hold_is]. rewrite (slots_held _ _ _ Hr3) by lia. rewrite bool_decide_eq_true_2 by left.
        do 3 (split; [reflexivity|]). split; [left|]. split; [exact (does_no_toggle _ _ _ _ _ Ed)|]. split; [lia|left; now split].
      * apply (hold_kept _ held _ _ _ _ Hhold Hr3 Hh). intros kc' ch' due ->. right. destruct (hold_of s) as [[[[? ?] ?] ?] ?]. cbn in Hhold. destruct Hhold as (_ & <- & _ & Hin & _). exact Hin.
      * apply (hold_kept _ held _ _ _ _ Hhold Hr3 Hh). intros kc' ch' due ->. right. destruct (hold_of s) as [[[[? ?] ?] ?] ?]. cbn in Hhold. destruct Hhold as (_ & <- & _ & Hin & _). exact Hin.
    + exists (unread ++ option_list (key_char ru caps m kc)), false. split; [now rewrite app_nil_r|]. intros [|Hi]%elem_of_app; [now apply Hno|].
      unfold key_char in Hi. destruct (key_does ru caps m kc) as [[ch r]|] eqn:Ed; cbn in Hi; [|now apply not_elem_of_nil in Hi].
      apply list_elem_of_singleton in Hi. now apply (does_no_toggle _ _ _ _ _ Ed).
  - rewrite (skip_shows m now keys s _ ru caps _ m _ Hs) by (apply (slots_known held _ _ Hp); intros k Hk; destruct (slots_in _ _ _ R3 Hk) as [|Hd']; [now left|right]; now apply list_elem_of_filter in Hd').
    pose proof (tail_shows m keys s _ _ _ _ _ _ Hs) as T. rewrite !andb_negb_r in T. cbn [andb pushed] in T. destruct T as [T1 T2 T3 T4 T5 T6].
    constructor; cbn [ty_ru ty_screen ty_caps ty_down ty_mods ty_repeat ty_unread constant apply_update]; try assumption.
    + now rewrite T1.
    + now rewrite T4.
    + rewrite T6. destruct rep as [[[kc' ch] due]|]; [|now apply (hold_kept _ held _ _ _ _ Hhold R3 Hh)].
      assert (Hin : kc' ∈ held) by (destruct (hold_of s) as [[[[? ?] ?] ?] ?]; cbn in Hhold; destruct Hhold as (_ & <- & _ & Hin & _); exact Hin).
      destruct (Z.eqb_spec kc kc') as [->|Hne].
      * destruct (hold_of s) as [[[[? k0] ?] ?] ?]. cbn in Hhold |- *. destruct Hhold as (_ & -> & _). assert (1 < kc') by exact (proj1 (Forall_forall _ _) Hh kc' Hin).
        rewrite (slots_held _ _ _ R3) by lia. rewrite bool_decide_eq_false_2; [apply andb_false_r|]. intros Hf. apply list_elem_of_filter in Hf. tauto.
      * apply (hold_kept _ held _ _ _ _ Hhold R3 Hh). intros ? ? ? [= <- <- <-]. apply list_elem_of_filter. split; [congruence|exact Hin].
    + exists unread, false. split; [now rewrite app_nil_r|exact Hno].
  - rewrite (skip_shows m' now keys s _ ru caps _ m _ Hs) by (apply (slots_known held _ _ Hp); intros k Hk; exact (slots_in _ _ _ R3 Hk)).
    pose proof (tail_shows m' keys s _ _ _ _ _ _ Hs) as T. rewrite (has_keys held keys R3 Hh) in T. destruct T as [T1 T2 T3 T4 T5 T6].
    constructor; cbn [ty_ru ty_screen ty_caps ty_down ty_mods ty_repeat ty_unread constant apply_update]; try assumption.
    + rewrite T1. set (o1 := if has m' BLEKBD_HID_MOD_GUI && _ && _ then Some _ else None). set (o2 := if lang_combo m' && _ then Some _ else None).
      replace ((if has m' BLEKBD_HID_MOD_GUI && _ && _ then _ else []) ++ _) with (option_list o1 ++ option_list o2) by (unfold o1, o2; now destruct (_ && _ && _), (_ && _)).
      rewrite app_assoc. apply pushed_queued; [apply pushed_queued; [exact Hq|clear -Hlen; lia]|]. rewrite zlen_app. pose proof (option_list_len o1). clear -Hlen H. lia.
    + now rewrite T4.
    + rewrite T6. apply (hold_kept _ held _ _ _ _ Hhold R3 Hh). intros kc' ch' due ->. destruct (hold_of s) as [[[[? ?] ?] ?] ?]. cbn in Hhold. destruct Hhold as (_ & <- & _ & Hin & _). exact Hin.
    + exists (unread ++ (if has m' BLEKBD_HID_MOD_GUI && negb (has m BLEKBD_HID_MOD_GUI) && bool_decide (held = []) then [BLEKBD_CH_OPEN_SETTINGS] else [])), (lang_combo m' && negb (lang_combo m)).
      split; [apply app_assoc|]. intros [|Hi]%elem_of_app; [now apply Hno|]. destruct (_ && _ && _); [|now apply not_elem_of_nil in Hi]. apply list_elem_of_singleton in Hi. discriminate.
Qed.

(** ** Lemmas: one turn *)

Lemma heed_others toggles l p : BLEKBD_CH_TOGGLE_LANG ∉ l -> foldl (heed toggles) p l = p.
Proof.
  revert p. induction l as [|c l IH]; intros [s kb] Hl; [reflexivity|]. apply not_elem_of_cons in Hl as [Hc Hl]. cbn [foldl heed].
  rewrite (proj2 (Z.eqb_neq c _)) by congruence. rewrite andb_false_r. now apply IH.
Qed.
(** What is read switches the language at most once. *)
Lemma heed_spec toggles l b s kb : BLEKBD_CH_TOGGLE_LANG ∉ l ->
  let u := l ++ (if b : bool then [BLEKBD_CH_TOGGLE_LANG] else []) in
  let switched := toggles && bool_decide (BLEKBD_CH_TOGGLE_LANG ∈ u) in
  foldl (heed toggles) (s, kb) u = (if switched then s <| blekbd_lang_ru := negb kb |> else s, if switched then negb kb else kb).
Proof.
  intros Hl. cbv zeta. rewrite foldl_app, (heed_others toggles l) by exact Hl. destruct b.
  - rewrite bool_decide_eq_true_2 by (apply elem_of_app; right; left). cbn [foldl heed]. rewrite Z.eqb_refl, andb_true_r. now destruct toggles.
  - rewrite app_nil_r, bool_decide_eq_false_2 by exact Hl. now rewrite andb_false_r.
Qed.
Lemma repeats_spec t ch : repeats_at t ch = negb (negb (tn_composing t) && negb (existsb (Z.eqb ch) [BLEKBD_CH_UP; BLEKBD_CH_DOWN; BLEKBD_CH_LEFT; BLEKBD_CH_RIGHT] && negb (tn_closed t))).
Proof.
  unfold repeats_at. replace (bool_decide (ch ∈ _)) with (existsb (Z.eqb ch) [BLEKBD_CH_UP; BLEKBD_CH_DOWN; BLEKBD_CH_LEFT; BLEKBD_CH_RIGHT]).
  - destruct (existsb _ _), (tn_composing t), (tn_closed t); reflexivity.
  - apply Bool.eq_iff_eq_true. rewrite existsb_exists, bool_decide_eq_true. split; [intros (k & Hk & ->%Z.eqb_eq); now apply list_elem_of_In|].
    intros Hk. exists ch. split; [now apply list_elem_of_In|apply Z.eqb_refl].
Qed.
(** A repetition happens when it is due. *)
Lemma repeat_spec t s held now r : hold_is (hold_of s) held now r -> now <= tn_at t < 2 ^ 31 ->
  blekbd_key_repeat_process (tn_composing t) (tn_closed t) (tn_at t) s =
  match r with
  | Some (kc, ch, due) => if (due <=? tn_at t) && repeats_at t ch then (blekbd_key_queue_push ch s) <| blekbd_held_last_repeat_ms := tn_at t |> else s
  | None => s
  end.
Proof.
  intros Hh Ht. unfold blekbd_key_repeat_process, hold_of in *. cbn [hold_is] in Hh. destruct r as [[[kc ch] due]|]; [|now rewrite Hh].
  destruct Hh as (-> & _ & -> & _ & _ & Hp & Hl). cbn [negb]. rewrite repeats_spec. destruct (negb (tn_composing t) && _); cbn [negb]; [now rewrite andb_false_r|].
  rewrite andb_true_r. unfold BLEKBD_KEY_REPEAT_START_MS, BLEKBD_KEY_REPEAT_INTERVAL_MS in *.
  rewrite (swrap_id 32 (tn_at t - blekbd_held_press_ms s)) by lia.
  destruct Hl as [[-> ->]|[Hl ->]].
  - cbn [Z.eqb negb andb]. destruct (Z.ltb_spec (tn_at t - blekbd_held_press_ms s) 500), (Z.leb_spec (blekbd_held_press_ms s + 500) (tn_at t)); first [reflexivity|lia].
  - rewrite (proj2 (Z.eqb_neq _ 0)) by lia. rewrite (swrap_id 32 (tn_at t - blekbd_held_last_repeat_ms s)) by lia. cbn [negb andb].
    destruct (Z.ltb_spec (tn_at t - blekbd_held_press_ms s) 500); [lia|].
    destruct (Z.ltb_spec (tn_at t - blekbd_held_last_repeat_ms s) 120), (Z.leb_spec (blekbd_held_last_repeat_ms s + 120) (tn_at t)); first [reflexivity|lia].
Qed.
(** Between two reports at most one character waits, a repeated one. *)
Record between s kb now y : Prop := {
  bt_agrees : agrees s kb now y; bt_short : zlen (ty_unread y) <= 1; bt_plain : BLEKBD_CH_TOGGLE_LANG ∉ ty_unread y
}.
Lemma turned t s kb now y : agrees s kb now y -> zlen (ty_unread y) <= 15 -> now <= tn_at t < 2 ^ 31 ->
  let '(l, (s', kb')) := loop_turn t (s, kb) in let '(l2, y') := reads t y in l = l2 /\ between s' kb' (tn_at t) y'.
Proof.
  intros [Hq Hru -> Hcaps Hk Hm Hd Hh (u & b & Hu & Hn)] Hlen Ht. unfold loop_turn, reads, take_keys.
  destruct (drain_queued 16 (blekbd_key_queue s) (ty_unread y) Hq ltac:(unfold zlen in Hlen; lia)) as [D1 D2].
  destruct (drain_keys 16 (blekbd_key_queue s)) as [l f]. cbn [fst snd] in D1, D2. subst l.
  set (kb := default (ty_screen y) (tn_screen_ru t)). pose proof (heed_spec (tn_toggles t) u b (s <| blekbd_key_queue := f |>) kb Hn) as P. cbv zeta in P.
  rewrite <- Hu in P. rewrite P. clear P. set (sw := tn_toggles t && _). split; [reflexivity|].
  set (s1 := if sw then _ else _).
  assert (Hs1 : blekbd_key_queue s1 = f /\ blekbd_lang_ru s1 = (if sw then negb kb else ty_ru y) /\ blekbd_caps_lock s1 = ty_caps y /\
    blekbd_prev_keys s1 = blekbd_prev_keys s /\ blekbd_prev_modifier s1 = ty_mods y /\ hold_of s1 = hold_of s) by (unfold s1; destruct sw; repeat split; assumption).
  clearbody s1. destruct Hs1 as (Q1 & Q2 & Q3 & Q4 & Q5 & Q6). pose proof Hh as Hh'. rewrite <- Q6 in Hh'. rewrite (repeat_spec t s1 _ _ _ Hh' Ht).
  apply (hold_later _ _ _ (tn_at t)) in Hh; [|lia]. rewrite <- Q4 in Hk. clear Hh'.
  assert (Hidle : forall s2 y2, s2 = s1 ->
      y2 = y <| ty_ru := if sw then negb kb else ty_ru y |> <| ty_screen := if sw then negb kb else kb |> <| ty_unread := [] |> ->
      between s2 (if sw then negb kb else kb) (tn_at t) y2).
  { intros s2 y2 -> ->. split; [|change (0 <= 1); lia|apply not_elem_of_nil]. constructor; cbn [ty_ru ty_screen ty_caps ty_down ty_mods ty_repeat ty_unread constant apply_update].
    - now rewrite Q1. - exact Q2. - reflexivity. - exact Q3. - exact Hk. - exact Q5. - exact Hd. - now rewrite Q6. - exists [], false. split; [reflexivity|apply not_elem_of_nil]. }
  destruct (ty_repeat y) as [[[kc ch] due]|] eqn:Er; [|apply Hidle; reflexivity].
  destruct ((due <=? tn_at t) && repeats_at t ch) eqn:Ed; [|apply Hidle; reflexivity]. apply andb_true_iff in Ed as [Ed _]. apply Z.leb_le in Ed.
  assert (Hc : ch <> BLEKBD_CH_TOGGLE_LANG) by (destruct (hold_of s) as [[[[? ?] ?] ?] ?]; cbn in Hh; destruct Hh as (_ & _ & <- & _ & Hc & _); exact Hc).
  split; [|change (1 <= 1); lia|intros Hi%list_elem_of_singleton; now apply Hc].
  constructor; cbn [ty_ru ty_screen ty_caps ty_down ty_mods ty_repeat ty_unread constant apply_update].
  - change (queued (queue_push ch (blekbd_key_queue s1)) ([] ++ [ch])). rewrite Q1. apply push_queued; [exact D2|reflexivity].
  - exact Q2. - reflexivity. - exact Q3. - exact Hk. - exact Q5. - exact Hd.
  - unfold hold_of in *. cbn [hold_is blekbd_held_active blekbd_held_keycode blekbd_held_char blekbd_held_press_ms blekbd_held_last_repeat_ms constant apply_update].
    cbn [hold_is] in Hh. injection Q6 as Q61 Q62 Q63 Q64 Q65. destruct Hh as (H1 & H2 & H3 & H4 & H5 & H6 & H7).
    change ((blekbd_held_active s1) = true /\ blekbd_held_keycode s1 = kc /\ blekbd_held_char s1 = ch /\ blekbd_held_keycode s1 ∈ ty_down y /\ blekbd_held_char s1 <> BLEKBD_CH_TOGGLE_LANG /\
      0 < blekbd_held_press_ms s1 <= tn_at t /\ ((tn_at t = 0 /\ tn_at t + BLEKBD_KEY_REPEAT_INTERVAL_MS = blekbd_held_press_ms s1 + BLEKBD_KEY_REPEAT_START_MS) \/
        (blekbd_held_press_ms s1 + BLEKBD_KEY_REPEAT_START_MS <= tn_at t <= tn_at t /\ tn_at t + BLEKBD_KEY_REPEAT_INTERVAL_MS = tn_at t + BLEKBD_KEY_REPEAT_INTERVAL_MS))).
    rewrite Q61, Q62, Q63, Q64. unfold BLEKBD_KEY_REPEAT_INTERVAL_MS in *. split_and?; try assumption; lia.
  - exists [ch], false. split; [reflexivity|]. intros Hi%list_elem_of_singleton; now apply Hc.
Qed.
Lemma turns_agree ts : forall s kb now y, between s kb now y -> ordered ts now ->
  let '(l, (s', kb')) := turns ts (s, kb) in let '(l2, y') := reads_all ts y in l = l2 /\ between s' kb' (last_turn ts now) y'.
Proof.
  induction ts as [|t ts IH]; intros s kb now y Hb Ho; [now split|]. cbn [turns reads_all ordered] in *. destruct Ho as [Ht Ho].
  pose proof (turned t s kb now y (bt_agrees _ _ _ _ Hb) ltac:(pose proof (bt_short _ _ _ _ Hb); lia) Ht) as P.
  destruct (loop_turn t (s, kb)) as [l [s1 kb1]], (reads t y) as [l2 y1]. destruct P as [-> P]. specialize (IH s1 kb1 (tn_at t) y1 P Ho).
  destruct (turns ts (s1, kb1)) as [l' [s2 kb2]], (reads_all ts y1) as [l2' y2]. destruct IH as [-> IH]. split; [reflexivity|].
  exact IH.
Qed.
Lemma turns_after t ts s kb now y : agrees s kb now y -> zlen (ty_unread y) <= 15 -> ordered (t :: ts) now ->
  let '(l, (s', kb')) := turns (t :: ts) (s, kb) in let '(l2, y') := reads_all (t :: ts) y in l = l2 /\ between s' kb' (last_turn ts (tn_at t)) y'.
Proof.
  intros Ha Hl [Ht Ho]. cbn [turns reads_all]. pose proof (turned t s kb now y Ha Hl Ht) as P.
  destruct (loop_turn t (s, kb)) as [l [s1 kb1]], (reads t y) as [l2 y1]. destruct P as [-> P]. pose proof (turns_agree ts s1 kb1 (tn_at t) y1 P Ho) as Q.
  destruct (turns ts (s1, kb1)) as [l' [s2 kb2]], (reads_all ts y1) as [l2' y2]. destruct Q as [-> Q]. now split.
Qed.

(** ** Typing *)

Lemma if_len (b : bool) (x : Z) : zlen (if b then [x] else []) <= 1.
Proof. now destruct b. Qed.
Lemma acts_keeps mv now y :
  ty_down (acts mv now y) = down (ty_down y) mv /\ ty_mods (acts mv now y) = mods (ty_mods y) mv /\ zlen (ty_unread (acts mv now y)) <= zlen (ty_unread y) + 2.
Proof.
  destruct y as [ru screen caps held m rep unread], mv as [kc|kc|m']; cbn [acts ty_unread ty_down ty_mods constant apply_update down mods]; (split; [reflexivity|]; split; [reflexivity|]).
  - rewrite zlen_app. pose proof (option_list_len (fst <$> key_does ru caps m kc)). cbn [ty_ru ty_caps ty_mods]. lia.
  - lia.
  - rewrite !zlen_app. cbn [ty_mods ty_down]. pose proof (if_len (has m' BLEKBD_HID_MOD_GUI && negb (has m BLEKBD_HID_MOD_GUI) && bool_decide (held = [])) BLEKBD_CH_OPEN_SETTINGS).
    pose proof (if_len (lang_combo m' && negb (lang_combo m)) BLEKBD_CH_TOGGLE_LANG). lia.
Qed.
Lemma reads_all_keeps ts : forall y, ty_down (snd (reads_all ts y)) = ty_down y /\ ty_mods (snd (reads_all ts y)) = ty_mods y.
Proof.
  induction ts as [|t ts IH]; intros y; [now split|]. cbn [reads_all]. unfold reads. cbv zeta. set (y1 := match ty_repeat y with Some _ => _ | None => _ end).
  assert (H1 : ty_down y1 = ty_down y /\ ty_mods y1 = ty_mods y) by (unfold y1; repeat case_match; now split).
  clearbody y1. specialize (IH y1). destruct (reads_all ts y1) as [l y2]. cbn [snd] in *. destruct IH, H1. split; congruence.
Qed.
Lemma typed_agrees ins : forall s kb last y, between s kb last y -> 0 < last -> played ins (ty_down y) (ty_mods y) last ->
  let '(l, (s', kb')) := hear ins (s, kb) in let '(l2, y') := meant ins y in l = l2 /\ exists now, between s' kb' now y'.
Proof.
  induction ins as [|i ins IH]; intros s kb last y Hb Hl Hp; [split; [reflexivity|now exists last]|].
  cbn [hear meant played] in *. destruct Hp as (P1 & P2 & P3 & P4 & P5 & P6). pose proof (bt_short _ _ _ _ Hb) as Hsh.
  pose proof (translated i s kb last y (bt_agrees _ _ _ _ Hb) ltac:(lia) (bt_plain _ _ _ _ Hb) P1 P2 ltac:(lia)) as A.
  pose proof (acts_keeps (in_move i) (in_at i) y) as Hd.
  destruct Hd as (D1 & D2 & D3). rewrite <- D1, <- D2 in P6. set (s1 := blekbd_translate_report _ _ s) in *. set (y1 := acts _ _ y) in *. clearbody s1 y1.
  destruct (in_turns i) as [|t ts]; [contradiction|].
  pose proof (turns_after t ts s1 kb (in_at i) y1 A ltac:(lia) P5) as Q. pose proof (reads_all_keeps (t :: ts) y1) as K.
  destruct (turns (t :: ts) (s1, kb)) as [l [s2 kb2]], (reads_all (t :: ts) y1) as [l2 y2]. destruct Q as [-> Q]. cbn [snd] in K. destruct K as [K1 K2].
  assert (Hlast : 0 < last_turn ts (tn_at t)).
  { cbn [ordered] in P5. destruct P5 as [T1 T2]. assert (0 < tn_at t) by lia. clear -T2 H. revert T2 H. unfold last_turn. generalize (tn_at t) as a.
    induction ts as [|t' ts IH]; intros a Ho Ha; [exact Ha|]. cbn [foldl ordered] in *. apply IH; [apply Ho|lia]. }
  rewrite <- K1, <- K2 in P6. specialize (IH s2 kb2 _ y2 Q Hlast P6).
  destruct (hear ins (s2, kb2)) as [l' [s3 kb3]], (meant ins y2) as [l2' y3]. destruct IH as [-> IH]. now split.
Qed.

(** The typing a state stands for, when nothing is held. *)
Definition at_rest (s : hid) (kb : bool) : typing := mk_typing (blekbd_lang_ru s) kb (blekbd_caps_lock s) [] (blekbd_prev_modifier s) None [].
Definition resting s : Prop := queued (blekbd_key_queue s) [] /\ slots [] (blekbd_prev_keys s) /\ blekbd_held_active s = false.
Lemma rest_between s kb last : resting s -> between s kb last (at_rest s kb).
Proof.
  intros (Hq & Hk & Ha). split; [|change (0 <= 1); lia|apply not_elem_of_nil].
  constructor; try reflexivity; [exact Hq|exact Hk|exact (List.Forall_nil _)|exact Ha|]. exists [], false. split; [reflexivity|apply not_elem_of_nil].
Qed.


(** ** Texts *)

(** The key that has a character in a layout's table, and the strokes that type it: with
    Shift pressed first and let go last when it is on the shifted side. *)
Definition key_of (table : list Z) (c : Z) : option Z := find (fun kc => zget 0 table kc =? c) (map Z.of_nat (seq 4 53)).
Definition stroke (c : Z) : list move :=
  match key_of BLEKBD_HID_KEYMAP c with
  | Some kc => [Down kc; Up kc]
  | None => match key_of BLEKBD_HID_KEYMAP_SHIFT c with
            | Some kc => [Mods 2; Down kc; Up kc; Mods 0]
            | None => []
            end
  end.
Definition printable (c : Z) : Prop := 32 <= c < 127.
(** Every printable character has its strokes, checked one by one. *)
Definition stroke_good (c : Z) : bool :=
  match key_of BLEKBD_HID_KEYMAP c with
  | Some kc => bool_decide (key_char false false 0 kc = Some c) && negb (kc =? BLEKBD_HID_USAGE_CAPS_LOCK)
  | None => match key_of BLEKBD_HID_KEYMAP_SHIFT c with
            | Some kc => bool_decide (key_char false false 2 kc = Some c) && negb (kc =? BLEKBD_HID_USAGE_CAPS_LOCK)
            | None => false
            end
  end.
Lemma strokes_good c : printable c -> stroke_good c = true.
Proof.
  intros Hc. assert (P : forallb stroke_good (map (fun i => Z.of_nat i + 32) (seq 0 95)) = true) by (vm_compute; reflexivity).
  rewrite forallb_forall in P. apply P. apply in_map_iff. exists (Z.to_nat (c - 32)). unfold printable in Hc. rewrite in_seq. lia.
Qed.
(** No key stays down long enough to repeat. *)
Definition brief (i : input) : Prop := in_turns i <> [] /\ Forall (fun t => tn_at t < in_at i + BLEKBD_KEY_REPEAT_START_MS) (in_turns i).
Lemma reads_brief ru caps held m rep ts : forall scr u, ts <> [] -> BLEKBD_CH_TOGGLE_LANG ∉ u ->
  match rep with Some (_, _, due) => Forall (fun t => tn_at t < due) ts | None => True end ->
  exists scr', reads_all ts (mk_typing ru scr caps held m rep u) = (u, mk_typing ru scr' caps held m rep []).
Proof.
  induction ts as [|t ts IH]; intros scr u Hne Hu Hr; [contradiction|].
  assert (E : reads t (mk_typing ru scr caps held m rep u) = (u, mk_typing ru (default scr (tn_screen_ru t)) caps held m rep [])).
  { unfold reads. cbn [ty_screen ty_unread ty_repeat ty_ru]. rewrite bool_decide_eq_false_2 by exact Hu. rewrite andb_false_r.
    destruct rep as [[[kc ch] due]|]; [|reflexivity]. inversion Hr; subst. rewrite (proj2 (Z.leb_gt due (tn_at t))) by assumption. reflexivity. }
  cbn [reads_all]. rewrite E. destruct ts as [|t' ts]; [exists (default scr (tn_screen_ru t)); cbn [reads_all]; now rewrite app_nil_r|].
  destruct (IH (default scr (tn_screen_ru t)) [] ltac:(discriminate) (not_elem_of_nil _)) as [scr' E']; [destruct rep as [[[? ?] ?]|]; [now inversion Hr|exact I]|].
  rewrite E'. exists scr'. now rewrite app_nil_r.
Qed.
Definition quiet_at (m : Z) (scr : bool) : typing := mk_typing false scr false [] m None [].
Lemma mods_brief i m m' scr ins : in_move i = Mods m' -> brief i -> has m' BLEKBD_HID_MOD_GUI = false -> lang_combo m' = false ->
  exists scr', fst (meant (i :: ins) (quiet_at m scr)) = fst (meant ins (quiet_at m' scr')).
Proof.
  intros Hi [Hne _] Hg Hl. cbn [meant]. rewrite Hi. unfold acts, quiet_at. cbn [ty_mods ty_down ty_unread mods down]. rewrite Hg, Hl. cbn [andb].
  destruct (reads_brief false false [] m' None (in_turns i) scr [] Hne (not_elem_of_nil _) I) as [scr' E]. exists scr'.
  change (reads_all _ _) with (reads_all (in_turns i) (mk_typing false scr false [] m' None [])). rewrite E. now destruct (meant ins _).
Qed.
Lemma key_brief i j m kc c scr ins : in_move i = Down kc -> in_move j = Up kc -> brief i -> brief j -> key_char false false m kc = Some c -> kc <> BLEKBD_HID_USAGE_CAPS_LOCK ->
  exists scr', fst (meant (i :: j :: ins) (quiet_at m scr)) = c :: fst (meant ins (quiet_at m scr')).
Proof.
  intros Hi Hj [Ni Ti] [Nj Tj] Hc Hk. unfold key_char in Hc. destruct (key_does false false m kc) as [[ch r]|] eqn:Ed; [|discriminate]. injection Hc as ->.
  cbn [meant]. rewrite Hi, Hj. set (rep := if r then Some (kc, c, in_at i + BLEKBD_KEY_REPEAT_START_MS) else None).
  assert (E1 : acts (Down kc) (in_at i) (quiet_at m scr) = mk_typing false scr false [kc] m rep [c]).
  { unfold acts, quiet_at. cbn [ty_ru ty_caps ty_mods ty_down ty_repeat down mods]. rewrite Ed. unfold caps_after. rewrite (proj2 (Z.eqb_neq _ _) Hk). unfold rep. now destruct r. }
  rewrite E1. destruct (reads_brief false false [kc] m rep (in_turns i) scr [c] Ni) as [s1 R1].
  { intros He%list_elem_of_singleton. apply (does_no_toggle _ _ _ _ _ Ed). cbn. congruence. }
  { unfold rep. destruct r; [exact Ti|exact I]. }
  rewrite R1. assert (E2 : acts (Up kc) (in_at j) (mk_typing false s1 false [kc] m rep []) = quiet_at m s1).
  { unfold acts, quiet_at. cbn [ty_down ty_repeat down mods]. rewrite filter_cons_False by (intros Hn; now apply Hn). unfold rep. destruct r; [rewrite Z.eqb_refl|]; reflexivity. }
  rewrite E2. destruct (reads_brief false false [] m None (in_turns j) s1 [] Nj (not_elem_of_nil _) I) as [s2 R2]. unfold quiet_at at 1. rewrite R2.
  exists s2. fold (quiet_at m s2). destruct (meant ins (quiet_at m s2)) as [l y]. reflexivity.
Qed.
Lemma stroke_meant c is1 ins scr : printable c -> map in_move is1 = stroke c -> Forall brief is1 ->
  exists scr', fst (meant (is1 ++ ins) (quiet_at 0 scr)) = c :: fst (meant ins (quiet_at 0 scr')).
Proof.
  intros Hc Hs Hb. pose proof (strokes_good c Hc) as Hg. unfold stroke_good in Hg. unfold stroke in Hs. destruct (key_of BLEKBD_HID_KEYMAP c) as [kc|].
  - apply andb_true_iff in Hg as [G1%bool_decide_eq_true G2%negb_true_iff%Z.eqb_neq]. destruct is1 as [|i [|j [|]]]; try discriminate. injection Hs as Hi Hj.
    apply Forall_cons in Hb as [Bi [Bj _]%Forall_cons]. exact (key_brief i j 0 kc c scr ins Hi Hj Bi Bj G1 G2).
  - destruct (key_of BLEKBD_HID_KEYMAP_SHIFT c) as [kc|]; [|discriminate]. apply andb_true_iff in Hg as [G1%bool_decide_eq_true G2%negb_true_iff%Z.eqb_neq].
    destruct is1 as [|h [|i [|j [|k [|]]]]]; try discriminate. injection Hs as Hh Hi Hj Hk.
    apply Forall_cons in Hb as [Bh [Bi [Bj [Bk _]%Forall_cons]%Forall_cons]%Forall_cons]. cbn [app].
    destruct (mods_brief h 0 2 scr (i :: j :: k :: ins) Hh Bh eq_refl eq_refl) as [s1 ->].
    destruct (key_brief i j 2 kc c s1 (k :: ins) Hi Hj Bi Bj G1 G2) as [s2 ->].
    destruct (mods_brief k 2 0 s2 ins Hk Bk eq_refl eq_refl) as [s3 ->]. now exists s3.
Qed.
(** The text that is typed is the text that arrives. *)
Theorem text_typed text ins s kb last : Forall printable text -> resting s -> blekbd_prev_modifier s = 0 -> blekbd_lang_ru s = false -> blekbd_caps_lock s = false ->
  0 < last -> played ins [] 0 last -> map in_move ins = flat_map stroke text -> Forall brief ins -> fst (hear ins (s, kb)) = text.
Proof.
  intros Ht Hs Hm Hru Hc Hl Hp Hi Hb. pose proof (rest_between s kb last Hs) as Hbt.
  pose proof (typed_agrees ins s kb last _ Hbt Hl ltac:(cbn [at_rest ty_down ty_mods]; now rewrite Hm)) as P.
  destruct (hear ins (s, kb)) as [l [s' kb']] eqn:Eh. assert (Em : l = fst (meant ins (at_rest s kb))) by (destruct (meant ins _); apply P). cbn [fst]. rewrite Em.
  unfold at_rest. rewrite Hru, Hc, Hm. fold (quiet_at 0 kb). clear -Ht Hi Hb. revert ins kb Hi Hb. induction Ht as [|c text Hc _ IH]; intros ins kb Hi Hb.
  - destruct ins; [reflexivity|discriminate].
  - cbn [flat_map] in Hi. apply map_eq_app in Hi as (i1 & i2 & -> & H1 & H2). apply Forall_app in Hb as [B1 B2].
    destruct (stroke_meant c i1 i2 kb Hc H1 B1) as [scr ->]. f_equal. now apply IH.
Qed.

(** ** Examples and witnesses *)

Definition keys_report (m : Z) (keys : list Z) : list Z := [m; 0] ++ keys ++ repeat 0 (6 - length keys).
Definition writing (t : Z) : kb_turn := mk_kb_turn t true false true None.
(** The keyboard goes out of range while "a" is down and comes back: the first "a" is lost. *)
Example lost_after_close :
  let s := fst (snd (hear [mk_input (Down 4) (keys_report 0 [4]) 100 [writing 110]] (hid0 false, false))) in
  fst (hear (map (fun k => mk_input (Mods 0) (keys_report 0 k) 200 [writing 210]) [[4]; []; [4]]) (hid_opened false (hid_closed s), false)) = [97].
Proof. vm_compute. reflexivity. Qed.
(** Too many keys at once: the keyboard reports the error in all slots, and when there are
    fewer again, those that were down all the time are typed again. *)
Example rollover_types_again :
  fst (hear (map (fun k => mk_input (Mods 0) (keys_report 0 k) 100 [writing 110]) [[4; 5]; [1; 1; 1; 1; 1; 1]; [4; 5]]) (hid0 false, false)) = [97; 98; 97; 98].
Proof. vm_compute. reflexivity. Qed.
(** A screen that opens sets its own language to English and leaves the keyboard's: it goes
    on typing Russian, and the shortcut then sets both to Russian. *)
Example layout_out_of_step :
  let opens := mk_kb_turn 110 true false true (Some false) in
  fst (hear [mk_input (Down 4) (keys_report 0 [4]) 100 [opens]; mk_input (Up 4) (keys_report 0 []) 150 [writing 160]; mk_input (Mods 6) (keys_report 6 []) 200 [writing 210];
             mk_input (Mods 0) (keys_report 0 []) 220 [writing 230]; mk_input (Down 4) (keys_report 0 [4]) 240 [writing 250]] (hid0 true, true)) =
  [zget 0 BLEKBD_HID_KEYMAP_RU 4; BLEKBD_CH_TOGGLE_LANG; zget 0 BLEKBD_HID_KEYMAP_RU 4].
Proof. vm_compute. reflexivity. Qed.
