(* ===== verification/KeyboardLink.v ===== *)
(** * The connection to the Bluetooth keyboard (BLEKeyboardHost.h)

    Scanning, pairing from the menu, coming back to a paired keyboard: flags that callbacks
    of the Bluetooth stack set and the main loop acts on.  What the stack reports and what
    its calls return come with the events; the calls that open a connection are logged. *)
From Stdlib Require Import String.
From S2P Require Import Prelude Boards Rom Float Framing Kiss Md5 Eeprom Settings HidKeyboard.
From stdpp Require Import list.
#[local] Open Scope Z_scope.

(** ** Data *)

(* @src BLEKeyboardHost.h:60-63 BLEKBD_MAX_DISCOVERED *)
Definition BLEKBD_SCAN_MS : Z := 10000.
Definition BLEKBD_NAME_MAX_LEN : nat := 31.
Definition BLEKBD_MAX_DISCOVERED : nat := 8.
(* @src BLEKeyboardHost.h:176-177 BLEKBD_CONNECT_RETRY_MS *)
Definition BLEKBD_CONNECT_RETRY_MS : Z := 300.
Definition BLEKBD_CONNECT_MAX_WAIT_MS : Z := 12000.
(* @src BLEKeyboardHost.h:147-147 BlekbdScanMode *)
Inductive BlekbdScanMode := BLEKBD_SCAN_IDLE | BLEKBD_SCAN_PASSIVE | BLEKBD_SCAN_ACTIVE_DISCOVERY.
(* @src BLEKeyboardHost.h:150-150 BlekbdPairResult *)
Inductive BlekbdPairResult := BLEKBD_PAIR_NONE | BLEKBD_PAIR_PENDING | BLEKBD_PAIR_OK | BLEKBD_PAIR_FAILED.
#[export] Instance scan_mode_eq_dec : EqDecision BlekbdScanMode.
Proof. solve_decision. Defined.
(** A device seen by a discovery; its name ends at the first zero of 31 bytes. *)
(* @src BLEKeyboardHost.h:104-112 BlekbdDiscovered *)
Record BlekbdDiscovered := mk_BlekbdDiscovered { ds_in_use : bool; ds_addr : list Z; ds_addr_type : Z; ds_name : list Z; ds_rssi : Z; ds_last_seen_ms : Z }.

(* @src BLEKeyboardHost.h:67-70 blekbd_enabled, blekbd_peer_stored *)
Record blekbd (E : Type) := mk_blekbd {
  store : conf E; blekbd_conf_loaded : bool;
  blekbd_enabled : bool; blekbd_peer_stored : bool; blekbd_peer_addr : list Z; blekbd_peer_addr_type : Z;
  blekbd_discovered : list BlekbdDiscovered;
  blekbd_scan_mode : BlekbdScanMode; blekbd_pair_result : BlekbdPairResult; blekbd_pair_result_at_ms : Z;
  blekbd_open_dev : bool; blekbd_connecting : bool; blekbd_found_pending : bool; blekbd_found_addr : list Z; blekbd_found_addr_type : Z;
  blekbd_connect_pending : bool; blekbd_rescan_pending : bool; blekbd_connect_retry_at_ms : Z; blekbd_connect_deadline_ms : Z; blekbd_connect_is_active_pairing : bool;
  blekbd_connected_popup_pending : bool; blekbd_disconnected_popup_pending : bool;
  blekbd_prev_bt_state : Z; keyboard : hid; blekbd_output_report_known : bool;
  gap_scanning : bool;                          (** the stack is scanning *)
  opens : list (list Z * Z)                     (** calls of [esp_hidh_dev_open] *)
}.
Arguments mk_blekbd {E} _ _ _ _ _ _ _ _ _ _ _ _ _ _ _ _ _ _ _ _ _ _ _ _ _ _ _. Arguments store {E} _. Arguments blekbd_conf_loaded {E} _. Arguments blekbd_enabled {E} _.
Arguments blekbd_peer_stored {E} _. Arguments blekbd_peer_addr {E} _. Arguments blekbd_peer_addr_type {E} _. Arguments blekbd_discovered {E} _. Arguments blekbd_scan_mode {E} _. Arguments blekbd_pair_result {E} _.
Arguments blekbd_pair_result_at_ms {E} _. Arguments blekbd_open_dev {E} _. Arguments blekbd_connecting {E} _. Arguments blekbd_found_pending {E} _. Arguments blekbd_found_addr {E} _.
Arguments blekbd_found_addr_type {E} _. Arguments blekbd_connect_pending {E} _. Arguments blekbd_rescan_pending {E} _. Arguments blekbd_connect_retry_at_ms {E} _.
Arguments blekbd_connect_deadline_ms {E} _. Arguments blekbd_connect_is_active_pairing {E} _. Arguments blekbd_connected_popup_pending {E} _. Arguments blekbd_disconnected_popup_pending {E} _.
Arguments blekbd_prev_bt_state {E} _. Arguments keyboard {E} _. Arguments blekbd_output_report_known {E} _. Arguments gap_scanning {E} _. Arguments opens {E} _.

Section Link.
Context {E : Type} `{lib : Eeprom E}.
Abbreviation blekbd := (blekbd E).
Implicit Types (s : blekbd) (addr : list Z) (now : Z).

(** ** Settings *)

(* @src BLEKeyboardHost.h:74-82 blekbd_conf_load *)
Definition blekbd_conf_load s : blekbd :=
  let e := ee (store s) in
  let s := s <| blekbd_enabled := ee_read ADDR_CONF_BLEKBD_ENABLED e =? BLEKBD_ENABLE_BYTE |> <| blekbd_peer_addr_type := ee_read ADDR_CONF_BLEKBD_PEER_ADDR_TYPE e |> in
  let s := s <| blekbd_peer_stored := blekbd_peer_addr_type s <=? 3 |> in
  let s := if blekbd_peer_stored s then s <| blekbd_peer_addr := map (fun i => ee_read (ADDR_CONF_BLEKBD_PEER_ADDR + Z.of_nat i) e) (seq 0 6) |> else s in
  s <| blekbd_conf_loaded := true |>.
(* @src BLEKeyboardHost.h:84-87 blekbd_enabled_conf_save *)
Definition blekbd_enabled_conf_save (on : bool) s : blekbd :=
  s <| blekbd_enabled := on |> <| store ::= upd ADDR_CONF_BLEKBD_ENABLED (if on then BLEKBD_ENABLE_BYTE else BLEKBD_DISABLE_BYTE) |>.
(* @src BLEKeyboardHost.h:89-95 blekbd_peer_conf_save *)
Definition blekbd_peer_conf_save addr (addr_type : Z) s : blekbd :=
  let s := s <| store ::= fun c => foldl (fun c i => upd (ADDR_CONF_BLEKBD_PEER_ADDR + Z.of_nat i) (zget 0 addr (Z.of_nat i)) c) c (seq 0 6) |> in
  let s := s <| store ::= upd ADDR_CONF_BLEKBD_PEER_ADDR_TYPE addr_type |> in
  s <| blekbd_peer_addr := take 6 addr |> <| blekbd_peer_addr_type := addr_type |> <| blekbd_peer_stored := true |>.
(* @src BLEKeyboardHost.h:97-100 blekbd_peer_conf_forget *)
Definition blekbd_peer_conf_forget s : blekbd := s <| store ::= upd ADDR_CONF_BLEKBD_PEER_ADDR_TYPE 0xFF |> <| blekbd_peer_stored := false |>.

(** ** Discovered devices *)

(* @src BLEKeyboardHost.h:114-116 blekbd_discovered_clear *)
Definition blekbd_discovered_clear s : blekbd := s <| blekbd_discovered ::= map (fun d => d <| ds_in_use := false |>) |>.
Definition same_device addr (addr_type : Z) (d : BlekbdDiscovered) : bool := ds_in_use d && bool_decide (ds_addr d = addr) && (ds_addr_type d =? addr_type).
(** The slot of a device that is new: the first that is free, or the one seen longest ago. *)
(* @src BLEKeyboardHost.h:118-142 blekbd_discovered_upsert *)
Definition oldest_device (l : list BlekbdDiscovered) : nat :=
  fst (foldl (fun '(best, oldest_ms) i => match l !! i with
                                           | Some d => if ds_in_use d && (ds_last_seen_ms d <? oldest_ms) then (i, ds_last_seen_ms d) else (best, oldest_ms)
                                           | None => (best, oldest_ms)
                                           end) (O, 4294967295) (seq 0 (length l))).
(* @src BLEKeyboardHost.h:118-143 blekbd_discovered_upsert *)
Definition blekbd_discovered_upsert addr (addr_type : Z) (name : list Z) (rssi now : Z) s : blekbd :=
  match list_find (fun d => same_device addr addr_type d = true) (blekbd_discovered s) with
  | Some (i, d) =>
      let d := d <| ds_rssi := rssi |> <| ds_last_seen_ms := now |> in
      let d := if negb (zlen name =? 0) && (zlen (ds_name d) =? 0) then d <| ds_name := take BLEKBD_NAME_MAX_LEN name |> else d in
      s <| blekbd_discovered ::= insert i d |>
  | None =>
      let i := match list_find (fun d => ds_in_use d = false) (blekbd_discovered s) with Some (i, _) => i | None => oldest_device (blekbd_discovered s) end in
      s <| blekbd_discovered ::= insert i (mk_BlekbdDiscovered true addr addr_type (take BLEKBD_NAME_MAX_LEN name) rssi now) |>
  end.

(** ** Scanning and connecting *)

(** [starts]: whether [ble_gap_disc] succeeds, which is not looked at. *)
(* @src BLEKeyboardHost.h:880-906 blekbd_start_scan *)
Definition blekbd_start_scan (starts : bool) s : blekbd :=
  let s := s <| blekbd_connecting := false |> <| blekbd_found_pending := false |> in
  if starts then s <| gap_scanning := true |> else s.
(* @src BLEKeyboardHost.h:919-923 blekbd_passive_scan_start *)
Definition blekbd_passive_scan_start (starts : bool) s : blekbd := blekbd_start_scan starts (s <| blekbd_scan_mode := BLEKBD_SCAN_PASSIVE |>).
(* @src BLEKeyboardHost.h:926-931 blekbd_discovery_start *)
Definition blekbd_discovery_start (starts : bool) s : blekbd :=
  blekbd_start_scan starts ((blekbd_discovered_clear s) <| blekbd_scan_mode := BLEKBD_SCAN_ACTIVE_DISCOVERY |>).
(* @src BLEKeyboardHost.h:938-940 blekbd_scan_stop *)
Definition blekbd_scan_stop s : blekbd := s <| blekbd_scan_mode := BLEKBD_SCAN_IDLE |>.
(* @src BLEKeyboardHost.h:946-954 blekbd_connect_start *)
Definition blekbd_connect_start addr (addr_type now : Z) s : blekbd :=
  s <| blekbd_found_addr := addr |> <| blekbd_found_addr_type := addr_type |> <| blekbd_connecting := true |> <| blekbd_connect_is_active_pairing := true |> <| blekbd_connect_pending := true |>
    <| blekbd_connect_retry_at_ms := 0 |> <| blekbd_connect_deadline_ms := u32 (now + BLEKBD_CONNECT_MAX_WAIT_MS) |>.
(* @src BLEKeyboardHost.h:958-967 blekbd_stop *)
Definition blekbd_stop s : blekbd :=
  s <| blekbd_open_dev := false |> <| blekbd_connect_pending := false |> <| blekbd_connect_retry_at_ms := 0 |> <| blekbd_rescan_pending := false |> <| blekbd_scan_mode := BLEKBD_SCAN_IDLE |>.

(** What [esp_hidh_dev_open] returns. *)
(* @src BLEKeyboardHost.h:1017-1038 blekbd_loop *)
Definition try_open (opened : bool) now s : blekbd :=
  let s := s <| blekbd_connect_pending := false |> <| opens ::= fun l => l ++ [(blekbd_found_addr s, blekbd_found_addr_type s)] |> in
  if opened then s
  else if i32 (now - blekbd_connect_deadline_ms s) <? 0 then s <| blekbd_connect_retry_at_ms := u32 (now + BLEKBD_CONNECT_RETRY_MS) |>
  else (if blekbd_connect_is_active_pairing s then s <| blekbd_pair_result := BLEKBD_PAIR_FAILED |> else s) <| blekbd_connecting := false |> <| blekbd_connect_is_active_pairing := false |>.
Definition bt_off (b : Z) : bool := (b =? BT_STATE_OFF) || (b =? BT_STATE_NA).
Definition bt_on (b : Z) : bool := (b =? BT_STATE_ON) || (b =? BT_STATE_PAIRING) || (b =? BT_STATE_CONNECTED).
(** The keys that have been queued are returned; [starts] as above. *)
(* @src BLEKeyboardHost.h:971-1075 blekbd_loop *)
Definition blekbd_loop (bt_state now : Z) (opened starts : bool) s : list Z * blekbd :=
  let s := if negb (blekbd_conf_loaded s) then blekbd_conf_load s else s in
  let s := if blekbd_enabled s && bt_off (blekbd_prev_bt_state s) && bt_on bt_state && blekbd_peer_stored s then blekbd_passive_scan_start starts s else s in
  let s := s <| blekbd_prev_bt_state := bt_state |> in
  let s := if negb (blekbd_connect_retry_at_ms s =? 0) && (0 <=? i32 (now - blekbd_connect_retry_at_ms s)) then s <| blekbd_connect_retry_at_ms := 0 |> <| blekbd_connect_pending := true |> else s in
  let s := if blekbd_connect_pending s then try_open opened now s else s in
  let s := if blekbd_rescan_pending s && negb (bt_state =? BT_STATE_OFF) then blekbd_start_scan starts (s <| blekbd_rescan_pending := false |>) else s in
  let '(l, k) := take_keys (keyboard s) in
  let k := if blekbd_caps_led_dirty k && blekbd_output_report_known s && blekbd_open_dev s then k <| blekbd_caps_led_dirty := false |> else k in
  (l, s <| keyboard := k |>).

(** ** Callbacks *)

(** An advertisement: its address, whether it names the HID service, its name. *)
(* @src BLEKeyboardHost.h:785-833 blekbd_gap_event *)
Definition gap_disc addr (addr_type : Z) (is_hid : bool) (name : list Z) (rssi now : Z) s : blekbd :=
  match blekbd_scan_mode s with
  | BLEKBD_SCAN_PASSIVE =>
      if blekbd_peer_stored s && (addr_type =? blekbd_peer_addr_type s) && bool_decide (addr = blekbd_peer_addr s) && negb (blekbd_connecting s) && negb (blekbd_found_pending s)
      then s <| blekbd_found_pending := true |> <| blekbd_found_addr := addr |> <| blekbd_found_addr_type := addr_type |> else s
  | BLEKBD_SCAN_ACTIVE_DISCOVERY => if is_hid then blekbd_discovered_upsert addr addr_type (take BLEKBD_NAME_MAX_LEN name) rssi now s else s
  | BLEKBD_SCAN_IDLE => s
  end.
(* @src BLEKeyboardHost.h:834-854 blekbd_gap_event *)
Definition gap_disc_complete s : blekbd :=
  let s := s <| gap_scanning := false |> in
  if blekbd_found_pending s && negb (blekbd_connecting s) then s <| blekbd_found_pending := false |> <| blekbd_connecting := true |> <| blekbd_connect_pending := true |>
  else if negb (blekbd_connecting s) && negb (bool_decide (blekbd_scan_mode s = BLEKBD_SCAN_IDLE)) then s <| blekbd_rescan_pending := true |> else s.
(* @src BLEKeyboardHost.h:858-866 blekbd_gap_event *)
Definition gap_disconnect s : blekbd := s <| blekbd_connecting := false |> <| blekbd_open_dev := false |> <| blekbd_rescan_pending := true |>.
(** [known]: the keyboard has a report for its lights. *)
(* @src BLEKeyboardHost.h:646-697 blekbd_hidh_cb *)
Definition hid_open (ok known : bool) now s : blekbd :=
  let s := if ok then
             let s := s <| blekbd_open_dev := true |> in
             let s := if blekbd_connect_is_active_pairing s then (blekbd_peer_conf_save (blekbd_found_addr s) (blekbd_found_addr_type s) s) <| blekbd_pair_result := BLEKBD_PAIR_OK |> <| blekbd_pair_result_at_ms := now |>
                      else s <| blekbd_connected_popup_pending := true |> in
             s <| blekbd_output_report_known := known |> <| keyboard ::= hid_opened known |>
           else
             let s := s <| blekbd_connecting := false |> <| blekbd_rescan_pending := true |> in
             if blekbd_connect_is_active_pairing s then s <| blekbd_pair_result := BLEKBD_PAIR_FAILED |> else s in
  s <| blekbd_connect_is_active_pairing := false |>.
(* @src BLEKeyboardHost.h:761-777 blekbd_hidh_cb *)
Definition hid_close s : blekbd :=
  s <| blekbd_open_dev := false |> <| blekbd_connecting := false |> <| blekbd_rescan_pending := true |> <| keyboard ::= hid_closed |> <| blekbd_output_report_known := false |>
    <| blekbd_disconnected_popup_pending := true |>.

(** ** Events *)

Inductive event :=
| Loop (bt_state : Z) (opened starts : bool) | Disc (addr : list Z) (addr_type : Z) (is_hid : bool) (name : list Z) (rssi : Z) | DiscComplete | Disconnect
| Open (ok known : bool) | Close | Report (data : list Z) | MediaReport (data : list Z)
| DiscoveryStart (starts : bool) | ScanStop | ConnectStart (addr : list Z) (addr_type : Z) | Stop.
Definition step (e : event) now s : blekbd :=
  match e with
  | Loop b opened starts => snd (blekbd_loop b now opened starts s)
  | Disc a t h n r => gap_disc a t h n r now s
  | DiscComplete => gap_disc_complete s
  | Disconnect => gap_disconnect s
  | Open ok known => hid_open ok known now s
  | Close => hid_close s
  | Report data => s <| keyboard ::= blekbd_translate_report data now |>
  | MediaReport data => s <| keyboard ::= media_report data |>
  | DiscoveryStart starts => blekbd_discovery_start starts s
  | ScanStop => blekbd_scan_stop s
  | ConnectStart a t => blekbd_connect_start a t now s
  | Stop => blekbd_stop s
  end.
Definition run (l : list (event * Z)) s : blekbd := foldl (fun s '(e, now) => step e now s) s l.
End Link.
