(* ===== verification/KeyboardReconnect.v ===== *)
(** * When a paired keyboard comes back

    While the passive scan runs, a keyboard that is seen is connected to, however often the
    scan has to be started again.  A visit to the scan screen ends the passive scan, and a
    keyboard that is paired there is not connected to again once it has gone. *)
From Stdlib Require Import String.
From S2P Require Import Prelude Boards Rom Float Framing Kiss Md5 Eeprom Settings HidKeyboard KeyboardLink.
From stdpp Require Import list.
#[local] Open Scope Z_scope.

Section Reconnect.
Context {E : Type} `{lib : Eeprom E}.
Abbreviation blekbd := (blekbd E).
Implicit Types (s : blekbd) (now : Z).

(** ** The main loop *)

(** What the loop does to the flags. *)
Definition loop_flags (bt_state now : Z) (opened starts : bool) s : blekbd :=
  let s := if negb (blekbd_conf_loaded s) then blekbd_conf_load s else s in
  let s := if blekbd_enabled s && bt_off (blekbd_prev_bt_state s) && bt_on bt_state && blekbd_peer_stored s then blekbd_passive_scan_start starts s else s in
  let s := s <| blekbd_prev_bt_state := bt_state |> in
  let s := if negb (blekbd_connect_retry_at_ms s =? 0) && (0 <=? i32 (now - blekbd_connect_retry_at_ms s)) then s <| blekbd_connect_retry_at_ms := 0 |> <| blekbd_connect_pending := true |> else s in
  let s := if blekbd_connect_pending s then try_open opened now s else s in
  if blekbd_rescan_pending s && negb (bt_state =? BT_STATE_OFF) then blekbd_start_scan starts (s <| blekbd_rescan_pending := false |>) else s.
Lemma loop_frame b now opened starts s : exists k, snd (blekbd_loop b now opened starts s) = (loop_flags b now opened starts s) <| keyboard := k |>.
Proof. unfold blekbd_loop, loop_flags. cbv zeta. destruct (take_keys _) as [l k]. eexists. reflexivity. Qed.
Lemma on_not_off b : bt_on b = true -> bt_off b = false /\ (b =? BT_STATE_OFF) = false.
Proof.
  unfold bt_on, bt_off, BT_STATE_ON, BT_STATE_OFF, BT_STATE_NA, BT_STATE_PAIRING, BT_STATE_CONNECTED. intros Hb.
  destruct (Z.eqb_spec b 0), (Z.eqb_spec b 255); subst; try discriminate; now split.
Qed.

(** Bluetooth stays on, the settings are loaded, and nothing waits to be opened. *)
Record settled (b : Z) s : Prop := {
  se_on : bt_on b = true; se_prev : blekbd_prev_bt_state s = b; se_loaded : blekbd_conf_loaded s = true;
  se_pending : blekbd_connect_pending s = false; se_retry : blekbd_connect_retry_at_ms s = 0
}.
(** A turn of the loop then only starts the scan again. *)
Lemma settled_loop b now opened starts s : settled b s ->
  loop_flags b now opened starts s =
  if blekbd_rescan_pending s then blekbd_start_scan starts (s <| blekbd_prev_bt_state := b |> <| blekbd_rescan_pending := false |>) else s <| blekbd_prev_bt_state := b |>.
Proof.
  intros [Hon Hp Hl Hc Hr]. destruct (on_not_off b Hon) as [Hoff Hne]. unfold loop_flags. rewrite Hl. cbn [negb]. cbv zeta. rewrite Hp, Hoff, andb_false_r. cbn [andb].
  change (blekbd_connect_retry_at_ms (s <| blekbd_prev_bt_state := b |>)) with (blekbd_connect_retry_at_ms s). rewrite Hr. cbn [negb Z.eqb andb].
  change (blekbd_connect_pending (s <| blekbd_prev_bt_state := b |>)) with (blekbd_connect_pending s). rewrite Hc, Hne. cbn [negb]. rewrite andb_true_r. reflexivity.
Qed.

(** ** Without a scan *)

(** What happens without the user, Bluetooth staying as it is. *)
Definition background (b : Z) (e : event) : Prop :=
  match e with Loop b' _ _ => b' = b | DiscoveryStart _ | ConnectStart _ _ | ScanStop | Stop => False | _ => True end.
Definition idle (b : Z) s : Prop := settled b s /\ blekbd_scan_mode s = BLEKBD_SCAN_IDLE /\ blekbd_found_pending s = false.
Lemma idle_step b e now s : idle b s -> background b e -> idle b (step e now s) /\ opens (step e now s) = opens s.
Proof.
  intros [[Hon Hp Hl Hc Hr] [Hm Hf]] Hb.
  destruct e as [b' opened starts|a t h n r| | |[] known| |data|data|starts| |a t|]; cbn [background step] in *; try contradiction.
  - subst b'. destruct (loop_frame b now opened starts s) as [k ->]. rewrite settled_loop by now constructor. unfold blekbd_start_scan.
    destruct (blekbd_rescan_pending s), starts; repeat split; assumption.
  - unfold gap_disc. rewrite Hm. repeat split; assumption.
  - unfold gap_disc_complete. cbv zeta. change (blekbd_found_pending (s <| gap_scanning := false |>)) with (blekbd_found_pending s).
    change (blekbd_scan_mode (s <| gap_scanning := false |>)) with (blekbd_scan_mode s). rewrite Hm, Hf, bool_decide_eq_true_2, andb_false_r by reflexivity. repeat split; assumption.
  - repeat split; assumption.
  - unfold hid_open. cbv zeta. destruct (blekbd_connect_is_active_pairing _); repeat split; assumption.
  - unfold hid_open. cbv zeta. destruct (blekbd_connect_is_active_pairing _); repeat split; assumption.
  - repeat split; assumption.
  - repeat split; assumption.
  - repeat split; assumption.
Qed.
Lemma idle_run b evs : forall s, idle b s -> Forall (fun '(e, _) => background b e) evs -> opens (run evs s) = opens s.
Proof.
  induction evs as [|[e now] evs IH]; intros s Hs Hb; [reflexivity|]. inversion Hb; subst. cbn [run foldl].
  destruct (idle_step b e now s Hs ltac:(assumption)) as [K1 K2]. unfold run in IH. now rewrite IH.
Qed.

(** C26. A keyboard that is paired does not come back.  When one is found on the scan
    screen, chosen, connected to and stored, the scanning has been stopped for good: while
    Bluetooth stays on, whatever the keyboard advertises, however the connection is lost
    and whatever scans run and end, no connection to it is opened again without the user.
    The passive scan that would is only ever started when Bluetooth comes on. *)
(* @prop error W=paired_keyboard_stays_away_witness D=blekbd_loop,gap_disc,gap_disc_complete,gap_disconnect,hid_open,hid_close,blekbd_discovery_start,blekbd_scan_stop,blekbd_connect_start *)
Theorem paired_keyboard_stays_away b addr addr_type starts starts' known t0 t1 t2 t3 t4 s : settled b s -> length addr = 6%nat ->
  let s' := run [(DiscoveryStart starts, t0); (ScanStop, t1); (ConnectStart addr addr_type, t2); (Loop b true starts', t3); (Open true known, t4)] s in
  blekbd_peer_stored s' = true /\ blekbd_peer_addr s' = addr /\ blekbd_peer_addr_type s' = addr_type /\ opens s' = opens s ++ [(addr, addr_type)] /\
  forall evs, Forall (fun '(e, _) => background b e) evs -> opens (run evs s') = opens s'.
Proof.
  intros [Hon Hp Hl Hc Hr] Ha. destruct (on_not_off b Hon) as [Hoff Hne]. cbv zeta. cbn [run foldl step].
  set (s1 := blekbd_connect_start addr addr_type t2 (blekbd_scan_stop (blekbd_discovery_start starts s))).
  assert (P : blekbd_prev_bt_state s1 = b /\ blekbd_conf_loaded s1 = true /\ blekbd_connect_pending s1 = true /\ blekbd_connect_retry_at_ms s1 = 0 /\
    blekbd_scan_mode s1 = BLEKBD_SCAN_IDLE /\ blekbd_found_pending s1 = false /\ blekbd_found_addr s1 = addr /\ blekbd_found_addr_type s1 = addr_type /\
    blekbd_connect_is_active_pairing s1 = true /\ opens s1 = opens s).
  { unfold s1, blekbd_discovery_start, blekbd_start_scan. destruct starts; repeat split; assumption. }
  clearbody s1. destruct P as (P1 & P2 & P3 & P4 & P5 & P6 & P7 & P8 & P9 & P10).
  destruct (loop_frame b t3 true starts' s1) as [k ->].
  set (s2 := loop_flags b t3 true starts' s1). assert (Q : blekbd_prev_bt_state s2 = b /\ blekbd_conf_loaded s2 = true /\ blekbd_connect_pending s2 = false /\ blekbd_connect_retry_at_ms s2 = 0 /\
    blekbd_scan_mode s2 = BLEKBD_SCAN_IDLE /\ blekbd_found_pending s2 = false /\ blekbd_found_addr s2 = addr /\ blekbd_found_addr_type s2 = addr_type /\
    blekbd_connect_is_active_pairing s2 = true /\ opens s2 = opens s ++ [(addr, addr_type)]).
  { unfold s2, loop_flags. rewrite P2. cbn [negb]. cbv zeta. rewrite P1, Hoff, andb_false_r. cbn [andb].
    change (blekbd_connect_retry_at_ms (s1 <| blekbd_prev_bt_state := b |>)) with (blekbd_connect_retry_at_ms s1). rewrite P4. cbn [negb Z.eqb andb].
    change (blekbd_connect_pending (s1 <| blekbd_prev_bt_state := b |>)) with (blekbd_connect_pending s1). rewrite P3. unfold try_open. cbv zeta.
    rewrite <- P10, <- P7, <- P8. unfold blekbd_start_scan. destruct (_ && negb (b =? BT_STATE_OFF)), starts'; repeat split; assumption. }
  clearbody s2. destruct Q as (Q1 & Q2 & Q3 & Q4 & Q5 & Q6 & Q7 & Q8 & Q9 & Q10).
  set (s3 := s2 <| keyboard := k |>). unfold hid_open. cbv zeta.
  change (blekbd_connect_is_active_pairing (s3 <| blekbd_open_dev := true |>)) with (blekbd_connect_is_active_pairing s2). rewrite Q9.
  set (s4 := _ <| blekbd_connect_is_active_pairing := false |>).
  assert (R : idle b s4) by (repeat split; assumption).
  split; [reflexivity|]. split; [|split; [exact Q8|split; [exact Q10|intros evs He; now apply (idle_run b)]]].
  change (blekbd_peer_addr s4) with (take 6 (blekbd_found_addr s2)). rewrite Q7. apply take_ge. lia.
Qed.

(** ** While the passive scan runs *)

Record searching (b : Z) s : Prop := {
  sr_settled : settled b s; sr_mode : blekbd_scan_mode s = BLEKBD_SCAN_PASSIVE; sr_peer : blekbd_peer_stored s = true;
  sr_connecting : blekbd_connecting s = false; sr_found : blekbd_found_pending s = false; sr_rescan : blekbd_rescan_pending s = false
}.
(** An advertisement, and those of others. *)
Record advert := mk_advert { av_addr : list Z; av_type : Z; av_hid : bool; av_name : list Z; av_rssi : Z; av_at : Z }.
Definition heard (a : advert) : event * Z := (Disc (av_addr a) (av_type a) (av_hid a) (av_name a) (av_rssi a), av_at a).
Definition stranger s (a : advert) : Prop := (av_addr a, av_type a) <> (blekbd_peer_addr s, blekbd_peer_addr_type s).
(** A scan during which only others are heard, and the turn of the loop behind it. *)
Definition round (b : Z) (r : list advert * Z * Z) : list (event * Z) := let '(l, t, u) := r in map heard l ++ [(DiscComplete, t); (Loop b false true, u)].
Lemma stranger_ignored s a now : blekbd_scan_mode s = BLEKBD_SCAN_PASSIVE -> stranger s a -> step (fst (heard a)) now s = s.
Proof.
  intros Hm Hn. cbn [heard fst step]. unfold gap_disc. rewrite Hm. destruct (blekbd_peer_stored s); [|reflexivity]. cbn [andb].
  destruct (Z.eqb_spec (av_type a) (blekbd_peer_addr_type s)) as [Et|]; [|reflexivity]. cbn [andb].
  rewrite bool_decide_eq_false_2; [reflexivity|]. intros Ea. apply Hn. now rewrite Et, Ea.
Qed.
Lemma strangers_ignored l : forall s, blekbd_scan_mode s = BLEKBD_SCAN_PASSIVE -> Forall (stranger s) l -> run (map heard l) s = s.
Proof.
  induction l as [|a l IH]; intros s Hm Hl; [reflexivity|]. inversion Hl; subst. cbn [map run foldl heard]. change (step _ _ s) with (step (fst (heard a)) (av_at a) s).
  rewrite stranger_ignored by assumption. now apply IH.
Qed.
Lemma round_searching b r s : searching b s -> Forall (stranger s) (fst (fst r)) ->
  let s' := run (round b r) s in
  searching b s' /\ gap_scanning s' = true /\ opens s' = opens s /\ blekbd_peer_addr s' = blekbd_peer_addr s /\ blekbd_peer_addr_type s' = blekbd_peer_addr_type s.
Proof.
  destruct r as [[l t] u]. cbn [fst]. intros [[Hon Hp Hl Hc Hr] Hm Hs Hcn Hf Hrs] Hst. cbv zeta. unfold run, round. rewrite foldl_app. fold (run (map heard l) s).
  rewrite strangers_ignored by assumption. cbn [foldl step]. unfold gap_disc_complete. cbv zeta.
  change (blekbd_found_pending (s <| gap_scanning := false |>)) with (blekbd_found_pending s). change (blekbd_connecting (s <| gap_scanning := false |>)) with (blekbd_connecting s).
  change (blekbd_scan_mode (s <| gap_scanning := false |>)) with (blekbd_scan_mode s). rewrite Hf, Hcn, Hm. rewrite bool_decide_eq_false_2 by discriminate. cbn [andb negb].
  set (s1 := s <| gap_scanning := false |> <| blekbd_rescan_pending := true |>). destruct (loop_frame b u false true s1) as [k ->].
  rewrite settled_loop by (constructor; assumption). change (blekbd_rescan_pending s1) with true. cbv iota. unfold blekbd_start_scan. repeat split; assumption.
Qed.
Lemma rounds_searching b rs : forall s, searching b s -> Forall (fun r => Forall (stranger s) (fst (fst r))) rs ->
  let s' := run (flat_map (round b) rs) s in
  searching b s' /\ opens s' = opens s /\ blekbd_peer_addr s' = blekbd_peer_addr s /\ blekbd_peer_addr_type s' = blekbd_peer_addr_type s.
Proof.
  induction rs as [|r rs IH]; intros s Hs Hr; [cbv zeta; split; [exact Hs|now split_and!]|]. inversion Hr as [|? ? Hr1 Hr2]; subst. cbv zeta. cbn [flat_map]. unfold run. rewrite foldl_app.
  fold (run (round b r) s). destruct (round_searching b r s Hs Hr1) as (H1 & _ & H2 & H3 & H4). set (s1 := run (round b r) s) in *. clearbody s1.
  destruct (IH s1 H1) as (K1 & K2 & K3 & K4).
  { eapply Forall_impl; [exact Hr2|]. intros r' Hr'. eapply Forall_impl; [exact Hr'|]. unfold stranger. intros a Ha. rewrite H3, H4. exact Ha. }
  fold (run (flat_map (round b) rs) s1). split; [exact K1|]. split_and!; congruence.
Qed.

(** A keyboard that is seen is connected to.  However many scans run out without it,
    each is started again; and when the paired keyboard is heard during one, before or
    after any others, the turn of the main loop behind that scan opens the connection to
    it, and to nothing else. *)
Theorem seen_keyboard_connects b rs l1 l2 a t u opened starts s : searching b s ->
  Forall (fun r => Forall (stranger s) (fst (fst r))) rs -> Forall (stranger s) l1 -> (av_addr a, av_type a) = (blekbd_peer_addr s, blekbd_peer_addr_type s) ->
  opens (run (flat_map (round b) rs ++ map heard (l1 ++ a :: l2) ++ [(DiscComplete, t); (Loop b opened starts, u)]) s) =
  opens s ++ [(blekbd_peer_addr s, blekbd_peer_addr_type s)].
Proof.
  intros Hs Hr Hl Ha. unfold run. rewrite !foldl_app. fold (run (flat_map (round b) rs) s). destruct (rounds_searching b rs s Hs Hr) as (H1 & H2 & H3 & H4).
  set (s1 := run _ s) in *. clearbody s1. rewrite map_app, foldl_app. fold (run (map heard l1) s1). cbn [map foldl].
  assert (Hst : Forall (stranger s1) l1) by (eapply Forall_impl; [exact Hl|]; unfold stranger; intros x Hx; rewrite H3, H4; exact Hx).
  destruct H1 as [[Hon Hp Hld Hc Hrt] Hm Hps Hcn Hf Hrs]. rewrite strangers_ignored by assumption.
  rewrite <- H2, <- H3, <- H4 in *. clear H2 H3 H4 Hs Hr Hl s. injection Ha as Ea Et. cbn [heard step].
  assert (Hd : gap_disc (av_addr a) (av_type a) (av_hid a) (av_name a) (av_rssi a) (av_at a) s1 =
    s1 <| blekbd_found_pending := true |> <| blekbd_found_addr := blekbd_peer_addr s1 |> <| blekbd_found_addr_type := blekbd_peer_addr_type s1 |>).
  { unfold gap_disc. rewrite Hm, Hps, Ea, Et, Z.eqb_refl, bool_decide_eq_true_2, Hcn, Hf by reflexivity. reflexivity. }
  rewrite Hd. set (s2 := s1 <| blekbd_found_pending := true |> <| blekbd_found_addr := _ |> <| blekbd_found_addr_type := _ |>).
  assert (Hl2 : forall l, foldl (fun s '(e, now) => step e now s) s2 (map heard l) = s2).
  { induction l as [|x l IH]; [reflexivity|]. cbn [map foldl heard step]. rewrite <- IH at 2. f_equal. unfold gap_disc. change (blekbd_scan_mode s2) with (blekbd_scan_mode s1).
    rewrite Hm. change (blekbd_found_pending s2) with true. cbn [negb]. now rewrite andb_false_r. }
  rewrite Hl2. cbn [foldl step]. unfold gap_disc_complete. cbv zeta. change (blekbd_connecting (s2 <| gap_scanning := false |>)) with (blekbd_connecting s1). rewrite Hcn. cbn [negb].
  set (s3 := s2 <| gap_scanning := false |> <| blekbd_found_pending := false |> <| blekbd_connecting := true |> <| blekbd_connect_pending := true |>).
  change (if blekbd_found_pending (s2 <| gap_scanning := false |>) && true then s3 else _) with s3.
  destruct (loop_frame b u opened starts s3) as [k ->]. change (opens ((loop_flags b u opened starts s3) <| keyboard := k |>)) with (opens (loop_flags b u opened starts s3)).
  destruct (on_not_off b Hon) as [Hoff Hne]. unfold loop_flags. change (blekbd_conf_loaded s3) with (blekbd_conf_loaded s1). change (blekbd_prev_bt_state s3) with (blekbd_prev_bt_state s1).
  rewrite Hld. cbn [negb]. cbv zeta. change (blekbd_prev_bt_state s3) with (blekbd_prev_bt_state s1). rewrite Hp, Hoff, andb_false_r. cbn [andb].
  change (blekbd_connect_retry_at_ms (s3 <| blekbd_prev_bt_state := b |>)) with (blekbd_connect_retry_at_ms s1). rewrite Hrt. cbn [negb Z.eqb andb].
  change (blekbd_connect_pending (s3 <| blekbd_prev_bt_state := b |>)) with true. cbv iota. unfold try_open, blekbd_start_scan. cbv zeta.
  destruct opened; [destruct (_ && negb (b =? BT_STATE_OFF)), starts; reflexivity|].
  destruct (i32 _ <? 0); [destruct (_ && negb (b =? BT_STATE_OFF)), starts; reflexivity|].
  destruct (blekbd_connect_is_active_pairing _), (_ && negb (b =? BT_STATE_OFF)), starts; reflexivity.
Qed.
End Reconnect.

(** ** Concrete runs *)

Definition no_devices : list BlekbdDiscovered := repeat (mk_BlekbdDiscovered false [] 0 [] 0 0) BLEKBD_MAX_DISCOVERED.
(** Bluetooth is on; a keyboard is stored and searched for, or none is. *)
Definition host (stored : bool) : blekbd image :=
  mk_blekbd (mk_conf ∅ (default_prefs f_zero f_zero) []) true true stored (if stored then [1; 2; 3; 4; 5; 6] else repeat 0 6) 1 no_devices
    (if stored then BLEKBD_SCAN_PASSIVE else BLEKBD_SCAN_IDLE) BLEKBD_PAIR_NONE 0 false false false [] 0 false false 0 0 false false false BT_STATE_ON (hid0 false) false stored [].
Definition turn (t : Z) : event * Z := (Loop BT_STATE_ON true true, t).
Definition seen (t : Z) : event * Z := (Disc [1; 2; 3; 4; 5; 6] 1 true [75] (-60), t).
Lemma paired_keyboard_stays_away_witness :
  let s' := run [(DiscoveryStart true, 10); (ScanStop, 5000); (ConnectStart [1; 2; 3; 4; 5; 6] 1, 5000); turn 5010; (Open true true, 6000)] (host false) in
  opens s' = [([1; 2; 3; 4; 5; 6], 1)] /\
  opens (run [(DiscComplete, 10010); turn 10020; (Close, 90000); turn 90010; seen 91000; (DiscComplete, 100010); turn 100020; seen 101000] s') = [([1; 2; 3; 4; 5; 6], 1)].
Proof.
  destruct (@paired_keyboard_stays_away _ image_eeprom BT_STATE_ON [1; 2; 3; 4; 5; 6] 1 true true true 10 5000 5000 5010 6000 (host false)
    ltac:(constructor; reflexivity) eq_refl) as (_ & _ & _ & Ho & Hb).
  cbv zeta. split; [exact Ho|]. etransitivity; [apply Hb|exact Ho]. repeat constructor.
Defined.
Lemma seen_keyboard_connects_witness :
  opens (run [(DiscComplete, 10000); (Loop BT_STATE_ON false true, 10010);
    (Disc [9; 9; 9; 9; 9; 9] 0 true [] (-40), 11000); seen 12000; seen 12100; (DiscComplete, 20010); (Loop BT_STATE_ON true true, 20020)] (host true)) = [([1; 2; 3; 4; 5; 6], 1)].
Proof.
  refine (@seen_keyboard_connects _ image_eeprom BT_STATE_ON [([], 10000, 10010)] [mk_advert [9; 9; 9; 9; 9; 9] 0 true [] (-40) 11000]
    [mk_advert [1; 2; 3; 4; 5; 6] 1 true [75] (-60) 12100] (mk_advert [1; 2; 3; 4; 5; 6] 1 true [75] (-60) 12000) 20010 20020 true true (host true) _ _ _ eq_refl).
  - constructor; [constructor; reflexivity|reflexivity..].
  - repeat constructor.
  - constructor; [discriminate|constructor].
Defined.
(** A connection of the background that is refused at once is not tried again, and no
    scan follows: the deadline is that of the last pairing, long over. *)
Example refused_once_gives_up :
  let s := run [seen 12000; (DiscComplete, 20010); (Loop BT_STATE_ON false true, 20020)] (host true) in
  opens s = [([1; 2; 3; 4; 5; 6], 1)] /\ gap_scanning s = false /\ blekbd_scan_mode s = BLEKBD_SCAN_PASSIVE /\
  run (map turn [20030; 60000; 3000000]) s = s.
Proof. vm_compute. now split_and!. Qed.
