(* ===== verification/Keyboard.v ===== *)
(** * The on-screen keyboard (Menu.h, Messenger.h)

    One screen types messages, names, hashes, keys and passphrases: the grids and the
    cursor that walks them, the one-byte Cyrillic code page of the display font and its
    translation from and to UTF-8, inserting, deleting, holding and chording keys, and
    what SEND does for each purpose.  Characters are bytes in [Z]; a C string is the list
    of the bytes before its NUL. *)
From Stdlib Require Import String Ascii.
From S2P Require Import Prelude Identity Controls.

Definition chars (s : string) : list Z := map (fun c => Z.of_nat (nat_of_ascii c)) (list_ascii_of_string s).

(** ** Purposes and grids *)

(* @src Menu.h:1251-1257 MSNGR_KB_ROWS *)
Definition MSNGR_KB_ROWS : Z := 4.
Definition MSNGR_KB_COLS : Z := 11.
Definition MSNGR_KB_KEY_COUNT : Z := MSNGR_KB_ROWS * MSNGR_KB_COLS.
Definition MSNGR_TEXT_ENTRY_MAX_LEN : Z := 140.
(* @src Messenger.h:45-45 MSNGR_NAME_MAX_LEN *)
Definition MSNGR_NAME_MAX_LEN : Z := 31.
(** Of microLXMF. *)
Definition PEER_HASH_SIZE : Z := 16.

(* @src Menu.h:1274-1282 MSNGR_TEXT_ENTRY_PURPOSE_MESSAGE *)
Inductive purpose := MESSAGE | DISPLAY_NAME | PRESET | BOOKMARK_HASH | BOOKMARK_RENAME | IDENTITY_RESTORE | WIFI_SSID | WIFI_PSK | VOICE_TEXT.
#[export] Instance purpose_eq_dec : EqDecision purpose.
Proof. solve_decision. Defined.

(* @src Menu.h:1338-1343 MSNGR_KB_LAYOUT *)
Definition MSNGR_KB_LAYOUT : list (list Z) :=
  [chars "1234567890" ++ [8]; chars "qwertyuiop" ++ [10]; chars "asdfghjkl" ++ [2; 32]; chars "zxcvbnm.,?" ++ [27]].
(* @src Menu.h:1374-1379 MSNGR_KB_LAYOUT_RU *)
Definition MSNGR_KB_LAYOUT_RU : list (list Z) :=
  [[0xA3; 0x80; 0xA8; 0xB7; 0xBC; 0xBF; 0xC0] ++ chars "-/@" ++ [8];
   [0xAB; 0xB8; 0xB5; 0xAC; 0xA7; 0xAF; 0xA5; 0xBA; 0xBB; 0xA9; 10];
   [0xB6; 0xBD; 0xA4; 0xA2; 0xB1; 0xB2; 0xB0; 0xAD; 0xA6; 2; 32];
   [0xC1; 0xB9; 0xB3; 0xAE; 0xAA; 0xB4; 0xBE] ++ chars ".,?" ++ [27]].
(* @src Menu.h:1417-1422 MSNGR_KB_LAYOUT_HEX *)
Definition MSNGR_KB_LAYOUT_HEX : list (list Z) :=
  [chars "0123456789" ++ [8]; chars "ABCDEF" ++ repeat 0 4 ++ [10]; [4] ++ repeat 0 9 ++ [27]].
Definition MSNGR_KB_HEX_ROWS : Z := 3.
(* @src Menu.h:1435-1440 MSNGR_KB_LAYOUT_BASE32 *)
Definition MSNGR_KB_LAYOUT_BASE32 : list (list Z) :=
  [chars "ABCDEFGHIJ" ++ [8]; chars "KLMNOPQRST" ++ [10]; chars "UVWXYZ2345" ++ [27]; chars "67=" ++ repeat 0 8].
(* @src Menu.h:1481-1486 MSNGR_KB_LAYOUT_SYMBOLS *)
Definition MSNGR_KB_LAYOUT_SYMBOLS : list (list Z) :=
  [[33; 34] ++ chars "#$%&'()*" ++ [8]; chars "+,-./:;<=>" ++ [10]; chars "?@[\]^_`{" ++ [2; 32]; chars "|}~" ++ repeat 0 7 ++ [27]].

Definition row_order (r : Z) (n : nat) : list (Z * Z) := map (fun c => (r, Z.of_nat c)) (List.seq 0 n).
(* @src Menu.h:3496-3504 MSNGR_KB_HEX_ORDER *)
Definition MSNGR_KB_HEX_ORDER : list (Z * Z) := row_order 0 10 ++ row_order 1 6 ++ [(0, 10); (1, 10); (2, 0); (2, 10)].
Definition MSNGR_KB_HEX_KEY_COUNT : Z := 20.
(* @src Menu.h:1448-1457 MSNGR_KB_BASE32_ORDER *)
Definition MSNGR_KB_BASE32_ORDER : list (Z * Z) := row_order 0 11 ++ row_order 1 11 ++ row_order 2 11 ++ row_order 3 3.
Definition MSNGR_KB_BASE32_KEY_COUNT : Z := 36.

(* @src Menu.h:1488-1495 MSNGR_KB_CHAR *)
Inductive key_type := KB_CHAR | KB_BACKSPACE | KB_SEND | KB_SPACE | KB_SHIFT | KB_BACK | KB_NONE | KB_TYPE_TOGGLE.
(* @src Menu.h:1497-1506 msngr_kb_key_type *)
Definition msngr_kb_key_type (ch : Z) : key_type :=
  if ch =? 0 then KB_NONE else if ch =? 8 then KB_BACKSPACE else if ch =? 10 then KB_SEND else if ch =? 32 then KB_SPACE
  else if ch =? 2 then KB_SHIFT else if ch =? 27 then KB_BACK else if ch =? 4 then KB_TYPE_TOGGLE else KB_CHAR.
(* @src Menu.h:1517-1517 MSNGR_KB_ALT_HOLD_MS *)
Definition MSNGR_KB_ALT_HOLD_MS : Z := 900.

(* @src Menu.h:1528-1535 msngr_kb_apply_shift *)
Definition msngr_kb_apply_shift (ch : Z) (shift_on : bool) : Z :=
  if negb shift_on then ch
  else if (97 <=? ch) && (ch <=? 122) then ch - 97 + 65
  else if ch =? 0xA1 then 0x80
  else if (0xA2 <=? ch) && (ch <=? 0xC1) then ch - 0x21
  else ch.
(* @src Menu.h:1560-1568 msngr_kb_alt_pair *)
Definition msngr_kb_alt_pair (ch : Z) : Z :=
  if ch =? 46 then 58 else if ch =? 44 then 59 else if ch =? 63 then 33
  else if ch =? 45 then 43 else if ch =? 47 then 92 else if ch =? 64 then 35 else 0.

(* @src Menu.h:3459-3471 msngr_kb_active_layout *)
Definition msngr_kb_active_layout (p : purpose) (lang_ru : bool) : list (list Z) :=
  match p with
  | BOOKMARK_HASH => MSNGR_KB_LAYOUT_HEX
  | IDENTITY_RESTORE => MSNGR_KB_LAYOUT_BASE32
  | WIFI_SSID | WIFI_PSK => if lang_ru then MSNGR_KB_LAYOUT_SYMBOLS else MSNGR_KB_LAYOUT
  | _ => if lang_ru then MSNGR_KB_LAYOUT_RU else MSNGR_KB_LAYOUT
  end.
(* @src Menu.h:3484-3486 msngr_kb_active_rows *)
Definition msngr_kb_active_rows (p : purpose) : Z := if decide (p = BOOKMARK_HASH) then MSNGR_KB_HEX_ROWS else MSNGR_KB_ROWS.
(* @src Menu.h:3512-3525 msngr_kb_cursor_rc *)
Definition msngr_kb_cursor_rc (p : purpose) (cursor : Z) : Z * Z :=
  match p with
  | BOOKMARK_HASH => zget (0, 0) MSNGR_KB_HEX_ORDER cursor
  | IDENTITY_RESTORE => zget (0, 0) MSNGR_KB_BASE32_ORDER cursor
  | _ => (cursor / MSNGR_KB_COLS, cursor mod MSNGR_KB_COLS)
  end.
(* @src Menu.h:3534-3538 msngr_kb_active_key_count *)
Definition msngr_kb_active_key_count (p : purpose) : Z :=
  match p with BOOKMARK_HASH => MSNGR_KB_HEX_KEY_COUNT | IDENTITY_RESTORE => MSNGR_KB_BASE32_KEY_COUNT | _ => MSNGR_KB_KEY_COUNT end.
(** The key under the cursor, as every handler reads it. *)
(* @src Menu.h:7939-7942 menu_confirm_select *)
Definition key_under (p : purpose) (lang_ru : bool) (cursor : Z) : Z :=
  let '(kb_row, kb_col) := msngr_kb_cursor_rc p cursor in zget 0 (zget [] (msngr_kb_active_layout p lang_ru) kb_row) kb_col.

(** One candidate of the search of [msngr_kb_nav_col]: the nearest cell so far. *)
(* @src Menu.h:3564-3573 msngr_kb_nav_col *)
Definition nav_col_step (p : purpose) (dir row col : Z) (best : option (Z * Z)) (i : Z) : option (Z * Z) :=
  let '(r, c) := msngr_kb_cursor_rc p i in
  if negb (r =? row) then best
  else if dir <? 0 then
    if (c <? col) && match best with None => true | Some (bc, _) => bc <? c end then Some (c, i) else best
  else if (col <? c) && match best with None => true | Some (bc, _) => c <? bc end then Some (c, i) else best.

Definition cursors (p : purpose) : list Z := map Z.of_nat (List.seq 0 (Z.to_nat (msngr_kb_active_key_count p))).
(* @src Menu.h:3557-3575 msngr_kb_nav_col *)
Definition msngr_kb_nav_col (p : purpose) (dir cursor : Z) : Z :=
  let '(row, col) := msngr_kb_cursor_rc p cursor in
  match foldl (nav_col_step p dir row col) None (cursors p) with Some (_, i) => i | None => cursor end.
(* @src Menu.h:3593-3600 msngr_kb_nav_row *)
Definition nav_row_step (p : purpose) (target_row col : Z) (best : option (Z * Z)) (i : Z) : option (Z * Z) :=
  let '(r, c) := msngr_kb_cursor_rc p i in
  if negb (r =? target_row) then best
  else let dist := Z.abs (c - col) in
       if match best with None => true | Some (bd, _) => dist <? bd end then Some (dist, i) else best.
(* @src Menu.h:3584-3602 msngr_kb_nav_row *)
Definition msngr_kb_nav_row (p : purpose) (dir cursor : Z) : Z :=
  let '(row, col) := msngr_kb_cursor_rc p cursor in
  let target_row := row + dir in
  if (target_row <? 0) || (msngr_kb_active_rows p <=? target_row) then cursor
  else match foldl (nav_row_step p target_row col) None (cursors p) with Some (_, i) => i | None => cursor end.
(* @src Menu.h:4178-4188 menu_clamp_cursor *)
Definition menu_clamp_cursor (cursor dir count : Z) (wrap : bool) : Z :=
  let c := i8 (i8 cursor + (if 0 <? dir then 1 else -1)) in
  if wrap then
    let c := if c <? 0 then i8 (i8 count - 1) else c in
    let c := if i8 count - 1 <? c then 0 else c in u8 c
  else
    let c := if c <? 0 then 0 else c in
    let c := if i8 count - 1 <? c then i8 (count - 1) else c in u8 c.

(** ** The code page *)

(** The two bytes of a Cyrillic letter, in UTF-8. *)
(* @src Menu.h:1581-1589 msngr_kb_expand_utf8 *)
Definition codepoint (b : Z) : option Z :=
  if b =? 0x80 then Some 0x0401
  else if (0x81 <=? b) && (b <=? 0xA0) then Some (0x0410 + (b - 0x81))
  else if b =? 0xA1 then Some 0x0451
  else if (0xA2 <=? b) && (b <=? 0xC1) then Some (0x0430 + (b - 0xA2))
  else None.
Definition utf8_of (b : Z) : list Z :=
  match codepoint b with
  | Some cp => [Z.lor 0xC0 (Z.shiftr cp 6); Z.lor 0x80 (Z.land cp 0x3F)]
  | None => [b]
  end.
(** [room] is what is left of [out_cap]. *)
(* @src Menu.h:1578-1592 msngr_kb_expand_utf8 *)
Fixpoint msngr_kb_expand_utf8 (input : list Z) (room : Z) : list Z :=
  match input with
  | [] => []
  | b :: rest => if 3 <? room then utf8_of b ++ msngr_kb_expand_utf8 rest (room - zlen (utf8_of b)) else []
  end.
(* @src Menu.h:1604-1611 msngr_kb_utf8_len *)
Fixpoint msngr_kb_utf8_len (input : list Z) : Z :=
  match input with [] => 0 | b :: rest => (if (0x80 <=? b) && (b <=? 0xC1) then 2 else 1) + msngr_kb_utf8_len rest end.

(** The glyph of a code point. *)
(* @src Messenger.h:512-516 msngr_kb_decode_utf8 *)
Definition glyph_of (cp : Z) : Z :=
  if cp =? 0x0401 then 0x80
  else if (0x0410 <=? cp) && (cp <=? 0x042F) then 0x81 + (cp - 0x0410)
  else if cp =? 0x0451 then 0xA1
  else if (0x0430 <=? cp) && (cp <=? 0x044F) then 0xA2 + (cp - 0x0430)
  else 63.
(** The bytes of a sequence after its first, up to the first that does not continue it;
    [None] for a sequence cut short, by the NUL or by another byte. *)
(* @src Messenger.h:503-508 msngr_kb_decode_utf8 *)
Fixpoint continuation (k : nat) (cp : Z) (input : list Z) : option (Z * list Z) :=
  match k with
  | O => Some (cp, input)
  | S k => match input with
           | bk :: rest => if Z.land bk 0xC0 =? 0x80 then continuation k (Z.lor (u32 (Z.shiftl cp 6)) (Z.land bk 0x3F)) rest else None
           | [] => None
           end
  end.
(* @src Messenger.h:490-495 msngr_kb_decode_utf8 *)
Definition lead (b0 : Z) : option (nat * Z) :=
  if Z.land b0 0xE0 =? 0xC0 then Some (1%nat, Z.land b0 0x1F)
  else if Z.land b0 0xF0 =? 0xE0 then Some (2%nat, Z.land b0 0x0F)
  else if Z.land b0 0xF8 =? 0xF0 then Some (3%nat, Z.land b0 0x07)
  else None.
(** One character of the input: what is written, and what is left to read. *)
(* @src Messenger.h:487-517 msngr_kb_decode_utf8 *)
Definition decode_char (b0 : Z) (rest : list Z) : Z * list Z :=
  if b0 <? 0x80 then (b0, rest)
  else match lead b0 with
       | None => (63, rest)
       | Some (k, cp) => match continuation k cp rest with
                         | None => (63, rest)
                         | Some (cp, rest) => (glyph_of cp, rest)
                         end
       end.
(** [fuel] bounds the characters; every one uses at least a byte. *)
Fixpoint decode_fuel (fuel : nat) (input : list Z) (room : Z) : list Z :=
  match fuel, input with
  | S fuel, b0 :: rest =>
      if 1 <? room then let '(g, rest) := decode_char b0 rest in g :: decode_fuel fuel rest (room - 1) else []
  | _, _ => []
  end.
(* @src Messenger.h:484-520 msngr_kb_decode_utf8 *)
Definition msngr_kb_decode_utf8 (input : list Z) (out_cap : Z) : list Z := decode_fuel (length input) input out_cap.

(** ** Editing *)

(* @src Menu.h:263-263 MENU_STATE_WIFI_LIST *)
Definition MENU_STATE_WIFI_LIST : Z := 3.
(* @src Menu.h:298-308 MENU_STATE_MSNGR_BOOKMARKS *)
Definition MENU_STATE_MSNGR_BOOKMARKS : Z := 35.
Definition MENU_STATE_MSNGR_PEER : Z := 37.
Definition MENU_STATE_MSNGR_VOICE : Z := 74.
Definition MENU_STATE_MSNGR_DISCARD_CONFIRM : Z := 42.
(* @src Menu.h:312-312 MENU_STATE_MSNGR_SEND_RESULT *)
Definition MENU_STATE_MSNGR_SEND_RESULT : Z := 46.
(* @src Menu.h:325-329 MENU_STATE_MSNGR_SETTINGS *)
Definition MENU_STATE_MSNGR_SETTINGS : Z := 54.
Definition MENU_STATE_MSNGR_PRESETS : Z := 58.
(* @src Menu.h:344-344 MENU_STATE_URNS_KEYS *)
Definition MENU_STATE_URNS_KEYS : Z := 71.

(** The flags of a hold, kept once for each of the two buttons. *)
(* @src Menu.h:3631-3632 msngr_kb_lang_hold_fired_btn *)
Record kb_holds := mk_holds { lang_hold_fired : bool; alt_hold_fired : bool; del_hold_fired : bool; del_repeat_last : Z }.

Definition no_holds : kb_holds := mk_holds false false false 0.
Inductive kb_control := Btn | Enc.

(* @src Menu.h:1300-1331 msngr_kb_cursor, msngr_text_entry_buf *)
Record kb := mk_kb {
  msngr_text_entry_purpose : purpose; msngr_kb_cursor : Z; msngr_kb_shift_on : bool; msngr_kb_lang_ru : bool;
  msngr_text_entry_buf : list Z; msngr_kb_last_insert_ms : Z; msngr_kb_bookmark_type : Z; msngr_kb_chord_used : bool;
  btn_holds : kb_holds; enc_holds : kb_holds;
  kb_menu_state : Z; msngr_discard_confirm_cursor : Z; msngr_discard_confirm_return_state : Z
}.

Definition holds_of (c : kb_control) (k : kb) : kb_holds := match c with Btn => btn_holds k | Enc => enc_holds k end.
Definition set_holds (c : kb_control) (h : kb_holds) (k : kb) : kb := match c with Btn => k <| btn_holds := h |> | Enc => k <| enc_holds := h |> end.
Definition key_here (k : kb) : Z := key_under (msngr_text_entry_purpose k) (msngr_kb_lang_ru k) (msngr_kb_cursor k).
Definition in_text_entry (k : kb) : bool := kb_menu_state k =? MENU_STATE_MSNGR_TEXT_ENTRY.

Section Editing.
Context `{ControlBuild}.

(* @src Menu.h:3819-3831 msngr_kb_insert_char *)
Definition max_len (p : purpose) : Z :=
  match p with
  | WIFI_SSID | WIFI_PSK => 32
  | _ => if HAS_LXMF then
           match p with
           | BOOKMARK_HASH => PEER_HASH_SIZE * 2
           | IDENTITY_RESTORE => VAULT_IDENTITY_KEY_BASE32_LEN
           | DISPLAY_NAME | PRESET | BOOKMARK_RENAME => MSNGR_NAME_MAX_LEN
           | _ => MSNGR_TEXT_ENTRY_MAX_LEN
           end
         else MSNGR_TEXT_ENTRY_MAX_LEN
  end.
(** Appending when there is room under [cap]. *)
(* @src Menu.h:3832-3837 msngr_kb_insert_char *)
Definition append_capped (cap now c : Z) (k : kb) : kb :=
  if zlen (msngr_text_entry_buf k) <? cap
  then k <| msngr_text_entry_buf := msngr_text_entry_buf k ++ [c] |> <| msngr_kb_last_insert_ms := now |> else k.
(* @src Menu.h:3818-3838 msngr_kb_insert_char *)
Definition msngr_kb_insert_char (now c : Z) (k : kb) : kb := append_capped (max_len (msngr_text_entry_purpose k)) now c k.
(* @src Menu.h:3844-3852 msngr_kb_do_backspace *)
Definition msngr_kb_do_backspace (k : kb) : kb :=
  if 0 <? zlen (msngr_text_entry_buf k)
  then k <| msngr_text_entry_buf := removelast (msngr_text_entry_buf k) |> <| msngr_kb_last_insert_ms := 0 |> else k.

(* @src Menu.h:3643-3653 msngr_kb_lang_hold_try *)
Definition msngr_kb_lang_hold_try (c : kb_control) (held_ms : Z) (k : kb) : kb :=
  let h := holds_of c k in
  if negb (in_text_entry k) || lang_hold_fired h || (held_ms <? MSNGR_KB_ALT_HOLD_MS) then k
  else match msngr_kb_key_type (key_here k) with
       | KB_SHIFT => set_holds c (h <| lang_hold_fired := true |>)
                       (k <| msngr_kb_lang_ru := negb (msngr_kb_lang_ru k) |> <| msngr_kb_shift_on := false |>)
       | _ => k
       end.
(* @src Menu.h:3678-3712 msngr_kb_alt_hold_try *)
Definition msngr_kb_alt_hold_try (c : kb_control) (now held_ms : Z) (k : kb) : kb :=
  let h := holds_of c k in
  if negb (in_text_entry k) || alt_hold_fired h || (held_ms <? MSNGR_KB_ALT_HOLD_MS) then k
  else let alt := msngr_kb_alt_pair (key_here k) in
       if alt =? 0 then k
       else set_holds c (h <| alt_hold_fired := true |>)
              (append_capped (max_len (msngr_text_entry_purpose k)) now (msngr_kb_apply_shift alt (msngr_kb_shift_on k)) k).
(* @src Menu.h:3723-3724 MSNGR_KB_DEL_REPEAT_START_MS *)
Definition MSNGR_KB_DEL_REPEAT_START_MS : Z := 500.
Definition MSNGR_KB_DEL_REPEAT_INTERVAL_MS : Z := 120.
(* @src Menu.h:3744-3759 msngr_kb_del_hold_try *)
Definition msngr_kb_del_hold_try (c : kb_control) (now held_ms : Z) (k : kb) : kb :=
  let h := holds_of c k in
  if negb (in_text_entry k) || (held_ms <? MSNGR_KB_DEL_REPEAT_START_MS) then k
  else match msngr_kb_key_type (key_here k) with
       | KB_BACKSPACE =>
           if negb (del_repeat_last h =? 0) && (u32 (now - del_repeat_last h) <? MSNGR_KB_DEL_REPEAT_INTERVAL_MS) then k
           else set_holds c (h <| del_repeat_last := now |> <| del_hold_fired := true |>)
                  (k <| msngr_text_entry_buf := removelast (msngr_text_entry_buf k) |>)
       | _ => k
       end.
(** Each turn of the main loop, for each of the buttons. *)
(* @src Menu.h:8652-8662 menu_button_process *)
Definition poll_hold (c : kb_control) (pressed : bool) (now held_ms : Z) (k : kb) : kb :=
  if pressed then msngr_kb_del_hold_try c now held_ms (msngr_kb_alt_hold_try c now held_ms (msngr_kb_lang_hold_try c held_ms k))
  else set_holds c no_holds k.

(* @src Menu.h:3614-3617 msngr_kb_toggle_bookmark_type *)
Definition msngr_kb_toggle_bookmark_type (k : kb) : kb := k <| msngr_kb_bookmark_type := if msngr_kb_bookmark_type k =? 1 then 0 else 1 |>.

(* @src Menu.h:3778-3789 msngr_text_entry_return_state *)
Definition msngr_text_entry_return_state (HAS_AUDIO : bool) (p : purpose) : Z :=
  match p with
  | DISPLAY_NAME => MENU_STATE_MSNGR_SETTINGS
  | PRESET => MENU_STATE_MSNGR_PRESETS
  | VOICE_TEXT => if HAS_AUDIO then MENU_STATE_MSNGR_VOICE else MENU_STATE_MSNGR_PEER
  | BOOKMARK_HASH => MENU_STATE_MSNGR_BOOKMARKS
  | IDENTITY_RESTORE => MENU_STATE_URNS_KEYS
  | WIFI_SSID | WIFI_PSK => MENU_STATE_WIFI_LIST
  | _ => MENU_STATE_MSNGR_PEER
  end.
(* @src Menu.h:3799-3808 menu_msngr_text_entry_leave *)
Definition menu_msngr_text_entry_leave (HAS_AUDIO : bool) (k : kb) : kb :=
  if zlen (msngr_text_entry_buf k) =? 0
  then k <| kb_menu_state := msngr_text_entry_return_state HAS_AUDIO (msngr_text_entry_purpose k) |>
  else k <| msngr_discard_confirm_cursor := 1 |> <| msngr_discard_confirm_return_state := kb_menu_state k |>
         <| kb_menu_state := MENU_STATE_MSNGR_DISCARD_CONFIRM |>.

(* @src Messenger.h:780-785 messenger_hash_from_hex *)
Definition nibble (c : Z) : option Z :=
  if (48 <=? c) && (c <=? 57) then Some (c - 48)
  else if (97 <=? c) && (c <=? 102) then Some (c - 97 + 10)
  else if (65 <=? c) && (c <=? 70) then Some (c - 65 + 10) else None.
(* @src Messenger.h:778-788 messenger_hash_from_hex *)
Fixpoint hex_pairs (out_len : nat) (hex : list Z) : option (list Z) :=
  match out_len, hex with
  | O, _ => Some []
  | S n, hi :: lo :: hex =>
      match nibble hi, nibble lo, hex_pairs n hex with
      | Some a, Some b, Some out => Some (u8 (Z.lor (Z.shiftl a 4) b) :: out)
      | _, _, _ => None
      end
  | _, _ => None
  end.
(* @src Messenger.h:775-789 messenger_hash_from_hex *)
Definition messenger_hash_from_hex (hex : list Z) (out_len : nat) : option (list Z) :=
  if zlen hex =? Z.of_nat out_len * 2 then hex_pairs out_len hex else None.

(** What the calls made by SEND answer, and the calls. *)
Record answers := mk_answers { bookmarked : list Z -> bool; confirmed : bool; committed : bool; send_ok : bool }.
Inductive sent :=
| SaveCredential (p : purpose) (text : list Z) | SaveDisplayName (utf8 : list Z) | AddBookmark (hash : list Z) (type : Z)
| RenameBookmark (text : list Z) | VoiceText (utf8 : list Z) | SavePreset (text : list Z) | SendMessage (utf8 : list Z)
| ConfirmReplace | CommitIdentity (key : list Z) | HardReset | Popup.
Definition cleared (state : Z) (k : kb) : kb := k <| msngr_text_entry_buf := [] |> <| kb_menu_state := state |>.
(** A popup comes back to the text. *)
Definition popup (k : kb) : kb := k <| kb_menu_state := MENU_STATE_STATUS_POPUP |>.

(* @src Menu.h:3933-3960 msngr_kb_do_send *)
Definition send_identity (a : answers) (k : kb) : kb * list sent :=
  match identity_key_from_base32 (msngr_text_entry_buf k) with
  | None => (popup k, [Popup])
  | Some raw_key =>
      if confirmed a then
        let k := k <| msngr_text_entry_buf := [] |> in
        if committed a then (k, [ConfirmReplace; CommitIdentity raw_key; HardReset])
        else (popup k, [ConfirmReplace; CommitIdentity raw_key; Popup])
      else (k, [ConfirmReplace])
  end.
(* @src Menu.h:3865-4019 msngr_kb_do_send *)
Definition msngr_kb_do_send (HAS_AUDIO : bool) (a : answers) (k : kb) : kb * list sent :=
  let text := msngr_text_entry_buf k in
  let p := msngr_text_entry_purpose k in
  let some := 0 <? zlen text in
  let utf8 cap := msngr_kb_expand_utf8 text cap in
  if some && bool_decide (p = WIFI_SSID \/ p = WIFI_PSK) then (cleared MENU_STATE_WIFI_LIST k, [SaveCredential p (take 32 text)])
  else if negb HAS_LXMF then (k, [])
  else if bool_decide (p = VOICE_TEXT) && HAS_AUDIO then (cleared MENU_STATE_MSNGR_VOICE k, [VoiceText (utf8 (MSNGR_TEXT_ENTRY_MAX_LEN * 2 + 1))])
  else if negb some then (k, [])
  else match p with
  | DISPLAY_NAME => (cleared MENU_STATE_MSNGR_SETTINGS k, [SaveDisplayName (utf8 (MSNGR_NAME_MAX_LEN * 2 + 1))])
  | BOOKMARK_HASH =>
      match messenger_hash_from_hex text (Z.to_nat PEER_HASH_SIZE) with
      | Some hash => (cleared MENU_STATE_MSNGR_BOOKMARKS k, if bookmarked a hash then [] else [AddBookmark hash (msngr_kb_bookmark_type k)])
      | None => (popup k, [Popup])
      end
  | IDENTITY_RESTORE => send_identity a k
  | BOOKMARK_RENAME => (cleared MENU_STATE_MSNGR_PEER k, [RenameBookmark text])
  | PRESET => (cleared MENU_STATE_MSNGR_PRESETS k, [SavePreset text])
  | _ => let call := SendMessage (utf8 (MSNGR_TEXT_ENTRY_MAX_LEN * 2 + 1)) in
         if send_ok a then (cleared MENU_STATE_MSNGR_SEND_RESULT k, [call]) else (popup k, [call; Popup])
  end.

(* @src Menu.h:7944-7944 menu_confirm_select *)
Definition either_fired (f : kb_holds -> bool) (k : kb) : bool := f (btn_holds k) || f (enc_holds k).
(** The key is pressed: the release of the button, with the length of the hold. *)
(* @src Menu.h:7931-8005 menu_confirm_select *)
Definition confirm (HAS_AUDIO : bool) (a : answers) (now duration : Z) (k : kb) : kb * list sent :=
  if in_text_entry k then
    let key_ch := key_here k in
    match msngr_kb_key_type key_ch with
    | KB_CHAR | KB_SPACE =>
        (if either_fired alt_hold_fired k
         then k <| btn_holds ::= fun h => h <| alt_hold_fired := false |> |> <| enc_holds ::= fun h => h <| alt_hold_fired := false |> |>
         else msngr_kb_insert_char now (if key_ch =? 32 then 32 else msngr_kb_apply_shift key_ch (msngr_kb_shift_on k)) k, [])
    | KB_BACKSPACE =>
        (if either_fired del_hold_fired k
         then k <| btn_holds ::= fun h => h <| del_hold_fired := false |> |> <| enc_holds ::= fun h => h <| del_hold_fired := false |> |>
         else msngr_kb_do_backspace k, [])
    | KB_SHIFT =>
        (if either_fired lang_hold_fired k
         then k <| btn_holds ::= fun h => h <| lang_hold_fired := false |> |> <| enc_holds ::= fun h => h <| lang_hold_fired := false |> |>
         else if MSNGR_KB_ALT_HOLD_MS <=? duration
         then k <| msngr_kb_lang_ru := negb (msngr_kb_lang_ru k) |> <| msngr_kb_shift_on := false |>
         else k <| msngr_kb_shift_on := negb (msngr_kb_shift_on k) |>, [])
    | KB_TYPE_TOGGLE => (if HAS_LXMF then msngr_kb_toggle_bookmark_type k else k, [])
    | KB_BACK => (menu_msngr_text_entry_leave HAS_AUDIO k, [])
    | KB_SEND => msngr_kb_do_send HAS_AUDIO a k
    | KB_NONE => (k, [])
    end
  else if kb_menu_state k =? MENU_STATE_MSNGR_DISCARD_CONFIRM then
    (if msngr_discard_confirm_cursor k =? 0
     then cleared (msngr_text_entry_return_state HAS_AUDIO (msngr_text_entry_purpose k)) k
     else k <| kb_menu_state := msngr_discard_confirm_return_state k |>, [])
  else (k, []).

(* @src Menu.h:5964-5969 menu_encoder_rotate *)
Definition rotate (dir : Z) (wrap : bool) (k : kb) : kb :=
  if in_text_entry k
  then k <| msngr_kb_cursor := menu_clamp_cursor (msngr_kb_cursor k) dir (msngr_kb_active_key_count (msngr_text_entry_purpose k)) wrap |> else k.
(* @src Menu.h:5993-6033 menu_encoder_chord_rotate *)
Definition menu_encoder_chord_rotate (now dir : Z) (k : kb) : kb :=
  if in_text_entry k then
    let k := k <| msngr_kb_chord_used := true |> in
    let key_ch := key_here k in
    match msngr_kb_key_type key_ch with
    | KB_CHAR =>
        let shifted := msngr_kb_apply_shift key_ch true in
        let to_insert := if negb (shifted =? key_ch) then shifted else msngr_kb_alt_pair key_ch in
        if negb (to_insert =? 0) then append_capped MSNGR_TEXT_ENTRY_MAX_LEN now to_insert k else k
    | KB_SHIFT => k <| msngr_kb_lang_ru := negb (msngr_kb_lang_ru k) |> <| msngr_kb_shift_on := false |>
    | _ => k
    end
  else rotate dir false k.
(** The release of the encoder's button on this screen and on the one that asks whether
    to discard the text, where a long press leaves the menu. *)
(* @src Menu.h:6100-6148 menu_encoder_button *)
Definition encoder_release (HAS_AUDIO : bool) (a : answers) (now duration : Z) (k : kb) : kb * list sent :=
  if in_text_entry k && msngr_kb_chord_used k then (k <| msngr_kb_chord_used := false |>, [])
  else if in_text_entry k && (3000 <? duration) then (menu_msngr_text_entry_leave HAS_AUDIO k, [])
  else if negb (in_text_entry k) && (700 <? duration) then (k <| kb_menu_state := MENU_STATE_CLOSED |>, [])
  else confirm HAS_AUDIO a now duration k.

(** How the screen is opened: on the display name as the router has it, and on the text
    of a voice message. *)
(* @src Menu.h:7213-7222 menu_confirm_select *)
Definition open_display_name (name : list Z) (k : kb) : kb :=
  k <| msngr_text_entry_purpose := DISPLAY_NAME |> <| msngr_text_entry_buf := take (Z.to_nat MSNGR_TEXT_ENTRY_MAX_LEN) name |>
    <| msngr_kb_cursor := 0 |> <| msngr_kb_shift_on := false |> <| msngr_kb_lang_ru := false |> <| kb_menu_state := MENU_STATE_MSNGR_TEXT_ENTRY |>.
(* @src Menu.h:7643-7648 menu_confirm_select *)
Definition open_voice_text (utf8 : list Z) (k : kb) : kb :=
  k <| msngr_text_entry_purpose := VOICE_TEXT |> <| msngr_kb_cursor := 0 |> <| msngr_kb_shift_on := false |> <| msngr_kb_lang_ru := false |>
    <| msngr_text_entry_buf := msngr_kb_decode_utf8 utf8 (MSNGR_TEXT_ENTRY_MAX_LEN + 1) |> <| kb_menu_state := MENU_STATE_MSNGR_TEXT_ENTRY |>.
End Editing.

(** ** Theorems *)

(** *** The grids *)

Definition purposes : list purpose := [MESSAGE; DISPLAY_NAME; PRESET; BOOKMARK_HASH; BOOKMARK_RENAME; IDENTITY_RESTORE; WIFI_SSID; WIFI_PSK; VOICE_TEXT].
Lemma in_purposes p : In p purposes.
Proof. destruct p; cbn; tauto. Qed.
(** A property of every cursor of every grid is checked on each. *)
Definition on_grids (P : purpose -> bool -> Z -> bool) : bool :=
  forallb (fun p => forallb (fun ru => forallb (P p ru) (cursors p)) [true; false]) purposes.
Lemma on_grids_spec P : on_grids P = true -> forall p ru i, 0 <= i < msngr_kb_active_key_count p -> P p ru i = true.
Proof.
  unfold on_grids. intros Hall p ru i Hi. rewrite forallb_forall in Hall. specialize (Hall p (in_purposes p)).
  rewrite forallb_forall in Hall. assert (Hru : In ru [true; false]) by (destruct ru; cbn; auto). specialize (Hall ru Hru).
  rewrite forallb_forall in Hall. apply Hall. unfold cursors. apply in_map_iff. exists (Z.to_nat i). split; [lia|]. apply in_seq. lia.
Qed.

Definition on_grid (p : purpose) (j : Z) : bool := (0 <=? j) && (j <? msngr_kb_active_key_count p).
Definition grid_ok (p : purpose) (ru : bool) (i : Z) : bool :=
  let '(r, c) := msngr_kb_cursor_rc p i in
  (r <? msngr_kb_active_rows p) && (0 <=? c) && (c <? MSNGR_KB_COLS) &&
  on_grid p (msngr_kb_nav_col p (-1) i) && on_grid p (msngr_kb_nav_col p 1 i) &&
  on_grid p (msngr_kb_nav_row p (-1) i) && on_grid p (msngr_kb_nav_row p 1 i) &&
  (fst (msngr_kb_cursor_rc p (msngr_kb_nav_col p 1 i)) =? r) &&
  (0 <=? fst (msngr_kb_cursor_rc p (msngr_kb_nav_row p 1 i)) - r) && (fst (msngr_kb_cursor_rc p (msngr_kb_nav_row p 1 i)) - r <=? 1) &&
  (negb (bool_decide (p = BOOKMARK_HASH \/ p = IDENTITY_RESTORE)) || negb (key_under p ru i =? 0)).
Lemma grid_ok_all : on_grids grid_ok = true.
Proof. vm_compute. reflexivity. Qed.

(** Every cursor of every grid is on a cell of its grid, the moves of a keyboard keep it
    among the cursors and in the row or one row away, and the grids of hashes and keys
    show no blank cell and hide no key. *)
Theorem grid_sound (p : purpose) (ru : bool) (i : Z) : 0 <= i < msngr_kb_active_key_count p ->
  (fst (msngr_kb_cursor_rc p i) < msngr_kb_active_rows p /\ 0 <= snd (msngr_kb_cursor_rc p i) < MSNGR_KB_COLS) /\
  Forall (fun j => 0 <= j < msngr_kb_active_key_count p)
    [msngr_kb_nav_col p (-1) i; msngr_kb_nav_col p 1 i; msngr_kb_nav_row p (-1) i; msngr_kb_nav_row p 1 i] /\
  fst (msngr_kb_cursor_rc p (msngr_kb_nav_col p 1 i)) = fst (msngr_kb_cursor_rc p i) /\
  0 <= fst (msngr_kb_cursor_rc p (msngr_kb_nav_row p 1 i)) - fst (msngr_kb_cursor_rc p i) <= 1 /\
  (p = BOOKMARK_HASH \/ p = IDENTITY_RESTORE -> key_under p ru i <> 0).
Proof.
  intros Hi. pose proof (on_grids_spec grid_ok grid_ok_all p ru i Hi) as Hg. unfold grid_ok in Hg.
  destruct (msngr_kb_cursor_rc p i) as [r c]. unfold on_grid in Hg. rewrite !andb_true_iff, !Z.ltb_lt, !Z.leb_le, Z.eqb_eq in Hg.
  cbn [fst snd]. destruct Hg as ((((((((((?&?)&?)&?)&?)&?)&?)&?)&?)&?)&Hk).
  repeat split; try lia; [repeat constructor; lia|].
  intros Hp. rewrite (bool_decide_true _ Hp) in Hk. cbn in Hk. now apply negb_true_iff, Z.eqb_neq in Hk.
Qed.
(** Every key of the two grids can be reached; but the grid of symbols has blank cells
    under the cursor. *)
Theorem keys_reached :
  forallb (fun p => forallb (fun c => (c =? 0) || existsb (fun i => key_under p false i =? c) (cursors p)) (concat (msngr_kb_active_layout p false)))
    [BOOKMARK_HASH; IDENTITY_RESTORE] = true /\ key_under WIFI_PSK true 36 = 0.
Proof. split; vm_compute; reflexivity. Qed.

Lemma key_is_byte p ru i : 0 <= i < msngr_kb_active_key_count p -> is_u8 (key_under p ru i).
Proof.
  intros Hi. pose proof (on_grids_spec (fun p ru i => is_u8b (key_under p ru i)) ltac:(vm_compute; reflexivity) p ru i Hi) as Hb.
  cbv beta in Hb. unfold is_u8b in Hb. unfold is_u8. lia.
Qed.

(** *** The text *)

Definition text_char (c : Z) : Prop := 0 < c < 256.
(** The cursor is on the grid; the text and its NUL fit the buffer. *)
Definition kb_ok (k : kb) : Prop :=
  0 <= msngr_kb_cursor k < msngr_kb_active_key_count (msngr_text_entry_purpose k) /\
  zlen (msngr_text_entry_buf k) <= MSNGR_TEXT_ENTRY_MAX_LEN /\ Forall text_char (msngr_text_entry_buf k).
(** Nothing else matters to it. *)
Lemma kb_ok_ext k k' : msngr_kb_cursor k' = msngr_kb_cursor k -> msngr_text_entry_purpose k' = msngr_text_entry_purpose k ->
  msngr_text_entry_buf k' = msngr_text_entry_buf k -> kb_ok k -> kb_ok k'.
Proof. unfold kb_ok. now intros -> -> ->. Qed.
Ltac same_text := eapply kb_ok_ext; [..|eassumption]; repeat match goal with k : kb |- _ => destruct k | c : kb_control |- _ => destruct c end; reflexivity.

Lemma shift_char c b : text_char c -> text_char (msngr_kb_apply_shift c b).
Proof. unfold text_char, msngr_kb_apply_shift. intros. destruct b; cbn; repeat case_match; lia. Qed.
Lemma alt_char c : msngr_kb_alt_pair c <> 0 -> text_char (msngr_kb_alt_pair c).
Proof. unfold text_char, msngr_kb_alt_pair. intros. repeat case_match; lia. Qed.
Lemma key_char k : kb_ok k -> key_here k <> 0 -> text_char (key_here k).
Proof. intros [Hc _] Hn. pose proof (key_is_byte _ (msngr_kb_lang_ru k) _ Hc) as Hb. unfold is_u8, text_char, key_here in *. lia. Qed.
Lemma kind_char c : msngr_kb_key_type c = KB_CHAR -> c <> 0.
Proof. unfold msngr_kb_key_type. intros Hk ->. discriminate. Qed.

Lemma append_ok cap now c k : cap <= MSNGR_TEXT_ENTRY_MAX_LEN -> text_char c -> kb_ok k -> kb_ok (append_capped cap now c k).
Proof.
  intros Hcap Hc [H1 [H2 H3]]. unfold append_capped. destruct (Z.ltb_spec (zlen (msngr_text_entry_buf k)) cap); [|now repeat split].
  destruct k; unfold kb_ok in *; cbn in *. repeat split; try lia; [rewrite zlen_app; unfold zlen in *; cbn; lia|].
  apply Forall_app. auto.
Qed.
Lemma removelast_ok k : kb_ok k -> kb_ok (k <| msngr_text_entry_buf := removelast (msngr_text_entry_buf k) |>).
Proof.
  intros [H1 [H2 H3]]. destruct k; unfold kb_ok in *; cbn in *. repeat split; try lia.
  - revert H2. unfold zlen. assert (length (removelast msngr_text_entry_buf0) <= length msngr_text_entry_buf0)%nat; [|lia].
    rewrite removelast_firstn_len, length_take. lia.
  - rewrite removelast_firstn_len. now apply Forall_take.
Qed.
Lemma clear_ok k : kb_ok k -> kb_ok (k <| msngr_text_entry_buf := [] |>).
Proof. intros [H1 _]. destruct k; unfold kb_ok in *; cbn in *. repeat split; try lia; [vm_compute; discriminate|constructor]. Qed.
Lemma cleared_ok s k : kb_ok k -> kb_ok (cleared s k).
Proof. intros Hk%clear_ok. unfold cleared. same_text. Qed.

Lemma clamp_range c dir count wrap : 0 <= c < count -> count <= 127 -> 0 <= menu_clamp_cursor c dir count wrap < count.
Proof.
  intros Hc Hn. unfold menu_clamp_cursor. rewrite (i8_id c), (i8_id count) by lia. rewrite !i8_id by (repeat case_match; lia).
  destruct wrap, (0 <? dir); repeat case_match; rewrite ?u8_id by (unfold is_u8; lia); lia.
Qed.
Lemma keys_few p : 1 <= msngr_kb_active_key_count p <= 127.
Proof. destruct p; vm_compute; split; discriminate. Qed.

Lemma glyph_char cp : text_char (glyph_of cp).
Proof. unfold glyph_of, text_char. repeat case_match; lia. Qed.
Lemma continuation_suffix k : forall cp input cp' rest, continuation k cp input = Some (cp', rest) ->
  exists seen, input = seen ++ rest.
Proof.
  induction k as [|k IH]; intros cp input cp' rest; cbn.
  - intros [= -> ->]. now exists [].
  - destruct input as [|b input]; [discriminate|]. destruct (_ =? 0x80); [|discriminate].
    intros (seen & ->)%IH. now exists (b :: seen).
Qed.
Lemma decode_char_ok b0 rest : text_char b0 -> Forall text_char rest ->
  let '(g, rest') := decode_char b0 rest in text_char g /\ Forall text_char rest' /\ (length rest' <= length rest)%nat.
Proof.
  intros Hb Hr. unfold decode_char. destruct (b0 <? 0x80); [auto|]. destruct (lead b0) as [[n cp]|]; [|repeat split; auto; lia].
  destruct (continuation n cp rest) as [[cp' rest']|] eqn:Hc; [|repeat split; auto; lia].
  apply continuation_suffix in Hc as [seen ->]. apply Forall_app in Hr as [_ Hr]. split; [apply glyph_char|split; [exact Hr|]].
  rewrite length_app. lia.
Qed.
Lemma decode_ok fuel : forall input room, Forall text_char input -> 1 <= room ->
  Forall text_char (decode_fuel fuel input room) /\ zlen (decode_fuel fuel input room) < room.
Proof.
  induction fuel as [|fuel IH]; intros [|b0 rest] room Hi Hr; cbn; try (split; [constructor|unfold zlen; cbn; lia]).
  destruct (Z.ltb_spec 1 room); [|split; [constructor|unfold zlen; cbn; lia]].
  apply Forall_cons_iff in Hi as [Hb Hi]. pose proof (decode_char_ok b0 rest Hb Hi) as Hd. destruct (decode_char b0 rest) as [g rest'].
  destruct Hd as (Hg & Hr' & _). destruct (IH rest' (room - 1) Hr' ltac:(lia)) as [I1 I2].
  split; [now constructor|]. rewrite zlen_cons. lia.
Qed.

Section EditingTheorems.
Context `{ControlBuild} (HAS_AUDIO : bool).

Lemma max_len_cap p : max_len p <= MSNGR_TEXT_ENTRY_MAX_LEN.
Proof. unfold max_len. destruct p, HAS_LXMF; vm_compute; discriminate. Qed.

(** Everything that can happen to the screen. *)
Inductive kb_op :=
| Rotate (dir : Z) (wrap : bool) | NavCol (rightward : bool) | NavRow (downward : bool) | TypeChar (now c : Z) | Backspace
| Confirm (a : answers) (now duration : Z) | EncRelease (a : answers) (now duration : Z) | Chord (now dir : Z)
| Poll (c : kb_control) (pressed : bool) (now held_ms : Z) | OpenName (name : list Z) | OpenVoice (utf8 : list Z).
Definition kb_step (k : kb) (op : kb_op) : kb :=
  match op with
  | Rotate dir wrap => rotate dir wrap k
  | NavCol rightward => k <| msngr_kb_cursor := msngr_kb_nav_col (msngr_text_entry_purpose k) (if rightward then 1 else -1) (msngr_kb_cursor k) |>
  | NavRow downward => k <| msngr_kb_cursor := msngr_kb_nav_row (msngr_text_entry_purpose k) (if downward then 1 else -1) (msngr_kb_cursor k) |>
  | TypeChar now c => msngr_kb_insert_char now c k
  | Backspace => msngr_kb_do_backspace k
  | Confirm a now duration => fst (confirm HAS_AUDIO a now duration k)
  | EncRelease a now duration => fst (encoder_release HAS_AUDIO a now duration k)
  | Chord now dir => menu_encoder_chord_rotate now dir k
  | Poll c pressed now held => poll_hold c pressed now held k
  | OpenName name => open_display_name name k
  | OpenVoice utf8 => open_voice_text utf8 k
  end.
(** What comes from outside has no NUL inside. *)
Definition op_valid (op : kb_op) : Prop :=
  match op with TypeChar _ c => text_char c | OpenName s | OpenVoice s => Forall text_char s | _ => True end.

Lemma leave_ok k : kb_ok k -> kb_ok (menu_msngr_text_entry_leave HAS_AUDIO k).
Proof. intros Hk. unfold menu_msngr_text_entry_leave. destruct (_ =? 0); same_text. Qed.
Lemma backspace_ok k : kb_ok k -> kb_ok (msngr_kb_do_backspace k).
Proof.
  intros Hk. unfold msngr_kb_do_backspace. destruct (0 <? _); [|exact Hk]. apply removelast_ok in Hk. same_text.
Qed.
Lemma popup_ok k : kb_ok k -> kb_ok (popup k).
Proof. intros Hk. unfold popup. same_text. Qed.
#[local] Hint Resolve leave_ok backspace_ok popup_ok cleared_ok clear_ok : core.
Lemma send_ok_kb a k : kb_ok k -> kb_ok (fst (msngr_kb_do_send HAS_AUDIO a k)).
Proof.
  intros Hk. unfold msngr_kb_do_send, send_identity.
  repeat (case_match; cbn [fst negb]); auto.
Qed.
Lemma confirm_ok a now duration k : kb_ok k -> kb_ok (fst (confirm HAS_AUDIO a now duration k)).
Proof.
  intros Hk. unfold confirm. destruct (in_text_entry k); [|repeat (case_match; cbn [fst]); auto; same_text].
  destruct (msngr_kb_key_type (key_here k)) eqn:Hkt; cbn [fst]; auto.
  - destruct (either_fired _ k); [same_text|]. apply append_ok; [apply max_len_cap| |exact Hk].
    destruct (key_here k =? 32); [unfold text_char; lia|]. apply shift_char, key_char, kind_char; auto.
  - destruct (either_fired _ k); [same_text|auto].
  - apply send_ok_kb, Hk.
  - destruct (either_fired _ k); [same_text|]. apply append_ok; [apply max_len_cap| |exact Hk].
    destruct (Z.eqb_spec (key_here k) 32); [unfold text_char; lia|]. exfalso. revert Hkt. unfold msngr_kb_key_type. repeat case_match; try congruence; lia.
  - destruct (either_fired _ k); [same_text|]. destruct (_ <=? _); same_text.
  - destruct HAS_LXMF; [|exact Hk]. unfold msngr_kb_toggle_bookmark_type. same_text.
Qed.
Lemma set_holds_ok c h k : kb_ok k -> kb_ok (set_holds c h k).
Proof. intros Hk. same_text. Qed.
Lemma hold_ok c now held k : kb_ok k ->
  kb_ok (msngr_kb_lang_hold_try c held k) /\ kb_ok (msngr_kb_alt_hold_try c now held k) /\ kb_ok (msngr_kb_del_hold_try c now held k).
Proof.
  intros Hk. split; [|split].
  - unfold msngr_kb_lang_hold_try. destruct (_ || _ || _); [exact Hk|]. destruct (msngr_kb_key_type _); try exact Hk. same_text.
  - unfold msngr_kb_alt_hold_try. destruct (_ || _ || _); [exact Hk|]. destruct (Z.eqb_spec (msngr_kb_alt_pair (key_here k)) 0) as [|Hn]; [exact Hk|].
    apply set_holds_ok, append_ok; [apply max_len_cap|now apply shift_char, alt_char|exact Hk].
  - unfold msngr_kb_del_hold_try. destruct (_ || _); [exact Hk|]. destruct (msngr_kb_key_type _); try exact Hk.
    destruct (_ && _); [exact Hk|]. now apply set_holds_ok, removelast_ok.
Qed.
Lemma chord_ok now dir k : kb_ok k -> kb_ok (menu_encoder_chord_rotate now dir k).
Proof.
  intros Hk. unfold menu_encoder_chord_rotate. destruct (in_text_entry k) eqn:Ht.
  - assert (Hk1 : kb_ok (k <| msngr_kb_chord_used := true |>)) by same_text. revert Hk1.
    generalize (k <| msngr_kb_chord_used := true |>) as k1. clear. intros k1 Hk1.
    destruct (msngr_kb_key_type (key_here k1)) eqn:Hkt; try exact Hk1.
    destruct (negb (_ =? 0)) eqn:Hn; [|exact Hk1]. apply append_ok; [lia| |exact Hk1]. apply negb_true_iff, Z.eqb_neq in Hn.
    destruct (negb (_ =? key_here k1)); [apply shift_char, key_char, kind_char; auto|now apply alt_char].
  - unfold rotate. now rewrite Ht.
Qed.

(** The keyboard stays on its grid and in its buffer: whatever is turned, pressed,
    held, chorded, typed, sent or opened, the cursor is on a key of the grid in use, and
    the text has no NUL inside and fits the buffer of 141 bytes with its own. *)
Theorem keyboard_bounded (ops : list kb_op) (k : kb) : Forall op_valid ops -> kb_ok k -> kb_ok (foldl kb_step k ops).
Proof.
  intros Hops. revert k. induction Hops as [|op ops Hop _ IH]; intros k Hk; [exact Hk|]. cbn [foldl]. apply IH. clear IH ops.
  pose proof Hk as (Hc & Hl & Hf). destruct op; cbn [kb_step].
  - unfold rotate. destruct (in_text_entry k); [|exact Hk].
    pose proof (clamp_range (msngr_kb_cursor k) dir _ wrap Hc (proj2 (keys_few _))) as Hr. destruct k; unfold kb_ok in *; cbn in *. auto.
  - destruct (grid_sound _ false _ Hc) as (_ & Hn & _). rewrite !Forall_cons_iff in Hn. destruct Hn as (N1 & N2 & _).
    destruct k, rightward; unfold kb_ok in *; cbn in *; auto.
  - destruct (grid_sound _ false _ Hc) as (_ & Hn & _). rewrite !Forall_cons_iff in Hn. destruct Hn as (_ & _ & N1 & N2 & _).
    destruct k, downward; unfold kb_ok in *; cbn in *; auto.
  - apply append_ok; auto using max_len_cap.
  - auto.
  - now apply confirm_ok.
  - unfold encoder_release. destruct (_ && msngr_kb_chord_used k); [cbn [fst]; same_text|]. destruct (_ && _); [cbn [fst]; auto|].
    destruct (_ && _); [cbn [fst]; same_text|]. now apply confirm_ok.
  - now apply chord_ok.
  - unfold poll_hold. destruct pressed; [|same_text]. now apply hold_ok, hold_ok, hold_ok.
  - destruct k; unfold open_display_name, kb_ok in *; cbn in *. split; [unfold MSNGR_KB_KEY_COUNT, MSNGR_KB_ROWS, MSNGR_KB_COLS; lia|]. split; [|now apply Forall_take].
    unfold zlen. rewrite length_take. unfold MSNGR_TEXT_ENTRY_MAX_LEN. lia.
  - destruct (decode_ok (length utf8) utf8 (MSNGR_TEXT_ENTRY_MAX_LEN + 1) Hop ltac:(vm_compute; discriminate)) as [D1 D2].
    destruct k; unfold open_voice_text, msngr_kb_decode_utf8, kb_ok in *; cbn in *. split; [unfold MSNGR_KB_KEY_COUNT, MSNGR_KB_ROWS, MSNGR_KB_COLS; lia|]. split; [lia|exact D1].
Qed.
End EditingTheorems.

(** A board with the messenger, and the screen as it opens for a message. *)
Definition demo_keyboard : kb := mk_kb MESSAGE 0 false false [] 0 0 false no_holds no_holds MENU_STATE_MSNGR_TEXT_ENTRY 1 0.
Definition demo_answers : answers := mk_answers (fun _ => false) true true true.
Lemma keyboard_bounded_witness : kb_ok (foldl (@kb_step demo_controls true) demo_keyboard
  [OpenName (utf8_of 0x81); TypeChar 5 113; Rotate (-1) true; Confirm demo_answers 9 500; NavRow false; Chord 12 1; Poll Enc true 20 900; NavCol true]).
Proof.
  apply (@keyboard_bounded demo_controls true).
  - repeat constructor; vm_compute; discriminate || reflexivity.
  - split; [split; [vm_compute; discriminate|reflexivity]|]. split; [vm_compute; discriminate|constructor].
Defined.

(** *** The code page *)

(** The characters the keyboard types. *)
Definition typed (b : Z) : Prop := 0 < b <= 0xC1.

Definition pair_ok (b : Z) : bool :=
  if (0x80 <=? b) && (b <=? 0xC1) then
    match utf8_of b with
    | [x; y] => (0x80 <=? x) && match lead x with Some (n, cp) => (n =? 1)%nat && (glyph_of (Z.lor (u32 (Z.shiftl cp 6)) (Z.land y 0x3F)) =? b) | None => false end &&
                (Z.land y 0xC0 =? 0x80) && (0x80 <=? y) && (y <=? 0xC1) && (0xC1 <? x)
    | _ => false
    end
  else true.
Lemma pair_ok_all : forallb pair_ok all_u8 = true.
Proof. vm_compute. reflexivity. Qed.
(** A letter of the code page is two bytes, which read back as the letter; the first is
    outside the code page and the second inside. *)
Lemma letter_pair b : 0x80 <= b <= 0xC1 -> exists x y, utf8_of b = [x; y] /\ 0xC1 < x /\ 0x80 <= y <= 0xC1 /\
  forall rest, decode_char x (y :: rest) = (b, rest).
Proof.
  intros Hb. pose proof (u8_forallb pair_ok pair_ok_all b) as Hp. specialize (Hp ltac:(unfold is_u8; lia)).
  unfold pair_ok in Hp. replace ((0x80 <=? b) && (b <=? 0xC1)) with true in Hp by lia.
  destruct (utf8_of b) as [|x [|y [|? ?]]]; try discriminate. exists x, y. rewrite !andb_true_iff in Hp.
  destruct Hp as (((((H1 & H2) & H3) & H4) & H5) & H6). split; [reflexivity|]. split; [lia|]. split; [lia|]. intros rest.
  unfold decode_char. replace (x <? 0x80) with false by lia. destruct (lead x) as [[n cp]|]; [|discriminate].
  apply andb_true_iff in H2 as [Hn H2]. apply Nat.eqb_eq in Hn as ->. cbn [continuation]. rewrite H3. f_equal. lia.
Qed.
Lemma plain_char b : 0 < b < 0x80 -> utf8_of b = [b] /\ forall rest, decode_char b rest = (b, rest).
Proof.
  intros Hb. unfold utf8_of, codepoint, decode_char. replace (b <? 0x80) with true by lia.
  replace (b =? 0x80) with false by lia. replace ((0x81 <=? b) && (b <=? 0xA0)) with false by lia.
  replace (b =? 0xA1) with false by lia. now replace ((0xA2 <=? b) && (b <=? 0xC1)) with false by lia.
Qed.
Lemma utf8_of_spec b : typed b -> exists x t, utf8_of b = x :: t /\ zlen (x :: t) = (if (0x80 <=? b) && (b <=? 0xC1) then 2 else 1) /\
  forall rest, decode_char x (t ++ rest) = (b, rest).
Proof.
  intros Hb. unfold typed in Hb. destruct (Z.leb_spec 0x80 b).
  - destruct (letter_pair b ltac:(lia)) as (x & y & -> & _ & _ & Hd). exists x, [y].
    replace (b <=? 0xC1) with true by lia. split; [reflexivity|]. split; [reflexivity|exact Hd].
  - destruct (plain_char b ltac:(lia)) as [-> Hd]. exists b, []. repeat split. exact Hd.
Qed.

Lemma expand_all s : forall room, Forall typed s -> msngr_kb_utf8_len s + 2 < room ->
  msngr_kb_expand_utf8 s room = concat (map utf8_of s) /\ zlen (concat (map utf8_of s)) = msngr_kb_utf8_len s /\ 0 <= msngr_kb_utf8_len s.
Proof.
  induction s as [|b s IH]; intros room Hs Hr; cbn [msngr_kb_expand_utf8 map concat msngr_kb_utf8_len] in *; [repeat split; lia|].
  apply Forall_cons_iff in Hs as [Hb Hs]. destruct (utf8_of_spec b Hb) as (x & t & Hu & Hl & _). rewrite Hu, Hl, zlen_app, Hl.
  destruct (IH (room - (if (0x80 <=? b) && (b <=? 0xC1) then 2 else 1)) Hs ltac:(lia)) as (I1 & I2 & I3).
  rewrite I1, I2. replace (3 <? room) with true by (destruct (_ && _); lia). repeat split. destruct (_ && _); lia.
Qed.
Lemma decode_all s : forall fuel room, Forall typed s -> (length s <= fuel)%nat -> zlen s < room ->
  decode_fuel fuel (concat (map utf8_of s)) room = s.
Proof.
  induction s as [|b s IH]; intros fuel room Hs Hf Hr; cbn [map concat length] in *; [now destruct fuel|].
  apply Forall_cons_iff in Hs as [Hb Hs]. destruct (utf8_of_spec b Hb) as (x & t & -> & _ & Hd).
  destruct fuel as [|fuel]; [lia|]. rewrite zlen_cons in Hr. pose proof (zlen_nonneg s). cbn [app decode_fuel].
  replace (1 <? room) with true by lia. rewrite Hd. f_equal. apply IH; [exact Hs|lia|lia].
Qed.

(** What is typed survives the air: a text of the keyboard's characters, translated to
    UTF-8 with two bytes to spare in the buffer, has the length the counter shows and
    translates back to itself. *)
Theorem codepage_roundtrip (s : list Z) (cap cap' : Z) : Forall typed s -> msngr_kb_utf8_len s + 2 < cap -> zlen s < cap' ->
  zlen (msngr_kb_expand_utf8 s cap) = msngr_kb_utf8_len s /\ msngr_kb_decode_utf8 (msngr_kb_expand_utf8 s cap) cap' = s.
Proof.
  intros Hs Hc Hc'. destruct (expand_all s cap Hs Hc) as (E1 & E2 & _). rewrite E1. split; [exact E2|].
  unfold msngr_kb_decode_utf8. apply decode_all; auto. clear - Hs. induction Hs as [|b s Hb _ IH]; cbn [map concat length]; [lia|].
  destruct (utf8_of_spec b Hb) as (x & t & -> & _). rewrite length_app. cbn [length]. lia.
Qed.
Lemma codepage_roundtrip_witness :
  zlen (msngr_kb_expand_utf8 (chars "Hi " ++ [0x80; 0x95; 0xA1; 0xC1]) 20) = 11 /\
  msngr_kb_decode_utf8 (msngr_kb_expand_utf8 (chars "Hi " ++ [0x80; 0x95; 0xA1; 0xC1]) 20) 32 = chars "Hi " ++ [0x80; 0x95; 0xA1; 0xC1].
Proof.
  apply (codepage_roundtrip (chars "Hi " ++ [0x80; 0x95; 0xA1; 0xC1]) 20 32); [|reflexivity|reflexivity].
  repeat constructor; vm_compute; discriminate || reflexivity.
Defined.

(** The buffers have room for the text and its NUL, but the loop wants a byte more than
    that: the last letter of a full name, and of a full message, all in Cyrillic, is lost. *)
Theorem last_letter_lost :
  msngr_kb_expand_utf8 (repeat 0x81 31) (MSNGR_NAME_MAX_LEN * 2 + 1) = msngr_kb_expand_utf8 (repeat 0x81 30) (MSNGR_NAME_MAX_LEN * 2 + 1) /\
  msngr_kb_expand_utf8 (repeat 0x81 140) (MSNGR_TEXT_ENTRY_MAX_LEN * 2 + 1) = msngr_kb_expand_utf8 (repeat 0x81 139) (MSNGR_TEXT_ENTRY_MAX_LEN * 2 + 1).
Proof. split; vm_compute; reflexivity. Qed.

Section Gestures.
Context `{ControlBuild} (HAS_AUDIO : bool).

(** The screen for the display name is opened on the stored UTF-8 as if it were typed
    text, so saving a name with a Cyrillic letter without a change translates it again. *)
Theorem resaved_name_changes (b : Z) (a : answers) (k : kb) : HAS_LXMF = true -> 0x80 <= b <= 0xC1 ->
  exists x y z, utf8_of b = [x; y] /\
    snd (msngr_kb_do_send HAS_AUDIO a (open_display_name (utf8_of b) k)) = [SaveDisplayName (x :: utf8_of y)] /\ zlen (x :: utf8_of y) = 3 + z /\ z = 0.
Proof.
  intros Hx Hb. destruct (letter_pair b Hb) as (x & y & Hu & Hx1 & Hy & _). exists x, y, 0. split; [exact Hu|].
  destruct (letter_pair y Hy) as (x' & y' & Hu' & _). rewrite Hu, Hu'. split; [|split; reflexivity].
  assert (Hxx : utf8_of x = [x]).
  { unfold utf8_of, codepoint. replace (x =? 0x80) with false by lia. replace ((0x81 <=? x) && (x <=? 0xA0)) with false by lia.
    replace (x =? 0xA1) with false by lia. now replace ((0xA2 <=? x) && (x <=? 0xC1)) with false by lia. }
  assert (Hex : msngr_kb_expand_utf8 [x; y] (MSNGR_NAME_MAX_LEN * 2 + 1) = [x; x'; y']) by (cbn [msngr_kb_expand_utf8]; now rewrite Hxx, Hu').
  unfold msngr_kb_do_send. cbn -[utf8_of msngr_kb_expand_utf8]. rewrite Hx. cbn -[utf8_of msngr_kb_expand_utf8].
  change (take (Z.to_nat MSNGR_TEXT_ENTRY_MAX_LEN) [x; y]) with [x; y]. now rewrite Hex.
Qed.

(** A chorded capital goes past the length a name may have, where the key itself is
    refused. *)
Theorem chord_passes_the_cap (now dir : Z) (k : kb) : HAS_LXMF = true -> in_text_entry k = true -> key_here k = 113 ->
  msngr_text_entry_purpose k = DISPLAY_NAME -> zlen (msngr_text_entry_buf k) = MSNGR_NAME_MAX_LEN ->
  msngr_kb_insert_char now 113 k = k /\
  msngr_text_entry_buf (menu_encoder_chord_rotate now dir k) = msngr_text_entry_buf k ++ [81].
Proof.
  intros Hx Ht Hk Hp Hl. split.
  - unfold msngr_kb_insert_char, append_capped, max_len. now rewrite Hp, Hx, Hl.
  - unfold menu_encoder_chord_rotate. rewrite Ht. assert (Hk' : key_here (k <| msngr_kb_chord_used := true |>) = 113) by (rewrite <- Hk; reflexivity).
    rewrite Hk'. cbn -[append_capped]. unfold append_capped. destruct k; cbn -[zlen] in *. now rewrite Hl.
Qed.

(** A chord on the shift key that lasts as long as a hold switches the layout twice. *)
Theorem long_chord_switches_back (now now' dir held : Z) (k : kb) : in_text_entry k = true -> key_here k = 2 ->
  key_under (msngr_text_entry_purpose k) (negb (msngr_kb_lang_ru k)) (msngr_kb_cursor k) = 2 ->
  lang_hold_fired (enc_holds k) = false -> MSNGR_KB_ALT_HOLD_MS <= held ->
  msngr_kb_lang_ru (menu_encoder_chord_rotate now dir k) = negb (msngr_kb_lang_ru k) /\
  msngr_kb_lang_ru (msngr_kb_lang_hold_try Enc held (menu_encoder_chord_rotate now dir k)) = msngr_kb_lang_ru k.
Proof.
  intros Ht Hk Hk' Hf Hh. destruct k. unfold menu_encoder_chord_rotate, in_text_entry, key_here in *. cbn in *. rewrite Ht, Hk. cbn.
  split; [reflexivity|]. unfold msngr_kb_lang_hold_try, in_text_entry, key_here. cbn. rewrite Ht, Hf, Hk', (proj2 (Z.ltb_ge _ _) Hh). cbn. apply negb_involutive.
Qed.

(** SEND keeps the text whenever it fails, except for a key that could not be stored. *)
Theorem failed_send_keeps_text (a : answers) (k : kb) :
  let r := msngr_kb_do_send HAS_AUDIO a k in
  In Popup (snd r) -> (forall key, ~ In (CommitIdentity key) (snd r)) ->
  msngr_text_entry_buf (fst r) = msngr_text_entry_buf k /\ kb_menu_state (fst r) = MENU_STATE_STATUS_POPUP.
Proof.
  cbv zeta. unfold msngr_kb_do_send, send_identity.
  repeat (case_match; cbn [negb fst snd]); cbn [In]; intros Hp Hc; try (exfalso; intuition congruence); auto.
  all: exfalso; eapply Hc; right; left; reflexivity.
Qed.
End Gestures.
