(* ===== verification/Battery.v ===== *)
(** * The battery gauge (Power.h)

    Boards with a resistor divider estimate the charge from the bus voltage alone: a ring
    of samples, their averages, and a latch that tells a falling voltage from a rising
    one.  The converter's reading is an input; arithmetic is in [float] and [double] as
    the C expressions promote it. *)
From Stdlib Require Import Floats.SpecFloat.
From S2P Require Import Prelude Float Kiss.

(* @src Config.h:371-374 BATTERY_STATE_UNKNOWN *)
Definition BATTERY_STATE_UNKNOWN : Z := 0x00.
Definition BATTERY_STATE_DISCHARGING : Z := 0x01.
Definition BATTERY_STATE_CHARGING : Z := 0x02.
Definition BATTERY_STATE_CHARGED : Z := 0x03.

(** The limits of a board; a decimal literal is the [double] nearest to it. *)
Definition decimal (n d : Z) : cfloat := f64_div (f64_of_Z n) (f64_of_Z d).
(* @src Power.h:80-84 BAT_V_MIN, BAT_V_MAX, BAT_SAMPLES *)
Class Gauge := { BAT_V_MIN : cfloat; BAT_V_MAX : cfloat; BAT_V_FLOAT : cfloat; BAT_SAMPLES : nat }.
(* @src Power.h:266-267 PMU_R_INTERVAL *)
Definition PMU_R_INTERVAL : Z := 5.
Definition PMU_SCV_RESET_INTERVAL : Z := 3.

(* @src Power.h:246-265 bat_v_samples *)
Record battery := mk_battery {
  bat_v_samples : list cfloat; bat_p_samples : list cfloat; bat_samples_count : Z; battery_ready : bool;
  battery_percent : cfloat; battery_voltage : cfloat; bat_delay_v : cfloat; bat_state_change_v : cfloat;
  bat_delay_diff : cfloat; bat_voltage_dropping : bool; pmu_sc : Z; pmu_rc : Z; pmu_charged_ascertain : Z; battery_state : Z
}.

Section Battery.
Context `{Gauge}.

(* @src Power.h:246-265 bat_v_samples *)
Definition battery0 : battery :=
  mk_battery (repeat f_zero BAT_SAMPLES) (repeat f_zero BAT_SAMPLES) 0 false f_zero f_zero f_zero f_zero f_zero false 0 0 0 BATTERY_STATE_UNKNOWN.

(* @src Power.h:324-324 measure_battery *)
Definition percent_of (voltage : cfloat) : cfloat :=
  to_f32 (f64_mul (f64_div (f64_sub (to_f64 voltage) BAT_V_MIN) (f64_sub BAT_V_MAX BAT_V_MIN)) (f64_of_Z 100)).
(* @src Power.h:333-343 measure_battery *)
Definition average (samples : list cfloat) : cfloat := f32_div (foldl f32_add f_zero samples) (f32_of_Z (Z.of_nat BAT_SAMPLES)).
(* @src Power.h:345-346 measure_battery *)
Definition f_is_zero (x : cfloat) : bool := match x with S754_zero _ => true | _ => false end.

(** Both samples are stored; the percentage is that of the last average. *)
(* @src Power.h:322-329 measure_battery *)
Definition take_sample (battery_measurement : cfloat) (b : battery) : battery :=
  let i := bat_samples_count b mod Z.of_nat BAT_SAMPLES in
  let b := b <| bat_v_samples := zset (bat_v_samples b) i battery_measurement |>
             <| bat_p_samples := zset (bat_p_samples b) i (percent_of (battery_voltage b)) |>
             <| bat_samples_count ::= fun n => u8 (n + 1) |> in
  if negb (battery_ready b) && (Z.of_nat BAT_SAMPLES <=? bat_samples_count b) then b <| battery_ready := true |> else b.
(* @src Power.h:347-348 measure_battery *)
Definition clamp_percent (p : cfloat) : cfloat :=
  let p := if f_ltb (f64_of_Z 100) (to_f64 p) then f32_of_Z 100 else p in
  if f_ltb (to_f64 p) f_zero then f_zero else p.
(* @src Power.h:333-348 measure_battery *)
Definition averages (b : battery) : battery :=
  let b := b <| battery_percent := average (bat_p_samples b) |> <| battery_voltage := average (bat_v_samples b) |> in
  let b := if f_is_zero (bat_delay_v b) then b <| bat_delay_v := battery_voltage b |> else b in
  let b := if f_is_zero (bat_state_change_v b) then b <| bat_state_change_v := battery_voltage b |> else b in
  b <| battery_percent ::= clamp_percent |>.
(** Once for every full ring. *)
(* @src Power.h:350-391 measure_battery *)
Definition window (b : battery) : battery :=
  let v := to_f64 (battery_voltage b) in
  let b := b <| pmu_sc ::= fun n => u8 (n + 1) |> <| bat_delay_diff := f32_sub (battery_voltage b) (bat_state_change_v b) |> in
  let b :=
    if f_ltb (battery_voltage b) (bat_delay_v b) && f_ltb v BAT_V_FLOAT then
      if negb (bat_voltage_dropping b) then
        if f_ltb (to_f64 (bat_delay_diff b)) (decimal (-8) 1000)
        then b <| bat_voltage_dropping := true |> <| bat_state_change_v := battery_voltage b |> else b
      else if pmu_sc b mod PMU_SCV_RESET_INTERVAL =? 0 then b <| bat_state_change_v := battery_voltage b |> else b
    else if bat_voltage_dropping b && f_ltb (decimal 1 100) (to_f64 (bat_delay_diff b))
         then b <| bat_voltage_dropping := false |> <| bat_state_change_v := battery_voltage b |> else b in
  let b := if f_leb BAT_V_MAX v then b <| bat_voltage_dropping := false |> else b in
  b <| bat_samples_count := 0 |> <| bat_delay_v := battery_voltage b |>.
(* @src Power.h:393-408 measure_battery *)
Definition judge (b : battery) : battery :=
  if bat_voltage_dropping b && f_ltb (to_f64 (battery_voltage b)) BAT_V_FLOAT
  then b <| battery_state := BATTERY_STATE_DISCHARGING |> <| pmu_charged_ascertain := 0 |>
  else if pmu_charged_ascertain b <? 8 then b <| pmu_charged_ascertain ::= fun n => u8 (n + 1) |>
  else b <| battery_state := if f_ltb (to_f64 (battery_percent b)) (f64_of_Z 100) then BATTERY_STATE_CHARGING else BATTERY_STATE_CHARGED |>.
(* @src Power.h:331-408 measure_battery *)
Definition gauge (b : battery) : battery :=
  let b := averages b in
  let b := if bat_samples_count b mod Z.of_nat BAT_SAMPLES =? 0 then window b else b in judge b.
(** What the host is sent. *)
(* @src Power.h:536-542 measure_battery *)
Definition report (b : battery) : battery * list Z :=
  if battery_ready b then
    let b := b <| pmu_rc ::= fun n => u8 (n + 1) |> in
    (b, if pmu_rc b mod PMU_R_INTERVAL =? 0 then kiss_indicate_battery (battery_state b) (battery_percent b) else [])
  else (b, []).
(* @src Power.h:322-332 measure_battery *)
Definition measure_battery (battery_measurement : cfloat) (b : battery) : battery * list Z :=
  let b := take_sample battery_measurement b in
  report (if battery_ready b then gauge b else b).

(** The battery level status of the BLE service, from the state. *)
(* @src Power.h:414-439 measure_battery *)
Definition bls_value (battery_installed : bool) (b : battery) : list Z :=
  let '(charge_state, wired_power) :=
    if battery_ready b then
      if battery_state b =? BATTERY_STATE_CHARGING then (1, 1)
      else if battery_state b =? BATTERY_STATE_DISCHARGING then (2, 0)
      else if battery_state b =? BATTERY_STATE_CHARGED then (3, 1) else (0, 2)
    else (0, 2) in
  let charge_level :=
    if battery_ready b then
      if f_leb (to_f64 (battery_percent b)) (f64_of_Z 10) then 3 else if f_leb (to_f64 (battery_percent b)) (f64_of_Z 33) then 2 else 1
    else 0 in
  let power_state := Z.lor (Z.lor (Z.lor (if battery_installed then 1 else 0) (Z.shiftl wired_power 1)) (Z.shiftl charge_state 5)) (Z.shiftl charge_level 7) in
  [0x00; Z.land power_state 0xFF; Z.shiftr power_state 8].
End Battery.

(* @src Power.h:568-570 VSENSE_SAMPLE_INTERVAL *)
Definition VSENSE_SAMPLE_INTERVAL : Z := 2000.
Definition VSENSE_SAMPLES : Z := 8.
(** The eight readings, and the voltage with the time of its last update. *)
(* @src Power.h:572-579 update_vsense *)
Definition update_vsense (now : Z) (millivolts : list Z) (vsense_divider_ratio : cfloat) (s : cfloat * Z) : cfloat * Z :=
  if VSENSE_SAMPLE_INTERVAL <=? u32 (now - snd s) then
    (to_f32 (f64_mul (f64_div (to_f64 (f32_of_Z (u32 (foldl Z.add 0 millivolts) / VSENSE_SAMPLES))) (f64_of_Z 1000)) (to_f64 vsense_divider_ratio)), now)
  else s.

(** The Heltec T114. *)
(* @src Power.h:153-157 BAT_V_MIN *)
Definition heltec_t114_gauge : Gauge :=
  {| BAT_V_MIN := decimal 315 100; BAT_V_MAX := decimal 4165 1000; BAT_V_FLOAT := decimal 433 100; BAT_SAMPLES := 7 |}.

Definition volts (n d : Z) : cfloat := to_f32 (decimal n d).
Fixpoint measure {G : Gauge} (readings : list cfloat) (b : battery) : battery * list (list Z) :=
  match readings with
  | [] => (b, [])
  | v :: rest => let '(b, r) := measure_battery v b in let '(b, rs) := measure rest b in (b, match r with [] => rs | _ => r :: rs end)
  end.

(** ** Theorems *)

Section BatteryTheorems.
Context {G : Gauge}.

(** The rings keep their length and are indexed inside it; the percentage is never
    outside its range; the state is one of the four. *)
Definition gauge_ok (b : battery) : Prop :=
  (length (bat_v_samples b) = BAT_SAMPLES /\ length (bat_p_samples b) = BAT_SAMPLES) /\
  0 <= bat_samples_count b < Z.of_nat BAT_SAMPLES /\ 0 <= pmu_charged_ascertain b <= 8 /\
  (f_ltb (f64_of_Z 100) (to_f64 (battery_percent b)) = false /\ f_ltb (to_f64 (battery_percent b)) f_zero = false) /\
  0 <= battery_state b <= 3.

Lemma clamp_bounds p : f_ltb (f64_of_Z 100) (to_f64 (clamp_percent p)) = false /\ f_ltb (to_f64 (clamp_percent p)) f_zero = false.
Proof.
  unfold clamp_percent. destruct (f_ltb (f64_of_Z 100) (to_f64 p)) eqn:Hh; [split; vm_compute; reflexivity|].
  destruct (f_ltb (to_f64 p) f_zero) eqn:Hl; [split; vm_compute; reflexivity|auto].
Qed.
(** The parts of the gauge that each step leaves alone. *)
Lemma averages_keep b : let b' := averages b in
  bat_v_samples b' = bat_v_samples b /\ bat_p_samples b' = bat_p_samples b /\ bat_samples_count b' = bat_samples_count b /\
  pmu_charged_ascertain b' = pmu_charged_ascertain b /\ battery_state b' = battery_state b /\
  bat_voltage_dropping b' = bat_voltage_dropping b /\ (exists p, battery_percent b' = clamp_percent p) /\ battery_ready b' = battery_ready b.
Proof. unfold averages. cbv zeta. destruct b. cbn. destruct (f_is_zero _), (f_is_zero _); cbn; repeat split; eauto. Qed.
Lemma window_keeps b : let b' := window b in
  bat_v_samples b' = bat_v_samples b /\ bat_p_samples b' = bat_p_samples b /\ bat_samples_count b' = 0 /\
  pmu_charged_ascertain b' = pmu_charged_ascertain b /\ battery_state b' = battery_state b /\ battery_percent b' = battery_percent b /\
  battery_ready b' = battery_ready b /\
  (f_leb BAT_V_MAX (to_f64 (battery_voltage b)) = true -> bat_voltage_dropping b' = false).
Proof.
  unfold window. cbv zeta. destruct b. cbn.
  repeat (match goal with |- context [if ?c then _ else _] => destruct c end; cbn); repeat split; congruence.
Qed.
Lemma judge_keeps b : 0 <= pmu_charged_ascertain b <= 8 -> let b' := judge b in
  bat_v_samples b' = bat_v_samples b /\ bat_p_samples b' = bat_p_samples b /\ bat_samples_count b' = bat_samples_count b /\
  0 <= pmu_charged_ascertain b' <= 8 /\ (battery_state b' = battery_state b \/ 1 <= battery_state b' <= 3) /\
  battery_percent b' = battery_percent b /\ bat_voltage_dropping b' = bat_voltage_dropping b /\ battery_ready b' = battery_ready b.
Proof.
  intros Ha. unfold judge. cbv zeta. destruct b. cbn in *. destruct (_ && _); cbn; [repeat split; auto; try lia; right; vm_compute; split; discriminate|].
  destruct (Z.ltb_spec pmu_charged_ascertain0 8); cbn; [rewrite u8_id by (unfold is_u8; lia); repeat split; auto; try lia; right; vm_compute; split; discriminate|].
  destruct (f_ltb _ _); cbn; repeat split; auto; try lia; right; vm_compute; split; discriminate.
Qed.

Lemma gauge_keeps b : 0 <= pmu_charged_ascertain b <= 8 -> let b' := gauge b in
  bat_v_samples b' = bat_v_samples b /\ bat_p_samples b' = bat_p_samples b /\
  bat_samples_count b' = (if bat_samples_count b mod Z.of_nat BAT_SAMPLES =? 0 then 0 else bat_samples_count b) /\
  0 <= pmu_charged_ascertain b' <= 8 /\ (battery_state b' = battery_state b \/ 1 <= battery_state b' <= 3) /\
  (exists p, battery_percent b' = clamp_percent p) /\ battery_ready b' = battery_ready b.
Proof.
  intros Ha. cbv zeta. unfold gauge. destruct (averages_keep b) as (A1 & A2 & A3 & A4 & A5 & A6 & A7 & A8).
  rewrite A3. destruct (_ =? 0).
  - destruct (window_keeps (averages b)) as (W1 & W2 & W3 & W4 & W5 & W6 & W7 & _).
    destruct (judge_keeps (window (averages b)) ltac:(now rewrite W4, A4)) as (J1 & J2 & J3 & J4 & J5 & J6 & _ & J8).
    rewrite J1, J2, J3, J6, J8, W1, W2, W3, W6, W7. rewrite W5, A5 in J5. auto 10.
  - destruct (judge_keeps (averages b) ltac:(now rewrite A4)) as (J1 & J2 & J3 & J4 & J5 & J6 & _ & J8).
    rewrite J1, J2, J3, J6, J8. rewrite A5 in J5. auto 10.
Qed.
Lemma report_keeps b : let b' := fst (report b) in
  bat_v_samples b' = bat_v_samples b /\ bat_p_samples b' = bat_p_samples b /\ bat_samples_count b' = bat_samples_count b /\
  pmu_charged_ascertain b' = pmu_charged_ascertain b /\ battery_state b' = battery_state b /\ battery_percent b' = battery_percent b /\
  bat_voltage_dropping b' = bat_voltage_dropping b /\ battery_ready b' = battery_ready b.
Proof. cbv zeta. unfold report. destruct b. cbn. destruct battery_ready0; repeat split. Qed.

(** The gauge stays in bounds: from a full ring to the next, whatever the converter
    reads, the rings are indexed inside, the percentage is neither above 100 nor below 0,
    and the state is one of the four. *)
Theorem gauge_in_bounds (v : cfloat) (b : battery) : (0 < BAT_SAMPLES < 256)%nat -> gauge_ok b -> gauge_ok (fst (measure_battery v b)).
Proof.
  intros Hn ((L1 & L2) & Hc & Ha & Hp & Hs). unfold measure_battery.
  set (b1 := take_sample v b).
  assert (H1 : length (bat_v_samples b1) = BAT_SAMPLES /\ length (bat_p_samples b1) = BAT_SAMPLES /\
    bat_samples_count b1 = bat_samples_count b + 1 /\ pmu_charged_ascertain b1 = pmu_charged_ascertain b /\
    battery_percent b1 = battery_percent b /\ battery_state b1 = battery_state b /\
    (battery_ready b1 = false -> bat_samples_count b + 1 < Z.of_nat BAT_SAMPLES)).
  { subst b1. unfold take_sample. destruct b. cbn in *. rewrite u8_id by (unfold is_u8; lia).
    assert (0 <= bat_samples_count0 mod Z.of_nat BAT_SAMPLES < Z.of_nat BAT_SAMPLES) by (apply Z.mod_pos_bound; lia).
    destruct battery_ready0; cbn.
    - rewrite !length_zset by (unfold zlen; lia). repeat split; auto. discriminate.
    - destruct (Z.leb_spec (Z.of_nat BAT_SAMPLES) (bat_samples_count0 + 1)); cbn; rewrite !length_zset by (unfold zlen; lia); repeat split; auto; discriminate. }
  destruct H1 as (V1 & V2 & V3 & V4 & V5 & V6 & V7). generalize dependent b1. intros b1 V1 V2 V3 V4 V5 V6 V7.
  destruct (report_keeps (if battery_ready b1 then gauge b1 else b1)) as (R1 & R2 & R3 & R4 & R5 & R6 & _).
  unfold gauge_ok. rewrite R1, R2, R3, R4, R5, R6. destruct (battery_ready b1).
  - destruct (gauge_keeps b1 ltac:(lia)) as (K1 & K2 & K3 & K4 & K5 & (p & K6) & _). rewrite K1, K2, K3, K6, V3.
    split; [auto|]. split; [|split; [exact K4|split; [apply clamp_bounds|lia]]].
    destruct (Z.eqb_spec ((bat_samples_count b + 1) mod Z.of_nat BAT_SAMPLES) 0) as [|He]; [lia|].
    assert (bat_samples_count b + 1 <> Z.of_nat BAT_SAMPLES) by (intros Heq; apply He; rewrite Heq; apply Z.mod_same; lia). lia.
  - specialize (V7 eq_refl). rewrite V3, V4, V5, V6. destruct Hp; repeat split; auto; lia.
Qed.

(** No measurement of the run finds the voltage falling. *)
Fixpoint steady (vs : list cfloat) (b : battery) : Prop :=
  match vs with
  | [] => True
  | v :: vs => let b := fst (measure_battery v b) in bat_voltage_dropping b = false /\ steady vs b
  end.
Lemma steady_step v b : battery_ready b = true -> 0 <= pmu_charged_ascertain b <= 8 ->
  let b' := fst (measure_battery v b) in bat_voltage_dropping b' = false ->
  battery_ready b' = true /\ pmu_charged_ascertain b' = Z.min 8 (pmu_charged_ascertain b + 1) /\
  (pmu_charged_ascertain b = 8 \/ 2 <= battery_state b <= 3 -> 2 <= battery_state b' <= 3).
Proof.
  intros Hr Ha. cbv zeta. unfold measure_battery. set (b1 := take_sample v b).
  assert (H1 : battery_ready b1 = true /\ pmu_charged_ascertain b1 = pmu_charged_ascertain b /\ battery_state b1 = battery_state b).
  { subst b1. unfold take_sample. destruct b. cbn in *. subst. auto. }
  destruct H1 as (V1 & V2 & V3). clearbody b1. rewrite V1. unfold gauge.
  set (b2 := if bat_samples_count (averages b1) mod _ =? 0 then window (averages b1) else averages b1).
  assert (H2 : battery_ready b2 = battery_ready b1 /\ pmu_charged_ascertain b2 = pmu_charged_ascertain b1 /\ battery_state b2 = battery_state b1).
  { destruct (averages_keep b1) as (_ & _ & _ & A4 & A5 & _ & _ & A8). destruct (window_keeps (averages b1)) as (_ & _ & _ & W4 & W5 & _ & W7 & _).
    subst b2. destruct (_ =? 0); rewrite ?W4, ?W5, ?W7; auto. }
  destruct H2 as (E1 & E2 & E3). rewrite V1 in E1. rewrite V2 in E2. rewrite V3 in E3. clearbody b2.
  destruct (report_keeps (judge b2)) as (_ & _ & _ & R4 & R5 & _ & R7 & R8). rewrite R4, R5, R7, R8. clear R4 R5 R7 R8.
  destruct (judge_keeps b2 ltac:(lia)) as (_ & _ & _ & _ & _ & _ & J7 & J8). rewrite J7, J8, <- E2, <- E3. intros Hd. split; [exact E1|].
  unfold judge. rewrite Hd. cbn [andb]. destruct (Z.ltb_spec (pmu_charged_ascertain b2) 8) as [Hl|Hl].
  - clear - Hl Ha E2. destruct b2. cbn in *. rewrite u8_id by (unfold is_u8; lia). split; [lia|intros [|]; lia].
  - clear - Hl Ha E2. destruct b2. cbn in *. split; [lia|]. intros _. destruct (f_ltb _ _); vm_compute; split; discriminate.
Qed.
(** The state is settled in nine measurements: once the voltage is not found falling, the
    ninth measurement says charging or charged, whatever was said before. *)
Theorem steady_settles vs : forall b, battery_ready b = true -> 0 <= pmu_charged_ascertain b <= 8 -> steady vs b ->
  (9 <= length vs)%nat -> 2 <= battery_state (foldl (fun b v => fst (measure_battery v b)) b vs) <= 3.
Proof.
  assert (Hgen : forall vs b, battery_ready b = true -> 0 <= pmu_charged_ascertain b <= 8 -> steady vs b ->
    8 - pmu_charged_ascertain b < Z.of_nat (length vs) \/ 2 <= battery_state b <= 3 ->
    2 <= battery_state (foldl (fun b v => fst (measure_battery v b)) b vs) <= 3).
  { clear vs. induction vs as [|v vs IH]; intros b Hr Ha Hs Hl; cbn [foldl].
    - cbn [length] in Hl. lia.
    - destruct Hs as [Hd Hs]. destruct (steady_step v b Hr Ha Hd) as (S1 & S2 & S3). apply IH; [exact S1|lia|exact Hs|].
      cbn [length] in Hl. lia. }
  intros b Hr Ha Hs Hl. apply Hgen; auto. lia.
Qed.
(** At the top of its range the voltage is not taken for falling, as the comment at the
    end of the window intends. *)
Theorem full_is_not_falling b : f_leb BAT_V_MAX (to_f64 (battery_voltage (averages b))) = true ->
  bat_samples_count b mod Z.of_nat BAT_SAMPLES = 0 -> bat_voltage_dropping (gauge b) = false.
Proof.
  intros Hv Hc. unfold gauge. destruct (averages_keep b) as (_ & _ & A3 & _). rewrite A3, Hc. cbn [Z.eqb].
  destruct (window_keeps (averages b)) as (_ & _ & _ & _ & _ & _ & _ & W). specialize (W Hv). revert W.
  generalize (window (averages b)) as c. intros c Hd. unfold judge. rewrite Hd. cbn [andb]. destruct c; cbn in *. now destruct (_ <? 8).
Qed.
End BatteryTheorems.

Lemma gauge_in_bounds_witness : @gauge_ok heltec_t114_gauge (fst (@measure_battery heltec_t114_gauge (volts 4 1) (@battery0 heltec_t114_gauge))).
Proof.
  apply (@gauge_in_bounds heltec_t114_gauge); [cbn; lia|]. unfold gauge_ok. repeat split; vm_compute; reflexivity || discriminate.
Defined.

(** The first percentages are taken of the voltage before there was one: after a start on
    a battery at 83 percent (T114, a steady 4 V), the gauge becomes ready at 0 percent,
    says so to the host, and reaches the value six measurements later. *)
Theorem gauge_starts_empty :
  let run n := @measure heltec_t114_gauge (repeat (volts 4 1) n) (@battery0 heltec_t114_gauge) in
  (battery_ready (fst (run 7%nat)) = true /\ f_trunc (battery_percent (fst (run 7%nat))) = 0) /\
  snd (run 16%nat) = [kiss_indicate_battery BATTERY_STATE_UNKNOWN f_zero; kiss_indicate_battery BATTERY_STATE_CHARGING (f32_of_Z 83)] /\
  f_trunc (battery_percent (fst (run 14%nat))) = 83.
Proof. vm_compute. repeat split. Qed.
