(* ===== verification/Driver.v ===== *)
(** * Device drivers

    What the transceiver drivers share: the calls they make to the Arduino core
    ([World]), the state monad their methods are written in, and a program logic that
    follows the driver's object and the state of the chip through a method. *)
From S2P Require Import Prelude.

(** ** The world outside *)

(** The calls a driver makes to the Arduino core.  [spi] is one transaction
    framed by the chip-select line: the bytes shifted out, and the byte shifted in
    with each.  [millis] is a 32-bit [unsigned long].  [double_to_u32] is the
    conversion of an integral [double] to [uint32_t], which C++ leaves undefined
    out of range.  [busy_reads] bounds the turns a busy loop makes in 100 ms. *)
Class World (W : Type) := {
  spi : list Z -> W -> list Z * W;
  millis : W -> Z * W;
  delay : Z -> W -> W;
  digitalRead : Z -> W -> bool * W;
  digitalWrite : Z -> bool -> W -> W;
  pinMode : Z -> W -> W;
  spi_begin : W -> W;
  spi_end : W -> W;
  attachInterrupt : Z -> W -> W;
  detachInterrupt : Z -> W -> W;
  double_to_u32 : Z -> Z;
  busy_reads : nat
}.

Definition HIGH : bool := true.
Definition LOW : bool := false.

(** ** Buffers *)

(** [n] bytes from [off] on in a transceiver's buffer of 256, wrapping at its end. *)
Definition fifo_slice (buf : list Z) (off : Z) (n : nat) : list Z :=
  map (fun i => zget 0 buf (u8 (off + Z.of_nat i))) (seq 0 n).

Lemma fifo_slice_len buf off n : length (fifo_slice buf off n) = n.
Proof. unfold fifo_slice. now rewrite length_map, length_seq. Qed.

Lemma fifo_slice_take (buf : list Z) n : length buf = 256%nat -> (n <= 255)%nat -> fifo_slice buf 0 n = take n buf.
Proof.
  intros Hb Hn. apply list_eq. intros i. unfold fifo_slice. rewrite list_lookup_fmap.
  destruct (decide (i < n)%nat) as [Hi|Hi].
  - rewrite lookup_seq_lt, lookup_take_lt by lia. cbn [fmap option_fmap option_map].
    rewrite u8_id by (unfold is_u8; lia). unfold zget. replace (Z.to_nat (0 + Z.of_nat (0 + i))) with i by lia.
    destruct (lookup_lt_is_Some_2 buf i ltac:(lia)) as [x Hx]. now rewrite Hx.
  - rewrite lookup_seq_ge, lookup_take_ge by lia. reflexivity.
Qed.

(** A cell of a chip's memory is written. *)
Definition cell_set (l : list Z) (i x : Z) : list Z := <[Z.to_nat i := x]> l.
Lemma zget_cell_set_eq (d : Z) l i x : 0 <= i < zlen l -> zget d (cell_set l i x) i = x.
Proof. unfold zlen, zget, cell_set. intros. rewrite list_lookup_insert_eq by lia. reflexivity. Qed.
Lemma zget_cell_set_ne (d : Z) l i j x : 0 <= i -> 0 <= j -> i <> j -> zget d (cell_set l i x) j = zget d l j.
Proof. unfold zget, cell_set. intros. rewrite list_lookup_insert_ne by lia. reflexivity. Qed.
Lemma cell_set_take (buf : list Z) n b : 0 <= n < Z.of_nat (length buf) ->
  take (Z.to_nat (n + 1)) (cell_set buf n b) = take (Z.to_nat n) buf ++ [b].
Proof.
  intros Hn. unfold cell_set. replace (Z.to_nat (n + 1)) with (S (Z.to_nat n)) by lia.
  rewrite (take_S_r _ _ b) by (rewrite list_lookup_insert_eq; [reflexivity|lia]).
  now rewrite take_insert_ge by lia.
Qed.

(** ** Programs *)

(** The driver's object, the globals of its file, the world. *)
Record device (O G W : Type) := mk_device { ic : O; gl : G; wd : W }.
Arguments mk_device {O G W} _ _ _. Arguments ic {O G W} _. Arguments gl {O G W} _. Arguments wd {O G W} _.

Definition prog (O G W A : Type) : Type := device O G W -> A * device O G W.

Declare Scope drv_scope.
Delimit Scope drv_scope with drv.

Section Programs.
Context {O G W : Type}.
Abbreviation M := (prog O G W).
Implicit Types (s : device O G W).

Definition ret {A} (a : A) : M A := fun s => (a, s).
Definition bind {A B} (m : M A) (k : A -> M B) : M B := fun s => let '(a, s) := m s in k a s.

(** Reading and updating the object, the globals and the world. *)
Definition get {A} (f : O -> A) : M A := fun s => (f (ic s), s).
Definition getg {A} (f : G -> A) : M A := fun s => (f (gl s), s).
Definition upd (f : O -> O) : M unit := fun s => (tt, s <| ic ::= f |>).
Definition updg (f : G -> G) : M unit := fun s => (tt, s <| gl ::= f |>).
Definition call {A} (f : W -> A * W) : M A := fun s => let '(a, w) := f (wd s) in (a, s <| wd := w |>).
Definition act (f : W -> W) : M unit := fun s => (tt, s <| wd ::= f |>).
Definition skip : M unit := ret tt.
Definition when (b : bool) (m : M unit) : M unit := if b then m else skip.

Lemma bind_eq {A B} (m : M A) (k : A -> M B) s : bind m k s = k (fst (m s)) (snd (m s)).
Proof. unfold bind. now destruct (m s). Qed.
Lemma call_eq {A} (f : W -> A * W) s : call f s = (fst (f (wd s)), mk_device (ic s) (gl s) (snd (f (wd s)))).
Proof. unfold call. destruct (f (wd s)) as [a w]. now destruct s. Qed.
Lemma upd_eq f s : upd f s = (tt, mk_device (f (ic s)) (gl s) (wd s)).
Proof. now destruct s. Qed.
End Programs.

Notation "x ← m ; k" := (bind m (fun x => k)) : drv_scope.
Notation "' x ← m ; k" := (bind m (fun x => k)) : drv_scope.
Notation "m ;; k" := (bind m (fun _ => k)) : drv_scope.

(** ** Reasoning about programs *)

(** [ch] is where the world keeps the chip. *)
Section Logic.
Context {O G W K : Type} (ch : W -> K).
Abbreviation M := (prog O G W).
Implicit Types (d : O) (k v : K) (R : K -> K -> Prop) (s : device O G W).

(** [wp_at ch m Q d k]: run from object [d] and chip [k], [m] ends with [Q] of its
    result, the object and the chip. *)
Definition wp_at {A} (m : M A) (Q : A -> O -> K -> Prop) (d : O) (k : K) : Prop :=
  forall s, ic s = d -> ch (wd s) = k -> let '(a, s') := m s in Q a (ic s') (ch (wd s')).

Lemma wp_at_elim {A} (m : M A) Q s :
  wp_at m Q (ic s) (ch (wd s)) -> Q (fst (m s)) (ic (snd (m s))) (ch (wd (snd (m s)))).
Proof. intros Hw. specialize (Hw s eq_refl eq_refl). now destruct (m s). Qed.

Lemma wp_mono {A} (m : M A) (Q R : A -> O -> K -> Prop) d k :
  wp_at m Q d k -> (forall a d k, Q a d k -> R a d k) -> wp_at m R d k.
Proof. intros Hw Hq s Hd Hk. specialize (Hw s Hd Hk). destruct (m s). auto. Qed.

Lemma wp_ret {A} (a : A) Q d k : Q a d k -> wp_at (ret a) Q d k.
Proof. intros Hq s <- <-. exact Hq. Qed.
Lemma wp_bind {A B} (m : M A) (f : A -> M B) Q d k :
  wp_at m (fun a d k => wp_at (f a) Q d k) d k -> wp_at (bind m f) Q d k.
Proof. intros Hw s Hd Hk. specialize (Hw s Hd Hk). unfold bind. destruct (m s) as [a s']. now apply Hw. Qed.
Lemma wp_get {A} (f : O -> A) Q d k : Q (f d) d k -> wp_at (get f) Q d k.
Proof. intros Hq s <- <-. exact Hq. Qed.
Lemma wp_getg {A} (f : G -> A) Q d k : (forall a, Q a d k) -> wp_at (getg f) Q d k.
Proof. intros Hq s <- <-. apply Hq. Qed.
Lemma wp_upd f Q d k : Q tt (f d) k -> wp_at (upd f) Q d k.
Proof. intros Hq s <- <-. exact Hq. Qed.
Lemma wp_updg f Q d k : Q tt d k -> wp_at (updg f) Q d k.
Proof. intros Hq s <- <-. exact Hq. Qed.
Lemma wp_when b m Q d k : (b = true -> wp_at m Q d k) -> (b = false -> Q tt d k) -> wp_at (when b m) Q d k.
Proof. destruct b; intros Hy Hn; [auto|apply wp_ret; auto]. Qed.
(** A call to the world takes the chip along [R], what it may do by itself. *)
Lemma wp_act_along R f Q d k : (forall w, R (ch w) (ch (f w))) -> (forall v, R k v -> Q tt d v) -> wp_at (act f) Q d k.
Proof. intros Hf Hq s <- <-. apply Hq, Hf. Qed.
Lemma wp_call_along R {A} (f : W -> A * W) Q d k :
  (forall w, R (ch w) (ch (snd (f w)))) -> (forall a v, R k v -> Q a d v) -> wp_at (call f) Q d k.
Proof. intros Hf Hq s <- <-. unfold call. pose proof (Hf (wd s)) as Hd. destruct (f (wd s)). apply Hq, Hd. Qed.
End Logic.

(** Symbolic execution of the constructs that need no knowledge of the chip. *)
Ltac wp_core :=
  lazymatch goal with
  | |- wp_at _ (bind _ _) _ _ _ => apply wp_bind
  | |- wp_at _ (ret _) _ _ _ => apply wp_ret
  | |- wp_at _ (get _) _ _ _ => apply wp_get; cbv beta
  | |- wp_at _ (getg _) _ _ _ => apply wp_getg; intros ?
  | |- wp_at _ (upd _) _ _ _ => apply wp_upd; cbv beta
  | |- wp_at _ (updg _) _ _ _ => apply wp_updg
  | |- wp_at _ (when _ _) _ _ _ => apply wp_when; intros ?
  | |- wp_at _ skip _ _ _ => apply wp_ret
  | |- wp_at _ (if ?b then _ else _) _ _ _ => destruct b eqn:?
  end.
