(* ===== verification/Sx126x.v ===== *)
(** * The SX1262 driver (sx126x.cpp, sx126x.h)

    The driver object, its SPI transactions and every method, as programs of a
    state monad over the driver's fields, the globals of the file and the world
    outside the processor (Driver.v).  What the transceiver
    promises is in [Sx126xChip.v], what the driver guarantees over it in
    [Sx126xLink.v].  Methods carry the prefix [sx_] for [sx126x::]. *)
From Stdlib Require Import Floats.SpecFloat.
From S2P Require Import Prelude Driver Boards Float.
#[local] Open Scope drv_scope.

(** ** Constants *)

(* @src sx126x.cpp:59-93 OP_RF_FREQ_6X *)
Definition OP_RF_FREQ_6X : Z := 0x86.
Definition OP_SLEEP_6X : Z := 0x84.
Definition OP_STANDBY_6X : Z := 0x80.
Definition OP_TX_6X : Z := 0x83.
Definition OP_RX_6X : Z := 0x82.
Definition OP_PA_CONFIG_6X : Z := 0x95.
Definition OP_SET_IRQ_FLAGS_6X : Z := 0x08.
Definition OP_CLEAR_IRQ_STATUS_6X : Z := 0x02.
Definition OP_GET_IRQ_STATUS_6X : Z := 0x12.
Definition OP_RX_BUFFER_STATUS_6X : Z := 0x13.
Definition OP_PACKET_STATUS_6X : Z := 0x14.
Definition OP_CURRENT_RSSI_6X : Z := 0x15.
Definition OP_MODULATION_PARAMS_6X : Z := 0x8B.
Definition OP_PACKET_PARAMS_6X : Z := 0x8C.
Definition OP_TX_PARAMS_6X : Z := 0x8E.
Definition OP_PACKET_TYPE_6X : Z := 0x8A.
Definition OP_BUFFER_BASE_ADDR_6X : Z := 0x8F.
Definition OP_READ_REGISTER_6X : Z := 0x1D.
Definition OP_WRITE_REGISTER_6X : Z := 0x0D.
Definition OP_DIO3_TCXO_CTRL_6X : Z := 0x97.
Definition OP_DIO2_RF_CTRL_6X : Z := 0x9D.
Definition OP_CALIBRATE_6X : Z := 0x89.
Definition OP_RX_TX_FALLBACK_MODE_6X : Z := 0x93.
Definition OP_REGULATOR_MODE_6X : Z := 0x96.
Definition OP_CALIBRATE_IMAGE_6X : Z := 0x98.
Definition OP_CLR_ERROR_6X : Z := 0x07.
Definition MASK_CALIBRATE_ALL : Z := 0x7f.
(* @src sx126x.cpp:95-100 IRQ_TX_DONE_MASK_6X *)
Definition IRQ_TX_DONE_MASK_6X : Z := 0x01.
Definition IRQ_RX_DONE_MASK_6X : Z := 0x02.
Definition IRQ_HEADER_DET_MASK_6X : Z := 0x10.
Definition IRQ_PREAMBLE_DET_MASK_6X : Z := 0x04.
Definition IRQ_PAYLOAD_CRC_ERROR_MASK_6X : Z := 0x40.
(* @src sx126x.cpp:102-111 MODE_LONG_RANGE_MODE_6X *)
Definition MODE_LONG_RANGE_MODE_6X : Z := 0x01.
Definition OP_FIFO_WRITE_6X : Z := 0x0E.
Definition OP_FIFO_READ_6X : Z := 0x1E.
Definition REG_OCP_6X : Z := 0x08E7.
Definition REG_LNA_6X : Z := 0x08AC.
Definition REG_SYNC_WORD_MSB_6X : Z := 0x0740.
Definition REG_SYNC_WORD_LSB_6X : Z := 0x0741.
Definition REG_RANDOM_GEN_6X : Z := 0x0819.
(* @src sx126x.cpp:113-128 MODE_TCXO_3_3V_6X *)
Definition MODE_TCXO_3_3V_6X : Z := 0x07.
Definition MODE_TCXO_1_8V_6X : Z := 0x02.
Definition MODE_STDBY_RC_6X : Z := 0x00.
Definition MODE_STDBY_XOSC_6X : Z := 0x01.
Definition SYNC_WORD_6X : Z := 0x1424.
(* @src sx126x.cpp:153-153 MAX_PKT_LENGTH *)
Definition MAX_PKT_LENGTH : Z := 255.
(* @src sx126x.h:17-17 LORA_MODEM_TIMEOUT_MS *)
Definition LORA_MODEM_TIMEOUT_MS : Z := 20000.

(** [FREQ_STEP_6X] is [32e6 / 2^25], a [double]. *)
(* @src sx126x.cpp:130-132 FREQ_STEP_6X *)
Definition FREQ_STEP_6X : cfloat := f64_div (f64_of_Z 32000000) (f64_of_Z (2 ^ 25)).

(** ** The build *)

(** The symbols of Boards.h only this driver tests. *)
Class RadioBuild := {
  DIO2_AS_RF_SWITCH : bool;
  HAS_TCXO : bool;
  OCP_TUNED : Z;
  HAS_LORA_LNA : bool;
  LORA_LNA_GAIN : Z;
  LORA_LNA_KCT8103L_GAIN : Z;
  LORA_PA_MODEL : Z;
  LORA_PA_PWR_EN : Z;
  LORA_PA_CSD : Z;
  LORA_PA_CPS : Z;
  LORA_PA_CTX : Z
}.

(** ** State *)

(** The [int] fields hold small values; [_onReceive] is whether a callback is set. *)
(* @src sx126x.h:139-169 sx126x *)
Record sx126x := mk_sx126x {
  _ss : Z; _reset : Z; _dio0 : Z; _rxen : Z; _txen : Z; _busy : Z;
  _frequency : Z; _txp : Z;
  _sf : Z; _bw : Z; _cr : Z; _ldro : Z;
  _packetIndex : Z; _preambleLength : Z; _implicitHeaderMode : Z; _payloadLength : Z; _crcMode : Z;
  _fifo_tx_addr_ptr : Z; _fifo_rx_addr_ptr : Z;
  _packet : list Z;
  _preinit_done : bool; _dio0_pending : bool; _onReceive : bool
}.

(* @src sx126x.cpp:155-175 sx126x *)
Definition sx126x0 : sx126x :=
  mk_sx126x 10 9 2 (-1) (-1) (-1) 0 0 0x07 0x04 0x01 0x00 0 18 0 255 1 0 0 (repeat 0 255) false false false.

(** The globals of the file, and [lora_low_datarate] of Config.h. *)
(* @src sx126x.cpp:143-149 lora_pa_model *)
Record sx_globals := mk_sx_globals {
  sx_pa_model : Z; lora_lna_gain : Z;
  preamble_detected_at : Z; header_detected_at : Z; false_preamble_detected : bool;
  lora_low_datarate : bool
}.

Abbreviation radio := (device sx126x sx_globals).
Abbreviation M := (prog sx126x sx_globals).

Section Driver.
Context {W : Type} `{World W} `{Board} `{RadioBuild}.
Implicit Types (s : radio W).

(** ** Transactions *)

(** The loop reads the pin, then the clock; it gives the time away after 100 ms.
    [false]: the fuel ran out. *)
(* @src sx126x.cpp:253-279 waitOnBusy *)
Fixpoint busy_loop (fuel : nat) (busy time : Z) : M W bool :=
  match fuel with
  | O => ret false
  | S fuel =>
      b ← call (digitalRead busy);
      if b then
        now ← call millis;
        if u32 (time + 100) <=? now then ret true else busy_loop fuel busy time
      else ret true
  end.
(* @src sx126x.cpp:253-279 waitOnBusy *)
Definition sx_waitOnBusy : M W bool :=
  time ← call millis;
  busy ← get _busy;
  if negb (busy =? -1) then busy_loop (S busy_reads) busy time else ret true.

(** One transaction: wait for the chip, then shift the bytes. *)
Definition transfer (mosi : list Z) : M W (list Z) := _ ← sx_waitOnBusy; call (spi mosi).

(* @src sx126x.cpp:219-235 singleTransfer *)
Definition sx_singleTransfer (opcode address value : Z) : M W Z :=
  miso ← transfer ([opcode; Z.shiftr (Z.land address 0xFF00) 8; Z.land address 0x00FF] ++
                   (if opcode =? OP_READ_REGISTER_6X then [0x00] else []) ++ [value]);
  ret (last miso 0).
(* @src sx126x.cpp:211-213 readRegister *)
Definition sx_readRegister (address : Z) : M W Z := sx_singleTransfer OP_READ_REGISTER_6X address 0x00.
(* @src sx126x.cpp:215-217 writeRegister *)
Definition sx_writeRegister (address value : Z) : M W unit :=
  _ ← sx_singleTransfer OP_WRITE_REGISTER_6X address (u8 value); skip.
(* @src sx126x.cpp:281-289 executeOpcode *)
Definition sx_executeOpcode (opcode : Z) (buffer : list Z) : M W unit := _ ← transfer (opcode :: buffer); skip.
(** The buffer after the transaction: the bytes that follow opcode and status. *)
(* @src sx126x.cpp:291-300 executeOpcodeRead *)
Definition sx_executeOpcodeRead (opcode : Z) (size : nat) : M W (list Z) :=
  miso ← transfer ([opcode; 0x00] ++ repeat 0x00 size);
  ret (drop 2 miso).
(** The pointer is an [int]; the byte shifted out is its low eight bits. *)
(* @src sx126x.cpp:302-311 writeBuffer *)
Definition sx_writeBuffer (buffer : list Z) : M W unit :=
  ptr ← get _fifo_tx_addr_ptr;
  _ ← transfer ([OP_FIFO_WRITE_6X; u8 ptr] ++ buffer);
  upd (fun d => d <| _fifo_tx_addr_ptr := ptr + zlen buffer |>).
(* @src sx126x.cpp:313-323 readBuffer *)
Definition sx_readBuffer (size : nat) : M W (list Z) :=
  ptr ← get _fifo_rx_addr_ptr;
  miso ← transfer ([OP_FIFO_READ_6X; u8 ptr; 0x00] ++ repeat 0x00 size);
  ret (drop 3 miso).

(** ** Parameters of the modem *)

(* @src sx126x.cpp:325-338 setModulationParams *)
Definition sx_setModulationParams (sf bw cr ldro : Z) : M W unit :=
  sx_executeOpcode OP_MODULATION_PARAMS_6X [sf; bw; cr; u8 ldro; 0; 0; 0; 0].
(* @src sx126x.cpp:340-369 setPacketParams *)
Definition sx_setPacketParams (preamble_symbols headermode payload_length crc : Z) : M W unit :=
  sx_executeOpcode OP_PACKET_PARAMS_6X
    [u8 (Z.shiftr (Z.land preamble_symbols 0xFF00) 8); u8 (Z.land preamble_symbols 0x00FF);
     u8 headermode; u8 payload_length; u8 crc; 0x00; 0x00; 0x00; 0x00] ;;
  iqreg ← sx_readRegister 0x0736;
  sx_writeRegister 0x0736 (Z.lor iqreg 0x04).
(** The call every setter of the packet format makes. *)
Definition push_packet_params : M W unit :=
  d ← get (fun d => d);
  sx_setPacketParams (_preambleLength d) (_implicitHeaderMode d) (_payloadLength d) (_crcMode d).

(* @src sx126x.cpp:1326-1329 enableCrc *)
Definition sx_enableCrc : M W unit := upd (fun d => d <| _crcMode := 1 |>) ;; push_packet_params.
Definition sx_disableCrc : M W unit := upd (fun d => d <| _crcMode := 0 |>) ;; push_packet_params.
Definition sx_explicitHeaderMode : M W unit := upd (fun d => d <| _implicitHeaderMode := 0 |>) ;; push_packet_params.
Definition sx_implicitHeaderMode : M W unit := upd (fun d => d <| _implicitHeaderMode := 1 |>) ;; push_packet_params.
(* @src sx126x.cpp:1194-1197 setPreambleLength *)
Definition sx_setPreambleLength (preamble_symbols : Z) : M W unit :=
  upd (fun d => d <| _preambleLength := preamble_symbols |>) ;; push_packet_params.

(* @src sx126x.cpp:1132-1147 getSignalBandwidth *)
Definition bandwidth_of (bw : Z) : Z :=
  if bw =? 0x00 then 7800 else if bw =? 0x01 then 15600 else if bw =? 0x02 then 31250
  else if bw =? 0x03 then 62500 else if bw =? 0x04 then 125000 else if bw =? 0x05 then 250000
  else if bw =? 0x06 then 500000 else if bw =? 0x08 then 10400 else if bw =? 0x09 then 20800
  else if bw =? 0x0A then 41700 else 0.
(* @src sx126x.cpp:1132-1147 getSignalBandwidth *)
Definition sx_getSignalBandwidth : M W Z := bw ← get _bw; ret (bandwidth_of bw).

(** The comparison with 16 is on integers: symbol time in ms, rounded down. *)
(* @src sx126x.cpp:1150-1154 handleLowDataRate *)
Definition ldro_of (sf bandwidth : Z) : bool := 16 <? Z.quot (Z.shiftl 1 sf) (Z.quot bandwidth 1000).
(* @src sx126x.cpp:1150-1154 handleLowDataRate *)
Definition sx_handleLowDataRate : M W unit :=
  sf ← get _sf; bandwidth ← sx_getSignalBandwidth;
  if ldro_of sf bandwidth
  then upd (fun d => d <| _ldro := 0x01 |>) ;; updg (fun g => g <| lora_low_datarate := true |>)
  else upd (fun d => d <| _ldro := 0x00 |>) ;; updg (fun g => g <| lora_low_datarate := false |>).
(* @src sx126x.cpp:1156-1167 optimizeModemSensitivity *)
Definition sx_optimizeModemSensitivity : M W unit :=
  reg ← sx_readRegister 0x0889; bandwidth ← sx_getSignalBandwidth;
  if bandwidth =? 500000 then sx_writeRegister 0x0889 (Z.land reg 0xFB)
  else sx_writeRegister 0x0889 (Z.lor reg 0x04).

Definition push_modulation_params : M W unit :=
  d ← get (fun d => d); sx_setModulationParams (_sf d) (_bw d) (_cr d) (_ldro d).
(* @src sx126x.cpp:1123-1130 setSpreadingFactor *)
Definition sx_setSpreadingFactor (sf : Z) : M W unit :=
  let sf := if sf <? 5 then 5 else if 12 <? sf then 12 else sf in
  upd (fun d => d <| _sf := sf |>) ;; sx_handleLowDataRate ;; push_modulation_params.
(* @src sx126x.cpp:1169-1180 setSignalBandwidth *)
Definition bw_code (sbw : Z) : Z :=
  if sbw <=? 7800 then 0x00 else if sbw <=? 10400 then 0x08 else if sbw <=? 15600 then 0x01
  else if sbw <=? 20800 then 0x09 else if sbw <=? 31250 then 0x02 else if sbw <=? 41700 then 0x0A
  else if sbw <=? 62500 then 0x03 else if sbw <=? 125000 then 0x04 else if sbw <=? 250000 then 0x05 else 0x06.
(* @src sx126x.cpp:1169-1184 setSignalBandwidth *)
Definition sx_setSignalBandwidth (sbw : Z) : M W unit :=
  upd (fun d => d <| _bw := bw_code sbw |>) ;;
  sx_handleLowDataRate ;; push_modulation_params ;; sx_optimizeModemSensitivity.
(* @src sx126x.cpp:1186-1192 setCodingRate4 *)
Definition sx_setCodingRate4 (denominator : Z) : M W unit :=
  let denominator := if denominator <? 5 then 5 else if 8 <? denominator then 8 else denominator in
  upd (fun d => d <| _cr := denominator - 4 |>) ;; push_modulation_params.

(** The bytes of the two sync-word registers. *)
(* @src sx126x.cpp:1199-1225 setSyncWord *)
Definition sync_bytes (sw : Z) : Z * Z :=
  if (0xFF <? sw) && (Z.land sw 0x0F0F =? 0x0404) then (Z.land (Z.shiftr sw 8) 0xFF, Z.land sw 0xFF)
  else
    let controlBits := 0x44 in
    let raw := Z.land sw 0xFF in
    (Z.lor (Z.land raw 0xF0) (Z.shiftr (Z.land controlBits 0xF0) 4),
     u8 (Z.lor (Z.shiftl (Z.land raw 0x0F) 4) (Z.land controlBits 0x0F))).
(* @src sx126x.cpp:1199-1225 setSyncWord *)
Definition sx_setSyncWord (sw : Z) : M W unit :=
  let '(msb, lsb) := sync_bytes sw in
  sx_writeRegister REG_SYNC_WORD_MSB_6X msb ;; sx_writeRegister REG_SYNC_WORD_LSB_6X lsb.

(** The steps of the synthesiser nearest below the frequency. *)
(* @src sx126x.cpp:1106-1115 setFrequency *)
Definition freq_steps (frequency : Z) : Z := u32 (f_trunc (f64_div (f64_of_Z frequency) FREQ_STEP_6X)).
(* @src sx126x.cpp:1106-1115 setFrequency *)
Definition sx_setFrequency (frequency : Z) : M W unit :=
  upd (fun d => d <| _frequency := frequency |>) ;;
  sx_executeOpcode OP_RF_FREQ_6X (be32 (freq_steps frequency)).
(* @src sx126x.cpp:1117-1121 getFrequency *)
Definition sx_getFrequency (d : sx126x) : Z := u32 (_frequency d).

(** [outputPin] is not used. *)
(* @src sx126x.cpp:1078-1102 setTxPower *)
Definition sx_setTxPower (level outputPin : Z) : M W unit :=
  clamp ← sx_readRegister 0x08D8;
  sx_writeRegister 0x08D8 (Z.lor clamp (Z.shiftl 0x0F 1)) ;;
  sx_executeOpcode OP_PA_CONFIG_6X [0x04; 0x07; 0x00; 0x01] ;;
  let level := if 22 <? level then 22 else if level <? -9 then -9 else level in
  sx_writeRegister REG_OCP_6X OCP_TUNED ;;
  sx_executeOpcode OP_TX_PARAMS_6X [u8 level; 0x02] ;;
  upd (fun d => d <| _txp := level |>).
(* @src sx126x.cpp:1104-1104 getTxPower *)
Definition sx_getTxPower (d : sx126x) : Z := u8 (_txp d).

(** ** Modes and start-up *)

(* @src sx126x.cpp:1011-1014 standby *)
Definition sx_standby : M W unit := sx_executeOpcode OP_STANDBY_6X [MODE_STDBY_XOSC_6X].
(* @src sx126x.cpp:1016-1016 sleep *)
Definition sx_sleep : M W unit := sx_executeOpcode OP_SLEEP_6X [0x00].
(* @src sx126x.cpp:247-251 loraMode *)
Definition sx_loraMode : M W unit := sx_executeOpcode OP_PACKET_TYPE_6X [MODE_LONG_RANGE_MODE_6X].
(* @src sx126x.cpp:237-245 rxAntEnable *)
Definition sx_rxAntEnable : M W unit :=
  rxen ← get _rxen; txen ← get _txen;
  when (negb (rxen =? -1)) (act (digitalWrite rxen HIGH)) ;;
  when (negb DIO2_AS_RF_SWITCH && negb (txen =? -1)) (act (digitalWrite txen LOW)).
(* @src sx126x.cpp:371-379 reset *)
Definition sx_reset : M W unit :=
  reset ← get _reset;
  when (negb (reset =? -1))
    (act (pinMode reset) ;; act (digitalWrite reset LOW) ;; act (delay 10) ;;
     act (digitalWrite reset HIGH) ;; act (delay 10)).
Definition wait_busy : M W unit := _ ← sx_waitOnBusy; skip.
(* @src sx126x.cpp:381-395 setDCDCRegulator *)
Definition sx_setDCDCRegulator : M W unit :=
  sx_executeOpcode OP_STANDBY_6X [MODE_STDBY_RC_6X] ;;
  sx_executeOpcode OP_REGULATOR_MODE_6X [0x01] ;;
  act (delay 5) ;; wait_busy.
(* @src sx126x.cpp:402-405 clearDeviceErrors *)
Definition sx_clearDeviceErrors : M W unit := sx_executeOpcode OP_CLR_ERROR_6X [0x00; 0x00].
(* @src sx126x.cpp:407-418 calibrate *)
Definition sx_calibrate : M W unit :=
  sx_executeOpcode OP_STANDBY_6X [MODE_STDBY_RC_6X] ;;
  sx_executeOpcode OP_CALIBRATE_6X [MASK_CALIBRATE_ALL] ;;
  act (delay 5) ;; wait_busy.
(* @src sx126x.cpp:420-429 calibrate_image *)
Definition image_freq (frequency : Z) : list Z :=
  let within lo hi := (lo * 1000000 <=? frequency) && (frequency <=? hi * 1000000) in
  if within 430 440 then [0x6B; 0x6F]
  else if within 470 510 then [0x75; 0x81]
  else if within 779 787 then [0xC1; 0xC5]
  else if within 863 870 then [0xD7; 0xDB]
  else if within 902 928 then [0xE1; 0xE9] else [0; 0].
(* @src sx126x.cpp:420-429 calibrate_image *)
Definition sx_calibrate_image (frequency : Z) : M W unit :=
  sx_executeOpcode OP_CALIBRATE_IMAGE_6X (image_freq frequency) ;; wait_busy.

(* @src sx126x.cpp:1018-1073 enableTCXO *)
Definition tcxo_voltage : Z :=
  if (BOARD_MODEL =? BOARD_RAK4631) || (BOARD_MODEL =? BOARD_HELTEC32_V3) || (BOARD_MODEL =? BOARD_XIAO_S3)
  then MODE_TCXO_3_3V_6X else MODE_TCXO_1_8V_6X.
(* @src sx126x.cpp:1018-1073 enableTCXO *)
Definition sx_enableTCXO : M W unit :=
  when HAS_TCXO (sx_executeOpcode OP_DIO3_TCXO_CTRL_6X [tcxo_voltage; 0x00; 0x00; 0xFF]).

(** The two register values [preInit] takes for a present chip. *)
Definition sync_known (syncmsb synclsb : Z) : bool :=
  let sw := of_be16 syncmsb synclsb in (u16 sw =? 0x1424) || (u16 sw =? 0x4434).
(** Each turn of the loop lasts the 100 ms of its [delay]: 21 turns are enough. *)
(* @src sx126x.cpp:190-206 preInit *)
Fixpoint preinit_loop (fuel : nat) (start syncmsb synclsb : Z) : M W (Z * Z) :=
  match fuel with
  | O => ret (syncmsb, synclsb)
  | S fuel =>
      now ← call millis;
      now' ← (if u32 (now - start) <? 2000 then call millis else ret (-1));
      if start <=? now' then
        syncmsb ← sx_readRegister REG_SYNC_WORD_MSB_6X;
        synclsb ← sx_readRegister REG_SYNC_WORD_LSB_6X;
        if sync_known syncmsb synclsb then ret (syncmsb, synclsb)
        else act (delay 100) ;; preinit_loop fuel start syncmsb synclsb
      else ret (syncmsb, synclsb)
  end.
(* @src sx126x.cpp:177-209 preInit *)
Definition sx_preInit : M W bool :=
  ss ← get _ss;
  act (pinMode ss) ;; act (digitalWrite ss HIGH) ;; act spi_begin ;;
  start ← call millis;
  '(syncmsb, synclsb) ← preinit_loop 21 start 0 0;
  if sync_known syncmsb synclsb then upd (fun d => d <| _preinit_done := true |>) ;; ret true
  else ret false.

(** The front-end amplifier: detection on the Heltec V4, then its supply pins. *)
(* @src sx126x.cpp:504-565 begin *)
Definition pa_setup : M W unit :=
  when HAS_LORA_PA (
    pa ← getg sx_pa_model;
    when ((pa =? LORA_PA_UNKNOWN) && ((BOARD_MODEL =? BOARD_HELTEC32_V4) || (BOARD_MODEL =? BOARD_HELTEC32_V4_R8))) (
      act (pinMode LORA_PA_PWR_EN) ;; act (pinMode LORA_PA_CSD) ;;
      act (digitalWrite LORA_PA_PWR_EN HIGH) ;; act (delay 5) ;;
      csd ← call (digitalRead LORA_PA_CSD);
      if (csd : bool) then updg (fun g => g <| sx_pa_model := LORA_PA_KCT8103L |> <| lora_lna_gain := LORA_LNA_KCT8103L_GAIN |>)
      else updg (fun g => g <| sx_pa_model := LORA_PA_GC1109 |>)) ;;
    pa ← getg sx_pa_model;
    if pa =? LORA_PA_GC1109 then
      act (pinMode LORA_PA_PWR_EN) ;; act (digitalWrite LORA_PA_PWR_EN HIGH) ;;
      act (pinMode LORA_PA_CSD) ;; act (digitalWrite LORA_PA_CSD HIGH) ;;
      act (pinMode LORA_PA_CPS) ;; act (digitalWrite LORA_PA_CPS HIGH)
    else when (pa =? LORA_PA_KCT8103L) (
      act (pinMode LORA_PA_PWR_EN) ;; act (digitalWrite LORA_PA_PWR_EN HIGH) ;;
      act (pinMode LORA_PA_CSD) ;; act (digitalWrite LORA_PA_CSD HIGH) ;;
      act (pinMode LORA_PA_CTX) ;; act (digitalWrite LORA_PA_CTX LOW))).

(** The power-up half of [begin]: regulator, oscillator, calibration, mode. *)
(* @src sx126x.cpp:448-480 begin *)
Definition power_up (frequency : Z) : M W unit :=
  rxen ← get _rxen; txen ← get _txen;
  when (negb (rxen =? -1)) (act (pinMode rxen)) ;;
  when (negb DIO2_AS_RF_SWITCH && negb (txen =? -1)) (act (pinMode txen)) ;;
  sx_setDCDCRegulator ;;
  when HAS_TCXO (sx_enableTCXO ;; sx_executeOpcode OP_RX_TX_FALLBACK_MODE_6X [0x30] ;; sx_clearDeviceErrors) ;;
  sx_calibrate ;; sx_calibrate_image frequency ;; sx_loraMode ;; sx_standby.
(** The configuration half. *)
(* @src sx126x.cpp:482-502 begin *)
Definition configure (frequency : Z) : M W unit :=
  sx_setSyncWord SYNC_WORD_6X ;;
  when DIO2_AS_RF_SWITCH (sx_executeOpcode OP_DIO2_RF_CTRL_6X [0x01]) ;;
  sx_rxAntEnable ;; sx_setFrequency frequency ;; sx_setTxPower 2 1 ;; sx_enableCrc ;;
  sx_writeRegister REG_LNA_6X 0x96 ;;
  (patch ← sx_readRegister 0x08B5; sx_writeRegister 0x08B5 (Z.lor patch 0x01)) ;;
  sx_executeOpcode OP_BUFFER_BASE_ADDR_6X [0; 0] ;;
  push_modulation_params ;; push_packet_params.
(* @src sx126x.cpp:431-568 begin *)
Definition sx_begin (frequency : Z) : M W bool :=
  sx_reset ;;
  busy ← get _busy;
  when (negb (busy =? -1)) (act (pinMode busy)) ;;
  done ← get _preinit_done;
  ok ← (if (done : bool) then ret true else sx_preInit);
  if (ok : bool) then power_up frequency ;; configure frequency ;; pa_setup ;; ret true else ret false.
(* @src sx126x.cpp:570-570 end *)
Definition sx_end : M W unit := sx_sleep ;; act spi_end ;; upd (fun d => d <| _preinit_done := false |>).

(** ** Transmitting *)

(** The transmit/receive switch of the front end on boards that need one. *)
Definition pa_ctx (v : bool) : M W unit :=
  when HAS_LORA_PA (pa ← getg sx_pa_model; when (pa =? LORA_PA_KCT8103L) (act (digitalWrite LORA_PA_CTX v))).

(* @src sx126x.cpp:647-711 beginPacket *)
Definition sx_beginPacket (implicitHeader : bool) : M W unit :=
  pa_ctx HIGH ;;
  txen ← get _txen; rxen ← get _rxen;
  when (negb (txen =? -1) && negb DIO2_AS_RF_SWITCH) (act (digitalWrite txen HIGH)) ;;
  when (negb (BOARD_MODEL =? BOARD_MESHPOE_S3) && negb (rxen =? -1)) (act (digitalWrite rxen LOW)) ;;
  sx_standby ;;
  (if implicitHeader then sx_implicitHeaderMode else sx_explicitHeaderMode) ;;
  upd (fun d => d <| _payloadLength := 0 |> <| _fifo_tx_addr_ptr := 0 |>) ;;
  push_packet_params.

(** The sum and the comparison are on [size_t]. *)
(* @src sx126x.cpp:911-917 write *)
Definition sx_write (buffer : list Z) : M W Z :=
  len ← get _payloadLength;
  let size := zlen buffer in
  let size := if MAX_PKT_LENGTH <? u32 (len + size) then u32 (MAX_PKT_LENGTH - len) else size in
  sx_writeBuffer (take (Z.to_nat size) buffer) ;;
  upd (fun d => d <| _payloadLength := len + size |>) ;;
  ret size.

Definition irq_status : M W Z := buf ← sx_executeOpcodeRead OP_GET_IRQ_STATUS_6X 2; ret (zget 0 buf 1).
Definition tx_done (irq : Z) : bool := negb (Z.land irq IRQ_TX_DONE_MASK_6X =? 0).

(** Each turn lasts at least the tick of its [vTaskDelay(1)].  The result is the
    status the loop ends with; [None]: out of fuel. *)
(* @src sx126x.cpp:733-772 endPacket *)
Fixpoint tx_poll (fuel : nat) (w_timeout irq : Z) : M W (option Z) :=
  match fuel with
  | O => ret None
  | S fuel =>
      now ← call millis;
      if (now <? w_timeout) && negb (tx_done irq) then
        irq ← irq_status;
        act (delay 1) ;;
        tx_poll fuel w_timeout irq
      else ret (Some irq)
  end.
(* @src sx126x.cpp:713-789 endPacket *)
Definition sx_endPacket : M W bool :=
  push_packet_params ;;
  sx_executeOpcode OP_TX_6X [0x00; 0x00; 0x00] ;;
  irq ← irq_status;
  now ← call millis;
  let w_timeout := double_to_u32 (now + LORA_MODEM_TIMEOUT_MS) in
  _ ← tx_poll (Z.to_nat (LORA_MODEM_TIMEOUT_MS + 1)) w_timeout irq;
  now ← call millis;
  let timed_out := negb (now <? w_timeout) in
  sx_executeOpcode OP_CLEAR_IRQ_STATUS_6X [0x00; IRQ_TX_DONE_MASK_6X] ;;
  ret (negb timed_out).

(** ** Receiving *)

(* @src sx126x.cpp:985-1009 receive *)
Definition sx_receive (size : Z) : M W unit :=
  pa_ctx LOW ;;
  (if 0 <? size then
     sx_implicitHeaderMode ;; upd (fun d => d <| _payloadLength := size |>) ;; push_packet_params
   else sx_explicitHeaderMode) ;;
  rxen ← get _rxen;
  when (negb (rxen =? -1)) sx_rxAntEnable ;;
  sx_executeOpcode OP_RX_6X [0xFF; 0xFF; 0xFF].

(* @src sx126x.cpp:919-923 available *)
Definition sx_available : M W Z :=
  buf ← sx_executeOpcodeRead OP_RX_BUFFER_STATUS_6X 2; i ← get _packetIndex; ret (zget 0 buf 0 - i).
(** The packet is fetched from the chip when its first byte is asked for. *)
(* @src sx126x.cpp:927-933 read *)
Definition fetch_packet : M W unit :=
  i ← get _packetIndex;
  when (i =? 0) (
    rxbuf ← sx_executeOpcodeRead OP_RX_BUFFER_STATUS_6X 2;
    upd (fun d => d <| _fifo_rx_addr_ptr := zget 0 rxbuf 1 |>) ;;
    bs ← sx_readBuffer (Z.to_nat (zget 0 rxbuf 0));
    upd (fun d => d <| _packet ::= fun p => bs ++ drop (length bs) p |>)).
(* @src sx126x.cpp:925-938 read *)
Definition sx_read : M W Z :=
  n ← sx_available;
  if n =? 0 then ret (-1)
  else
    fetch_packet ;;
    d ← get (fun d => d);
    upd (fun d => d <| _packetIndex ::= fun i => i + 1 |>) ;;
    ret (zget 0 (_packet d) (_packetIndex d)).
(* @src sx126x.cpp:940-952 peek *)
Definition sx_peek : M W Z :=
  n ← sx_available;
  if n =? 0 then ret (-1)
  else fetch_packet ;; d ← get (fun d => d); ret (zget 0 (_packet d) (_packetIndex d)).

(* @src sx126x.cpp:956-983 onReceive *)
Definition sx_onReceive (callback : bool) : M W unit :=
  upd (fun d => d <| _onReceive := callback |>) ;;
  dio0 ← get _dio0;
  if callback then
    act (pinMode dio0) ;;
    sx_executeOpcode OP_SET_IRQ_FLAGS_6X [0xFF; 0xFF; 0x00; IRQ_RX_DONE_MASK_6X; 0x00; 0x00; 0x00; 0x00] ;;
    act (attachInterrupt dio0)
  else act (detachInterrupt dio0).

(* @src sx126x.cpp:594-596 maskDio0 *)
Definition sx_maskDio0 : M W unit := dio0 ← get _dio0; when (negb (dio0 =? -1)) (act (detachInterrupt dio0)).
(* @src sx126x.cpp:598-645 unmaskDio0 *)
Definition sx_unmaskDio0 : M W unit :=
  dio0 ← get _dio0;
  when (negb (dio0 =? -1)) (
    act (attachInterrupt dio0) ;;
    dio0_high ← call (digitalRead dio0);
    when dio0_high (upd (fun d => d <| _dio0_pending := true |>))).

(** [Some n]: the callback is called with the packet length. *)
(* @src sx126x.cpp:1250-1264 handleDio0Rise *)
Definition sx_handleDio0Rise : M W (option Z) :=
  buf ← sx_executeOpcodeRead OP_GET_IRQ_STATUS_6X 2;
  sx_executeOpcode OP_CLEAR_IRQ_STATUS_6X [zget 0 buf 0; zget 0 buf 1] ;;
  if Z.land (zget 0 buf 1) IRQ_PAYLOAD_CRC_ERROR_MASK_6X =? 0 then
    upd (fun d => d <| _packetIndex := 0 |>) ;;
    rxbuf ← sx_executeOpcodeRead OP_RX_BUFFER_STATUS_6X 2;
    cb ← get _onReceive;
    ret (if (cb : bool) then Some (zget 0 rxbuf 0) else None)
  else ret None.
(** The interrupt only raises the flag, on ESP32 and nRF52. *)
(* @src sx126x.cpp:1309-1310 onDio0Rise *)
Definition sx_onDio0Rise : M W unit := upd (fun d => d <| _dio0_pending := true |>).
(* @src sx126x.cpp:1318-1323 handleDio0IfPending *)
Definition sx_handleDio0IfPending : M W (option Z) :=
  pending ← get _dio0_pending;
  if (pending : bool) then upd (fun d => d <| _dio0_pending := false |>) ;; sx_handleDio0Rise else ret None.

(** ** Channel state *)

(* @src sx126x.cpp:821-833 dcd *)
Definition dcd_header (header_detected : bool) (now : Z) : M W unit :=
  if header_detected then
    updg (fun g => if header_detected_at g =? 0 then g <| header_detected_at := now |> else g) ;;
    at_ ← getg header_detected_at;
    when (LORA_MODEM_TIMEOUT_MS <? u32 (now - at_)) (
      updg (fun g => g <| header_detected_at := 0 |>) ;;
      sx_executeOpcode OP_CLEAR_IRQ_STATUS_6X [0x00; IRQ_HEADER_DET_MASK_6X])
  else updg (fun g => g <| header_detected_at := 0 |>).
(** [limit] is the time of a preamble and a header in the radio's configuration. *)
(* @src sx126x.cpp:835-845 dcd *)
Definition dcd_preamble (header_detected preamble_detected : bool) (limit now : Z) : M W unit :=
  when preamble_detected (
    updg (fun g => if preamble_detected_at g =? 0 then g <| preamble_detected_at := now |> else g) ;;
    at_ ← getg preamble_detected_at;
    when (limit <? u32 (now - at_)) (
      updg (fun g => g <| preamble_detected_at := 0 |>) ;;
      when (negb header_detected) (updg (fun g => g <| false_preamble_detected := true |>)) ;;
      sx_executeOpcode OP_CLEAR_IRQ_STATUS_6X [0x00; IRQ_PREAMBLE_DET_MASK_6X])).
(* @src sx126x.cpp:814-851 dcd *)
Definition sx_dcd (lora_preamble_time_ms lora_header_time_ms : Z) : M W bool :=
  irq ← irq_status;
  now ← call millis;
  let header_detected := negb (Z.land irq IRQ_HEADER_DET_MASK_6X =? 0) in
  let preamble_detected := negb (Z.land irq IRQ_PREAMBLE_DET_MASK_6X =? 0) in
  dcd_header header_detected now ;;
  dcd_preamble header_detected preamble_detected (u32 (lora_preamble_time_ms + lora_header_time_ms)) now ;;
  false_preamble ← getg false_preamble_detected;
  when false_preamble (sx_receive 0 ;; updg (fun g => g <| false_preamble_detected := false |>)) ;;
  ret (header_detected || preamble_detected).

(** C division rounds toward zero. *)
Definition rssi_of (raw : Z) : Z := Z.quot (- raw) 2.
(* @src sx126x.cpp:853-857 currentRssiRaw *)
Definition sx_currentRssiRaw : M W Z := buf ← sx_executeOpcodeRead OP_CURRENT_RSSI_6X 1; ret (zget 0 buf 0).
(* @src sx126x.cpp:859-867 currentRssi *)
Definition sx_currentRssi : M W Z :=
  raw ← sx_currentRssiRaw; gain ← getg lora_lna_gain;
  ret (if HAS_LORA_LNA then rssi_of raw - gain else rssi_of raw).
Definition packet_status (i : Z) : M W Z := buf ← sx_executeOpcodeRead OP_PACKET_STATUS_6X 3; ret (zget 0 buf i).
(* @src sx126x.cpp:869-873 packetRssiRaw *)
Definition sx_packetRssiRaw : M W Z := packet_status 2.
(* @src sx126x.cpp:875-883 packetRssi *)
Definition sx_packetRssi : M W Z :=
  raw ← packet_status 0; gain ← getg lora_lna_gain;
  ret (if HAS_LORA_LNA then rssi_of raw - gain else rssi_of raw).
(** The overload [receive_callback] calls on ESP32. *)
(* @src sx126x.cpp:885-891 packetRssi *)
Definition sx_packetRssi_snr (pkt_snr_raw : Z) : M W Z := raw ← packet_status 0; ret (rssi_of raw).
(* @src sx126x.cpp:893-897 packetSnrRaw *)
Definition sx_packetSnrRaw : M W Z := packet_status 1.
(** In quarters of a decibel: [float(raw) * 0.25] of the unsigned byte. *)
(* @src sx126x.cpp:899-903 packetSnr *)
Definition sx_packetSnr_quarters : M W Z := packet_status 1.
(* @src sx126x.cpp:905-909 packetFrequencyError *)
Definition sx_packetFrequencyError : Z := 0.

(* @src sx126x.cpp:1227-1234 setPins *)
Definition sx_setPins (ss reset dio0 busy rxen txen : Z) : M W unit :=
  upd (fun d => d <| _ss := ss |> <| _reset := reset |> <| _dio0 := dio0 |> <| _busy := busy |>
                  <| _rxen := rxen |> <| _txen := txen |>).
(* @src sx126x.cpp:1330-1330 random *)
Definition sx_random : M W Z := sx_readRegister REG_RANDOM_GEN_6X.
End Driver.
