(* ===== verification/Sx126xChip.v ===== *)
(** * The SX1262 as the driver sees it

    What the transceiver's data sheet promises, as far as the driver relies on it:
    the state a transaction reaches ([chip_step]), what it answers ([responds]) and
    what may change behind the driver's back ([drift]).  [Sx1262] states that a
    [World] holds such a chip; [Sx1262Clock] adds the time things take.  A small
    program logic follows, for programs of the driver's monad, and a simulated chip
    on which the witnesses run. *)
From Stdlib Require Import Floats.SpecFloat.
From stdpp Require Import gmap.
From S2P Require Import Prelude Driver Boards Float Sx126x.

(** ** Commands *)

(** [ch_regs] holds the registers whose content is known, [ch_rx] whether the
    receiver is on, [ch_sent] the frames sent so far. *)
Record chip := mk_chip {
  ch_freq : list Z; ch_mod : list Z; ch_txp : Z;
  ch_preamble : Z; ch_header : Z; ch_paylen : Z; ch_crc : Z;
  ch_lora : bool; ch_base : Z; ch_rx : bool; ch_regs : gmap Z Z;
  ch_fifo : list Z; ch_sent : list (list Z)
}.

(** A write wraps at the end of the 256-byte buffer, as a read does ([fifo_slice]). *)
Fixpoint fifo_write (off : Z) (data buf : list Z) : list Z :=
  match data with
  | [] => buf
  | b :: data => fifo_write (u8 (off + 1)) data (cell_set buf off b)
  end.

Definition chip_step (c : list Z) (k : chip) : chip :=
  match c with
  | [] => k
  | op :: a =>
      if op =? OP_RF_FREQ_6X then k <| ch_freq := take 4 a |>
      else if op =? OP_MODULATION_PARAMS_6X then k <| ch_mod := take 4 a |>
      else if op =? OP_TX_PARAMS_6X then k <| ch_txp := zget 0 a 0 |>
      else if op =? OP_PACKET_PARAMS_6X then
        k <| ch_preamble := of_be16 (zget 0 a 0) (zget 0 a 1) |> <| ch_header := zget 0 a 2 |>
          <| ch_paylen := zget 0 a 3 |> <| ch_crc := zget 0 a 4 |> <| ch_regs ::= delete 0x0736 |>
      else if op =? OP_PACKET_TYPE_6X then k <| ch_lora := zget 0 a 0 =? 1 |>
      else if op =? OP_BUFFER_BASE_ADDR_6X then k <| ch_base := zget 0 a 0 |>
      else if (op =? OP_STANDBY_6X) || (op =? OP_SLEEP_6X) then k <| ch_rx := false |>
      else if op =? OP_RX_6X then k <| ch_rx := true |>
      else if op =? OP_TX_6X then
        k <| ch_rx := false |>
          <| ch_sent ::= fun l => l ++ [fifo_slice (ch_fifo k) (ch_base k) (Z.to_nat (ch_paylen k))] |>
      else if op =? OP_WRITE_REGISTER_6X then
        k <| ch_regs ::= insert (of_be16 (zget 0 a 0) (zget 0 a 1)) (zget 0 a 2) |>
      else if op =? OP_FIFO_WRITE_6X then k <| ch_fifo ::= fifo_write (zget 0 a 0) (drop 1 a) |>
      else k
  end.

(** A byte comes back for each one shifted out; a register of known content and the
    buffer answer what they hold. *)
Record responds (c : list Z) (k : chip) (miso : list Z) : Prop := {
  responds_len : length miso = length c;
  responds_reg hi lo v : c = [OP_READ_REGISTER_6X; hi; lo; 0; 0] -> ch_regs k !! of_be16 hi lo = Some v -> last miso 0 = v;
  responds_fifo off n : c = [OP_FIFO_READ_6X; off; 0] ++ repeat 0 n -> drop 3 miso = fifo_slice (ch_fifo k) off n
}.

(** Between transactions only the buffer changes, and only while receiving. *)
Definition drift (k v : chip) : Prop :=
  exists f, v = k <| ch_fifo := f |> /\ length f = length (ch_fifo k) /\ (ch_rx k = false -> f = ch_fifo k).

Class Sx1262 (W : Type) `{World W} := {
  chip_of : W -> chip;
  reset_pin : Z;
  chip_spi c w : exists v, drift (chip_of w) v /\ responds c v (fst (spi c w)) /\
                           chip_of (snd (spi c w)) = chip_step c v;
  chip_millis w : drift (chip_of w) (chip_of (snd (millis w)));
  chip_delay n w : drift (chip_of w) (chip_of (delay n w));
  chip_read p w : drift (chip_of w) (chip_of (snd (digitalRead p w)));
  chip_write p v w : p <> reset_pin -> drift (chip_of w) (chip_of (digitalWrite p v w));
  chip_mode p w : drift (chip_of w) (chip_of (pinMode p w));
  chip_spi_begin w : drift (chip_of w) (chip_of (spi_begin w));
  chip_spi_end w : drift (chip_of w) (chip_of (spi_end w));
  chip_attach p w : drift (chip_of w) (chip_of (attachInterrupt p w));
  chip_detach p w : drift (chip_of w) (chip_of (detachInterrupt p w))
}.

Lemma drift_refl k : drift k k.
Proof. exists (ch_fifo k). destruct k; auto. Qed.
Lemma drift_trans a b c : drift a b -> drift b c -> drift a c.
Proof.
  intros (f & -> & Hl & Hf) (g & -> & Hm & Hg). destruct a. cbn in *. exists g. split_and!; [reflexivity|cbn; congruence|].
  intros E. cbn in *. now rewrite Hg, Hf.
Qed.
Lemma drift_still k v : drift k v -> ch_rx k = false -> v = k.
Proof. intros (f & -> & _ & Hf) E. rewrite (Hf E). now destruct k. Qed.
#[export] Hint Resolve drift_refl drift_trans chip_millis chip_delay chip_read chip_mode chip_spi_begin chip_spi_end
  chip_attach chip_detach : rnode.

(** ** Reasoning about the driver's programs *)

Abbreviation wp := (wp_at (O:=sx126x) (G:=sx_globals) chip_of).

Section Logic.
Context {W : Type} `{Sx1262 W} `{Board} `{RadioBuild}.

Implicit Types (d : sx126x) (k v : chip).

Lemma wp_elim {A} (m : M W A) Q (s : radio W) :
  wp m Q (ic s) (chip_of (wd s)) -> Q (fst (m s)) (ic (snd (m s))) (chip_of (wd (snd (m s)))).
Proof. apply wp_at_elim. Qed.
Lemma wp_act f Q d k : (forall w, drift (chip_of w) (chip_of (f w))) -> (forall v, drift k v -> Q tt d v) -> wp (act f) Q d k.
Proof. apply (wp_act_along chip_of drift). Qed.
Lemma wp_call {A} (f : W -> A * W) Q d k :
  (forall w, drift (chip_of w) (chip_of (snd (f w)))) -> (forall a v, drift k v -> Q a d v) -> wp (call f) Q d k.
Proof. apply (wp_call_along chip_of drift). Qed.

Lemma wp_busy_loop n busy time Q d k : (forall b v, drift k v -> Q b d v) -> wp (busy_loop n busy time) Q d k.
Proof.
  revert k. induction n as [|n IH]; intros k Hq; cbn [busy_loop]; [apply wp_ret; auto with rnode|].
  apply wp_bind, wp_call; [auto with rnode|]. intros [] v Hv; [|apply wp_ret; auto].
  apply wp_bind, wp_call; [auto with rnode|]. intros now v' Hv'. destruct (_ <=? _); [apply wp_ret|apply IH];
    eauto with rnode.
Qed.
Lemma wp_wait Q d k : (forall b v, drift k v -> Q b d v) -> wp sx_waitOnBusy Q d k.
Proof.
  intros Hq. apply wp_bind, wp_call; [auto with rnode|]. intros t v Hv. apply wp_bind, wp_get.
  destruct (negb _); [apply wp_busy_loop|apply wp_ret]; eauto with rnode.
Qed.

(** One transaction. *)
Lemma wp_transfer c Q d k :
  (forall v miso, drift k v -> responds c v miso -> Q miso d (chip_step c v)) -> wp (transfer c) Q d k.
Proof.
  intros Hq. apply wp_bind, wp_wait. intros _ v Hv s <- <-. unfold call.
  destruct (chip_spi c (wd s)) as (u & Hu & Hr & E). destruct (spi c (wd s)) as [miso w]. cbn in *. rewrite E.
  apply Hq; [eauto with rnode|exact Hr].
Qed.
Lemma wp_executeOpcode op buf Q d k :
  (forall v, drift k v -> Q tt d (chip_step (op :: buf) v)) -> wp (sx_executeOpcode op buf) Q d k.
Proof. intros Hq. apply wp_bind, wp_transfer. intros v miso Hv _. apply wp_ret, Hq, Hv. Qed.
Lemma wp_executeOpcodeRead op n Q d k :
  (forall v buf, drift k v -> length buf = n -> Q buf d (chip_step ([op; 0] ++ repeat 0 n) v)) ->
  wp (sx_executeOpcodeRead op n) Q d k.
Proof.
  intros Hq. apply wp_bind, wp_transfer. intros v miso Hv Hr. apply wp_ret, Hq; [exact Hv|].
  pose proof (responds_len _ _ _ Hr) as E. rewrite length_drop, E. cbn. rewrite repeat_length. lia.
Qed.

(** An address splits into the two bytes sent. *)
Lemma address_bytes a : 0 <= a < 65536 -> of_be16 (Z.shiftr (Z.land a 0xFF00) 8) (Z.land a 0xFF) = a.
Proof.
  intros Ha. change 0xFF with (Z.ones 8). rewrite Z.land_ones by lia. change 0xFF00 with (Z.shiftl (Z.ones 8) 8).
  rewrite Z.shiftr_land, Z.shiftr_shiftl_l, Z.sub_diag, Z.shiftl_0_r, Z.land_ones, Z.shiftr_div_pow2 by lia.
  rewrite of_be16_val by (unfold is_u8; apply Z.mod_pos_bound; lia). Z.div_mod_to_equations. lia.
Qed.

Lemma wp_readRegister a Q d k : 0 <= a < 65536 ->
  (forall v r, drift k v -> (forall x, ch_regs v !! a = Some x -> r = x) -> Q r d v) -> wp (sx_readRegister a) Q d k.
Proof.
  intros Ha Hq. apply wp_bind, wp_transfer. intros v miso Hv Hr. apply wp_ret, (Hq v); [exact Hv|].
  intros x Hx. eapply (responds_reg _ _ _ Hr); [reflexivity|]. rewrite address_bytes by exact Ha. exact Hx.
Qed.
Lemma wp_writeRegister a x Q d k : 0 <= a < 65536 ->
  (forall v, drift k v -> Q tt d (v <| ch_regs ::= insert a (u8 x) |>)) -> wp (sx_writeRegister a x) Q d k.
Proof.
  intros Ha Hq. apply wp_bind, wp_bind, wp_transfer. intros v miso Hv _. apply wp_ret, wp_ret.
  change (Q tt d (v <| ch_regs ::= insert (of_be16 (Z.shiftr (Z.land a 0xFF00) 8) (Z.land a 0xFF)) (u8 x) |>)).
  rewrite address_bytes by exact Ha. exact (Hq v Hv).
Qed.
End Logic.

(** Symbolic execution: one rule per construct; a branch on an unknown is split. *)
Ltac wp_step :=
  lazymatch goal with
  | |- wp_at _ (act _) _ _ _ => apply wp_act; [solve [auto with rnode]|intros ? ?]
  | |- wp_at _ (call _) _ _ _ => apply wp_call; [solve [auto with rnode]|intros ? ? ?]
  | |- wp_at _ (sx_executeOpcode _ _) _ _ _ => apply wp_executeOpcode; intros ? ?
  | |- wp_at _ (sx_executeOpcodeRead _ _) _ _ _ => apply wp_executeOpcodeRead; intros ? ? ? ?
  | |- wp_at _ (sx_readRegister _) _ _ _ => apply wp_readRegister; [solve [vm_compute; intuition discriminate]|intros ? ? ? ?]
  | |- wp_at _ (sx_writeRegister _ _) _ _ _ => apply wp_writeRegister; [solve [vm_compute; intuition discriminate]|intros ? ?]
  | |- wp_at _ sx_waitOnBusy _ _ _ => apply wp_wait; intros ? ? ?
  | _ => wp_core
  end.

(** ** A simulated chip *)

(** An SX1262 that is never busy and takes 50 ms to send a frame;
    [sm_txend] is when the frame sent last is out, until its interrupt is cleared.
    [sm_rx] is the length and place of the packet received last, [sm_irq] the other
    interrupt bits. *)
Record sim := mk_sim {
  sm_chip : chip; sm_tick : Z; sm_txend : option Z; sm_rx : Z * Z; sm_irq : Z
}.

Definition sim_irq (w : sim) : Z :=
  match sm_txend w with
  | Some t => if t <=? sm_tick w then Z.lor (sm_irq w) IRQ_TX_DONE_MASK_6X else sm_irq w
  | None => sm_irq w
  end.
Definition sim_answer (c : list Z) (w : sim) : list Z :=
  match c with
  | op :: a =>
      if op =? OP_READ_REGISTER_6X
      then [0; 0; 0; 0; default 0 (ch_regs (sm_chip w) !! of_be16 (zget 0 a 0) (zget 0 a 1))]
      else if op =? OP_FIFO_READ_6X then [0; 0; 0] ++ fifo_slice (ch_fifo (sm_chip w)) (zget 0 a 0) (length a - 2)
      else if op =? OP_GET_IRQ_STATUS_6X then [0; 0; 0; sim_irq w]
      else if op =? OP_RX_BUFFER_STATUS_6X then [0; 0; fst (sm_rx w); snd (sm_rx w)]
      else []
  | [] => []
  end.
Definition sim_spi (c : list Z) (w : sim) : list Z * sim :=
  let answer := sim_answer c w in
  let w' := w <| sm_chip ::= chip_step c |> in
  (take (length c) (answer ++ repeat 0 (length c)),
   match c with
   | op :: a =>
       if op =? OP_TX_6X then w' <| sm_txend := Some (sm_tick w + 50) |>
       else if op =? OP_CLEAR_IRQ_STATUS_6X then
         w' <| sm_irq ::= fun i => Z.land i (Z.lnot (zget 0 a 1)) |>
            <| sm_txend ::= fun t => if Z.testbit (zget 0 a 1) 0 then None else t |>
       else w'
   | [] => w'
   end).

#[export] Instance sim_world : World sim := {
  spi := sim_spi;
  millis w := (u32 (sm_tick w), w);
  delay n w := w <| sm_tick ::= Z.add n |>;
  digitalRead _ w := (false, w);
  digitalWrite _ _ w := w; pinMode _ w := w; spi_begin w := w; spi_end w := w;
  attachInterrupt _ w := w; detachInterrupt _ w := w;
  double_to_u32 := u32;
  busy_reads := 0
}.

Lemma sim_responds c w : responds c (sm_chip w) (fst (sim_spi c w)).
Proof.
  constructor.
  - cbn. rewrite length_take, length_app, repeat_length. lia.
  - intros hi lo v -> Hv. change (default 0 (ch_regs (sm_chip w) !! of_be16 hi lo) = v). now rewrite Hv.
  - intros off n ->. cbn -[fifo_slice repeat]. rewrite repeat_length, Nat.sub_0_r.
    unfold zget. cbn -[fifo_slice repeat]. rewrite take_app_le by (unfold fifo_slice; rewrite length_map, length_seq; lia).
    rewrite take_ge by (unfold fifo_slice; rewrite length_map, length_seq; lia). reflexivity.
Qed.
#[export, refine] Instance sim_sx1262 : Sx1262 sim := { chip_of := sm_chip; reset_pin := 12 }.
Proof.
  all: auto using drift_refl.
  intros c w. exists (sm_chip w). split_and!; [apply drift_refl|apply sim_responds|].
  cbn. destruct c as [|op a]; [reflexivity|]. destruct (op =? OP_TX_6X); [reflexivity|].
  destruct (op =? OP_CLEAR_IRQ_STATUS_6X); reflexivity.
Defined.

Definition chip0 : chip :=
  mk_chip [0; 0; 0; 0] [7; 4; 1; 0] 0 0 0 0 0 false 0 false (<[0x0740 := 0x14]> (<[0x0741 := 0x24]> ∅)) (repeat 0 256) [].
Definition sim0 : sim := mk_sim chip0 1000 None (0, 0) 0.
Definition plain_radio : RadioBuild := {|
  DIO2_AS_RF_SWITCH := true; HAS_TCXO := true; OCP_TUNED := 0x38; HAS_LORA_LNA := false; LORA_LNA_GAIN := 0;
  LORA_LNA_KCT8103L_GAIN := 0; LORA_PA_MODEL := LORA_PA_UNKNOWN; LORA_PA_PWR_EN := -1; LORA_PA_CSD := -1;
  LORA_PA_CPS := -1; LORA_PA_CTX := -1 |}.
Definition globals0 : sx_globals := mk_sx_globals LORA_PA_UNKNOWN 0 0 0 false false.
(** The driver of a Heltec V3 after [setPins]. *)
Definition radio0 : radio sim :=
  mk_device (sx126x0 <| _ss := 8 |> <| _reset := 12 |> <| _dio0 := 14 |> <| _busy := 13 |>) globals0 sim0.
