(* ===== verification/Sx126xLink.v ===== *)
(** * What the SX1262 driver guarantees

    Over a world that holds an SX1262 ([Sx126xChip.v]): the driver's idea of the
    modem's parameters is what the chip was told, whatever sequence of calls is
    made; frames built byte by byte go on the air as written, so the driver
    implements the interface the link layer is proved against; packets are read back
    byte for byte; the waits end. *)
From Stdlib Require Import Floats.SpecFloat.
From stdpp Require Import gmap.
From S2P Require Import Prelude Boards Framing Float TxQueue Eeprom Settings Link Modem Driver Sx126x Sx126xChip.

#[local] Open Scope drv_scope.

(** ** Lemmas *)

Lemma preamble_bytes p : of_be16 (u8 (Z.shiftr (Z.land p 0xFF00) 8)) (u8 (Z.land p 0x00FF)) = u16 p.
Proof.
  rewrite of_be16_val by apply u8_is_u8. rewrite u8_shiftr by lia.
  change 0xFF00 with (Z.shiftl (Z.ones 8) 8). change 0xFF with (Z.ones 8).
  replace (Z.land p (Z.shiftl (Z.ones 8) 8) / 2 ^ 8) with (Z.shiftr p 8 mod 256).
  - rewrite Z.land_ones, Z.shiftr_div_pow2 by lia. unfold wrap. change (2 ^ 8) with 256. change (2 ^ 16) with 65536.
    Z.div_mod_to_equations. lia.
  - rewrite <- Z.shiftr_div_pow2, Z.shiftr_land, Z.shiftr_shiftl_l, Z.sub_diag, Z.shiftl_0_r, Z.land_ones by lia.
    reflexivity.
Qed.

Lemma bit2_set r : Z.testbit (u8 (Z.lor r 0x04)) 2 = true.
Proof. unfold wrap. rewrite Z.mod_pow2_bits_low by lia. rewrite Z.lor_spec. apply orb_true_r. Qed.

Section Guarantees.
Context {W : Type} `{Sx1262 W} `{Board} `{RadioBuild}.
Implicit Types (d : sx126x) (k v : chip) (s : radio W).

(** What a push of the packet format leaves, [r] being the IQ register. *)
Definition packet_pushed d r k : chip :=
  k <| ch_preamble := u16 (_preambleLength d) |> <| ch_header := u8 (_implicitHeaderMode d) |>
    <| ch_paylen := u8 (_payloadLength d) |> <| ch_crc := u8 (_crcMode d) |>
    <| ch_regs ::= fun m => insert 0x0736 r (delete 0x0736 m) |>.

Lemma wp_push_packet Q d k :
  (forall v r, drift k v -> Z.testbit r 2 = true -> Q tt d (packet_pushed d r v)) -> wp push_packet_params Q d k.
Proof.
  intros Hq. unfold push_packet_params, sx_setPacketParams. repeat wp_step.
  destruct k. repeat match goal with Hd : drift _ _ |- _ => destruct Hd as (? & -> & ? & Hd) end. cbn in *.
  refine (eq_rect _ (Q tt d) (Hq (mk_chip _ _ _ _ _ _ _ _ _ _ _ x _) _ _ (bit2_set r)) _ _).
  - exists x. cbn. split_and!; [reflexivity|congruence|]. intuition congruence.
  - unfold packet_pushed. cbn -[zget]. rewrite <- preamble_bytes. reflexivity.
Qed.

Lemma pushed_rx d r k : ch_rx (packet_pushed d r k) = ch_rx k.
Proof. reflexivity. Qed.

(** ** Frames *)

(** No pin the driver toggles while sending is the chip's reset. *)
Definition wired d : Prop :=
  _txen d <> reset_pin /\ _rxen d <> reset_pin /\
  (HAS_LORA_PA = true -> LORA_PA_CTX <> reset_pin /\ LORA_PA_PWR_EN <> reset_pin /\
                         LORA_PA_CSD <> reset_pin /\ LORA_PA_CPS <> reset_pin).

Lemma wp_pin (c b : bool) p Q d k :
  p <> reset_pin -> (forall v, drift k v -> Q tt d v) -> wp (when c (act (digitalWrite p b))) Q d k.
Proof.
  intros Hp Hq. apply wp_when; intros _; [apply wp_act; [intros; now apply chip_write|exact Hq]|auto with rnode].
Qed.
Lemma wp_pa_ctx b Q d k : wired d -> (forall v, drift k v -> Q tt d v) -> wp (pa_ctx b) Q d k.
Proof.
  intros (_ & _ & Hc) Hq. apply wp_when; intros Hb; [|auto with rnode].
  apply wp_bind, wp_getg. intros pa. apply wp_pin; [apply Hc, Hb|exact Hq].
Qed.

(** The receiver is off after [standby]; the rest of [beginPacket] finds the chip
    as it left it. *)
Lemma wp_header_mode (b : bool) Q d k :
  (forall v r, drift k v -> Z.testbit r 2 = true ->
     let d' := d <| _implicitHeaderMode := if b then 1 else 0 |> in Q tt d' (packet_pushed d' r v)) ->
  wp (if b then sx_implicitHeaderMode else sx_explicitHeaderMode) Q d k.
Proof.
  intros Hq. destruct b; apply wp_bind, wp_upd, wp_push_packet; intros v r Hv Hr; exact (Hq v r Hv Hr).
Qed.

Lemma wp_beginPacket (b : bool) Q d k : wired d ->
  (forall f r r', length f = length (ch_fifo k) -> Z.testbit r 2 = true -> Z.testbit r' 2 = true ->
     let d1 := d <| _implicitHeaderMode := if b then 1 else 0 |> in
     let d2 := d1 <| _payloadLength := 0 |> <| _fifo_tx_addr_ptr := 0 |> in
     let k1 := k <| ch_fifo := f |> <| ch_rx := false |> in
     Q tt d2 (packet_pushed d2 r' (packet_pushed d1 r k1))) ->
  wp (sx_beginPacket b) Q d k.
Proof.
  intros Hw Hq. pose proof Hw as (Ht & Hr & _). apply wp_bind, wp_pa_ctx; [exact Hw|]. intros v1 Hv1.
  do 2 apply wp_bind, wp_get. apply wp_bind, wp_pin; [exact Ht|]. intros v2 Hv2.
  apply wp_bind, wp_pin; [exact Hr|]. intros v3 Hv3. apply wp_bind, wp_executeOpcode. intros v4 Hv4.
  assert (Hv : drift k v4) by eauto with rnode. destruct Hv as (f & -> & Hlen & _).
  apply wp_bind, wp_header_mode. intros v5 r Hv5 Hr5. apply wp_bind, wp_upd. cbv beta.
  apply (drift_still _ _) in Hv5; [|reflexivity]. subst v5.
  apply wp_push_packet. intros v6 r' Hv6 Hr6. apply drift_still in Hv6; [|reflexivity]. subst v6.
  exact (Hq f r r' Hlen Hr5 Hr6).
Qed.

Lemma wp_write b Q d k : 0 <= _payloadLength d < 255 -> _fifo_tx_addr_ptr d = _payloadLength d -> ch_rx k = false ->
  (let n := _payloadLength d in
   Q 1 (d <| _fifo_tx_addr_ptr := n + 1 |> <| _payloadLength := n + 1 |>) (k <| ch_fifo ::= fun f => cell_set f n b |>)) ->
  wp (sx_write [b]) Q d k.
Proof.
  intros Hn Hp Hr Hq. apply wp_bind, wp_get. change (zlen [b]) with 1. unfold MAX_PKT_LENGTH.
  rewrite (u32_id (_payloadLength d + 1)), (proj2 (Z.ltb_ge 255 _)) by lia.
  change (take (Z.to_nat 1) [b]) with [b].
  apply wp_bind, wp_bind, wp_get. rewrite Hp.
  apply wp_bind, wp_transfer. intros v miso Hv _. apply drift_still in Hv; [|exact Hr]. subst v.
  apply wp_upd, wp_bind, wp_upd, wp_ret. rewrite (u8_id (_payloadLength d)) by (unfold is_u8; lia).
  exact Hq.
Qed.

(** Reading the interrupt status leaves the chip as it is. *)
Lemma wp_irq_status Q d k : (forall irq v, drift k v -> Q irq d v) -> wp irq_status Q d k.
Proof. intros Hq. apply wp_bind, wp_executeOpcodeRead. intros v buf Hv _. apply wp_ret, Hq, Hv. Qed.
Lemma wp_tx_poll n t irq Q d k : ch_rx k = false -> (forall b, Q b d k) -> wp (tx_poll n t irq) Q d k.
Proof.
  intros Hr Hq. revert irq. induction n as [|n IH]; intros irq; cbn [tx_poll]; [apply wp_ret, Hq|].
  apply wp_bind, wp_call; [auto with rnode|]. intros now v Hv. apply drift_still in Hv; [|exact Hr]. subst v.
  destruct (_ && _); [|apply wp_ret, Hq].
  apply wp_bind, wp_irq_status. intros irq' v Hv. apply drift_still in Hv; [|exact Hr]. subst v.
  apply wp_bind, wp_act; [auto with rnode|]. intros v Hv. apply drift_still in Hv; [|exact Hr]. subst v. apply IH.
Qed.

Definition on_the_air k : chip :=
  k <| ch_rx := false |> <| ch_sent ::= fun l => l ++ [fifo_slice (ch_fifo k) (ch_base k) (Z.to_nat (ch_paylen k))] |>.

Lemma wp_endPacket Q d k : ch_rx k = false ->
  (forall r ok, Z.testbit r 2 = true -> Q ok d (on_the_air (packet_pushed d r k))) -> wp sx_endPacket Q d k.
Proof.
  intros Hr Hq. apply wp_bind, wp_push_packet. intros v r Hv Hr2. apply drift_still in Hv; [|exact Hr]. subst v.
  apply wp_bind, wp_executeOpcode. intros v Hv. apply drift_still in Hv; [|exact Hr]. subst v.
  change (chip_step _ (packet_pushed d r k)) with (on_the_air (packet_pushed d r k)).
  set (k1 := on_the_air _). assert (Hr1 : ch_rx k1 = false) by reflexivity. specialize (Hq r).
  fold k1 in Hq. clearbody k1.
  apply wp_bind, wp_irq_status. intros irq v Hv. apply drift_still in Hv; [|exact Hr1]. subst v.
  apply wp_bind, wp_call; [auto with rnode|]. intros now v Hv. apply drift_still in Hv; [|exact Hr1]. subst v.
  apply wp_bind, wp_tx_poll; [exact Hr1|]. intros b.
  apply wp_bind, wp_call; [auto with rnode|]. intros now' v Hv. apply drift_still in Hv; [|exact Hr1]. subst v.
  apply wp_bind, wp_executeOpcode. intros v Hv. apply drift_still in Hv; [|exact Hr1]. subst v.
  apply wp_ret, Hq, Hr2.
Qed.

(** ** The interface of the link layer *)

#[export] Instance sx_tx : LoraTx (radio W) := {
  beginPacket o s := snd (sx_beginPacket (match o with Some n => negb (n =? 0) | None => false end) s);
  lora_write b s := snd (sx_write [b] s);
  endPacket := sx_endPacket
}.

(** The frame under construction: the bytes of the buffer below the write pointer. *)
Definition sx_pending s : option (list Z) :=
  let n := _payloadLength (ic s) in
  if negb (ch_rx (chip_of (wd s))) && (_fifo_tx_addr_ptr (ic s) =? n) && (0 <=? n) && (n <=? 255)
  then Some (take (Z.to_nat n) (ch_fifo (chip_of (wd s)))) else None.

Lemma sx_pending_some s l : length (ch_fifo (chip_of (wd s))) = 256%nat -> sx_pending s = Some l ->
  let n := _payloadLength (ic s) in
  ch_rx (chip_of (wd s)) = false /\ _fifo_tx_addr_ptr (ic s) = n /\ 0 <= n <= 255 /\ zlen l = n /\
  l = take (Z.to_nat n) (ch_fifo (chip_of (wd s))).
Proof.
  intros Hf. unfold sx_pending. destruct (ch_rx _); [discriminate|]. bdestr; try discriminate. intros [= <-].
  split_and!; auto. unfold zlen. rewrite length_take, Hf. lia.
Qed.

#[export, refine] Instance sx_laws : LoraTxLaws (radio W) := {
  pending := sx_pending;
  on_air s := ch_sent (chip_of (wd s));
  sane s := wired (ic s) /\ ch_base (chip_of (wd s)) = 0 /\ length (ch_fifo (chip_of (wd s))) = 256%nat
}.
Proof.
  - intros o s (Hw & Hb & Hf). cbn [beginPacket sx_tx].
    match goal with |- context [sx_beginPacket ?b s] => pose proof (wp_elim (sx_beginPacket b)
      (fun _ d k => (negb (ch_rx k) && (_fifo_tx_addr_ptr d =? _payloadLength d) && (0 <=? _payloadLength d) && (_payloadLength d <=? 255) = true /\
         _payloadLength d = 0) /\ ch_sent k = ch_sent (chip_of (wd s)) /\ wired d /\ ch_base k = 0 /\ length (ch_fifo k) = 256%nat) s) as E end.
    destruct E as ((E1 & E2) & E3 & E4 & E5 & E6).
    { apply wp_beginPacket; [exact Hw|]. intros f r r' Hl _ _. rewrite Hf in Hl. cbn. auto. }
    unfold sx_pending. cbv zeta. rewrite E1, E2. auto.
  - intros b s l (Hw & Hb & Hf) Hp Hl. destruct (sx_pending_some _ _ Hf Hp) as (Hr & Hptr & Hn & El & ->). cbn [lora_write sx_tx].
    rewrite El in Hl.
    pose proof (wp_elim (sx_write [b]) (fun _ d k => let n := _payloadLength (ic s) in
       (ch_rx k = false /\ _fifo_tx_addr_ptr d = n + 1 /\ _payloadLength d = n + 1 /\
        ch_fifo k = cell_set (ch_fifo (chip_of (wd s))) n b) /\ ch_sent k = ch_sent (chip_of (wd s)) /\ wired d /\ ch_base k = 0 /\ length (ch_fifo k) = 256%nat) s) as E.
    destruct E as ((E1 & E2 & E3 & E4) & E5 & E6 & E7 & E8).
    { apply wp_write; [lia|exact Hptr|exact Hr|]. set (k := chip_of (wd s)) in *. clearbody k.
      destruct k. cbn in *. unfold cell_set. rewrite length_insert. auto 10. }
    split_and!; try assumption. unfold sx_pending. rewrite E1, E2, E3, E4, Z.eqb_refl.
    rewrite (proj2 (Z.leb_le 0 _)), (proj2 (Z.leb_le _ 255)), cell_set_take by lia. reflexivity.
  - intros s l (Hw & Hb & Hf) Hp _. destruct (sx_pending_some _ _ Hf Hp) as (Hr & Hptr & Hn & El & Hl). cbn [endPacket sx_tx].
    pose proof (wp_elim sx_endPacket (fun _ d k =>
       ch_sent k = ch_sent (chip_of (wd s)) ++ [l] /\ wired d /\ ch_base k = 0 /\ length (ch_fifo k) = 256%nat) s) as E.
    destruct E as (E1 & E2 & E3 & E4); [|auto].
    apply wp_endPacket; [exact Hr|]. intros r ok _. split_and!; [|exact Hw|exact Hb|exact Hf].
    set (k := chip_of (wd s)) in *.
    change (ch_sent k ++ [fifo_slice (ch_fifo k) (ch_base k) (Z.to_nat (u8 (_payloadLength (ic s))))] = ch_sent k ++ [l]).
    rewrite Hb, u8_id by (unfold is_u8; lia).
    rewrite fifo_slice_take by (exact Hf || lia). now rewrite <- Hl.
Defined.

(** ** The modem's parameters *)

(** Each setter in one rule: what it does to the object and to the chip. *)
Ltac absorb_drift :=
  repeat match goal with Hd : drift _ _ |- _ => destruct Hd as (? & -> & ? & Hd) end.

Lemma wp_setSyncWord sw Q d k :
  (forall v, drift k v ->
     Q tt d (v <| ch_regs ::= fun m => insert 0x0741 (u8 (snd (sync_bytes sw))) (insert 0x0740 (u8 (fst (sync_bytes sw))) m) |>)) ->
  wp (sx_setSyncWord sw) Q d k.
Proof.
  intros Hq. unfold sx_setSyncWord. destruct (sync_bytes sw) as [msb lsb]. repeat wp_step. destruct k. absorb_drift.
  cbn in *. refine (Hq (mk_chip _ _ _ _ _ _ _ _ _ _ _ _ _) _). eexists. split; [reflexivity|]. cbn in *. intuition congruence.
Qed.
Lemma wp_setFrequency f Q d k :
  (forall v, drift k v -> Q tt (d <| _frequency := f |>) (v <| ch_freq := be32 (freq_steps f) |>)) ->
  wp (sx_setFrequency f) Q d k.
Proof. intros Hq. unfold sx_setFrequency. repeat wp_step. now apply Hq. Qed.

Definition clamp_level (level : Z) : Z := if 22 <? level then 22 else if level <? -9 then -9 else level.
Lemma wp_setTxPower level pin Q d k :
  (forall v r, drift k v ->
     Q tt (d <| _txp := clamp_level level |>)
       (v <| ch_txp := u8 (clamp_level level) |> <| ch_regs ::= fun m => insert REG_OCP_6X (u8 OCP_TUNED) (insert 0x08D8 r m) |>)) ->
  wp (sx_setTxPower level pin) Q d k.
Proof.
  intros Hq. unfold sx_setTxPower. fold (clamp_level level). repeat wp_step. destruct k. absorb_drift. cbn in *.
  refine (Hq (mk_chip _ _ _ _ _ _ _ _ _ _ _ _ _) _ _). eexists. split; [reflexivity|]. cbn in *. intuition congruence.
Qed.
Lemma wp_push_modulation Q d k :
  (forall v, drift k v -> Q tt d (v <| ch_mod := [_sf d; _bw d; _cr d; u8 (_ldro d)] |>)) ->
  wp push_modulation_params Q d k.
Proof. intros Hq. unfold push_modulation_params, sx_setModulationParams. repeat wp_step. now apply Hq. Qed.

Definition with_ldro d : sx126x := d <| _ldro := if ldro_of (_sf d) (bandwidth_of (_bw d)) then 1 else 0 |>.
Lemma wp_handleLowDataRate Q d k : Q tt (with_ldro d) k -> wp sx_handleLowDataRate Q d k.
Proof.
  intros Hq. unfold sx_handleLowDataRate, sx_getSignalBandwidth, with_ldro in *. repeat wp_step; exact Hq.
Qed.
Lemma wp_optimize Q d k :
  (forall v r, drift k v -> Z.testbit r 2 = negb (bandwidth_of (_bw d) =? 500000) ->
     Q tt d (v <| ch_regs ::= insert 0x0889 r |>)) ->
  wp sx_optimizeModemSensitivity Q d k.
Proof.
  intros Hq. unfold sx_optimizeModemSensitivity, sx_getSignalBandwidth. repeat wp_step.
  - apply Hq; [eauto with rnode|]. unfold wrap. rewrite Z.mod_pow2_bits_low, Z.land_spec by lia. apply andb_false_r.
  - apply Hq; [eauto with rnode|]. apply bit2_set.
Qed.

(** ** The object mirrors the chip *)

(** What the driver believes of the modem is what the chip holds; the IQ register
    has the bit the errata of the chip ask for. *)
Record synced d k : Prop := {
  syn_mod : ch_mod k = [_sf d; _bw d; _cr d; u8 (_ldro d)];
  syn_freq : ch_freq k = be32 (freq_steps (_frequency d));
  syn_txp : ch_txp k = u8 (_txp d);
  syn_lora : ch_lora k = true;
  syn_base : ch_base k = 0;
  syn_preamble : ch_preamble k = u16 (_preambleLength d);
  syn_header : ch_header k = u8 (_implicitHeaderMode d);
  syn_crc : ch_crc k = u8 (_crcMode d);
  syn_iq : exists r, ch_regs k !! 0x0736 = Some r /\ Z.testbit r 2 = true
}.

Lemma synced_pushed d r v :
  ch_mod v = [_sf d; _bw d; _cr d; u8 (_ldro d)] -> ch_freq v = be32 (freq_steps (_frequency d)) ->
  ch_txp v = u8 (_txp d) -> ch_lora v = true -> ch_base v = 0 -> Z.testbit r 2 = true ->
  synced d (packet_pushed d r v).
Proof.
  intros. destruct v. cbn in *. constructor; cbn; auto. exists r. split; [apply lookup_insert_eq|assumption].
Qed.

Lemma synced_drift d k v : synced d k -> drift k v -> synced d v.
Proof. intros [] (f & -> & _). destruct k. constructor; assumption. Qed.

(** Changes that leave [synced] alone: other registers, the receiver, the buffer,
    the packets sent; and of the object, the packet bookkeeping. *)
Lemma synced_reg d k a x : a <> 0x0736 -> synced d k -> synced d (k <| ch_regs ::= insert a x |>).
Proof.
  intros Ha [? ? ? ? ? ? ? ? (r & Hr & Hb)]. destruct k. constructor; try assumption. exists r. cbn in *.
  split; [now rewrite lookup_insert_ne|exact Hb].
Qed.

(** [keeps m]: whatever [m] does, the object still mirrors the chip. *)
Definition keeps {A} (m : M W A) : Prop :=
  forall d k, wired d -> synced d k -> wp m (fun _ d k => wired d /\ synced d k) d k.

Lemma keeps_ret {A} (a : A) : keeps (ret a).
Proof. intros d k Hw Hs. apply wp_ret. auto. Qed.
Lemma keeps_bind {A B} (m : M W A) (f : A -> M W B) : keeps m -> (forall a, keeps (f a)) -> keeps (bind m f).
Proof.
  intros Hm Hf d k Hw Hs. apply wp_bind. eapply wp_mono; [apply Hm; assumption|].
  intros a d' k' [Hw' Hs']. now apply Hf.
Qed.
Lemma keeps_get {A} (f : sx126x -> A) : keeps (get f).
Proof. intros d k Hw Hs. apply wp_get. auto. Qed.
Lemma keeps_getg {A} (f : sx_globals -> A) : keeps (getg f).
Proof. intros d k Hw Hs. apply wp_getg. auto. Qed.
Lemma keeps_updg f : keeps (updg f).
Proof. intros d k Hw Hs. apply wp_updg. auto. Qed.
Lemma keeps_upd f : (forall d k, wired d -> synced d k -> wired (f d) /\ synced (f d) k) -> keeps (upd f).
Proof. intros Hf d k Hw Hs. apply wp_upd. auto. Qed.
Lemma keeps_when b m : keeps m -> keeps (when b m).
Proof. intros Hm. destruct b; [exact Hm|apply keeps_ret]. Qed.
Lemma keeps_act f : (forall w, drift (chip_of w) (chip_of (f w))) -> keeps (act f).
Proof. intros Hf d k Hw Hs. apply wp_act; [exact Hf|]. eauto using synced_drift. Qed.
Lemma keeps_call {A} (f : W -> A * W) : (forall w, drift (chip_of w) (chip_of (snd (f w)))) -> keeps (call f).
Proof. intros Hf d k Hw Hs. apply wp_call; [exact Hf|]. eauto using synced_drift. Qed.
Lemma keeps_pin (c b : bool) (p : sx126x -> Z) :
  (forall d, wired d -> p d <> reset_pin) -> forall d k, wired d -> synced d k ->
  wp (when c (act (digitalWrite (p d) b))) (fun _ d k => wired d /\ synced d k) d k.
Proof. intros Hp d k Hw Hs. apply wp_pin; [auto|]. eauto using synced_drift. Qed.

(** A command no parameter depends on. *)
Definition neutral (c : list Z) : Prop := forall d k, synced d k -> synced d (chip_step c k).
Lemma keeps_transfer c : neutral c -> keeps (transfer c).
Proof. intros Hc d k Hw Hs. apply wp_transfer. intros v miso Hv _. eauto using synced_drift. Qed.
Lemma keeps_executeOpcode op buf : neutral (op :: buf) -> keeps (sx_executeOpcode op buf).
Proof. intros. apply keeps_bind; [now apply keeps_transfer|intros; apply keeps_ret]. Qed.
Lemma keeps_executeOpcodeRead op n : neutral ([op; 0] ++ repeat 0 n) -> keeps (sx_executeOpcodeRead op n).
Proof. intros. apply keeps_bind; [now apply keeps_transfer|intros; apply keeps_ret]. Qed.
Lemma keeps_pa_ctx b : keeps (pa_ctx b).
Proof. intros d k Hw Hs. apply wp_pa_ctx; [exact Hw|]. eauto using synced_drift. Qed.
Lemma keeps_push_packet : keeps push_packet_params.
Proof.
  intros d k Hw Hs. apply wp_push_packet. intros v r Hv Hr. split; [exact Hw|].
  destruct (synced_drift _ _ _ Hs Hv). now apply synced_pushed.
Qed.

Ltac keeps_tac :=
  repeat lazymatch goal with
  | |- keeps (bind _ _) => apply keeps_bind; [|intros ?]
  | |- keeps (ret _) => apply keeps_ret
  | |- keeps skip => apply keeps_ret
  | |- keeps (get _) => apply keeps_get
  | |- keeps (getg _) => apply keeps_getg
  | |- keeps (updg _) => apply keeps_updg
  | |- keeps (when _ _) => apply keeps_when
  | |- keeps (if ?b then _ else _) => destruct b
  | |- keeps (pa_ctx _) => apply keeps_pa_ctx
  | |- keeps push_packet_params => apply keeps_push_packet
  | |- keeps (act _) => apply keeps_act; solve [auto with rnode]
  | |- keeps (call _) => apply keeps_call; solve [auto with rnode]
  | |- keeps (upd _) => apply keeps_upd; intros [] [] ? []; split; [assumption|constructor; assumption]
  | |- keeps (sx_executeOpcode _ _) => apply keeps_executeOpcode; intros d [] []; constructor; assumption
  | |- keeps (sx_executeOpcodeRead _ _) => apply keeps_executeOpcodeRead; intros d [] []; constructor; assumption
  end.

Lemma keeps_irq_status : keeps irq_status.
Proof. unfold irq_status. keeps_tac. Qed.
Lemma keeps_packet_upd f (Hf : forall d, wired d -> wired (f d)) :
  (forall d, _sf (f d) = _sf d /\ _bw (f d) = _bw d /\ _cr (f d) = _cr d /\ _ldro (f d) = _ldro d /\
             _frequency (f d) = _frequency d /\ _txp (f d) = _txp d) ->
  keeps (upd f ;; push_packet_params).
Proof.
  intros Hs d k Hw Hk. apply wp_bind, wp_upd, wp_push_packet. intros v r Hv Hr. split; [auto|].
  destruct (Hs d) as (E1 & E2 & E3 & E4 & E5 & E6). destruct (synced_drift _ _ _ Hk Hv).
  apply synced_pushed; rewrite ?E1, ?E2, ?E3, ?E4, ?E5, ?E6; assumption.
Qed.
Lemma keeps_tx_poll n t irq : keeps (tx_poll n t irq).
Proof. revert irq. induction n; intros irq; cbn [tx_poll]; keeps_tac; auto using keeps_irq_status. Qed.
Lemma keeps_endPacket : keeps sx_endPacket.
Proof. unfold sx_endPacket. keeps_tac; auto using keeps_irq_status, keeps_tx_poll. Qed.
Lemma keeps_rxAntEnable : keeps sx_rxAntEnable.
Proof.
  intros d k Hw Hs. pose proof Hw as (Ht & Hr & _). do 2 apply wp_bind, wp_get.
  apply wp_bind, wp_pin; [exact Hr|]. intros v Hv. apply wp_pin; [exact Ht|]. intros v' Hv'. eauto using synced_drift.
Qed.
Lemma keeps_implicitHeaderMode : keeps sx_implicitHeaderMode.
Proof. apply keeps_packet_upd; [auto|repeat split]. Qed.
Lemma keeps_explicitHeaderMode : keeps sx_explicitHeaderMode.
Proof. apply keeps_packet_upd; [auto|repeat split]. Qed.
Lemma keeps_enableCrc : keeps sx_enableCrc.
Proof. apply keeps_packet_upd; [auto|repeat split]. Qed.
Lemma keeps_disableCrc : keeps sx_disableCrc.
Proof. apply keeps_packet_upd; [auto|repeat split]. Qed.
Lemma keeps_setPreambleLength n : keeps (sx_setPreambleLength n).
Proof. apply keeps_packet_upd; [auto|repeat split]. Qed.
Lemma keeps_receive size : keeps (sx_receive size).
Proof.
  unfold sx_receive. keeps_tac; auto using keeps_rxAntEnable, keeps_implicitHeaderMode, keeps_explicitHeaderMode.
Qed.
Lemma keeps_beginPacket b : keeps (sx_beginPacket b).
Proof.
  intros d k Hw Hs. apply wp_beginPacket; [exact Hw|]. intros f r r' _ _ Hr'. cbn zeta. split; [exact Hw|].
  destruct Hs. destruct k. now apply synced_pushed.
Qed.
Lemma keeps_write bs : keeps (sx_write bs).
Proof.
  unfold sx_write, sx_writeBuffer. keeps_tac. apply keeps_transfer. intros d [] []. constructor; assumption.
Qed.
Lemma keeps_fetch : keeps fetch_packet.
Proof.
  unfold fetch_packet, sx_readBuffer. keeps_tac. apply keeps_transfer. intros d [] []. constructor; assumption.
Qed.
Lemma keeps_read : keeps sx_read.
Proof. unfold sx_read, sx_available. keeps_tac; auto using keeps_fetch. Qed.
Lemma keeps_dcd a b : keeps (sx_dcd a b).
Proof. unfold sx_dcd, dcd_header, dcd_preamble. keeps_tac; auto using keeps_irq_status, keeps_receive. Qed.
Lemma keeps_dio0 : keeps sx_handleDio0IfPending.
Proof. unfold sx_handleDio0IfPending, sx_handleDio0Rise. keeps_tac. Qed.

Lemma synced_mod d v : synced d v -> synced d (v <| ch_mod := [_sf d; _bw d; _cr d; u8 (_ldro d)] |>).
Proof. intros []. destruct v. constructor; try assumption. reflexivity. Qed.

(** The parameters of the modulation: the object changes, then the chip is told. *)
Lemma keeps_setSpreadingFactor sf : keeps (sx_setSpreadingFactor sf).
Proof.
  intros d k Hw []. apply wp_bind, wp_upd, wp_bind, wp_handleLowDataRate, wp_push_modulation. intros v Hv.
  split; [exact Hw|]. absorb_drift. destruct k. constructor; try assumption. reflexivity.
Qed.
Lemma keeps_setSignalBandwidth sbw : keeps (sx_setSignalBandwidth sbw).
Proof.
  intros d k Hw []. apply wp_bind, wp_upd, wp_bind, wp_handleLowDataRate, wp_bind, wp_push_modulation. intros v Hv.
  apply wp_optimize. intros v' r Hv' _. split; [exact Hw|]. apply synced_reg; [discriminate|].
  eapply synced_drift; [|exact Hv']. absorb_drift. destruct k. constructor; try assumption. reflexivity.
Qed.
Lemma keeps_setCodingRate4 n : keeps (sx_setCodingRate4 n).
Proof.
  intros d k Hw []. apply wp_bind, wp_upd, wp_push_modulation. intros v Hv.
  split; [exact Hw|]. absorb_drift. destruct k. constructor; try assumption. reflexivity.
Qed.
Lemma keeps_setFrequency f : keeps (sx_setFrequency f).
Proof.
  intros d k Hw []. apply wp_setFrequency. intros v Hv. split; [exact Hw|]. absorb_drift. destruct k.
  constructor; try assumption. reflexivity.
Qed.
Lemma keeps_setTxPower level pin : keeps (sx_setTxPower level pin).
Proof.
  intros d k Hw Hs. apply wp_setTxPower. intros v r Hv. split; [exact Hw|].
  destruct (synced_drift _ _ _ Hs Hv) as [? ? ? ? ? ? ? ? (q & Hq & Hb)]. destruct v. constructor; try assumption; [reflexivity|].
  exists q. cbn in *. rewrite !lookup_insert_ne by discriminate. auto.
Qed.
Lemma keeps_setSyncWord sw : keeps (sx_setSyncWord sw).
Proof.
  intros d k Hw Hs. apply wp_setSyncWord. intros v Hv. split; [exact Hw|].
  destruct (synced_drift _ _ _ Hs Hv) as [? ? ? ? ? ? ? ? (q & Hq & Hb)]. destruct v. constructor; try assumption.
  exists q. cbn in *. rewrite !lookup_insert_ne by discriminate. auto.
Qed.

(** ** Starting the modem *)

(** What does not touch the object, whatever it does to the chip. *)
Definition blind {A} (m : M W A) : Prop := forall d k, wp m (fun _ d' _ => d' = d) d k.
Lemma blind_ret {A} (a : A) : blind (ret a).
Proof. intros d k. now apply wp_ret. Qed.
Lemma blind_bind {A B} (m : M W A) (f : A -> M W B) : blind m -> (forall a, blind (f a)) -> blind (bind m f).
Proof.
  intros Hm Hf d k. apply wp_bind. eapply wp_mono; [apply Hm|]. intros a d' k' ->. apply Hf.
Qed.
Lemma blind_get {A} (f : sx126x -> A) : blind (get f).
Proof. intros d k. now apply wp_get. Qed.
Lemma blind_act f : blind (act f).
Proof. intros d k s <- <-. reflexivity. Qed.
Lemma blind_call {A} (f : W -> A * W) : blind (call f).
Proof. intros d k s <- <-. unfold call. now destruct (f (wd s)). Qed.
Lemma blind_when b m : blind m -> blind (when b m).
Proof. intros Hm. destruct b; [exact Hm|apply blind_ret]. Qed.
Lemma blind_wait : blind sx_waitOnBusy.
Proof. intros d k. now apply wp_wait. Qed.
Ltac blind_tac :=
  repeat lazymatch goal with
  | |- blind (bind _ _) => apply blind_bind; [|intros ?]
  | |- blind (ret _) => apply blind_ret
  | |- blind (get _) => apply blind_get
  | |- blind (act _) => apply blind_act
  | |- blind (call _) => apply blind_call
  | |- blind (when _ _) => apply blind_when
  | |- blind skip => apply blind_ret
  | |- blind sx_waitOnBusy => apply blind_wait
  end.
Lemma wp_blind {A B} (m : M W A) (f : A -> M W B) Q d k :
  blind m -> (forall a v, wp (f a) Q d v) -> wp (bind m f) Q d k.
Proof. intros Hm Hf. apply wp_bind. eapply wp_mono; [apply Hm|]. intros a d' v ->. apply Hf. Qed.

Ltac unfold_power_up :=
  unfold sx_reset, sx_setDCDCRegulator, sx_enableTCXO, sx_clearDeviceErrors, sx_calibrate, sx_calibrate_image,
    wait_busy, sx_executeOpcode, transfer.

Lemma wp_power_up f Q d k :
  (forall v, ch_lora v = true -> ch_rx v = false -> Q tt d v) -> wp (power_up f) Q d k.
Proof.
  intros Hq. unfold power_up. do 2 (apply wp_bind, wp_get).
  do 6 (apply wp_blind; [unfold_power_up; solve [blind_tac]|let u := fresh "u" in intros _ u]).
  apply wp_bind, wp_executeOpcode. intros v Hv. apply wp_executeOpcode. intros v' Hv'.
  apply Hq; absorb_drift; destruct u4; reflexivity.
Qed.

(** The registers [begin] leaves the sync word in. *)
Definition sync_held (sw : Z) k : Prop :=
  ch_regs k !! 0x0740 = Some (u8 (fst (sync_bytes sw))) /\ ch_regs k !! 0x0741 = Some (u8 (snd (sync_bytes sw))).

Definition configured f d d' k : Prop :=
  synced d' k /\ sync_held SYNC_WORD_6X k /\ ch_rx k = false /\
  _frequency d' = f /\ _txp d' = 2 /\ _crcMode d' = 1 /\
  (_sf d', _bw d', _cr d') = (_sf d, _bw d, _cr d).

(** With the receiver off nothing changes between the commands. *)
Ltac still := match goal with Hd : drift ?k ?v |- _ => apply drift_still in Hd; [subst v|reflexivity || assumption] end.

Lemma wp_neutral_when (b : bool) op buf Q d k :
  (forall v, chip_step (op :: buf) v = v) -> ch_rx k = false -> Q tt d k -> wp (when b (sx_executeOpcode op buf)) Q d k.
Proof. intros Hn Hx Hq. apply wp_when; intros _; [apply wp_executeOpcode; intros v Hv; still; now rewrite Hn|exact Hq]. Qed.

Lemma wp_configure f Q d k : wired d -> ch_lora k = true -> ch_rx k = false ->
  (forall d' v, configured f d d' v -> wired d' -> Q tt d' v) -> wp (configure f) Q d k.
Proof.
  intros Hw Hl Hx Hq. pose proof Hw as (Ht & Hr & _). unfold configure. destruct k. cbn in Hl, Hx. subst ch_lora ch_rx.
  apply wp_bind, wp_setSyncWord. intros v Hv. still.
  apply wp_bind, wp_neutral_when; [reflexivity|reflexivity|].
  apply wp_bind. do 2 apply wp_bind, wp_get. apply wp_bind, wp_pin; [exact Hr|]. intros v Hv. still.
  apply wp_pin; [exact Ht|]. intros v Hv. still.
  apply wp_bind, wp_setFrequency. intros v Hv. still.
  apply wp_bind, wp_setTxPower. intros v r1 Hv. still.
  apply wp_bind, wp_bind, wp_upd, wp_push_packet. intros v r2 Hv Hr2. still.
  apply wp_bind, wp_writeRegister; [vm_compute; intuition discriminate|]. intros v Hv. still.
  apply wp_bind, wp_bind, wp_readRegister; [vm_compute; intuition discriminate|]. intros v r3 Hv _. still.
  apply wp_writeRegister; [vm_compute; intuition discriminate|]. intros v Hv. still.
  apply wp_bind, wp_executeOpcode. intros v Hv. still.
  apply wp_bind, wp_push_modulation. intros v Hv. still.
  apply wp_push_packet. intros v r4 Hv Hr4. still.
  apply Hq; [|exact Hw]. unfold configured.
  split_and!; try reflexivity.
  - apply synced_pushed; auto.
  - unfold sync_held, packet_pushed, REG_OCP_6X, REG_LNA_6X. split; cbn -[sync_bytes];
      repeat (rewrite ?lookup_insert_eq; rewrite ?lookup_insert_ne, ?lookup_delete_ne by discriminate); reflexivity.
Qed.

Lemma blind_readRegister a : blind (sx_readRegister a).
Proof. unfold sx_readRegister, sx_singleTransfer, transfer. blind_tac. Qed.
Lemma blind_preinit_loop n start a b : blind (preinit_loop n start a b).
Proof.
  revert a b. induction n as [|n IH]; intros a b; cbn [preinit_loop]; [apply blind_ret|].
  apply blind_bind; [apply blind_call|]. intros now.
  apply blind_bind; [destruct (_ <? _); [apply blind_call|apply blind_ret]|]. intros now'.
  destruct (_ <=? _); [|apply blind_ret].
  apply blind_bind; [apply blind_readRegister|]. intros x. apply blind_bind; [apply blind_readRegister|]. intros y.
  destruct (sync_known x y); [apply blind_ret|]. apply blind_bind; [apply blind_act|auto].
Qed.

(** [preInit] changes nothing of the object but the flag. *)
Lemma wp_preInit Q d k :
  (forall b v, Q b (d <| _preinit_done := b || _preinit_done d |>) v) -> wp sx_preInit Q d k.
Proof.
  intros Hq. apply wp_bind, wp_get. do 3 (apply wp_blind; [apply blind_act|let u := fresh "u" in intros _ u]).
  apply wp_blind; [apply blind_call|]. intros start v.
  apply wp_blind; [apply blind_preinit_loop|]. intros [a b] v'. destruct (sync_known a b).
  - apply wp_bind, wp_upd, wp_ret. exact (Hq true v').
  - apply wp_ret. specialize (Hq false v'). now destruct d.
Qed.

Lemma configured_drift f d d' k v : configured f d d' k -> drift k v -> configured f d d' v.
Proof.
  intros (Hs & Hy & Hr & Hf) Hd. apply drift_still in Hd; [|exact Hr]. subst v. unfold configured; tauto.
Qed.

Lemma wp_pa_setup f d0 d k : wired d -> configured f d0 d k ->
  wp pa_setup (fun _ d' v => wired d' /\ configured f d0 d' v) d k.
Proof.
  intros Hw Hc. pose proof Hw as (_ & _ & Hp). apply wp_when; intros Hb; [|auto].
  destruct (Hp Hb) as (P1 & P2 & P3 & P4).
  repeat first [ wp_step | apply wp_act; [intros; apply chip_write; assumption|intros ? ?] ];
    (split; [exact Hw|]);
    repeat match goal with Hd : drift ?a ?v |- configured _ _ _ ?v => refine (configured_drift _ _ _ _ _ _ Hd); clear Hd end;
    exact Hc.
Qed.

Lemma wp_begin f Q d k : wired d ->
  (forall d' v, configured f d d' v -> wired d' -> Q true d' v) ->
  (forall d' v, _preinit_done d = false -> Q false d' v) ->
  wp (sx_begin f) Q d k.
Proof.
  intros Hw Hok Hno. unfold sx_begin. apply wp_blind; [unfold sx_reset; blind_tac|]. intros _ v1.
  apply wp_bind, wp_get. apply wp_blind; [blind_tac|]. intros _ v2. apply wp_bind, wp_get.
  assert (Hgo : forall e v, wired e -> (_sf e, _bw e, _cr e) = (_sf d, _bw d, _cr d) ->
    wp (power_up f ;; configure f ;; pa_setup ;; ret true) Q e v).
  { intros e v He Hs. apply wp_bind, wp_power_up. intros v3 Hl Hx. apply wp_bind, wp_configure; [exact He|exact Hl|exact Hx|].
    intros d' v4 Hc Hw'. apply wp_bind. eapply wp_mono; [exact (wp_pa_setup _ _ _ _ Hw' Hc)|].
    intros _ d'' v5 [Hw'' Hc'']. apply wp_ret, Hok; [|exact Hw'']. unfold configured in *. now rewrite <- Hs. }
  destruct (_preinit_done d) eqn:Ed.
  - apply wp_bind, wp_ret, Hgo; auto.
  - apply wp_bind, wp_preInit. intros [] v; [apply Hgo; auto|apply wp_ret, Hno; reflexivity].
Qed.

Lemma begin_outcome f s : wired (ic s) ->
  let '(ok, s1) := sx_begin f s in
  (_preinit_done (ic s) = true -> ok = true) /\
  (ok = true -> configured f (ic s) (ic s1) (chip_of (wd s1)) /\ wired (ic s1)).
Proof.
  intros Hw. assert (E : wp (sx_begin f) (fun ok d k => (_preinit_done (ic s) = true -> ok = true) /\
    (ok = true -> configured f (ic s) d k /\ wired d)) (ic s) (chip_of (wd s))).
  { apply wp_begin; [exact Hw|auto|]. intros d v ->. split; discriminate. }
  exact (E s eq_refl eq_refl).
Qed.

(** The calls the firmware makes once the modem is up. *)
Inductive sx_op :=
  | OPreamble (n : Z) | OSpreading (sf : Z) | OCoding (n : Z) | OSync (sw : Z) | OPower (level pin : Z)
  | OBandwidth (sbw : Z) | OFrequency (f : Z) | OCrc (b : bool) | OReceive (size : Z) | OStandby
  | OBeginPacket (b : bool) | OWrite (bs : list Z) | OEndPacket | ORead | OPeek | ODio | ODcd (a b : Z) | ORssi | OSnr.
Definition sx_run (o : sx_op) : M W unit :=
  match o with
  | OPreamble n => sx_setPreambleLength n
  | OSpreading sf => sx_setSpreadingFactor sf
  | OCoding n => sx_setCodingRate4 n
  | OSync sw => sx_setSyncWord sw
  | OPower level pin => sx_setTxPower level pin
  | OBandwidth sbw => sx_setSignalBandwidth sbw
  | OFrequency f => sx_setFrequency f
  | OCrc b => if b then sx_enableCrc else sx_disableCrc
  | OReceive size => sx_receive size
  | OStandby => sx_standby
  | OBeginPacket b => sx_beginPacket b
  | OWrite bs => _ ← sx_write bs; skip
  | OEndPacket => _ ← sx_endPacket; skip
  | ORead => _ ← sx_read; skip
  | OPeek => _ ← sx_peek; skip
  | ODio => _ ← sx_handleDio0IfPending; skip
  | ODcd a b => _ ← sx_dcd a b; skip
  | ORssi => _ ← sx_currentRssi; skip
  | OSnr => _ ← sx_packetSnrRaw; skip
  end.

Lemma sx_run_keeps o : keeps (sx_run o).
Proof.
  destruct o; cbn [sx_run]; auto using keeps_setPreambleLength, keeps_setSpreadingFactor, keeps_setCodingRate4, keeps_setSyncWord,
    keeps_setTxPower, keeps_setSignalBandwidth, keeps_setFrequency, keeps_receive, keeps_beginPacket.
  - destruct b; [apply keeps_enableCrc|apply keeps_disableCrc].
  - unfold sx_standby. keeps_tac.
  - keeps_tac. apply keeps_write.
  - keeps_tac. apply keeps_endPacket.
  - keeps_tac. apply keeps_read.
  - unfold sx_peek, sx_available. keeps_tac. apply keeps_fetch.
  - keeps_tac. apply keeps_dio0.
  - keeps_tac. apply keeps_dcd.
  - unfold sx_currentRssi, sx_currentRssiRaw. keeps_tac.
  - unfold sx_packetSnrRaw, packet_status. keeps_tac.
Qed.

(** C8. What the driver believes of the modem is what the modem was told.  When
    [begin] succeeds - and it does once the chip was detected - the chip is in
    LoRa mode at the requested frequency with the receiver off, 2 dBm, CRC on, the
    default sync word and the object's modulation; and after any sequence of further
    calls its modulation, frequency, power, packet format and buffer base are those
    of the object, and the IQ register has the bit its errata ask for. *)
(* @prop invariant W=sx_mirrors_chip_witness D=sx_begin,sx_setSpreadingFactor,sx_setSignalBandwidth,sx_setFrequency,sx_setTxPower,sx_setPacketParams,sx_receive,sx_dcd *)
Theorem sx_mirrors_chip (f : Z) (ops : list sx_op) s :
  wired (ic s) ->
  let '(ok, s1) := sx_begin f s in
  (_preinit_done (ic s) = true -> ok = true) /\
  (ok = true ->
   configured f (ic s) (ic s1) (chip_of (wd s1)) /\
   let s2 := foldl (fun s o => snd (sx_run o s)) s1 ops in
   synced (ic s2) (chip_of (wd s2))).
Proof.
  intros Hw. pose proof (begin_outcome f s Hw) as E.
  destruct (sx_begin f s) as [ok s1]. destruct E as [E1 E2]. split; [exact E1|]. intros Hok.
  destruct (E2 Hok) as [Hc Hw1]. split; [exact Hc|]. destruct Hc as [Hs _]. clear E1 E2. cbn zeta.
  revert s1 Hw1 Hs. induction ops as [|o ops IH]; intros s1 Hw1 Hs; [exact Hs|]. cbn [foldl].
  destruct (wp_elim _ _ _ (sx_run_keeps o _ _ Hw1 Hs)) as [Hw2 Hs2]. now apply IH.
Qed.

(** ** Transmission and configuration end to end *)

(** C7. A payload handed to [transmit] leaves the chip as its fragments: over any
    SX1262 whose buffer base is zero, the frames the chip has been made to send are
    exactly the fragments of the payload, in order, nothing is written to the host
    and the device goes on; or they are the fragments up to one the driver gave up on
    after the modem's time-out - then the host gets the two error frames and the
    device resets. *)
(* @prop refinement W=sx_transmits_witness D=transmit,sx_beginPacket,sx_write,sx_endPacket,sx_writeBuffer,sx_setPacketParams *)
Theorem sx_transmits {A} (add_airtime : Z -> A -> A) (random256 : Z) (implicit : bool) (tbuf : list Z) (s : txst (radio W) A) :
  is_u8 random256 -> sane (Link.drv s) -> zlen tbuf <= MTU ->
  let air (s : txst (radio W) A) := ch_sent (chip_of (wd (Link.drv s))) in
  let s' := transmit add_airtime true false implicit random256 tbuf s in
  let fs := fragments random256 tbuf in
  (air s' = air s ++ fs /\ sane (Link.drv s') /\ tx_out s' = tx_out s /\ tx_reset s' = tx_reset s) \/
  exists before l after (e : radio W), fs = before ++ l :: after /\ on_air e = air s ++ before /\ sx_pending e = Some l /\
    fst (sx_endPacket e) = false /\ Link.drv s' = snd (sx_endPacket e) /\
    tx_out s' = tx_out s ++ kiss_error ERROR_MODEM_TIMEOUT ++ kiss_error ERROR_TXFAILED /\ tx_reset s' = true.
Proof.
  intros Hr Hs Hl. cbn zeta.
  destruct (transmit_outcome_gen add_airtime (fun _ => True) stable_any random256 implicit tbuf s Hr Hs I Hl) as [[]|(before & l & after & Ef & [])]; [left; auto|right].
  destruct failed_end as (d & _ & _ & Hp & Ha & He & Ed). destruct s. exists before, l, after, d. auto 10.
Qed.

(** ** The interface of the radio configuration *)

Definition run {A} (m : M W A) s : radio W := snd (m s).
#[export] Instance sx_modem : LoRaModem (radio W) := {
  lora_begin f s := sx_begin f s;
  lora_end := run sx_end;
  lora_setPreambleLength n := run (sx_setPreambleLength n);
  lora_setSpreadingFactor n := run (sx_setSpreadingFactor n);
  lora_setCodingRate4 n := run (sx_setCodingRate4 n);
  lora_setSyncWord n := run (sx_setSyncWord n);
  lora_setTxPower l p := run (sx_setTxPower l p);
  lora_getTxPower s := sx_getTxPower (ic s);
  lora_setSignalBandwidth n := run (sx_setSignalBandwidth n);
  lora_getSignalBandwidth s := bandwidth_of (_bw (ic s));
  lora_setFrequency n := run (sx_setFrequency n);
  lora_getFrequency s := sx_getFrequency (ic s);
  lora_enableCrc := run sx_enableCrc;
  lora_receive n s := run (sx_receive n) (run (sx_onReceive true) s)
}.

(** What each call does to the object. *)
Definition effect {A} (m : M W A) (f : sx126x -> sx126x) : Prop := forall d k, wp m (fun _ d' _ => d' = f d) d k.
Lemma effect_run {A} (m : M W A) f s : effect m f -> ic (run m s) = f (ic s).
Proof. intros Hm. exact (wp_elim m _ s (Hm _ _)). Qed.
Lemma effect_push_packet f : effect (upd f ;; push_packet_params) f.
Proof. intros d k. now apply wp_bind, wp_upd, wp_push_packet. Qed.

Definition spreading_of (sf : Z) : Z := if sf <? 5 then 5 else if 12 <? sf then 12 else sf.
Definition coding_of (cr : Z) : Z := (if cr <? 5 then 5 else if 8 <? cr then 8 else cr) - 4.

Lemma effect_setSpreadingFactor sf : effect (sx_setSpreadingFactor sf) (fun d => with_ldro (d <| _sf := spreading_of sf |>)).
Proof. intros d k. now apply wp_bind, wp_upd, wp_bind, wp_handleLowDataRate, wp_push_modulation. Qed.
Lemma effect_setSignalBandwidth sbw : effect (sx_setSignalBandwidth sbw) (fun d => with_ldro (d <| _bw := bw_code sbw |>)).
Proof.
  intros d k. apply wp_bind, wp_upd, wp_bind, wp_handleLowDataRate, wp_bind, wp_push_modulation. intros v Hv.
  now apply wp_optimize.
Qed.
Lemma effect_setCodingRate4 n : effect (sx_setCodingRate4 n) (fun d => d <| _cr := coding_of n |>).
Proof. intros d k. now apply wp_bind, wp_upd, wp_push_modulation. Qed.
Lemma effect_setSyncWord sw : effect (sx_setSyncWord sw) (fun d => d).
Proof. intros d k. now apply wp_setSyncWord. Qed.
Lemma effect_setTxPower level pin : effect (sx_setTxPower level pin) (fun d => d <| _txp := clamp_level level |>).
Proof. intros d k. now apply wp_setTxPower. Qed.

(** The sync word survives what follows it in [startRadio]. *)
Lemma sync_held_drift sw k v : sync_held sw k -> drift k v -> sync_held sw v.
Proof. intros Hs (f & -> & _). now destruct k. Qed.
Lemma sync_held_pushed sw d r k : sync_held sw k -> sync_held sw (packet_pushed d r k).
Proof.
  intros [Ha Hb]. destruct k. unfold sync_held. cbn in *.
  rewrite !lookup_insert_ne, !lookup_delete_ne by discriminate. auto.
Qed.

(** The end of [startRadio]: the receiver is on and the sync word is in place. *)
Lemma wp_receive size Q d k : wired d ->
  (forall d' v, (exists n h, d' = d <| _implicitHeaderMode := h |> <| _payloadLength := n |>) ->
     (forall sw, sync_held sw k -> sync_held sw v) -> ch_rx v = true -> Q tt d' v) ->
  wp (sx_receive size) Q d k.
Proof.
  intros Hw Hq. unfold sx_receive. apply wp_bind, wp_pa_ctx; [exact Hw|]. intros v1 Hv1.
  apply wp_bind.
  assert (Htail : forall d' v, (exists n h, d' = d <| _implicitHeaderMode := h |> <| _payloadLength := n |>) ->
    (forall sw, sync_held sw k -> sync_held sw v) ->
    wp (rxen ← get _rxen; when (negb (rxen =? -1)) sx_rxAntEnable ;; sx_executeOpcode OP_RX_6X [0xFF; 0xFF; 0xFF]) Q d' v).
  { intros d' v Hd Hs. apply wp_bind, wp_get, wp_bind.
    assert (Hw' : wired d') by (destruct Hd as (n & h & ->); exact Hw).
    assert (Hc : forall v', drift v v' -> wp (sx_executeOpcode OP_RX_6X [0xFF; 0xFF; 0xFF]) Q d' v').
    { intros v' Hv'. apply wp_executeOpcode. intros u Hu. apply Hq; [exact Hd| |].
      - intros sw Hsw. pose proof (sync_held_drift _ _ _ (sync_held_drift _ _ _ (Hs sw Hsw) Hv') Hu). now destruct u.
      - now destruct u. }
    apply wp_when; intros _; [|apply Hc, drift_refl].
    pose proof Hw' as (Ht & Hr & _). do 2 apply wp_bind, wp_get.
    apply wp_bind, wp_pin; [exact Hr|]. intros v2 Hv2. apply wp_pin; [exact Ht|]. intros v3 Hv3.
    apply Hc. eauto with rnode. }
  destruct (0 <? size).
  - apply wp_bind. apply wp_bind, wp_upd, wp_push_packet. intros v2 r Hv2 _.
    apply wp_bind, wp_upd, wp_push_packet. intros v3 r' Hv3 _. apply Htail.
    + exists size, 1. reflexivity.
    + intros sw Hs. eauto 10 using sync_held_pushed, sync_held_drift.
  - apply wp_bind, wp_upd, wp_push_packet. intros v2 r Hv2 _. apply Htail.
    + exists (_payloadLength d), 0. now destruct d.
    + intros sw Hs. eauto 10 using sync_held_pushed, sync_held_drift.
Qed.

(** ** The radio comes up as configured *)

(** The object keeps mirroring the chip through a call of the interface, and the
    call's effect on the object is known. *)
Definition mirrored s : Prop := wired (ic s) /\ synced (ic s) (chip_of (wd s)).
Lemma mirrored_run {A} (m : M W A) s : keeps m -> mirrored s -> mirrored (run m s).
Proof. intros Hm [Hw Hs]. exact (wp_elim m _ s (Hm _ _ Hw Hs)). Qed.

(** The modulation of an object. *)
Definition modulation (d : sx126x) := (_frequency d, _bw d, _sf d, _cr d, _ldro d).
Lemma modulation_preamble n s : modulation (ic (run (sx_setPreambleLength n) s)) = modulation (ic s).
Proof. now rewrite (effect_run (sx_setPreambleLength n) _ s (effect_push_packet _)). Qed.

Definition ldro_bit (sf bw : Z) : Z := if ldro_of sf (bandwidth_of bw) then 1 else 0.

(** Low-data-rate optimisation follows the spreading factor and bandwidth set last. *)
Lemma modulation_started f bw sf cr n1 n2 n3 (power : radio W -> radio W) s :
  (power = (fun s => s) \/ exists level pin, power = lora_setTxPower level pin) -> mirrored s -> _frequency (ic s) = f ->
  let s' := lora_setPreambleLength n3 (lora_setCodingRate4 cr (lora_setPreambleLength n2 (lora_setSpreadingFactor sf
              (lora_setPreambleLength n1 (lora_setSignalBandwidth bw (power s)))))) in
  mirrored s' /\ modulation (ic s') = (f, bw_code bw, spreading_of sf, coding_of cr, ldro_bit (spreading_of sf) (bw_code bw)).
Proof.
  intros Hp Hm Hf. cbn zeta. cbn [lora_setPreambleLength lora_setCodingRate4 lora_setSpreadingFactor lora_setSignalBandwidth sx_modem].
  assert (Hps : mirrored (power s) /\ _frequency (ic (power s)) = f).
  { destruct Hp as [->|(level & pin & ->)]; [auto|]. cbn [lora_setTxPower sx_modem].
    split; [apply mirrored_run; [apply keeps_setTxPower|exact Hm]|]. now rewrite (effect_run _ _ s (effect_setTxPower level pin)). }
  clear Hp Hm Hf. destruct Hps as [Hm Hf]. set (s0 := power s) in *. clearbody s0. split.
  - apply (mirrored_run _ _ (keeps_setPreambleLength n3)), (mirrored_run _ _ (keeps_setCodingRate4 cr)),
      (mirrored_run _ _ (keeps_setPreambleLength n2)), (mirrored_run _ _ (keeps_setSpreadingFactor sf)),
      (mirrored_run _ _ (keeps_setPreambleLength n1)), (mirrored_run _ _ (keeps_setSignalBandwidth bw)), Hm.
  - rewrite modulation_preamble. set (s1 := run (sx_setSignalBandwidth bw) s0). set (s2 := run (sx_setPreambleLength n1) s1).
    set (s3 := run (sx_setSpreadingFactor sf) s2). set (s4 := run (sx_setPreambleLength n2) s3).
    pose proof (effect_run _ _ s4 (effect_setCodingRate4 cr)) as E5. rewrite E5.
    pose proof (modulation_preamble n2 s3) as E4. pose proof (effect_run _ _ s2 (effect_setSpreadingFactor sf)) as E3.
    pose proof (modulation_preamble n1 s1) as E2. pose proof (effect_run _ _ s0 (effect_setSignalBandwidth bw)) as E1.
    fold s1 in E1. fold s2 in E2. fold s3 in E3. fold s4 in E4. clear E5. clearbody s4 s3 s2 s1.
    unfold modulation in *. rewrite E3 in E4. rewrite E1 in E2. clear E1 E3.
    destruct (ic s4), (ic s2), (ic s0). cbn in *. injection E4 as -> -> -> -> ->. injection E2 as -> -> -> -> ->.
    unfold ldro_bit. now rewrite Hf.
Qed.

(** The last calls: sync word, CRC, callback, receiver. *)
Lemma wp_onReceive cb Q d k : (forall v, drift k v -> Q tt (d <| _onReceive := cb |>) v) -> wp (sx_onReceive cb) Q d k.
Proof.
  intros Hq. apply wp_bind, wp_upd, wp_bind, wp_get. destruct cb; [|apply wp_act; [auto with rnode|exact Hq]].
  apply wp_bind, wp_act; [auto with rnode|]. intros v1 Hv1. apply wp_bind, wp_executeOpcode. intros v2 Hv2.
  apply wp_act; [auto with rnode|]. intros v3 Hv3. apply Hq. eauto with rnode.
Qed.

Lemma started_tail sw size s f bw sf cr l : mirrored s -> modulation (ic s) = (f, bw, sf, cr, l) ->
  let k := chip_of (wd (lora_receive size (lora_enableCrc (lora_setSyncWord sw s)))) in
  ch_freq k = be32 (freq_steps f) /\ ch_mod k = [sf; bw; cr; u8 l] /\ sync_held sw k /\ ch_crc k = 1 /\
  ch_rx k = true /\ ch_lora k = true /\ exists r, ch_regs k !! 0x0736 = Some r /\ Z.testbit r 2 = true.
Proof.
  intros Hm Hmod. cbn zeta. cbn [lora_receive lora_enableCrc lora_setSyncWord sx_modem].
  set (s1 := run (sx_setSyncWord sw) s). set (s2 := run sx_enableCrc s1). set (s3 := run (sx_onReceive true) s2).
  assert (M1 : mirrored s1) by (apply mirrored_run; [apply keeps_setSyncWord|exact Hm]).
  assert (M2 : mirrored s2) by (apply mirrored_run; [apply keeps_enableCrc|exact M1]).
  assert (Y1 : sync_held sw (chip_of (wd s1))).
  { apply (wp_elim (sx_setSyncWord sw) (fun _ _ k => sync_held sw k) s), wp_setSyncWord. intros v _. destruct v. unfold sync_held.
    cbn -[sync_bytes]. rewrite lookup_insert_eq, lookup_insert_ne, lookup_insert_eq by discriminate. auto. }
  assert (Y2 : sync_held sw (chip_of (wd s2))).
  { apply (wp_elim sx_enableCrc (fun _ _ k => sync_held sw k) s1). apply wp_bind, wp_upd, wp_push_packet. intros v r Hv _.
    eauto using sync_held_pushed, sync_held_drift. }
  pose proof (effect_run sx_enableCrc _ s1 (effect_push_packet _)) as E2. fold s2 in E2.
  pose proof (effect_run _ _ s (effect_setSyncWord sw)) as E1. fold s1 in E1. rewrite E1 in E2.
  assert (F3 : ic s3 = (ic s2) <| _onReceive := true |> /\ drift (chip_of (wd s2)) (chip_of (wd s3))).
  { apply (wp_elim (sx_onReceive true) (fun _ d k => d = _ /\ drift (chip_of (wd s2)) k) s2), wp_onReceive. auto. }
  destruct F3 as [E3 D3].
  assert (M3 : mirrored s3).
  { destruct M2 as [W2 S2]. unfold mirrored. rewrite E3. split; [exact W2|].
    destruct (synced_drift _ _ _ S2 D3). now constructor. }
  pose proof (mirrored_run _ _ (keeps_receive size) M3) as [_ [Sm Sf _ Sl _ _ _ Sc Si]].
  pose proof (sync_held_drift _ _ _ Y2 D3) as Y3.
  assert (F4 : modulation (ic (run (sx_receive size) s3)) = modulation (ic s3) /\ _crcMode (ic (run (sx_receive size) s3)) = _crcMode (ic s3) /\
               sync_held sw (chip_of (wd (run (sx_receive size) s3))) /\ ch_rx (chip_of (wd (run (sx_receive size) s3))) = true).
  { apply (wp_elim (sx_receive size) (fun _ d k => modulation d = modulation (ic s3) /\ _crcMode d = _crcMode (ic s3) /\ sync_held sw k /\ ch_rx k = true) s3).
    apply wp_receive; [apply M3|]. intros d' v (n & h & ->) Hy Hx. auto. }
  destruct F4 as (G1 & G2 & G3 & G4).
  assert (G5 : modulation (ic s3) = (f, bw, sf, cr, l) /\ _crcMode (ic s3) = 1) by (rewrite E3, E2; split; [exact Hmod|reflexivity]).
  destruct G5 as [G5 G6]. rewrite G5 in G1. rewrite G6 in G2. unfold modulation in G1. injection G1 as K1 K2 K3 K4 K5.
  rewrite K1 in Sf. rewrite K2, K3, K4, K5 in Sm. rewrite G2 in Sc. auto 10.
Qed.

(** C9. The radio comes up as it is configured.  When [startRadio] turns the radio
    on over this driver, the chip holds the configured frequency, the code of the
    configured bandwidth, the spreading factor and coding rate brought into range and
    the low-data-rate bit that follows from them; its sync word is the configured
    one; CRC is on, the IQ register is as its errata ask, and the receiver is on. *)
(* @prop refinement W=sx_radio_comes_up_witness D=startRadio,sx_begin,sx_setSignalBandwidth,sx_setSpreadingFactor,sx_setCodingRate4,sx_setSyncWord,sx_receive *)
Theorem sx_radio_comes_up (m : modem (radio W)) :
  radio_online m = false -> wired (ic (drv m)) -> radio_online (snd (startRadio false true m)) = true ->
  let k := chip_of (wd (drv (snd (startRadio false true m)))) in
  let bw := bw_code (lora_bw (par m)) in let sf := spreading_of (lora_sf (par m)) in
  ch_freq k = be32 (freq_steps (lora_freq (par m))) /\
  ch_mod k = [sf; bw; coding_of (lora_cr (par m)); ldro_bit sf bw] /\
  sync_held (lora_sw m) k /\ ch_crc k = 1 /\ ch_rx k = true /\ ch_lora k = true /\
  exists r, ch_regs k !! 0x0736 = Some r /\ Z.testbit r 2 = true.
Proof.
  intros Hoff Hw Hon. cbn zeta. destruct (startRadio_drives m Hoff Hon) as (d & Eb & power & n1 & n2 & n3 & size & Hp & ->).
  cbn [lora_begin sx_modem] in Eb.
  pose proof (begin_outcome (lora_freq (par m)) (drv m) Hw) as Hb. rewrite Eb in Hb.
  destruct Hb as [_ Hb]. destruct (Hb eq_refl) as [(Hs & _ & _ & Hf & _) Hwd]. clear Hb Eb.
  destruct (modulation_started _ (lora_bw (par m)) (lora_sf (par m)) (lora_cr (par m)) n1 n2 n3 power d Hp (conj Hwd Hs) Hf) as [Hm Emod].
  set (s5 := lora_setPreambleLength n3 _) in *. clearbody s5. clear Hp Hs Hf Hwd Hon.
  rewrite <- (u8_id (ldro_bit _ _)) by (unfold ldro_bit, is_u8; destruct (ldro_of _ _); lia).
  apply started_tail; assumption.
Qed.
End Guarantees.

(** ** Witnesses, on the simulated chip *)

Lemma wired0 : @wired sim sim_world sim_sx1262 heltec32_v3 plain_radio (ic radio0).
Proof. split; [vm_compute; discriminate|]. split; [vm_compute; discriminate|]. intros E. discriminate E. Qed.

Definition witness_ops : list sx_op := [OSpreading 9; OBandwidth 250000; OBeginPacket false; OWrite [1; 2; 3]; OEndPacket].
Lemma sx_mirrors_chip_witness :
  let '(ok, s1) := @sx_begin sim sim_world heltec32_v3 plain_radio 868000000 radio0 in
  ok = true /\ synced (ic s1) (chip_of (wd s1)) /\
  let s2 := foldl (fun s o => snd (@sx_run sim sim_world heltec32_v3 plain_radio o s)) s1 witness_ops in
  synced (ic s2) (chip_of (wd s2)).
Proof.
  pose proof (@sx_mirrors_chip sim sim_world sim_sx1262 heltec32_v3 plain_radio 868000000 witness_ops radio0 wired0) as P.
  assert (Hok : fst (@sx_begin sim sim_world heltec32_v3 plain_radio 868000000 radio0) = true) by (vm_compute; reflexivity).
  destruct (@sx_begin sim sim_world heltec32_v3 plain_radio 868000000 radio0) as [ok s]. cbn [fst] in Hok.
  split; [exact Hok|]. destruct P as [_ P]. destruct (P Hok) as [Hc H2]. split; [exact (proj1 Hc)|exact H2].
Defined.

(** The radio begun at 868 MHz, about to transmit. *)
Definition radio_up : radio sim := snd (@sx_begin sim sim_world heltec32_v3 plain_radio 868000000 radio0).
Definition tx0 : txst (radio sim) (list Z) := mk_txst radio_up [] [] 0 false.
Lemma sane_up : @sane _ _ (@sx_laws sim sim_world sim_sx1262 heltec32_v3 plain_radio) radio_up.
Proof.
  split; [split; [|split]|split]; [vm_compute; discriminate|vm_compute; discriminate|intros E; discriminate E|vm_compute; reflexivity..].
Qed.

Lemma sx_transmits_witness :
  let s' := @transmit _ (@sx_tx sim sim_world heltec32_v3 plain_radio) _ cons true false false 0x55 (repeat 7 300) tx0 in
  ch_sent (chip_of (wd (Link.drv s'))) = ch_sent (chip_of (wd (Link.drv tx0))) ++ fragments 0x55 (repeat 7 300) \/
  tx_reset s' = true.
Proof.
  pose proof (@sx_transmits sim sim_world sim_sx1262 heltec32_v3 plain_radio (list Z) cons 0x55 false (repeat 7 300) tx0
    ltac:(unfold is_u8; lia) sane_up ltac:(vm_compute; discriminate)) as P.
  cbn zeta in P. destruct P as [[P _]|(before & l & after & e & _ & _ & _ & _ & _ & _ & P)].
  - left. exact P.
  - right. exact P.
Defined.

Definition modem0 : modem (radio sim) :=
  mk_modem false false (mk_lora 7 5 0 125000 868000000) 0x12 false 0 false MODEL_CA 0 false [] rates0 radio0 [].
Lemma sx_radio_comes_up_witness :
  let k := chip_of (wd (drv (snd (@startRadio heltec32_v3 _ (@sx_modem sim sim_world heltec32_v3 plain_radio) false true modem0)))) in
  ch_mod k = [spreading_of 7; bw_code 125000; coding_of 5; ldro_bit (spreading_of 7) (bw_code 125000)] /\ ch_rx k = true.
Proof.
  pose proof (@sx_radio_comes_up sim sim_world sim_sx1262 heltec32_v3 plain_radio modem0 eq_refl wired0
    ltac:(vm_compute; reflexivity)) as P.
  cbn zeta in P. destruct P as (_ & Pm & _ & _ & Pr & _). split; [exact Pm|exact Pr].
Defined.
