(* ===== verification/Sx126xTime.v ===== *)
(** * The SX1262 driver against the clock

    The driver's waits compare readings of the 32-bit millisecond counter.  Over a
    clock that advances as the platform's does, a transmission the chip completes in
    nineteen seconds is reported complete, [endPacket] gives up after twenty seconds
    and no earlier, and its poll loop ends by itself; across the wrap of the counter
    a transmission is given up at once. *)
From Stdlib Require Import Floats.SpecFloat.
From S2P Require Import Prelude Driver Boards Float Sx126x Sx126xChip.
#[local] Open Scope drv_scope.

(** ** The clock *)

(** Milliseconds a call may take, scheduling included. *)
Definition slack : Z := 10.
Definition max_airtime : Z := 19000.

(** [tick] counts milliseconds and does not wrap; [millis] reads its low 32 bits.
    [tx_end] is when the transmission started last is over. *)
Class Sx1262Clock (W : Type) `{World W} := {
  tick : W -> Z;
  tx_end : W -> option Z;
  clock_millis w : fst (millis w) = u32 (tick (snd (millis w))) /\
                   tick w <= tick (snd (millis w)) <= tick w + slack /\ tx_end (snd (millis w)) = tx_end w;
  clock_read p w : tick w <= tick (snd (digitalRead p w)) <= tick w + slack /\ tx_end (snd (digitalRead p w)) = tx_end w;
  clock_delay n w : 0 <= n -> tick w + n <= tick (delay n w) <= tick w + n + slack /\ tx_end (delay n w) = tx_end w;
  clock_spi c w : tick w <= tick (snd (spi c w)) <= tick w + slack;
  tx_end_spi op a w : op <> OP_TX_6X -> op <> OP_CLEAR_IRQ_STATUS_6X -> tx_end (snd (spi (op :: a) w)) = tx_end w;
  to_u32_exact x : 0 <= x < 2 ^ 32 -> double_to_u32 x = x
}.

(** A chip that completes what it starts: a transmission is over within
    [max_airtime], and from then on the interrupt status has the TX-done bit. *)
Class TxCompletes (W : Type) `{Sx1262Clock W} := {
  tx_start a w : exists t, tx_end (snd (spi (OP_TX_6X :: a) w)) = Some t /\ t <= tick w + max_airtime;
  tx_irq w t : tx_end w = Some t -> t <= tick w ->
               tx_done (zget 0 (drop 2 (fst (spi [OP_GET_IRQ_STATUS_6X; 0; 0; 0] w))) 1) = true
}.

(** The counter does not wrap in the [h] milliseconds after [t]. *)
Definition safe (t h : Z) : Prop := u32 t + h < 2 ^ 32.

Lemma u32_later t h t' : safe t h -> t <= t' <= t + h -> u32 t' = u32 t + (t' - t).
Proof.
  unfold safe, wrap. intros Hs Ht. change (2 ^ 32) with 4294967296 in *.
  pose proof (Z.mod_pos_bound t 4294967296 ltac:(lia)). pose proof (Z.div_mod t 4294967296 ltac:(lia)) as E.
  symmetry. apply (Z.mod_unique _ _ (t / 4294967296)); lia.
Qed.
Lemma safe_later t h t' h' : safe t h -> t <= t' -> t' + h' <= t + h -> 0 <= h' -> safe t' h'.
Proof. intros Hs Ht Hh Hp. unfold safe in *. rewrite (u32_later t h t') by (unfold safe; lia). lia. Qed.

Section Time.
Context {W : Type} `{Sx1262Clock W} `{Board} `{RadioBuild}.
Implicit Types (s : radio W).
Abbreviation now s := (tick (wd s)).

(** [takes m h]: [m] is over within [h] milliseconds, a transmission under way
    being left alone. *)
Definition takes {A} (m : M W A) (h : Z) : Prop :=
  forall s, safe (now s) h ->
  now s <= now (snd (m s)) <= now s + h /\ tx_end (wd (snd (m s))) = tx_end (wd s).

Lemma takes_ret {A} (a : A) h : 0 <= h -> takes (ret a) h.
Proof. intros Hh s _. cbn. split; [lia|reflexivity]. Qed.
Lemma takes_get {A} (f : sx126x -> A) h : 0 <= h -> takes (get f) h.
Proof. intros Hh s _. cbn. split; [lia|reflexivity]. Qed.
Lemma takes_upd f h : 0 <= h -> takes (upd f) h.
Proof. intros Hh s _. destruct s. cbn. split; [lia|reflexivity]. Qed.
Lemma takes_bind {A B} (m : M W A) (f : A -> M W B) h1 h2 h :
  takes m h1 -> (forall a, takes (f a) h2) -> 0 <= h1 -> 0 <= h2 -> h1 + h2 <= h -> takes (bind m f) h.
Proof.
  intros Hm Hf H1' H2' Hh s Hs. unfold bind.
  destruct (Hm s ltac:(eapply safe_later; [exact Hs|lia..])) as [Ht He]. destruct (m s) as [a s1]. cbn [snd] in *.
  destruct (Hf a s1 ltac:(eapply safe_later; [exact Hs|lia..])) as [Ht' He']. split; [lia|congruence].
Qed.
Lemma takes_millis : takes (call millis) slack.
Proof. intros s _. unfold call. pose proof (clock_millis (wd s)) as E. destruct (millis (wd s)). cbn in *. tauto. Qed.
Lemma takes_read p : takes (call (digitalRead p)) slack.
Proof. intros s _. unfold call. pose proof (clock_read p (wd s)) as E. destruct (digitalRead p (wd s)). exact E. Qed.
Lemma takes_spi op a : op <> OP_TX_6X -> op <> OP_CLEAR_IRQ_STATUS_6X -> takes (call (spi (op :: a))) slack.
Proof.
  intros Ho Hc s _. unfold call. pose proof (clock_spi (op :: a) (wd s)) as E.
  pose proof (tx_end_spi op a (wd s) Ho Hc) as F. destruct (spi (op :: a) (wd s)). exact (conj E F).
Qed.

(** From a reading of the clock at [T], the busy loop is over 120 ms later. *)
Lemma busy_loop_time n busy T : forall s, safe T 120 -> T <= now s <= T + 100 ->
  let s' := snd (busy_loop n busy (u32 T) s) in now s <= now s' <= T + 120 /\ tx_end (wd s') = tx_end (wd s).
Proof.
  induction n as [|n IH]; intros s Hs Ht; cbn [busy_loop]; [cbn; split; [lia|reflexivity]|].
  rewrite bind_eq. destruct (takes_read busy s) as [Hr Er]; [unfold slack; eapply safe_later; [exact Hs|lia..]|].
  set (s1 := snd (call (digitalRead busy) s)) in *. clearbody s1. unfold slack in Hr.
  destruct (fst _); [|cbn; split; [lia|exact Er]].
  rewrite bind_eq, call_eq. cbn [fst snd]. destruct (clock_millis (wd s1)) as [-> [Hm Em]]. unfold slack in Hm.
  set (w := snd (millis (wd s1))) in *. clearbody w. set (s2 := mk_device _ _ _). assert (Ew : w = wd s2) by reflexivity.
  clearbody s2. subst w.
  assert (E2 : u32 (now s2) = u32 T + (now s2 - T)) by (apply (u32_later T 120); [exact Hs|lia]). pose proof (u32_later T 120 (T + 100) Hs ltac:(lia)) as E3.
  assert (E4 : u32 (u32 T + 100) = u32 (T + 100)) by (unfold wrap; now rewrite Zplus_mod_idemp_l).
  rewrite E4. destruct (Z.leb_spec (u32 (T + 100)) (u32 (now s2))) as [Hle|Hlt].
  - cbn [snd ret]. split; [lia|congruence].
  - destruct (IH s2 Hs ltac:(lia)) as [Hi Ei]. cbn zeta in *. split; [lia|congruence].
Qed.

Lemma takes_wait : takes sx_waitOnBusy 130.
Proof.
  intros s Hs. unfold sx_waitOnBusy. rewrite bind_eq, call_eq. cbn [fst snd].
  destruct (clock_millis (wd s)) as [-> [Hm Em]]. unfold slack in Hm.
  set (w := snd (millis (wd s))) in *. clearbody w. set (s1 := mk_device _ _ _). assert (Ew : w = wd s1) by reflexivity.
  clearbody s1. subst w.
  rewrite bind_eq. cbn [get fst snd]. destruct (negb _).
  - destruct (busy_loop_time (S busy_reads) (_busy (ic s1)) (now s1) s1) as [Hb Eb];
      [eapply safe_later; [exact Hs|lia..]|lia|]. cbn zeta in *. split; [lia|congruence].
  - cbn. split; [lia|exact Em].
Qed.

Lemma takes_transfer op a : op <> OP_TX_6X -> op <> OP_CLEAR_IRQ_STATUS_6X -> takes (transfer (op :: a)) 140.
Proof.
  intros Ho Hc. eapply takes_bind; [apply takes_wait|intros _; now apply takes_spi|unfold slack; lia..].
Qed.
Lemma takes_executeOpcode op a : op <> OP_TX_6X -> op <> OP_CLEAR_IRQ_STATUS_6X -> takes (sx_executeOpcode op a) 140.
Proof. intros. eapply takes_bind; [now apply takes_transfer|intros _; now apply (takes_ret tt 0)|lia..]. Qed.
Lemma takes_register op a v : op = OP_READ_REGISTER_6X \/ op = OP_WRITE_REGISTER_6X -> takes (sx_singleTransfer op a v) 140.
Proof.
  intros Ho. unfold sx_singleTransfer. cbn [app].
  eapply takes_bind; [apply takes_transfer; destruct Ho as [-> | ->]; discriminate|intros miso; now apply (takes_ret _ 0)|lia..].
Qed.
Lemma takes_push : takes push_packet_params 430.
Proof.
  unfold push_packet_params, sx_setPacketParams.
  apply (takes_bind _ _ 0 430); [now apply takes_get|intros d|lia..].
  apply (takes_bind _ _ 140 290); [now apply takes_executeOpcode|intros _|lia..].
  apply (takes_bind _ _ 140 150); [apply takes_register; auto|intros r|lia..].
  apply (takes_bind _ _ 140 0); [apply takes_register; auto|intros _; now apply takes_ret|lia..].
Qed.

Lemma act_eq f s : act f s = (tt, mk_device (ic s) (gl s) (f (wd s))).
Proof. unfold act. now destruct s. Qed.

Lemma executeOpcode_eq op a s :
  sx_executeOpcode op a s =
  let s1 := snd (sx_waitOnBusy s) in (tt, mk_device (ic s1) (gl s1) (snd (spi (op :: a) (wd s1)))).
Proof. unfold sx_executeOpcode, transfer. rewrite !bind_eq, call_eq. reflexivity. Qed.

Lemma takes_irq_status : takes irq_status 140.
Proof.
  unfold irq_status, sx_executeOpcodeRead.
  apply (takes_bind _ _ 140 0); [|intros; now apply takes_ret|lia..].
  apply (takes_bind _ _ 140 0); [now apply takes_transfer|intros; now apply takes_ret|lia..].
Qed.

(** One look at the interrupt status does not miss a transmission that was over a
    moment ago. *)
Lemma irq_status_seen `{!TxCompletes W} s te : safe (now s) 140 -> tx_end (wd s) = Some te ->
  tx_done (fst (irq_status s)) = false -> now (snd (irq_status s)) <= te + 10.
Proof.
  intros Hs He. unfold irq_status, sx_executeOpcodeRead, transfer. rewrite !bind_eq, call_eq. cbn [fst snd ret app repeat].
  destruct (takes_wait s) as [Hw Ew]; [eapply safe_later; [exact Hs|lia..]|].
  set (s1 := snd (sx_waitOnBusy s)) in *. clearbody s1. cbn [wd ic gl].
  pose proof (clock_spi [OP_GET_IRQ_STATUS_6X; 0; 0; 0] (wd s1)) as Hc. unfold slack in Hc.
  intros Hd. destruct (Z.le_gt_cases te (now s1)) as [Hle|Hgt]; [|lia].
  rewrite (tx_irq (wd s1) te) in Hd by congruence || lia. discriminate.
Qed.

(** A reading of the clock, compared with a deadline [Td + 20000]. *)
Lemma before_deadline Td h t : safe Td h -> 20000 <= h -> Td <= t <= Td + h ->
  (u32 t <? u32 Td + LORA_MODEM_TIMEOUT_MS) = (t <? Td + 20000).
Proof.
  intros Hs Hh Ht. rewrite (u32_later Td h t Hs Ht). unfold LORA_MODEM_TIMEOUT_MS.
  destruct (Z.ltb_spec (u32 Td + (t - Td)) (u32 Td + 20000)), (Z.ltb_spec t (Td + 20000)); lia.
Qed.

(** The loop of a transmission that is over at [te]: it is left soon after. *)
Lemma tx_poll_prompt `{!TxCompletes W} Td B te n : forall s irq, safe Td 21000 -> te <= B -> B + 800 <= Td + 20000 ->
  Td <= now s <= B + 192 -> tx_end (wd s) = Some te -> (tx_done irq = false -> now s <= B + 31) ->
  let s' := snd (tx_poll n (u32 Td + LORA_MODEM_TIMEOUT_MS) irq s) in now s <= now s' <= B + 202.
Proof.
  induction n as [|n IH]; intros s irq Hs Ht Hd Hn He Hi; cbn [tx_poll]; [cbn; lia|].
  rewrite bind_eq, call_eq. cbn [fst snd]. destruct (clock_millis (wd s)) as [-> [Hm Em]]. unfold slack in Hm.
  set (w := snd (millis (wd s))) in *. clearbody w. set (s1 := mk_device _ _ _). assert (Ew : w = wd s1) by reflexivity.
  clearbody s1. subst w. destruct (_ && negb (tx_done irq)) eqn:Ec; [|cbn; lia].
  apply andb_true_iff in Ec as [_ Ec]. apply negb_true_iff in Ec. specialize (Hi Ec).
  rewrite !bind_eq, act_eq. cbn [fst snd]. pose proof (irq_status_seen s1 te) as P3.
  destruct (takes_irq_status s1) as [P1 P2]; [eapply safe_later; [exact Hs|lia..]|].
  destruct (irq_status s1) as [irq' s2]. cbn [fst snd] in *.
  specialize (P3 ltac:(eapply safe_later; [exact Hs|lia..]) ltac:(congruence)).
  destruct (clock_delay 1 (wd s2) ltac:(lia)) as [Hdl Edl]. unfold slack in Hdl.
  match goal with |- context [tx_poll n _ irq' ?x] => set (s3 := x) end.
  assert (E3 : wd s3 = delay 1 (wd s2)) by reflexivity. clearbody s3. rewrite <- E3 in *.
  specialize (IH s3 irq' Hs Ht Hd ltac:(lia) ltac:(congruence) ltac:(intros Hx; specialize (P3 Hx); lia)). cbn zeta in IH. lia.
Qed.

(** The fuel is enough: the loop ends by its own condition. *)
Lemma tx_poll_ends Td n : forall s irq, safe Td 21000 -> (0 < n)%nat -> Td <= now s <= Td + 20161 ->
  Td + 20001 - Z.of_nat n <= now s ->
  let '(r, s') := tx_poll n (u32 Td + LORA_MODEM_TIMEOUT_MS) irq s in
  exists irq', r = Some irq' /\ now s <= now s' <= Td + 20171 /\ (tx_done irq' = true \/ Td + 20000 <= now s').
Proof.
  induction n as [|n IH]; intros s irq Hs Hn Ht Hf; [lia|]. cbn [tx_poll].
  rewrite bind_eq, call_eq. cbn [fst snd]. destruct (clock_millis (wd s)) as [-> [Hm Em]]. unfold slack in Hm.
  set (w := snd (millis (wd s))) in *. clearbody w. set (s1 := mk_device _ _ _). assert (Ew : w = wd s1) by reflexivity.
  clearbody s1. subst w. rewrite (before_deadline Td 21000) by (exact Hs || lia).
  destruct (Z.ltb_spec (now s1) (Td + 20000)) as [Hlt|Hge]; cbn [andb];
    [|exists irq; cbn; split_and!; [reflexivity|lia..|right; lia]].
  destruct (tx_done irq) eqn:Ei; cbn [negb]; [exists irq; cbn; split_and!; [reflexivity|lia..|now left]|].
  rewrite !bind_eq, act_eq. cbn [fst snd].
  destruct (takes_irq_status s1) as [P1 _]; [eapply safe_later; [exact Hs|lia..]|].
  set (s2 := snd (irq_status s1)) in *. set (irq2 := fst (irq_status s1)). clearbody s2 irq2.
  destruct (clock_delay 1 (wd s2) ltac:(lia)) as [Hdl Edl]. unfold slack in Hdl.
  match goal with |- context [tx_poll n _ irq2 ?x] => set (s3 := x) end.
  assert (E3 : wd s3 = delay 1 (wd s2)) by reflexivity. clearbody s3. rewrite <- E3 in *.
  destruct n as [|n]; [lia|]. specialize (IH s3 irq2 Hs ltac:(lia) ltac:(lia) ltac:(lia)).
  destruct (tx_poll (S n) _ irq2 s3) as [r s4]. destruct IH as (irq' & -> & Hi & Hv). exists irq'. split_and!; auto; lia.
Qed.

(** What [endPacket] does up to its poll loop: [Td] is its reading of the clock and
    [irq] the status it has seen; the transmission was started in [w]. *)
Lemma endPacket_start s : safe (now s) 22000 ->
  exists Td irq s1 w, now s <= Td <= now s + 730 /\ now s1 = Td /\ safe Td 21000 /\ tick w <= Td /\
    tx_end (wd s1) = tx_end (snd (spi [OP_TX_6X; 0; 0; 0] w)) /\
    (forall (HT : TxCompletes W) te, tx_end (wd s1) = Some te -> tx_done irq = false -> Td <= te + 20) /\
    sx_endPacket s =
      (_ ← tx_poll (Z.to_nat (LORA_MODEM_TIMEOUT_MS + 1)) (u32 Td + LORA_MODEM_TIMEOUT_MS) irq;
       now ← call millis;
       sx_executeOpcode OP_CLEAR_IRQ_STATUS_6X [0x00; IRQ_TX_DONE_MASK_6X] ;;
       ret (negb (negb (now <? u32 Td + LORA_MODEM_TIMEOUT_MS)))) s1.
Proof.
  intros Hs. unfold sx_endPacket. rewrite bind_eq.
  destruct (takes_push s) as [Hp _]; [eapply safe_later; [exact Hs|lia..]|].
  set (sa := snd (push_packet_params s)) in *. clearbody sa.
  rewrite bind_eq, executeOpcode_eq. cbn [fst snd].
  destruct (takes_wait sa) as [Hw _]; [eapply safe_later; [exact Hs|lia..]|].
  set (sb := snd (sx_waitOnBusy sa)) in *. clearbody sb.
  pose proof (clock_spi [OP_TX_6X; 0; 0; 0] (wd sb)) as Hc. unfold slack in Hc.
  set (sc := mk_device _ _ _). assert (Ec : wd sc = snd (spi [OP_TX_6X; 0; 0; 0] (wd sb))) by reflexivity. clearbody sc.
  rewrite <- Ec in Hc. rewrite bind_eq.
  destruct (takes_irq_status sc) as [P1 P2]; [eapply safe_later; [exact Hs|lia..]|].
  assert (P3 : forall (HT : TxCompletes W) te, tx_end (wd sc) = Some te -> tx_done (fst (irq_status sc)) = false ->
    now (snd (irq_status sc)) <= te + 10).
  { intros HT te Ht. apply irq_status_seen; [eapply safe_later; [exact Hs|lia..]|exact Ht]. }
  destruct (irq_status sc) as [irq sd]. cbn [fst snd] in *.
  rewrite bind_eq, call_eq. cbn [fst snd]. destruct (clock_millis (wd sd)) as [-> [Hm Em]]. unfold slack in Hm.
  set (w := snd (millis (wd sd))) in *. clearbody w. set (se := mk_device _ _ w). assert (Ee : w = wd se) by reflexivity.
  clearbody se. subst w.
  assert (Hsafe : safe (now se) 21000) by (eapply safe_later; [exact Hs|lia..]).
  exists (now se), irq, se, (wd sb). split_and!; try lia; try exact Hsafe; try congruence.
  { intros HT te Ht Hx. rewrite Em, P2 in Ht. specialize (P3 HT te Ht Hx). lia. }
  rewrite to_u32_exact; [reflexivity|]. unfold safe, LORA_MODEM_TIMEOUT_MS in *. pose proof (u32_range (now se)). lia.
Qed.

(** C12. A transmission the chip completes is reported complete: when the chip takes
    at most nineteen seconds on the air, and the millisecond counter does not wrap in
    the next twenty-two, [endPacket] reports success - the time-out of
    [LORA_MODEM_TIMEOUT_MS] never interrupts it. *)
(* @prop liveness W=endPacket_completes_witness D=sx_endPacket,tx_poll,sx_waitOnBusy,sx_executeOpcodeRead,LORA_MODEM_TIMEOUT_MS *)
Theorem endPacket_completes `{!TxCompletes W} s : safe (now s) 22000 -> fst (sx_endPacket s) = true.
Proof.
  intros Hs. destruct (endPacket_start s Hs) as (Td & irq & s1 & w & HTd & E1 & Hd & Hw & He & Hi & ->).
  destruct (tx_start [0; 0; 0] w) as (te & Ete & Ht). rewrite Ete in He. specialize (Hi _ te He).
  rewrite !bind_eq. unfold max_airtime in Ht.
  pose proof (tx_poll_prompt Td (Td + 19000) te (Z.to_nat (LORA_MODEM_TIMEOUT_MS + 1)) s1 irq Hd) as P. cbn zeta in P.
  set (s2 := snd (tx_poll _ _ irq s1)) in *. clearbody s2.
  specialize (P ltac:(lia) ltac:(lia) ltac:(lia) He ltac:(intros Hx; specialize (Hi Hx); lia)).
  rewrite call_eq. cbn [fst snd]. destruct (clock_millis (wd s2)) as [-> [Hm _]]. unfold slack in Hm.
  rewrite (before_deadline Td 21000) by (exact Hd || lia). rewrite (proj2 (Z.ltb_lt _ _)) by lia.
  unfold ret. rewrite ?bind_eq. reflexivity.
Qed.

(** Whatever the chip does, [endPacket] is over within twenty-two seconds; it fails
    only when the twenty seconds of [LORA_MODEM_TIMEOUT_MS] are up, and succeeds only
    on a status with the TX-done bit. *)
Theorem endPacket_verdict s : safe (now s) 22000 ->
  let '(ok, s') := sx_endPacket s in
  now s' <= now s + 22000 /\ (ok = false -> now s + 20000 <= now s') /\
  exists Td irq s1 irq' s2, tx_poll (Z.to_nat (LORA_MODEM_TIMEOUT_MS + 1)) (u32 Td + LORA_MODEM_TIMEOUT_MS) irq s1 = (Some irq', s2) /\
    (ok = true -> tx_done irq' = true).
Proof.
  intros Hs. destruct (endPacket_start s Hs) as (Td & irq & s1 & w & HTd & E1 & Hd & _ & _ & _ & ->).
  rewrite bind_eq. pose proof (tx_poll_ends Td (Z.to_nat (LORA_MODEM_TIMEOUT_MS + 1)) s1 irq Hd) as P.
  unfold LORA_MODEM_TIMEOUT_MS at 1 2 in P. specialize (P ltac:(lia) ltac:(lia) ltac:(lia)).
  destruct (tx_poll _ _ irq s1) as [r s2] eqn:Et. destruct P as (irq' & -> & P1 & P2). cbn [fst snd].
  rewrite bind_eq, call_eq. cbn [fst snd]. destruct (clock_millis (wd s2)) as [-> [Hm _]]. unfold slack in Hm.
  set (w3 := snd (millis (wd s2))) in *. clearbody w3. set (s3 := mk_device _ _ w3). assert (E3 : w3 = wd s3) by reflexivity.
  clearbody s3. subst w3. rewrite (before_deadline Td 21000) by (exact Hd || lia).
  rewrite bind_eq, executeOpcode_eq. cbn [fst snd ret wd].
  destruct (takes_wait s3) as [Hw3 _]; [eapply safe_later; [exact Hd|lia..]|].
  set (s4 := snd (sx_waitOnBusy s3)) in *. clearbody s4.
  pose proof (clock_spi [OP_CLEAR_IRQ_STATUS_6X; 0; IRQ_TX_DONE_MASK_6X] (wd s4)) as Hc. unfold slack in Hc.
  split; [lia|]. split.
  - intros Hf. destruct (Z.ltb_spec (now s3) (Td + 20000)); [discriminate|lia].
  - exists Td, irq, s1, irq', s2. split; [exact Et|]. intros Hok.
    destruct (Z.ltb_spec (now s3) (Td + 20000)); [destruct P2; [assumption|lia]|discriminate].
Qed.

Lemma tx_poll_refused n wt irq s : (forall t, now s <= t <= now s + slack -> (u32 t <? wt) = false) ->
  now s <= now (snd (tx_poll (S n) wt irq s)) <= now s + slack.
Proof.
  intros Hr. cbn [tx_poll]. rewrite bind_eq, call_eq. cbn [fst snd]. destruct (clock_millis (wd s)) as [-> [Hm _]].
  rewrite Hr by exact Hm. exact Hm.
Qed.

(** The deadline is an absolute reading of the counter.  In the last twenty seconds
    before the wrap it lies past the largest one; where the conversion keeps its low
    32 bits, [endPacket] fails at once whatever the chip does. *)
Theorem endPacket_fails_at_wrap s :
  (forall x, double_to_u32 x = u32 x) -> safe (now s) 1000 -> 2 ^ 32 <= u32 (now s) + 20000 ->
  fst (sx_endPacket s) = false.
Proof.
  intros Hc Hs Hlate. unfold sx_endPacket. rewrite bind_eq.
  destruct (takes_push s) as [Hp _]; [eapply safe_later; [exact Hs|lia..]|].
  set (sa := snd (push_packet_params s)) in *. clearbody sa.
  rewrite bind_eq, executeOpcode_eq. cbn [fst snd].
  destruct (takes_wait sa) as [Hw _]; [eapply safe_later; [exact Hs|lia..]|].
  set (sb := snd (sx_waitOnBusy sa)) in *. clearbody sb.
  pose proof (clock_spi [OP_TX_6X; 0; 0; 0] (wd sb)) as Hsp. unfold slack in Hsp.
  set (sc := mk_device _ _ _). assert (Ec : wd sc = snd (spi [OP_TX_6X; 0; 0; 0] (wd sb))) by reflexivity. clearbody sc.
  rewrite <- Ec in Hsp. rewrite bind_eq.
  destruct (takes_irq_status sc) as [P1 _]; [eapply safe_later; [exact Hs|lia..]|].
  set (sd := snd (irq_status sc)) in *. clearbody sd.
  rewrite bind_eq, call_eq. cbn [fst snd]. destruct (clock_millis (wd sd)) as [-> [Hm _]]. unfold slack in Hm.
  set (w := snd (millis (wd sd))) in *. clearbody w. set (se := mk_device _ _ w). assert (Ee : w = wd se) by reflexivity.
  clearbody se. subst w. rewrite Hc. unfold LORA_MODEM_TIMEOUT_MS.
  assert (Edl : u32 (u32 (now se) + 20000) = u32 (now se) + 20000 - 2 ^ 32).
  { assert (u32 (now se) = u32 (now s) + (now se - now s)) by (apply (u32_later _ 1000); [exact Hs|lia]).
    pose proof (u32_range (now se)). unfold wrap at 1. symmetry. apply (Z.mod_unique _ _ 1); lia. }
  assert (Hlong : forall t, now s <= t <= now s + 1000 -> (u32 t <? u32 (now se) + 20000 - 2 ^ 32) = false).
  { intros t Ht. apply Z.ltb_ge. pose proof (u32_range (now se)).
    assert (u32 t = u32 (now s) + (t - now s)) by (apply (u32_later _ 1000); [exact Hs|lia]). lia. }
  rewrite Edl, bind_eq. change (Z.to_nat (20000 + 1)) with (S (Z.to_nat 20000)).
  match goal with |- context [tx_poll (S ?n) ?wt ?irq se] => pose proof (tx_poll_refused n wt irq se) as Hf; set (sf := snd (tx_poll (S n) wt irq se)) in * end.
  specialize (Hf ltac:(intros t Ht; apply Hlong; unfold slack in Ht; lia)). unfold slack in Hf. clearbody sf.
  rewrite bind_eq, call_eq. cbn [fst snd]. destruct (clock_millis (wd sf)) as [-> [Hm3 _]]. unfold slack in Hm3.
  rewrite Hlong by lia. rewrite bind_eq. reflexivity.
Qed.
End Time.

#[export, refine] Instance sim_clock : Sx1262Clock sim := { tick := sm_tick; tx_end := sm_txend }.
Proof.
  1-2: intros; cbn; unfold slack; repeat split; lia.
  - intros n [] Hn. cbn. unfold slack. repeat split; lia.
  - intros c w. cbn. unfold slack. destruct w, c as [|op a]; [cbn; lia|].
    destruct (op =? OP_TX_6X); [cbn; lia|]. destruct (op =? OP_CLEAR_IRQ_STATUS_6X); cbn; lia.
  - intros op a w Ht Hc. cbn. rewrite (proj2 (Z.eqb_neq _ _) Ht), (proj2 (Z.eqb_neq _ _) Hc). reflexivity.
  - intros x Hx. now apply u32_id.
Defined.
#[export, refine] Instance sim_completes : TxCompletes sim := {}.
Proof.
  - intros a w. exists (sm_tick w + 50). cbn. unfold max_airtime. split; [reflexivity|lia].
  - intros w t Ht Hle. cbn in Ht, Hle. transitivity (tx_done (sim_irq w)); [reflexivity|].
    unfold sim_irq. rewrite Ht, (proj2 (Z.leb_le _ _) Hle). unfold tx_done, IRQ_TX_DONE_MASK_6X.
    apply negb_true_iff, Z.eqb_neq. intros E. apply (f_equal (fun z => Z.testbit z 0)) in E.
    rewrite Z.land_spec, Z.lor_spec, orb_true_r in E. discriminate.
Defined.

Lemma endPacket_completes_witness :
  fst (sx_endPacket radio0) = true.
Proof.
  apply endPacket_completes. vm_compute. reflexivity.
Defined.
