(* ===== verification/Sx126xSense.v ===== *)
(** * What the SX1262 driver computes and reports

    The values the driver works out - bandwidth codes, low-data-rate optimisation,
    sync-word registers, signal strength - and what it tells the firmware: packets
    read back byte for byte, and a carrier detector that does not stay wedged. *)
From Stdlib Require Import Floats.SpecFloat.
From stdpp Require Import gmap.
From S2P Require Import Prelude Driver Boards Float Sx126x Sx126xChip Sx126xTime.
#[local] Open Scope drv_scope.

(** ** Bandwidth *)

Definition bandwidths : list Z := [7800; 10400; 15600; 20800; 31250; 41700; 62500; 125000; 250000; 500000].

(** Setting a bandwidth selects the narrowest the chip has that is at least as
    wide, or the widest; what is read back is that bandwidth, and setting it again
    changes nothing. *)
Theorem bandwidth_rounds_up (sbw : Z) :
  let b := bandwidth_of (bw_code sbw) in
  In b bandwidths /\ bw_code b = bw_code sbw /\
  (sbw <= 500000 -> sbw <= b /\ (forall c, In c bandwidths -> sbw <= c -> b <= c)) /\
  (500000 < sbw -> b = 500000).
Proof.
  cbn zeta. remember (bw_code sbw) as x eqn:Ex. unfold bw_code in Ex.
  repeat match type of Ex with context [sbw <=? ?y] => destruct (Z.leb_spec sbw y) end; subst x;
    (split; [vm_compute; tauto|]); (split; [reflexivity|]); (split; [|intros; cbn; lia]);
    (intros; split; [cbn; lia|]; intros c Hc Hle; cbn in Hc |- *;
     repeat (destruct Hc as [Hc|Hc]; [lia|]); contradiction).
Qed.

(** ** Low data rate *)

(** The optimisation is on exactly when a symbol lasts more than 16 ms and not
    exactly 16.384 ms.  The comparison is on whole milliseconds, so the symbols of
    16.384 ms - spreading factor 11 at 125 kHz, and the four combinations like it -
    are left without it. *)
Theorem ldro_exact :
  forallb (fun sf => forallb (fun bw =>
    Bool.eqb (ldro_of sf bw) ((16 * bw <? 2 ^ sf * 1000) && negb (2 ^ sf * 1000000 =? 16384 * bw))) bandwidths)
    [5; 6; 7; 8; 9; 10; 11; 12] = true /\
  ldro_of 11 125000 = false /\ 16 * 125000 < 2 ^ 11 * 1000.
Proof. split; [vm_compute; reflexivity|split; [reflexivity|lia]]. Qed.

(** ** Sync word *)

(** A raw sync word goes to the registers with the control nibble 4 below each
    of its nibbles, so it can be recovered; the register value itself, handed back to
    the setter, is passed through unchanged; and the default 0x12 is 0x1424. *)
Theorem sync_word_encoding (sw : Z) : 0 <= sw < 256 ->
  let '(msb, lsb) := sync_bytes sw in
  is_u8 msb /\ is_u8 lsb /\ Z.land msb 0x0F = 4 /\ Z.land lsb 0x0F = 4 /\
  16 * Z.shiftr msb 4 + Z.shiftr lsb 4 = sw /\ sync_bytes (of_be16 msb lsb) = (msb, lsb).
Proof.
  intros Hs.
  pose proof (u8_forallb (fun sw => let '(msb, lsb) := sync_bytes sw in let '(m2, l2) := sync_bytes (of_be16 msb lsb) in
    is_u8b msb && is_u8b lsb && (Z.land msb 0x0F =? 4) && (Z.land lsb 0x0F =? 4) &&
    (16 * Z.shiftr msb 4 + Z.shiftr lsb 4 =? sw) && (m2 =? msb) && (l2 =? lsb)) ltac:(vm_compute; reflexivity) sw Hs) as P.
  cbv beta in P. destruct (sync_bytes sw) as [msb lsb]. destruct (sync_bytes (of_be16 msb lsb)) as [m2 l2].
  rewrite !andb_true_iff, !Z.eqb_eq in P. unfold is_u8b, is_u8 in *. rewrite !andb_true_iff, !Z.leb_le, !Z.ltb_lt in P.
  intuition congruence.
Qed.
Example default_sync_word : sync_bytes 0x12 = (0x14, 0x24) /\ sync_bytes 0x1424 = (0x14, 0x24).
Proof. split; reflexivity. Qed.

(** ** Signal strength *)

(** A transaction leaves the object and the globals alone. *)
Section Frame.
Context {W : Type} `{World W}.
Implicit Types (s : radio W).
Lemma busy_loop_frame n busy time : forall s,
  ic (snd (busy_loop n busy time s)) = ic s /\ gl (snd (busy_loop n busy time s)) = gl s.
Proof.
  induction n as [|n IH]; intros s; cbn [busy_loop]; [split; reflexivity|].
  rewrite bind_eq, call_eq. cbn [fst snd]. destruct (fst _); [|split; reflexivity].
  rewrite bind_eq, call_eq. cbn [fst snd]. destruct (_ <=? _); [split; reflexivity|].
  match goal with |- context [busy_loop n busy time ?x] => destruct (IH x) as [-> ->] end. split; reflexivity.
Qed.
Lemma transfer_frame c s : ic (snd (transfer c s)) = ic s /\ gl (snd (transfer c s)) = gl s.
Proof.
  unfold transfer, sx_waitOnBusy. rewrite !bind_eq, !call_eq. cbn [fst snd ic gl get].
  destruct (negb _); cbn [fst snd ic gl ret]; [|split; reflexivity].
  match goal with |- context [busy_loop ?n ?b ?t ?x] => destruct (busy_loop_frame n b t x) as [-> ->] end. split; reflexivity.
Qed.
End Frame.

(** On a board with a front-end amplifier the two readings of the packet strength
    differ by its gain: the one [receive_callback] uses on ESP32 leaves it in. *)
Theorem packet_rssi_overloads {W} `{World W} `{RadioBuild} (snr : Z) (s : radio W) :
  HAS_LORA_LNA = true ->
  fst (sx_packetRssi_snr snr s) = fst (sx_packetRssi s) + lora_lna_gain (gl s).
Proof.
  intros Hl. unfold sx_packetRssi_snr, sx_packetRssi. rewrite Hl, !bind_eq. cbn [getg fst snd ret].
  unfold packet_status, sx_executeOpcodeRead. rewrite !bind_eq. cbn [fst snd ret].
  rewrite (proj2 (transfer_frame _ s)). lia.
Qed.

(** ** Reading a packet *)

(** While no packet arrives, the chip only changes by the commands it is given;
    [rx_status] is the length and place of the packet received last. *)
Class QuietAir (W : Type) `{Sx1262 W} := {
  rx_status : W -> Z * Z;
  quiet_spi c w : chip_of (snd (spi c w)) = chip_step c (chip_of w) /\ responds c (chip_of w) (fst (spi c w)) /\
                  rx_status (snd (spi c w)) = rx_status w;
  quiet_status w : drop 2 (fst (spi [OP_RX_BUFFER_STATUS_6X; 0; 0; 0] w)) = [fst (rx_status w); snd (rx_status w)];
  quiet_millis w : chip_of (snd (millis w)) = chip_of w /\ rx_status (snd (millis w)) = rx_status w;
  quiet_read p w : chip_of (snd (digitalRead p w)) = chip_of w /\ rx_status (snd (digitalRead p w)) = rx_status w
}.

Section Reading.
Context {W : Type} `{QuietAir W}.
Implicit Types (s : radio W).

Fixpoint read_n (k : nat) : M W (list Z) :=
  match k with O => ret [] | S k => b ← sx_read; bs ← read_n k; ret (b :: bs) end.

(** Everything but the clock is as it was. *)
Record same s s' : Prop := {
  same_chip : chip_of (wd s') = chip_of (wd s); same_status : rx_status (wd s') = rx_status (wd s);
  same_ic : ic s' = ic s
}.
Lemma busy_loop_same n busy time : forall s, same s (snd (busy_loop n busy time s)).
Proof.
  induction n as [|n IH]; intros s; cbn [busy_loop]; [split; reflexivity|].
  rewrite bind_eq, call_eq. cbn [fst snd]. destruct (quiet_read busy (wd s)) as [E1 E2].
  destruct (fst _); [|split; assumption || reflexivity].
  rewrite bind_eq, call_eq. cbn [fst snd wd ic gl]. destruct (quiet_millis (snd (digitalRead busy (wd s)))) as [E3 E4].
  destruct (_ <=? _); [split; cbn; congruence|].
  match goal with |- context [busy_loop n busy time ?x] => destruct (IH x) as [F1 F2 F3] end.
  cbn in *. split; congruence.
Qed.
Lemma wait_same s : same s (snd (sx_waitOnBusy s)).
Proof.
  unfold sx_waitOnBusy. rewrite bind_eq, call_eq. cbn [fst snd]. destruct (quiet_millis (wd s)) as [E1 E2].
  rewrite bind_eq. cbn [get fst snd ic]. destruct (negb _); [|split; assumption || reflexivity].
  match goal with |- context [busy_loop ?n ?b ?t ?x] => destruct (busy_loop_same n b t x) as [F1 F2 F3] end.
  cbn in *. split; congruence.
Qed.

(** A transaction that only asks. *)
Lemma ask c s : chip_step c (chip_of (wd s)) = chip_of (wd s) ->
  same s (snd (transfer c s)) /\ responds c (chip_of (wd s)) (fst (transfer c s)) /\
  exists w, rx_status w = rx_status (wd s) /\ fst (transfer c s) = fst (spi c w).
Proof.
  intros Hc. unfold transfer. rewrite bind_eq, call_eq. cbn [fst snd]. destruct (wait_same s) as [E1 E2 E3].
  destruct (quiet_spi c (wd (snd (sx_waitOnBusy s)))) as (F1 & F2 & F3). split; [|split].
  - split; cbn; congruence.
  - now rewrite E1 in F2.
  - eexists. split; [exact E2|reflexivity].
Qed.
Lemma available_same s : same s (snd (sx_available s)) /\ fst (sx_available s) = fst (rx_status (wd s)) - _packetIndex (ic s).
Proof.
  unfold sx_available, sx_executeOpcodeRead. rewrite !bind_eq. cbn [get fst snd ret app repeat].
  destruct (ask [OP_RX_BUFFER_STATUS_6X; 0; 0; 0] s eq_refl) as (E & _ & w & Ew & Ef). split; [exact E|].
  rewrite Ef, quiet_status, Ew, (same_ic _ _ E). reflexivity.
Qed.
Lemma same_trans a b c : same a b -> same b c -> same a c.
Proof. intros [] []. split; congruence. Qed.

(** Between two reads: [i] bytes of the packet have been handed out. *)
Record at_byte (k : chip) (n p i : Z) s : Prop := {
  at_chip : chip_of (wd s) = k; at_status : rx_status (wd s) = (n, p); at_index : _packetIndex (ic s) = i;
  at_packet : 0 < i -> exists rest, _packet (ic s) = fifo_slice (ch_fifo k) p (Z.to_nat n) ++ rest
}.

Lemma fetch_spec k n p i s : at_byte k n p i s -> is_u8 p -> 0 <= i ->
  let s' := snd (fetch_packet s) in
  at_byte k n p i s' /\ exists rest, _packet (ic s') = fifo_slice (ch_fifo k) p (Z.to_nat n) ++ rest.
Proof.
  intros [Hk Hr Hi Hp] Hu H0'. cbn zeta. unfold fetch_packet. rewrite bind_eq. cbn [get fst snd]. rewrite Hi.
  destruct (Z.eqb_spec i 0) as [->|Hne]; cbn [when]; [|split; [split; assumption|apply Hp; lia]].
  unfold sx_executeOpcodeRead, sx_readBuffer. rewrite !bind_eq. cbn [get fst snd ret app repeat].
  destruct (ask [OP_RX_BUFFER_STATUS_6X; 0; 0; 0] s eq_refl) as ([E1 E2 E3] & _ & w & Ew & Ef).
  rewrite !upd_eq. cbn [fst snd ic gl wd]. rewrite Ef, quiet_status, Ew, Hr. cbn [fst snd].
  change (zget 0 [n; p] 0) with n. change (zget 0 [n; p] 1) with p. set (s1 := snd (transfer _ s)) in *. clearbody s1.
  cbn [_fifo_rx_addr_ptr]. set (s2 := mk_device _ _ (wd s1)).
  match goal with |- context [transfer ?c s2] => destruct (ask c s2 eq_refl) as ([G1 G2 G3] & G4 & _) end.
  pose proof (responds_fifo _ _ _ G4 (u8 p) (Z.to_nat n) eq_refl) as Eb.
  set (r := transfer _ s2) in *. assert (Hw2 : wd s2 = wd s1) by reflexivity.
  assert (Hi2 : _packetIndex (ic s2) = 0) by (unfold s2; cbn; now rewrite E3).
  clearbody r s2. cbn [ret fst snd wd ic]. rewrite Eb, Hw2, E1, Hk, u8_id by exact Hu.
  destruct r as [bs s3]. cbn [fst snd] in *. split; [|eexists; cbn; reflexivity].
  split; cbn [wd ic _packetIndex _packet]; [congruence|congruence| |intros; lia].
  rewrite G3. transitivity (_packetIndex (ic s2)); [now destruct (ic s2)|exact Hi2].
Qed.

Lemma read_byte k n p i s : at_byte k n p i s -> is_u8 p -> 0 <= i < n ->
  at_byte k n p (i + 1) (snd (sx_read s)) /\
  fst (sx_read s) = zget 0 (fifo_slice (ch_fifo k) p (Z.to_nat n)) i.
Proof.
  intros Ha Hu Hi. unfold sx_read. rewrite bind_eq. destruct (available_same s) as [[E1 E2 E3] Ev].
  rewrite Ev, (at_status _ _ _ _ _ Ha), (at_index _ _ _ _ _ Ha). cbn [fst]. rewrite (proj2 (Z.eqb_neq (n - i) 0)) by lia.
  set (s1 := snd (sx_available s)) in *. clearbody s1.
  assert (Ha1 : at_byte k n p i s1) by (destruct Ha; split; congruence || (intros; rewrite E3; auto)).
  rewrite bind_eq. destruct (fetch_spec k n p i s1 Ha1 Hu ltac:(lia)) as [[F1 F2 F3 _] [rest F5]].
  set (s2 := snd (fetch_packet s1)) in *. clearbody s2.
  rewrite bind_eq. cbn [get fst snd]. rewrite bind_eq, upd_eq. cbn [fst snd ret]. rewrite F3, F5. split.
  - split; cbn [wd ic]; [exact F1|exact F2|destruct (ic s2); cbn in *; lia|]. intros _. exists rest. rewrite <- F5. now destruct (ic s2).
  - unfold zget. rewrite lookup_app_l by (rewrite fifo_slice_len; lia). reflexivity.
Qed.

Lemma read_rest k n p m : forall i s, at_byte k n p i s -> is_u8 p -> 0 <= i -> i + Z.of_nat m <= n ->
  let '(bs, s') := read_n m s in
  bs = take m (drop (Z.to_nat i) (fifo_slice (ch_fifo k) p (Z.to_nat n))) /\ at_byte k n p (i + Z.of_nat m) s'.
Proof.
  induction m as [|m IH]; intros i s Ha Hu Hi Hm; cbn [read_n]; [cbn; rewrite Z.add_0_r; auto|].
  rewrite bind_eq. destruct (read_byte k n p i s Ha Hu ltac:(lia)) as [Ha1 ->].
  set (s1 := snd (sx_read s)) in *. clearbody s1. rewrite bind_eq. specialize (IH (i + 1) s1 Ha1 Hu ltac:(lia) ltac:(lia)).
  destruct (read_n m s1) as [bs s2]. cbn [fst snd ret]. destruct IH as [-> Ha2].
  replace (i + Z.of_nat (S m)) with (i + 1 + Z.of_nat m) by lia. split; [|exact Ha2].
  set (l := fifo_slice _ _ _). assert (Hl : (Z.to_nat i < length l)%nat) by (unfold l; rewrite fifo_slice_len; lia).
  destruct (lookup_lt_is_Some_2 l _ Hl) as [x Hx]. rewrite (drop_S l x (Z.to_nat i)) by exact Hx. cbn [take]. unfold zget. rewrite Hx.
  now replace (Z.to_nat (i + 1)) with (S (Z.to_nat i)) by lia.
Qed.

(** What arrived is what is read: after the interrupt handler has rewound the
    reader, as many reads as the packet is long return the bytes the chip received,
    in order, and the next one reports the end. *)
Theorem packet_read_back n p s :
  rx_status (wd s) = (n, p) -> 0 <= n <= 255 -> is_u8 p -> _packetIndex (ic s) = 0 ->
  let '(bs, s') := read_n (Z.to_nat n) s in
  bs = fifo_slice (ch_fifo (chip_of (wd s))) p (Z.to_nat n) /\ fst (sx_read s') = -1.
Proof.
  intros Hr Hn Hu Hi.
  pose proof (read_rest (chip_of (wd s)) n p (Z.to_nat n) 0 s) as P.
  specialize (P ltac:(split; auto; lia) Hu ltac:(lia) ltac:(lia)). destruct (read_n _ s) as [bs s']. destruct P as [-> Ha].
  split; [cbn [Z.to_nat drop]; apply take_ge; now rewrite fifo_slice_len|].
  unfold sx_read. rewrite bind_eq. destruct (available_same s') as [_ Ev]. rewrite Ev.
  rewrite (at_status _ _ _ _ _ Ha), (at_index _ _ _ _ _ Ha). cbn [fst]. rewrite (proj2 (Z.eqb_eq _ 0)) by lia. reflexivity.
Qed.
End Reading.

(** ** Carrier detection *)

Section Carrier.
Context {W : Type} `{World W} `{Board} `{RadioBuild}.
Implicit Types (s : radio W).

(** Programs that leave the globals alone. *)
Definition gl_kept {A} (m : M W A) : Prop := forall s, gl (snd (m s)) = gl s.
Lemma kept_bind {A B} (m : M W A) (f : A -> M W B) : gl_kept m -> (forall a, gl_kept (f a)) -> gl_kept (bind m f).
Proof. intros Hm Hf s. rewrite bind_eq. now rewrite Hf, Hm. Qed.
Lemma kept_when b m : gl_kept m -> gl_kept (when b m).
Proof. destruct b; [auto|intros _ s; reflexivity]. Qed.
Lemma kept_upd f : gl_kept (upd f).
Proof. intros s. now destruct s. Qed.
Lemma kept_act f : gl_kept (act f).
Proof. intros s. now destruct s. Qed.
Lemma kept_get {A} (f : sx126x -> A) : gl_kept (get f).
Proof. intros s. reflexivity. Qed.
Lemma kept_getg {A} (f : sx_globals -> A) : gl_kept (getg f).
Proof. intros s. reflexivity. Qed.
Lemma kept_ret {A} (a : A) : gl_kept (ret a).
Proof. intros s. reflexivity. Qed.
Lemma kept_skip : gl_kept skip.
Proof. exact (kept_ret tt). Qed.
Lemma kept_transfer c : gl_kept (transfer c).
Proof. intros s. apply transfer_frame. Qed.
#[local] Hint Resolve kept_upd kept_act kept_get kept_getg kept_ret kept_skip kept_transfer : rnode.
Ltac kept := repeat first [solve [auto with rnode] | apply kept_bind; [|intros ?] | apply kept_when
                          | match goal with |- context [if ?b then _ else _] => destruct b end].
Lemma kept_opcode o a : gl_kept (sx_executeOpcode o a).
Proof. unfold sx_executeOpcode. kept. Qed.
Lemma kept_opcode_read o n : gl_kept (sx_executeOpcodeRead o n).
Proof. unfold sx_executeOpcodeRead. kept. Qed.
Lemma kept_register o a v : gl_kept (sx_singleTransfer o a v).
Proof. unfold sx_singleTransfer. kept. Qed.
#[local] Hint Resolve kept_opcode kept_opcode_read kept_register : rnode.
Lemma kept_receive size : gl_kept (sx_receive size).
Proof.
  unfold sx_receive, pa_ctx, sx_rxAntEnable, sx_implicitHeaderMode, sx_explicitHeaderMode, push_packet_params,
    sx_setPacketParams, sx_readRegister, sx_writeRegister.
  kept.
Qed.
Lemma kept_irq : gl_kept irq_status.
Proof. unfold irq_status. kept. Qed.

(** The stamp of a latched condition: when it was first seen, 0 once it is older
    than [limit] milliseconds. *)
Definition stamp (at_ now : Z) : Z := if at_ =? 0 then now else at_.
Definition stale (limit at_ now : Z) : bool := limit <? u32 (now - stamp at_ now).

(** The two halves of the detector, on the globals. *)
Lemma dcd_header_gl hd now s :
  gl (snd (dcd_header hd now s)) =
  (gl s) <| header_detected_at := if hd && negb (stale 20000 (header_detected_at (gl s)) now)
                                  then stamp (header_detected_at (gl s)) now else 0 |>.
Proof.
  unfold dcd_header. destruct s as [d [pa gain pat hat f l] w], hd; [|reflexivity].
  rewrite !bind_eq. cbn [fst snd updg getg gl]. unfold stale, stamp, LORA_MODEM_TIMEOUT_MS. cbn.
  destruct (hat =? 0); cbn; destruct (20000 <? _); cbn [when negb andb]; rewrite ?bind_eq, ?kept_opcode; reflexivity.
Qed.
Lemma dcd_preamble_gl hd pd limit now s :
  gl (snd (dcd_preamble hd pd limit now s)) =
  (let st := stale limit (preamble_detected_at (gl s)) now in
   (gl s) <| preamble_detected_at := if pd then if st then 0 else stamp (preamble_detected_at (gl s)) now
                                     else preamble_detected_at (gl s) |>
          <| false_preamble_detected ::= orb (pd && st && negb hd) |>).
Proof.
  unfold dcd_preamble. destruct s as [d [pa gain pat hat f l] w], pd; [|reflexivity].
  cbn [when]. rewrite !bind_eq. cbn [fst snd updg getg gl]. unfold stale, stamp. cbn.
  destruct (pat =? 0); cbn; destruct (limit <? _); cbn [when negb andb]; rewrite ?bind_eq, ?kept_opcode; destruct hd; reflexivity.
Qed.

(** The carrier is reported exactly while the header or the preamble bit is
    read set.  A header seen for more than twenty seconds - measured across the wrap
    of the counter - has its stamp taken back; without the header bit the stamp is 0.
    The preamble stamp is only taken back on expiry: when the bit goes away by
    itself, the stamp of the earlier preamble stays. *)
Theorem carrier_detected_exactly (pre_ms hdr_ms : Z) s :
  let irq := fst (irq_status s) in
  let now := fst (millis (wd (snd (irq_status s)))) in
  let header := negb (Z.land irq IRQ_HEADER_DET_MASK_6X =? 0) in
  let preamble := negb (Z.land irq IRQ_PREAMBLE_DET_MASK_6X =? 0) in
  let hs := header_detected_at (gl s) in let ps := preamble_detected_at (gl s) in
  let '(carrier, s') := sx_dcd pre_ms hdr_ms s in
  carrier = (header || preamble) /\
  header_detected_at (gl s') = (if header && negb (stale 20000 hs now) then stamp hs now else 0) /\
  preamble_detected_at (gl s') =
    (if preamble then if stale (u32 (pre_ms + hdr_ms)) ps now then 0 else stamp ps now else ps) /\
  false_preamble_detected (gl s') = false.
Proof.
  cbn zeta. unfold sx_dcd. rewrite bind_eq. set (irq := fst (irq_status s)). pose proof (kept_irq s) as Hg.
  set (s1 := snd (irq_status s)) in *. clearbody s1 irq. rewrite bind_eq, call_eq. cbn [fst snd].
  set (now := fst (millis (wd s1))). clearbody now.

  rewrite <- Hg. set (hd := negb (_ =? 0)). set (pd := negb (_ =? 0)). clearbody hd pd.
  set (s2 := mk_device _ _ _). assert (E2 : gl s2 = gl s1) by reflexivity. clearbody s2.
  set (limit := u32 _). clearbody limit. rewrite !bind_eq. cbn [fst snd getg ret].
  pose proof (dcd_preamble_gl hd pd limit now (snd (dcd_header hd now s2))) as Ep. rewrite dcd_header_gl, E2 in Ep.
  set (s4 := snd (dcd_preamble _ _ _ _ _)) in *. clearbody s4. split; [reflexivity|].
  assert (Et : gl (snd (when (false_preamble_detected (gl s4))
    (sx_receive 0 ;; updg (fun g => g <| false_preamble_detected := false |>)) s4)) =
    (gl s4) <| false_preamble_detected := false |>).
  { destruct (false_preamble_detected (gl s4)) eqn:Ef; cbn [when].
    - rewrite bind_eq, <- (kept_receive 0 s4). now destruct (snd (sx_receive 0 s4)).
    - destruct s4 as [d [pa gain pat hat f l] w]. cbn in Ef. now subst f. }
  rewrite Et, Ep. destruct (gl s1). cbn. auto.
Qed.
End Carrier.

(** ** The simulated chip *)

#[export, refine] Instance sim_quiet : QuietAir sim := { rx_status := sm_rx }.
Proof.
  - intros c w. split; [|split].
    + cbn. destruct c as [|op a]; [reflexivity|].
      destruct (op =? OP_TX_6X); [reflexivity|]. destruct (op =? OP_CLEAR_IRQ_STATUS_6X); reflexivity.
    + apply sim_responds.
    + cbn. destruct c as [|op a]; [reflexivity|].
      destruct (op =? OP_TX_6X); [reflexivity|]. destruct (op =? OP_CLEAR_IRQ_STATUS_6X); reflexivity.
  - reflexivity.
  - split; reflexivity.
  - split; reflexivity.
Defined.

(** The simulated chip has received a packet of five bytes at place 3 of its buffer. *)
Definition radio_rx : radio sim :=
  radio0 <| wd ::= fun w => w <| sm_rx := (5, 3) |>
                              <| sm_chip := chip_step [OP_FIFO_WRITE_6X; 3; 72; 101; 108; 108; 111] (sm_chip w) |> |>.

Lemma packet_read_back_witness :
  fifo_slice (ch_fifo (chip_of (wd radio_rx))) 3 (Z.to_nat 5) = [72; 101; 108; 108; 111] /\
  let '(bs, s') := read_n (Z.to_nat 5) radio_rx in
  bs = fifo_slice (ch_fifo (chip_of (wd radio_rx))) 3 (Z.to_nat 5) /\ fst (sx_read s') = -1.
Proof.
  split; [vm_compute; reflexivity|].
  apply (packet_read_back 5 3 radio_rx); [vm_compute; reflexivity|lia|split; lia|vm_compute; reflexivity].
Defined.

(** What the missing reset of the preamble stamp does: a preamble was seen at 1 s and
    its packet received, which clears the interrupt bits; the preamble that begins at
    9 s, less than a millisecond old, is taken for a false one, and receive mode is
    started again under it. *)
Example stale_preamble_stamp :
  let poll t irq s := snd (@sx_dcd sim sim_world heltec32_v3 plain_radio 30 40 (s <| wd ::= fun w => w <| sm_tick := t |> <| sm_irq := irq |> |>)) in
  let s1 := poll 1000 IRQ_PREAMBLE_DET_MASK_6X radio0 in
  let s2 := poll 5000 0 s1 in
  let s3 := poll 9000 IRQ_PREAMBLE_DET_MASK_6X s2 in
  preamble_detected_at (gl s1) = 1000 /\ preamble_detected_at (gl s2) = 1000 /\
  ch_rx (sm_chip (wd s2)) = false /\ ch_rx (sm_chip (wd s3)) = true /\ sm_irq (wd s3) = 0.
Proof. vm_compute. repeat split. Qed.
