(* ===== verification/Sx127x.v ===== *)
(** * The SX1276 driver (sx127x.cpp, sx127x.h)

    The older transceiver has no commands: everything is a register, and the modem's
    parameters share registers that every setter reads, changes and writes back.  The
    methods are programs over the object, the global [lora_low_datarate] and the world
    (Driver.v), with the prefix [sx7_] for [sx127x::].  The chip is in [Sx127xChip.v],
    what the driver guarantees in [Sx127xLink.v]. *)
From Stdlib Require Import Floats.SpecFloat.
From S2P Require Import Prelude Driver Float.
#[local] Open Scope drv_scope.

(** ** Constants *)

(* @src sx127x.cpp:19-55 REG_FIFO_7X *)
Definition REG_FIFO_7X : Z := 0x00.
Definition REG_OP_MODE_7X : Z := 0x01.
Definition REG_FRF_MSB_7X : Z := 0x06.
Definition REG_FRF_MID_7X : Z := 0x07.
Definition REG_FRF_LSB_7X : Z := 0x08.
Definition REG_PA_CONFIG_7X : Z := 0x09.
Definition REG_LNA_7X : Z := 0x0c.
Definition REG_FIFO_ADDR_PTR_7X : Z := 0x0d.
Definition REG_FIFO_TX_BASE_ADDR_7X : Z := 0x0e.
Definition REG_FIFO_RX_BASE_ADDR_7X : Z := 0x0f.
Definition REG_FIFO_RX_CURRENT_ADDR_7X : Z := 0x10.
Definition REG_IRQ_FLAGS_7X : Z := 0x12.
Definition REG_RX_NB_BYTES_7X : Z := 0x13.
Definition REG_MODEM_STAT_7X : Z := 0x18.
Definition REG_PKT_SNR_VALUE_7X : Z := 0x19.
Definition REG_PKT_RSSI_VALUE_7X : Z := 0x1a.
Definition REG_RSSI_VALUE_7X : Z := 0x1b.
Definition REG_MODEM_CONFIG_1_7X : Z := 0x1d.
Definition REG_MODEM_CONFIG_2_7X : Z := 0x1e.
Definition REG_PREAMBLE_MSB_7X : Z := 0x20.
Definition REG_PREAMBLE_LSB_7X : Z := 0x21.
Definition REG_PAYLOAD_LENGTH_7X : Z := 0x22.
Definition REG_MODEM_CONFIG_3_7X : Z := 0x26.
Definition REG_FREQ_ERROR_MSB_7X : Z := 0x28.
Definition REG_FREQ_ERROR_MID_7X : Z := 0x29.
Definition REG_FREQ_ERROR_LSB_7X : Z := 0x2a.
Definition REG_RSSI_WIDEBAND_7X : Z := 0x2c.
Definition REG_DETECTION_OPTIMIZE_7X : Z := 0x31.
Definition REG_HIGH_BW_OPTIMIZE_1_7X : Z := 0x36.
Definition REG_DETECTION_THRESHOLD_7X : Z := 0x37.
Definition REG_SYNC_WORD_7X : Z := 0x39.
Definition REG_HIGH_BW_OPTIMIZE_2_7X : Z := 0x3a.
Definition REG_DIO_MAPPING_1_7X : Z := 0x40.
Definition REG_VERSION_7X : Z := 0x42.
Definition REG_TCXO_7X : Z := 0x4b.
Definition REG_PA_DAC_7X : Z := 0x4d.
(* @src sx127x.cpp:57-74 MODE_LONG_RANGE_MODE_7X *)
Definition MODE_LONG_RANGE_MODE_7X : Z := 0x80.
Definition MODE_SLEEP_7X : Z := 0x00.
Definition MODE_STDBY_7X : Z := 0x01.
Definition MODE_TX_7X : Z := 0x03.
Definition MODE_RX_CONTINUOUS_7X : Z := 0x05.
Definition PA_BOOST_7X : Z := 0x80.
Definition IRQ_TX_DONE_MASK_7X : Z := 0x08.
Definition IRQ_PAYLOAD_CRC_ERROR_MASK_7X : Z := 0x20.
Definition SYNC_WORD_7X : Z := 0x12.
Definition MAX_PKT_LENGTH_7X : Z := 255.
(* @src sx127x.h:16-24 RSSI_OFFSET *)
Definition RFO_PIN_7X : Z := 0.
Definition RSSI_OFFSET_7X : Z := 157.
Definition SIG_DETECT_7X : Z := 0x01.
Definition SIG_SYNCED_7X : Z := 0x02.

(** ** State *)

(** The [int] fields hold small values; [_onReceive] is whether a callback is set. *)
(* @src sx127x.h:106-116 sx127x *)
Record sx127x := mk_sx127x {
  _ss : Z; _reset : Z; _dio0 : Z; _busy : Z;
  _frequency : Z; _packetIndex : Z; _implicitHeaderMode : Z;
  _preinit_done : bool; _onReceive : bool
}.
(** The driver and the global [lora_low_datarate]. *)
Abbreviation radio7 := (device sx127x bool).
Abbreviation M7 := (prog sx127x bool).

Section Driver.
Context {W : Type} `{World W}.
Implicit Types (s : radio7 W).

(** ** Transactions *)

(* @src sx127x.cpp:133-144 singleTransfer *)
Definition sx7_singleTransfer (address value : Z) : M7 W Z :=
  response ← call (spi [address; value]); ret (zget 0 response 1).
(* @src sx127x.cpp:95-95 readRegister *)
Definition sx7_readRegister (address : Z) : M7 W Z := sx7_singleTransfer (Z.land address 0x7f) 0x00.
(** [value] is a [uint8_t]: callers convert. *)
(* @src sx127x.cpp:96-96 writeRegister *)
Definition sx7_writeRegister (address value : Z) : M7 W unit :=
  _ ← sx7_singleTransfer (Z.lor address 0x80) value; skip.
(** The setters that change some bits of a register. *)
Definition modify (address : Z) (f : Z -> Z) : M7 W unit :=
  r ← sx7_readRegister address; sx7_writeRegister address (u8 (f r)).

(* @src sx127x.cpp:97-105 standby *)
Definition sx7_standby : M7 W unit := sx7_writeRegister REG_OP_MODE_7X (Z.lor MODE_LONG_RANGE_MODE_7X MODE_STDBY_7X).
Definition sx7_sleep : M7 W unit := sx7_writeRegister REG_OP_MODE_7X (Z.lor MODE_LONG_RANGE_MODE_7X MODE_SLEEP_7X).
Definition sx7_setSyncWord (sw : Z) : M7 W unit := sx7_writeRegister REG_SYNC_WORD_7X (u8 sw).
Definition sx7_enableCrc : M7 W unit := modify REG_MODEM_CONFIG_2_7X (fun r => Z.lor r 0x04).
Definition sx7_disableCrc : M7 W unit := modify REG_MODEM_CONFIG_2_7X (fun r => Z.land r 0xfb).
Definition sx7_enableTCXO : M7 W unit := modify REG_TCXO_7X (fun r => Z.lor r 0x10).
Definition sx7_disableTCXO : M7 W unit := modify REG_TCXO_7X (fun r => Z.land r 0xEF).
Definition sx7_explicitHeaderMode : M7 W unit :=
  upd (fun d => d <| _implicitHeaderMode := 0 |>) ;; modify REG_MODEM_CONFIG_1_7X (fun r => Z.land r 0xfe).
Definition sx7_implicitHeaderMode : M7 W unit :=
  upd (fun d => d <| _implicitHeaderMode := 1 |>) ;; modify REG_MODEM_CONFIG_1_7X (fun r => Z.lor r 0x01).
(* @src sx127x.cpp:106-106 random *)
Definition sx7_random : M7 W Z := sx7_readRegister REG_RSSI_WIDEBAND_7X.

(** ** Parameters of the modem *)

(** 2^19 steps make the 32 MHz of the crystal. *)
(* @src sx127x.cpp:368-371 setFrequency *)
Definition frf_of (frequency : Z) : Z := u32 (Z.shiftl (u32 frequency) 19 / 32000000).
(* @src sx127x.cpp:384-386 getFrequency *)
Definition frequency_of (frf : Z) : Z := u32 (Z.shiftr (frf * 32000000) 19).
(* @src sx127x.cpp:379-389 getFrequency *)
Definition sx7_getFrequency : M7 W Z :=
  msb ← sx7_readRegister REG_FRF_MSB_7X;
  mid ← sx7_readRegister REG_FRF_MID_7X;
  lsb ← sx7_readRegister REG_FRF_LSB_7X;
  ret (frequency_of (Z.lor (Z.lor (Z.shiftl msb 16) (Z.shiftl mid 8)) lsb)).
(** The errata for 500 kHz. *)
(* @src sx127x.cpp:480-493 optimizeModemSensitivity *)
Definition sx7_optimizeModemSensitivity : M7 W unit :=
  r ← sx7_readRegister REG_MODEM_CONFIG_1_7X;
  freq ← sx7_getFrequency;
  let bw := Z.shiftr r 4 in
  if (bw =? 9) && (410000000 <=? freq) && (freq <=? 525000000) then
    sx7_writeRegister REG_HIGH_BW_OPTIMIZE_1_7X 0x02 ;; sx7_writeRegister REG_HIGH_BW_OPTIMIZE_2_7X 0x7f
  else if (bw =? 9) && (820000000 <=? freq) && (freq <=? 1020000000) then
    sx7_writeRegister REG_HIGH_BW_OPTIMIZE_1_7X 0x02 ;; sx7_writeRegister REG_HIGH_BW_OPTIMIZE_2_7X 0x64
  else sx7_writeRegister REG_HIGH_BW_OPTIMIZE_1_7X 0x03.
(* @src sx127x.cpp:368-377 setFrequency *)
Definition sx7_setFrequency (frequency : Z) : M7 W unit :=
  upd (fun d => d <| _frequency := frequency |>) ;;
  let frf := frf_of frequency in
  sx7_writeRegister REG_FRF_MSB_7X (u8 (Z.shiftr frf 16)) ;;
  sx7_writeRegister REG_FRF_MID_7X (u8 (Z.shiftr frf 8)) ;;
  sx7_writeRegister REG_FRF_LSB_7X (u8 (Z.shiftr frf 0)) ;;
  sx7_optimizeModemSensitivity.

(* @src sx127x.cpp:407-422 getSignalBandwidth *)
Definition bandwidth_of7 (bw : Z) : Z :=
  if bw =? 0 then 7800 else if bw =? 1 then 10400 else if bw =? 2 then 15600 else if bw =? 3 then 20800
  else if bw =? 4 then 31250 else if bw =? 5 then 41700 else if bw =? 6 then 62500 else if bw =? 7 then 125000
  else if bw =? 8 then 250000 else if bw =? 9 then 500000 else 0.
Definition sx7_getSignalBandwidth : M7 W Z :=
  r ← sx7_readRegister REG_MODEM_CONFIG_1_7X; ret (bandwidth_of7 (Z.shiftr r 4)).
(** Whole milliseconds per symbol, compared with 16.  The quotient is undefined for
    the codes [bandwidth_of7] does not know, which no setter writes. *)
(* @src sx127x.cpp:467-469 handleLowDataRate *)
Definition ldro_of7 (sf bandwidth : Z) : bool := 16 <? Z.quot (Z.shiftl 1 sf) (Z.quot bandwidth 1000).
(* @src sx127x.cpp:466-478 handleLowDataRate *)
Definition sx7_handleLowDataRate : M7 W unit :=
  r ← sx7_readRegister REG_MODEM_CONFIG_2_7X;
  bandwidth ← sx7_getSignalBandwidth;
  if ldro_of7 (Z.shiftr r 4) bandwidth then
    sx7_writeRegister REG_MODEM_CONFIG_3_7X (Z.lor (Z.shiftl 1 3) (Z.shiftl 1 2)) ;; updg (fun _ => true)
  else sx7_writeRegister REG_MODEM_CONFIG_3_7X (Z.shiftl 1 2) ;; updg (fun _ => false).

Definition clamp (lo hi x : Z) : Z := if x <? lo then lo else if hi <? x then hi else x.
(* @src sx127x.cpp:391-405 setSpreadingFactor *)
Definition sx7_setSpreadingFactor (sf : Z) : M7 W unit :=
  let sf := clamp 6 12 sf in
  (if sf =? 6 then sx7_writeRegister REG_DETECTION_OPTIMIZE_7X 0xc5 ;; sx7_writeRegister REG_DETECTION_THRESHOLD_7X 0x0c
   else sx7_writeRegister REG_DETECTION_OPTIMIZE_7X 0xc3 ;; sx7_writeRegister REG_DETECTION_THRESHOLD_7X 0x0a) ;;
  modify REG_MODEM_CONFIG_2_7X (fun r => Z.lor (Z.land r 0x0f) (Z.land (Z.shiftl sf 4) 0xf0)) ;;
  sx7_handleLowDataRate.
(* @src sx127x.cpp:424-446 setSignalBandwidth *)
Definition bw_code7 (sbw : Z) : Z :=
  if sbw <=? 7800 then 0 else if sbw <=? 10400 then 1 else if sbw <=? 15600 then 2 else if sbw <=? 20800 then 3
  else if sbw <=? 31250 then 4 else if sbw <=? 41700 then 5 else if sbw <=? 62500 then 6 else if sbw <=? 125000 then 7
  else if sbw <=? 250000 then 8 else 9.
(* @src sx127x.cpp:424-451 setSignalBandwidth *)
Definition sx7_setSignalBandwidth (sbw : Z) : M7 W unit :=
  modify REG_MODEM_CONFIG_1_7X (fun r => Z.lor (Z.land r 0x0f) (Z.shiftl (bw_code7 sbw) 4)) ;;
  sx7_handleLowDataRate ;; sx7_optimizeModemSensitivity.
(* @src sx127x.cpp:453-458 setCodingRate4 *)
Definition sx7_setCodingRate4 (denominator : Z) : M7 W unit :=
  let cr := clamp 5 8 denominator - 4 in
  modify REG_MODEM_CONFIG_1_7X (fun r => Z.lor (Z.land r 0xf1) (Z.shiftl cr 1)).
(* @src sx127x.cpp:460-464 setPreambleLength *)
Definition sx7_setPreambleLength (preamble_symbols : Z) : M7 W unit :=
  let length := preamble_symbols - 4 in
  sx7_writeRegister REG_PREAMBLE_MSB_7X (u8 (Z.shiftr length 8)) ;;
  sx7_writeRegister REG_PREAMBLE_LSB_7X (u8 (Z.shiftr length 0)).
(* @src sx127x.cpp:348-364 setTxPower *)
Definition sx7_setTxPower (level outputPin : Z) : M7 W unit :=
  if RFO_PIN_7X =? outputPin then
    let level := clamp 0 14 level in
    sx7_writeRegister REG_PA_DAC_7X 0x84 ;; sx7_writeRegister REG_PA_CONFIG_7X (u8 (Z.lor 0x70 level))
  else
    let level := clamp 2 17 level in
    sx7_writeRegister REG_PA_DAC_7X 0x84 ;; sx7_writeRegister REG_PA_CONFIG_7X (u8 (Z.lor PA_BOOST_7X (level - 2))).
(** The whole register, not the level. *)
(* @src sx127x.cpp:366-366 getTxPower *)
Definition sx7_getTxPower : M7 W Z := sx7_readRegister REG_PA_CONFIG_7X.

(** ** Start and end *)

(* @src sx127x.cpp:84-84 setPins *)
Definition sx7_setPins (ss reset dio0 busy : Z) : M7 W unit :=
  upd (fun d => d <| _ss := ss |> <| _reset := reset |> <| _dio0 := dio0 |> <| _busy := busy |>).
(* @src sx127x.cpp:86-94 reset *)
Definition sx7_reset : M7 W unit :=
  reset ← get _reset;
  when (negb (reset =? -1))
    (act (pinMode reset) ;; act (digitalWrite reset LOW) ;; act (delay 10) ;;
     act (digitalWrite reset HIGH) ;; act (delay 10)).
(** Each turn lasts the 100 ms of its [delay]: six turns are enough.  The version the
    loop ends with; the variable has no initial value in the source, [version]. *)
(* @src sx127x.cpp:120-126 preInit *)
Fixpoint preinit_loop7 (fuel : nat) (start version : Z) : M7 W Z :=
  match fuel with
  | O => ret version
  | S fuel =>
      now ← call millis;
      if u32 (now - start) <? 500 then
        now ← call millis;
        if start <=? now then
          version ← sx7_readRegister REG_VERSION_7X;
          if version =? 0x12 then ret version
          else act (delay 100) ;; preinit_loop7 fuel start version
        else ret version
      else ret version
  end.
(* @src sx127x.cpp:109-131 preInit *)
Definition sx7_preInit : M7 W bool :=
  ss ← get _ss;
  act (pinMode ss) ;; act (digitalWrite ss HIGH) ;; act spi_begin ;;
  start ← call millis;
  version ← preinit_loop7 6 start 0;
  if negb (version =? 0x12) then ret false
  else upd (fun d => d <| _preinit_done := true |>) ;; ret true.
(** The configuration of a detected chip. *)
(* @src sx127x.cpp:158-173 begin *)
Definition configure7 (frequency : Z) : M7 W unit :=
  sx7_sleep ;; sx7_setFrequency frequency ;;
  sx7_writeRegister REG_FIFO_TX_BASE_ADDR_7X 0 ;; sx7_writeRegister REG_FIFO_RX_BASE_ADDR_7X 0 ;;
  modify REG_LNA_7X (fun r => Z.lor r 0x03) ;; sx7_writeRegister REG_MODEM_CONFIG_3_7X 0x04 ;;
  sx7_setSyncWord SYNC_WORD_7X ;; sx7_enableCrc ;; sx7_setTxPower 2 1 ;; sx7_standby.
(* @src sx127x.cpp:146-176 begin *)
Definition sx7_begin (frequency : Z) : M7 W bool :=
  sx7_reset ;;
  busy ← get _busy;
  when (negb (busy =? -1)) (act (pinMode busy)) ;;
  done ← get _preinit_done;
  ok ← (if (done : bool) then ret true else sx7_preInit);
  if (ok : bool) then configure7 frequency ;; ret true else ret false.
(* @src sx127x.cpp:178-178 end *)
Definition sx7_end : M7 W unit := sx7_sleep ;; act spi_end ;; upd (fun d => d <| _preinit_done := false |>).

(** ** Transmitting *)

(* @src sx127x.cpp:180-191 beginPacket *)
Definition sx7_beginPacket (implicitHeader : bool) : M7 W unit :=
  sx7_standby ;;
  (if implicitHeader then sx7_implicitHeaderMode else sx7_explicitHeaderMode) ;;
  sx7_writeRegister REG_FIFO_ADDR_PTR_7X 0 ;; sx7_writeRegister REG_PAYLOAD_LENGTH_7X 0.

(** The bytes of [buffer], one register write each. *)
Fixpoint fill_fifo (buffer : list Z) : M7 W unit :=
  match buffer with
  | [] => skip
  | b :: buffer => sx7_writeRegister REG_FIFO_7X b ;; fill_fifo buffer
  end.
(* @src sx127x.cpp:286-296 write *)
Definition sx7_write (buffer : list Z) : M7 W Z :=
  currentLength ← sx7_readRegister REG_PAYLOAD_LENGTH_7X;
  let size := zlen buffer in
  let size := if MAX_PKT_LENGTH_7X <? u32 (currentLength + size) then MAX_PKT_LENGTH_7X - currentLength else size in
  fill_fifo (take (Z.to_nat size) buffer) ;;
  sx7_writeRegister REG_PAYLOAD_LENGTH_7X (u8 (currentLength + size)) ;;
  ret size.

Definition tx_done7 (irq : Z) : bool := negb (Z.land irq IRQ_TX_DONE_MASK_7X =? 0).
(** [while ((readRegister(IRQ_FLAGS) & TX_DONE) == 0) yield()]: there is no time-out.
    [false]: the fuel ran out. *)
(* @src sx127x.cpp:197-200 endPacket *)
Fixpoint tx_wait (fuel : nat) : M7 W bool :=
  match fuel with
  | O => ret false
  | S fuel => irq ← sx7_readRegister REG_IRQ_FLAGS_7X; if tx_done7 irq then ret true else tx_wait fuel
  end.
(** [None]: the fuel ran out. *)
(* @src sx127x.cpp:193-205 endPacket *)
Definition sx7_endPacket (fuel : nat) : M7 W (option bool) :=
  sx7_writeRegister REG_OP_MODE_7X (Z.lor MODE_LONG_RANGE_MODE_7X MODE_TX_7X) ;;
  done ← tx_wait fuel;
  if (done : bool) then sx7_writeRegister REG_IRQ_FLAGS_7X IRQ_TX_DONE_MASK_7X ;; ret (Some true) else ret None.

(** ** Receiving *)

(* @src sx127x.cpp:339-346 receive *)
Definition sx7_receive (size : Z) : M7 W unit :=
  (if 0 <? size then sx7_implicitHeaderMode ;; sx7_writeRegister REG_PAYLOAD_LENGTH_7X (Z.land size 0xff)
   else sx7_explicitHeaderMode) ;;
  sx7_writeRegister REG_OP_MODE_7X (Z.lor MODE_LONG_RANGE_MODE_7X MODE_RX_CONTINUOUS_7X).
(* @src sx127x.cpp:298-298 available *)
Definition sx7_available : M7 W Z := n ← sx7_readRegister REG_RX_NB_BYTES_7X; i ← get _packetIndex; ret (n - i).
(* @src sx127x.cpp:300-304 read *)
Definition sx7_read : M7 W Z :=
  n ← sx7_available;
  if n =? 0 then ret (-1)
  else upd (fun d => d <| _packetIndex ::= fun i => i + 1 |>) ;; sx7_readRegister REG_FIFO_7X.
(* @src sx127x.cpp:306-315 peek *)
Definition sx7_peek : M7 W Z :=
  n ← sx7_available;
  if n =? 0 then ret (-1)
  else
    currentAddress ← sx7_readRegister REG_FIFO_ADDR_PTR_7X;
    b ← sx7_readRegister REG_FIFO_7X;
    sx7_writeRegister REG_FIFO_ADDR_PTR_7X (u8 currentAddress) ;; ret b.
(* @src sx127x.cpp:317-337 onReceive *)
Definition sx7_onReceive (callback : bool) : M7 W unit :=
  upd (fun d => d <| _onReceive := callback |>) ;;
  dio0 ← get _dio0;
  if callback then
    act (pinMode dio0) ;; sx7_writeRegister REG_DIO_MAPPING_1_7X 0x00 ;; act (attachInterrupt dio0)
  else act (detachInterrupt dio0).
(** [onReceive] is what the callback does with a packet of the given length. *)
(* @src sx127x.cpp:495-507 handleDio0Rise *)
Definition sx7_handleDio0Rise (onReceive : Z -> M7 W unit) : M7 W unit :=
  irqFlags ← sx7_readRegister REG_IRQ_FLAGS_7X;
  sx7_writeRegister REG_IRQ_FLAGS_7X (u8 irqFlags) ;;
  when (Z.land irqFlags IRQ_PAYLOAD_CRC_ERROR_MASK_7X =? 0) (
    upd (fun d => d <| _packetIndex := 0 |>) ;;
    implicit ← get _implicitHeaderMode;
    packetLength ← sx7_readRegister (if negb (implicit =? 0) then REG_PAYLOAD_LENGTH_7X else REG_RX_NB_BYTES_7X);
    current ← sx7_readRegister REG_FIFO_RX_CURRENT_ADDR_7X;
    sx7_writeRegister REG_FIFO_ADDR_PTR_7X current ;;
    callback ← get _onReceive;
    when callback (onReceive packetLength) ;;
    sx7_writeRegister REG_FIFO_ADDR_PTR_7X 0).

(** ** Channel state *)

(* @src sx127x.cpp:207-213 dcd *)
Definition sx7_dcd : M7 W bool :=
  status ← sx7_readRegister REG_MODEM_STAT_7X;
  ret ((Z.land status SIG_DETECT_7X =? SIG_DETECT_7X) || (Z.land status SIG_SYNCED_7X =? SIG_SYNCED_7X)).
(* @src sx127x.cpp:215-218 currentRssiRaw *)
Definition sx7_currentRssiRaw : M7 W Z := sx7_readRegister REG_RSSI_VALUE_7X.
(** The offset of the band: 157 dB above 820 MHz, 164 dB below. *)
Definition rssi_of7 (frequency raw : Z) : Z := raw - RSSI_OFFSET_7X - (if frequency <? 820000000 then 7 else 0).
(* @src sx127x.cpp:220-224 currentRssi *)
Definition sx7_currentRssi : M7 W Z :=
  raw ← sx7_readRegister REG_RSSI_VALUE_7X; frequency ← get _frequency; ret (rssi_of7 frequency raw).
(* @src sx127x.cpp:226-229 packetRssiRaw *)
Definition sx7_packetRssiRaw : M7 W Z := sx7_readRegister REG_PKT_RSSI_VALUE_7X.
(** [(int)(1.066 * pkt_rssi)] in [double]. *)
(* @src sx127x.cpp:231-246 packetRssi *)
Definition packet_rssi7 (frequency raw snr_raw : Z) : Z :=
  let pkt_rssi := rssi_of7 frequency raw in
  let pkt_snr := Z.quot (i8 snr_raw) 4 in
  if pkt_snr <? 0 then pkt_rssi + pkt_snr
  else f_trunc (f64_mul (f64_div (f64_of_Z 1066) (f64_of_Z 1000)) (f64_of_Z pkt_rssi)).
Definition sx7_packetRssi_snr (pkt_snr_raw : Z) : M7 W Z :=
  raw ← sx7_readRegister REG_PKT_RSSI_VALUE_7X; frequency ← get _frequency; ret (packet_rssi7 frequency raw pkt_snr_raw).
(* @src sx127x.cpp:248-262 packetRssi *)
Definition sx7_packetRssi : M7 W Z :=
  raw ← sx7_readRegister REG_PKT_RSSI_VALUE_7X; snr ← sx7_readRegister REG_PKT_SNR_VALUE_7X;
  frequency ← get _frequency; ret (packet_rssi7 frequency raw snr).
(* @src sx127x.cpp:264-264 packetSnrRaw *)
Definition sx7_packetSnrRaw : M7 W Z := sx7_readRegister REG_PKT_SNR_VALUE_7X.
(** In quarters of a decibel. *)
(* @src sx127x.cpp:266-266 packetSnr *)
Definition sx7_packetSnr_quarters : M7 W Z := raw ← sx7_readRegister REG_PKT_SNR_VALUE_7X; ret (i8 raw).
(** The 20 bits of the register as a signed number. *)
(* @src sx127x.cpp:269-278 packetFrequencyError *)
Definition freq_error (msb mid lsb msb_again : Z) : Z :=
  let freqError := Z.shiftl (Z.shiftl (Z.land msb 7) 8 + mid) 8 + lsb in
  if negb (Z.land msb_again 8 =? 0) then freqError - 524288 else freqError.
(* @src sx127x.cpp:268-284 packetFrequencyError *)
Definition sx7_packetFrequencyError : M7 W Z :=
  msb ← sx7_readRegister REG_FREQ_ERROR_MSB_7X; mid ← sx7_readRegister REG_FREQ_ERROR_MID_7X;
  lsb ← sx7_readRegister REG_FREQ_ERROR_LSB_7X; again ← sx7_readRegister REG_FREQ_ERROR_MSB_7X;
  bandwidth ← sx7_getSignalBandwidth;
  let f := f32_mul (f32_div (f32_mul (f32_of_Z (freq_error msb mid lsb again)) (f32_of_Z (2 ^ 24))) (f32_of_Z 32000000))
                   (f32_div (f32_of_Z bandwidth) (f32_of_Z 500000)) in
  ret (f_trunc f).
End Driver.
