(* ===== verification/Sx127xChip.v ===== *)
(** * The SX1276 as the driver sees it

    What the data sheet promises, as far as the driver relies on it: a file of 128
    registers, some of which change by themselves, a 256-byte buffer behind the first
    one, and the state each transaction reaches.  [Sx1276] states that a [World] holds
    such a chip, [Sx1276Sends] that it completes what it sends; a simulated chip
    satisfies both. *)
From S2P Require Import Prelude Driver Sx127x.
#[local] Open Scope drv_scope.

(** ** The register file *)

(** [c7_sent]: the frames sent so far. *)
Record chip7 := mk_chip7 { c7_regs : list Z; c7_fifo : list Z; c7_sent : list (list Z) }.

Definition reg (k : chip7) (a : Z) : Z := zget 0 (c7_regs k) a.
Definition set_reg (a x : Z) (k : chip7) : chip7 := k <| c7_regs ::= fun r => cell_set r a x |>.

(** Registers that only change when they are written. *)
Definition stable (a : Z) : Prop :=
  0 < a < 128 /\ a <> REG_OP_MODE_7X /\ a <> REG_LNA_7X /\ a <> REG_FIFO_RX_CURRENT_ADDR_7X /\
  a <> REG_IRQ_FLAGS_7X /\ a <> REG_RX_NB_BYTES_7X /\ ~ (REG_MODEM_STAT_7X <= a <= REG_RSSI_VALUE_7X) /\
  ~ (REG_FREQ_ERROR_MSB_7X <= a <= REG_RSSI_WIDEBAND_7X).

Definition MODE_STANDBY : Z := 0x81.
Definition MODE_TRANSMIT : Z := 0x83.
Definition MODE_RECEIVE : Z := 0x85.

(** Writing a register: the buffer, the mode and the interrupt flags are special. *)
Definition write_step (a x : Z) (k : chip7) : chip7 :=
  if a =? REG_FIFO_7X then
    let p := reg k REG_FIFO_ADDR_PTR_7X in
    (set_reg REG_FIFO_ADDR_PTR_7X (u8 (p + 1)) k) <| c7_fifo ::= fun f => cell_set f p x |>
  else if a =? REG_IRQ_FLAGS_7X then set_reg a (Z.land (reg k a) (Z.lnot x)) k
  else if (a =? REG_OP_MODE_7X) && (x =? MODE_TRANSMIT) then
    (set_reg a x k) <| c7_sent ::= fun l =>
      l ++ [fifo_slice (c7_fifo k) (reg k REG_FIFO_TX_BASE_ADDR_7X) (Z.to_nat (reg k REG_PAYLOAD_LENGTH_7X))] |>
  else set_reg a x k.
Definition read_step (a : Z) (k : chip7) : chip7 :=
  if a =? REG_FIFO_7X then set_reg REG_FIFO_ADDR_PTR_7X (u8 (reg k REG_FIFO_ADDR_PTR_7X + 1)) k else k.
Definition answer (a : Z) (k : chip7) : Z :=
  if a =? REG_FIFO_7X then zget 0 (c7_fifo k) (reg k REG_FIFO_ADDR_PTR_7X) else reg k a.
Definition chip_step7 (c : list Z) (k : chip7) : chip7 :=
  match c with
  | [a; x] => if 0x80 <=? a then write_step (a - 0x80) x k else read_step a k
  | _ => k
  end.

(** The shape of the state: sizes, and registers that hold bytes. *)
Record wf7 (k : chip7) : Prop := {
  wf_regs : length (c7_regs k) = 128%nat;
  wf_bytes : Forall is_u8 (c7_regs k);
  wf_fifo : length (c7_fifo k) = 256%nat
}.

(** What happens between transactions: volatile registers change, the buffer fills
    while receiving, and a transmission ends in standby. *)
Record drift7 (k v : chip7) : Prop := {
  dr_wf : wf7 k -> wf7 v;
  dr_stable a : stable a -> reg v a = reg k a;
  dr_mode : reg v REG_OP_MODE_7X = reg k REG_OP_MODE_7X \/
            reg k REG_OP_MODE_7X = MODE_TRANSMIT /\ reg v REG_OP_MODE_7X = MODE_STANDBY;
  dr_fifo : reg k REG_OP_MODE_7X <> MODE_RECEIVE -> c7_fifo v = c7_fifo k;
  dr_sent : c7_sent v = c7_sent k
}.

Class Sx1276 (W : Type) `{World W} := {
  chip7_of : W -> chip7;
  chip7_spi a x w : exists v, drift7 (chip7_of w) v /\ chip7_of (snd (spi [a; x] w)) = chip_step7 [a; x] v /\
                              (a < 0x80 -> zget 0 (fst (spi [a; x] w)) 1 = answer a v);
  chip7_millis w : drift7 (chip7_of w) (chip7_of (snd (millis w)));
  chip7_delay n w : drift7 (chip7_of w) (chip7_of (delay n w));
  chip7_attach p w : drift7 (chip7_of w) (chip7_of (attachInterrupt p w));
  chip7_detach p w : drift7 (chip7_of w) (chip7_of (detachInterrupt p w));
  chip7_spi_begin w : drift7 (chip7_of w) (chip7_of (spi_begin w));
  chip7_spi_end w : drift7 (chip7_of w) (chip7_of (spi_end w));
  chip7_pin p w : drift7 (chip7_of w) (chip7_of (pinMode p w));
  (** A pin may be the chip's reset. *)
  chip7_write p b w : wf7 (chip7_of w) -> wf7 (chip7_of (digitalWrite p b w))
}.

Lemma drift7_refl k : drift7 k k.
Proof. constructor; auto. Qed.
Lemma drift7_trans a b c : drift7 a b -> drift7 b c -> drift7 a c.
Proof.
  intros [] []. constructor; auto.
  - intros x Hx. rewrite dr_stable1, dr_stable0; auto.
  - unfold MODE_STANDBY, MODE_TRANSMIT in *. lia.
  - intros Hm. rewrite dr_fifo1, dr_fifo0; auto. unfold MODE_RECEIVE, MODE_STANDBY, MODE_TRANSMIT in *. lia.
  - congruence.
Qed.
#[export] Hint Resolve drift7_refl drift7_trans chip7_millis chip7_delay chip7_attach chip7_detach
  chip7_spi_begin chip7_spi_end chip7_pin : rnode.

(** ** Registers *)

Lemma reg_set_eq a x k : wf7 k -> 0 <= a < 128 -> reg (set_reg a x k) a = x.
Proof. intros [Hl _ _] Ha. unfold reg, set_reg. destruct k. cbn in *. apply zget_cell_set_eq. unfold zlen. lia. Qed.
Lemma reg_set_ne a b x k : 0 <= a -> 0 <= b -> a <> b -> reg (set_reg a x k) b = reg k b.
Proof. intros. unfold reg, set_reg. destruct k. cbn. now apply zget_cell_set_ne. Qed.
Lemma reg_u8 k a : wf7 k -> is_u8 (reg k a).
Proof.
  intros [_ Hb _]. unfold reg, zget. destruct (c7_regs k !! Z.to_nat a) as [x|] eqn:E; cbn; [|split; lia].
  now apply (Forall_lookup_1 _ _ _ _ Hb E).
Qed.
Lemma wf_set a x k : wf7 k -> is_u8 x -> wf7 (set_reg a x k).
Proof.
  intros [Hl Hb Hf] Hx. destruct k. cbn in *. constructor; cbn; [unfold cell_set; now rewrite length_insert| |exact Hf].
  apply Forall_insert; assumption.
Qed.
Lemma land_u8 r y : is_u8 r -> is_u8 (Z.land r y).
Proof.
  intros Hr. replace (Z.land r y) with (Z.land r y mod 2 ^ 8); [apply Z.mod_pos_bound; lia|].
  rewrite <- Z.land_ones, <- Z.land_assoc, (Z.land_comm y), Z.land_assoc, Z.land_ones by lia.
  change (r mod 2 ^ 8) with (u8 r). now rewrite u8_id.
Qed.
Lemma stable_ne a : stable a -> 0 <= a < 128.
Proof. unfold stable. lia. Qed.

(** An ordinary register: writing it sets it. *)
Definition plain (a : Z) : Prop := 0 < a < 128 /\ a <> REG_OP_MODE_7X /\ a <> REG_IRQ_FLAGS_7X.
Lemma write_plain a x k : plain a -> write_step a x k = set_reg a x k.
Proof.
  intros (Ha & Hm & Hi). unfold write_step, REG_FIFO_7X. rewrite (proj2 (Z.eqb_neq a 0)) by lia.
  rewrite (proj2 (Z.eqb_neq a _) Hi), (proj2 (Z.eqb_neq a _) Hm). reflexivity.
Qed.

Lemma wf_fifo_write p x k : wf7 k -> wf7 (k <| c7_fifo ::= fun f => cell_set f p x |>).
Proof. intros [Hl Hb Hf]. destruct k. constructor; cbn in *; auto. unfold cell_set. now rewrite length_insert. Qed.
Lemma wf_write a x k : wf7 k -> is_u8 x -> wf7 (write_step a x k).
Proof.
  intros Hk Hx. unfold write_step. destruct (_ =? _); [apply wf_fifo_write, wf_set, u8_is_u8; exact Hk|].
  destruct (_ =? REG_IRQ_FLAGS_7X).
  - apply wf_set; [exact Hk|]. apply land_u8, reg_u8, Hk.
  - destruct (_ && _); [|now apply wf_set]. destruct (wf_set a x k Hk Hx) as [Hl Hb Hf]. constructor; destruct k; assumption.
Qed.

Lemma wf_drift k v : drift7 k v -> wf7 k -> wf7 v.
Proof. apply dr_wf. Qed.
#[export] Hint Resolve wf_set wf_write wf_drift wf_fifo_write : rnode.
#[export] Hint Extern 5 (is_u8 _) => solve [split; vm_compute; [discriminate|reflexivity]] : rnode.

(** Which register is meant is decided by computation. *)
Ltac side := solve [unfold stable, plain; vm_compute; intuition discriminate].
Ltac regs := repeat first
  [ rewrite reg_set_eq by (solve [eauto 8 with rnode] || side) | rewrite reg_set_ne by side ].

Section Logic.
Context {W : Type} `{Sx1276 W}.
Abbreviation wp := (wp_at (O:=sx127x) (G:=bool) chip7_of).
Implicit Types (d : sx127x) (k v : chip7).

Lemma wp7_elim {A} (m : M7 W A) Q (s : radio7 W) :
  wp m Q (ic s) (chip7_of (wd s)) -> Q (fst (m s)) (ic (snd (m s))) (chip7_of (wd (snd (m s)))).
Proof. apply wp_at_elim. Qed.

(** One transaction. *)
Lemma wp_read_any a Q d k : 0 <= a < 128 -> (forall v, drift7 k v -> Q (answer a v) d (read_step a v)) -> wp (sx7_readRegister a) Q d k.
Proof.
  intros Ha Hq. apply wp_bind. intros s <- <-. unfold call.
  replace (Z.land a 0x7f) with a by (change 0x7f with (Z.ones 7); rewrite Z.land_ones, Z.mod_small by lia; reflexivity).
  destruct (chip7_spi a 0 (wd s)) as (v & Hv & Es & Er). destruct (spi [a; 0] (wd s)) as [r w]. cbn [fst snd ic wd] in *.
  intros s1 E1 E2. cbn in E1, E2 |- *. rewrite E1, E2, Es, Er by lia.
  cbn [chip_step7]. rewrite (proj2 (Z.leb_gt 0x80 a)) by lia. now apply Hq.
Qed.
Lemma wp_read a Q d k : 0 < a < 128 -> (forall v, drift7 k v -> Q (reg v a) d v) -> wp (sx7_readRegister a) Q d k.
Proof.
  intros Ha Hq. apply wp_read_any; [lia|]. intros v Hv. unfold read_step, answer, REG_FIFO_7X.
  rewrite (proj2 (Z.eqb_neq a 0)) by lia. now apply Hq.
Qed.
Lemma wp_store a x Q d k : 0 <= a < 128 -> (forall v, drift7 k v -> Q tt d (write_step a x v)) -> wp (sx7_writeRegister a x) Q d k.
Proof.
  intros Ha Hq. apply wp_bind, wp_bind. intros s <- <-. unfold call.
  assert (Ea : Z.lor a 0x80 = a + 0x80).
  { pose proof (Z.add_lor_land a 0x80) as E. change 0x80 with (Z.shiftl 1 7) in E at 2.
    enough (Z.land a (Z.shiftl 1 7) = 0) by lia. apply Z.bits_inj'. intros n Hn.
    rewrite Z.land_spec, Z.bits_0, Z.shiftl_1_l, Z.pow2_bits_eqb by lia.
    destruct (Z.eqb_spec 7 n) as [<-|]; [|apply andb_false_r].
    rewrite <- (Z.mod_small a (2 ^ 7)), Z.mod_pow2_bits_high by lia. reflexivity. }
  rewrite Ea. destruct (chip7_spi (a + 0x80) x (wd s)) as (v & Hv & Es & _).
  destruct (spi [a + 0x80; x] (wd s)) as [r w]. cbn [fst snd ic wd] in *.
  intros s1 E1 E2. cbn in E1, E2 |- *. intros s2 E3 E4. cbn. rewrite E3, E4. rewrite E1, E2, Es.
  cbn [chip_step7]. rewrite (proj2 (Z.leb_le 0x80 _)) by lia. replace (a + 0x80 - 0x80) with a by lia. now apply Hq.
Qed.
Lemma wp_write_plain a x Q d k : plain a -> (forall v, drift7 k v -> Q tt d (set_reg a x v)) -> wp (sx7_writeRegister a x) Q d k.
Proof.
  intros Ha Hq. apply wp_store; [unfold plain in Ha; lia|]. intros v Hv. rewrite write_plain by exact Ha. now apply Hq.
Qed.
(** A change of some bits: the register written is the one read. *)
Lemma wp_modify a f Q d k : stable a -> plain a ->
  (forall v, drift7 k v -> Q tt d (set_reg a (u8 (f (reg k a))) v)) -> wp (modify a f) Q d k.
Proof.
  intros Hs Ha Hq. apply wp_bind, wp_read; [unfold plain in Ha; lia|]. intros v Hv. apply wp_write_plain; [exact Ha|].
  intros u Hu. rewrite (dr_stable _ _ Hv a Hs). apply Hq. eauto with rnode.
Qed.
Lemma wp_quiet f Q d k : (forall w, drift7 (chip7_of w) (chip7_of (f w))) -> (forall v, drift7 k v -> Q tt d v) -> wp (act f) Q d k.
Proof. apply (wp_act_along chip7_of drift7). Qed.
(** A pin: the chip may be reset. *)
Lemma wp_digitalWrite p b Q d k : wf7 k -> (forall v, wf7 v -> Q tt d v) -> wp (act (digitalWrite p b)) Q d k.
Proof.
  intros Hk Hq. apply (wp_act_along chip7_of (fun k v => wf7 k -> wf7 v)); [intros; now apply chip7_write|auto].
Qed.
Lemma wp_clock Q d k : (forall t v, drift7 k v -> Q t d v) -> wp (call millis) Q d k.
Proof. apply (wp_call_along chip7_of drift7). auto with rnode. Qed.
End Logic.

(** ** A chip that completes what it sends *)

(** [countdown] is how often the interrupt flags can still be read, at most, before
    they show the end of the transmission; [polls] bounds it. *)
Class Sx1276Sends (W : Type) `{Sx1276 W} := {
  polls : nat;
  countdown : W -> option nat;
  countdown_start w : exists n, (n <= polls)%nat /\ countdown (snd (spi [REG_OP_MODE_7X + 0x80; MODE_TRANSMIT] w)) = Some n;
  countdown_poll w n : wf7 (chip7_of w) -> countdown w = Some n ->
    tx_done7 (zget 0 (fst (spi [REG_IRQ_FLAGS_7X; 0] w)) 1) = true \/
    exists m, (m < n)%nat /\ countdown (snd (spi [REG_IRQ_FLAGS_7X; 0] w)) = Some m
}.

(** ** A simulated chip *)

(** A transmission is over when the flags are read for the third time. *)
Record sim7 := mk_sim7 { s7_chip : chip7; s7_tick : Z; s7_count : option nat }.

Definition sim7_spi (c : list Z) (w : sim7) : list Z * sim7 :=
  match c with
  | [a; x] =>
      let done := (a =? REG_IRQ_FLAGS_7X) && match s7_count w with Some O => true | _ => false end in
      let v := if done then set_reg a (u8 (Z.lor (reg (s7_chip w) a) IRQ_TX_DONE_MASK_7X)) (s7_chip w) else s7_chip w in
      ([0; answer a v],
       mk_sim7 (chip_step7 c v) (s7_tick w)
         (if a =? REG_IRQ_FLAGS_7X then option_map pred (s7_count w)
          else if (a =? REG_OP_MODE_7X + 0x80) && (x =? MODE_TRANSMIT) then Some 2%nat else s7_count w))
  | _ => (repeat 0 (length c), w)
  end.
#[export] Instance sim7_world : World sim7 := {
  spi := sim7_spi;
  millis w := (u32 (s7_tick w), w);
  delay n w := w <| s7_tick ::= Z.add n |>;
  digitalRead _ w := (false, w);
  digitalWrite _ _ w := w; pinMode _ w := w; spi_begin w := w; spi_end w := w;
  attachInterrupt _ w := w; detachInterrupt _ w := w;
  double_to_u32 := u32;
  busy_reads := 0
}.

Lemma drift7_flags x k : is_u8 x -> drift7 k (set_reg REG_IRQ_FLAGS_7X x k).
Proof.
  intros Hx. constructor; [intros; now apply wf_set| |left|intros _|]; try (destruct k; reflexivity).
  - intros a Ha. apply reg_set_ne; [unfold REG_IRQ_FLAGS_7X; lia|unfold stable in Ha; lia|unfold stable in Ha; intuition congruence].
  - apply reg_set_ne; [unfold REG_IRQ_FLAGS_7X, REG_OP_MODE_7X..|unfold REG_IRQ_FLAGS_7X, REG_OP_MODE_7X]; lia.
Qed.
#[export, refine] Instance sim7_sx1276 : Sx1276 sim7 := { chip7_of := s7_chip }.
Proof.
  all: auto with rnode.
  intros a x w. cbn [spi sim7_world sim7_spi].
  destruct ((a =? REG_IRQ_FLAGS_7X) && _) eqn:E; eexists; (split; [|split; [reflexivity|reflexivity]]); [|apply drift7_refl].
  apply andb_prop in E as [Ea _]. apply Z.eqb_eq in Ea. subst a. apply drift7_flags, u8_is_u8.
Defined.
#[export, refine] Instance sim7_sends : Sx1276Sends sim7 := { polls := 2; countdown := s7_count }.
Proof.
  - intros w. exists 2%nat. split; reflexivity || lia.
  - intros w n Hw E. cbn [spi sim7_world]. unfold sim7_spi. cbn [Z.eqb Pos.eqb REG_IRQ_FLAGS_7X]. rewrite E.
    destruct n as [|n]; [left|right; exists n; split; [lia|reflexivity]].
    cbn [fst snd andb]. unfold answer, REG_FIFO_7X. change (REG_IRQ_FLAGS_7X =? 0) with false.
    set (x := Z.lor _ _). unfold zget at 1. cbn [Z.to_nat Pos.to_nat Pos.iter_op Nat.add lookup list_lookup default]. rewrite reg_set_eq by (exact Hw || (unfold REG_IRQ_FLAGS_7X; lia)).
    unfold tx_done7, IRQ_TX_DONE_MASK_7X. apply negb_true_iff, Z.eqb_neq. intros F. apply (f_equal (fun z => Z.testbit z 3)) in F.
    cbv beta in F. change (default 0 ([0; u8 x] !! Z.to_nat 1)) with (u8 x) in F. unfold wrap in F.
    rewrite Z.land_spec, Z.mod_pow2_bits_low in F by lia. unfold x in F. rewrite Z.lor_spec, orb_true_r in F. discriminate.
Defined.
