(* ===== verification/Sx127xConfig.v ===== *)
(** * The configuration of the SX1276

    The modem's parameters share registers: bandwidth, coding rate and header mode in
    one, spreading factor and CRC in another.  [config7] is what they mean; every
    setter, which reads a register, changes its bits and writes it back, implements
    one update of it, whatever else the registers hold. *)
From S2P Require Import Prelude Driver Sx127x Sx127xChip.
#[local] Open Scope drv_scope.

(** ** What the registers mean *)

Record config7 := mk_config7 {
  cf_frf : Z;                                  (* carrier, in steps of 61.03515625 Hz *)
  cf_bw : Z; cf_cr : Z; cf_header : Z;         (* ModemConfig1 *)
  cf_sf : Z; cf_crc : Z;                       (* ModemConfig2 *)
  cf_ldro : bool;                              (* ModemConfig3 *)
  cf_detection : Z; cf_threshold : Z;
  cf_high_bw_1 : Z; cf_high_bw_2 : Z;
  cf_sync_word : Z; cf_pa : Z; cf_pa_dac : Z; cf_preamble : Z;
  cf_base : Z;                                 (* where frames to be sent start *)
  cf_rx : bool                                 (* receiving *)
}.
Definition read_config (k : chip7) : config7 :=
  mk_config7
    (of_be32 0 (reg k REG_FRF_MSB_7X) (reg k REG_FRF_MID_7X) (reg k REG_FRF_LSB_7X))
    (Z.shiftr (reg k REG_MODEM_CONFIG_1_7X) 4) (Z.land (Z.shiftr (reg k REG_MODEM_CONFIG_1_7X) 1) 7)
    (Z.land (reg k REG_MODEM_CONFIG_1_7X) 1)
    (Z.shiftr (reg k REG_MODEM_CONFIG_2_7X) 4) (Z.land (Z.shiftr (reg k REG_MODEM_CONFIG_2_7X) 2) 1)
    (Z.testbit (reg k REG_MODEM_CONFIG_3_7X) 3)
    (reg k REG_DETECTION_OPTIMIZE_7X) (reg k REG_DETECTION_THRESHOLD_7X)
    (reg k REG_HIGH_BW_OPTIMIZE_1_7X) (reg k REG_HIGH_BW_OPTIMIZE_2_7X)
    (reg k REG_SYNC_WORD_7X) (reg k REG_PA_CONFIG_7X) (reg k REG_PA_DAC_7X)
    (of_be16 (reg k REG_PREAMBLE_MSB_7X) (reg k REG_PREAMBLE_LSB_7X))
    (reg k REG_FIFO_TX_BASE_ADDR_7X) (reg k REG_OP_MODE_7X =? MODE_RECEIVE).

(** The calls that set parameters, and those that only use them. *)
Inductive op7 :=
  | SetFrequency (f : Z) | SetBandwidth (bw : Z) | SetSpreading (sf : Z) | SetCoding (cr : Z)
  | SetSyncWord (sw : Z) | SetTxPower (level pin : Z) | SetPreamble (n : Z) | SetCrc (on : bool)
  | Receive (size : Z) | Standby | BeginPacket (implicit : bool) | Write (bs : list Z) | EndPacket (fuel : nat)
  | Read | Dcd | Rssi.

Definition run_op {W} `{World W} (o : op7) : M7 W unit :=
  match o with
  | SetFrequency f => sx7_setFrequency f | SetBandwidth bw => sx7_setSignalBandwidth bw
  | SetSpreading sf => sx7_setSpreadingFactor sf | SetCoding cr => sx7_setCodingRate4 cr
  | SetSyncWord sw => sx7_setSyncWord sw | SetTxPower l p => sx7_setTxPower l p
  | SetPreamble n => sx7_setPreambleLength n | SetCrc on => if on then sx7_enableCrc else sx7_disableCrc
  | Receive n => sx7_receive n | Standby => sx7_standby | BeginPacket b => sx7_beginPacket b
  | Write bs => _ ← sx7_write bs; skip | EndPacket fuel => _ ← sx7_endPacket fuel; skip
  | Read => _ ← sx7_read; skip | Dcd => _ ← sx7_dcd; skip | Rssi => _ ← sx7_currentRssi; skip
  end.

(** The errata values that go with a bandwidth and a carrier. *)
Definition with_errata (c : config7) : config7 :=
  let f := frequency_of (cf_frf c) in
  if (cf_bw c =? 9) && (410000000 <=? f) && (f <=? 525000000) then c <| cf_high_bw_1 := 0x02 |> <| cf_high_bw_2 := 0x7f |>
  else if (cf_bw c =? 9) && (820000000 <=? f) && (f <=? 1020000000)
  then c <| cf_high_bw_1 := 0x02 |> <| cf_high_bw_2 := 0x64 |>
  else c <| cf_high_bw_1 := 0x03 |>.
Definition with_ldro7 (c : config7) : config7 := c <| cf_ldro := ldro_of7 (cf_sf c) (bandwidth_of7 (cf_bw c)) |>.

(** What each call promises. *)
Definition config_step (o : op7) (c : config7) : config7 :=
  match o with
  | SetFrequency f => with_errata (c <| cf_frf := frf_of f mod 2 ^ 24 |>)
  | SetBandwidth bw => with_errata (with_ldro7 (c <| cf_bw := bw_code7 bw |>))
  | SetSpreading sf =>
      let sf := clamp 6 12 sf in
      with_ldro7 (c <| cf_sf := sf |> <| cf_detection := if sf =? 6 then 0xc5 else 0xc3 |>
                    <| cf_threshold := if sf =? 6 then 0x0c else 0x0a |>)
  | SetCoding cr => c <| cf_cr := clamp 5 8 cr - 4 |>
  | SetSyncWord sw => c <| cf_sync_word := u8 sw |>
  | SetTxPower l p =>
      c <| cf_pa_dac := 0x84 |> <| cf_pa := if p =? 0 then 0x70 + clamp 0 14 l else 0x80 + (clamp 2 17 l - 2) |>
  | SetPreamble n => c <| cf_preamble := u16 (n - 4) |>
  | SetCrc on => c <| cf_crc := if on then 1 else 0 |>
  | Receive n => c <| cf_header := if 0 <? n then 1 else 0 |> <| cf_rx := true |>
  | Standby => c <| cf_rx := false |>
  | BeginPacket b => c <| cf_header := if b then 1 else 0 |> <| cf_rx := false |>
  | EndPacket _ => c <| cf_rx := false |>
  | Write _ | Read | Dcd | Rssi => c
  end.

(** ** Lemmas: bits *)

(** A property of a byte and a choice, decided by running through both. *)
Lemma table {A} (P : Z -> A -> bool) (cs : list A) :
  forallb (fun r => forallb (P r) cs) all_u8 = true -> forall r c, is_u8 r -> In c cs -> P r c = true.
Proof.
  intros Ht r c Hr Hc. pose proof (u8_forallb _ Ht r Hr) as Pr. rewrite forallb_forall in Pr. now apply Pr.
Qed.
Lemma bw_bits r c : is_u8 r -> 0 <= c <= 9 -> let x := u8 (Z.lor (Z.land r 0x0f) (Z.shiftl c 4)) in
  Z.shiftr x 4 = c /\ Z.land (Z.shiftr x 1) 7 = Z.land (Z.shiftr r 1) 7 /\ Z.land x 1 = Z.land r 1.
Proof.
  intros Hr Hc.
  pose proof (table (fun r c => let x := u8 (Z.lor (Z.land r 0x0f) (Z.shiftl c 4)) in
    (Z.shiftr x 4 =? c)
    && (Z.land (Z.shiftr x 1) 7 =? Z.land (Z.shiftr r 1) 7)
    && (Z.land x 1 =? Z.land r 1)) [0; 1; 2; 3; 4; 5; 6; 7; 8; 9]
    ltac:(vm_compute; reflexivity) r c Hr ltac:(cbn; lia)) as P.
  cbv beta zeta in P. rewrite !andb_true_iff, !Z.eqb_eq in P. cbv zeta. tauto.
Qed.
Lemma cr_bits r c : is_u8 r -> 1 <= c <= 4 -> let x := u8 (Z.lor (Z.land r 0xf1) (Z.shiftl c 1)) in
  Z.shiftr x 4 = Z.shiftr r 4 /\ Z.land (Z.shiftr x 1) 7 = c /\ Z.land x 1 = Z.land r 1.
Proof.
  intros Hr Hc.
  pose proof (table (fun r c => let x := u8 (Z.lor (Z.land r 0xf1) (Z.shiftl c 1)) in
    (Z.shiftr x 4 =? Z.shiftr r 4)
    && (Z.land (Z.shiftr x 1) 7 =? c)
    && (Z.land x 1 =? Z.land r 1)) [1; 2; 3; 4]
    ltac:(vm_compute; reflexivity) r c Hr ltac:(cbn; lia)) as P.
  cbv beta zeta in P. rewrite !andb_true_iff, !Z.eqb_eq in P. cbv zeta. tauto.
Qed.
Lemma header_bits r (b : bool) : is_u8 r -> let x := u8 (if b then Z.lor r 0x01 else Z.land r 0xfe) in
  Z.shiftr x 4 = Z.shiftr r 4 /\ Z.land (Z.shiftr x 1) 7 = Z.land (Z.shiftr r 1) 7 /\ Z.land x 1 = (if b then 1 else 0).
Proof.
  intros Hr.
  pose proof (table (fun r (b : bool) => let x := u8 (if b then Z.lor r 0x01 else Z.land r 0xfe) in
    (Z.shiftr x 4 =? Z.shiftr r 4)
    && (Z.land (Z.shiftr x 1) 7 =? Z.land (Z.shiftr r 1) 7)
    && (Z.land x 1 =? (if b then 1 else 0))) [true; false]
    ltac:(vm_compute; reflexivity) r b Hr ltac:(destruct b; cbn; auto)) as P.
  cbv beta zeta in P. rewrite !andb_true_iff, !Z.eqb_eq in P. cbv zeta. tauto.
Qed.
Lemma sf_bits r c : is_u8 r -> 6 <= c <= 12 -> let x := u8 (Z.lor (Z.land r 0x0f) (Z.land (Z.shiftl c 4) 0xf0)) in
  Z.shiftr x 4 = c /\ Z.land (Z.shiftr x 2) 1 = Z.land (Z.shiftr r 2) 1.
Proof.
  intros Hr Hc.
  pose proof (table (fun r c => let x := u8 (Z.lor (Z.land r 0x0f) (Z.land (Z.shiftl c 4) 0xf0)) in
    (Z.shiftr x 4 =? c)
    && (Z.land (Z.shiftr x 2) 1 =? Z.land (Z.shiftr r 2) 1)) [6; 7; 8; 9; 10; 11; 12]
    ltac:(vm_compute; reflexivity) r c Hr ltac:(cbn; lia)) as P.
  cbv beta zeta in P. rewrite !andb_true_iff, !Z.eqb_eq in P. cbv zeta. tauto.
Qed.
Lemma crc_bits r (b : bool) : is_u8 r -> let x := u8 (if b then Z.lor r 0x04 else Z.land r 0xfb) in
  Z.shiftr x 4 = Z.shiftr r 4 /\ Z.land (Z.shiftr x 2) 1 = (if b then 1 else 0).
Proof.
  intros Hr.
  pose proof (table (fun r (b : bool) => let x := u8 (if b then Z.lor r 0x04 else Z.land r 0xfb) in
    (Z.shiftr x 4 =? Z.shiftr r 4)
    && (Z.land (Z.shiftr x 2) 1 =? (if b then 1 else 0))) [true; false]
    ltac:(vm_compute; reflexivity) r b Hr ltac:(destruct b; cbn; auto)) as P.
  cbv beta zeta in P. rewrite !andb_true_iff, !Z.eqb_eq in P. cbv zeta. tauto.
Qed.

(** ** The setters *)

Section Setters.
Context {W : Type} `{Sx1276 W}.
Abbreviation wp := (wp_at (O:=sx127x) (G:=bool) chip7_of).
Implicit Types (d : sx127x) (k v : chip7) (s : radio7 W).


Lemma rx_drift k v : drift7 k v -> (reg v REG_OP_MODE_7X =? MODE_RECEIVE) = (reg k REG_OP_MODE_7X =? MODE_RECEIVE).
Proof. intros Hd. pose proof (dr_mode _ _ Hd) as E. unfold MODE_STANDBY, MODE_TRANSMIT, MODE_RECEIVE in *. lia. Qed.
Lemma config_drift k v : drift7 k v -> read_config v = read_config k.
Proof. intros Hd. unfold read_config. now rewrite !(dr_stable _ _ Hd), (rx_drift _ _ Hd) by side. Qed.
(** Two registers written one after the other. *)
Lemma config_drift_set a x b y v u : drift7 (set_reg a x v) u -> wf7 v -> plain a -> plain b -> is_u8 x ->
  read_config (set_reg b y u) = read_config (set_reg b y (set_reg a x v)).
Proof.
  intros Hd Hw Ha Hb Hx. assert (wf7 u) by eauto with rnode. assert (wf7 (set_reg a x v)) by auto with rnode.
  assert (E : forall c, stable c \/ c = b -> 0 <= b < 128 -> reg (set_reg b y u) c = reg (set_reg b y (set_reg a x v)) c).
  { intros c Hc Hr. destruct (Z.eq_dec b c) as [<-|Hne]; [now rewrite !reg_set_eq|].
    destruct Hc as [Hc| ->]; [|congruence]. unfold plain, stable in *. rewrite !(reg_set_ne b) by lia.
    apply (dr_stable _ _ Hd). exact Hc. }
  unfold plain in *. unfold read_config. rewrite !E by (lia || (left; side)). f_equal.
  rewrite !(reg_set_ne b) by (unfold REG_OP_MODE_7X in *; lia). exact (rx_drift _ _ Hd).
Qed.

(** [sets m f]: whatever the registers hold, [m] updates the configuration by [f]. *)
Definition sets {A} (m : M7 W A) (f : config7 -> config7) : Prop :=
  forall d k, wf7 k -> wp m (fun _ _ v => wf7 v /\ read_config v = f (read_config k)) d k.

Lemma sets_ret {A} (a : A) : sets (ret a) (fun c => c).
Proof. intros d k Hk. apply wp_ret. auto. Qed.
Lemma sets_bind {A B} (m : M7 W A) (n : A -> M7 W B) f g : sets m f -> (forall a, sets (n a) g) -> sets (bind m n) (fun c => g (f c)).
Proof.
  intros Hm Hn d k Hk. apply wp_bind. eapply wp_mono; [apply Hm, Hk|]. intros a d' k' [Hk' E].
  eapply wp_mono; [apply Hn, Hk'|]. intros b d'' k'' [Hk'' E']. rewrite <- E. auto.
Qed.
Lemma sets_ext {A} (m : M7 W A) f g : (forall c, f c = g c) -> sets m f -> sets m g.
Proof. intros E Hm d k Hk. eapply wp_mono; [apply Hm, Hk|]. intros a d' k' [Hk' ->]. auto. Qed.
Lemma sets_same {A} (m n : M7 W A) f : sets m f -> (forall s, m s = n s) -> sets n f.
Proof. intros Hm E d k Hk s Hd Hs. rewrite <- E. exact (Hm d k Hk s Hd Hs). Qed.
Lemma sets_get {A} (f : sx127x -> A) : sets (get f) (fun c => c).
Proof. intros d k Hk. apply wp_get. auto. Qed.
Lemma sets_upd f : sets (upd f) (fun c => c).
Proof. intros d k Hk. apply wp_upd. auto. Qed.
Lemma sets_updg f : sets (updg f) (fun c => c).
Proof. intros d k Hk. apply wp_updg. auto. Qed.
Lemma sets_read a : 0 < a < 128 -> sets (sx7_readRegister a) (fun c => c).
Proof. intros Ha d k Hk. apply wp_read; [exact Ha|]. intros v Hv. split; [eauto with rnode|now apply config_drift]. Qed.
(** Writing and changing one register. *)
Lemma sets_write a x f : plain a -> is_u8 x ->
  (forall k, wf7 k -> read_config (set_reg a x k) = f (read_config k)) -> sets (sx7_writeRegister a x) f.
Proof.
  intros Ha Hx Hf d k Hk. apply wp_write_plain; [exact Ha|]. intros v Hv. split; [eauto with rnode|].
  rewrite <- (config_drift k v Hv). apply Hf. eauto with rnode.
Qed.
Lemma sets_modify a g f : stable a -> plain a ->
  (forall k, wf7 k -> read_config (set_reg a (u8 (g (reg k a))) k) = f (read_config k)) -> sets (modify a g) f.
Proof.
  intros Hs Ha Hf d k Hk. apply wp_modify; [exact Hs|exact Ha|]. intros v Hv. split; [eauto with rnode|].
  rewrite <- (config_drift k v Hv), <- (dr_stable _ _ Hv a Hs). apply Hf. eauto with rnode.
Qed.

Lemma sets_syncWord sw : sets (sx7_setSyncWord sw) (config_step (SetSyncWord sw)).
Proof. apply sets_write; [side|apply u8_is_u8|]. intros k Hk. unfold read_config. regs. reflexivity. Qed.
Lemma sets_crc (on : bool) : sets (if on then sx7_enableCrc else sx7_disableCrc) (config_step (SetCrc on)).
Proof.
  destruct on; (apply sets_modify; [side|side|]; intros k Hk; unfold read_config; regs;
    pose proof (reg_u8 k REG_MODEM_CONFIG_2_7X Hk) as Hr).
  - destruct (crc_bits _ true Hr) as [E1 E2]. rewrite E1, E2. reflexivity.
  - destruct (crc_bits _ false Hr) as [E1 E2]. rewrite E1, E2. reflexivity.
Qed.
Lemma sets_header (b : bool) : sets (if b then sx7_implicitHeaderMode else sx7_explicitHeaderMode) (fun c => c <| cf_header := if b then 1 else 0 |>).
Proof.
  destruct b; (apply (sets_bind _ _ (fun c => c)); [apply sets_upd|intros _; apply sets_modify; [side|side|]]; intros k Hk;
    unfold read_config; regs; pose proof (reg_u8 k REG_MODEM_CONFIG_1_7X Hk) as Hr).
  - destruct (header_bits _ true Hr) as (E1 & E2 & E3). rewrite E1, E2, E3. reflexivity.
  - destruct (header_bits _ false Hr) as (E1 & E2 & E3). rewrite E1, E2, E3. reflexivity.
Qed.
Lemma clamp7_range lo hi x : lo <= hi -> lo <= clamp lo hi x <= hi.
Proof. unfold clamp. destruct (Z.ltb_spec x lo); [lia|]. destruct (Z.ltb_spec hi x); lia. Qed.
Lemma sets_coding cr : sets (sx7_setCodingRate4 cr) (config_step (SetCoding cr)).
Proof.
  pose proof (clamp7_range 5 8 cr ltac:(lia)). apply sets_modify; [side|side|]. intros k Hk. unfold read_config. regs.
  destruct (cr_bits _ (clamp 5 8 cr - 4) (reg_u8 k REG_MODEM_CONFIG_1_7X Hk) ltac:(lia)) as (E1 & E2 & E3).
  rewrite E1, E2, E3. reflexivity.
Qed.
Lemma sets_power l p : sets (sx7_setTxPower l p) (config_step (SetTxPower l p)).
Proof.
  unfold sx7_setTxPower, RFO_PIN_7X, config_step. rewrite Z.eqb_sym. destruct (p =? 0).
  - pose proof (clamp7_range 0 14 l ltac:(lia)) as Hc. set (n := clamp 0 14 l) in *. clearbody n.
    assert (E : u8 (Z.lor 0x70 n) = 0x70 + n).
    { change (Z.lor 0x70 n) with (Z.lor (Z.shiftl 7 4) n). rewrite shiftl_lor_add by lia. apply u8_id. unfold is_u8. lia. }
    rewrite E. eapply (sets_bind _ _ (fun c => c <| cf_pa_dac := 0x84 |>) (fun c => c <| cf_pa := 0x70 + n |>));
      [|intros _]; (apply sets_write; [side|unfold is_u8; lia|]; intros k Hk; unfold read_config; regs; reflexivity).
  - pose proof (clamp7_range 2 17 l ltac:(lia)) as Hc. set (n := clamp 2 17 l) in *. clearbody n.
    assert (E : u8 (Z.lor PA_BOOST_7X (n - 2)) = 0x80 + (n - 2)).
    { change PA_BOOST_7X with (Z.shiftl 1 7). rewrite shiftl_lor_add by lia. apply u8_id. unfold is_u8. lia. }
    rewrite E. eapply (sets_bind _ _ (fun c => c <| cf_pa_dac := 0x84 |>) (fun c => c <| cf_pa := 0x80 + (n - 2) |>));
      [|intros _]; (apply sets_write; [side|unfold is_u8; lia|]; intros k Hk; unfold read_config; regs; reflexivity).
Qed.
Lemma sets_preamble n : sets (sx7_setPreambleLength n) (config_step (SetPreamble n)).
Proof.
  intros d k Hk. apply wp_bind, wp_write_plain; [side|]. intros v Hv. apply wp_write_plain; [side|]. intros u Hu.
  assert (wf7 v) by eauto with rnode. split; [eauto with rnode|]. cbn [config_step].
  rewrite (config_drift_set _ _ _ _ _ _ Hu) by (assumption || side || apply u8_is_u8).
  rewrite <- (config_drift k v Hv), Z.shiftr_0_r, <- of_be16_be16. unfold read_config. regs. reflexivity.
Qed.
Lemma sets_lowDataRate : sets sx7_handleLowDataRate with_ldro7.
Proof.
  intros d k Hk. apply wp_bind, wp_read; [side|]. intros v1 Hv1. apply wp_bind, wp_bind, wp_read; [side|]. intros v2 Hv2.
  apply wp_ret. rewrite (dr_stable _ _ Hv2), !(dr_stable _ _ Hv1) by side.
  assert (Hk2 : drift7 k v2) by eauto with rnode.
  assert (E : with_ldro7 (read_config k) = (read_config k) <| cf_ldro := ldro_of7 (Z.shiftr (reg k REG_MODEM_CONFIG_2_7X) 4)
    (bandwidth_of7 (Z.shiftr (reg k REG_MODEM_CONFIG_1_7X) 4)) |>) by reflexivity.
  rewrite E. destruct (ldro_of7 _ _); (apply wp_bind, wp_write_plain; [side|]; intros v3 Hv3; apply wp_updg);
    (split; [eauto with rnode|]); rewrite <- (config_drift k v3 ltac:(eauto with rnode)); assert (wf7 v3) by eauto with rnode;
    unfold read_config; regs; reflexivity.
Qed.
Lemma sets_errata : sets sx7_optimizeModemSensitivity with_errata.
Proof.
  intros d k Hk. apply wp_bind, wp_read; [side|]. intros v1 Hv1.
  apply wp_bind, wp_bind, wp_read; [side|]. intros v2 Hv2. apply wp_bind, wp_read; [side|]. intros v3 Hv3.
  apply wp_bind, wp_read; [side|]. intros v4 Hv4. apply wp_ret.
  assert (D2 : drift7 k v2) by eauto with rnode. assert (D3 : drift7 k v3) by eauto with rnode.
  assert (D4 : drift7 k v4) by eauto with rnode. rewrite (dr_stable _ _ Hv1), (dr_stable _ _ D2), (dr_stable _ _ D3), (dr_stable _ _ D4) by side.
  change (Z.lor (Z.lor (Z.shiftl (reg k REG_FRF_MSB_7X) 16) (Z.shiftl (reg k REG_FRF_MID_7X) 8)) (reg k REG_FRF_LSB_7X))
    with (cf_frf (read_config k)).
  change (Z.shiftr (reg k REG_MODEM_CONFIG_1_7X) 4) with (cf_bw (read_config k)). unfold with_errata. cbv zeta.
  set (f := frequency_of _). clearbody f. destruct (_ && _); [|destruct (_ && _)].
  1-2: apply wp_bind, wp_write_plain; [side|]; intros v5 Hv5; apply wp_write_plain; [side|]; intros v6 Hv6;
    assert (wf7 v5) by eauto with rnode; assert (is_u8 2) by (split; lia); assert (wf7 v6) by eauto with rnode;
    (split; [apply wf_set; [assumption|split; lia]|]);
    rewrite (config_drift_set _ _ _ _ _ _ Hv6) by (assumption || side);
    rewrite <- (config_drift k v5 ltac:(eauto with rnode)); unfold read_config; regs; reflexivity.
  apply wp_write_plain; [side|]; intros v5 Hv5. assert (wf7 v5) by eauto with rnode. split; [apply wf_set; [assumption|split; lia]|].
  rewrite <- (config_drift k v5 ltac:(eauto with rnode)). unfold read_config. regs. reflexivity.
Qed.
Lemma bw_code7_range sbw : 0 <= bw_code7 sbw <= 9.
Proof. unfold bw_code7. repeat destruct (_ <=? _); lia. Qed.
Lemma sets_bandwidth sbw : sets (sx7_setSignalBandwidth sbw) (config_step (SetBandwidth sbw)).
Proof.
  pose proof (bw_code7_range sbw) as Hc. cbn [config_step].
  apply (sets_bind _ _ (fun c => c <| cf_bw := bw_code7 sbw |>) (fun c => with_errata (with_ldro7 c))); [|intros _].
  - apply sets_modify; [side|side|]. intros k Hk. unfold read_config. regs.
    destruct (bw_bits _ _ (reg_u8 k REG_MODEM_CONFIG_1_7X Hk) Hc) as (E1 & E2 & E3). rewrite E1, E2, E3. reflexivity.
  - apply sets_bind; [apply sets_lowDataRate|intros _; apply sets_errata].
Qed.
Lemma sets_spreading sf : sets (sx7_setSpreadingFactor sf) (config_step (SetSpreading sf)).
Proof.
  pose proof (clamp7_range 6 12 sf ltac:(lia)) as Hc. unfold sx7_setSpreadingFactor, config_step. set (n := clamp 6 12 sf) in *.
  clearbody n. cbv zeta.
  apply (sets_ext _ (fun c => with_ldro7 (((c <| cf_detection := if n =? 6 then 0xc5 else 0xc3 |>)
    <| cf_threshold := if n =? 6 then 0x0c else 0x0a |>) <| cf_sf := n |>))); [intros []; reflexivity|].
  apply (sets_bind _ _ (fun c => (c <| cf_detection := if n =? 6 then 0xc5 else 0xc3 |>)
    <| cf_threshold := if n =? 6 then 0x0c else 0x0a |>) (fun c => with_ldro7 (c <| cf_sf := n |>))); [|intros _].
  - destruct (n =? 6); (eapply (sets_bind _ _ (fun c => c <| cf_detection := _ |>) (fun c => c <| cf_threshold := _ |>)); [|intros _]);
      (apply sets_write; [side|auto with rnode|]; intros k Hk; unfold read_config; regs; reflexivity).
  - apply (sets_bind _ _ (fun c => c <| cf_sf := n |>) with_ldro7); [|intros _; apply sets_lowDataRate].
    apply sets_modify; [side|side|]. intros k Hk. unfold read_config. regs.
    destruct (sf_bits _ n (reg_u8 k REG_MODEM_CONFIG_2_7X Hk) Hc) as (E1 & E2). rewrite E1, E2. reflexivity.
Qed.

(** The three bytes of the carrier. *)
Lemma of_frf f : of_be32 0 (u8 (Z.shiftr f 16)) (u8 (Z.shiftr f 8)) (u8 f) = f mod 2 ^ 24.
Proof.
  rewrite of_be32_val by apply u8_is_u8. rewrite !u8_shiftr by lia. unfold wrap.
  change (2 ^ 24) with 16777216. change (2 ^ 16) with 65536. change (2 ^ 8) with 256. Z.div_mod_to_equations. lia.
Qed.
Lemma sets_carrier f : sets (sx7_writeRegister REG_FRF_MSB_7X (u8 (Z.shiftr f 16)) ;;
  sx7_writeRegister REG_FRF_MID_7X (u8 (Z.shiftr f 8)) ;; sx7_writeRegister REG_FRF_LSB_7X (u8 (Z.shiftr f 0)))
  (fun c => c <| cf_frf := f mod 2 ^ 24 |>).
Proof.
  intros d k Hk. apply wp_bind, wp_write_plain; [side|]. intros v1 Hv1. apply wp_bind, wp_write_plain; [side|]. intros v2 Hv2.
  apply wp_write_plain; [side|]. intros v3 Hv3. assert (wf7 v1) by eauto with rnode. assert (wf7 v2) by eauto 6 with rnode.
  split; [eauto 6 with rnode|]. rewrite (config_drift_set _ _ _ _ _ _ Hv3) by (assumption || side || auto with rnode).
  rewrite Z.shiftr_0_r, <- of_frf. pose proof (config_drift _ _ Hv1) as E1.
  rewrite <- E1. assert (D : forall a, stable a -> reg v2 a = reg (set_reg REG_FRF_MSB_7X (u8 (Z.shiftr f 16)) v1) a) by apply (dr_stable _ _ Hv2).
  pose proof (rx_drift _ _ Hv2) as Em. unfold read_config. regs. rewrite !D by side. regs. rewrite Em. regs. reflexivity.
Qed.
Lemma sets_frequency f : sets (sx7_setFrequency f) (config_step (SetFrequency f)).
Proof.
  apply (sets_bind _ _ (fun c => c)); [apply sets_upd|intros _]. cbv zeta.
  refine (sets_same _ _ (fun c => with_errata (c <| cf_frf := frf_of f mod 2 ^ 24 |>))
    (sets_bind _ _ _ with_errata (sets_carrier (frf_of f)) (fun _ => sets_errata)) _).
  intros s. now rewrite !bind_eq.
Qed.

(** The mode register is written whole; a transmission only changes it. *)
Lemma config_mode x v : wf7 v -> is_u8 x -> read_config (write_step REG_OP_MODE_7X x v) = (read_config v) <| cf_rx := x =? MODE_RECEIVE |>.
Proof.
  intros Hw Hx. assert (E : forall a, reg (write_step REG_OP_MODE_7X x v) a = reg (set_reg REG_OP_MODE_7X x v) a).
  { intros a. unfold write_step. change (REG_OP_MODE_7X =? REG_FIFO_7X) with false. change (REG_OP_MODE_7X =? REG_IRQ_FLAGS_7X) with false.
    cbv iota. destruct (_ && _); reflexivity. }
  unfold read_config. rewrite !E. regs. reflexivity.
Qed.
Lemma sets_mode x : is_u8 x -> sets (sx7_writeRegister REG_OP_MODE_7X x) (fun c => c <| cf_rx := x =? MODE_RECEIVE |>).
Proof.
  intros Hx d k Hk. apply wp_store; [side|]. intros v Hv. split; [eauto with rnode|].
  rewrite config_mode by eauto with rnode. now rewrite (config_drift k v Hv).
Qed.
Lemma sets_standby : sets sx7_standby (config_step Standby).
Proof. apply sets_mode. auto with rnode. Qed.
(** Registers the configuration does not depend on. *)
Lemma sets_other a x : plain a -> is_u8 x -> (forall k, wf7 k -> read_config (set_reg a x k) = read_config k) ->
  sets (sx7_writeRegister a x) (fun c => c).
Proof. intros Ha Hx Hf. apply sets_write; assumption. Qed.
Ltac other := apply sets_other; [side|auto with rnode|intros ? ?; unfold read_config; regs; reflexivity].
Lemma sets_receive n : sets (sx7_receive n) (config_step (Receive n)).
Proof.
  cbn [config_step]. apply (sets_bind _ _ (fun c => c <| cf_header := if 0 <? n then 1 else 0 |>) (fun c => c <| cf_rx := true |>)).
  - destruct (0 <? n); [|apply (sets_header false)].
    apply (sets_bind _ _ (fun c => c <| cf_header := 1 |>) (fun c => c)); [apply (sets_header true)|intros _].
    apply sets_other; [side| |intros ? ?; unfold read_config; regs; reflexivity].
    rewrite Z.land_comm. apply land_u8. auto with rnode.
  - intros _. exact (sets_mode MODE_RECEIVE ltac:(auto with rnode)).
Qed.
Lemma sets_begin b : sets (sx7_beginPacket b) (config_step (BeginPacket b)).
Proof.
  apply (sets_ext _ (fun c => (c <| cf_rx := false |>) <| cf_header := if b then 1 else 0 |>)); [intros []; reflexivity|].
  apply (sets_bind _ _ (fun c => c <| cf_rx := false |>) (fun c => c <| cf_header := if b then 1 else 0 |>)); [apply sets_standby|intros _].
  apply (sets_bind _ _ (fun c => c <| cf_header := if b then 1 else 0 |>) (fun c => c)); [apply sets_header|intros _].
  apply (sets_bind _ _ (fun c => c) (fun c => c)); [other|intros _; other].
Qed.

Lemma sets_skip {A} (m : M7 W A) f : sets m f -> sets (_ ← m; skip) f.
Proof. intros Hm. apply (sets_bind _ _ f (fun c => c)); [exact Hm|intros _; apply (sets_ret tt)]. Qed.
Lemma config_ptr x v : read_config (set_reg REG_FIFO_ADDR_PTR_7X x v) = read_config v.
Proof. unfold read_config. regs. reflexivity. Qed.
Lemma sets_fifo b : sets (sx7_writeRegister REG_FIFO_7X b) (fun c => c).
Proof.
  intros d k Hk. apply wp_store; [side|]. intros v Hv. rewrite <- (config_drift k v Hv). split.
  - apply wf_fifo_write. eauto with rnode.
  - exact (config_ptr _ v).
Qed.
Lemma sets_read_fifo : sets (sx7_readRegister REG_FIFO_7X) (fun c => c).
Proof.
  intros d k Hk. apply wp_read_any; [side|]. intros v Hv. rewrite <- (config_drift k v Hv). split.
  - unfold read_step. cbn [Z.eqb REG_FIFO_7X]. eauto with rnode.
  - exact (config_ptr _ v).
Qed.
(** A sequence of calls that leave the configuration alone. *)
Lemma sets_seq {A B} (m : M7 W A) (n : A -> M7 W B) : sets m (fun c => c) -> (forall a, sets (n a) (fun c => c)) -> sets (bind m n) (fun c => c).
Proof. apply sets_bind. Qed.
Ltac only_reads :=
  repeat first [ apply sets_ret | apply sets_get | apply sets_upd | apply sets_read_fifo | apply sets_fifo
               | apply sets_read; side | match goal with |- sets (bind _ _) _ => apply sets_seq; [|intros ?] end
               | match goal with |- sets (if ?b then _ else _) _ => destruct b end ].
Lemma sets_fill bs : sets (fill_fifo bs) (fun c => c).
Proof. induction bs as [|b bs IH]; cbn [fill_fifo]; [apply (sets_ret tt)|only_reads; exact IH]. Qed.
Lemma sets_write_bytes bs : sets (sx7_write bs) (fun c => c).
Proof. unfold sx7_write. cbv zeta. only_reads; [apply sets_fill|other]. Qed.
Lemma sets_tx_wait n : sets (tx_wait n) (fun c => c).
Proof. induction n as [|n IH]; cbn [tx_wait]; only_reads. exact IH. Qed.
Lemma sets_clear_irq x : is_u8 x -> sets (sx7_writeRegister REG_IRQ_FLAGS_7X x) (fun c => c).
Proof.
  intros Hx d k Hk. apply wp_store; [side|]. intros v Hv. split; [eauto with rnode|]. rewrite <- (config_drift k v Hv).
  unfold write_step. cbn [Z.eqb REG_IRQ_FLAGS_7X REG_FIFO_7X Pos.eqb]. unfold read_config. regs. reflexivity.
Qed.
Lemma sets_end n : sets (sx7_endPacket n) (config_step (EndPacket n)).
Proof.
  apply (sets_bind _ _ (fun c => c <| cf_rx := false |>) (fun c => c)); [exact (sets_mode MODE_TRANSMIT ltac:(auto with rnode))|intros _].
  apply sets_seq; [apply sets_tx_wait|intros []; only_reads]. apply sets_clear_irq. auto with rnode.
Qed.

Lemma run_op_sets o : sets (run_op o) (config_step o).
Proof.
  destruct o; cbn [run_op]; auto using sets_frequency, sets_bandwidth, sets_spreading, sets_coding, sets_syncWord, sets_power,
    sets_preamble, sets_crc, sets_receive, sets_standby, sets_begin, sets_skip, sets_end, sets_write_bytes; apply sets_skip.
  - unfold sx7_read, sx7_available. only_reads.
  - unfold sx7_dcd. only_reads.
  - unfold sx7_currentRssi. only_reads.
Qed.

(** C10. The setters implement the configuration: whatever calls are made in whatever
    order, the registers then mean exactly what the calls, taken as independent
    updates of [config7], make of what they meant before - spreading factor and CRC,
    bandwidth, coding rate and header mode do not disturb each other, the
    low-data-rate bit and the errata registers follow every change they depend on, and
    sending, reading and sensing leave everything as it was. *)
(* @prop refinement W=sx7_configures_witness D=sx7_setFrequency,sx7_setSignalBandwidth,sx7_setSpreadingFactor,sx7_setCodingRate4,sx7_enableCrc,sx7_setTxPower,sx7_handleLowDataRate,sx7_optimizeModemSensitivity,sx7_receive,sx7_beginPacket *)
Theorem sx7_configures (ops : list op7) s : wf7 (chip7_of (wd s)) ->
  let s' := foldl (fun s o => snd (run_op o s)) s ops in
  wf7 (chip7_of (wd s')) /\
  read_config (chip7_of (wd s')) = foldl (fun c o => config_step o c) (read_config (chip7_of (wd s))) ops.
Proof.
  revert s. induction ops as [|o ops IH]; intros s Hw; [auto|]. cbn [foldl].
  destruct (wp7_elim _ _ s (run_op_sets o _ _ Hw)) as [Hw' E]. rewrite <- E. now apply IH.
Qed.

(** ** Starting *)

(** What [begin] makes of the configuration the reset left. *)
Definition begun (f : Z) (c : config7) : config7 :=
  let c := config_step (SetFrequency f) (c <| cf_rx := false |>) in
  foldl (fun c o => config_step o c) (c <| cf_base := 0 |> <| cf_ldro := false |>)
    [SetSyncWord SYNC_WORD_7X; SetCrc true; SetTxPower 2 1; Standby].
Lemma sets_base : sets (sx7_writeRegister REG_FIFO_TX_BASE_ADDR_7X 0) (fun c => c <| cf_base := 0 |>).
Proof. apply sets_write; [side|auto with rnode|]. intros k Hk. unfold read_config. regs. reflexivity. Qed.
Lemma sets_config_3 : sets (sx7_writeRegister REG_MODEM_CONFIG_3_7X 0x04) (fun c => c <| cf_ldro := false |>).
Proof. apply sets_write; [side|auto with rnode|]. intros k Hk. unfold read_config. regs. reflexivity. Qed.
Lemma sets_rx_base : sets (sx7_writeRegister REG_FIFO_RX_BASE_ADDR_7X 0) (fun c => c).
Proof. other. Qed.
Lemma sets_lna : sets (modify REG_LNA_7X (fun r => Z.lor r 0x03)) (fun c => c).
Proof. apply sets_seq; [apply sets_read; side|intros r; other]. Qed.
Lemma sets_configure f : sets (configure7 f) (begun f).
Proof.
  refine (sets_ext _ _ _ _ (sets_bind _ _ _ _ (sets_mode 0x80 _) (fun _ => sets_bind _ _ _ _ (sets_frequency f) (fun _ =>
    sets_bind _ _ _ _ sets_base (fun _ => sets_bind _ _ _ _ sets_rx_base (fun _ => sets_bind _ _ _ _ sets_lna (fun _ =>
    sets_bind _ _ _ _ sets_config_3 (fun _ => sets_bind _ _ _ _ (sets_syncWord SYNC_WORD_7X) (fun _ =>
    sets_bind _ _ _ _ (sets_crc true) (fun _ => sets_bind _ _ _ _ (sets_power 2 1) (fun _ => sets_standby)))))))))));
    [reflexivity|auto with rnode].
Qed.

(** The reset and the detection may leave anything in the registers. *)
Definition tame {A} (m : M7 W A) : Prop := forall d k, wf7 k -> wp m (fun _ _ v => wf7 v) d k.
Lemma tame_then {A} (m : M7 W A) Q d k : tame m -> wf7 k -> (forall a d v, wf7 v -> Q a d v) -> wp m Q d k.
Proof. intros Hm Hk Hq. exact (wp_mono _ _ _ _ _ _ (Hm d k Hk) Hq). Qed.
Lemma tame_sets {A} (m : M7 W A) f : sets m f -> tame m.
Proof. intros Hm d k Hk. eapply wp_mono; [apply Hm, Hk|]. now intros a d' k' [Hk' _]. Qed.
Lemma tame_bind {A B} (m : M7 W A) (n : A -> M7 W B) : tame m -> (forall a, tame (n a)) -> tame (bind m n).
Proof. intros Hm Hn d k Hk. apply wp_bind. eapply wp_mono; [apply Hm, Hk|]. intros a d' k' Hk'. now apply Hn. Qed.
Lemma tame_quiet f : (forall w, drift7 (chip7_of w) (chip7_of (f w))) -> tame (act f).
Proof. intros Hf d k Hk. apply wp_quiet; [exact Hf|]. eauto with rnode. Qed.
Lemma tame_pin p b : tame (act (digitalWrite p b)).
Proof. intros d k Hk. now apply wp_digitalWrite. Qed.
Lemma tame_clock : tame (call millis).
Proof. intros d k Hk. apply wp_clock. eauto with rnode. Qed.
Lemma tame_when b m : tame m -> tame (when b m).
Proof. destruct b; [auto|]. intros _. apply (tame_sets _ (fun c => c)), sets_ret. Qed.
Ltac tame := repeat first
  [ apply tame_clock | apply tame_pin | apply tame_quiet; solve [auto with rnode] | apply tame_when
  | match goal with |- tame (bind _ _) => apply tame_bind; [|intros ?] | |- tame (if ?b then _ else _) => destruct b end
  | apply (tame_sets _ (fun c => c)); solve [apply sets_get | apply sets_ret | apply sets_upd | apply sets_read; side] ].
Lemma tame_reset : tame sx7_reset.
Proof. unfold sx7_reset. tame. Qed.
Lemma tame_preinit_loop n start version : tame (preinit_loop7 n start version).
Proof. revert version. induction n as [|n IH]; intros version; cbn [preinit_loop7]; tame; apply IH. Qed.
Lemma tame_preInit : tame sx7_preInit.
Proof. unfold sx7_preInit. tame; apply tame_preinit_loop. Qed.

Lemma begin7_outcome f s : wf7 (chip7_of (wd s)) ->
  let '(ok, s') := sx7_begin f s in
  wf7 (chip7_of (wd s')) /\ (ok = true -> exists c, read_config (chip7_of (wd s')) = begun f c).
Proof.
  intros Hw. pose proof (wp7_elim (sx7_begin f) (fun ok _ v => wf7 v /\ (ok = true -> exists c, read_config v = begun f c)) s) as E.
  destruct (sx7_begin f s) as [ok s']. cbn [fst snd] in E. apply E. clear E.
  apply wp_bind, (tame_then _ _ _ _ tame_reset Hw). intros _ d1 k1 H1'. apply wp_bind, wp_get, wp_bind, tame_then; [tame|exact H1'|].
  intros _ d2 k2 H2'. apply wp_bind, wp_get, wp_bind, tame_then; [|exact H2'|].
  { destruct (_preinit_done d2); [tame|apply tame_preInit]. }
  intros [] d3 k3 H3'; [|apply wp_ret; split; [exact H3'|discriminate]].
  apply wp_bind. eapply wp_mono; [apply sets_configure, H3'|]. intros _ d4 k4 [H4' E]. apply wp_ret. eauto.
Qed.
End Setters.

(** ** The carrier *)

(** The frequency read back is the one set, rounded down to a step of 61 Hz. *)
Theorem frequency_rounds7 f : 0 <= f < 1024000000 -> f - 62 <= frequency_of (frf_of f mod 2 ^ 24) <= f.
Proof.
  intros Hf. unfold frequency_of, frf_of. rewrite (u32_id f), Z.shiftl_mul_pow2 by lia. change (2 ^ 19) with 524288.
  set (q := f * 524288 / 32000000). assert (Hq : q * 32000000 <= f * 524288 < (q + 1) * 32000000)
    by (unfold q; Z.div_mod_to_equations; lia). clearbody q.
  assert (Hq' : 0 <= q < 16777216) by lia. rewrite (u32_id q) by lia. rewrite (Z.mod_small q) by lia. rewrite Z.shiftr_div_pow2 by lia. change (2 ^ 19) with 524288.
  rewrite u32_id by (Z.div_mod_to_equations; lia). Z.div_mod_to_equations. lia.
Qed.
Example frequency_rounds7_868 : frequency_of (frf_of 868000000 mod 2 ^ 24) = 868000000 /\ frequency_of (frf_of 867500001 mod 2 ^ 24) = 867500000.
Proof. split; reflexivity. Qed.

(** ** The number of the frequency error *)

(** Twenty bits of three registers are read as the signed number they stand for. *)
Theorem freq_error_signed (e : Z) : -524288 <= e < 524288 ->
  let n := e mod 2 ^ 20 in
  freq_error (Z.shiftr n 16) (u8 (Z.shiftr n 8)) (u8 n) (Z.shiftr n 16) = e.
Proof.
  intros He. cbv zeta. set (n := e mod 2 ^ 20). assert (Hn : n = if e <? 0 then e + 1048576 else e).
  { unfold n. change (2 ^ 20) with 1048576. destruct (Z.ltb_spec e 0); symmetry;
      [apply (Z.mod_unique _ _ (-1))|apply (Z.mod_unique _ _ 0)]; lia. }
  assert (Hb : 0 <= n < 1048576) by (destruct (Z.ltb_spec e 0); lia). clearbody n.
  unfold freq_error. rewrite !Z.shiftl_mul_pow2 by lia. rewrite u8_shiftr by lia. unfold wrap.
  change 7 with (Z.ones 3). rewrite Z.land_ones, !Z.shiftr_div_pow2 by lia.
  assert (Eb : (Z.land (n / 2 ^ 16) 8 =? 0) = (n <? 524288)).
  { change 8 with (2 ^ 3). 
    destruct (Z.ltb_spec n 524288).
    - apply Z.eqb_eq. apply Z.bits_inj'. intros i Hi. rewrite Z.land_spec, Z.bits_0, Z.pow2_bits_eqb by lia.
      destruct (Z.eqb_spec 3 i) as [<-|]; [|apply andb_false_r].
      rewrite <- (Z.mod_small (n / 2 ^ 16) (2 ^ 3)) by (change (2 ^ 16) with 65536; Z.div_mod_to_equations; lia).
      rewrite Z.mod_pow2_bits_high by lia. reflexivity.
    - apply Z.eqb_neq. intros E. apply (f_equal (fun z => Z.testbit z 3)) in E.
      rewrite Z.land_spec, Z.pow2_bits_true, andb_true_r, Z.bits_0 in E by lia.
      apply Z.testbit_false in E; [|lia]. change (2 ^ 16) with 65536 in E. change (2 ^ 3) with 8 in E. Z.div_mod_to_equations. lia. }
  rewrite Eb. change (2 ^ 8) with 256. change (2 ^ 16) with 65536. change (2 ^ 3) with 8.
  destruct (Z.ltb_spec n 524288), (Z.ltb_spec e 0); cbn [negb]; Z.div_mod_to_equations; lia.
Qed.

(** ** Witness *)

Definition chip7_0 : chip7 := mk_chip7 (repeat 0 128) (repeat 0 256) [].
Definition sim7_0 : sim7 := mk_sim7 chip7_0 1000 None.
Definition radio7_0 : radio7 sim7 := mk_device (mk_sx127x 18 23 26 (-1) 0 0 0 true false) false sim7_0.
Lemma wf7_0 : wf7 chip7_0.
Proof.
  constructor; [reflexivity| |reflexivity]. change (bytes (repeat 0 128)).
  generalize 128%nat. intros n. induction n; cbn [repeat]; constructor; [split; lia|assumption].
Qed.

Lemma sx7_configures_witness :
  let ops := [SetSpreading 11; SetBandwidth 125000; SetCrc true; SetCoding 7; SetFrequency 868000000; Receive 0] in
  let s' := foldl (fun s o => snd (@run_op sim7 sim7_world o s)) radio7_0 ops in
  cf_sf (read_config (chip7_of (wd s'))) = 11 /\ cf_crc (read_config (chip7_of (wd s'))) = 1 /\
  cf_bw (read_config (chip7_of (wd s'))) = 7 /\ cf_cr (read_config (chip7_of (wd s'))) = 3 /\
  cf_rx (read_config (chip7_of (wd s'))) = true.
Proof.
  cbv zeta.
  destruct (@sx7_configures sim7 sim7_world sim7_sx1276 [SetSpreading 11; SetBandwidth 125000; SetCrc true; SetCoding 7; SetFrequency 868000000; Receive 0]
    radio7_0 wf7_0) as [_ ->]. vm_compute. repeat split.
Defined.
