(* ===== verification/Sx127xLink.v ===== *)
(** * What the SX1276 driver guarantees

    Over a world that holds an SX1276 (Sx127xChip.v): frames built byte by byte go on
    the air as written and, over a chip that completes what it sends, [endPacket]
    returns - so the driver implements the interface the link layer is proved against,
    without its error branch; and the setters, which share registers, implement an
    abstract configuration in which they do not disturb each other. *)
From Stdlib Require Import Floats.SpecFloat.
From S2P Require Import Prelude Boards Framing Float TxQueue Eeprom Settings Link Modem Driver Sx127x Sx127xChip Sx127xConfig.
#[local] Open Scope drv_scope.

Section Guarantees.
Context {W : Type} `{Sx1276 W}.
Abbreviation wp := (wp_at (O:=sx127x) (G:=bool) chip7_of).
Implicit Types (d : sx127x) (k v : chip7) (s : radio7 W).

Lemma stable_plain a : stable a -> plain a.
Proof. unfold stable, plain. tauto. Qed.

(** ** Frames *)

(** A frame of [n] bytes is under construction. *)
Record frame7 (k : chip7) (n : Z) : Prop := {
  fr_mode : reg k REG_OP_MODE_7X = MODE_STANDBY;
  fr_ptr : reg k REG_FIFO_ADDR_PTR_7X = n;
  fr_len : reg k REG_PAYLOAD_LENGTH_7X = n
}.
(** Not even the buffer changes by itself in standby. *)
Lemma standby_drift k v : reg k REG_OP_MODE_7X = MODE_STANDBY -> drift7 k v ->
  reg v REG_OP_MODE_7X = MODE_STANDBY /\ c7_fifo v = c7_fifo k.
Proof.
  intros Hm Hd. pose proof (dr_mode _ _ Hd) as E. pose proof (dr_fifo _ _ Hd) as F.
  unfold MODE_STANDBY, MODE_TRANSMIT, MODE_RECEIVE in *. split; [lia|apply F; lia].
Qed.
Lemma frame_drift k v n : frame7 k n -> drift7 k v -> frame7 v n /\ c7_fifo v = c7_fifo k.
Proof.
  intros [Hm Hp Hl] Hd. destruct (standby_drift k v Hm Hd) as [Em Ef]. split; [|exact Ef].
  constructor; [exact Em|rewrite (dr_stable _ _ Hd) by side; exact Hp|rewrite (dr_stable _ _ Hd) by side; exact Hl].
Qed.

Lemma wp_standby Q d k : wf7 k ->
  (forall v, wf7 v -> reg v REG_OP_MODE_7X = MODE_STANDBY -> (forall a, stable a -> reg v a = reg k a) -> c7_sent v = c7_sent k ->
     Q tt d v) -> wp sx7_standby Q d k.
Proof.
  intros Hk Hq. apply wp_store; [side|]. intros v Hv. change (Z.lor _ _) with MODE_STANDBY.
  change (write_step REG_OP_MODE_7X MODE_STANDBY v) with (set_reg REG_OP_MODE_7X MODE_STANDBY v).
  assert (is_u8 MODE_STANDBY) by (unfold MODE_STANDBY, is_u8; lia). pose proof (wf_drift _ _ Hv Hk).
  apply Hq; [auto with rnode|regs; reflexivity| |exact (dr_sent _ _ Hv)].
  intros a Ha. rewrite reg_set_ne; [now apply (dr_stable _ _ Hv)|side|unfold stable in Ha; lia|unfold stable in Ha; intuition congruence].
Qed.

Definition explicit7 (r : Z) : Z := Z.land r 0xfe.
Definition implicit7 (r : Z) : Z := Z.lor r 0x01.
Lemma wp_header7 (b : bool) Q d k :
  (forall v, drift7 k v ->
     Q tt (d <| _implicitHeaderMode := if b then 1 else 0 |>)
       (set_reg REG_MODEM_CONFIG_1_7X (u8 ((if b then implicit7 else explicit7) (reg k REG_MODEM_CONFIG_1_7X))) v)) ->
  wp (if b then sx7_implicitHeaderMode else sx7_explicitHeaderMode) Q d k.
Proof. intros Hq. destruct b; (apply wp_bind, wp_upd, wp_modify; [side|side|exact Hq]). Qed.

Lemma wp_beginPacket7 (b : bool) Q d k : wf7 k ->
  (forall d' v, wf7 v -> frame7 v 0 -> reg v REG_FIFO_TX_BASE_ADDR_7X = reg k REG_FIFO_TX_BASE_ADDR_7X -> c7_sent v = c7_sent k -> Q tt d' v) ->
  wp (sx7_beginPacket b) Q d k.
Proof.
  intros Hk Hq. apply wp_bind, wp_standby; [exact Hk|]. intros v1 H1' Hm1 Hs1 Ht1.
  apply wp_bind, wp_header7. intros v2 Hv2. set (x := u8 _). assert (Hx : is_u8 x) by (unfold x; apply u8_is_u8). clearbody x.
  pose proof (wf_drift _ _ Hv2 H1') as H2'. destruct (standby_drift _ _ Hm1 Hv2) as [Hm2 _].
  set (k2 := set_reg _ x v2). assert (Hk2 : wf7 k2) by (unfold k2; auto with rnode).
  assert (Em : reg k2 REG_OP_MODE_7X = MODE_STANDBY) by (unfold k2; now regs).
  assert (Eb : reg k2 REG_FIFO_TX_BASE_ADDR_7X = reg k REG_FIFO_TX_BASE_ADDR_7X).
  { unfold k2. regs. rewrite (dr_stable _ _ Hv2) by side. apply Hs1. side. }
  assert (Et : c7_sent k2 = c7_sent k) by (rewrite <- Ht1; exact (dr_sent _ _ Hv2)). clearbody k2.
  apply wp_bind, wp_write_plain; [side|]. intros v3 Hv3. destruct (standby_drift _ _ Em Hv3) as [Hm3 _].
  pose proof (wf_drift _ _ Hv3 Hk2). assert (H0' : is_u8 0) by (split; lia).
  apply wp_write_plain; [side|]. intros v4 Hv4.
  assert (Em3 : reg (set_reg REG_FIFO_ADDR_PTR_7X 0 v3) REG_OP_MODE_7X = MODE_STANDBY) by now regs.
  destruct (standby_drift _ _ Em3 Hv4) as [Hm4 _]. assert (wf7 v4) by eauto with rnode.
  apply Hq; [auto with rnode|constructor| |].
  - now regs.
  - regs. rewrite (dr_stable _ _ Hv4) by side. now regs.
  - now regs.
  - regs. rewrite (dr_stable _ _ Hv4) by side. regs. rewrite (dr_stable _ _ Hv3) by side. exact Eb.
  - rewrite <- Et, <- (dr_sent _ _ Hv3). exact (dr_sent _ _ Hv4).
Qed.

Lemma wp_write7 b n Q d k : wf7 k -> 0 <= n < 255 -> frame7 k n ->
  (forall v, wf7 v -> frame7 v (n + 1) -> c7_fifo v = cell_set (c7_fifo k) n b ->
     reg v REG_FIFO_TX_BASE_ADDR_7X = reg k REG_FIFO_TX_BASE_ADDR_7X -> c7_sent v = c7_sent k -> Q 1 d v) ->
  wp (sx7_write [b]) Q d k.
Proof.
  intros Hk Hn Hf Hq. apply wp_bind, wp_read; [side|]. intros v1 Hv1. destruct (frame_drift _ _ _ Hf Hv1) as [Hf1 Ef1].
  rewrite (fr_len _ _ Hf1). change (zlen [b]) with 1. unfold MAX_PKT_LENGTH_7X. rewrite (u32_id (n + 1)), (proj2 (Z.ltb_ge 255 _)) by lia.
  change (take (Z.to_nat 1) [b]) with [b]. cbn [fill_fifo].
  pose proof (wf_drift _ _ Hv1 Hk) as Hw1.
  apply wp_bind, wp_bind, wp_store; [side|]. intros v2 Hv2. destruct (frame_drift _ _ _ Hf1 Hv2) as [Hf2 Ef2].
  pose proof (wf_drift _ _ Hv2 Hw1) as Hw2. unfold write_step. change (REG_FIFO_7X =? REG_FIFO_7X) with true. cbv iota zeta.
  rewrite (fr_ptr _ _ Hf2), (u8_id (n + 1)) by (unfold is_u8; lia).
  set (k2 := (set_reg _ _ v2) <| c7_fifo ::= _ |>).
  assert (Hk2 : wf7 k2) by (apply wf_fifo_write; apply wf_set; [exact Hw2|unfold is_u8; lia]).
  assert (Hr : forall a, reg k2 a = reg (set_reg REG_FIFO_ADDR_PTR_7X (n + 1) v2) a) by reflexivity.
  assert (Em : reg k2 REG_OP_MODE_7X = MODE_STANDBY) by (rewrite Hr; regs; apply Hf2).
  assert (Ef : c7_fifo k2 = cell_set (c7_fifo k) n b) by (rewrite <- Ef1, <- Ef2; reflexivity).
  assert (Ep : reg k2 REG_FIFO_ADDR_PTR_7X = n + 1) by (rewrite Hr; now regs).
  assert (Eb : reg k2 REG_FIFO_TX_BASE_ADDR_7X = reg k REG_FIFO_TX_BASE_ADDR_7X)
    by (rewrite Hr; regs; rewrite (dr_stable _ _ Hv2), (dr_stable _ _ Hv1) by side; reflexivity).
  assert (Et : c7_sent k2 = c7_sent k) by (transitivity (c7_sent v2); [reflexivity|rewrite (dr_sent _ _ Hv2); apply (dr_sent _ _ Hv1)]).
  clearbody k2. clear Hr. apply wp_ret, wp_bind, wp_write_plain; [side|]. intros v3 Hv3.
  destruct (standby_drift _ _ Em Hv3) as [Hm3 Ef3]. pose proof (wf_drift _ _ Hv3 Hk2) as Hw3.
  apply wp_ret, Hq.
  - apply wf_set; [exact Hw3|unfold is_u8; lia].
  - constructor; regs; [exact Hm3| |reflexivity]. now rewrite (dr_stable _ _ Hv3) by side.
  - rewrite <- Ef, <- Ef3. reflexivity.
  - regs. now rewrite (dr_stable _ _ Hv3) by side.
  - rewrite <- Et. exact (dr_sent _ _ Hv3).
Qed.

Lemma wp_tx_wait n Q d k : (forall b v, drift7 k v -> Q b d v) -> wp (tx_wait n) Q d k.
Proof.
  revert k. induction n as [|n IH]; intros k Hq; cbn [tx_wait]; [apply wp_ret; auto with rnode|].
  apply wp_bind, wp_read; [side|]. intros v Hv. destruct (tx_done7 _); [apply wp_ret|apply IH]; eauto with rnode.
Qed.
Lemma wp_endPacket7 fuel n Q d k : wf7 k -> frame7 k n -> 0 <= n <= 255 -> reg k REG_FIFO_TX_BASE_ADDR_7X = 0 ->
  (forall o v, wf7 v -> reg v REG_FIFO_TX_BASE_ADDR_7X = 0 -> c7_sent v = c7_sent k ++ [fifo_slice (c7_fifo k) 0 (Z.to_nat n)] -> Q o d v) ->
  wp (sx7_endPacket fuel) Q d k.
Proof.
  intros Hk Hf Hn Hb Hq. apply wp_bind, wp_store; [side|]. intros v1 Hv1. destruct (frame_drift _ _ _ Hf Hv1) as [Hf1 Ef1].
  pose proof (wf_drift _ _ Hv1 Hk) as Hw1. change (Z.lor _ _) with MODE_TRANSMIT.
  set (k2 := write_step _ _ v1). assert (Hw2 : wf7 k2) by (apply wf_write; [exact Hw1|unfold MODE_TRANSMIT, is_u8; lia]).
  assert (Hb2 : reg k2 REG_FIFO_TX_BASE_ADDR_7X = 0).
  { change (reg (set_reg REG_OP_MODE_7X MODE_TRANSMIT v1) REG_FIFO_TX_BASE_ADDR_7X = 0). regs.
    now rewrite (dr_stable _ _ Hv1) by side. }
  assert (Ht : c7_sent k2 = c7_sent k ++ [fifo_slice (c7_fifo k) 0 (Z.to_nat n)]).
  { transitivity (c7_sent v1 ++ [fifo_slice (c7_fifo v1) (reg v1 REG_FIFO_TX_BASE_ADDR_7X) (Z.to_nat (reg v1 REG_PAYLOAD_LENGTH_7X))]);
      [reflexivity|]. rewrite (dr_sent _ _ Hv1), Ef1, (fr_len _ _ Hf1), (dr_stable _ _ Hv1), Hb by side. reflexivity. }
  clearbody k2. apply wp_bind, wp_tx_wait. intros done v3 Hv3. pose proof (wf_drift _ _ Hv3 Hw2) as Hw3.
  assert (Hb3 : reg v3 REG_FIFO_TX_BASE_ADDR_7X = 0) by now rewrite (dr_stable _ _ Hv3) by side.
  assert (Ht3 : c7_sent v3 = c7_sent k2) by exact (dr_sent _ _ Hv3).
  destruct done; [|apply wp_ret, Hq; auto; now rewrite Ht3].
  apply wp_bind, wp_store; [side|]. intros v4 Hv4. apply wp_ret, Hq.
  - apply wf_write; [eauto with rnode|unfold IRQ_TX_DONE_MASK_7X, is_u8; lia].
  - change (reg (set_reg REG_IRQ_FLAGS_7X (Z.land (reg v4 REG_IRQ_FLAGS_7X) (Z.lnot IRQ_TX_DONE_MASK_7X)) v4) REG_FIFO_TX_BASE_ADDR_7X = 0).
    regs. now rewrite (dr_stable _ _ Hv4) by side.
  - transitivity (c7_sent v4); [reflexivity|]. rewrite (dr_sent _ _ Hv4), Ht3. exact Ht.
Qed.

(** ** The interface of the link layer *)

Section Link.
Context `{!Sx1276Sends W}.

(** [polls] readings of the flags are enough, so the [None] of an empty tank is never
    the result ([endPacket7_returns]). *)
#[export] Instance sx7_tx : LoraTx (radio7 W) := {
  beginPacket o s := snd (sx7_beginPacket (match o with Some n => negb (n =? 0) | None => false end) s);
  lora_write b s := snd (sx7_write [b] s);
  endPacket s := let '(ok, s) := sx7_endPacket (S polls) s in (default false ok, s)
}.
Definition sx7_pending s : option (list Z) :=
  let k := chip7_of (wd s) in let n := reg k REG_PAYLOAD_LENGTH_7X in
  if (reg k REG_OP_MODE_7X =? MODE_STANDBY) && (reg k REG_FIFO_ADDR_PTR_7X =? n)
  then Some (take (Z.to_nat n) (c7_fifo k)) else None.
Lemma frame_pending s n : frame7 (chip7_of (wd s)) n -> sx7_pending s = Some (take (Z.to_nat n) (c7_fifo (chip7_of (wd s)))).
Proof. intros [Em Ep El]. unfold sx7_pending. now rewrite El, Em, Ep, !Z.eqb_refl. Qed.
Lemma pending_frame s l : wf7 (chip7_of (wd s)) -> sx7_pending s = Some l ->
  frame7 (chip7_of (wd s)) (zlen l) /\ l = take (Z.to_nat (zlen l)) (c7_fifo (chip7_of (wd s))) /\ 0 <= zlen l <= 255.
Proof.
  intros Hw. unfold sx7_pending. destruct (Z.eqb_spec (reg (chip7_of (wd s)) REG_OP_MODE_7X) MODE_STANDBY); [|discriminate].
  destruct (Z.eqb_spec (reg (chip7_of (wd s)) REG_FIFO_ADDR_PTR_7X) (reg (chip7_of (wd s)) REG_PAYLOAD_LENGTH_7X)); [|discriminate]. intros [= <-].
  pose proof (reg_u8 _ REG_PAYLOAD_LENGTH_7X Hw) as Hu. unfold is_u8 in Hu. pose proof (wf_fifo _ Hw) as Hf.
  set (n := reg _ REG_PAYLOAD_LENGTH_7X) in *.
  assert (En : zlen (take (Z.to_nat n) (c7_fifo (chip7_of (wd s)))) = n) by (unfold zlen; rewrite length_take, Hf; lia).
  rewrite En. split; [constructor; assumption || reflexivity|split; [reflexivity|lia]].
Qed.

#[export, refine] Instance sx7_laws : LoraTxLaws (radio7 W) := {
  pending := sx7_pending;
  on_air s := c7_sent (chip7_of (wd s));
  sane s := wf7 (chip7_of (wd s)) /\ reg (chip7_of (wd s)) REG_FIFO_TX_BASE_ADDR_7X = 0
}.
Proof.
  - intros o s [Hw Hb]. cbn [beginPacket sx7_tx].
    match goal with |- context [sx7_beginPacket ?b s] => pose proof (wp7_elim (sx7_beginPacket b)
      (fun _ _ k => wf7 k /\ frame7 k 0 /\ reg k REG_FIFO_TX_BASE_ADDR_7X = 0 /\ c7_sent k = c7_sent (chip7_of (wd s))) s) as E end.
    destruct E as (E1 & E2 & E3 & E4); [apply wp_beginPacket7; [exact Hw|]; rewrite Hb; auto|].
    rewrite (frame_pending _ _ E2). auto.
  - intros b s l [Hw Hb] Hp Hl. destruct (pending_frame s l Hw Hp) as (Hf & El & Hn). cbn [lora_write sx7_tx].
    pose proof (wp7_elim (sx7_write [b]) (fun _ _ k => wf7 k /\ frame7 k (zlen l + 1) /\
      c7_fifo k = cell_set (c7_fifo (chip7_of (wd s))) (zlen l) b /\ reg k REG_FIFO_TX_BASE_ADDR_7X = 0 /\
      c7_sent k = c7_sent (chip7_of (wd s))) s) as E.
    destruct E as (E1 & E2 & E3 & E4 & E5); [apply (wp_write7 b (zlen l)); [exact Hw|lia|exact Hf|]; rewrite Hb; auto|].
    pose proof (wf_fifo _ Hw) as Hfl. rewrite (frame_pending _ _ E2), E3, cell_set_take by lia. rewrite <- El. auto.
  - intros s l [Hw Hb] Hp _. destruct (pending_frame s l Hw Hp) as (Hf & El & Hn). cbn [endPacket sx7_tx].
    pose proof (wp7_elim (sx7_endPacket (S polls)) (fun _ _ k => wf7 k /\ reg k REG_FIFO_TX_BASE_ADDR_7X = 0 /\
      c7_sent k = c7_sent (chip7_of (wd s)) ++ [l]) s) as E.
    destruct E as (E1 & E2 & E3).
    + apply (wp_endPacket7 _ (zlen l)); [exact Hw|exact Hf|exact Hn|exact Hb|]. intros o v Hv Hbv Hsv. split_and!; auto.
      rewrite Hsv. do 2 f_equal. rewrite fifo_slice_take by (apply Hw || lia). now rewrite <- El.
    + destruct (sx7_endPacket _ s) as [o s']. cbn [snd] in *. auto.
Defined.

(** ** Termination *)

Lemma read_eq a s : 0 < a < 128 ->
  sx7_readRegister a s = (zget 0 (fst (spi [a; 0] (wd s))) 1, mk_device (ic s) (gl s) (snd (spi [a; 0] (wd s)))).
Proof.
  intros Ha. unfold sx7_readRegister, sx7_singleTransfer. rewrite bind_eq, call_eq. cbn [fst snd ret].
  replace (Z.land a 0x7f) with a by (change 0x7f with (Z.ones 7); rewrite Z.land_ones, Z.mod_small by lia; reflexivity).
  reflexivity.
Qed.
Lemma tx_wait_done fuel : forall n s, wf7 (chip7_of (wd s)) -> countdown (wd s) = Some n -> (n < fuel)%nat ->
  exists s', tx_wait fuel s = (true, s') /\ forall more, (n < more)%nat -> tx_wait more s = (true, s').
Proof.
  induction fuel as [|fuel IH]; intros n s Hw Hc Hn; [lia|].
  destruct (chip7_spi REG_IRQ_FLAGS_7X 0 (wd s)) as (v & Hv & Es & _). pose proof (wf_drift _ _ Hv Hw) as Hwv.
  cbn [tx_wait]. rewrite bind_eq, read_eq by side. cbn [fst snd].
  destruct (countdown_poll (wd s) n Hw Hc) as [Ed|(m & Hm & Ec)].
  - rewrite Ed. eexists. split; [reflexivity|]. intros [|more] Hmore; [lia|]. cbn [tx_wait].
    rewrite bind_eq, read_eq by side. cbn [fst snd]. now rewrite Ed.
  - set (s1 := mk_device _ _ _). destruct (IH m s1) as (s' & E1 & E2); [cbn; rewrite Es; exact Hwv|exact Ec|lia|].
    destruct (tx_done7 _) eqn:Ed; eexists; (split; [try reflexivity; exact E1|]);
      intros [|more] Hmore; try lia; cbn [tx_wait]; rewrite bind_eq, read_eq by side; cbn [fst snd]; rewrite Ed; [reflexivity|].
    apply E2. lia.
Qed.

Lemma start_tx s : wf7 (chip7_of (wd s)) ->
  exists s1 n, (n <= polls)%nat /\ countdown (wd s1) = Some n /\ wf7 (chip7_of (wd s1)) /\
    snd (sx7_writeRegister REG_OP_MODE_7X (Z.lor MODE_LONG_RANGE_MODE_7X MODE_TX_7X) s) = s1.
Proof.
  intros Hw. eexists. pose proof (countdown_start (wd s)) as (n & Hn & Hc). exists n. split; [exact Hn|].
  pose proof (wp7_elim (sx7_writeRegister REG_OP_MODE_7X (Z.lor MODE_LONG_RANGE_MODE_7X MODE_TX_7X)) (fun _ _ k => wf7 k) s) as E.
  cbv beta in E. split; [|split; [apply E|reflexivity]].
  - unfold sx7_writeRegister, sx7_singleTransfer. rewrite !bind_eq, call_eq. cbn [fst snd ret skip wd].
    exact Hc.
  - apply wp_store; [side|]. intros v Hv. apply wf_write; [eauto with rnode|vm_compute; intuition discriminate].
Qed.

(** Over a chip that completes what it sends, [endPacket] returns success: the
    flags are read at most [polls] times more, and fuel beyond that changes nothing.
    The loop has no time-out of its own: see [endPacket7_hangs]. *)
Theorem endPacket7_returns s : wf7 (chip7_of (wd s)) ->
  fst (sx7_endPacket (S polls) s) = Some true /\
  forall fuel, (polls < fuel)%nat -> sx7_endPacket fuel s = sx7_endPacket (S polls) s.
Proof.
  intros Hw. destruct (start_tx s Hw) as (s1 & n & Hn & Hc & Hw1 & E).
  destruct (tx_wait_done (S polls) n s1 Hw1 Hc ltac:(lia)) as (s' & E1 & E2).
  assert (R : forall fuel, (polls < fuel)%nat -> sx7_endPacket fuel s =
    (sx7_writeRegister REG_IRQ_FLAGS_7X IRQ_TX_DONE_MASK_7X ;; ret (Some true)) s').
  { intros fuel Hf. unfold sx7_endPacket. rewrite !bind_eq, E, E2 by lia. cbn [fst snd]. now rewrite bind_eq. }
  split; [now rewrite R, bind_eq by lia|]. intros fuel Hf. now rewrite !R by lia.
Qed.

(** A chip whose frames start at the beginning of the buffer stays one. *)
Lemma base_kept {A} (m : M7 W A) f s : sets m f -> (forall c, cf_base (f c) = cf_base c) ->
  sane s -> sane (snd (m s)).
Proof.
  intros Hm Hf [Hw Hb]. destruct (wp7_elim m _ s (Hm _ _ Hw)) as [Hw' E]. split; [exact Hw'|].
  apply (f_equal cf_base) in E. rewrite Hf in E. unfold read_config in E. cbn in E. now rewrite E.
Qed.
#[export, refine] Instance sx7_prompt : LoraTxPrompt (radio7 W) := { healthy := sane }.
Proof.
  - auto.
  - constructor.
    + intros o d Hd. apply (begin_spec o d Hd).
    + intros b d Hd. exact (base_kept _ _ d (sets_write_bytes [b]) (fun _ => eq_refl) Hd).
    + intros d Hd _. pose proof (base_kept _ _ d (sets_end (S polls)) (fun _ => eq_refl) Hd) as E.
      cbn [endPacket sx7_tx]. destruct (sx7_endPacket (S polls) d). exact E.
  - intros d [Hw _]. cbn [endPacket sx7_tx]. destruct (endPacket7_returns d Hw) as [E _].
    destruct (sx7_endPacket (S polls) d) as [o d']. cbn [fst] in *. now rewrite E.
Defined.

(** Whatever is given to [transmit] goes on the air as its fragments, and the error
    branch - a report to the host and a reset - is never taken. *)
Theorem sx7_transmits {A} (add_airtime : Z -> A -> A) (random256 : Z) (implicit : bool) (tbuf : list Z) (s : txst (radio7 W) A) :
  is_u8 random256 -> sane (Link.drv s) -> zlen tbuf <= MTU ->
  let s' := transmit add_airtime true false implicit random256 tbuf s in
  c7_sent (chip7_of (wd (Link.drv s'))) = c7_sent (chip7_of (wd (Link.drv s))) ++ fragments random256 tbuf /\
  tx_out s' = tx_out s /\ tx_reset s' = tx_reset s.
Proof.
  intros Hr Hs Hl. cbn zeta. assert (Hh : healthy (Link.drv s)) by exact Hs.
  destruct (transmit_fragments_gen add_airtime random256 implicit tbuf s Hr Hh Hl) as [].
  auto.
Qed.
End Link.

(** A chip that never shows the end of a transmission: there is no time-out, and
    [endPacket] does not return, however long it is given. *)
Theorem endPacket7_hangs s fuel :
  (forall w, tx_done7 (zget 0 (fst (spi [REG_IRQ_FLAGS_7X; 0] w)) 1) = false) -> fst (sx7_endPacket fuel s) = None.
Proof.
  intros Hn. unfold sx7_endPacket. rewrite !bind_eq. set (s1 := snd _). clearbody s1.
  assert (E : forall n s, fst (tx_wait n s) = false).
  { induction n as [|n IH]; intros s0; cbn [tx_wait]; [reflexivity|]. rewrite bind_eq, read_eq by side. cbn [fst snd].
    rewrite Hn. apply IH. }
  rewrite E. reflexivity.
Qed.

(** ** The interface of the radio configuration *)

(** Reading a parameter back takes transactions, whose effect on the world - the
    registers keep their meaning - the interface does not show. *)
Definition run7 {A} (m : M7 W A) s : radio7 W := snd (m s).
#[export] Instance sx7_modem : LoRaModem (radio7 W) := {
  lora_begin f s := sx7_begin f s;
  lora_end := run7 sx7_end;
  lora_setPreambleLength n := run7 (sx7_setPreambleLength n);
  lora_setSpreadingFactor n := run7 (sx7_setSpreadingFactor n);
  lora_setCodingRate4 n := run7 (sx7_setCodingRate4 n);
  lora_setSyncWord n := run7 (sx7_setSyncWord n);
  lora_setTxPower l p := run7 (sx7_setTxPower l p);
  lora_getTxPower s := fst (sx7_getTxPower s);
  lora_setSignalBandwidth n := run7 (sx7_setSignalBandwidth n);
  lora_getSignalBandwidth s := fst (sx7_getSignalBandwidth s);
  lora_setFrequency n := run7 (sx7_setFrequency n);
  lora_getFrequency s := fst (sx7_getFrequency s);
  lora_enableCrc := run7 sx7_enableCrc;
  lora_receive n s := run7 (sx7_receive n) (run7 (sx7_onReceive true) s)
}.

(** [means s c]: the registers are in order and mean [c]. *)
Definition means s (c : config7) : Prop := wf7 (chip7_of (wd s)) /\ read_config (chip7_of (wd s)) = c.
Lemma means_run {A} (m : M7 W A) f s c : sets m f -> means s c -> means (run7 m s) (f c).
Proof. intros Hm [Hw <-]. exact (wp7_elim m _ s (Hm _ _ Hw)). Qed.
Lemma sets_onReceive b : sets (sx7_onReceive b) (fun c => c).
Proof.
  apply sets_seq; [apply sets_upd|intros _]. apply sets_seq; [apply sets_get|intros dio0].
  assert (Q : forall f, (forall w, drift7 (chip7_of w) (chip7_of (f w))) -> sets (act f) (fun c => c)).
  { intros f Hf d k Hk. apply wp_quiet; [exact Hf|]. intros v Hv. split; [eauto with rnode|now apply config_drift]. }
  destruct b; [|apply Q; auto with rnode].
  apply sets_seq; [apply Q; auto with rnode|intros _]. apply sets_seq; [|intros _; apply Q; auto with rnode].
  apply sets_write; [side|auto with rnode|]. intros k Hk. unfold read_config. regs. reflexivity.
Qed.

(** The radio comes up as it is configured: when [startRadio] turns the radio on
    over this driver, the registers mean a configuration with the asked carrier, bandwidth, spreading
    factor and coding rate, each brought into range, with the low-data-rate bit that
    follows from them; the sync word is the configured one, CRC is on, frames start at
    the beginning of the buffer, and the chip receives. *)
Theorem sx7_radio_comes_up `{Board} (m : modem (radio7 W)) :
  radio_online m = false -> wf7 (chip7_of (wd (drv m))) -> radio_online (snd (startRadio false true m)) = true ->
  let c := read_config (chip7_of (wd (drv (snd (startRadio false true m))))) in
  let p := par m in let bw := bw_code7 (lora_bw p) in let sf := clamp 6 12 (lora_sf p) in
  means (drv (snd (startRadio false true m))) c /\
  cf_frf c = frf_of (lora_freq p) mod 2 ^ 24 /\ cf_bw c = bw /\ cf_sf c = sf /\ cf_cr c = clamp 5 8 (lora_cr p) - 4 /\
  cf_ldro c = ldro_of7 sf (bandwidth_of7 bw) /\ cf_sync_word c = u8 (lora_sw m) /\
  cf_crc c = 1 /\ cf_base c = 0 /\ cf_rx c = true.
Proof.
  intros Hoff Hw Hon. cbn zeta. destruct (startRadio_drives m Hoff Hon) as (d & Eb & power & n1 & n2 & n3 & size & Hp & ->).
  cbn [lora_begin sx7_modem] in Eb. pose proof (begin7_outcome (lora_freq (par m)) (drv m) Hw) as Hb. rewrite Eb in Hb.
  destruct Hb as [Hwd Hb]. destruct (Hb eq_refl) as [c0 Ec]. clear Hb Eb Hon.
  assert (Hm : exists c1, means (power d) c1 /\ cf_frf c1 = frf_of (lora_freq (par m)) mod 2 ^ 24 /\ cf_base c1 = 0).
  { assert (Hd : means d (begun (lora_freq (par m)) c0)) by (split; assumption).
    assert (B : cf_frf (begun (lora_freq (par m)) c0) = frf_of (lora_freq (par m)) mod 2 ^ 24 /\ cf_base (begun (lora_freq (par m)) c0) = 0).
    { unfold begun. cbn [config_step]. unfold with_errata. destruct c0. cbn. destruct (_ && _); [|destruct (_ && _)]; auto. }
    destruct Hp as [->|(level & pin & ->)]; eexists; (split; [eassumption || exact (means_run _ _ _ _ (sets_power level pin) Hd)|]); exact B. }
  destruct Hm as (c1 & Hm & Ef & E0). cbn [lora_setSignalBandwidth lora_setSpreadingFactor lora_setCodingRate4 lora_setSyncWord
    lora_setPreambleLength lora_enableCrc lora_receive sx7_modem].
  pose proof (means_run _ _ _ _ (sets_receive size) (means_run _ _ _ _ (sets_onReceive true) (means_run _ _ _ _ (sets_crc true)
    (means_run _ _ _ _ (sets_syncWord (lora_sw m)) (means_run _ _ _ _ (sets_preamble n3) (means_run _ _ _ _ (sets_coding (lora_cr (par m)))
    (means_run _ _ _ _ (sets_preamble n2) (means_run _ _ _ _ (sets_spreading (lora_sf (par m))) (means_run _ _ _ _ (sets_preamble n1)
    (means_run _ _ _ _ (sets_bandwidth (lora_bw (par m))) Hm)))))))))) as [Hw' E].
  split; [exact (conj Hw' eq_refl)|]. rewrite E. clear E Hw'. cbn [config_step]. unfold with_errata, with_ldro7.
  destruct c1. cbn in *. destruct (_ && _); [|destruct (_ && _)]; cbn; auto 12.
Qed.
End Guarantees.

(** ** Witnesses, on the simulated chip *)

Lemma endPacket7_returns_witness : fst (@sx7_endPacket sim7 sim7_world 3 radio7_0) = Some true.
Proof. exact (proj1 (@endPacket7_returns sim7 sim7_world sim7_sx1276 sim7_sends radio7_0 wf7_0)). Defined.

Definition modem7_0 : modem (radio7 sim7) :=
  mk_modem false false (mk_lora 11 6 0 125000 868000000) 0x12 false 14 false MODEL_CA 0 false [] rates0 radio7_0 [].
Lemma sx7_radio_comes_up_witness :
  let c := read_config (chip7_of (wd (drv (snd (@startRadio heltec32_v3 _ (@sx7_modem sim7 sim7_world) false true modem7_0))))) in
  cf_sf c = 11 /\ cf_bw c = 7 /\ cf_ldro c = false /\ cf_crc c = 1 /\ cf_rx c = true.
Proof.
  pose proof (@sx7_radio_comes_up sim7 sim7_world sim7_sx1276 heltec32_v3 modem7_0 eq_refl wf7_0
    ltac:(vm_compute; reflexivity)) as P.
  cbv zeta in P. destruct P as (_ & _ & P2 & P3 & _ & P5 & _ & P7 & _ & P9). split_and!; assumption.
Defined.
