(* ===== verification/Sx128x.v ===== *)
(** * The SX1280 driver (sx128x.cpp, sx128x.h)

    The 2.4 GHz transceiver takes commands as the SX1262 does, with other codes and
    other arguments.  The methods are programs over the object, the globals of the file
    and the world (Driver.v), with the prefix [sx8_] for [sx128x::].  What holds of
    them is in [Sx128xLink.v]. *)
From Stdlib Require Import Floats.SpecFloat.
From S2P Require Import Prelude Driver Boards Float.
#[local] Open Scope drv_scope.

(** ** Constants *)

(* @src sx128x.cpp:40-77 OP_RF_FREQ_8X *)
Definition OP_RF_FREQ_8X : Z := 0x86.
Definition OP_SLEEP_8X : Z := 0x84.
Definition OP_STANDBY_8X : Z := 0x80.
Definition OP_TX_8X : Z := 0x83.
Definition OP_RX_8X : Z := 0x82.
Definition OP_SET_IRQ_FLAGS_8X : Z := 0x8D.
Definition OP_CLEAR_IRQ_STATUS_8X : Z := 0x97.
Definition OP_GET_IRQ_STATUS_8X : Z := 0x15.
Definition OP_RX_BUFFER_STATUS_8X : Z := 0x17.
Definition OP_PACKET_STATUS_8X : Z := 0x1D.
Definition OP_CURRENT_RSSI_8X : Z := 0x1F.
Definition OP_MODULATION_PARAMS_8X : Z := 0x8B.
Definition OP_PACKET_PARAMS_8X : Z := 0x8C.
Definition OP_TX_PARAMS_8X : Z := 0x8E.
Definition OP_PACKET_TYPE_8X : Z := 0x8A.
Definition OP_BUFFER_BASE_ADDR_8X : Z := 0x8F.
Definition OP_READ_REGISTER_8X : Z := 0x19.
Definition OP_WRITE_REGISTER_8X : Z := 0x18.
Definition IRQ_TX_DONE_MASK_8X : Z := 0x01.
Definition IRQ_RX_DONE_MASK_8X : Z := 0x02.
Definition IRQ_HEADER_DET_MASK_8X : Z := 0x10.
Definition IRQ_HEADER_ERROR_MASK_8X : Z := 0x20.
Definition IRQ_PAYLOAD_CRC_ERROR_MASK_8X : Z := 0x40.
Definition MODE_LONG_RANGE_MODE_8X : Z := 0x01.
Definition OP_FIFO_WRITE_8X : Z := 0x1A.
Definition OP_FIFO_READ_8X : Z := 0x1B.
Definition IRQ_PREAMBLE_DET_MASK_8X : Z := 0x80.
Definition REG_FIRM_VER_MSB : Z := 0x154.
Definition REG_FIRM_VER_LSB : Z := 0x153.
Definition REG_LORA_SYNC_WORD_MSB_8X : Z := 0x0944.
Definition REG_LORA_SYNC_WORD_LSB_8X : Z := 0x0945.
Definition SYNC_WORD_8X : Z := 0x12.
(* @src sx128x.cpp:90-90 MAX_PKT_LENGTH *)
Definition MAX_PKT_LENGTH_8X : Z := 255.
(* @src sx128x.h:17-17 LORA_MODEM_TIMEOUT_MS *)
Definition LORA_MODEM_TIMEOUT_MS_8X : Z := 15000.
(** 52 MHz by 2^18, a [double]. *)
(* @src sx128x.cpp:79-81 FREQ_STEP_8X *)
Definition FREQ_STEP_8X : cfloat := f64_div (f64_of_Z 52000000) (f64_of_Z (2 ^ 18)).

(** The symbols of the build only this driver tests.  The preprocessor takes a symbol
    that is not defined for 0: [BOARD_VARIANT] is defined nowhere in the repository,
    and [MODEL_21] is not either. *)
Class Sx1280Build := { BOARD_VARIANT : Z }.
Definition MODEL_21 : Z := 0.

(** ** State *)

(** The [int] fields hold small values; [_receive_callback] is whether one is set. *)
(* @src sx128x.h:115-141 sx128x *)
Record sx128x := mk_sx128x {
  _ss : Z; _reset : Z; _dio0 : Z; _rxen : Z; _txen : Z; _busy : Z;
  _frequency : Z; _txp : Z; _sf : Z; _bw : Z; _cr : Z;
  _packetIndex : Z; _preambleLength : Z; _implicitHeaderMode : Z; _payloadLength : Z; _crcMode : Z;
  _fifo_tx_addr_ptr : Z; _fifo_rx_addr_ptr : Z;
  _packet : list Z;
  _preinit_done : bool; _radio_online : bool; _rxPacketLength : Z; _bitrate : Z; _receive_callback : bool
}.
(* @src sx128x.cpp:92-96 sx128x *)
Definition sx128x0 : sx128x :=
  mk_sx128x 10 9 2 (-1) (-1) (-1) 0 0 0x05 0x34 0x01 0 0 0 255 0 0 0 (repeat 0 256) false false 0 0 false.

(** The globals of the file, and those of Config.h it writes. *)
(* @src sx128x.cpp:266-269 preamble_e *)
Record sx8_globals := mk_sx8_globals {
  preamble_e : Z; preamble_m : Z; last_me_result_target : Z; lora_preamble_symbols : Z;
  preamble_detected_at : Z; false_preamble_detected : bool; lora_low_datarate : bool
}.
Abbreviation radio8 := (device sx128x sx8_globals).
Abbreviation M8 := (prog sx128x sx8_globals).

Section Driver.
Context {W : Type} `{World W} `{Board} `{Sx1280Build}.
Implicit Types (s : radio8 W).

(** ** Transactions *)

(** [false]: the fuel ran out. *)
(* @src sx128x.cpp:200-205 waitOnBusy *)
Fixpoint busy_loop8 (fuel : nat) (busy time : Z) : M8 W bool :=
  match fuel with
  | O => ret false
  | S fuel =>
      b ← call (digitalRead busy);
      if b then
        now ← call millis;
        if u32 (time + 100) <=? now then ret true else busy_loop8 fuel busy time
      else ret true
  end.
(* @src sx128x.cpp:200-205 waitOnBusy *)
Definition sx8_waitOnBusy : M8 W bool :=
  time ← call millis; busy ← get _busy; busy_loop8 (S busy_reads) busy time.
Definition transfer8 (mosi : list Z) : M8 W (list Z) := _ ← sx8_waitOnBusy; call (spi mosi).
(* @src sx128x.cpp:168-183 singleTransfer *)
Definition sx8_singleTransfer (opcode address value : Z) : M8 W Z :=
  miso ← transfer8 ([opcode; Z.shiftr (Z.land address 0xFF00) 8; Z.land address 0x00FF] ++
                    (if opcode =? OP_READ_REGISTER_8X then [0x00] else []) ++ [value]);
  ret (last miso 0).
(* @src sx128x.cpp:165-166 readRegister *)
Definition sx8_readRegister (address : Z) : M8 W Z := sx8_singleTransfer OP_READ_REGISTER_8X address 0x00.
Definition sx8_writeRegister (address value : Z) : M8 W unit :=
  _ ← sx8_singleTransfer OP_WRITE_REGISTER_8X address value; skip.
(* @src sx128x.cpp:207-215 executeOpcode *)
Definition sx8_executeOpcode (opcode : Z) (buffer : list Z) : M8 W unit := _ ← transfer8 (opcode :: buffer); skip.
(* @src sx128x.cpp:217-226 executeOpcodeRead *)
Definition sx8_executeOpcodeRead (opcode : Z) (size : nat) : M8 W (list Z) :=
  miso ← transfer8 ([opcode; 0x00] ++ repeat 0x00 size); ret (drop 2 miso).
(* @src sx128x.cpp:228-237 writeBuffer *)
Definition sx8_writeBuffer (buffer : list Z) : M8 W unit :=
  ptr ← get _fifo_tx_addr_ptr;
  _ ← transfer8 ([OP_FIFO_WRITE_8X; u8 ptr] ++ buffer);
  upd (fun d => d <| _fifo_tx_addr_ptr := ptr + zlen buffer |>).
(* @src sx128x.cpp:239-249 readBuffer *)
Definition sx8_readBuffer (size : nat) : M8 W (list Z) :=
  ptr ← get _fifo_rx_addr_ptr;
  miso ← transfer8 ([OP_FIFO_READ_8X; u8 ptr; 0x00] ++ repeat 0x00 size); ret (drop 3 miso).

(* @src sx128x.cpp:185-193 rxAntEnable *)
Definition sx8_rxAntEnable : M8 W unit :=
  txen ← get _txen; rxen ← get _rxen;
  when (negb (txen =? -1)) (act (digitalWrite txen LOW)) ;; when (negb (rxen =? -1)) (act (digitalWrite rxen HIGH)).
Definition sx8_txAntEnable : M8 W unit :=
  txen ← get _txen; rxen ← get _rxen;
  when (negb (txen =? -1)) (act (digitalWrite txen HIGH)) ;; when (negb (rxen =? -1)) (act (digitalWrite rxen LOW)).
(* @src sx128x.cpp:195-198 loraMode *)
Definition sx8_loraMode : M8 W unit := sx8_executeOpcode OP_PACKET_TYPE_8X [MODE_LONG_RANGE_MODE_8X].
(* @src sx128x.cpp:603-606 standby *)
Definition sx8_standby : M8 W unit := sx8_executeOpcode OP_STANDBY_8X [0x01].
(* @src sx128x.cpp:889-889 sleep *)
Definition sx8_sleep : M8 W unit := sx8_executeOpcode OP_SLEEP_8X [0x00].

(** ** Parameters of the modem *)

(* @src sx128x.cpp:251-264 setModulationParams *)
Definition sx8_setModulationParams (sf bw cr : Z) : M8 W unit :=
  sx8_executeOpcode OP_MODULATION_PARAMS_8X [u8 (Z.shiftl sf 4); bw; cr] ;;
  (if sf <=? 6 then sx8_writeRegister 0x925 0x1E
   else if sf <=? 8 then sx8_writeRegister 0x925 0x37
   else sx8_writeRegister 0x925 0x32) ;;
  sx8_writeRegister 0x093C 0x1.

(** The preamble length the modem takes is a mantissa times a power of two.  The inner
    loop counts the mantissa up to 15; [calculated] is the product looked at last. *)
(* @src sx128x.cpp:278-282 setPacketParams *)
Fixpoint find_m (fuel : nat) (e m wanted calculated : Z) : Z * Z :=
  match fuel with
  | O => (m, calculated)
  | S fuel =>
      if m <=? 15 then
        let calculated := u32 (m * 2 ^ e) in
        if wanted <=? calculated then (m, calculated) else find_m fuel e (m + 1) wanted calculated
      else (m, calculated)
  end.
(* @src sx128x.cpp:277-286 setPacketParams *)
Fixpoint find_e (fuel : nat) (e m wanted calculated : Z) : Z * Z * Z :=
  match fuel with
  | O => (e, m, calculated)
  | S fuel =>
      if e <=? 15 then
        let '(m, calculated) := find_m 16 e m wanted calculated in
        if wanted <=? calculated then (e, m, calculated) else find_e fuel (u8 (e + 1)) 1 wanted calculated
      else (e, m, calculated)
  end.
(** Exponent, mantissa and the symbols they stand for; the four symbols the modem adds
    are taken off in [uint32_t]. *)
(* @src sx128x.cpp:273-286 setPacketParams *)
Definition preamble_search (target : Z) : Z * Z * Z :=
  find_e 16 1 1 (u32 (target - 4)) 0.
(* @src sx128x.cpp:270-306 setPacketParams *)
Definition sx8_setPacketParams (target_preamble_symbols headermode payload_length crc : Z) : M8 W unit :=
  last_target ← getg last_me_result_target;
  when (negb (last_target =? target_preamble_symbols)) (
    let target := if 0xF000 <=? target_preamble_symbols then 0xF000 else target_preamble_symbols in
    let '(e, m, calculated) := preamble_search target in
    updg (fun g => g <| last_me_result_target := target |> <| lora_preamble_symbols := calculated + 4 |>) ;;
    upd (fun d => d <| _preambleLength := u32 (calculated + 4) |>) ;;
    updg (fun g => g <| preamble_e := e |> <| preamble_m := m |>)) ;;
  e ← getg preamble_e; m ← getg preamble_m;
  sx8_executeOpcode OP_PACKET_PARAMS_8X
    [u8 (Z.lor (Z.shiftl e 4) m); u8 headermode; u8 payload_length; u8 crc; 0x40; 0x00; 0x00].
(** The call every setter of the packet format makes. *)
Definition push_packet8 : M8 W unit :=
  d ← get (fun d => d);
  sx8_setPacketParams (_preambleLength d) (_implicitHeaderMode d) (_payloadLength d) (_crcMode d).
(* @src sx128x.cpp:892-893 enableCrc *)
Definition sx8_enableCrc : M8 W unit := upd (fun d => d <| _crcMode := 0x20 |>) ;; push_packet8.
Definition sx8_disableCrc : M8 W unit := upd (fun d => d <| _crcMode := 0 |>) ;; push_packet8.
(* @src sx128x.cpp:895-896 explicitHeaderMode *)
Definition sx8_explicitHeaderMode : M8 W unit := upd (fun d => d <| _implicitHeaderMode := 0 |>) ;; push_packet8.
Definition sx8_implicitHeaderMode : M8 W unit := upd (fun d => d <| _implicitHeaderMode := 0x80 |>) ;; push_packet8.
(* @src sx128x.cpp:876-876 setPreambleLength *)
Definition sx8_setPreambleLength (preamble_symbols : Z) : M8 W unit :=
  d ← get (fun d => d);
  sx8_setPacketParams (u32 preamble_symbols) (_implicitHeaderMode d) (_payloadLength d) (_crcMode d).

(* @src sx128x.cpp:837-847 getSignalBandwidth *)
Definition bandwidth_of8 (bw : Z) : Z :=
  if bw =? 0x34 then 203125 else if bw =? 0x26 then 406250 else if bw =? 0x18 then 812500
  else if bw =? 0x0A then 1625000 else 0.
Definition sx8_getSignalBandwidth (d : sx128x) : Z := bandwidth_of8 (_bw d).
(* @src sx128x.cpp:868-872 handleLowDataRate *)
Definition sx8_handleLowDataRate : M8 W unit :=
  sf ← get _sf; updg (fun g => g <| lora_low_datarate := 10 <? sf |>).
Definition push_modulation8 : M8 W unit := d ← get (fun d => d); sx8_setModulationParams (_sf d) (_bw d) (_cr d).
(* @src sx128x.cpp:828-835 setSpreadingFactor *)
Definition sx8_setSpreadingFactor (sf : Z) : M8 W unit :=
  let sf := if sf <? 5 then 5 else if 12 <? sf then 12 else sf in
  upd (fun d => d <| _sf := sf |>) ;; push_modulation8 ;; sx8_handleLowDataRate.
(* @src sx128x.cpp:849-858 setSignalBandwidth *)
Definition bw_code8 (sbw : Z) : Z :=
  if sbw <=? 203125 then 0x34 else if sbw <=? 406250 then 0x26 else if sbw <=? 812500 then 0x18 else 0x0A.
Definition sx8_setSignalBandwidth (sbw : Z) : M8 W unit :=
  upd (fun d => d <| _bw := bw_code8 sbw |>) ;; push_modulation8 ;; sx8_handleLowDataRate.
(* @src sx128x.cpp:861-866 setCodingRate4 *)
Definition sx8_setCodingRate4 (denominator : Z) : M8 W unit :=
  let denominator := if denominator <? 5 then 5 else if 8 <? denominator then 8 else denominator in
  upd (fun d => d <| _cr := denominator - 4 |>) ;; push_modulation8.
(* @src sx128x.cpp:877-886 setSyncWord *)
Definition sync_bytes8 (sw : Z) : Z * Z :=
  let controlBits := 0x44 in
  (Z.lor (Z.land sw 0xF0) (Z.shiftr (Z.land controlBits 0xF0) 4),
   u8 (Z.lor (Z.shiftl (Z.land sw 0x0F) 4) (Z.land controlBits 0x0F))).
Definition sx8_setSyncWord (sw : Z) : M8 W unit :=
  let '(msb, lsb) := sync_bytes8 (u8 sw) in
  sx8_writeRegister REG_LORA_SYNC_WORD_MSB_8X msb ;; sx8_writeRegister REG_LORA_SYNC_WORD_LSB_8X lsb.
(** [(uint32_t)(frequency / FREQ_STEP_8X)] in [double]. *)
(* @src sx128x.cpp:811-820 setFrequency *)
Definition freq_steps8 (frequency : Z) : Z := u32 (f_trunc (f64_div (f64_of_Z frequency) FREQ_STEP_8X)).
Definition sx8_setFrequency (frequency : Z) : M8 W unit :=
  upd (fun d => d <| _frequency := frequency |>) ;;
  let freq := freq_steps8 frequency in
  sx8_executeOpcode OP_RF_FREQ_8X [Z.land (Z.shiftr freq 16) 0xFF; Z.land (Z.shiftr freq 8) 0xFF; Z.land freq 0xFF].
(* @src sx128x.cpp:822-826 getFrequency *)
Definition sx8_getFrequency (d : sx128x) : Z := u32 (_frequency d).

(** ** Power *)

Definition wisblock_levels : list Z :=
  [-18; -16; -15; -14; -13; -12; -11; -9; -8; -7; -6; -5; -4; -3; -2; -1; 0; 1; 2; 3; 4; 5; 6; 7; 8; 9; 12; 13].
Definition t3s3_levels : list Z := [-18; -17; -16; -15; -14; -13; -12; -10; -9; -8; -7; -6; -5; -4; -3; -2; -1; 0; 1; 2; 3].
(** The level [_txp] records and the byte sent to the chip. *)
(* @src sx128x.cpp:617-806 setTxPower *)
Definition power_byte (level : Z) : Z * Z :=
  if (BOARD_VARIANT =? MODEL_13) || (BOARD_VARIANT =? MODEL_21) then
    let level := if 27 <? level then 27 else if level <? 0 then 0 else level in
    (level, u8 (zget 0 wisblock_levels level + 18))
  else if BOARD_VARIANT =? MODEL_AC then
    let level := if 20 <? level then 20 else if level <? 0 then 0 else level in
    (level, u8 (zget 0 t3s3_levels level))
  else
    let level := if 13 <? level then 13 else if level <? -18 then -18 else level in
    (level, u8 (level + 18)).
(** The first table sends the command twice. *)
(* @src sx128x.cpp:617-809 setTxPower *)
Definition sx8_setTxPower (level outputPin : Z) : M8 W unit :=
  let '(txp, b) := power_byte level in
  upd (fun d => d <| _txp := txp |>) ;;
  when ((BOARD_VARIANT =? MODEL_13) || (BOARD_VARIANT =? MODEL_21)) (sx8_executeOpcode OP_TX_PARAMS_8X [b; 0xE0]) ;;
  sx8_executeOpcode OP_TX_PARAMS_8X [b; 0xE0].
(* @src sx128x.cpp:890-890 getTxPower *)
Definition sx8_getTxPower (d : sx128x) : Z := u8 (_txp d).

(** ** Start and end *)

(* @src sx128x.cpp:608-615 setPins *)
Definition sx8_setPins (ss reset dio0 busy rxen txen : Z) : M8 W unit :=
  upd (fun d => d <| _ss := ss |> <| _reset := reset |> <| _dio0 := dio0 |> <| _busy := busy |>
                  <| _rxen := rxen |> <| _txen := txen |>).
(* @src sx128x.cpp:308-316 reset *)
Definition sx8_reset : M8 W unit :=
  reset ← get _reset;
  when (negb (reset =? -1))
    (act (pinMode reset) ;; act (digitalWrite reset LOW) ;; act (delay 10) ;;
     act (digitalWrite reset HIGH) ;; act (delay 10)).
(* @src sx128x.cpp:156-160 preInit *)
Definition version_known (msb lsb : Z) : bool :=
  ((msb =? 0xB7) && (lsb =? 0xA9)) || ((msb =? 0xB5) && (lsb =? 0xA9)).
(** Each turn lasts the 100 ms of its [delay]: six turns are enough.  The two bytes have
    no initial value in the source. *)
(* @src sx128x.cpp:149-158 preInit *)
Fixpoint preinit_loop8 (fuel : nat) (start msb lsb : Z) : M8 W (Z * Z) :=
  match fuel with
  | O => ret (msb, lsb)
  | S fuel =>
      now ← call millis;
      if u32 (now - start) <? 500 then
        now ← call millis;
        if start <=? now then
          msb ← sx8_readRegister REG_FIRM_VER_MSB;
          lsb ← sx8_readRegister REG_FIRM_VER_LSB;
          if version_known msb lsb then ret (msb, lsb)
          else act (delay 100) ;; preinit_loop8 fuel start msb lsb
        else ret (msb, lsb)
      else ret (msb, lsb)
  end.
(* @src sx128x.cpp:134-163 preInit *)
Definition sx8_preInit : M8 W bool :=
  ss ← get _ss;
  act (pinMode ss) ;; act (digitalWrite ss HIGH) ;; act spi_begin ;;
  start ← call millis;
  '(msb, lsb) ← preinit_loop8 6 start 0 0;
  if negb (version_known msb lsb) then ret false
  else upd (fun d => d <| _preinit_done := true |>) ;; ret true.
(* @src sx128x.cpp:331-348 begin *)
Definition configure8 (frequency : Z) : M8 W unit :=
  sx8_standby ;; sx8_loraMode ;; sx8_setSyncWord SYNC_WORD_8X ;; sx8_rxAntEnable ;; sx8_setFrequency frequency ;;
  push_modulation8 ;; push_packet8 ;;
  txp ← get _txp; sx8_setTxPower txp 1 ;;
  sx8_executeOpcode OP_BUFFER_BASE_ADDR_8X [0; 0] ;;
  upd (fun d => d <| _radio_online := true |>).
(* @src sx128x.cpp:318-350 begin *)
Definition sx8_begin (frequency : Z) : M8 W bool :=
  sx8_reset ;;
  d ← get (fun d => d);
  when (negb (_rxen d =? -1)) (act (pinMode (_rxen d))) ;;
  when (negb (_txen d =? -1)) (act (pinMode (_txen d))) ;;
  when (negb (_busy d =? -1)) (act (pinMode (_busy d))) ;;
  ok ← (if _preinit_done d then ret true else sx8_preInit);
  if (ok : bool) then configure8 frequency ;; ret true else ret false.
(* @src sx128x.cpp:352-358 end *)
Definition sx8_end : M8 W unit :=
  sx8_sleep ;; act spi_end ;;
  upd (fun d => d <| _bitrate := 0 |> <| _radio_online := false |> <| _preinit_done := false |>).

(** ** Transmitting *)

(* @src sx128x.cpp:360-371 beginPacket *)
Definition sx8_beginPacket (implicitHeader : bool) : M8 W unit :=
  sx8_standby ;;
  (if implicitHeader then sx8_implicitHeaderMode else sx8_explicitHeaderMode) ;;
  upd (fun d => d <| _payloadLength := 0 |> <| _fifo_tx_addr_ptr := 0 |>) ;;
  push_packet8.
(* @src sx128x.cpp:488-494 write *)
Definition sx8_write (buffer : list Z) : M8 W Z :=
  len ← get _payloadLength;
  let size := zlen buffer in
  let size := if MAX_PKT_LENGTH_8X <? u32 (len + size) then u32 (MAX_PKT_LENGTH_8X - len) else size in
  sx8_writeBuffer (take (Z.to_nat size) buffer) ;;
  upd (fun d => d <| _payloadLength := len + size |>) ;;
  ret size.

Definition irq_status8 : M8 W (Z * Z) :=
  buf ← sx8_executeOpcodeRead OP_GET_IRQ_STATUS_8X 2; ret (zget 0 buf 0, zget 0 buf 1).
Definition tx_done8 (irq : Z) : bool := negb (Z.land irq IRQ_TX_DONE_MASK_8X =? 0).
(** A turn is a transaction and a [yield()], with no wait in it: [fuel] is how many fit
    in the fifteen seconds.  [None]: out of fuel. *)
(* @src sx128x.cpp:386-394 endPacket *)
Fixpoint tx_poll8 (fuel : nat) (w_timeout irq : Z) : M8 W (option Z) :=
  match fuel with
  | O => ret None
  | S fuel =>
      now ← call millis;
      if (now <? w_timeout) && negb (tx_done8 irq) then
        st ← irq_status8; tx_poll8 fuel w_timeout (snd st)
      else ret (Some irq)
  end.
(* @src sx128x.cpp:373-406 endPacket *)
Definition sx8_endPacket (fuel : nat) : M8 W (option bool) :=
  push_packet8 ;; sx8_txAntEnable ;;
  sx8_executeOpcode OP_TX_8X [0x00; 0x00; 0x00] ;;
  st ← irq_status8;
  now ← call millis;
  let w_timeout := double_to_u32 (now + LORA_MODEM_TIMEOUT_MS_8X) in
  irq ← tx_poll8 fuel w_timeout (snd st);
  match irq with
  | None => ret None
  | Some _ =>
      now ← call millis;
      let timed_out := negb (now <? w_timeout) in
      sx8_executeOpcode OP_CLEAR_IRQ_STATUS_8X [0x00; IRQ_TX_DONE_MASK_8X] ;;
      ret (Some (negb timed_out))
  end.

(** ** Receiving *)

(** Single receive mode, because of the errata of the chip. *)
(* @src sx128x.cpp:579-601 receive *)
Definition sx8_receive (size : Z) : M8 W unit :=
  (if 0 <? size then sx8_implicitHeaderMode else sx8_explicitHeaderMode) ;;
  sx8_rxAntEnable ;; sx8_executeOpcode OP_RX_8X [0x00; 0x00; 0x00].
(* @src sx128x.cpp:98-106 getPacketValidity *)
Definition sx8_getPacketValidity : M8 W bool :=
  st ← irq_status8;
  sx8_executeOpcode OP_CLEAR_IRQ_STATUS_8X [fst st; snd st] ;;
  ret (Z.land (snd st) IRQ_PAYLOAD_CRC_ERROR_MASK_8X =? 0).
(** [Some n]: the callback is called with the packet length. *)
(* @src sx128x.cpp:121-132 handleDio0Rise *)
Definition sx8_handleDio0Rise : M8 W (option Z) :=
  upd (fun d => d <| _packetIndex := 0 |>) ;;
  rxbuf ← sx8_executeOpcodeRead OP_RX_BUFFER_STATUS_8X 2;
  upd (fun d => d <| _rxPacketLength := if _implicitHeaderMode d =? 0x80 then _payloadLength d else zget 0 rxbuf 0 |>) ;;
  d ← get (fun d => d);
  ret (if _receive_callback d then Some (_rxPacketLength d) else None).
(* @src sx128x.cpp:108-119 onDio0Rise *)
Definition sx8_onDio0Rise : M8 W (option Z) :=
  valid ← sx8_getPacketValidity;
  if (valid : bool) then sx8_receive 0 ;; sx8_handleDio0Rise else sx8_receive 0 ;; ret None.
(* @src sx128x.cpp:487-487 available *)
Definition sx8_available (d : sx128x) : Z := _rxPacketLength d - _packetIndex d.
(* @src sx128x.cpp:499-517 read *)
Definition fetch_packet8 : M8 W unit :=
  d ← get (fun d => d);
  when (_packetIndex d =? 0) (
    rxbuf ← sx8_executeOpcodeRead OP_RX_BUFFER_STATUS_8X 2;
    let size := if _implicitHeaderMode d =? 0x80 then _payloadLength d else zget 0 rxbuf 0 in
    upd (fun d => d <| _fifo_rx_addr_ptr := zget 0 rxbuf 1 |>) ;;
    let size := if 255 <? size then 255 else size in
    bs ← sx8_readBuffer (Z.to_nat size);
    upd (fun d => d <| _packet ::= fun p => bs ++ drop (length bs) p |>)).
(* @src sx128x.cpp:496-522 read *)
Definition sx8_read : M8 W Z :=
  n ← get sx8_available;
  if n =? 0 then ret (-1)
  else
    fetch_packet8 ;;
    d ← get (fun d => d);
    upd (fun d => d <| _packetIndex ::= fun i => i + 1 |>) ;;
    ret (zget 0 (_packet d) (_packetIndex d)).
(* @src sx128x.cpp:524-528 peek *)
Definition sx8_peek (d : sx128x) : Z := if sx8_available d =? 0 then -1 else zget 0 (_packet d) (_packetIndex d).
(* @src sx128x.cpp:531-577 onReceive *)
Definition sx8_onReceive (callback : bool) : M8 W unit :=
  upd (fun d => d <| _receive_callback := callback |>) ;;
  dio0 ← get _dio0;
  if callback then
    act (pinMode dio0) ;;
    sx8_executeOpcode OP_SET_IRQ_FLAGS_8X
      [0xFF; 0xFF; 0x00; Z.lor IRQ_RX_DONE_MASK_8X IRQ_HEADER_ERROR_MASK_8X; 0x00; 0x00; 0x00; 0x00] ;;
    act (attachInterrupt dio0)
  else act (detachInterrupt dio0).

(** ** Channel state *)

(* @src sx128x.cpp:412-437 dcd *)
Definition sx8_dcd (lora_preamble_time_ms lora_header_time_ms : Z) : M8 W bool :=
  st ← irq_status8;
  now ← call millis;
  let header_detected := negb (Z.land (snd st) IRQ_HEADER_DET_MASK_8X =? 0) in
  let preamble_detected := negb (Z.land (fst st) IRQ_PREAMBLE_DET_MASK_8X =? 0) in
  when preamble_detected (
    updg (fun g => if preamble_detected_at g =? 0 then g <| preamble_detected_at := now |> else g) ;;
    at_ ← getg preamble_detected_at;
    when (u32 (lora_preamble_time_ms + lora_header_time_ms) <? u32 (now - at_)) (
      updg (fun g => g <| preamble_detected_at := 0 |>) ;;
      when (negb header_detected) (updg (fun g => g <| false_preamble_detected := true |>)) ;;
      sx8_executeOpcode OP_CLEAR_IRQ_STATUS_8X [IRQ_PREAMBLE_DET_MASK_8X; 0x00])) ;;
  false_preamble ← getg false_preamble_detected;
  when false_preamble (sx8_receive 0 ;; updg (fun g => g <| false_preamble_detected := false |>)) ;;
  ret (header_detected || preamble_detected).
(* @src sx128x.cpp:440-444 currentRssiRaw *)
Definition sx8_currentRssiRaw : M8 W Z := buf ← sx8_executeOpcodeRead OP_CURRENT_RSSI_8X 1; ret (zget 0 buf 0).
(* @src sx128x.cpp:446-451 currentRssi *)
Definition sx8_currentRssi : M8 W Z := raw ← sx8_currentRssiRaw; ret (Z.quot (- raw) 2).
Definition packet_status8 (i : Z) : M8 W Z := buf ← sx8_executeOpcodeRead OP_PACKET_STATUS_8X 5; ret (zget 0 buf i).
(* @src sx128x.cpp:453-457 packetRssiRaw *)
Definition sx8_packetRssiRaw : M8 W Z := packet_status8 0.
(* @src sx128x.cpp:459-465 packetRssi *)
Definition sx8_packetRssi (pkt_snr_raw : Z) : M8 W Z := raw ← packet_status8 0; ret (Z.quot (- raw) 2).
(* @src sx128x.cpp:467-471 packetSnrRaw *)
Definition sx8_packetSnrRaw : M8 W Z := packet_status8 1.
(* @src sx128x.cpp:473-477 packetSnr *)
Definition sx8_packetSnr_quarters : M8 W Z := packet_status8 1.
End Driver.
