(* ===== verification/Sx128xLink.v ===== *)
(** * What the SX1280 driver guarantees

    The chip as a state machine of the transactions it is sent; the driver as an
    implementation of the interface of the link layer over it; the search for a
    preamble length the modem can be given; and what the driver does at its edges: the
    power table every build gets, and an interrupt that is not a packet. *)
From S2P Require Import Prelude Framing TxQueue Link Boards Driver Sx128x.
#[local] Open Scope drv_scope.

(** ** The search for a preamble length *)

Lemma find_m_spec fuel e m w c : 0 <= e <= 15 -> 1 <= m <= 16 -> Z.of_nat fuel = 17 - m ->
  let r := find_m fuel e m w c in
  (m <= fst r <= 15 /\ snd r = fst r * 2 ^ e /\ w <= snd r /\ (fst r = m \/ (fst r - 1) * 2 ^ e < w)) \/
  (snd r = (if m <=? 15 then 15 * 2 ^ e else c) /\ (m <= 15 -> 15 * 2 ^ e < w)).
Proof.
  intros He Hm. assert (Hp : 0 < 2 ^ e <= 2 ^ 15) by (split; [lia|apply Z.pow_le_mono_r; lia]). change (2 ^ 15) with 32768 in Hp.
  revert m c Hm. induction fuel as [|fuel IH]; intros m c Hm Hf; [lia|]. cbn [find_m].
  destruct (Z.leb_spec m 15); [|right; cbn; lia].
  rewrite u32_id by nia. destruct (Z.leb_spec w (m * 2 ^ e)); [left; cbn; lia|].
  destruct (IH (m + 1) (m * 2 ^ e) ltac:(lia) ltac:(lia)) as [(H1 & H2 & H3 & H4)|(H1 & H2)]; [left|right].
  - split_and!; auto; [lia..|right]. destruct H4 as [->|]; [|assumption]. replace (m + 1 - 1) with m by lia. lia.
  - rewrite H1. destruct (Z.leb_spec (m + 1) 15); [auto|]. replace m with 15 in * by lia. auto.
Qed.

(** Starting over from each exponent, the search stops at the first that is enough. *)
Lemma find_e_spec fuel e w c : 1 <= e <= 15 -> e + Z.of_nat fuel = 17 -> w <= 15 * 2 ^ 15 ->
  let '(e', m, c') := find_e fuel e 1 w c in
  e <= e' <= 15 /\ 1 <= m <= 15 /\ c' = m * 2 ^ e' /\ w <= c' /\ (m = 1 \/ (m - 1) * 2 ^ e' < w) /\ (e' = e \/ 15 * 2 ^ (e' - 1) < w).
Proof.
  revert e c. induction fuel as [|fuel IH]; intros e c He Hf Hw; [lia|]. cbn [find_e].
  destruct (Z.leb_spec e 15); [|lia].
  pose proof (find_m_spec 16 e 1 w c ltac:(lia) ltac:(lia) eq_refl) as Hm. cbn zeta in Hm.
  destruct (find_m 16 e 1 w c) as [m c']. cbn [fst snd] in Hm. destruct (Z.leb_spec w c').
  - destruct Hm as [(H1 & H2 & H3 & H4)|(H1 & H2)]; [|cbn in H1; lia]. split_and!; auto; lia.
  - destruct Hm as [(H1 & H2 & H3 & H4)|(H1 & H2)]; [lia|]. cbn in H1. specialize (H2 ltac:(lia)).
    destruct (Z.eq_dec e 15) as [->|]; [lia|]. rewrite u8_id by (unfold is_u8; lia).
    specialize (IH (e + 1) c' ltac:(lia) ltac:(lia) Hw). destruct (find_e _ _ _ _ _) as [[e' m'] c2].
    destruct IH as (I1 & I2 & I3 & I4 & I5 & I6). split_and!; auto; try lia. right. destruct I6 as [->|]; [|assumption].
    now replace (e + 1 - 1) with e by lia.
Qed.

(** What the modem can be told: a mantissa of four bits by a power of two. *)
Definition preamble_value (c : Z) : Prop := exists e m, 1 <= e /\ 1 <= m <= 15 /\ c = m * 2 ^ e.

Lemma preamble_search_spec t : 4 <= t <= 0xF000 ->
  let '(e, m, c) := preamble_search t in
  1 <= e <= 12 /\ 1 <= m <= 15 /\ c = m * 2 ^ e /\ t - 4 <= c /\ (e = 1 \/ 15 * 2 ^ (e - 1) < t - 4) /\
  forall c', preamble_value c' -> t - 4 <= c' -> c <= c'.
Proof.
  intros Ht. unfold preamble_search. rewrite u32_id by lia.
  pose proof (find_e_spec 16 1 (t - 4) 0 ltac:(lia) eq_refl ltac:(lia)) as P. destruct (find_e _ _ _ _ _) as [[e m] c].
  destruct P as (He & Hm & Ec & Hc & Hm1 & He1).
  assert (He12 : e <= 12). { destruct He1 as [->|He1]; [lia|]. apply Z.le_ngt. intros Hl.
    pose proof (Z.pow_le_mono_r 2 12 (e - 1) ltac:(lia) ltac:(lia)). lia. }
  split_and!; try lia. intros c' (e' & m' & He' & Hm' & ->) Hc'.
  destruct (Z.le_gt_cases e e').
  - (* a multiple of the step of [e] *)
    replace (2 ^ e') with (2 ^ (e' - e) * 2 ^ e) in * by (rewrite <- Z.pow_add_r by lia; f_equal; lia).
    rewrite Z.mul_assoc in *. assert (1 <= m' * 2 ^ (e' - e)) by (pose proof (Z.pow_pos_nonneg 2 (e' - e)); nia).
    subst c. apply Z.mul_le_mono_nonneg_r; [lia|]. destruct Hm1 as [->|]; [lia|]. pose proof (Z.pow_pos_nonneg 2 e). nia.
  - exfalso. destruct He1 as [->|He1]; [lia|]. pose proof (Z.pow_le_mono_r 2 e' (e - 1) ltac:(lia) ltac:(lia)). nia.
Qed.

(** The length found is found again, after the bound of 0xF000 too. *)
Lemma preamble_search_again t : 4 <= t <= 0xF000 ->
  let '(e, m, c) := preamble_search t in preamble_search (if 0xF000 <=? c + 4 then 0xF000 else c + 4) = (e, m, c).
Proof.
  intros Ht. pose proof (preamble_search_spec t Ht) as P. destruct (preamble_search t) as [[e m] c].
  destruct P as (He & Hm & Ec & Hc & He1 & Hmin).
  destruct (Z.leb_spec 0xF000 (c + 4)).
  - assert (Hle : c <= 15 * 2 ^ 12) by (apply Hmin; [exists 12, 15; lia|lia]).
    assert (e = 12). { destruct (Z.eq_dec e 12); [assumption|]. pose proof (Z.pow_le_mono_r 2 e 11 ltac:(lia) ltac:(lia)). nia. }
    subst e. assert (m = 15) by lia. subst. reflexivity.
  - pose proof (preamble_search_spec (c + 4) ltac:(lia)) as P. destruct (preamble_search (c + 4)) as [[e2 m2] c2].
    destruct P as (F1 & F2 & F3 & F4 & F5 & F6).
    assert (c2 = c) by (apply Z.le_antisymm; [apply F6; [exists e, m; lia|lia]|lia]). subst c2.
    assert (e2 = e).
    { destruct (Z.lt_trichotomy e2 e) as [Hl|[->|Hl]]; [|reflexivity|]; exfalso.
      - destruct He1 as [->|He1]; [lia|]. pose proof (Z.pow_le_mono_r 2 e2 (e - 1) ltac:(lia) ltac:(lia)). nia.
      - destruct F5 as [->|F5]; [lia|]. pose proof (Z.pow_le_mono_r 2 e (e2 - 1) ltac:(lia) ltac:(lia)). nia. }
    subst e2. pose proof (Z.pow_pos_nonneg 2 e). assert (m2 = m) by nia. now subst.
Qed.

(** ** The chip *)

(** [c8_sent]: the frames sent so far. *)
Record chip8 := mk_chip8 {
  c8_paylen : Z; c8_base : Z; c8_rx : bool; c8_power : Z; c8_fifo : list Z; c8_sent : list (list Z)
}.
Fixpoint fifo_write8 (off : Z) (data buf : list Z) : list Z :=
  match data with
  | [] => buf
  | b :: data => fifo_write8 (u8 (off + 1)) data (cell_set buf off b)
  end.
Definition chip_step8 (c : list Z) (k : chip8) : chip8 :=
  match c with
  | [] => k
  | op :: a =>
      if op =? OP_PACKET_PARAMS_8X then k <| c8_paylen := zget 0 a 2 |>
      else if op =? OP_BUFFER_BASE_ADDR_8X then k <| c8_base := zget 0 a 0 |>
      else if op =? OP_TX_PARAMS_8X then k <| c8_power := zget 0 a 0 |>
      else if (op =? OP_STANDBY_8X) || (op =? OP_SLEEP_8X) then k <| c8_rx := false |>
      else if op =? OP_RX_8X then k <| c8_rx := true |>
      else if op =? OP_TX_8X then
        k <| c8_rx := false |> <| c8_sent ::= fun l => l ++ [fifo_slice (c8_fifo k) (c8_base k) (Z.to_nat (c8_paylen k))] |>
      else if op =? OP_FIFO_WRITE_8X then k <| c8_fifo ::= fifo_write8 (zget 0 a 0) (drop 1 a) |>
      else k
  end.

(** Between transactions the buffer fills and the receiver goes off by itself, but only
    while receiving: the single receive mode ends with a packet. *)
Record drift8 (k v : chip8) : Prop := {
  d8_same : c8_paylen v = c8_paylen k /\ c8_base v = c8_base k /\ c8_power v = c8_power k /\ c8_sent v = c8_sent k;
  d8_fifo : length (c8_fifo v) = length (c8_fifo k);
  d8_still : c8_rx k = false -> v = k
}.
Lemma drift8_refl k : drift8 k k.
Proof. constructor; auto. Qed.
Lemma drift8_trans a b c : drift8 a b -> drift8 b c -> drift8 a c.
Proof.
  intros [(A1 & A2 & A3 & A4) A5 A6] [(B1 & B2 & B3 & B4) B5 B6]. constructor; [split_and!; congruence|congruence|].
  intros E. rewrite (A6 E) in *. auto.
Qed.

Class Sx1280 (W : Type) `{World W} := {
  chip8_of : W -> chip8;
  chip8_spi c w : exists v, drift8 (chip8_of w) v /\ chip8_of (snd (spi c w)) = chip_step8 c v;
  chip8_millis w : drift8 (chip8_of w) (chip8_of (snd (millis w)));
  chip8_read p w : drift8 (chip8_of w) (chip8_of (snd (digitalRead p w)));
  (** The pins of the antenna switch, which the driver toggles while it sends. *)
  antenna_pin : Z -> Prop;
  chip8_antenna p b w : antenna_pin p -> drift8 (chip8_of w) (chip8_of (digitalWrite p b w))
}.
#[export] Hint Resolve drift8_refl drift8_trans chip8_millis chip8_read : rnode.

Section Guarantees.
Context {W : Type} `{Sx1280 W} `{Board} `{Sx1280Build}.
Abbreviation wp := (wp_at (O:=sx128x) (G:=sx8_globals) chip8_of).
Implicit Types (d : sx128x) (k v : chip8) (s : radio8 W).

Lemma wp8_elim {A} (m : M8 W A) Q s :
  wp m Q (ic s) (chip8_of (wd s)) -> Q (fst (m s)) (ic (snd (m s))) (chip8_of (wd (snd (m s)))).
Proof. apply wp_at_elim. Qed.
Lemma wp_call8 {A} (f : W -> A * W) Q d k :
  (forall w, drift8 (chip8_of w) (chip8_of (snd (f w)))) -> (forall a v, drift8 k v -> Q a d v) -> wp (call f) Q d k.
Proof. apply (wp_call_along chip8_of drift8). Qed.
Lemma wp_busy8 n busy time Q d k : (forall b v, drift8 k v -> Q b d v) -> wp (busy_loop8 n busy time) Q d k.
Proof.
  revert k. induction n as [|n IH]; intros k Hq; cbn [busy_loop8]; [apply wp_ret; auto with rnode|].
  apply wp_bind, wp_call8; [auto with rnode|]. intros [] v Hv; [|apply wp_ret; auto].
  apply wp_bind, wp_call8; [auto with rnode|]. intros now v' Hv'. destruct (_ <=? _); [apply wp_ret|apply IH]; eauto with rnode.
Qed.
Lemma wp_transfer8 c Q d k : (forall miso v, drift8 k v -> Q miso d (chip_step8 c v)) -> wp (transfer8 c) Q d k.
Proof.
  intros Hq. apply wp_bind, wp_bind, wp_call8; [auto with rnode|]. intros t v Hv. apply wp_bind, wp_get, wp_busy8.
  intros _ v' Hv' s <- <-. unfold call. destruct (chip8_spi c (wd s)) as (u & Hu & E). destruct (spi c (wd s)). cbn in *. rewrite E.
  apply Hq. eauto with rnode.
Qed.
Lemma wp_opcode8 op a Q d k : (forall v, drift8 k v -> Q tt d (chip_step8 (op :: a) v)) -> wp (sx8_executeOpcode op a) Q d k.
Proof. intros Hq. apply wp_bind, wp_transfer8. intros miso v Hv. now apply wp_ret, Hq. Qed.
Lemma wp_opcode_read8 op n Q d k :
  (forall v buf, drift8 k v -> Q buf d (chip_step8 ([op; 0] ++ repeat 0 n) v)) -> wp (sx8_executeOpcodeRead op n) Q d k.
Proof. intros Hq. apply wp_bind, wp_transfer8. intros miso v Hv. now apply wp_ret, Hq. Qed.

(** ** Frames *)

(** What a push of the packet format leaves: the object's preamble may be rounded. *)
Definition re_preambled d d' : Prop := exists n, d' = d <| _preambleLength := n |>.
Lemma wp_push8 Q d k :
  (forall d' v, re_preambled d d' -> drift8 k v -> Q tt d' (v <| c8_paylen := u8 (_payloadLength d) |>)) -> wp push_packet8 Q d k.
Proof.
  intros Hq. apply wp_bind, wp_get. unfold sx8_setPacketParams. apply wp_bind, wp_getg. intros last. apply wp_bind, wp_when.
  - intros _. destruct (preamble_search _) as [[e m] c]. apply wp_bind, wp_updg, wp_bind, wp_upd, wp_updg.
    apply wp_bind, wp_getg. intros e'. apply wp_bind, wp_getg. intros m'. apply wp_opcode8. intros v Hv. apply Hq; [eexists; reflexivity|exact Hv].
  - intros _. apply wp_bind, wp_getg. intros e'. apply wp_bind, wp_getg. intros m'. apply wp_opcode8. intros v Hv.
    apply Hq; [exists (_preambleLength d); now destruct d|exact Hv].
Qed.

Definition wired8 d : Prop := (_txen d <> -1 -> antenna_pin (_txen d)) /\ (_rxen d <> -1 -> antenna_pin (_rxen d)).
Lemma wp_pin8 p b Q d k : (p <> -1 -> antenna_pin p) -> (forall v, drift8 k v -> Q tt d v) ->
  wp (when (negb (p =? -1)) (act (digitalWrite p b))) Q d k.
Proof.
  intros Hp Hq. apply wp_when; [|auto with rnode]. intros E. apply negb_true_iff, Z.eqb_neq in E.
  apply (wp_act_along chip8_of drift8); [intros w; now apply chip8_antenna, Hp|exact Hq].
Qed.
Lemma wp_txAnt Q d k : wired8 d -> (forall v, drift8 k v -> Q tt d v) -> wp sx8_txAntEnable Q d k.
Proof.
  intros [Ht Hr] Hq. do 2 apply wp_bind, wp_get. apply wp_bind, wp_pin8; [exact Ht|]. intros v Hv.
  apply wp_pin8; [exact Hr|]. intros v' Hv'. apply Hq. eauto with rnode.
Qed.

Lemma wp_header8 (b : bool) Q d k :
  (forall d' v, re_preambled (d <| _implicitHeaderMode := if b then 0x80 else 0 |>) d' -> drift8 k v ->
     Q tt d' (v <| c8_paylen := u8 (_payloadLength d) |>)) ->
  wp (if b then sx8_implicitHeaderMode else sx8_explicitHeaderMode) Q d k.
Proof. intros Hq. destruct b; apply wp_bind, wp_upd, wp_push8; exact Hq. Qed.

Lemma wp_beginPacket8 (b : bool) Q d k : wired8 d ->
  (forall d' f, wired8 d' -> _payloadLength d' = 0 -> _fifo_tx_addr_ptr d' = 0 -> length f = length (c8_fifo k) ->
     Q tt d' (mk_chip8 0 (c8_base k) false (c8_power k) f (c8_sent k))) ->
  wp (sx8_beginPacket b) Q d k.
Proof.
  intros Hw Hq. apply wp_bind, wp_opcode8. intros v [(_ & Eb & Ep & Es) Hf _].
  apply wp_bind, wp_header8. intros d1 v1 (n1 & ->) Hv1. apply (d8_still _ _) in Hv1; [|reflexivity]. subst v1.
  apply wp_bind, wp_upd, wp_push8. intros d2 v2 (n2 & ->) Hv2. apply (d8_still _ _) in Hv2; [|reflexivity]. subst v2.
  assert (En : forall d', _payloadLength d' = 0 -> u8 (_payloadLength d') = 0) by (intros d' ->; reflexivity).
  rewrite En by (destruct d; reflexivity). destruct v. cbn in Eb, Ep, Es, Hf. subst. apply Hq; [exact Hw|destruct d; reflexivity..|exact Hf].
Qed.

Lemma wp_write8 b Q d k : 0 <= _payloadLength d < 255 -> _fifo_tx_addr_ptr d = _payloadLength d -> c8_rx k = false ->
  (let n := _payloadLength d in
   Q 1 (d <| _fifo_tx_addr_ptr := n + 1 |> <| _payloadLength := n + 1 |>) (k <| c8_fifo ::= fun f => cell_set f n b |>)) ->
  wp (sx8_write [b]) Q d k.
Proof.
  intros Hn Hp Hr Hq. apply wp_bind, wp_get. change (zlen [b]) with 1. unfold MAX_PKT_LENGTH_8X.
  rewrite (u32_id (_payloadLength d + 1)), (proj2 (Z.ltb_ge 255 _)) by lia. change (take (Z.to_nat 1) [b]) with [b].
  apply wp_bind, wp_bind, wp_get. rewrite Hp.
  apply wp_bind, wp_transfer8. intros miso v Hv. apply (d8_still _ _) in Hv; [|exact Hr]. subst v.
  apply wp_upd, wp_bind, wp_upd, wp_ret. rewrite (u8_id (_payloadLength d)) by (unfold is_u8; lia). exact Hq.
Qed.

Lemma wp_irq_status8 Q d k : (forall st v, drift8 k v -> Q st d v) -> wp irq_status8 Q d k.
Proof. intros Hq. apply wp_bind, wp_opcode_read8. intros v buf Hv. apply wp_ret, Hq, Hv. Qed.
Lemma wp_tx_poll8 n t irq Q d k : c8_rx k = false -> (forall o, Q o d k) -> wp (tx_poll8 n t irq) Q d k.
Proof.
  intros Hr Hq. revert irq. induction n as [|n IH]; intros irq; cbn [tx_poll8]; [apply wp_ret, Hq|].
  apply wp_bind, wp_call8; [auto with rnode|]. intros now v Hv. apply (d8_still _ _) in Hv; [|exact Hr]. subst v.
  destruct (_ && _); [|apply wp_ret, Hq].
  apply wp_bind, wp_irq_status8. intros st v Hv. apply (d8_still _ _) in Hv; [|exact Hr]. subst v. apply IH.
Qed.

Definition on_the_air8 k : chip8 :=
  k <| c8_rx := false |> <| c8_sent ::= fun l => l ++ [fifo_slice (c8_fifo k) (c8_base k) (Z.to_nat (c8_paylen k))] |>.
Lemma wp_endPacket8 fuel Q d k : wired8 d -> c8_rx k = false ->
  (forall d' o, re_preambled d d' -> Q o d' (on_the_air8 (k <| c8_paylen := u8 (_payloadLength d) |>))) ->
  wp (sx8_endPacket fuel) Q d k.
Proof.
  intros Hw Hr Hq. apply wp_bind, wp_push8. intros d' v Hd Hv. apply (d8_still _ _) in Hv; [|exact Hr]. subst v.
  assert (Hw' : wired8 d') by (destruct Hd as [n ->]; exact Hw). specialize (Hq d').
  apply wp_bind, wp_txAnt; [exact Hw'|]. intros v Hv. apply (d8_still _ _) in Hv; [|exact Hr]. subst v.
  apply wp_bind, wp_opcode8. intros v Hv. apply (d8_still _ _) in Hv; [|exact Hr]. subst v.
  match goal with |- context [chip_step8 ?c ?k] => change (chip_step8 c k) with (on_the_air8 k) end.
  set (k1 := on_the_air8 _) in *. assert (Hr1 : c8_rx k1 = false) by reflexivity. clearbody k1.
  apply wp_bind, wp_irq_status8. intros st v Hv. apply (d8_still _ _) in Hv; [|exact Hr1]. subst v.
  apply wp_bind, wp_call8; [auto with rnode|]. intros now v Hv. apply (d8_still _ _) in Hv; [|exact Hr1]. subst v.
  apply wp_bind, wp_tx_poll8; [exact Hr1|]. intros [irq|]; [|now apply wp_ret, Hq].
  apply wp_bind, wp_call8; [auto with rnode|]. intros now' v Hv. apply (d8_still _ _) in Hv; [|exact Hr1]. subst v.
  apply wp_bind, wp_opcode8. intros v Hv. apply (d8_still _ _) in Hv; [|exact Hr1]. subst v.
  now apply wp_ret, Hq.
Qed.

(** ** The interface of the link layer *)

(** The frame under construction: the bytes of the buffer below the write pointer. *)
Definition sx8_pending s : option (list Z) :=
  let n := _payloadLength (ic s) in
  if negb (c8_rx (chip8_of (wd s))) && (_fifo_tx_addr_ptr (ic s) =? n) && (0 <=? n) && (n <=? 255)
  then Some (take (Z.to_nat n) (c8_fifo (chip8_of (wd s)))) else None.
Lemma pending8_some s l : length (c8_fifo (chip8_of (wd s))) = 256%nat -> sx8_pending s = Some l ->
  let n := _payloadLength (ic s) in
  c8_rx (chip8_of (wd s)) = false /\ _fifo_tx_addr_ptr (ic s) = n /\ 0 <= n <= 255 /\ zlen l = n /\
  l = take (Z.to_nat n) (c8_fifo (chip8_of (wd s))).
Proof.
  intros Hf. unfold sx8_pending. destruct (c8_rx _); [discriminate|]. bdestr; try discriminate. intros [= <-].
  split_and!; auto. unfold zlen. rewrite length_take, Hf. lia.
Qed.

(** The fuel of [endPacket] is that of a chip which completes what it sends: [countdown8]
    bounds how often the interrupt status can still be read before it shows the end of
    the transmission, and looking at the busy line and the clock does not change it. *)
Class Sx1280Sends (W : Type) `{Sx1280 W} := {
  polls8 : nat;
  countdown8 : W -> option nat;
  countdown8_start w : exists n, (n <= polls8)%nat /\ countdown8 (snd (spi [OP_TX_8X; 0; 0; 0] w)) = Some n;
  countdown8_poll w n : countdown8 w = Some n ->
    tx_done8 (zget 0 (fst (spi [OP_GET_IRQ_STATUS_8X; 0; 0; 0] w)) 3) = true \/
    exists m, (m < n)%nat /\ countdown8 (snd (spi [OP_GET_IRQ_STATUS_8X; 0; 0; 0] w)) = Some m;
  countdown8_millis w : countdown8 (snd (millis w)) = countdown8 w;
  countdown8_read p w : countdown8 (snd (digitalRead p w)) = countdown8 w
}.
Context `{!Sx1280Sends W}.
#[export] Instance sx8_tx : LoraTx (radio8 W) := {
  beginPacket o s := snd (sx8_beginPacket (match o with Some n => negb (n =? 0) | None => false end) s);
  lora_write b s := snd (sx8_write [b] s);
  endPacket s := let '(ok, s) := sx8_endPacket (S polls8) s in (default false ok, s)
}.
Definition sane8 s : Prop := wired8 (ic s) /\ c8_base (chip8_of (wd s)) = 0 /\ length (c8_fifo (chip8_of (wd s))) = 256%nat.
#[export, refine] Instance sx8_laws : LoraTxLaws (radio8 W) := {
  pending := sx8_pending; on_air s := c8_sent (chip8_of (wd s)); sane := sane8
}.
Proof.
  - intros o s (Hw & Hb & Hf). cbn [beginPacket sx8_tx].
    match goal with |- context [sx8_beginPacket ?b s] => pose proof (wp8_elim (sx8_beginPacket b)
      (fun _ d k => (c8_rx k = false /\ _fifo_tx_addr_ptr d = 0 /\ _payloadLength d = 0) /\
         c8_sent k = c8_sent (chip8_of (wd s)) /\ wired8 d /\ c8_base k = 0 /\ length (c8_fifo k) = 256%nat) s) as E end.
    destruct E as ((E1 & E2 & E3) & E4 & E5); [|unfold sx8_pending; rewrite E1, E2, E3; auto].
    apply wp_beginPacket8; [exact Hw|]. intros d' f Hw' Hn Hp Hl. rewrite Hf in Hl. auto 10.
  - intros b s l (Hw & Hb & Hf) Hp Hl. destruct (pending8_some _ _ Hf Hp) as (Hr & Hptr & Hn & El & ->). cbn [lora_write sx8_tx].
    rewrite El in Hl. pose proof (wp8_elim (sx8_write [b]) (fun _ d k => let n := _payloadLength (ic s) in
       (c8_rx k = false /\ _fifo_tx_addr_ptr d = n + 1 /\ _payloadLength d = n + 1 /\ c8_fifo k = cell_set (c8_fifo (chip8_of (wd s))) n b) /\
       c8_sent k = c8_sent (chip8_of (wd s)) /\ wired8 d /\ c8_base k = 0 /\ length (c8_fifo k) = 256%nat) s) as E.
    destruct E as ((E1 & E2 & E3 & E4) & E5 & E6).
    { apply wp_write8; [lia|exact Hptr|exact Hr|]. set (k := chip8_of (wd s)) in *. clearbody k.
      destruct k. cbn in *. unfold cell_set. rewrite length_insert. auto 10. }
    split_and!; try assumption. unfold sx8_pending. rewrite E1, E2, E3, E4, Z.eqb_refl.
    rewrite (proj2 (Z.leb_le 0 _)), (proj2 (Z.leb_le _ 255)), cell_set_take by lia. reflexivity.
  - intros s l (Hw & Hb & Hf) Hp _. destruct (pending8_some _ _ Hf Hp) as (Hr & Hptr & Hn & El & Hl). cbn [endPacket sx8_tx].
    pose proof (wp8_elim (sx8_endPacket (S polls8)) (fun _ d k =>
       c8_sent k = c8_sent (chip8_of (wd s)) ++ [l] /\ wired8 d /\ c8_base k = 0 /\ length (c8_fifo k) = 256%nat) s) as E.
    destruct (sx8_endPacket (S polls8) s). apply E. apply wp_endPacket8; [exact Hw|exact Hr|]. intros d' done (m & ->).
    split_and!; [|exact Hw|exact Hb|exact Hf]. set (k := chip8_of (wd s)) in *.
    change (c8_sent k ++ [fifo_slice (c8_fifo k) (c8_base k) (Z.to_nat (u8 (_payloadLength (ic s))))] = c8_sent k ++ [l]).
    rewrite Hb, u8_id by (unfold is_u8; lia). rewrite fifo_slice_take by (exact Hf || lia). now rewrite <- Hl.
Defined.

(** Whatever is given to [transmit] goes on the air as its fragments, up to one the
    driver gave up on after the fifteen seconds; the device then resets. *)
Theorem sx8_transmits {A} (add_airtime : Z -> A -> A) (random256 : Z) (implicit : bool) (tbuf : list Z) (s : txst (radio8 W) A) :
  is_u8 random256 -> sane8 (Link.drv s) -> zlen tbuf <= MTU ->
  let air (s : txst (radio8 W) A) := c8_sent (chip8_of (wd (Link.drv s))) in
  let s' := transmit add_airtime true false implicit random256 tbuf s in
  (air s' = air s ++ fragments random256 tbuf /\ sane8 (Link.drv s') /\ tx_out s' = tx_out s /\ tx_reset s' = tx_reset s) \/
  exists before l after (e : radio8 W), fragments random256 tbuf = before ++ l :: after /\
    c8_sent (chip8_of (wd e)) = air s ++ before /\ sx8_pending e = Some l /\
    fst (endPacket e) = false /\ Link.drv s' = snd (endPacket e) /\ tx_reset s' = true.
Proof.
  intros Hr Hs Hl. cbn zeta. change (sane (LoraTxLaws:=sx8_laws) (Link.drv s)) in Hs.
  destruct (transmit_outcome_gen add_airtime (fun _ => True) stable_any random256 implicit tbuf s Hr Hs I Hl) as [[]|(before & l & after & Ef & [])]; [left; auto|right].
  destruct failed_end as (d & _ & _ & Hp & Ha & He & Ed). destruct s. exists before, l, after, d. auto 10.
Qed.

(** ** The wait for the end of a transmission *)

Lemma busy_countdown n busy time s : countdown8 (wd (snd (busy_loop8 n busy time s))) = countdown8 (wd s).
Proof.
  revert s. induction n as [|n IH]; intros s; cbn [busy_loop8]; [reflexivity|]. rewrite bind_eq, call_eq. cbn [fst snd].
  destruct (fst (digitalRead busy (wd s))); [|apply countdown8_read]. rewrite bind_eq, call_eq. cbn [fst snd wd].
  destruct (_ <=? _); [|rewrite IH]; cbn [snd ret wd]; now rewrite countdown8_millis, countdown8_read.
Qed.
(** A transaction is one command to a chip that has been waited for. *)
Lemma transfer8_eq c s : exists s', countdown8 (wd s') = countdown8 (wd s) /\ transfer8 c s = call (spi c) s'.
Proof.
  exists (snd (sx8_waitOnBusy s)). split; [|unfold transfer8; now rewrite bind_eq].
  unfold sx8_waitOnBusy. rewrite !bind_eq, busy_countdown, call_eq. cbn [get fst snd wd]. apply countdown8_millis.
Qed.
Lemma poll_status s n : countdown8 (wd s) = Some n ->
  tx_done8 (snd (fst (irq_status8 s))) = true \/ exists m, (m < n)%nat /\ countdown8 (wd (snd (irq_status8 s))) = Some m.
Proof.
  intros Hn. unfold irq_status8, sx8_executeOpcodeRead. rewrite !bind_eq.
  destruct (transfer8_eq ([OP_GET_IRQ_STATUS_8X; 0] ++ repeat 0 2) s) as (s' & E1 & E2). rewrite E2, call_eq. cbn [fst snd ret wd].
  destruct (countdown8_poll _ n (eq_trans E1 Hn)) as [Hd|Hm]; [left|right; exact Hm].
  rewrite <- Hd. unfold zget. cbn [Z.to_nat Pos.to_nat Pos.iter_op Nat.add]. now rewrite lookup_drop.
Qed.
Lemma tx_poll8_step n t irq s :
  let s1 := snd (call millis s) in let p := irq_status8 s1 in
  tx_poll8 (S n) t irq s =
  if (fst (call millis s) <? t) && negb (tx_done8 irq) then tx_poll8 n t (snd (fst p)) (snd p) else (Some irq, s1).
Proof. cbn [tx_poll8]. rewrite bind_eq. destruct (_ && _); [now rewrite bind_eq|reflexivity]. Qed.
Lemma tx_poll8_ends fuel t irq s :
  tx_done8 irq = true \/ (exists n, (S n < fuel)%nat /\ countdown8 (wd s) = Some n) -> (0 < fuel)%nat ->
  exists irq' s', forall more, tx_poll8 (fuel + more) t irq s = (Some irq', s').
Proof.
  revert irq s. induction fuel as [|fuel IH]; intros irq s Hd Hf; [lia|]. set (s1 := snd (call millis s)).
  assert (Hc : countdown8 (wd s1) = countdown8 (wd s)) by (unfold s1; rewrite call_eq; apply countdown8_millis).
  assert (Hstep : (fst (call millis s) <? t) && negb (tx_done8 irq) = false \/
    exists irq' s', forall more, tx_poll8 (fuel + more) t (snd (fst (irq_status8 s1))) (snd (irq_status8 s1)) = (Some irq', s')).
  { destruct Hd as [->|(n & Hn & Hs)]; [left; apply andb_false_r|right]. rewrite <- Hc in Hs.
    destruct (poll_status s1 n Hs) as [Hd|(m & Hm & Hs')]; (apply IH; [|lia]); [left; exact Hd|right; exists m; split; [lia|exact Hs']]. }
  destruct Hstep as [E|(irq' & s' & E)].
  - exists irq, s1. intros more. cbn [Nat.add]. now rewrite tx_poll8_step, E.
  - destruct ((fst (call millis s) <? t) && negb (tx_done8 irq)) eqn:Eb; [exists irq', s'|exists irq, s1];
      intros more; cbn [Nat.add]; rewrite tx_poll8_step, Eb; [apply E|reflexivity].
Qed.

Lemma start_tx8 s : exists n, (n <= polls8)%nat /\ countdown8 (wd (snd (sx8_executeOpcode OP_TX_8X [0; 0; 0] s))) = Some n.
Proof.
  unfold sx8_executeOpcode. rewrite bind_eq. destruct (transfer8_eq [OP_TX_8X; 0; 0; 0] s) as (s' & _ & E). rewrite E, call_eq.
  apply countdown8_start.
Qed.
(** Over a chip that completes what it sends the wait ends, and more fuel changes
    nothing. *)
Theorem endPacket8_returns s : exists ok s', forall more, sx8_endPacket (S polls8 + more) s = (Some ok, s').
Proof.
  set (s2 := snd (sx8_txAntEnable (snd (push_packet8 s)))). destruct (start_tx8 s2) as (n & Hn & Hc).
  set (s3 := snd (sx8_executeOpcode OP_TX_8X [0; 0; 0] s2)) in *. pose proof (poll_status s3 n Hc) as Hp.
  set (s4 := snd (irq_status8 s3)) in *. set (s5 := snd (call millis s4)).
  set (t := double_to_u32 (fst (call millis s4) + LORA_MODEM_TIMEOUT_MS_8X)).
  destruct (tx_poll8_ends (S polls8) t (snd (fst (irq_status8 s3))) s5) as (irq & s6 & E6); [|lia|].
  - destruct Hp as [Hp|(m & Hm & Hs)]; [left; exact Hp|right]. exists m. split; [lia|].
    unfold s5. rewrite call_eq. cbn [snd wd]. rewrite countdown8_millis. exact Hs.
  - do 2 eexists. intros more. unfold sx8_endPacket. do 5 rewrite bind_eq. rewrite bind_eq. fold s2 s3 s4 s5 t.
    rewrite E6. cbn [fst snd]. rewrite !bind_eq. reflexivity.
Qed.

(** ** The preamble *)

Lemma busy_keeps8 n busy time s :
  ic (snd (busy_loop8 n busy time s)) = ic s /\ gl (snd (busy_loop8 n busy time s)) = gl s.
Proof.
  revert s. induction n as [|n IH]; intros s; cbn [busy_loop8]; [auto|]. rewrite bind_eq, call_eq. cbn [fst snd].
  destruct (fst (digitalRead busy (wd s))); [|auto]. rewrite bind_eq, call_eq. cbn [fst snd wd].
  destruct (_ <=? _); [auto|]. match goal with |- context [busy_loop8 n busy time ?s'] => exact (IH s') end.
Qed.
Lemma transfer8_keeps c s : ic (snd (transfer8 c s)) = ic s /\ gl (snd (transfer8 c s)) = gl s.
Proof.
  unfold transfer8, sx8_waitOnBusy. rewrite !bind_eq, !call_eq. cbn [get ret fst snd ic gl].
  match goal with |- context [busy_loop8 ?n ?b ?t ?s'] => destruct (busy_keeps8 n b t s') as [E1 E2] end. cbn [ic gl] in *. auto.
Qed.
Lemma opcode8_keeps op a s : ic (snd (sx8_executeOpcode op a s)) = ic s /\ gl (snd (sx8_executeOpcode op a s)) = gl s.
Proof. unfold sx8_executeOpcode. rewrite bind_eq. apply transfer8_keeps. Qed.
Lemma opcode_read8_keeps op n s : ic (snd (sx8_executeOpcodeRead op n s)) = ic s.
Proof. unfold sx8_executeOpcodeRead. rewrite bind_eq. apply transfer8_keeps. Qed.

Definition bounded_target (n : Z) : Z := if 0xF000 <=? n then 0xF000 else n.
Lemma setPacketParams_state n h p c s : let s' := snd (sx8_setPacketParams n h p c s) in
  if last_me_result_target (gl s) =? n then ic s' = ic s /\ gl s' = gl s
  else let '(e, m, x) := preamble_search (bounded_target n) in
       ic s' = (ic s) <| _preambleLength := u32 (x + 4) |> /\
       gl s' = (gl s) <| last_me_result_target := bounded_target n |> <| lora_preamble_symbols := x + 4 |>
                 <| preamble_e := e |> <| preamble_m := m |>.
Proof.
  unfold sx8_setPacketParams. rewrite bind_eq. cbn [getg fst snd]. fold (bounded_target n).
  destruct (_ =? n); cbn [negb when]; rewrite !bind_eq; cbn [getg ret skip fst snd].
  - apply opcode8_keeps.
  - destruct (preamble_search _) as [[e m] x]. rewrite !bind_eq. cbn [getg updg upd fst snd].
    match goal with |- context [sx8_executeOpcode ?op ?a ?s'] => destruct (opcode8_keeps op a s') as [-> ->] end. now destruct s.
Qed.

(** C11. The preamble is the shortest the modem can be given.  [setPreambleLength]
    searches for the mantissa and exponent of a preamble that is not shorter than asked
    (61440 symbols, [0xF000], at most): the search ends within the modem's four bits for
    each, its preamble is the shortest the modem can be told that is long enough, the
    object's preamble becomes the one found - and the next push of the packet format,
    which starts from that rounded length, finds the same one again. *)
(* @prop functional W=preamble_shortest_witness D=sx8_setPreambleLength,sx8_setPacketParams,preamble_search,find_e,find_m *)
Theorem preamble_shortest n s : 4 <= n < 2 ^ 32 -> last_me_result_target (gl s) <> n ->
  let s1 := snd (sx8_setPreambleLength n s) in let s2 := snd (push_packet8 s1) in
  let e := preamble_e (gl s1) in let m := preamble_m (gl s1) in let c := m * 2 ^ e in
  (1 <= e <= 12 /\ 1 <= m <= 15 /\ Z.min n 0xF000 <= c + 4 /\
   forall c', preamble_value c' -> Z.min n 0xF000 <= c' + 4 -> c <= c') /\
  ic s1 = (ic s) <| _preambleLength := c + 4 |> /\
  ic s2 = ic s1 /\ preamble_e (gl s2) = e /\ preamble_m (gl s2) = m.
Proof.
  intros Hn Hl. unfold sx8_setPreambleLength. rewrite bind_eq, (u32_id n) by lia. cbn [get fst snd]. cbn zeta.
  pose proof (setPacketParams_state n (_implicitHeaderMode (ic s)) (_payloadLength (ic s)) (_crcMode (ic s)) s) as E1.
  set (s1 := snd _) in *. clearbody s1. cbn zeta in E1. rewrite (proj2 (Z.eqb_neq _ _) Hl) in E1.
  assert (HT : 4 <= bounded_target n <= 0xF000 /\ Z.min n 0xF000 = bounded_target n)
    by (unfold bounded_target; destruct (Z.leb_spec 0xF000 n); lia).
  destruct HT as [HT ->]. pose proof (preamble_search_spec _ HT) as P. pose proof (preamble_search_again _ HT) as P'.
  destruct (preamble_search _) as [[e m] x]. destruct P as (He & Hm & -> & Hc & _ & Hmin). destruct E1 as [Ei Eg].
  assert (Hx : m * 2 ^ e <= 15 * 2 ^ 12) by (apply Hmin; [exists 12, 15; lia|lia]).
  pose proof (Z.pow_pos_nonneg 2 e). rewrite u32_id in Ei by nia.
  assert (Ee : preamble_e (gl s1) = e /\ preamble_m (gl s1) = m) by (rewrite Eg; auto). destruct Ee as [-> ->].
  split; [split_and!; try lia|split; [exact Ei|]].
  { intros c' Hv Hc'. apply Hmin; [exact Hv|lia]. }
  unfold push_packet8. rewrite bind_eq. cbn [get fst snd].
  pose proof (setPacketParams_state (_preambleLength (ic s1)) (_implicitHeaderMode (ic s1)) (_payloadLength (ic s1)) (_crcMode (ic s1)) s1) as E2.
  set (s2 := snd _) in *. clearbody s2. cbn zeta in E2. destruct (_ =? _).
  - destruct E2 as [-> ->]. rewrite Eg. auto.
  - assert (Ep : _preambleLength (ic s1) = m * 2 ^ e + 4) by (rewrite Ei; now destruct (ic s)).
    rewrite Ep in E2. fold (bounded_target (m * 2 ^ e + 4)) in P'. rewrite P' in E2. destruct E2 as [-> ->].
    rewrite u32_id, <- Ep by nia. split; [now destruct (ic s1)|auto].
Qed.

(** ** At the edges *)

(** No command replaces the callback. *)
Definition cb_kept {A} (m : M8 W A) : Prop := forall s, _receive_callback (ic (snd (m s))) = _receive_callback (ic s).
Lemma cb_bind {A B} (m : M8 W A) (f : A -> M8 W B) : cb_kept m -> (forall a, cb_kept (f a)) -> cb_kept (bind m f).
Proof. intros Hm Hf s. rewrite bind_eq. now rewrite (Hf _ _), (Hm s). Qed.
Lemma cb_get {A} (f : sx128x -> A) : cb_kept (get f).
Proof. now intros s. Qed.
Lemma cb_upd f : (forall d, _receive_callback (f d) = _receive_callback d) -> cb_kept (upd f).
Proof. intros Hf s. apply Hf. Qed.
Lemma cb_when b (m : M8 W unit) : cb_kept m -> cb_kept (when b m).
Proof. destruct b; [auto|now intros _ s]. Qed.
Lemma cb_push : cb_kept push_packet8.
Proof.
  apply cb_bind; [apply cb_get|]. intros d s.
  pose proof (setPacketParams_state (_preambleLength d) (_implicitHeaderMode d) (_payloadLength d) (_crcMode d) s) as P. cbv zeta in P.
  destruct (_ =? _); [now rewrite (proj1 P)|]. destruct (preamble_search _) as [[e m] x]. rewrite (proj1 P). now destruct (ic s).
Qed.
Lemma cb_receive : cb_kept (sx8_receive 0).
Proof.
  apply cb_bind; [|intros _; apply cb_bind; [|intros _ s; apply (f_equal _receive_callback), opcode8_keeps]].
  - change (cb_kept sx8_explicitHeaderMode). apply cb_bind; [apply cb_upd; now intros []|intros _; apply cb_push].
  - do 2 (apply cb_bind; [apply cb_get|intros ?]). apply cb_bind; [|intros _]; now apply cb_when.
Qed.

(** Every interrupt without a CRC error is a packet to the driver: the callback is called
    whether or not the status has the bit of a received packet, so the interrupt of a
    broken header, which [onReceive] asks for as well, delivers the last packet again. *)
Theorem interrupt_is_packet8 s : _receive_callback (ic s) = true ->
  let v := sx8_getPacketValidity s in let o := sx8_onDio0Rise s in
  (fst v = true -> exists n, fst o = Some n) /\ (fst v = false -> fst o = None).
Proof.
  intros Hc. cbn zeta. unfold sx8_onDio0Rise. rewrite bind_eq.
  set (v := sx8_getPacketValidity s). assert (Hv : _receive_callback (ic (snd v)) = true).
  { rewrite <- Hc. unfold v, sx8_getPacketValidity, irq_status8. rewrite !bind_eq. cbn [ret snd].
    now rewrite (proj1 (opcode8_keeps _ _ _)), opcode_read8_keeps. }
  split; intros ->; rewrite bind_eq; [|reflexivity].
  unfold sx8_handleDio0Rise. rewrite !bind_eq, !upd_eq. cbn [get ret fst snd].
  match goal with |- context [if ?c then Some ?n else None] => replace c with true; [now exists n|] end.
  symmetry. cbn [ic]. 
  match goal with |- context [sx8_executeOpcodeRead ?op ?n ?s'] => pose proof (opcode_read8_keeps op n s') as E; destruct (snd (sx8_executeOpcodeRead op n s')) as [d g w] end.
  cbn [ic] in *. subst d. pose proof (cb_receive (snd v)) as E. destruct (snd (sx8_receive 0 (snd v))) as [d g' w']. cbn [ic] in *.
  rewrite Hv in E. destruct d. exact E.
Qed.
End Guarantees.

(** The power of a build in which neither symbol is defined is the first table's, whatever
    the board; it never falls with the level, and stays within the five bits of the
    command. *)
Lemma wisblock_table : forallb (fun x => forallb (fun y => negb (x <=? y) ||
    ((0 <=? u8 (zget 0 wisblock_levels x + 18)) && (u8 (zget 0 wisblock_levels x + 18) <=? u8 (zget 0 wisblock_levels y + 18)) &&
     (u8 (zget 0 wisblock_levels y + 18) <=? 31))) (seqZ 0 28)) (seqZ 0 28) = true.
Proof. vm_compute. reflexivity. Qed.
Theorem power_without_variant `{Sx1280Build} level level' : BOARD_VARIANT = 0 -> level <= level' ->
  fst (power_byte level) = Z.max 0 (Z.min 27 level) /\
  0 <= snd (power_byte level) <= snd (power_byte level') /\ snd (power_byte level') <= 31.
Proof.
  intros Hb Hl.
  assert (E : forall l, power_byte l = (Z.max 0 (Z.min 27 l), u8 (zget 0 wisblock_levels (Z.max 0 (Z.min 27 l)) + 18))).
  { intros l. unfold power_byte. rewrite Hb. change (_ || _) with true. cbv iota.
    replace (if 27 <? l then 27 else if l <? 0 then 0 else l) with (Z.max 0 (Z.min 27 l)) by (bdestr; lia). reflexivity. }
  rewrite !E. cbn [fst snd]. split; [reflexivity|]. pose proof wisblock_table as T.
  rewrite forallb_forall in T. specialize (T (Z.max 0 (Z.min 27 level)) ltac:(apply list_elem_of_In, elem_of_seqZ; lia)).
  rewrite forallb_forall in T. specialize (T (Z.max 0 (Z.min 27 level')) ltac:(apply list_elem_of_In, elem_of_seqZ; lia)).
  rewrite (proj2 (Z.leb_le _ _)) in T by lia. cbn [negb orb] in T.
  apply andb_prop in T as [T T3]. apply andb_prop in T as [T1 T2]. apply Z.leb_le in T1, T2, T3. lia.
Qed.
(** The table of the T3S3 lacks the 18 the command's scale starts at: its level 0, 18 dBm
    under, would be a byte far above the 31 of full power.  No build gets it. *)
Example t3s3_table_unshifted :
  snd (@power_byte {| BOARD_VARIANT := MODEL_AC |} 0) = 238 /\ snd (@power_byte {| BOARD_VARIANT := 0 |} 0) = 0.
Proof. split; reflexivity. Qed.

(** ** A simulated chip *)

(** A transmission is over when the status is read for the third time. *)
Record sim8 := mk_sim8 { s8_chip : chip8; s8_tick : Z; s8_count : option nat }.
Definition sim8_spi (c : list Z) (w : sim8) : list Z * sim8 :=
  let op := zget 0 c 0 in
  let done := match s8_count w with Some O => true | _ => false end in
  (if op =? OP_GET_IRQ_STATUS_8X then [0; 0; 0; if done then IRQ_TX_DONE_MASK_8X else 0] else repeat 0 (length c),
   mk_sim8 (chip_step8 c (s8_chip w)) (s8_tick w + 1)
     (if op =? OP_GET_IRQ_STATUS_8X then option_map pred (s8_count w) else if op =? OP_TX_8X then Some 2%nat else s8_count w)).
#[export] Instance sim8_world : World sim8 := {
  spi := sim8_spi;
  millis w := (u32 (s8_tick w), w);
  delay n w := w <| s8_tick ::= Z.add n |>;
  digitalRead _ w := (false, w);
  digitalWrite _ _ w := w; pinMode _ w := w; spi_begin w := w; spi_end w := w;
  attachInterrupt _ w := w; detachInterrupt _ w := w;
  double_to_u32 := u32;
  busy_reads := 0
}.
#[export, refine] Instance sim8_sx1280 : Sx1280 sim8 := { chip8_of := s8_chip; antenna_pin _ := True }.
Proof. all: auto with rnode. intros c w. exists (s8_chip w). auto with rnode. Defined.
#[export, refine] Instance sim8_sends : Sx1280Sends sim8 := { polls8 := 2; countdown8 := s8_count }.
Proof.
  all: auto.
  - intros w. exists 2%nat. split; reflexivity || lia.
  - intros w n E. cbn [spi sim8_world]. unfold sim8_spi. rewrite E.
    destruct n as [|n]; [left; reflexivity|right; exists n; split; [lia|reflexivity]].
Defined.

Definition chip8_0 : chip8 := mk_chip8 0 0 false 0 (repeat 0 256) [].
Definition build8 : Sx1280Build := {| BOARD_VARIANT := 0 |}.
Definition radio8_0 : radio8 sim8 :=
  mk_device (sx128x0 <| _txen := 5 |> <| _rxen := 6 |>) (mk_sx8_globals 0 0 0 0 0 false false) (mk_sim8 chip8_0 1000 None).
Lemma sane8_0 : sane8 radio8_0.
Proof. split; [split; intros _; exact I|split; reflexivity]. Qed.

Lemma preamble_shortest_witness :
  let s1 := snd (sx8_setPreambleLength 1003 radio8_0) in
  ic s1 = (ic radio8_0) <| _preambleLength := 1028 |> /\ preamble_e (gl s1) = 7 /\ preamble_m (gl s1) = 8.
Proof.
  pose proof (@preamble_shortest sim8 sim8_world 1003 radio8_0 ltac:(lia) ltac:(discriminate)) as P.
  cbn zeta in P. destruct P as (_ & P & _). split; [|vm_compute; auto]. exact P.
Defined.
Lemma sx8_transmits_witness :
  let s0 := mk_txst radio8_0 [] [] 0 false in
  let s' := transmit (D:=radio8 sim8) (A:=list Z) cons true false false 0x55 (repeat 7 300) s0 in
  c8_sent (chip8_of (wd (Link.drv s'))) = fragments 0x55 (repeat 7 300) \/ tx_reset s' = true.
Proof.
  pose proof (sx8_transmits (A:=list Z) cons 0x55 false (repeat 7 300) (mk_txst radio8_0 [] [] 0 false)
    ltac:(unfold is_u8; lia) sane8_0 ltac:(vm_compute; discriminate)) as P. cbn zeta in P.
  destruct P as [(P & _)|(before & l & after & e & _ & _ & _ & _ & _ & P)]; [left; exact P|right; exact P].
Defined.
