(* ===== verification/Contacts.v ===== *)
(** * Contacts, heard peers and preset messages (Messenger.h)

    The messenger's tables: bookmarks in slots found by hash, the peers heard on the air
    in slots that are reused oldest first, preset messages in a packed array; the two
    files they are kept in; the delivery mode of a contact; and the name inside an
    announcement.  A [std::string] or a C string is the list of its bytes. *)
From Stdlib Require Import String.
From S2P Require Import Prelude Keyboard.

(** ** Constants *)

(* @src Messenger.h:46-47 MSNGR_MAX_BOOKMARKS *)
Definition MSNGR_MAX_BOOKMARKS : nat := 12.
Definition MSNGR_MAX_ANNOUNCES : nat := 8.
(* @src Messenger.h:69-70 MSNGR_BOOKMARK_TYPE_LXMF *)
Definition MSNGR_BOOKMARK_TYPE_LXMF : Z := 0.
Definition MSNGR_BOOKMARK_TYPE_PROPAGATION : Z := 1.
(* @src Messenger.h:86-87 MSNGR_DELIVERY_MODE_DIRECT *)
Definition MSNGR_DELIVERY_MODE_DIRECT : Z := 0.
Definition MSNGR_DELIVERY_MODE_PROPAGATED : Z := 1.
(* @src Messenger.h:124-124 MSNGR_MAX_PRESETS *)
Definition MSNGR_MAX_PRESETS : nat := 5.

(** ** Bytes *)

(** What [c_str()] shows of a string: the bytes before its first NUL. *)
Fixpoint c_str (s : list Z) : list Z :=
  match s with
  | [] => []
  | b :: s => if b =? 0 then [] else b :: c_str s
  end.
(* @src lib/microReticulum/src/microReticulum/Bytes.cpp:181-181 hex_lower_chars *)
Definition hex_digit (n : Z) : Z := if n <? 10 then 48 + n else 87 + n.
(* @src lib/microReticulum/src/microReticulum/Bytes.cpp:196-212 Bytes::toHex *)
Definition toHex (data : list Z) : list Z :=
  data ≫= fun b => [hex_digit (Z.shiftr (Z.land b 0xF0) 4); hex_digit (Z.land b 0x0F)].
(* @src lib/microReticulum/src/microReticulum/Bytes.cpp:158-158 Bytes::assignHex *)
Definition hex_value (c : Z) : Z := (c mod 32 + 9) mod 25.
(* @src lib/microReticulum/src/microReticulum/Bytes.cpp:140-161 Bytes::assignHex *)
Fixpoint assignHex (hex : list Z) : list Z :=
  match hex with
  | a :: b :: hex => u8 (hex_value a * 16 + hex_value b) :: assignHex hex
  | _ => []
  end.

(* @src Messenger.h:754-757 messenger_hash_matches *)
Definition messenger_hash_matches (stored hash : list Z) : bool :=
  if negb (zlen hash =? PEER_HASH_SIZE) then false else bool_decide (stored = hash).
(* @src Messenger.h:759-763 messenger_store_hash *)
Definition messenger_store_hash (hash : list Z) : list Z :=
  take (Z.to_nat PEER_HASH_SIZE) hash ++ repeat 0 (Z.to_nat PEER_HASH_SIZE - length hash).
(* @src Messenger.h:765-767 messenger_store_name *)
Definition messenger_store_name (name : list Z) : list Z := take (Z.to_nat MSNGR_NAME_MAX_LEN) (c_str name).

(** ** Files *)

(** A file of the messenger as the code reads it through ArduinoJson: a field is [None]
    when it is absent or of another type.  The library is not modelled: what it parses it
    can write, and what it writes it parses back. *)
Record entry := mk_entry { o_hash : option (list Z); o_name : option (list Z); o_type : option Z; o_delivery_mode : option Z }.
Record document := mk_document { doc_bookmarks : list entry; doc_active : option (list Z); doc_presets : list (option (list Z)) }.
Class Json := { serializeJson : document -> list Z; deserializeJson : list Z -> option document }.
Class JsonLaws `{Json} := {
  json_read_back d : deserializeJson (serializeJson d) = Some d;
  json_not_empty d : serializeJson d <> []
}.

(** ** State *)

(* @src Messenger.h:89-95 MessengerBookmark *)
Record bookmark := mk_bookmark { bm_in_use : bool; bm_hash : list Z; bm_name : list Z; bm_type : Z; bm_delivery_mode : Z }.
(* @src Messenger.h:323-328 MessengerAnnounce *)
Record announce := mk_announce { an_in_use : bool; an_hash : list Z; an_name : list Z; an_last_heard_ms : Z }.
(** The two files, and the outbound propagation node the router was told last; without a
    router ([urns_lxmf_router] null) it is told nothing. *)
(* @src Messenger.h:96-97 msngr_bookmarks *)
Record contacts := mk_contacts {
  msngr_bookmarks : list bookmark; msngr_bookmark_count : Z; msngr_active_prop_node_hash : list Z;
  msngr_presets : list (list Z); msngr_preset_count : Z;
  msngr_announces : list announce;
  msngr_session_delivery_mode_hash : list Z; msngr_session_delivery_mode : Z; msngr_session_delivery_mode_valid : bool;
  bookmarks_file : list Z; presets_file : list Z;
  has_router : bool; router_node : list Z
}.
Definition bookmark0 : bookmark := mk_bookmark false (repeat 0 16) [] MSNGR_BOOKMARK_TYPE_LXMF MSNGR_DELIVERY_MODE_DIRECT.
Definition announce0 : announce := mk_announce false (repeat 0 16) [] 0.
Definition contacts0 (bookmarks presets : list Z) (router : bool) : contacts :=
  mk_contacts (repeat bookmark0 MSNGR_MAX_BOOKMARKS) 0 [] (repeat [] MSNGR_MAX_PRESETS) 0 (repeat announce0 MSNGR_MAX_ANNOUNCES)
    [] MSNGR_DELIVERY_MODE_DIRECT false bookmarks presets router [].

Section Contacts.
Context `{Json}.
Implicit Types (s : contacts) (hash name : list Z).

(** ** Bookmarks *)

(** The slot; [None] for -1. *)
(* @src Messenger.h:791-796 messenger_bookmark_find *)
Definition messenger_bookmark_find hash s : option nat :=
  fst <$> list_find (fun b => bm_in_use b && messenger_hash_matches (bm_hash b) hash = true) (msngr_bookmarks s).
Definition bookmark_at (i : nat) s : bookmark := default bookmark0 (msngr_bookmarks s !! i).

Definition saved_bookmark (b : bookmark) : option entry :=
  if bm_in_use b then Some (mk_entry (Some (toHex (bm_hash b))) (Some (bm_name b)) (Some (bm_type b)) (Some (bm_delivery_mode b))) else None.
(* @src Messenger.h:807-825 messenger_bookmarks_save *)
Definition bookmarks_document s : document :=
  mk_document (omap saved_bookmark (msngr_bookmarks s))
    (if zlen (msngr_active_prop_node_hash s) =? PEER_HASH_SIZE then Some (toHex (msngr_active_prop_node_hash s)) else None) [].
(* @src Messenger.h:805-829 messenger_bookmarks_save *)
Definition messenger_bookmarks_save s : contacts := s <| bookmarks_file := serializeJson (bookmarks_document s) |>.

(* @src Messenger.h:847-864 messenger_bookmarks_load *)
Fixpoint load_entries (es : list entry) (i : nat) (bs : list bookmark) : nat * list bookmark :=
  match es with
  | [] => (i, bs)
  | o :: es =>
      if (MSNGR_MAX_BOOKMARKS <=? i)%nat then (i, bs)
      else
        let hash := assignHex (c_str (default [] (o_hash o))) in
        if negb (zlen hash =? PEER_HASH_SIZE) then load_entries es i bs
        else load_entries es (S i)
               (<[i := mk_bookmark true (messenger_store_hash hash) (messenger_store_name (default [] (o_name o)))
                         (u8 (default MSNGR_BOOKMARK_TYPE_LXMF (o_type o)))
                         (u8 (default MSNGR_DELIVERY_MODE_DIRECT (o_delivery_mode o)))]> bs)
  end.
(* @src Messenger.h:831-872 messenger_bookmarks_load *)
Definition messenger_bookmarks_load s : contacts :=
  let s := s <| msngr_bookmarks ::= map (fun b => b <| bm_in_use := false |>) |> <| msngr_bookmark_count := 0 |>
             <| msngr_active_prop_node_hash := [] |> in
  if zlen (bookmarks_file s) =? 0 then s
  else match deserializeJson (bookmarks_file s) with
       | None => s
       | Some doc =>
           let '(i, bs) := load_entries (doc_bookmarks doc) 0 (msngr_bookmarks s) in
           let s := s <| msngr_bookmarks := bs |> <| msngr_bookmark_count := Z.of_nat i |> in
           let active_hash := assignHex (c_str (default [] (doc_active doc))) in
           if zlen active_hash =? PEER_HASH_SIZE then s <| msngr_active_prop_node_hash := active_hash |> else s
       end.

(* @src Messenger.h:873-885 messenger_bookmark_add *)
Definition messenger_bookmark_add hash name (type : Z) s : bool * contacts :=
  match messenger_bookmark_find hash s with
  | Some _ => (true, s)
  | None =>
      match list_find (fun b => bm_in_use b = false) (msngr_bookmarks s) with
      | Some (i, b) =>
          let b := b <| bm_hash := messenger_store_hash hash |> <| bm_name := messenger_store_name name |>
                     <| bm_type := type |> <| bm_in_use := true |> in
          (true, messenger_bookmarks_save (s <| msngr_bookmarks ::= insert i b |> <| msngr_bookmark_count ::= fun n => u8 (n + 1) |>))
      | None => (false, s)
      end
  end.
(* @src Messenger.h:887-890 messenger_bookmark_is_prop_node *)
Definition messenger_bookmark_is_prop_node hash s : bool :=
  match messenger_bookmark_find hash s with
  | Some i => bm_type (bookmark_at i s) =? MSNGR_BOOKMARK_TYPE_PROPAGATION
  | None => false
  end.
(* @src Messenger.h:900-903 messenger_bookmark_delivery_mode *)
Definition messenger_bookmark_delivery_mode hash s : Z :=
  match messenger_bookmark_find hash s with
  | Some i => bm_delivery_mode (bookmark_at i s)
  | None => MSNGR_DELIVERY_MODE_DIRECT
  end.
(* @src Messenger.h:909-915 messenger_bookmark_set_delivery_mode *)
Definition messenger_bookmark_set_delivery_mode hash (mode : Z) s : bool * contacts :=
  match messenger_bookmark_find hash s with
  | None => (false, s)
  | Some i => (true, messenger_bookmarks_save (s <| msngr_bookmarks ::= alter (fun b => b <| bm_delivery_mode := mode |>) i |>))
  end.
(* @src Messenger.h:939-944 messenger_current_delivery_mode *)
Definition messenger_current_delivery_mode hash s : Z :=
  if msngr_session_delivery_mode_valid s && messenger_hash_matches (msngr_session_delivery_mode_hash s) hash
  then msngr_session_delivery_mode s else messenger_bookmark_delivery_mode hash s.
(* @src Messenger.h:950-955 messenger_set_delivery_mode *)
Definition messenger_set_delivery_mode hash (mode : Z) s : contacts :=
  let s := s <| msngr_session_delivery_mode_hash := hash |> <| msngr_session_delivery_mode := mode |>
             <| msngr_session_delivery_mode_valid := true |> in
  snd (messenger_bookmark_set_delivery_mode hash mode s).
(* @src Messenger.h:957-962 messenger_toggle_delivery_mode *)
Definition messenger_toggle_delivery_mode hash s : Z * contacts :=
  let next := if messenger_current_delivery_mode hash s =? MSNGR_DELIVERY_MODE_PROPAGATED
              then MSNGR_DELIVERY_MODE_DIRECT else MSNGR_DELIVERY_MODE_PROPAGATED in
  (next, messenger_set_delivery_mode hash next s).

(* @src Messenger.h:964-967 messenger_prop_node_is_active *)
Definition messenger_prop_node_is_active hash s : bool :=
  (zlen (msngr_active_prop_node_hash s) =? PEER_HASH_SIZE) && messenger_hash_matches (msngr_active_prop_node_hash s) hash.
Definition tell_router hash s : contacts := if has_router s then s <| router_node := hash |> else s.
(* @src Messenger.h:976-980 messenger_prop_node_set_active *)
Definition messenger_prop_node_set_active hash s : contacts :=
  messenger_bookmarks_save (tell_router hash (s <| msngr_active_prop_node_hash := hash |>)).
(* @src Messenger.h:988-992 messenger_prop_node_clear_active *)
Definition messenger_prop_node_clear_active s : contacts :=
  messenger_bookmarks_save (tell_router [] (s <| msngr_active_prop_node_hash := [] |>)).
(* @src Messenger.h:993-1000 messenger_bookmark_remove *)
Definition messenger_bookmark_remove hash s : contacts :=
  match messenger_bookmark_find hash s with
  | None => s
  | Some i =>
      let s := if messenger_prop_node_is_active hash s then messenger_prop_node_clear_active s else s in
      messenger_bookmarks_save
        (s <| msngr_bookmarks ::= alter (fun b => b <| bm_in_use := false |>) i |> <| msngr_bookmark_count ::= fun n => u8 (n - 1) |>)
  end.
(* @src Messenger.h:1013-1018 messenger_bookmark_rename *)
Definition messenger_bookmark_rename hash name s : contacts :=
  match messenger_bookmark_find hash s with
  | None => s
  | Some i => messenger_bookmarks_save (s <| msngr_bookmarks ::= alter (fun b => b <| bm_name := messenger_store_name name |>) i |>)
  end.

(** ** Preset messages *)

(* @src Messenger.h:1023-1030 messenger_presets_save *)
Definition messenger_presets_save s : contacts :=
  s <| presets_file := serializeJson (mk_document [] None (map Some (take (Z.to_nat (msngr_preset_count s)) (msngr_presets s)))) |>.
(* @src Messenger.h:1052-1059 messenger_presets_load *)
Fixpoint load_presets (vs : list (option (list Z))) (i : nat) (ps : list (list Z)) : nat * list (list Z) :=
  match vs with
  | [] => (i, ps)
  | v :: vs =>
      if (MSNGR_MAX_PRESETS <=? i)%nat then (i, ps)
      else load_presets vs (S i) (<[i := messenger_store_name (default [] v)]> ps)
  end.
(* @src Messenger.h:1037-1060 messenger_presets_load *)
Definition messenger_presets_load s : contacts :=
  let s := s <| msngr_preset_count := 0 |> in
  if zlen (presets_file s) =? 0 then
    s <| msngr_presets ::= fun ps => chars "Hi" :: chars "Bye" :: chars "SOS" :: drop 3 ps |> <| msngr_preset_count := 3 |>
  else match deserializeJson (presets_file s) with
       | None => s
       | Some doc =>
           let '(i, ps) := load_presets (doc_presets doc) 0 (msngr_presets s) in
           s <| msngr_presets := ps |> <| msngr_preset_count := Z.of_nat i |>
       end.
(* @src Messenger.h:1062-1068 messenger_preset_add *)
Definition messenger_preset_add (text : list Z) s : bool * contacts :=
  if Z.of_nat MSNGR_MAX_PRESETS <=? msngr_preset_count s then (false, s)
  else
    let s := s <| msngr_presets ::= insert (Z.to_nat (msngr_preset_count s)) (messenger_store_name text) |>
               <| msngr_preset_count ::= fun n => u8 (n + 1) |> in
    (true, messenger_presets_save s).
(* @src Messenger.h:1070-1074 messenger_preset_update *)
Definition messenger_preset_update (index : Z) (text : list Z) s : contacts :=
  if msngr_preset_count s <=? index then s
  else messenger_presets_save (s <| msngr_presets ::= insert (Z.to_nat index) (messenger_store_name text) |>).
(** The loop of the deletion: [n] entries from [i] on each take their successor. *)
(* @src Messenger.h:1082-1084 messenger_preset_delete *)
Fixpoint shift_down (n i : nat) (ps : list (list Z)) : list (list Z) :=
  match n with
  | O => ps
  | S n => shift_down n (S i) (<[i := messenger_store_name (default [] (ps !! S i))]> ps)
  end.
(* @src Messenger.h:1080-1087 messenger_preset_delete *)
Definition messenger_preset_delete (index : Z) s : contacts :=
  if msngr_preset_count s <=? index then s
  else
    let s := s <| msngr_presets ::= shift_down (Z.to_nat (msngr_preset_count s - 1 - index)) (Z.to_nat index) |>
               <| msngr_preset_count ::= fun n => u8 (n - 1) |> in
    messenger_presets_save s.

(** ** Heard peers *)

(* @src Messenger.h:798-803 messenger_announce_find *)
Definition messenger_announce_find hash s : option nat :=
  fst <$> list_find (fun a => an_in_use a && messenger_hash_matches (an_hash a) hash = true) (msngr_announces s).
(** The slot heard longest ago, the first of equals. *)
(* @src Messenger.h:1102-1108 messenger_announce_upsert *)
Fixpoint oldest_from (l : list announce) (i best : nat) (best_ms : Z) : nat :=
  match l with
  | [] => best
  | a :: l => if an_last_heard_ms a <? best_ms then oldest_from l (S i) i (an_last_heard_ms a) else oldest_from l (S i) best best_ms
  end.
Definition oldest (l : list announce) : nat :=
  match l with [] => O | a :: l => oldest_from l 1 0 (an_last_heard_ms a) end.
(* @src Messenger.h:1095-1108 messenger_announce_upsert *)
Definition announce_slot hash s : nat :=
  match messenger_announce_find hash s with
  | Some i => i
  | None => match list_find (fun a => an_in_use a = false) (msngr_announces s) with
            | Some (i, _) => i
            | None => oldest (msngr_announces s)
            end
  end.
(* @src Messenger.h:1094-1114 messenger_announce_upsert *)
Definition messenger_announce_upsert hash name (now : Z) s : contacts :=
  let store a :=
    let a := a <| an_hash := messenger_store_hash hash |> in
    let a := if negb (zlen name =? 0) then a <| an_name := messenger_store_name name |>
             else if negb (an_in_use a) then a <| an_name := [] |> else a in
    a <| an_in_use := true |> <| an_last_heard_ms := now |> in
  s <| msngr_announces ::= alter store (announce_slot hash s) |>.

(** ** Start-up *)

(* @src Messenger.h:2240-2248 messenger_init *)
Definition init_tables s : contacts :=
  let s := messenger_presets_load (messenger_bookmarks_load s) in
  if zlen (msngr_active_prop_node_hash s) =? PEER_HASH_SIZE then tell_router (msngr_active_prop_node_hash s) s else s.
(** A restart: the RAM as the program starts with it, the files as they were left. *)
Definition restart s : contacts := init_tables (contacts0 (bookmarks_file s) (presets_file s) (has_router s)).
End Contacts.
