(* ===== verification/ContactsBook.v ===== *)
(** * Bookmarks are a map that survives a restart

    The slots of the bookmarks implement a finite map from hashes to names and types of at
    most twelve entries, across saving and loading; what the slots add to it - delivery
    modes - is where they differ. *)
From Stdlib Require Import String.
From S2P Require Import Prelude Keyboard Contacts.
From stdpp Require Import list gmap.
#[local] Open Scope Z_scope.

(** ** Lemmas on bytes *)

Lemma c_str_idem s : c_str (c_str s) = c_str s.
Proof. induction s as [|b s IH]; [reflexivity|]. cbn. destruct (b =? 0) eqn:E; [reflexivity|]. cbn. now rewrite E, IH. Qed.
Lemma c_str_take n s : c_str (take n (c_str s)) = take n (c_str s).
Proof.
  revert n. induction s as [|b s IH]; intros [|n]; cbn; try reflexivity; destruct (b =? 0) eqn:E; cbn; try reflexivity.
  now rewrite E, IH.
Qed.
Lemma store_name_idem s : messenger_store_name (messenger_store_name s) = messenger_store_name s.
Proof. unfold messenger_store_name. now rewrite c_str_take, take_take, Nat.min_id. Qed.
Lemma store_hash_id h : zlen h = PEER_HASH_SIZE -> messenger_store_hash h = h.
Proof.
  unfold zlen, messenger_store_hash, PEER_HASH_SIZE. intros E. rewrite take_ge by lia.
  replace (Z.to_nat 16 - length h)%nat with O by lia. apply app_nil_r.
Qed.

Definition hex_back (b : Z) : bool :=
  let x := hex_digit (Z.shiftr (Z.land b 0xF0) 4) in let y := hex_digit (Z.land b 0x0F) in
  (u8 (hex_value x * 16 + hex_value y) =? b) && negb (x =? 0) && negb (y =? 0).
Lemma hex_back_all : forallb hex_back all_u8 = true.
Proof. vm_compute. reflexivity. Qed.
Lemma toHex_back l : bytes l -> assignHex (c_str (toHex l)) = l.
Proof.
  induction 1 as [|b l Hb Hl IH]; [reflexivity|]. pose proof (u8_forallb hex_back hex_back_all b Hb) as E.
  unfold hex_back in E. apply andb_prop in E as [E E3]. apply andb_prop in E as [E1 E2].
  apply Z.eqb_eq in E1. apply negb_true_iff in E2, E3.
  change (toHex (b :: l)) with (hex_digit (Z.shiftr (Z.land b 0xF0) 4) :: hex_digit (Z.land b 0x0F) :: toHex l).
  cbn [c_str]. rewrite E2, E3. cbn [assignHex]. now rewrite E1, IH.
Qed.

(** ** The slots in use *)

Definition live_in (bs : list bookmark) : list bookmark := filter (fun b => bm_in_use b = true) bs.
Definition hashes (l : list bookmark) : list (list Z) := bm_hash <$> l.
Definition live (s : contacts) : list bookmark := live_in (msngr_bookmarks s).
Record bookmark_ok (b : bookmark) : Prop := {
  bo_hash : zlen (bm_hash b) = PEER_HASH_SIZE; bo_bytes : bytes (bm_hash b);
  bo_name : messenger_store_name (bm_name b) = bm_name b;
  bo_type : is_u8 (bm_type b); bo_mode : is_u8 (bm_delivery_mode b)
}.
(** An address: the sixteen bytes of a destination. *)
Definition address (h : list Z) : Prop := zlen h = PEER_HASH_SIZE /\ bytes h.
Record slots_ok (bs : list bookmark) (n : Z) : Prop := {
  so_slots : length bs = MSNGR_MAX_BOOKMARKS;
  so_live : Forall bookmark_ok (live_in bs);
  so_unique : NoDup (hashes (live_in bs));
  so_count : n = zlen (live_in bs);
  so_modes : Forall (fun b => is_u8 (bm_delivery_mode b)) bs
}.
Definition bk_address (s : contacts) : Prop := msngr_active_prop_node_hash s = [] \/ address (msngr_active_prop_node_hash s).
Record book_ok (s : contacts) : Prop := {
  bk_slots : slots_ok (msngr_bookmarks s) (msngr_bookmark_count s);
  bk_active : bk_address s
}.

Lemma live_app l1 l2 : live_in (l1 ++ l2) = live_in l1 ++ live_in l2.
Proof. apply filter_app. Qed.
Lemma live_cons_in b l : bm_in_use b = true -> live_in (b :: l) = b :: live_in l.
Proof. intros E. unfold live_in. now rewrite filter_cons_True. Qed.
Lemma live_cons_out b l : bm_in_use b = false -> live_in (b :: l) = live_in l.
Proof. intros E. unfold live_in. rewrite filter_cons_False; [reflexivity|congruence]. Qed.
Lemma live_le bs : (length (live_in bs) <= length bs)%nat.
Proof. apply length_filter. Qed.
Lemma live_none bs : Forall (fun b => bm_in_use b = false) bs -> live_in bs = [].
Proof. induction 1 as [|b bs Hb _ IH]; [reflexivity|]. now rewrite live_cons_out. Qed.

(** A slot that is found splits the table. *)
Lemma slot_split {A} (l : list A) i x : l !! i = Some x ->
  l = take i l ++ x :: drop (S i) l /\
  (forall f, alter f i l = take i l ++ f x :: drop (S i) l) /\ (forall y, insert i y l = take i l ++ y :: drop (S i) l).
Proof.
  intros E. pose proof (lookup_lt_Some _ _ _ E) as Hl. split; [now rewrite take_drop_middle|]. split; intros; [|apply insert_take_drop, Hl].
  rewrite <- (take_drop_middle l i x E) at 1. rewrite alter_app_r_alt by (rewrite length_take; lia).
  rewrite length_take, Nat.min_l by lia. now rewrite Nat.sub_diag.
Qed.

Lemma found hash s i : messenger_bookmark_find hash s = Some i ->
  exists b, msngr_bookmarks s !! i = Some b /\ bm_in_use b = true /\ bm_hash b = hash /\ zlen hash = PEER_HASH_SIZE.
Proof.
  unfold messenger_bookmark_find. destruct (list_find _ _) as [[j b]|] eqn:E; cbn; [intros [= ->]|discriminate].
  apply list_find_Some in E as (El & Eb & _). exists b. apply andb_prop in Eb as [Eu Em]. unfold messenger_hash_matches in Em.
  destruct (Z.eqb_spec (zlen hash) PEER_HASH_SIZE); [|discriminate]. cbn in Em. apply bool_decide_eq_true in Em. auto.
Qed.
Lemma not_found hash s : address hash -> messenger_bookmark_find hash s = None -> hash ∉ hashes (live s).
Proof.
  intros [Ha _]. unfold messenger_bookmark_find. destruct (list_find _ _) as [|] eqn:E; [discriminate|]. intros _ Hin.
  apply list_elem_of_fmap in Hin as (b & -> & Hb). apply list_elem_of_filter in Hb as [Hu Hb].
  apply list_find_None in E. rewrite Forall_forall in E. apply (E b Hb). rewrite Hu. unfold messenger_hash_matches.
  now rewrite Ha, Z.eqb_refl, bool_decide_eq_true_2.
Qed.

(** ** Saving and loading *)

Definition to_entry (b : bookmark) : entry :=
  mk_entry (Some (toHex (bm_hash b))) (Some (bm_name b)) (Some (bm_type b)) (Some (bm_delivery_mode b)).
Lemma saved_live bs : omap saved_bookmark bs = map to_entry (live_in bs).
Proof.
  induction bs as [|b bs IH]; [reflexivity|]. cbn -[live_in]. unfold saved_bookmark at 1. destruct (bm_in_use b) eqn:E.
  - now rewrite live_cons_in, IH by exact E.
  - now rewrite live_cons_out, IH by exact E.
Qed.
Lemma load_step b es i bs : bookmark_ok b -> bm_in_use b = true -> (i < MSNGR_MAX_BOOKMARKS)%nat ->
  load_entries (to_entry b :: es) i bs = load_entries es (S i) (<[i := b]> bs).
Proof.
  intros [Hh Hby Hn Ht Hm] Hu Hi. cbn [load_entries to_entry o_hash o_name o_type o_delivery_mode from_option]. unfold id.
  rewrite (proj2 (Nat.leb_gt _ _)), toHex_back, Hh, store_hash_id, Hn, !u8_id by assumption.
  cbn [negb Z.eqb PEER_HASH_SIZE Pos.eqb]. destruct b; cbn in *. now subst.
Qed.
Lemma load_saved l i bs : Forall bookmark_ok l -> Forall (fun b => bm_in_use b = true) l ->
  length bs = MSNGR_MAX_BOOKMARKS -> (i + length l <= MSNGR_MAX_BOOKMARKS)%nat ->
  load_entries (map to_entry l) i bs = ((i + length l)%nat, take i bs ++ l ++ drop (i + length l) bs).
Proof.
  intros Hl Hu. revert i bs. induction Hl as [|b l Hb Hl IH]; intros i bs Hlen Hi.
  - cbn. now rewrite Nat.add_0_r, take_drop.
  - inversion_clear Hu as [|? ? Hub Hul]. cbn [length map] in *. rewrite load_step by (assumption || lia).
    rewrite IH by (assumption || rewrite ?length_insert; lia). f_equal; [lia|].
    rewrite drop_insert_lt, insert_take_drop by lia. replace (S i + length l)%nat with (i + S (length l))%nat by lia.
    assert (E : take (S i) (take i bs ++ b :: drop (S i) bs) = take i bs ++ [b]).
    { rewrite (cons_middle b), app_assoc, take_app_le by (rewrite length_app, length_take; cbn; lia).
      apply take_ge. rewrite length_app, length_take. cbn. lia. }
    now rewrite E, <- app_assoc.
Qed.

(** ** The book *)

Section Book.
Context `{JsonLaws}.
Implicit Types (s : contacts) (h name : list Z) (b : bookmark).

Definition card b : list Z * Z := (bm_name b, bm_type b).
(** The bookmarks as a finite map. *)
Definition cards (l : list bookmark) : gmap (list Z) (list Z * Z) := list_to_map ((fun b => (bm_hash b, card b)) <$> l).
Definition book s : gmap (list Z) (list Z * Z) := cards (live s).

Lemma cards_keys l : ((fun b => (bm_hash b, card b)) <$> l).*1 = hashes l.
Proof. now rewrite <- list_fmap_compose. Qed.
Lemma cards_cons b l : cards (b :: l) = <[bm_hash b := card b]> (cards l).
Proof. reflexivity. Qed.
Lemma cards_middle l1 b l2 : NoDup (hashes (l1 ++ b :: l2)) -> cards (l1 ++ b :: l2) = <[bm_hash b := card b]> (cards (l1 ++ l2)).
Proof.
  intros Hn. rewrite <- cards_cons. apply list_to_map_proper; [now rewrite cards_keys|].
  apply fmap_Permutation. symmetry. apply Permutation_middle.
Qed.
Lemma cards_none l h : h ∉ hashes l -> cards l !! h = None.
Proof. intros Hn. apply not_elem_of_list_to_map_1. now rewrite cards_keys. Qed.
Lemma nodup_middle l1 b l2 : NoDup (hashes (l1 ++ b :: l2)) <-> (bm_hash b ∉ hashes (l1 ++ l2)) /\ NoDup (hashes (l1 ++ l2)).
Proof.
  assert (P : hashes (l1 ++ b :: l2) ≡ₚ bm_hash b :: hashes (l1 ++ l2)) by (unfold hashes; now rewrite <- Permutation_middle).
  rewrite P. apply NoDup_cons.
Qed.

(** ** Editing a slot *)

Definition slot b : list bookmark := if bm_in_use b then [b] else [].
Lemma live_slot b l : live_in (b :: l) = slot b ++ live_in l.
Proof. unfold slot. destruct (bm_in_use b) eqn:E; [now apply live_cons_in|now apply live_cons_out]. Qed.
Lemma live_edit bs i b : bs !! i = Some b -> exists l1 l2, live_in bs = l1 ++ slot b ++ l2 /\
  forall b', live_in (<[i := b']> bs) = l1 ++ slot b' ++ l2.
Proof.
  intros E. destruct (slot_split bs i b E) as (E1 & _ & E2). exists (live_in (take i bs)), (live_in (drop (S i) bs)). split.
  - rewrite E1 at 1. now rewrite live_app, live_slot.
  - intros b'. now rewrite E2, live_app, live_slot.
Qed.
Definition used b : Z := if bm_in_use b then 1 else 0.
(** [b'] may replace [b]: it keeps the hash, or brings one of its own. *)
Definition fits bs b b' : Prop := bm_in_use b' = true ->
  bookmark_ok b' /\ (bm_in_use b = true /\ bm_hash b' = bm_hash b \/ (bm_hash b' ∉ hashes (live_in bs))).

Lemma slot_fresh l1 b l2 b' : NoDup (hashes (l1 ++ slot b ++ l2)) -> bm_in_use b = true /\ bm_hash b' = bm_hash b \/ (bm_hash b' ∉ hashes (l1 ++ slot b ++ l2)) ->
  (bm_hash b' ∉ hashes (l1 ++ l2)) /\ NoDup (hashes (l1 ++ l2)).
Proof.
  unfold slot. destruct (bm_in_use b) eqn:E; cbn [app]; intros Hn.
  - apply nodup_middle in Hn as [Hb Hn]. intros [[_ ->]|Hf]; [auto|]. split; [|exact Hn]. contradict Hf.
    unfold hashes in *. rewrite fmap_app, fmap_cons. rewrite fmap_app in Hf. rewrite elem_of_app in *. rewrite elem_of_cons. tauto.
  - intros [[[=] _]|Hf]. auto.
Qed.
Lemma slots_edit bs n i b b' : slots_ok bs n -> bs !! i = Some b -> fits bs b b' -> is_u8 (bm_delivery_mode b') -> slots_ok (<[i := b']> bs) (n + used b' - used b).
Proof.
  intros [Hs Hl Hu Hc Hm] Hi Hf Hm'. destruct (live_edit bs i b Hi) as (l1 & l2 & El & El'). specialize (El' b').
  assert (Hz : zlen (live_in (<[i := b']> bs)) = n + used b' - used b).
  { rewrite El', Hc, El. unfold zlen, slot, used. rewrite !length_app. destruct (bm_in_use b), (bm_in_use b'); cbn [length]; lia. }
  unfold fits in Hf. rewrite El in *. apply Forall_app in Hl as [Hl1 Hl2]. apply Forall_app in Hl2 as [_ Hl2].
  assert (Hn : NoDup (hashes (l1 ++ l2))).
  { unfold slot in Hu. destruct (bm_in_use b); [apply nodup_middle in Hu as [_ Hu]|]; exact Hu. }
  constructor; [now rewrite length_insert| | |now rewrite Hz|now apply Forall_insert]; rewrite El'; unfold slot at 1; destruct (bm_in_use b') eqn:E'.
  - destruct (Hf eq_refl) as [Hb _]. rewrite !Forall_app. repeat split; auto.
  - now apply Forall_app_2.
  - destruct (Hf eq_refl) as [_ Hb]. apply nodup_middle. exact (slot_fresh l1 b l2 b' Hu Hb).
  - exact Hn.
Qed.
Lemma cards_edit bs n i b b' : slots_ok bs n -> bs !! i = Some b -> fits bs b b' ->
  let m := if bm_in_use b then delete (bm_hash b) (cards (live_in bs)) else cards (live_in bs) in
  cards (live_in (<[i := b']> bs)) = if bm_in_use b' then <[bm_hash b' := card b']> m else m.
Proof.
  intros [_ _ Hu _ _] Hi Hf. destruct (live_edit bs i b Hi) as (l1 & l2 & El & El'). specialize (El' b'). unfold fits in Hf. rewrite El in *.
  assert (Em : (if bm_in_use b then delete (bm_hash b) (cards (l1 ++ slot b ++ l2)) else cards (l1 ++ slot b ++ l2)) = cards (l1 ++ l2)).
  { unfold slot in *. destruct (bm_in_use b) eqn:E; [|reflexivity]. cbn [app] in *. rewrite cards_middle by exact Hu.
    apply nodup_middle in Hu as [Hb _]. rewrite delete_insert_eq. apply delete_id, cards_none, Hb. }
  cbv zeta. rewrite Em, El'. unfold slot at 1. destruct (bm_in_use b') eqn:E'; [|reflexivity].
  destruct (Hf eq_refl) as [_ Hb]. cbn [app]. rewrite cards_middle; [reflexivity|]. apply nodup_middle. exact (slot_fresh l1 b l2 b' Hu Hb).
Qed.
Lemma cards_size bs n : slots_ok bs n -> Z.of_nat (size (cards (live_in bs))) = n.
Proof.
  intros [_ _ Hu -> _]. unfold cards. rewrite map_size_list_to_map by now rewrite cards_keys. now rewrite length_fmap.
Qed.

(** ** The specification *)

(** What the user has: contacts by address, at most twelve, and the propagation node in
    effect. *)
Record ledger := mk_ledger { lg_book : gmap (list Z) (list Z * Z); lg_active : list Z }.
Inductive contact_op :=
| AddContact (h name : list Z) (type : Z) | RemoveContact (h : list Z) | RenameContact (h name : list Z)
| SetMode (h : list Z) (mode : Z) | ToggleMode (h : list Z) | SetActive (h : list Z) | ClearActive | Restart.
Definition run_op (o : contact_op) s : bool * contacts :=
  match o with
  | AddContact h name type => messenger_bookmark_add h name type s
  | RemoveContact h => (true, messenger_bookmark_remove h s)
  | RenameContact h name => (true, messenger_bookmark_rename h name s)
  | SetMode h mode => (true, messenger_set_delivery_mode h mode s)
  | ToggleMode h => (true, snd (messenger_toggle_delivery_mode h s))
  | SetActive h => (true, messenger_prop_node_set_active h s)
  | ClearActive => (true, messenger_prop_node_clear_active s)
  | Restart => (true, restart s)
  end.
Definition spec_op (o : contact_op) (l : ledger) : bool * ledger :=
  match o with
  | AddContact h name type =>
      if decide (is_Some (lg_book l !! h)) then (true, l)
      else if decide (size (lg_book l) < MSNGR_MAX_BOOKMARKS)%nat
           then (true, l <| lg_book ::= insert h (messenger_store_name name, type) |>) else (false, l)
  | RemoveContact h =>
      if decide (is_Some (lg_book l !! h))
      then (true, mk_ledger (delete h (lg_book l)) (if decide (lg_active l = h) then [] else lg_active l)) else (true, l)
  | RenameContact h name => (true, l <| lg_book ::= alter (fun c => (messenger_store_name name, snd c)) h |>)
  | SetActive h => (true, l <| lg_active := h |>)
  | ClearActive => (true, l <| lg_active := [] |>)
  | SetMode _ _ | ToggleMode _ | Restart => (true, l)
  end.
Definition valid_op (o : contact_op) : Prop :=
  match o with
  | AddContact h _ type => address h /\ is_u8 type
  | SetMode h mode => address h /\ is_u8 mode
  | RemoveContact h | RenameContact h _ | ToggleMode h | SetActive h => address h
  | ClearActive | Restart => True
  end.

(** The file holds what the RAM does, or was never written. *)
Definition in_step s : Prop :=
  bookmarks_file s = serializeJson (bookmarks_document s) \/
  (bookmarks_file s = [] /\ live s = [] /\ msngr_active_prop_node_hash s = []).
Record sim s (l : ledger) : Prop := {
  sim_ok : book_ok s; sim_step : in_step s; sim_book : book s = lg_book l; sim_active : msngr_active_prop_node_hash s = lg_active l
}.

Lemma saved_sim s l : book_ok s -> book s = lg_book l -> msngr_active_prop_node_hash s = lg_active l -> sim (messenger_bookmarks_save s) l.
Proof. intros [Hs Ha] Hb Hl. constructor; [now constructor|now left|exact Hb|exact Hl]. Qed.

Lemma found_card h s i : book_ok s -> messenger_bookmark_find h s = Some i ->
  exists b, msngr_bookmarks s !! i = Some b /\ bm_in_use b = true /\ bm_hash b = h /\ book s !! h = Some (card b) /\ bookmark_ok b.
Proof.
  intros [[_ Hl Hu _ _] _] Hf. destruct (found h s i Hf) as (b & Hi & Hb & Hh & _). exists b. split_and!; auto.
  - unfold book, cards. apply elem_of_list_to_map_1; [now rewrite cards_keys|].
    apply list_elem_of_fmap. exists b. rewrite Hh. split; [reflexivity|].
    apply list_elem_of_filter. split; [exact Hb|]. eapply list_elem_of_lookup_2, Hi.
  - rewrite Forall_forall in Hl. apply Hl. apply list_elem_of_filter. split; [exact Hb|]. eapply list_elem_of_lookup_2, Hi.
Qed.
Lemma not_found_card h s : address h -> messenger_bookmark_find h s = None -> book s !! h = None.
Proof. intros Ha Hf. apply cards_none, not_found; assumption. Qed.
Lemma alter_found {A} (l : list A) i x f : l !! i = Some x -> alter f i l = <[i := f x]> l.
Proof. intros E. destruct (slot_split l i x E) as (_ & E1 & E2). now rewrite E1, E2. Qed.

Definition with_slots (bs : list bookmark) (n : Z) s : contacts := s <| msngr_bookmarks := bs |> <| msngr_bookmark_count := n |>.
Lemma put_sim bs n s l : slots_ok bs n -> bk_address s -> cards (live_in bs) = lg_book l -> msngr_active_prop_node_hash s = lg_active l ->
  sim (messenger_bookmarks_save (with_slots bs n s)) l.
Proof. intros Hs Ha Hc Hl. apply saved_sim; destruct s; [now constructor|exact Hc|exact Hl]. Qed.
(** A bookmark is edited in place and saved. *)
Lemma edit_sim s l i b f : sim s l -> msngr_bookmarks s !! i = Some b -> bm_in_use b = true ->
  bm_in_use (f b) = true -> bm_hash (f b) = bm_hash b -> bookmark_ok (f b) ->
  sim (messenger_bookmarks_save (s <| msngr_bookmarks ::= alter f i |>)) (l <| lg_book := <[bm_hash b := card (f b)]> (lg_book l) |>).
Proof.
  intros [[Hs Ha] _ Hb Hac] Hi Hu Hu' Hh Hok. assert (Hf : fits (msngr_bookmarks s) b (f b)) by (intros _; auto).
  pose proof (slots_edit _ _ i b (f b) Hs Hi Hf (bo_mode _ Hok)) as Hs'. pose proof (cards_edit _ _ i b (f b) Hs Hi Hf) as Hc. cbv zeta in Hc.
  unfold used in Hs'. rewrite Hu, Hu', Z.add_simpl_r in Hs'. rewrite Hu, Hu', Hh, insert_delete_eq in Hc.
  replace (s <| msngr_bookmarks ::= alter f i |>) with (with_slots (<[i := f b]> (msngr_bookmarks s)) (msngr_bookmark_count s) s)
    by (rewrite <- (alter_found _ _ _ f Hi); now destruct s).
  apply put_sim; [exact Hs'|exact Ha|rewrite Hc, <- Hb; now destruct l|destruct l; exact Hac].
Qed.
Lemma count_range s : slots_ok (msngr_bookmarks s) (msngr_bookmark_count s) -> 0 <= msngr_bookmark_count s <= 12.
Proof. intros [Hs _ _ -> _]. pose proof (live_le (msngr_bookmarks s)). unfold zlen, MSNGR_MAX_BOOKMARKS in *. lia. Qed.

Lemma count_range_pos s i b : slots_ok (msngr_bookmarks s) (msngr_bookmark_count s) -> msngr_bookmarks s !! i = Some b ->
  bm_in_use b = true -> 0 < msngr_bookmark_count s.
Proof.
  intros [_ _ _ -> _] Hi Hu. destruct (live_edit _ i b Hi) as (l1 & l2 & -> & _). unfold zlen, slot. rewrite Hu, !length_app. cbn [length]. lia.
Qed.

Lemma add_sim s l h name type : sim s l -> address h -> is_u8 type ->
  let '(ok, s') := messenger_bookmark_add h name type s in let '(ok', l') := spec_op (AddContact h name type) l in ok = ok' /\ sim s' l'.
Proof.
  intros Hsim Ha Ht. pose proof Hsim as [[Hs Hact] _ Hb Hac]. unfold messenger_bookmark_add. cbn [spec_op]. rewrite <- Hb.
  destruct (messenger_bookmark_find h s) as [i|] eqn:Ef.
  - destruct (found_card h s i (sim_ok _ _ Hsim) Ef) as (b & _ & _ & _ & Eb & _). rewrite decide_True by (rewrite Eb; eauto). auto.
  - pose proof (not_found_card h s Ha Ef) as Eb. rewrite decide_False by (rewrite Eb; intros [? [=]]).
    pose proof (cards_size _ _ Hs) as Hz. fold (live s) in Hz. fold (book s) in Hz. pose proof (count_range s Hs) as Hr.
    destruct (list_find _ (msngr_bookmarks s)) as [[i b]|] eqn:Ei.
    + apply list_find_Some in Ei as (Hi & Hu & _).
      assert (Hlt : (length (live s) < MSNGR_MAX_BOOKMARKS)%nat).
      { rewrite <- (so_slots _ _ Hs). apply (length_filter_lt _ _ b); [eapply list_elem_of_lookup_2, Hi|congruence]. }
      rewrite decide_True by (pose proof (so_count _ _ Hs) as Hn; unfold zlen in Hn; fold (live s) in Hn; lia).
      split; [reflexivity|]. set (b' := b <| bm_hash := _ |> <| bm_name := _ |> <| bm_type := _ |> <| bm_in_use := _ |>).
      assert (Hb' : bm_hash b' = h /\ bm_in_use b' = true /\ card b' = (messenger_store_name name, type) /\ bm_delivery_mode b' = bm_delivery_mode b).
      { unfold b', card. destruct b. cbn. rewrite store_hash_id by apply Ha. auto. }
      destruct Hb' as (Hh & Hu' & Hc & Hm). clearbody b'.
      assert (Hmode : is_u8 (bm_delivery_mode b')) by (rewrite Hm; exact (Forall_lookup_1 _ _ _ _ (so_modes _ _ Hs) Hi)).
      assert (Hf : fits (msngr_bookmarks s) b b').
      { intros _. split; [|right; rewrite Hh; now apply not_found]. injection Hc as Hn Hty.
        constructor; rewrite ?Hh, ?Hn, ?Hty; try apply Ha; [apply store_name_idem|exact Ht|exact Hmode]. }
      pose proof (slots_edit _ _ i b b' Hs Hi Hf Hmode) as Hs'. pose proof (cards_edit _ _ i b b' Hs Hi Hf) as Hcs. cbv zeta in Hcs.
      unfold used in Hs'. rewrite Hu, Hu', Z.sub_0_r in Hs'. rewrite Hu, Hu', Hh, Hc in Hcs.
      replace (s <| msngr_bookmarks ::= _ |> <| msngr_bookmark_count ::= _ |>)
        with (with_slots (<[i := b']> (msngr_bookmarks s)) (msngr_bookmark_count s + 1) s)
        by (rewrite <- (u8_id (msngr_bookmark_count s + 1)) by (unfold is_u8; lia); now destruct s).
      apply put_sim; [exact Hs'|exact Hact|rewrite Hcs; destruct l; cbn in *; now rewrite <- Hb|now destruct l].
    + rewrite decide_False; [auto|]. apply list_find_None in Ei.
      assert (El : live s = msngr_bookmarks s).
      { unfold live, live_in. clear -Ei. induction Ei as [|b bs Hb Hbs IH]; [reflexivity|].
        rewrite filter_cons_True by (destruct (bm_in_use b); congruence). now rewrite IH. }
      pose proof (so_count _ _ Hs) as Hn. fold (live s) in Hn. rewrite El in Hn. unfold zlen in Hn. rewrite (so_slots _ _ Hs) in Hn. lia.
Qed.

Lemma remove_sim s l h : sim s l -> address h -> sim (messenger_bookmark_remove h s) (snd (spec_op (RemoveContact h) l)).
Proof.
  intros Hsim Ha. pose proof Hsim as [[Hs Hact] _ Hb Hac]. unfold messenger_bookmark_remove. cbn [spec_op]. rewrite <- Hb, <- Hac.
  destruct (messenger_bookmark_find h s) as [i|] eqn:Ef.
  2: { rewrite decide_False by (rewrite (not_found_card h s Ha Ef); intros [? [=]]). exact Hsim. }
  destruct (found_card h s i (sim_ok _ _ Hsim) Ef) as (b & Hi & Hu & Hh & Ebk & Hbo).
  rewrite decide_True by (rewrite Ebk; eauto). cbn [snd].
  set (b' := b <| bm_in_use := false |>). assert (Hu' : bm_in_use b' = false) by now destruct b.
  assert (Hf : fits (msngr_bookmarks s) b b') by (intros E; congruence).
  assert (Hm : is_u8 (bm_delivery_mode b')) by (unfold b'; destruct b; apply Hbo).
  pose proof (slots_edit _ _ i b b' Hs Hi Hf Hm) as Hs'. pose proof (cards_edit _ _ i b b' Hs Hi Hf) as Hcs. cbv zeta in Hcs.
  unfold used in Hs'. rewrite Hu, Hu', Z.add_0_r in Hs'. rewrite Hu, Hu', Hh in Hcs.
  pose proof (count_range s Hs) as Hr. pose proof (count_range_pos s i b Hs Hi Hu) as Hp.
  set (s1 := if messenger_prop_node_is_active h s then messenger_prop_node_clear_active s else s).
  assert (E1 : msngr_bookmarks s1 = msngr_bookmarks s /\ msngr_bookmark_count s1 = msngr_bookmark_count s /\
    msngr_active_prop_node_hash s1 = if decide (msngr_active_prop_node_hash s = h) then [] else msngr_active_prop_node_hash s).
  { unfold s1, messenger_prop_node_is_active, messenger_hash_matches. destruct (decide _) as [Ea|Ea].
    - rewrite Ea, (proj1 Ha), Z.eqb_refl, bool_decide_eq_true_2 by reflexivity. cbn [negb andb].
      unfold messenger_prop_node_clear_active, tell_router. destruct s, has_router; cbn; auto.
    - rewrite (proj1 Ha), Z.eqb_refl, bool_decide_eq_false_2, andb_false_r by exact Ea. auto. }
  clearbody s1. destruct E1 as (E1 & E2 & E3).
  replace (s1 <| msngr_bookmarks ::= _ |> <| msngr_bookmark_count ::= _ |>)
    with (with_slots (<[i := b']> (msngr_bookmarks s)) (msngr_bookmark_count s - 1) s1).
  2: { rewrite <- (u8_id (msngr_bookmark_count s - 1)) by (unfold is_u8; lia). unfold b'.
       rewrite <- (alter_found _ _ _ (fun b => b <| bm_in_use := false |>) Hi), <- E1, <- E2. now destruct s1. }
  apply put_sim; [exact Hs'| |exact Hcs|exact E3]. unfold bk_address. rewrite E3. destruct (decide _); [now left|exact Hact].
Qed.

Lemma alter_known {A} (m : gmap (list Z) A) h x f : m !! h = Some x -> alter f h m = <[h := f x]> m.
Proof.
  intros E. apply map_eq. intros j. destruct (decide (j = h)) as [->|Hn].
  - now rewrite lookup_alter_eq, lookup_insert_eq, E.
  - now rewrite lookup_alter_ne, lookup_insert_ne by congruence.
Qed.
Lemma alter_unknown {A} (m : gmap (list Z) A) h f : m !! h = None -> alter f h m = m.
Proof.
  intros E. apply map_eq. intros j. destruct (decide (j = h)) as [->|Hn]; [now rewrite lookup_alter_eq, E|now rewrite lookup_alter_ne by congruence].
Qed.
Lemma ledger_same l : l <| lg_book := lg_book l |> = l.
Proof. now destruct l. Qed.

Lemma rename_sim s l h name : sim s l -> address h -> sim (messenger_bookmark_rename h name s) (snd (spec_op (RenameContact h name) l)).
Proof.
  intros Hsim Ha. pose proof (sim_book _ _ Hsim) as Hb. unfold messenger_bookmark_rename. cbn [spec_op snd].
  destruct (messenger_bookmark_find h s) as [i|] eqn:Ef.
  - destruct (found_card h s i (sim_ok _ _ Hsim) Ef) as (b & Hi & Hu & Hh & Ebk & Hbo). rewrite Hb in Ebk.
    pose proof (edit_sim s l i b (fun b => b <| bm_name := messenger_store_name name |>) Hsim Hi Hu) as P.
    replace (l <| lg_book ::= _ |>) with (l <| lg_book := <[bm_hash b := card (b <| bm_name := messenger_store_name name |>)]> (lg_book l) |>).
    + apply P; [now destruct b..|]. destruct Hbo. destruct b. constructor; cbn in *; auto using store_name_idem.
    + rewrite Hh. unfold card at 1. destruct l; cbn in *. now rewrite (alter_known _ _ _ _ Ebk).
  - pose proof (not_found_card h s Ha Ef) as En. rewrite Hb in En. destruct l; cbn in *. now rewrite alter_unknown.
Qed.
Lemma mode_sim s l h mode : sim s l -> is_u8 mode -> sim (messenger_set_delivery_mode h mode s) l.
Proof.
  intros Hsim Hm. unfold messenger_set_delivery_mode, messenger_bookmark_set_delivery_mode. set (s1 := s <| msngr_session_delivery_mode_hash := h |> <| msngr_session_delivery_mode := mode |> <| msngr_session_delivery_mode_valid := true |>).
  assert (Hs1 : sim s1 l) by (destruct Hsim as [[] ? ? ?], s; constructor; [constructor|..]; assumption). clearbody s1. clear Hsim.
  destruct (messenger_bookmark_find h s1) as [i|] eqn:Ef; [|exact Hs1]. cbn [snd].
  destruct (found_card h s1 i (sim_ok _ _ Hs1) Ef) as (b & Hi & Hu & Hh & Ebk & Hbo). rewrite (sim_book _ _ Hs1) in Ebk.
  pose proof (edit_sim s1 l i b (fun b => b <| bm_delivery_mode := mode |>) Hs1 Hi Hu) as P.
  replace l with (l <| lg_book := <[bm_hash b := card (b <| bm_delivery_mode := mode |>)]> (lg_book l) |>).
  - apply P; [now destruct b..|]. destruct Hbo. destruct b. constructor; cbn in *; assumption.
  - rewrite Hh. replace (card _) with (card b) by now destruct b. now rewrite insert_id, ledger_same.
Qed.
Lemma toggle_sim s l h : sim s l -> sim (snd (messenger_toggle_delivery_mode h s)) l.
Proof.
  intros Hsim. unfold messenger_toggle_delivery_mode. cbn [snd]. apply mode_sim; [exact Hsim|].
  destruct (_ =? _); unfold MSNGR_DELIVERY_MODE_DIRECT, MSNGR_DELIVERY_MODE_PROPAGATED, is_u8; lia.
Qed.
Lemma active_sim s l h : sim s l -> h = [] \/ address h ->
  sim (messenger_bookmarks_save (tell_router h (s <| msngr_active_prop_node_hash := h |>))) (l <| lg_active := h |>).
Proof.
  intros [[Hs _] _ Hb _] Ha. apply saved_sim; unfold tell_router; destruct s as [? ? ? ? ? ? ? ? ? ? ? r ?], r; cbn in *;
    first [constructor; assumption|destruct l; exact Hb|destruct l; reflexivity].
Qed.

(** ** A restart *)

Lemma presets_load_keeps s : let s' := messenger_presets_load s in
  msngr_bookmarks s' = msngr_bookmarks s /\ msngr_bookmark_count s' = msngr_bookmark_count s /\
  msngr_active_prop_node_hash s' = msngr_active_prop_node_hash s /\ bookmarks_file s' = bookmarks_file s.
Proof.
  unfold messenger_presets_load. cbv zeta. destruct (_ =? 0); [now destruct s|]. destruct (deserializeJson _) as [d|]; [|now destruct s].
  destruct (load_presets _ _ _) as [i ps]. now destruct s.
Qed.
Lemma mode0 : is_u8 (bm_delivery_mode bookmark0).
Proof. split; reflexivity || discriminate. Qed.
Definition fresh (k : nat) : list bookmark := drop k (repeat bookmark0 MSNGR_MAX_BOOKMARKS).
Lemma fresh_all k : Forall (fun b => b = bookmark0) (fresh k).
Proof. apply Forall_drop, Forall_forall. intros b Hb. apply list_elem_of_In, repeat_spec in Hb. exact Hb. Qed.
Lemma live_fresh k : live_in (fresh k) = [].
Proof. apply live_none. eapply Forall_impl; [apply fresh_all|]. now intros b ->. Qed.
Lemma slots_fresh : slots_ok (repeat bookmark0 MSNGR_MAX_BOOKMARKS) 0.
Proof.
  constructor; [reflexivity|apply Forall_nil_2|apply NoDup_nil_2|reflexivity|].
  eapply Forall_impl; [apply (fresh_all 0)|]. intros b ->. exact mode0.
Qed.
Lemma live_all bs : Forall (fun b => bm_in_use b = true) (live_in bs).
Proof. apply Forall_forall. intros b Hb. now apply list_elem_of_filter in Hb as [Hb _]. Qed.
Lemma live_live bs : live_in (live_in bs) = live_in bs.
Proof.
  pose proof (live_all bs) as Ha. induction Ha as [|b l Hb Hl IH]; [reflexivity|]. now rewrite live_cons_in, IH.
Qed.

Lemma load_sim s l : sim s l -> sim (messenger_bookmarks_load (contacts0 (bookmarks_file s) (presets_file s) (has_router s))) l.
Proof.
  intros [[Hs Ha] Hstep Hb Hac]. unfold messenger_bookmarks_load. cbv zeta.
  set (s0 := (contacts0 _ _ _) <| msngr_bookmarks ::= _ |> <| msngr_bookmark_count := _ |> <| msngr_active_prop_node_hash := _ |>).
  assert (E0 : msngr_bookmarks s0 = repeat bookmark0 MSNGR_MAX_BOOKMARKS /\ bookmarks_file s0 = bookmarks_file s /\
    msngr_active_prop_node_hash s0 = [] /\ msngr_bookmark_count s0 = 0) by (cbn; auto). clearbody s0.
  destruct E0 as (E1 & E2 & E3 & E4). rewrite E2, E1.
  destruct Hstep as [Ef|(Ef & El & Eac)].
  - rewrite Ef. assert (Hz : (zlen (serializeJson (bookmarks_document s)) =? 0) = false).
    { apply Z.eqb_neq. pose proof (json_not_empty (bookmarks_document s)) as Hn. unfold zlen. destruct (serializeJson _); cbn [length]; [congruence|lia]. }
    rewrite Hz, json_read_back. cbn [doc_bookmarks doc_active bookmarks_document]. rewrite saved_live. fold (live s).
    pose proof (count_range s Hs) as Hr. pose proof (so_count _ _ Hs) as Hn. fold (live s) in Hn. unfold zlen in Hn.
    rewrite load_saved by (first [apply so_live in Hs; exact Hs|apply live_all|apply repeat_length|unfold MSNGR_MAX_BOOKMARKS; lia]).
    cbn [Nat.add take app]. fold (fresh (length (live s))). set (bs := live s ++ fresh (length (live s))).
    assert (Elive : live_in bs = live s) by (unfold bs; rewrite live_app, live_fresh, app_nil_r; apply live_live).
    assert (Hbs : slots_ok bs (Z.of_nat (length (live s)))).
    { constructor; rewrite ?Elive; try (exact (so_live _ _ Hs) || exact (so_unique _ _ Hs) || reflexivity).
      - unfold bs, fresh. rewrite length_app, length_drop, repeat_length. unfold MSNGR_MAX_BOOKMARKS. lia.
      - apply Forall_app. split; [eapply Forall_impl; [exact (so_live _ _ Hs)|]; now intros b []|].
        eapply Forall_impl; [apply fresh_all|]. intros b ->. exact mode0. }
    clearbody bs. set (a' := assignHex _).
    assert (Ea' : (if zlen a' =? PEER_HASH_SIZE then a' else []) = msngr_active_prop_node_hash s).
    { unfold a'. destruct Ha as [->|[Hl Hby]]; [reflexivity|]. rewrite Hl, Z.eqb_refl. cbn [from_option]. unfold id. now rewrite toHex_back, Hl, Z.eqb_refl. }
    match goal with |- sim ?x l => set (s2 := x) end.
    assert (E2' : msngr_bookmarks s2 = bs /\ msngr_bookmark_count s2 = Z.of_nat (length (live s)) /\
      msngr_active_prop_node_hash s2 = msngr_active_prop_node_hash s /\ bookmarks_file s2 = bookmarks_file s).
    { unfold s2. rewrite <- Ea', <- E2. destruct (zlen a' =? PEER_HASH_SIZE); destruct s0; cbn in *; rewrite ?E3; auto. }
    clearbody s2. destruct E2' as (F1 & F2 & F3 & F4). constructor.
    + constructor; [now rewrite F1, F2|unfold bk_address; now rewrite F3].
    + left. rewrite F4, Ef. unfold bookmarks_document. now rewrite F1, F3, !saved_live, Elive.
    + unfold book, live. now rewrite F1, Elive.
    + now rewrite F3.
  - rewrite Ef. change (zlen [] =? 0) with true. cbv iota. constructor.
    + constructor; [rewrite E1, E4; exact slots_fresh|left; exact E3].
    + right. rewrite E2, Ef. split; [reflexivity|]. split; [|exact E3]. unfold live. rewrite E1. apply (live_fresh 0).
    + rewrite <- Hb. unfold book at 2. rewrite El. unfold book, live. now rewrite E1.
    + now rewrite E3, <- Hac, Eac.
Qed.
Lemma restart_sim s l : sim s l -> sim (restart s) l.
Proof.
  intros Hsim. unfold restart, init_tables. cbv zeta. apply load_sim in Hsim. set (s1 := messenger_bookmarks_load _) in *. clearbody s1.
  destruct (presets_load_keeps s1) as (E1 & E2 & E3 & E4). set (s2 := messenger_presets_load s1) in *. clearbody s2.
  assert (Hs2 : sim s2 l).
  { destruct Hsim as [[Hs Ha] Hst Hb Hac]. constructor.
    - constructor; [now rewrite E1, E2|unfold bk_address; now rewrite E3].
    - unfold in_step, live, bookmarks_document. now rewrite E1, E3, E4.
    - unfold book, live. now rewrite E1.
    - now rewrite E3. }
  destruct (_ =? _); [|exact Hs2]. unfold tell_router. destruct (has_router s2); [|exact Hs2].
  destruct Hs2 as [[] ? ? ?], s2. constructor; [constructor|..]; assumption.
Qed.

(** ** The theorem *)

Fixpoint run_ops (os : list contact_op) s : list bool * contacts :=
  match os with
  | [] => ([], s)
  | o :: os => let '(a, s) := run_op o s in let '(r, s) := run_ops os s in (a :: r, s)
  end.
Fixpoint spec_ops (os : list contact_op) (l : ledger) : list bool * ledger :=
  match os with
  | [] => ([], l)
  | o :: os => let '(a, l) := spec_op o l in let '(r, l) := spec_ops os l in (a :: r, l)
  end.
Lemma op_sim o s l : valid_op o -> sim s l ->
  let '(a, s') := run_op o s in let '(a', l') := spec_op o l in a = a' /\ sim s' l'.
Proof.
  intros Hv Hsim. destruct o; cbn [run_op valid_op] in *.
  - destruct Hv. now apply add_sim.
  - pose proof (remove_sim s l h Hsim Hv) as P. cbn [spec_op] in *. destruct (decide _); auto.
  - split; [reflexivity|]. now apply (rename_sim s l h name).
  - split; [reflexivity|]. now apply mode_sim.
  - split; [reflexivity|]. now apply toggle_sim.
  - split; [reflexivity|]. apply active_sim; auto.
  - split; [reflexivity|]. apply (active_sim s l []); auto.
  - split; [reflexivity|]. now apply restart_sim.
Qed.
Lemma ops_sim os s l : Forall valid_op os -> sim s l ->
  let '(r, s') := run_ops os s in let '(r', l') := spec_ops os l in r = r' /\ sim s' l'.
Proof.
  intros Hv. revert s l. induction Hv as [|o os Ho Hos IH]; intros s l Hsim; cbn [run_ops spec_ops]; [auto|].
  pose proof (op_sim o s l Ho Hsim) as P. destruct (run_op o s) as [a s1], (spec_op o l) as [a' l1]. destruct P as [-> P].
  specialize (IH s1 l1 P). destruct (run_ops os s1), (spec_ops os l1). destruct IH as [-> IH]. auto.
Qed.
Lemma empty_sim presets router : sim (contacts0 [] presets router) (mk_ledger ∅ []).
Proof.
  constructor; [|right; auto|reflexivity|reflexivity]. constructor; [exact slots_fresh|now left].
Qed.

(** C23. Bookmarks are a map of at most twelve contacts that survives every restart.
    Whatever sequence of additions, removals, renamings, changes of the delivery mode and
    of the propagation node in effect the user makes, restarts among them, the slots and
    the file hold what the map does: an addition is refused exactly when the book is full
    and the address is new, a name and type is found under its address, removing the node
    in effect puts it out of effect. *)
(* @prop refinement W=contacts_refine_map_witness D=messenger_bookmark_add,messenger_bookmark_remove,messenger_bookmark_rename,messenger_set_delivery_mode,messenger_prop_node_set_active,messenger_bookmarks_load,load_entries,bookmarks_document *)
Theorem contacts_refine_map (os : list contact_op) (presets : list Z) (router : bool) : Forall valid_op os ->
  let '(r, s) := run_ops os (contacts0 [] presets router) in let '(r', l) := spec_ops os (mk_ledger ∅ []) in
  r = r' /\ book s = lg_book l /\ msngr_active_prop_node_hash s = lg_active l /\
  msngr_bookmark_count s = Z.of_nat (size (lg_book l)) /\ book (restart s) = lg_book l.
Proof.
  intros Hv. pose proof (ops_sim os _ _ Hv (empty_sim presets router)) as P.
  destruct (run_ops os _) as [r s], (spec_ops os _) as [r' l]. destruct P as [-> P]. split; [reflexivity|].
  pose proof (restart_sim s l P) as Pr. destruct P as [[Hs _] _ Hb Ha]. split_and!; [exact Hb|exact Ha| |exact (sim_book _ _ Pr)].
  rewrite <- Hb. symmetry. apply (cards_size _ _ Hs).
Qed.
End Book.

(** ** A library for the witnesses *)

(** Any injective encoding will do for what the library promises. *)
#[export] Instance entry_eq_dec : EqDecision entry.
Proof. solve_decision. Defined.
#[export] Instance document_eq_dec : EqDecision document.
Proof. solve_decision. Defined.
#[export, refine] Instance entry_countable : Countable entry :=
  inj_countable' (fun o => (o_hash o, o_name o, o_type o, o_delivery_mode o)) (fun '(a, b, c, d) => mk_entry a b c d) _.
Proof. now intros []. Defined.
#[export, refine] Instance document_countable : Countable document :=
  inj_countable' (fun d => (doc_bookmarks d, doc_active d, doc_presets d)) (fun '(a, b, c) => mk_document a b c) _.
Proof. now intros []. Defined.
#[export] Instance coded_json : Json := {
  serializeJson d := [Z.pos (encode d)];
  deserializeJson l := match l with [Z.pos p] => decode p | _ => None end
}.
#[export, refine] Instance coded_json_laws : JsonLaws := {}.
Proof.
  - intros d. apply decode_encode.
  - discriminate.
Defined.

Definition alice : list Z := repeat 0xA1 16.
Definition bob : list Z := repeat 0xB0 16.
Definition witness_ops : list contact_op :=
  [AddContact alice (chars "Alice") 0; SetMode alice 1; SetActive bob; Restart; RemoveContact alice; AddContact bob (chars "Bob") 1].
Lemma contacts_refine_map_witness :
  let '(r, s) := run_ops witness_ops (contacts0 [] [] false) in
  r = [true; true; true; true; true; true] /\ book s = {[ bob := (chars "Bob", 1) ]} /\ book (restart s) = book s.
Proof.
  pose proof (contacts_refine_map witness_ops [] false) as P.
  destruct (run_ops witness_ops _) as [r s]. assert (Hv : Forall valid_op witness_ops).
  { repeat constructor; repeat (split || discriminate || reflexivity). }
  specialize (P Hv). destruct (spec_ops witness_ops _) as [r' l] eqn:E. destruct P as (-> & Hb & _ & _ & Hr).
  apply pair_equal_spec in E as [<- <-]. rewrite Hr, Hb. split; [vm_compute; reflexivity|]. split; [vm_compute; reflexivity|reflexivity].
Defined.

(** The delivery mode of a slot outlives the contact: one added to a slot whose contact was
    set to propagated delivery sends that way from the start, and after a restart too. *)
Theorem contact_takes_slot_mode `{Json} h name type s i b : messenger_bookmark_find h s = None -> address h ->
  list_find (fun b => bm_in_use b = false) (msngr_bookmarks s) = Some (i, b) ->
  msngr_bookmarks (snd (messenger_bookmark_add h name type s)) !! i =
    Some (mk_bookmark true h (messenger_store_name name) type (bm_delivery_mode b)).
Proof.
  intros Hf [Ha _] Hi. unfold messenger_bookmark_add. rewrite Hf, Hi. apply list_find_Some in Hi as (Hi & _).
  pose proof (lookup_lt_Some _ _ _ Hi). destruct s, b. cbn in *. rewrite list_lookup_insert_eq by assumption. now rewrite store_hash_id.
Qed.
Example new_contact_is_propagated :
  let s := snd (run_ops witness_ops (contacts0 [] [] false)) in
  messenger_bookmark_delivery_mode bob s = MSNGR_DELIVERY_MODE_PROPAGATED /\
  messenger_current_delivery_mode bob (restart s) = MSNGR_DELIVERY_MODE_PROPAGATED.
Proof. vm_compute. split; reflexivity. Qed.
(** A mode that is set is the mode in effect, bookmarked or not. *)
Theorem mode_in_effect `{Json} h mode s : address h -> messenger_current_delivery_mode h (messenger_set_delivery_mode h mode s) = mode.
Proof.
  intros [Ha _]. unfold messenger_set_delivery_mode, messenger_bookmark_set_delivery_mode.
  destruct (messenger_bookmark_find _ _) as [i|]; unfold messenger_current_delivery_mode, messenger_hash_matches; destruct s; cbn;
    now rewrite Ha, bool_decide_eq_true_2.
Qed.
