(* ===== verification/ContactsLists.v ===== *)
(** * Preset messages and heard peers

    The packed array of presets is a list of at most five messages, edited by position,
    that survives a restart; the table of heard peers keeps the last of them, one entry
    each, and gives up the one heard longest ago. *)
From Stdlib Require Import String.
From S2P Require Import Prelude Keyboard Contacts ContactsBook.
From stdpp Require Import list gmap.
#[local] Open Scope Z_scope.

(** ** Presets *)

Section Presets.
Context `{JsonLaws}.
Implicit Types (s : contacts) (t : list Z) (ps : list (list Z)).

(** What the presets screen shows. *)
Definition presets s : list (list Z) := take (Z.to_nat (msngr_preset_count s)) (msngr_presets s).
Record presets_ok s : Prop := {
  po_slots : length (msngr_presets s) = MSNGR_MAX_PRESETS;
  po_count : 0 <= msngr_preset_count s <= 5;
  po_names : Forall (fun t => messenger_store_name t = t) (presets s);
  po_file : presets_file s = [] /\ presets s = [chars "Hi"; chars "Bye"; chars "SOS"] \/
            presets_file s = serializeJson (mk_document [] None (map Some (presets s)))
}.
Inductive preset_op := AddPreset (t : list Z) | EditPreset (i : Z) (t : list Z) | DeletePreset (i : Z) | Reload.
Definition run_preset (o : preset_op) s : bool * contacts :=
  match o with
  | AddPreset t => messenger_preset_add t s
  | EditPreset i t => (true, messenger_preset_update i t s)
  | DeletePreset i => (true, messenger_preset_delete i s)
  | Reload => (true, restart s)
  end.
Definition spec_preset (o : preset_op) (l : list (list Z)) : bool * list (list Z) :=
  match o with
  | AddPreset t => if decide (length l < 5)%nat then (true, l ++ [messenger_store_name t]) else (false, l)
  | EditPreset i t => (true, <[Z.to_nat i := messenger_store_name t]> l)
  | DeletePreset i => (true, delete (Z.to_nat i) l)
  | Reload => (true, l)
  end.

Lemma shift_down_lookup n i ps j : (i + n < length ps)%nat -> (forall k x, (i < k <= i + n)%nat -> ps !! k = Some x -> messenger_store_name x = x) ->
  shift_down n i ps !! j = (if decide (i <= j < i + n)%nat then ps !! S j else ps !! j).
Proof.
  revert i ps. induction n as [|n IH]; intros i ps Hi Hn; cbn [shift_down]; [rewrite decide_False by lia; reflexivity|].
  destruct (lookup_lt_is_Some_2 ps (S i) ltac:(lia)) as [x Ex]. rewrite Ex. cbn [from_option]. unfold id.
  rewrite (Hn (S i) x) by (lia || exact Ex). rewrite IH.
  - repeat case_decide; try lia.
    + now rewrite list_lookup_insert_ne by lia.
    + replace j with i by lia. rewrite list_lookup_insert_eq by lia. now rewrite Ex.
    + now rewrite list_lookup_insert_ne by lia.
  - rewrite length_insert. lia.
  - intros k y Hk. rewrite list_lookup_insert_ne by lia. apply Hn. lia.
Qed.
Lemma shift_down_spec n i ps : (i + n < length ps)%nat -> Forall (fun t => messenger_store_name t = t) (take (S (i + n)) ps) ->
  take (i + n) (shift_down n i ps) = delete i (take (S (i + n)) ps).
Proof.
  intros Hi Hn. assert (Hk : forall k x, (i < k <= i + n)%nat -> ps !! k = Some x -> messenger_store_name x = x).
  { intros k x Hk Ex. eapply (Forall_lookup_1 _ _ k _ Hn). now rewrite lookup_take_lt by lia. }
  apply list_eq. intros j. rewrite lookup_take, list_lookup_delete, shift_down_lookup by assumption. rewrite !lookup_take.
  repeat case_decide; try lia; reflexivity.
Qed.
Lemma shift_down_length n i ps : length (shift_down n i ps) = length ps.
Proof. revert i ps. induction n as [|n IH]; intros i ps; cbn [shift_down]; [reflexivity|]. now rewrite IH, length_insert. Qed.

Lemma presets_length s : presets_ok s -> Z.of_nat (length (presets s)) = msngr_preset_count s.
Proof. intros [Hs Hc _ _]. unfold presets. rewrite length_take, Hs. unfold MSNGR_MAX_PRESETS. lia. Qed.
Lemma saved_ok s ps n : length ps = MSNGR_MAX_PRESETS -> 0 <= n <= 5 -> Forall (fun t => messenger_store_name t = t) (take (Z.to_nat n) ps) ->
  let s' := messenger_presets_save (s <| msngr_presets := ps |> <| msngr_preset_count := n |>) in
  presets_ok s' /\ presets s' = take (Z.to_nat n) ps.
Proof. intros Hl Hn Hf. split; [|reflexivity]. constructor; [exact Hl|exact Hn|exact Hf|right; reflexivity]. Qed.

Lemma add_preset t s : presets_ok s ->
  let '(ok, s') := messenger_preset_add t s in let '(ok', l) := spec_preset (AddPreset t) (presets s) in
  ok = ok' /\ presets_ok s' /\ presets s' = l.
Proof.
  intros Hok. pose proof (presets_length s Hok) as Hl. pose proof Hok as [Hs Hc Hn _]. unfold messenger_preset_add. cbn [spec_preset].
  change (Z.of_nat MSNGR_MAX_PRESETS) with 5. destruct (Z.leb_spec 5 (msngr_preset_count s)).
  - rewrite decide_False by lia. auto.
  - rewrite decide_True by lia. split; [reflexivity|]. set (k := Z.to_nat (msngr_preset_count s)).
    assert (Et : take (S k) (<[k := messenger_store_name t]> (msngr_presets s)) = presets s ++ [messenger_store_name t]).
    { assert (k < length (msngr_presets s))%nat by (rewrite Hs; unfold MSNGR_MAX_PRESETS; lia).
      rewrite (take_S_r _ _ (messenger_store_name t)) by (apply list_lookup_insert_eq; assumption). now rewrite take_insert_ge. }
    pose proof (saved_ok s (<[k := messenger_store_name t]> (msngr_presets s)) (msngr_preset_count s + 1)) as P. cbv zeta in P.
    replace (Z.to_nat (msngr_preset_count s + 1)) with (S k) in P by lia. rewrite Et in P.
    replace (s <| msngr_presets ::= _ |> <| msngr_preset_count ::= _ |>)
      with (s <| msngr_presets := <[k := messenger_store_name t]> (msngr_presets s) |> <| msngr_preset_count := msngr_preset_count s + 1 |>)
      by (rewrite <- (u8_id (msngr_preset_count s + 1)) by (unfold is_u8; lia); now destruct s).
    apply P; [now rewrite length_insert|lia|]. apply Forall_app_2; [exact Hn|]. repeat constructor. apply store_name_idem.
Qed.
Lemma edit_preset i t s : presets_ok s -> 0 <= i ->
  presets_ok (messenger_preset_update i t s) /\ presets (messenger_preset_update i t s) = <[Z.to_nat i := messenger_store_name t]> (presets s).
Proof.
  intros Hok Hi. pose proof (presets_length s Hok) as Hl. pose proof Hok as [Hs Hc Hn _]. unfold messenger_preset_update.
  destruct (Z.leb_spec (msngr_preset_count s) i).
  - split; [exact Hok|]. symmetry. apply list_insert_ge. lia.
  - pose proof (saved_ok s (<[Z.to_nat i := messenger_store_name t]> (msngr_presets s)) (msngr_preset_count s)) as P. cbv zeta in P.
    rewrite take_insert_lt in P by lia. fold (presets s) in P.
    replace (s <| msngr_presets ::= _ |>)
      with (s <| msngr_presets := <[Z.to_nat i := messenger_store_name t]> (msngr_presets s) |> <| msngr_preset_count := msngr_preset_count s |>)
      by now destruct s.
    apply P; [now rewrite length_insert|lia|]. apply Forall_insert; [exact Hn|apply store_name_idem].
Qed.
Lemma delete_preset i s : presets_ok s -> 0 <= i ->
  presets_ok (messenger_preset_delete i s) /\ presets (messenger_preset_delete i s) = delete (Z.to_nat i) (presets s).
Proof.
  intros Hok Hi. pose proof (presets_length s Hok) as Hl. pose proof Hok as [Hs Hc Hn _]. unfold messenger_preset_delete.
  destruct (Z.leb_spec (msngr_preset_count s) i).
  - split; [exact Hok|]. rewrite delete_take_drop, take_ge, drop_ge, app_nil_r by lia. reflexivity.
  - set (n := Z.to_nat (msngr_preset_count s - 1 - i)). set (k := Z.to_nat i).
    assert (Hk : Z.to_nat (msngr_preset_count s) = S (k + n)) by lia.
    assert (Ht : take (k + n) (shift_down n k (msngr_presets s)) = delete k (presets s)).
    { unfold presets in *. rewrite Hk in *. apply shift_down_spec; [rewrite Hs; unfold MSNGR_MAX_PRESETS; lia|exact Hn]. }
    pose proof (saved_ok s (shift_down n k (msngr_presets s)) (msngr_preset_count s - 1)) as P. cbv zeta in P.
    replace (Z.to_nat (msngr_preset_count s - 1)) with (k + n)%nat in P by lia. rewrite Ht in P.
    replace (s <| msngr_presets ::= _ |> <| msngr_preset_count ::= _ |>)
      with (s <| msngr_presets := shift_down n k (msngr_presets s) |> <| msngr_preset_count := msngr_preset_count s - 1 |>)
      by (rewrite <- (u8_id (msngr_preset_count s - 1)) by (unfold is_u8; lia); now destruct s).
    apply P; [now rewrite shift_down_length|lia|]. now apply Forall_delete.
Qed.

Lemma load_saved_presets l i ps : Forall (fun t => messenger_store_name t = t) l ->
  length ps = MSNGR_MAX_PRESETS -> (i + length l <= MSNGR_MAX_PRESETS)%nat ->
  load_presets (map Some l) i ps = ((i + length l)%nat, take i ps ++ l ++ drop (i + length l) ps).
Proof.
  intros Hl. revert i ps. induction Hl as [|t l Ht Hl IH]; intros i ps Hlen Hi; cbn [map load_presets length] in *.
  - rewrite Nat.add_0_r. cbn [app]. now rewrite take_drop.
  - rewrite (proj2 (Nat.leb_gt _ _)) by lia. cbn [from_option]. unfold id. rewrite Ht.
    rewrite IH by (rewrite ?length_insert; lia). f_equal; [lia|].
    rewrite drop_insert_lt by lia. replace (S i + length l)%nat with (i + S (length l))%nat by lia.
    rewrite (take_S_r _ _ t) by (apply list_lookup_insert_eq; lia). now rewrite take_insert_ge, <- app_assoc.
Qed.
Lemma bookmarks_load_presets s : let s' := messenger_bookmarks_load s in
  msngr_presets s' = msngr_presets s /\ msngr_preset_count s' = msngr_preset_count s /\ presets_file s' = presets_file s.
Proof.
  unfold messenger_bookmarks_load. cbv zeta. destruct (_ =? 0); [now destruct s|]. destruct (deserializeJson _) as [d|]; [|now destruct s].
  destruct (load_entries _ _ _) as [i bs]. destruct (_ =? _); now destruct s.
Qed.
Lemma load_presets_ok s : length (msngr_presets s) = MSNGR_MAX_PRESETS -> forall l,
  presets_file s = [] /\ l = [chars "Hi"; chars "Bye"; chars "SOS"] \/
  presets_file s = serializeJson (mk_document [] None (map Some l)) /\ Forall (fun t => messenger_store_name t = t) l /\ (length l <= 5)%nat ->
  let s' := messenger_presets_load s in presets_ok s' /\ presets s' = l.
Proof.
  intros Hl l [[Ef ->]|(Ef & Hn & Hlen)]; unfold messenger_presets_load; cbv zeta.
  - change (presets_file (s <| msngr_preset_count := 0 |>)) with (presets_file s). rewrite Ef. change (zlen [] =? 0) with true. cbv iota.
    assert (E3 : exists a b c d e, msngr_presets s = [a; b; c; d; e]).
    { destruct (msngr_presets s) as [|a [|b [|c [|d [|e [|]]]]]]; try discriminate Hl. eauto 6. }
    destruct E3 as (a & b & c & d & e & E3). destruct s. cbn in *. subst. split; [|reflexivity].
    constructor; [reflexivity|cbn; lia|repeat constructor|left; auto].
  - change (presets_file (s <| msngr_preset_count := 0 |>)) with (presets_file s). rewrite Ef.
    assert (Hz : (zlen (serializeJson (mk_document [] None (map Some l))) =? 0) = false).
    { apply Z.eqb_neq. pose proof (json_not_empty (mk_document [] None (map Some l))) as Hne. unfold zlen. destruct (serializeJson _); cbn [length]; [congruence|lia]. }
    rewrite Hz, json_read_back. cbn [doc_presets]. change (msngr_presets (s <| msngr_preset_count := 0 |>)) with (msngr_presets s).
    rewrite load_saved_presets by (assumption || (unfold MSNGR_MAX_PRESETS; lia)). cbn [Nat.add take app].
    set (ps := l ++ _). assert (Eps : take (Z.to_nat (Z.of_nat (length l))) ps = l) by (rewrite Nat2Z.id; apply take_app_length).
    assert (Hps : length ps = MSNGR_MAX_PRESETS) by (unfold ps; rewrite length_app, length_drop, Hl; unfold MSNGR_MAX_PRESETS; lia).
    split; [|exact Eps]. constructor.
    + exact Hps.
    + change (0 <= Z.of_nat (length l) <= 5). lia.
    + change (Forall (fun t => messenger_store_name t = t) (take (Z.to_nat (Z.of_nat (length l))) ps)). now rewrite Eps.
    + right. change (presets_file s = serializeJson (mk_document [] None (map Some (take (Z.to_nat (Z.of_nat (length l))) ps)))). now rewrite Eps.
Qed.
Lemma tell_router_presets h s : presets_ok s -> presets_ok (tell_router h s) /\ presets (tell_router h s) = presets s.
Proof. unfold tell_router. destruct (has_router s); [|auto]. intros []. split; [constructor|]; assumption || reflexivity. Qed.
Lemma init_presets s l : length (msngr_presets s) = MSNGR_MAX_PRESETS ->
  presets_file s = [] /\ l = [chars "Hi"; chars "Bye"; chars "SOS"] \/
  presets_file s = serializeJson (mk_document [] None (map Some l)) /\ Forall (fun t => messenger_store_name t = t) l /\ (length l <= 5)%nat ->
  presets_ok (init_tables s) /\ presets (init_tables s) = l.
Proof.
  intros Hs Hl. unfold init_tables. cbv zeta. destruct (bookmarks_load_presets s) as (E1 & E2 & E3).
  set (s1 := messenger_bookmarks_load s) in *. clearbody s1.
  destruct (load_presets_ok s1 ltac:(congruence) l) as [H1 H2]; [rewrite E3; exact Hl|].
  destruct (_ =? _); [|auto]. destruct (tell_router_presets (msngr_active_prop_node_hash (messenger_presets_load s1)) _ H1) as [H3 H4].
  split; [exact H3|congruence].
Qed.
Lemma reload_preset s : presets_ok s -> presets_ok (restart s) /\ presets (restart s) = presets s.
Proof.
  intros Hok. pose proof (presets_length s Hok) as Hl. pose proof Hok as [Hs Hc Hn Hf]. apply init_presets; [reflexivity|].
  destruct Hf as [Hf|Hf]; [left; exact Hf|right]. split_and!; [exact Hf|exact Hn|lia].
Qed.

Fixpoint run_presets (os : list preset_op) s : list bool * contacts :=
  match os with [] => ([], s) | o :: os => let '(a, s) := run_preset o s in let '(r, s) := run_presets os s in (a :: r, s) end.
Fixpoint spec_presets (os : list preset_op) (l : list (list Z)) : list bool * list (list Z) :=
  match os with [] => ([], l) | o :: os => let '(a, l) := spec_preset o l in let '(r, l) := spec_presets os l in (a :: r, l) end.
Definition preset_op_ok (o : preset_op) : Prop :=
  match o with EditPreset i _ | DeletePreset i => 0 <= i | _ => True end.
Lemma presets_sim os s : Forall preset_op_ok os -> presets_ok s ->
  let '(r, s') := run_presets os s in let '(r', l) := spec_presets os (presets s) in r = r' /\ presets_ok s' /\ presets s' = l.
Proof.
  intros Hv. revert s. induction Hv as [|o os Ho Hos IH]; intros s Hok; cbn [run_presets spec_presets]; [auto|].
  assert (P : let '(a, s1) := run_preset o s in let '(a', l1) := spec_preset o (presets s) in a = a' /\ presets_ok s1 /\ presets s1 = l1).
  { destruct o; [now apply add_preset|split; [reflexivity|now apply edit_preset]|split; [reflexivity|now apply delete_preset]|split; [reflexivity|now apply reload_preset]]. }
  destruct (run_preset o s) as [a s1], (spec_preset o (presets s)) as [a' l1]. destruct P as (-> & H1 & <-).
  specialize (IH s1 H1). destruct (run_presets os s1), (spec_presets os (presets s1)). destruct IH as (-> & IH). auto.
Qed.

(** The presets are a list of at most five messages edited by position, through every
    restart; a device that never saved any starts with the three of the firmware. *)
Theorem presets_refine_list (os : list preset_op) (bookmarks : list Z) (router : bool) : Forall preset_op_ok os ->
  let '(r, s) := run_presets os (init_tables (contacts0 bookmarks [] router)) in
  let '(r', l) := spec_presets os [chars "Hi"; chars "Bye"; chars "SOS"] in
  r = r' /\ presets s = l /\ presets (restart s) = l.
Proof.
  intros Hv. destruct (init_presets (contacts0 bookmarks [] router) [chars "Hi"; chars "Bye"; chars "SOS"] eq_refl ltac:(left; auto)) as [H1 H2].
  pose proof (presets_sim os _ Hv H1) as P. rewrite H2 in P.
  destruct (run_presets os _) as [r s], (spec_presets os _) as [r' l]. destruct P as (-> & Hok & <-).
  split; [reflexivity|]. split; [reflexivity|]. apply (reload_preset s Hok).
Qed.
End Presets.

(** ** Heard peers *)

Lemma oldest_from_spec l i best best_ms (k : list announce) : (forall j a, l !! j = Some a -> k !! (i + j)%nat = Some a) ->
  (exists b, k !! best = Some b /\ an_last_heard_ms b = best_ms) ->
  exists b, k !! oldest_from l i best best_ms = Some b /\ an_last_heard_ms b <= best_ms /\
    forall a, a ∈ l -> an_last_heard_ms b <= an_last_heard_ms a.
Proof.
  revert i best best_ms. induction l as [|a l IH]; intros i best best_ms Hk (b & Hb & Em); cbn [oldest_from].
  - exists b. split_and!; [exact Hb|lia|]. intros a Ha. now apply elem_of_nil in Ha.
  - assert (Hk' : forall j x, l !! j = Some x -> k !! (S i + j)%nat = Some x) by (intros j x Hx; rewrite Nat.add_succ_comm; now apply Hk).
    destruct (Z.ltb_spec (an_last_heard_ms a) best_ms).
    + destruct (IH (S i) i (an_last_heard_ms a) Hk') as (c & Hc & Hle & Hall).
      { exists a. split; [|reflexivity]. rewrite <- (Nat.add_0_r i). now apply Hk. }
      exists c. split_and!; [exact Hc|lia|]. intros x Hx. apply elem_of_cons in Hx as [->|Hx]; [exact Hle|now apply Hall].
    + destruct (IH (S i) best best_ms Hk' ltac:(eauto)) as (c & Hc & Hle & Hall).
      exists c. split_and!; [exact Hc|lia|]. intros x Hx. apply elem_of_cons in Hx as [->|Hx]; [lia|now apply Hall].
Qed.
Lemma oldest_spec l : l <> [] -> exists b, l !! oldest l = Some b /\ forall a, a ∈ l -> an_last_heard_ms b <= an_last_heard_ms a.
Proof.
  destruct l as [|a l]; [congruence|]. intros _. cbn [oldest].
  destruct (oldest_from_spec l 1 0 (an_last_heard_ms a) (a :: l) ltac:(auto) ltac:(exists a; auto)) as (b & Hb & Hle & Hall).
  exists b. split; [exact Hb|]. intros x Hx. apply elem_of_cons in Hx as [->|Hx]; [exact Hle|now apply Hall].
Qed.

Section Heard.
Context `{Json}.
Implicit Types (s : contacts) (h name : list Z).

(** No peer has two entries. *)
Record heard_ok s : Prop := {
  ho_slots : length (msngr_announces s) = MSNGR_MAX_ANNOUNCES;
  ho_unique i j a b : msngr_announces s !! i = Some a -> msngr_announces s !! j = Some b ->
    an_in_use a = true -> an_in_use b = true -> an_hash a = an_hash b -> i = j
}.
Definition tracked h s : Prop := exists a, a ∈ msngr_announces s /\ an_in_use a = true /\ an_hash a = h.
(** Which entry an announcement takes: the peer's own, a free one, or the one heard
    longest ago. *)
Inductive takes h s (a : announce) : Prop :=
| TakesOwn : an_in_use a = true -> an_hash a = h -> takes h s a
| TakesFree : ~ tracked h s -> an_in_use a = false -> takes h s a
| TakesOldest : ~ tracked h s -> (forall b, b ∈ msngr_announces s -> an_in_use b = true /\ an_last_heard_ms a <= an_last_heard_ms b) -> takes h s a.

Lemma slot_taken h s : heard_ok s -> address h -> exists a, msngr_announces s !! announce_slot h s = Some a /\ takes h s a.
Proof.
  intros [Hl _] [Ha _]. unfold announce_slot, messenger_announce_find. destruct (list_find _ (msngr_announces s)) as [[i a]|] eqn:Ef.
  - apply list_find_Some in Ef as (Hi & Hm & _). exists a. split; [exact Hi|]. apply andb_prop in Hm as [Hu Hm].
    unfold messenger_hash_matches in Hm. rewrite Ha in Hm. cbn in Hm. apply bool_decide_eq_true in Hm. now apply TakesOwn.
  - cbn [fmap option_fmap option_map]. apply list_find_None in Ef. rewrite Forall_forall in Ef.
    assert (Hn : ~ tracked h s).
    { intros (a & Hin & Hu & Hh). apply (Ef a Hin). rewrite Hu. unfold messenger_hash_matches. rewrite Ha, Hh. cbn. now apply bool_decide_eq_true_2. }
    destruct (list_find (fun a => an_in_use a = false) _) as [[i a]|] eqn:Ei.
    + apply list_find_Some in Ei as (Hi & Hu & _). exists a. split; [exact Hi|now apply TakesFree].
    + apply list_find_None in Ei. rewrite Forall_forall in Ei. destruct (oldest_spec (msngr_announces s)) as (a & Hi & Hall).
      { intros E. rewrite E in Hl. discriminate. }
      exists a. split; [exact Hi|]. apply TakesOldest; [exact Hn|]. intros b Hb. split; [|now apply Hall].
      specialize (Ei b Hb). destruct (an_in_use b); congruence.
Qed.

(** The table of heard peers keeps the last of them.  An announcement puts the peer
    in the table with the time it was heard and, when it carries one, its name, in one
    entry of its own; the entry it takes is the peer's, else a free one, else the one heard
    longest ago; every other entry stays as it was, so no other peer is forgotten.  An
    announcement without a name leaves the name the entry had - that of the peer that was
    given up, when the entry was another's. *)
Theorem heard_peers_kept h name now s : heard_ok s -> address h ->
  let s' := messenger_announce_upsert h name now s in
  heard_ok s' /\
  exists i a a', msngr_announces s !! i = Some a /\ takes h s a /\ msngr_announces s' = <[i := a']> (msngr_announces s) /\
    an_in_use a' = true /\ an_hash a' = h /\ an_last_heard_ms a' = now /\
    an_name a' = (if decide (name = []) then if an_in_use a then an_name a else [] else messenger_store_name name).
Proof.
  intros Hok Ha. destruct (slot_taken h s Hok Ha) as (a & Hi & Ht). pose proof Hok as [Hl Hu]. cbv zeta. unfold messenger_announce_upsert.
  set (i := announce_slot h s) in *. clearbody i. rewrite (store_hash_id h) by apply Ha. set (f := fun a : announce => _). set (a' := f a).
  assert (Ea : msngr_announces (s <| msngr_announces ::= alter f i |>) = <[i := a']> (msngr_announces s)).
  { unfold a'. rewrite <- (alter_found _ _ _ f Hi). now destruct s. }
  assert (Hn : (zlen name =? 0) = bool_decide (name = [])).
  { destruct name; [reflexivity|]. rewrite bool_decide_eq_false_2 by discriminate. apply Z.eqb_neq. unfold zlen. cbn [length]. lia. }
  assert (Hf : an_in_use a' = true /\ an_hash a' = h /\ an_last_heard_ms a' = now /\
    an_name a' = (if decide (name = []) then if an_in_use a then an_name a else [] else messenger_store_name name)).
  { unfold a', f. rewrite Hn. destruct (decide (name = [])) as [En|En]; [rewrite bool_decide_eq_true_2 by exact En|rewrite bool_decide_eq_false_2 by exact En];
      destruct a as [u ? ? ?]; cbn; [destruct u|]; auto. }
  clearbody a'. destruct Hf as (F1 & F2 & F3 & F4). split; [|exists i, a, a'; rewrite Ea; auto 10].
  assert (Hi' : (i < length (msngr_announces s))%nat) by (eapply lookup_lt_Some, Hi).
  assert (Hother : forall j b, msngr_announces s !! j = Some b -> an_in_use b = true -> an_hash b = h -> j = i).
  { intros j b Hj Hb Hh. destruct Ht as [Hua Hha|Hnt _|Hnt _].
    - apply (Hu j i b a Hj Hi Hb Hua). congruence.
    - destruct Hnt. exists b. split; [eapply list_elem_of_lookup_2, Hj|auto].
    - destruct Hnt. exists b. split; [eapply list_elem_of_lookup_2, Hj|auto]. }
  constructor; [now rewrite Ea, length_insert|]. intros j k b c. rewrite Ea.
  destruct (decide (i = j)) as [<-|Hj], (decide (i = k)) as [<-|Hk]; rewrite ?list_lookup_insert_eq, ?list_lookup_insert_ne by assumption; auto.
  - intros [= <-] Hc _ Huc Eh. symmetry. apply (Hother k c Hc Huc). congruence.
  - intros Hb [= <-] Hub _ Eh. apply (Hother j b Hb Hub). congruence.
  - apply Hu.
Qed.
End Heard.

(** ** Witnesses *)

Definition peer (n : Z) : list Z := repeat n 16.
Definition heard8 : contacts := foldl (fun s n => messenger_announce_upsert (peer n) (chars "Peer") (n * 1000) s) (contacts0 [] [] false) (seqZ 1 8).
Lemma heard8_ok : heard_ok heard8.
Proof.
  assert (H : forall l s, Forall is_u8 l -> heard_ok s -> heard_ok (foldl (fun s n => messenger_announce_upsert (peer n) (chars "Peer") (n * 1000) s) s l)).
  { induction l as [|n l IH]; intros s Hl Hs; [exact Hs|]. inversion_clear Hl as [|? ? Hn Hl']. apply IH; [exact Hl'|].
    apply (heard_peers_kept (peer n) (chars "Peer") (n * 1000) s Hs). split; [reflexivity|].
    apply Forall_forall. intros b Hb. apply list_elem_of_In, repeat_spec in Hb. now subst. }
  apply H; [repeat constructor; cbn; lia|]. constructor; [reflexivity|]. intros i j a b Hi _ Hu _ _.
  apply list_elem_of_lookup_2, list_elem_of_In, repeat_spec in Hi. now subst.
Qed.
Lemma heard_peers_kept_witness :
  exists i a', msngr_announces (messenger_announce_upsert (peer 9) [] 9000 heard8) = <[i := a']> (msngr_announces heard8) /\
    an_hash a' = peer 9 /\ an_last_heard_ms a' = 9000.
Proof.
  assert (Ha : address (peer 9)) by (split; [reflexivity|repeat constructor; cbn; lia]).
  destruct (heard_peers_kept (peer 9) [] 9000 heard8 heard8_ok Ha) as [_ (i & a & a' & _ & _ & E & _ & Eh & Et & _)].
  exists i, a'. auto.
Defined.
(** A ninth peer that announces itself without a name is shown under the name of the first. *)
Example nameless_peer_inherits :
  let s := messenger_announce_upsert (peer 9) [] 9000 heard8 in
  option_map an_name (msngr_announces s !! announce_slot (peer 9) s) = Some (chars "Peer").
Proof. vm_compute. reflexivity. Qed.
Lemma presets_refine_list_witness :
  let '(r, s) := run_presets [AddPreset (chars "Ok"); DeletePreset 0; Reload] (init_tables (contacts0 [] [] false)) in
  presets s = [chars "Bye"; chars "SOS"; chars "Ok"].
Proof.
  pose proof (presets_refine_list [AddPreset (chars "Ok"); DeletePreset 0; Reload] [] false) as P.
  destruct (run_presets _ _) as [r s]. specialize (P ltac:(repeat constructor; cbn; lia)).
  destruct (spec_presets _ _) as [r' l] eqn:E. apply pair_equal_spec in E as [_ <-]. exact (proj1 (proj2 P)).
Defined.
