(* ===== verification/AppData.v ===== *)
(** * The name in an announcement (Messenger.h)

    The reader of the MessagePack pair [display_name, stamp_cost] that peers put in their
    announcements, every read of the buffer checked; and the name a peer is shown under,
    from bookmarks, the message store, the announcement and the table of heard peers. *)
From Stdlib Require Import String.
From S2P Require Import Prelude Keyboard Contacts.
From stdpp Require Import list gmap.
#[local] Open Scope Z_scope.

(** ** The reader *)

(** What reading the data of an announcement comes to; [Overrun] is a read behind the end
    of the buffer. *)
Inductive app_name := Refused | Named (name : list Z) | Overrun.
Definition read (data : list Z) (i : Z) (k : Z -> app_name) : app_name :=
  match data !! Z.to_nat i with Some b => k b | None => Overrun end.
(* @src Messenger.h:1134-1135 messenger_display_name_from_app_data *)
Definition read16 (data : list Z) (offset : Z) (k : Z -> Z -> app_name) : app_name :=
  if zlen data <? u32 (offset + 2) then Refused
  else read data offset (fun a => read data (u32 (offset + 1)) (fun b => k (of_be16 a b) (u32 (offset + 2)))).
(* @src Messenger.h:1138-1141 messenger_display_name_from_app_data *)
Definition read32 (data : list Z) (offset : Z) (k : Z -> Z -> app_name) : app_name :=
  if zlen data <? u32 (offset + 4) then Refused
  else read data offset (fun a => read data (u32 (offset + 1)) (fun b => read data (u32 (offset + 2)) (fun c =>
       read data (u32 (offset + 3)) (fun d => k (of_be32 a b c d) (u32 (offset + 4)))))).
(** The element count of the array, and the offset behind it. *)
(* @src Messenger.h:1128-1144 messenger_display_name_from_app_data *)
Definition read_array (data : list Z) (offset : Z) (k : Z -> Z -> app_name) : app_name :=
  read data offset (fun array_tag =>
    let offset := u32 (offset + 1) in
    if Z.land array_tag 0xF0 =? 0x90 then k (Z.land array_tag 0x0F) offset
    else if array_tag =? 0xDC then read16 data offset k
    else if array_tag =? 0xDD then read32 data offset k
    else Refused).
(** The length of the name, and the offset behind it. *)
(* @src Messenger.h:1147-1167 messenger_display_name_from_app_data *)
Definition read_name_length (data : list Z) (offset : Z) (k : Z -> Z -> app_name) : app_name :=
  read data offset (fun name_tag =>
    let offset := u32 (offset + 1) in
    if name_tag =? 0xC0 then Refused
    else if Z.land name_tag 0xE0 =? 0xA0 then k (Z.land name_tag 0x1F) offset
    else if (name_tag =? 0xC4) || (name_tag =? 0xD9) then
      if zlen data <=? offset then Refused else read data offset (fun n => k n (u32 (offset + 1)))
    else if (name_tag =? 0xC5) || (name_tag =? 0xDA) then read16 data offset k
    else if (name_tag =? 0xC6) || (name_tag =? 0xDB) then read32 data offset k
    else Refused).
(* @src Messenger.h:1168-1170 messenger_display_name_from_app_data *)
Definition take_name (data : list Z) (name_length offset : Z) : app_name :=
  if (name_length =? 0) || (u32 (zlen data - offset) <? name_length) then Refused
  else if zlen data <? offset + name_length then Overrun
  else Named (take (Z.to_nat name_length) (drop (Z.to_nat offset) data)).
(* @src Messenger.h:1121-1171 messenger_display_name_from_app_data *)
Definition messenger_display_name_from_app_data (app_data : list Z) : app_name :=
  if zlen app_data =? 0 then Refused
  else read_array app_data 0 (fun array_size offset =>
    if (array_size <? 1) || (zlen app_data <=? offset) then Refused
    else read_name_length app_data offset (fun name_length offset => take_name app_data name_length offset)).

(** ** MessagePack *)

(** The number a string of bytes is, the most significant first. *)
Definition value (l : list Z) : Z := foldl (fun n b => n * 256 + b) 0 l.
(** The three ways to write an array of [n] elements, and the seven to write a string or a
    blob of [n] bytes. *)
Inductive array_head : Z -> list Z -> Prop :=
| FixArray n : 0 <= n < 16 -> array_head n [0x90 + n]
| Array16 l : length l = 2%nat -> array_head (value l) (0xDC :: l)
| Array32 l : length l = 4%nat -> array_head (value l) (0xDD :: l).
Inductive name_head : Z -> list Z -> Prop :=
| FixStr n : 0 <= n < 32 -> name_head n [0xA0 + n]
| Raw8 t n : In t [0xC4; 0xD9] -> name_head n [t; n]
| Raw16 t l : In t [0xC5; 0xDA] -> length l = 2%nat -> name_head (value l) (t :: l)
| Raw32 t l : In t [0xC6; 0xDB] -> length l = 4%nat -> name_head (value l) (t :: l).
(** An announcement that carries a name: an array that is not empty, whose first element
    is the name. *)
Inductive announces (name : list Z) : list Z -> Prop :=
| Announces n ah nh rest : array_head n ah -> 1 <= n -> name_head (zlen name) nh -> name <> [] -> announces name (ah ++ nh ++ name ++ rest).

Definition buffer (data : list Z) : Prop := bytes data /\ zlen data + 4 < 4294967296.

Section Reader.
Implicit Types (pre l rest name : list Z) (k : Z -> Z -> app_name).

Lemma read_at pre l (i : nat) f : read (pre ++ l) (zlen pre + Z.of_nat i) f = match l !! i with Some b => f b | None => Overrun end.
Proof. unfold read, zlen. replace (Z.to_nat _) with (length pre + i)%nat by lia. now rewrite lookup_app_r, Nat.add_comm, Nat.add_sub by lia. Qed.
Lemma read_0 pre b l f : read (pre ++ b :: l) (zlen pre) f = f b.
Proof. rewrite <- (Z.add_0_r (zlen pre)). apply (read_at pre (b :: l) 0). Qed.
Lemma buffer_split pre l : buffer (pre ++ l) -> bytes l /\ 0 <= zlen pre /\ 0 <= zlen l /\ zlen pre + zlen l + 4 < 4294967296.
Proof. intros [Hb Hl]. apply Forall_app in Hb as [_ Hb]. unfold zlen in *. rewrite length_app in Hl. split; [exact Hb|lia]. Qed.
Ltac offsets := unfold zlen in *; rewrite ?length_app in *; cbn [length] in *; try lia.

Lemma read16_spec pre l k : buffer (pre ++ l) ->
  (exists a b rest, l = a :: b :: rest /\ read16 (pre ++ l) (zlen pre) k = k (value [a; b]) (zlen pre + 2)) \/
  ((length l < 2)%nat /\ read16 (pre ++ l) (zlen pre) k = Refused).
Proof.
  intros Hb. pose proof (buffer_split _ _ Hb) as (Hl & H1 & H2 & H3). unfold read16. rewrite !u32_id by lia.
  destruct l as [|a [|b rest]].
  1, 2: right; split; [cbn; lia|]; rewrite (proj2 (Z.ltb_lt _ _)) by offsets; reflexivity.
  left. exists a, b, rest. split; [reflexivity|]. rewrite (proj2 (Z.ltb_ge _ _)) by offsets.
  rewrite read_0. rewrite (read_at pre (a :: b :: rest) 1). cbn [lookup list_lookup]. inversion_clear Hl as [|? ? Ha Hl']. inversion_clear Hl'.
  now rewrite of_be16_val by assumption.
Qed.
Lemma read32_spec pre l k : buffer (pre ++ l) ->
  (exists a b c d rest, l = a :: b :: c :: d :: rest /\ read32 (pre ++ l) (zlen pre) k = k (value [a; b; c; d]) (zlen pre + 4)) \/
  ((length l < 4)%nat /\ read32 (pre ++ l) (zlen pre) k = Refused).
Proof.
  intros Hb. pose proof (buffer_split _ _ Hb) as (Hl & H1 & H2 & H3). unfold read32. rewrite !u32_id by lia.
  destruct l as [|a [|b [|c [|d rest]]]].
  1-4: right; split; [cbn; lia|]; rewrite (proj2 (Z.ltb_lt _ _)) by offsets; reflexivity.
  left. exists a, b, c, d, rest. split; [reflexivity|]. rewrite (proj2 (Z.ltb_ge _ _)) by offsets.
  rewrite read_0. rewrite (read_at pre (a :: b :: c :: d :: rest) 1). cbn [lookup list_lookup].
  rewrite (read_at pre (a :: b :: c :: d :: rest) 2). cbn [lookup list_lookup].
  rewrite (read_at pre (a :: b :: c :: d :: rest) 3). cbn [lookup list_lookup].
  inversion_clear Hl as [|? ? Ha Hl1]. inversion_clear Hl1 as [|? ? Hb' Hl2]. inversion_clear Hl2 as [|? ? Hc Hl3]. inversion_clear Hl3 as [|? ? Hd _].
  rewrite of_be32_val by assumption. f_equal. unfold value. cbn. lia.
Qed.

(** The tags, as ranges. *)
Definition tag_ok (t : Z) : bool :=
  eqb (Z.land t 0xF0 =? 0x90) ((0x90 <=? t) && (t <? 0xA0)) && (negb (Z.land t 0xF0 =? 0x90) || (Z.land t 0x0F =? t - 0x90)) &&
  eqb (Z.land t 0xE0 =? 0xA0) ((0xA0 <=? t) && (t <? 0xC0)) && (negb (Z.land t 0xE0 =? 0xA0) || (Z.land t 0x1F =? t - 0xA0)).
Lemma tags_ok : forallb tag_ok all_u8 = true.
Proof. vm_compute. reflexivity. Qed.
Lemma array_tag t : is_u8 t -> if Z.land t 0xF0 =? 0x90 then 0x90 <= t < 0xA0 /\ Z.land t 0x0F = t - 0x90 else ~ 0x90 <= t < 0xA0.
Proof.
  intros Ht. pose proof (u8_forallb tag_ok tags_ok t Ht) as P. unfold tag_ok in P. apply andb_prop in P as [P _]. apply andb_prop in P as [P _].
  apply andb_prop in P as [P P2]. apply eqb_prop in P. destruct (Z.land t 0xF0 =? 0x90); cbn [negb orb] in P2; lia.
Qed.
Lemma string_tag t : is_u8 t -> if Z.land t 0xE0 =? 0xA0 then 0xA0 <= t < 0xC0 /\ Z.land t 0x1F = t - 0xA0 else ~ 0xA0 <= t < 0xC0.
Proof.
  intros Ht. pose proof (u8_forallb tag_ok tags_ok t Ht) as P. unfold tag_ok in P. apply andb_prop in P as [P P2].
  apply andb_prop in P as [_ P]. apply eqb_prop in P. destruct (Z.land t 0xE0 =? 0xA0); cbn [negb orb] in P2; lia.
Qed.

Lemma cons_split {A} (a b : A) (l m : list A) : a :: l = b :: m -> a = b /\ l = m.
Proof. now intros [= -> ->]. Qed.
(** A head is told from its bytes. *)
Lemma array_head_unique n n' ah ah' rest rest' : array_head n ah -> array_head n' ah' -> ah ++ rest = ah' ++ rest' -> n = n' /\ ah = ah' /\ rest = rest'.
Proof.
  intros [? ?|l Hl|l Hl] [? ?|l' Hl'|l' Hl']; cbn [app]; intros [Ht Hr]%cons_split; try lia; subst.
  - repeat split; f_equal; lia.
  - apply app_inj_1 in Hr as [-> ->]; [auto|lia].
  - apply app_inj_1 in Hr as [-> ->]; [auto|lia].
Qed.
Lemma name_head_unique n n' nh nh' rest rest' : name_head n nh -> name_head n' nh' -> nh ++ rest = nh' ++ rest' -> n = n' /\ nh = nh' /\ rest = rest'.
Proof.
  intros [? ?|t ? Ht|t l Ht Hl|t l Ht Hl] [? ?|t' ? Ht'|t' l' Ht' Hl'|t' l' Ht' Hl']; cbn [app]; intros [Ee Hr]%cons_split;
    repeat match goal with Hin : In _ _ |- _ => cbn in Hin end; try lia; subst.
  - repeat split; f_equal; lia.
  - apply cons_split in Hr as [-> ->]. auto.
  - apply app_inj_1 in Hr as [-> ->]; [auto|lia].
  - apply app_inj_1 in Hr as [-> ->]; [auto|lia].
Qed.

Lemma read_array_spec pre l k : buffer (pre ++ l) -> l <> [] ->
  (exists n ah rest, array_head n ah /\ l = ah ++ rest /\ read_array (pre ++ l) (zlen pre) k = k n (zlen (pre ++ ah))) \/
  (read_array (pre ++ l) (zlen pre) k = Refused /\ forall n ah rest, array_head n ah -> l <> ah ++ rest).
Proof.
  intros Hb Hne. pose proof (buffer_split _ _ Hb) as (Hl & H1 & H2 & H3). destruct l as [|t l]; [congruence|]. clear Hne.
  inversion_clear Hl as [|? ? Ht Hl']. unfold read_array. rewrite read_0, u32_id by offsets.
  replace (zlen pre + 1) with (zlen (pre ++ [t])) by offsets. assert (Hz : forall x, zlen (pre ++ t :: x) = zlen (pre ++ [t]) + zlen x) by (intros; offsets).
  pose proof (array_tag t Ht) as Hx. destruct (Z.land t 0xF0 =? 0x90).
  { destruct Hx as [Hx E]. left. exists (t - 0x90), [t], l. split_and!; [|reflexivity|now rewrite E].
    replace [t] with [0x90 + (t - 0x90)] by (f_equal; lia). constructor. lia. }
  replace (pre ++ t :: l) with ((pre ++ [t]) ++ l) in * by now rewrite <- app_assoc.
  destruct (Z.eqb_spec t 0xDC) as [->|H4]; [|destruct (Z.eqb_spec t 0xDD) as [->|H5]].
  - destruct (read16_spec (pre ++ [0xDC]) l k Hb) as [(a & b & rest & -> & E)|[Hs E]]; rewrite E.
    + left. exists (value [a; b]), [0xDC; a; b], rest. split_and!; [now constructor|reflexivity|]. f_equal. offsets.
    + right. split; [reflexivity|]. intros n ah rest Hh Ee. inversion Hh as [?|ll Hll|]; subst; cbn [app] in Ee; apply cons_split in Ee as [Et He]; try lia.
      subst l. rewrite length_app in Hs. lia.
  - destruct (read32_spec (pre ++ [0xDD]) l k Hb) as [(a & b & c & d & rest & -> & E)|[Hs E]]; rewrite E.
    + left. exists (value [a; b; c; d]), [0xDD; a; b; c; d], rest. split_and!; [now constructor|reflexivity|]. f_equal. offsets.
    + right. split; [reflexivity|]. intros n ah rest Hh Ee. inversion Hh as [?| |ll Hll]; subst; cbn [app] in Ee; apply cons_split in Ee as [Et He]; try lia.
      subst l. rewrite length_app in Hs. lia.
  - right. split; [reflexivity|]. intros n ah rest Hh Ee. inversion Hh; subst; cbn [app] in Ee; apply cons_split in Ee as [Et He]; lia.
Qed.

Lemma read_name_spec pre l k : buffer (pre ++ l) -> l <> [] ->
  (exists n nh rest, name_head n nh /\ l = nh ++ rest /\ read_name_length (pre ++ l) (zlen pre) k = k n (zlen (pre ++ nh))) \/
  (read_name_length (pre ++ l) (zlen pre) k = Refused /\ forall n nh rest, name_head n nh -> l <> nh ++ rest).
Proof.
  intros Hb Hne. pose proof (buffer_split _ _ Hb) as (Hl & H1 & H2 & H3). destruct l as [|t l]; [congruence|]. clear Hne.
  inversion_clear Hl as [|? ? Ht Hl']. unfold read_name_length. rewrite read_0, u32_id by offsets.
  replace (zlen pre + 1) with (zlen (pre ++ [t])) by offsets.
  replace (pre ++ t :: l) with ((pre ++ [t]) ++ l) in * by now rewrite <- app_assoc.
  pose proof (string_tag t Ht) as Hx. destruct (Z.eqb_spec t 0xC0) as [->|H0'].
  { right. split; [reflexivity|]. intros n nh rest Hh Ee. inversion Hh as [? ?|? ? Hin|? ? Hin|? ? Hin]; subst; cbn [app] in Ee; apply cons_split in Ee as [Et He];
      try (cbn in Hin); lia. }
  destruct (Z.land t 0xE0 =? 0xA0).
  { destruct Hx as [Hx E]. left. exists (t - 0xA0), [t], l. split_and!; [|reflexivity|now rewrite E].
    replace [t] with [0xA0 + (t - 0xA0)] by (f_equal; lia). constructor. lia. }
  destruct ((t =? 0xC4) || (t =? 0xD9)) eqn:E1; [|destruct ((t =? 0xC5) || (t =? 0xDA)) eqn:E2; [|destruct ((t =? 0xC6) || (t =? 0xDB)) eqn:E3]].
  - destruct l as [|n l].
    + right. rewrite (proj2 (Z.leb_le _ _)) by offsets. split; [reflexivity|]. intros n nh rest Hh Ee.
      inversion Hh as [? ?|? ? Hin|? ll Hin Hll|? ll Hin Hll]; subst; cbn [app] in Ee; apply cons_split in Ee as [Et He]; try (cbn in Hin); try lia; discriminate He.
    + left. rewrite (proj2 (Z.leb_gt _ _)) by offsets. rewrite read_0, u32_id by offsets.
      exists n, [t; n], l. split_and!; [constructor; cbn; lia|reflexivity|f_equal; offsets].
  - destruct (read16_spec (pre ++ [t]) l k Hb) as [(a & b & rest & -> & E)|[Hs E]]; rewrite E.
    + left. exists (value [a; b]), [t; a; b], rest. split_and!; [constructor; [cbn; lia|reflexivity]|reflexivity|]. f_equal. offsets.
    + right. split; [reflexivity|]. intros n nh rest Hh Ee.
      inversion Hh as [? ?|? ? Hin|? ll Hin Hll|? ll Hin Hll]; subst; cbn [app] in Ee; apply cons_split in Ee as [Et He]; try (cbn in Hin); try lia;
        subst l; rewrite length_app in Hs; lia.
  - destruct (read32_spec (pre ++ [t]) l k Hb) as [(a & b & c & d & rest & -> & E)|[Hs E]]; rewrite E.
    + left. exists (value [a; b; c; d]), [t; a; b; c; d], rest. split_and!; [apply Raw32; [cbn; lia|reflexivity]|reflexivity|]. f_equal. offsets.
    + right. split; [reflexivity|]. intros n nh rest Hh Ee.
      inversion Hh as [? ?|? ? Hin|? ll Hin Hll|? ll Hin Hll]; subst; cbn [app] in Ee; apply cons_split in Ee as [Et He]; try (cbn in Hin); try lia;
        subst l; rewrite length_app in Hs; lia.
  - right. split; [reflexivity|]. intros n nh rest Hh Ee.
    inversion Hh as [? ?|? ? Hin|? ? Hin|? ? Hin]; subst; cbn [app] in Ee; apply cons_split in Ee as [Et He]; try (cbn in Hin); lia.
Qed.

Lemma take_name_spec pre l n : buffer (pre ++ l) -> 0 <= n ->
  (exists name rest, l = name ++ rest /\ zlen name = n /\ name <> [] /\ take_name (pre ++ l) n (zlen pre) = Named name) \/
  (take_name (pre ++ l) n (zlen pre) = Refused /\ (n = 0 \/ zlen l < n)).
Proof.
  intros Hb Hn. pose proof (buffer_split _ _ Hb) as (_ & H1 & H2 & H3). unfold take_name.
  assert (Hz : zlen (pre ++ l) = zlen pre + zlen l) by (unfold zlen; rewrite length_app; lia). rewrite Hz.
  replace (zlen pre + zlen l - zlen pre) with (zlen l) by lia. rewrite u32_id by lia.
  destruct (Z.eqb_spec n 0); [right; auto|]. cbn [orb]. destruct (Z.ltb_spec (zlen l) n); [right; auto|]. left.
  rewrite (proj2 (Z.ltb_ge _ _)) by lia. exists (take (Z.to_nat n) l), (drop (Z.to_nat n) l).
  assert (Ht : zlen (take (Z.to_nat n) l) = n) by (unfold zlen in *; rewrite length_take; lia).
  split_and!; [now rewrite take_drop|exact Ht|intros Ee; rewrite Ee in Ht; unfold zlen in Ht; cbn in Ht; lia|].
  f_equal. unfold zlen. rewrite Nat2Z.id. now rewrite drop_app_length.
Qed.
Lemma value_nonneg l : bytes l -> 0 <= value l.
Proof.
  unfold value. assert (G : forall l n, 0 <= n -> bytes l -> 0 <= foldl (fun n b => n * 256 + b) n l); [|apply G; lia].
  clear. intros l. induction l as [|b l IH]; intros n Hn Hb; [exact Hn|]. inversion_clear Hb as [|? ? Hx Hl]. apply IH; [unfold is_u8 in *; lia|exact Hl].
Qed.
Lemma name_head_nonneg n nh : name_head n nh -> bytes nh -> 0 <= n.
Proof.
  intros [? ?|? ? Hin|? ? Hin|? ? Hin] Hb; [lia| |inversion_clear Hb; now apply value_nonneg|inversion_clear Hb; now apply value_nonneg].
  inversion_clear Hb as [|? ? _ Hb']. inversion_clear Hb' as [|? ? Hn _]. unfold is_u8 in Hn. lia.
Qed.

(** What an announcement carries is one name at most. *)
Lemma announces_head name l : announces name l -> exists n ah rest, array_head n ah /\ l = ah ++ rest.
Proof. intros [n ah nh rest Ha]. eauto. Qed.
Lemma announces_split name n ah rest l : announces name l -> array_head n ah -> l = ah ++ rest ->
  1 <= n /\ exists nh rest', name_head (zlen name) nh /\ name <> [] /\ rest = nh ++ name ++ rest'.
Proof.
  intros [n' ah' nh rest' Ha Hn Hh Hne] Hah E. destruct (array_head_unique _ _ _ _ _ _ Ha Hah E) as (-> & -> & <-). eauto 10.
Qed.
(** The outcome is the right one. *)
Definition reads (out : app_name) (data : list Z) : Prop := out <> Overrun /\ forall name, out = Named name <-> announces name data.
Lemma reads_refused data : (forall name, ~ announces name data) -> reads Refused data.
Proof. intros Hn. split; [discriminate|]. intros name. split; [discriminate|]. intros Ha. destruct (Hn name Ha). Qed.

(** From a good name header on. *)
Lemma reads_name n ah m nh rest : buffer ((ah ++ nh) ++ rest) -> array_head n ah -> 1 <= n -> name_head m nh ->
  reads (take_name ((ah ++ nh) ++ rest) m (zlen (ah ++ nh))) ((ah ++ nh) ++ rest).
Proof.
  intros Hb Ha Hn Hh.
  assert (Hm : 0 <= m) by (apply (name_head_nonneg m nh Hh); destruct Hb as [Hb _]; apply Forall_app in Hb as [Hb _]; now apply Forall_app in Hb as [_ Hb]).
  assert (Hs : forall name, announces name ((ah ++ nh) ++ rest) -> m = zlen name /\ name <> [] /\ exists r, rest = name ++ r).
  { intros name Hx. destruct (announces_split name n ah (nh ++ rest) _ Hx Ha ltac:(now rewrite app_assoc)) as (_ & nh' & r & Hh' & Hne & Ee).
    destruct (name_head_unique _ _ _ _ _ _ Hh Hh' Ee) as (-> & _ & ->). eauto. }
  destruct (take_name_spec (ah ++ nh) rest m Hb Hm) as [(name & r & -> & <- & Hne & ->)|[-> Hor]].
  - split; [discriminate|]. intros name'. split.
    + intros [= <-]. rewrite <- app_assoc. econstructor; eauto.
    + intros (Hl & _ & r' & Ee)%Hs. apply app_inj_1 in Ee as [-> _]; [reflexivity|]. unfold zlen in Hl. lia.
  - apply reads_refused. intros name (Hl & Hne & r & ->)%Hs.
    destruct name; [congruence|]. unfold zlen in *. rewrite length_app in Hor. cbn [length] in *. lia.
Qed.

(** C24. The reader of announcements reads MessagePack.  On any bytes that came in - whole,
    cut short or forged - it never reads behind the end of the buffer, and the name it
    finds is exactly the one of a pair whose array is not empty, whose first element is a
    string or a blob, under any of the headers MessagePack has for them, that is not empty
    and ends within the data; everything else it refuses. *)
(* @prop equivalence W=app_data_is_messagepack_witness D=messenger_display_name_from_app_data,read_array,read_name_length,take_name *)
Theorem app_data_is_messagepack data : buffer data ->
  messenger_display_name_from_app_data data <> Overrun /\
  forall name, messenger_display_name_from_app_data data = Named name <-> announces name data.
Proof.
  intros Hb. change (reads (messenger_display_name_from_app_data data) data). unfold messenger_display_name_from_app_data.
  destruct data as [|b l]; [apply reads_refused; intros name (? & ? & ? & [] & E)%announces_head; discriminate E|].
  change (zlen (b :: l) =? 0) with false. cbv iota. set (data := b :: l) in *. assert (Hne : data <> []) by discriminate. clearbody data. clear b l.
  set (k := fun array_size offset : Z => _).
  destruct (read_array_spec [] data k Hb Hne) as [(n & ah & rest & Ha & -> & Er)|[Er Hn]]; rewrite ?app_nil_l in Er; change (zlen []) with 0 in Er; rewrite Er.
  2: { apply reads_refused. intros name (n & ah & rest & Ha & Ee)%announces_head. exact (Hn n ah rest Ha Ee). }
  clear Er. unfold k. clear k Hne. destruct (Z.ltb_spec n 1).
  { apply reads_refused. intros name Hx. destruct (announces_split _ _ _ _ _ Hx Ha eq_refl). lia. }
  cbn [orb]. destruct (Z.leb_spec (zlen (ah ++ rest)) (zlen ah)) as [Hle|Hlt].
  { apply reads_refused. intros name Hx. destruct (announces_split _ _ _ _ _ Hx Ha eq_refl) as (_ & nh & rest' & Hh & _ & ->).
    unfold zlen in Hle. rewrite !length_app in Hle. destruct Hh; cbn in Hle; lia. }
  assert (Hr : rest <> []) by (intros ->; rewrite app_nil_r in Hlt; lia). set (k := fun name_length offset : Z => _).
  destruct (read_name_spec ah rest k Hb Hr) as [(m & nh & rest' & Hh & -> & ->)|[-> Hn]].
  - subst k. cbv beta. rewrite (app_assoc ah nh rest') in *. now apply (reads_name n).
  - apply reads_refused. intros name Hx. destruct (announces_split _ _ _ _ _ Hx Ha eq_refl) as (_ & nh & rest' & Hh & _ & Ee). eapply Hn; eauto.
Qed.
End Reader.

(** ** The name a peer is shown under *)

(** What the message store has of its conversations that concerns names, and how often it
    wrote its index to the flash for them. *)
(* @src lib/microLXMF/src/LXMF/MessageStore.h:127-127 ConversationInfo *)
Record naming := mk_naming { conversations : gmap (list Z) (list Z); index_saves : Z }.
(* @src lib/microLXMF/src/LXMF/MessageStore.h:116-116 MAX_DISPLAY_NAME_LEN *)
Definition MAX_DISPLAY_NAME_LEN : nat := 47.
(* @src lib/microLXMF/src/LXMF/MessageStore.cpp:820-831 MessageStore::set_display_name *)
Definition set_display_name (peer_hash display_name : list Z) (st : naming) : bool * naming :=
  match conversations st !! peer_hash with
  | None => (false, st)
  | Some old =>
      if decide (display_name = []) then (false, st)
      else if decide (display_name = old) then (false, st)
      else (true, mk_naming (<[peer_hash := take MAX_DISPLAY_NAME_LEN (c_str display_name)]> (conversations st)) (index_saves st + 1))
  end.
(* @src lib/microLXMF/src/LXMF/MessageStore.cpp:833-837 MessageStore::get_display_name *)
Definition get_display_name (peer_hash : list Z) (st : naming) : list Z := default [] (conversations st !! peer_hash).

(* @src lib/microReticulum/src/microReticulum/Bytes.cpp:180-180 hex_upper_chars *)
Definition hex_upper (n : Z) : Z := if n <? 10 then 48 + n else 55 + n.
(* @src lib/microReticulum/src/microReticulum/Bytes.cpp:196-212 Bytes::toHex *)
Definition toHex_upper (data : list Z) : list Z :=
  data ≫= fun b => [hex_upper (Z.shiftr (Z.land b 0xF0) 4); hex_upper (Z.land b 0x0F)].

(** The label of a name in UTF-8. *)
(* @src Messenger.h:1199-1201 messenger_peer_display_name *)
Definition decoded_name (name : list Z) : list Z := msngr_kb_decode_utf8 (c_str name) (MSNGR_NAME_MAX_LEN + 1).

(** The steps after the bookmarks and the store, which may be null; [app_data] is what
    [Identity::recall_app_data] answers for the peer. *)
(* @src Messenger.h:1226-1232 messenger_peer_display_name *)
Definition heard_name (peer_hash : list Z) (s : contacts) : list Z :=
  let hex := take 16 (toHex_upper peer_hash) in
  match messenger_announce_find peer_hash s with
  | Some an => let name := an_name (default announce0 (msngr_announces s !! an)) in if decide (name = []) then hex else decoded_name name
  | None => hex
  end.
(* @src Messenger.h:1182-1233 messenger_peer_display_name *)
Definition messenger_peer_display_name (s : contacts) (app_data peer_hash : list Z) (store : option naming) : list Z * option naming :=
  let bm_name := match messenger_bookmark_find peer_hash s with Some bm => bm_name (bookmark_at bm s) | None => [] end in
  if decide (bm_name = []) then
    match store with
    | None => (heard_name peer_hash s, None)
    | Some st =>
        let cached := get_display_name peer_hash st in
        if decide (cached = []) then
          match messenger_display_name_from_app_data app_data with
          | Named live_name => (decoded_name live_name, Some (snd (set_display_name peer_hash live_name st)))
          | _ => (heard_name peer_hash s, store)
          end
        else (decoded_name cached, store)
    end
  else (bm_name, store).
(* @src Messenger.h:1241-1248 MessengerAnnounceHandler::received_announce *)
Definition received_announce (destination_hash app_data : list Z) (now : Z) (s : contacts) (store : option naming) : contacts * option naming :=
  match messenger_display_name_from_app_data app_data with
  | Named name => (messenger_announce_upsert destination_hash name now s, snd ∘ set_display_name destination_hash name <$> store)
  | _ => (messenger_announce_upsert destination_hash [] now s, store)
  end.

Lemma set_no_name peer_hash st : snd (set_display_name peer_hash [] st) = st.
Proof. unfold set_display_name. now destruct (conversations st !! peer_hash). Qed.
Lemma name_learned peer_hash live st : c_str live = live -> (length live <= MAX_DISPLAY_NAME_LEN)%nat -> get_display_name peer_hash st = [] ->
  let st' := snd (set_display_name peer_hash live st) in st' = st \/ get_display_name peer_hash st' = live.
Proof.
  intros Hs Hl. unfold set_display_name, get_display_name. destruct (conversations st !! peer_hash) as [old|] eqn:Eo; [|auto]. cbn [from_option]. unfold id. intros ->.
  destruct (decide (live = [])); [auto|]. right. rewrite decide_False by assumption. cbn [snd conversations]. rewrite lookup_insert_eq. cbn [from_option]. unfold id. now rewrite Hs, take_ge.
Qed.

(** A peer is shown under one name.  Drawing the name a second time shows what the
    first time showed and writes nothing to the flash, whether the name came from a
    bookmark, the store, the announcement - learned by the store when there is a
    conversation - or the table of heard peers, as long as an announced name is text that
    fits the store. *)
Theorem peer_name_stable s app_data peer_hash store :
  (forall name, messenger_display_name_from_app_data app_data = Named name -> c_str name = name /\ (length name <= MAX_DISPLAY_NAME_LEN)%nat) ->
  let '(name, store1) := messenger_peer_display_name s app_data peer_hash store in
  messenger_peer_display_name s app_data peer_hash store1 = (name, store1).
Proof.
  intros Ht. destruct (messenger_peer_display_name s app_data peer_hash store) as [name store1] eqn:E. revert E. unfold messenger_peer_display_name.
  set (bm := match messenger_bookmark_find peer_hash s with Some _ => _ | None => _ end). destruct (decide (bm = [])); [|now intros [= <- <-]].
  destruct store as [st|]; [|now intros [= <- <-]]. destruct (decide (get_display_name peer_hash st = [])) as [Hc|Hc].
  2: { intros [= <- <-]. now rewrite decide_False. }
  destruct (messenger_display_name_from_app_data app_data) as [|live|] eqn:Ea; [now (intros [= <- <-]; rewrite decide_True)| |now (intros [= <- <-]; rewrite decide_True)].
  intros [= <- <-]. destruct (Ht live eq_refl) as [Hs Hl]. destruct (name_learned peer_hash live st Hs Hl Hc) as [Es|Eg].
  - rewrite !Es, decide_True by assumption. reflexivity.
  - rewrite Eg. destruct (decide (live = [])) as [->|Hn]; [|reflexivity]. now rewrite !set_no_name.
Qed.

(** ** Examples and witnesses *)

Definition announced (name : list Z) : list Z := [0x92; 0xD9; zlen name] ++ name ++ [8].
Definition peer1 : list Z := repeat 1 16.
Definition known_peer : option naming := Some (mk_naming {[ peer1 := [] ]} 0).
Lemma app_data_is_messagepack_witness : messenger_display_name_from_app_data (announced (chars "Alice")) = Named (chars "Alice").
Proof.
  assert (Hb : buffer (announced (chars "Alice"))) by (split; vm_compute; repeat constructor; discriminate).
  apply (app_data_is_messagepack (announced (chars "Alice")) Hb).
  apply (Announces (chars "Alice") 2 [0x92] [0xD9; 5] [8]); [apply (FixArray 2); lia|lia|apply Raw8; cbn; lia|discriminate].
Defined.
Lemma peer_name_stable_witness :
  let '(name, store) := messenger_peer_display_name (contacts0 [] [] false) (announced (chars "Alice")) peer1 known_peer in
  messenger_peer_display_name (contacts0 [] [] false) (announced (chars "Alice")) peer1 store = (name, store).
Proof.
  apply (peer_name_stable (contacts0 [] [] false) (announced (chars "Alice")) peer1 known_peer). intros name E.
  assert (messenger_display_name_from_app_data (announced (chars "Alice")) = Named (chars "Alice")) as E' by (vm_compute; reflexivity).
  rewrite E' in E. injection E as <-. split; [reflexivity|vm_compute; lia].
Defined.
(** Cut short or empty, an announcement has no name. *)
Example cut_announcements_refused :
  map messenger_display_name_from_app_data [[]; [0x92]; [0x92; 0xD9]; [0x92; 0xD9; 5; 65]; [0xDD; 0; 0]; [0x90; 0xA1; 65]; [0x92; 0xC0]; [0x91; 0xDB; 255; 255; 255; 255; 65]]
  = repeat Refused 8.
Proof. vm_compute. reflexivity. Qed.
(** A name of twenty-four letters of two bytes each loses its last in the store: the second
    drawing ends in a question mark. *)
Example long_name_loses_letter :
  let zhe := repeat 0x97 24 in let app_data := announced (msngr_kb_expand_utf8 zhe (MSNGR_NAME_MAX_LEN * 2 + 1)) in
  let '(first, store) := messenger_peer_display_name (contacts0 [] [] false) app_data peer1 known_peer in
  first = zhe /\ fst (messenger_peer_display_name (contacts0 [] [] false) app_data peer1 store) = repeat 0x97 23 ++ [63].
Proof. vm_compute. split; reflexivity. Qed.
(** A name that starts with a NUL is never learned, and every drawing writes the index. *)
Example nul_name_wears_flash :
  let draw store := snd (messenger_peer_display_name (contacts0 [] [] false) (announced [0; 65]) peer1 store) in
  option_map index_saves (draw (draw (draw known_peer))) = Some 3.
Proof. vm_compute. reflexivity. Qed.
