(* ===== verification/MsngrConf.v ===== *)
(** * The messenger's settings (Messenger.h, Menu.h)

    Nine settings: their bytes in the EEPROM, the savers and the loading at start-up, what
    the LXMF router is told of them, and the menu that edits staged copies and saves the
    ones that changed. *)
From S2P Require Import Prelude Boards Rom Float Framing Eeprom.

(** ** Data *)

(* @src Messenger.h:136-136 MSNGR_MAX_RETRIES_DEFAULT *)
Definition MSNGR_MAX_RETRIES_DEFAULT : Z := 5.
(* @src Messenger.h:152-152 MSNGR_RETRY_DELAY_DEFAULT *)
Definition MSNGR_RETRY_DELAY_DEFAULT : Z := 10.
(* @src Messenger.h:166-166 MSNGR_PLAYBACK_VOLUME_DEFAULT *)
Definition MSNGR_PLAYBACK_VOLUME_DEFAULT : Z := 100.
(* @src Messenger.h:195-205 msngr_announce_interval_presets_s *)
Definition MSNGR_ANNOUNCE_INTERVAL_PRESET_COUNT : Z := 8.
Definition msngr_announce_interval_presets_s : list Z := [0; 900; 1800; 3600; 7200; 10800; 21600; 43200].
(* @src Messenger.h:246-256 msngr_sync_interval_presets_s *)
Definition MSNGR_SYNC_INTERVAL_PRESET_COUNT : Z := 8.
Definition msngr_sync_interval_presets_s : list Z := [0; 900; 1800; 3600; 7200; 21600; 43200; 86400].
(* @src Messenger.h:271-272 MSNGR_SYNC_LIMIT_DEFAULT *)
Definition MSNGR_SYNC_LIMIT_DEFAULT : Z := 8.
Definition MSNGR_SYNC_LIMIT_MAX : Z := 254.
(* @src Messenger.h:287-288 MSNGR_STAMP_COST_DEFAULT *)
Definition MSNGR_STAMP_COST_DEFAULT : Z := 0.
Definition MSNGR_STAMP_COST_MAX : Z := 254.

(* @src Menu.h:2552-2562 staged_msngr_max_retries *)
Record msettings := mk_msettings {
  msngr_max_retries : Z; msngr_retry_delay_s : Z; msngr_playback_volume_pct : Z; msngr_announce_at_start : bool;
  msngr_announce_interval_idx : Z; msngr_propagate_on_fail : bool; msngr_sync_interval_idx : Z;
  msngr_sync_limit : Z; msngr_stamp_cost : Z
}.
(** The compiled initialisers. *)
Definition default_msettings : msettings :=
  mk_msettings MSNGR_MAX_RETRIES_DEFAULT MSNGR_RETRY_DELAY_DEFAULT MSNGR_PLAYBACK_VOLUME_DEFAULT true 0 false 0
    MSNGR_SYNC_LIMIT_DEFAULT MSNGR_STAMP_COST_DEFAULT.
(** What the router was told last. *)
(* @src lib/microLXMF/src/LXMF/LXMRouter.h:1228-1234 LXMRouter *)
Record lxmf_params := mk_lxmf_params {
  max_delivery_attempts : Z; outbound_retry_delay : Z; announce_interval : Z; fallback_to_propagation : bool;
  sync_message_limit : Z; stamp_cost : Z; stamps_enforced : bool
}.
(** The settings in use, the router's if there is one, and the EEPROM. *)
Record messenger (E : Type) := mk_messenger { live : msettings; router : option lxmf_params; eeprom : E }.
Arguments mk_messenger {E} _ _ _. Arguments live {E} _. Arguments router {E} _. Arguments eeprom {E} _.

Section Conf.
Context `{Board} {E : Type} `{Eeprom E} (HAS_AUDIO : bool).
Implicit Types (m : messenger E) (s : msettings) (v dir : Z).

Definition set_live (f : msettings -> msettings) m : messenger E := mk_messenger (f (live m)) (router m) (eeprom m).
Definition tell (f : lxmf_params -> lxmf_params) m : messenger E := mk_messenger (live m) (option_map f (router m)) (eeprom m).
Definition store (addr v : Z) m : messenger E := mk_messenger (live m) (router m) (eeprom_update addr v (eeprom m)).

(** ** Savers *)

(* @src Messenger.h:139-143 msngr_retries_conf_save *)
Definition msngr_retries_conf_save v m :=
  tell (fun r => r <| max_delivery_attempts := v |>) (store ADDR_CONF_MSNGR_RETRIES v (set_live (fun s => s <| msngr_max_retries := v |>) m)).
(* @src Messenger.h:155-159 msngr_retry_delay_conf_save *)
Definition msngr_retry_delay_conf_save v m :=
  tell (fun r => r <| outbound_retry_delay := v |>) (store ADDR_CONF_MSNGR_RETRY_DELAY v (set_live (fun s => s <| msngr_retry_delay_s := v |>) m)).
(* @src Messenger.h:169-172 msngr_playback_volume_conf_save *)
Definition msngr_playback_volume_conf_save v m :=
  store ADDR_CONF_MSNGR_PLAYBACK_VOLUME v (set_live (fun s => s <| msngr_playback_volume_pct := v |>) m).
(* @src Messenger.h:183-187 msngr_announce_at_start_conf_save *)
Definition msngr_announce_at_start_conf_save (enabled : bool) m :=
  store ADDR_CONF_MSNGR_ANNOUNCE_AT_START (if enabled then MSNGR_ANNOUNCE_AT_START_ENABLE_BYTE else MSNGR_ANNOUNCE_AT_START_DISABLE_BYTE)
    (set_live (fun s => s <| msngr_announce_at_start := enabled |>) m).
Definition announce_preset v : Z := nth (Z.to_nat v) msngr_announce_interval_presets_s 0.
(* @src Messenger.h:214-218 msngr_announce_interval_conf_save *)
Definition msngr_announce_interval_conf_save v m :=
  tell (fun r => r <| announce_interval := announce_preset v |>)
    (store ADDR_CONF_MSNGR_ANNOUNCE_INTERVAL v (set_live (fun s => s <| msngr_announce_interval_idx := v |>) m)).
(* @src Messenger.h:230-235 msngr_propagate_on_fail_conf_save *)
Definition msngr_propagate_on_fail_conf_save (enabled : bool) m :=
  tell (fun r => r <| fallback_to_propagation := enabled |>)
    (store ADDR_CONF_MSNGR_PROP_ON_FAIL (if enabled then MSNGR_PROP_ON_FAIL_ENABLE_BYTE else MSNGR_PROP_ON_FAIL_DISABLE_BYTE)
      (set_live (fun s => s <| msngr_propagate_on_fail := enabled |>) m)).
(* @src Messenger.h:262-265 msngr_sync_interval_conf_save *)
Definition msngr_sync_interval_conf_save v m :=
  store ADDR_CONF_MSNGR_SYNC_INTERVAL v (set_live (fun s => s <| msngr_sync_interval_idx := v |>) m).
(* @src Messenger.h:275-279 msngr_sync_limit_conf_save *)
Definition msngr_sync_limit_conf_save v m :=
  tell (fun r => r <| sync_message_limit := v |>) (store ADDR_CONF_MSNGR_SYNC_LIMIT v (set_live (fun s => s <| msngr_sync_limit := v |>) m)).
(* @src Messenger.h:291-299 msngr_stamp_cost_conf_save *)
Definition msngr_stamp_cost_conf_save v m :=
  tell (fun r => r <| stamp_cost := v |> <| stamps_enforced := 0 <? v |>)
    (store ADDR_CONF_MSNGR_STAMP_COST v (set_live (fun s => s <| msngr_stamp_cost := v |>) m)).

(** ** Start-up *)

Definition byte_in (lo hi : Z) (addr : Z) (old : Z) (e : E) : Z :=
  let raw := ee_read addr e in if (lo <=? raw) && (raw <=? hi) then raw else old.
Definition bool_in (on off addr : Z) (old : bool) (e : E) : bool :=
  let raw := ee_read addr e in if raw =? off then false else if raw =? on then true else old.
Definition volume_in (old : Z) (e : E) : Z :=
  let raw := ee_read ADDR_CONF_MSNGR_PLAYBACK_VOLUME e in
  if HAS_AUDIO && (10 <=? raw) && (raw <=? 100) && (raw mod 10 =? 0) then raw else old.
(* @src Messenger.h:2265-2313 messenger_init *)
Definition loaded (e : E) s : msettings :=
  mk_msettings (byte_in 0 5 ADDR_CONF_MSNGR_RETRIES (msngr_max_retries s) e)
    (byte_in 1 60 ADDR_CONF_MSNGR_RETRY_DELAY (msngr_retry_delay_s s) e)
    (volume_in (msngr_playback_volume_pct s) e)
    (bool_in MSNGR_ANNOUNCE_AT_START_ENABLE_BYTE MSNGR_ANNOUNCE_AT_START_DISABLE_BYTE ADDR_CONF_MSNGR_ANNOUNCE_AT_START (msngr_announce_at_start s) e)
    (byte_in 0 (MSNGR_ANNOUNCE_INTERVAL_PRESET_COUNT - 1) ADDR_CONF_MSNGR_ANNOUNCE_INTERVAL (msngr_announce_interval_idx s) e)
    (bool_in MSNGR_PROP_ON_FAIL_ENABLE_BYTE MSNGR_PROP_ON_FAIL_DISABLE_BYTE ADDR_CONF_MSNGR_PROP_ON_FAIL (msngr_propagate_on_fail s) e)
    (byte_in 0 (MSNGR_SYNC_INTERVAL_PRESET_COUNT - 1) ADDR_CONF_MSNGR_SYNC_INTERVAL (msngr_sync_interval_idx s) e)
    (byte_in 0 MSNGR_SYNC_LIMIT_MAX ADDR_CONF_MSNGR_SYNC_LIMIT (msngr_sync_limit s) e)
    (byte_in 0 MSNGR_STAMP_COST_MAX ADDR_CONF_MSNGR_STAMP_COST (msngr_stamp_cost s) e).
Definition params_of s : lxmf_params :=
  mk_lxmf_params (msngr_max_retries s) (msngr_retry_delay_s s) (announce_preset (msngr_announce_interval_idx s)) (msngr_propagate_on_fail s)
    (msngr_sync_limit s) (msngr_stamp_cost s) (0 <? msngr_stamp_cost s).
(* @src Messenger.h:2265-2319 messenger_init *)
Definition init_settings m : messenger E :=
  let s := loaded (eeprom m) (live m) in mk_messenger s (option_map (fun _ => params_of s) (router m)) (eeprom m).

(** ** The menu *)

(* @src Menu.h:4507-4512 step_msngr_retries *)
Definition step_msngr_retries dir s : msettings :=
  let v := i8 (msngr_max_retries s + (if 0 <? dir then 1 else -1)) in
  let v := if v <? 0 then 0 else v in
  s <| msngr_max_retries := u8 (if 5 <? v then 5 else v) |>.
(* @src Menu.h:4520-4525 step_msngr_retry_delay *)
Definition step_msngr_retry_delay dir s : msettings :=
  let v := i8 (msngr_retry_delay_s s + (if 0 <? dir then 1 else -1)) in
  let v := if v <? 1 then 1 else v in
  s <| msngr_retry_delay_s := u8 (if 60 <? v then 60 else v) |>.
(* @src Menu.h:4531-4536 step_msngr_playback_volume *)
Definition step_msngr_playback_volume dir s : msettings :=
  let v := msngr_playback_volume_pct s + (if 0 <? dir then 10 else -10) in
  let v := if v <? 10 then 10 else v in
  s <| msngr_playback_volume_pct := u8 (if 100 <? v then 100 else v) |>.
(* @src Menu.h:4545-4550 step_msngr_announce_interval *)
Definition step_msngr_announce_interval dir s : msettings :=
  let v := i8 (msngr_announce_interval_idx s + (if 0 <? dir then 1 else -1)) in
  let v := if v <? 0 then 0 else v in
  let last := MSNGR_ANNOUNCE_INTERVAL_PRESET_COUNT - 1 in
  s <| msngr_announce_interval_idx := u8 (if last <? v then last else v) |>.
(* @src Menu.h:4556-4561 step_msngr_sync_interval *)
Definition step_msngr_sync_interval dir s : msettings :=
  let v := i8 (msngr_sync_interval_idx s + (if 0 <? dir then 1 else -1)) in
  let v := if v <? 0 then 0 else v in
  let last := MSNGR_SYNC_INTERVAL_PRESET_COUNT - 1 in
  s <| msngr_sync_interval_idx := u8 (if last <? v then last else v) |>.
(* @src Menu.h:4569-4574 step_msngr_sync_limit *)
Definition step_msngr_sync_limit dir s : msettings :=
  let v := i16 (msngr_sync_limit s + (if 0 <? dir then 1 else -1)) in
  let v := if v <? 0 then 0 else v in
  s <| msngr_sync_limit := u8 (if MSNGR_SYNC_LIMIT_MAX <? v then MSNGR_SYNC_LIMIT_MAX else v) |>.
(* @src Menu.h:4582-4587 step_msngr_stamp_cost *)
Definition step_msngr_stamp_cost dir s : msettings :=
  let v := i16 (msngr_stamp_cost s + (if 0 <? dir then 1 else -1)) in
  let v := if v <? 0 then 0 else v in
  s <| msngr_stamp_cost := u8 (if MSNGR_STAMP_COST_MAX <? v then MSNGR_STAMP_COST_MAX else v) |>.

(* @src Menu.h:5821-5830 menu_encoder_rotate *)
Inductive msetting := Retries | RetryDelay | AnnounceStart | AnnounceInterval | PropOnFail | SyncInterval | SyncLimit | StampCost | PlaybackVolume.
Definition rotate_setting (item : msetting) dir s : msettings :=
  match item with
  | Retries => step_msngr_retries dir s
  | RetryDelay => step_msngr_retry_delay dir s
  | AnnounceStart => s <| msngr_announce_at_start := negb (msngr_announce_at_start s) |>
  | AnnounceInterval => step_msngr_announce_interval dir s
  | PropOnFail => s <| msngr_propagate_on_fail := negb (msngr_propagate_on_fail s) |>
  | SyncInterval => step_msngr_sync_interval dir s
  | SyncLimit => step_msngr_sync_limit dir s
  | StampCost => step_msngr_stamp_cost dir s
  | PlaybackVolume => if HAS_AUDIO then step_msngr_playback_volume dir s else s
  end.
Definition save_z (get : msettings -> Z) (save : Z -> messenger E -> messenger E) s m : messenger E :=
  if negb (get s =? get (live m)) then save (get s) m else m.
Definition save_b (get : msettings -> bool) (save : bool -> messenger E -> messenger E) s m : messenger E :=
  if negb (Bool.eqb (get s) (get (live m))) then save (get s) m else m.
(** The BACK row of the settings screen saves what differs. *)
(* @src Menu.h:7227-7258 menu_confirm_select *)
Definition save_settings s m : messenger E :=
  let m := save_z msngr_max_retries msngr_retries_conf_save s m in
  let m := save_z msngr_retry_delay_s msngr_retry_delay_conf_save s m in
  let m := if HAS_AUDIO then save_z msngr_playback_volume_pct msngr_playback_volume_conf_save s m else m in
  let m := save_b msngr_announce_at_start msngr_announce_at_start_conf_save s m in
  let m := save_z msngr_announce_interval_idx msngr_announce_interval_conf_save s m in
  let m := save_b msngr_propagate_on_fail msngr_propagate_on_fail_conf_save s m in
  let m := save_z msngr_sync_interval_idx msngr_sync_interval_conf_save s m in
  let m := save_z msngr_sync_limit msngr_sync_limit_conf_save s m in
  save_z msngr_stamp_cost msngr_stamp_cost_conf_save s m.
(** A visit to the settings: the copies are staged, edited and saved. *)
Definition edit_settings (turns : list (msetting * Z)) m : messenger E :=
  save_settings (foldl (fun s '(item, dir) => rotate_setting item dir s) (live m) turns) m.
End Conf.

(** ** The settings in use are the settings stored *)

Section Laws.
Context `{EepromLaws E} (HAS_AUDIO : bool).
Hypothesis HS : 288 <= EEPROM_SIZE.
Implicit Types (m : messenger E) (s : msettings).

Record settings_ok s : Prop := {
  so_retries : 0 <= msngr_max_retries s <= 5; so_delay : 1 <= msngr_retry_delay_s s <= 60;
  so_volume : 10 <= msngr_playback_volume_pct s <= 100 /\ msngr_playback_volume_pct s mod 10 = 0;
  so_announce : 0 <= msngr_announce_interval_idx s <= 7; so_sync : 0 <= msngr_sync_interval_idx s <= 7;
  so_limit : 0 <= msngr_sync_limit s <= 254; so_cost : 0 <= msngr_stamp_cost s <= 254
}.
(** The stored bytes load as the settings in use, and the router was told them. *)
Record conf_ok m : Prop := {
  co_range : settings_ok (live m);
  co_stored : loaded HAS_AUDIO (eeprom m) default_msettings = live m;
  co_router : router m = Some (params_of (live m))
}.

Lemma read_updated a b v (e : E) : 0 <= b < EEPROM_SIZE -> is_u8 v -> ee_read a (eeprom_update b v e) = if a =? b then v else ee_read a e.
Proof.
  intros Hb Hv. unfold eeprom_update. destruct (Z.eqb_spec a b) as [->|Hn].
  - destruct (Z.eqb_spec (ee_read b e) v); cbn [negb]; [assumption|now apply read_write_eq].
  - destruct (Z.eqb_spec (ee_read b e) v); cbn [negb]; [reflexivity|]. apply read_write_ne. congruence.
Qed.
Lemma byte_in_range lo hi a old (e : E) : lo <= old <= hi -> lo <= byte_in lo hi a old e <= hi.
Proof. intros Ho. unfold byte_in. destruct (Z.leb_spec lo (ee_read a e)), (Z.leb_spec (ee_read a e) hi); cbn [andb]; lia. Qed.
Lemma loaded_ok (e : E) s : settings_ok s -> settings_ok (loaded HAS_AUDIO e s).
Proof.
  intros []. constructor; cbn; try (apply byte_in_range; assumption). unfold volume_in.
  destruct (HAS_AUDIO && _ && _ && _) eqn:E1; [|assumption]. apply andb_prop in E1 as [E1 E4]. apply andb_prop in E1 as [E1 E3]. apply andb_prop in E1 as [_ E2]. lia.
Qed.
Lemma default_ok : settings_ok default_msettings.
Proof. constructor; repeat split; vm_compute; (discriminate || reflexivity). Qed.
Lemma clamped lo hi v : 0 <= lo <= hi -> hi < 256 -> let v' := if v <? lo then lo else v in lo <= u8 (if hi <? v' then hi else v') <= hi.
Proof. intros Hl Hh. cbv zeta. destruct (Z.ltb_spec v lo); [destruct (Z.ltb_spec hi lo)|destruct (Z.ltb_spec hi v)]; rewrite u8_id by (unfold is_u8; lia); lia. Qed.
Lemma rotate_ok item dir s : settings_ok s -> settings_ok (rotate_setting HAS_AUDIO item dir s).
Proof.
  intros []. destruct item; cbn [rotate_setting]; [..|destruct HAS_AUDIO; [|constructor; assumption]]; constructor; cbn; try assumption;
    try (apply clamped; unfold MSNGR_SYNC_LIMIT_MAX, MSNGR_STAMP_COST_MAX, MSNGR_ANNOUNCE_INTERVAL_PRESET_COUNT, MSNGR_SYNC_INTERVAL_PRESET_COUNT; lia).
  split; [apply clamped; lia|]. set (v := msngr_playback_volume_pct s + _).
  assert (Hv : v mod 10 = 0) by (unfold v; destruct (0 <? dir); rewrite <- Zplus_mod_idemp_l, (proj2 so_volume0); reflexivity). clearbody v.
  destruct (Z.ltb_spec v 10); [reflexivity|]. destruct (Z.ltb_spec 100 v); [reflexivity|]. now rewrite u8_id by (unfold is_u8; lia).
Qed.
Lemma rotations_ok turns s : settings_ok s -> settings_ok (foldl (fun s '(item, dir) => rotate_setting HAS_AUDIO item dir s) s turns).
Proof. revert s. induction turns as [|[item dir] turns IH]; intros s Hs; [exact Hs|]. apply IH. now apply rotate_ok. Qed.

(** What loads from a store with one byte changed. *)
Lemma byte_in_same lo hi a v old (e : E) : 0 <= a < EEPROM_SIZE -> 0 <= lo -> hi < 256 -> lo <= v <= hi ->
  byte_in lo hi a old (eeprom_update a v e) = v.
Proof.
  intros Ha Hl Hh Hv. unfold byte_in. rewrite read_updated, Z.eqb_refl by (assumption || (unfold is_u8; lia)).
  now rewrite (proj2 (Z.leb_le _ _)), (proj2 (Z.leb_le _ _)) by lia.
Qed.
Lemma byte_in_other lo hi a b v old (e : E) : 0 <= b < EEPROM_SIZE -> is_u8 v -> a <> b ->
  byte_in lo hi a old (eeprom_update b v e) = byte_in lo hi a old e.
Proof. intros Hb Hv Hn. unfold byte_in. now rewrite read_updated, (proj2 (Z.eqb_neq a b)) by assumption. Qed.
Lemma bool_in_same on off a (v : bool) old (e : E) : 0 <= a < EEPROM_SIZE -> is_u8 on -> is_u8 off -> on <> off ->
  bool_in on off a old (eeprom_update a (if v then on else off) e) = v.
Proof.
  intros Ha H1' H2' Hn. unfold bool_in. rewrite read_updated, Z.eqb_refl by (destruct v; assumption).
  destruct v; [rewrite (proj2 (Z.eqb_neq on off)) by assumption|]; now rewrite Z.eqb_refl.
Qed.
Lemma bool_in_other on off a b v old (e : E) : 0 <= b < EEPROM_SIZE -> is_u8 v -> a <> b ->
  bool_in on off a old (eeprom_update b v e) = bool_in on off a old e.
Proof. intros Hb Hv Hn. unfold bool_in. now rewrite read_updated, (proj2 (Z.eqb_neq a b)) by assumption. Qed.
Lemma volume_in_other b v old (e : E) : 0 <= b < EEPROM_SIZE -> is_u8 v -> ADDR_CONF_MSNGR_PLAYBACK_VOLUME <> b ->
  volume_in HAS_AUDIO old (eeprom_update b v e) = volume_in HAS_AUDIO old e.
Proof. intros Hb Hv Hn. unfold volume_in. now rewrite read_updated, (proj2 (Z.eqb_neq _ b)) by assumption. Qed.
Lemma volume_in_same v old (e : E) : HAS_AUDIO = true -> 10 <= v <= 100 -> v mod 10 = 0 ->
  volume_in HAS_AUDIO old (eeprom_update ADDR_CONF_MSNGR_PLAYBACK_VOLUME v e) = v.
Proof.
  intros Ha Hv Hm. unfold volume_in. rewrite read_updated, Z.eqb_refl by (unfold is_u8, ADDR_CONF_MSNGR_PLAYBACK_VOLUME; lia).
  now rewrite Ha, Hm, (proj2 (Z.leb_le _ _)), (proj2 (Z.leb_le _ _)) by lia.
Qed.
Ltac addresses := unfold is_u8, ADDR_CONF_MSNGR_RETRIES, ADDR_CONF_MSNGR_RETRY_DELAY, ADDR_CONF_MSNGR_PLAYBACK_VOLUME, ADDR_CONF_MSNGR_ANNOUNCE_AT_START,
  ADDR_CONF_MSNGR_ANNOUNCE_INTERVAL, ADDR_CONF_MSNGR_PROP_ON_FAIL, ADDR_CONF_MSNGR_SYNC_INTERVAL, ADDR_CONF_MSNGR_SYNC_LIMIT, ADDR_CONF_MSNGR_STAMP_COST,
  MSNGR_ANNOUNCE_AT_START_ENABLE_BYTE, MSNGR_ANNOUNCE_AT_START_DISABLE_BYTE, MSNGR_PROP_ON_FAIL_ENABLE_BYTE, MSNGR_PROP_ON_FAIL_DISABLE_BYTE,
  MSNGR_SYNC_LIMIT_MAX, MSNGR_STAMP_COST_MAX, MSNGR_ANNOUNCE_INTERVAL_PRESET_COUNT, MSNGR_SYNC_INTERVAL_PRESET_COUNT;
  repeat match goal with |- context [if ?b then _ else _] => destruct b end; lia.
(** One saver: the ranges, the bytes and the router. *)
Ltac saver m :=
  intros [[] Hl Hrt]; destruct m as [s r e]; cbn [live router eeprom] in *; subst;
    (split; [constructor; cbn; assumption || lia
    |cbn -[loaded eeprom_update]; unfold loaded at 1; rewrite ?byte_in_same, ?bool_in_same, ?volume_in_same, ?byte_in_other, ?bool_in_other, ?volume_in_other by (assumption || addresses);
     reflexivity
    |reflexivity]).

Lemma retries_saved v m : 0 <= v <= 5 -> conf_ok m -> conf_ok (msngr_retries_conf_save v m).
Proof. intros Hv. saver m. Qed.
Lemma retry_delay_saved v m : 1 <= v <= 60 -> conf_ok m -> conf_ok (msngr_retry_delay_conf_save v m).
Proof. intros Hv. saver m. Qed.
Lemma volume_saved v m : HAS_AUDIO = true -> 10 <= v <= 100 /\ v mod 10 = 0 -> conf_ok m -> conf_ok (msngr_playback_volume_conf_save v m).
Proof. intros Ha [Hv Hm]. saver m. Qed.
Lemma announce_at_start_saved v m : conf_ok m -> conf_ok (msngr_announce_at_start_conf_save v m).
Proof. saver m. Qed.
Lemma announce_interval_saved v m : 0 <= v <= 7 -> conf_ok m -> conf_ok (msngr_announce_interval_conf_save v m).
Proof. intros Hv. saver m. Qed.
Lemma propagate_on_fail_saved v m : conf_ok m -> conf_ok (msngr_propagate_on_fail_conf_save v m).
Proof. saver m. Qed.
Lemma sync_interval_saved v m : 0 <= v <= 7 -> conf_ok m -> conf_ok (msngr_sync_interval_conf_save v m).
Proof. intros Hv. saver m. Qed.
Lemma sync_limit_saved v m : 0 <= v <= 254 -> conf_ok m -> conf_ok (msngr_sync_limit_conf_save v m).
Proof. intros Hv. saver m. Qed.
Lemma stamp_cost_saved v m : 0 <= v <= 254 -> conf_ok m -> conf_ok (msngr_stamp_cost_conf_save v m).
Proof. intros Hv. saver m. Qed.

(** A field that is saved when it differs is the staged one afterwards. *)
Lemma save_z_ok get save s m : (conf_ok m -> conf_ok (save (get s) m)) -> conf_ok m -> conf_ok (save_z get save s m).
Proof. intros Hs Hm. unfold save_z. destruct (negb _); auto. Qed.
Lemma save_b_ok get save s m : (conf_ok m -> conf_ok (save (get s) m)) -> conf_ok m -> conf_ok (save_b get save s m).
Proof. intros Hs Hm. unfold save_b. destruct (negb _); auto. Qed.
Lemma save_settings_ok s m : settings_ok s -> conf_ok m -> conf_ok (save_settings HAS_AUDIO s m).
Proof.
  intros Hs Hm. pose proof Hs as []. unfold save_settings. cbv zeta.
  apply save_z_ok; [now apply stamp_cost_saved|]. apply save_z_ok; [now apply sync_limit_saved|]. apply save_z_ok; [now apply sync_interval_saved|].
  apply save_b_ok; [now apply propagate_on_fail_saved|]. apply save_z_ok; [now apply announce_interval_saved|]. apply save_b_ok; [now apply announce_at_start_saved|].
  assert (Hd : conf_ok (save_z msngr_retry_delay_s msngr_retry_delay_conf_save s (save_z msngr_max_retries msngr_retries_conf_save s m))).
  { apply save_z_ok; [now apply retry_delay_saved|]. apply save_z_ok; [now apply retries_saved|assumption]. }
  destruct HAS_AUDIO eqn:Ea; [|exact Hd]. apply save_z_ok; [now apply volume_saved|exact Hd].
Qed.
Lemma init_settings_ok (e : E) (r : lxmf_params) : conf_ok (init_settings HAS_AUDIO (mk_messenger default_msettings (Some r) e)).
Proof. constructor; [apply loaded_ok, default_ok|reflexivity|reflexivity]. Qed.
(** The device switched off and on. *)
Definition messenger_reboot m : messenger E := init_settings HAS_AUDIO (mk_messenger default_msettings (router m) (eeprom m)).
Definition edits (visits : list (list (msetting * Z))) m : messenger E := foldl (fun m turns => edit_settings HAS_AUDIO turns m) m visits.
Lemma edits_ok visits m : conf_ok m -> conf_ok (edits visits m).
Proof.
  revert m. induction visits as [|turns visits IH]; intros m Hm; [exact Hm|]. apply IH. apply save_settings_ok; [|exact Hm].
  apply rotations_ok, Hm.
Qed.

(** The settings in use are the settings stored: from a boot on any store contents, after
    any visits to the menu, every setting is within its range, the router knows them all,
    and a restart comes back with the same. *)
Theorem messenger_settings_survive (e : E) (r : lxmf_params) visits :
  let m := edits visits (init_settings HAS_AUDIO (mk_messenger default_msettings (Some r) e)) in
  settings_ok (live m) /\ router m = Some (params_of (live m)) /\ messenger_reboot m = m.
Proof.
  cbv zeta. pose proof (edits_ok visits _ (init_settings_ok e r)) as [Hr Hl Hrt].
  destruct (edits visits _) as [s r' e']. cbn in *. subst r'. split; [exact Hr|]. split; [reflexivity|].
  unfold messenger_reboot, init_settings. cbn -[loaded]. now rewrite Hl.
Qed.
End Laws.

(** A retry count of 3 and a delay of a minute, turned in and kept. *)
Lemma messenger_settings_survive_witness :
  let B := heltec32_v3 in let m := edits true [[(Retries, -1); (Retries, -1)]; repeat (RetryDelay, 1) 50] (init_settings true (mk_messenger default_msettings (Some (params_of default_msettings)) (∅ : image))) in
  msngr_max_retries (live m) = 3 /\ msngr_retry_delay_s (live m) = 60 /\ messenger_reboot true m = m.
Proof.
  intros B. assert (HS : 288 <= EEPROM_SIZE) by (vm_compute; discriminate).
  pose proof (@messenger_settings_survive image image_eeprom heltec32_v3 image_laws true HS (∅ : image) (params_of default_msettings) [[(Retries, -1); (Retries, -1)]; repeat (RetryDelay, 1) 50]) as P.
  cbv zeta in P |- *. destruct P as (_ & _ & P). split; [vm_compute; reflexivity|]. split; [vm_compute; reflexivity|exact P].
Defined.
