(* ===== verification/Send.v ===== *)
(** * Sending a message and following it (Messenger.h, Menu.h)

    The state machine behind the messenger's sends: resolving the identity of a peer,
    handing the message to the LXMF router, and turning what the router reports, or the
    lack of it, into the outcome that is shown and the history that is kept.  The router
    calls back for any message it carries, not only for the one that is followed. *)
From Stdlib Require Import String.
From S2P Require Import Prelude Boards Keyboard Contacts MsngrConf.
From stdpp Require Import list.
#[local] Open Scope Z_scope.

(** ** Constants *)

(* @src Messenger.h:1399-1402 MSNGR_SEND_IDLE *)
Definition MSNGR_SEND_IDLE : Z := 0.
Definition MSNGR_SEND_PENDING : Z := 1.
Definition MSNGR_SEND_DELIVERED : Z := 2.
Definition MSNGR_SEND_TIMEOUT : Z := 3.
(* @src Messenger.h:1413-1414 MSNGR_SEND_RESOLVING *)
Definition MSNGR_SEND_RESOLVING : Z := 4.
Definition MSNGR_SEND_UNRESOLVED : Z := 5.
(* @src Messenger.h:1423-1423 MSNGR_SEND_FAILED *)
Definition MSNGR_SEND_FAILED : Z := 6.
(* @src Messenger.h:1432-1432 MSNGR_SEND_SENT_TO_NODE *)
Definition MSNGR_SEND_SENT_TO_NODE : Z := 7.
(* @src Messenger.h:1440-1440 MSNGR_SEND_DELIVERY_TIMEOUT_MS *)
Definition MSNGR_SEND_DELIVERY_TIMEOUT_MS : Z := 60000.
(* @src Messenger.h:1446-1446 MSNGR_SEND_STAMP_GRIND_BUDGET_MS *)
Definition MSNGR_SEND_STAMP_GRIND_BUDGET_MS : Z := 150000.
(* @src Messenger.h:1454-1454 MSNGR_SEND_RESOLVE_TIMEOUT_MS *)
Definition MSNGR_SEND_RESOLVE_TIMEOUT_MS : Z := 15000.
(* @src Messenger.h:1461-1461 MSNGR_SEND_RESULT_POPUP_MS *)
Definition MSNGR_SEND_RESULT_POPUP_MS : Z := 20000.
(* @src Messenger.h:1465-1465 MSNGR_SEND_CONTENT_MAX_LEN *)
Definition MSNGR_SEND_CONTENT_MAX_LEN : Z := 140.
(* @src lib/microLXMF/src/LXMF/Type.h:44-49 Method *)
Definition OPPORTUNISTIC : Z := 1.
Definition DIRECT : Z := 2.
Definition PROPAGATED : Z := 3.
(* @src lib/microLXMF/src/LXMF/Type.h:21-23 State *)
Definition GENERATING : Z := 0.
Definition OUTBOUND : Z := 1.
(* @src URNS.h:368-375 URNS_LXMF_SEND_OK *)
Definition URNS_LXMF_SEND_OK : Z := 0.
Definition URNS_LXMF_SEND_NOT_READY : Z := 1.
Definition URNS_LXMF_SEND_RESOLVING : Z := 3.
(* @src lib/microLXMF/src/LXMF/LXMRouter.h:1186-1186 MAX_AUTO_OUTBOUND_STAMP_COST *)
Definition MAX_AUTO_OUTBOUND_STAMP_COST : Z := 16.

(** ** Messages *)

(* @src Messenger.h:1761-1767 messenger_send_lxmf_resolved *)
Record lxmessage := mk_lxmessage { lx_to : list Z; lx_content : list Z; lx_audio : list Z; lx_method : Z }.
(** What packing makes of a message: its hash, the method it resolves to, its bytes. *)
Record packed := mk_packed { pk_hash : list Z; pk_method : Z; pk_bytes : list Z }.
(** The message a callback is called with; a placeholder has no destination. *)
Record reported := mk_reported { rp_hash : list Z; rp_destination : list Z; rp_bytes : list Z }.
(** What is put in the history: a message unpacked from the bytes that were sent, one the
    router still had, or one rebuilt from what was composed. *)
Inductive saved :=
| SavedPacked (hash bytes : list Z)
| SavedReported (m : reported)
| SavedRebuilt (hash : list Z) (m : lxmessage) (timestamp : Z).
Definition saved_hash (e : saved) : list Z :=
  match e with SavedPacked h _ | SavedRebuilt h _ _ => h | SavedReported m => rp_hash m end.
(** The calls into the network stack. *)
Inductive call := RequestPath (hash : list Z) | RefreshPropNodeStampCost | HandleOutbound (m : lxmessage).

(** The libraries: how a message packs at a given time, the hash of the message some bytes
    unpack to (an exception is [None]), the stamp cost a peer announced, and whether the
    message store takes a message. *)
Class Lxmf := {
  pack : Z -> lxmessage -> packed;
  unpack_hash : list Z -> option (list Z);
  resolve_outbound_stamp_cost : list Z -> Z;
  save_message : saved -> bool
}.

(** ** State *)

(* @src Messenger.h:1467-1532 msngr_send_state *)
Record send := mk_send {
  msngr_send_state : Z; msngr_send_message_hash : list Z; msngr_send_started_ms : Z; msngr_send_attempt : Z;
  msngr_send_stamp_seen : bool; msngr_send_method : Z; msngr_send_router_state : Z; msngr_send_result_at_ms : Z;
  msngr_send_pending_dest_hash : list Z; msngr_send_pending_content : list Z; msngr_send_resolve_started_ms : Z;
  msngr_send_pending_forced_method : Z; msngr_send_pending_audio : list Z; msngr_send_pending_packed : list Z;
  msngr_send_needs_cache_refresh : bool;
  history : list saved; calls : list call
}.
Definition send0 : send := mk_send MSNGR_SEND_IDLE [] 0 1 false OPPORTUNISTIC OUTBOUND 0 [] [] 0 0 [] [] false [] [].
(** What the router and the identity store answer while the send is polled. *)
Record view := mk_view {
  pending_outbound_attempts_for : Z; pending_outbound_state_for : Z; outbound_propagation_stamp_cost : Z;
  pending_outbound_front_stamp_pending_for : bool; identity_known : bool; app_data_known : bool
}.

Section Send.
Context `{Lxmf} (cts : contacts) (conf : msettings).
Implicit Types (s : send) (now : Z).

Definition save (e : saved) s : send := if save_message e then s <| history ::= fun l => l ++ [e] |> else s.
Definition call_out (c : call) s : send := s <| calls ::= fun l => l ++ [c] |>.
(** [state] reached at [now], with the time it is shown from. *)
Definition concluded (state now : Z) s : send := s <| msngr_send_state := state |> <| msngr_send_result_at_ms := now |>.

(** ** The router's callbacks *)

(* @src Messenger.h:1540-1557 messenger_save_sent_from_packed *)
Definition messenger_save_sent_from_packed (hash : list Z) s : bool * send :=
  if (zlen (msngr_send_pending_packed s) =? 0) || negb (bool_decide (hash = msngr_send_message_hash s)) then (false, s)
  else match unpack_hash (msngr_send_pending_packed s) with
       | Some h => if bool_decide (h = hash)
                   then let e := SavedPacked h (msngr_send_pending_packed s) in (save_message e, save e s)
                   else (false, s)
       | None => (false, s)
       end.
(* @src Messenger.h:1573-1600 messenger_on_delivered *)
Definition messenger_on_delivered (msg : reported) now s : send :=
  let s := if zlen (rp_destination msg) =? 0 then snd (messenger_save_sent_from_packed (rp_hash msg) s) else save (SavedReported msg) s in
  let s := s <| msngr_send_needs_cache_refresh := true |> in
  if (msngr_send_state s =? MSNGR_SEND_PENDING) && bool_decide (rp_hash msg = msngr_send_message_hash s)
  then concluded MSNGR_SEND_DELIVERED now s else s.
(* @src Messenger.h:1609-1614 messenger_on_failed *)
Definition messenger_on_failed (msg : reported) now s : send :=
  if (msngr_send_state s =? MSNGR_SEND_PENDING) && bool_decide (rp_hash msg = msngr_send_message_hash s)
  then concluded MSNGR_SEND_FAILED now s else s.
(* @src Messenger.h:1641-1705 messenger_on_sent *)
Definition messenger_on_sent (msg : reported) (dest_identity : bool) now s : send :=
  if negb (msngr_send_method s =? PROPAGATED) then s
  else if (msngr_send_state s =? MSNGR_SEND_PENDING) && bool_decide (rp_hash msg = msngr_send_message_hash s) then
    let '(saved, s) := messenger_save_sent_from_packed (rp_hash msg) s in
    let s := if saved then s
             else if dest_identity then
               save (SavedRebuilt (msngr_send_message_hash s)
                       (mk_lxmessage (msngr_send_pending_dest_hash s) (msngr_send_pending_content s) (msngr_send_pending_audio s) PROPAGATED) now) s
             else s in
    concluded MSNGR_SEND_SENT_TO_NODE now (s <| msngr_send_needs_cache_refresh := true |>)
  else s.

(** ** Sending *)

(** The router takes a message unless its peer demands a stamp it will not mine; then it
    throws. *)
(* @src lib/microLXMF/src/LXMF/LXMRouter.cpp:838-880 LXMRouter::handle_outbound *)
Definition handle_outbound (m : lxmessage) now : option packed :=
  if negb (lx_method m =? PROPAGATED) && (MAX_AUTO_OUTBOUND_STAMP_COST <? resolve_outbound_stamp_cost (lx_to m)) then None
  else Some (pack now m).
(** [None] is an exception nothing above catches: the program ends. *)
(* @src Messenger.h:1727-1793 messenger_send_lxmf_resolved *)
Definition messenger_send_lxmf_resolved (dest_hash content : list Z) (forced_method : Z) (app_data : bool) now s : option send :=
  let desired_method :=
    if negb (forced_method =? 0) then forced_method
    else if messenger_current_delivery_mode dest_hash cts =? MSNGR_DELIVERY_MODE_PROPAGATED then PROPAGATED else OPPORTUNISTIC in
  let s := if desired_method =? PROPAGATED then call_out RefreshPropNodeStampCost s else s in
  let s := if negb (desired_method =? PROPAGATED) && negb app_data then call_out (RequestPath dest_hash) s else s in
  let msg := mk_lxmessage dest_hash content (msngr_send_pending_audio s) desired_method in
  match handle_outbound msg now with
  | None => None
  | Some p =>
      Some ((call_out (HandleOutbound msg) s) <| msngr_send_method := pk_method p |> <| msngr_send_needs_cache_refresh := true |>
        <| msngr_send_message_hash := pk_hash p |> <| msngr_send_pending_packed := pk_bytes p |>
        <| msngr_send_state := MSNGR_SEND_PENDING |> <| msngr_send_started_ms := now |> <| msngr_send_stamp_seen := false |>
        <| msngr_send_attempt := 1 |> <| msngr_send_router_state := OUTBOUND |>)
  end.
(** [ready] is [urns_ready && urns_message_store]; with the result the call returns. *)
(* @src Messenger.h:1870-1913 messenger_send_lxmf *)
Definition messenger_send_lxmf (dest_hash content : list Z) (forced_method : Z) (keep_audio ready : bool) (v : view) now s : option (Z * send) :=
  if negb ready then Some (URNS_LXMF_SEND_NOT_READY, s)
  else
    let s := s <| msngr_send_pending_dest_hash := dest_hash |> in
    let s := if keep_audio then s else s <| msngr_send_pending_audio := [] |> in
    let s := s <| msngr_send_pending_content := take (Z.to_nat MSNGR_SEND_CONTENT_MAX_LEN) (c_str content) |>
               <| msngr_send_pending_forced_method := forced_method |> in
    if negb (identity_known v) then
      Some (URNS_LXMF_SEND_RESOLVING,
            (call_out (RequestPath dest_hash) s) <| msngr_send_state := MSNGR_SEND_RESOLVING |> <| msngr_send_resolve_started_ms := now |>)
    else match messenger_send_lxmf_resolved dest_hash (c_str content) forced_method (app_data_known v) now s with
         | None => None
         | Some s => Some (URNS_LXMF_SEND_OK, s)
         end.
(* @src Messenger.h:1920-1924 messenger_send_voice *)
Definition messenger_send_voice (dest_hash audio_field text : list Z) (ready : bool) (v : view) now s : option (Z * send) :=
  messenger_send_lxmf dest_hash text 0 true ready v now (s <| msngr_send_pending_audio := audio_field |>).

(** ** Polling *)

(* @src Messenger.h:1824-1848 messenger_send_process *)
Definition effective_timeout_ms (v : view) s : Z :=
  let effective := MSNGR_SEND_DELIVERY_TIMEOUT_MS in
  let retry_budget := u32 (u32 (u32 (msngr_max_retries conf * msngr_retry_delay_s conf) * 1000) + 10000) in
  let effective := if effective <? retry_budget then retry_budget else effective in
  let effective := if (msngr_send_method s =? PROPAGATED) && (0 <? outbound_propagation_stamp_cost v)
                   then u32 (effective + MSNGR_SEND_STAMP_GRIND_BUDGET_MS) else effective in
  if msngr_send_stamp_seen s then u32 (effective + MSNGR_SEND_STAMP_GRIND_BUDGET_MS) else effective.
(* @src Messenger.h:1795-1863 messenger_send_process *)
Definition messenger_send_process (v : view) now s : option send :=
  if msngr_send_state s =? MSNGR_SEND_PENDING then
    let s := if 0 <? pending_outbound_attempts_for v then s <| msngr_send_attempt := u8 (pending_outbound_attempts_for v) |> else s in
    let s := if negb (pending_outbound_state_for v =? GENERATING) then s <| msngr_send_router_state := pending_outbound_state_for v |> else s in
    let s := if pending_outbound_front_stamp_pending_for v then s <| msngr_send_stamp_seen := true |> else s in
    Some (if effective_timeout_ms v s <? u32 (now - msngr_send_started_ms s) then concluded MSNGR_SEND_TIMEOUT now s else s)
  else if msngr_send_state s =? MSNGR_SEND_RESOLVING then
    if identity_known v then
      messenger_send_lxmf_resolved (msngr_send_pending_dest_hash s) (msngr_send_pending_content s) (msngr_send_pending_forced_method s)
        (app_data_known v) now s
    else Some (if MSNGR_SEND_RESOLVE_TIMEOUT_MS <? u32 (now - msngr_send_resolve_started_ms s) then concluded MSNGR_SEND_UNRESOLVED now s else s)
  else Some s.

(** ** Runs *)

(** The polls among the events come at most [G] milliseconds apart; [p] is the time of the
    last. *)
Fixpoint polled {A} (poll : A -> bool) (G p : Z) (tr : list (Z * A)) : Prop :=
  match tr with
  | [] => True
  | (t, e) :: tr => p <= t <= p + G /\ polled poll G (if poll e then t else p) tr
  end.
Fixpoint last_poll {A} (poll : A -> bool) (p : Z) (tr : list (Z * A)) : Z :=
  match tr with
  | [] => p
  | (t, e) :: tr => last_poll poll (if poll e then t else p) tr
  end.
Lemma u32_elapsed a b : 0 <= b - a < 4294967296 -> u32 (u32 b - u32 a) = b - a.
Proof. intros Hd. unfold wrap. rewrite Zminus_mod_idemp_l, Zminus_mod_idemp_r. apply Z.mod_small. exact Hd. Qed.


(** What happens to the sender: a poll of [loop()], a callback, or the user leaving the
    screen, each at a time in milliseconds since the start, of which [millis()] is the low
    32 bits. *)
Inductive event :=
| Poll (v : view) | Delivered (m : reported) | Failed (m : reported) | Sent (m : reported) (dest_identity : bool).
Definition is_poll (e : event) : bool := match e with Poll _ => true | _ => false end.
Definition step (e : event) (t : Z) s : option send :=
  match e with
  | Poll v => messenger_send_process v (u32 t) s
  | Delivered m => Some (messenger_on_delivered m (u32 t) s)
  | Failed m => Some (messenger_on_failed m (u32 t) s)
  | Sent m dest_identity => Some (messenger_on_sent m dest_identity (u32 t) s)
  end.
Fixpoint run (tr : list (Z * event)) s : option send :=
  match tr with
  | [] => Some s
  | (t, e) :: tr => match step e t s with Some s => run tr s | None => None end
  end.
End Send.

(** ** What a step can do *)

Section Moves.
Context `{Lxmf} (cts : contacts) (conf : msettings).
Hypothesis Hconf : settings_ok conf.
Implicit Types (s : send) (t now : Z).

(** The wait for a delivery covers every retry of the router and is bounded. *)
Lemma timeout_bounds v s : let budget := effective_timeout_ms conf v s in
  MSNGR_SEND_DELIVERY_TIMEOUT_MS <= budget <= 610000 /\ msngr_max_retries conf * msngr_retry_delay_s conf * 1000 + 10000 <= budget.
Proof.
  destruct Hconf as [Hr Hd _ _ _ _ _]. unfold effective_timeout_ms, MSNGR_SEND_DELIVERY_TIMEOUT_MS, MSNGR_SEND_STAMP_GRIND_BUDGET_MS. cbv zeta.
  assert (0 <= msngr_max_retries conf * msngr_retry_delay_s conf <= 300) by nia. set (k := msngr_max_retries conf * msngr_retry_delay_s conf) in *.
  rewrite (u32_id k), (u32_id (k * 1000)), (u32_id (k * 1000 + 10000)) by lia.
  destruct (Z.ltb_spec 60000 (k * 1000 + 10000)), ((_ =? _) && _), (msngr_send_stamp_seen s); rewrite ?u32_id by (rewrite ?u32_id by lia; lia); lia.
Qed.

(** A report that decides the message that is followed. *)
Definition decides (e : event) s : Prop :=
  match e with
  | Delivered m | Failed m => rp_hash m = msngr_send_message_hash s
  | Sent m _ => msngr_send_method s = PROPAGATED /\ rp_hash m = msngr_send_message_hash s
  | Poll _ => False
  end.
(** A history entry that a report justifies: any delivered message, and the followed
    message at the node if it is a propagated one. *)
Definition justifies (e : event) s (x : saved) : Prop :=
  match e with
  | Delivered m => saved_hash x = rp_hash m
  | Sent m _ => msngr_send_state s = MSNGR_SEND_PENDING /\ decides e s /\ saved_hash x = msngr_send_message_hash s
  | _ => False
  end.
(** A poll that leaves the state as it is came in time. *)
Definition in_time (e : event) t s : Prop :=
  match e with
  | Poll _ => (msngr_send_state s = MSNGR_SEND_PENDING -> u32 (u32 t - msngr_send_started_ms s) <= 610000) /\
              (msngr_send_state s = MSNGR_SEND_RESOLVING -> u32 (u32 t - msngr_send_resolve_started_ms s) <= MSNGR_SEND_RESOLVE_TIMEOUT_MS)
  | _ => True
  end.
Record same_send s s' : Prop := {
  sa_hash : msngr_send_message_hash s' = msngr_send_message_hash s; sa_method : msngr_send_method s' = msngr_send_method s;
  sa_started : msngr_send_started_ms s' = msngr_send_started_ms s; sa_resolve : msngr_send_resolve_started_ms s' = msngr_send_resolve_started_ms s;
  sa_calls : calls s' = calls s; sa_packed : msngr_send_pending_packed s' = msngr_send_pending_packed s
}.
Definition moves_to (s s' : send) (a b : Z) : Prop := msngr_send_state s = a /\ msngr_send_state s' = b.
(** The state machine. *)
Inductive move (e : event) t s s' : Prop :=
| Stays : same_send s s' -> msngr_send_state s' = msngr_send_state s -> (msngr_send_state s = MSNGR_SEND_PENDING -> ~ decides e s) -> in_time e t s -> move e t s s'
| IsDelivered m : e = Delivered m -> same_send s s' -> decides e s -> moves_to s s' MSNGR_SEND_PENDING MSNGR_SEND_DELIVERED -> move e t s s'
| HasFailed m : e = Failed m -> same_send s s' -> decides e s -> moves_to s s' MSNGR_SEND_PENDING MSNGR_SEND_FAILED -> move e t s s'
| AtNode m i : e = Sent m i -> same_send s s' -> decides e s -> moves_to s s' MSNGR_SEND_PENDING MSNGR_SEND_SENT_TO_NODE -> move e t s s'
| TimesOut v : e = Poll v -> same_send s s' -> moves_to s s' MSNGR_SEND_PENDING MSNGR_SEND_TIMEOUT ->
    MSNGR_SEND_DELIVERY_TIMEOUT_MS < u32 (u32 t - msngr_send_started_ms s) -> move e t s s'
| NotResolved v : e = Poll v -> same_send s s' -> moves_to s s' MSNGR_SEND_RESOLVING MSNGR_SEND_UNRESOLVED -> identity_known v = false -> move e t s s'
| Resolved v : e = Poll v -> moves_to s s' MSNGR_SEND_RESOLVING MSNGR_SEND_PENDING -> identity_known v = true -> msngr_send_started_ms s' = u32 t -> move e t s s'.

Lemma same_refl s : same_send s s.
Proof. now constructor. Qed.
Lemma save_same e s : same_send s (save e s) /\ msngr_send_state (save e s) = msngr_send_state s /\
  exists new, history (save e s) = history s ++ new /\ forall x, In x new -> x = e.
Proof.
  unfold save. destruct (save_message e).
  - split; [now constructor|]. split; [reflexivity|]. exists [e]. split; [reflexivity|]. intros x [<-|[]]. reflexivity.
  - split; [apply same_refl|]. split; [reflexivity|]. exists []. split; [now rewrite app_nil_r|]. intros x [].
Qed.
Lemma save_packed_same h s : let s' := snd (messenger_save_sent_from_packed h s) in
  same_send s s' /\ msngr_send_state s' = msngr_send_state s /\ exists new, history s' = history s ++ new /\ forall x, In x new -> saved_hash x = h.
Proof.
  cbv zeta. unfold messenger_save_sent_from_packed.
  assert (Hs : same_send s s /\ msngr_send_state s = msngr_send_state s /\ exists new, history s = history s ++ new /\ forall x, In x new -> saved_hash x = h).
  { split; [apply same_refl|]. split; [reflexivity|]. exists []. split; [now rewrite app_nil_r|]. intros x []. }
  destruct (_ || _); [exact Hs|]. destruct (unpack_hash _) as [h'|]; [|exact Hs]. destruct (decide (h' = h)) as [->|Hn].
  - rewrite bool_decide_eq_true_2 by reflexivity. cbn [snd]. destruct (save_same (SavedPacked h (msngr_send_pending_packed s)) s) as (H1 & H2 & new & H3 & H4).
    split; [exact H1|]. split; [exact H2|]. exists new. split; [exact H3|]. intros x Hx. now rewrite (H4 x Hx).
  - rewrite bool_decide_eq_false_2 by exact Hn. exact Hs.
Qed.
Lemma same_send_trans s s' s'' : same_send s s' -> same_send s' s'' -> same_send s s''.
Proof. intros [] []. constructor; congruence. Qed.
Lemma followed_spec s m : reflect (msngr_send_state s = MSNGR_SEND_PENDING /\ rp_hash m = msngr_send_message_hash s)
  ((msngr_send_state s =? MSNGR_SEND_PENDING) && bool_decide (rp_hash m = msngr_send_message_hash s)).
Proof.
  destruct (Z.eqb_spec (msngr_send_state s) MSNGR_SEND_PENDING); cbn [andb]; [|constructor; tauto].
  destruct (decide (rp_hash m = msngr_send_message_hash s)).
  - rewrite bool_decide_eq_true_2 by assumption. now constructor.
  - rewrite bool_decide_eq_false_2 by assumption. constructor. tauto.
Qed.
(** The history grows by what the step justifies. *)
Definition grows (e : event) s s' : Prop := exists new, history s' = history s ++ new /\ forall x, In x new -> justifies e s x.
Lemma grows_refl e s s' : history s' = history s -> grows e s s'.
Proof. intros Hh. exists []. split; [now rewrite app_nil_r|]. intros x []. Qed.

Lemma delivered_moves m t s : let s' := messenger_on_delivered m (u32 t) s in move (Delivered m) t s s' /\ grows (Delivered m) s s'.
Proof.
  cbv zeta. unfold messenger_on_delivered. set (s1 := if zlen (rp_destination m) =? 0 then _ else _).
  assert (Hs : same_send s s1 /\ msngr_send_state s1 = msngr_send_state s /\ grows (Delivered m) s s1).
  { unfold s1. destruct (zlen (rp_destination m) =? 0).
    - destruct (save_packed_same (rp_hash m) s) as (H1 & H2 & H3). split; [exact H1|]. split; [exact H2|exact H3].
    - destruct (save_same (SavedReported m) s) as (H1 & H2 & new & H3 & H4). split; [exact H1|]. split; [exact H2|].
      exists new. split; [exact H3|]. intros x Hx. now rewrite (H4 x Hx). }
  clearbody s1. destruct Hs as (Hs & Hst & Hg). set (s2 := s1 <| msngr_send_needs_cache_refresh := true |>).
  assert (H2 : same_send s s2) by (apply (same_send_trans s s1 s2 Hs); now constructor).
  split; [|destruct (_ && _); exact Hg].
  destruct (followed_spec s2 m) as [[Hp Hh]|Hn].
  - change (msngr_send_state s1 = MSNGR_SEND_PENDING) in Hp. rewrite (sa_hash _ _ H2) in Hh. apply (IsDelivered _ _ _ _ m); [reflexivity| |exact Hh|].
    + apply (same_send_trans s s2); [exact H2|now constructor].
    + split; [congruence|reflexivity].
  - apply Stays; [exact H2|exact Hst| |exact I]. intros Hp Hd. apply Hn. split; [now rewrite <- Hst in Hp|]. now rewrite (sa_hash _ _ H2).
Qed.
Lemma failed_moves m t s : let s' := messenger_on_failed m (u32 t) s in move (Failed m) t s s' /\ grows (Failed m) s s'.
Proof.
  cbv zeta. unfold messenger_on_failed. destruct (followed_spec s m) as [[Hp Hh]|Hn].
  - split; [|now apply grows_refl]. apply (HasFailed _ _ _ _ m); [reflexivity|now constructor|exact Hh|]. now split.
  - split; [|now apply grows_refl]. apply Stays; [apply same_refl|reflexivity| |exact I]. intros Hp Hd. now apply Hn.
Qed.
Lemma sent_moves m i t s : let s' := messenger_on_sent m i (u32 t) s in move (Sent m i) t s s' /\ grows (Sent m i) s s'.
Proof.
  cbv zeta. unfold messenger_on_sent. destruct (Z.eqb_spec (msngr_send_method s) PROPAGATED) as [Hm|Hm]; cbn [negb].
  2: { split; [|now apply grows_refl]. apply Stays; [apply same_refl|reflexivity| |exact I]. intros _ [Hd _]. congruence. }
  destruct (followed_spec s m) as [[Hp Hh]|Hn].
  2: { split; [|now apply grows_refl]. apply Stays; [apply same_refl|reflexivity| |exact I]. intros Hp [_ Hd]. now apply Hn. }
  destruct (save_packed_same (rp_hash m) s) as (H1 & H2 & H3). destruct (messenger_save_sent_from_packed (rp_hash m) s) as [b s1]. cbn [snd] in *.
  set (s2 := if b then s1 else _).
  assert (Hj : forall x, saved_hash x = rp_hash m -> justifies (Sent m i) s x) by (intros x Hx; cbn; rewrite Hx; auto).
  assert (Hg1 : grows (Sent m i) s s1) by (destruct H3 as (new & Hn & Hx); exists new; split; [exact Hn|]; intros x Hi; now apply Hj, Hx).
  assert (Hs : same_send s s2 /\ msngr_send_state s2 = msngr_send_state s /\ grows (Sent m i) s s2).
  { unfold s2. destruct b; [auto|]. destruct i; [|auto]. set (x := SavedRebuilt _ _ _). destruct (save_same x s1) as (H4 & H5 & new & H6 & H7).
    split; [now apply (same_send_trans s s1)|]. split; [congruence|]. destruct H3 as (old & H3 & Hold). exists (old ++ new). rewrite H6, H3, <- app_assoc. split; [reflexivity|].
    intros y [Hy|Hy]%in_app_or; apply Hj; [now apply Hold|]. rewrite (H7 y Hy). cbn. rewrite (sa_hash _ _ H1). congruence. }
  clearbody s2. destruct Hs as (Hs & Hst & Hg). split; [|exact Hg]. apply (AtNode _ _ _ _ m i); [reflexivity| |now split|].
  - apply (same_send_trans s s2); [exact Hs|now constructor].
  - split; [exact Hp|reflexivity].
Qed.
Lemma resolved_sends dest content forced app now s s' : messenger_send_lxmf_resolved cts dest content forced app now s = Some s' ->
  msngr_send_state s' = MSNGR_SEND_PENDING /\ msngr_send_started_ms s' = now /\ history s' = history s /\
  exists m p, handle_outbound m now = Some p /\ In (HandleOutbound m) (calls s') /\ lx_to m = dest /\ lx_content m = content /\ lx_audio m = msngr_send_pending_audio s /\
    msngr_send_message_hash s' = pk_hash p /\ msngr_send_method s' = pk_method p /\ msngr_send_pending_packed s' = pk_bytes p.
Proof.
  unfold messenger_send_lxmf_resolved. cbv zeta. set (desired := if negb (forced =? 0) then _ else _). set (s1 := if negb (desired =? PROPAGATED) && _ then _ else _).
  assert (Hs : history s1 = history s /\ msngr_send_pending_audio s1 = msngr_send_pending_audio s).
  { unfold s1. destruct (negb (desired =? PROPAGATED) && _), (desired =? PROPAGATED); auto. }
  clearbody s1. destruct (handle_outbound _ now) as [p|] eqn:Eh; [|discriminate]. intros [= <-]. cbn [msngr_send_state msngr_send_started_ms].
  split; [reflexivity|]. split; [reflexivity|]. split; [apply Hs|]. eexists _, p. split; [exact Eh|]. split; [apply in_or_app; right; now left|].
  split; [reflexivity|]. split; [reflexivity|]. split; [apply Hs|]. auto.
Qed.
Lemma poll_moves v t s s' : messenger_send_process cts conf v (u32 t) s = Some s' -> move (Poll v) t s s' /\ history s' = history s.
Proof.
  unfold messenger_send_process. destruct (Z.eqb_spec (msngr_send_state s) MSNGR_SEND_PENDING) as [Hp|Hp].
  - set (s1 := if 0 <? _ then _ else s). set (s2 := if negb _ then _ else s1). set (s3 := if pending_outbound_front_stamp_pending_for v then _ else s2). cbv zeta.
    assert (Hs : same_send s s3 /\ msngr_send_state s3 = msngr_send_state s /\ history s3 = history s).
    { unfold s3, s2, s1. destruct (0 <? _), (negb _), (pending_outbound_front_stamp_pending_for v); (split; [now constructor|auto]). }
    clearbody s3. destruct Hs as (Hs & Hst & Hh). pose proof (timeout_bounds v s3) as [Hb _]. cbv zeta in Hb.
    destruct (Z.ltb_spec (effective_timeout_ms conf v s3) (u32 (u32 t - msngr_send_started_ms s3))) as [Hlt|Hle]; intros [= <-]; (split; [|exact Hh]).
    + apply (TimesOut _ _ _ _ v); [reflexivity|apply (same_send_trans s s3); [exact Hs|now constructor]|now split|]. rewrite <- (sa_started _ _ Hs). lia.
    + apply Stays; [exact Hs|exact Hst|intros _ []|]. split; [intros _; rewrite <- (sa_started _ _ Hs); lia|]. intros Hr. rewrite Hp in Hr. discriminate.
  - destruct (Z.eqb_spec (msngr_send_state s) MSNGR_SEND_RESOLVING) as [Hr|Hr].
    + destruct (identity_known v) eqn:Ei.
      * intros Hs%resolved_sends. destruct Hs as (H1 & H2 & H3 & _). split; [|exact H3]. apply (Resolved _ _ _ _ v); [reflexivity|now split|exact Ei|exact H2].
      * destruct (Z.ltb_spec MSNGR_SEND_RESOLVE_TIMEOUT_MS (u32 (u32 t - msngr_send_resolve_started_ms s))); intros [= <-]; (split; [|reflexivity]).
        -- apply (NotResolved _ _ _ _ v); [reflexivity|now constructor|now split|exact Ei].
        -- apply Stays; [apply same_refl|reflexivity|intros _ []|]. split; [congruence|auto].
    + intros [= <-]. split; [|reflexivity]. apply Stays; [apply same_refl|reflexivity|congruence|]. split; congruence.
Qed.
(** Every step is a move of the state machine. *)
Lemma steps_move e t s s' : step cts conf e t s = Some s' -> move e t s s' /\ grows e s s'.
Proof.
  destruct e as [v|m|m|m i]; cbn [step].
  - intros Hs%poll_moves. split; [apply Hs|now apply grows_refl].
  - intros [= <-]. apply delivered_moves.
  - intros [= <-]. apply failed_moves.
  - intros [= <-]. apply sent_moves.
Qed.

(** ** The outcome is true *)

Lemma run_app tr1 tr2 s : run cts conf (tr1 ++ tr2) s = match run cts conf tr1 s with Some s1 => run cts conf tr2 s1 | None => None end.
Proof. revert s. induction tr1 as [|[t e] tr1 IH]; intros s; [reflexivity|]. cbn. destruct (step cts conf e t s); [apply IH|reflexivity]. Qed.

(** A history entry that is confirmed after the events [tr]: a message reported as
    delivered, or the followed message once it shows as handed to the node - a propagated
    one whose hand-over the router reported. *)
Definition confirmed (tr : list (Z * event)) s (x : saved) : Prop :=
  (exists t m, In (t, Delivered m) tr /\ saved_hash x = rp_hash m) \/
  msngr_send_state s = MSNGR_SEND_SENT_TO_NODE /\ msngr_send_method s = PROPAGATED /\
    saved_hash x = msngr_send_message_hash s /\ exists t m i, In (t, Sent m i) tr /\ rp_hash m = saved_hash x.
(** What the screen and the history show after the events [tr], from the start [s0]. *)
Record outcome_true s0 (tr : list (Z * event)) s : Prop := {
  ot_delivered : msngr_send_state s = MSNGR_SEND_DELIVERED -> exists t m, In (t, Delivered m) tr /\ rp_hash m = msngr_send_message_hash s;
  ot_failed : msngr_send_state s = MSNGR_SEND_FAILED -> exists t m, In (t, Failed m) tr /\ rp_hash m = msngr_send_message_hash s;
  ot_node : msngr_send_state s = MSNGR_SEND_SENT_TO_NODE ->
    msngr_send_method s = PROPAGATED /\ exists t m i, In (t, Sent m i) tr /\ rp_hash m = msngr_send_message_hash s;
  ot_timeout : msngr_send_state s = MSNGR_SEND_TIMEOUT ->
    exists t v, In (t, Poll v) tr /\ MSNGR_SEND_DELIVERY_TIMEOUT_MS < u32 (u32 t - msngr_send_started_ms s);
  ot_unresolved : msngr_send_state s = MSNGR_SEND_UNRESOLVED -> calls s = calls s0;
  ot_waiting : msngr_send_state s0 = MSNGR_SEND_PENDING -> msngr_send_message_hash s = msngr_send_message_hash s0 /\
    (msngr_send_state s = MSNGR_SEND_PENDING -> forall t e, In (t, e) tr -> ~ decides e s0);
  ot_history : exists new, history s = history s0 ++ new /\ forall x, In x new -> confirmed tr s x;
  ot_state : In (msngr_send_state s) [MSNGR_SEND_PENDING; MSNGR_SEND_DELIVERED; MSNGR_SEND_TIMEOUT; MSNGR_SEND_RESOLVING; MSNGR_SEND_UNRESOLVED;
    MSNGR_SEND_FAILED; MSNGR_SEND_SENT_TO_NODE]
}.
(** What the induction carries. *)
Record follows s0 tr s : Prop := {
  fo_true : outcome_true s0 tr s;
  fo_resolving : msngr_send_state s = MSNGR_SEND_RESOLVING -> calls s = calls s0;
  fo_method : msngr_send_state s0 = MSNGR_SEND_PENDING -> msngr_send_method s = msngr_send_method s0 /\ msngr_send_state s <> MSNGR_SEND_RESOLVING
}.
Lemma confirmed_step tr e t s s' x : move e t s s' -> confirmed tr s x \/ justifies e s x -> confirmed (tr ++ [(t, e)]) s' x.
Proof.
  intros Hm [[(t' & m & Hi & Hx)|(Hn & Hp & Hx & t' & m & i & Hi & Hr)]|Hj].
  - left. exists t', m. split; [apply in_or_app; now left|exact Hx].
  - destruct Hm as [[E1 E2 _ _ _ _] Hst _ _|m' _ _ _ [Hs _]|m' _ _ _ [Hs _]|m' i' _ _ _ [Hs _]|v _ _ [Hs _] _|v _ _ [Hs _] _|v _ [Hs _] _ _];
      try (rewrite Hs in Hn; discriminate Hn).
    right. rewrite Hst, E1, E2. split_and!; auto. exists t', m, i. split; [apply in_or_app; now left|exact Hr].
  - destruct e as [v|m|m|m i]; [destruct Hj| |destruct Hj|].
    + left. exists t, m. split; [apply in_or_app; right; now left|exact Hj].
    + destruct Hj as (Hq & Hd & Hx). destruct Hm as [_ _ Hnd _|m' [=] _ _ _|m' [=] _ _ _|m' i' _ [E1 E2 _ _ _ _] _ [_ Hs]|v [=] _ _ _|v [=] _ _ _|v [=] _ _ _];
        [now destruct (Hnd Hq)|].
      destruct Hd as [Hd1 Hd2]. right. rewrite Hs, E1, E2. split_and!; auto. exists t, m, i. split; [apply in_or_app; right; now left|congruence].
Qed.
Lemma follows_step s0 tr e t s s' : follows s0 tr s -> step cts conf e t s = Some s' -> follows s0 (tr ++ [(t, e)]) s'.
Proof.
  intros [[O1 O2 O3 O4 O5 O6 O7 O8] F1 F2] Hs. destruct (steps_move _ _ _ _ Hs) as [Hm (new & Hn & Hj)].
  assert (Hin : forall x, In x tr -> In x (tr ++ [(t, e)])) by (intros x Hx; apply in_or_app; now left).
  assert (Hlast : In (t, e) (tr ++ [(t, e)])) by (apply in_or_app; right; now left).
  assert (Hh : exists new, history s' = history s0 ++ new /\ forall x, In x new -> confirmed (tr ++ [(t, e)]) s' x).
  { destruct O7 as (old & Ho & Hjo). exists (old ++ new). rewrite Hn, Ho, <- app_assoc. split; [reflexivity|].
    intros x [Hx|Hx]%in_app_or; apply (confirmed_step _ _ _ s s'); auto. }
  destruct Hm as [Hsa Hst Hd _|m -> Hsa Hd [Hp Hp']|m -> Hsa Hd [Hp Hp']|m i -> Hsa Hd [Hp Hp']|v -> Hsa [Hp Hp'] Hlt|v -> Hsa [Hp Hp'] _|v -> [Hp Hp'] _ _].
  1: { destruct Hsa as [E1 E2 E3 _ E5 _]. constructor; [constructor|..]; rewrite ?Hst, ?E1, ?E2, ?E3, ?E5; try assumption.
    - intros Hq. destruct (O1 Hq) as (t' & m & Hi & Hm). eauto.
    - intros Hq. destruct (O2 Hq) as (t' & m & Hi & Hm). eauto.
    - intros Hq. destruct (O3 Hq) as (Hme & t' & m & i & Hi & Hm). eauto 8.
    - intros Hq. destruct (O4 Hq) as (t' & v & Hi & Hm). eauto.
    - intros Hq. destruct (O6 Hq) as [Ha Hb]. split; [exact Ha|]. intros Hp t' e' [Hi|[[= <- <-]|[]]]%in_app_or; [now apply (Hb Hp t')|].
      intros Hd'. apply (Hd Hp). destruct e; cbn in *; rewrite ?Ha, ?(proj1 (F2 Hq)); exact Hd'. }
  all: constructor; [constructor|..]; rewrite ?Hp'; try discriminate; try exact Hh; try (cbn; tauto).
  all: try (destruct Hsa as [E1 E2 E3 _ E5 _]; rewrite ?E1, ?E2, ?E3, ?E5).
  all: try (intros Hq; exfalso; now apply (proj2 (F2 Hq))).
  all: try (intros Hq; split; [apply (O6 Hq)|discriminate]).
  all: try (intros Hq; split; [apply (F2 Hq)|discriminate]).
  - intros _. eauto.
  - intros _. eauto.
  - intros _. destruct Hd as [Hme Hh']. eauto 10.
  - intros _. eauto.
  - intros _. now apply F1.
Qed.
Lemma follows_run s0 tr s' : msngr_send_state s0 = MSNGR_SEND_PENDING \/ msngr_send_state s0 = MSNGR_SEND_RESOLVING ->
  run cts conf tr s0 = Some s' -> follows s0 tr s'.
Proof.
  intros H0. revert s'. induction tr as [|[t e] tr IH] using rev_ind; intros s'.
  - cbn. intros [= <-]. constructor; [constructor|..]; try (destruct H0 as [H0|H0]; rewrite H0; discriminate).
    + intros _. split; [reflexivity|]. intros _ t e [].
    + exists []. split; [now rewrite app_nil_r|]. intros x [].
    + destruct H0 as [-> | ->]; cbn; tauto.
    + reflexivity.
    + intros Hq. split; [reflexivity|]. rewrite Hq. discriminate.
  - rewrite run_app. destruct (run cts conf tr s0) as [s|] eqn:Er; [|discriminate]. cbn.
    destruct (step cts conf e t s) as [s1|] eqn:Es; [|discriminate]. intros [= <-]. exact (follows_step _ _ _ _ _ _ (IH s eq_refl) Es).
Qed.
Lemma send_ready dest content forced keep v now s r s0 : messenger_send_lxmf cts dest content forced keep true v now s = Some (r, s0) ->
  r = URNS_LXMF_SEND_OK /\ msngr_send_state s0 = MSNGR_SEND_PENDING /\ msngr_send_started_ms s0 = now \/
  r = URNS_LXMF_SEND_RESOLVING /\ msngr_send_state s0 = MSNGR_SEND_RESOLVING /\ msngr_send_resolve_started_ms s0 = now.
Proof.
  unfold messenger_send_lxmf. cbn [negb]. cbv zeta. set (s1 := (if keep then _ else _) <| msngr_send_pending_content := _ |> <| msngr_send_pending_forced_method := _ |>).
  destruct (identity_known v); cbn [negb]; [|intros [= <- <-]; auto].
  destruct (messenger_send_lxmf_resolved _ _ _ _ _ _ _) as [s2|] eqn:Er; [|discriminate]. intros [= <- <-]. apply resolved_sends in Er as (H1 & H2 & _). auto.
Qed.

(** C19. What the messenger shows of a send is true.  After a send of a device that is ready,
    whatever the router reports and however often it is polled: the message shows as
    delivered only after a report of its own delivery, as failed only after its own
    failure, as handed to the node only for a propagated message the node confirmed, and
    without confirmation only when a poll came more than a minute after the hand-over; a
    destination is unknown only when nothing was handed to the router.  While a message
    handed over shows as pending, no report that decides it has come.  And the history
    grows by confirmed messages alone: each new entry is a message whose delivery was
    reported, or - only for a propagated message that shows as handed to the node - the
    message that was followed. *)
(* @prop safety W=send_outcome_true_witness D=messenger_send_lxmf,messenger_send_process,messenger_on_delivered,messenger_on_failed,messenger_on_sent,messenger_save_sent_from_packed *)
Theorem send_outcome_true dest content forced keep v t0 s r s0 tr s' :
  messenger_send_lxmf cts dest content forced keep true v (u32 t0) s = Some (r, s0) ->
  run cts conf tr s0 = Some s' -> outcome_true s0 tr s'.
Proof.
  intros Hs Hrun. apply send_ready in Hs as [(_ & Hs & _)|(_ & Hs & _)]; now apply (follows_run s0 tr s'); auto.
Qed.

(** ** Every send ends *)

(** What holds while a send that began at [t0] waits, the last poll at [p]. *)
Definition waits (G t0 p : Z) s : Prop :=
  (msngr_send_state s = MSNGR_SEND_RESOLVING -> msngr_send_resolve_started_ms s = u32 t0 /\ p - t0 <= MSNGR_SEND_RESOLVE_TIMEOUT_MS) /\
  (msngr_send_state s = MSNGR_SEND_PENDING ->
    exists ts, msngr_send_started_ms s = u32 ts /\ t0 <= ts <= t0 + MSNGR_SEND_RESOLVE_TIMEOUT_MS + G /\ ts <= p /\ p - ts <= 610000).
Lemma waits_step G t0 p e t s s' : 0 <= G <= 1000000 -> t0 <= p -> p <= t <= p + G -> waits G t0 p s -> step cts conf e t s = Some s' ->
  waits G t0 (if is_poll e then t else p) s'.
Proof.
  intros HG H0 Ht [Hr Hp] Hs. destruct (steps_move _ _ _ _ Hs) as [Hm _]. unfold MSNGR_SEND_RESOLVE_TIMEOUT_MS in *.
  destruct Hm as [Hsa Hst _ Hi|m -> _ _ [_ Hs']|m -> _ _ [_ Hs']|m i -> _ _ [_ Hs']|v -> _ [_ Hs'] _|v -> _ [_ Hs'] _|v -> [Hq Hs'] _ Hst].
  - unfold waits. rewrite Hst, (sa_resolve _ _ Hsa), (sa_started _ _ Hsa). destruct e as [v|m|m|m i]; cbn [is_poll]; try (split; assumption). destruct Hi as [Hi1 Hi2].
    split; intros Hq.
    + destruct (Hr Hq) as [E1 E2]. split; [exact E1|]. specialize (Hi2 Hq). rewrite E1, u32_elapsed in Hi2 by lia. unfold MSNGR_SEND_RESOLVE_TIMEOUT_MS in Hi2. exact Hi2.
    + destruct (Hp Hq) as (ts & E1 & E2 & E3 & E4). exists ts. specialize (Hi1 Hq). rewrite E1, u32_elapsed in Hi1 by lia. split; [exact E1|]. unfold MSNGR_SEND_RESOLVE_TIMEOUT_MS. lia.
  - split; rewrite Hs'; discriminate.
  - split; rewrite Hs'; discriminate.
  - split; rewrite Hs'; discriminate.
  - split; rewrite Hs'; discriminate.
  - split; rewrite Hs'; discriminate.
  - cbn [is_poll]. split; rewrite Hs'; [discriminate|]. intros _. exists t. destruct (Hr Hq). unfold MSNGR_SEND_RESOLVE_TIMEOUT_MS in *. split; [exact Hst|]. lia.
Qed.
Hypothesis Hcost : forall dest, resolve_outbound_stamp_cost dest <= MAX_AUTO_OUTBOUND_STAMP_COST.
Lemma handed_over m now : handle_outbound m now = Some (pack now m).
Proof. unfold handle_outbound. rewrite (proj2 (Z.ltb_ge _ _)) by apply Hcost. now rewrite andb_false_r. Qed.
Lemma step_returns e t s : exists s', step cts conf e t s = Some s'.
Proof.
  destruct e as [v|m|m|m i]; cbn [step]; eauto. unfold messenger_send_process. destruct (_ =? _); [eauto|]. destruct (_ =? _); [|eauto].
  destruct (identity_known v); [|eauto]. unfold messenger_send_lxmf_resolved. cbv zeta. rewrite handed_over. eauto.
Qed.
Lemma waits_run G t0 p tr s : 0 <= G <= 1000000 -> t0 <= p -> polled is_poll G p tr -> waits G t0 p s ->
  exists s', run cts conf tr s = Some s' /\ waits G t0 (last_poll is_poll p tr) s'.
Proof.
  intros HG. revert p s. induction tr as [|[t e] tr IH]; intros p s H0 Hp Hw; cbn [run last_poll polled] in *; [eauto|].
  destruct (step_returns e t s) as [s1 Es]. rewrite Es. destruct Hp as [Ht Hp].
  apply IH; [destruct (is_poll e); lia|exact Hp|]. exact (waits_step _ _ _ _ _ _ _ HG H0 Ht Hw Es).
Qed.

(** C20. Every send ends.  With the settings in the ranges of the menu and peers whose
    stamps the router will mine, whatever the router answers and reports, polls that come
    at most [G] milliseconds apart never fail, and the one that comes more than 625 seconds
    and [G] after the send - 15 for the destination, 310 for all retries at their longest
    delay, twice 150 for stamps - finds it neither resolving nor pending. *)
(* @prop liveness W=send_concludes_witness D=messenger_send_lxmf,messenger_send_process,effective_timeout_ms,messenger_send_lxmf_resolved *)
Theorem send_concludes G dest content forced keep v t0 s tr : 0 <= G <= 1000000 ->
  polled is_poll G t0 tr -> t0 + 625000 + G < last_poll is_poll t0 tr ->
  exists r s0 s', messenger_send_lxmf cts dest content forced keep true v (u32 t0) s = Some (r, s0) /\ run cts conf tr s0 = Some s' /\
    msngr_send_state s' <> MSNGR_SEND_PENDING /\ msngr_send_state s' <> MSNGR_SEND_RESOLVING.
Proof.
  intros HG Hp Hl. destruct (messenger_send_lxmf cts dest content forced keep true v (u32 t0) s) as [[r s0]|] eqn:Es.
  2: { unfold messenger_send_lxmf, messenger_send_lxmf_resolved in Es. cbn [negb] in Es. cbv zeta in Es. rewrite handed_over in Es. now destruct (negb (identity_known v)). }
  assert (Hw : waits G t0 t0 s0).
  { destruct (send_ready _ _ _ _ _ _ _ _ _ Es) as [(_ & H1 & H2)|(_ & H1 & H2)]; split; rewrite H1; try discriminate; intros _.
    - exists t0. unfold MSNGR_SEND_RESOLVE_TIMEOUT_MS. split; [exact H2|]. lia.
    - unfold MSNGR_SEND_RESOLVE_TIMEOUT_MS. split; [exact H2|]. lia. }
  destruct (waits_run G t0 t0 tr s0 HG ltac:(lia) Hp Hw) as (s' & Er & H1 & H2). exists r, s0, s'. split; [reflexivity|]. split; [exact Er|].
  unfold MSNGR_SEND_RESOLVE_TIMEOUT_MS in *. split; intros Hq.
  - destruct (H2 Hq) as (ts & _ & ? & ? & ?). lia.
  - destruct (H1 Hq). lia.
Qed.
End Moves.

(** ** Witnesses *)

(** Libraries for the examples: the hash is the content, and one peer wants too much. *)
#[local] Instance plain_lxmf : Lxmf := {
  pack _ m := mk_packed (lx_content m) (lx_method m) (1 :: lx_content m);
  unpack_hash b := match b with _ :: h => Some h | [] => None end;
  resolve_outbound_stamp_cost _ := 0;
  save_message _ := true
}.
Definition costly_lxmf : Lxmf := {| pack := pack; unpack_hash := unpack_hash; resolve_outbound_stamp_cost _ := 20; save_message _ := true |}.
Definition nobody : contacts := contacts0 [] [] false.
Definition quiet (known : bool) : view := mk_view (-1) GENERATING 0 false known false.
Definition peer7 : list Z := repeat 7 16.
Definition placeholder (h : list Z) : reported := mk_reported h [] [].
Lemma default_settings_ok : settings_ok default_msettings.
Proof. constructor; repeat split; vm_compute; (discriminate || reflexivity). Qed.

(** A text to an unknown peer: resolved at the first poll, confirmed after five seconds,
    kept as it was sent. *)
Definition talk : list (Z * event) :=
  [(100, Poll (quiet true)); (150, Failed (placeholder (chars "other"))); (5000, Delivered (placeholder (chars "Hello")))].
Lemma send_outcome_true_witness :
  exists s', run nobody default_msettings talk
    (match messenger_send_lxmf nobody peer7 (chars "Hello") 0 false true (quiet false) (u32 0) send0 with Some (_, s) => s | None => send0 end) = Some s' /\
    msngr_send_state s' = MSNGR_SEND_DELIVERED /\ history s' = [SavedPacked (chars "Hello") (1 :: chars "Hello")] /\
    exists t m, In (t, Delivered m) talk /\ rp_hash m = msngr_send_message_hash s'.
Proof.
  destruct (messenger_send_lxmf nobody peer7 (chars "Hello") 0 false true (quiet false) (u32 0) send0) as [[r s0]|] eqn:Es; [|discriminate Es].
  pose proof Es as Es'. vm_compute in Es'. injection Es' as Er <-. match goal with |- context [run _ _ _ ?s] => set (s1 := s) in * end.
  destruct (run nobody default_msettings talk s1) as [s'|] eqn:Erun; [|discriminate Erun].
  exists s'. split; [reflexivity|].
  pose proof (ot_delivered _ _ _ (send_outcome_true nobody default_msettings default_settings_ok peer7 (chars "Hello") 0 false (quiet false) 0 send0 r s1 talk s' Es Erun)) as P.
  vm_compute in Erun. injection Erun as <-. split; [reflexivity|]. split; [reflexivity|]. apply P. reflexivity.
Defined.
(** Nobody answers: polled every ten seconds, the send is over after eleven minutes. *)
Definition silence : list (Z * event) := map (fun k => (Z.of_nat k * 10000, Poll (quiet false))) (seq 1 64).
Lemma cheap dest : resolve_outbound_stamp_cost dest <= MAX_AUTO_OUTBOUND_STAMP_COST.
Proof. vm_compute. discriminate. Qed.
Lemma send_concludes_witness : exists r s0 s',
  messenger_send_lxmf nobody peer7 (chars "Hello") 0 false true (quiet true) (u32 0) send0 = Some (r, s0) /\ run nobody default_msettings silence s0 = Some s' /\
  msngr_send_state s' <> MSNGR_SEND_PENDING.
Proof.
  destruct (send_concludes nobody default_msettings default_settings_ok cheap 10000 peer7 (chars "Hello") 0 false (quiet true) 0 send0 silence)
    as (r & s0 & s' & H1 & H2 & H3 & _).
  - lia.
  - vm_compute. repeat split; discriminate.
  - vm_compute. reflexivity.
  - eauto 6.
Defined.

(** A peer that announces a high stamp cost ends the program of whoever writes to it. *)
Example stamp_cost_throws : @messenger_send_lxmf costly_lxmf nobody peer7 (chars "Hello") 0 false true (quiet true) 0 send0 = None.
Proof. reflexivity. Qed.
(** A message of a hundred letters of two bytes goes out whole to a known peer, and is cut
    in the middle when the destination has to be resolved first. *)
Example resolving_cuts_message :
  let text := msngr_kb_expand_utf8 (repeat 0x97 100) 281 in
  let content known :=
    match messenger_send_lxmf nobody peer7 text 0 false true (quiet known) 0 send0 with
    | Some (_, s) => match run nobody default_msettings [(100, Poll (quiet true))] s with
                     | Some s => option_map (fun c => match c with HandleOutbound m => zlen (lx_content m) | _ => 0 end) (last (calls s))
                     | None => None
                     end
    | None => None
    end in
  content true = Some 200 /\ content false = Some 140.
Proof. vm_compute. split; reflexivity. Qed.
