(* ===== verification/SendScreen.v ===== *)
(** * Around a send: the result screen, the ping and the sync (Messenger.h, Menu.h, URNS.h)

    The screen that shows what a send came to and offers to retry it, the watcher that
    reports a send made in the chat, the ping of a peer over a link, and the periodic fetch
    of messages from the propagation node. *)
From Stdlib Require Import String.
From S2P Require Import Prelude Boards Controls Keyboard Contacts MsngrConf Send.
From stdpp Require Import list.
#[local] Open Scope Z_scope.

(* @src Menu.h:309-309 MENU_STATE_MSNGR_PING_RESULT *)
Definition MENU_STATE_MSNGR_PING_RESULT : Z := 43.
(* @src Menu.h:338-338 MENU_STATE_MSNGR_CHAT *)
Definition MENU_STATE_MSNGR_CHAT : Z := 66.
(* @src Menu.h:2227-2227 ACTION_POPUP_MS *)
Definition ACTION_POPUP_MS : Z := 5000.
(* @src URNS.h:377-384 urns_lxmf_send_result_text *)
Definition urns_lxmf_send_result_text (result : Z) : list Z :=
  if result =? URNS_LXMF_SEND_OK then chars "SENT" else if result =? URNS_LXMF_SEND_NOT_READY then chars "NOT READY"
  else if result =? URNS_LXMF_SEND_RESOLVING then chars "RESOLVING" else chars "ERROR".

(** ** The screens *)

(** The screen that is open, the popup over it with the screen it returns to and the time
    it goes by itself, whether a send of the chat is watched, the rows of the result
    screen, and how often the list of the peer's messages was read again. *)
(* @src Menu.h:2609-2616 msngr_send_result_cursor *)
Record screens := mk_screens {
  sc_menu_state : Z; menu_popup_return_state : Z; menu_popup_text : list Z; menu_popup_auto_dismiss_at : Z;
  msngr_chat_watching_send : bool; msngr_send_result_cursor : Z; msngr_send_result_last_row_count : Z; cache_refreshes : Z
}.
Definition screens0 (state : Z) : screens := mk_screens state 0 [] 0 false 1 2 0.

Section Screens.
Context `{Lxmf} (cts : contacts).
Implicit Types (u : screens) (s : send) (now : Z) (queue_busy : bool).

(* @src Menu.h:2200-2216 menu_open_popup *)
Definition menu_open_popup (text : list Z) (return_state : Z) u : screens :=
  u <| menu_popup_return_state := return_state |> <| sc_menu_state := MENU_STATE_STATUS_POPUP |> <| menu_popup_auto_dismiss_at := 0 |>
    <| menu_popup_text := text |>.
(* @src Menu.h:2622-2626 msngr_send_result_failed *)
Definition msngr_send_result_failed s : bool :=
  (msngr_send_state s =? MSNGR_SEND_TIMEOUT) || (msngr_send_state s =? MSNGR_SEND_UNRESOLVED) || (msngr_send_state s =? MSNGR_SEND_FAILED).
(** [queue_busy]: the router has something to send ([msngr_send_result_queue_busy]). *)
(* @src Menu.h:2651-2654 msngr_send_result_row_count *)
Definition msngr_send_result_row_count queue_busy s : Z :=
  if negb (msngr_send_result_failed s) then 2 else if queue_busy then 2 else 4.
(* @src Menu.h:2911-2957 msngr_send_result_process *)
Definition msngr_send_result_process queue_busy now (us : screens * send) : screens * send :=
  let '(u, s) := us in
  let '(u, s) := if msngr_send_needs_cache_refresh s
                 then (u <| cache_refreshes ::= Z.succ |>, s <| msngr_send_needs_cache_refresh := false |>) else (u, s) in
  let row_count := msngr_send_result_row_count queue_busy s in
  let u := if negb (row_count =? msngr_send_result_last_row_count u)
           then u <| msngr_send_result_cursor := u8 (row_count - 1) |> <| msngr_send_result_last_row_count := row_count |> else u in
  if ((msngr_send_state s =? MSNGR_SEND_DELIVERED) || (msngr_send_state s =? MSNGR_SEND_SENT_TO_NODE)) &&
     (sc_menu_state u =? MENU_STATE_MSNGR_SEND_RESULT) && (MSNGR_SEND_RESULT_POPUP_MS <? u32 (now - msngr_send_result_at_ms s))
  then (u <| sc_menu_state := MENU_STATE_MSNGR_PEER |>, s <| msngr_send_state := MSNGR_SEND_IDLE |>) else (u, s).
(** A press on the result screen; a retry that throws is [None]. *)
(* @src Menu.h:7675-7705 menu_confirm_select *)
Definition send_result_confirm queue_busy (ready : bool) (v : view) now (us : screens * send) : option (screens * send) :=
  let '(u, s) := us in
  let actionable := msngr_send_result_failed s && negb queue_busy in
  let back_row := u8 (msngr_send_result_row_count queue_busy s - 1) in
  let retry method := option_map (fun '(_, s) => (u, s))
    (messenger_send_lxmf cts (msngr_send_pending_dest_hash s) (msngr_send_pending_content s) method true ready v now s) in
  if actionable && (msngr_send_result_cursor u =? 1) then retry 0
  else if actionable && (msngr_send_result_cursor u =? 2) then retry PROPAGATED
  else if msngr_send_result_cursor u =? back_row
  then Some (u <| sc_menu_state := MENU_STATE_MSNGR_PEER |>, s <| msngr_send_state := MSNGR_SEND_IDLE |>)
  else Some us.
(* @src Menu.h:2881-2899 msngr_chat_send_watch_process *)
Definition msngr_chat_send_watch_process now (us : screens * send) : screens * send :=
  let '(u, s) := us in
  if negb (msngr_chat_watching_send u) then us
  else
    let st := msngr_send_state s in
    if negb ((st =? MSNGR_SEND_DELIVERED) || (st =? MSNGR_SEND_TIMEOUT) || (st =? MSNGR_SEND_UNRESOLVED) || (st =? MSNGR_SEND_FAILED)) then us
    else
      let u := u <| msngr_chat_watching_send := false |> in
      let text := if st =? MSNGR_SEND_DELIVERED then chars "DELIVERED" else if st =? MSNGR_SEND_TIMEOUT then chars "NO CONFIRMATION"
                  else if st =? MSNGR_SEND_UNRESOLVED then chars "UNKNOWN DESTINATION" else chars "DELIVERY FAILED" in
      let s := s <| msngr_send_state := MSNGR_SEND_IDLE |> in
      let still_in_chat_flow := (sc_menu_state u =? MENU_STATE_MSNGR_CHAT) ||
        ((sc_menu_state u =? MENU_STATE_STATUS_POPUP) && (menu_popup_return_state u =? MENU_STATE_MSNGR_CHAT)) in
      if still_in_chat_flow
      then ((menu_open_popup text MENU_STATE_MSNGR_CHAT u) <| menu_popup_auto_dismiss_at := u32 (now + ACTION_POPUP_MS) |>, s) else (u, s).

(** A retry is offered exactly when the send has failed and the router is done with it, and
    then the cursor stands on BACK: the row that turns into Retry is never under it. *)
Lemma rows_change_on_back queue_busy now u s : msngr_send_result_row_count queue_busy s <> msngr_send_result_last_row_count u ->
  let '(u', s') := msngr_send_result_process queue_busy now (u, s) in
  msngr_send_result_cursor u' = msngr_send_result_row_count queue_busy s - 1 /\ msngr_send_result_last_row_count u' = msngr_send_result_row_count queue_busy s.
Proof.
  intros Hn. unfold msngr_send_result_process.
  assert (Hs : forall b, msngr_send_result_row_count queue_busy (if b : bool then s <| msngr_send_needs_cache_refresh := false |> else s) = msngr_send_result_row_count queue_busy s)
    by now intros [].
  assert (Hr : is_u8 (msngr_send_result_row_count queue_busy s - 1)).
  { unfold msngr_send_result_row_count. destruct (negb _), queue_busy; unfold is_u8; lia. }
  destruct (msngr_send_needs_cache_refresh s).
  - specialize (Hs true). cbn iota in Hs. cbv zeta. rewrite Hs. change (msngr_send_result_last_row_count (u <| cache_refreshes ::= Z.succ |>)) with (msngr_send_result_last_row_count u).
    rewrite (proj2 (Z.eqb_neq _ _) Hn). cbn [negb]. destruct (_ && _ && _); cbn; now rewrite u8_id.
  - cbv zeta. rewrite (proj2 (Z.eqb_neq _ _) Hn). cbn [negb]. destruct (_ && _ && _); cbn; now rewrite u8_id.
Qed.
End Screens.

(** ** Ping *)

(* @src Messenger.h:1948-1959 MSNGR_PING_IDLE *)
Definition MSNGR_PING_IDLE : Z := 0.
Definition MSNGR_PING_RESOLVING : Z := 1.
Definition MSNGR_PING_ESTABLISHING : Z := 2.
Definition MSNGR_PING_SUCCESS : Z := 3.
Definition MSNGR_PING_TIMEOUT : Z := 4.
Definition MSNGR_PING_NO_IDENTITY : Z := 5.
Definition MSNGR_PING_FAILED : Z := 6.
(* @src Messenger.h:1968-1969 MSNGR_PING_PATH_TIMEOUT_MS *)
Definition MSNGR_PING_PATH_TIMEOUT_MS : Z := 10000.
Definition MSNGR_PING_LINK_TIMEOUT_MS : Z := 20000.

(** The link is the one opened last, if it is still held; what was asked of the network is
    logged. *)
Inductive ping_call := AskPath (hash : list Z) | OpenLink (hash : list Z) (propagation : bool) | Teardown.
(* @src Messenger.h:1971-1987 msngr_ping_link *)
Record ping := mk_ping {
  msngr_ping_link : bool; msngr_ping_target_hash : list Z; msngr_ping_target_is_prop : bool; msngr_ping_state : Z; msngr_ping_rtt : Z;
  msngr_ping_phase_started_ms : Z; msngr_ping_result_at_ms : Z; msngr_ping_teardown_pending : bool; ping_calls : list ping_call
}.
Definition ping0 : ping := mk_ping false [] false MSNGR_PING_IDLE 0 0 0 false [].

Section Ping.
Implicit Types (p : ping) (now : Z) (recall has_path : bool).
Definition ask (c : ping_call) p : ping := p <| ping_calls ::= fun l => l ++ [c] |>.
Definition teardown_link p : ping := if msngr_ping_link p then ask Teardown p else p.

(* @src Messenger.h:2005-2010 msngr_ping_link_established *)
Definition msngr_ping_link_established (rtt now : Z) p : ping :=
  p <| msngr_ping_rtt := rtt |> <| msngr_ping_state := MSNGR_PING_SUCCESS |> <| msngr_ping_result_at_ms := now |>
    <| msngr_ping_teardown_pending := true |>.
(* @src Messenger.h:2012-2019 msngr_ping_link_closed *)
Definition msngr_ping_link_closed p : ping :=
  if msngr_ping_state p =? MSNGR_PING_ESTABLISHING then p <| msngr_ping_state := MSNGR_PING_FAILED |> else p.
(* @src Messenger.h:2021-2031 messenger_ping_issue_link *)
Definition messenger_ping_issue_link recall now p : ping :=
  if negb recall then p <| msngr_ping_state := MSNGR_PING_NO_IDENTITY |>
  else (ask (OpenLink (msngr_ping_target_hash p) (msngr_ping_target_is_prop p)) p) <| msngr_ping_link := true |>
         <| msngr_ping_state := MSNGR_PING_ESTABLISHING |> <| msngr_ping_phase_started_ms := now |>.
(* @src Messenger.h:2053-2072 messenger_ping_start *)
Definition messenger_ping_start (dest_hash : list Z) (is_prop urns_ready : bool) recall has_path now p : ping :=
  let p := p <| msngr_ping_target_hash := dest_hash |> <| msngr_ping_target_is_prop := is_prop |> <| msngr_ping_rtt := 0 |>
             <| msngr_ping_teardown_pending := false |> <| msngr_ping_link := false |> in
  if negb urns_ready then p <| msngr_ping_state := MSNGR_PING_NO_IDENTITY |>
  else if recall && has_path then messenger_ping_issue_link recall now p
  else (ask (AskPath dest_hash) p) <| msngr_ping_state := MSNGR_PING_RESOLVING |> <| msngr_ping_phase_started_ms := now |>.
(** Tearing the link down runs the callback for its end. *)
(* @src Messenger.h:2079-2085 messenger_ping_cancel *)
Definition messenger_ping_cancel p : ping :=
  let p := if (msngr_ping_state p =? MSNGR_PING_RESOLVING) || (msngr_ping_state p =? MSNGR_PING_ESTABLISHING)
           then (if msngr_ping_link p then msngr_ping_link_closed (teardown_link p) else p) else p in
  p <| msngr_ping_teardown_pending := false |> <| msngr_ping_state := MSNGR_PING_IDLE |>.
(* @src Messenger.h:2092-2116 messenger_ping_process *)
Definition messenger_ping_process recall now p : ping :=
  let p := if msngr_ping_teardown_pending p
           then let p := p <| msngr_ping_teardown_pending := false |> in if msngr_ping_link p then msngr_ping_link_closed (teardown_link p) else p
           else p in
  if msngr_ping_state p =? MSNGR_PING_RESOLVING then
    if recall then messenger_ping_issue_link recall now p
    else if MSNGR_PING_PATH_TIMEOUT_MS <? u32 (now - msngr_ping_phase_started_ms p) then p <| msngr_ping_state := MSNGR_PING_TIMEOUT |> else p
  else if msngr_ping_state p =? MSNGR_PING_ESTABLISHING then
    if MSNGR_PING_LINK_TIMEOUT_MS <? u32 (now - msngr_ping_phase_started_ms p)
    then let p := p <| msngr_ping_state := MSNGR_PING_TIMEOUT |> in if msngr_ping_link p then msngr_ping_link_closed (teardown_link p) else p
    else p
  else p.
(* @src Menu.h:2965-2977 msngr_ping_result_process *)
Definition msngr_ping_result_process now (up : screens * ping) : screens * ping :=
  let '(u, p) := up in
  if (msngr_ping_state p =? MSNGR_PING_SUCCESS) && (sc_menu_state u =? MENU_STATE_MSNGR_PING_RESULT) &&
     (MSNGR_SEND_RESULT_POPUP_MS <? u32 (now - msngr_ping_result_at_ms p))
  then (u <| sc_menu_state := MENU_STATE_MSNGR_PEER |>, messenger_ping_cancel p) else up.
End Ping.

(** What happens to a ping: a poll, with whether the identity is known by then, and the two
    callbacks of its link. *)
Inductive ping_event := PingPoll (recall : bool) | Established (rtt : Z) | Closed.
Definition is_ping_poll (e : ping_event) : bool := match e with PingPoll _ => true | _ => false end.
Definition ping_step (e : ping_event) (t : Z) (p : ping) : ping :=
  match e with
  | PingPoll recall => messenger_ping_process recall (u32 t) p
  | Established rtt => msngr_ping_link_established rtt (u32 t) p
  | Closed => msngr_ping_link_closed p
  end.
Definition ping_run (tr : list (Z * ping_event)) (p : ping) : ping := foldl (fun p '(t, e) => ping_step e t p) p tr.

Definition ping_waits (G t0 last : Z) (p : ping) : Prop :=
  (msngr_ping_state p = MSNGR_PING_RESOLVING -> msngr_ping_phase_started_ms p = u32 t0 /\ last - t0 <= MSNGR_PING_PATH_TIMEOUT_MS) /\
  (msngr_ping_state p = MSNGR_PING_ESTABLISHING ->
    exists ts, msngr_ping_phase_started_ms p = u32 ts /\ t0 <= ts <= t0 + MSNGR_PING_PATH_TIMEOUT_MS + G /\ ts <= last /\ last - ts <= MSNGR_PING_LINK_TIMEOUT_MS).
Definition ping_over (p : ping) : Prop := msngr_ping_state p <> MSNGR_PING_RESOLVING /\ msngr_ping_state p <> MSNGR_PING_ESTABLISHING.
Lemma over_waits G t0 last p : ping_over p -> ping_waits G t0 last p.
Proof. intros [H1 H2]. split; intros Hq; [destruct (H1 Hq)|destruct (H2 Hq)]. Qed.
Lemma closed_over p : msngr_ping_state p <> MSNGR_PING_RESOLVING -> ping_over (msngr_ping_link_closed p).
Proof.
  intros Hr. unfold msngr_ping_link_closed, ping_over. destruct (Z.eqb_spec (msngr_ping_state p) MSNGR_PING_ESTABLISHING); [split; discriminate|auto].
Qed.
(** A deferred teardown ends no ping that still looks for its peer. *)
Lemma deferred_teardown p : let p' := if msngr_ping_teardown_pending p
           then let p := p <| msngr_ping_teardown_pending := false |> in if msngr_ping_link p then msngr_ping_link_closed (teardown_link p) else p else p in
  msngr_ping_phase_started_ms p' = msngr_ping_phase_started_ms p /\ (msngr_ping_state p' = msngr_ping_state p \/ ping_over p').
Proof.
  cbv zeta. destruct (msngr_ping_teardown_pending p); [|auto]. unfold teardown_link, ask. cbn [msngr_ping_link].
  destruct p as [[] th ip st rtt ph re td calls]; cbn; [|auto]. unfold msngr_ping_link_closed, ping_over. cbn.
  destruct (Z.eqb_spec st MSNGR_PING_ESTABLISHING); cbn; [split; [reflexivity|right; split; discriminate]|auto].
Qed.
Lemma ping_waits_step G t0 last e t p : 0 <= G <= 1000000 -> t0 <= last -> last <= t <= last + G -> ping_waits G t0 last p ->
  ping_waits G t0 (if is_ping_poll e then t else last) (ping_step e t p).
Proof.
  unfold ping_waits, MSNGR_PING_PATH_TIMEOUT_MS, MSNGR_PING_LINK_TIMEOUT_MS. intros HG H0 Ht [Hr He]. destruct e as [recall|rtt|]; cbn [is_ping_poll ping_step].
  - unfold messenger_ping_process. pose proof (deferred_teardown p) as [Ep Es]. set (p1 := if msngr_ping_teardown_pending p then _ else p) in *. clearbody p1. cbv zeta in *.
    destruct (Z.eqb_spec (msngr_ping_state p1) MSNGR_PING_RESOLVING) as [Hq|Hq].
    + destruct Es as [Es|[Es _]]; [|destruct (Es Hq)]. destruct (Hr (eq_trans (eq_sym Es) Hq)) as [E1 E2]. rewrite Ep, E1, u32_elapsed by lia.
      destruct recall.
      * split; [discriminate|]. intros _. exists t. split; [reflexivity|]. lia.
      * unfold MSNGR_PING_PATH_TIMEOUT_MS. destruct (Z.ltb_spec 10000 (t - t0)); [split; discriminate|]. split; [intros _|intros He2; rewrite He2 in Hq; discriminate].
        rewrite Ep. split; [exact E1|lia].
    + destruct (Z.eqb_spec (msngr_ping_state p1) MSNGR_PING_ESTABLISHING) as [Hq'|Hq'].
      * destruct Es as [Es|[_ Es]]; [|destruct (Es Hq')]. destruct (He (eq_trans (eq_sym Es) Hq')) as (ts & E1 & E2 & E3 & E4). rewrite Ep, E1, u32_elapsed by lia.
        unfold MSNGR_PING_LINK_TIMEOUT_MS. destruct (Z.ltb_spec 20000 (t - ts)).
        -- apply over_waits. destruct p1 as [[] th ip st rt ph re td calls]; cbn; split; discriminate.
        -- split; [intros Hx; rewrite Hx in Hq'; discriminate|]. intros _. exists ts. rewrite Ep. split; [exact E1|]. lia.
      * apply over_waits. now split.
  - apply over_waits. split; discriminate.
  - unfold msngr_ping_link_closed. destruct (Z.eqb_spec (msngr_ping_state p) MSNGR_PING_ESTABLISHING); [apply over_waits; split; discriminate|now split].
Qed.
Lemma ping_waits_run G t0 last tr p : 0 <= G <= 1000000 -> t0 <= last -> polled is_ping_poll G last tr -> ping_waits G t0 last p ->
  ping_waits G t0 (last_poll is_ping_poll last tr) (ping_run tr p).
Proof.
  intros HG. revert last p. induction tr as [|[t e] tr IH]; intros last p H0 Hp Hw; cbn [polled last_poll] in *; [exact Hw|].
  destruct Hp as [Ht Hp]. apply IH; [destruct (is_ping_poll e); lia|exact Hp|now apply ping_waits_step].
Qed.

(** Every ping ends: polled at most [G] milliseconds apart, whatever identities and
    callbacks come, it is over more than thirty seconds and [G] after it was started - ten
    for the path and twenty for the link, which nothing else limits. *)
Theorem ping_concludes G dest is_prop ready recall has_path t0 p tr : 0 <= G <= 1000000 -> polled is_ping_poll G t0 tr ->
  t0 + 30000 + G < last_poll is_ping_poll t0 tr -> ping_over (ping_run tr (messenger_ping_start dest is_prop ready recall has_path (u32 t0) p)).
Proof.
  intros HG Hp Hl. set (p0 := messenger_ping_start _ _ _ _ _ _ p).
  assert (Hw : ping_waits G t0 t0 p0).
  { unfold p0, messenger_ping_start, messenger_ping_issue_link, ping_waits, MSNGR_PING_PATH_TIMEOUT_MS, MSNGR_PING_LINK_TIMEOUT_MS.
    destruct ready; cbn [negb]; [|split; discriminate]. destruct recall, has_path; cbn; (split; [first [discriminate|intros _; split; [reflexivity|lia]]|first [discriminate|intros _; exists t0; split; [reflexivity|lia]]]). }
  pose proof (ping_waits_run G t0 t0 tr p0 HG ltac:(lia) Hp Hw) as [H1 H2]. unfold MSNGR_PING_PATH_TIMEOUT_MS, MSNGR_PING_LINK_TIMEOUT_MS in *. split; intros Hq.
  - destruct (H1 Hq). lia.
  - destruct (H2 Hq) as (ts & _ & ? & ? & ?). lia.
Qed.

(** ** Fetching from the propagation node *)

(* @src lib/microLXMF/src/LXMF/LXMRouter.h:98-105 PropagationSyncState *)
Definition PR_IDLE : Z := 0.
Definition PR_COMPLETE : Z := 6.
Definition PR_FAILED : Z := 7.
(** The time of the last request, and the requests. *)
(* @src Messenger.h:2392-2392 msngr_sync_last_ms *)
Record sync := mk_sync { msngr_sync_last_ms : Z; sync_requests : list Z }.
(** [node]: the hash of the active node; [router]: its state of the sync, if there is a
    router. *)
(* @src Messenger.h:2394-2410 messenger_sync_process *)
Definition messenger_sync_process (idx : Z) (node : list Z) (router : option Z) (now : Z) (y : sync) : sync :=
  if idx =? 0 then y
  else if negb (zlen node =? PEER_HASH_SIZE) then y
  else match router with
       | None => y
       | Some state =>
           if negb (state =? PR_IDLE) && negb (state =? PR_COMPLETE) && negb (state =? PR_FAILED) then y
           else
             let interval_ms := u32 (nth (Z.to_nat idx) msngr_sync_interval_presets_s 0 * 1000) in
             if u32 (now - msngr_sync_last_ms y) <? interval_ms then y
             else mk_sync now (sync_requests y ++ [now])
       end.

(** With the interval on and the node idle, a poll requests exactly when the interval has
    passed since the last request, whatever the clock has wrapped. *)
Lemma sync_due idx node state t last reqs : 0 < idx < MSNGR_SYNC_INTERVAL_PRESET_COUNT -> zlen node = PEER_HASH_SIZE ->
  state = PR_IDLE \/ state = PR_COMPLETE \/ state = PR_FAILED -> 0 <= t - last < 4294967296 ->
  messenger_sync_process idx node (Some state) (u32 t) (mk_sync (u32 last) reqs) =
  (if t - last <? nth (Z.to_nat idx) msngr_sync_interval_presets_s 0 * 1000 then mk_sync (u32 last) reqs else mk_sync (u32 t) (reqs ++ [u32 t])).
Proof.
  intros Hi Hn Hs Ht. unfold messenger_sync_process. rewrite (proj2 (Z.eqb_neq idx 0)), Hn, Z.eqb_refl by lia. cbn [negb].
  assert (negb (state =? PR_IDLE) && negb (state =? PR_COMPLETE) && negb (state =? PR_FAILED) = false) as -> by (destruct Hs as [-> |[-> | ->]]; reflexivity).
  cbn [msngr_sync_last_ms sync_requests]. cbv zeta. rewrite u32_elapsed by exact Ht. rewrite u32_id; [reflexivity|].
  assert (Hall : Forall (fun x => 0 <= x * 1000 < 4294967296) msngr_sync_interval_presets_s) by (repeat constructor; lia).
  rewrite List.Forall_forall in Hall. apply Hall, nth_In. unfold MSNGR_SYNC_INTERVAL_PRESET_COUNT in Hi. cbn. lia.
Qed.

(** ** Examples *)

(** A send from the chat that a propagation node takes is never reported there; the watcher
    stays, takes the outcome of the next send from the screen that waits for it, and that
    screen then stays on a send that is idle. *)
Example watcher_steals_outcome :
  let s := send0 <| msngr_send_message_hash := [1] |> in
  let at_node := s <| msngr_send_state := MSNGR_SEND_SENT_TO_NODE |> in
  let chat := (screens0 MENU_STATE_MSNGR_CHAT) <| msngr_chat_watching_send := true |> in
  let '(u, _) := msngr_chat_send_watch_process 1000 (chat, at_node) in
  let '(u, s) := (u <| sc_menu_state := MENU_STATE_MSNGR_SEND_RESULT |>, s <| msngr_send_state := MSNGR_SEND_DELIVERED |> <| msngr_send_result_at_ms := 60000 |>) in
  let '(u, s) := msngr_chat_send_watch_process 60001 (msngr_send_result_process false 60001 (u, s)) in
  let '(u, s) := msngr_send_result_process false 120000 (u, s) in
  msngr_send_state s = MSNGR_SEND_IDLE /\ sc_menu_state u = MENU_STATE_MSNGR_SEND_RESULT.
Proof. split; reflexivity. Qed.
(** Left alone, a delivered message closes its screen after twenty seconds. *)
Example delivered_closes_screen :
  let s := send0 <| msngr_send_state := MSNGR_SEND_DELIVERED |> <| msngr_send_result_at_ms := 60000 |> in
  let at_ms now := sc_menu_state (fst (msngr_send_result_process false now (screens0 MENU_STATE_MSNGR_SEND_RESULT, s))) in
  at_ms 80000 = MENU_STATE_MSNGR_SEND_RESULT /\ at_ms 80001 = MENU_STATE_MSNGR_PEER.
Proof. split; reflexivity. Qed.
Lemma ping_concludes_witness :
  ping_over (ping_run (map (fun k => (Z.of_nat k * 5000, PingPoll true)) (seq 1 10)) (messenger_ping_start (repeat 7 16) false true false false (u32 0) ping0)).
Proof. apply (ping_concludes 5000); [lia|vm_compute; repeat split; discriminate|vm_compute; reflexivity]. Defined.
(** A ping answered after a second. *)
Example ping_answered :
  let p := ping_run [(100, PingPoll true); (1100, Established 350); (1101, PingPoll true)] (messenger_ping_start (repeat 7 16) false true false false (u32 0) ping0) in
  msngr_ping_state p = MSNGR_PING_SUCCESS /\ msngr_ping_rtt p = 350 /\ ping_calls p = [AskPath (repeat 7 16); OpenLink (repeat 7 16) false; Teardown].
Proof. vm_compute. auto. Qed.
