(* ===== verification/Ota.v ===== *)
(** * Firmware updates over the network (OTA.h)

    A new image is written to the partition that is not running, by a download or by an
    upload; it is verified, its hash stored for the check of the next start, the partition
    made the one to boot, and the device restarted.  A button held at power-on boots the
    other partition.

    The partition driver, the HTTPS client and the web server are platform code: what each
    of their calls returns, and what it leaves in the partition, comes with the actions. *)
From Stdlib Require Import String.
From S2P Require Import Prelude Boards Rom Float Framing Kiss Md5 Eeprom Settings.
From stdpp Require Import list.
#[local] Open Scope Z_scope.

(** ** Data *)

(** A partition is [false] or [true] (app0, app1 of default_16MB.csv). *)
Abbreviation slot := bool.
(* @src OTA.h:87-97 ota_status_cb_t *)
Inductive status := Says (text : string) | Downloading (percent : Z).

(* @src OTA.h:873-874 RECOVERY_SWITCH_MAGIC *)
Definition RECOVERY_SWITCH_MAGIC : Z := 0x5AFEB007.

(* @src OTA.h:95-138 ota_in_progress, ota_dl_percent, ota_upload_handle, ota_upload_target, ota_upload_ok *)
Record ota (E : Type) := mk_ota {
  cf : conf E;                                   (** the settings store *)
  app0 : list Z; app1 : list Z;                  (** what the partitions hold *)
  running : slot; boot : slot;         (** the one that runs, the one the boot loader takes *)
  recovery_switch_guard : Z;
  (** RAM from here on *)
  fw_signature_validated : bool; dev_firmware_hash_target : list Z;
  ota_in_progress : bool; firmware_update_mode : bool; ota_dl_percent : Z;
  ota_upload_target : option slot; ota_upload_ok : bool;
  dio0_masked : bool; said : list status
}.
Arguments mk_ota {E} _ _ _ _ _ _ _ _ _ _ _ _ _ _ _. Arguments cf {E} _. Arguments app0 {E} _. Arguments app1 {E} _. Arguments running {E} _.
Arguments boot {E} _. Arguments recovery_switch_guard {E} _. Arguments fw_signature_validated {E} _. Arguments dev_firmware_hash_target {E} _.
Arguments ota_in_progress {E} _. Arguments firmware_update_mode {E} _. Arguments ota_dl_percent {E} _. Arguments ota_upload_target {E} _.
Arguments ota_upload_ok {E} _. Arguments dio0_masked {E} _. Arguments said {E} _.

(** A handler ends, with a result, or the device has restarted in it. *)
Inductive outcome {E A : Type} := Returns (a : A) (s : ota E) | Restarts (s : ota E).
Arguments outcome : clear implicits.

(** What one [esp_https_ota_perform] gives: its code, how much has been read of how much,
    and what the partition holds then. *)
Inductive progress := InProgress | Done | Broken.
Record perform := mk_perform { pf_code : progress; pf_read : Z; pf_total : Z; pf_left : list Z }.
(** A download: whether it begins, what the partition holds then, its performs, whether all
    data came, whether [esp_https_ota_finish] accepts it. *)
Record download := mk_download { dn_begins : bool; dn_left : list Z; dn_performs : list perform; dn_complete : bool; dn_finishes : bool }.

(** What the platform promises: the hash appended to an image, if the image has it
    right, and whether the device has a second partition.  [esp_https_ota_finish] makes the
    partition it has written the one to boot. *)
Class OtaPlatform := { esp_partition_get_sha256 : list Z -> option (list Z); has_ota_slot : bool }.
Class OtaPlatformLaws `{OtaPlatform} := {
  sha256_bytes i h : esp_partition_get_sha256 i = Some h -> bytes h /\ length h = Z.to_nat DEV_HASH_LEN
}.

Section Ota.
Context `{Board} {E : Type} (lib early : Eeprom E) `{OtaPlatform}.
Abbreviation ota := (ota E).
Implicit Types (s : ota) (p : slot).

Definition image p s : list Z := if p then app1 s else app0 s.
Definition put p (c : list Z) s : ota := if p then s <| app1 := c |> else s <| app0 := c |>.
Definition tell (t : status) s : ota := s <| said ::= fun l => l ++ [t] |>.
Definition esp_ota_get_next_update_partition p : option slot := if has_ota_slot then Some (negb p) else None.

(** ** Verifying and switching *)

(** [L] is the settings store as it is when this is called; [switches]: whether
    [esp_ota_set_boot_partition] succeeds, which is not looked at. *)
(* @src OTA.h:181-189 ota_verify_and_set_boot *)
Definition ota_verify_and_set_boot (L : Eeprom E) (target : slot) (switches : bool) s : outcome E bool :=
  match esp_partition_get_sha256 (image target s) with
  | None => Returns false s
  | Some h =>
      let s := s <| dev_firmware_hash_target := h |> in
      let s := s <| cf ::= @device_save_firmware_hash _ E L (fw_signature_validated s) (dev_firmware_hash_target s) |> in
      if negb (fw_signature_validated s) then Restarts s
      else Returns true (if switches then s <| boot := target |> else s)
  end.

(** ** Downloading *)

(* @src OTA.h:697-705 ota_do_pull_download *)
Definition percent (len_read total : Z) : Z := if (0 <=? len_read) && (0 <? total) then i32 (Z.quot (len_read * 100) total) else -1.
(* @src OTA.h:678-733 ota_do_pull_download *)
Fixpoint perform_loop (l : list perform) p s : option (progress * ota) :=
  match l with
  | [] => None
  | x :: l =>
      let s := (put p (pf_left x) s) <| ota_dl_percent := percent (pf_read x) (pf_total x) |> in
      let s := tell (if 0 <=? ota_dl_percent s then Downloading (ota_dl_percent s) else Says "DOWNLOADING...") s in
      match pf_code x with InProgress => perform_loop l p s | c => Some (c, s) end
  end.
(** [None]: a download that stalls for ever does not return. *)
(* @src OTA.h:604-761 ota_do_pull_download *)
Definition ota_do_pull_download (ota_network_up : bool) (d : download) s : option (option slot * ota) :=
  if negb ota_network_up then Some (None, tell (Says "NO NETWORK") s)
  else if ota_in_progress s then Some (None, tell (Says "BUSY") s)
  else match esp_ota_get_next_update_partition (running s) with
  | None => Some (None, tell (Says "NO OTA SLOT") s)
  | Some target =>
      let s := tell (Says "CONNECTING...") (s <| ota_in_progress := true |> <| firmware_update_mode := true |>) in
      let s := s <| dio0_masked := true |> in
      if negb (dn_begins d) then
        Some (None, tell (Says "DOWNLOAD FAILED") (s <| dio0_masked := false |> <| ota_in_progress := false |> <| firmware_update_mode := false |>))
      else
        let s := put target (dn_left d) s in
        let s := tell (Says "DOWNLOADING...") (s <| ota_dl_percent := -1 |>) in
        match perform_loop (dn_performs d) target s with
        | None => None
        | Some (c, s) =>
            let ok := match c with Done => dn_complete d && dn_finishes d | _ => false end in
            let s := if ok then s <| boot := target |> else s in
            let s := s <| dio0_masked := false |> <| ota_dl_percent := -1 |> in
            if ok then Some (Some target, s)
            else Some (None, tell (Says "UPDATE FAILED") (s <| firmware_update_mode := false |> <| ota_in_progress := false |>))
        end
  end.
(** The web page's button, and the menu's, which leaves the flags as they are when the hash
    can not be read. *)
(* @src OTA.h:757-783 ota_handle_install *)
Definition ota_handle_install (ota_network_up : bool) (d : download) (switches : bool) s : option (outcome E ()) :=
  match ota_do_pull_download ota_network_up d s with
  | None => None
  | Some (None, s) => Some (Returns tt (tell (Says "Update failed") s))
  | Some (Some target, s) =>
      Some match ota_verify_and_set_boot lib target switches (s <| dio0_masked := true |>) with
      | Restarts s => Restarts s
      | Returns true s => Restarts (tell (Says "Update downloaded, installing and rebooting...") (s <| dio0_masked := false |>))
      | Returns false s => Returns tt (tell (Says "Update failed") (s <| dio0_masked := false |> <| firmware_update_mode := false |> <| ota_in_progress := false |>))
      end
  end.
(* @src Menu.h:7902-7922 menu_confirm_select *)
Definition menu_update (ota_network_up : bool) (d : download) (switches : bool) s : option (outcome E ()) :=
  match ota_do_pull_download ota_network_up d s with
  | None => None
  | Some (None, s) => Some (Returns tt (tell (Says "UPDATE FAILED") (s <| dio0_masked := false |>)))
  | Some (Some target, s) =>
      Some match ota_verify_and_set_boot lib target switches (s <| dio0_masked := true |>) with
      | Restarts s => Restarts s
      | Returns true s => Restarts (tell (Says "REBOOTING...") (tell (Says "INSTALLING...") (s <| dio0_masked := false |>)))
      | Returns false s => Returns tt (tell (Says "UPDATE FAILED") (s <| dio0_masked := false |>))
      end
  end.

(** ** Uploading *)

(** The calls the web server makes for one upload, with what the partition driver gives:
    whether [esp_ota_begin], [esp_ota_write] and [esp_ota_end] succeed, and what the
    partition holds then. *)
Inductive chunk := UPLOAD_FILE_START (begins : bool) (now : list Z) | UPLOAD_FILE_WRITE (writes : bool) (now : list Z)
  | UPLOAD_FILE_END (ends : bool) | UPLOAD_FILE_ABORTED.
(* @src OTA.h:784-831 ota_handle_upload_chunk *)
Definition ota_handle_upload_chunk (c : chunk) s : ota :=
  match c with
  | UPLOAD_FILE_START begins now =>
      let s := s <| ota_in_progress := true |> <| firmware_update_mode := true |> <| ota_upload_ok := false |> <| dio0_masked := true |> in
      let s := s <| ota_upload_target := esp_ota_get_next_update_partition (running s) |> in
      match ota_upload_target s with
      | Some p => (put p now s) <| ota_upload_ok := begins |>
      | None => s
      end
  | UPLOAD_FILE_WRITE writes now =>
      match ota_upload_target s with
      | Some p => if ota_upload_ok s then (put p now s) <| ota_upload_ok := writes |> else s
      | None => s
      end
  | UPLOAD_FILE_END ends => (if ota_upload_ok s then s <| ota_upload_ok := ends |> else s) <| dio0_masked := false |>
  | UPLOAD_FILE_ABORTED => s <| ota_upload_ok := false |> <| dio0_masked := false |>
  end.
(* @src OTA.h:833-849 ota_handle_upload_complete *)
Definition ota_handle_upload_complete (switches : bool) s : outcome E () :=
  let failed s := Returns tt (tell (Says "Upload failed - firmware unchanged.") (s <| dio0_masked := false |> <| firmware_update_mode := false |> <| ota_in_progress := false |>)) in
  let s := s <| dio0_masked := true |> in
  match ota_upload_ok s, ota_upload_target s with
  | true, Some p =>
      match ota_verify_and_set_boot lib p switches s with
      | Restarts s => Restarts s
      | Returns true s => Restarts (tell (Says "Upload complete, installing and rebooting...") (s <| dio0_masked := false |>))
      | Returns false s => failed s
      end
  | _, _ => failed s
  end.

(** ** Starting *)

(** RAM as the compiled initialisers leave it, of the image the boot loader has taken. *)
Definition restarted s : ota :=
  mk_ota (cf s) (app0 s) (app1 s) (boot s) (boot s) (recovery_switch_guard s) true (repeat 0 32) false false (-1) None false false [].
(** [held]: the button; the settings store is not open yet.  The boolean: it restarts. *)
(* @src OTA.h:897-919 ota_check_recovery_button *)
Definition ota_check_recovery_button (held switches : bool) s : outcome E () :=
  if held && negb (recovery_switch_guard s =? RECOVERY_SWITCH_MAGIC) then
    match esp_ota_get_next_update_partition (running s) with
    | Some other =>
        let s := s <| recovery_switch_guard := RECOVERY_SWITCH_MAGIC |> in
        match ota_verify_and_set_boot early other switches s with
        | Restarts s => Restarts s
        | Returns true s => Restarts s
        | Returns false s => Returns tt s
        end
    | None => Returns tt s
    end
  else Returns tt s.
(** The hash the start-up checks compare. *)
Definition checked s : ota :=
  s <| dev_firmware_hash_target := @device_load_firmware_hash _ E lib (ee (cf s)) |>
    <| fw_signature_validated := @device_validate_partitions _ E lib (default [] (esp_partition_get_sha256 (image (running s) s))) (fw_signature_validated s) (ee (cf s)) |>.
(** From a restart to the end of [setup()]; the recovery can restart it once more, which the
    guard makes the last time. *)
(* @src RNode_Firmware.ino:332-348 setup *)
Fixpoint setup (fuel : nat) (held switches : bool) s : option ota :=
  match fuel with
  | O => None
  | S fuel =>
      match ota_check_recovery_button held switches (restarted s) with
      | Returns _ s => Some (checked s)
      | Restarts s => setup fuel held switches s
      end
  end.

(** ** Runs *)

(** A power cut while the hash is being stored, a byte at a time. *)
Definition partly_saved (n : nat) (h : list Z) (c : conf E) : conf E :=
  foldl (fun c i => @upd E lib (dev_fwhash_addr (Z.of_nat i)) (zget 0 h (Z.of_nat i)) c) c (seq 0 n).
Definition verify_cut (n : nat) p s : ota :=
  match esp_partition_get_sha256 (image p s) with Some h => s <| cf ::= partly_saved n h |> | None => s end.

(** What happens to the device.  A power cycle leaves the guard with any content; [Cut]
    says how far an update was: its calls so far, and the bytes of the hash that are stored,
    if it was that far. *)
Inductive action :=
| Install (ota_network_up : bool) (d : download) (switches : bool)
| MenuUpdate (ota_network_up : bool) (d : download) (switches : bool)
| Upload (begins : bool) (now : list Z) (writes : list (bool * list Z)) (ended : option (bool * bool))
| Restart (held switches : bool)
| PowerCycle (guard : Z) (held switches : bool)
| CutUpload (begins : bool) (now : list Z) (writes : list (bool * list Z)) (saved : option nat) (guard : Z)
| CutInstall (now : list (list Z)) (guard : Z)
| CutInstalled (d : download) (saved : nat) (guard : Z).
(** The calls of an upload. *)
Definition chunks (begins : bool) (now : list Z) (writes : list (bool * list Z)) : list chunk :=
  UPLOAD_FILE_START begins now :: map (fun '(w, l) => UPLOAD_FILE_WRITE w l) writes.
Definition upload (l : list chunk) s : ota := foldl (fun s c => ota_handle_upload_chunk c s) s l.
(** Whatever restarts the device starts it again, the button not held. *)
Definition settle {A} (o : outcome E A) : option ota :=
  match o with Returns _ s => Some s | Restarts s => setup 2 false true s end.
Definition power_up (guard : Z) (held switches : bool) s : option ota := setup 2 held switches (s <| recovery_switch_guard := guard |>).
Definition step (a : action) s : option ota :=
  match a with
  | Install up d switches => o ← ota_handle_install up d switches s; settle o
  | MenuUpdate up d switches => o ← menu_update up d switches s; settle o
  | Upload begins now writes (Some (ends, switches)) =>
      settle (ota_handle_upload_complete switches (upload (chunks begins now writes ++ [UPLOAD_FILE_END ends]) s))
  | Upload begins now writes None => Some (upload (chunks begins now writes ++ [UPLOAD_FILE_ABORTED]) s)
  | Restart held switches => setup 2 held switches s
  | PowerCycle guard held switches => power_up guard held switches s
  | CutUpload begins now writes saved guard =>
      let s := upload (chunks begins now writes) s in
      power_up guard false true match saved, ota_upload_ok s, ota_upload_target s with
                                | Some n, true, Some p => verify_cut n p s
                                | _, _, _ => s
                                end
  | CutInstall now guard =>
      power_up guard false true match esp_ota_get_next_update_partition (running s) with Some p => foldl (fun s l => put p l s) s now | None => s end
  | CutInstalled d saved guard =>
      r ← ota_do_pull_download true d s;
      power_up guard false true match r with (Some p, s) => verify_cut saved p s | (None, s) => s end
  end.
Fixpoint run (l : list action) s : option ota :=
  match l with [] => Some s | a :: l => s ← step a s; run l s end.

(** ** Lemmas *)

(** The device between two actions: it runs the partition that boots, which holds an image
    that verifies, and no upload aims at it. *)
Definition good s : Prop :=
  boot s = running s /\ esp_partition_get_sha256 (image (running s) s) <> None /\
  (ota_upload_target s = None \/ ota_upload_target s = Some (negb (running s))).
Lemma image_put p q c s : image p (put q c s) = if Bool.eqb p q then c else image p s.
Proof. now destruct p, q. Qed.
Lemma next_other p q : esp_ota_get_next_update_partition p = Some q -> q = negb p.
Proof. unfold esp_ota_get_next_update_partition. destruct has_ota_slot; congruence. Qed.
Lemma eqb_negb p : Bool.eqb p (negb p) = false.
Proof. now destruct p. Qed.

(** Verifying changes neither partition. *)
Record verified (L : Eeprom E) (target : slot) (switches : bool) s (o : outcome E bool) : Prop := {
  ve_none : esp_partition_get_sha256 (image target s) = None -> o = Returns false s;
  ve_some h : esp_partition_get_sha256 (image target s) = Some h ->
    let s' := s <| dev_firmware_hash_target := h |> <| cf ::= @device_save_firmware_hash _ E L (fw_signature_validated s) h |> in
    o = if negb (fw_signature_validated s) then Restarts s' else Returns true (if switches then s' <| boot := target |> else s')
}.
Lemma verify_spec L target switches s : verified L target switches s (ota_verify_and_set_boot L target switches s).
Proof. unfold ota_verify_and_set_boot. constructor; [now intros ->|]. now intros h ->. Qed.

(** Starting: the partitions stay, and what runs is what boots. *)
Record started s s' : Prop := {
  st_images p : image p s' = image p s;
  st_boot : boot s' = running s';
  st_target : ota_upload_target s' = None;
  st_running : running s' = boot s \/ (running s' = negb (boot s) /\ esp_partition_get_sha256 (image (negb (boot s)) s) <> None)
}.
Lemma setup_not_held switches s : setup 2 false switches s = Some (checked (restarted s)).
Proof. reflexivity. Qed.
Lemma checked_started s : started s (checked (restarted s)).
Proof. constructor; [intros []; reflexivity|reflexivity..|now left]. Qed.
Lemma recover h (switches : bool) s : has_ota_slot = true -> recovery_switch_guard s <> RECOVERY_SWITCH_MAGIC ->
  esp_partition_get_sha256 (image (negb (boot s)) s) = Some h ->
  let s1 := s <| recovery_switch_guard := RECOVERY_SWITCH_MAGIC |> <| cf ::= @device_save_firmware_hash _ E early true h |>
              <| boot := if switches then negb (boot s) else boot s |> in
  setup 2 true switches s = Some (checked (restarted s1)).
Proof.
  intros Hs Hg Hh. cbn [setup]. unfold ota_check_recovery_button, esp_ota_get_next_update_partition.
  change (recovery_switch_guard (restarted s)) with (recovery_switch_guard s). rewrite (proj2 (Z.eqb_neq _ _) Hg), Hs. cbn [negb andb].
  set (s0 := (restarted s) <| recovery_switch_guard := RECOVERY_SWITCH_MAGIC |>).
  rewrite (ve_some _ _ _ _ _ (verify_spec early (negb (running (restarted s))) switches s0) h) by exact Hh.
  change (fw_signature_validated s0) with true. cbn [negb]. destruct switches; reflexivity.
Qed.
Lemma setup_started held switches s : exists s', setup 2 held switches s = Some s' /\ started s s'.
Proof.
  destruct held; [|exists (checked (restarted s)); split; [reflexivity|apply checked_started]].
  destruct (Z.eqb_spec (recovery_switch_guard s) RECOVERY_SWITCH_MAGIC) as [Hg|Hg].
  { exists (checked (restarted s)). split; [|apply checked_started]. cbn [setup]. unfold ota_check_recovery_button.
    change (recovery_switch_guard (restarted s)) with (recovery_switch_guard s). now rewrite Hg. }
  destruct (has_ota_slot) eqn:Hs.
  2: { exists (checked (restarted s)). split; [|apply checked_started]. cbn [setup]. unfold ota_check_recovery_button, esp_ota_get_next_update_partition.
    rewrite Hs. now destruct (true && _). }
  destruct (esp_partition_get_sha256 (image (negb (boot s)) s)) as [h|] eqn:Hh.
  - rewrite (recover h switches s Hs Hg Hh). eexists. split; [reflexivity|]. constructor; [intros []; reflexivity|reflexivity|reflexivity|].
    destruct switches; [right; split; [reflexivity|congruence]|now left].
  - exists (checked ((restarted s) <| recovery_switch_guard := RECOVERY_SWITCH_MAGIC |>)). split; [|constructor; [intros []; reflexivity|reflexivity..|now left]].
    cbn [setup]. unfold ota_check_recovery_button, esp_ota_get_next_update_partition.
    change (recovery_switch_guard (restarted s)) with (recovery_switch_guard s). rewrite (proj2 (Z.eqb_neq _ _) Hg), Hs. cbn [negb andb].
    set (s0 := (restarted s) <| recovery_switch_guard := RECOVERY_SWITCH_MAGIC |>).
    rewrite (ve_none _ _ _ _ _ (verify_spec early (negb (running (restarted s))) switches s0)); [reflexivity|exact Hh].
Qed.
End Ota.
