(* ===== verification/OtaUpdates.v ===== *)
(** * What an update can do to a device

    The partition that runs is never written, and the one that boots holds an image that
    verifies, whatever is installed and wherever the power is cut; what a completed update
    leaves running, and whether the next start accepts it. *)
From Stdlib Require Import String.
From S2P Require Import Prelude Boards Rom Float Framing Kiss Md5 Eeprom Settings Ota.
From stdpp Require Import list.
#[local] Open Scope Z_scope.

Section Safe.
Context `{Board} {E : Type} (lib early : Eeprom E) `{OtaPlatform}.
Abbreviation ota := (ota E).
Implicit Types (s : ota) (p : slot).

(** ** The running image *)

(** Nothing but what is not running has changed. *)
Record aside s s' : Prop := {
  as_running : running s' = running s;
  as_image : image (running s) s' = image (running s) s;
  as_target : ota_upload_target s' = None \/ ota_upload_target s' = Some (negb (running s))
}.
Definition targets_other s : Prop := ota_upload_target s = None \/ ota_upload_target s = Some (negb (running s)).
Lemma aside_refl s : targets_other s -> aside s s.
Proof. now constructor. Qed.
Lemma aside_trans s1 s2 s3 : aside s1 s2 -> aside s2 s3 -> aside s1 s3.
Proof. intros [H1 H2 H3] [H4 H5 H6]. rewrite H1 in *. constructor; congruence. Qed.
Lemma aside_targets s s' : aside s s' -> targets_other s'.
Proof. intros [H1 _ H3]. unfold targets_other. now rewrite H1. Qed.
Lemma put_running p c s : running (put p c s) = running s.
Proof. now destruct p. Qed.
Lemma put_target p c s : ota_upload_target (put p c s) = ota_upload_target s.
Proof. now destruct p. Qed.
Lemma aside_put s c : targets_other s -> aside s (put (negb (running s)) c s).
Proof. intros Ht. constructor; [apply put_running|rewrite image_put; now rewrite eqb_negb|rewrite put_target; exact Ht]. Qed.
Lemma put_boot p c s : boot (put p c s) = boot s.
Proof. now destruct p. Qed.

(** An upload's calls. *)
Lemma chunk_aside c s : targets_other s -> aside s (ota_handle_upload_chunk c s) /\ boot (ota_handle_upload_chunk c s) = boot s.
Proof.
  intros Ht. destruct c as [begins now|writes now|ends|]; cbn [ota_handle_upload_chunk].
  - set (s0 := s <| ota_in_progress := true |> <| firmware_update_mode := true |> <| ota_upload_ok := false |> <| dio0_masked := true |>).
    change (running s0) with (running s). set (next := esp_ota_get_next_update_partition (running s)). set (s1 := s0 <| ota_upload_target := next |>).
    assert (H1 : targets_other s1).
    { unfold targets_other. change (ota_upload_target s1) with next. change (running s1) with (running s). destruct next as [q|] eqn:En; [right|now left].
      apply next_other in En. now rewrite En. }
    change (ota_upload_target s1) with next. destruct next as [p|] eqn:En; [|split; [now constructor|reflexivity]].
    apply next_other in En as ->. change (running s) with (running s1). destruct (aside_put s1 now H1) as [A1 A2 A3].
    split; [constructor; [exact A1|exact A2|exact A3]|exact (put_boot (negb (running s1)) now s1)].
  - destruct (ota_upload_target s) as [p|] eqn:Ep; [|now split; [apply aside_refl|]]. destruct (ota_upload_ok s); [|now split; [apply aside_refl|]].
    assert (p = negb (running s)) as -> by (destruct Ht; congruence). split; [|now rewrite <- (put_boot (negb (running s)) now s)].
    destruct (aside_put s now Ht) as [H1 H2 H3]. constructor; [exact H1|exact H2|exact H3].
  - split; [|now destruct (ota_upload_ok s)]. destruct (ota_upload_ok s); now constructor.
  - split; [|reflexivity]. now constructor.
Qed.
Lemma upload_aside l : forall s, targets_other s -> aside s (upload l s) /\ boot (upload l s) = boot s.
Proof.
  induction l as [|c l IH]; intros s Ht; [now split; [apply aside_refl|]|]. cbn [upload foldl]. destruct (chunk_aside c s Ht) as [H1 H2].
  destruct (IH (ota_handle_upload_chunk c s) (aside_targets _ _ H1)) as [H3 H4]. split; [exact (aside_trans _ _ _ H1 H3)|]. unfold upload in H4. congruence.
Qed.

(** ** Downloads *)

(** What the partition holds when the loop ends. *)
Fixpoint downloaded (l : list perform) : list Z :=
  match l with [] => [] | x :: l => match pf_code x with InProgress => downloaded l | _ => pf_left x end end.
Lemma loop_puts l : forall s c s', targets_other s -> perform_loop l (negb (running s)) s = Some (c, s') ->
  aside s s' /\ boot s' = boot s /\ image (negb (running s)) s' = downloaded l /\ cf s' = cf s /\ fw_signature_validated s' = fw_signature_validated s.
Proof.
  induction l as [|x l IH]; intros s c s' Ht; [discriminate|]. cbn [perform_loop downloaded].
  set (s1 := tell _ _). assert (H1 : aside s s1 /\ boot s1 = boot s /\ image (negb (running s)) s1 = pf_left x /\ cf s1 = cf s /\ fw_signature_validated s1 = fw_signature_validated s).
  { destruct (aside_put s (pf_left x) Ht) as [A1 A2 A3]. split_and!.
    - constructor; [exact A1|exact A2|exact A3].
    - exact (put_boot _ _ s).
    - change (image (negb (running s)) s1) with (image (negb (running s)) (put (negb (running s)) (pf_left x) s)). now rewrite image_put, Bool.eqb_reflx.
    - now destruct (running s).
    - now destruct (running s). }
  clearbody s1. destruct H1 as (A & B & C & D & F). destruct (pf_code x).
  - intros Hl. rewrite <- (as_running _ _ A) in Hl. destruct (IH s1 c s' (aside_targets _ _ A) Hl) as (A' & B' & C' & D' & F').
    rewrite (as_running _ _ A) in C'. split_and!; [exact (aside_trans _ _ _ A A')|congruence..].
  - intros [= <- <-]. now split_and!.
  - intros [= <- <-]. now split_and!.
Qed.
(** A download ends with the image in the other partition, which then boots, or leaves
    everything else as it was. *)
Lemma download_ends up d s r s' : targets_other s -> ota_do_pull_download up d s = Some (r, s') ->
  aside s s' /\ cf s' = cf s /\ fw_signature_validated s' = fw_signature_validated s /\
  match r with
  | Some p => p = negb (running s) /\ boot s' = p /\ image p s' = downloaded (dn_performs d) /\ dn_finishes d = true
  | None => boot s' = boot s
  end.
Proof.
  intros Ht. assert (Hr : forall s', aside s s' -> cf s' = cf s -> fw_signature_validated s' = fw_signature_validated s -> boot s' = boot s ->
    aside s s' /\ cf s' = cf s /\ fw_signature_validated s' = fw_signature_validated s /\ boot s' = boot s) by (intros; now split_and!).
  unfold ota_do_pull_download. destruct (negb up); [intros [= <- <-]; apply Hr; now try constructor|].
  destruct (ota_in_progress s); [intros [= <- <-]; apply Hr; now try constructor|].
  destruct (esp_ota_get_next_update_partition (running s)) as [p|] eqn:En; [|intros [= <- <-]; apply Hr; now try constructor].
  apply next_other in En as ->. destruct (negb (dn_begins d)); [intros [= <- <-]; apply Hr; now try constructor|].
  set (s1 := tell (Says "DOWNLOADING...") _). assert (H1 : aside s s1 /\ boot s1 = boot s /\ cf s1 = cf s /\ fw_signature_validated s1 = fw_signature_validated s).
  { destruct (aside_put s (dn_left d) Ht) as [A1 A2 A3]. split_and!.
    - constructor; [destruct (running s); exact A1|destruct (running s); exact A2|destruct (running s); exact A3].
    - now destruct (running s).
    - now destruct (running s).
    - now destruct (running s). }
  clearbody s1. destruct H1 as (A & B & C & D). rewrite <- (as_running _ _ A).
  destruct (perform_loop (dn_performs d) (negb (running s1)) s1) as [[c s2]|] eqn:El; [|discriminate].
  destruct (loop_puts _ _ _ _ (aside_targets _ _ A) El) as (A2 & B2 & I2 & C2 & D2). cbv zeta.
  assert (A3 : aside s s2) by exact (aside_trans _ _ _ A A2). destruct A3 as [R1 R2 R3].
  destruct (match c with Done => dn_complete d && dn_finishes d | _ => false end) eqn:Eok; intros [= <- <-].
  - assert (Hf : dn_finishes d = true) by (destruct c; [discriminate| |discriminate]; now apply andb_true_iff in Eok). split_and!.
    + constructor; [exact R1|exact R2|exact R3].
    + rewrite <- C, <- C2. reflexivity.
    + rewrite <- D, <- D2. reflexivity.
    + now rewrite (as_running _ _ A).
    + reflexivity.
    + exact I2.
    + exact Hf.
  - split_and!; [constructor; [exact R1|exact R2|exact R3]|rewrite <- C, <- C2; reflexivity|rewrite <- D, <- D2; reflexivity|rewrite <- B, <- B2; reflexivity].
Qed.

(** ** Safety *)

(** What the platform promises of an action: [esp_https_ota_finish] accepts only an image
    that verifies. *)
Definition sound (d : download) : Prop := dn_finishes d = true -> esp_partition_get_sha256 (downloaded (dn_performs d)) <> None.
Definition action_sound (a : action) : Prop :=
  match a with Install _ d _ | MenuUpdate _ d _ | CutInstalled d _ _ => sound d | _ => True end.
Lemma good_targets s : good s -> targets_other s.
Proof. now intros (_ & _ & Ht). Qed.
Lemma good_aside s s' : good s -> aside s s' -> boot s' = boot s -> good s'.
Proof.
  intros (H1 & H2 & _) [A1 A2 A3] Hb. unfold good. rewrite A1, A2, Hb. now split_and!.
Qed.
(** A start from a state whose boot partition verifies. *)
Lemma started_good s s' : started s s' -> esp_partition_get_sha256 (image (boot s) s) <> None -> good s'.
Proof.
  intros [Hi Hb Ht Hr] Hv. unfold good. rewrite Hi. split; [exact Hb|]. split; [|now left]. destruct Hr as [-> | [-> Hr]]; assumption.
Qed.
Definition kept s s' : Prop := good s' /\ image (running s) s' = image (running s) s.
Lemma kept_start s s1 held switches s' : setup lib early 2 held switches s1 = Some s' ->
  image (running s) s1 = image (running s) s -> esp_partition_get_sha256 (image (boot s1) s1) <> None -> kept s s'.
Proof.
  intros Hs Hi Hv. destruct (setup_started lib early held switches s1) as (s2 & E2 & Hst). rewrite E2 in Hs. injection Hs as <-.
  split; [exact (started_good _ _ Hst Hv)|]. now rewrite (st_images _ _ Hst).
Qed.
Lemma settle_kept {A} s (o : outcome E A) s' : settle lib early o = Some s' ->
  match o with
  | Returns _ s1 => kept s s1
  | Restarts s1 => image (running s) s1 = image (running s) s /\ esp_partition_get_sha256 (image (boot s1) s1) <> None
  end -> kept s s'.
Proof. destruct o as [a s1|s1]; cbn [settle]; [now intros [= <-]|]. intros Hs [Hi Hv]. exact (kept_start s s1 false true s' Hs Hi Hv). Qed.

(** Where verifying the other partition leads. *)
Lemma verify_kept L p switches s s1 : good s -> aside s s1 -> p = negb (running s) -> (boot s1 = boot s \/ boot s1 = p) ->
  match ota_verify_and_set_boot L p switches s1 with
  | Returns true s2 | Restarts s2 => image (running s) s2 = image (running s) s /\ esp_partition_get_sha256 (image (boot s2) s2) <> None
  | Returns false s2 => s2 = s1 /\ esp_partition_get_sha256 (image p s1) = None
  end.
Proof.
  intros (G1 & G2 & _) [A1 A2 _] -> Hb. destruct (verify_spec L (negb (running s)) switches s1) as [Hn Hs].
  destruct (esp_partition_get_sha256 (image (negb (running s)) s1)) as [h|] eqn:Eh; [|now rewrite (Hn eq_refl)].
  rewrite (Hs h eq_refl). cbv zeta. set (s2 := s1 <| dev_firmware_hash_target := h |> <| cf ::= _ |>).
  assert (Hi : forall q, image q s2 = image q s1) by (intros []; reflexivity).
  assert (Hv : forall q, q = running s \/ q = negb (running s) -> esp_partition_get_sha256 (image q s2) <> None).
  { intros q [-> | ->]; rewrite Hi; [now rewrite A2|congruence]. }
  assert (Hv2 : esp_partition_get_sha256 (image (boot s2) s2) <> None) by (apply Hv; change (boot s2) with (boot s1); destruct Hb as [-> | ->]; auto).
  destruct (negb (fw_signature_validated s1)); [split; [now rewrite Hi|exact Hv2]|]. destruct switches; [|split; [now rewrite Hi|exact Hv2]].
  split; [change (image (running s) s2 = image (running s) s); now rewrite Hi|].
  change (esp_partition_get_sha256 (image (negb (running s)) s2) <> None). apply Hv. now right.
Qed.

(** The installs, from the page and from the menu. *)
Lemma install_kept up d switches s s' : good s -> sound d -> step lib early (Install up d switches) s = Some s' -> kept s s'.
Proof.
  intros Hg Hd. cbn [step]. unfold ota_handle_install. destruct (ota_do_pull_download up d s) as [[[p|] s1]|] eqn:Ed; [| |discriminate];
    destruct (download_ends _ _ _ _ _ (good_targets _ Hg) Ed) as (A & _ & _ & Hr); cbn [mbind option_bind]; intros Hs.
  - destruct Hr as (-> & Hb & Hi & Hf). set (s2 := s1 <| dio0_masked := true |>) in *.
    pose proof (verify_kept lib (negb (running s)) switches s s2 Hg ltac:(destruct A; now constructor) eq_refl (or_intror Hb)) as Hv.
    destruct (ota_verify_and_set_boot lib (negb (running s)) switches s2) as [[|] s3|s3].
    + exact (settle_kept s _ s' Hs Hv).
    + destruct Hv as [-> Hn]. exfalso. apply (Hd Hf). rewrite <- Hi. exact Hn.
    + exact (settle_kept s _ s' Hs Hv).
  - apply (settle_kept s _ s' Hs). split; [apply (good_aside s); [exact Hg|destruct A; now constructor|exact Hr]|exact (as_image _ _ A)].
Qed.
Lemma menu_kept up d switches s s' : good s -> sound d -> step lib early (MenuUpdate up d switches) s = Some s' -> kept s s'.
Proof.
  intros Hg Hd. cbn [step]. unfold menu_update. destruct (ota_do_pull_download up d s) as [[[p|] s1]|] eqn:Ed; [| |discriminate];
    destruct (download_ends _ _ _ _ _ (good_targets _ Hg) Ed) as (A & _ & _ & Hr); cbn [mbind option_bind]; intros Hs.
  - destruct Hr as (-> & Hb & Hi & Hf). set (s2 := s1 <| dio0_masked := true |>) in *.
    pose proof (verify_kept lib (negb (running s)) switches s s2 Hg ltac:(destruct A; now constructor) eq_refl (or_intror Hb)) as Hv.
    destruct (ota_verify_and_set_boot lib (negb (running s)) switches s2) as [[|] s3|s3].
    + exact (settle_kept s _ s' Hs Hv).
    + destruct Hv as [-> Hn]. exfalso. apply (Hd Hf). rewrite <- Hi. exact Hn.
    + exact (settle_kept s _ s' Hs Hv).
  - apply (settle_kept s _ s' Hs). split; [apply (good_aside s); [exact Hg|destruct A; now constructor|exact Hr]|exact (as_image _ _ A)].
Qed.
Lemma complete_kept switches s s1 s' : good s -> aside s s1 -> boot s1 = boot s ->
  settle lib early (ota_handle_upload_complete lib switches s1) = Some s' -> kept s s'.
Proof.
  intros Hg A Hb. unfold ota_handle_upload_complete. cbv zeta. set (s2 := s1 <| dio0_masked := true |>).
  assert (A2 : aside s s2) by (destruct A; now constructor).
  assert (Hf : forall s3, s3 = s2 -> kept s (tell (Says "Upload failed - firmware unchanged.") (s3 <| dio0_masked := false |> <| firmware_update_mode := false |> <| ota_in_progress := false |>))).
  { intros s3 ->. split; [apply (good_aside s); [exact Hg|destruct A; now constructor|exact Hb]|exact (as_image _ _ A)]. }
  change (ota_upload_ok s2) with (ota_upload_ok s1). change (ota_upload_target s2) with (ota_upload_target s1).
  destruct (ota_upload_ok s1); [|intros Hs; exact (settle_kept s _ s' Hs (Hf s2 eq_refl))].
  destruct (ota_upload_target s1) as [p|] eqn:Ep; [|intros Hs; exact (settle_kept s _ s' Hs (Hf s2 eq_refl))].
  assert (Hp : p = negb (running s)) by (destruct (as_target _ _ A) as [|E1]; congruence).
  pose proof (verify_kept lib p switches s s2 Hg A2 Hp (or_introl Hb)) as Hv.
  destruct (ota_verify_and_set_boot lib p switches s2) as [[|] s3|s3]; intros Hs.
  - exact (settle_kept s _ s' Hs Hv).
  - destruct Hv as [E3 _]. exact (settle_kept s _ s' Hs (Hf s3 E3)).
  - exact (settle_kept s _ s' Hs Hv).
Qed.
(** Starting again wherever the power was cut. *)
Lemma power_up_kept s s1 guard held switches s' : power_up lib early guard held switches s1 = Some s' ->
  image (running s) s1 = image (running s) s -> esp_partition_get_sha256 (image (boot s1) s1) <> None -> kept s s'.
Proof. intros Hs Hi Hv. exact (kept_start s (s1 <| recovery_switch_guard := guard |>) held switches s' Hs Hi Hv). Qed.
Lemma verify_cut_same n p s : (forall q, image q (verify_cut lib n p s) = image q s) /\ boot (verify_cut lib n p s) = boot s.
Proof. unfold verify_cut. now destruct (esp_partition_get_sha256 _). Qed.
Lemma aside_boots s s1 : good s -> aside s s1 -> boot s1 = boot s -> esp_partition_get_sha256 (image (boot s1) s1) <> None.
Proof. intros (G1 & G2 & _) A ->. now rewrite G1, (as_image _ _ A). Qed.
Lemma puts_aside l : forall s, targets_other s -> let s' := foldl (fun s l => put (negb (running s)) l s) s l in aside s s' /\ boot s' = boot s.
Proof.
  induction l as [|c l IH]; intros s Ht; [now split; [apply aside_refl|]|]. cbn [foldl]. pose proof (aside_put s c Ht) as A.
  destruct (IH (put (negb (running s)) c s) (aside_targets _ _ A)) as [A' B']. split; [exact (aside_trans _ _ _ A A')|]. now rewrite B', put_boot.
Qed.
Lemma puts_same l p : forall s, negb (running s) = p -> foldl (fun s l => put p l s) s l = foldl (fun s l => put (negb (running s)) l s) s l.
Proof. induction l as [|c l IH]; intros s Hp; [reflexivity|]. cbn [foldl]. rewrite Hp. apply IH. now rewrite put_running. Qed.
Lemma step_kept a s s' : good s -> action_sound a -> step lib early a s = Some s' -> kept s s'.
Proof.
  intros Hg Ha. pose proof (good_targets _ Hg) as Ht. pose proof (aside_boots s s Hg (aside_refl s Ht) eq_refl) as Hv.
  destruct a as [up d switches|up d switches|begins now writes [[ends switches]|]|held switches|guard held switches|begins now writes saved guard|now guard|d saved guard].
  - now apply install_kept.
  - now apply menu_kept.
  - cbn [step]. destruct (upload_aside (chunks begins now writes ++ [UPLOAD_FILE_END ends]) s Ht) as [A B]. now apply complete_kept.
  - cbn [step]. destruct (upload_aside (chunks begins now writes ++ [UPLOAD_FILE_ABORTED]) s Ht) as [A B]. intros [= <-]. split; [exact (good_aside s _ Hg A B)|apply A].
  - intros Hs. exact (kept_start s s held switches s' Hs eq_refl Hv).
  - intros Hs. exact (power_up_kept s s guard held switches s' Hs eq_refl Hv).
  - cbn [step]. destruct (upload_aside (chunks begins now writes) s Ht) as [A B]. set (s1 := upload (chunks begins now writes) s) in *. intros Hs. apply (power_up_kept s _ _ _ _ _ Hs).
    + destruct saved as [n|]; [|apply A]. destruct (ota_upload_ok s1), (ota_upload_target s1) as [p|]; try apply A. rewrite (proj1 (verify_cut_same n p s1)). apply A.
    + pose proof (aside_boots s s1 Hg A B) as Hv1. destruct saved as [n|]; [|exact Hv1]. destruct (ota_upload_ok s1), (ota_upload_target s1) as [p|]; try exact Hv1.
      destruct (verify_cut_same n p s1) as [Hi Hb]. now rewrite Hb, Hi.
  - cbn [step]. destruct (esp_ota_get_next_update_partition (running s)) as [p|] eqn:En; intros Hs; [|now apply (power_up_kept s _ _ _ _ _ Hs)].
    apply next_other in En. rewrite puts_same in Hs by congruence. destruct (puts_aside now s Ht) as [A B].
    apply (power_up_kept s _ _ _ _ _ Hs); [apply A|exact (aside_boots s _ Hg A B)].
  - cbn [step]. destruct (ota_do_pull_download true d s) as [[r s1]|] eqn:Ed; [|discriminate]. cbn [mbind option_bind].
    destruct (download_ends _ _ _ _ _ Ht Ed) as (A & _ & _ & Hr). destruct r as [p|]; intros Hs; apply (power_up_kept s _ _ _ _ _ Hs).
    + rewrite (proj1 (verify_cut_same saved p s1)). apply A.
    + destruct Hr as (-> & Hb & Hi & Hf). destruct (verify_cut_same saved (negb (running s)) s1) as [Hj Hc]. rewrite Hc, Hj, Hb, Hi. now apply Ha.
    + apply A.
    + now apply (aside_boots s).
Qed.

(** A transfer that does not stall for ever. *)
Definition ends (d : download) : Prop := Exists (fun x => pf_code x <> InProgress) (dn_performs d).
Definition action_ends (a : action) : Prop := match a with Install _ d _ | MenuUpdate _ d _ | CutInstalled d _ _ => ends d | _ => True end.
Lemma loop_returns l p : Exists (fun x => pf_code x <> InProgress) l -> forall s, perform_loop l p s <> None.
Proof. induction 1 as [x l Hx|x l _ IH]; intros s; cbn [perform_loop]; [now destruct (pf_code x)|]. now destruct (pf_code x). Qed.
Lemma download_returns up d s : ends d -> ota_do_pull_download up d s <> None.
Proof.
  intros Hd. unfold ota_do_pull_download. destruct (negb up); [discriminate|]. destruct (ota_in_progress s); [discriminate|].
  destruct (esp_ota_get_next_update_partition (running s)) as [p|]; [|discriminate]. destruct (negb (dn_begins d)); [discriminate|].
  set (s1 := tell (Says "DOWNLOADING...") _). pose proof (loop_returns _ p Hd s1) as Hl. destruct (perform_loop _ _ _) as [[c s2]|]; [|congruence].
  cbv zeta. now destruct (match c with Done => dn_complete d && dn_finishes d | _ => false end).
Qed.
Lemma settle_returns {A} (o : outcome E A) : settle lib early o <> None.
Proof. now destruct o. Qed.
Lemma action_returns a s : action_ends a -> step lib early a s <> None.
Proof.
  assert (Hp : forall g h w s, power_up lib early g h w s <> None).
  { intros g h w s1. unfold power_up. destruct (setup_started lib early h w (s1 <| recovery_switch_guard := g |>)) as (s2 & E2 & _). congruence. }
  intros Ha. destruct a as [up d switches|up d switches|begins now writes [[ends switches]|]|held switches|guard held switches|begins now writes saved guard|now guard|d saved guard]; cbn [step action_ends] in *.
  - unfold ota_handle_install. pose proof (download_returns up d s Ha). destruct (ota_do_pull_download up d s) as [[[p|] s1]|]; [| |congruence]; cbn [mbind option_bind]; [|discriminate].
    apply settle_returns.
  - unfold menu_update. pose proof (download_returns up d s Ha). destruct (ota_do_pull_download up d s) as [[[p|] s1]|]; [| |congruence]; cbn [mbind option_bind]; [|discriminate].
    apply settle_returns.
  - apply settle_returns.
  - discriminate.
  - destruct (setup_started lib early held switches s) as (s2 & E2 & _). congruence.
  - apply Hp.
  - apply Hp.
  - apply Hp.
  - pose proof (download_returns true d s Ha). destruct (ota_do_pull_download true d s) as [[r s1]|]; [|congruence]. apply Hp.
Qed.

(** C21. An update never costs the device its firmware.  Whatever is installed from the
    page or the menu or uploaded, however it goes wrong, whatever restarts with or without
    the button, and wherever in a transfer or in the storing of the hash the power is cut:
    unless a transfer stalls for ever the device comes back, the partition it boots is the
    one that runs and holds an image that verifies, and no step has written to the partition
    that was running. *)
(* @prop safety W=OtaOutcome.updates_keep_firmware_witness D=ota_verify_and_set_boot,ota_do_pull_download,ota_handle_install,menu_update,ota_handle_upload_chunk,ota_handle_upload_complete,ota_check_recovery_button,setup *)
Theorem updates_keep_firmware acts s s' : good s -> Forall action_sound acts -> run lib early acts s = Some s' ->
  good s' /\ forall a, action_sound a ->
    (action_ends a -> step lib early a s' <> None) /\
    forall s'', step lib early a s' = Some s'' -> good s'' /\ image (running s') s'' = image (running s') s'.
Proof.
  revert s. induction acts as [|a acts IH]; intros s Hg Ha; cbn [run].
  - intros [= <-]. split; [exact Hg|]. intros a Hs. split; [exact (action_returns a s)|]. intros s2 E2. exact (step_kept a s s2 Hg Hs E2).
  - inversion Ha; subst. destruct (step lib early a s) as [s1|] eqn:E1; [|discriminate]. cbn [mbind option_bind]. intros Hr.
    apply (IH s1); [|assumption|exact Hr]. now destruct (step_kept a s s1 Hg ltac:(assumption) E1).
Qed.
End Safe.
