(* ===== verification/OtaOutcome.v ===== *)
(** * What runs after an update, and whether it is accepted

    A completed update leaves the new image running with its hash stored, unless the
    firmware that installs it had itself not been accepted; the recovery button boots the
    other partition, but stores no hash. *)
From Stdlib Require Import String.
From S2P Require Import Prelude Boards Rom Float Framing Kiss Md5 Eeprom Settings Ota OtaUpdates.
From stdpp Require Import list.
#[local] Open Scope Z_scope.

(** ** The stored hash *)

Section Hash.
Context `{EepromLaws E}.
Implicit Types (c : conf E) (h : list Z).

(** The hash's cells lie in the store. *)
Hypothesis hash_fits : EEPROM_RESERVED + DEV_SIG_LEN + DEV_HASH_LEN <= EEPROM_SIZE.

Lemma hash_cell i : 0 <= i < DEV_HASH_LEN -> 0 <= dev_fwhash_addr i < EEPROM_SIZE.
Proof. unfold dev_fwhash_addr, DEV_HASH_LEN, DEV_SIG_LEN, EEPROM_RESERVED in *. lia. Qed.
Lemma partly_saved_read n h c : (n <= 32)%nat -> forall i, 0 <= i < DEV_HASH_LEN ->
  ee_read (dev_fwhash_addr i) (ee (partly_saved _ n h c)) = if i <? Z.of_nat n then u8 (zget 0 h i) else ee_read (dev_fwhash_addr i) (ee c).
Proof.
  unfold partly_saved. induction n as [|n IH]; intros Hn i Hi; [rewrite (proj2 (Z.ltb_ge _ _)) by lia; reflexivity|].
  rewrite seq_S, foldl_app. cbn [foldl]. rewrite read_upd by (apply hash_cell; unfold DEV_HASH_LEN in *; lia).
  replace (dev_fwhash_addr i =? dev_fwhash_addr (Z.of_nat (0 + n))) with (i =? Z.of_nat n) by (unfold dev_fwhash_addr; destruct (Z.eqb_spec i (Z.of_nat n)); symmetry; [apply Z.eqb_eq|apply Z.eqb_neq]; lia).
  destruct (Z.eqb_spec i (Z.of_nat n)) as [->|Hne].
  - now rewrite (proj2 (Z.ltb_lt _ _)) by lia.
  - rewrite IH by lia. destruct (Z.ltb_spec i (Z.of_nat n)), (Z.ltb_spec i (Z.of_nat (S n))); try reflexivity; lia.
Qed.
Lemma device_save_ee ok h c : ee (device_save_firmware_hash ok h c) = ee (partly_saved _ 32 h c).
Proof. unfold device_save_firmware_hash, partly_saved. now destruct ok; cbn [negb]; [|rewrite ee_log]. Qed.
Lemma bytes_zget h i : bytes h -> u8 (zget 0 h i) = zget 0 h i.
Proof.
  intros Hb. apply u8_id. unfold zget. destruct (h !! Z.to_nat i) as [x|] eqn:Ex; [|unfold is_u8; cbn; lia].
  exact (proj1 (Forall_lookup _ _) Hb _ _ Ex).
Qed.
Lemma hash_loads ok h c : bytes h -> length h = Z.to_nat DEV_HASH_LEN -> device_load_firmware_hash (ee (device_save_firmware_hash ok h c)) = h.
Proof.
  intros Hb Hl. unfold device_load_firmware_hash. apply list_eq. intros i. rewrite list_lookup_fmap. destruct (decide (i < 32)%nat) as [Hi|Hi].
  - rewrite lookup_seq_lt by (unfold DEV_HASH_LEN; lia). cbn [fmap option_fmap option_map]. rewrite device_save_ee, partly_saved_read by (unfold DEV_HASH_LEN; lia).
    rewrite (proj2 (Z.ltb_lt _ _)) by lia. rewrite bytes_zget by exact Hb. unfold zget. replace (Z.to_nat (Z.of_nat (0 + i))) with i by lia.
    destruct (lookup_lt_is_Some_2 h i) as [x Ex]; [rewrite Hl; unfold DEV_HASH_LEN; lia|]. now rewrite Ex.
  - rewrite lookup_seq_ge by (unfold DEV_HASH_LEN; lia). symmetry. apply lookup_ge_None_2. rewrite Hl. unfold DEV_HASH_LEN. lia.
Qed.
End Hash.
Lemma validates `{Board} {E} `{Eeprom E} h e : length h = Z.to_nat DEV_HASH_LEN ->
  device_validate_partitions h true e = bool_decide (device_load_firmware_hash e = h).
Proof.
  intros Hl. unfold device_validate_partitions. set (t := device_load_firmware_hash e).
  assert (Ht : length t = Z.to_nat DEV_HASH_LEN) by (unfold t, device_load_firmware_hash; now rewrite length_map, length_seq).
  destruct (forallb _ _) eqn:Ef.
  - symmetry. apply bool_decide_eq_true_2. rewrite forallb_forall in Ef. apply list_eq_same_length with (n := Z.to_nat DEV_HASH_LEN); [congruence..|].
    intros i x y Hi Hx Hy. specialize (Ef i). rewrite in_seq in Ef. specialize (Ef ltac:(lia)). apply Z.eqb_eq in Ef. unfold zget in Ef.
    rewrite Nat2Z.id, Hx, Hy in Ef. exact Ef.
  - symmetry. apply bool_decide_eq_false_2. intros <-. revert Ef. enough (Hf : forallb (fun i => zget 0 t (Z.of_nat i) =? zget 0 t (Z.of_nat i)) (seq 0 (Z.to_nat DEV_HASH_LEN)) = true) by congruence.
    apply forallb_forall. intros i _. apply Z.eqb_refl.
Qed.

Section Outcome.
Context {B : Board} {E : Type} (lib : Eeprom E) {LL : @EepromLaws E lib B} (early : Eeprom E) `{OtaPlatformLaws}.
Abbreviation ota := (ota E).
Implicit Types (s : ota) (p : slot).
Hypothesis hash_fits : EEPROM_RESERVED + DEV_SIG_LEN + DEV_HASH_LEN <= EEPROM_SIZE.

(** The hash of the image that runs, as the start-up check of [s] compares it. *)
Definition accepted s : bool := bool_decide (esp_partition_get_sha256 (image (running s) s) = Some (@device_load_firmware_hash _ E lib (ee (cf s)))).
Lemma checked_accepts s : esp_partition_get_sha256 (image (boot s) s) <> None -> fw_signature_validated (checked lib (restarted s)) = accepted (checked lib (restarted s)).
Proof.
  intros Hv.
  assert (Hi : forall s', (app0 s', app1 s') = (app0 s, app1 s) -> image (boot s) s' = image (boot s) s) by (intros s' [= E0 E1]; unfold image; now rewrite E0, E1).
  transitivity (@device_validate_partitions _ E lib (default [] (esp_partition_get_sha256 (image (boot s) (restarted s)))) true (ee (cf s))).
  { unfold checked. reflexivity. }
  unfold accepted. change (running (checked lib (restarted s))) with (boot s). change (cf (checked lib (restarted s))) with (cf s). rewrite (Hi (restarted s)) by reflexivity.
  destruct (esp_partition_get_sha256 (image (boot s) s)) as [h|] eqn:Eh; [|congruence]. cbn [default from_option id].
  rewrite validates by exact (proj2 (sha256_bytes _ _ Eh)). apply bool_decide_ext. rewrite (Hi (checked lib (restarted s))), Eh by reflexivity. split; [now intros ->|now intros [= ->]].
Qed.

(** A device that has installed an image whose hash is [h]. *)
Record installed s s' (img h : list Z) (on : slot) : Prop := {
  in_image : image (negb (running s)) s' = img;
  in_kept : image (running s) s' = image (running s) s;
  in_running : running s' = on;
  in_hash : @device_load_firmware_hash _ E lib (ee (cf s')) = h;
  in_accepted : fw_signature_validated s' = bool_decide (esp_partition_get_sha256 (image on s') = Some h)
}.
(** From a state with the hash saved. *)
Lemma settled_installed s s1 img h on ok : image (negb (running s)) s1 = img -> image (running s) s1 = image (running s) s ->
  boot s1 = on -> esp_partition_get_sha256 (image on s1) <> None -> bytes h -> length h = Z.to_nat DEV_HASH_LEN ->
  (exists c, cf s1 = @device_save_firmware_hash _ E lib ok h c) -> installed s (checked lib (restarted s1)) img h on.
Proof.
  intros Hi Hk Hb Hv HB HL [c Hc].
  assert (Hh : @device_load_firmware_hash _ E lib (ee (cf (checked lib (restarted s1)))) = h) by (change (cf (checked lib (restarted s1))) with (cf s1); rewrite Hc; now apply hash_loads).
  assert (Himg : forall p, image p (checked lib (restarted s1)) = image p s1) by (intros []; reflexivity).
  constructor; [now rewrite Himg|now rewrite Himg|exact Hb|exact Hh|].
  rewrite checked_accepts by now rewrite Hb. unfold accepted. rewrite Hh. change (running (checked lib (restarted s1))) with (boot s1). now rewrite Hb.
Qed.

Lemma last_default {A} (l : list A) : forall x d e, List.last (x :: l) d = List.last (x :: l) e.
Proof. induction l as [|y l IH]; intros x d e; [reflexivity|]. exact (IH y d e). Qed.
(** An upload whose calls all succeed. *)
Lemma writes_all writes : forall s p now, Forall (fun w : bool * list Z => fst w = true) writes -> ota_upload_target s = Some p -> ota_upload_ok s = true -> image p s = now ->
  let s' := upload (map (fun '(w, l) => UPLOAD_FILE_WRITE w l) writes) s in
  image p s' = List.last (map snd writes) now /\ image (negb p) s' = image (negb p) s /\ ota_upload_target s' = Some p /\ ota_upload_ok s' = true /\
  running s' = running s /\ boot s' = boot s /\ cf s' = cf s /\ fw_signature_validated s' = fw_signature_validated s.
Proof.
  induction writes as [|[w l] writes IH]; intros s p now Hw Ht Ho Hi; [now split_and!|]. inversion Hw as [|? ? Hw1 Hw2]; subst. cbn [fst] in Hw1. subst w.
  cbn [map upload foldl ota_handle_upload_chunk]. rewrite Ht, Ho. set (s1 := (put p l s) <| ota_upload_ok := true |>).
  assert (Hp : image p s1 = l) by (change (image p s1) with (image p (put p l s)); rewrite image_put; now rewrite Bool.eqb_reflx).
  assert (Hn : image (negb p) s1 = image (negb p) s) by (change (image (negb p) s1) with (image (negb p) (put p l s)); rewrite image_put; now destruct p).
  destruct (IH s1 p l Hw2 ltac:(change (ota_upload_target s1) with (ota_upload_target (put p l s)); now rewrite put_target) eq_refl Hp) as (A & B' & C & D & F & G & I & J).
  unfold upload in *. split_and!; [|etransitivity; [exact B'|exact Hn]|exact C|exact D|rewrite F; apply (put_running p l s)|rewrite G; apply (put_boot p l s)|rewrite I; now destruct p|rewrite J; now destruct p].
  etransitivity; [exact A|]. cbn [snd]. destruct writes as [|w writes]; [reflexivity|]. apply (last_default (map snd writes)).
Qed.

(** C22. A completed upload is what runs next - if the firmware that takes it was itself
    accepted.  When every call succeeds and the image verifies, the image is in the other
    partition, the running one is untouched and the image's hash is stored.  A device whose
    firmware was accepted then runs the new image, which the start-up check accepts.  A
    device whose firmware was not accepted restarts as soon as the hash is stored, before
    the partition is switched: it runs the old firmware again, and that is accepted only
    when its hash is the uploaded image's. *)
(* @prop functional W=upload_outcome_witness D=ota_handle_upload_chunk,ota_handle_upload_complete,ota_verify_and_set_boot,setup *)
Theorem upload_outcome now writes s img h : good s -> has_ota_slot = true -> Forall (fun w => fst w = true) writes ->
  List.last (map snd writes) now = img -> esp_partition_get_sha256 img = Some h ->
  exists s', step lib early (Upload true now writes (Some (true, true))) s = Some s' /\
    installed s s' img h (if fw_signature_validated s then negb (running s) else running s).
Proof.
  intros (G1 & G2 & _) Hslot Hw Hl Hh. destruct (sha256_bytes _ _ Hh) as [HB HL]. cbn [step]. unfold upload, chunks. rewrite foldl_app. cbn [foldl].
  set (s1 := ota_handle_upload_chunk (UPLOAD_FILE_START true now) s).
  assert (H1 : ota_upload_target s1 = Some (negb (running s)) /\ ota_upload_ok s1 = true /\ image (negb (running s)) s1 = now /\ image (running s) s1 = image (running s) s /\
    running s1 = running s /\ boot s1 = boot s /\ cf s1 = cf s /\ fw_signature_validated s1 = fw_signature_validated s).
  { unfold s1, ota_handle_upload_chunk, esp_ota_get_next_update_partition. rewrite Hslot. clear s1.
    set (s0 := s <| ota_in_progress := true |> <| firmware_update_mode := true |> <| ota_upload_ok := false |> <| dio0_masked := true |> <| ota_upload_target := Some (negb (running s)) |>).
    change (ota_upload_target s0) with (Some (negb (running s))). cbv iota. set (s1 := put (negb (running s)) now s0).
    assert (P : image (negb (running s)) s1 = now /\ image (running s) s1 = image (running s) s0) by (unfold s1; rewrite !image_put; now destruct (running s)).
    split_and!; [exact (put_target (negb (running s)) now s0)|reflexivity|exact (proj1 P)|exact (proj2 P)|exact (put_running (negb (running s)) now s0)|
      exact (put_boot (negb (running s)) now s0)|change (cf s1 = cf s0); unfold s1; now destruct (negb (running s))|
      change (fw_signature_validated s1 = fw_signature_validated s0); unfold s1; now destruct (negb (running s))]. }
  clearbody s1. destruct H1 as (T1 & O1 & N1 & I1 & R1 & B1 & C1 & F1).
  destruct (writes_all writes s1 _ now Hw T1 O1 N1) as (N2 & I2 & T2 & O2 & R2 & B2 & C2 & F2). unfold upload in *.
  set (s2 := foldl _ s1 _) in *. clearbody s2. rewrite Hl in N2. rewrite negb_involutive in I2. cbn [ota_handle_upload_chunk]. rewrite O2.
  unfold ota_handle_upload_complete. set (s3 := s2 <| ota_upload_ok := true |> <| dio0_masked := false |> <| dio0_masked := true |>). cbv zeta.
  change (ota_upload_ok s3) with true. change (ota_upload_target s3) with (ota_upload_target s2). rewrite T2. cbv iota beta.
  assert (N3 : image (negb (running s)) s3 = img) by (rewrite <- N2; destruct (running s); reflexivity).
  assert (I3 : image (running s) s3 = image (running s) s) by (rewrite <- I1, <- I2; destruct (running s); reflexivity).
  rewrite (ve_some _ _ _ _ _ (verify_spec lib (negb (running s)) true s3) h) by now rewrite N3.
  change (fw_signature_validated s3) with (fw_signature_validated s2). rewrite F2, F1. cbv zeta.
  set (s4 := s3 <| dev_firmware_hash_target := h |> <| cf ::= _ |>).
  assert (I4 : forall p, image p s4 = image p s3) by (intros []; reflexivity).
  assert (V : forall p, p = running s \/ p = negb (running s) -> esp_partition_get_sha256 (image p s4) <> None).
  { intros p [-> | ->]; rewrite I4; [now rewrite I3|congruence]. }
  destruct (fw_signature_validated s); cbn [negb settle]; rewrite setup_not_held; eexists; (split; [reflexivity|]).
  - set (s5 := tell _ _). assert (I5 : forall p, image p s5 = image p s4) by (intros []; reflexivity).
    apply (settled_installed s s5 img h _ true); rewrite ?I5, ?I4; auto; [rewrite <- I4; apply V; auto|exists (cf s3); reflexivity].
  - apply (settled_installed s s4 img h _ false); rewrite ?I4; auto; [change (boot s4) with (boot s2); congruence|rewrite <- I4; apply V; auto|exists (cf s3); reflexivity].
Qed.

(** ** Downloads *)

(** A download that goes well. *)
Fixpoint loop_code (l : list perform) : option progress :=
  match l with [] => None | x :: l => match pf_code x with InProgress => loop_code l | c => Some c end end.
Definition goes_well (d : download) : Prop :=
  dn_begins d = true /\ loop_code (dn_performs d) = Some Done /\ dn_complete d = true /\ dn_finishes d = true.
Lemma loop_ends l p c : loop_code l = Some c -> forall s, exists s', perform_loop l p s = Some (c, s').
Proof.
  induction l as [|x l IH]; [discriminate|]. cbn [loop_code]. intros Hc s. cbn [perform_loop]. destruct (pf_code x); [now apply IH| |];
    injection Hc as <-; eexists; reflexivity.
Qed.
Lemma download_goes d s : goes_well d -> has_ota_slot = true -> ota_in_progress s = false ->
  exists s', ota_do_pull_download true d s = Some (Some (negb (running s)), s').
Proof.
  intros (H1 & H2 & H3 & H4) Hs Hp. unfold ota_do_pull_download, esp_ota_get_next_update_partition. rewrite Hp, Hs, H1, H3, H4. cbn [negb]. cbv zeta.
  set (s1 := tell (Says "DOWNLOADING...") _). destruct (loop_ends _ (negb (running s)) _ H2 s1) as [s2 ->]. cbn [andb]. eexists. reflexivity.
Qed.

(** A download reaches what an upload may not: [esp_https_ota_finish] has made the image
    the one to boot before the hash is stored, so a device whose firmware was not accepted
    comes up with the new one all the same. *)
Theorem install_outcome d switches s img h : good s -> has_ota_slot = true -> ota_in_progress s = false -> goes_well d ->
  downloaded (dn_performs d) = img -> esp_partition_get_sha256 img = Some h ->
  exists s', step lib early (Install true d switches) s = Some s' /\ installed s s' img h (negb (running s)) /\ fw_signature_validated s' = true.
Proof.
  intros Hg Hslot Hp Hd Hi Hh. destruct (sha256_bytes _ _ Hh) as [HB HL]. cbn [step]. unfold ota_handle_install.
  destruct (download_goes d s Hd Hslot Hp) as [s1 E1]. rewrite E1.
  destruct (download_ends _ _ _ _ _ (good_targets _ Hg) E1) as (A & _ & _ & _ & Hb & Him & _). cbn [mbind option_bind].
  set (s2 := s1 <| dio0_masked := true |>). assert (I2 : forall p, image p s2 = image p s1) by (intros []; reflexivity).
  rewrite (ve_some _ _ _ _ _ (verify_spec lib (negb (running s)) switches s2) h) by (rewrite I2; congruence). cbv zeta.
  set (s3 := s2 <| dev_firmware_hash_target := h |> <| cf ::= _ |>). assert (I3 : forall p, image p s3 = image p s1) by (intros []; reflexivity).
  assert (F : forall s4, (forall p, image p s4 = image p s1) -> boot s4 = negb (running s) -> cf s4 = cf s3 ->
    installed s (checked lib (restarted s4)) img h (negb (running s)) /\ fw_signature_validated (checked lib (restarted s4)) = true).
  { intros s4 I4 B4 C4. assert (P : installed s (checked lib (restarted s4)) img h (negb (running s))).
    { apply (settled_installed s s4 img h _ (fw_signature_validated s2)); rewrite ?I4; auto; [congruence|apply A|rewrite Him; congruence|exists (cf s2); exact C4]. }
    split; [exact P|]. rewrite (in_accepted _ _ _ _ _ P). apply bool_decide_eq_true_2. now rewrite (in_image _ _ _ _ _ P). }
  destruct (negb (fw_signature_validated s2)); cbn [settle]; rewrite setup_not_held; (eexists; split; [reflexivity|]).
  - apply F; [exact I3|exact Hb|reflexivity].
  - destruct switches; apply F; try (intros []; reflexivity); try reflexivity. exact Hb.
Qed.

(** ** The recovery button *)

(** What the settings library does before it is opened. *)
Hypothesis not_open : forall a b e, @ee_write E early a b e = e.

Lemma early_saves_nothing ok h c : ee (@device_save_firmware_hash _ E early ok h c) = ee c.
Proof.
  assert (P : forall l c, ee (foldl (fun c i => @upd E early (dev_fwhash_addr (Z.of_nat i)) (zget 0 h (Z.of_nat i)) c) c l) = ee c).
  { induction l as [|i l IH]; intros c0; [reflexivity|]. cbn [foldl]. rewrite IH. unfold upd, eeprom_update. cbn. destruct (negb _); [apply not_open|reflexivity]. }
  unfold device_save_firmware_hash. destruct (negb ok); [rewrite ee_log|]; apply P.
Qed.

(** C31. The recovery button switches, but not the hash.  Held at a start of a device whose
    other partition verifies, it boots that partition.  The hash of the image is to be
    stored as well, so that the start-up check accepts it; but the settings store is not
    open so early, and nothing is written: the image is accepted only if the stored hash,
    that of the image left behind, is its own. *)
(* @prop error W=recovery_loses_hash_witness D=ota_check_recovery_button,setup,ota_verify_and_set_boot *)
Theorem recovery_loses_hash s h : boot s = running s -> has_ota_slot = true -> recovery_switch_guard s <> RECOVERY_SWITCH_MAGIC ->
  esp_partition_get_sha256 (image (negb (running s)) s) = Some h ->
  exists s', step lib early (Restart true true) s = Some s' /\ running s' = negb (running s) /\ ee (cf s') = ee (cf s) /\
    fw_signature_validated s' = accepted s' /\ accepted s' = bool_decide (h = @device_load_firmware_hash _ E lib (ee (cf s))).
Proof.
  intros Hb Hslot Hg Hh. rewrite <- Hb in *. cbn [step]. rewrite (recover lib early h true s Hslot Hg Hh). set (s1 := s <| recovery_switch_guard := _ |> <| cf ::= _ |> <| boot := _ |>).
  assert (Hi : forall p, image p s1 = image p s) by (intros []; reflexivity).
  assert (Hc : ee (cf s1) = ee (cf s)) by (change (cf s1) with (@device_save_firmware_hash _ E early true h (cf s)); apply early_saves_nothing).
  eexists. split; [reflexivity|]. split; [reflexivity|]. split; [exact Hc|].
  split; [apply checked_accepts; change (boot s1) with (negb (boot s)); rewrite Hi; congruence|]. unfold accepted. apply bool_decide_ext.
  change (cf (checked lib (restarted s1))) with (cf s1). rewrite Hc. change (running (checked lib (restarted s1))) with (negb (boot s)).
  replace (image (negb (boot s)) (checked lib (restarted s1))) with (image (negb (boot s)) s1) by (destruct (boot s); reflexivity).
  rewrite Hi, Hh. split; [now intros [= ->]|now intros ->].
Qed.
End Outcome.

Section Edges.
Context {B : Board} {E : Type} (lib early : Eeprom E) `{OtaPlatform}.
Abbreviation ota := (ota E).
Implicit Types (s : ota).

(** A hold through any number of restarts switches once: the guard lasts as long as the
    power does. *)
Lemma guarded_restart s held switches : recovery_switch_guard s = RECOVERY_SWITCH_MAGIC -> setup lib early 2 held switches s = Some (checked lib (restarted s)).
Proof.
  intros Hg. cbn [setup]. unfold ota_check_recovery_button. change (recovery_switch_guard (restarted s)) with (recovery_switch_guard s). rewrite Hg.
  now destruct held.
Qed.
Lemma held_switches_once n s h : boot s = running s -> has_ota_slot = true -> recovery_switch_guard s <> RECOVERY_SWITCH_MAGIC ->
  esp_partition_get_sha256 (image (negb (running s)) s) = Some h ->
  exists s', run lib early (repeat (Restart true true) (S n)) s = Some s' /\ running s' = negb (running s).
Proof.
  intros Hb Hslot Hg Hh. rewrite <- Hb in *. cbn [repeat run step]. rewrite (recover lib early h true s Hslot Hg Hh). cbn [mbind option_bind].
  set (s1 := checked lib _). assert (P : recovery_switch_guard s1 = RECOVERY_SWITCH_MAGIC /\ running s1 = negb (boot s) /\ boot s1 = negb (boot s)) by now split_and!.
  clearbody s1. destruct P as (P1 & P2 & P3). revert s1 P1 P2 P3. induction n as [|n IH]; intros s1 P1 P2 P3; [now exists s1|].
  cbn [repeat run step]. rewrite guarded_restart by exact P1. cbn [mbind option_bind]. apply IH; [exact P1|exact P3|exact P3].
Qed.
(** An upload that is broken off leaves the device saying it is busy, to every install,
    until another upload or a restart. *)
Lemma aborted_upload_blocks begins now writes d switches s : has_ota_slot = true ->
  exists s', step lib early (Upload begins now writes None) s = Some s' /\ ota_in_progress s' = true /\
    exists said', step lib early (Install true d switches) s' = Some (s' <| said := said s' ++ said' |>) /\ hd_error said' = Some (Says "BUSY").
Proof.
  intros Hslot. eexists. split; [reflexivity|]. set (s1 := upload _ _). assert (Hp : ota_in_progress s1 = true).
  { unfold s1, upload, chunks. rewrite foldl_app. cbn [foldl]. set (s2 := ota_handle_upload_chunk (UPLOAD_FILE_START begins now) s).
    assert (H2 : ota_in_progress s2 = true) by (unfold s2, ota_handle_upload_chunk; destruct (ota_upload_target _) as [[]|]; reflexivity).
    clearbody s2. change (ota_in_progress (foldl (fun s c => ota_handle_upload_chunk c s) s2 (map (fun '(w, l) => UPLOAD_FILE_WRITE w l) writes)) = true).
    revert s2 H2. induction writes as [|[w l] writes IH]; intros s2 H2; [exact H2|]. cbn [map foldl]. apply IH. cbn [ota_handle_upload_chunk].
    destruct (ota_upload_target s2) as [[]|]; [| |exact H2]; destruct (ota_upload_ok s2); exact H2. }
  clearbody s1. split; [exact Hp|]. exists [Says "BUSY"; Says "Update failed"]. split; [|reflexivity].
  cbn [step]. unfold ota_handle_install, ota_do_pull_download. rewrite Hp. cbn [negb mbind option_bind settle]. unfold tell. destruct s1. cbn.
  now rewrite <- app_assoc.
Qed.
End Edges.

(** ** Witnesses *)

(** A platform on which an image starts with the byte its hash repeats, and a device that
    runs image 1, its hash stored. *)
#[local] Instance toy_ota : OtaPlatform := {
  esp_partition_get_sha256 i := match i with b :: _ => if is_u8b b then Some (repeat b 32) else None | [] => None end;
  has_ota_slot := true
}.
#[local, refine] Instance toy_ota_laws : OtaPlatformLaws := {}.
Proof.
  intros [|b i] h; [discriminate|]. change (esp_partition_get_sha256 (b :: i)) with (if is_u8b b then Some (repeat b 32) else None).
  destruct (is_u8b b) eqn:Hb; [|discriminate]. intros [= <-]. split; [|reflexivity].
  assert (Hu : is_u8 b) by (unfold is_u8b in Hb; unfold is_u8; lia). repeat (constructor; [exact Hu|]). constructor.
Defined.
#[local] Instance closed_eeprom : Eeprom Eeprom.image := { ee_read _ _ := 0; ee_write _ _ e := e; ee_format e := e }.
Definition stored_1 : conf Eeprom.image :=
  @device_save_firmware_hash heltec32_v3 _ image_eeprom true (repeat 1 32) (mk_conf ∅ (default_prefs f_zero f_zero) []).
Definition device (ok : bool) : ota Eeprom.image := mk_ota stored_1 [1] [2] false false 0 ok [] false false (-1) None false false [].
Definition acts (a : list action) (s : ota Eeprom.image) := @run heltec32_v3 _ image_eeprom closed_eeprom _ a s.
Definition upload_3 : action := Upload true [] [(true, [3]); (true, [3; 3])] (Some (true, true)).
Lemma device_good ok : good (device ok).
Proof. split; [reflexivity|]. split; [discriminate|now left]. Qed.
Lemma hash_fits_v3 : EEPROM_RESERVED + DEV_SIG_LEN + DEV_HASH_LEN <= @EEPROM_SIZE heltec32_v3.
Proof. discriminate. Qed.
(** Uploads, one of them cut short with seven bytes of the hash stored, and the button. *)
Definition troubled : list action := [CutUpload true [] [(true, [3])] (Some 7%nat) 5; Restart true true; upload_3; CutInstall [[4]; []] 9].
Lemma updates_keep_firmware_witness :
  option_map running (acts troubled (device true)) = Some true /\ forall s', acts troubled (device true) = Some s' -> good s'.
Proof.
  split; [vm_compute; reflexivity|]. unfold acts. intros s' Hs.
  refine (proj1 (@updates_keep_firmware heltec32_v3 _ image_eeprom closed_eeprom _ troubled (device true) s' (device_good true) ltac:(repeat constructor) Hs)).
Defined.
Lemma upload_outcome_witness :
  (exists s', acts [upload_3] (device true) = Some s' /\ running s' = true /\ fw_signature_validated s' = true) /\
  (exists s', acts [upload_3] (device false) = Some s' /\ running s' = false /\ fw_signature_validated s' = false).
Proof.
  pose proof (@upload_outcome heltec32_v3 _ image_eeprom image_laws closed_eeprom _ _ hash_fits_v3 [] [(true, [3]); (true, [3; 3])]) as P.
  split; [destruct (P (device true) [3; 3] (repeat 3 32) (device_good true) eq_refl ltac:(repeat constructor) eq_refl eq_refl) as (s' & E1 & I1)
         |destruct (P (device false) [3; 3] (repeat 3 32) (device_good false) eq_refl ltac:(repeat constructor) eq_refl eq_refl) as (s' & E1 & I1)];
    exists s'; (split; [unfold acts; cbn [run]; unfold upload_3; rewrite E1; reflexivity|]); (split; [exact (in_running _ _ _ _ _ _ I1)|]); rewrite (in_accepted _ _ _ _ _ _ I1).
  - pose proof (in_image _ _ _ _ _ _ I1) as Hi. change (image true s' = [3; 3]) in Hi. cbn [fw_signature_validated device negb running]. now rewrite Hi.
  - pose proof (in_kept _ _ _ _ _ _ I1) as Hi. change (image false s' = [1]) in Hi. cbn [fw_signature_validated device negb running]. now rewrite Hi.
Defined.
Lemma recovery_loses_hash_witness :
  exists s', acts [Restart true true] (device true) = Some s' /\ running s' = true /\ fw_signature_validated s' = false.
Proof.
  destruct (@recovery_loses_hash heltec32_v3 _ image_eeprom closed_eeprom toy_ota toy_ota_laws (fun _ _ _ => eq_refl) (device true) (repeat 2 32) eq_refl eq_refl ltac:(discriminate) eq_refl)
    as (s' & E1 & R1 & _ & F1 & F2).
  exists s'. split; [unfold acts; cbn [run]; rewrite E1; reflexivity|]. split; [exact R1|]. rewrite F1, F2. vm_compute. reflexivity.
Defined.
(** A power cut after the hash is stored and before the partition is switched: the old
    firmware is no longer accepted, and no upload gets past it from then on. *)
Example cut_then_stuck :
  option_map (fun s => (running s, fw_signature_validated s)) (acts [CutUpload true [] [(true, [3])] (Some 32%nat) 0] (device true)) = Some (false, false) /\
  option_map (fun s => (running s, fw_signature_validated s)) (acts [CutUpload true [] [(true, [3])] (Some 32%nat) 0; upload_3; upload_3] (device true)) = Some (false, false).
Proof. split; vm_compute; reflexivity. Qed.
