(* ===== verification/Chat.v ===== *)
(** * The chat (Messenger.h, Menu.h, MessageStore.cpp)

    The dialog view of a conversation: the messages the store keeps of a peer, the window
    of five that is on the screen, the keys that browse it, and the line that is edited
    below. *)
From Stdlib Require Import String.
From S2P Require Import Prelude HidKeyboard Keyboard Contacts.
From stdpp Require Import list.
#[local] Open Scope Z_scope.

(** ** Constants *)

(* @src Messenger.h:48-48 MSNGR_PEER_MAX_MSG_ROWS *)
Definition MSNGR_PEER_MAX_MSG_ROWS : Z := 5.
(* @src Messenger.h:58-58 MSNGR_PEER_SNIPPET_CAP *)
Definition MSNGR_PEER_SNIPPET_CAP : Z := 160.
(* @src Menu.h:2730-2730 MSNGR_CHAT_PAGE_ROWS *)
Definition MSNGR_CHAT_PAGE_ROWS : Z := 4.
(* @src Menu.h:2734-2734 MSNGR_CHAT_SEL_TIMEOUT_MS *)
Definition MSNGR_CHAT_SEL_TIMEOUT_MS : Z := 10000.
(* @src lib/microLXMF/src/LXMF/MessageStore.h:74-74 RETAINED_MESSAGES_PER_CONVERSATION *)
Definition RETAINED_MESSAGES_PER_CONVERSATION : nat := 50.

(** ** The conversation *)

(** The messages of a peer, oldest first, by their hashes. *)
(* @src lib/microLXMF/src/LXMF/MessageStore.cpp:959-970 MessageStore::trim_conversation_to_retention *)
Definition trim_conversation_to_retention (reserve : nat) (conv : list (list Z)) : list (list Z) :=
  drop (length conv + reserve - RETAINED_MESSAGES_PER_CONVERSATION) conv.
(** A message is saved: room is made for one that is new, it is appended, and the limit
    applied again. *)
(* @src lib/microLXMF/src/LXMF/MessageStore.cpp:671-697 MessageStore::save_message *)
Definition keep_message (hash : list Z) (conv : list (list Z)) : list (list Z) :=
  let is_resave := bool_decide (hash ∈ conv) in
  let conv := trim_conversation_to_retention (if is_resave then 0 else 1) conv in
  let conv := if bool_decide (hash ∈ conv) then conv else conv ++ [hash] in
  trim_conversation_to_retention 0 conv.
(** The first that matches goes. *)
(* @src lib/microLXMF/src/LXMF/MessageStore.cpp:44-75 ConversationInfo::remove_message_hash *)
Fixpoint remove_message_hash (hash : list Z) (conv : list (list Z)) : list (list Z) :=
  match conv with
  | [] => []
  | h :: conv => if bool_decide (h = hash) then conv else h :: remove_message_hash hash conv
  end.

(** ** State *)

(** A message's text, whether it came in and the mode of its voice, as
    [load_message_metadata] reads them; [None] when it can not. *)
Class Metadata := { load_message_metadata : list Z -> option (list Z * bool * Z) }.
(* @src Messenger.h:347-352 MessengerPeerMsgCacheRow *)
Record row := mk_row { row_hash : list Z; row_snippet : list Z; row_incoming : bool }.
Definition row0 : row := mk_row (repeat 0 32) [] false.
(** [conversation] is what the store has of the active peer now. *)
(* @src Messenger.h:410-432 msngr_chat_cache *)
Record chat := mk_chat {
  conversation : list (list Z);
  msngr_chat_cache : list row; msngr_chat_cache_count : Z; msngr_chat_window_start : Z; msngr_chat_total_count : Z;
  msngr_chat_sel : Z; msngr_chat_sel_last_activity_ms : Z;
  msngr_chat_delete_confirm_pending : bool; msngr_msg_view_active : bool; msngr_msg_view_scroll_line : Z; msngr_msg_view_hash : list Z;
  chat_text : list Z; msngr_chat_cursor : Z
}.
Definition chat0 (conv : list (list Z)) : chat :=
  mk_chat conv (repeat row0 5) 0 0 0 0xFF 0 false false 0 [] (repeat 0 141) 0.

Section Chat.
Context `{Metadata}.
Implicit Types (s : chat) (now : Z).

(** ** The window *)

(* @src Messenger.h:632-647 messenger_refresh_chat_window *)
Definition chat_row (hash : list Z) : row :=
  match load_message_metadata hash with
  | Some (content, incoming, audio_mode) =>
      let snippet := msngr_kb_decode_utf8 (c_str content) MSNGR_PEER_SNIPPET_CAP in
      let snippet := if negb (audio_mode =? 0)
                     then take 159 (chars "Voice" ++ (if zlen snippet =? 0 then [] else chars " ") ++ snippet) else snippet in
      mk_row hash snippet incoming
  | None => mk_row hash (chars "?") false
  end.
(** The rows are written from the first on; those behind keep what they had. *)
(* @src Messenger.h:626-647 messenger_refresh_chat_window *)
Definition fill_rows (hashes : list (list Z)) (rows : list row) : list row :=
  map chat_row hashes ++ drop (length hashes) rows.
(* @src Messenger.h:600-622 messenger_refresh_chat_window *)
Definition clamp_start (start total : Z) : Z :=
  let start := if total <? start then total else start in
  if total <? u32 (start + MSNGR_PEER_MAX_MSG_ROWS)
  then (if MSNGR_PEER_MAX_MSG_ROWS <? total then total - MSNGR_PEER_MAX_MSG_ROWS else 0) else start.
(** An index of 2^32 - 1 is the end. *)
(* @src Messenger.h:590-650 messenger_refresh_chat_window *)
Definition messenger_refresh_chat_window (start_index : Z) s : chat :=
  let hashes := conversation s in
  let total := zlen hashes in
  let start := clamp_start start_index total in
  let n := u8 (Z.min MSNGR_PEER_MAX_MSG_ROWS (u32 (total - start))) in
  s <| msngr_chat_total_count := total |> <| msngr_chat_window_start := start |>
    <| msngr_chat_cache ::= fill_rows (take (Z.to_nat n) (drop (Z.to_nat start) hashes)) |> <| msngr_chat_cache_count := n |>.
Definition SIZE_MAX : Z := 4294967295.
(* @src Messenger.h:663-670 messenger_refresh_chat_window_if_stale *)
Definition messenger_refresh_chat_window_if_stale s : chat :=
  if negb (zlen (conversation s) =? msngr_chat_total_count s)
  then (messenger_refresh_chat_window SIZE_MAX s) <| msngr_chat_sel := 0xFF |> else s.

(** ** Browsing *)

(* @src Menu.h:2747-2753 msngr_chat_enter_browsing *)
Definition msngr_chat_enter_browsing s : chat :=
  if negb (msngr_chat_sel s =? 0xFF) then s
  else if 0 <? msngr_chat_cache_count s then s <| msngr_chat_sel := u8 (msngr_chat_cache_count s - 1) |> else s.
(* @src Menu.h:2755-2757 msngr_chat_exit_browsing *)
Definition msngr_chat_exit_browsing s : chat := s <| msngr_chat_sel := 0xFF |>.
Definition touched now s : chat := s <| msngr_chat_sel_last_activity_ms := now |>.
Definition select_last (none : Z) s : chat :=
  s <| msngr_chat_sel := if 0 <? msngr_chat_cache_count s then u8 (msngr_chat_cache_count s - 1) else none |>.
(* @src Menu.h:2759-2767 msngr_chat_nav_up *)
Definition msngr_chat_nav_up now s : chat :=
  let s := touched now s in
  if msngr_chat_sel s =? 0xFF then msngr_chat_enter_browsing s
  else if 0 <? msngr_chat_sel s then s <| msngr_chat_sel := u8 (msngr_chat_sel s - 1) |>
  else if 0 <? msngr_chat_window_start s
  then (messenger_refresh_chat_window (msngr_chat_window_start s - 1) s) <| msngr_chat_sel := 0 |> else s.
(* @src Menu.h:2769-2777 msngr_chat_nav_down *)
Definition msngr_chat_nav_down now s : chat :=
  let s := touched now s in
  if msngr_chat_sel s =? 0xFF then msngr_chat_enter_browsing s
  else if msngr_chat_sel s + 1 <? msngr_chat_cache_count s then s <| msngr_chat_sel := u8 (msngr_chat_sel s + 1) |>
  else if u32 (msngr_chat_window_start s + msngr_chat_cache_count s) <? msngr_chat_total_count s
  then select_last 0 (messenger_refresh_chat_window (msngr_chat_window_start s + 1) s) else s.
(* @src Menu.h:2779-2785 msngr_chat_nav_page_up *)
Definition msngr_chat_nav_page_up now s : chat :=
  let s := msngr_chat_enter_browsing (touched now s) in
  let new_start := if MSNGR_CHAT_PAGE_ROWS <? msngr_chat_window_start s then msngr_chat_window_start s - MSNGR_CHAT_PAGE_ROWS else 0 in
  (messenger_refresh_chat_window new_start s) <| msngr_chat_sel := 0 |>.
(* @src Menu.h:2787-2792 msngr_chat_nav_page_down *)
Definition msngr_chat_nav_page_down now s : chat :=
  let s := msngr_chat_enter_browsing (touched now s) in
  select_last 0 (messenger_refresh_chat_window (u32 (msngr_chat_window_start s + MSNGR_CHAT_PAGE_ROWS)) s).
(* @src Menu.h:2794-2798 msngr_chat_nav_home *)
Definition msngr_chat_nav_home now s : chat := (messenger_refresh_chat_window 0 (touched now s)) <| msngr_chat_sel := 0 |>.
(* @src Menu.h:2800-2804 msngr_chat_nav_end *)
Definition msngr_chat_nav_end now s : chat := select_last 0xFF (messenger_refresh_chat_window SIZE_MAX (touched now s)).

(** ** Editing *)

Definition text_len s : Z := zlen (c_str (chat_text s)).
(** The loop that makes room: [n] cells up to [i] take their predecessor's value. *)
(* @src Menu.h:2692-2694 msngr_chat_insert_char *)
Fixpoint shift_up (n i : nat) (buf : list Z) : list Z :=
  match n with
  | O => buf
  | S n => shift_up n (i - 1) (<[i := default 0 (buf !! (i - 1)%nat)]> buf)
  end.
(* @src Menu.h:2687-2697 msngr_chat_insert_char *)
Definition msngr_chat_insert_char (c : Z) s : chat :=
  let len := text_len s in
  if MSNGR_TEXT_ENTRY_MAX_LEN <=? len then s
  else
    let cursor := if len <? msngr_chat_cursor s then u8 len else msngr_chat_cursor s in
    let buf := shift_up (Z.to_nat (len + 1 - cursor)) (Z.to_nat (len + 1)) (chat_text s) in
    s <| chat_text := <[Z.to_nat cursor := c]> buf |> <| msngr_chat_cursor := u8 (cursor + 1) |>.
(** [n] cells from [i] on take their successor's value. *)
(* @src Menu.h:2707-2709 msngr_chat_backspace *)
Fixpoint close_up (n i : nat) (buf : list Z) : list Z :=
  match n with
  | O => buf
  | S n => close_up n (S i) (<[i := default 0 (buf !! S i)]> buf)
  end.
(* @src Menu.h:2704-2711 msngr_chat_backspace *)
Definition msngr_chat_backspace s : chat :=
  if msngr_chat_cursor s =? 0 then s
  else
    let i := msngr_chat_cursor s - 1 in
    s <| chat_text ::= close_up (Z.to_nat (text_len s - i)) (Z.to_nat i) |> <| msngr_chat_cursor := u8 i |>.
(* @src Menu.h:2713-2715 msngr_chat_cursor_left *)
Definition msngr_chat_cursor_left s : chat := if 0 <? msngr_chat_cursor s then s <| msngr_chat_cursor := u8 (msngr_chat_cursor s - 1) |> else s.
(* @src Menu.h:2717-2720 msngr_chat_cursor_right *)
Definition msngr_chat_cursor_right s : chat :=
  if msngr_chat_cursor s <? text_len s then s <| msngr_chat_cursor := u8 (msngr_chat_cursor s + 1) |> else s.

(** ** Keys *)

(** What a key asks of the rest of the menu. *)
Inductive chat_call := NoCall | DoSend | LeaveChat | ToggleLang.
(** The full view of the selected message. *)
(* @src Menu.h:8476-8487 blekbd_key_event *)
Definition open_view s : chat :=
  s <| msngr_msg_view_hash := row_hash (default row0 (msngr_chat_cache s !! Z.to_nat (msngr_chat_sel s))) |>
    <| msngr_msg_view_active := true |> <| msngr_msg_view_scroll_line := 0 |>.
(** Deleting the selected message. *)
(* @src Menu.h:8404-8420 blekbd_key_event *)
Definition delete_selected s : chat :=
  if negb (msngr_chat_sel s =? 0xFF) && (msngr_chat_sel s <? msngr_chat_cache_count s) then
    let hash := row_hash (default row0 (msngr_chat_cache s !! Z.to_nat (msngr_chat_sel s))) in
    let s := messenger_refresh_chat_window (msngr_chat_window_start s) (s <| conversation ::= remove_message_hash hash |>) in
    s <| msngr_chat_sel := if 0 <? msngr_chat_cache_count s
                           then (if msngr_chat_sel s <? msngr_chat_cache_count s then msngr_chat_sel s else u8 (msngr_chat_cache_count s - 1)) else 0xFF |>
      <| msngr_msg_view_active := false |>
  else s.
Definition is_one_of (l : list Z) (ch : Z) : bool := existsb (Z.eqb ch) l.
(** The keys of the screen, in the order the code tries them: the dialog that confirms a
    deletion, the full view, the browsing keys, a selected message, the line that is
    composed. *)
(* @src Menu.h:8391-8518 blekbd_key_event *)
Definition blekbd_chat_key (ch now : Z) s : chat * chat_call :=
  if msngr_chat_delete_confirm_pending s then
    let s := touched now s in
    if is_one_of [10; 121; 89] ch then (delete_selected (s <| msngr_chat_delete_confirm_pending := false |>), NoCall)
    else if is_one_of [8; 27; 110; 78] ch then (s <| msngr_chat_delete_confirm_pending := false |>, NoCall)
    else (s, NoCall)
  else if msngr_msg_view_active s then
    if ch =? BLEKBD_CH_UP then
      ((if 0 <? msngr_msg_view_scroll_line s then s <| msngr_msg_view_scroll_line := msngr_msg_view_scroll_line s - 1 |> else s), NoCall)
    else if ch =? BLEKBD_CH_DOWN then (s <| msngr_msg_view_scroll_line := msngr_msg_view_scroll_line s + 1 |>, NoCall)
    else if ch =? 27 then (s <| msngr_msg_view_active := false |>, NoCall)
    else if ch =? 8 then (s <| msngr_chat_delete_confirm_pending := true |>, NoCall)
    else (s, NoCall)
  else if ch =? BLEKBD_CH_UP then (msngr_chat_nav_up now s, NoCall)
  else if ch =? BLEKBD_CH_DOWN then (msngr_chat_nav_down now s, NoCall)
  else if ch =? BLEKBD_CH_PAGE_UP then (msngr_chat_nav_page_up now s, NoCall)
  else if ch =? BLEKBD_CH_PAGE_DOWN then (msngr_chat_nav_page_down now s, NoCall)
  else if ch =? BLEKBD_CH_HOME then (msngr_chat_nav_home now s, NoCall)
  else if ch =? BLEKBD_CH_END then (msngr_chat_nav_end now s, NoCall)
  else if negb (msngr_chat_sel s =? 0xFF) then
    if ch =? 8 then (s <| msngr_chat_delete_confirm_pending := true |>, NoCall)
    else if ch =? 27 then (msngr_chat_exit_browsing s, NoCall)
    else if ch =? 10 then (open_view s, NoCall)
    else if negb (is_one_of [0; BLEKBD_CH_LEFT; BLEKBD_CH_RIGHT; BLEKBD_CH_TOGGLE_LANG; BLEKBD_CH_OPEN_MESSENGER; BLEKBD_CH_OPEN_SETTINGS] ch)
         then (msngr_chat_exit_browsing s, NoCall)
    else (s, NoCall)
  else if ch =? 10 then (s, DoSend)
  else if ch =? 8 then (msngr_chat_backspace s, NoCall)
  else if ch =? 27 then (s, LeaveChat)
  else if ch =? BLEKBD_CH_LEFT then (msngr_chat_cursor_left s, NoCall)
  else if ch =? BLEKBD_CH_RIGHT then (msngr_chat_cursor_right s, NoCall)
  else if ch =? BLEKBD_CH_TOGGLE_LANG then (s, ToggleLang)
  else if negb (is_one_of [0; BLEKBD_CH_OPEN_MESSENGER; BLEKBD_CH_OPEN_SETTINGS] ch) then (msngr_chat_insert_char ch s, NoCall)
  else (s, NoCall).
(** What every redraw does first: a conversation that has grown or shrunk is shown from its
    end, and a selection left alone for ten seconds is given up. *)
(* @src Menu.h:11889-11904 draw_settings_menu_disp *)
Definition redraw_chat now s : chat :=
  let s := messenger_refresh_chat_window_if_stale s in
  if negb (msngr_chat_sel s =? 0xFF) && (MSNGR_CHAT_SEL_TIMEOUT_MS <=? i32 (u32 (now - msngr_chat_sel_last_activity_ms s)))
  then s <| msngr_chat_sel := 0xFF |> <| msngr_chat_delete_confirm_pending := false |> else s.
(** Opening the chat: the end of the conversation, nothing selected. *)
(* @src Menu.h:7496-7503 menu_confirm_select *)
Definition open_chat (conv : list (list Z)) s : chat :=
  messenger_refresh_chat_window SIZE_MAX
    (s <| conversation := conv |> <| chat_text := 0 :: drop 1 (chat_text s) |> <| msngr_chat_cursor := 0 |> <| msngr_chat_sel := 0xFF |>
       <| msngr_chat_delete_confirm_pending := false |> <| msngr_msg_view_active := false |>).
End Chat.
