(* ===== verification/ChatBrowse.v ===== *)
(** * Browsing and editing in the chat

    The browsing keys move a position through the whole conversation, the window following
    just as far as it must; the editing keys insert and remove at a cursor; and which new
    messages a redraw notices. *)
From Stdlib Require Import String.
From S2P Require Import Prelude HidKeyboard Keyboard Contacts ContactsBook Chat.
From stdpp Require Import list.
#[local] Open Scope Z_scope.

Section Browse.
Context `{Metadata}.
Implicit Types (s : chat) (conv : list (list Z)) (now : Z).

(** ** The window *)

(** The last window a conversation of [total] messages has. *)
Definition last_start (total : Z) : Z := Z.max 0 (total - MSNGR_PEER_MAX_MSG_ROWS).
Record window_ok s : Prop := {
  wo_len : zlen (conversation s) <= 256;
  wo_total : msngr_chat_total_count s = zlen (conversation s);
  wo_start : 0 <= msngr_chat_window_start s <= last_start (zlen (conversation s));
  wo_count : msngr_chat_cache_count s = Z.min MSNGR_PEER_MAX_MSG_ROWS (zlen (conversation s));
  wo_cache : length (msngr_chat_cache s) = 5%nat;
  wo_rows : forall i, 0 <= i < msngr_chat_cache_count s ->
    msngr_chat_cache s !! Z.to_nat i = chat_row <$> conversation s !! Z.to_nat (msngr_chat_window_start s + i);
  wo_sel : msngr_chat_sel s = 0xFF \/ 0 <= msngr_chat_sel s < msngr_chat_cache_count s
}.
Lemma clamp_start_spec x total : 0 <= x -> 0 <= total <= 256 -> clamp_start x total = Z.min x (last_start total).
Proof.
  intros Hx Ht. unfold clamp_start, last_start, MSNGR_PEER_MAX_MSG_ROWS. destruct (Z.ltb_spec total x); rewrite u32_id by lia.
  - rewrite (proj2 (Z.ltb_lt _ _)) by lia. destruct (Z.ltb_spec 5 total); lia.
  - destruct (Z.ltb_spec total (x + 5)); [destruct (Z.ltb_spec 5 total); lia|lia].
Qed.
Lemma refresh_window x s : 0 <= x -> zlen (conversation s) <= 256 -> length (msngr_chat_cache s) = 5%nat ->
  let s' := messenger_refresh_chat_window x s in
  conversation s' = conversation s /\ msngr_chat_window_start s' = Z.min x (last_start (zlen (conversation s))) /\
  msngr_chat_cache_count s' = Z.min MSNGR_PEER_MAX_MSG_ROWS (zlen (conversation s)) /\
  (msngr_chat_sel s = 0xFF -> window_ok s') /\ forall sel, 0 <= sel < Z.min MSNGR_PEER_MAX_MSG_ROWS (zlen (conversation s)) -> window_ok (s' <| msngr_chat_sel := sel |>).
Proof.
  intros Hx Hl Hc. cbv zeta. unfold messenger_refresh_chat_window. pose proof (zlen_nonneg (conversation s)) as Hp.
  rewrite clamp_start_spec by lia. set (total := zlen (conversation s)) in *. set (start := Z.min x (last_start total)).
  assert (Hs : 0 <= start <= last_start total) by (unfold start, last_start; lia).
  assert (Hn : u8 (Z.min MSNGR_PEER_MAX_MSG_ROWS (u32 (total - start))) = Z.min MSNGR_PEER_MAX_MSG_ROWS total).
  { unfold last_start, MSNGR_PEER_MAX_MSG_ROWS in *. rewrite u32_id by lia. rewrite u8_id by (unfold is_u8; lia). lia. }
  rewrite Hn. set (n := Z.min MSNGR_PEER_MAX_MSG_ROWS total) in *. set (hashes := take (Z.to_nat n) (drop (Z.to_nat start) (conversation s))).
  assert (Hh : length hashes = Z.to_nat n).
  { unfold hashes. rewrite length_take, length_drop. unfold total, zlen, n, last_start, MSNGR_PEER_MAX_MSG_ROWS in *. lia. }
  assert (Hrows : length (fill_rows hashes (msngr_chat_cache s)) = 5%nat /\ forall i, 0 <= i < n ->
    fill_rows hashes (msngr_chat_cache s) !! Z.to_nat i = chat_row <$> conversation s !! Z.to_nat (start + i)).
  { unfold fill_rows. split; [rewrite length_app, length_map, length_drop; unfold n, MSNGR_PEER_MAX_MSG_ROWS in *; lia|].
    intros i Hi. rewrite lookup_app_l by (rewrite length_map; lia). rewrite list_lookup_fmap. unfold hashes. rewrite lookup_take, decide_True by lia.
    rewrite lookup_drop. do 2 f_equal. lia. }
  destruct Hrows as [Hr1 Hr2]. split; [reflexivity|]. split; [reflexivity|]. split; [reflexivity|]. split.
  - intros Hsel. constructor; [exact Hl|reflexivity|exact Hs|reflexivity|exact Hr1|exact Hr2|left; exact Hsel].
  - intros sel Hsel. constructor; [exact Hl|reflexivity|exact Hs|reflexivity|exact Hr1|exact Hr2|right; exact Hsel].
Qed.
Lemma window_parts s s' : window_ok s -> conversation s' = conversation s -> msngr_chat_total_count s' = msngr_chat_total_count s ->
  msngr_chat_window_start s' = msngr_chat_window_start s -> msngr_chat_cache_count s' = msngr_chat_cache_count s -> msngr_chat_cache s' = msngr_chat_cache s ->
  msngr_chat_sel s' = 0xFF \/ 0 <= msngr_chat_sel s' < msngr_chat_cache_count s -> window_ok s'.
Proof. intros [] E1 E2 E3 E4 E5 E6. constructor; rewrite ?E1, ?E2, ?E3, ?E4, ?E5; assumption. Qed.

(** ** The keys *)

Inductive browse_key := KeyUp | KeyDown | KeyPageUp | KeyPageDown | KeyHome | KeyEnd.
Definition key_code (k : browse_key) : Z :=
  match k with
  | KeyUp => BLEKBD_CH_UP | KeyDown => BLEKBD_CH_DOWN | KeyPageUp => BLEKBD_CH_PAGE_UP | KeyPageDown => BLEKBD_CH_PAGE_DOWN
  | KeyHome => BLEKBD_CH_HOME | KeyEnd => BLEKBD_CH_END
  end.
Definition press (keys : list (browse_key * Z)) s : chat := foldl (fun s '(k, now) => fst (blekbd_chat_key (key_code k) now s)) s keys.

(** The specification: where the window starts, and which message of the conversation is
    selected, if one is. *)
Definition position s : Z * option Z :=
  (msngr_chat_window_start s, if msngr_chat_sel s =? 0xFF then None else Some (msngr_chat_window_start s + msngr_chat_sel s)).
Definition browse (total : Z) (k : browse_key) (p : Z * option Z) : Z * option Z :=
  let '(start, sel) := p in
  let last := total - 1 in
  let bottom start := Some (Z.min (start + MSNGR_PEER_MAX_MSG_ROWS - 1) last) in
  match k with
  | KeyUp => match sel with
             | None => (start, bottom start)
             | Some m => let m := Z.max 0 (m - 1) in (Z.min start m, Some m)
             end
  | KeyDown => match sel with
               | None => (start, bottom start)
               | Some m => let m := Z.min (m + 1) last in (Z.max start (m - MSNGR_PEER_MAX_MSG_ROWS + 1), Some m)
               end
  | KeyPageUp => let start := Z.max 0 (start - MSNGR_CHAT_PAGE_ROWS) in (start, Some start)
  | KeyPageDown => let start := Z.min (start + MSNGR_CHAT_PAGE_ROWS) (last_start total) in (start, bottom start)
  | KeyHome => (0, Some 0)
  | KeyEnd => (last_start total, Some last)
  end.
Definition browsing s : Prop := msngr_chat_delete_confirm_pending s = false /\ msngr_msg_view_active s = false.

(** A step of the browsing: the window is sound, nothing else has changed, and the position
    is [p]. *)
Record moved s s' (p : Z * option Z) : Prop := {
  mv_window : window_ok s'; mv_conversation : conversation s' = conversation s; mv_browsing : browsing s'; mv_position : position s' = p
}.
Lemma jump x sel now s : window_ok s -> browsing s -> 0 <= x -> 0 <= sel < Z.min MSNGR_PEER_MAX_MSG_ROWS (zlen (conversation s)) ->
  moved s ((messenger_refresh_chat_window x (touched now s)) <| msngr_chat_sel := sel |>)
    (let start := Z.min x (last_start (zlen (conversation s))) in (start, Some (start + sel))).
Proof.
  intros Hw Hb Hx Hsel. destruct (refresh_window x (touched now s) Hx (wo_len s Hw) (wo_cache s Hw)) as (E1 & E2 & _ & _ & H1).
  constructor; [apply H1, Hsel|reflexivity|exact Hb|]. unfold position. cbn [msngr_chat_sel msngr_chat_window_start].
  change (msngr_chat_window_start ((messenger_refresh_chat_window x (touched now s)) <| msngr_chat_sel := sel |>)) with (msngr_chat_window_start (messenger_refresh_chat_window x (touched now s))).
  change (msngr_chat_sel ((messenger_refresh_chat_window x (touched now s)) <| msngr_chat_sel := sel |>)) with sel.
  rewrite E2, (proj2 (Z.eqb_neq sel 255)) by (unfold MSNGR_PEER_MAX_MSG_ROWS in Hsel; lia). reflexivity.
Qed.
Lemma stay sel now s : window_ok s -> browsing s -> 0 <= sel < msngr_chat_cache_count s ->
  moved s ((touched now s) <| msngr_chat_sel := sel |>) (msngr_chat_window_start s, Some (msngr_chat_window_start s + sel)).
Proof.
  intros Hw Hb Hsel. pose proof (wo_count s Hw) as Hc. constructor; [|reflexivity|exact Hb|].
  - apply (window_parts s); try reflexivity; [exact Hw|right; exact Hsel].
  - unfold position. change (msngr_chat_sel ((touched now s) <| msngr_chat_sel := sel |>)) with sel.
    rewrite (proj2 (Z.eqb_neq sel 255)) by (unfold MSNGR_PEER_MAX_MSG_ROWS in Hc; lia). reflexivity.
Qed.
Lemma chat_key k now s : browsing s -> fst (blekbd_chat_key (key_code k) now s) =
  match k with
  | KeyUp => msngr_chat_nav_up now s | KeyDown => msngr_chat_nav_down now s | KeyPageUp => msngr_chat_nav_page_up now s
  | KeyPageDown => msngr_chat_nav_page_down now s | KeyHome => msngr_chat_nav_home now s | KeyEnd => msngr_chat_nav_end now s
  end.
Proof. intros [H1 H2]. unfold blekbd_chat_key. rewrite H1, H2. now destruct k. Qed.
Lemma set_sel_same s : s <| msngr_chat_sel := msngr_chat_sel s |> = s.
Proof. now destruct s. Qed.
Lemma moved_to s s' p q : moved s s' p -> p = q -> moved s s' q.
Proof. now intros ? <-. Qed.

(** Arithmetic on positions. *)
Ltac positions := cbn [browse]; cbv zeta; unfold last_start, MSNGR_PEER_MAX_MSG_ROWS, MSNGR_CHAT_PAGE_ROWS in *; apply pair_equal_spec; split; [lia|apply (f_equal Some); lia].
(** A key moves the position as the specification says. *)
Lemma up_down_moves k now s : k = KeyUp \/ k = KeyDown -> window_ok s -> conversation s <> [] -> browsing s ->
  moved s (match k with KeyUp => msngr_chat_nav_up now s | _ => msngr_chat_nav_down now s end) (browse (zlen (conversation s)) k (position s)).
Proof.
  intros Hk Hw Hne Hb. pose proof (wo_count s Hw) as Hc. pose proof (wo_start s Hw) as Hst. pose proof (wo_total s Hw) as Ht. pose proof (wo_len s Hw) as Hl.
  pose proof (wo_sel s Hw) as Hs.
  assert (Hp : 0 < zlen (conversation s)) by (destruct (conversation s); [congruence|unfold zlen; cbn; lia]).
  assert (Hf : msngr_chat_sel s = 0xFF -> moved s (msngr_chat_enter_browsing (touched now s)) (browse (zlen (conversation s)) k (msngr_chat_window_start s, None))).
  { intros Hn. unfold msngr_chat_enter_browsing. change (msngr_chat_sel (touched now s)) with (msngr_chat_sel s). rewrite Hn. cbn [negb Z.eqb Pos.eqb].
    unfold last_start, MSNGR_PEER_MAX_MSG_ROWS in *.
    change (msngr_chat_cache_count (touched now s)) with (msngr_chat_cache_count s). rewrite (proj2 (Z.ltb_lt 0 _)), u8_id by (unfold is_u8; lia).
    eapply moved_to; [apply (stay (msngr_chat_cache_count s - 1) now s); [exact Hw|exact Hb|lia]|]. destruct Hk as [-> | ->]; positions. }
  assert (Hj : forall x sel, 0 <= x -> 0 <= sel < Z.min 5 (zlen (conversation s)) -> moved s ((messenger_refresh_chat_window x (touched now s)) <| msngr_chat_sel := sel |>)
    (let start := Z.min x (last_start (zlen (conversation s))) in (start, Some (start + sel)))) by (intros x sel Hx Hsel; now apply jump).
  assert (Hkeep : msngr_chat_sel s <> 0xFF -> moved s (touched now s) (position s)).
  { intros Hn. replace (touched now s) with ((touched now s) <| msngr_chat_sel := msngr_chat_sel s |>) by apply (set_sel_same (touched now s)).
    unfold position. rewrite (proj2 (Z.eqb_neq _ _) Hn). apply stay; [exact Hw|exact Hb|lia]. }
  unfold position in *. destruct Hk as [-> | ->]; unfold msngr_chat_nav_up, msngr_chat_nav_down; change (msngr_chat_sel (touched now s)) with (msngr_chat_sel s);
    (destruct (Z.eqb_spec (msngr_chat_sel s) 0xFF) as [Hn|Hn]; [apply Hf, Hn|]); specialize (Hkeep Hn).
  - destruct (Z.ltb_spec 0 (msngr_chat_sel s)).
    + rewrite u8_id by (unfold is_u8; lia). eapply moved_to; [apply (stay (msngr_chat_sel s - 1) now s); [exact Hw|exact Hb|lia]|positions].
    + change (msngr_chat_window_start (touched now s)) with (msngr_chat_window_start s). destruct (Z.ltb_spec 0 (msngr_chat_window_start s)).
      * eapply moved_to; [apply (Hj (msngr_chat_window_start s - 1) 0); lia|positions].
      * eapply moved_to; [exact Hkeep|positions].
  - change (msngr_chat_cache_count (touched now s)) with (msngr_chat_cache_count s). change (msngr_chat_window_start (touched now s)) with (msngr_chat_window_start s).
    change (msngr_chat_total_count (touched now s)) with (msngr_chat_total_count s). rewrite Ht.
    destruct (Z.ltb_spec (msngr_chat_sel s + 1) (msngr_chat_cache_count s)).
    + rewrite u8_id by (unfold is_u8, last_start, MSNGR_PEER_MAX_MSG_ROWS in *; lia). eapply moved_to; [apply (stay (msngr_chat_sel s + 1) now s); [exact Hw|exact Hb|lia]|positions].
    + rewrite u32_id by (unfold last_start, MSNGR_PEER_MAX_MSG_ROWS in *; lia). destruct (Z.ltb_spec (msngr_chat_window_start s + msngr_chat_cache_count s) (zlen (conversation s))) as [Hlt|Hge].
      * unfold select_last. set (s1 := messenger_refresh_chat_window _ _). destruct (refresh_window (msngr_chat_window_start s + 1) (touched now s) ltac:(lia) Hl (wo_cache s Hw)) as (_ & _ & Hcc & _).
        fold s1 in Hcc. change (conversation (touched now s)) with (conversation s) in Hcc. unfold last_start, MSNGR_PEER_MAX_MSG_ROWS in *.
        assert (Hc5 : msngr_chat_cache_count s1 = 5) by lia. rewrite Hc5. change (u8 (5 - 1)) with 4. cbn [Z.ltb Z.compare].
        eapply moved_to; [apply (Hj (msngr_chat_window_start s + 1) 4); lia|positions].
      * eapply moved_to; [exact Hkeep|positions].
Qed.
Lemma enter_same x sel s : (messenger_refresh_chat_window x (msngr_chat_enter_browsing s)) <| msngr_chat_sel := sel |> = (messenger_refresh_chat_window x s) <| msngr_chat_sel := sel |>.
Proof. unfold msngr_chat_enter_browsing. destruct (negb _); [reflexivity|]. now destruct (0 <? _). Qed.
Lemma to_last x none now s : window_ok s -> conversation s <> [] -> browsing s -> 0 <= x ->
  let start := Z.min x (last_start (zlen (conversation s))) in
  moved s (select_last none (messenger_refresh_chat_window x (touched now s))) (start, Some (Z.min (start + MSNGR_PEER_MAX_MSG_ROWS - 1) (zlen (conversation s) - 1))) /\
  select_last none (messenger_refresh_chat_window x (msngr_chat_enter_browsing (touched now s))) = select_last none (messenger_refresh_chat_window x (touched now s)).
Proof.
  intros Hw Hne Hb Hx start.
  assert (Hp : 0 < zlen (conversation s)) by (destruct (conversation s); [congruence|unfold zlen; cbn; lia]).
  destruct (refresh_window x (touched now s) Hx (wo_len s Hw) (wo_cache s Hw)) as (_ & _ & Hcc & _). change (conversation (touched now s)) with (conversation s) in Hcc.
  unfold MSNGR_PEER_MAX_MSG_ROWS in *. split.
  - unfold select_last. set (s1 := messenger_refresh_chat_window x (touched now s)) in *. rewrite Hcc, (proj2 (Z.ltb_lt 0 _)), u8_id by (unfold is_u8; lia).
    eapply moved_to; [apply (jump x (Z.min 5 (zlen (conversation s)) - 1) now s); [exact Hw|exact Hb|exact Hx|unfold MSNGR_PEER_MAX_MSG_ROWS; lia]|].
    fold start. cbv zeta. f_equal. f_equal. unfold start, last_start, MSNGR_PEER_MAX_MSG_ROWS. lia.
  - unfold select_last. unfold msngr_chat_enter_browsing. destruct (negb _); [reflexivity|]. destruct (0 <? msngr_chat_cache_count (touched now s)); reflexivity.
Qed.
Lemma key_moves k now s : window_ok s -> conversation s <> [] -> browsing s ->
  moved s (fst (blekbd_chat_key (key_code k) now s)) (browse (zlen (conversation s)) k (position s)).
Proof.
  intros Hw Hne Hb. rewrite chat_key by exact Hb. pose proof (wo_start s Hw) as Hst. pose proof (wo_len s Hw) as Hl.
  assert (Hp : 0 < zlen (conversation s)) by (destruct (conversation s); [congruence|unfold zlen; cbn; lia]).
  destruct k; [exact (up_down_moves KeyUp now s (or_introl eq_refl) Hw Hne Hb)|exact (up_down_moves KeyDown now s (or_intror eq_refl) Hw Hne Hb)|..]; unfold position.
  - unfold msngr_chat_nav_page_up. cbv zeta. rewrite enter_same.
    assert (Ew : msngr_chat_window_start (msngr_chat_enter_browsing (touched now s)) = msngr_chat_window_start s)
      by (unfold msngr_chat_enter_browsing; destruct (negb _); [reflexivity|]; now destruct (0 <? _)).
    rewrite Ew. unfold MSNGR_CHAT_PAGE_ROWS. eapply moved_to; [apply jump; [exact Hw|exact Hb|destruct (Z.ltb_spec 4 (msngr_chat_window_start s)); lia|unfold MSNGR_PEER_MAX_MSG_ROWS; lia]|].
    destruct (Z.ltb_spec 4 (msngr_chat_window_start s)); positions.
  - unfold msngr_chat_nav_page_down.
    assert (Ew : msngr_chat_window_start (msngr_chat_enter_browsing (touched now s)) = msngr_chat_window_start s)
      by (unfold msngr_chat_enter_browsing; destruct (negb _); [reflexivity|]; now destruct (0 <? _)).
    rewrite Ew, u32_id by (unfold last_start, MSNGR_PEER_MAX_MSG_ROWS, MSNGR_CHAT_PAGE_ROWS in *; lia).
    destruct (to_last (msngr_chat_window_start s + MSNGR_CHAT_PAGE_ROWS) 0 now s Hw Hne Hb ltac:(unfold MSNGR_CHAT_PAGE_ROWS; lia)) as [Hm ->].
    eapply moved_to; [exact Hm|reflexivity].
  - unfold msngr_chat_nav_home. eapply moved_to; [apply (jump 0 0); [exact Hw|exact Hb|lia|unfold MSNGR_PEER_MAX_MSG_ROWS; lia]|positions].
  - unfold msngr_chat_nav_end. destruct (to_last SIZE_MAX 0xFF now s Hw Hne Hb ltac:(unfold SIZE_MAX; lia)) as [Hm _].
    eapply moved_to; [exact Hm|]. unfold SIZE_MAX. positions.
Qed.

(** What the selection stands on. *)
Lemma selected_row s m : window_ok s -> snd (position s) = Some m ->
  msngr_chat_cache s !! Z.to_nat (msngr_chat_sel s) = chat_row <$> conversation s !! Z.to_nat m.
Proof.
  intros Hw. unfold position. cbn [snd]. destruct (Z.eqb_spec (msngr_chat_sel s) 0xFF) as [|Hn]; [discriminate|]. intros [= <-].
  destruct (wo_sel s Hw) as [Hs|Hs]; [congruence|]. exact (wo_rows s Hw _ Hs).
Qed.

(** C36. The keys browse the whole conversation.  In a chat that shows a conversation, any
    browsing keys in any order keep the window a piece of the conversation - its messages
    in their order, as many as fit - and move the selection as they are meant to: up and
    down by one message with the window following only when it must, by pages, and to the
    first and the last message; and the row that is selected is that message. *)
(* @prop refinement W=chat_browses_conversation_witness D=blekbd_chat_key,messenger_refresh_chat_window,msngr_chat_nav_up,msngr_chat_nav_down,msngr_chat_nav_page_up,msngr_chat_nav_page_down *)
Theorem chat_browses_conversation keys s : window_ok s -> browsing s -> conversation s <> [] ->
  let s' := press keys s in
  window_ok s' /\ conversation s' = conversation s /\
  position s' = foldl (fun p '(k, _) => browse (zlen (conversation s)) k p) (position s) keys /\
  forall m, snd (position s') = Some m -> msngr_chat_cache s' !! Z.to_nat (msngr_chat_sel s') = chat_row <$> conversation s !! Z.to_nat m.
Proof.
  intros Hw Hb Hne. cbv zeta.
  assert (P : moved s (press keys s) (foldl (fun p '(k, _) => browse (zlen (conversation s)) k p) (position s) keys)).
  { induction keys as [|[k now] keys IH] using rev_ind; [now constructor|]. unfold press in *. rewrite !foldl_app. cbn [foldl].
    destruct IH as [H1 H2 H3 H4]. rewrite <- H4. destruct (key_moves k now _ H1 ltac:(congruence) H3) as [H5 H6 H7 H8].
    constructor; [exact H5|congruence|exact H7|]. now rewrite H8, H2. }
  destruct P as [H1 H2 H3 H4]. split; [exact H1|]. split; [exact H2|]. split; [exact H4|]. intros m Hm. rewrite (selected_row _ _ H1 Hm). now rewrite H2.
Qed.

(** Opening the chat shows the end of the conversation. *)
Lemma open_window conv s : zlen conv <= 256 -> length (msngr_chat_cache s) = 5%nat ->
  window_ok (open_chat conv s) /\ browsing (open_chat conv s) /\ position (open_chat conv s) = (last_start (zlen conv), None).
Proof.
  intros Hl Hc. unfold open_chat. set (s1 := s <| conversation := conv |> <| chat_text := _ |> <| msngr_chat_cursor := 0 |> <| msngr_chat_sel := 0xFF |>
    <| msngr_chat_delete_confirm_pending := false |> <| msngr_msg_view_active := false |>).
  destruct (refresh_window SIZE_MAX s1 ltac:(unfold SIZE_MAX; lia) Hl Hc) as (_ & E & _ & Hw & _).
  split; [apply Hw; reflexivity|]. split; [split; reflexivity|]. unfold position. rewrite E. cbn [msngr_chat_sel]. change (conversation s1) with conv.
  pose proof (zlen_nonneg conv). rewrite Z.min_r by (unfold SIZE_MAX, last_start, MSNGR_PEER_MAX_MSG_ROWS; lia). reflexivity.
Qed.

(** ** New messages *)

Lemma keep_new h conv : h ∉ conv -> (length conv <= RETAINED_MESSAGES_PER_CONVERSATION)%nat ->
  keep_message h conv = drop (length conv + 1 - RETAINED_MESSAGES_PER_CONVERSATION) conv ++ [h].
Proof.
  intros Hn Hl. unfold keep_message. cbv zeta. rewrite (bool_decide_eq_false_2 (h ∈ conv)) by exact Hn.
  change (trim_conversation_to_retention 1 conv) with (drop (length conv + 1 - RETAINED_MESSAGES_PER_CONVERSATION) conv).
  set (kept := drop (length conv + 1 - RETAINED_MESSAGES_PER_CONVERSATION) conv).
  rewrite (bool_decide_eq_false_2 (h ∈ kept)).
  2: { intros Hin. apply Hn. rewrite <- (take_drop (length conv + 1 - RETAINED_MESSAGES_PER_CONVERSATION) conv). apply elem_of_app. now right. }
  unfold trim_conversation_to_retention. rewrite length_app. cbn [length].
  replace (length kept + 1 + 0 - RETAINED_MESSAGES_PER_CONVERSATION)%nat with O; [reflexivity|]. unfold kept. rewrite length_drop. unfold RETAINED_MESSAGES_PER_CONVERSATION in *. lia.
Qed.

(** A new message is seen, until the conversation is full.  While the store keeps
    fewer than fifty messages of the peer, one that arrives is on the last row of the
    window after the next redraw.  A redraw looks only at how many there are: from the
    fiftieth on the oldest makes room for the newest, the number stays, and the window goes
    on showing what it showed. *)
Theorem new_message_shown h now s : window_ok s -> h ∉ conversation s -> (length (conversation s) <= RETAINED_MESSAGES_PER_CONVERSATION)%nat ->
  let s' := redraw_chat now (s <| conversation ::= keep_message h |>) in
  last (conversation s') = Some h /\
  if decide (length (conversation s) < RETAINED_MESSAGES_PER_CONVERSATION)%nat
  then window_ok s' /\ msngr_chat_cache s' !! Z.to_nat (msngr_chat_cache_count s' - 1) = Some (chat_row h)
  else msngr_chat_cache s' = msngr_chat_cache s /\ msngr_chat_window_start s' = msngr_chat_window_start s.
Proof.
  intros Hw Hn Hl. cbv zeta. set (s1 := s <| conversation ::= keep_message h |>). pose proof (wo_total s Hw) as Ht.
  assert (Hk : conversation s1 = drop (length (conversation s) + 1 - RETAINED_MESSAGES_PER_CONVERSATION) (conversation s) ++ [h]) by now apply keep_new.
  assert (Hc : forall s0, conversation (redraw_chat now s0) = conversation s0).
  { intros s0. unfold redraw_chat, messenger_refresh_chat_window_if_stale. destruct (negb (zlen _ =? _)); cbv zeta; now destruct (_ && _). }
  rewrite Hc, Hk, last_snoc. split; [reflexivity|]. unfold redraw_chat, messenger_refresh_chat_window_if_stale.
  change (msngr_chat_total_count s1) with (msngr_chat_total_count s). rewrite Ht, Hk. case_decide as Hd.
  - assert (Hz : zlen (drop (length (conversation s) + 1 - RETAINED_MESSAGES_PER_CONVERSATION) (conversation s) ++ [h]) = zlen (conversation s) + 1).
    { unfold zlen. rewrite length_app, length_drop. cbn [length]. lia. }
    rewrite Hz, (proj2 (Z.eqb_neq (zlen (conversation s) + 1) (zlen (conversation s)))) by lia. cbn [negb]. cbv zeta.
    destruct (refresh_window SIZE_MAX s1 ltac:(unfold SIZE_MAX; lia)) as (_ & Es & Ec & _ & _).
    { rewrite Hk, Hz. unfold zlen, RETAINED_MESSAGES_PER_CONVERSATION in *. lia. } { exact (wo_cache s Hw). }
    set (s2 := messenger_refresh_chat_window SIZE_MAX s1) in *.
    assert (Hw2 : window_ok (s2 <| msngr_chat_sel := 0xFF |>)).
    { change (s2 <| msngr_chat_sel := 0xFF |>) with (messenger_refresh_chat_window SIZE_MAX (s1 <| msngr_chat_sel := 0xFF |>)).
      apply refresh_window; [unfold SIZE_MAX; lia| |exact (wo_cache s Hw)|reflexivity].
      change (conversation (s1 <| msngr_chat_sel := 0xFF |>)) with (conversation s1). rewrite Hk, Hz. unfold zlen, RETAINED_MESSAGES_PER_CONVERSATION in *. lia. }
    change (msngr_chat_sel (s2 <| msngr_chat_sel := 0xFF |>)) with 0xFF. cbn [negb andb Z.eqb Pos.eqb]. split; [exact Hw2|].
    change (msngr_chat_cache_count (s2 <| msngr_chat_sel := 0xFF |>)) with (msngr_chat_cache_count s2).
    pose proof (zlen_nonneg (conversation s)) as Hp.
    rewrite (wo_rows _ Hw2) by (change (msngr_chat_cache_count (s2 <| msngr_chat_sel := 0xFF |>)) with (msngr_chat_cache_count s2); rewrite Ec, Hk, Hz; unfold MSNGR_PEER_MAX_MSG_ROWS; lia).
    change (conversation (s2 <| msngr_chat_sel := 0xFF |>)) with (conversation s1). change (msngr_chat_window_start (s2 <| msngr_chat_sel := 0xFF |>)) with (msngr_chat_window_start s2).
    rewrite Es, Ec, Hk, Hz. replace (Z.to_nat _) with (length (drop (length (conversation s) + 1 - RETAINED_MESSAGES_PER_CONVERSATION) (conversation s))).
    + now rewrite list_lookup_middle.
    + rewrite length_drop. unfold last_start, SIZE_MAX, MSNGR_PEER_MAX_MSG_ROWS, zlen, RETAINED_MESSAGES_PER_CONVERSATION in *. lia.
  - assert (Hz : zlen (drop (length (conversation s) + 1 - RETAINED_MESSAGES_PER_CONVERSATION) (conversation s) ++ [h]) = zlen (conversation s)).
    { unfold zlen. rewrite length_app, length_drop. cbn [length]. unfold RETAINED_MESSAGES_PER_CONVERSATION in *. lia. }
    rewrite Hz, Z.eqb_refl. cbn [negb]. cbv zeta. now destruct (_ && _).
Qed.
End Browse.

(** ** Witnesses *)

(** A store of messages that all read "A", and a conversation of [n] of them. *)
#[local] Instance letters : Metadata := { load_message_metadata := fun _ => Some ([65], true, 0) }.
Definition messages (n : nat) : list (list Z) := map (fun i => [Z.of_nat i]) (seq 0 n).
Lemma opened (n : nat) : (n <= 256)%nat -> let s := open_chat (messages n) (chat0 []) in window_ok s /\ browsing s.
Proof.
  intros Hn. cbv zeta. destruct (open_window (messages n) (chat0 [])) as (H1 & H2 & _); [|reflexivity|now split].
  unfold zlen, messages. rewrite length_map, length_seq. lia.
Qed.
Lemma fresh n : (n <= 99)%nat -> [99] ∉ messages n.
Proof. intros Hn. unfold messages. rewrite list_elem_of_fmap. intros (i & Ei & [_ Hi]%elem_of_seq). injection Ei. lia. Qed.
(** Six messages up from the end of seven, a page down, and home. *)
Lemma chat_browses_conversation_witness :
  let s := open_chat (messages 7) (chat0 []) in
  position (press (repeat (KeyUp, 5) 6 ++ [(KeyPageDown, 6); (KeyHome, 7)]) s) = (0, Some 0) /\
  position (press (repeat (KeyUp, 5) 6) s) = (1, Some 1).
Proof.
  cbv zeta. set (s := open_chat (messages 7) (chat0 [])).
  destruct (opened 7 ltac:(lia)) as [Hw Hb].
  pose proof (chat_browses_conversation (repeat (KeyUp, 5) 6 ++ [(KeyPageDown, 6); (KeyHome, 7)]) s Hw Hb ltac:(discriminate)) as (_ & _ & -> & _).
  split; vm_compute; reflexivity.
Defined.
(** The fiftieth message is shown, the fifty-first is not. *)
Lemma new_message_shown_witness :
  let s := open_chat (messages 49) (chat0 []) in let t := open_chat (messages 50) (chat0 []) in
  msngr_chat_cache (redraw_chat 0 (s <| conversation ::= keep_message [99] |>)) !! 4%nat = Some (mk_row [99] [65] true) /\
  last (conversation (redraw_chat 0 (t <| conversation ::= keep_message [99] |>))) = Some [99] /\
  msngr_chat_cache (redraw_chat 0 (t <| conversation ::= keep_message [99] |>)) = msngr_chat_cache t.
Proof.
  cbv zeta.
  pose proof (new_message_shown [99] 0 _ (proj1 (opened 49 ltac:(lia))) (fresh 49 ltac:(lia)) ltac:(vm_compute; lia)) as (_ & H1).
  pose proof (new_message_shown [99] 0 _ (proj1 (opened 50 ltac:(lia))) (fresh 50 ltac:(lia)) ltac:(vm_compute; lia)) as (H2 & H3).
  split; [exact (proj2 H1)|]. split; [exact H2|exact (proj1 H3)].
Defined.
