(* ===== verification/ChatLine.v ===== *)
(** * The line below the conversation

    The keys that edit it insert and remove in the middle of a buffer of characters that a
    zero ends, by shifting what is behind the cursor; they do what an editor of a text
    before and a text behind the cursor does. *)
From Stdlib Require Import String.
From S2P Require Import Prelude HidKeyboard Keyboard Contacts ContactsBook Chat ChatBrowse.
From stdpp Require Import list.
#[local] Open Scope Z_scope.

(** ** The loops *)

Lemma shift_up_spec m : forall p x r, shift_up (length m) (length p + length m) (p ++ m ++ x :: r) = p ++ hd 0 (m ++ [x]) :: m ++ r.
Proof.
  induction m as [|y m IH] using rev_ind; intros p x r; [cbn; reflexivity|].
  rewrite length_app. replace (length m + length [y])%nat with (S (length m)) by (cbn; lia). cbn [shift_up].
  replace (length p + S (length m) - 1)%nat with (length p + length m)%nat by lia.
  replace (p ++ (m ++ [y]) ++ x :: r) with ((p ++ m) ++ y :: x :: r) by (now rewrite <- !app_assoc).
  rewrite (list_lookup_middle _ _ y) by (rewrite length_app; lia). change (default 0 (Some y)) with y.
  replace (length p + S (length m))%nat with (length ((p ++ m) ++ [y]) + 0)%nat by (rewrite !length_app; cbn; lia).
  replace ((p ++ m) ++ y :: x :: r) with (((p ++ m) ++ [y]) ++ x :: r) by (now rewrite <- app_assoc).
  rewrite insert_app_r. cbn [insert list_insert]. 
  rewrite <- !app_assoc. cbn [app].
  rewrite (IH p y (y :: r)).
  f_equal. now destruct m.
Qed.
Lemma close_up_spec m : forall p x r, close_up (length m) (length p) (p ++ x :: m ++ r) = p ++ m ++ List.last (x :: m) 0 :: r.
Proof.
  induction m as [|y m IH]; intros p x r; [reflexivity|]. cbn [length close_up app].
  replace (p ++ x :: y :: m ++ r) with ((p ++ [x]) ++ y :: m ++ r) at 1 by (now rewrite <- app_assoc).
  rewrite (list_lookup_middle _ _ y) by (rewrite length_app; cbn; lia). change (default 0 (Some y)) with y.
  rewrite <- (Nat.add_0_r (length p)) at 2. rewrite insert_app_r. cbn [insert list_insert].
  replace (S (length p)) with (length (p ++ [y])) by (rewrite length_app; cbn; lia).
  replace (p ++ y :: y :: m ++ r) with ((p ++ [y]) ++ y :: m ++ r) by (now rewrite <- app_assoc).
  rewrite IH, <- app_assoc. reflexivity.
Qed.

(** A buffer that holds the text [t]. *)
Lemma c_str_at t r : Forall (fun c => c <> 0) t -> c_str (t ++ 0 :: r) = t.
Proof. induction 1 as [|c t Hc _ IH]; [reflexivity|]. cbn [app c_str]. now rewrite (proj2 (Z.eqb_neq _ _) Hc), IH. Qed.

(** ** The editor *)

(** What is before the cursor and what is behind it. *)
Definition line : Type := list Z * list Z.
Inductive edit_key := Type_ (c : Z) | Backspace | GoLeft | GoRight.
Definition edit_code (k : edit_key) : Z :=
  match k with Type_ c => c | Backspace => 8 | GoLeft => BLEKBD_CH_LEFT | GoRight => BLEKBD_CH_RIGHT end.
Definition edit (l : line) (k : edit_key) : line :=
  let '(before, behind) := l in
  match k with
  | Type_ c => if zlen before + zlen behind <? MSNGR_TEXT_ENTRY_MAX_LEN then (before ++ [c], behind) else l
  | Backspace => (removelast before, behind)
  | GoLeft => (removelast before, match last before with Some c => c :: behind | None => behind end)
  | GoRight => (before ++ firstn 1 behind, tl behind)
  end.
(** A key that types a character: none of those the screen takes for itself. *)
Definition types (k : edit_key) : Prop :=
  match k with
  | Type_ c => c ∉ [0; 8; 10; 27; BLEKBD_CH_UP; BLEKBD_CH_DOWN; BLEKBD_CH_LEFT; BLEKBD_CH_RIGHT; BLEKBD_CH_HOME; BLEKBD_CH_END;
                    BLEKBD_CH_PAGE_UP; BLEKBD_CH_PAGE_DOWN; BLEKBD_CH_OPEN_MESSENGER; BLEKBD_CH_OPEN_SETTINGS; BLEKBD_CH_TOGGLE_LANG]
  | _ => True
  end.

Section Line.
Context `{Metadata}.
Implicit Types (s : chat) (l : line).

(** The compose line has the focus, and its buffer and cursor are those of [l]. *)
Record composing s l : Prop := {
  co_browsing : browsing s; co_sel : msngr_chat_sel s = 0xFF;
  co_text : exists r, chat_text s = fst l ++ snd l ++ 0 :: r;
  co_size : length (chat_text s) = 141%nat;
  co_chars : Forall (fun c => c <> 0) (fst l ++ snd l);
  co_cursor : msngr_chat_cursor s = zlen (fst l)
}.
Lemma composing_len s l : composing s l -> text_len s = zlen (fst l) + zlen (snd l) /\ zlen (fst l) + zlen (snd l) <= MSNGR_TEXT_ENTRY_MAX_LEN.
Proof.
  intros [_ _ [r Ht] Hs Hc _]. unfold text_len. rewrite Ht, app_assoc, c_str_at by exact Hc. unfold zlen. rewrite length_app. split; [lia|].
  rewrite Ht, !length_app in Hs. cbn in Hs. unfold MSNGR_TEXT_ENTRY_MAX_LEN. lia.
Qed.
(** What the dispatcher does with such a key. *)
Lemma edit_dispatch k now s : browsing s -> msngr_chat_sel s = 0xFF -> types k -> blekbd_chat_key (edit_code k) now s =
  (match k with Type_ c => msngr_chat_insert_char c s | Backspace => msngr_chat_backspace s | GoLeft => msngr_chat_cursor_left s | GoRight => msngr_chat_cursor_right s end, NoCall).
Proof.
  intros [H1 H2] H3 Hk. unfold blekbd_chat_key. rewrite H1, H2, H3. destruct k as [c| | |]; try reflexivity.
  cbn [types edit_code] in *. rewrite !not_elem_of_cons in Hk. destruct_and! Hk.
  repeat rewrite (proj2 (Z.eqb_neq c _)) by assumption. cbn [negb Z.eqb Pos.eqb is_one_of existsb].
  repeat rewrite (proj2 (Z.eqb_neq c _)) by assumption. reflexivity.
Qed.
Lemma composing_to s s' l l' : composing s l -> browsing s' -> msngr_chat_sel s' = 0xFF -> (exists r, chat_text s' = fst l' ++ snd l' ++ 0 :: r) ->
  length (chat_text s') = length (chat_text s) -> Forall (fun c => c <> 0) (fst l' ++ snd l') -> msngr_chat_cursor s' = zlen (fst l') -> composing s' l'.
Proof. intros [] ????? ?. constructor; try assumption. congruence. Qed.
Lemma close_up_length n : forall i buf, length (close_up n i buf) = length buf.
Proof. induction n; intros; cbn [close_up]; [reflexivity|]. now rewrite IHn, length_insert. Qed.
Lemma shift_up_length n : forall i buf, length (shift_up n i buf) = length buf.
Proof. induction n; intros; cbn [shift_up]; [reflexivity|]. now rewrite IHn, length_insert. Qed.

Lemma insert_edits c s l : types (Type_ c) -> composing s l -> composing (msngr_chat_insert_char c s) (edit l (Type_ c)).
Proof.
  intros Hc Hl. destruct (composing_len s l Hl) as [Hn Hm]. pose proof Hl as [Hb Hsel [r Ht] Hsz Hch Hcu]. destruct l as [p q]. cbn [fst snd edit] in *.
  unfold msngr_chat_insert_char. rewrite Hn, Hcu. destruct (Z.leb_spec MSNGR_TEXT_ENTRY_MAX_LEN (zlen p + zlen q)).
  { now rewrite (proj2 (Z.ltb_ge _ _)) by lia. }
  pose proof (zlen_nonneg p). pose proof (zlen_nonneg q). unfold MSNGR_TEXT_ENTRY_MAX_LEN in *.
  rewrite (proj2 (Z.ltb_lt _ 140)) by lia. rewrite (proj2 (Z.ltb_ge (zlen p + zlen q) _)) by lia. cbv zeta.
  destruct r as [|y r]. { rewrite Ht, !length_app in Hsz. cbn in Hsz. unfold zlen in *. lia. }
  assert (Hbuf : shift_up (Z.to_nat (zlen p + zlen q + 1 - zlen p)) (Z.to_nat (zlen p + zlen q + 1)) (chat_text s) = p ++ hd 0 ((q ++ [0]) ++ [y]) :: (q ++ [0]) ++ r).
  { rewrite <- shift_up_spec, Ht. f_equal; rewrite ?length_app; cbn [length]; unfold zlen; [lia|lia|]. now rewrite <- app_assoc. }
  rewrite Hbuf. apply (composing_to s _ _ _ Hl); [exact Hb|exact Hsel|..]; cbn [fst snd chat_text msngr_chat_cursor].
  - exists r. replace (Z.to_nat (zlen p)) with (length p + 0)%nat by (unfold zlen; lia). rewrite insert_app_r. cbn [insert list_insert]. now rewrite <- !app_assoc.
  - etransitivity; [apply length_insert|]. rewrite <- Hbuf. apply shift_up_length.
  - rewrite <- app_assoc. cbn [types] in Hc. apply Forall_app in Hch as [Hp Hq]. apply Forall_app. split; [exact Hp|].
    constructor; [|exact Hq]. intros ->. now apply Hc; left.
  - rewrite u8_id by (unfold is_u8; lia). unfold zlen. rewrite length_app. cbn. lia.
Qed.
Lemma backspace_edits s l : composing s l -> composing (msngr_chat_backspace s) (edit l Backspace).
Proof.
  intros Hl. destruct (composing_len s l Hl) as [Hn Hm]. pose proof Hl as [Hb Hsel [r Ht] Hsz Hch Hcu]. destruct l as [p q]. cbn [fst snd edit] in *.
  unfold msngr_chat_backspace. rewrite Hcu. destruct p as [|x p _] using rev_ind; [exact Hl|]. rewrite removelast_last.
  assert (Hz : zlen (p ++ [x]) = zlen p + 1) by (unfold zlen; rewrite length_app; cbn; lia). rewrite Hz in *. pose proof (zlen_nonneg p). pose proof (zlen_nonneg q).
  rewrite (proj2 (Z.eqb_neq _ _)) by lia. cbv zeta. rewrite Hn. unfold MSNGR_TEXT_ENTRY_MAX_LEN in *.
  apply (composing_to s _ _ _ Hl); [exact Hb|exact Hsel|..]; cbn [fst snd chat_text msngr_chat_cursor].
  - exists (0 :: r). replace (Z.to_nat _) with (length (q ++ [0])) by (rewrite length_app; cbn; unfold zlen; lia). replace (Z.to_nat _) with (length p) by (unfold zlen; lia).
    change (close_up (length (q ++ [0])) (length p) (chat_text s) = p ++ q ++ 0 :: 0 :: r).
    rewrite Ht. replace ((p ++ [x]) ++ q ++ 0 :: r) with (p ++ x :: (q ++ [0]) ++ r) by (now rewrite <- !app_assoc).
    rewrite close_up_spec. replace (List.last (x :: q ++ [0]) 0) with 0; [now rewrite <- app_assoc|]. now rewrite app_comm_cons, List.last_last.
  - apply close_up_length.
  - rewrite <- app_assoc in Hch. apply Forall_app in Hch as [Hp Hq]. inversion Hq; subst. apply Forall_app. now split.
  - etransitivity; [apply u8_id; unfold is_u8; lia|cbn [fst snd]; lia].
Qed.
Lemma arrows_edit s l k : k = GoLeft \/ k = GoRight -> composing s l ->
  composing (match k with GoLeft => msngr_chat_cursor_left s | _ => msngr_chat_cursor_right s end) (edit l k).
Proof.
  intros Hk Hl. destruct (composing_len s l Hl) as [Hn Hm]. pose proof Hl as [Hb Hsel [r Ht] Hsz Hch Hcu]. destruct l as [p q]. cbn [fst snd] in *.
  pose proof (zlen_nonneg p). pose proof (zlen_nonneg q). unfold MSNGR_TEXT_ENTRY_MAX_LEN in *. destruct Hk as [-> | ->]; cbn [edit].
  - unfold msngr_chat_cursor_left. rewrite Hcu. destruct p as [|x p _] using rev_ind; [exact Hl|]. rewrite removelast_last, last_snoc.
    assert (Hz : zlen (p ++ [x]) = zlen p + 1) by (unfold zlen; rewrite length_app; cbn; lia). pose proof (zlen_nonneg p). rewrite Hz in *. rewrite (proj2 (Z.ltb_lt 0 _)) by lia.
    apply (composing_to s _ _ _ Hl); [exact Hb|exact Hsel|..]; cbn [fst snd chat_text msngr_chat_cursor].
    + exists r. etransitivity; [exact Ht|]. now rewrite <- app_assoc.
    + reflexivity.
    + now rewrite <- app_assoc in Hch.
    + etransitivity; [apply u8_id; unfold is_u8; lia|cbn [fst snd]; lia].
  - unfold msngr_chat_cursor_right. rewrite Hn, Hcu. destruct q as [|x q]; cbn [firstn tl].
    { rewrite app_nil_r, (proj2 (Z.ltb_ge _ _)) by (unfold zlen; cbn; lia). exact Hl. }
    assert (Hz : zlen (x :: q) = zlen q + 1) by (unfold zlen; cbn; lia). pose proof (zlen_nonneg q). rewrite (proj2 (Z.ltb_lt _ _)) by lia.
    apply (composing_to s _ _ _ Hl); [exact Hb|exact Hsel|..]; cbn [fst snd chat_text msngr_chat_cursor].
    + exists r. etransitivity; [exact Ht|]. now rewrite <- app_assoc.
    + reflexivity.
    + now rewrite <- app_assoc.
    + etransitivity; [apply u8_id; unfold is_u8; lia|]. cbn [fst]. unfold zlen. rewrite length_app. change (take 0 q) with (@nil Z). cbn [length]. lia.
Qed.
Lemma key_edits k now s l : types k -> composing s l -> composing (fst (blekbd_chat_key (edit_code k) now s)) (edit l k).
Proof.
  intros Hk Hl. rewrite edit_dispatch by (try exact Hk; apply Hl). cbn [fst]. destruct k as [c| | |].
  - now apply insert_edits.
  - now apply backspace_edits.
  - exact (arrows_edit s l GoLeft (or_introl eq_refl) Hl).
  - exact (arrows_edit s l GoRight (or_intror eq_refl) Hl).
Qed.

(** C37. The compose line is an editor.  Characters, backspaces and arrows in any order
    make of the buffer and the cursor what they make of a text before and a text behind a
    cursor: a character goes in where the cursor is while there are fewer than 140, a
    backspace takes the one before it, and the text the buffer holds is the two together,
    which never leaves the buffer. *)
(* @prop refinement W=compose_line_edits_witness D=blekbd_chat_key,msngr_chat_insert_char,msngr_chat_backspace,msngr_chat_cursor_left,msngr_chat_cursor_right,shift_up,close_up *)
Theorem compose_line_edits keys s l : composing s l -> Forall (fun '(k, _) => types k) keys ->
  let s' := foldl (fun s '(k, now) => fst (blekbd_chat_key (edit_code k) now s)) s keys in
  let l' := foldl (fun l '(k, _) => edit l k) l keys in
  composing s' l' /\ c_str (chat_text s') = fst l' ++ snd l' /\ zlen (c_str (chat_text s')) <= MSNGR_TEXT_ENTRY_MAX_LEN.
Proof.
  intros Hl Hk. cbv zeta. assert (P : forall keys s l, composing s l -> Forall (fun '(k, _) => types k) keys ->
    composing (foldl (fun s '(k, now) => fst (blekbd_chat_key (edit_code k) now s)) s keys) (foldl (fun l '(k, _) => edit l k) l keys)).
  { clear. induction keys as [|[k now] keys IH]; intros s l Hl Hk; [exact Hl|]. inversion Hk; subst. cbn [foldl]. apply IH; [|assumption]. now apply key_edits. }
  specialize (P keys s l Hl Hk). split; [exact P|]. destruct (composing_len _ _ P) as [H1 H2]. unfold text_len in H1. rewrite H1. split; [|exact H2].
  destruct P as [_ _ [r ->] _ Hch _]. now rewrite app_assoc, c_str_at.
Qed.
Lemma open_composing conv s : zlen conv <= 256 -> length (msngr_chat_cache s) = 5%nat -> length (chat_text s) = 141%nat -> composing (open_chat conv s) ([], []).
Proof.
  intros Hl Hc Ht. destruct (open_window conv s Hl Hc) as (_ & Hb & _). constructor; [exact Hb|reflexivity| |cbn; rewrite length_drop; lia|constructor|reflexivity].
  exists (drop 1 (chat_text s)). reflexivity.
Qed.
End Line.

(** "ab", one to the left, "c", and a backspace after "d" at the end. *)
Lemma compose_line_edits_witness :
  let keys := [(Type_ 97, 0); (Type_ 98, 1); (GoLeft, 2); (Type_ 99, 3); (GoRight, 4); (Type_ 100, 5); (Backspace, 6)] in
  c_str (chat_text (foldl (fun s '(k, now) => fst (blekbd_chat_key (H := letters) (edit_code k) now s)) (open_chat (H := letters) [] (chat0 [])) keys)) = [97; 99; 98].
Proof.
  cbv zeta. pose proof (open_composing (H := letters) [] (chat0 []) ltac:(vm_compute; discriminate) eq_refl eq_refl) as Ho.
  edestruct (compose_line_edits (H := letters) [(Type_ 97, 0); (Type_ 98, 1); (GoLeft, 2); (Type_ 99, 3); (GoRight, 4); (Type_ 100, 5); (Backspace, 6)] _ _ Ho) as (_ & -> & _).
  - repeat constructor; cbn [types]; rewrite !not_elem_of_cons; repeat split; try discriminate; apply not_elem_of_nil.
  - reflexivity.
Defined.

(** Home in a chat that has no message selects its first row all the same, and Enter then
    opens the message that row last showed, of another conversation. *)
Example empty_home_opens_stale :
  let s := open_chat (H := letters) [] (open_chat (H := letters) [[7]] (chat0 [])) in
  let s := fst (blekbd_chat_key (H := letters) BLEKBD_CH_HOME 0 s) in
  conversation s = [] /\ msngr_chat_cache_count s = 0 /\ msngr_chat_sel s = 0 /\ msngr_msg_view_hash (fst (blekbd_chat_key (H := letters) 10 0 s)) = [7].
Proof. vm_compute. repeat split. Qed.
